(* ===== verification/_CoqProject ===== *)
-Q . S2P
Prelude.v
CMem.v
Wire.v
Packet.v
Publish.v
Connect.v
Subscribe.v
Unsubscribe.v
Transport.v
Topic.v
Platform.v
Client.v
ClientSpec.v
Format.v
Linux.v
PahoClient.v
PahoSpec.v
PahoCommands.v
PahoSession.v
PahoInvariant.v
IpStack.v
PahoHandler.v
PahoHandlerSpec.v
PahoExamples.v
HandlerExamples.v
SnSocket.v
Serial.v
SerialSpec.v
Telnet.v
Udp.v
UdpSpec.v
Tcp.v
TcpSpec.v
TcpMany.v
TcpManySpec.v
Ble.v
BleSpec.v
BleScan.v
BleScanSpec.v
System.v
Logger.v
Ringbuf.v
Queue.v
Att.v
AttSpec.v
BleConnection.v
BleConnectionSpec.v
BleOld.v
BleOldSpec.v
Persist.v
Card.v
Registry.v
PersistSpec.v
PersistData.v
PersistUse.v
PersistCounts.v
PersistConfig.v
Ecc.v
EccSpec.v
EccKeys.v
Ad.v
AdSpec.v
