(* ===== verification/Prelude.v ===== *)
(** * Verification of the linux-mqtt-sn-gateway

    The gateway connects MQTT-SN devices to an MQTT broker.  Its MQTT side is the
    embedded C client under [src/Implementation/paho/pahomqttembeddedc]: a library
    that writes and reads packets ([MQTTPacket/src]) and two clients built on it, in C
    ([MQTTClient-C/src]) and in C++ ([MQTTClient/src]).  The gateway uses the second, through
    [PahoMqttMessageHandler].  What the gateway knows about its MQTT-SN clients it keeps in
    files, through [LinuxPersistent].  MQTT-SN messages come and go through one of five
    sockets, chosen when the gateway is built: over UDP, over TCP, over a serial line or
    telnet to a bridge, or over Bluetooth Low Energy.  A second TCP socket and an older
    Bluetooth socket are in the repository and not in the build; the latter uses BlueZ, of which
    the data structures, the attribute protocol, the elliptic curve and advertising are covered.  The
    gateway core, the interfaces of the sockets, libBLE and the Arduino layer (SD card,
    files, [millis]) are submodules whose sources are not in the repository.

    ** The C machine

    - CMem.v: integers are [Z] with the conversions written out; [int] and [size_t] are
      32 bits wide, signed overflow is undefined; plain [char] is signed or not by the
      class [CharAbi], and every theorem holds for both unless it names one.  Memory is a
      map from blocks to byte lists; a load or store outside its block is undefined.  A C
      function that writes memory is a [M mem A], one that only reads it an [option A];
      [None] is undefined behaviour.

    ** MQTT packets

    - Wire.v: the abstract side: packets as byte lists ([enc_publish], [enc_connect],
      ...), the values they carry, and when these are well formed.
    - Packet.v: MQTTPacket.c without the transport: header bit-fields, remaining
      length, characters, integers, strings; MQTTPacket.h: the enumerations.
    - Publish.v: MQTTSerializePublish.c, MQTTDeserializePublish.c.
    - Connect.v: MQTTConnectClient.c, MQTTConnectServer.c, MQTTConnect.h.
    - Subscribe.v: MQTTSubscribeClient.c, MQTTSubscribeServer.c.
    - Unsubscribe.v: MQTTUnsubscribeClient.c, MQTTUnsubscribeServer.c.
    - Transport.v: [MQTTPacket_read] and the state machine [MQTTPacket_readnb], over a
      byte source that is a parameter; what sources
      promise are the classes [BlockingSource], [NbSource] and [EagerSource].
    - Format.v: MQTTFormat.c, packets as text for logs.

    Serializers store exactly the wire format of Wire.v or refuse a buffer
    ([connect_serialize_refines], [publish_serialize_refines]); what they write the
    deserializers read back ([..._roundtrip]).  Parsing arbitrary bodies terminates inside
    the packet ([subscribe_parse_total], [unsubscribe_parse_total],
    [readMQTTLenString_safe]).  [MQTTPacket_readnb] keeps an invariant that relates its
    state to the bytes consumed, so it delivers every packet however it arrives in pieces
    ([readnb_step]) and does so after finitely many calls ([readnb_completes]).  Buffer
    checks that are too weak are stated as the exact lengths at which the code overruns
    ([suback_maxcount], [connack_buffer], ...).

    ** The C client

    - Topic.v: [isTopicMatched] of MQTTClient.c, and which handlers of a table a topic reaches ([receivers]).
    - Platform.v: what both clients ask of network and timer, the class [Platform], and
      what a platform without faults promises, the class [IdealPlatform].
    - Client.v: MQTTClient.c.  [MQTTClient] is the C structure; every function is a
      transformer of [st]: memory, client, platform, and the calls made to message
      handlers so far.
    - ClientSpec.v: the client on a platform without faults,
      its behaviour when reads fail or writes are short, and a simulated platform on
      which the theorems are instantiated.
    - Linux.v: MQTTLinux.c, timers and sockets over a class [Os] of system calls.

    The commands are specified end to end, over the bytes read and written
    ([MQTTConnect_spec], [MQTTPublish_spec], [MQTTSubscribe_spec],
    [MQTTUnsubscribe_spec], [cycle_delivers]); delivery to handlers
    ([deliverMessage_spec]); topic filters ([isTopicMatched_levels]); packet
    identifiers ([packet_ids]); a packet longer than the read buffer
    ([readPacket_overrun]); timers and partial reads ([timers_keep_time],
    [linux_read_assembles]).

    ** The C++ client and the message handler

    - PahoClient.v: MQTTClient.h, the client of the gateway.  [ClientObj] is the object, with
      its arrays in memory; member function [f] is [Client_f], a transformer of memory,
      object, platform and handler calls.
    - PahoSpec.v: the invariant [wf_client] of the object, and a rule for every member
      function below the commands, on a platform without faults.
    - PahoCommands.v: [subscribe], [unsubscribe] and [publish] end to end
      ([Client_subscribe_spec], [Client_unsubscribe_spec], [Client_publish_spec]).
    - PahoSession.v: [connect] ([Client_connect_spec]), sending a kept publish again
      ([Client_connect_resends]), [yield] ([Client_yield_delivers]), and packets longer than
      the read buffer ([long_publish_smuggles]).
    - PahoInvariant.v: what holds on any platform, faults included: no sequence of member
      calls breaks the object ([client_session_in_order]), and a command that fails ends the
      session ([failed_command_ends_session]).
    - IpStack.v: linux.cpp, [IPStack] and [Countdown] over the class [Os] of Linux.v; the class
      [Network] is what the handler asks of it ([ip_read_spec], [IPStack_connect_spec]).
    - PahoHandler.v: PahoMqttMessageHandler.cpp, over the classes [Network] and [Core].
    - PahoHandlerSpec.v: from the configuration of the core to the CONNECT and back
      ([loop_connects]), the address ([setServer_connects]), refusals
      ([refused_rounds_leak]), and messages for the core ([messageArrived_forwards]).
    - PahoExamples.v, HandlerExamples.v: the theorems at concrete clients, networks and cores.

    ** The MQTT-SN sockets

    - SnSocket.v: what the sockets share: the class [MqttSn] of the core, arrays of bytes,
      and addresses of internet sockets as addresses of devices.
    - Serial.v: LinuxSerialSocket.cpp.  [ser] is the object, the line and the core; the class
      [SerialOs] is the line.  Telnet.v: what LinuxTelnetSocket.cpp does otherwise.
    - SerialSpec.v: on a line that loses nothing (class [SerialLaw]: what is still to be read, and the
      traffic so far, in both directions, in its order), the conversations with the
      bridge from end to end: sending ([Serial_send_spec]), asking for a message
      ([Serial_loop_spec]), both together ([bridge_roundtrip]), starting
      ([Serial_begin_spec]); and lines that are too long ([long_line_undefined]).
    - Udp.v, UdpSpec.v: LinuxUdpSocket.cpp over the class [UdpOs]: datagrams to the core
      ([udp_loop_spec]), answers to their senders ([udp_reply_spec]), starting again
      ([udp_reconnect_spec]).
    - Tcp.v, TcpSpec.v: SingleTcpSocket.cpp over the class [TcpOs]: the one client it has
      ([tcp_client_spec]), and sending without one ([tcp_idle_send_spec]).
    - Ble.v: src/Implementation/Ble.  [ble] is what the threads share; a thread of a
      connection is at a [place] of [handleConnection], and [step] is a step of any thread.
    - BleSpec.v: whatever the interleaving, messages keep their order ([ble_in_order]) and a device
      has one session at a time ([one_session_per_device]); addresses as text
      ([mac_roundtrip]); and how a device is lost ([stale_connection_deafens],
      [empty_mac_loses_device], [faulty_device_given_up]).
    - TcpMany.v: TcpSocket.cpp with its acceptor, connections, messages and queue.  [many] is what
      the threads share; [many_run] runs steps of the threads in any order.  TcpManySpec.v: what
      is queued of a stream is what the reference [framed] cuts from it ([many_clients_spec]), and
      what that means for packets that come together or in parts ([joined_packets_dropped],
      [split_packet_dropped], [closed_client_floods]); steps that are defined ([many_step_defined]);
      threads that cannot be stopped ([acceptor_never_ends], [stopped_connection_undefined]).
    - BleScan.v, BleScanSpec.v: Ble_old/Scanner.  Advertising data is cut into fields
      ([read_flags_fields], [eir_name_fields], [advertising_bounds]), and each device is told of once
      ([scanner_reports_once]).
    - BleConnection.v: Connection.cpp and ConnectionCallbacks.cpp of Ble_old/Connect, the observer
      of the state and the callbacks of the main loop; PDUs are decoded by Att.v.
      BleConnectionSpec.v: the handles of a device are found ([descriptors_found]), a connection is
      set up in one order whatever the interleaving ([requests_in_order]), it comes up
      ([connection_comes_up]), or waits for ever ([forgotten_forever], [accepted_too_soon]).
    - BleOld.v: Connector.cpp and BluetoothLowEnergySocket.cpp over both.  BleOldSpec.v: there is
      one connection at most ([at_most_one_connection], [second_device_loses_first]), and what
      becomes of it ([hang_up_then_connect_ends], [close_leaves_pointer]).
    - System.v: LinuxSystem.cpp, time that outlives the counter of [millis]
      ([elapsed_times_sum], [beats_spec]).  Logger.v: LinuxLogger.cpp ([log_by_level]).

    ** Persistence

    - Persist.v: LinuxPersistent.h and LinuxPersistent.cpp.  [pst] is the object; [Sd] is
      the class of card operations, [CoreTypes] the class of types of the gateway core.
      The entries of the files are records with their byte layout ([client_bytes],
      [client_of], ...).
    - Card.v: what a card promises (class [SdOk], over the map of its files), a calculus
      of postconditions ([wp]) with the rules of the card, entries as a class
      ([EntryOk]: decoding inverts encoding), and the rules of the loops over a file.
    - Registry.v: the abstract registry: slots of clients, each with its registrations,
      subscriptions, will and publishes; 35 operations [op] and what they do and return
      ([spec_op]).
    - PersistSpec.v: the relation [rep] between a registry and an object with its card;
      transactions, clients and states implement the registry.  Class [Limits]: a
      capacity below 65535 entries per file and a fuel above it.
    - PersistData.v: the same for wills, registrations, subscriptions and publishes; so
      every sequence of operations does ([registry_refines]); starting up
      ([begin_keeps_clients]); a card in memory on which the theorems are instantiated.
    - PersistUse.v: consequences: pending publishes are all delivered
      ([drain_delivers]), identifiers are the places of entries ([ids_reachable]),
      a registration is found again ([registration_found]), and the entry that
      [remove_publish_by_msg_id] damages ([remove_by_msg_id_overwrites]).
    - PersistCounts.v: MQTT.SUB refines a map from topics to counts ([counts_refine]).
    - PersistConfig.v: numbers on configuration lines ([parse_uint16_line]).

    [remove_publish_by_msg_id], [get_last_client_address], [get_nth_client],
    [is_topic_known], the predefined topics and the readers of the configuration files
    are modelled in Persist.v but are not operations of the abstract registry.

    ** BlueZ

    - Ringbuf.v: shared/ringbuf.c, a bounded queue of bytes ([ringbuf_refines_queue]).
    - Queue.v: shared/queue.c over a heap of entries, which refines lists
      ([queue_refines_list], [queue_remove_all_matching]).
    - Att.v: attrib/att.c, every encoder and decoder of the attribute protocol, with
      the parameters of class [AttLibs].  AttSpec.v: what they write is read back
      ([att_roundtrip], [att_list_roundtrip]), exactly what they write
      ([att_encode_spec]), and a decoder that accepts nothing
      ([prep_write_resp_refused]).

    - Ecc.v: shared/ecc.c, arithmetic of 256 bits in digits of 64, points of P-256, and keys.
      EccSpec.v: digits are numbers; products modulo the prime, with the carries the code misses
      ([vli_mod_mult_fast_spec]), and inverses ([vli_mod_inv_spec]).  EccKeys.v: the functions on
      points return ([ecc_point_mult_returns]), bytes and digits ([native_bytes_native]), and keys
      ([ecc_make_key_spec], [invalid_key_returned], [one_as_three]).  That the formulas on points
      are those of the curve is not proved: with the products as they are they are not, always.

    - Ad.v: shared/ad.c, what a device advertises, over the class [UuidLib] of lib/uuid.h; its queues
      are the lists that Queue.v shows them to be.  AdSpec.v: the bytes are the fields of the
      object, if they fit ([bt_ad_generate_spec]), as the scanner reads them
      ([generated_has_no_name]); each manufacturer has one entry ([add_manufacturer_data_spec]);
      and removals that do not ([remove_uuid_removes_other], [remove_manufacturer_data_undefined]).

    The definitions keep the names of the C functions.  Out-parameters are results
    (a record [..._out] where there are several), and a loop is a [Fixpoint].

    ** Fuel

    The remaining-length loops have five rounds, one more than the code allows.  Loops
    over a packet or a topic run for at most its length, which is their fuel.  The
    client's loops wait for timers, whose end the code does not bound: their fuel is an
    argument, running out of it is undefined, and each theorem gives a fuel with which
    the command returns (two rounds for the QoS 2 handshake of the C client, one otherwise).
    For the C++ client, whose theorems let PUBLISH packets arrive before the answer, it is one
    round more than there are such packets.  [IPStack::read] takes one round per [recv]; after the
    peer has closed no fuel is enough ([ip_read_spec]).  A loop over
    a file of entries takes one round per entry and one for its end, so [Limits] asks for
    more fuel than entries.  The loops of the serial socket that fill a buffer or split it
    end within the 1024 characters there is room for; those that read lines and wait for an answer, which the
    code does not bound, take one round per character, and the theorems ask for as much fuel as there
    are characters to read.  Where an overrun is to be told from a loop that goes on ([read_line], [waitFor]), and for the
    tries of [ecc_make_key], running out of fuel is a value or an outcome of its own, so that neither an overrun nor a
    failure can be proved by it ([long_line_undefined], [ecc_make_key_spec]).  The loops over advertising data go on by at least a byte a round, so one
    round more than there are bytes is enough ([advertising_bounds]).  The loops at the end of a reduction modulo the
    prime run at most 8 times, for a fuel of 16, and the inversion at most 512 times, for 513.

    ** Assumptions

    [int], [long] and [size_t] of 32 bits (on platforms with a wider [size_t] the client stores
    an [int] into half of [payloadlen]); [MQTT_TASK] undefined; message handlers do not
    call back into the client; the payload of a message to publish is not null;
    bit-fields laid out from the least significant bit (the [REVERSED] branches of the
    headers are not modelled); [PERSISTENT_DEBUG] set, as LinuxPersistent.cpp defines it:
    what is logged is left out, but not the numbers printed into arrays that may be too small
    for them ([sprintf_d]), so a duration of ten digits ([registry_refines]) and a count of six
    ([long_count_overruns]) are undefined.  Sockets: a little-endian machine; [exit] is the end of
    the behaviour that is modelled, like an undefined one; [receiveData] of the core is a step of the
    core alone ([MqttSn]): a core that calls [send] from inside it, which would change the socket
    between the two [recvfrom] of one [udp_loop], or in the middle of [tcp_loop] and of the loop of the serial
    socket, is excluded; calls of libBLE throw where a session is closed and nowhere else.  The threads of TcpMany.v and BleConnection.v interleave
    between calls and looks at a shared variable; a callback of GLib is one step.  What the compiler
    puts behind an array ([slack]), whether a wild pointer can be written ([writable]) and whether a
    freed list element still holds its value ([readable]) are parameters.

    ** Not modelled

    The platforms MQTTFreeRTOS.c and MQTTCC3200.c; the thread entry points [MQTTRun] and
    [MQTTStartTask]; [ringbuf_free] and [ringbuf_printf]; the handshake of QoS 2 in MQTTClient.h,
    which MQTTCLIENT_QOS2 leaves out; the wiring of the gateway and its main program; starting,
    stopping and joining the threads of the Bluetooth socket; the rest of BlueZ and gattlib, which are
    third-party code over sockets and D-Bus. *)
From stdpp Require Export base tactics option list list_numbers gmap.
From Stdlib Require Export ZArith Lia.

#[global] Open Scope Z_scope.

(** ** Tactics of the development *)

(** Split conjunctions and close the linear ones. *)
Ltac splits := repeat match goal with |- _ /\ _ => split end.

(** Case analysis on every [decide] and every boolean [Z] comparison of the goal. *)
Ltac zcases :=
  repeat first
    [ case_decide
    | match goal with
      | |- context [ (?a <? ?b)%Z ] => destruct (Z.ltb_spec a b)
      | |- context [ (?a <=? ?b)%Z ] => destruct (Z.leb_spec a b)
      | |- context [ (?a =? ?b)%Z ] => destruct (Z.eqb_spec a b)
      end ]; try lia.

(** Linear arithmetic with divisions by constants. *)
Ltac zdiv := Z.to_euclidean_division_equations; lia.

(** Normalise the lengths of appended, taken and dropped lists. *)
Create Rewrite HintDb len.
#[export] Hint Rewrite @length_app @length_cons @length_nil @length_take @length_drop
  @length_replicate @length_insert Nat2Z.inj_add Nat2Z.inj_succ Nat2Z.inj_sub
  Nat2Z.inj_min Nat2Z.inj_0 Z2Nat.id : len.

Ltac len := repeat (autorewrite with len in *; try lia); try lia.

(** [len] for goals that only need the arithmetic of lengths. *)
Ltac zlen := simpl length in *; rewrite ?length_app, ?length_take, ?length_drop in *; simpl length in *; lia.

(** ** Generic lemmas on integers *)

Lemma Zland_ones_small v w : 0 <= w -> 0 <= v < 2 ^ w -> Z.land v (Z.ones w) = v.
Proof. intros. rewrite Z.land_ones by lia. by apply Z.mod_small. Qed.

(** A number below a power of two, and a multiple of it. *)
Lemma lor_below x y k : 0 <= k -> 0 <= y < 2 ^ k -> Z.lor (x * 2 ^ k) y = x * 2 ^ k + y.
Proof.
  intros Hk Hy. enough (Z.land (x * 2 ^ k) y = 0) as H.
  { by rewrite Z.add_nocarry_lor. }
  apply Z.bits_inj'. intros i Hi. rewrite Z.land_spec, Z.bits_0.
  destruct (Z.ltb_spec i k); [by rewrite Z.mul_pow2_bits_low|].
  replace (Z.testbit y i) with false; [apply andb_false_r|]. symmetry.
  rewrite <- (Z.mod_small y (2 ^ k)) by lia. apply Z.mod_pow2_bits_high. lia.
Qed.

Lemma Zto_nat_add a b : 0 <= a -> 0 <= b -> Z.to_nat (a + b) = (Z.to_nat a + Z.to_nat b)%nat.
Proof. lia. Qed.

(** A computation that gives a value, in whatever state: to be used when the state is large. *)
Lemma fst_Some {A B} (o : option (A * B)) (a : A) : option_map fst o = Some a -> exists b, o = Some (a, b).
Proof. destruct o as [[x b]|]; [|done]. intros [= ->]. by exists b. Qed.

(** A predicate that holds of every element of [seqZ 0 n] holds of every [0 <= x < n];
    used with [vm_compute] to settle facts about single bytes. *)
Lemma byte_forallb (P : Z -> bool) n x :
  forallb P (seqZ 0 n) = true -> 0 <= x < n -> P x = true.
Proof.
  intros HP Hx. rewrite forallb_forall in HP. apply HP.
  apply list_elem_of_In, elem_of_seqZ. lia.
Qed.

(** ** Generic lemmas on lists *)

Lemma take_drop_app_range {A} (l : list A) (i n k : nat) :
  (i + n + k <= length l)%nat ->
  take (n + k) (drop i l) = take n (drop i l) ++ take k (drop (i + n) l).
Proof.
  intros H. rewrite <- drop_drop.
  rewrite <- (take_drop n (take (n + k) (drop i l))) at 1.
  rewrite take_take, Nat.min_l by lia. f_equal.
  rewrite skipn_firstn_comm. f_equal. lia.
Qed.

(** Overwriting a range with [xs ++ ys] is overwriting it with [xs], then, further on, [ys]. *)
Definition splice {A} (l : list A) (i : nat) (xs : list A) : list A :=
  take i l ++ xs ++ drop (i + length xs) l.

Lemma length_splice {A} (l : list A) i xs :
  (i + length xs <= length l)%nat -> length (splice l i xs) = length l.
Proof. intros. unfold splice. rewrite !length_app, length_take, length_drop. lia. Qed.

Lemma splice_app {A} (l : list A) i xs ys :
  (i + length xs + length ys <= length l)%nat ->
  splice l i (xs ++ ys) = splice (splice l i xs) (i + length xs) ys.
Proof.
  intros. unfold splice.
  assert (Hlen : length (take i l ++ xs) = (i + length xs)%nat)
    by (rewrite length_app, length_take; lia).
  rewrite (app_assoc (take i l) xs (drop _ l)), take_app_length' by done.
  rewrite drop_app_ge by lia. rewrite Hlen, drop_drop, length_app.
  rewrite <- !app_assoc. do 3 f_equal. f_equal. lia.
Qed.

Lemma splice_read {A} (l : list A) i xs :
  (i + length xs <= length l)%nat -> take (length xs) (drop i (splice l i xs)) = xs.
Proof.
  intros. unfold splice. rewrite drop_app_length' by (rewrite length_take; lia).
  by rewrite take_app_length.
Qed.

(** What a splice does not touch keeps its value. *)
Lemma lookup_splice_outside {A} (l : list A) i xs j :
  (i + length xs <= length l)%nat ->
  (j < i \/ i + length xs <= j)%nat -> splice l i xs !! j = l !! j.
Proof.
  intros Hl Hj. unfold splice. destruct Hj as [Hj | Hj].
  - rewrite lookup_app_l by (rewrite length_take; lia). by apply lookup_take_lt.
  - rewrite lookup_app_r by (rewrite length_take; lia).
    rewrite lookup_app_r by (rewrite length_take; lia).
    rewrite lookup_drop, length_take. f_equal. lia.
Qed.

Lemma insert_splice {A} (l : list A) i x :
  (i < length l)%nat -> <[i := x]> l = splice l i [x].
Proof. intros. unfold splice. rewrite insert_take_drop by done. by rewrite Nat.add_1_r. Qed.

Lemma splice_insert {A} (l : list A) i x xs :
  (i + S (length xs) <= length l)%nat -> splice (<[i := x]> l) (S i) xs = splice l i (x :: xs).
Proof.
  intros. rewrite insert_splice by lia. change (x :: xs) with ([x] ++ xs).
  rewrite splice_app by (simpl; lia). f_equal. simpl. lia.
Qed.

Lemma splice_nil {A} (l : list A) i : splice l i [] = l.
Proof. unfold splice. simpl. rewrite Nat.add_0_r. apply take_drop. Qed.
