(* ===== verification/CMem.v ===== *)
(** * CMem: the C machine the sources run on

    Fixed-width integers, [char] signedness, bit-fields, a block memory with
    checked accesses, and the state monad in which the C functions are
    written.  [None] is undefined behaviour: an access outside a block, a null
    dereference, a signed overflow.  *)
From S2P Require Import Prelude.

(** ** Integers *)

(** [int] is 32 bits wide: arithmetic that leaves the range is undefined. *)
Definition INT_MIN : Z := -2147483648.
Definition INT_MAX : Z := 2147483647.
Definition int_ok (z : Z) : bool := (INT_MIN <=? z) && (z <=? INT_MAX).
Definition cint (z : Z) : option Z := if int_ok z then Some z else None.

(** Conversions.  To an unsigned type: modulo; to [int]: the usual wrap-around. *)
Definition to_uchar (z : Z) : Z := z mod 256.
Definition to_ushort (z : Z) : Z := z mod 65536.
Definition to_uint (z : Z) : Z := z mod 4294967296.
Definition to_int (z : Z) : Z := (z + 2147483648) mod 4294967296 - 2147483648.

Definition byte (z : Z) : Prop := 0 <= z < 256.
Definition bytes (l : list Z) : Prop := Forall byte l.

(** Whether plain [char] is signed: x86 says yes, ARM says no; both are
    supported targets, so the development is generic in it. *)
Class CharAbi := char_signed : bool.
Definition x86_abi : CharAbi := true.
Definition arm_abi : CharAbi := false.

Definition to_char `{CharAbi} (z : Z) : Z :=
  let u := z mod 256 in
  if char_signed then (if u <? 128 then u else u - 256) else u.

Lemma cint_ok z : INT_MIN <= z <= INT_MAX -> cint z = Some z.
Proof. intros. unfold cint, int_ok. destruct (Z.leb_spec INT_MIN z), (Z.leb_spec z INT_MAX); auto; lia. Qed.

Lemma cint_Some z z' : cint z = Some z' -> z' = z /\ INT_MIN <= z <= INT_MAX.
Proof.
  unfold cint, int_ok. destruct (Z.leb_spec INT_MIN z), (Z.leb_spec z INT_MAX); simpl; intros; simplify_eq; lia.
Qed.

Lemma to_uchar_byte z : byte (to_uchar z).
Proof. apply Z.mod_pos_bound. lia. Qed.

Lemma to_uchar_id z : byte z -> to_uchar z = z.
Proof. apply Z.mod_small. Qed.

Lemma to_ushort_id z : 0 <= z < 65536 -> to_ushort z = z.
Proof. apply Z.mod_small. Qed.

Lemma to_uint_id z : 0 <= z < 4294967296 -> to_uint z = z.
Proof. apply Z.mod_small. Qed.

Lemma to_uint_add z n : to_uint (to_uint z + n) = to_uint (z + n).
Proof. unfold to_uint. by rewrite Z.add_mod_idemp_l. Qed.
Lemma to_int_id z : INT_MIN <= z <= INT_MAX -> to_int z = z.
Proof. unfold to_int, INT_MIN, INT_MAX. intros. rewrite Z.mod_small; lia. Qed.

(** A byte survives the trip through [char], whatever the signedness. *)
Lemma to_uchar_to_char `{CharAbi} z : byte z -> to_uchar (to_char z) = z.
Proof.
  unfold byte, to_uchar, to_char. intros Hz. rewrite (Z.mod_small z) by lia.
  destruct char_signed; [destruct (Z.ltb_spec z 128)|].
  - by apply Z.mod_small.
  - symmetry. apply (Zmod_unique _ _ (-1)); lia.
  - by apply Z.mod_small.
Qed.

Lemma to_char_small `{CharAbi} z : 0 <= z < 128 -> to_char z = z.
Proof.
  unfold to_char. intros. rewrite Z.mod_small by lia.
  destruct char_signed; [|done]. destruct (Z.ltb_spec z 128); lia.
Qed.

Lemma bytes_app l k : bytes (l ++ k) <-> bytes l /\ bytes k.
Proof. apply Forall_app. Qed.

(** ** Bit-fields of an [unsigned char] union member *)

Definition bf_get (off w : Z) (b : Z) : Z := Z.land (Z.shiftr b off) (Z.ones w).
Definition bf_set (off w : Z) (v b : Z) : Z :=
  Z.lor (Z.ldiff b (Z.shiftl (Z.ones w) off)) (Z.shiftl (Z.land v (Z.ones w)) off).

Lemma bf_set_testbit off w v b i :
  0 <= off -> 0 <= w -> 0 <= i ->
  Z.testbit (bf_set off w v b) i =
    if bool_decide (off <= i < off + w) then Z.testbit v (i - off) else Z.testbit b i.
Proof.
  intros. unfold bf_set.
  rewrite Z.lor_spec, Z.ldiff_spec, !Z.shiftl_spec, Z.land_spec, Z.testbit_ones by lia.
  case_bool_decide as E;
    destruct (Z.leb_spec 0 (i - off)), (Z.ltb_spec (i - off) w); try lia; simpl;
    rewrite ?andb_true_r, ?andb_false_r, ?orb_false_r; done.
Qed.

Lemma bf_get_testbit off w b i :
  0 <= off -> 0 <= w -> 0 <= i ->
  Z.testbit (bf_get off w b) i = if bool_decide (i < w) then Z.testbit b (i + off) else false.
Proof.
  intros. unfold bf_get. rewrite Z.land_spec, Z.shiftr_spec, Z.testbit_ones by lia.
  case_bool_decide; destruct (Z.leb_spec 0 i), (Z.ltb_spec i w); try lia; simpl;
    by rewrite ?andb_true_r, ?andb_false_r.
Qed.

(** Reading back the field just written gives the value cut to its width. *)
Lemma bf_get_set_eq off w v b :
  0 <= off -> 0 <= w -> bf_get off w (bf_set off w v b) = Z.land v (Z.ones w).
Proof.
  intros. apply Z.bits_inj'. intros i Hi.
  rewrite bf_get_testbit, Z.land_spec, Z.testbit_ones, bf_set_testbit by lia.
  destruct (Z.leb_spec 0 i); try lia.
  repeat case_bool_decide; destruct (Z.ltb_spec i w); try lia; simpl;
    rewrite ?andb_true_r, ?andb_false_r; try done. f_equal. lia.
Qed.

(** Writing a field leaves the disjoint fields alone. *)
Lemma bf_get_set_ne off w off' w' v b :
  0 <= off -> 0 <= w -> 0 <= off' -> 0 <= w' ->
  off + w <= off' \/ off' + w' <= off ->
  bf_get off w (bf_set off' w' v b) = bf_get off w b.
Proof.
  intros. apply Z.bits_inj'. intros i Hi.
  rewrite !bf_get_testbit by lia. case_bool_decide; [|done].
  rewrite bf_set_testbit by lia. case_bool_decide; [lia|done].
Qed.

Lemma bf_get_0 off w : 0 <= off -> bf_get off w 0 = 0.
Proof. intros. unfold bf_get. by rewrite Z.shiftr_0_l. Qed.

Lemma byte_testbit z : 0 <= z -> (forall i, 8 <= i -> Z.testbit z i = false) -> byte z.
Proof.
  intros Hz Hbits. split; [done|]. change 256 with (2 ^ 8).
  destruct (decide (z = 0)) as [->|]; [done|].
  apply Z.log2_lt_pow2; [lia|]. apply Z.nle_gt. intros Hle.
  assert (Hb : Z.testbit z (Z.log2 z) = true) by (apply Z.bit_log2; lia).
  rewrite Hbits in Hb by lia. done.
Qed.

Lemma byte_testbit_high z i : byte z -> 8 <= i -> Z.testbit z i = false.
Proof.
  intros [? ?] Hi. destruct (decide (z = 0)) as [->|]; [apply Z.testbit_0_l|].
  apply Z.bits_above_log2; [done|].
  apply Z.lt_le_trans with 8; [|done]. apply Z.log2_lt_pow2; [lia|]. done.
Qed.

Lemma bf_set_byte off w v b :
  0 <= off -> 0 <= w -> off + w <= 8 -> byte b -> byte (bf_set off w v b).
Proof.
  intros ? ? ? Hb. apply byte_testbit.
  - unfold bf_set. apply Z.lor_nonneg. split.
    + apply Z.ldiff_nonneg. left. apply Hb.
    + apply Z.shiftl_nonneg. rewrite Z.land_ones by lia. apply Z.mod_pos_bound. lia.
  - intros i Hi. rewrite bf_set_testbit by lia. case_bool_decide; [lia|].
    by apply byte_testbit_high.
Qed.

Lemma bf_get_range off w b : 0 <= w -> 0 <= bf_get off w b < 2 ^ w.
Proof.
  intros. unfold bf_get. rewrite Z.land_ones by done. apply Z.mod_pos_bound, Z.pow_pos_nonneg; lia.
Qed.

Create Rewrite HintDb bf.
#[export] Hint Rewrite bf_get_set_eq bf_get_set_ne bf_get_0 using lia : bf.

(** ** Block memory

    A pointer is a block number and an offset.  Offsets may be computed freely
    (the code forms [buf + len] before comparing); only accesses are checked. *)
Record ptr := Ptr { p_blk : nat; p_off : Z }.

#[export] Instance ptr_eq_dec : EqDecision ptr.
Proof. solve_decision. Defined.

Abbreviation mem := (gmap nat (list Z)).

Definition padd (p : ptr) (n : Z) : ptr := Ptr (p_blk p) (p_off p + n).

(** [p - q] for pointers into one block. *)
Definition pdiff (p q : ptr) : Z := p_off p - p_off q.

(** [n] bytes at [p], as [memcpy] reads them: nothing is accessed when [n] is 0. *)
Definition load_bytes (m : mem) (p : ptr) (n : Z) : option (list Z) :=
  if decide (n = 0) then Some [] else
  b ← m !! p_blk p;
  if decide (0 <= n /\ 0 <= p_off p /\ p_off p + n <= Z.of_nat (length b))
  then Some (take (Z.to_nat n) (drop (Z.to_nat (p_off p)) b)) else None.

Definition load (m : mem) (p : ptr) : option Z :=
  bs ← load_bytes m p 1; head bs.

Definition store_bytes (m : mem) (p : ptr) (bs : list Z) : option mem :=
  match bs with
  | [] => Some m
  | _ =>
    b ← m !! p_blk p;
    if decide (0 <= p_off p /\ p_off p + Z.of_nat (length bs) <= Z.of_nat (length b))
    then Some (<[p_blk p := splice b (Z.to_nat (p_off p)) bs]> m) else None
  end.

(** The bytes [bs] lie in memory at [p]. *)
Definition at_bytes (m : mem) (p : ptr) (bs : list Z) : Prop :=
  load_bytes m p (Z.of_nat (length bs)) = Some bs.

(** [n] bytes can be written at [p]. *)
Definition room (m : mem) (p : ptr) (n : Z) : Prop :=
  exists b, m !! p_blk p = Some b /\ 0 <= p_off p /\ p_off p + n <= Z.of_nat (length b).

Lemma padd_0 p : padd p 0 = p.
Proof. destruct p. unfold padd. simpl. f_equal. lia. Qed.

Lemma padd_padd p a b : padd (padd p a) b = padd p (a + b).
Proof. unfold padd. simpl. f_equal. lia. Qed.

Lemma pdiff_padd p a b : pdiff (padd p a) (padd p b) = a - b.
Proof. unfold pdiff, padd. simpl. lia. Qed.

Lemma pdiff_padd_0 p a : pdiff (padd p a) p = a.
Proof. unfold pdiff, padd. simpl. lia. Qed.

Lemma p_blk_padd p a : p_blk (padd p a) = p_blk p.
Proof. done. Qed.

Create Rewrite HintDb ptr.
#[export] Hint Rewrite padd_0 padd_padd pdiff_padd pdiff_padd_0 p_blk_padd : ptr.

(** Normal form of pointer expressions. *)
Ltac pnorm := repeat (autorewrite with ptr; rewrite ?Nat2Z.inj_add).

Lemma load_bytes_Some m p n bs :
  load_bytes m p n = Some bs ->
  Z.of_nat (length bs) = n /\
  (n = 0 \/ exists b, m !! p_blk p = Some b /\ 0 <= n /\ 0 <= p_off p /\
     p_off p + n <= Z.of_nat (length b) /\
     bs = take (Z.to_nat n) (drop (Z.to_nat (p_off p)) b)).
Proof.
  unfold load_bytes. case_decide; intros; simplify_eq/=; [by auto|].
  destruct (m !! p_blk p) as [b|] eqn:Hb; simplify_eq/=. case_decide; simplify_eq.
  split; [rewrite length_take, length_drop; lia|]. right. exists b. splits; try done; lia.
Qed.

Lemma at_bytes_nil m p : at_bytes m p [].
Proof. done. Qed.

Lemma at_bytes_spec m p bs :
  bs <> [] ->
  at_bytes m p bs <->
  exists b, m !! p_blk p = Some b /\ 0 <= p_off p /\
    p_off p + Z.of_nat (length bs) <= Z.of_nat (length b) /\
    take (length bs) (drop (Z.to_nat (p_off p)) b) = bs.
Proof.
  intros Hne. assert (length bs <> 0%nat) by (destruct bs; [done|simpl; lia]).
  unfold at_bytes. split.
  - intros H'. apply load_bytes_Some in H' as [_ [? | (b & ? & ? & ? & ? & Heq)]]; [lia|].
    rewrite Nat2Z.id in Heq. eauto 6.
  - intros (b & Hb & ? & ? & Heq). unfold load_bytes. rewrite decide_False, Hb by lia. simpl.
    by rewrite decide_True, Nat2Z.id, Heq by lia.
Qed.

Lemma at_bytes_app m p bs1 bs2 :
  at_bytes m p (bs1 ++ bs2) <->
  at_bytes m p bs1 /\ at_bytes m (padd p (Z.of_nat (length bs1))) bs2.
Proof.
  destruct (decide (bs1 = [])) as [->|Hne1]; [simpl; rewrite padd_0; split; [done|by intros []]|].
  destruct (decide (bs2 = [])) as [->|Hne2]; [rewrite app_nil_r; split; [done|by intros []]|].
  rewrite !at_bytes_spec by (try done; by destruct bs1). simpl. rewrite length_app. split.
  - intros (b & Hb & ? & ? & Heq). rewrite take_drop_app_range in Heq by lia.
    apply app_inj_1 in Heq as [Heq1 Heq2]; [|rewrite length_take, length_drop; lia].
    split; exists b; splits; try done; try lia. by rewrite Zto_nat_add, Nat2Z.id by lia.
  - intros [(b & Hb & ? & ? & Heq1) (b' & Hb' & ? & ? & Heq2)].
    rewrite Hb in Hb'. injection Hb' as <-. exists b. splits; try done; try lia. rewrite take_drop_app_range by lia.
    rewrite Zto_nat_add, Nat2Z.id in Heq2 by lia. by rewrite Heq1, Heq2.
Qed.

Lemma at_bytes_cons m p x bs :
  at_bytes m p (x :: bs) <-> at_bytes m p [x] /\ at_bytes m (padd p 1) bs.
Proof. apply (at_bytes_app m p [x] bs). Qed.

Lemma at_bytes_load m p x bs : at_bytes m p (x :: bs) -> load m p = Some x.
Proof. rewrite at_bytes_cons. intros [H _]. unfold load. change 1 with (Z.of_nat (length [x])). by rewrite H. Qed.

Lemma at_bytes_load_bytes m p bs n :
  at_bytes m p bs -> n = Z.of_nat (length bs) -> load_bytes m p n = Some bs.
Proof. by intros ? ->. Qed.

(** Two memories that agree outside block [b]. *)
Definition agree_except (b : nat) (m m' : mem) : Prop := forall b', b' <> b -> m' !! b' = m !! b'.

Lemma agree_except_refl b m : agree_except b m m.
Proof. by intros ?. Qed.

Lemma agree_except_trans b m1 m2 m3 :
  agree_except b m1 m2 -> agree_except b m2 m3 -> agree_except b m1 m3.
Proof. intros H1 H2 b' Hb. by rewrite H2, H1. Qed.

Lemma agree_load_bytes b m m' p n :
  agree_except b m m' -> p_blk p <> b -> load_bytes m' p n = load_bytes m p n.
Proof. intros Ha Hp. unfold load_bytes. by rewrite Ha. Qed.

Lemma store_bytes_agree m p bs m' :
  store_bytes m p bs = Some m' -> agree_except (p_blk p) m m'.
Proof.
  intros H b' Hb'. destruct bs as [|x bs]; simpl in H; [by simplify_eq|].
  destruct (m !! p_blk p); simplify_eq/=. case_decide; simplify_eq/=. by rewrite lookup_insert_ne.
Qed.

Lemma store_bytes_app m p bs1 bs2 m' :
  store_bytes m p (bs1 ++ bs2) = Some m' ->
  exists m1, store_bytes m p bs1 = Some m1 /\
             store_bytes m1 (padd p (Z.of_nat (length bs1))) bs2 = Some m'.
Proof.
  intros H. destruct bs1 as [|x1 bs1]; [exists m; simpl; by rewrite padd_0|].
  destruct bs2 as [|x2 bs2]; [rewrite app_nil_r in H; eauto|].
  unfold store_bytes in *. simpl in H |- *.
  destruct (m !! p_blk p) as [b|] eqn:Hb; simplify_eq/=.
  case_decide as Hd; [|done]. simplify_eq/=. rewrite length_app in Hd. simpl in Hd.
  rewrite decide_True by lia.
  eexists. split; [done|].
  rewrite lookup_insert_eq. simpl. rewrite length_splice by (simpl; lia).
  rewrite decide_True by lia. f_equal.
  rewrite insert_insert_eq. f_equal.
  change (x1 :: bs1 ++ x2 :: bs2) with ((x1 :: bs1) ++ x2 :: bs2).
  rewrite splice_app by (simpl; lia). f_equal. rewrite Zto_nat_add by lia. f_equal. simpl. lia.
Qed.

(** Storing [bs1 ++ bs2] is storing [bs1] and then [bs2]; it fails exactly when one
    of the two does. *)
Lemma store_bytes_app_eq m p bs1 bs2 :
  store_bytes m p (bs1 ++ bs2) =
    m1 ← store_bytes m p bs1; store_bytes m1 (padd p (Z.of_nat (length bs1))) bs2.
Proof.
  destruct (store_bytes m p (bs1 ++ bs2)) as [m'|] eqn:H.
  { apply store_bytes_app in H as (m1 & -> & Hm1). simpl. by rewrite Hm1. }
  destruct bs1 as [|x1 bs1]; [simpl in *; by rewrite padd_0, H|].
  destruct bs2 as [|x2 bs2]; [by rewrite app_nil_r in H; rewrite H|].
  unfold store_bytes in *. simpl in H |- *.
  destruct (m !! p_blk p) as [b|] eqn:Hb; simplify_eq/=; try done.
  case_decide as Hd; simplify_eq/=; try done. rewrite length_app in Hd. simpl in Hd.
  case_decide as Hd1; [|done]. simpl. rewrite lookup_insert_eq. simpl.
  rewrite length_splice by (simpl; lia). by rewrite decide_False by lia.
Qed.

Lemma store_bytes_overrun m p bs b :
  m !! p_blk p = Some b -> Z.of_nat (length b) < p_off p + Z.of_nat (length bs) -> bs <> [] ->
  store_bytes m p bs = None.
Proof.
  intros Hb Hl Hne. destruct bs; [done|]. unfold store_bytes. rewrite Hb. simpl in *.
  by rewrite decide_False by lia.
Qed.

Lemma store_bytes_at m p bs m' : store_bytes m p bs = Some m' -> at_bytes m' p bs.
Proof.
  destruct bs as [|x bs]; [done|]. unfold store_bytes.
  destruct (m !! p_blk p) as [b|] eqn:Hb; intros; simplify_eq/=.
  case_decide; simplify_eq/=. unfold at_bytes, load_bytes. rewrite decide_False by (simpl; lia).
  rewrite lookup_insert_eq. simpl. rewrite length_splice by (simpl; lia).
  rewrite decide_True by lia. f_equal.
  change (S (length bs)) with (length (x :: bs)).
  rewrite Nat2Z.id. apply splice_read. simpl. lia.
Qed.

Lemma room_store m p bs n :
  room m p n -> Z.of_nat (length bs) <= n -> exists m', store_bytes m p bs = Some m'.
Proof.
  intros (b & Hb & ? & ?) Hn. destruct bs; [eexists; done|]. unfold store_bytes. rewrite Hb. simpl in *.
  rewrite decide_True by lia. eauto.
Qed.

Lemma store_bytes_room m p bs m' q n :
  store_bytes m p bs = Some m' -> room m q n -> room m' q n.
Proof.
  intros H (b & Hb & ? & ?). destruct bs as [|x bs]; simplify_eq/=; [by exists b|].
  destruct (m !! p_blk p) as [b'|] eqn:Hb'; simplify_eq/=. case_decide; simplify_eq/=.
  destruct (decide (p_blk p = p_blk q)) as [e|e].
  - rewrite <- e in *. simplify_eq. eexists. rewrite <- e, lookup_insert_eq. split; [done|].
    rewrite length_splice by (simpl; lia). done.
  - exists b. by rewrite lookup_insert_ne.
Qed.

(** ** The monad of C code over a state [S] *)
Definition M (S A : Type) : Type := S -> option (A * S).

#[export] Instance M_ret S : MRet (M S) := fun A a s => Some (a, s).
#[export] Instance M_bind S : MBind (M S) :=
  fun A B k c s => match c s with Some (a, s') => k a s' | None => None end.

Definition lift {S A} (o : option A) : M S A := fun s => a ← o; Some (a, s).
Definition get {S} : M S S := fun s => Some (s, s).
Definition undefined {S A} : M S A := fun _ => None.

(** Run a computation on the first, or the second, component of a paired state. *)
Definition on_fst {S T A} (c : M S A) : M (S * T) A :=
  fun st => match c st.1 with Some (a, s') => Some (a, (s', st.2)) | None => None end.
Definition on_snd {S T A} (c : M T A) : M (S * T) A :=
  fun st => match c st.2 with Some (a, t') => Some (a, (st.1, t')) | None => None end.

(** [for (i = 0; i < n; ++i) a = f(i, a);] *)
Fixpoint c_for {S A} (i n : nat) (f : nat -> A -> M S A) (a : A) : M S A :=
  match n with
  | O => mret a
  | Datatypes.S n' => a' ← f i a; c_for (Datatypes.S i) n' f a'
  end.

Lemma M_bind_Some {S A B} (c : M S A) (k : A -> M S B) s a s' :
  c s = Some (a, s') -> (c ≫= k) s = k a s'.
Proof. intros H. unfold mbind, M_bind. by rewrite H. Qed.

Lemma M_bind_None {S A B} (f : M S A) (k : A -> M S B) s : f s = None -> (f ≫= k) s = None.
Proof. intros Hf. unfold mbind, M_bind. by rewrite Hf. Qed.

Lemma M_bind_lift {S A B} (o : option A) (k : A -> M S B) s a :
  o = Some a -> (lift o ≫= k) s = k a s.
Proof. by intros ->. Qed.

(** Run the next step of a computation whose result is known. *)
Ltac step H := rewrite (M_bind_Some _ _ _ _ _ H); cbn beta iota.

(** Reduce the plumbing of the monads, and nothing else. *)
Ltac msimpl :=
  cbn [mbind option_bind mret option_ret fst snd negb orb andb fmap option_fmap option_map] in *.

(** ** Total correctness: the computation is defined, and its result and final state satisfy [Q] *)

Definition wp {S A} (c : M S A) (Q : A -> S -> Prop) (s : S) : Prop :=
  match c s with Some (a, s') => Q a s' | None => False end.

Lemma wp_Some {S A} (c : M S A) Q s : wp c Q s -> exists a s', c s = Some (a, s') /\ Q a s'.
Proof. unfold wp. destruct (c s) as [[a s']|]; [eauto|done]. Qed.
Lemma wp_bind {S A B} (c : M S A) (k : A -> M S B) Q s : wp c (fun a s' => wp (k a) Q s') s -> wp (c ≫= k) Q s.
Proof. unfold wp, mbind, M_bind. by destruct (c s) as [[a s']|]. Qed.
Lemma wp_ret {S A} (a : A) (Q : A -> S -> Prop) s : Q a s -> wp (mret a) Q s.
Proof. done. Qed.
Lemma wp_get {S} (Q : S -> S -> Prop) s : Q s s -> wp get Q s.
Proof. done. Qed.
Lemma wp_lift {S A} (o : option A) a (Q : A -> S -> Prop) s : o = Some a -> Q a s -> wp (lift o) Q s.
Proof. by intros ->. Qed.
Lemma wp_mono {S A} (c : M S A) (Q Q' : A -> S -> Prop) s : wp c Q s -> (forall a s', Q a s' -> Q' a s') -> wp c Q' s.
Proof. unfold wp. destruct (c s) as [[a s']|]; [|done]. intros HQ H. by apply H. Qed.
Lemma wp_run {S A} (c : M S A) (Q : A -> S -> Prop) s a s' : c s = Some (a, s') -> Q a s' -> wp c Q s.
Proof. unfold wp. by intros ->. Qed.
Lemma wp_bind_inv {S A B} (c : M S A) (k : A -> M S B) Q (s : S) : wp (c ≫= k) Q s -> wp c (fun a s' => wp (k a) Q s') s.
Proof. unfold wp, mbind, M_bind. by destruct (c s) as [[a s']|]. Qed.

(** ** Library functions on memory *)

Definition stores (p : ptr) (bs : list Z) : M mem unit :=
  fun m => m' ← store_bytes m p bs; Some (tt, m').

(** [memcpy(dst, src, n)]; a negative [n] becomes a huge [size_t] and cannot succeed. *)
Definition memcpy (dst src : ptr) (n : Z) : M mem unit :=
  m ← get; bs ← lift (load_bytes m src n); stores dst bs.

(** Distance to the terminating NUL; running off the block is undefined. *)
Fixpoint scan0 (l : list Z) : option Z :=
  match l with
  | [] => None
  | x :: r => if x =? 0 then Some 0 else n ← scan0 r; Some (n + 1)
  end.

Definition strlen (m : mem) (p : ptr) : option Z :=
  b ← m !! p_blk p;
  if decide (0 <= p_off p <= Z.of_nat (length b)) then scan0 (drop (Z.to_nat (p_off p)) b) else None.

(** [strncmp(a, b, n) == 0] *)
Fixpoint strncmp_eq (m : mem) (a b : ptr) (n : nat) : option bool :=
  match n with
  | O => Some true
  | S n' =>
    x ← load m a; y ← load m b;
    if negb (x =? y) then Some false
    else if x =? 0 then Some true
    else strncmp_eq m (padd a 1) (padd b 1) n'
  end.

(** The NUL-terminated string [s] is at [p]. *)
Definition cstr (m : mem) (p : ptr) (s : list Z) : Prop :=
  at_bytes m p (s ++ [0]) /\ Forall (fun x => x <> 0) s.

Lemma scan0_spec s r : Forall (fun x => x <> 0) s -> scan0 (s ++ 0 :: r) = Some (Z.of_nat (length s)).
Proof.
  induction 1 as [|x s Hx Hs IH]; [done|]. simpl. destruct (Z.eqb_spec x 0); [done|].
  rewrite IH. simpl. f_equal. lia.
Qed.

Lemma cstr_strlen m p s : cstr m p s -> strlen m p = Some (Z.of_nat (length s)).
Proof.
  intros [Hat Hnz]. apply at_bytes_spec in Hat as (b & Hb & ? & Hle & Heq); [|by destruct s].
  rewrite length_app in Hle, Heq. cbn [length] in Hle, Heq. unfold strlen. rewrite Hb. simpl. rewrite decide_True by lia.
  rewrite <- (take_drop (length s + 1) (drop _ b)), Heq, <- app_assoc. by apply scan0_spec.
Qed.

Lemma cstr_bytes m p s : cstr m p s -> at_bytes m p s.
Proof. intros [H _]. by apply at_bytes_app in H as [? _]. Qed.

Lemma cstr_agree b m m' p s : agree_except b m m' -> p_blk p <> b -> cstr m p s -> cstr m' p s.
Proof. intros Ha Hp [Hat Hz]. split; [|done]. unfold at_bytes in *. by rewrite (agree_load_bytes b m m'). Qed.

Lemma at_bytes_agree b m m' p s : agree_except b m m' -> p_blk p <> b -> at_bytes m p s -> at_bytes m' p s.
Proof. intros Ha Hp Hat. unfold at_bytes in *. by rewrite (agree_load_bytes b m m'). Qed.

(** ** Emitting bytes through a moving pointer

    [emits b m0 f bs]: started at a pointer of block [b], in a memory that
    agrees with [m0] elsewhere, [f] stores exactly [bs] there and returns the
    pointer advanced past them; if they do not fit the block it is undefined. *)
Definition emits (b : nat) (m0 : mem) (f : ptr -> M mem ptr) (bs : list Z) : Prop :=
  forall m p, p_blk p = b -> agree_except b m0 m ->
    f p m = m' ← store_bytes m p bs; Some (padd p (Z.of_nat (length bs)), m').

Create HintDb emits.

Section Emits.
Context (b : nat) (m0 : mem).

Lemma emits_ret : emits b m0 mret [].
Proof. intros m p _ _. simpl. by rewrite padd_0. Qed.

Lemma emits_bind f g bs1 bs2 :
  emits b m0 f bs1 -> emits b m0 g bs2 ->
  emits b m0 (fun p => p' ← f p; g p') (bs1 ++ bs2).
Proof.
  intros Hf Hg m p Hp Ha. unfold mbind at 1, M_bind. rewrite (Hf m p Hp Ha), store_bytes_app_eq.
  destruct (store_bytes m p bs1) as [m1|] eqn:Hs1; [|done]. simpl.
  rewrite (Hg m1); [|done|].
  - destruct (store_bytes m1 _ bs2); [|done]. simpl.
    by rewrite padd_padd, length_app, Nat2Z.inj_add.
  - eapply agree_except_trans; [done|]. rewrite <- Hp. by eapply store_bytes_agree.
Qed.

Lemma emits_stores bs :
  emits b m0 (fun p => stores p bs;; mret (padd p (Z.of_nat (length bs)))) bs.
Proof.
  intros m p _ _. unfold stores, mbind, M_bind. simpl. by destruct (store_bytes m p bs).
Qed.

Lemma emits_memcpy src bs n :
  at_bytes m0 src bs -> p_blk src <> b -> n = Z.of_nat (length bs) ->
  emits b m0 (fun p => memcpy p src n;; mret (padd p n)) bs.
Proof.
  intros Hat Hsrc -> m p Hp Ha.
  assert (Hl : load_bytes m src (Z.of_nat (length bs)) = Some bs)
    by (erewrite agree_load_bytes; eauto).
  unfold memcpy, get, lift, stores, mbind, M_bind. simpl. rewrite Hl. simpl.
  by destruct (store_bytes m p bs).
Qed.

Lemma emits_if (c : bool) f g bs1 bs2 :
  emits b m0 f bs1 -> emits b m0 g bs2 ->
  emits b m0 (fun p => if c then f p else g p) (if c then bs1 else bs2).
Proof. by destruct c. Qed.

Lemma emits_for {A} (f : nat -> ptr -> M mem ptr) (e : A -> list Z) (xs : list A) : forall i,
  (forall j x, xs !! j = Some x -> emits b m0 (f (i + j)%nat) (e x)) ->
  emits b m0 (c_for i (length xs) f) (concat (map e xs)).
Proof.
  induction xs as [|x xs IH]; intros i Hf; simpl; [apply emits_ret|].
  apply emits_bind.
  - rewrite <- (Nat.add_0_r i). by apply Hf.
  - apply IH. intros j y Hj. replace (S i + j)%nat with (i + S j)%nat by lia. by apply Hf.
Qed.
End Emits.

#[export] Hint Resolve emits_ret emits_bind emits_stores emits_if : emits.

(** Every cell holds a byte. *)
Definition mem_ok (m : mem) : Prop := forall b l, m !! b = Some l -> bytes l.

Lemma mem_ok_load m p x : mem_ok m -> load m p = Some x -> byte x.
Proof.
  intros Hm. unfold load, load_bytes. rewrite decide_False by lia.
  destruct (m !! p_blk p) as [l|] eqn:Hl; simpl; [|done]. case_decide; simpl; [|done].
  intros Hx. specialize (Hm _ _ Hl). unfold bytes in Hm. rewrite Forall_forall in Hm. apply Hm.
  apply list_elem_of_In. destruct (drop (Z.to_nat (p_off p)) l) as [|y r] eqn:Hd; [done|].
  simpl in Hx. injection Hx as ->. rewrite <- (take_drop (Z.to_nat (p_off p)) l), Hd.
  apply in_or_app. right. by left.
Qed.

(** A [for] loop that adds a bounded amount per element. *)
Lemma c_for_sum {S A} (f : nat -> Z -> M S Z) (g : A -> Z) (bound : Z) (s : S) (xs : list A) : forall i a,
  (forall j x a, xs !! j = Some x -> 0 <= a -> a + g x <= bound -> f (i + j)%nat a s = Some (a + g x, s)) ->
  Forall (fun x => 0 <= g x) xs -> 0 <= a ->
  a + foldr (fun x n => g x + n) 0 xs <= bound ->
  c_for i (length xs) f a s = Some (a + foldr (fun x n => g x + n) 0 xs, s).
Proof.
  induction xs as [|x xs IH]; intros i a Hf Hg Ha Hb; cbn [length c_for foldr] in *.
  { unfold mret, M_ret. do 2 f_equal. lia. }
  apply Forall_cons in Hg as [Hx Hg].
  assert (Hnn : 0 <= foldr (fun x n => g x + n) 0 xs) by (clear -Hg; induction Hg; simpl; lia).
  rewrite (M_bind_Some _ _ _ (a + g x) s).
  - rewrite IH; [do 2 f_equal; lia| |done|lia|lia].
    intros j y a' Hj Ha0 Ha'. replace (Datatypes.S i + j)%nat with (i + Datatypes.S j)%nat by lia. by apply Hf.
  - rewrite <- (Nat.add_0_r i). apply Hf; [done|lia|lia].
Qed.

(** Writing right behind bytes that are there extends them. *)
Lemma store_bytes_extend m p xs ys m' :
  at_bytes m p xs -> store_bytes m (padd p (Z.of_nat (length xs))) ys = Some m' ->
  at_bytes m' p (xs ++ ys).
Proof.
  intros Hx Hs. destruct ys as [|y ys]; [rewrite app_nil_r; simpl in Hs; by simplify_eq|].
  destruct xs as [|x xs].
  { change (Z.of_nat (length [])) with 0 in Hs. rewrite padd_0 in Hs. by apply store_bytes_at in Hs. }
  apply at_bytes_spec in Hx as (b & Hb & Ho & Hle & Hx); [|done].
  unfold store_bytes in Hs. simpl p_blk in Hs. rewrite Hb in Hs. cbn [mbind option_bind] in Hs.
  case_decide as Hd; [|done]. simplify_eq. cbn [p_off padd] in *.
  apply at_bytes_spec; [done|]. exists (splice b (Z.to_nat (p_off p + Z.of_nat (length (x :: xs)))) (y :: ys)).
  rewrite lookup_insert_eq, length_app, length_splice by lia. splits; [done|done|lia|].
  rewrite Zto_nat_add, Nat2Z.id by lia. unfold splice. rewrite drop_app_le by (rewrite length_take; lia).
  rewrite <- take_drop_commute, Hx, app_assoc. by rewrite take_app_length' by (rewrite length_app; lia).
Qed.

(** Writing over the front of bytes that are there leaves the rest. *)
Lemma store_bytes_over m p xs ys bs m' :
  at_bytes m p (xs ++ ys) -> length bs = length xs -> store_bytes m p bs = Some m' -> at_bytes m' p (bs ++ ys).
Proof.
  intros Hx Hl Hs. destruct bs as [|x bs].
  { destruct xs; [|done]. simpl in Hs. by simplify_eq. }
  apply at_bytes_spec in Hx as (b & Hb & Ho & Hle & Hx); [|by destruct xs].
  unfold store_bytes in Hs. rewrite Hb in Hs. cbn [mbind option_bind] in Hs. case_decide as Hd; [|done]. simplify_eq.
  apply at_bytes_spec; [done|]. exists (splice b (Z.to_nat (p_off p)) (x :: bs)). rewrite !length_app in *.
  rewrite lookup_insert_eq, length_splice by lia. splits; [done|done|lia|]. unfold splice.
  rewrite drop_app_length' by (rewrite length_take; lia). rewrite <- (Nat2Z.id (Z.to_nat _)), <- drop_drop.
  rewrite take_app_add. f_equal. rewrite Nat2Z.id.
  apply (f_equal (drop (length xs))) in Hx. rewrite drop_app_length in Hx. rewrite <- Hx at 2.
  rewrite skipn_firstn_comm, Hl. f_equal. lia.
Qed.
