(* ===== verification/Wire.v ===== *)
(** * Wire: the MQTT 3.1.1 wire format as pure functions

    The abstract specification the packet code of
    [paho/pahomqttembeddedc/MQTTPacket/src] is proved against: the bytes of
    every packet as a function of its contents, with no buffer and no pointer. *)
From S2P Require Import Prelude CMem.

(** ** Integers, strings and the remaining-length field *)

(** Two bytes, most significant first. *)
Definition be16 (n : Z) : list Z := [n / 256; n mod 256].

(** A length-prefixed string. *)
Definition wstr (s : list Z) : list Z := be16 (Z.of_nat (length s)) ++ s.

(** Strings whose length fits the two-byte prefix. *)
Definition short (s : list Z) : Prop := Z.of_nat (length s) < 65536.

(** The remaining length, seven bits per byte, least significant first, the top
    bit set on all bytes but the last.  [k] bounds the number of bytes. *)
Fixpoint varint_n (k : nat) (n : Z) : list Z :=
  match k with
  | O => []
  | S k' => if n <? 128 then [n] else (n mod 128 + 128) :: varint_n k' (n / 128)
  end.

(** Five bytes hold any non-negative [int]; MQTT allows four. *)
Definition varint (n : Z) : list Z := varint_n 5 n.

(** First byte of a packet. *)
Definition header (type dup qos retain : Z) : Z := type * 16 + dup * 8 + qos * 2 + retain.

(** A packet: header byte, remaining length, body. *)
Definition packet (hdr : Z) (body : list Z) : list Z :=
  hdr :: varint (Z.of_nat (length body)) ++ body.

(** ** Packets

    [type] codes are those of [enum msgTypes]. *)
Record publish := mkPublish {
  pb_dup : Z; pb_qos : Z; pb_retain : Z; pb_id : Z; pb_topic : list Z; pb_payload : list Z
}.

Definition publish_body (p : publish) : list Z :=
  wstr (pb_topic p) ++ (if 0 <? pb_qos p then be16 (pb_id p) else []) ++ pb_payload p.

Definition enc_publish (p : publish) : list Z :=
  packet (header 3 (pb_dup p) (pb_qos p) (pb_retain p)) (publish_body p).

(** The contents MQTT allows: fields in range, lengths encodable. *)
Definition wf_publish (p : publish) : Prop :=
  0 <= pb_dup p < 2 /\ 0 <= pb_qos p < 4 /\ 0 <= pb_retain p < 2 /\ 0 <= pb_id p < 65536 /\
  short (pb_topic p) /\ Z.of_nat (length (publish_body p)) < 268435456.

(** PUBACK, PUBREC, PUBREL, PUBCOMP, UNSUBACK: a packet identifier; PUBREL has QoS 1. *)
Definition enc_ack (type dup id : Z) : list Z :=
  packet (header type dup (if type =? 6 then 1 else 0) 0) (be16 id).

(** CONNECT: protocol level (3 for MQTT 3.1, 4 for 3.1.1), flags, keep alive and
    the optional will, user name and password. *)
Record will := mkWill { wl_qos : Z; wl_retain : Z; wl_topic : list Z; wl_message : list Z }.

Record connect := mkConnect {
  cn_version : Z; cn_clean : Z; cn_keepalive : Z; cn_client : list Z;
  cn_will : option will; cn_user : option (list Z); cn_pass : option (list Z)
}.

Definition of_opt {A} (f : A -> list Z) (o : option A) : list Z := from_option f [] o.
Definition flag {A} (o : option A) : Z := match o with Some _ => 1 | None => 0 end.

(** "MQIsdp" and "MQTT" in ASCII. *)
Definition MQIsdp : list Z := [77; 81; 73; 115; 100; 112].
Definition MQTT : list Z := [77; 81; 84; 84].

Definition protocol (version : Z) : list Z := if version =? 4 then MQTT else MQIsdp.

Definition connect_flags (c : connect) : Z :=
  flag (cn_user c) * 128 + flag (cn_pass c) * 64 +
  from_option (fun w => wl_retain w * 32 + wl_qos w * 8 + 4) 0 (cn_will c) + cn_clean c * 2.

Definition connect_payload (c : connect) : list Z :=
  wstr (cn_client c) ++ of_opt (fun w => wstr (wl_topic w) ++ wstr (wl_message w)) (cn_will c) ++
  of_opt wstr (cn_user c) ++ of_opt wstr (cn_pass c).

Definition connect_body (c : connect) : list Z :=
  wstr (protocol (cn_version c)) ++ cn_version c :: connect_flags c :: be16 (cn_keepalive c) ++
  connect_payload c.

Definition enc_connect (c : connect) : list Z := packet (header 1 0 0 0) (connect_body c).

Definition wf_connect (c : connect) : Prop :=
  (cn_version c = 3 \/ cn_version c = 4) /\ 0 <= cn_clean c < 2 /\ 0 <= cn_keepalive c < 65536 /\
  short (cn_client c) /\
  (forall w, cn_will c = Some w ->
     0 <= wl_qos w < 4 /\ 0 <= wl_retain w < 2 /\ short (wl_topic w) /\ short (wl_message w)) /\
  (forall u, cn_user c = Some u -> short u) /\ (forall u, cn_pass c = Some u -> short u).

(** SUBSCRIBE: a packet identifier and pairs of a filter and a requested QoS;
    UNSUBSCRIBE: a packet identifier and filters; SUBACK: an identifier and a code
    per filter. *)
Definition enc_entry (e : list Z * Z) : list Z := wstr e.1 ++ [e.2].

Definition subscribe_body (id : Z) (es : list (list Z * Z)) : list Z :=
  be16 id ++ concat (map enc_entry es).

Definition unsubscribe_body (id : Z) (ts : list (list Z)) : list Z :=
  be16 id ++ concat (map wstr ts).

Definition enc_subscribe (dup id : Z) (es : list (list Z * Z)) : list Z :=
  packet (header 8 dup 1 0) (subscribe_body id es).

Definition enc_unsubscribe (dup id : Z) (ts : list (list Z)) : list Z :=
  packet (header 10 dup 1 0) (unsubscribe_body id ts).

Definition enc_suback (id : Z) (codes : list Z) : list Z :=
  packet (header 9 0 0 0) (be16 id ++ codes).

Definition wf_subscribe (dup id : Z) (es : list (list Z * Z)) : Prop :=
  0 <= dup < 2 /\ 0 <= id < 65536 /\ Forall (fun e => short e.1 /\ byte e.2) es /\
  Z.of_nat (length (subscribe_body id es)) < 268435456.

Definition wf_unsubscribe (dup id : Z) (ts : list (list Z)) : Prop :=
  0 <= dup < 2 /\ 0 <= id < 65536 /\ Forall short ts /\
  Z.of_nat (length (unsubscribe_body id ts)) < 268435456.

#[global] Arguments be16 : simpl never.
#[global] Arguments wstr : simpl never.
#[global] Arguments varint : simpl never.
#[global] Arguments packet : simpl never.
#[global] Arguments publish_body : simpl never.
#[global] Arguments connect_payload : simpl never.
#[global] Arguments connect_body : simpl never.

(** ** Lemmas *)

Lemma length_varint_n k n : (0 < k)%nat -> (1 <= length (varint_n k n) <= k)%nat.
Proof.
  revert n. induction k as [|k IH]; intros n Hk; [lia|]. simpl.
  destruct (n <? 128); simpl; [lia|]. destruct k; [simpl; lia|]. specialize (IH (n / 128)). lia.
Qed.

Lemma length_varint n : (1 <= length (varint n) <= 5)%nat.
Proof. apply length_varint_n. lia. Qed.

Lemma varint_n_bytes k n : 0 <= n -> bytes (varint_n k n).
Proof.
  revert n. induction k as [|k IH]; intros n Hn; [constructor|]. simpl.
  destruct (Z.ltb_spec n 128).
  - repeat constructor; lia.
  - constructor; [|apply IH; apply Z.div_pos; lia].
    assert (0 <= n mod 128 < 128) by (apply Z.mod_pos_bound; lia). split; lia.
Qed.

(** [k] bytes are enough for numbers below [128^k]: more fuel changes nothing. *)
Lemma varint_n_enough k k' n :
  0 <= n < 128 ^ Z.of_nat k -> (k <= k')%nat -> (0 < k)%nat -> varint_n k' n = varint_n k n.
Proof.
  revert k' n. induction k as [|k IH]; intros k' n Hn Hk Hpos; [lia|].
  destruct k' as [|k']; [lia|]. simpl. destruct (Z.ltb_spec n 128); [done|]. f_equal.
  destruct k as [|k]; [simpl in Hn; lia|].
  apply IH; [|lia|lia]. rewrite Nat2Z.inj_succ, Z.pow_succ_r in Hn by lia.
  split; [apply Z.div_pos; lia|]. apply Z.div_lt_upper_bound; lia.
Qed.

Lemma length_varint_exact n :
  0 <= n < 268435456 ->
  Z.of_nat (length (varint n)) =
    if n <? 128 then 1 else if n <? 16384 then 2 else if n <? 2097152 then 3 else 4.
Proof.
  intros Hn. unfold varint. simpl.
  destruct (Z.ltb_spec n 128), (Z.ltb_spec (n / 128) 128),
    (Z.ltb_spec (n / 128 / 128) 128), (Z.ltb_spec (n / 128 / 128 / 128) 128),
    (Z.ltb_spec n 16384), (Z.ltb_spec n 2097152); simpl; try done;
    zdiv.
Qed.

Lemma be16_bytes n : 0 <= n < 65536 -> bytes (be16 n).
Proof.
  intros. repeat constructor.
  - apply Z.div_pos; lia.
  - apply Z.div_lt_upper_bound; lia.
  - apply Z.mod_pos_bound; lia.
  - apply Z.mod_pos_bound; lia.
Qed.

Lemma be16_value n : 0 <= n -> 256 * (n / 256) + n mod 256 = n.
Proof. intros. symmetry. apply Z.div_mod. lia. Qed.

Lemma length_wstr s : length (wstr s) = (2 + length s)%nat.
Proof. done. Qed.

Lemma length_packet h body :
  length (packet h body) = S (length (varint (Z.of_nat (length body))) + length body).
Proof. unfold packet. simpl. by rewrite length_app. Qed.

Lemma header_byte type dup qos retain :
  0 <= type < 16 -> 0 <= dup < 2 -> 0 <= qos < 4 -> 0 <= retain < 2 ->
  byte (header type dup qos retain).
Proof. unfold header, byte. lia. Qed.

Lemma length_publish_body p :
  Z.of_nat (length (publish_body p)) =
    2 + Z.of_nat (length (pb_topic p)) + (if 0 <? pb_qos p then 2 else 0) +
    Z.of_nat (length (pb_payload p)).
Proof.
  unfold publish_body. rewrite length_app, length_wstr, length_app.
  destruct (0 <? pb_qos p); simpl length; lia.
Qed.

Definition opt_len (o : option (list Z)) : Z := from_option (fun s => 2 + Z.of_nat (length s)) 0 o.
Definition will_len (o : option will) : Z :=
  from_option (fun w => 4 + Z.of_nat (length (wl_topic w)) + Z.of_nat (length (wl_message w))) 0 o.

Lemma length_of_opt o : Z.of_nat (length (of_opt wstr o)) = opt_len o.
Proof. destruct o; unfold of_opt, opt_len; cbn [from_option]; [|done]. rewrite length_wstr. lia. Qed.

Lemma length_of_will o :
  Z.of_nat (length (of_opt (fun w => wstr (wl_topic w) ++ wstr (wl_message w)) o)) = will_len o.
Proof.
  destruct o; unfold of_opt, will_len; cbn [from_option]; [|done].
  rewrite length_app, !length_wstr. lia.
Qed.

Lemma length_connect_payload c :
  Z.of_nat (length (connect_payload c)) =
    2 + Z.of_nat (length (cn_client c)) + will_len (cn_will c) + opt_len (cn_user c) + opt_len (cn_pass c).
Proof.
  unfold connect_payload. rewrite length_app, length_wstr, length_app, length_app, !Nat2Z.inj_add.
  rewrite length_of_will, !length_of_opt. lia.
Qed.

Lemma length_connect_body c :
  cn_version c = 3 \/ cn_version c = 4 ->
  Z.of_nat (length (connect_body c)) =
    (if cn_version c =? 3 then 12 else 10) + Z.of_nat (length (connect_payload c)).
Proof.
  intros Hv. unfold connect_body. rewrite length_app, length_wstr. simpl length. rewrite length_app.
  unfold protocol. destruct Hv as [-> | ->]; simpl; lia.
Qed.

Lemma opt_len_range o : (forall s, o = Some s -> short s) -> 0 <= opt_len o < 65538.
Proof. unfold short. destruct o as [s|]; simpl; [|lia]. intros Hs. specialize (Hs s eq_refl). lia. Qed.

(** Every well-formed CONNECT packet is far below the remaining-length limit. *)
Lemma connect_body_small c :
  wf_connect c ->
  0 <= will_len (cn_will c) < 131076 /\ 0 <= opt_len (cn_user c) < 65538 /\
  0 <= opt_len (cn_pass c) < 65538 /\ Z.of_nat (length (connect_body c)) < 268435456.
Proof.
  unfold wf_connect. intros (Hv & _ & _ & Hc & Hw & Hu & Hp).
  assert (0 <= will_len (cn_will c) < 131076).
  { destruct (cn_will c) as [w|]; simpl; [|lia].
    destruct (Hw w eq_refl) as (_ & _ & Ht & Hm). unfold short in *. lia. }
  pose proof (opt_len_range _ Hu). pose proof (opt_len_range _ Hp).
  rewrite length_connect_body, length_connect_payload by done. unfold short in Hc.
  repeat (split; [lia|]). destruct (cn_version c =? 3); lia.
Qed.
