(* ===== verification/Packet.v ===== *)
(** * Packet: MQTTPacket.h and MQTTPacket.c

    The packet-level primitives every packet type is built from: the header
    union, the remaining-length field, characters, integers and strings. *)
From S2P Require Import Prelude CMem Wire.

(** ** Constants and data types *)

(** [enum errors] *)
Definition MQTTPACKET_BUFFER_TOO_SHORT : Z := -2.
Definition MQTTPACKET_READ_ERROR : Z := -1.

(** [enum msgTypes] *)
Inductive msgTypes :=
  | CONNECT | CONNACK | PUBLISH | PUBACK | PUBREC | PUBREL | PUBCOMP
  | SUBSCRIBE | SUBACK | UNSUBSCRIBE | UNSUBACK | PINGREQ | PINGRESP | DISCONNECT.

#[export] Instance msgTypes_eq_dec : EqDecision msgTypes.
Proof. solve_decision. Defined.

Definition msg_code (t : msgTypes) : Z :=
  match t with
  | CONNECT => 1 | CONNACK => 2 | PUBLISH => 3 | PUBACK => 4 | PUBREC => 5 | PUBREL => 6
  | PUBCOMP => 7 | SUBSCRIBE => 8 | SUBACK => 9 | UNSUBSCRIBE => 10 | UNSUBACK => 11
  | PINGREQ => 12 | PINGRESP => 13 | DISCONNECT => 14
  end.
Coercion msg_code : msgTypes >-> Z.

(** [MQTTHeader]: the bit-fields of the header byte (the branch without [REVERSED]). *)
Definition hdr_retain (h : Z) : Z := bf_get 0 1 h.
Definition hdr_qos (h : Z) : Z := bf_get 1 2 h.
Definition hdr_dup (h : Z) : Z := bf_get 3 1 h.
Definition hdr_type (h : Z) : Z := bf_get 4 4 h.
Definition set_hdr_retain (v h : Z) : Z := bf_set 0 1 v h.
Definition set_hdr_qos (v h : Z) : Z := bf_set 1 2 v h.
Definition set_hdr_dup (v h : Z) : Z := bf_set 3 1 v h.
Definition set_hdr_type (v h : Z) : Z := bf_set 4 4 v h.

(** [MQTTString]: a C string, or a length and a pointer. *)
Record MQTTString := mkMQTTString {
  cstring : option ptr;
  lenstring_len : Z;
  lenstring_data : option ptr
}.

Definition MQTTString_initializer : MQTTString := mkMQTTString None 0 None.

(** ** The remaining-length field *)

(** One round of the [do ... while] loop per unit of fuel; an [int] needs at
    most five rounds. *)
Fixpoint encode_loop `{CharAbi} (fuel : nat) (buf : ptr) (rc length : Z) : M mem Z :=
  match fuel with
  | O => undefined
  | S fuel' =>
    let d := to_char (Z.rem length 128) in
    let length := Z.quot length 128 in
    let d := if 0 <? length then to_char (Z.lor d 128) else d in
    stores (padd buf rc) [to_uchar d];;
    if 0 <? length then encode_loop fuel' buf (rc + 1) length else mret (rc + 1)
  end.

Definition MQTTPacket_encode `{CharAbi} (buf : ptr) (length : Z) : M mem Z :=
  encode_loop 5 buf 0 length.

(** A byte source [int getcharfn(unsigned char *c, int n)] over a state [T]: its return
    value and the bytes it stored from [c] on. *)
Definition reader (T : Type) : Type := Z -> M T (Z * list Z).

Definition MAX_NO_OF_REMAINING_LENGTH_BYTES : Z := 4.

(** The local [unsigned char c] after a call: unchanged if nothing was stored. *)
Definition recv1 (c : option Z) (bs : list Z) : option (option Z) :=
  match bs with [] => Some c | [b] => Some (Some b) | _ => None end.

Fixpoint decode_loop {T} (getcharfn : reader T) (fuel : nat) (c : option Z)
    (multiplier len value : Z) : M T (Z * Z) :=
  match fuel with
  | O => undefined
  | S fuel' =>
    let len := len + 1 in
    if MAX_NO_OF_REMAINING_LENGTH_BYTES <? len then mret (len, value) else
    r ← getcharfn 1;
    c ← lift (recv1 c r.2);
    if negb (r.1 =? 1) then mret (len, value) else
    ch ← lift c;
    let value := value + Z.land ch 127 * multiplier in
    let multiplier := multiplier * 128 in
    if negb (Z.land ch 128 =? 0) then decode_loop getcharfn fuel' (Some ch) multiplier len value
    else mret (len, value)
  end.

(** Returns [len] and the final [*value]. *)
Definition MQTTPacket_decode {T} (getcharfn : reader T) : M T (Z * Z) :=
  decode_loop getcharfn 5 None 1 0 0.

Definition MQTTPacket_len (rem_len : Z) : option Z :=
  rem_len ← cint (rem_len + 1);
  if rem_len <? 128 then cint (rem_len + 1)
  else if rem_len <? 16384 then cint (rem_len + 2)
  else if rem_len <? 2097151 then cint (rem_len + 3)
  else cint (rem_len + 4).

(** [bufchar] moves the static [bufptr] (its state) and stores every byte through
    the same [c], so the last one remains. *)
Fixpoint bufchar_loop (m : mem) (count : nat) (c : option Z) : M ptr (option Z) :=
  match count with
  | O => mret c
  | S count' => fun bufptr => x ← load m bufptr; bufchar_loop m count' (Some x) (padd bufptr 1)
  end.

Definition bufchar (m : mem) : reader ptr := fun count =>
  c ← bufchar_loop m (Z.to_nat count) None;
  mret (count, match c with Some x => [x] | None => [] end).

Definition MQTTPacket_decodeBuf (m : mem) (buf : ptr) : option (Z * Z) :=
  fst <$> MQTTPacket_decode (bufchar m) buf.

(** ** Characters, integers and strings *)

Definition readInt (m : mem) (pptr : ptr) : option (Z * ptr) :=
  a ← load m pptr; b ← load m (padd pptr 1);
  Some (256 * a + b, padd pptr 2).

Definition readChar `{CharAbi} (m : mem) (pptr : ptr) : option (Z * ptr) :=
  c ← load m pptr; Some (to_char c, padd pptr 1).

Definition writeChar (pptr : ptr) (c : Z) : M mem ptr :=
  stores pptr [to_uchar c];; mret (padd pptr 1).

Definition writeInt (pptr : ptr) (anInt : Z) : M mem ptr :=
  stores pptr [to_uchar (Z.quot anInt 256)];;
  let pptr := padd pptr 1 in
  stores pptr [to_uchar (Z.rem anInt 256)];;
  mret (padd pptr 1).

Definition writeCString (pptr string : ptr) : M mem ptr :=
  m ← get;
  n ← lift (strlen m string);
  let len := to_int n in
  pptr ← writeInt pptr len;
  memcpy pptr string len;;
  mret (padd pptr len).

Definition getLenStringLen (m : mem) (p : ptr) : option Z :=
  a ← load m p; b ← load m (padd p 1); Some (256 * to_uchar a + to_uchar b).

Definition writeMQTTString (pptr : ptr) (mqttstring : MQTTString) : M mem ptr :=
  if 0 <? lenstring_len mqttstring then
    pptr ← writeInt pptr (lenstring_len mqttstring);
    data ← lift (lenstring_data mqttstring);
    memcpy pptr data (lenstring_len mqttstring);;
    mret (padd pptr (lenstring_len mqttstring))
  else
    match cstring mqttstring with
    | Some p => writeCString pptr p
    | None => writeInt pptr 0
    end.

(** Returns [rc], the filled-in [*mqttstring] and the moved [*pptr]. *)
Definition readMQTTLenString (m : mem) (mqttstring : MQTTString) (pptr enddata : ptr)
    : option (Z * MQTTString * ptr) :=
  if 1 <? pdiff enddata pptr then
    r ← readInt m pptr;
    let '(len, pptr) := r in
    if pdiff (padd pptr len) enddata <=? 0
    then Some (1, mkMQTTString None len (Some pptr), padd pptr len)
    else Some (0, mkMQTTString None len (lenstring_data mqttstring), pptr)
  else Some (0, mkMQTTString None (lenstring_len mqttstring) (lenstring_data mqttstring), pptr).

Definition MQTTstrlen (m : mem) (mqttstring : MQTTString) : option Z :=
  match cstring mqttstring with
  | Some p => to_int <$> strlen m p
  | None => Some (lenstring_len mqttstring)
  end.

Definition MQTTPacket_equals (m : mem) (a : MQTTString) (bptr : ptr) : option bool :=
  r ← match cstring a with
      | Some p => n ← strlen m p; Some (Some p, to_int n)
      | None => Some (lenstring_data a, lenstring_len a)
      end;
  let '(aptr, alen) := r in
  blen ← to_int <$> strlen m bptr;
  if alen =? blen then aptr ← aptr; strncmp_eq m aptr bptr (Z.to_nat alen) else Some false.

(** ** Denotations *)

(** The [MQTTString] stands for the bytes [s]: through its C string, or through
    its length and data (the two are never both in use). *)
Definition mstr (m : mem) (x : MQTTString) (s : list Z) : Prop :=
  match cstring x with
  | Some p => cstr m p s /\ lenstring_len x <= 0
  | None => lenstring_len x = Z.of_nat (length s) /\
            (s = [] \/ exists p, lenstring_data x = Some p /\ at_bytes m p s)
  end.

(** None of its pointers lead into block [b]. *)
Definition mstr_out (b : nat) (x : MQTTString) : Prop :=
  (forall p, cstring x = Some p -> p_blk p <> b) /\
  (forall p, lenstring_data x = Some p -> p_blk p <> b).

Definition mstr_in (m : mem) (b : nat) (x : MQTTString) (s : list Z) : Prop :=
  mstr m x s /\ mstr_out b x.

(** ** Bytes of the remaining-length field *)

Lemma land_127 x : Z.land x 127 = x mod 128.
Proof. change 127 with (Z.ones 7). by rewrite Z.land_ones by lia. Qed.

Lemma lor_128 x : 0 <= x < 128 -> Z.lor x 128 = x + 128.
Proof.
  intros Hx. apply Z.eqb_eq.
  by apply (byte_forallb (fun x => Z.lor x 128 =? x + 128) 128); [vm_compute|].
Qed.

Lemma land_128 x : byte x -> (Z.land x 128 =? 0) = (x <? 128).
Proof.
  intros Hx. apply eqb_true_iff.
  by apply (byte_forallb (fun x => Bool.eqb (Z.land x 128 =? 0) (x <? 128)) 256); [vm_compute|].
Qed.

Lemma encode_loop_stores `{CharAbi} k p n rc m :
  0 <= n < 128 ^ Z.of_nat k -> (0 < k)%nat ->
  encode_loop k p rc n m =
    m' ← store_bytes m (padd p rc) (varint_n k n);
    Some (rc + Z.of_nat (length (varint_n k n)), m').
Proof.
  revert n rc m. induction k as [|k IH]; intros n rc m Hn Hk; [lia|].
  cbn [encode_loop]. rewrite Z.rem_mod_nonneg, Z.quot_div_nonneg by lia.
  pose proof (Z.mod_pos_bound n 128 ltac:(lia)) as Hm.
  rewrite (to_char_small (n mod 128)) by lia. cbn [varint_n].
  unfold stores, mbind, M_bind. destruct (Z.ltb_spec n 128) as [Hlt|Hge].
  - rewrite (Z.div_small n), (Z.mod_small n) by lia. change (0 <? 0) with false. cbv iota.
    rewrite to_uchar_id by (unfold byte; lia). by destruct (store_bytes m (padd p rc) [n]).
  - assert (0 < n / 128) by (apply Z.div_str_pos; lia).
    destruct (Z.ltb_spec 0 (n / 128)); [|lia].
    rewrite lor_128, to_uchar_to_char by (unfold byte; lia).
    change (?x :: varint_n k ?y) with ([x] ++ varint_n k y). rewrite store_bytes_app_eq.
    destruct (store_bytes m (padd p rc) _) as [m1|]; [|done]. cbn [option_bind].
    rewrite Nat2Z.inj_succ, Z.pow_succ_r in Hn by lia.
    rewrite IH; [|split; [lia|apply Z.div_lt_upper_bound; lia]|destruct k; [simpl in Hn|]; lia].
    rewrite padd_padd. cbn [length Z.of_nat app]. change (Z.of_nat 1) with 1. msimpl.
    destruct (store_bytes m1 _ _); [|done]. msimpl. do 2 f_equal. lia.
Qed.

(** [ptr += MQTTPacket_encode(ptr, n)] writes the remaining-length bytes of [n]. *)
Lemma emits_encode `{CharAbi} b m0 n :
  0 <= n <= INT_MAX ->
  emits b m0 (fun p => k ← MQTTPacket_encode p n; mret (padd p k)) (varint n).
Proof.
  intros Hn m p Hp Ha. unfold MQTTPacket_encode. unfold mbind at 1, M_bind.
  rewrite encode_loop_stores; [|unfold INT_MAX in Hn; split; [lia|]; simpl; lia|lia].
  rewrite padd_0. by destruct (store_bytes m p _).
Qed.

(** [g], called for one byte at a time from state [t], delivers [bs] and ends in [t']. *)
Inductive delivers {T} (g : reader T) : T -> list Z -> T -> Prop :=
  | delivers_nil t : delivers g t [] t
  | delivers_cons t b t1 bs t' :
      g 1 t = Some ((1, [b]), t1) -> delivers g t1 bs t' -> delivers g t (b :: bs) t'.

Lemma decode_loop_varint {T} (g : reader T) k fuel c mult len value n t t' :
  0 <= n < 128 ^ Z.of_nat k -> (k <= fuel)%nat -> (0 < k)%nat ->
  0 <= len -> len + Z.of_nat k <= MAX_NO_OF_REMAINING_LENGTH_BYTES ->
  delivers g t (varint_n k n) t' ->
  decode_loop g fuel c mult len value t =
    Some ((len + Z.of_nat (length (varint_n k n)), value + n * mult), t').
Proof.
  unfold MAX_NO_OF_REMAINING_LENGTH_BYTES.
  revert fuel c mult len value n t.
  induction k as [|k IH]; intros fuel c mult len value n t Hn Hf Hk Hlen Hmax Hd; [lia|].
  destruct fuel as [|fuel]; [lia|]. cbn [decode_loop varint_n] in *.
  pose proof (Z.mod_pos_bound n 128 ltac:(lia)) as Hm.
  unfold MAX_NO_OF_REMAINING_LENGTH_BYTES. destruct (Z.ltb_spec 4 (len + 1)); [lia|].
  destruct (Z.ltb_spec n 128) as [Hlt|Hge].
  - inversion Hd as [|? ? t1 ? ? Hg Hd']; subst. inversion Hd'; subst.
    rewrite (M_bind_Some _ _ _ _ _ Hg). simpl. unfold lift, mbind, M_bind. simpl.
    rewrite land_128, land_127, Z.mod_small by (unfold byte; lia).
    destruct (Z.ltb_spec n 128); [|lia]. done.
  - inversion Hd as [|? ? t1 ? ? Hg Hd']; subst.
    rewrite (M_bind_Some _ _ _ _ _ Hg). simpl. unfold lift, mbind, M_bind. simpl.
    rewrite land_128, land_127 by (unfold byte; lia).
    destruct (Z.ltb_spec (n mod 128 + 128) 128); [lia|]. simpl.
    replace ((n mod 128 + 128) mod 128) with (n mod 128)
      by (rewrite Z.add_mod, Z.mod_same, Z.add_0_r, !Z.mod_mod by lia; done).
    rewrite Nat2Z.inj_succ, Z.pow_succ_r in Hn by lia.
    destruct k as [|k]; [simpl in Hn; lia|].
    rewrite (IH fuel _ _ _ _ (n / 128)); try done; try lia.
    + f_equal. f_equal. f_equal; [simpl length; lia|]. rewrite (Z.div_mod n 128) at 3 by lia. ring.
    + split; [apply Z.div_pos; lia|]. apply Z.div_lt_upper_bound; lia.
Qed.

Lemma MQTTPacket_decode_varint {T} (g : reader T) n t t' :
  0 <= n < 268435456 -> delivers g t (varint n) t' ->
  MQTTPacket_decode g t = Some ((Z.of_nat (length (varint n)), n), t').
Proof.
  intros Hn Hd. unfold varint in *. rewrite (varint_n_enough 4) in * by (simpl; lia).
  unfold MQTTPacket_decode. rewrite (decode_loop_varint g 4 5 None 1 0 0 n t t'); try done; try lia.
  by rewrite Z.mul_1_r.
Qed.

Lemma bufchar_delivers m p bs :
  at_bytes m p bs -> delivers (bufchar m) p bs (padd p (Z.of_nat (length bs))).
Proof.
  revert p. induction bs as [|x bs IH]; intros p Hat; [rewrite padd_0; constructor|].
  pose proof (at_bytes_load _ _ _ _ Hat) as Hx.
  apply at_bytes_cons in Hat as [_ Hat]. econstructor.
  - unfold bufchar. simpl. unfold mbind at 1, M_bind. simpl. by rewrite Hx.
  - replace (Z.of_nat (length (x :: bs))) with (1 + Z.of_nat (length bs)) by (simpl length; lia).
    rewrite <- padd_padd. by apply IH.
Qed.

Lemma decodeBuf_varint m p n :
  0 <= n < 268435456 -> at_bytes m p (varint n) ->
  MQTTPacket_decodeBuf m p = Some (Z.of_nat (length (varint n)), n).
Proof.
  intros Hn Hat. unfold MQTTPacket_decodeBuf.
  erewrite MQTTPacket_decode_varint; [done|done|]. by apply bufchar_delivers.
Qed.

(** ** Writers emit the wire format *)

Lemma emits_writeChar b m0 c : emits b m0 (fun p => writeChar p c) [to_uchar c].
Proof. apply (emits_stores b m0 [to_uchar c]). Qed.

Lemma emits_writeChar_byte b m0 c : byte c -> emits b m0 (fun p => writeChar p c) [c].
Proof. intros Hc. pose proof (emits_writeChar b m0 c) as He. by rewrite to_uchar_id in He. Qed.

Lemma emits_writeInt_any b m0 n :
  emits b m0 (fun p => writeInt p n) [to_uchar (Z.quot n 256); to_uchar (Z.rem n 256)].
Proof.
  intros m p Hp Ha.
  pose proof (emits_bind b m0 _ _ _ _ (emits_writeChar b m0 (Z.quot n 256))
    (emits_writeChar b m0 (Z.rem n 256)) m p Hp Ha) as He.
  cbn [app] in He. rewrite <- He. clear He. unfold writeInt, writeChar, stores, mbind, M_bind. cbv zeta.
  destruct (store_bytes m p _) as [m1|]; [|done]. msimpl.
  reflexivity.
Qed.

Lemma emits_writeInt b m0 n : 0 <= n < 65536 -> emits b m0 (fun p => writeInt p n) (be16 n).
Proof.
  intros Hn. pose proof (be16_bytes n Hn) as Hb.
  apply Forall_cons in Hb as [H1 Hb]. apply Forall_cons in Hb as [H2 _].
  pose proof (emits_writeInt_any b m0 n) as He.
  by rewrite Z.quot_div_nonneg, Z.rem_mod_nonneg, !to_uchar_id in He by (try done; lia).
Qed.

Lemma emits_writeCString b m0 q s :
  cstr m0 q s -> p_blk q <> b -> short s -> emits b m0 (fun p => writeCString p q) (wstr s).
Proof.
  unfold short. intros Hq Hb Hlen m p Hp Ha.
  assert (Hlq : strlen m q = Some (Z.of_nat (length s))).
  { rewrite <- (cstr_strlen m0 q s Hq). unfold strlen. by rewrite Ha. }
  unfold writeCString. unfold get. erewrite M_bind_Some by done.
  erewrite M_bind_lift by done. cbv zeta. rewrite to_int_id by (unfold INT_MIN, INT_MAX; lia).
  apply (emits_bind b m0 (fun p => writeInt p _) (fun p' => memcpy p' q _;; mret (padd p' _)) (be16 _) s);
    try done.
  - apply emits_writeInt. lia.
  - by apply emits_memcpy; [apply cstr_bytes| |].
Qed.

Lemma emits_writeMQTTString b m0 x s :
  mstr m0 x s -> mstr_out b x -> short s ->
  emits b m0 (fun p => writeMQTTString p x) (wstr s).
Proof.
  intros Hx [Hc Hd] Hlen. unfold mstr in Hx. unfold writeMQTTString.
  destruct x as [[q|] n d]; simpl in *.
  - destruct Hx as [Hq Hn]. destruct (Z.ltb_spec 0 n); [lia|].
    apply emits_writeCString; auto.
  - unfold short in Hlen. destruct Hx as [-> Hx]. destruct s as [|y s]; [by apply emits_writeInt|].
    destruct Hx as [|(q & -> & Hq)]; [done|].
    destruct (Z.ltb_spec 0 (Z.of_nat (length (y :: s)))) as [_|Hle]; [|simpl length in Hle; lia].
    apply emits_bind; [apply emits_writeInt; lia|].
    intros m p Hp Ha. erewrite M_bind_lift by done.
    by apply (emits_memcpy b m0 q (y :: s)); auto.
Qed.

#[export] Hint Resolve emits_encode emits_writeChar emits_writeInt emits_writeMQTTString : emits.

(** ** Readers read it back *)

Lemma readChar_spec `{CharAbi} m p x bs :
  at_bytes m p (x :: bs) -> readChar m p = Some (to_char x, padd p 1).
Proof. intros Hat. unfold readChar. by rewrite (at_bytes_load _ _ _ _ Hat). Qed.

Lemma readInt_spec m p n :
  0 <= n -> at_bytes m p (be16 n) -> readInt m p = Some (n, padd p 2).
Proof.
  intros Hn Hat. pose proof Hat as Hat'. apply at_bytes_cons in Hat' as [_ Hat'].
  unfold readInt. rewrite (at_bytes_load _ _ _ _ Hat). simpl.
  rewrite (at_bytes_load _ _ _ _ Hat'). simpl. by rewrite be16_value.
Qed.

Lemma readMQTTLenString_spec m x p s e :
  short s -> at_bytes m p (wstr s) -> Z.of_nat (2 + length s) <= pdiff e p ->
  readMQTTLenString m x p e =
    Some (1, mkMQTTString None (Z.of_nat (length s)) (Some (padd p 2)), padd p (Z.of_nat (2 + length s))).
Proof.
  intros Hlen Hat He. unfold readMQTTLenString. destruct (Z.ltb_spec 1 (pdiff e p)); [|lia].
  unfold wstr in Hat. apply at_bytes_app in Hat as [Hi Hs].
  rewrite (readInt_spec m p (Z.of_nat (length s))) by (try done; lia). simpl.
  unfold pdiff in *. simpl in *.
  destruct (Z.leb_spec (p_off p + 2 + Z.of_nat (length s) - p_off e) 0); [|lia].
  rewrite padd_padd. do 3 f_equal. lia.
Qed.

(** The string just read denotes the bytes on the wire. *)
Lemma mstr_read m p s :
  at_bytes m p (wstr s) -> mstr m (mkMQTTString None (Z.of_nat (length s)) (Some (padd p 2))) s.
Proof.
  unfold wstr. intros Hat. apply at_bytes_app in Hat as [_ Hs].
  split; [done|]. right. eauto.
Qed.

(** What [readMQTTLenString] accepts never reaches past [enddata]. *)
Lemma readMQTTLenString_bounded m x p e y p' :
  readMQTTLenString m x p e = Some (1, y, p') -> pdiff p' e <= 0.
Proof.
  unfold readMQTTLenString. destruct (Z.ltb_spec 1 (pdiff e p)); [|done].
  destruct (readInt m p) as [[n q]|]; simpl; [|done].
  destruct (Z.leb_spec (pdiff (padd q n) e) 0); intros; by simplify_eq.
Qed.

(** On arbitrary bytes: it stays inside them, and if it accepts it has moved by at
    least two. *)
Lemma readMQTTLenString_any m x p e bs :
  at_bytes m p bs -> bytes bs -> pdiff e p = Z.of_nat (length bs) ->
  exists ok y p', readMQTTLenString m x p e = Some (ok, y, p') /\
    (ok = 0 \/ ok = 1 /\ exists k, (2 <= k <= length bs)%nat /\ p' = padd p (Z.of_nat k) /\
                                   at_bytes m p' (drop k bs)).
Proof.
  intros Hat Hb He. unfold readMQTTLenString. rewrite He.
  destruct (Z.ltb_spec 1 (Z.of_nat (length bs))); [|by eauto 6].
  destruct bs as [|a [|b bs]]; simpl length in *; try lia.
  unfold readInt. rewrite (at_bytes_load _ _ _ _ Hat). msimpl.
  pose proof Hat as Hat'. apply at_bytes_cons in Hat' as [_ Hat'].
  rewrite (at_bytes_load _ _ _ _ Hat'). msimpl. rewrite padd_padd.
  apply Forall_cons in Hb as [Ha Hb]. apply Forall_cons in Hb as [Hb _]. unfold byte in *.
  set (n := 256 * a + b). assert (Hn : 0 <= n) by (unfold n; lia).
  assert (Hpd : pdiff (padd p (2 + n)) e = 2 + n - Z.of_nat (S (S (length bs))))
    by (unfold pdiff, padd in *; simpl in *; lia).
  rewrite Hpd. destruct (Z.leb_spec (2 + n - Z.of_nat (S (S (length bs)))) 0); [|by eauto 6].
  eexists 1, _, _. split; [done|]. right. split; [done|]. exists (Z.to_nat (2 + n)).
  splits; try lia; [by rewrite Z2Nat.id by lia|].
  rewrite <- (take_drop (Z.to_nat (2 + n)) (a :: b :: bs)) in Hat. apply at_bytes_app in Hat as [_ Hat].
  rewrite length_take in Hat. simpl length in Hat.
  replace (Z.of_nat (Z.to_nat (2 + n) `min` S (S (length bs)))) with (2 + n) in Hat by lia. done.
Qed.

(** ** The header byte *)

Lemma bf_set_mod off w v b : 0 <= w -> bf_set off w v b = bf_set off w (v mod 2 ^ w) b.
Proof.
  intros. unfold bf_set. rewrite !(Z.land_ones _ w), Z.mod_mod by first [lia | apply Z.pow_nonzero; lia].
  done.
Qed.

Lemma header_fields type dup qos retain :
  set_hdr_retain retain (set_hdr_qos qos (set_hdr_dup dup (set_hdr_type type 0))) =
    header (type mod 16) (dup mod 2) (qos mod 4) (retain mod 2).
Proof.
  unfold set_hdr_retain, set_hdr_qos, set_hdr_dup, set_hdr_type.
  rewrite (bf_set_mod 4 4 type), (bf_set_mod 3 1 dup), (bf_set_mod 1 2 qos), (bf_set_mod 0 1 retain) by lia.
  change (2 ^ 4) with 16. change (2 ^ 1) with 2. change (2 ^ 2) with 4.
  pose proof (Z.mod_pos_bound type 16 ltac:(lia)) as Ht.
  pose proof (Z.mod_pos_bound dup 2 ltac:(lia)) as Hd.
  pose proof (Z.mod_pos_bound qos 4 ltac:(lia)) as Hq.
  pose proof (Z.mod_pos_bound retain 2 ltac:(lia)) as Hr.
  revert Ht Hd Hq Hr. generalize (type mod 16), (dup mod 2), (qos mod 4), (retain mod 2).
  intros t d q r Ht Hd Hq Hr. apply Z.eqb_eq.
  assert (Hall : forallb (fun t => forallb (fun d => forallb (fun q => forallb (fun r =>
      bf_set 0 1 r (bf_set 1 2 q (bf_set 3 1 d (bf_set 4 4 t 0))) =? header t d q r)
      (seqZ 0 2)) (seqZ 0 4)) (seqZ 0 2)) (seqZ 0 16) = true) by by vm_compute.
  pose proof (byte_forallb _ _ _ Hall Ht) as H1. pose proof (byte_forallb _ _ _ H1 Hd) as H2.
  pose proof (byte_forallb _ _ _ H2 Hq) as H3. exact (byte_forallb _ _ _ H3 Hr).
Qed.

(** The headers that leave [retain] alone. *)
Lemma header_fields3 type dup qos :
  0 <= type < 16 -> 0 <= dup < 2 -> 0 <= qos < 4 ->
  set_hdr_qos qos (set_hdr_dup dup (set_hdr_type type 0)) = header type dup qos 0.
Proof.
  intros Ht Hd Hq. apply Z.eqb_eq.
  assert (Hall : forallb (fun t => forallb (fun d => forallb (fun q =>
    set_hdr_qos q (set_hdr_dup d (set_hdr_type t 0)) =? header t d q 0)
    (seqZ 0 4)) (seqZ 0 2)) (seqZ 0 16) = true) by by vm_compute.
  exact (byte_forallb _ _ _ (byte_forallb _ _ _ (byte_forallb _ _ _ Hall Ht) Hd) Hq).
Qed.

Lemma header_get type dup qos retain :
  0 <= type < 16 -> 0 <= dup < 2 -> 0 <= qos < 4 -> 0 <= retain < 2 ->
  hdr_type (header type dup qos retain) = type /\ hdr_dup (header type dup qos retain) = dup /\
  hdr_qos (header type dup qos retain) = qos /\ hdr_retain (header type dup qos retain) = retain.
Proof.
  intros Ht Hd Hq Hr.
  pose proof (header_fields type dup qos retain) as Hf.
  rewrite !Z.mod_small in Hf by lia. rewrite <- Hf.
  unfold hdr_type, hdr_dup, hdr_qos, hdr_retain, set_hdr_retain, set_hdr_qos, set_hdr_dup, set_hdr_type.
  repeat (rewrite bf_get_set_eq || rewrite bf_get_set_ne by lia); try lia.
  rewrite !Zland_ones_small by (simpl; lia). done.
Qed.

(** ** Lengths *)

Lemma MQTTstrlen_spec m x s :
  mstr m x s -> short s -> MQTTstrlen m x = Some (Z.of_nat (length s)).
Proof.
  unfold mstr, MQTTstrlen. destruct (cstring x) as [p|].
  - intros [Hp _] Hl. rewrite (cstr_strlen _ _ _ Hp). simpl.
    rewrite to_int_id; [done|]. unfold short, INT_MIN, INT_MAX in *. lia.
  - by intros [-> _] _.
Qed.

(** The closed form of [MQTTPacket_len]; its result is always enough for the
    header byte, the encoded remaining length and the body. *)
Lemma MQTTPacket_len_spec n :
  0 <= n < 268435456 ->
  exists t, MQTTPacket_len n = Some t /\ 1 + Z.of_nat (length (varint n)) + n <= t <= n + 5.
Proof.
  intros Hn. rewrite length_varint_exact by done. unfold MQTTPacket_len.
  rewrite (cint_ok (n + 1)) by (unfold INT_MIN, INT_MAX; lia). simpl.
  destruct (Z.ltb_spec (n + 1) 128), (Z.ltb_spec (n + 1) 16384), (Z.ltb_spec (n + 1) 2097151); try lia;
    rewrite cint_ok by (unfold INT_MIN, INT_MAX; lia); eexists; (split; [done|]);
    destruct (Z.ltb_spec n 128), (Z.ltb_spec n 16384), (Z.ltb_spec n 2097152); lia.
Qed.

(** ** Whole packets *)

Lemma emits_framed `{CharAbi} b m0 h f body n :
  byte h -> 0 <= n <= INT_MAX -> emits b m0 f body ->
  emits b m0 (fun p => p ← writeChar p h;
                       p ← (k ← MQTTPacket_encode p n; mret (padd p k)); f p) (h :: varint n ++ body).
Proof.
  intros Hh Hn Hf.
  apply (emits_bind b m0 _ _ [h]); [by apply emits_writeChar_byte|].
  apply (emits_bind b m0); [|done]. by apply emits_encode.
Qed.

(** Storing [bs] at [buf] and returning their number: what the serializers do. *)
Definition stored (m0 : mem) (buf : ptr) (bs : list Z) : option (Z * mem) :=
  m' ← store_bytes m0 buf bs; Some (Z.of_nat (length bs), m').

Lemma stored_room m0 buf bs n :
  room m0 buf n -> Z.of_nat (length bs) <= n ->
  exists m', stored m0 buf bs = Some (Z.of_nat (length bs), m') /\
    at_bytes m' buf bs /\ agree_except (p_blk buf) m0 m'.
Proof.
  intros Hr Hn. destruct (room_store m0 buf bs n Hr Hn) as (m' & Hs).
  exists m'. unfold stored. rewrite Hs. splits; [done | by eapply store_bytes_at | by eapply store_bytes_agree].
Qed.

Lemma stored_overrun m0 buf bs b :
  m0 !! p_blk buf = Some b -> Z.of_nat (length b) < p_off buf + Z.of_nat (length bs) -> bs <> [] ->
  stored m0 buf bs = None.
Proof. intros Hb Hl Hne. unfold stored. by rewrite (store_bytes_overrun _ _ _ b). Qed.

(** The shape of every serializer's tail: emit from [buf], return the distance moved. *)
Lemma serialize_run m0 f bs buf :
  emits (p_blk buf) m0 f bs -> (ptr ← f buf; mret (pdiff ptr buf)) m0 = stored m0 buf bs.
Proof.
  intros Hf. unfold mbind at 1, M_bind, stored.
  rewrite (Hf m0 buf eq_refl (agree_except_refl _ _)).
  destruct (store_bytes m0 buf bs); [|done]. cbn. by rewrite pdiff_padd_0.
Qed.

Lemma serialize_framed `{CharAbi} m0 h f body buf k :
  byte h -> 0 <= k <= INT_MAX -> emits (p_blk buf) m0 f body ->
  (ptr ← (p ← writeChar buf h;
          p ← (k' ← MQTTPacket_encode p k; mret (padd p k')); f p);
   mret (pdiff ptr buf)) m0 = stored m0 buf (h :: varint k ++ body).
Proof. intros Hh Hk Hf. exact (serialize_run m0 _ _ buf (emits_framed _ m0 h f body k Hh Hk Hf)). Qed.

Lemma serialize_packet `{CharAbi} m0 h f body buf k :
  byte h -> k = Z.of_nat (length body) -> k <= INT_MAX -> emits (p_blk buf) m0 f body ->
  (ptr ← (p ← writeChar buf h;
          p ← (k' ← MQTTPacket_encode p k; mret (padd p k')); f p);
   mret (pdiff ptr buf)) m0 = stored m0 buf (packet h body).
Proof. intros Hh -> Hmax Hf. apply (serialize_framed m0 h f body buf); try done. lia. Qed.

(** The first steps of every deserializer: the header byte, the remaining
    length, and the body right behind them. *)
Lemma packet_prefix `{CharAbi} m buf h body :
  byte h -> Z.of_nat (length body) < 268435456 -> at_bytes m buf (packet h body) ->
  exists k, readChar m buf = Some (to_char h, padd buf 1) /\ to_uchar (to_char h) = h /\
    MQTTPacket_decodeBuf m (padd buf 1) = Some (k, Z.of_nat (length body)) /\
    k = Z.of_nat (length (varint (Z.of_nat (length body)))) /\
    at_bytes m (padd (padd buf 1) k) body.
Proof.
  intros Hh Hn Hat. exists (Z.of_nat (length (varint (Z.of_nat (length body))))).
  unfold packet in Hat. pose proof Hat as Hc. apply at_bytes_cons in Hat as [_ Hat].
  apply at_bytes_app in Hat as [Hv Hb].
  splits; [by eapply readChar_spec | by apply to_uchar_to_char | by apply decodeBuf_varint; [lia|] | done | done].
Qed.

(** Use [packet_prefix] to run the first steps of a deserializer in the goal. *)
Ltac read_packet Hat Hbody k Hk :=
  let Hc := fresh "Hc" in let Hu := fresh "Hu" in let Hd := fresh "Hd" in
  apply packet_prefix in Hat as (k & Hc & Hu & Hd & Hk & Hbody);
  [rewrite Hc; cbn [mbind option_bind]; rewrite Hu | ..].

(** ** Properties *)
Section Properties.
Context `{CharAbi}.

(** The remaining-length field round-trips: for every length MQTT can express,
    [MQTTPacket_encode] writes between one and four bytes, from which
    [MQTTPacket_decodeBuf] reads the same length and the same number of bytes;
    other blocks of memory do not change. *)
Theorem remaining_length_roundtrip m p n :
  0 <= n < 268435456 -> room m p 4 ->
  exists k m', MQTTPacket_encode p n m = Some (k, m') /\ 1 <= k <= 4 /\
    agree_except (p_blk p) m m' /\ MQTTPacket_decodeBuf m' p = Some (k, n).
Proof.
  intros Hn Hr.
  assert (Hl : 1 <= Z.of_nat (length (varint n)) <= 4)
    by (rewrite length_varint_exact by done; repeat case_match; lia).
  destruct (room_store m p (varint n) 4 Hr) as (m' & Hs); [lia|].
  exists (Z.of_nat (length (varint n))), m'. splits; try lia.
  - unfold MQTTPacket_encode. rewrite encode_loop_stores by (simpl; lia).
    rewrite padd_0. change (varint_n 5 n) with (varint n). by rewrite Hs.
  - by eapply store_bytes_agree.
  - apply decodeBuf_varint; [done|]. by eapply store_bytes_at.
Qed.

(** A continuation byte. *)
Lemma decode_loop_more {T} (g : reader T) fuel c mult len value t b t1 :
  len + 1 <= 4 -> 128 <= b < 256 -> g 1 t = Some ((1, [b]), t1) ->
  decode_loop g (S fuel) c mult len value t =
    decode_loop g fuel (Some b) (mult * 128) (len + 1) (value + (b - 128) * mult) t1.
Proof.
  intros Hl Hb Hg. cbn [decode_loop]. unfold MAX_NO_OF_REMAINING_LENGTH_BYTES.
  destruct (Z.ltb_spec 4 (len + 1)); [lia|]. rewrite (M_bind_Some _ _ _ _ _ Hg). cbn [fst snd recv1].
  erewrite M_bind_lift by done. change (1 =? 1) with true. cbn [negb]. erewrite M_bind_lift by done.
  rewrite land_128, land_127 by (unfold byte; lia). destruct (Z.ltb_spec b 128); [lia|]. cbn [negb].
  replace (b mod 128) with (b - 128); [done|]. apply (Zmod_unique _ _ 1); lia.
Qed.

(** A length field of four continuation bytes is malformed, and
    [MQTTPacket_decodeBuf] does not report it as an error: it returns 5, one more
    than the bytes it consumed, with the value of the four bytes, and the
    deserializers go on from there. *)
Theorem malformed_length_not_reported m p b1 b2 b3 b4 :
  at_bytes m p [b1; b2; b3; b4] -> Forall (fun b => 128 <= b < 256) [b1; b2; b3; b4] ->
  MQTTPacket_decodeBuf m p =
    Some (5, (b1 - 128) + (b2 - 128) * 128 + (b3 - 128) * 16384 + (b4 - 128) * 2097152).
Proof.
  intros Hat Hf. pose proof (bufchar_delivers m p _ Hat) as Hd.
  repeat match goal with H : Forall _ (_ :: _) |- _ => apply Forall_cons in H as [? H] end.
  unfold MQTTPacket_decodeBuf, MQTTPacket_decode.
  repeat (inversion Hd as [|? ? ? ? ? Hg Hd']; subst; clear Hd; rename Hd' into Hd;
          erewrite decode_loop_more; [ | | |exact Hg]; [ |lia|assumption]; clear Hg).
  cbn [decode_loop]. unfold mret, M_ret. simpl. do 2 f_equal. lia.
Qed.

(** [MQTTPacket_len] is the exact size of a packet with a remaining length of
    [n], or one byte more: it overestimates exactly at 127, 16383, 2097150 and
    2097151, because it compares after adding the header byte; it is never too
    small, so the buffer checks made with it are safe. *)
Theorem MQTTPacket_len_exact n :
  0 <= n < 268435456 ->
  MQTTPacket_len n =
    Some (1 + Z.of_nat (length (varint n)) + n +
          if (n =? 127) || (n =? 16383) || (n =? 2097150) || (n =? 2097151) then 1 else 0).
Proof.
  intros Hn. rewrite length_varint_exact by done. unfold MQTTPacket_len.
  rewrite (cint_ok (n + 1)) by (unfold INT_MIN, INT_MAX; lia). msimpl.
  destruct (Z.ltb_spec (n + 1) 128), (Z.ltb_spec (n + 1) 16384), (Z.ltb_spec (n + 1) 2097151); try lia;
    rewrite cint_ok by (unfold INT_MIN, INT_MAX; lia); f_equal;
    destruct (Z.ltb_spec n 128), (Z.ltb_spec n 16384), (Z.ltb_spec n 2097152); try lia;
    destruct (Z.eqb_spec n 127), (Z.eqb_spec n 16383), (Z.eqb_spec n 2097150), (Z.eqb_spec n 2097151);
    simpl; lia.
Qed.

(** The loads of [strncmp] on a byte string and a C string of the same length. *)
Lemma strncmp_eq_spec m : forall s t a b,
  at_bytes m a s -> at_bytes m b t -> length s = length t -> Forall (fun x => x <> 0) t ->
  strncmp_eq m a b (length s) = Some (bool_decide (s = t)).
Proof.
  induction s as [|x s IH]; intros [|y t] a b Ha Hb Hl Ht; try done. cbn [length strncmp_eq].
  rewrite (at_bytes_load _ _ _ _ Ha), (at_bytes_load _ _ _ _ Hb). msimpl.
  apply at_bytes_cons in Ha as [_ Ha]. apply at_bytes_cons in Hb as [_ Hb]. apply Forall_cons in Ht as [Hy Ht].
  destruct (Z.eqb_spec x y) as [->|Hne]; cbn [negb].
  - destruct (Z.eqb_spec y 0); [done|]. rewrite (IH t) by (try done; simpl in Hl; lia). f_equal.
    apply bool_decide_ext. split; [by intros ->|by intros [= ->]].
  - f_equal. symmetry. apply bool_decide_false. congruence.
Qed.

Lemma equals_spec m a s bptr t :
  mstr m a s -> cstring a <> None \/ lenstring_data a <> None -> cstr m bptr t ->
  short s -> short t ->
  MQTTPacket_equals m a bptr = Some (bool_decide (s = t)).
Proof.
  unfold short. intros Ha Hnn Hb Hs Ht. unfold MQTTPacket_equals.
  assert (Hr : exists q, (match cstring a with
      | Some p => n ← strlen m p; Some (Some p, to_int n)
      | None => Some (lenstring_data a, lenstring_len a)
      end) = Some (Some q, Z.of_nat (length s)) /\ at_bytes m q s).
  { unfold mstr in Ha. destruct (cstring a) as [p|].
    - destruct Ha as [Hp _]. rewrite (cstr_strlen _ _ _ Hp). msimpl.
      rewrite to_int_id by (unfold INT_MIN, INT_MAX; lia). exists p. split; [done|]. by apply cstr_bytes.
    - destruct Ha as [Hl Hd]. destruct Hnn as [|Hnn]; [done|]. rewrite Hl.
      destruct (lenstring_data a) as [q|]; [|done]. exists q. split; [done|].
      destruct Hd as [-> | (q' & [= <-] & Hq)]; [apply at_bytes_nil|done]. }
  destruct Hr as (q & -> & Hq). msimpl. rewrite (cstr_strlen _ _ _ Hb). msimpl.
  rewrite to_int_id by (unfold INT_MIN, INT_MAX; lia).
  destruct (Z.eqb_spec (Z.of_nat (length s)) (Z.of_nat (length t))) as [E|E].
  - rewrite Nat2Z.id. apply strncmp_eq_spec; try done; [by apply cstr_bytes|lia|by destruct Hb].
  - f_equal. symmetry. apply bool_decide_false. by intros ->.
Qed.

(** [MQTTPacket_equals] decides equality of the bytes an [MQTTString] stands for
    and a C string, whichever of its two representations the [MQTTString] uses. *)
Theorem MQTTPacket_equals_correct m a s bptr t :
  mstr m a s -> cstring a <> None \/ lenstring_data a <> None -> cstr m bptr t ->
  short s -> short t ->
  MQTTPacket_equals m a bptr = Some (bool_decide (s = t)).
Proof. apply equals_spec. Qed.

(** On arbitrary input bytes [readMQTTLenString] reads nothing beyond [enddata],
    and when it accepts, the string it hands out and the cursor lie within them. *)
Theorem readMQTTLenString_safe m x p e bs :
  at_bytes m p bs -> bytes bs -> pdiff e p = Z.of_nat (length bs) ->
  exists ok y p', readMQTTLenString m x p e = Some (ok, y, p') /\
    (ok = 0 \/
     ok = 1 /\ exists s rest, bs = wstr s ++ rest /\ mstr m y s /\
       p' = padd p (Z.of_nat (length (wstr s))) /\ at_bytes m p' rest).
Proof.
  intros Hat Hb He. destruct (decide (2 <= length bs)%nat) as [H2|H2].
  2:{ exists 0, (mkMQTTString None (lenstring_len x) (lenstring_data x)), p. split; [|by left].
      unfold readMQTTLenString. rewrite He. by destruct (Z.ltb_spec 1 (Z.of_nat (length bs))); [lia|]. }
  destruct bs as [|a [|b r]]; simpl length in *; try lia.
  apply Forall_cons in Hb as [Ha Hb]. apply Forall_cons in Hb as [Hb _]. unfold byte in *.
  set (n := 256 * a + b). assert (Hab : [a; b] = be16 n).
  { unfold be16, n. rewrite (Z.mul_comm 256), Z.div_add_l, Z.div_small, Z.add_0_r by lia. f_equal. f_equal.
    apply (Zmod_unique _ _ a); lia. }
  change (a :: b :: r) with ([a; b] ++ r) in *. rewrite Hab in *.
  pose proof Hat as Hi. apply at_bytes_app in Hi as [Hi Hr].
  destruct (decide (n <= Z.of_nat (length r))) as [Hn|Hn].
  - set (s := take (Z.to_nat n) r). assert (Hls : Z.of_nat (length s) = n) by (unfold s; rewrite length_take; lia).
    assert (Hr' : r = s ++ drop (Z.to_nat n) r) by (symmetry; apply take_drop).
    assert (Hw : be16 n ++ r = wstr s ++ drop (Z.to_nat n) r)
      by (unfold wstr; rewrite Hls, <- app_assoc; by rewrite <- Hr').
    rewrite Hw in Hat |- *. apply at_bytes_app in Hat as [Hws Hrest].
    eexists 1, _, _. split.
    + apply (readMQTTLenString_spec m x p s e); [unfold short; lia|done|]. rewrite He.
      apply (f_equal (@length Z)) in Hr'. rewrite length_app in Hr'. lia.
    + right. split; [done|]. exists s, (drop (Z.to_nat n) r). split; [done|].
      rewrite length_wstr in *. split; [by apply mstr_read|]. done.
  - unfold readMQTTLenString. rewrite He. destruct (Z.ltb_spec 1 (Z.of_nat (S (S (length r))))); [|lia].
    rewrite (readInt_spec m p n) by (try done; unfold n; lia). msimpl. rewrite padd_padd.
    assert (Hpd : pdiff (padd p (2 + n)) e = 2 + n - Z.of_nat (S (S (length r))))
      by (unfold pdiff, padd in *; simpl in *; lia).
    rewrite Hpd. destruct (Z.leb_spec (2 + n - Z.of_nat (S (S (length r)))) 0); [lia|]. by eauto 6.
Qed.
End Properties.

(** ** Concrete instances *)

(** A buffer of 64 bytes (block 0) and the bytes "t/a", NUL, "hi!" (block 1). *)
Definition ex_mem : mem := <[0%nat := replicate 64 0]> (<[1%nat := [116; 47; 97; 0; 104; 105; 33]]> ∅).
Definition ex_buf : ptr := Ptr 0 0.
Definition ex_topic : ptr := Ptr 1 0.
Definition ex_payload : ptr := Ptr 1 4.

Lemma ex_room n : n <= 64 -> room ex_mem ex_buf n.
Proof. intros. exists (replicate 64 0). split; [done|]. rewrite length_replicate. simpl. lia. Qed.

Lemma ex_mstr : mstr ex_mem (mkMQTTString (Some ex_topic) 0 None) [116; 47; 97].
Proof. split; [|done]. split; [by vm_compute|]. repeat constructor; lia. Qed.

Lemma ex_topic_in : mstr_in ex_mem 0 (mkMQTTString (Some ex_topic) 0 None) [116; 47; 97].
Proof. split; [apply ex_mstr|]. split; intros p Hp; simpl in Hp; [by injection Hp as <-|done]. Qed.

Lemma ex_payload_in : mstr_in ex_mem 0 (mkMQTTString None 3 (Some ex_payload)) [104; 105; 33].
Proof.
  split; [split; [done|]; right; exists ex_payload; split; [done|by vm_compute]|].
  split; intros p Hp; simpl in Hp; [done|by injection Hp as <-].
Qed.

(** A memory whose block 0 is exactly [bs]. *)
Definition ex_packet (bs : list Z) : mem := <[0%nat := bs]> ∅.

Lemma remaining_length_roundtrip_witness :
  exists k m', MQTTPacket_encode (H := x86_abi) ex_buf 321 ex_mem = Some (k, m') /\ 1 <= k <= 4 /\
    agree_except 0 ex_mem m' /\ MQTTPacket_decodeBuf m' ex_buf = Some (k, 321).
Proof.
  apply (remaining_length_roundtrip (H := x86_abi) ex_mem ex_buf 321); [lia|by apply ex_room].
Defined.

Lemma malformed_length_not_reported_witness :
  MQTTPacket_decodeBuf (ex_packet [129; 128; 128; 255]) ex_buf = Some (5, 1 + 127 * 2097152).
Proof.
  apply (malformed_length_not_reported (ex_packet [129; 128; 128; 255]) ex_buf 129 128 128 255);
    [by vm_compute|repeat constructor; lia].
Defined.

Lemma MQTTPacket_len_exact_witness : MQTTPacket_len 127 = Some 130.
Proof. apply (MQTTPacket_len_exact 127). lia. Defined.

Lemma MQTTPacket_equals_correct_witness :
  MQTTPacket_equals ex_mem (mkMQTTString None 3 (Some ex_topic)) ex_topic = Some true.
Proof.
  apply (MQTTPacket_equals_correct ex_mem (mkMQTTString None 3 (Some ex_topic)) [116; 47; 97] ex_topic [116; 47; 97]).
  - split; [done|]. right. exists ex_topic. split; [done|by vm_compute].
  - by right.
  - apply ex_mstr.
  - unfold short. simpl. lia.
  - unfold short. simpl. lia.
Defined.

Lemma readMQTTLenString_safe_witness :
  exists ok y p', readMQTTLenString (ex_packet [0; 9; 1]) MQTTString_initializer ex_buf (padd ex_buf 3) = Some (ok, y, p') /\
    (ok = 0 \/ ok = 1 /\ exists s rest, [0; 9; 1] = wstr s ++ rest /\ mstr (ex_packet [0; 9; 1]) y s /\
       p' = padd ex_buf (Z.of_nat (length (wstr s))) /\ at_bytes (ex_packet [0; 9; 1]) p' rest).
Proof.
  apply (readMQTTLenString_safe (ex_packet [0; 9; 1]) MQTTString_initializer ex_buf (padd ex_buf 3) [0; 9; 1]);
    [by vm_compute|repeat constructor; lia|done].
Defined.
