(* ===== verification/Publish.v ===== *)
(** * Publish: MQTTSerializePublish.c and MQTTDeserializePublish.c

    PUBLISH packets and the four-byte acknowledgements, written and read. *)
From S2P Require Import Prelude CMem Wire Packet.

Section Definitions.
Context `{CharAbi}.

Definition MQTTSerialize_publishLength (m : mem) (qos : Z) (topicName : MQTTString)
    (payloadlen : Z) : option Z :=
  n ← MQTTstrlen m topicName;
  a ← cint (2 + n); len ← cint (a + payloadlen);
  if 0 <? qos then cint (len + 2) else Some len.

Definition MQTTSerialize_publish (buf : ptr) (buflen dup qos retained packetid : Z)
    (topicName : MQTTString) (payload : ptr) (payloadlen : Z) : M mem Z :=
  m ← get;
  rem_len ← lift (MQTTSerialize_publishLength m qos topicName payloadlen);
  total ← lift (MQTTPacket_len rem_len);
  if buflen <? total then mret MQTTPACKET_BUFFER_TOO_SHORT else
  let header := set_hdr_type PUBLISH 0 in
  let header := set_hdr_dup dup header in
  let header := set_hdr_qos qos header in
  let header := set_hdr_retain retained header in
  ptr ← (ptr ← writeChar buf header;
         ptr ← (n ← MQTTPacket_encode ptr rem_len; mret (padd ptr n));
         ptr ← writeMQTTString ptr topicName;
         ptr ← (if 0 <? qos then writeInt ptr packetid else mret ptr);
         memcpy ptr payload payloadlen;; mret (padd ptr payloadlen));
  mret (pdiff ptr buf).

Definition MQTTSerialize_ack (buf : ptr) (buflen packettype dup packetid : Z) : M mem Z :=
  if buflen <? 4 then mret MQTTPACKET_BUFFER_TOO_SHORT else
  let header := set_hdr_type packettype 0 in
  let header := set_hdr_dup dup header in
  let header := set_hdr_qos (if packettype =? PUBREL then 1 else 0) header in
  ptr ← (ptr ← writeChar buf header;
         ptr ← (n ← MQTTPacket_encode ptr 2; mret (padd ptr n));
         writeInt ptr packetid);
  mret (pdiff ptr buf).

Definition MQTTSerialize_puback (buf : ptr) (buflen packetid : Z) : M mem Z :=
  MQTTSerialize_ack buf buflen PUBACK 0 packetid.

Definition MQTTSerialize_pubrel (buf : ptr) (buflen dup packetid : Z) : M mem Z :=
  MQTTSerialize_ack buf buflen PUBREL dup packetid.

Definition MQTTSerialize_pubcomp (buf : ptr) (buflen packetid : Z) : M mem Z :=
  MQTTSerialize_ack buf buflen PUBCOMP 0 packetid.

(** The objects behind the pointer parameters of [MQTTDeserialize_publish]. *)
Record publish_out := mkPublishOut {
  po_dup : Z; po_qos : Z; po_retained : Z; po_packetid : Z;
  po_topicName : MQTTString; po_payload : option ptr; po_payloadlen : Z
}.

(** The return code and the objects afterwards, on every path. *)
Definition MQTTDeserialize_publish (m : mem) (out : publish_out) (buf : ptr) (buflen : Z)
    : option (Z * publish_out) :=
  '(c, curdata) ← readChar m buf;
  let header := to_uchar c in
  if negb (hdr_type header =? PUBLISH) then Some (0, out) else
  let dup := hdr_dup header in
  let qos := hdr_qos header in
  let retained := hdr_retain header in
  '(rc, mylen) ← MQTTPacket_decodeBuf m curdata;
  let curdata := padd curdata rc in
  let enddata := padd curdata mylen in
  '(ok, topicName, curdata) ← readMQTTLenString m (po_topicName out) curdata enddata;
  if (ok =? 0) || (pdiff enddata curdata <? 0) then
    Some (rc, mkPublishOut dup qos retained (po_packetid out) topicName (po_payload out) (po_payloadlen out))
  else
  '(packetid, curdata) ←
    (if 0 <? qos then '(id, curdata) ← readInt m curdata; Some (to_ushort id, curdata)
     else Some (po_packetid out, curdata));
  Some (1, mkPublishOut dup qos retained packetid topicName (Some curdata) (pdiff enddata curdata)).

Record ack_out := mkAckOut { ao_packettype : Z; ao_dup : Z; ao_packetid : Z }.

Definition MQTTDeserialize_ack (m : mem) (out : ack_out) (buf : ptr) (buflen : Z)
    : option (Z * ack_out) :=
  '(c, curdata) ← readChar m buf;
  let header := to_uchar c in
  let dup := hdr_dup header in
  let packettype := hdr_type header in
  '(rc, mylen) ← MQTTPacket_decodeBuf m curdata;
  let curdata := padd curdata rc in
  let enddata := padd curdata mylen in
  if pdiff enddata curdata <? 2 then Some (rc, mkAckOut packettype dup (ao_packetid out)) else
  '(id, curdata) ← readInt m curdata;
  Some (1, mkAckOut packettype dup (to_ushort id)).

End Definitions.

(** ** PUBLISH *)
Section Publish.
Context `{CharAbi}.

(** The parameters of [MQTTSerialize_publish] stand for the packet [p] in memory [m],
    outside the buffer's block [b]. *)
Definition publish_args (m : mem) (b : nat) (p : publish) (topicName : MQTTString)
    (payload : ptr) : Prop :=
  mstr m topicName (pb_topic p) /\ mstr_out b topicName /\
  at_bytes m payload (pb_payload p) /\ p_blk payload <> b.

(** The objects filled by [MQTTDeserialize_publish] stand for the packet [p]. *)
Definition publish_den (m : mem) (o : publish_out) (p : publish) : Prop :=
  po_dup o = pb_dup p /\ po_qos o = pb_qos p /\ po_retained o = pb_retain p /\
  (0 < pb_qos p -> po_packetid o = pb_id p) /\
  mstr m (po_topicName o) (pb_topic p) /\
  cstring (po_topicName o) = None /\ lenstring_data (po_topicName o) <> None /\
  po_payloadlen o = Z.of_nat (length (pb_payload p)) /\
  exists q, po_payload o = Some q /\ at_bytes m q (pb_payload p).

Lemma publishLength_spec m p topicName payloadlen :
  wf_publish p -> mstr m topicName (pb_topic p) -> payloadlen = Z.of_nat (length (pb_payload p)) ->
  MQTTSerialize_publishLength m (pb_qos p) topicName payloadlen =
    Some (Z.of_nat (length (publish_body p))).
Proof.
  intros (_ & _ & _ & _ & Ht & Hl) Hm ->. unfold MQTTSerialize_publishLength.
  rewrite (MQTTstrlen_spec _ _ _ Hm Ht). cbn [mbind option_bind].
  rewrite length_publish_body in Hl |- *.
  destruct (Z.ltb_spec 0 (pb_qos p));
    rewrite cint_ok by (unfold INT_MIN, INT_MAX; lia); simpl;
    rewrite cint_ok by (unfold INT_MIN, INT_MAX; lia); simpl;
    rewrite ?cint_ok by (unfold INT_MIN, INT_MAX; lia); f_equal; lia.
Qed.

Lemma length_enc_publish_le p t :
  wf_publish p -> MQTTPacket_len (Z.of_nat (length (publish_body p))) = Some t ->
  Z.of_nat (length (enc_publish p)) <= t.
Proof.
  intros (_ & _ & _ & _ & _ & Hl) Ht.
  destruct (MQTTPacket_len_spec (Z.of_nat (length (publish_body p)))) as (t' & Ht' & ?); [lia|].
  unfold enc_publish. rewrite length_packet. simplify_eq. lia.
Qed.

Lemma emits_publish_body m0 b p topicName payload :
  wf_publish p -> publish_args m0 b p topicName payload ->
  emits b m0 (fun ptr =>
    ptr ← writeMQTTString ptr topicName;
    ptr ← (if 0 <? pb_qos p then writeInt ptr (pb_id p) else mret ptr);
    memcpy ptr payload (Z.of_nat (length (pb_payload p)));;
    mret (padd ptr (Z.of_nat (length (pb_payload p))))) (publish_body p).
Proof.
  intros (_ & _ & _ & Hid & Ht & _) (Hm & Ho & Hp & Hb).
  unfold publish_body. apply emits_bind; [by apply emits_writeMQTTString|].
  apply emits_bind; [|by apply emits_memcpy].
  apply (emits_if b m0 (0 <? pb_qos p) (fun ptr => writeInt ptr (pb_id p)) mret); auto with emits.
Qed.

Lemma MQTTSerialize_publish_spec m0 buf buflen p topicName payload t :
  wf_publish p -> publish_args m0 (p_blk buf) p topicName payload ->
  MQTTPacket_len (Z.of_nat (length (publish_body p))) = Some t ->
  MQTTSerialize_publish buf buflen (pb_dup p) (pb_qos p) (pb_retain p) (pb_id p) topicName
      payload (Z.of_nat (length (pb_payload p))) m0 =
    if t <=? buflen then stored m0 buf (enc_publish p) else Some (MQTTPACKET_BUFFER_TOO_SHORT, m0).
Proof.
  intros Hwf Ha Ht. pose proof (emits_publish_body m0 _ p topicName payload Hwf Ha) as Hbody.
  destruct Ha as (Hm & _). unfold MQTTSerialize_publish.
  erewrite M_bind_Some by done. rewrite (publishLength_spec m0 p) by done.
  erewrite M_bind_lift by done. rewrite Ht. erewrite M_bind_lift by done.
  destruct (Z.ltb_spec buflen t), (Z.leb_spec t buflen); try lia; [done|]. cbv zeta.
  rewrite header_fields. destruct Hwf as (Hd & Hq & Hrt & Hid & Hs & Hl).
  change (PUBLISH mod 16) with 3. rewrite !Z.mod_small by lia.
  apply (serialize_packet m0 (header _ _ _ _)); [apply header_byte; lia | done | unfold INT_MAX; lia | done].
Qed.

Lemma MQTTDeserialize_publish_spec m out buf buflen p :
  wf_publish p -> at_bytes m buf (enc_publish p) ->
  exists out', MQTTDeserialize_publish m out buf buflen = Some (1, out') /\ publish_den m out' p.
Proof.
  intros (Hd & Hq & Hr & Hid & Hs & Hl) Hat. unfold MQTTDeserialize_publish.
  destruct (header_get 3 (pb_dup p) (pb_qos p) (pb_retain p)) as (Et & Ed & Eq & Er); try lia.
  unfold enc_publish in Hat.
  read_packet Hat Hbody k Hk; [|by apply header_byte; lia|done].
  rewrite Et, Ed, Eq, Er, Z.eqb_refl. msimpl. rewrite Hd0. msimpl.
  unfold publish_body in Hbody. apply at_bytes_app in Hbody as [Htop Hrest].
  rewrite length_publish_body in *.
  assert (Hq2 : 0 <= (if 0 <? pb_qos p then 2 else 0)) by (destruct (0 <? pb_qos p); lia).
  rewrite (readMQTTLenString_spec _ _ _ (pb_topic p)) by (try done; rewrite pdiff_padd_0; lia).
  change (1 =? 0) with false. msimpl. rewrite pdiff_padd.
  match goal with |- context [ ?x <? 0 ] => destruct (Z.ltb_spec x 0); [lia|] end.
  apply at_bytes_app in Hrest as [Hidb Hpay]. pose proof (mstr_read m _ _ Htop) as Hmt.
  rewrite length_wstr in Hidb, Hpay. rewrite (padd_padd (padd (padd buf 1) k)) in Hpay.
  destruct (Z.ltb_spec 0 (pb_qos p)).
  - rewrite (readInt_spec _ _ _ (proj1 Hid) Hidb). msimpl.
    eexists. split; [done|]. unfold publish_den. cbn [po_dup po_qos po_retained po_packetid po_topicName
      po_payloadlen po_payload]. rewrite to_ushort_id, (padd_padd (padd (padd buf 1) k)), pdiff_padd by lia.
    splits; auto; try lia. eexists. split; [done|exact Hpay].
  - msimpl. eexists. split; [done|]. unfold publish_den. cbn [po_dup po_qos po_retained po_packetid
      po_topicName po_payloadlen po_payload]. rewrite pdiff_padd.
    splits; auto; try lia. eexists. split; [done|]. by rewrite Z.add_0_r in Hpay.
Qed.

(** C34: serializing a PUBLISH into a buffer that is large enough by
    [MQTTPacket_len] and deserializing the result succeeds on both sides and
    returns the same flags, topic, packet identifier (for QoS above 0) and
    payload; no other block of memory changes. *)
Theorem publish_roundtrip m0 buf buflen p topicName payload t out :
  wf_publish p -> publish_args m0 (p_blk buf) p topicName payload -> room m0 buf buflen ->
  MQTTPacket_len (Z.of_nat (length (publish_body p))) = Some t -> t <= buflen ->
  exists m' rc out',
    MQTTSerialize_publish buf buflen (pb_dup p) (pb_qos p) (pb_retain p) (pb_id p) topicName
      payload (Z.of_nat (length (pb_payload p))) m0 = Some (rc, m') /\
    0 < rc <= buflen /\ agree_except (p_blk buf) m0 m' /\
    MQTTDeserialize_publish m' out buf rc = Some (1, out') /\ publish_den m' out' p.
Proof.
  intros Hwf Ha Hr Ht Hle. pose proof (length_enc_publish_le p t Hwf Ht) as Hlen.
  rewrite (MQTTSerialize_publish_spec m0 buf buflen p topicName payload t) by done.
  destruct (Z.leb_spec t buflen); [|lia].
  destruct (stored_room m0 buf (enc_publish p) buflen) as (m' & Hs & Hat & Hag); [done|lia|].
  destruct (MQTTDeserialize_publish_spec m' out buf (Z.of_nat (length (enc_publish p))) p)
    as (out' & Hd & Hden); [done..|].
  exists m', (Z.of_nat (length (enc_publish p))), out'. unfold enc_publish in *.
  splits; try done; rewrite length_packet in *; lia.
Qed.

(** C10: [MQTTSerialize_publish] implements the PUBLISH wire format: when
    [MQTTPacket_len] of the body fits [buflen], it stores exactly the bytes of the
    packet at [buf] and returns their number (undefined if the buffer is in truth
    smaller); otherwise it returns [MQTTPACKET_BUFFER_TOO_SHORT] and leaves memory
    as it was. *)
Theorem publish_serialize_refines m0 buf buflen p topicName payload t :
  wf_publish p -> publish_args m0 (p_blk buf) p topicName payload ->
  MQTTPacket_len (Z.of_nat (length (publish_body p))) = Some t ->
  MQTTSerialize_publish buf buflen (pb_dup p) (pb_qos p) (pb_retain p) (pb_id p) topicName
      payload (Z.of_nat (length (pb_payload p))) m0 =
    if t <=? buflen
    then m' ← store_bytes m0 buf (enc_publish p); Some (Z.of_nat (length (enc_publish p)), m')
    else Some (MQTTPACKET_BUFFER_TOO_SHORT, m0).
Proof. apply MQTTSerialize_publish_spec. Qed.

(** A PUBLISH whose topic length runs past the body is not parsed, but the
    returned code is the number of remaining-length bytes, because [rc] still
    holds the result of [MQTTPacket_decodeBuf]: for bodies below 128 bytes the
    code is 1, which callers take for success, and payload, payload length and
    packet identifier keep their old values. *)
Theorem publish_bad_topic_rc m out buf buflen h n rest :
  byte h -> hdr_type h = PUBLISH -> 0 <= n < 65536 -> Z.of_nat (length rest) < n ->
  at_bytes m buf (packet h (be16 n ++ rest)) ->
  exists out',
    MQTTDeserialize_publish m out buf buflen =
      Some (if Z.of_nat (length rest) + 2 <? 128 then 1
            else if Z.of_nat (length rest) + 2 <? 16384 then 2 else 3, out') /\
    po_payload out' = po_payload out /\ po_payloadlen out' = po_payloadlen out /\
    po_packetid out' = po_packetid out.
Proof.
  intros Hh Ht Hn Hrest Hat. unfold MQTTDeserialize_publish.
  assert (Hlen : Z.of_nat (length (be16 n ++ rest)) = Z.of_nat (length rest) + 2)
    by (rewrite length_app; unfold be16; simpl length; lia).
  read_packet Hat Hbody k Hk; [|done|lia].
  rewrite Ht, Z.eqb_refl. msimpl. rewrite Hd. msimpl. rewrite Hlen in *.
  apply at_bytes_app in Hbody as [Hi _].
  unfold readMQTTLenString. rewrite pdiff_padd_0. destruct (Z.ltb_spec 1 (Z.of_nat (length rest) + 2)); [|lia].
  rewrite (readInt_spec _ _ _ (proj1 Hn) Hi). msimpl.
  rewrite (padd_padd (padd (padd buf 1) k)), pdiff_padd.
  destruct (Z.leb_spec (2 + n - (Z.of_nat (length rest) + 2)) 0); [lia|]. msimpl.
  rewrite Z.eqb_refl. simpl orb. cbv iota. rewrite Hk, length_varint_exact by lia.
  destruct (Z.ltb_spec (Z.of_nat (length rest) + 2) 2097152); [|lia].
  eexists. split; [done|by cbn].
Qed.

(** A PUBLISH of QoS above 0 whose body ends right after the topic is
    accepted: the packet identifier is read from the two bytes behind the
    packet and the payload length handed out is -2. *)
Theorem publish_missing_packetid m out buf buflen h topic x y :
  byte h -> hdr_type h = PUBLISH -> 0 < hdr_qos h -> short topic ->
  at_bytes m buf (packet h (wstr topic) ++ [x; y]) ->
  exists out',
    MQTTDeserialize_publish m out buf buflen = Some (1, out') /\
    po_payloadlen out' = -2 /\ po_packetid out' = to_ushort (256 * x + y).
Proof.
  unfold short. intros Hh Ht Hq Hs Hat. apply at_bytes_app in Hat as [Hat Hxy].
  rewrite length_packet in Hxy. unfold MQTTDeserialize_publish.
  assert (Hlen : Z.of_nat (length (wstr topic)) = 2 + Z.of_nat (length topic)) by (rewrite length_wstr; lia).
  read_packet Hat Hbody k Hk; [|done|lia].
  rewrite Ht, Z.eqb_refl. msimpl. rewrite Hd. msimpl. rewrite Hlen in *.
  rewrite (readMQTTLenString_spec _ _ _ topic) by (try done; rewrite pdiff_padd_0; lia).
  change (1 =? 0) with false. msimpl. rewrite pdiff_padd.
  match goal with |- context [ ?x <? 0 ] => destruct (Z.ltb_spec x 0); [lia|] end.
  destruct (Z.ltb_spec 0 (hdr_qos h)); [|lia].
  replace (padd buf _) with (padd (padd (padd buf 1) k) (Z.of_nat (2 + length topic))) in Hxy
    by (rewrite !padd_padd, length_wstr; f_equal; lia).
  pose proof Hxy as Hy. apply at_bytes_cons in Hy as [_ Hy].
  unfold readInt. rewrite (at_bytes_load _ _ _ _ Hxy). msimpl. rewrite (at_bytes_load _ _ _ _ Hy). msimpl.
  eexists. splits; [done| |done]. cbn [po_payloadlen].
  rewrite (padd_padd (padd (padd buf 1) k)), pdiff_padd. lia.
Qed.

End Publish.

(** ** Acknowledgements *)
Section Ack.
Context `{CharAbi}.

Lemma length_be16_packet h id : length (packet h (be16 id)) = 4%nat.
Proof. done. Qed.

Lemma MQTTSerialize_ack_spec m0 buf buflen type dup id :
  0 <= type < 16 -> 0 <= dup < 2 -> 0 <= id < 65536 ->
  MQTTSerialize_ack buf buflen type dup id m0 =
    if buflen <? 4 then Some (MQTTPACKET_BUFFER_TOO_SHORT, m0) else stored m0 buf (enc_ack type dup id).
Proof.
  intros Ht Hd Hi. unfold MQTTSerialize_ack. destruct (Z.ltb_spec buflen 4); [done|]. cbv zeta.
  change (msg_code PUBREL) with 6.
  assert (Hq : 0 <= (if type =? 6 then 1 else 0) < 4) by (destruct (type =? 6); lia).
  rewrite header_fields3 by done. apply serialize_packet; try done; [|by apply emits_writeInt].
  apply header_byte; lia.
Qed.

Lemma MQTTDeserialize_ack_spec m out buf buflen type dup id :
  0 <= type < 16 -> 0 <= dup < 2 -> 0 <= id < 65536 -> at_bytes m buf (enc_ack type dup id) ->
  MQTTDeserialize_ack m out buf buflen = Some (1, mkAckOut type dup id).
Proof.
  intros Ht Hd Hi Hat. unfold MQTTDeserialize_ack, enc_ack in *.
  set (q := if type =? 6 then 1 else 0) in *.
  assert (Hq : 0 <= q < 4) by (unfold q; destruct (type =? 6); lia).
  destruct (header_get type dup q 0) as (Et & Ed & _); try lia.
  read_packet Hat Hbody k Hk; [|apply header_byte; lia|done].
  rewrite Et, Ed. msimpl. rewrite Hd0. msimpl. rewrite pdiff_padd_0.
  change (Z.of_nat (length (be16 id)) <? 2) with false. cbv iota.
  rewrite (readInt_spec _ _ _ (proj1 Hi) Hbody). msimpl. by rewrite to_ushort_id.
Qed.

(** The four-byte acknowledgements.  Given a buffer of at least four bytes,
    [MQTTSerialize_puback], [_pubrel] and [_pubcomp] write four bytes from which
    [MQTTDeserialize_ack] recovers type, DUP flag and packet identifier; given
    less they return [MQTTPACKET_BUFFER_TOO_SHORT] and write nothing. *)
Theorem acks_roundtrip m0 buf buflen dup id out :
  0 <= dup < 2 -> 0 <= id < 65536 -> room m0 buf buflen ->
  forall ser type d,
    In (ser, type, d)
      [(MQTTSerialize_puback buf buflen id, PUBACK, 0);
       (MQTTSerialize_pubrel buf buflen dup id, PUBREL, dup);
       (MQTTSerialize_pubcomp buf buflen id, PUBCOMP, 0)] ->
    if buflen <? 4 then ser m0 = Some (MQTTPACKET_BUFFER_TOO_SHORT, m0) else
    exists m', ser m0 = Some (4, m') /\ agree_except (p_blk buf) m0 m' /\
      MQTTDeserialize_ack m' out buf 4 = Some (1, mkAckOut type d id).
Proof.
  intros Hd Hi Hr ser type d Hin.
  assert (Hgen : forall (t : msgTypes) e, 0 <= t < 16 -> 0 <= e < 2 ->
    if buflen <? 4
    then MQTTSerialize_ack buf buflen t e id m0 = Some (MQTTPACKET_BUFFER_TOO_SHORT, m0) else
    exists m', MQTTSerialize_ack buf buflen t e id m0 = Some (4, m') /\ agree_except (p_blk buf) m0 m' /\
      MQTTDeserialize_ack m' out buf 4 = Some (1, mkAckOut t e id)).
  { intros t e Ht He. rewrite MQTTSerialize_ack_spec by done.
    destruct (Z.ltb_spec buflen 4) as [Hlt|Hge]; [done|].
    destruct (stored_room m0 buf (enc_ack t e id) buflen) as (m' & Hs & Hat & Hag);
      [done | unfold enc_ack; rewrite length_be16_packet; lia |].
    exists m'. splits; [done..|]. by apply MQTTDeserialize_ack_spec. }
  destruct Hin as [[= <- <- <-]|[[= <- <- <-]|[[= <- <- <-]|[]]]]; apply Hgen; simpl; lia.
Qed.

(** An acknowledgement whose body is shorter than the packet identifier is
    reported with return code 1, the code for success, and the caller's packet
    identifier is left as it was. *)
Theorem ack_truncated_rc m out buf buflen h body :
  byte h -> (length body < 2)%nat -> at_bytes m buf (packet h body) ->
  MQTTDeserialize_ack m out buf buflen =
    Some (1, mkAckOut (hdr_type h) (hdr_dup h) (ao_packetid out)).
Proof.
  intros Hh Hl Hat. unfold MQTTDeserialize_ack.
  read_packet Hat Hbody k Hk; [|done|lia]. msimpl. rewrite Hd. msimpl. rewrite pdiff_padd_0.
  destruct (Z.ltb_spec (Z.of_nat (length body)) 2); [|lia].
  rewrite Hk, length_varint_exact by lia.
  destruct (Z.ltb_spec (Z.of_nat (length body)) 128); [done|lia].
Qed.

End Ack.

(** ** Concrete instances *)

Definition ex_publish : publish := mkPublish 0 1 0 7 [116; 47; 97] [104; 105; 33].
Definition ex_string : MQTTString := mkMQTTString (Some ex_topic) 0 None.
Definition ex_out : publish_out := mkPublishOut 0 0 0 0 MQTTString_initializer None 0.

Lemma ex_wf_publish : wf_publish ex_publish.
Proof. unfold wf_publish, short. splits; by vm_compute. Qed.

Lemma ex_publish_args : publish_args ex_mem 0 ex_publish ex_string ex_payload.
Proof.
  split; [apply ex_mstr|]. split; [|by split; [vm_compute|]].
  split; intros p; [by intros [= <-]|done].
Qed.

Lemma publish_roundtrip_witness :
  exists m' rc out',
    MQTTSerialize_publish (H := x86_abi) ex_buf 64 0 1 0 7 ex_string ex_payload 3 ex_mem = Some (rc, m') /\
    0 < rc <= 64 /\ agree_except 0 ex_mem m' /\
    MQTTDeserialize_publish (H := x86_abi) m' ex_out ex_buf rc = Some (1, out') /\ publish_den m' out' ex_publish.
Proof.
  apply (publish_roundtrip (H := x86_abi) ex_mem ex_buf 64 ex_publish ex_string ex_payload 12 ex_out);
    [apply ex_wf_publish | apply ex_publish_args | by apply ex_room | by vm_compute | lia].
Defined.

Lemma publish_serialize_refines_witness :
  MQTTSerialize_publish (H := arm_abi) ex_buf 11 0 1 0 7 ex_string ex_payload 3 ex_mem =
    Some (MQTTPACKET_BUFFER_TOO_SHORT, ex_mem).
Proof.
  apply (publish_serialize_refines (H := arm_abi) ex_mem ex_buf 11 ex_publish ex_string ex_payload 12);
    [apply ex_wf_publish | apply ex_publish_args | by vm_compute].
Defined.

Lemma publish_bad_topic_rc_witness :
  exists out',
    MQTTDeserialize_publish (H := x86_abi) (ex_packet [48; 3; 0; 9; 1]) ex_out ex_buf 5 = Some (1, out') /\
    po_payload out' = None /\ po_payloadlen out' = 0 /\ po_packetid out' = 0.
Proof.
  apply (publish_bad_topic_rc (H := x86_abi) (ex_packet [48; 3; 0; 9; 1]) ex_out ex_buf 5 48 9 [1]);
    [by unfold byte | by vm_compute | lia | simpl; lia | by vm_compute].
Defined.

Lemma publish_missing_packetid_witness :
  exists out',
    MQTTDeserialize_publish (H := x86_abi) (ex_packet [50; 3; 0; 1; 97; 192; 0]) ex_out ex_buf 5 = Some (1, out') /\
    po_payloadlen out' = -2 /\ po_packetid out' = 49152.
Proof.
  apply (publish_missing_packetid (H := x86_abi) (ex_packet [50; 3; 0; 1; 97; 192; 0]) ex_out ex_buf 5 50 [97] 192 0);
    [by unfold byte | by vm_compute | by vm_compute | unfold short; simpl; lia | by vm_compute].
Defined.

Lemma acks_roundtrip_witness :
  exists m', MQTTSerialize_pubrel (H := x86_abi) ex_buf 4 1 258 ex_mem = Some (4, m') /\ agree_except 0 ex_mem m' /\
    MQTTDeserialize_ack (H := x86_abi) m' (mkAckOut 0 0 0) ex_buf 4 = Some (1, mkAckOut 6 1 258).
Proof.
  refine (acks_roundtrip (H := x86_abi) ex_mem ex_buf 4 1 258 (mkAckOut 0 0 0) _ _ _
    (MQTTSerialize_pubrel (H := x86_abi) ex_buf 4 1 258) PUBREL 1 _);
    [lia | lia | by apply ex_room | by right; left].
Defined.

Lemma ack_truncated_rc_witness :
  MQTTDeserialize_ack (H := x86_abi) (ex_packet [64; 1; 0]) (mkAckOut 0 0 77) ex_buf 3 = Some (1, mkAckOut 4 0 77).
Proof.
  apply (ack_truncated_rc (H := x86_abi) (ex_packet [64; 1; 0]) (mkAckOut 0 0 77) ex_buf 3 64 [0]);
    [by unfold byte | simpl; lia | by vm_compute].
Defined.
