(* ===== verification/Connect.v ===== *)
(** * Connect: MQTTConnect.h, MQTTConnectClient.c and MQTTConnectServer.c

    CONNECT and CONNACK, written and read, and the packets without a body. *)
From S2P Require Import Prelude CMem Wire Packet.

(** ** Data *)

(** [MQTTConnectFlags] (the branch without [REVERSED]; bit 0 is unused). *)
Definition cf_cleansession (f : Z) : Z := bf_get 1 1 f.
Definition cf_will (f : Z) : Z := bf_get 2 1 f.
Definition cf_willQoS (f : Z) : Z := bf_get 3 2 f.
Definition cf_willRetain (f : Z) : Z := bf_get 5 1 f.
Definition cf_password (f : Z) : Z := bf_get 6 1 f.
Definition cf_username (f : Z) : Z := bf_get 7 1 f.

(** [MQTTConnackFlags]: seven unused bits, then [sessionpresent]. *)
Definition ck_sessionpresent (f : Z) : Z := bf_get 7 1 f.
Definition set_ck_sessionpresent (v f : Z) : Z := bf_set 7 1 v f.

Record MQTTPacket_willOptions := mkWillOptions {
  w_struct_id : list Z; w_struct_version : Z;
  topicName : MQTTString; message : MQTTString; retained : Z; qos : Z
}.

Record MQTTPacket_connectData := mkConnectData {
  struct_id : list Z; struct_version : Z; MQTTVersion : Z; clientID : MQTTString;
  keepAliveInterval : Z; cleansession : Z; willFlag : Z; will : MQTTPacket_willOptions;
  username : MQTTString; password : MQTTString
}.

Definition MQTTPacket_willOptions_initializer : MQTTPacket_willOptions :=
  mkWillOptions [77; 81; 84; 87] 0 MQTTString_initializer MQTTString_initializer 0 0.

Definition MQTTPacket_connectData_initializer : MQTTPacket_connectData :=
  mkConnectData [77; 81; 84; 67] 0 4 MQTTString_initializer 60 1 0
    MQTTPacket_willOptions_initializer MQTTString_initializer MQTTString_initializer.

(** Assignments to single members. *)
Definition set_session (d : MQTTPacket_connectData) (clean keep : Z) : MQTTPacket_connectData :=
  mkConnectData (struct_id d) (struct_version d) (MQTTVersion d) (clientID d) keep clean
    (willFlag d) (will d) (username d) (password d).
Definition set_clientID (d : MQTTPacket_connectData) (x : MQTTString) : MQTTPacket_connectData :=
  mkConnectData (struct_id d) (struct_version d) (MQTTVersion d) x (keepAliveInterval d)
    (cleansession d) (willFlag d) (will d) (username d) (password d).
Definition set_will (d : MQTTPacket_connectData) (f : Z) (w : MQTTPacket_willOptions) : MQTTPacket_connectData :=
  mkConnectData (struct_id d) (struct_version d) (MQTTVersion d) (clientID d) (keepAliveInterval d)
    (cleansession d) f w (username d) (password d).
Definition set_username (d : MQTTPacket_connectData) (x : MQTTString) : MQTTPacket_connectData :=
  mkConnectData (struct_id d) (struct_version d) (MQTTVersion d) (clientID d) (keepAliveInterval d)
    (cleansession d) (willFlag d) (will d) x (password d).
Definition set_password (d : MQTTPacket_connectData) (x : MQTTString) : MQTTPacket_connectData :=
  mkConnectData (struct_id d) (struct_version d) (MQTTVersion d) (clientID d) (keepAliveInterval d)
    (cleansession d) (willFlag d) (will d) (username d) x.
Definition set_w_flags (w : MQTTPacket_willOptions) (q r : Z) : MQTTPacket_willOptions :=
  mkWillOptions (w_struct_id w) (w_struct_version w) (topicName w) (message w) r q.
Definition set_w_topic (w : MQTTPacket_willOptions) (x : MQTTString) : MQTTPacket_willOptions :=
  mkWillOptions (w_struct_id w) (w_struct_version w) x (message w) (retained w) (qos w).
Definition set_w_message (w : MQTTPacket_willOptions) (x : MQTTString) : MQTTPacket_willOptions :=
  mkWillOptions (w_struct_id w) (w_struct_version w) (topicName w) x (retained w) (qos w).

(** [x.cstring || x.lenstring.data] *)
Definition present (x : MQTTString) : bool :=
  match cstring x, lenstring_data x with None, None => false | _, _ => true end.

Section Definitions.
Context `{CharAbi}.

(** ** Client side *)

Definition MQTTSerialize_connectLength (m : mem) (o : MQTTPacket_connectData) : option Z :=
  let len := if MQTTVersion o =? 3 then 12 else if MQTTVersion o =? 4 then 10 else 0 in
  n ← MQTTstrlen m (clientID o); n ← cint (n + 2); len ← cint (len + n);
  len ← (if willFlag o =? 0 then Some len else
         t ← MQTTstrlen m (topicName (will o)); t ← cint (t + 2);
         g ← MQTTstrlen m (message (will o)); t ← cint (t + g); t ← cint (t + 2); cint (len + t));
  len ← (if present (username o)
         then n ← MQTTstrlen m (username o); n ← cint (n + 2); cint (len + n) else Some len);
  if present (password o)
  then n ← MQTTstrlen m (password o); n ← cint (n + 2); cint (len + n) else Some len.

(** [writeCString] applied to a string literal. *)
Definition writeCString_literal (pptr : ptr) (lit : list Z) : M mem ptr :=
  pptr ← writeInt pptr (Z.of_nat (length lit));
  stores pptr lit;; mret (padd pptr (Z.of_nat (length lit))).

(** The flag byte assembled by [MQTTSerialize_connect]. *)
Definition flags_of (o : MQTTPacket_connectData) : Z :=
  let flags := bf_set 1 1 (cleansession o) 0 in
  let flags := bf_set 2 1 (if willFlag o =? 0 then 0 else 1) flags in
  let flags := if cf_will flags =? 0 then flags
               else bf_set 5 1 (retained (will o)) (bf_set 3 2 (qos (will o)) flags) in
  let flags := if present (username o) then bf_set 7 1 1 flags else flags in
  if present (password o) then bf_set 6 1 1 flags else flags.

Definition MQTTSerialize_connect (buf : ptr) (buflen : Z) (options : MQTTPacket_connectData) : M mem Z :=
  m ← get;
  len ← lift (MQTTSerialize_connectLength m options);
  total ← lift (MQTTPacket_len len);
  if buflen <? total then mret MQTTPACKET_BUFFER_TOO_SHORT else
  let flags := flags_of options in
  ptr ← (ptr ← writeChar buf (set_hdr_type CONNECT 0);
         ptr ← (n ← MQTTPacket_encode ptr len; mret (padd ptr n));
         ptr ← (if MQTTVersion options =? 4
                then ptr ← writeCString_literal ptr MQTT; writeChar ptr 4
                else ptr ← writeCString_literal ptr MQIsdp; writeChar ptr 3);
         ptr ← writeChar ptr flags;
         ptr ← writeInt ptr (keepAliveInterval options);
         ptr ← writeMQTTString ptr (clientID options);
         ptr ← (if negb (willFlag options =? 0)
                then ptr ← writeMQTTString ptr (topicName (will options));
                     writeMQTTString ptr (message (will options))
                else mret ptr);
         ptr ← (if negb (cf_username flags =? 0) then writeMQTTString ptr (username options) else mret ptr);
         if negb (cf_password flags =? 0) then writeMQTTString ptr (password options) else mret ptr);
  mret (pdiff ptr buf).

(** [*sessionPresent] and [*connack_rc] are passed in and returned. *)
Definition MQTTDeserialize_connack (m : mem) (sessionPresent connack_rc : Z) (buf : ptr) (buflen : Z)
    : option (Z * Z * Z) :=
  '(c, curdata) ← readChar m buf;
  let header := to_uchar c in
  if negb (hdr_type header =? CONNACK) then Some (0, sessionPresent, connack_rc) else
  '(rc, mylen) ← MQTTPacket_decodeBuf m curdata;
  let curdata := padd curdata rc in
  let enddata := padd curdata mylen in
  if pdiff enddata curdata <? 2 then Some (rc, sessionPresent, connack_rc) else
  '(f, curdata) ← readChar m curdata;
  let sessionPresent := ck_sessionpresent (to_uchar f) in
  '(r, curdata) ← readChar m curdata;
  Some (1, sessionPresent, to_uchar r).

Definition MQTTSerialize_zero (buf : ptr) (buflen packettype : Z) : M mem Z :=
  if buflen <? 2 then mret MQTTPACKET_BUFFER_TOO_SHORT else
  ptr ← (ptr ← writeChar buf (set_hdr_type packettype 0);
         n ← MQTTPacket_encode ptr 0; mret (padd ptr n));
  mret (pdiff ptr buf).

Definition MQTTSerialize_disconnect (buf : ptr) (buflen : Z) : M mem Z :=
  MQTTSerialize_zero buf buflen DISCONNECT.

Definition MQTTSerialize_pingreq (buf : ptr) (buflen : Z) : M mem Z :=
  MQTTSerialize_zero buf buflen PINGREQ.

(** ** Server side *)

(** [memcmp(p, lit, n) == 0] *)
Definition memcmp_eq (m : mem) (p : option ptr) (lit : list Z) (n : Z) : option bool :=
  p ← p; bs ← load_bytes m p n; Some (bool_decide (bs = take (Z.to_nat n) lit)).

Definition MQTTPacket_checkVersion (m : mem) (protocol : MQTTString) (version : Z) : option bool :=
  a ← (if version =? 3
       then memcmp_eq m (lenstring_data protocol) MQIsdp (Z.min 6 (lenstring_len protocol))
       else Some false);
  if (a : bool) then Some true else
  if version =? 4
  then memcmp_eq m (lenstring_data protocol) MQTT (Z.min 4 (lenstring_len protocol))
  else Some false.

(** The part of [MQTTDeserialize_connect] that reads the will; [false]: [goto exit]. *)
Definition deserialize_will (m : mem) (d : MQTTPacket_connectData) (flags : Z) (curdata enddata : ptr)
    : option (bool * MQTTPacket_connectData * ptr) :=
  let d := set_will d (cf_will flags) (will d) in
  if cf_will flags =? 0 then Some (true, d, curdata) else
  let d := set_will d (willFlag d) (set_w_flags (will d) (cf_willQoS flags) (cf_willRetain flags)) in
  '(ok, x, curdata) ← readMQTTLenString m (topicName (will d)) curdata enddata;
  let d := set_will d (willFlag d) (set_w_topic (will d) x) in
  if ok =? 0 then Some (false, d, curdata) else
  '(ok, x, curdata) ← readMQTTLenString m (message (will d)) curdata enddata;
  let d := set_will d (willFlag d) (set_w_message (will d) x) in
  Some (negb (ok =? 0), d, curdata).

(** The part that reads user name and password; [false]: [goto exit]. *)
Definition deserialize_credentials (m : mem) (d : MQTTPacket_connectData) (flags : Z) (curdata enddata : ptr)
    : option (bool * MQTTPacket_connectData) :=
  if cf_username flags =? 0 then Some (cf_password flags =? 0, d) else
  if pdiff enddata curdata <? 3 then Some (false, d) else
  '(ok, x, curdata) ← readMQTTLenString m (username d) curdata enddata;
  let d := set_username d x in
  if ok =? 0 then Some (false, d) else
  if cf_password flags =? 0 then Some (true, d) else
  if pdiff enddata curdata <? 3 then Some (false, d) else
  '(ok, x, curdata) ← readMQTTLenString m (password d) curdata enddata;
  Some (negb (ok =? 0), set_password d x).

Definition MQTTDeserialize_connect (m : mem) (data : MQTTPacket_connectData) (buf : ptr) (len : Z)
    : option (Z * MQTTPacket_connectData) :=
  let enddata := padd buf len in
  '(c, curdata) ← readChar m buf;
  let header := to_uchar c in
  if negb (hdr_type header =? CONNECT) then Some (0, data) else
  '(n, mylen) ← MQTTPacket_decodeBuf m curdata;
  let curdata := padd curdata n in
  '(ok, Protocol, curdata) ← readMQTTLenString m MQTTString_initializer curdata enddata;
  if (ok =? 0) || (pdiff enddata curdata <? 0) then Some (0, data) else
  '(version, curdata) ← readChar m curdata;
  good ← MQTTPacket_checkVersion m Protocol version;
  if negb good then Some (0, data) else
  '(f, curdata) ← readChar m curdata;
  let flags := to_uchar f in
  '(keep, curdata) ← readInt m curdata;
  let data := set_session data (cf_cleansession flags) (to_ushort keep) in
  '(ok, x, curdata) ← readMQTTLenString m (clientID data) curdata enddata;
  let data := set_clientID data x in
  if ok =? 0 then Some (0, data) else
  '(ok, data, curdata) ← deserialize_will m data flags curdata enddata;
  if negb ok then Some (0, data) else
  '(ok, data) ← deserialize_credentials m data flags curdata enddata;
  Some (if (ok : bool) then 1 else 0, data).

Definition MQTTSerialize_connack (buf : ptr) (buflen connack_rc sessionPresent : Z) : M mem Z :=
  if buflen <? 2 then mret MQTTPACKET_BUFFER_TOO_SHORT else
  ptr ← (ptr ← writeChar buf (set_hdr_type CONNACK 0);
         ptr ← (n ← MQTTPacket_encode ptr 2; mret (padd ptr n));
         ptr ← writeChar ptr (set_ck_sessionpresent sessionPresent 0);
         writeChar ptr connack_rc);
  mret (pdiff ptr buf).

End Definitions.

(** ** Denotations *)

Definition opt_arg (m : mem) (b : nat) (x : MQTTString) (s : option (list Z)) : Prop :=
  match s with Some s => present x = true /\ mstr_in m b x s | None => present x = false end.

Definition will_arg (m : mem) (b : nat) (o : MQTTPacket_connectData) (w : option Wire.will) : Prop :=
  match w with
  | Some w => willFlag o <> 0 /\ qos (will o) = wl_qos w /\ retained (will o) = wl_retain w /\
              mstr_in m b (topicName (will o)) (wl_topic w) /\ mstr_in m b (message (will o)) (wl_message w)
  | None => willFlag o = 0
  end.

(** The options stand for the packet [c], through memory outside block [b]:
    all members but the version, and with it. *)
Definition connect_members (m : mem) (b : nat) (o : MQTTPacket_connectData) (c : connect) : Prop :=
  cleansession o = cn_clean c /\ keepAliveInterval o = cn_keepalive c /\
  mstr_in m b (clientID o) (cn_client c) /\ will_arg m b o (cn_will c) /\
  opt_arg m b (username o) (cn_user c) /\ opt_arg m b (password o) (cn_pass c).

Definition connect_args (m : mem) (b : nat) (o : MQTTPacket_connectData) (c : connect) : Prop :=
  MQTTVersion o = cn_version c /\ connect_members m b o c.

(** A member filled from the packet, or left as it was in [x0]. *)
Definition opt_den (m : mem) (x0 x : MQTTString) (s : option (list Z)) : Prop :=
  match s with Some s => mstr m x s | None => x = x0 end.

Definition will_den (m : mem) (d0 d : MQTTPacket_connectData) (w : option Wire.will) : Prop :=
  match w with
  | Some w => qos (will d) = wl_qos w /\ retained (will d) = wl_retain w /\
              mstr m (topicName (will d)) (wl_topic w) /\ mstr m (message (will d)) (wl_message w)
  | None => will d = will d0
  end.

(** What [MQTTDeserialize_connect] leaves in the structure that held [d0]. *)
Definition connect_den (m : mem) (d0 d : MQTTPacket_connectData) (c : connect) : Prop :=
  cleansession d = cn_clean c /\ keepAliveInterval d = cn_keepalive c /\
  mstr m (clientID d) (cn_client c) /\ willFlag d = flag (cn_will c) /\ will_den m d0 d (cn_will c) /\
  opt_den m (username d0) (username d) (cn_user c) /\ opt_den m (password d0) (password d) (cn_pass c) /\
  MQTTVersion d = MQTTVersion d0.

(** ** The flag byte *)

Definition flags_num (u p r q w cl : Z) : Z := u * 128 + p * 64 + r * 32 + q * 8 + w * 4 + cl * 2.

Lemma connect_flags_num c :
  connect_flags c =
    flags_num (flag (cn_user c)) (flag (cn_pass c)) (from_option wl_retain 0 (cn_will c))
      (from_option wl_qos 0 (cn_will c)) (flag (cn_will c)) (cn_clean c).
Proof. unfold connect_flags, flags_num. destruct (cn_will c); simpl; lia. Qed.

Lemma flags_num_get u p r q w cl :
  0 <= u < 2 -> 0 <= p < 2 -> 0 <= r < 2 -> 0 <= q < 4 -> 0 <= w < 2 -> 0 <= cl < 2 ->
  cf_username (flags_num u p r q w cl) = u /\ cf_password (flags_num u p r q w cl) = p /\
  cf_willRetain (flags_num u p r q w cl) = r /\ cf_willQoS (flags_num u p r q w cl) = q /\
  cf_will (flags_num u p r q w cl) = w /\ cf_cleansession (flags_num u p r q w cl) = cl.
Proof.
  intros Hu Hp Hr Hq Hw Hc.
  set (P := fun u p r q w cl => let f := flags_num u p r q w cl in
    (cf_username f =? u) && (cf_password f =? p) && (cf_willRetain f =? r) && (cf_willQoS f =? q) &&
    (cf_will f =? w) && (cf_cleansession f =? cl)).
  assert (Hall : forallb (fun u => forallb (fun p => forallb (fun r => forallb (fun q =>
    forallb (fun w => forallb (P u p r q w) (seqZ 0 2)) (seqZ 0 2)) (seqZ 0 4)) (seqZ 0 2))
    (seqZ 0 2)) (seqZ 0 2) = true) by by vm_compute.
  pose proof (byte_forallb _ _ _ (byte_forallb _ _ _ (byte_forallb _ _ _ (byte_forallb _ _ _
    (byte_forallb _ _ _ (byte_forallb _ _ _ Hall Hu) Hp) Hr) Hq) Hw) Hc) as HP.
  unfold P in HP. rewrite !andb_true_iff, !Z.eqb_eq in HP. tauto.
Qed.

Lemma flag_range {A} (o : option A) : 0 <= flag o < 2.
Proof. destruct o; simpl; lia. Qed.

Lemma wf_will_range c :
  wf_connect c -> 0 <= from_option wl_retain 0 (cn_will c) < 2 /\ 0 <= from_option wl_qos 0 (cn_will c) < 4.
Proof.
  intros (_ & _ & _ & _ & Hw & _). destruct (cn_will c) as [w|]; simpl; [|lia].
  destruct (Hw w eq_refl) as (? & ? & _). lia.
Qed.

Lemma connect_flags_get c :
  wf_connect c ->
  cf_username (connect_flags c) = flag (cn_user c) /\ cf_password (connect_flags c) = flag (cn_pass c) /\
  cf_willRetain (connect_flags c) = from_option wl_retain 0 (cn_will c) /\
  cf_willQoS (connect_flags c) = from_option wl_qos 0 (cn_will c) /\
  cf_will (connect_flags c) = flag (cn_will c) /\ cf_cleansession (connect_flags c) = cn_clean c.
Proof.
  intros Hwf. destruct (wf_will_range c Hwf). rewrite connect_flags_num.
  destruct Hwf as (_ & Hc & _). apply flags_num_get; auto using flag_range.
Qed.

Lemma connect_flags_byte c : wf_connect c -> byte (connect_flags c).
Proof.
  intros Hwf. destruct (wf_will_range c Hwf). rewrite connect_flags_num.
  destruct Hwf as (_ & Hc & _).
  pose proof (flag_range (cn_user c)). pose proof (flag_range (cn_pass c)). pose proof (flag_range (cn_will c)).
  unfold flags_num, byte. lia.
Qed.

Lemma flags_of_spec m b o c : wf_connect c -> connect_members m b o c -> flags_of o = connect_flags c.
Proof.
  intros Hwf (Hcl & _ & _ & Hw & Hu & Hp). destruct (wf_will_range c Hwf) as [Hr Hq].
  destruct Hwf as (_ & Hc & _). rewrite connect_flags_num.
  assert (Eu : present (username o) = negb (flag (cn_user c) =? 0)) by (destruct (cn_user c); simpl in *; tauto).
  assert (Ep : present (password o) = negb (flag (cn_pass c) =? 0)) by (destruct (cn_pass c); simpl in *; tauto).
  assert (Ew : (willFlag o =? 0) = (flag (cn_will c) =? 0)).
  { destruct (cn_will c); simpl in *; [|by rewrite Hw].
    destruct (Z.eqb_spec (willFlag o) 0); [tauto|done]. }
  unfold flags_of. rewrite Eu, Ep, Ew, Hcl.
  set (P := fun u p r q w cl =>
    let f := bf_set 2 1 (if w =? 0 then 0 else 1) (bf_set 1 1 cl 0) in
    let f := if cf_will f =? 0 then f else bf_set 5 1 r (bf_set 3 2 q f) in
    let f := if negb (u =? 0) then bf_set 7 1 1 f else f in
    let f := if negb (p =? 0) then bf_set 6 1 1 f else f in
    f =? flags_num u p (if w =? 0 then 0 else r) (if w =? 0 then 0 else q) w cl).
  assert (Hall : forallb (fun u => forallb (fun p => forallb (fun r => forallb (fun q =>
    forallb (fun w => forallb (P u p r q w) (seqZ 0 2)) (seqZ 0 2)) (seqZ 0 4)) (seqZ 0 2))
    (seqZ 0 2)) (seqZ 0 2) = true) by by vm_compute.
  pose proof (byte_forallb _ _ _ (byte_forallb _ _ _ (byte_forallb _ _ _ (byte_forallb _ _ _
    (byte_forallb _ _ _ (byte_forallb _ _ _ Hall (flag_range (cn_user c))) (flag_range (cn_pass c)))
    Hr) Hq) (flag_range (cn_will c))) Hc) as HP.
  unfold P in HP. apply Z.eqb_eq in HP.
  destruct (cn_will c) as [w|]; simpl in *.
  - destruct Hw as (_ & -> & -> & _). exact HP.
  - unfold cf_will in *. rewrite bf_get_set_eq in * by lia. exact HP.
Qed.

(** ** Serializing CONNECT *)
Section Connect.
Context `{CharAbi}.

Lemma connectLength_members m b o c :
  wf_connect c -> connect_members m b o c ->
  MQTTSerialize_connectLength m o =
    Some ((if MQTTVersion o =? 3 then 12 else if MQTTVersion o =? 4 then 10 else 0) +
          Z.of_nat (length (connect_payload c))).
Proof.
  intros Hwf Ha. destruct (connect_body_small c Hwf) as (Hwl & Hul & Hpl & _).
  destruct Hwf as (Hv & _ & _ & Hc & Hw & Hu & Hp).
  destruct Ha as (_ & _ & [Hcm _] & Hwa & Hua & Hpa).
  rewrite length_connect_payload.
  unfold MQTTSerialize_connectLength. rewrite (MQTTstrlen_spec _ _ _ Hcm Hc).
  unfold short in Hc. assert (Hci : forall z, 0 <= z < 1000000 -> cint z = Some z)
    by (intros; apply cint_ok; unfold INT_MIN, INT_MAX; lia).
  set (base := if MQTTVersion o =? 3 then 12 else if MQTTVersion o =? 4 then 10 else 0).
  assert (0 <= base <= 12) by (unfold base; repeat case_match; lia). clearbody base.
  msimpl. rewrite !Hci by lia. msimpl. rewrite !Hci by lia. msimpl.
  set (l0 := base + (Z.of_nat (length (cn_client c)) + 2)).
  assert (Ew : (if willFlag o =? 0 then Some l0 else
      t ← MQTTstrlen m (topicName (will o)); t ← cint (t + 2);
      g ← MQTTstrlen m (message (will o)); t ← cint (t + g); t ← cint (t + 2); cint (l0 + t)) =
    Some (l0 + will_len (cn_will c))).
  { destruct (cn_will c) as [w|]; simpl in Hwa, Hwl |- *.
    - destruct Hwa as (Hf & _ & _ & [Ht _] & [Hm _]). destruct (Hw w eq_refl) as (_ & _ & Hst & Hsm).
      destruct (Z.eqb_spec (willFlag o) 0); [done|].
      rewrite (MQTTstrlen_spec _ _ _ Ht Hst), (MQTTstrlen_spec _ _ _ Hm Hsm). msimpl.
      rewrite Hci by lia. msimpl. rewrite Hci by lia. msimpl. rewrite Hci by lia. msimpl.
      rewrite Hci by lia. f_equal. lia.
    - rewrite Hwa. simpl. f_equal. lia. }
  assert (Eo : forall x s l, opt_arg m b x s -> (forall s', s = Some s' -> short s') -> 0 <= l < 400000 ->
    (if present x then n ← MQTTstrlen m x; n ← cint (n + 2); cint (l + n) else Some l) =
    Some (l + opt_len s)).
  { intros x [s|] l Hx Hs Hl; simpl in Hx |- *.
    - destruct Hx as (-> & Hm & _). rewrite (MQTTstrlen_spec _ _ _ Hm (Hs s eq_refl)). msimpl.
      specialize (Hs s eq_refl). unfold short in Hs.
      rewrite Hci by lia. msimpl. rewrite Hci by lia. f_equal. lia.
    - rewrite Hx. f_equal. lia. }
  rewrite Ew. msimpl. rewrite (Eo _ (cn_user c)) by (try done; lia). msimpl.
  rewrite (Eo _ (cn_pass c)) by (try done; lia). unfold l0. f_equal. lia.
Qed.

Lemma connectLength_spec m b o c :
  wf_connect c -> connect_args m b o c ->
  MQTTSerialize_connectLength m o = Some (Z.of_nat (length (connect_body c))).
Proof.
  intros Hwf (Ev & Ha). rewrite (connectLength_members m b o c Hwf Ha), Ev.
  destruct Hwf as (Hv & _). rewrite length_connect_body by done. by destruct Hv as [-> | ->].
Qed.

Lemma emits_literal b m0 lit :
  short lit -> emits b m0 (fun p => writeCString_literal p lit) (wstr lit).
Proof.
  unfold short. intros Hl. unfold writeCString_literal, wstr. apply emits_bind; [|apply emits_stores].
  apply emits_writeInt. lia.
Qed.

Lemma emits_opt b m0 x s f :
  opt_arg m0 b x s -> (forall s', s = Some s' -> short s') -> f = flag s ->
  emits b m0 (fun p => if negb (f =? 0) then writeMQTTString p x else mret p) (of_opt wstr s).
Proof.
  intros Hx Hs ->. unfold of_opt. destruct s as [s|]; cbn [from_option]; [|apply emits_ret].
  destruct Hx as (_ & Hm & Ho). apply emits_writeMQTTString; auto.
Qed.

Lemma emits_will b m0 o w :
  will_arg m0 b o w -> (forall w', w = Some w' -> short (wl_topic w') /\ short (wl_message w')) ->
  emits b m0 (fun p => if negb (willFlag o =? 0)
                       then p ← writeMQTTString p (topicName (will o)); writeMQTTString p (message (will o))
                       else mret p)
    (of_opt (fun w => wstr (wl_topic w) ++ wstr (wl_message w)) w).
Proof.
  intros Hw Hs. unfold of_opt. destruct w as [w|]; cbn [will_arg from_option] in *.
  - destruct Hw as (Hf & _ & _ & [Ht Hto] & [Hm Hmo]). destruct (Hs w eq_refl).
    destruct (Z.eqb_spec (willFlag o) 0); [done|]. cbn [negb].
    apply emits_bind; by apply emits_writeMQTTString.
  - rewrite Hw. apply emits_ret.
Qed.

Lemma emits_protocol b m0 o c :
  (cn_version c = 3 \/ cn_version c = 4) -> MQTTVersion o = cn_version c ->
  emits b m0 (fun p => if MQTTVersion o =? 4
                       then p ← writeCString_literal p MQTT; writeChar p 4
                       else p ← writeCString_literal p MQIsdp; writeChar p 3)
    (wstr (protocol (cn_version c)) ++ [cn_version c]).
Proof.
  intros Hv ->. unfold protocol.
  destruct Hv as [-> | ->]; cbn [Z.eqb Pos.eqb];
    apply emits_bind; [by apply emits_literal | by apply emits_writeChar_byte
                      | by apply emits_literal | by apply emits_writeChar_byte].
Qed.

(** Everything behind the protocol name and level. *)
Lemma emits_members b m0 o c :
  wf_connect c -> connect_members m0 b o c ->
  emits b m0 (fun ptr =>
    ptr ← writeChar ptr (flags_of o);
    ptr ← writeInt ptr (keepAliveInterval o);
    ptr ← writeMQTTString ptr (clientID o);
    ptr ← (if negb (willFlag o =? 0)
           then ptr ← writeMQTTString ptr (topicName (will o)); writeMQTTString ptr (message (will o))
           else mret ptr);
    ptr ← (if negb (cf_username (flags_of o) =? 0) then writeMQTTString ptr (username o) else mret ptr);
    if negb (cf_password (flags_of o) =? 0) then writeMQTTString ptr (password o) else mret ptr)
    (connect_flags c :: be16 (cn_keepalive c) ++ connect_payload c).
Proof.
  intros Hwf Ha. pose proof (connect_flags_get c Hwf) as (Eu & Ep & _ & _ & Ew & _).
  rewrite (flags_of_spec m0 b o c Hwf Ha), Eu, Ep. pose proof (connect_flags_byte c Hwf) as Hfb.
  destruct Hwf as (Hv & _ & Hk & Hc & Hw & Hu & Hp).
  destruct Ha as (_ & Ek & [Hcm Hco] & Hwa & Hua & Hpa).
  change (connect_flags c :: ?x) with ([connect_flags c] ++ x).
  apply emits_bind; [by apply emits_writeChar_byte|].
  apply emits_bind; [rewrite Ek; by apply emits_writeInt|].
  unfold connect_payload. apply emits_bind; [by apply emits_writeMQTTString|].
  apply emits_bind; [|apply emits_bind; by apply emits_opt].
  apply emits_will; [done|]. intros w' Hw'. destruct (Hw w' Hw') as (_ & _ & ? & ?). done.
Qed.

Lemma MQTTSerialize_connect_spec m0 buf buflen o c t :
  wf_connect c -> connect_args m0 (p_blk buf) o c ->
  MQTTPacket_len (Z.of_nat (length (connect_body c))) = Some t ->
  MQTTSerialize_connect buf buflen o m0 =
    if t <=? buflen then stored m0 buf (enc_connect c) else Some (MQTTPACKET_BUFFER_TOO_SHORT, m0).
Proof.
  intros Hwf Ha Ht. pose proof (connect_body_small c Hwf) as (_ & _ & _ & Hsmall).
  pose proof (connectLength_spec m0 _ o c Hwf Ha) as Hl. destruct Ha as (Ev & Ha).
  unfold MQTTSerialize_connect. erewrite M_bind_Some by done. rewrite Hl.
  erewrite M_bind_lift by done. rewrite Ht. erewrite M_bind_lift by done.
  destruct (Z.leb_spec t buflen); destruct (Z.ltb_spec buflen t); try lia; [|done]. cbv zeta.
  change (set_hdr_type CONNECT 0) with 16.
  apply serialize_packet; [done | done | unfold INT_MAX; lia |].
  unfold connect_body. change (cn_version c :: ?x) with ([cn_version c] ++ x).
  rewrite app_assoc. apply emits_bind; [|by apply emits_members].
  destruct Hwf as (Hv & _). by apply emits_protocol.
Qed.

Lemma length_enc_connect_le c t :
  wf_connect c -> MQTTPacket_len (Z.of_nat (length (connect_body c))) = Some t ->
  0 < Z.of_nat (length (enc_connect c)) <= t.
Proof.
  intros Hwf Ht. pose proof (connect_body_small c Hwf) as (_ & _ & _ & Hl).
  destruct (MQTTPacket_len_spec (Z.of_nat (length (connect_body c)))) as (t' & Ht' & ?); [lia|].
  unfold enc_connect. rewrite length_packet. simplify_eq. lia.
Qed.
End Connect.

(** ** Deserializing CONNECT *)
Section ConnectRead.
Context `{CharAbi}.

Lemma set_username_id d : set_username d (username d) = d.
Proof. by destruct d. Qed.

Lemma set_password_id d : set_password d (password d) = d.
Proof. by destruct d. Qed.

Lemma checkVersion_spec m p v :
  v = 3 \/ v = 4 -> at_bytes m p (protocol v) ->
  MQTTPacket_checkVersion m (mkMQTTString None (Z.of_nat (length (protocol v))) (Some p)) v = Some true.
Proof.
  intros Hv Hat. unfold MQTTPacket_checkVersion, memcmp_eq. cbn [lenstring_data lenstring_len].
  destruct Hv as [-> | ->]; unfold protocol in *; cbn [Z.eqb Pos.eqb] in *; msimpl.
  - rewrite (at_bytes_load_bytes _ _ _ _ Hat) by done. done.
  - rewrite (at_bytes_load_bytes _ _ _ _ Hat) by done. done.
Qed.

(** One optional string of the payload. *)
Lemma read_string m x p s e :
  short s -> at_bytes m p (wstr s) -> 2 + Z.of_nat (length s) <= pdiff e p ->
  exists y, readMQTTLenString m x p e = Some (1, y, padd p (2 + Z.of_nat (length s))) /\ mstr m y s.
Proof.
  unfold short. intros Hs Hat He. eexists. rewrite (readMQTTLenString_spec _ _ _ s) by (try done; lia).
  rewrite Nat2Z.inj_add. split; [done|]. by apply mstr_read.
Qed.

(** Run the next [readMQTTLenString] of the goal, which finds the string [s]. *)
Ltac read_str s x Hx Hm :=
  match goal with |- context [ readMQTTLenString ?m ?y ?p ?e ] =>
    destruct (read_string m y p s e) as (x & Hx & Hm); [try done | try done | | rewrite Hx; msimpl]
  end.

Lemma deserialize_will_spec m d flags p e w :
  cf_will flags = flag w -> cf_willQoS flags = from_option wl_qos 0 w ->
  cf_willRetain flags = from_option wl_retain 0 w ->
  (forall w', w = Some w' -> short (wl_topic w') /\ short (wl_message w')) ->
  at_bytes m p (of_opt (fun w => wstr (wl_topic w) ++ wstr (wl_message w)) w) ->
  will_len w <= pdiff e p ->
  exists W, deserialize_will m d flags p e = Some (true, set_will d (flag w) W, padd p (will_len w)) /\
    will_den m d (set_will d (flag w) W) w.
Proof.
  intros Ef Eq Er Hs Hat He. unfold deserialize_will. rewrite Ef, Eq, Er.
  destruct w as [w|]; unfold of_opt, will_len in *; cbn [flag from_option] in *.
  - destruct (Hs w eq_refl) as [Hst Hsm]. apply at_bytes_app in Hat as [Ht Hm].
    rewrite length_wstr, Nat2Z.inj_add in Hm. change (1 =? 0) with false. cbv iota.
    read_str (wl_topic w) x Hx Hmx; [lia|]. change (1 =? 0) with false. cbv iota.
    read_str (wl_message w) z Hz Hmz; [revert He; unfold pdiff, padd; simpl; lia|].
    eexists. split.
    + rewrite padd_padd.
      replace (4 + _ + _) with (2 + Z.of_nat (length (wl_topic w)) + (2 + Z.of_nat (length (wl_message w)))) by lia.
      done.
    + by cbn.
  - eexists. rewrite padd_0. by split.
Qed.

(** The packets [MQTTDeserialize_connect] accepts: no password without a user
    name, and no empty string where it asks for three more bytes. *)
Definition credentials_ok (c : connect) : Prop :=
  match cn_user c, cn_pass c with
  | None, p => p = None
  | Some u, None => u <> []
  | Some u, Some p => p <> []
  end.

#[export] Instance credentials_ok_dec c : Decision (credentials_ok c).
Proof. unfold credentials_ok. destruct (cn_user c), (cn_pass c); apply _. Defined.

Lemma nonempty_length {A} (l : list A) : l <> [] -> 1 <= Z.of_nat (length l).
Proof. destruct l; [done|simpl; lia]. Qed.

Lemma deserialize_credentials_spec m d flags p e c :
  cf_username flags = flag (cn_user c) -> cf_password flags = flag (cn_pass c) -> credentials_ok c ->
  (forall s, cn_user c = Some s -> short s) -> (forall s, cn_pass c = Some s -> short s) ->
  at_bytes m p (of_opt wstr (cn_user c) ++ of_opt wstr (cn_pass c)) ->
  opt_len (cn_user c) + opt_len (cn_pass c) = pdiff e p ->
  exists x y, deserialize_credentials m d flags p e = Some (true, set_password (set_username d x) y) /\
    opt_den m (username d) x (cn_user c) /\ opt_den m (password d) y (cn_pass c).
Proof.
  intros Eu Ep Hok Hu Hp Hat He. unfold deserialize_credentials, credentials_ok in *. rewrite Eu, Ep.
  destruct (cn_user c) as [u|].
  2: { rewrite Hok. exists (username d), (password d).
       rewrite set_username_id, set_password_id. by cbn. }
  apply at_bytes_app in Hat as [Hau Hap]. specialize (Hu u eq_refl).
  unfold of_opt, opt_len in *. cbn [flag from_option] in *. change (1 =? 0) with false. cbv iota.
  rewrite length_wstr, Nat2Z.inj_add in Hap.
  assert (Hl3 : 3 <= pdiff e p) by (destruct (cn_pass c) as [q|]; cbn [from_option] in *;
    [|apply nonempty_length in Hok]; lia).
  destruct (Z.ltb_spec (pdiff e p) 3); [lia|].
  assert (Hl2 : 0 <= from_option (fun s => 2 + Z.of_nat (length s)) 0 (cn_pass c))
    by (destruct (cn_pass c); cbn [from_option]; lia).
  read_str u x Hx Hmx; [lia|]. change (1 =? 0) with false. cbv iota. exists x.
  destruct (cn_pass c) as [q|]; cbn [flag from_option] in *.
  - change (1 =? 0) with false. cbv iota. pose proof (nonempty_length _ Hok).
    assert (Hpd : pdiff e (padd p (2 + Z.of_nat (length u))) = 2 + Z.of_nat (length q))
      by (revert He; unfold pdiff, padd; simpl; lia).
    rewrite Hpd. destruct (Z.ltb_spec (2 + Z.of_nat (length q)) 3); [lia|].
    read_str q y Hy Hmy; [by apply Hp | lia |]. exists y. by split_and!.
  - exists (password d). split_and!; [|done|done].
    change (password d) with (password (set_username d x)). by rewrite set_password_id.
Qed.

Lemma deserialize_credentials_refused m d flags p e c :
  cf_username flags = flag (cn_user c) -> cf_password flags = flag (cn_pass c) -> ~ credentials_ok c ->
  (forall s, cn_user c = Some s -> short s) ->
  at_bytes m p (of_opt wstr (cn_user c) ++ of_opt wstr (cn_pass c)) ->
  opt_len (cn_user c) + opt_len (cn_pass c) = pdiff e p ->
  exists d', deserialize_credentials m d flags p e = Some (false, d').
Proof.
  intros Eu Ep Hno Hu Hat He. unfold deserialize_credentials, credentials_ok in *. rewrite Eu, Ep.
  apply at_bytes_app in Hat as [Hau Hap]. unfold of_opt, opt_len in *.
  destruct (cn_user c) as [u|], (cn_pass c) as [q|]; cbn [flag from_option] in *;
    change (1 =? 0) with false; change (0 =? 0) with true; cbv iota.
  - assert (q = []) as -> by (destruct q; [done|]; exfalso; apply Hno; done). simpl length in He.
    destruct (Z.ltb_spec (pdiff e p) 3); [by eexists|].
    read_str u x Hx Hmx; [by apply Hu|lia|]. change (1 =? 0) with false. cbv iota.
    match goal with |- context [ ?z <? 3 ] => destruct (Z.ltb_spec z 3); [by eexists|] end.
    exfalso. revert H1 He. unfold pdiff, padd. simpl. lia.
  - assert (u = []) as -> by (destruct u; [done|]; exfalso; apply Hno; done). simpl length in He.
    destruct (Z.ltb_spec (pdiff e p) 3); [by eexists|lia].
  - by eexists.
  - exfalso. by apply Hno.
Qed.

(** [MQTTDeserialize_connect] on a well-formed packet, up to the credentials. *)
Lemma connect_until_credentials m data buf c :
  wf_connect c -> at_bytes m buf (enc_connect c) ->
  exists d p e,
    MQTTDeserialize_connect m data buf (Z.of_nat (length (enc_connect c))) =
      ('(ok, data) ← deserialize_credentials m d (connect_flags c) p e;
       Some (if (ok : bool) then 1 else 0, data)) /\
    at_bytes m p (of_opt wstr (cn_user c) ++ of_opt wstr (cn_pass c)) /\
    opt_len (cn_user c) + opt_len (cn_pass c) = pdiff e p /\
    forall u v, opt_den m (username d) u (cn_user c) -> opt_den m (password d) v (cn_pass c) ->
      connect_den m data (set_password (set_username d u) v) c.
Proof.
  intros Hwf Hat. pose proof (connect_body_small c Hwf) as (Hwl & Hul & Hpl & Hsmall).
  pose proof (connect_flags_get c Hwf) as (Eu & Ep & Er & Eq & Ew & Ec).
  pose proof (connect_flags_byte c Hwf) as Hfb.
  destruct Hwf as (Hv & _ & Hk & Hc & Hw & Hu & Hp).
  unfold MQTTDeserialize_connect, enc_connect in *. rewrite length_packet.
  pose proof (length_connect_body c Hv) as HL. rewrite length_connect_payload in HL.
  read_packet Hat Hbody k Hk'; [|done|done].
  change (hdr_type (header 1 0 0 0) =? CONNECT) with true. msimpl. rewrite Hd. msimpl.
  set (L := Z.of_nat (length (connect_body c))) in *.
  set (e := padd buf _). set (q := padd (padd buf 1) k) in *.
  assert (He : e = padd q L) by (unfold e, q; rewrite !padd_padd, Hk'; unfold L; f_equal; lia).
  clearbody e q. subst e. clear Hc0 Hu0 Hd Hk'.
  unfold connect_body in Hbody. apply at_bytes_app in Hbody as [Hpr Hb].
  assert (Hsp : short (protocol (cn_version c))) by (unfold short, protocol; destruct Hv as [-> | ->]; simpl; lia).
  assert (Hlp : (if cn_version c =? 3 then 12 else 10) = 6 + Z.of_nat (length (protocol (cn_version c))))
    by (unfold protocol; by destruct Hv as [-> | ->]).
  rewrite Hlp in HL. set (lp := length (protocol (cn_version c))) in *.
  rewrite (readMQTTLenString_spec _ _ _ (protocol (cn_version c))) by (try done; rewrite pdiff_padd_0; unfold lp in *; lia).
  change (1 =? 0) with false. msimpl. rewrite pdiff_padd. fold lp.
  match goal with |- context [ ?x <? 0 ] => destruct (Z.ltb_spec x 0); [lia|] end.
  rewrite length_wstr in Hb. fold lp in Hb.
  pose proof Hb as Hver. apply at_bytes_cons in Hb as [_ Hb]. rewrite padd_padd in Hb.
  rewrite (readChar_spec _ _ _ _ Hver). msimpl.
  rewrite to_char_small by lia.
  pose proof (checkVersion_spec m (padd q 2) _ Hv) as Hcv. fold lp in Hcv.
  rewrite Hcv by (by apply at_bytes_app in Hpr as [_ ?]). msimpl.
  rewrite (padd_padd q), (readChar_spec _ _ _ _ Hb). msimpl. rewrite to_uchar_to_char by done.
  apply at_bytes_cons in Hb as [_ Hb]. rewrite !padd_padd in *.
  apply at_bytes_app in Hb as [Hka Hb]. rewrite (readInt_spec _ _ _ (proj1 Hk) Hka). msimpl.
  rewrite padd_padd in *. change (Z.of_nat (length (be16 (cn_keepalive c)))) with 2 in Hb.
  set (n0 := Z.of_nat (2 + lp) + 1 + 1 + 2) in *.
  unfold connect_payload in Hb. apply at_bytes_app in Hb as [Hcl Hb].
  read_str (cn_client c) x Hx Hmx; [rewrite pdiff_padd; unfold n0; lia|].
  change (1 =? 0) with false. cbv iota.
  rewrite length_wstr, Nat2Z.inj_add, !padd_padd in *. change (Z.of_nat 2) with 2 in Hb.
  apply at_bytes_app in Hb as [Hwill Hb].
  match goal with |- context [ deserialize_will m ?d ?f ?p ?e ] =>
    destruct (deserialize_will_spec m d f p e (cn_will c)) as (W & HW & HWd); try done
  end.
  { intros w' Hw'. destruct (Hw w' Hw') as (_ & _ & ? & ?). done. }
  { rewrite pdiff_padd. unfold n0. lia. }
  rewrite HW. msimpl. rewrite length_of_will, padd_padd in *.
  eexists _, _, (padd q L). split; [done|]. split; [exact Hb|].
  split; [rewrite pdiff_padd; unfold n0; lia|].
  intros u v Hdu Hdv. unfold connect_den. cbn. rewrite to_ushort_id by done. by split_and!.
Qed.

(** It accepts exactly the packets with [credentials_ok]. *)
Lemma MQTTDeserialize_connect_spec m data buf c :
  wf_connect c -> at_bytes m buf (enc_connect c) ->
  exists data', 
    MQTTDeserialize_connect m data buf (Z.of_nat (length (enc_connect c))) =
      Some (if decide (credentials_ok c) then 1 else 0, data') /\
    (credentials_ok c -> connect_den m data data' c).
Proof.
  intros Hwf Hat. destruct (connect_until_credentials m data buf c Hwf Hat) as (d & p & e & -> & Hb & He & Hden).
  pose proof (connect_flags_get c Hwf) as (Eu & Ep & _).
  destruct Hwf as (_ & _ & _ & _ & _ & Hu & Hp).
  destruct (decide (credentials_ok c)) as [Hok|Hno].
  - destruct (deserialize_credentials_spec m d (connect_flags c) p e c) as (u & v & -> & Hdu & Hdv); try done.
    eexists. split; [done|]. intros _. by apply Hden.
  - destruct (deserialize_credentials_refused m d (connect_flags c) p e c) as (d' & ->); try done.
    by eexists.
Qed.
End ConnectRead.

(** ** Properties *)
Section Properties.
Context `{CharAbi}.

(** [MQTTSerialize_connect] implements the CONNECT wire format: if
    [MQTTPacket_len] of the body fits [buflen] it stores exactly the packet at
    [buf] and returns its length, otherwise it returns
    [MQTTPACKET_BUFFER_TOO_SHORT] and writes nothing. *)
Theorem connect_serialize_refines m0 buf buflen o c t :
  wf_connect c -> connect_args m0 (p_blk buf) o c ->
  MQTTPacket_len (Z.of_nat (length (connect_body c))) = Some t ->
  MQTTSerialize_connect buf buflen o m0 =
    if t <=? buflen
    then m' ← store_bytes m0 buf (enc_connect c); Some (Z.of_nat (length (enc_connect c)), m')
    else Some (MQTTPACKET_BUFFER_TOO_SHORT, m0).
Proof. apply MQTTSerialize_connect_spec. Qed.

(** C11: a CONNECT written by [MQTTSerialize_connect] is accepted by
    [MQTTDeserialize_connect] exactly when its credentials are acceptable (no
    password without a user name, no empty trailing string), and then every
    member but [MQTTVersion] is recovered: the version is in the packet, and checked, but never stored, so
    [MQTTVersion] keeps the caller's value, as members absent from the packet do. *)
Theorem connect_roundtrip m0 buf buflen o c t data :
  wf_connect c -> connect_args m0 (p_blk buf) o c -> room m0 buf buflen ->
  MQTTPacket_len (Z.of_nat (length (connect_body c))) = Some t -> t <= buflen ->
  exists m' rc data',
    MQTTSerialize_connect buf buflen o m0 = Some (rc, m') /\ agree_except (p_blk buf) m0 m' /\
    MQTTDeserialize_connect m' data buf rc = Some (if decide (credentials_ok c) then 1 else 0, data') /\
    (credentials_ok c -> connect_den m' data data' c).
Proof.
  intros Hwf Ha Hr Ht Hle. pose proof (length_enc_connect_le c t Hwf Ht) as Hlen.
  rewrite (MQTTSerialize_connect_spec m0 buf buflen o c t) by done.
  destruct (Z.leb_spec t buflen); [|lia].
  destruct (stored_room m0 buf (enc_connect c) buflen) as (m' & Hs & Hat & Hag); [done|lia|].
  destruct (MQTTDeserialize_connect_spec m' data buf c Hwf Hat) as (data' & Hd & Hden).
  by exists m', (Z.of_nat (length (enc_connect c))), data'.
Qed.

(** A protocol version that is neither 3 nor 4 is counted as having no
    protocol header, yet twelve bytes of one are written: the check against
    [buflen] lets too small buffers pass.  The bytes stored exceed the size
    checked by twelve, and so does the body the remaining length announced; in
    a buffer that ends where [buflen] says, the store is out of bounds as soon as
    they do not fit. *)
Theorem connect_unknown_version m0 buf buflen o c t n :
  wf_connect c -> cn_version c = 3 -> connect_members m0 (p_blk buf) o c ->
  MQTTVersion o <> 3 -> MQTTVersion o <> 4 ->
  n = Z.of_nat (length (connect_body c)) - 12 -> MQTTPacket_len n = Some t -> t <= buflen ->
  let bs := 16 :: varint n ++ connect_body c in
  Z.of_nat (length bs) = 1 + Z.of_nat (length (varint n)) + n + 12 /\
  MQTTSerialize_connect buf buflen o m0 =
    (m' ← store_bytes m0 buf bs; Some (Z.of_nat (length bs), m')) /\
  (forall blk, m0 !! p_blk buf = Some blk -> p_off buf + buflen = Z.of_nat (length blk) ->
     buflen < Z.of_nat (length bs) -> MQTTSerialize_connect buf buflen o m0 = None).
Proof.
  intros Hwf Hv3 Ha Hv Hv' Hn Ht Hle bs. pose proof (connect_body_small c Hwf) as (_ & _ & _ & Hsmall).
  pose proof (length_connect_body c ltac:(auto)) as HL. rewrite Hv3 in HL. change (3 =? 3) with true in HL. cbv iota in HL.
  assert (Hl : MQTTSerialize_connectLength m0 o = Some n).
  { rewrite (connectLength_members m0 _ o c Hwf Ha).
    destruct (Z.eqb_spec (MQTTVersion o) 3), (Z.eqb_spec (MQTTVersion o) 4); try done. f_equal. lia. }
  assert (Hser : MQTTSerialize_connect buf buflen o m0 = stored m0 buf bs).
  { unfold MQTTSerialize_connect. erewrite M_bind_Some by done. rewrite Hl.
    erewrite M_bind_lift by done. rewrite Ht. erewrite M_bind_lift by done.
    destruct (Z.ltb_spec buflen t); [lia|]. cbv zeta. change (set_hdr_type CONNECT 0) with 16.
    apply serialize_framed; [done | unfold INT_MAX; lia |].
    unfold connect_body. change (cn_version c :: ?x) with ([cn_version c] ++ x).
    rewrite app_assoc. apply emits_bind; [|by apply emits_members].
    destruct (Z.eqb_spec (MQTTVersion o) 4); [done|]. rewrite Hv3.
    apply emits_bind; [by apply emits_literal|by apply emits_writeChar_byte]. }
  splits; [unfold bs; cbn [length]; rewrite length_app; lia | exact Hser |].
  intros blk Hb Hl' Hlt. rewrite Hser. eapply stored_overrun; [exact Hb|lia|done].
Qed.

Definition enc_connack (sp rc : Z) : list Z := packet (header 2 0 0 0) [sp * 128; rc].

Lemma MQTTSerialize_connack_spec m0 buf buflen rc sp :
  byte rc -> 0 <= sp < 2 ->
  MQTTSerialize_connack buf buflen rc sp m0 =
    if buflen <? 2 then Some (MQTTPACKET_BUFFER_TOO_SHORT, m0) else stored m0 buf (enc_connack sp rc).
Proof.
  intros Hrc Hsp. unfold MQTTSerialize_connack. destruct (Z.ltb_spec buflen 2); [done|].
  assert (Hf : set_ck_sessionpresent sp 0 = sp * 128) by (assert (sp = 0 \/ sp = 1) as [-> | ->] by lia; done).
  rewrite Hf. apply serialize_packet; [done..|].
  apply (emits_bind _ _ _ _ [sp * 128] [rc]); apply emits_writeChar_byte; [unfold byte; lia|done].
Qed.

Lemma MQTTDeserialize_connack_spec m buf buflen rc sp s0 r0 :
  byte rc -> 0 <= sp < 2 -> at_bytes m buf (enc_connack sp rc) ->
  MQTTDeserialize_connack m s0 r0 buf buflen = Some (1, sp, rc).
Proof.
  intros Hrc Hsp Hat. unfold MQTTDeserialize_connack, enc_connack in *.
  read_packet Hat Hbody k Hk; [|done|done].
  change (hdr_type (header 2 0 0 0) =? CONNACK) with true. msimpl. rewrite Hd. msimpl.
  rewrite pdiff_padd_0. cbn [length Z.of_nat Pos.of_succ_nat Pos.succ]. change (2 <? 2) with false. cbv iota.
  rewrite (readChar_spec _ _ _ _ Hbody). msimpl. apply at_bytes_cons in Hbody as [_ Hr].
  rewrite (readChar_spec _ _ _ _ Hr). msimpl. rewrite !to_uchar_to_char by (unfold byte in *; lia).
  assert (sp = 0 \/ sp = 1) as [-> | ->] by lia; done.
Qed.

(** What [MQTTSerialize_connack] does for every buffer length.  Below 2 it
    refuses; from 4 on it writes a CONNACK from which [MQTTDeserialize_connack]
    recovers the return code and the session-present flag; for the lengths 2
    and 3 it passes its own check and then writes past the end of a buffer of
    that size. *)
Theorem connack_buffer m0 buf buflen rc sp s0 r0 blk :
  byte rc -> 0 <= sp < 2 ->
  m0 !! p_blk buf = Some blk -> 0 <= p_off buf -> p_off buf + buflen = Z.of_nat (length blk) ->
  if buflen <? 2 then MQTTSerialize_connack buf buflen rc sp m0 = Some (MQTTPACKET_BUFFER_TOO_SHORT, m0)
  else if buflen <? 4 then MQTTSerialize_connack buf buflen rc sp m0 = None
  else exists m', MQTTSerialize_connack buf buflen rc sp m0 = Some (4, m') /\
         agree_except (p_blk buf) m0 m' /\
         MQTTDeserialize_connack m' s0 r0 buf 4 = Some (1, sp, rc).
Proof.
  intros Hrc Hsp Hb Ho Hl. rewrite MQTTSerialize_connack_spec by done.
  destruct (Z.ltb_spec buflen 2); [done|]. destruct (Z.ltb_spec buflen 4).
  - eapply stored_overrun; [done| |done]. change (Z.of_nat (length (enc_connack sp rc))) with 4. lia.
  - destruct (stored_room m0 buf (enc_connack sp rc) buflen) as (m' & Hs & Hat & Hag);
      [exists blk; splits; try done; lia | change (Z.of_nat (length (enc_connack sp rc))) with 4; lia |].
    exists m'. splits; [exact Hs|done|]. by apply MQTTDeserialize_connack_spec.
Qed.

(** The packets without a body: PINGREQ and DISCONNECT are two fixed bytes,
    refused when the buffer is shorter. *)
Theorem zero_packets m0 buf buflen :
  MQTTSerialize_pingreq buf buflen m0 =
    (if buflen <? 2 then Some (MQTTPACKET_BUFFER_TOO_SHORT, m0) else stored m0 buf [192; 0]) /\
  MQTTSerialize_disconnect buf buflen m0 =
    (if buflen <? 2 then Some (MQTTPACKET_BUFFER_TOO_SHORT, m0) else stored m0 buf [224; 0]).
Proof.
  assert (Hz : forall (t : Z) h, set_hdr_type t 0 = h -> byte h ->
    MQTTSerialize_zero buf buflen t m0 =
      if buflen <? 2 then Some (MQTTPACKET_BUFFER_TOO_SHORT, m0) else stored m0 buf [h; 0]).
  { intros t h Ht Hh. unfold MQTTSerialize_zero. destruct (buflen <? 2); [done|]. rewrite Ht.
    apply (serialize_run m0 (fun p => p ← writeChar p h; n ← MQTTPacket_encode p 0; mret (padd p n)) [h; 0] buf).
    apply (emits_bind _ _ _ _ [h] [0]); [by apply emits_writeChar_byte|].
    by apply (emits_encode (p_blk buf) m0 0). }
  split; by apply Hz.
Qed.
End Properties.

(** ** Concrete instances *)

(** MQTT 3.1.1, client "t/a", user name "hi!", no will, no password. *)
Definition ex_options (version : Z) : MQTTPacket_connectData :=
  mkConnectData [] 0 version (mkMQTTString (Some ex_topic) 0 None) 60 1 0 MQTTPacket_willOptions_initializer
    (mkMQTTString None 3 (Some ex_payload)) MQTTString_initializer.
Definition ex_connect (version : Z) : connect :=
  mkConnect version 1 60 [116; 47; 97] None (Some [104; 105; 33]) None.

Lemma ex_wf_connect v : v = 3 \/ v = 4 -> wf_connect (ex_connect v).
Proof.
  intros Hv. unfold wf_connect, short, ex_connect; cbn. splits; try lia; try done; intros ? [= <-]; simpl; lia.
Qed.

Lemma ex_connect_members v v' : connect_members ex_mem 0 (ex_options v) (ex_connect v').
Proof.
  refine (conj eq_refl (conj eq_refl (conj ex_topic_in (conj eq_refl (conj (conj eq_refl ex_payload_in) eq_refl))))).
Qed.

Lemma connect_serialize_refines_witness :
  MQTTSerialize_connect (H := x86_abi) ex_buf 21 (ex_options 4) ex_mem = Some (MQTTPACKET_BUFFER_TOO_SHORT, ex_mem).
Proof.
  apply (connect_serialize_refines (H := x86_abi) ex_mem ex_buf 21 (ex_options 4) (ex_connect 4) 22);
    [by apply ex_wf_connect; right | split; [done|apply ex_connect_members] | by vm_compute].
Defined.

Lemma connect_roundtrip_witness :
  exists m' rc data',
    MQTTSerialize_connect (H := x86_abi) ex_buf 64 (ex_options 4) ex_mem = Some (rc, m') /\ agree_except 0 ex_mem m' /\
    MQTTDeserialize_connect (H := x86_abi) m' MQTTPacket_connectData_initializer ex_buf rc =
      Some (if decide (credentials_ok (ex_connect 4)) then 1 else 0, data') /\
    (credentials_ok (ex_connect 4) -> connect_den m' MQTTPacket_connectData_initializer data' (ex_connect 4)).
Proof.
  apply (connect_roundtrip (H := x86_abi) ex_mem ex_buf 64 (ex_options 4) (ex_connect 4) 22);
    [by apply ex_wf_connect; right | split; [done|apply ex_connect_members] | by apply ex_room | by vm_compute | lia].
Defined.

Lemma connect_unknown_version_witness :
  MQTTSerialize_connect (H := x86_abi) (Ptr 0 52) 12 (ex_options 5) ex_mem = None.
Proof.
  refine (proj2 (proj2 (connect_unknown_version (H := x86_abi) ex_mem (Ptr 0 52) 12 (ex_options 5) (ex_connect 3)
    12 10 _ _ _ _ _ _ _ _)) (replicate 64 0) _ _ _);
    [by apply ex_wf_connect; left | done | apply ex_connect_members | done | done | done
    | done | lia | done | done | done].
Defined.

Lemma connack_buffer_witness :
  MQTTSerialize_connack (H := x86_abi) (Ptr 0 61) 3 0 1 ex_mem = None.
Proof.
  apply (connack_buffer (H := x86_abi) ex_mem (Ptr 0 61) 3 0 1 0 0 (replicate 64 0));
    [by unfold byte | lia | done | simpl; lia | done].
Defined.
