(* ===== verification/Subscribe.v ===== *)
(** * Subscribe: MQTTSubscribeClient.c and MQTTSubscribeServer.c

    SUBSCRIBE and SUBACK, written and read.  An array parameter is the list of
    its elements: an access outside it is undefined. *)
From S2P Require Import Prelude CMem Wire Packet.

(** [arr[i]] and [arr[i] = v] *)
Definition arr_get {A} (arr : list A) (i : Z) : option A :=
  if 0 <=? i then arr !! Z.to_nat i else None.
Definition arr_set {A} (arr : list A) (i : Z) (v : A) : option (list A) :=
  if (0 <=? i) && (i <? Z.of_nat (length arr)) then Some (<[Z.to_nat i := v]> arr) else None.

Section Definitions.
Context `{CharAbi}.

(** ** MQTTSubscribeClient.c *)

Definition MQTTSerialize_subscribeLength (count : Z) (topicFilters : list MQTTString) : M mem Z :=
  c_for 0 (Z.to_nat count) (fun i len =>
    m ← get;
    t ← lift (topicFilters !! i); n ← lift (MQTTstrlen m t);
    n ← lift (cint (2 + n)); n ← lift (cint (n + 1)); lift (cint (len + n))) 2.

Definition MQTTSerialize_subscribe (buf : ptr) (buflen dup packetid count : Z)
    (topicFilters : list MQTTString) (requestedQoSs : list Z) : M mem Z :=
  rem_len ← MQTTSerialize_subscribeLength count topicFilters;
  total ← lift (MQTTPacket_len rem_len);
  if buflen <? total then mret MQTTPACKET_BUFFER_TOO_SHORT else
  let header := set_hdr_type SUBSCRIBE 0 in
  let header := set_hdr_dup dup header in
  let header := set_hdr_qos 1 header in
  ptr ← (ptr ← writeChar buf header;
         ptr ← (n ← MQTTPacket_encode ptr rem_len; mret (padd ptr n));
         ptr ← writeInt ptr packetid;
         c_for 0 (Z.to_nat count) (fun i ptr =>
           t ← lift (topicFilters !! i); ptr ← writeMQTTString ptr t;
           q ← lift (requestedQoSs !! i); writeChar ptr q) ptr);
  mret (pdiff ptr buf).

(** The [while (curdata < enddata)] loop of [MQTTDeserialize_suback]; returns [rc],
    [*count] and [grantedQoSs].  Every round moves [curdata] by one. *)
Fixpoint suback_loop (m : mem) (maxcount : Z) (fuel : nat) (curdata enddata : ptr) (count : Z)
    (grantedQoSs : list Z) : option (Z * Z * list Z) :=
  if pdiff enddata curdata <=? 0 then Some (1, count, grantedQoSs) else
  match fuel with
  | O => None
  | S fuel' =>
    if maxcount <? count then Some (-1, count, grantedQoSs) else
    '(c, curdata) ← readChar m curdata;
    grantedQoSs ← arr_set grantedQoSs count c;
    suback_loop m maxcount fuel' curdata enddata (count + 1) grantedQoSs
  end.

(** The objects behind the pointer parameters. *)
Record suback_out := mkSubackOut { so_packetid : Z; so_count : Z; so_grantedQoSs : list Z }.

Definition MQTTDeserialize_suback (m : mem) (out : suback_out) (maxcount : Z) (buf : ptr) (buflen : Z)
    : option (Z * suback_out) :=
  '(c, curdata) ← readChar m buf;
  let header := to_uchar c in
  if negb (hdr_type header =? SUBACK) then Some (0, out) else
  '(rc, mylen) ← MQTTPacket_decodeBuf m curdata;
  let curdata := padd curdata rc in
  let enddata := padd curdata mylen in
  if pdiff enddata curdata <? 2 then Some (rc, out) else
  '(id, curdata) ← readInt m curdata;
  '(rc, count, qoss) ← suback_loop m maxcount (Z.to_nat (pdiff enddata curdata)) curdata enddata 0
                         (so_grantedQoSs out);
  Some (rc, mkSubackOut (to_ushort id) count qoss).

(** ** MQTTSubscribeServer.c *)

Record subscribe_out := mkSubscribeOut {
  su_dup : Z; su_packetid : Z; su_count : Z; su_topicFilters : list MQTTString; su_requestedQoSs : list Z
}.

(** The loop of [MQTTDeserialize_subscribe]; returns [*count], the arrays, and whether
    the end was reached without [goto exit].  Every round moves [curdata] by at least two. *)
Fixpoint subscribe_loop (m : mem) (fuel : nat) (curdata enddata : ptr) (count : Z)
    (topicFilters : list MQTTString) (requestedQoSs : list Z)
    : option (bool * Z * list MQTTString * list Z) :=
  if pdiff enddata curdata <=? 0 then Some (true, count, topicFilters, requestedQoSs) else
  match fuel with
  | O => None
  | S fuel' =>
    t ← arr_get topicFilters count;
    '(ok, t, curdata) ← readMQTTLenString m t curdata enddata;
    topicFilters ← arr_set topicFilters count t;
    if ok =? 0 then Some (false, count, topicFilters, requestedQoSs) else
    if pdiff enddata curdata <=? 0 then Some (false, count, topicFilters, requestedQoSs) else
    '(q, curdata) ← readChar m curdata;
    requestedQoSs ← arr_set requestedQoSs count q;
    subscribe_loop m fuel' curdata enddata (count + 1) topicFilters requestedQoSs
  end.

Definition MQTTDeserialize_subscribe (m : mem) (out : subscribe_out) (maxcount : Z) (buf : ptr) (buflen : Z)
    : option (Z * subscribe_out) :=
  '(c, curdata) ← readChar m buf;
  let header := to_uchar c in
  if negb (hdr_type header =? SUBSCRIBE) then Some (-1, out) else
  let dup := hdr_dup header in
  '(rc, mylen) ← MQTTPacket_decodeBuf m curdata;
  let curdata := padd curdata rc in
  let enddata := padd curdata mylen in
  '(id, curdata) ← readInt m curdata;
  '(done, count, ts, qs) ← subscribe_loop m (Z.to_nat (pdiff enddata curdata)) curdata enddata 0
                             (su_topicFilters out) (su_requestedQoSs out);
  Some (if (done : bool) then 1 else rc, mkSubscribeOut dup (to_ushort id) count ts qs).

Definition MQTTSerialize_suback (buf : ptr) (buflen packetid count : Z) (grantedQoSs : list Z) : M mem Z :=
  len ← lift (cint (2 + count));
  if buflen <? len then mret MQTTPACKET_BUFFER_TOO_SHORT else
  ptr ← (ptr ← writeChar buf (set_hdr_type SUBACK 0);
         ptr ← (n ← MQTTPacket_encode ptr len; mret (padd ptr n));
         ptr ← writeInt ptr packetid;
         c_for 0 (Z.to_nat count) (fun i ptr => q ← lift (grantedQoSs !! i); writeChar ptr q) ptr);
  mret (pdiff ptr buf).

End Definitions.

(** ** Arrays *)

Lemma arr_get_in {A} (l : list A) i x : l !! Z.to_nat i = Some x -> 0 <= i -> arr_get l i = Some x.
Proof. intros. unfold arr_get. by destruct (Z.leb_spec 0 i); [|lia]. Qed.

Lemma arr_get_ex {A} (l : list A) i : 0 <= i < Z.of_nat (length l) -> exists x, arr_get l i = Some x.
Proof.
  intros. destruct (lookup_lt_is_Some_2 l (Z.to_nat i)) as [x Hx]; [lia|]. exists x. apply arr_get_in; [done|lia].
Qed.

Lemma arr_set_in {A} (l : list A) i x :
  0 <= i < Z.of_nat (length l) -> arr_set l i x = Some (<[Z.to_nat i := x]> l).
Proof. intros. unfold arr_set. by destruct (Z.leb_spec 0 i), (Z.ltb_spec i (Z.of_nat (length l))); try lia. Qed.

Lemma arr_get_out {A} (l : list A) i : Z.of_nat (length l) <= i -> arr_get l i = None.
Proof. intros. unfold arr_get. destruct (0 <=? i); [|done]. apply lookup_ge_None. lia. Qed.

Lemma arr_set_out {A} (l : list A) i x : Z.of_nat (length l) <= i -> arr_set l i x = None.
Proof. intros. unfold arr_set. destruct (Z.ltb_spec i (Z.of_nat (length l))); [lia|]. by rewrite andb_false_r. Qed.

(** Run one round of a loop whose body is not at its end. *)
Ltac round fuel := destruct fuel as [|fuel]; [simpl in *; lia|]; cbn [suback_loop subscribe_loop];
  match goal with |- context [ pdiff ?e ?p <=? 0 ] => destruct (Z.leb_spec (pdiff e p) 0); [simpl in *; lia|] end.

(** ** SUBACK *)
Section Suback.
Context `{CharAbi}.

(** The codes fit. *)
Lemma suback_loop_fits m maxcount codes : forall fuel p e count arr,
  at_bytes m p codes -> pdiff e p = Z.of_nat (length codes) -> (length codes <= fuel)%nat -> 0 <= count ->
  count + Z.of_nat (length codes) <= Z.of_nat (length arr) ->
  count + Z.of_nat (length codes) <= maxcount + 1 ->
  suback_loop m maxcount fuel p e count arr =
    Some (1, count + Z.of_nat (length codes), splice arr (Z.to_nat count) (map to_char codes)).
Proof.
  induction codes as [|c codes IH]; intros fuel p e count arr Hat He Hf Hc Ha Hm.
  { assert (suback_loop m maxcount fuel p e count arr = Some (1, count, arr)) as ->.
    { destruct fuel; cbn [suback_loop]; destruct (Z.leb_spec (pdiff e p) 0); simpl in *; try lia; done. }
    simpl. rewrite splice_nil. do 3 f_equal. lia. }
  cbn [length] in *. round fuel. destruct (Z.ltb_spec maxcount count); [lia|].
  rewrite (readChar_spec _ _ _ _ Hat). msimpl. rewrite arr_set_in by lia. msimpl.
  apply at_bytes_cons in Hat as [_ Hat]. rewrite IH; try done; try lia.
  - replace (Z.to_nat (count + 1)) with (S (Z.to_nat count)) by lia.
    rewrite splice_insert by (rewrite length_map; lia). do 3 f_equal. lia.
  - unfold pdiff, padd in *. simpl in *. lia.
  - rewrite length_insert. lia.
Qed.

(** The array ends before [maxcount] and before the codes do. *)
Lemma suback_loop_overrun m maxcount codes : forall fuel p e count arr,
  at_bytes m p codes -> pdiff e p = Z.of_nat (length codes) -> (length codes <= fuel)%nat ->
  0 <= count <= Z.of_nat (length arr) -> Z.of_nat (length arr) <= maxcount ->
  Z.of_nat (length arr) < count + Z.of_nat (length codes) ->
  suback_loop m maxcount fuel p e count arr = None.
Proof.
  induction codes as [|c codes IH]; intros fuel p e count arr Hat He Hf Hc Ha Hm; cbn [length] in *; [lia|].
  round fuel. destruct (Z.ltb_spec maxcount count); [lia|].
  rewrite (readChar_spec _ _ _ _ Hat). msimpl.
  destruct (decide (count = Z.of_nat (length arr))); [by rewrite arr_set_out by lia|].
  rewrite arr_set_in by lia. msimpl. apply at_bytes_cons in Hat as [_ Hat].
  apply IH; try done; rewrite ?length_insert; try lia. unfold pdiff, padd in *. simpl in *. lia.
Qed.

Lemma suback_prefix m out maxcount buf buflen id codes :
  0 <= id < 65536 -> Z.of_nat (length codes) < 268435000 -> at_bytes m buf (enc_suback id codes) ->
  exists p e, at_bytes m p codes /\ pdiff e p = Z.of_nat (length codes) /\
    MQTTDeserialize_suback m out maxcount buf buflen =
      ('(rc, count, qoss) ← suback_loop m maxcount (Z.to_nat (pdiff e p)) p e 0 (so_grantedQoSs out);
       Some (rc, mkSubackOut id count qoss)).
Proof.
  intros Hid Hl Hat. unfold MQTTDeserialize_suback, enc_suback in *.
  assert (HL : Z.of_nat (length (be16 id ++ codes)) = 2 + Z.of_nat (length codes))
    by (rewrite length_app; unfold be16; cbn [length]; lia).
  read_packet Hat Hbody k Hk; [|done|lia].
  change (hdr_type (header 9 0 0 0) =? SUBACK) with true. msimpl. rewrite Hd. msimpl.
  rewrite pdiff_padd_0, HL. destruct (Z.ltb_spec (2 + Z.of_nat (length codes)) 2); [lia|].
  apply at_bytes_app in Hbody as [Hi Hc0]. rewrite (readInt_spec _ _ _ (proj1 Hid) Hi). msimpl.
  rewrite to_ushort_id by done.
  exists (padd (padd (padd buf 1) k) 2), (padd (padd (padd buf 1) k) (2 + Z.of_nat (length codes))).
  splits; [exact Hc0|unfold pdiff, padd; simpl; lia|done].
Qed.

Lemma MQTTSerialize_suback_spec m0 buf buflen id qoss :
  0 <= id < 65536 -> Forall byte qoss -> Z.of_nat (length qoss) < 268435000 ->
  MQTTSerialize_suback buf buflen id (Z.of_nat (length qoss)) qoss m0 =
    if buflen <? 2 + Z.of_nat (length qoss) then Some (MQTTPACKET_BUFFER_TOO_SHORT, m0)
    else stored m0 buf (enc_suback id qoss).
Proof.
  intros Hid Hq Hl. unfold MQTTSerialize_suback.
  rewrite cint_ok by (unfold INT_MIN, INT_MAX; lia). erewrite M_bind_lift by done.
  destruct (_ <? _); [done|]. rewrite Nat2Z.id.
  apply (serialize_packet _ (header 9 0 0 0));
    [done | rewrite length_app; unfold be16; cbn [length]; lia | unfold INT_MAX; lia |].
  apply emits_bind; [by apply emits_writeInt|].
  replace qoss with (concat (map (fun x => [x]) qoss)) at 2 by (clear; induction qoss; simpl; congruence).
  apply emits_for. intros j x Hj m p Hp Ha. simpl. rewrite Hj. erewrite M_bind_lift by done.
  apply (emits_writeChar_byte (p_blk buf) m0); try done. by eapply Forall_lookup_1.
Qed.

(** A SUBACK written by [MQTTSerialize_suback] and read by
    [MQTTDeserialize_suback] into arrays of at least its size gives the packet
    identifier, the count and the granted QoS codes, each as the [char] it was
    stored in; array elements behind the count stay. *)
Theorem suback_roundtrip m0 buf buflen id qoss maxcount out :
  0 <= id < 65536 -> Forall byte qoss -> room m0 buf buflen ->
  let n := Z.of_nat (length qoss) in
  n <= maxcount -> maxcount <= Z.of_nat (length (so_grantedQoSs out)) -> n < 268435000 ->
  1 + Z.of_nat (length (varint (2 + n))) + 2 + n <= buflen ->
  exists m' rc,
    MQTTSerialize_suback buf buflen id n qoss m0 = Some (rc, m') /\ agree_except (p_blk buf) m0 m' /\
    MQTTDeserialize_suback m' out maxcount buf rc =
      Some (1, mkSubackOut id n (map to_char qoss ++ drop (length qoss) (so_grantedQoSs out))).
Proof.
  intros Hid Hq Hr n Hn Hmax Hsmall Hle. unfold n. rewrite MQTTSerialize_suback_spec by done. fold n.
  destruct (Z.ltb_spec buflen (2 + n)); [lia|].
  assert (HL : Z.of_nat (length (be16 id ++ qoss)) = 2 + n)
    by (unfold n; rewrite length_app; unfold be16; cbn [length]; lia).
  destruct (stored_room m0 buf (enc_suback id qoss) buflen) as (m' & Hs & Hat & Hag); [done| |].
  { unfold enc_suback. rewrite length_packet, HL. lia. }
  exists m', (Z.of_nat (length (enc_suback id qoss))). splits; [done|done|].
  destruct (suback_prefix m' out maxcount buf (Z.of_nat (length (enc_suback id qoss))) id qoss)
    as (p & e & Hp & He & ->); [done..|].
  rewrite (suback_loop_fits _ _ qoss) by (try done; lia). msimpl.
  unfold splice. cbn. by rewrite length_map.
Qed.

(** [MQTTDeserialize_suback] checks [*count > maxcount], one too late: with
    an array of exactly [maxcount] elements every SUBACK that carries more codes
    is stored past the end of the array, and the error return is never reached;
    up to [maxcount] codes it is correct. *)
Theorem suback_maxcount m out maxcount buf buflen id codes :
  0 <= id < 65536 -> Z.of_nat (length codes) < 268435000 -> at_bytes m buf (enc_suback id codes) ->
  maxcount = Z.of_nat (length (so_grantedQoSs out)) ->
  MQTTDeserialize_suback m out maxcount buf buflen =
    if Z.of_nat (length codes) <=? maxcount
    then Some (1, mkSubackOut id (Z.of_nat (length codes))
                    (map to_char codes ++ drop (length codes) (so_grantedQoSs out)))
    else None.
Proof.
  intros Hid Hl Hat ->. destruct (suback_prefix m out (Z.of_nat (length (so_grantedQoSs out))) buf buflen id codes)
    as (p & e & Hp & He & ->); [done..|].
  destruct (Z.leb_spec (Z.of_nat (length codes)) (Z.of_nat (length (so_grantedQoSs out)))).
  - rewrite (suback_loop_fits _ _ codes) by (try done; lia). msimpl.
    unfold splice. cbn. by rewrite length_map.
  - by rewrite (suback_loop_overrun _ _ codes) by (try done; lia).
Qed.

(** [MQTTSerialize_suback] compares [buflen] with the remaining length only,
    not with the packet: in a buffer of exactly [buflen] bytes, the lengths from
    [2 + count] up to the header and length field more are accepted and the
    packet is then written past the end. *)
Theorem suback_short_buffer m0 buf buflen id qoss blk :
  0 <= id < 65536 -> Forall byte qoss -> Z.of_nat (length qoss) < 268435000 ->
  m0 !! p_blk buf = Some blk -> p_off buf + buflen = Z.of_nat (length blk) ->
  let n := Z.of_nat (length qoss) in
  MQTTSerialize_suback buf buflen id n qoss m0 =
    if buflen <? 2 + n then Some (MQTTPACKET_BUFFER_TOO_SHORT, m0)
    else if buflen <? 3 + n + Z.of_nat (length (varint (2 + n))) then None
    else stored m0 buf (enc_suback id qoss).
Proof.
  intros Hid Hq Hsmall Hb Hl n. unfold n. rewrite MQTTSerialize_suback_spec by done. fold n.
  destruct (buflen <? 2 + n); [done|].
  assert (HL : Z.of_nat (length (be16 id ++ qoss)) = 2 + n)
    by (unfold n; rewrite length_app; unfold be16; cbn [length]; lia).
  destruct (Z.ltb_spec buflen (3 + n + Z.of_nat (length (varint (2 + n))))); [|done].
  eapply stored_overrun; [done| |done]. unfold enc_suback. rewrite length_packet, HL. lia.
Qed.

End Suback.

(** ** SUBSCRIBE *)
Section Subscribe.
Context `{CharAbi}.

Definition entry_den (m : mem) (ts : list MQTTString) (qs : list Z) (i : nat) (e : list Z * Z) : Prop :=
  exists x, ts !! i = Some x /\ mstr m x e.1 /\ qs !! i = Some (to_char e.2).

Lemma length_entries es :
  Z.of_nat (length (concat (map enc_entry es))) =
    foldr (fun e n => 3 + Z.of_nat (length e.1) + n) 0 es.
Proof.
  induction es as [|e es IH]; [done|]. cbn [map concat foldr]. rewrite length_app. unfold enc_entry at 1.
  rewrite length_app, length_wstr. cbn [length]. lia.
Qed.

(** One round on a well-formed entry, up to the stores into the arrays. *)
Lemma subscribe_round m fuel p e count ts qs t q rest :
  at_bytes m p (enc_entry (t, q) ++ rest) -> short t ->
  pdiff e p = Z.of_nat (length (enc_entry (t, q) ++ rest)) ->
  exists x p', mstr m x t /\ at_bytes m p' rest /\ pdiff e p' = Z.of_nat (length rest) /\
    subscribe_loop m (S fuel) p e count ts qs =
      (_ ← arr_get ts count; ts ← arr_set ts count x; qs ← arr_set qs count (to_char q);
       subscribe_loop m fuel p' e (count + 1) ts qs).
Proof.
  intros Hat Ht He. unfold enc_entry in *. cbn [fst snd] in *. rewrite <- app_assoc in *.
  cbn [subscribe_loop]. rewrite !length_app, length_wstr in He. cbn [length] in He.
  destruct (Z.leb_spec (pdiff e p) 0); [lia|].
  apply at_bytes_app in Hat as [Hs Hat]. pose proof (mstr_read _ _ _ Hs) as Hm. rewrite length_wstr in Hat.
  pose proof (readChar_spec _ _ _ _ Hat) as Hrc. apply at_bytes_cons in Hat as [_ Hat]. rewrite padd_padd in *.
  eexists _, _. split; [exact Hm|]. split; [exact Hat|].
  assert (Hp' : pdiff e (padd p (Z.of_nat (2 + length t) + 1)) = Z.of_nat (length rest))
    by (unfold pdiff, padd in *; simpl in *; lia).
  split; [exact Hp'|]. destruct (arr_get ts count) as [t0|]; [|done]. msimpl.
  rewrite (readMQTTLenString_spec _ _ _ t) by (try done; lia). msimpl.
  destruct (arr_set ts count _) as [ts1|]; [|done]. msimpl. change (1 =? 0) with false. cbv iota.
  destruct (Z.leb_spec (pdiff e (padd p (Z.of_nat (2 + length t)))) 0);
    [unfold pdiff, padd in *; simpl in *; lia|].
  by rewrite Hrc.
Qed.

Lemma subscribe_loop_fits m es : forall fuel p e count ts qs,
  at_bytes m p (concat (map enc_entry es)) -> Forall (fun e => short e.1) es ->
  pdiff e p = Z.of_nat (length (concat (map enc_entry es))) -> (length es <= fuel)%nat -> 0 <= count ->
  count + Z.of_nat (length es) <= Z.of_nat (length ts) ->
  count + Z.of_nat (length es) <= Z.of_nat (length qs) ->
  exists ts' qs', subscribe_loop m fuel p e count ts qs = Some (true, count + Z.of_nat (length es), ts', qs') /\
    (forall j, (j < Z.to_nat count)%nat -> ts' !! j = ts !! j /\ qs' !! j = qs !! j) /\
    forall j e, es !! j = Some e -> entry_den m ts' qs' (Z.to_nat count + j) e.
Proof.
  induction es as [|[t q] es IH]; intros fuel p e count ts qs Hat Hs He Hf Hc Hts Hqs.
  { exists ts, qs. cbn [length Z.of_nat] in *. rewrite Z.add_0_r. splits; [|done|done].
    destruct fuel; cbn [subscribe_loop]; destruct (Z.leb_spec (pdiff e p) 0); simpl in *; (done || lia). }
  cbn [map concat length] in *. destruct fuel as [|fuel]; [lia|].
  apply Forall_cons in Hs as [Hst Hs].
  destruct (subscribe_round m fuel p e count ts qs t q _ Hat Hst He) as (x & p' & Hm & Hat' & He' & ->).
  destruct (arr_get_ex ts count) as [t0 ->]; [lia|]. msimpl. rewrite !arr_set_in by lia. msimpl.
  destruct (IH fuel p' e (count + 1) (<[Z.to_nat count := x]> ts) (<[Z.to_nat count := to_char q]> qs))
    as (ts' & qs' & -> & Hpre & Hden); try done; rewrite ?length_insert; try lia.
  exists ts', qs'. replace (count + Z.of_nat (S (length es))) with (count + 1 + Z.of_nat (length es)) by lia.
  splits; [done| |].
  - intros j Hj. destruct (Hpre j) as [-> ->]; [lia|]. rewrite !list_lookup_insert_ne by lia. done.
  - intros [|j] e' Hj; simpl in Hj.
    + injection Hj as <-. rewrite Nat.add_0_r. destruct (Hpre (Z.to_nat count)) as [E1 E2]; [lia|].
      exists x. rewrite E1, E2, !list_lookup_insert_eq by lia. done.
    + replace (Z.to_nat count + S j)%nat with (Z.to_nat (count + 1) + j)%nat by lia. by apply Hden.
Qed.

Lemma subscribe_loop_overrun m es : forall fuel p e count ts qs,
  at_bytes m p (concat (map enc_entry es)) -> Forall (fun e => short e.1) es ->
  pdiff e p = Z.of_nat (length (concat (map enc_entry es))) -> (length es <= fuel)%nat ->
  0 <= count <= Z.of_nat (length ts) ->
  Z.of_nat (length ts) < count + Z.of_nat (length es) ->
  subscribe_loop m fuel p e count ts qs = None.
Proof.
  induction es as [|[t q] es IH]; intros fuel p e count ts qs Hat Hs He Hf Hc Hts; cbn [length] in *; [lia|].
  cbn [map concat] in *. destruct fuel as [|fuel]; [lia|]. apply Forall_cons in Hs as [Hst Hs].
  destruct (subscribe_round m fuel p e count ts qs t q _ Hat Hst He) as (x & p' & Hm & Hat' & He' & ->).
  destruct (decide (count = Z.of_nat (length ts))); [by rewrite arr_get_out by lia|].
  destruct (arr_get_ex ts count) as [t0 ->]; [lia|]. msimpl. rewrite (arr_set_in ts) by lia. msimpl.
  destruct (arr_set qs count (to_char q)); [|done]. msimpl.
  apply IH; try done; rewrite ?length_insert; lia.
Qed.

(** On arbitrary bytes the loop ends, inside them. *)
Lemma subscribe_loop_total m : forall fuel p e count ts qs bs,
  at_bytes m p bs -> bytes bs -> pdiff e p = Z.of_nat (length bs) -> (length bs <= fuel)%nat -> 0 <= count ->
  count + Z.of_nat (length bs) <= Z.of_nat (length ts) ->
  count + Z.of_nat (length bs) <= Z.of_nat (length qs) ->
  exists fin count' ts' qs', subscribe_loop m fuel p e count ts qs = Some (fin, count', ts', qs') /\
    count <= count' /\ 3 * (count' - count) <= Z.of_nat (length bs).
Proof.
  induction fuel as [|fuel IH]; intros p e count ts qs bs Hat Hb He Hf Hc Hts Hqs.
  { exists true, count, ts, qs. cbn [subscribe_loop].
    destruct (Z.leb_spec (pdiff e p) 0); [splits; (done || lia)|lia]. }
  cbn [subscribe_loop]. destruct (Z.leb_spec (pdiff e p) 0).
  { exists true, count, ts, qs. splits; (done || lia). }
  destruct (arr_get_ex ts count) as [t0 ->]; [lia|]. msimpl.
  destruct (readMQTTLenString_any m t0 p e bs) as (ok & y & p' & -> & Hok); [done..|]. msimpl.
  rewrite arr_set_in by lia. msimpl.
  destruct Hok as [-> | (-> & k & Hk & -> & Hat')].
  { rewrite Z.eqb_refl. eexists false, count, _, qs. splits; [done|lia|lia]. }
  change (1 =? 0) with false. cbv iota.
  destruct (Z.leb_spec (pdiff e (padd p (Z.of_nat k))) 0) as [Hend|Hmore].
  { eexists false, count, _, qs. splits; [done|lia|lia]. }
  assert (Hkl : Z.of_nat k < Z.of_nat (length bs)) by (unfold pdiff, padd in *; simpl in *; lia).
  assert (Hbk : bytes (drop k bs)) by by apply Forall_drop.
  pose proof (length_drop bs k) as Hdl.
  destruct (drop k bs) as [|q bs'] eqn:Hdr; [simpl in *; lia|]. simpl length in *.
  rewrite (readChar_spec _ _ _ _ Hat'). msimpl. rewrite arr_set_in by lia. msimpl.
  apply at_bytes_cons in Hat' as [_ Hat']. apply Forall_cons in Hbk as [_ Hbk].
  match goal with |- context [ subscribe_loop _ _ ?p1 _ ?c1 ?t1 ?q1 ] =>
    destruct (IH p1 e c1 t1 q1 bs') as (fin & c' & ts' & qs' & -> & ? & ?)
  end; try done; rewrite ?length_insert; try lia.
  { unfold pdiff, padd in *; simpl in *; lia. }
  exists fin, c', ts', qs'. splits; [done|lia|lia].
Qed.

(** *** Writing *)

Definition subscribe_args (m : mem) (b : nat) (ts : list MQTTString) (qs : list Z)
    (es : list (list Z * Z)) : Prop :=
  Forall2 (fun x e => mstr_in m b x e.1) ts es /\ qs = map snd es.

Lemma length_subscribe_body id es :
  Z.of_nat (length (subscribe_body id es)) = 2 + foldr (fun e n => 3 + Z.of_nat (length e.1) + n) 0 es.
Proof. unfold subscribe_body. rewrite length_app, <- length_entries. unfold be16. cbn [length]. lia. Qed.

Lemma subscribeLength_spec m b dup id ts qs es :
  wf_subscribe dup id es -> subscribe_args m b ts qs es ->
  MQTTSerialize_subscribeLength (Z.of_nat (length es)) ts m =
    Some (Z.of_nat (length (subscribe_body id es)), m).
Proof.
  intros (_ & _ & Hes & Hl) [Hts _]. rewrite length_subscribe_body in *.
  unfold MQTTSerialize_subscribeLength. rewrite Nat2Z.id.
  apply (c_for_sum _ (fun e => 3 + Z.of_nat (length e.1)) INT_MAX m es 0 2).
  - intros j e a Hj Ha0 Ha. destruct (Forall2_lookup_r _ _ _ _ _ Hts Hj) as (x & Hx & Hm & _).
    pose proof (Forall_lookup_1 _ _ _ _ Hes Hj) as [Hs _]. unfold get. erewrite M_bind_Some by done.
    simpl. rewrite Hx. erewrite M_bind_lift by done.
    rewrite (MQTTstrlen_spec _ _ _ Hm Hs). erewrite M_bind_lift by done. unfold short in Hs.
    rewrite cint_ok by (unfold INT_MIN, INT_MAX; lia). erewrite M_bind_lift by done.
    rewrite cint_ok by (unfold INT_MIN, INT_MAX; lia). erewrite M_bind_lift by done.
    unfold lift. rewrite cint_ok by (unfold INT_MIN, INT_MAX in *; lia). msimpl.
    do 2 f_equal. lia.
  - apply Forall_forall. intros. lia.
  - lia.
  - unfold INT_MAX. lia.
Qed.

Lemma MQTTSerialize_subscribe_spec m0 buf buflen dup id ts qs es t :
  wf_subscribe dup id es -> subscribe_args m0 (p_blk buf) ts qs es ->
  MQTTPacket_len (Z.of_nat (length (subscribe_body id es))) = Some t ->
  MQTTSerialize_subscribe buf buflen dup id (Z.of_nat (length es)) ts qs m0 =
    if t <=? buflen then stored m0 buf (enc_subscribe dup id es)
    else Some (MQTTPACKET_BUFFER_TOO_SHORT, m0).
Proof.
  intros Hwf Ha Ht. unfold MQTTSerialize_subscribe.
  rewrite (M_bind_Some _ _ _ _ _ (subscribeLength_spec m0 _ dup id ts qs es Hwf Ha)).
  rewrite Ht. erewrite M_bind_lift by done.
  destruct (Z.ltb_spec buflen t), (Z.leb_spec t buflen); try lia; [done|]. cbv zeta.
  destruct Hwf as (Hd & Hi & Hes & Hl). destruct Ha as [Hts ->].
  rewrite (header_fields3 SUBSCRIBE dup 1) by (simpl; lia). rewrite Nat2Z.id.
  apply (serialize_packet m0 (header 8 dup 1 0)); [apply header_byte; lia | done | unfold INT_MAX; lia |].
  apply emits_bind; [by apply emits_writeInt|]. apply emits_for.
  intros j [t' q] Hj. destruct (Forall2_lookup_r _ _ _ _ _ Hts Hj) as (x & Hx & Hm & Ho).
  pose proof (Forall_lookup_1 _ _ _ _ Hes Hj) as [Hs Hq]. cbn [fst snd] in *.
  intros m p Hp Ha. simpl. rewrite Hx. erewrite M_bind_lift by done.
  rewrite list_lookup_fmap, Hj. cbn [fmap option_fmap option_map snd].
  apply (emits_bind (p_blk buf) m0 (fun p => writeMQTTString p x) (fun p => writeChar p q) (wstr t') [q]);
    [by apply emits_writeMQTTString|by apply emits_writeChar_byte|done..].
Qed.

(** *** Reading *)

Lemma subscribe_prefix m out maxcount buf buflen dup id body :
  0 <= dup < 2 -> 0 <= id < 65536 -> Z.of_nat (length (be16 id ++ body)) < 268435456 ->
  at_bytes m buf (packet (header 8 dup 1 0) (be16 id ++ body)) ->
  exists p e, at_bytes m p body /\ pdiff e p = Z.of_nat (length body) /\
    MQTTDeserialize_subscribe m out maxcount buf buflen =
      ('(fin, count, ts, qs) ← subscribe_loop m (Z.to_nat (pdiff e p)) p e 0 (su_topicFilters out)
                                  (su_requestedQoSs out);
       Some (if (fin : bool) then 1 else Z.of_nat (length (varint (Z.of_nat (length (be16 id ++ body))))),
             mkSubscribeOut dup id count ts qs)).
Proof.
  intros Hdup Hid Hl Hat. unfold MQTTDeserialize_subscribe.
  destruct (header_get 8 dup 1 0) as (Et & Ed & _); try lia.
  read_packet Hat Hbody k Hk; [|apply header_byte; lia|done].
  rewrite Et, Ed. msimpl. rewrite Hd. msimpl. change (8 =? SUBSCRIBE) with true. msimpl.
  apply at_bytes_app in Hbody as [Hi Hb]. rewrite (readInt_spec _ _ _ (proj1 Hid) Hi). msimpl.
  rewrite to_ushort_id by done.
  eexists (padd (padd (padd buf 1) k) 2), _. split; [exact Hb|]. split; [|by rewrite Hk].
  rewrite <- Hk, length_app, Nat2Z.inj_add. change (Z.of_nat (length (be16 id))) with 2.
  unfold pdiff, padd. simpl. lia.
Qed.

(** A SUBSCRIBE written by [MQTTSerialize_subscribe] into a buffer that is
    large enough by [MQTTPacket_len] and read by [MQTTDeserialize_subscribe] into
    arrays that hold its entries gives the DUP flag, the packet identifier, the
    count and, in order, every topic filter and requested QoS. *)
Theorem subscribe_roundtrip m0 buf buflen dup id ts qs es t maxcount out :
  wf_subscribe dup id es -> subscribe_args m0 (p_blk buf) ts qs es -> room m0 buf buflen ->
  MQTTPacket_len (Z.of_nat (length (subscribe_body id es))) = Some t -> t <= buflen ->
  (length es <= length (su_topicFilters out))%nat -> (length es <= length (su_requestedQoSs out))%nat ->
  exists m' rc ts' qs',
    MQTTSerialize_subscribe buf buflen dup id (Z.of_nat (length es)) ts qs m0 = Some (rc, m') /\
    agree_except (p_blk buf) m0 m' /\
    MQTTDeserialize_subscribe m' out maxcount buf rc =
      Some (1, mkSubscribeOut dup id (Z.of_nat (length es)) ts' qs') /\
    forall j e, es !! j = Some e -> entry_den m' ts' qs' j e.
Proof.
  intros Hwf Ha Hr Ht Hle Hlt Hlq.
  rewrite (MQTTSerialize_subscribe_spec m0 buf buflen dup id ts qs es t) by done.
  destruct (Z.leb_spec t buflen); [|lia]. destruct Hwf as (Hd & Hi & Hes & Hl).
  destruct (MQTTPacket_len_spec (Z.of_nat (length (subscribe_body id es)))) as (t' & Ht' & Hbd); [lia|].
  destruct (stored_room m0 buf (enc_subscribe dup id es) buflen) as (m' & Hs & Hat & Hag); [done| |].
  { unfold enc_subscribe. rewrite length_packet. simplify_eq. lia. }
  unfold enc_subscribe, subscribe_body in Hat.
  destruct (subscribe_prefix m' out maxcount buf (Z.of_nat (length (enc_subscribe dup id es))) dup id
    (concat (map enc_entry es))) as (p & e & Hp & He & Hdes); [done..|].
  destruct (subscribe_loop_fits m' es (Z.to_nat (pdiff e p)) p e 0 (su_topicFilters out) (su_requestedQoSs out))
    as (ts' & qs' & Hloop & _ & Hden); try done; try lia.
  { eapply Forall_impl; [done|]. by intros ? []. }
  { rewrite He, Nat2Z.id. clear. induction es as [|e es IH]; [done|]. cbn [map concat length].
    rewrite length_app. unfold enc_entry at 1. rewrite length_app, length_wstr. simpl. lia. }
  exists m', (Z.of_nat (length (enc_subscribe dup id es))), ts', qs'. by rewrite Hdes, Hloop.
Qed.

(** [MQTTDeserialize_subscribe] does not look at [maxcount]: whatever it is, a
    packet with more entries than [topicFilters] has elements makes it write
    behind the array. *)
Theorem subscribe_ignores_maxcount m out maxcount buf buflen dup id es :
  wf_subscribe dup id es -> at_bytes m buf (enc_subscribe dup id es) ->
  (length (su_topicFilters out) < length es)%nat ->
  MQTTDeserialize_subscribe m out maxcount buf buflen = None.
Proof.
  intros (Hd & Hi & Hes & Hl) Hat Hlt.
  destruct (subscribe_prefix m out maxcount buf buflen dup id (concat (map enc_entry es)))
    as (p & e & Hp & He & ->); [done..|].
  rewrite (subscribe_loop_overrun m es); try done; try lia.
  - eapply Forall_impl; [done|]. by intros ? [].
  - rewrite He, Nat2Z.id. apply Nat2Z.inj_le. rewrite length_entries. clear.
    induction es; cbn [length foldr]; lia.
Qed.

(** [MQTTDeserialize_subscribe] is safe and terminates on any SUBSCRIBE body
    that has a packet identifier, however malformed: given arrays as long as the
    rest of the body it returns, with 1 or with the number of length bytes, and
    the count is at most a third of the body. *)
Theorem subscribe_parse_total m out maxcount buf buflen dup id body :
  0 <= dup < 2 -> 0 <= id < 65536 -> bytes body -> Z.of_nat (length body) < 268435000 ->
  at_bytes m buf (packet (header 8 dup 1 0) (be16 id ++ body)) ->
  (length body <= length (su_topicFilters out))%nat -> (length body <= length (su_requestedQoSs out))%nat ->
  exists rc out', MQTTDeserialize_subscribe m out maxcount buf buflen = Some (rc, out') /\
    1 <= rc <= 4 /\ su_dup out' = dup /\ su_packetid out' = id /\
    0 <= su_count out' /\ 3 * su_count out' <= Z.of_nat (length body).
Proof.
  intros Hd Hi Hb Hl Hat Hlt Hlq.
  assert (HL : Z.of_nat (length (be16 id ++ body)) = 2 + Z.of_nat (length body))
    by (rewrite length_app; unfold be16; cbn [length]; lia).
  destruct (subscribe_prefix m out maxcount buf buflen dup id body) as (p & e & Hp & He & ->); [done..|lia|done|].
  destruct (subscribe_loop_total m (Z.to_nat (pdiff e p)) p e 0 (su_topicFilters out) (su_requestedQoSs out) body)
    as (fin & c & ts' & qs' & -> & Hc0 & Hc); try done; try lia.
  msimpl. eexists _, _. split; [done|]. cbn [su_dup su_packetid su_count]. splits; try done; try lia;
  rewrite length_varint_exact by lia; destruct fin; try lia; repeat case_match; lia.
Qed.
End Subscribe.

(** ** Concrete instances *)

Definition ex_entries : list (list Z * Z) := [([116; 47; 97], 1); ([104; 105; 33], 2)].
Definition ex_filters : list MQTTString :=
  [mkMQTTString (Some ex_topic) 0 None; mkMQTTString None 3 (Some ex_payload)].
Definition ex_strings (n : nat) : list MQTTString := replicate n MQTTString_initializer.

Lemma ex_mstr_in : Forall2 (mstr_in ex_mem 0) ex_filters [[116; 47; 97]; [104; 105; 33]].
Proof.
  constructor; [apply ex_topic_in|]. constructor; [apply ex_payload_in|constructor].
Qed.

Lemma ex_wf_subscribe : wf_subscribe 0 9 ex_entries.
Proof.
  unfold wf_subscribe. splits; try lia; [|by vm_compute].
  repeat constructor; unfold short, byte; simpl; lia.
Qed.

Lemma ex_subscribe_args : subscribe_args ex_mem 0 ex_filters [1; 2] ex_entries.
Proof.
  split; [|done]. constructor; [apply ex_topic_in|]. constructor; [apply ex_payload_in|constructor].
Qed.

Lemma subscribe_roundtrip_witness :
  exists m' rc ts' qs',
    MQTTSerialize_subscribe (H := x86_abi) ex_buf 64 0 9 2 ex_filters [1; 2] ex_mem = Some (rc, m') /\
    agree_except 0 ex_mem m' /\
    MQTTDeserialize_subscribe (H := x86_abi) m' (mkSubscribeOut 0 0 0 (ex_strings 2) [0; 0]) 2 ex_buf rc =
      Some (1, mkSubscribeOut 0 9 2 ts' qs') /\
    forall j e, ex_entries !! j = Some e -> entry_den (H := x86_abi) m' ts' qs' j e.
Proof.
  apply (subscribe_roundtrip (H := x86_abi) ex_mem ex_buf 64 0 9 ex_filters [1; 2] ex_entries 16 2
    (mkSubscribeOut 0 0 0 (ex_strings 2) [0; 0]));
    [apply ex_wf_subscribe | apply ex_subscribe_args | by apply ex_room | by vm_compute | lia | simpl; lia | simpl; lia].
Defined.

Lemma subscribe_ignores_maxcount_witness :
  MQTTDeserialize_subscribe (H := x86_abi) (ex_packet (enc_subscribe 0 9 ex_entries))
    (mkSubscribeOut 0 0 0 (ex_strings 1) [0]) 1 ex_buf 16 = None.
Proof.
  apply (subscribe_ignores_maxcount (H := x86_abi) (ex_packet (enc_subscribe 0 9 ex_entries))
    (mkSubscribeOut 0 0 0 (ex_strings 1) [0]) 1 ex_buf 16 0 9 ex_entries);
    [apply ex_wf_subscribe | by vm_compute | simpl; lia].
Defined.

Lemma subscribe_parse_total_witness :
  exists rc out',
    MQTTDeserialize_subscribe (H := x86_abi) (ex_packet (packet (header 8 0 1 0) (be16 9 ++ [0; 9; 1])))
      (mkSubscribeOut 0 0 0 (ex_strings 3) [0; 0; 0]) 3 ex_buf 7 = Some (rc, out') /\
    1 <= rc <= 4 /\ su_dup out' = 0 /\ su_packetid out' = 9 /\ 0 <= su_count out' /\ 3 * su_count out' <= 3.
Proof.
  apply (subscribe_parse_total (H := x86_abi) (ex_packet (packet (header 8 0 1 0) (be16 9 ++ [0; 9; 1])))
    (mkSubscribeOut 0 0 0 (ex_strings 3) [0; 0; 0]) 3 ex_buf 7 0 9 [0; 9; 1]);
    [lia | lia | by repeat constructor | simpl; lia | by vm_compute | simpl; lia | simpl; lia].
Defined.

Lemma suback_roundtrip_witness :
  exists m' rc,
    MQTTSerialize_suback (H := x86_abi) ex_buf 6 9 2 [1; 128] ex_mem = Some (rc, m') /\ agree_except 0 ex_mem m' /\
    MQTTDeserialize_suback (H := x86_abi) m' (mkSubackOut 0 0 [0; 0; 7]) 3 ex_buf rc =
      Some (1, mkSubackOut 9 2 [1; -128; 7]).
Proof.
  apply (suback_roundtrip (H := x86_abi) ex_mem ex_buf 6 9 [1; 128] 3 (mkSubackOut 0 0 [0; 0; 7]));
    [lia | by repeat constructor | by apply ex_room | simpl; lia | simpl; lia | simpl; lia | by vm_compute].
Defined.

Lemma suback_maxcount_witness :
  MQTTDeserialize_suback (H := x86_abi) (ex_packet (enc_suback 9 [0; 1])) (mkSubackOut 0 0 [0]) 1 ex_buf 6 = None.
Proof.
  apply (suback_maxcount (H := x86_abi) (ex_packet (enc_suback 9 [0; 1])) (mkSubackOut 0 0 [0]) 1 ex_buf 6 9 [0; 1]);
    [lia | simpl; lia | by vm_compute | done].
Defined.

Lemma suback_short_buffer_witness :
  MQTTSerialize_suback (H := x86_abi) (Ptr 0 60) 4 9 2 [0; 1] ex_mem = None.
Proof.
  apply (suback_short_buffer (H := x86_abi) ex_mem (Ptr 0 60) 4 9 [0; 1] (replicate 64 0));
    [lia | by repeat constructor | simpl; lia | done | done].
Defined.
