(* ===== verification/Unsubscribe.v ===== *)
(** * Unsubscribe: MQTTUnsubscribeClient.c and MQTTUnsubscribeServer.c

    UNSUBSCRIBE and UNSUBACK, written and read. *)
From S2P Require Import Prelude CMem Wire Packet Publish Subscribe.

Section Definitions.
Context `{CharAbi}.

(** ** MQTTUnsubscribeClient.c *)

Definition MQTTSerialize_unsubscribeLength (count : Z) (topicFilters : list MQTTString) : M mem Z :=
  c_for 0 (Z.to_nat count) (fun i len =>
    m ← get;
    t ← lift (topicFilters !! i); n ← lift (MQTTstrlen m t);
    n ← lift (cint (2 + n)); lift (cint (len + n))) 2.

Definition MQTTSerialize_unsubscribe (buf : ptr) (buflen dup packetid count : Z)
    (topicFilters : list MQTTString) : M mem Z :=
  rem_len ← MQTTSerialize_unsubscribeLength count topicFilters;
  total ← lift (MQTTPacket_len rem_len);
  if buflen <? total then mret MQTTPACKET_BUFFER_TOO_SHORT else
  let header := set_hdr_type UNSUBSCRIBE 0 in
  let header := set_hdr_dup dup header in
  let header := set_hdr_qos 1 header in
  ptr ← (ptr ← writeChar buf header;
         ptr ← (n ← MQTTPacket_encode ptr rem_len; mret (padd ptr n));
         ptr ← writeInt ptr packetid;
         c_for 0 (Z.to_nat count) (fun i ptr => t ← lift (topicFilters !! i); writeMQTTString ptr t) ptr);
  mret (pdiff ptr buf).

(** Returns [rc] and [*packetid]. *)
Definition MQTTDeserialize_unsuback (m : mem) (packetid : Z) (buf : ptr) (buflen : Z) : option (Z * Z) :=
  '(rc, o) ← MQTTDeserialize_ack m (mkAckOut 0 0 packetid) buf buflen;
  Some (if ao_packettype o =? UNSUBACK then 1 else rc, ao_packetid o).

(** ** MQTTUnsubscribeServer.c *)

Record unsubscribe_out := mkUnsubscribeOut {
  un_dup : Z; un_packetid : Z; un_count : Z; un_topicFilters : list MQTTString
}.

Fixpoint unsubscribe_loop (m : mem) (fuel : nat) (curdata enddata : ptr) (count : Z)
    (topicFilters : list MQTTString) : option (bool * Z * list MQTTString) :=
  if pdiff enddata curdata <=? 0 then Some (true, count, topicFilters) else
  match fuel with
  | O => None
  | S fuel' =>
    t ← arr_get topicFilters count;
    '(ok, t, curdata) ← readMQTTLenString m t curdata enddata;
    topicFilters ← arr_set topicFilters count t;
    if ok =? 0 then Some (false, count, topicFilters) else
    unsubscribe_loop m fuel' curdata enddata (count + 1) topicFilters
  end.

Definition MQTTDeserialize_unsubscribe (m : mem) (out : unsubscribe_out) (maxcount : Z) (buf : ptr) (len : Z)
    : option (Z * unsubscribe_out) :=
  '(c, curdata) ← readChar m buf;
  let header := to_uchar c in
  if negb (hdr_type header =? UNSUBSCRIBE) then Some (0, out) else
  let dup := hdr_dup header in
  '(rc, mylen) ← MQTTPacket_decodeBuf m curdata;
  let curdata := padd curdata rc in
  let enddata := padd curdata mylen in
  '(id, curdata) ← readInt m curdata;
  '(done, count, ts) ← unsubscribe_loop m (Z.to_nat (pdiff enddata curdata)) curdata enddata 0
                         (un_topicFilters out);
  Some (if (done : bool) then 1 else rc, mkUnsubscribeOut dup (to_ushort id) count ts).

Definition MQTTSerialize_unsuback (buf : ptr) (buflen packetid : Z) : M mem Z :=
  if buflen <? 2 then mret MQTTPACKET_BUFFER_TOO_SHORT else
  ptr ← (ptr ← writeChar buf (set_hdr_type UNSUBACK 0);
         ptr ← (n ← MQTTPacket_encode ptr 2; mret (padd ptr n));
         writeInt ptr packetid);
  mret (pdiff ptr buf).

End Definitions.

Section Unsubscribe.
Context `{CharAbi}.

(** ** Reading the filters *)

Definition filter_den (m : mem) (ts : list MQTTString) (i : nat) (t : list Z) : Prop :=
  exists x, ts !! i = Some x /\ mstr m x t.

Lemma length_filters ts :
  Z.of_nat (length (concat (map wstr ts))) = foldr (fun t n => 2 + Z.of_nat (length t) + n) 0 ts.
Proof.
  induction ts as [|t ts IH]; [done|]. cbn [map concat foldr]. rewrite length_app, length_wstr. lia.
Qed.

Lemma unsubscribe_round m fuel p e count ts t rest :
  at_bytes m p (wstr t ++ rest) -> short t -> pdiff e p = Z.of_nat (length (wstr t ++ rest)) ->
  exists x p', mstr m x t /\ at_bytes m p' rest /\ pdiff e p' = Z.of_nat (length rest) /\
    unsubscribe_loop m (S fuel) p e count ts =
      (_ ← arr_get ts count; ts ← arr_set ts count x; unsubscribe_loop m fuel p' e (count + 1) ts).
Proof.
  intros Hat Ht He. cbn [unsubscribe_loop]. rewrite length_app, length_wstr in He.
  destruct (Z.leb_spec (pdiff e p) 0); [lia|].
  apply at_bytes_app in Hat as [Hs Hat]. pose proof (mstr_read _ _ _ Hs) as Hm. rewrite length_wstr in Hat.
  eexists _, _. split; [exact Hm|]. split; [exact Hat|].
  split; [unfold pdiff, padd in *; simpl in *; lia|].
  destruct (arr_get ts count) as [t0|]; [|done]. msimpl.
  by rewrite (readMQTTLenString_spec _ _ _ t) by (try done; lia).
Qed.

Lemma unsubscribe_loop_fits m us : forall fuel p e count ts,
  at_bytes m p (concat (map wstr us)) -> Forall short us ->
  pdiff e p = Z.of_nat (length (concat (map wstr us))) -> (length us <= fuel)%nat -> 0 <= count ->
  count + Z.of_nat (length us) <= Z.of_nat (length ts) ->
  exists ts', unsubscribe_loop m fuel p e count ts = Some (true, count + Z.of_nat (length us), ts') /\
    (forall j, (j < Z.to_nat count)%nat -> ts' !! j = ts !! j) /\
    forall j t, us !! j = Some t -> filter_den m ts' (Z.to_nat count + j) t.
Proof.
  induction us as [|t us IH]; intros fuel p e count ts Hat Hs He Hf Hc Hts.
  { exists ts. cbn [length Z.of_nat] in *. rewrite Z.add_0_r. splits; [|done|done].
    destruct fuel; cbn [unsubscribe_loop]; destruct (Z.leb_spec (pdiff e p) 0); simpl in *; (done || lia). }
  cbn [map concat length] in *. destruct fuel as [|fuel]; [lia|].
  apply Forall_cons in Hs as [Hst Hs].
  destruct (unsubscribe_round m fuel p e count ts t _ Hat Hst He) as (x & p' & Hm & Hat' & He' & ->).
  destruct (arr_get_ex ts count) as [t0 ->]; [lia|]. msimpl. rewrite arr_set_in by lia. msimpl.
  destruct (IH fuel p' e (count + 1) (<[Z.to_nat count := x]> ts)) as (ts' & -> & Hpre & Hden);
    try done; rewrite ?length_insert; try lia.
  exists ts'. replace (count + Z.of_nat (S (length us))) with (count + 1 + Z.of_nat (length us)) by lia.
  splits; [done| |].
  - intros j Hj. rewrite Hpre, list_lookup_insert_ne by lia. done.
  - intros [|j] t' Hj; simpl in Hj.
    + injection Hj as <-. rewrite Nat.add_0_r. exists x. by rewrite Hpre, list_lookup_insert_eq by lia.
    + replace (Z.to_nat count + S j)%nat with (Z.to_nat (count + 1) + j)%nat by lia. by apply Hden.
Qed.

Lemma unsubscribe_loop_overrun m us : forall fuel p e count ts,
  at_bytes m p (concat (map wstr us)) -> Forall short us ->
  pdiff e p = Z.of_nat (length (concat (map wstr us))) -> (length us <= fuel)%nat ->
  0 <= count <= Z.of_nat (length ts) -> Z.of_nat (length ts) < count + Z.of_nat (length us) ->
  unsubscribe_loop m fuel p e count ts = None.
Proof.
  induction us as [|t us IH]; intros fuel p e count ts Hat Hs He Hf Hc Hts; cbn [length] in *; [lia|].
  cbn [map concat] in *. destruct fuel as [|fuel]; [lia|]. apply Forall_cons in Hs as [Hst Hs].
  destruct (unsubscribe_round m fuel p e count ts t _ Hat Hst He) as (x & p' & Hm & Hat' & He' & ->).
  destruct (decide (count = Z.of_nat (length ts))); [by rewrite arr_get_out by lia|].
  destruct (arr_get_ex ts count) as [t0 ->]; [lia|]. msimpl. rewrite arr_set_in by lia. msimpl.
  apply IH; try done; rewrite ?length_insert; lia.
Qed.

Lemma unsubscribe_loop_total m : forall fuel p e count ts bs,
  at_bytes m p bs -> bytes bs -> pdiff e p = Z.of_nat (length bs) -> (length bs <= fuel)%nat -> 0 <= count ->
  count + Z.of_nat (length bs) <= Z.of_nat (length ts) ->
  exists fin count' ts', unsubscribe_loop m fuel p e count ts = Some (fin, count', ts') /\
    count <= count' /\ 2 * (count' - count) <= Z.of_nat (length bs).
Proof.
  induction fuel as [|fuel IH]; intros p e count ts bs Hat Hb He Hf Hc Hts; cbn [unsubscribe_loop];
    destruct (Z.leb_spec (pdiff e p) 0); try lia;
    [exists true, count, ts; splits; (done || lia)..|].
  destruct (arr_get_ex ts count) as [t0 ->]; [lia|]. msimpl.
  destruct (readMQTTLenString_any m t0 p e bs) as (ok & y & p' & -> & Hok); [done..|]. msimpl.
  rewrite arr_set_in by lia. msimpl.
  destruct Hok as [-> | (-> & k & Hk & -> & Hat')].
  { rewrite Z.eqb_refl. eexists false, count, _. splits; [done|lia|lia]. }
  change (1 =? 0) with false. cbv iota. pose proof (length_drop bs k) as Hdl.
  match goal with |- context [ unsubscribe_loop _ _ ?p1 _ ?c1 ?t1 ] =>
    destruct (IH p1 e c1 t1 (drop k bs)) as (fin & c' & ts' & -> & ? & ?)
  end; try done; rewrite ?length_insert; try lia.
  { by apply Forall_drop. }
  { unfold pdiff, padd in *; simpl in *; lia. }
  exists fin, c', ts'. splits; [done|lia|lia].
Qed.

Lemma unsubscribe_prefix m out maxcount buf buflen dup id body :
  0 <= dup < 2 -> 0 <= id < 65536 -> Z.of_nat (length (be16 id ++ body)) < 268435456 ->
  at_bytes m buf (packet (header 10 dup 1 0) (be16 id ++ body)) ->
  exists p e, at_bytes m p body /\ pdiff e p = Z.of_nat (length body) /\
    MQTTDeserialize_unsubscribe m out maxcount buf buflen =
      ('(fin, count, ts) ← unsubscribe_loop m (Z.to_nat (pdiff e p)) p e 0 (un_topicFilters out);
       Some (if (fin : bool) then 1 else Z.of_nat (length (varint (Z.of_nat (length (be16 id ++ body))))),
             mkUnsubscribeOut dup id count ts)).
Proof.
  intros Hdup Hid Hl Hat. unfold MQTTDeserialize_unsubscribe.
  destruct (header_get 10 dup 1 0) as (Et & Ed & _); try lia.
  read_packet Hat Hbody k Hk; [|apply header_byte; lia|done].
  rewrite Et, Ed. msimpl. rewrite Hd. msimpl. change (10 =? UNSUBSCRIBE) with true. msimpl.
  apply at_bytes_app in Hbody as [Hi Hb]. rewrite (readInt_spec _ _ _ (proj1 Hid) Hi). msimpl.
  rewrite to_ushort_id by done.
  eexists (padd (padd (padd buf 1) k) 2), _. split; [exact Hb|]. split; [|by rewrite Hk].
  rewrite <- Hk, length_app, Nat2Z.inj_add. change (Z.of_nat (length (be16 id))) with 2.
  unfold pdiff, padd. simpl. lia.
Qed.

(** ** Writing *)

Definition unsubscribe_args (m : mem) (b : nat) (ts : list MQTTString) (us : list (list Z)) : Prop :=
  Forall2 (mstr_in m b) ts us.

Lemma length_unsubscribe_body id us :
  Z.of_nat (length (unsubscribe_body id us)) = 2 + foldr (fun t n => 2 + Z.of_nat (length t) + n) 0 us.
Proof. unfold unsubscribe_body. rewrite length_app, <- length_filters. unfold be16. cbn [length]. lia. Qed.

Lemma unsubscribeLength_spec m b dup id ts us :
  wf_unsubscribe dup id us -> unsubscribe_args m b ts us ->
  MQTTSerialize_unsubscribeLength (Z.of_nat (length us)) ts m =
    Some (Z.of_nat (length (unsubscribe_body id us)), m).
Proof.
  intros (_ & _ & Hus & Hl) Hts. rewrite length_unsubscribe_body in *.
  unfold MQTTSerialize_unsubscribeLength. rewrite Nat2Z.id.
  apply (c_for_sum _ (fun t => 2 + Z.of_nat (length t)) INT_MAX m us 0 2); [ | |lia|unfold INT_MAX; lia].
  - intros j t a Hj Ha0 Ha. destruct (Forall2_lookup_r _ _ _ _ _ Hts Hj) as (x & Hx & Hm & _).
    pose proof (Forall_lookup_1 _ _ _ _ Hus Hj) as Hs. unfold get. erewrite M_bind_Some by done.
    simpl. rewrite Hx. erewrite M_bind_lift by done.
    rewrite (MQTTstrlen_spec _ _ _ Hm Hs). erewrite M_bind_lift by done. unfold short in Hs.
    rewrite cint_ok by (unfold INT_MIN, INT_MAX; lia). erewrite M_bind_lift by done.
    unfold lift. rewrite cint_ok by (unfold INT_MIN, INT_MAX in *; lia). done.
  - apply Forall_forall. intros. lia.
Qed.

Lemma MQTTSerialize_unsubscribe_spec m0 buf buflen dup id ts us t :
  wf_unsubscribe dup id us -> unsubscribe_args m0 (p_blk buf) ts us ->
  MQTTPacket_len (Z.of_nat (length (unsubscribe_body id us))) = Some t ->
  MQTTSerialize_unsubscribe buf buflen dup id (Z.of_nat (length us)) ts m0 =
    if t <=? buflen then stored m0 buf (enc_unsubscribe dup id us)
    else Some (MQTTPACKET_BUFFER_TOO_SHORT, m0).
Proof.
  intros Hwf Ha Ht. unfold MQTTSerialize_unsubscribe.
  rewrite (M_bind_Some _ _ _ _ _ (unsubscribeLength_spec m0 _ dup id ts us Hwf Ha)).
  rewrite Ht. erewrite M_bind_lift by done.
  destruct (Z.ltb_spec buflen t), (Z.leb_spec t buflen); try lia; [done|]. cbv zeta.
  destruct Hwf as (Hd & Hi & Hus & Hl).
  rewrite (header_fields3 UNSUBSCRIBE dup 1) by (simpl; lia). rewrite Nat2Z.id.
  apply (serialize_packet m0 (header 10 dup 1 0)); [apply header_byte; lia | done | unfold INT_MAX; lia |].
  apply emits_bind; [by apply emits_writeInt|]. apply emits_for.
  intros j t' Hj. destruct (Forall2_lookup_r _ _ _ _ _ Ha Hj) as (x & Hx & Hm & Ho).
  pose proof (Forall_lookup_1 _ _ _ _ Hus Hj) as Hs.
  intros m p Hp Hag. simpl. rewrite Hx. erewrite M_bind_lift by done.
  by apply (emits_writeMQTTString (p_blk buf) m0).
Qed.

(** ** Properties *)

(** An UNSUBSCRIBE written by [MQTTSerialize_unsubscribe] into a buffer that is
    large enough by [MQTTPacket_len] and read by [MQTTDeserialize_unsubscribe]
    into an array that holds its filters gives the DUP flag, the packet
    identifier, the count and every filter in order; if the array is too small,
    it is overrun whatever [maxcount] says. *)
Theorem unsubscribe_roundtrip m0 buf buflen dup id ts us t maxcount out :
  wf_unsubscribe dup id us -> unsubscribe_args m0 (p_blk buf) ts us -> room m0 buf buflen ->
  MQTTPacket_len (Z.of_nat (length (unsubscribe_body id us))) = Some t -> t <= buflen ->
  exists m' rc,
    MQTTSerialize_unsubscribe buf buflen dup id (Z.of_nat (length us)) ts m0 = Some (rc, m') /\
    agree_except (p_blk buf) m0 m' /\
    if decide (length us <= length (un_topicFilters out))%nat
    then exists ts',
      MQTTDeserialize_unsubscribe m' out maxcount buf rc =
        Some (1, mkUnsubscribeOut dup id (Z.of_nat (length us)) ts') /\
      forall j u, us !! j = Some u -> filter_den m' ts' j u
    else MQTTDeserialize_unsubscribe m' out maxcount buf rc = None.
Proof.
  intros Hwf Ha Hr Ht Hle.
  rewrite (MQTTSerialize_unsubscribe_spec m0 buf buflen dup id ts us t) by done.
  destruct (Z.leb_spec t buflen); [|lia]. destruct Hwf as (Hd & Hi & Hus & Hl).
  destruct (MQTTPacket_len_spec (Z.of_nat (length (unsubscribe_body id us)))) as (t' & Ht' & Hbd); [lia|].
  destruct (stored_room m0 buf (enc_unsubscribe dup id us) buflen) as (m' & Hs & Hat & Hag); [done| |].
  { unfold enc_unsubscribe. rewrite length_packet. simplify_eq. lia. }
  unfold enc_unsubscribe, unsubscribe_body in Hat.
  exists m', (Z.of_nat (length (enc_unsubscribe dup id us))). split; [done|]. split; [done|].
  destruct (unsubscribe_prefix m' out maxcount buf (Z.of_nat (length (enc_unsubscribe dup id us))) dup id
    (concat (map wstr us))) as (p & e & Hp & He & ->); [done..|].
  assert (Hfuel : (length us <= Z.to_nat (pdiff e p))%nat).
  { rewrite He, Nat2Z.id. apply Nat2Z.inj_le. rewrite length_filters. clear.
    induction us; cbn [length foldr]; lia. }
  case_decide.
  - destruct (unsubscribe_loop_fits m' us (Z.to_nat (pdiff e p)) p e 0 (un_topicFilters out))
      as (ts' & -> & _ & Hden); try done; try lia. by exists ts'.
  - by rewrite (unsubscribe_loop_overrun m' us) by (try done; lia).
Qed.

(** [MQTTDeserialize_unsubscribe] is safe and terminates on any UNSUBSCRIBE body
    that has a packet identifier, given an array as long as the rest of the body. *)
Theorem unsubscribe_parse_total m out maxcount buf buflen dup id body :
  0 <= dup < 2 -> 0 <= id < 65536 -> bytes body -> Z.of_nat (length body) < 268435000 ->
  at_bytes m buf (packet (header 10 dup 1 0) (be16 id ++ body)) ->
  (length body <= length (un_topicFilters out))%nat ->
  exists rc out', MQTTDeserialize_unsubscribe m out maxcount buf buflen = Some (rc, out') /\
    1 <= rc <= 4 /\ un_dup out' = dup /\ un_packetid out' = id /\
    0 <= un_count out' /\ 2 * un_count out' <= Z.of_nat (length body).
Proof.
  intros Hd Hi Hb Hl Hat Hlt.
  assert (HL : Z.of_nat (length (be16 id ++ body)) = 2 + Z.of_nat (length body))
    by (rewrite length_app; unfold be16; cbn [length]; lia).
  destruct (unsubscribe_prefix m out maxcount buf buflen dup id body) as (p & e & Hp & He & ->); [done..|lia|done|].
  destruct (unsubscribe_loop_total m (Z.to_nat (pdiff e p)) p e 0 (un_topicFilters out) body)
    as (fin & c & ts' & -> & Hc0 & Hc); try done; try lia.
  msimpl. eexists _, _. split; [done|]. cbn [un_dup un_packetid un_count]. splits; try done; try lia;
  rewrite length_varint_exact by lia; destruct fin; try lia; repeat case_match; lia.
Qed.

Lemma MQTTSerialize_unsuback_spec m0 buf buflen id :
  0 <= id < 65536 ->
  MQTTSerialize_unsuback buf buflen id m0 =
    if buflen <? 2 then Some (MQTTPACKET_BUFFER_TOO_SHORT, m0) else stored m0 buf (enc_ack 11 0 id).
Proof.
  intros Hi. unfold MQTTSerialize_unsuback. destruct (buflen <? 2); [done|].
  apply serialize_packet; try done. by apply emits_writeInt.
Qed.

(** UNSUBACK for every buffer length: [MQTTSerialize_unsuback] refuses lengths
    below 2, overruns a buffer of 2 or 3 bytes, and from 4 on writes a packet from
    which [MQTTDeserialize_unsuback] recovers the identifier. *)
Theorem unsuback_buffer m0 buf buflen id id0 blk :
  0 <= id < 65536 ->
  m0 !! p_blk buf = Some blk -> 0 <= p_off buf -> p_off buf + buflen = Z.of_nat (length blk) ->
  if buflen <? 2 then MQTTSerialize_unsuback buf buflen id m0 = Some (MQTTPACKET_BUFFER_TOO_SHORT, m0)
  else if buflen <? 4 then MQTTSerialize_unsuback buf buflen id m0 = None
  else exists m', MQTTSerialize_unsuback buf buflen id m0 = Some (4, m') /\
         agree_except (p_blk buf) m0 m' /\ MQTTDeserialize_unsuback m' id0 buf 4 = Some (1, id).
Proof.
  intros Hi Hb Ho Hl. rewrite MQTTSerialize_unsuback_spec by done.
  destruct (Z.ltb_spec buflen 2); [done|]. destruct (Z.ltb_spec buflen 4).
  - eapply stored_overrun; [done| |done]. change (Z.of_nat (length (enc_ack 11 0 id))) with 4. lia.
  - destruct (stored_room m0 buf (enc_ack 11 0 id) buflen) as (m' & Hs & Hat & Hag);
      [exists blk; splits; try done; lia | change (Z.of_nat (length (enc_ack 11 0 id))) with 4; lia |].
    exists m'. splits; [exact Hs|done|]. unfold MQTTDeserialize_unsuback.
    by rewrite (MQTTDeserialize_ack_spec _ _ _ _ 11 0 id) by (try done; lia).
Qed.

(** [MQTTDeserialize_unsuback] answers 1 for every packet whose type is
    UNSUBACK: also for one whose body is shorter than the packet identifier,
    which it then leaves as it was. *)
Theorem unsuback_truncated m id0 buf buflen h body :
  byte h -> hdr_type h = UNSUBACK -> Z.of_nat (length body) < 268435456 ->
  at_bytes m buf (packet h body) ->
  exists id, MQTTDeserialize_unsuback m id0 buf buflen = Some (1, id) /\
    ((length body < 2)%nat -> id = id0).
Proof.
  intros Hh Ht Hl Hat. unfold MQTTDeserialize_unsuback, MQTTDeserialize_ack.
  read_packet Hat Hbody k Hk; [|done|done]. msimpl. rewrite Hd. msimpl. rewrite pdiff_padd_0, Ht.
  destruct (Z.ltb_spec (Z.of_nat (length body)) 2).
  - eexists. split; [done|]. done.
  - destruct body as [|a [|b body]]; simpl length in *; try lia.
    unfold readInt. rewrite (at_bytes_load _ _ _ _ Hbody). msimpl.
    apply at_bytes_cons in Hbody as [_ Hbody]. rewrite (at_bytes_load _ _ _ _ Hbody). msimpl.
    eexists. split; [done|]. lia.
Qed.

End Unsubscribe.

(** ** Concrete instances *)

Definition ex_topics : list (list Z) := [[116; 47; 97]; [104; 105; 33]].

Lemma unsubscribe_roundtrip_witness :
  exists m' rc,
    MQTTSerialize_unsubscribe (H := x86_abi) ex_buf 64 0 9 2 ex_filters ex_mem = Some (rc, m') /\
    agree_except 0 ex_mem m' /\
    exists ts', MQTTDeserialize_unsubscribe (H := x86_abi) m' (mkUnsubscribeOut 0 0 0 (ex_strings 2)) 2 ex_buf rc =
        Some (1, mkUnsubscribeOut 0 9 2 ts') /\
      forall j u, ex_topics !! j = Some u -> filter_den m' ts' j u.
Proof.
  apply (unsubscribe_roundtrip (H := x86_abi) ex_mem ex_buf 64 0 9 ex_filters ex_topics 14 2
    (mkUnsubscribeOut 0 0 0 (ex_strings 2)));
    [|apply ex_mstr_in | by apply ex_room | by vm_compute | lia].
  unfold wf_unsubscribe. splits; try lia; [|by vm_compute].
  repeat constructor; unfold short; simpl; lia.
Defined.

Lemma unsubscribe_parse_total_witness :
  exists rc out',
    MQTTDeserialize_unsubscribe (H := x86_abi) (ex_packet (packet (header 10 0 1 0) (be16 9 ++ [0; 9; 1])))
      (mkUnsubscribeOut 0 0 0 (ex_strings 3)) 3 ex_buf 7 = Some (rc, out') /\
    1 <= rc <= 4 /\ un_dup out' = 0 /\ un_packetid out' = 9 /\ 0 <= un_count out' /\ 2 * un_count out' <= 3.
Proof.
  apply (unsubscribe_parse_total (H := x86_abi) (ex_packet (packet (header 10 0 1 0) (be16 9 ++ [0; 9; 1])))
    (mkUnsubscribeOut 0 0 0 (ex_strings 3)) 3 ex_buf 7 0 9 [0; 9; 1]);
    [lia | lia | by repeat constructor | simpl; lia | by vm_compute | simpl; lia].
Defined.

Lemma unsuback_buffer_witness :
  MQTTSerialize_unsuback (H := x86_abi) (Ptr 0 61) 3 9 ex_mem = None.
Proof.
  apply (unsuback_buffer (H := x86_abi) ex_mem (Ptr 0 61) 3 9 0 (replicate 64 0)); [lia | done | simpl; lia | done].
Defined.

Lemma unsuback_truncated_witness :
  exists id, MQTTDeserialize_unsuback (H := x86_abi) (ex_packet [176; 0]) 42 ex_buf 2 = Some (1, id) /\
    ((0 < 2)%nat -> id = 42).
Proof.
  apply (unsuback_truncated (H := x86_abi) (ex_packet [176; 0]) 42 ex_buf 2 176 []);
    [by unfold byte | by vm_compute | done | by vm_compute].
Defined.
