(* ===== verification/Transport.v ===== *)
(** * Transport: MQTTPacket_read, MQTTPacket_decodenb and MQTTPacket_readnb

    Reassembling a packet from a byte source, blocking and non-blocking.  The
    byte source [getfn] belongs to the caller; what the readers need of it is
    an interface, a class with one law. *)
From S2P Require Import Prelude CMem Wire Packet.

(** [getfn(p, n)]: the source's return value; the bytes it delivered are stored at [p]. *)
Definition read_into {T} (getfn : reader T) (p : ptr) (n : Z) : M (mem * T) Z :=
  r ← on_snd (getfn n); on_fst (stores p r.2);; mret r.1.

(** The members of [MQTTTransport] besides the source. *)
Record MQTTTransport := mkTransport { multiplier : Z; rem_len : Z; len : Z; state : Z }.

Definition set_state (s : Z) (trp : MQTTTransport) : MQTTTransport :=
  mkTransport (multiplier trp) (rem_len trp) (len trp) s.

Section Definitions.
Context `{CharAbi} {T : Type} (getfn : reader T).

Definition MQTTPacket_read (buf : ptr) (buflen : Z) : M (mem * T) Z :=
  r ← read_into getfn buf 1;
  if negb (r =? 1) then mret (-1) else
  '(_, rem_len) ← on_snd (MQTTPacket_decode getfn);
  n ← on_fst (MQTTPacket_encode (padd buf 1) rem_len);
  let len := 1 + n in
  total ← lift (cint (rem_len + len));
  if buflen <? total then mret (-1) else
  r ← read_into getfn (padd buf len) rem_len;
  if negb (r =? rem_len) then mret (-1) else
  st ← get;
  header ← lift (load st.1 buf);
  mret (hdr_type header).

(** The loop of [MQTTPacket_decodenb]; [len] grows in every round, so the rounds are
    bounded by its distance to four. *)
Fixpoint decodenb_loop (fuel : nat) (c : option Z) (trp : MQTTTransport) : M T (Z * MQTTTransport) :=
  match fuel with
  | O => undefined
  | S fuel' =>
    len' ← lift (cint (len trp + 1));
    let trp := mkTransport (multiplier trp) (rem_len trp) len' (state trp) in
    if MAX_NO_OF_REMAINING_LENGTH_BYTES <? len trp then mret (MQTTPACKET_READ_ERROR, trp) else
    r ← getfn 1;
    if r.1 =? -1 then mret (MQTTPACKET_READ_ERROR, trp) else
    if r.1 =? 0 then mret (0, trp) else
    c ← lift (recv1 c r.2); ch ← lift c;
    rem_len' ← lift (cint (rem_len trp + Z.land ch 127 * multiplier trp));
    multiplier' ← lift (cint (multiplier trp * 128));
    let trp := mkTransport multiplier' rem_len' (len trp) (state trp) in
    if negb (Z.land ch 128 =? 0) then decodenb_loop fuel' (Some ch) trp else mret (len trp, trp)
  end.

Definition MQTTPacket_decodenb (trp : MQTTTransport) : M T (Z * MQTTTransport) :=
  let trp := if len trp =? 0 then mkTransport 1 0 0 (state trp) else trp in
  decodenb_loop (S (Z.to_nat (4 - len trp))) None trp.

(** [exit: trp->state = 0; return rc;] *)
Definition exit_nb (rc : Z) (trp : MQTTTransport) : M (mem * T) (Z * MQTTTransport) :=
  mret (rc, set_state 0 trp).

(** [case 2] of [MQTTPacket_readnb] *)
Definition readnb_body (buf : ptr) (trp : MQTTTransport) : M (mem * T) (Z * MQTTTransport) :=
  frc ← read_into getfn (padd buf (len trp)) (rem_len trp);
  if frc =? -1 then exit_nb (-1) trp else
  if frc =? 0 then mret (0, trp) else
  rem_len' ← lift (cint (rem_len trp - frc));
  len' ← lift (cint (len trp + frc));
  let trp := mkTransport (multiplier trp) rem_len' len' (state trp) in
  if negb (rem_len trp =? 0) then mret (0, trp) else
  st ← get;
  header ← lift (load st.1 buf);
  exit_nb (hdr_type header) trp.

(** [case 1], falling through to [case 2] *)
Definition readnb_length (buf : ptr) (buflen : Z) (trp : MQTTTransport) : M (mem * T) (Z * MQTTTransport) :=
  '(frc, trp) ← on_snd (MQTTPacket_decodenb trp);
  if frc =? MQTTPACKET_READ_ERROR then exit_nb (-1) trp else
  if frc =? 0 then mret (0, trp) else
  n ← on_fst (MQTTPacket_encode (padd buf 1) (rem_len trp));
  let trp := mkTransport (multiplier trp) (rem_len trp) (1 + n) (state trp) in
  total ← lift (cint (rem_len trp + len trp));
  if buflen <? total then exit_nb (-1) trp else
  readnb_body buf (set_state (to_char (state trp + 1)) trp).

(** [case 0], falling through to [case 1] *)
Definition readnb_header (buf : ptr) (buflen : Z) (trp : MQTTTransport) : M (mem * T) (Z * MQTTTransport) :=
  frc ← read_into getfn buf 1;
  if frc =? -1 then exit_nb (-1) trp else
  if frc =? 0 then mret (0, trp) else
  readnb_length buf buflen (mkTransport (multiplier trp) (rem_len trp) 0 (to_char (state trp + 1))).

Definition MQTTPacket_readnb (buf : ptr) (buflen : Z) (trp : MQTTTransport) : M (mem * T) (Z * MQTTTransport) :=
  if state trp =? 2 then readnb_body buf trp
  else if state trp =? 1 then readnb_length buf buflen trp
  else readnb_header buf buflen (set_state 0 trp).

(** A caller that asks again while the answer is 0. *)
Fixpoint poll (n : nat) (buf : ptr) (buflen : Z) (trp : MQTTTransport) : M (mem * T) (Z * MQTTTransport) :=
  '(rc, trp) ← MQTTPacket_readnb buf buflen trp;
  match n with
  | S n' => if rc =? 0 then poll n' buf buflen trp else mret (rc, trp)
  | O => mret (rc, trp)
  end.
End Definitions.

(** ** What a source promises

    [pending t]: the bytes the source in state [t] has still to deliver. *)
Class BlockingSource {T} (getfn : reader T) (pending : T -> list Z) : Prop :=
  blocking_law : forall n t, 0 <= n <= Z.of_nat (length (pending t)) ->
    exists t', getfn n t = Some ((n, take (Z.to_nat n) (pending t)), t') /\
               pending t' = drop (Z.to_nat n) (pending t).

(** Non-blocking: up to [n] bytes are delivered, possibly none. *)
Class NbSource {T} (getfn : reader T) (pending : T -> list Z) : Prop :=
  nb_law : forall n t, 0 <= n <= Z.of_nat (length (pending t)) ->
    exists k t', getfn n t = Some ((k, take (Z.to_nat k) (pending t)), t') /\
                 0 <= k <= n /\ pending t' = drop (Z.to_nat k) (pending t).

(** ... and at least one whenever one is asked for. *)
Class EagerSource {T} (getfn : reader T) (pending : T -> list Z) : Prop := {
  eager_nb :: NbSource getfn pending;
  eager_law : forall n t k bs t', 0 < n <= Z.of_nat (length (pending t)) ->
    getfn n t = Some ((k, bs), t') -> 0 < k
}.

(** A source that hands out its bytes in chunks of the given sizes, 0 for "call
    again", and everything asked for when the list of sizes is used up. *)
Definition chunk_read : reader (list nat * list Z) := fun n t =>
  let k := match t.1 with [] => n | c :: _ => Z.min (Z.of_nat c) n end in
  Some ((k, take (Z.to_nat k) t.2), (tail t.1, drop (Z.to_nat k) t.2)).

#[export] Instance chunk_nb : NbSource chunk_read snd.
Proof.
  intros n [cs bs] Hn. eexists _, _. split; [reflexivity|]. simpl in *. split; [|done].
  destruct cs; lia.
Qed.

(** A source that delivers all that is asked for. *)
Definition stream_read : reader (list Z) := fun n t => Some ((n, take (Z.to_nat n) t), drop (Z.to_nat n) t).

#[export] Instance stream_blocking : BlockingSource stream_read (fun t => t).
Proof. intros n t Hn. by eexists. Qed.

#[export] Instance stream_eager : EagerSource stream_read (fun t => t).
Proof.
  split.
  - intros n t Hn. eexists n, _. split; [reflexivity|]. split; [lia|done].
  - intros n t k bs t' Hn [= <- <- <-]. lia.
Qed.

(** ** Blocking reads *)

Lemma read_into_eq {T} (getfn : reader T) p n m t v bs t' :
  getfn n t = Some ((v, bs), t') ->
  read_into getfn p n (m, t) = m' ← store_bytes m p bs; Some (v, (m', t')).
Proof.
  intros Hg. unfold read_into, on_snd, on_fst, stores, mbind, M_bind. cbn [fst snd]. rewrite Hg. cbn.
  by destruct (store_bytes m p bs).
Qed.

Lemma read_into_Some {T} (getfn : reader T) p n m t v bs t' m' :
  getfn n t = Some ((v, bs), t') -> store_bytes m p bs = Some m' ->
  read_into getfn p n (m, t) = Some (v, (m', t')).
Proof. intros Hg Hs. rewrite (read_into_eq _ _ _ _ _ _ _ _ Hg), Hs. done. Qed.

Lemma on_snd_Some {S T A} (c : M T A) (s : S) t a t' : c t = Some (a, t') -> on_snd c (s, t) = Some (a, (s, t')).
Proof. intros H. unfold on_snd. cbn [snd]. by rewrite H. Qed.

Lemma on_fst_Some {S T A} (c : M S A) (s : S) (t : T) a s' : c s = Some (a, s') -> on_fst c (s, t) = Some (a, (s', t)).
Proof. intros H. unfold on_fst. cbn [fst]. by rewrite H. Qed.

(** [MQTTPacket_encode] where there is room. *)
Lemma encode_Some `{CharAbi} m p n k :
  0 <= n <= INT_MAX -> room m p k -> 5 <= k ->
  exists m', store_bytes m p (varint n) = Some m' /\
    MQTTPacket_encode p n m = Some (Z.of_nat (length (varint n)), m').
Proof.
  intros Hn Hr Hk. pose proof (length_varint n) as Hl.
  destruct (room_store m p (varint n) k Hr) as (m' & Hs); [lia|]. exists m'. split; [done|].
  unfold MQTTPacket_encode. rewrite encode_loop_stores;
    [|unfold INT_MAX in Hn; split; [lia|]; simpl; lia|lia].
  rewrite padd_0. change (varint_n 5 n) with (varint n). by rewrite Hs.
Qed.

Lemma encode_eq `{CharAbi} m p n :
  0 <= n <= INT_MAX ->
  MQTTPacket_encode p n m = m' ← store_bytes m p (varint n); Some (Z.of_nat (length (varint n)), m').
Proof.
  intros Hn. unfold MQTTPacket_encode. rewrite encode_loop_stores;
    [|unfold INT_MAX in Hn; split; [lia|]; simpl; lia|lia].
  by rewrite padd_0.
Qed.

Section Blocking.
Context `{CharAbi} {T : Type} (getfn : reader T) (pending : T -> list Z) `{!BlockingSource getfn pending}.

(** One byte at a time, a blocking source delivers what is pending. *)
Lemma blocking_delivers bs : forall t rest, pending t = bs ++ rest ->
  exists t', delivers getfn t bs t' /\ pending t' = rest.
Proof.
  induction bs as [|b bs IH]; intros t rest Hp; [exists t; split; [constructor|done]|].
  destruct (blocking_law 1 t) as (t1 & Hg & Hp1); [rewrite Hp; simpl; lia|].
  rewrite Hp in Hg, Hp1. change (Z.to_nat 1) with 1%nat in *. cbn [take drop app] in Hg, Hp1. rewrite take_0 in Hg.
  destruct (IH t1 rest) as (t' & Hd & Hr); [done|]. exists t'. split; [|done]. by econstructor.
Qed.

(** [MQTTPacket_read] reassembles a packet from any source that delivers what is
    asked for: it consumes exactly the packet's bytes from the source, stores
    them at [buf] (undefined if they do not fit the block) and returns the packet
    type; if the packet is longer than [buflen] it returns -1, having consumed
    and stored the header and the remaining length only. *)
Theorem read_reassembles m buf buflen h body rest t :
  Z.of_nat (length body) < 268435456 ->
  pending t = packet h body ++ rest ->
  let n := Z.of_nat (length (packet h body)) in
  exists t',
    MQTTPacket_read getfn buf buflen (m, t) =
      (if n <=? buflen
       then m' ← store_bytes m buf (packet h body); Some (hdr_type h, (m', t'))
       else m' ← store_bytes m buf (h :: varint (Z.of_nat (length body))); Some (-1, (m', t'))) /\
    pending t' = if n <=? buflen then rest else body ++ rest.
Proof.
  intros Hl Hp n. set (L := Z.of_nat (length body)) in *. unfold packet in *. fold L in Hp, n.
  assert (HnL : n = 1 + Z.of_nat (length (varint L)) + L) by (unfold n, L; cbn [length]; rewrite length_app; lia).
  destruct (blocking_law 1 t) as (t1 & Hg1 & Hp1); [rewrite Hp; simpl; lia|].
  rewrite Hp in Hg1, Hp1. change (Z.to_nat 1) with 1%nat in *. cbn [take drop app] in Hg1, Hp1.
  rewrite <- app_assoc in Hp1. rewrite !take_0 in Hg1.
  destruct (blocking_delivers (varint L) t1 (body ++ rest) Hp1) as (t2 & Hd & Hp2).
  destruct (blocking_law L t2) as (t3 & Hg3 & Hp3); [rewrite Hp2, length_app; unfold L; lia|].
  unfold L in Hg3, Hp3. rewrite Nat2Z.id, Hp2, take_app_length in Hg3.
  rewrite Nat2Z.id, Hp2, drop_app_length in Hp3. fold L in Hg3.
  exists (if n <=? buflen then t3 else t2). split; [|by destruct (n <=? buflen)].
  fold L. unfold MQTTPacket_read. unfold mbind at 1, M_bind at 1.
  rewrite (read_into_eq _ _ _ _ _ _ _ _ Hg1).
  change (h :: varint L ++ body) with ([h] ++ varint L ++ body).
  change (h :: varint L) with ([h] ++ varint L).
  rewrite !store_bytes_app_eq. change (Z.of_nat (length [h])) with 1.
  destruct (store_bytes m buf [h]) as [m1|] eqn:Hs1; [|by destruct (n <=? buflen)]. msimpl.
  change (1 =? 1) with true. cbn [negb].
  erewrite M_bind_Some by (apply on_snd_Some, (MQTTPacket_decode_varint getfn L); [unfold L; lia|exact Hd]).
  cbn beta iota. unfold mbind at 1, M_bind at 1. unfold on_fst at 1. cbn [fst snd].
  rewrite encode_eq by (unfold INT_MAX, L; lia).
  rewrite store_bytes_app_eq.
  destruct (store_bytes m1 (padd buf 1) (varint L)) as [m2|] eqn:Hs2; [|by destruct (n <=? buflen)]. msimpl.
  erewrite M_bind_lift by (apply cint_ok; unfold INT_MIN, INT_MAX; pose proof (length_varint L); unfold L in *; lia).
  replace (L + (1 + Z.of_nat (length (varint L)))) with n by lia.
  destruct (Z.ltb_spec buflen n), (Z.leb_spec n buflen); try lia; [done|].
  unfold mbind at 1, M_bind at 1. rewrite (read_into_eq _ _ _ _ _ _ _ _ Hg3), padd_padd.
  destruct (store_bytes m2 _ body) as [m3|] eqn:Hs3; [|done]. msimpl. rewrite Z.eqb_refl. cbn [negb].
  erewrite M_bind_Some by done. cbn [fst].
  assert (Hat : at_bytes m3 buf ([h] ++ varint L ++ body)).
  { rewrite app_assoc. eapply store_bytes_extend; [eapply store_bytes_extend; [by eapply store_bytes_at|exact Hs2]|].
    rewrite length_app, Nat2Z.inj_add. exact Hs3. }
  rewrite (M_bind_lift _ _ _ h) by (by eapply at_bytes_load). done.
Qed.

End Blocking.

(** [MQTTPacket_read] ignores errors of the remaining-length field: when the
    source fails right after the header byte and then returns 0 for a read of no
    bytes, the header alone is reported as a complete packet of its type, with
    a remaining length of 0 put into the buffer. *)
Theorem read_length_error_accepted `{CharAbi} {T} (getfn : reader T) m buf buflen h r t t1 t2 t3 :
  2 <= buflen -> r <> 1 ->
  getfn 1 t = Some ((1, [h]), t1) -> getfn 1 t1 = Some ((r, []), t2) -> getfn 0 t2 = Some ((0, []), t3) ->
  MQTTPacket_read getfn buf buflen (m, t) =
    m' ← store_bytes m buf [h; 0]; Some (hdr_type h, (m', t3)).
Proof.
  intros Hl Hr Hg1 Hg2 Hg3. unfold MQTTPacket_read. unfold mbind at 1, M_bind at 1.
  rewrite (read_into_eq _ _ _ _ _ _ _ _ Hg1). change [h; 0] with ([h] ++ varint 0).
  rewrite store_bytes_app_eq. change (Z.of_nat (length [h])) with 1.
  destruct (store_bytes m buf [h]) as [m1|] eqn:Hs1; [|done]. msimpl.
  change (1 =? 1) with true. cbn [negb].
  rewrite (M_bind_Some _ _ _ (1, 0) (m1, t2)).
  2:{ apply on_snd_Some. unfold MQTTPacket_decode. cbn [decode_loop].
      change (MAX_NO_OF_REMAINING_LENGTH_BYTES <? 0 + 1) with false. cbv iota.
      rewrite (M_bind_Some _ _ _ _ _ Hg2). cbn [snd fst recv1]. erewrite M_bind_lift by done.
      by destruct (Z.eqb_spec r 1). }
  cbn beta iota. unfold mbind at 1, M_bind at 1. unfold on_fst at 1. cbn [fst snd].
  rewrite encode_eq by (unfold INT_MAX; lia).
  destruct (store_bytes m1 (padd buf 1) (varint 0)) as [m2|] eqn:Hs2; [|done]. msimpl.
  rewrite (M_bind_lift _ _ _ 2) by done. destruct (Z.ltb_spec buflen 2); [lia|].
  rewrite (M_bind_Some _ _ _ _ _ (read_into_Some _ _ _ m2 _ _ _ _ m2 Hg3 eq_refl)).
  change (0 =? 0) with true. cbn [negb]. erewrite M_bind_Some by done. cbn [fst].
  assert (Hat : at_bytes m2 buf ([h] ++ varint 0))
    by (eapply store_bytes_extend; [by eapply store_bytes_at|exact Hs2]).
  by rewrite (M_bind_lift _ _ _ h) by (by eapply at_bytes_load).
Qed.

(** ** Non-blocking reads *)
Section Nonblocking.
Context `{CharAbi} {T : Type} (getfn : reader T) (pending : T -> list Z) `{!NbSource getfn pending}.

(** The source once had bytes and delivered none. *)
Definition starved : Prop :=
  exists n t bs t', 0 < n <= Z.of_nat (length (pending t)) /\ getfn n t = Some ((0, bs), t').

Lemma nb_one t b rest :
  pending t = b :: rest ->
  (exists t', getfn 1 t = Some ((0, []), t') /\ pending t' = pending t /\ starved) \/
  (exists t', getfn 1 t = Some ((1, [b]), t') /\ pending t' = rest).
Proof.
  intros Hp. destruct (nb_law 1 t) as (k & t' & Hg & Hk & Hp'); [rewrite Hp; simpl; lia|].
  assert (k = 0 \/ k = 1) as [-> | ->] by lia; rewrite Hp in Hg.
  - left. exists t'. split; [exact Hg|]. split; [by rewrite Hp'|].
    exists 1, t, [], t'. split; [rewrite Hp; simpl length; lia|exact Hg].
  - right. exists t'. change (Z.to_nat 1) with 1%nat in *. rewrite Hp in Hp'. cbn [take drop] in *.
    rewrite take_0 in Hg. done.
Qed.

(** Between two calls inside the length field: [j] of its bytes are consumed and
    stand for the difference of [n] and the weight of what is left, [n'];
    [len] also counts the [s] calls that found nothing. *)
Definition length_inv (n : Z) (tail : list Z) (j s n' : Z) (trp : MQTTTransport) (t : T) : Prop :=
  0 <= j < 4 /\ 0 <= s /\ j + s <= 4 /\ 0 <= n' < 128 ^ (4 - j) /\
  len trp = j + s /\ multiplier trp = 128 ^ j /\ rem_len trp + 128 ^ j * n' = n /\ 0 <= rem_len trp /\
  pending t = varint_n (Z.to_nat (4 - j)) n' ++ tail /\
  Z.of_nat (length (varint n)) = j + Z.of_nat (length (varint_n (Z.to_nat (4 - j)) n')).

Lemma pow128 j : 0 <= j <= 3 -> 128 ^ j * 128 <= 268435456 /\ 0 < 128 ^ j.
Proof.
  intros. assert (j = 0 \/ j = 1 \/ j = 2 \/ j = 3) as [-> | [-> | [-> | ->]]] by lia; vm_compute; split; congruence.
Qed.

(** What a call of [MQTTPacket_decodenb] can end in: the length is complete; the
    source had nothing; the field's bytes and the empty calls exceed four. *)
Lemma decodenb_loop_spec n tail : 0 <= n < 268435456 -> forall fuel c j s n' trp t,
  length_inv n tail j s n' trp t -> (Z.to_nat (4 - (j + s)) < fuel)%nat ->
  exists rc trp' t', decodenb_loop getfn fuel c trp t = Some ((rc, trp'), t') /\ state trp' = state trp /\
    (length (pending t') <= length (pending t))%nat /\
    (rc = -1 /\ 4 < Z.of_nat (length (varint n)) + s \/
     (exists j' n'', rc = 0 /\ starved /\ 0 < len trp' /\ length_inv n tail j' (s + 1) n'' trp' t') \/
     (0 < rc /\ rem_len trp' = n /\ pending t' = tail)).
Proof.
  intros Hn. induction fuel as [|fuel IH]; intros c j s n' trp t Hi Hf; [lia|].
  destruct Hi as (Hj & Hs & Hjs & Hn' & Hlen & Hmul & Hsum & Hrl & Hp & HL).
  pose proof (pow128 j ltac:(lia)) as [Hpow Hpow0].
  replace (Z.to_nat (4 - j)) with (S (Z.to_nat (3 - j))) in Hp, HL by lia. cbn [varint_n] in Hp, HL.
  pose proof (Z.mod_pos_bound n' 128 ltac:(lia)) as Hmod.
  cbn [decodenb_loop]. rewrite (M_bind_lift _ _ _ (j + s + 1))
    by (rewrite cint_ok, Hlen by (unfold INT_MIN, INT_MAX; lia); done).
  cbn [len multiplier rem_len state]. unfold MAX_NO_OF_REMAINING_LENGTH_BYTES.
  destruct (Z.ltb_spec 4 (j + s + 1)).
  { eexists _, _, t. split; [done|]. splits; [done|lia|]. left. split; [done|].
    destruct (n' <? 128); simpl length in HL; lia. }
  set (b := if n' <? 128 then n' else n' mod 128 + 128).
  assert (Hb : byte b) by (unfold b, byte; destruct (Z.ltb_spec n' 128); lia).
  destruct (nb_one t b ((if n' <? 128 then [] else varint_n (Z.to_nat (3 - j)) (n' / 128)) ++ tail))
    as [(t' & Hg & Hp' & Hstv) | (t' & Hg & Hp')]; [rewrite Hp; unfold b; by destruct (n' <? 128)| |].
  - rewrite (M_bind_Some _ _ _ _ _ Hg). cbn [fst]. change (0 =? -1) with false. change (0 =? 0) with true. cbv iota.
    eexists _, _, t'. split; [done|]. splits; [done|rewrite Hp'; lia|]. right. left. exists j, n'.
    split; [done|]. split; [done|]. split; [cbn; lia|]. unfold length_inv. cbn [len multiplier rem_len state].
    replace (Z.to_nat (4 - j)) with (S (Z.to_nat (3 - j))) by lia. cbn [varint_n].
    rewrite Hp'. splits; (done || lia).
  - rewrite (M_bind_Some _ _ _ _ _ Hg). cbn [fst snd recv1]. change (1 =? -1) with false.
    change (1 =? 0) with false. cbv iota. erewrite M_bind_lift by done. erewrite M_bind_lift by done.
    assert (Hb7 : Z.land b 127 = n' mod 128).
    { rewrite land_127. unfold b. destruct (Z.ltb_spec n' 128); [done|].
      rewrite <- Z.add_mod_idemp_r, Z.mod_same, Z.add_0_r, Z.mod_mod by lia. done. }
    rewrite Hb7, Hmul.
    assert (Hdiv : n' = 128 * (n' / 128) + n' mod 128) by (apply Z.div_mod; lia).
    assert (Hle : 128 ^ j * (n' mod 128) <= 128 ^ j * n')
      by (apply Z.mul_le_mono_nonneg_l; [lia|]; pose proof (Z.div_pos n' 128); lia).
    assert (0 <= n' mod 128 * 128 ^ j) by (apply Z.mul_nonneg_nonneg; lia).
    erewrite M_bind_lift by (apply cint_ok; unfold INT_MIN, INT_MAX; lia).
    erewrite M_bind_lift by (apply cint_ok; unfold INT_MIN, INT_MAX; lia).
    rewrite land_128 by done. cbn [len multiplier rem_len state]. unfold b.
    destruct (Z.ltb_spec n' 128) as [Hlt|Hge].
    + destruct (Z.ltb_spec n' 128); [|lia]. cbn [negb].
      eexists _, _, t'. split; [done|]. splits; [done|rewrite Hp, Hp'; simpl; lia|]. right. right.
      cbn [rem_len]. splits; [lia| |done]. rewrite Z.mod_small by lia. lia.
    + destruct (Z.ltb_spec (n' mod 128 + 128) 128); [lia|]. cbn [negb].
      assert (Hj3 : j < 3) by (destruct (decide (j = 3)) as [->|]; [change (128 ^ (4 - 3)) with 128 in Hn'; lia|lia]).
      assert (Hp128 : 128 ^ (4 - j) = 128 * 128 ^ (3 - j)) by (rewrite <- Z.pow_succ_r by lia; f_equal; lia).
      destruct (IH (Some (n' mod 128 + 128)) (j + 1) s (n' / 128)
        (mkTransport (128 ^ j * 128) (rem_len trp + n' mod 128 * 128 ^ j) (j + s + 1) (state trp)) t')
        as (rc & trp' & t'' & He & Hst & Hpl & Hres); [|lia|].
      * unfold length_inv. cbn [len multiplier rem_len state]. replace (4 - (j + 1)) with (3 - j) by lia.
        assert (Hpj : 128 ^ (j + 1) = 128 ^ j * 128) by (rewrite Z.pow_add_r by lia; done).
        assert (0 <= n' / 128 < 128 ^ (3 - j))
          by (split; [apply Z.div_pos; lia|apply Z.div_lt_upper_bound; lia]).
        rewrite Hpj. destruct (Z.ltb_spec n' 128) in HL; [lia|]. simpl length in HL.
        replace (128 ^ j * 128 * (n' / 128)) with (128 ^ j * (128 * (n' / 128))) by ring.
        assert (128 ^ j * n' = 128 ^ j * (128 * (n' / 128)) + 128 ^ j * (n' mod 128)) by (rewrite Hdiv at 1; ring).
        splits; (done || lia).
      * exists rc, trp', t''. rewrite He. splits; try done.
        rewrite Hp' in Hpl. rewrite Hp. revert Hpl. rewrite !length_app. simpl length. lia.
Qed.

Lemma decodenb_spec n tail trp t s :
  0 <= n < 268435456 ->
  (len trp = 0 /\ s = 0 /\ pending t = varint n ++ tail) \/
  (0 < len trp /\ exists j n', length_inv n tail j s n' trp t) ->
  exists rc trp' t', MQTTPacket_decodenb getfn trp t = Some ((rc, trp'), t') /\ state trp' = state trp /\
    (length (pending t') <= length (pending t))%nat /\
    (rc = -1 /\ 4 < Z.of_nat (length (varint n)) + s \/
     (exists j' n'', rc = 0 /\ starved /\ 0 < len trp' /\ length_inv n tail j' (s + 1) n'' trp' t') \/
     (0 < rc /\ rem_len trp' = n /\ pending t' = tail)).
Proof.
  intros Hn Hi. unfold MQTTPacket_decodenb. destruct Hi as [(Hl & -> & Hp)|(Hl & j & n' & Hi)].
  - rewrite Hl, Z.eqb_refl.
    destruct (decodenb_loop_spec n tail Hn 5 None 0 0 n (mkTransport 1 0 0 (state trp)) t)
      as (rc & trp' & t' & He & Hst & Hres); [|simpl; lia|by exists rc, trp', t'].
    unfold length_inv. cbn [len multiplier rem_len]. change (Z.to_nat (4 - 0)) with 4%nat.
    unfold varint in *. rewrite (varint_n_enough 4 5) in * by (simpl; lia).
    splits; (done || lia).
  - destruct (Z.eqb_spec (len trp) 0); [lia|].
    apply (decodenb_loop_spec n tail Hn _ None j s n'); [done|].
    destruct Hi as (_ & _ & _ & _ & Hlen & _). rewrite Hlen. lia.
Qed.

Context (buf : ptr) (buflen h : Z) (body rest : list Z).
Let n : Z := Z.of_nat (length body).
Let L : Z := Z.of_nat (length (varint n)).
Context (Hbody : body <> []) (Hn : n < 268435456) (Hfit : 1 + L + n <= buflen).

(** The body is being read: [i] bytes of it are in the buffer. *)
Definition body_inv (i : nat) (trp : MQTTTransport) (m : mem) (t : T) : Prop :=
  (i < length body)%nat /\ at_bytes m buf (h :: varint n ++ take i body) /\
  len trp = 1 + L + Z.of_nat i /\ rem_len trp = n - Z.of_nat i /\ pending t = drop i body ++ rest.

(** The state between two calls of [MQTTPacket_readnb]; [s] counts the calls that
    found the source empty inside the length field. *)
Definition nb_inv (s : Z) (trp : MQTTTransport) (m : mem) (t : T) : Prop :=
  room m buf buflen /\
  (state trp <> 1 /\ state trp <> 2 /\ s = 0 /\ pending t = packet h body ++ rest \/
   state trp = 1 /\ at_bytes m buf [h] /\ 0 < len trp /\
     (exists j n', length_inv n (body ++ rest) j s n' trp t) \/
   state trp = 2 /\ exists i, body_inv i trp m t).

(** The ways a call can end. *)
Definition nb_result (s : Z) (m : mem) (t : T) (rc : Z) (trp' : MQTTTransport) (m' : mem) (t' : T) : Prop :=
  agree_except (p_blk buf) m m' /\ (length (pending t') <= length (pending t))%nat /\
  (rc = 0 /\ (exists s', (s' = s /\ (length (pending t') < length (pending t))%nat \/ s <= s' <= s + 1 /\ starved) /\
                        nb_inv s' trp' m' t') \/
   rc = -1 /\ state trp' = 0 /\ 4 < L + s \/
   rc = hdr_type h /\ state trp' = 0 /\ at_bytes m' buf (packet h body) /\ pending t' = rest).

Lemma readnb_body_spec s i trp m t :
  room m buf buflen -> state trp = 2 -> body_inv i trp m t ->
  exists rc trp' m' t',
    readnb_body getfn buf trp (m, t) = Some ((rc, trp'), (m', t')) /\ nb_result s m t rc trp' m' t'.
Proof.
  intros Hr Hst (Hi & Hat & Hlen & Hrem & Hp). unfold readnb_body.
  destruct (nb_law (n - Z.of_nat i) t) as (k & t' & Hg & Hk & Hp').
  { rewrite Hp, length_app, length_drop. unfold n. lia. }
  rewrite Hp, take_app_le in Hg by (rewrite length_drop; unfold n in *; lia).
  rewrite Hp, drop_app_le, drop_drop in Hp' by (rewrite length_drop; unfold n in *; lia).
  set (bs := take (Z.to_nat k) (drop i body)) in *.
  assert (Hbs : Z.of_nat (length bs) = k) by (unfold bs; rewrite length_take, length_drop; unfold n in *; lia).
  destruct Hr as (blk & Hblk & Ho & Hbl).
  assert (Hr' : room m (padd buf (1 + L + Z.of_nat i)) k).
  { exists blk. unfold padd. cbn [p_blk p_off]. splits; [done|lia|lia]. }
  destruct (room_store _ _ bs _ Hr') as (m' & Hs); [lia|].
  assert (Hroom : room m' buf buflen) by (eapply store_bytes_room; [done|by exists blk]).
  pose proof (store_bytes_agree _ _ _ _ Hs) as Hag. rewrite p_blk_padd in Hag.
  assert (Hat' : at_bytes m' buf (h :: varint n ++ take (i + Z.to_nat k) body)).
  { replace (h :: varint n ++ take (i + Z.to_nat k) body) with ((h :: varint n ++ take i body) ++ bs).
    - eapply store_bytes_extend; [done|].
      replace (Z.of_nat (length (h :: varint n ++ take i body))) with (1 + L + Z.of_nat i); [done|].
      cbn [length]. rewrite length_app, length_take. unfold L. lia.
    - cbn [app]. rewrite <- app_assoc. do 2 f_equal. unfold bs.
      pose proof (take_drop_app_range body 0 i (Z.to_nat k)) as Hr2. cbn [drop Nat.add] in Hr2.
      rewrite !drop_0 in Hr2. symmetry. apply Hr2. unfold n in *. lia. }
  rewrite Hlen, Hrem. erewrite M_bind_Some by (eapply read_into_Some; [exact Hg|exact Hs]).
  destruct (Z.eqb_spec k (-1)); [lia|]. destruct (Z.eqb_spec k 0) as [->|Hk0].
  - eexists 0, trp, m', t'. split; [done|]. unfold nb_result. splits; [done| |].
    { rewrite Hp, Hp'. change (Z.to_nat 0) with 0%nat. by rewrite Nat.add_0_r. }
    left. split; [done|]. exists s. split; [right; split; [lia|]|].
    { exists (n - Z.of_nat i), t, bs, t'. split; [|exact Hg].
      rewrite Hp, length_app, length_drop. unfold n in *. lia. }
    split; [done|]. right. right. split; [done|].
    exists i. change (Z.to_nat 0) with 0%nat in *. rewrite Nat.add_0_r in *. done.
  - rewrite (M_bind_lift _ _ _ (n - Z.of_nat i - k))
      by (apply cint_ok; unfold INT_MIN, INT_MAX; unfold n in *; lia).
    assert (HL5 : 1 <= L <= 5) by (unfold L; pose proof (length_varint n); lia).
    rewrite (M_bind_lift _ _ _ (1 + L + Z.of_nat i + k))
      by (apply cint_ok; unfold INT_MIN, INT_MAX; unfold n in *; lia).
    cbn [rem_len]. destruct (Z.eqb_spec (n - Z.of_nat i - k) 0) as [Hz|Hz]; cbn [negb].
    + erewrite M_bind_Some by done. cbn [fst].
      assert (Hall : (length body <= i + Z.to_nat k)%nat) by (unfold n in *; lia).
      rewrite take_ge in Hat' by done. rewrite drop_ge in Hp' by done.
      rewrite (M_bind_lift _ _ _ h) by (by eapply at_bytes_load).
      eexists _, _, m', t'. split; [done|]. unfold nb_result. splits; [done| |right; right; by unfold packet].
      rewrite Hp, Hp', !length_app. simpl. lia.
    + eexists 0, _, m', t'. split; [done|]. unfold nb_result. splits; [done| |].
      { rewrite Hp, Hp', !length_app, !length_drop. lia. }
      left. split; [done|]. exists s. split.
      { left. split; [done|]. rewrite Hp, Hp', !length_app, !length_drop. unfold n in *. lia. }
      split; [done|]. right. right. split; [done|].
      exists (i + Z.to_nat k)%nat. unfold body_inv. cbn [len rem_len].
      splits; (done || (unfold n in *; lia)).
Qed.

Lemma readnb_length_spec s trp m t :
  room m buf buflen -> state trp = 1 -> at_bytes m buf [h] ->
  (len trp = 0 /\ s = 0 /\ pending t = varint n ++ body ++ rest) \/
  (0 < len trp /\ exists j n', length_inv n (body ++ rest) j s n' trp t) ->
  exists rc trp' m' t',
    readnb_length getfn buf buflen trp (m, t) = Some ((rc, trp'), (m', t')) /\ nb_result s m t rc trp' m' t'.
Proof.
  intros Hr Hst Hat Hi. unfold readnb_length.
  destruct (decodenb_spec n (body ++ rest) trp t s) as (rc & trp' & t' & He & Hst' & Hpl & Hres);
    [unfold n in *; lia|done|].
  rewrite (M_bind_Some _ _ _ _ _ (on_snd_Some _ m t _ _ He)). cbn beta iota.
  unfold MQTTPACKET_READ_ERROR in *.
  destruct Hres as [(-> & Hstall)|[(j' & n'' & -> & Hstv & Hl & Hinv)|(Hrc & Hrem & Hp)]].
  - change (-1 =? -1) with true. cbv iota. eexists _, _, m, t'. split; [done|].
    unfold nb_result. splits; [apply agree_except_refl|done|]. right. left. done.
  - change (0 =? -1) with false. change (0 =? 0) with true. cbv iota. eexists _, _, m, t'. split; [done|].
    unfold nb_result. splits; [apply agree_except_refl|done|]. left. split; [done|]. exists (s + 1). split; [right; split; [lia|done]|].
    split; [done|]. right. left. rewrite Hst', Hst. splits; try done. by exists j', n''.
  - destruct (Z.eqb_spec rc (-1)); [lia|]. destruct (Z.eqb_spec rc 0); [lia|].
    pose proof Hr as (blk & Hblk & Ho & Hbl). rewrite Hrem.
    assert (HL5 : 1 <= L <= 5) by (unfold L; pose proof (length_varint n); lia).
    assert (Hr' : room m (padd buf 1) L).
    { exists blk. unfold padd. cbn [p_blk p_off]. splits; [done|lia|unfold n in *; lia]. }
    destruct (room_store _ _ (varint n) _ Hr') as (m1 & Hs); [unfold L; lia|].
    erewrite M_bind_Some by (apply on_fst_Some; rewrite encode_eq by (unfold INT_MAX, n in *; lia); rewrite Hs; done).
    cbn [rem_len len state]. fold L.
    rewrite (M_bind_lift _ _ _ (n + (1 + L))) by (apply cint_ok; unfold INT_MIN, INT_MAX; unfold n in *; lia).
    destruct (Z.ltb_spec buflen (n + (1 + L))); [lia|]. rewrite Hst', Hst.
    rewrite (to_char_small (1 + 1)) by lia. change (1 + 1) with 2.
    pose proof (store_bytes_agree _ _ _ _ Hs) as Hag. rewrite p_blk_padd in Hag.
    match goal with |- context [ readnb_body _ _ ?trp2 ] =>
      destruct (readnb_body_spec s 0 trp2 m1 t') as (rc2 & trp2' & m2 & t2 & He2 & Ha2 & Hl2 & Hres2)
    end.
    + by eapply store_bytes_room.
    + done.
    + unfold body_inv. cbn [len rem_len set_state multiplier state]. rewrite take_0, app_nil_r, drop_0.
      destruct body; [done|]. splits; try done; simpl length; try lia.
      by apply (store_bytes_extend m buf [h]).
    + exists rc2, trp2', m2, t2. split; [exact He2|]. unfold nb_result. splits; [by eapply agree_except_trans|lia|].
      destruct Hres2 as [(-> & s' & Hs' & Hinv)|Hres2]; [|by right]. left. split; [done|]. exists s'.
      split; [|done]. destruct Hs' as [[-> ?]|?]; [left|by right]. split; [done|lia].
Qed.

Lemma readnb_spec s trp m t :
  nb_inv s trp m t ->
  exists rc trp' m' t',
    MQTTPacket_readnb getfn buf buflen trp (m, t) = Some ((rc, trp'), (m', t')) /\
    nb_result s m t rc trp' m' t'.
Proof.
  intros [Hr [(H1 & H2 & -> & Hp)|[(H1 & Hat & Hl & Hi)|(H2 & i & Hi)]]]; unfold MQTTPacket_readnb.
  - destruct (Z.eqb_spec (state trp) 2); [done|]. destruct (Z.eqb_spec (state trp) 1); [done|].
    unfold readnb_header, packet in *. fold n in Hp. destruct (nb_one t h ((varint n ++ body) ++ rest)) as
      [(t' & Hg & Hp' & Hstv) | (t' & Hg & Hp')]; [done| |].
    + erewrite M_bind_Some by (by eapply read_into_Some). change (0 =? -1) with false.
      change (0 =? 0) with true. cbv iota. eexists _, _, m, t'. split; [done|].
      unfold nb_result. splits; [apply agree_except_refl|by rewrite Hp'|]. left. split; [done|].
      exists 0. split; [right; split; [lia|done]|]. split; [done|]. left. cbn [state set_state]. splits; try done.
      unfold packet. by rewrite Hp', Hp.
    + destruct (room_store m buf [h] buflen Hr) as (m1 & Hs); [simpl; unfold n in *; lia|].
      erewrite M_bind_Some by (by eapply read_into_Some). change (1 =? -1) with false.
      change (1 =? 0) with false. cbv iota. cbn [state set_state multiplier rem_len].
      rewrite (to_char_small (0 + 1)) by lia. change (0 + 1) with 1.
      match goal with |- context [ readnb_length _ _ _ ?trp1 ] =>
        destruct (readnb_length_spec 0 trp1 m1 t') as (rc & trp' & m' & t'' & He & Ha & Hl & Hres)
      end.
      * by eapply store_bytes_room.
      * done.
      * by eapply store_bytes_at.
      * left. splits; try done. by rewrite Hp', app_assoc.
      * exists rc, trp', m', t''. split; [exact He|]. unfold nb_result.
        assert (Hlt : (length (pending t'') < length (pending t))%nat) by (rewrite Hp; simpl; rewrite <- Hp'; lia).
        splits; [|lia|].
        -- eapply agree_except_trans; [|exact Ha]. by eapply store_bytes_agree.
        -- destruct Hres as [(-> & s' & Hs' & Hinv)|Hres]; [|by right]. left. split; [done|]. exists s'.
           split; [|done]. destruct Hs' as [[-> ?]|?]; [left; done|by right].
  - destruct (Z.eqb_spec (state trp) 2); [lia|]. rewrite H1, Z.eqb_refl.
    apply readnb_length_spec; auto.
  - rewrite H2, Z.eqb_refl. by eapply readnb_body_spec.
Qed.

(** C6: reassembly does not depend on how the bytes arrive.  From any state
    between two calls, and any source that delivers some of what is asked for or
    nothing, a call of [MQTTPacket_readnb] answers 0 and leaves such a state, or
    answers the packet type with exactly the packet in the buffer and the source
    right behind it; the error return is possible only once the calls that found
    the source empty inside the length field, together with the field's bytes,
    exceed four.  No other block of memory changes. *)
Theorem readnb_step s trp m t :
  nb_inv s trp m t ->
  exists rc trp' m' t',
    MQTTPacket_readnb getfn buf buflen trp (m, t) = Some ((rc, trp'), (m', t')) /\
    agree_except (p_blk buf) m m' /\
    (rc = 0 /\ (exists s', s <= s' <= s + 1 /\ nb_inv s' trp' m' t') \/
     rc = -1 /\ state trp' = 0 /\ 4 < L + s \/
     rc = hdr_type h /\ state trp' = 0 /\ at_bytes m' buf (packet h body) /\ pending t' = rest).
Proof.
  intros Hi. destruct (readnb_spec s trp m t Hi) as (rc & trp' & m' & t' & He & Ha & _ & Hres).
  exists rc, trp', m', t'. splits; [done|done|].
  destruct Hres as [(-> & s' & Hs' & Hinv)|Hres]; [|by right]. left. split; [done|]. exists s'.
  split; [lia|done].
Qed.
End Nonblocking.

(** ** Polling an eager source *)
Section Eager.
Context `{CharAbi} {T : Type} (getfn : reader T) (pending : T -> list Z) `{!EagerSource getfn pending}.

Lemma eager_not_starved : ~ starved getfn pending.
Proof. intros (n & t & bs & t' & Hn & Hg). pose proof (eager_law n t 0 bs t' Hn Hg). lia. Qed.

Lemma poll_spec buf buflen h body rest N : forall s trp m t,
  body <> [] -> Z.of_nat (length body) < 268435456 -> hdr_type h <> 0 ->
  1 + Z.of_nat (length (varint (Z.of_nat (length body)))) + Z.of_nat (length body) <= buflen ->
  Z.of_nat (length (varint (Z.of_nat (length body)))) + s <= 4 ->
  nb_inv pending buf buflen h body rest s trp m t -> (length (pending t) <= N)%nat ->
  exists trp' m' t', poll getfn N buf buflen trp (m, t) = Some ((hdr_type h, trp'), (m', t')) /\
    state trp' = 0 /\ at_bytes m' buf (packet h body) /\ pending t' = rest.
Proof.
  induction N as [|N IH]; intros s trp m t Hb Hn Ht Hfit HL Hi HN;
    destruct (readnb_spec getfn pending buf buflen h body rest Hb Hn Hfit s trp m t Hi)
      as (rc & trp' & m' & t' & He & Ha & Hle & Hres); cbn [poll]; rewrite (M_bind_Some _ _ _ _ _ He); cbn beta iota.
  - destruct Hres as [(-> & s' & [[-> Hlt]|[_ Hst]] & Hinv)|[(-> & _ & Hbad)|(-> & Hst & Hat & Hr)]];
      [lia|by destruct eager_not_starved|lia|by eexists _, _, _].
  - destruct Hres as [(-> & s' & [[-> Hlt]|[_ Hst]] & Hinv)|[(-> & _ & Hbad)|(-> & Hst & Hat & Hr)]];
      [|by destruct eager_not_starved|lia|].
    + change (0 =? 0) with true. cbv iota. apply (IH s); try done. lia.
    + destruct (Z.eqb_spec (hdr_type h) 0); [done|]. by eexists _, _, _.
Qed.

(** C35: liveness: a caller that asks again on 0 gets the packet.  If the source
    delivers at least a byte whenever it has one, then from the initial state at
    most one call more than there are pending bytes completes the packet, for
    every non-empty body below the limit of the length field. *)
Theorem readnb_completes buf buflen h body rest trp m t :
  hdr_type h <> 0 -> body <> [] -> Z.of_nat (length body) < 268435456 ->
  Z.of_nat (length (packet h body)) <= buflen -> room m buf buflen ->
  state trp = 0 -> pending t = packet h body ++ rest ->
  exists trp' m' t',
    poll getfn (length (pending t)) buf buflen trp (m, t) = Some ((hdr_type h, trp'), (m', t')) /\
    state trp' = 0 /\ at_bytes m' buf (packet h body) /\ pending t' = rest.
Proof.
  intros Ht Hb Hn Hfit Hr Hst Hp. rewrite length_packet in Hfit.
  apply (poll_spec buf buflen h body rest _ 0 trp m t); try done; try lia.
  - rewrite length_varint_exact by lia. repeat case_match; lia.
  - split; [done|]. left. rewrite Hst. done.
Qed.
End Eager.

(** A packet without a body (PINGRESP) is never completed: once its header and
    length are read, a source that answers a read of no bytes with 0 makes every
    further call answer "call again" and leave transport, memory and source as
    they were. *)
Theorem readnb_empty_body_stuck `{CharAbi} {T} (getfn : reader T) buf buflen trp m t N :
  state trp = 2 -> rem_len trp = 0 -> getfn 0 t = Some ((0, []), t) ->
  poll getfn N buf buflen trp (m, t) = Some ((0, trp), (m, t)).
Proof.
  intros Hst Hrem Hg.
  assert (Hone : MQTTPacket_readnb getfn buf buflen trp (m, t) = Some ((0, trp), (m, t))).
  { unfold MQTTPacket_readnb. rewrite Hst, Z.eqb_refl. unfold readnb_body. rewrite Hrem.
    by rewrite (M_bind_Some _ _ _ _ _ (read_into_Some _ _ _ m _ _ _ _ m Hg eq_refl)). }
  induction N as [|N IH]; cbn [poll]; rewrite (M_bind_Some _ _ _ _ _ Hone); [done|].
  cbn beta iota. by change (0 =? 0) with true.
Qed.

(** ** Concrete instances *)

Lemma read_reassembles_witness :
  exists t', MQTTPacket_read (H := x86_abi) stream_read ex_buf 3 (ex_mem, [64; 2; 0; 9; 7]) =
      (m' ← store_bytes ex_mem ex_buf [64; 2]; Some (-1, (m', t'))) /\ t' = [0; 9; 7].
Proof. apply (read_reassembles (H := x86_abi) stream_read (fun t => t) ex_mem ex_buf 3 64 [0; 9] [7]); done. Defined.

Lemma read_length_error_accepted_witness :
  MQTTPacket_read (H := x86_abi) (fun n (t : nat) => Some ((if n =? 0 then 0 else if decide (t = 0%nat) then 1 else -1,
      if decide (t = 0%nat) then [64] else []), S t)) ex_buf 64 (ex_mem, 0%nat) =
    m' ← store_bytes ex_mem ex_buf [64; 0]; Some (4, (m', 3%nat)).
Proof.
  apply (read_length_error_accepted (H := x86_abi) _ ex_mem ex_buf 64 64 (-1) 0%nat 1%nat 2%nat 3%nat); done.
Defined.

(** Chunks of 1 byte, none, 1, none, 1, ...: the packet is reassembled all the same. *)
Definition ex_chunks : list nat := [1; 0; 1; 0; 1]%nat.

Lemma readnb_step_witness :
  exists rc trp' m' t',
    MQTTPacket_readnb (H := x86_abi) chunk_read ex_buf 64 (mkTransport 0 0 0 0)
      (ex_mem, (ex_chunks, [64; 2; 0; 9; 7])) = Some ((rc, trp'), (m', t')) /\
    agree_except 0 ex_mem m' /\
    (rc = 0 /\ (exists s', 0 <= s' <= 0 + 1 /\ nb_inv snd ex_buf 64 64 [0; 9] [7] s' trp' m' t') \/
     rc = -1 /\ state trp' = 0 /\ 4 < 1 + 0 \/
     rc = 4 /\ state trp' = 0 /\ at_bytes m' ex_buf [64; 2; 0; 9] /\ t'.2 = [7]).
Proof.
  apply (readnb_step (H := x86_abi) chunk_read snd ex_buf 64 64 [0; 9] [7]); try done.
  split; [by apply ex_room|]. by left.
Defined.

Lemma readnb_completes_witness :
  exists trp' m' t',
    poll (H := x86_abi) stream_read 5 ex_buf 64 (mkTransport 0 0 0 0) (ex_mem, [64; 2; 0; 9; 7]) =
      Some ((4, trp'), (m', t')) /\ state trp' = 0 /\ at_bytes m' ex_buf [64; 2; 0; 9] /\ t' = [7].
Proof.
  apply (readnb_completes (H := x86_abi) stream_read (fun t => t) ex_buf 64 64 [0; 9] [7] (mkTransport 0 0 0 0) ex_mem
    [64; 2; 0; 9; 7]); try done.
  by apply ex_room.
Defined.

Lemma readnb_empty_body_stuck_witness :
  poll (H := x86_abi) stream_read 100 ex_buf 64 (mkTransport 128 0 2 2) (ex_mem, [7]) =
    Some ((0, mkTransport 128 0 2 2), (ex_mem, [7])).
Proof. apply (readnb_empty_body_stuck (H := x86_abi) stream_read); done. Defined.
