(* ===== verification/Topic.v ===== *)
(** * Topic: isTopicMatched of MQTTClient.c

    Matching a topic name against a subscription's filter, character by
    character, and its agreement with matching level by level. *)
From S2P Require Import Prelude CMem Wire Packet.

(** ASCII codes. *)
Definition SLASH : Z := 47.
Definition PLUS : Z := 43.
Definition HASH : Z := 35.

(** [while (nextpos < curn_end && *nextpos != '/') nextpos = ++curn + 1;] from
    [nextpos = curn + 1]; the distance to [curn_end] bounds the rounds. *)
Fixpoint skip_level (m : mem) (fuel : nat) (curn curn_end : ptr) : option ptr :=
  let nextpos := padd curn 1 in
  if pdiff curn_end nextpos <=? 0 then Some curn else
  x ← load m nextpos;
  if x =? SLASH then Some curn else
  match fuel with
  | O => None
  | S fuel' => skip_level m fuel' (padd curn 1) curn_end
  end.

(** The outer loop; the result is the value returned after it.  Every round moves
    [curn] by at least one. *)
Fixpoint match_loop (m : mem) (fuel : nat) (curf curn curn_end : ptr) : option bool :=
  f ← load m curf;
  let stop := if pdiff curn_end curn =? 0 then Some (f =? 0) else Some false in
  if negb (negb (f =? 0) && (0 <? pdiff curn_end curn)) then stop else
  match fuel with
  | O => None
  | S fuel' =>
    n ← load m curn;
    if (n =? SLASH) && negb (f =? SLASH) then stop else
    if negb (f =? PLUS) && negb (f =? HASH) && negb (f =? n) then stop else
    curn ← (if f =? PLUS then skip_level m (Z.to_nat (pdiff curn_end curn)) curn curn_end
            else if f =? HASH then Some (padd curn_end (-1)) else Some curn);
    match_loop m fuel' (padd curf 1) (padd curn 1) curn_end
  end.

Definition isTopicMatched (m : mem) (topicFilter : ptr) (topicName : MQTTString) : option bool :=
  curn ← lenstring_data topicName;
  match_loop m (Z.to_nat (lenstring_len topicName)) topicFilter curn (padd curn (lenstring_len topicName)).

(** ** Level by level *)

(** An ordinary level: not empty, and none of the special characters. *)
Definition plain (l : list Z) : Prop :=
  l <> [] /\ Forall (fun x => x <> 0 /\ x <> SLASH /\ x <> PLUS /\ x <> HASH) l.

(** A filter: ordinary levels and [+], possibly [#] at the end. *)
Inductive wf_filter : list (list Z) -> Prop :=
  | wf_one f : plain f \/ f = [PLUS] \/ f = [HASH] -> wf_filter [f]
  | wf_more f fs : plain f \/ f = [PLUS] -> wf_filter fs -> wf_filter (f :: fs).

Definition wf_name (ns : list (list Z)) : Prop := ns <> [] /\ Forall plain ns.

(** [+] stands for one level, [#] for one or more. *)
Fixpoint levels_match (fs ns : list (list Z)) : bool :=
  match fs, ns with
  | [], [] => true
  | f :: fs', n :: ns' =>
    if bool_decide (f = [HASH]) then true
    else (bool_decide (f = [PLUS]) || bool_decide (f = n)) && levels_match fs' ns'
  | _, _ => false
  end.

(** Levels joined by slashes. *)
Fixpoint join (ls : list (list Z)) : list Z :=
  match ls with
  | [] => []
  | [l] => l
  | l :: ls' => l ++ SLASH :: join ls'
  end.

Lemma join_cons l ls : ls <> [] -> join (l :: ls) = l ++ SLASH :: join ls.
Proof. by destruct ls. Qed.

Lemma plain_first l : plain l -> exists x r, l = x :: r /\ x <> 0 /\ x <> SLASH /\ x <> PLUS /\ x <> HASH.
Proof. intros [Hne Hf]. destruct l as [|x r]; [done|]. apply Forall_cons in Hf as [? _]. eauto 10. Qed.

Lemma wf_filter_ne fs : wf_filter fs -> fs <> [].
Proof. by inversion 1. Qed.

Lemma join_ne ls : ls <> [] -> Forall (fun l => l <> []) ls -> join ls <> [].
Proof.
  destruct ls as [|l [|l' ls]]; [done| |]; intros _ Hf; apply Forall_cons in Hf as [Hl _]; [done|].
  rewrite join_cons by done. by destruct l.
Qed.

(** What [isTopicMatched] computes, on the texts of filter and name: [+] takes the
    characters up to the next slash, [#] all that are left, and neither starts at a
    slash. *)
Fixpoint after_level (n : list Z) : list Z :=
  match n with [] => [] | x :: n' => if x =? SLASH then n else after_level n' end.
Fixpoint accepts (f n : list Z) : bool :=
  match f, n with
  | [], _ => bool_decide (n = [])
  | _ :: _, [] => false
  | c :: f', x :: n' =>
    if (x =? SLASH) && negb (c =? SLASH) then false
    else if c =? PLUS then accepts f' (after_level n')
    else if c =? HASH then accepts f' []
    else (c =? x) && accepts f' n'
  end.

Lemma after_level_spec l rest : Forall (fun y => y <> SLASH) l -> rest = [] \/ (exists r, rest = SLASH :: r) -> after_level (l ++ rest) = rest.
Proof.
  intros Hl Hr. induction Hl as [|x l Hx _ IH]; cbn [app after_level].
  - destruct Hr as [-> | (r & ->)]; done.
  - destruct (Z.eqb_spec x SLASH); [done|exact IH].
Qed.

(** ** One round of the loop, by the characters at hand

    [rf]: what is left of the filter, with its NUL; [rn]: what is left of the name. *)
Section Rounds.
Context (m : mem).

Definition at_pos (curf curn e : ptr) (rf rn : list Z) : Prop :=
  at_bytes m curf (rf ++ [0]) /\ at_bytes m curn rn /\ pdiff e curn = Z.of_nat (length rn) /\
  p_blk e = p_blk curn.

Lemma at_pos_step curf curn e f rf n rn :
  at_pos curf curn e (f :: rf) (n :: rn) -> at_pos (padd curf 1) (padd curn 1) e rf rn.
Proof.
  intros (Hf & Hn & He & Hb). simpl app in Hf. apply at_bytes_cons in Hf as [_ Hf]. apply at_bytes_cons in Hn as [_ Hn].
  split_and!; [done|done| |done]. unfold pdiff, padd in *. simpl in *. lia.
Qed.

(** The name is used up, or the filter is: the answer is whether both are. *)
Lemma match_end fuel curf curn e rf rn :
  at_pos curf curn e rf rn -> Forall (fun x => x <> 0) rf -> rf = [] \/ rn = [] ->
  match_loop m fuel curf curn e = Some (bool_decide (rf = []) && bool_decide (rn = [])).
Proof.
  intros (Hf & Hn & He & _) Hz Hor. destruct fuel; cbn [match_loop]; destruct rf as [|f rf];
    rewrite (at_bytes_load _ _ _ _ Hf); msimpl; rewrite He.
  1,3: change (0 =? 0) with true; cbn [negb andb]; destruct rn; done.
  all: apply Forall_cons in Hz as [Hz _]; destruct Hor as [ | -> ]; [done|];
    destruct (Z.eqb_spec f 0); [done|]; done.
Qed.

(** Two different characters, neither of them a wildcard of the filter. *)
Lemma match_differ fuel curf curn e f rf n rn :
  at_pos curf curn e (f :: rf) (n :: rn) -> f <> 0 -> f <> PLUS -> f <> HASH -> f <> n ->
  match_loop m (S fuel) curf curn e = Some false.
Proof.
  intros (Hf & Hn & He & _) H0 Hp Hh Hne. cbn [match_loop].
  rewrite (at_bytes_load _ _ _ _ Hf). msimpl. rewrite He, (at_bytes_load _ _ _ _ Hn). msimpl.
  destruct (Z.eqb_spec f 0), (Z.ltb_spec 0 (Z.of_nat (length (n :: rn)))); cbn [length negb andb] in *; try lia.
  destruct (Z.eqb_spec (Z.of_nat (S (length rn))) 0); [lia|].
  destruct (Z.eqb_spec f PLUS), (Z.eqb_spec f HASH), (Z.eqb_spec f n); try done. cbn [negb andb].
  by destruct ((n =? SLASH) && _).
Qed.

(** The same ordinary character or slash. *)
Lemma match_same fuel curf curn e x rf rn :
  at_pos curf curn e (x :: rf) (x :: rn) -> x <> 0 -> x <> PLUS -> x <> HASH ->
  match_loop m (S fuel) curf curn e = match_loop m fuel (padd curf 1) (padd curn 1) e.
Proof.
  intros (Hf & Hn & He & _) H0 Hp Hh. cbn [match_loop].
  rewrite (at_bytes_load _ _ _ _ Hf). msimpl. rewrite He, (at_bytes_load _ _ _ _ Hn). msimpl.
  destruct (Z.eqb_spec x 0), (Z.ltb_spec 0 (Z.of_nat (length (x :: rn)))); cbn [length negb andb] in *; try lia.
  destruct (Z.eqb_spec x PLUS), (Z.eqb_spec x HASH); try done. rewrite Z.eqb_refl. cbn [negb andb].
  by destruct (x =? SLASH).
Qed.

(** A wildcard facing a slash. *)
Lemma match_wild_slash fuel curf curn e f rf rn :
  at_pos curf curn e (f :: rf) (SLASH :: rn) -> f <> 0 -> f <> SLASH ->
  match_loop m (S fuel) curf curn e = Some false.
Proof.
  intros (Hf & Hn & He & _) H0 Hs. cbn [match_loop].
  rewrite (at_bytes_load _ _ _ _ Hf). msimpl. rewrite He, (at_bytes_load _ _ _ _ Hn). msimpl.
  destruct (Z.eqb_spec f 0), (Z.ltb_spec 0 (Z.of_nat (length (SLASH :: rn)))); cbn [length negb andb] in *; try lia.
  destruct (Z.eqb_spec (Z.of_nat (S (length rn))) 0); [lia|].
  change (SLASH =? SLASH) with true. by destruct (Z.eqb_spec f SLASH).
Qed.

(** [skip_level] stops on the last character of the level. *)
Lemma skip_level_spec l : forall fuel curn e x rest,
  at_bytes m curn (x :: l ++ rest) -> pdiff e curn = Z.of_nat (length (x :: l ++ rest)) ->
  Forall (fun y => y <> SLASH) l -> rest = [] \/ (exists r, rest = SLASH :: r) -> (length l <= fuel)%nat ->
  skip_level m fuel curn e = Some (padd curn (Z.of_nat (length l))).
Proof.
  induction l as [|y l IH]; intros fuel curn e x rest Hat He Hl Hr Hf.
  - rewrite padd_0. apply at_bytes_cons in Hat as [_ Hat]. simpl app in *.
    assert (Hp : pdiff e (padd curn 1) = Z.of_nat (length rest)) by (unfold pdiff, padd in *; simpl in *; lia).
    destruct fuel; cbn [skip_level]; rewrite Hp;
      (destruct Hr as [-> | (r & ->)]; [done|]; cbn [length];
       destruct (Z.leb_spec (Z.of_nat (S (length r))) 0); [lia|];
       rewrite (at_bytes_load _ _ _ _ Hat); done).
  - apply at_bytes_cons in Hat as [_ Hat]. apply Forall_cons in Hl as [Hy Hl]. destruct fuel as [|fuel]; [simpl in Hf; lia|].
    cbn [skip_level]. simpl app in *.
    assert (Hp : pdiff e (padd curn 1) = Z.of_nat (length (y :: l ++ rest))) by (unfold pdiff, padd in *; simpl in *; lia).
    rewrite Hp. destruct (Z.leb_spec (Z.of_nat (length (y :: l ++ rest))) 0); [simpl length in *; lia|].
    rewrite (at_bytes_load _ _ _ _ Hat). msimpl. destruct (Z.eqb_spec y SLASH); [done|].
    rewrite (IH fuel _ e y rest); [|done..|simpl in Hf; lia].
    rewrite padd_padd. do 2 f_equal. simpl length. lia.
Qed.

(** [+] against a level of at least one character. *)
Lemma match_plus fuel curf curn e rf x l rest :
  at_pos curf curn e (PLUS :: rf) ((x :: l) ++ rest) -> Forall (fun y => y <> SLASH) (x :: l) ->
  rest = [] \/ (exists r, rest = SLASH :: r) ->
  exists curn', at_pos (padd curf 1) curn' e rf rest /\
    match_loop m (S fuel) curf curn e = match_loop m fuel (padd curf 1) curn' e.
Proof.
  intros (Hf & Hn & He & Hb) Hl Hr. apply Forall_cons in Hl as [Hx Hl].
  exists (padd (padd curn (Z.of_nat (length l))) 1). split.
  - simpl app in Hf. apply at_bytes_cons in Hf as [_ Hf]. apply at_bytes_app in Hn as [_ Hn].
    rewrite padd_padd. replace (Z.of_nat (length l) + 1) with (Z.of_nat (length (x :: l))) by (simpl length; lia).
    split_and!; [done|done| |done].
    rewrite length_app in He. unfold pdiff, padd in *. simpl in *. lia.
  - cbn [match_loop]. rewrite (at_bytes_load _ _ _ _ Hf). msimpl. simpl app in *.
    rewrite He, (at_bytes_load _ _ _ _ Hn). msimpl.
    destruct (Z.ltb_spec 0 (Z.of_nat (length (x :: l ++ rest)))); [|simpl length in *; lia].
    change (PLUS =? 0) with false. cbn [negb andb]. destruct (Z.eqb_spec x SLASH); [done|].
    change (PLUS =? PLUS) with true. cbn [negb andb].
    rewrite (skip_level_spec l _ curn e x rest); try done. simpl length. rewrite length_app. lia.
Qed.

(** [#] goes to the end of the name. *)
Lemma match_hash_any fuel curf curn e rf x rn :
  at_pos curf curn e (HASH :: rf) (x :: rn) -> x <> SLASH ->
  exists curn', at_pos (padd curf 1) curn' e rf [] /\
    match_loop m (S fuel) curf curn e = match_loop m fuel (padd curf 1) curn' e.
Proof.
  intros (Hf & Hn & He & Hb) Hx. exists (padd (padd e (-1)) 1). split.
  { simpl app in Hf. apply at_bytes_cons in Hf as [_ Hf]. split_and!; [done|apply at_bytes_nil| |done].
    unfold pdiff, padd. simpl. lia. }
  cbn [match_loop]. rewrite (at_bytes_load _ _ _ _ Hf). msimpl. rewrite He, (at_bytes_load _ _ _ _ Hn). msimpl.
  destruct (Z.ltb_spec 0 (Z.of_nat (length (x :: rn)))); [|simpl length in *; lia].
  change (HASH =? 0) with false. cbn [negb andb]. destruct (Z.eqb_spec x SLASH); [done|].
  change (HASH =? PLUS) with false. change (HASH =? HASH) with true. cbn [negb andb]. done.
Qed.

Lemma match_hash fuel curf curn e x rn :
  at_pos curf curn e [HASH] (x :: rn) -> x <> SLASH ->
  match_loop m (S fuel) curf curn e = Some true.
Proof.
  intros Hp Hx. destruct (match_hash_any fuel curf curn e [] x rn Hp Hx) as (curn' & Hp' & ->).
  by rewrite (match_end fuel _ _ _ [] []); [|done|constructor|left].
Qed.

(** An ordinary level of the filter against a level of the name, each followed by
    nothing or a slash. *)
Lemma match_level f : forall n fuel curf curn e rf rn,
  at_pos curf curn e (f ++ rf) (n ++ rn) ->
  Forall (fun x => x <> 0 /\ x <> SLASH /\ x <> PLUS /\ x <> HASH) f -> Forall (fun x => x <> SLASH) n ->
  Forall (fun x => x <> 0) rf -> rf = [] \/ (exists r, rf = SLASH :: r) ->
  rn = [] \/ (exists r, rn = SLASH :: r) -> (length (n ++ rn) <= fuel)%nat ->
  f = n /\ (exists fuel' curf' curn', (length rn <= fuel')%nat /\ at_pos curf' curn' e rf rn /\
              match_loop m fuel curf curn e = match_loop m fuel' curf' curn' e) \/
  f <> n /\ match_loop m fuel curf curn e = Some false.
Proof.
  induction f as [|y f IH]; intros [|x n] fuel curf curn e rf rn Hp Hf Hn Hz Hrf Hrn Hfu; simpl app in *.
  - left. split; [done|]. by exists fuel, curf, curn.
  - right. split; [done|]. apply Forall_cons in Hn as [Hx _]. destruct Hrf as [-> | (r & ->)].
    + by rewrite (match_end _ _ _ _ [] (x :: n ++ rn)); [| |constructor|left].
    + destruct fuel as [|fuel]; [simpl in Hfu; lia|].
      by apply (match_differ _ _ _ _ SLASH r x (n ++ rn)); try done; apply not_eq_sym.
  - right. split; [done|]. apply Forall_cons in Hf as [(H0 & Hs & Hpl & Hh) Hf]. destruct Hrn as [-> | (r & ->)].
    + rewrite (match_end _ _ _ _ (y :: f ++ rf) []); [done|done| |by right].
      constructor; [done|]. apply Forall_app. split; [|done]. eapply Forall_impl; [done|]. by intros ? [].
    + destruct fuel as [|fuel]; [simpl in Hfu; lia|].
      by apply (match_differ _ _ _ _ y (f ++ rf) SLASH r).
  - apply Forall_cons in Hf as [(H0 & Hs & Hpl & Hh) Hf]. apply Forall_cons in Hn as [Hx Hn].
    destruct fuel as [|fuel]; [simpl in Hfu; lia|]. destruct (decide (y = x)) as [->|Hne].
    + rewrite (match_same _ _ _ _ x (f ++ rf) (n ++ rn)) by done. apply at_pos_step in Hp.
      destruct (IH n fuel _ _ e rf rn Hp) as [(-> & Hr)|[Hne Hr]]; try done; [simpl in Hfu; lia|by left|].
      right. split; [congruence|done].
    + right. split; [congruence|]. by apply (match_differ _ _ _ _ y (f ++ rf) x (n ++ rn)).
Qed.

Lemma plain_no_slash l : plain l -> Forall (fun x => x <> SLASH) l.
Proof. intros [_ Hf]. eapply Forall_impl; [done|]. by intros ? (_ & ? & _). Qed.

Lemma plain_special l : plain l -> l <> [PLUS] /\ l <> [HASH].
Proof. intros [_ Hf]. split; intros ->; apply Forall_cons in Hf as [(? & ? & ? & ?) _]; done. Qed.

Lemma wf_filter_nonzero fs : wf_filter fs -> Forall (fun x => x <> 0) (join fs).
Proof.
  assert (Hone : forall f, plain f \/ f = [PLUS] \/ f = [HASH] -> Forall (fun x => x <> 0) f).
  { intros f [[_ Hf]|[-> | ->]]; [|by repeat constructor..]. eapply Forall_impl; [done|]. by intros ? []. }
  induction 1 as [f Hf|f fs Hf Hfs IH]; [by apply Hone|]. rewrite join_cons by by apply wf_filter_ne.
  apply Forall_app. split; [apply Hone; tauto|]. by constructor.
Qed.

(** The part of a name behind its first level. *)
Definition behind (ns : list (list Z)) : list Z := match ns with [] => [] | _ => SLASH :: join ns end.

Lemma join_behind n ns : join (n :: ns) = n ++ behind ns.
Proof. destruct ns; [simpl; by rewrite app_nil_r|done]. Qed.

Lemma behind_shape ns : behind ns = [] \/ exists r, behind ns = SLASH :: r.
Proof. destruct ns; [by left|right; by eexists]. Qed.

(** What is left after the first level of a filter [f :: fs] matched. *)
Lemma match_rest fs ns fuel curf curn e :
  (forall ns fuel curf curn, wf_name ns -> (length (join ns) <= fuel)%nat ->
     at_pos curf curn e (join fs) (join ns) -> match_loop m fuel curf curn e = Some (levels_match fs ns)) ->
  wf_filter fs -> Forall plain ns -> (length (behind ns) <= fuel)%nat ->
  at_pos curf curn e (SLASH :: join fs) (behind ns) ->
  match_loop m fuel curf curn e = Some (levels_match fs ns).
Proof.
  intros IH Hfs Hns Hfu Hp. destruct ns as [|n ns]; cbn [behind] in *.
  - rewrite (match_end _ _ _ _ (SLASH :: join fs) []); [|done| |by right].
    + destruct fs; [by apply wf_filter_ne in Hfs|done].
    + constructor; [done|]. by apply wf_filter_nonzero.
  - destruct fuel as [|fuel]; [simpl in Hfu; lia|].
    rewrite (match_same _ _ _ _ SLASH (join fs) (join (n :: ns))) by done.
    apply IH; [done|cbn [length] in Hfu; lia|]. by apply at_pos_step in Hp.
Qed.

Lemma match_loop_levels e fs : wf_filter fs -> forall ns fuel curf curn,
  wf_name ns -> (length (join ns) <= fuel)%nat -> at_pos curf curn e (join fs) (join ns) ->
  match_loop m fuel curf curn e = Some (levels_match fs ns).
Proof.
  induction 1 as [f Hf|f fs Hf Hfs IH]; intros [|n ns] fuel curf curn [Hne Hns] Hfu Hp; try done;
    apply Forall_cons in Hns as [Hn Hns]; rewrite (join_behind n ns) in Hfu, Hp.
  - cbn [levels_match]. change (join [f]) with f in Hp.
    assert (Hend : forall fuel' curf' curn', at_pos curf' curn' e [] (behind ns) ->
      match_loop m fuel' curf' curn' e = Some (levels_match [] ns)).
    { intros fuel' curf' curn' Hp'. rewrite (match_end _ _ _ _ [] (behind ns)); [|done|constructor|by left].
      by destruct ns. }
    destruct Hf as [Hf|[-> | ->]].
    + destruct (plain_special f Hf). rewrite !bool_decide_false by done. rewrite <- (app_nil_r f) in Hp.
      destruct (match_level f n fuel curf curn e [] (behind ns) Hp) as [(-> & fuel' & curf' & curn' & _ & Hp' & ->)|[Hd ->]];
        auto using behind_shape, plain_no_slash; [by destruct Hf| |].
      * by rewrite bool_decide_true, Hend.
      * by rewrite bool_decide_false.
    + rewrite bool_decide_false by done. rewrite bool_decide_true by done. cbn [orb andb].
      destruct (plain_first n Hn) as (x & r & -> & _ & Hx & _).
      destruct fuel as [|fuel]; [simpl in Hfu; lia|].
      destruct (match_plus fuel curf curn e [] x r (behind ns) Hp) as (curn' & Hp' & ->);
        auto using behind_shape, plain_no_slash.
    + rewrite bool_decide_true by done. destruct (plain_first n Hn) as (x & r & -> & _ & Hx & _).
      destruct fuel as [|fuel]; [simpl in Hfu; lia|]. by apply (match_hash fuel curf curn e x (r ++ behind ns)).
  - cbn [levels_match]. rewrite join_cons in Hp by by apply wf_filter_ne.
    pose proof (wf_filter_nonzero fs Hfs) as Hz. destruct Hf as [Hf| ->].
    + destruct (plain_special f Hf). rewrite !(bool_decide_false (f = _ :: _)) by done. cbn [orb].
      destruct (match_level f n fuel curf curn e (SLASH :: join fs) (behind ns) Hp)
        as [(-> & fuel' & curf' & curn' & Hfu' & Hp' & ->)|[Hd ->]];
        auto using behind_shape, plain_no_slash; [by destruct Hf|right; by eexists| |].
      * rewrite bool_decide_true by done. by apply match_rest.
      * by rewrite bool_decide_false.
    + rewrite bool_decide_false by done. rewrite bool_decide_true by done. cbn [orb andb].
      destruct (plain_first n Hn) as (x & r & -> & _ & Hx & _).
      destruct fuel as [|fuel]; [simpl in Hfu; lia|].
      destruct (match_plus fuel curf curn e (SLASH :: join fs) x r (behind ns) Hp) as (curn' & Hp' & ->);
        auto using behind_shape, plain_no_slash.
      apply match_rest; try done. simpl in Hfu. rewrite length_app in Hfu. lia.
Qed.

Lemma split_level rn :
  exists l rest, rn = l ++ rest /\ Forall (fun y => y <> SLASH) l /\ (rest = [] \/ exists r, rest = SLASH :: r).
Proof.
  induction rn as [|x rn (l & rest & -> & Hl & Hr)]; [exists [], []; auto|].
  destruct (decide (x = SLASH)) as [->|Hx].
  - exists [], (SLASH :: l ++ rest). split_and!; [done|constructor|right; by eexists].
  - exists (x :: l), rest. split_and!; [done|by constructor|done].
Qed.

(** Any filter, any name: the loop ends inside them, and computes [accepts]. *)
Lemma match_loop_accepts e : forall fuel curf curn rf rn,
  at_pos curf curn e rf rn -> Forall (fun x => x <> 0) rf -> (length rn <= fuel)%nat ->
  match_loop m fuel curf curn e = Some (accepts rf rn).
Proof.
  induction fuel as [|fuel IH]; intros curf curn rf rn Hp Hz Hfu.
  { destruct rn; [|simpl in Hfu; lia]. rewrite (match_end _ _ _ _ rf []); [|done..|by right]. by destruct rf. }
  destruct rf as [|f rf]; [by rewrite (match_end _ _ _ _ [] rn); [|done..|left]|].
  destruct rn as [|n rn]; [by rewrite (match_end _ _ _ _ (f :: rf) []); [|done..|right]|].
  pose proof Hz as Hz'. apply Forall_cons in Hz' as [H0 Hz']. simpl in Hfu. cbn [accepts].
  destruct (Z.eqb_spec n SLASH) as [->|Hs]; [destruct (Z.eqb_spec f SLASH) as [->|Hfs]|]; cbn [negb andb].
  - rewrite (match_same _ _ _ _ SLASH rf rn) by done. apply IH; [by eapply at_pos_step|done|lia].
  - by apply (match_wild_slash _ _ _ _ f rf rn).
  - destruct (Z.eqb_spec f PLUS) as [->|Hp1]; [|destruct (Z.eqb_spec f HASH) as [->|Hh1]].
    + destruct (split_level rn) as (l & rest & -> & Hl & Hr). rewrite (after_level_spec l rest Hl Hr).
      destruct (match_plus fuel curf curn e rf n l rest Hp) as (curn' & Hp' & ->); [by constructor|done|].
      apply IH; [done..|rewrite length_app in Hfu; lia].
    + destruct (match_hash_any fuel curf curn e rf n rn Hp Hs) as (curn' & Hp' & ->). apply IH; [done..|simpl; lia].
    + destruct (Z.eqb_spec f n) as [->|Hne]; [|by apply (match_differ _ _ _ _ f rf n rn)].
      rewrite (match_same _ _ _ _ n rf rn) by done. apply IH; [by eapply at_pos_step|done|lia].
Qed.
End Rounds.

(** C9: [isTopicMatched] matches level by level: for a filter of ordinary levels and
    [+], possibly with [#] at the end, and a name of non-empty levels without
    wildcards, it terminates and answers 1 exactly when [levels_match] does, where
    [+] stands for one level and [#] for one or more. *)
Theorem isTopicMatched_levels m topicFilter topicName fs ns :
  wf_filter fs -> wf_name ns ->
  at_bytes m topicFilter (join fs ++ [0]) -> cstring topicName = None -> mstr m topicName (join ns) ->
  isTopicMatched m topicFilter topicName = Some (levels_match fs ns).
Proof.
  intros Hfs Hns Hf Hc Hm. unfold mstr in Hm. rewrite Hc in Hm. destruct Hm as [Hl Hd].
  unfold isTopicMatched. destruct Hd as [Hnil|(q & Hq & Hn)].
  - exfalso. destruct Hns as [Hne Hns]. apply (join_ne ns); [done| |done].
    eapply Forall_impl; [done|]. by intros ? [].
  - rewrite Hq, Hl. msimpl. apply match_loop_levels; try done; [lia|].
    split_and!; [done|done| |done]. apply pdiff_padd_0.
Qed.

(** Where this differs from MQTT: a filter ending in [#] does not match the level
    above it ("sport/#" against "sport"), although MQTT 3.1.1 section 4.7.1.2 says
    it does. *)
Theorem isTopicMatched_parent m topicFilter topicName fs ns :
  wf_filter (ns ++ [[HASH]]) -> wf_name ns -> fs = ns ++ [[HASH]] ->
  at_bytes m topicFilter (join fs ++ [0]) -> cstring topicName = None -> mstr m topicName (join ns) ->
  isTopicMatched m topicFilter topicName = Some false.
Proof.
  intros Hfs Hns -> Hf Hc Hm. unfold mstr in Hm. rewrite Hc in Hm. destruct Hm as [Hl Hd].
  assert (Hlv : levels_match (ns ++ [[HASH]]) ns = false).
  { destruct Hns as [_ Hns]. clear -Hns. induction Hns as [|n ns Hn Hns IH]; [done|]. cbn [app levels_match].
    destruct (plain_special n Hn). rewrite (bool_decide_false (n = [HASH])) by done. rewrite IH. by rewrite andb_false_r. }
  unfold isTopicMatched. destruct Hd as [Hnil|(q & Hq & Hn)].
  - exfalso. destruct Hns as [Hne Hns]. apply (join_ne ns); [done| |done].
    eapply Forall_impl; [done|]. by intros ? [].
  - rewrite Hq, Hl. msimpl. rewrite <- Hlv. apply match_loop_levels; try done; [lia|].
    split_and!; [done|done| |done]. apply pdiff_padd_0.
Qed.

(** [isTopicMatched] is safe on every filter and name, well-formed or not: it
    terminates, reads only the filter's characters up to its NUL and the
    name's own, and its answer depends on these alone. *)
Theorem isTopicMatched_total m topicFilter topicName f s :
  cstr m topicFilter f -> cstring topicName = None -> mstr m topicName s -> lenstring_data topicName <> None ->
  isTopicMatched m topicFilter topicName = Some (accepts f s).
Proof.
  intros [Hf Hz] Hc Hm Hd. unfold mstr in Hm. rewrite Hc in Hm. destruct Hm as [Hl Hs].
  unfold isTopicMatched. destruct (lenstring_data topicName) as [q|]; [|done]. rewrite Hl. msimpl.
  apply match_loop_accepts; [|done|lia].
  split_and!; [done| | |done]; [|apply pdiff_padd_0].
  destruct Hs as [-> | (q' & [= <-] & Hq)]; [apply at_bytes_nil|done].
Qed.

(** ** The receivers of a topic *)

(** A slot: the filter, and the handler attached to it. *)
Abbreviation subscription := (option (list Z) * option nat)%type.

(** A filter wants a topic that is equal to it or matches it. *)
Definition wanted (u t : list Z) : bool := bool_decide (t = u) || accepts u t.
(** The handlers to be called, in the order of the slots; the default if there are none. *)
Definition reached (ss : list subscription) (t : list Z) : list nat :=
  omap (fun s => u ← s.1; if wanted u t then s.2 else None) ss.
Definition receivers (ss : list subscription) (d : option nat) (t : list Z) : list nat :=
  match reached ss t with [] => option_list d | fs => fs end.

(** ** Concrete instances *)

(** Filter "+/b" at block 0, name "a/b" at block 1. *)
Definition ex_topics_mem : mem := <[0%nat := [43; 47; 98; 0]]> (<[1%nat := [97; 47; 98]]> ∅).
Definition ex_name : MQTTString := mkMQTTString None 3 (Some (Ptr 1 0)).

Lemma ex_plain x : x <> 0 /\ x <> SLASH /\ x <> PLUS /\ x <> HASH -> plain [x].
Proof. intros. split; [done|]. by constructor. Qed.

Lemma isTopicMatched_levels_witness : isTopicMatched ex_topics_mem (Ptr 0 0) ex_name = Some true.
Proof.
  apply (isTopicMatched_levels ex_topics_mem (Ptr 0 0) ex_name [[PLUS]; [98]] [[97]; [98]]).
  - constructor; [by right|]. constructor. left. by apply ex_plain.
  - split; [done|]. repeat (apply Forall_cons; split; [by apply ex_plain|]). by apply Forall_nil.
  - by vm_compute.
  - done.
  - split; [done|]. right. exists (Ptr 1 0). split; [done|by vm_compute].
Defined.

(** Filter "a/#" at block 0, name "a" at block 1. *)
Lemma isTopicMatched_parent_witness :
  isTopicMatched (<[0%nat := [97; 47; 35; 0]]> (<[1%nat := [97]]> ∅)) (Ptr 0 0) (mkMQTTString None 1 (Some (Ptr 1 0))) =
    Some false.
Proof.
  apply (isTopicMatched_parent _ (Ptr 0 0) (mkMQTTString None 1 (Some (Ptr 1 0))) [[97]; [HASH]] [[97]]).
  - constructor; [left; by apply ex_plain|]. constructor. by right; right.
  - split; [done|]. repeat (apply Forall_cons; split; [by apply ex_plain|]). by apply Forall_nil.
  - done.
  - by vm_compute.
  - done.
  - split; [done|]. right. exists (Ptr 1 0). split; [done|by vm_compute].
Defined.

Lemma isTopicMatched_total_witness : isTopicMatched ex_topics_mem (Ptr 0 0) ex_name = Some true.
Proof.
  apply (isTopicMatched_total ex_topics_mem (Ptr 0 0) ex_name [43; 47; 98] [97; 47; 98]).
  - split; [by vm_compute|]. by repeat (apply Forall_cons; split; [lia|]).
  - done.
  - split; [done|]. right. exists (Ptr 1 0). split; [done|by vm_compute].
  - done.
Defined.
