(* ===== verification/Platform.v ===== *)
(** * Platform: what the MQTT clients ask of network and timer

    The interface between the clients and the platform they run on, what a platform
    without faults promises, and a simulated one. *)
From S2P Require Import Prelude CMem Wire Packet Transport.

(** ** The platform

    [Network] and [Timer] are the caller's: a world [W] (connection and clock) and
    the operations the client calls.  [mqttread] returns its value and the bytes
    stored; [mqttwrite] is given the bytes it is offered. *)
Class Platform := {
  W : Type;
  Timer : Type;
  TimerInit : Timer;
  TimerIsExpired : Timer -> M W bool;
  TimerCountdownMS : Timer -> Z -> M W Timer;
  TimerCountdown : Timer -> Z -> M W Timer;
  TimerLeftMS : Timer -> M W Z;
  mqttread : Z -> Z -> M W (Z * list Z);
  mqttwrite : list Z -> Z -> M W Z
}.

(** [enum QoS] and [enum returnCode], the same in both clients *)
Definition QOS0 : Z := 0.
Definition QOS1 : Z := 1.
Definition QOS2 : Z := 2.
Definition BUFFER_OVERFLOW : Z := -2.
Definition FAILURE : Z := -1.
Definition SUCCESS : Z := 0.

(** ** A platform without faults *)

(** A platform without faults: reads deliver what is asked for as long as it is
    there, writes take everything, and no timer started with a positive time runs
    out meanwhile. *)
Class IdealPlatform `{Platform} := {
  incoming : W -> list Z;
  outgoing : W -> list Z;
  expired : Timer -> bool;
  expired_law t w : TimerIsExpired t w = Some (expired t, w);
  left_law t w : exists ms, TimerLeftMS t w = Some (ms, w);
  countdown_ms_law t ms w : exists t', TimerCountdownMS t ms w = Some (t', w) /\ (0 < ms -> expired t' = false);
  countdown_law t s w : exists t', TimerCountdown t s w = Some (t', w) /\ (0 < s -> expired t' = false);
  read_law n ms w : 0 <= n <= Z.of_nat (length (incoming w)) ->
    exists w', mqttread n ms w = Some ((n, take (Z.to_nat n) (incoming w)), w') /\
      incoming w' = drop (Z.to_nat n) (incoming w) /\ outgoing w' = outgoing w;
  write_law bs ms w : exists w', mqttwrite bs ms w = Some (Z.of_nat (length bs), w') /\
      incoming w' = incoming w /\ outgoing w' = outgoing w ++ bs
}.

Section Ideal.
Context `{IdealPlatform}.

Lemma ideal_delivers ms bs : forall w rest, incoming w = bs ++ rest ->
  exists w', delivers (fun n => mqttread n ms) w bs w' /\ incoming w' = rest /\ outgoing w' = outgoing w.
Proof.
  induction bs as [|b bs IH]; intros w rest Hp; [exists w; split; [constructor|done]|].
  destruct (read_law 1 ms w) as (w1 & Hg & Hp1 & Ho1); [rewrite Hp; simpl; lia|].
  rewrite Hp in Hg, Hp1. change (Z.to_nat 1) with 1%nat in *. cbn [take drop app] in Hg, Hp1. rewrite take_0 in Hg.
  destruct (IH w1 rest Hp1) as (w' & Hd & Hr & Ho). exists w'. split_and!; [by econstructor|done|congruence].
Qed.

End Ideal.

(** ** Packet identifiers *)

(** The identifier after [i]. *)
Definition next_id (i : Z) : Z := if i =? 65535 then 1 else i + 1.

Lemma next_id_range i : 1 <= i <= 65535 -> 1 <= next_id i <= 65535.
Proof. unfold next_id. destruct (Z.eqb_spec i 65535); lia. Qed.

Lemma next_id_mod i : 1 <= i <= 65535 -> next_id i = i mod 65535 + 1.
Proof.
  intros Hi. unfold next_id. destruct (Z.eqb_spec i 65535) as [->|]; [done|]. rewrite Z.mod_small; lia.
Qed.

(** ** A simulated platform *)

(** What there is to read, what was written; a timer says
    whether it has run out. *)
Definition sim : Platform := {|
  W := list Z * list Z;
  Timer := bool;
  TimerInit := false;
  TimerIsExpired t w := Some (t, w);
  TimerCountdownMS _ ms w := Some (ms <=? 0, w);
  TimerCountdown _ s w := Some (s <=? 0, w);
  TimerLeftMS t w := Some (if t then 0 else 1, w);
  mqttread n _ w :=
    if n <=? Z.of_nat (length w.1) then Some ((n, take (Z.to_nat n) w.1), (drop (Z.to_nat n) w.1, w.2))
    else Some ((0, []), w);
  mqttwrite bs _ w := Some (Z.of_nat (length bs), (w.1, w.2 ++ bs))
|}.

Lemma sim_leb ms : 0 < ms -> (ms <=? 0) = false.
Proof. intros. by apply Z.leb_gt. Qed.

#[local] Instance sim_ideal : @IdealPlatform sim.
Proof.
  refine (@Build_IdealPlatform sim fst snd id _ _ _ _ _ _).
  - done.
  - intros t w. by eexists.
  - intros t ms w. exists (ms <=? 0). split; [done|apply sim_leb].
  - intros t s w. exists (s <=? 0). split; [done|apply sim_leb].
  - intros n ms w Hn. eexists. cbn. destruct (Z.leb_spec n (Z.of_nat (length w.1))); [done|lia].
  - intros bs ms w. by eexists.
Defined.

