(* ===== verification/Client.v ===== *)
(** * Client: MQTTClient.c

    The C client: its structure, and every function of it as a state
    transformer over memory, client, platform and the calls of message handlers.
    [size_t] and [unsigned int] are 32 bits wide, and [MQTT_TASK] is not defined,
    so there is no mutex. *)
From S2P Require Import Prelude CMem Wire Packet Publish Connect Subscribe Unsubscribe Topic Platform.

(** ** Data *)

Definition MAX_PACKET_ID : Z := 65535.
Definition MAX_MESSAGE_HANDLERS : nat := 5.

Record MQTTMessage := mkMessage {
  m_qos : Z; m_retained : Z; m_dup : Z; m_id : Z; m_payload : option ptr; m_payloadlen : Z
}.

(** A message handler is known by its address; what it does is its owner's. *)
Definition messageHandler : Type := option nat.

Record MessageHandlers := mkHandler { topicFilter : option ptr; fp : messageHandler }.

Section Definitions.
Context `{CharAbi} `{Platform}.

Record MQTTClient := mkClient {
  next_packetid : Z; command_timeout_ms : Z; buf_size : Z; readbuf_size : Z; c_buf : ptr; c_readbuf : ptr;
  keepAliveInterval_ : Z; ping_outstanding : Z; isconnected : Z; messageHandlers : list MessageHandlers;
  defaultMessageHandler : messageHandler; ping_timer : Timer
}.

(** One call of a handler: [MessageData], and the memory its members point into at the time of the call. *)
Record call := mkCall { handler : nat; md_topicName : MQTTString; md_message : MQTTMessage; md_memory : mem }.

(** The state the functions work on; [log]: the handler calls so far. *)
Record st := mkSt { s_mem : mem; s_c : MQTTClient; s_w : W; s_log : list call }.

Definition on_mem {A} (f : M mem A) : M st A := fun s =>
  match f (s_mem s) with Some (a, m) => Some (a, mkSt m (s_c s) (s_w s) (s_log s)) | None => None end.
Definition on_w {A} (f : M W A) : M st A := fun s =>
  match f (s_w s) with Some (a, w) => Some (a, mkSt (s_mem s) (s_c s) w (s_log s)) | None => None end.
Definition get_c : M st MQTTClient := fun s => Some (s_c s, s).
Definition set_c (c : MQTTClient) : M st unit := fun s => Some (tt, mkSt (s_mem s) c (s_w s) (s_log s)).

(** Assignments to single members. *)
Definition set_next_packetid (v : Z) (c : MQTTClient) : MQTTClient :=
  mkClient v (command_timeout_ms c) (buf_size c) (readbuf_size c) (c_buf c) (c_readbuf c) (keepAliveInterval_ c)
    (ping_outstanding c) (isconnected c) (messageHandlers c) (defaultMessageHandler c) (ping_timer c).
Definition set_keepAliveInterval (v : Z) (c : MQTTClient) : MQTTClient :=
  mkClient (next_packetid c) (command_timeout_ms c) (buf_size c) (readbuf_size c) (c_buf c) (c_readbuf c) v
    (ping_outstanding c) (isconnected c) (messageHandlers c) (defaultMessageHandler c) (ping_timer c).
Definition set_ping_outstanding (v : Z) (c : MQTTClient) : MQTTClient :=
  mkClient (next_packetid c) (command_timeout_ms c) (buf_size c) (readbuf_size c) (c_buf c) (c_readbuf c)
    (keepAliveInterval_ c) v (isconnected c) (messageHandlers c) (defaultMessageHandler c) (ping_timer c).
Definition set_isconnected (v : Z) (c : MQTTClient) : MQTTClient :=
  mkClient (next_packetid c) (command_timeout_ms c) (buf_size c) (readbuf_size c) (c_buf c) (c_readbuf c)
    (keepAliveInterval_ c) (ping_outstanding c) v (messageHandlers c) (defaultMessageHandler c) (ping_timer c).
Definition set_messageHandlers (v : list MessageHandlers) (c : MQTTClient) : MQTTClient :=
  mkClient (next_packetid c) (command_timeout_ms c) (buf_size c) (readbuf_size c) (c_buf c) (c_readbuf c)
    (keepAliveInterval_ c) (ping_outstanding c) (isconnected c) v (defaultMessageHandler c) (ping_timer c).
Definition set_ping_timer (v : Timer) (c : MQTTClient) : MQTTClient :=
  mkClient (next_packetid c) (command_timeout_ms c) (buf_size c) (readbuf_size c) (c_buf c) (c_readbuf c)
    (keepAliveInterval_ c) (ping_outstanding c) (isconnected c) (messageHandlers c) (defaultMessageHandler c) v.

(** ** Sending *)

Definition getNextPacketId : M st Z :=
  c ← get_c;
  let id := if next_packetid c =? MAX_PACKET_ID then 1 else to_uint (next_packetid c + 1) in
  set_c (set_next_packetid id c);; mret (to_int id).

(** The loop of [sendPacket]; one write per unit of fuel.  Returns [sent]. *)
Fixpoint send_loop (fuel : nat) (length sent : Z) (timer : Timer) : M st Z :=
  if negb (sent <? length) then mret sent else
  expired ← on_w (TimerIsExpired timer);
  if (expired : bool) then mret sent else
  match fuel with
  | O => undefined
  | S fuel' =>
    c ← get_c;
    left ← on_w (TimerLeftMS timer);
    m ← on_mem get;
    bs ← lift (load_bytes m (padd (c_buf c) sent) length);
    rc ← on_w (mqttwrite bs left);
    if rc <? 0 then mret sent else
    sent ← lift (cint (sent + rc));
    send_loop fuel' length sent timer
  end.

Definition sendPacket (fuel : nat) (length : Z) (timer : Timer) : M st Z :=
  sent ← send_loop fuel length 0 timer;
  if sent =? length then
    c ← get_c;
    t ← on_w (TimerCountdown (ping_timer c) (keepAliveInterval_ c));
    set_c (set_ping_timer t c);; mret SUCCESS
  else mret FAILURE.

Definition MQTTClientInit (c : MQTTClient) (command_timeout_ms_ : Z) (sendbuf : ptr) (sendbuf_size : Z)
    (readbuf : ptr) (readbuf_size_ : Z) : MQTTClient :=
  mkClient 1 command_timeout_ms_ sendbuf_size readbuf_size_ sendbuf readbuf (keepAliveInterval_ c) 0 0
    (map (fun h => mkHandler None (fp h)) (messageHandlers c)) None TimerInit.

(** ** Receiving *)

(** The loop is that of [MQTTPacket_decode], written out again in the client. *)
Definition decodePacket (timeout : Z) : M st (Z * Z) :=
  on_w (decode_loop (fun n => mqttread n timeout) 5 None 1 0 0).

(** [mqttread(ipstack, p, n, timeout)] *)
Definition net_read (p : ptr) (n timeout : Z) : M st Z :=
  r ← on_w (mqttread n timeout);
  on_mem (stores p r.2);; mret r.1.

Definition readPacket (timer : Timer) : M st Z :=
  c ← get_c;
  left ← on_w (TimerLeftMS timer);
  r ← net_read (c_readbuf c) 1 left;
  if negb (r =? 1) then mret FAILURE else
  left ← on_w (TimerLeftMS timer);
  '(_, rem_len) ← decodePacket left;
  n ← on_mem (MQTTPacket_encode (padd (c_readbuf c) 1) rem_len);
  let len := 1 + n in
  bad ← (if 0 <? rem_len then
           left ← on_w (TimerLeftMS timer);
           r ← net_read (padd (c_readbuf c) len) rem_len left;
           mret (negb (r =? rem_len))
         else mret false);
  if (bad : bool) then mret FAILURE else
  m ← on_mem get;
  header ← lift (load m (c_readbuf c));
  mret (hdr_type header).

(** ** Delivering *)

Definition call_handler (h : nat) (topicName : MQTTString) (message : MQTTMessage) : M st unit := fun s =>
  Some (tt, mkSt (s_mem s) (s_c s) (s_w s) (s_log s ++ [mkCall h topicName message (s_mem s)])).

(** The condition on [messageHandlers[i]]. *)
Definition handler_matches (m : mem) (h : MessageHandlers) (topicName : MQTTString) : option bool :=
  match topicFilter h with
  | None => Some false
  | Some f =>
    eq ← MQTTPacket_equals m topicName f;
    if (eq : bool) then Some true else isTopicMatched m f topicName
  end.

Definition deliverMessage (topicName : MQTTString) (message : MQTTMessage) : M st Z :=
  rc ← c_for 0 MAX_MESSAGE_HANDLERS (fun i rc =>
    c ← get_c; m ← on_mem get;
    h ← lift (messageHandlers c !! i);
    b ← lift (handler_matches m h topicName);
    if (b : bool) then
      match fp h with
      | Some f => call_handler f topicName message;; mret SUCCESS
      | None => mret rc
      end
    else mret rc) FAILURE;
  c ← get_c;
  match defaultMessageHandler c with
  | Some f => if rc =? FAILURE then call_handler f topicName message;; mret SUCCESS else mret rc
  | None => mret rc
  end.

Definition keepalive (fuel : nat) : M st Z :=
  c ← get_c;
  if keepAliveInterval_ c =? 0 then mret SUCCESS else
  expired ← on_w (TimerIsExpired (ping_timer c));
  if negb expired then mret FAILURE else
  if negb (ping_outstanding c =? 0) then mret FAILURE else
  timer ← on_w (TimerCountdownMS TimerInit 1000);
  len ← on_mem (MQTTSerialize_pingreq (c_buf c) (to_int (buf_size c)));
  if negb (0 <? len) then mret FAILURE else
  rc ← sendPacket fuel len timer;
  if rc =? SUCCESS then c ← get_c; set_c (set_ping_outstanding 1 c);; mret rc else mret rc.

(** ** One packet *)

(** The answer to a PUBLISH of QoS above 0, or to a PUBREC. *)
Definition send_ack (fuel : nat) (packettype packetid : Z) (timer : Timer) : M st Z :=
  c ← get_c;
  len ← on_mem (MQTTSerialize_ack (c_buf c) (to_int (buf_size c)) packettype 0 packetid);
  if len <=? 0 then mret FAILURE else sendPacket fuel len timer.

(** [stack]: the indeterminate values of the uninitialised locals. *)
Context (stack : publish_out).

(** [case PUBLISH]; returns [rc] and whether [goto exit] was taken. *)
Definition cycle_publish (fuel : nat) (timer : Timer) : M st (Z * bool) :=
  c ← get_c; m ← on_mem get;
  '(ok, o) ← lift (MQTTDeserialize_publish m stack (c_readbuf c) (to_int (readbuf_size c)));
  if negb (ok =? 1) then mret (SUCCESS, true) else
  let msg := mkMessage (po_qos o) (po_retained o) (po_dup o) (po_packetid o) (po_payload o)
               (to_uint (po_payloadlen o)) in
  deliverMessage (po_topicName o) msg;;
  if m_qos msg =? QOS0 then mret (SUCCESS, false) else
  rc ← (if m_qos msg =? QOS1 then send_ack fuel PUBACK (m_id msg) timer
        else if m_qos msg =? QOS2 then send_ack fuel PUBREC (m_id msg) timer
        else mret FAILURE);
  mret (rc, rc =? FAILURE).

(** [case PUBREC] *)
Definition cycle_pubrec (fuel : nat) (timer : Timer) : M st (Z * bool) :=
  c ← get_c; m ← on_mem get;
  '(ok, o) ← lift (MQTTDeserialize_ack m (mkAckOut 0 0 (po_packetid stack)) (c_readbuf c) (to_int (readbuf_size c)));
  if negb (ok =? 1) then mret (FAILURE, true) else
  rc ← send_ack fuel PUBREL (ao_packetid o) timer;
  if negb (rc =? SUCCESS) then mret (FAILURE, true) else mret (SUCCESS, false).

Definition cycle (fuel : nat) (timer : Timer) : M st Z :=
  r ← readPacket timer;
  let packet_type := to_ushort r in
  '(rc, goto_exit) ←
    (if packet_type =? PUBLISH then cycle_publish fuel timer
     else if packet_type =? PUBREC then cycle_pubrec fuel timer
     else if packet_type =? PINGRESP then c ← get_c; set_c (set_ping_outstanding 0 c);; mret (SUCCESS, false)
     else mret (SUCCESS, false));
  (if (goto_exit : bool) then mret FAILURE else keepalive fuel);;
  mret (if rc =? SUCCESS then packet_type else rc).

(** [do ... while (!TimerIsExpired(&timer))]; one round per unit of fuel. *)
Fixpoint yield_loop (fuel : nat) (timer : Timer) : M st Z :=
  match fuel with
  | O => undefined
  | S fuel' =>
    r ← cycle fuel timer;
    if r =? FAILURE then mret FAILURE else
    expired ← on_w (TimerIsExpired timer);
    if (expired : bool) then mret SUCCESS else yield_loop fuel' timer
  end.

Definition MQTTYield (fuel : nat) (timeout_ms : Z) : M st Z :=
  timer ← on_w (TimerCountdownMS TimerInit (to_uint timeout_ms));
  yield_loop fuel timer.

Fixpoint waitfor_loop (fuel : nat) (packet_type rc : Z) (timer : Timer) : M st Z :=
  match fuel with
  | O => undefined
  | S fuel' =>
    expired ← on_w (TimerIsExpired timer);
    if (expired : bool) then mret rc else
    rc ← cycle fuel timer;
    if negb (rc =? packet_type) then waitfor_loop fuel' packet_type rc timer else mret rc
  end.

Definition waitfor (fuel : nat) (packet_type : Z) (timer : Timer) : M st Z :=
  waitfor_loop fuel packet_type FAILURE timer.

(** ** The commands *)

(** [TimerInit(&timer); TimerCountdownMS(&timer, c->command_timeout_ms);] *)
Definition command_timer : M st Timer :=
  c ← get_c; on_w (TimerCountdownMS TimerInit (command_timeout_ms c)).

(** Everything of [MQTTConnect] but the assignment at [exit]. *)
Definition connect_body_ (fuel : nat) (options : option MQTTPacket_connectData) : M st Z :=
  c ← get_c;
  if negb (isconnected c =? 0) then mret FAILURE else
  connect_timer ← command_timer;
  let options := default MQTTPacket_connectData_initializer options in
  set_c (set_keepAliveInterval (Connect.keepAliveInterval options) c);;
  t ← on_w (TimerCountdown (ping_timer c) (Connect.keepAliveInterval options));
  c ← get_c; set_c (set_ping_timer t c);;
  len ← on_mem (MQTTSerialize_connect (c_buf c) (to_int (buf_size c)) options);
  if len <=? 0 then mret FAILURE else
  rc ← sendPacket fuel len connect_timer;
  if negb (rc =? SUCCESS) then mret rc else
  r ← waitfor fuel CONNACK connect_timer;
  if r =? CONNACK then
    m ← on_mem get;
    '(ok, _, connack_rc) ← lift (MQTTDeserialize_connack m 0 255 (c_readbuf c) (to_int (readbuf_size c)));
    if ok =? 1 then mret connack_rc else mret FAILURE
  else mret FAILURE.

Definition MQTTConnect (fuel : nat) (options : option MQTTPacket_connectData) : M st Z :=
  rc ← connect_body_ fuel options;
  if rc =? SUCCESS then c ← get_c; set_c (set_isconnected 1 c);; mret rc else mret rc.

(** The first free slot of [messageHandlers] takes the new subscription. *)
Fixpoint add_handler (hs : list MessageHandlers) (h : MessageHandlers) : option (list MessageHandlers) :=
  match hs with
  | [] => None
  | h0 :: hs =>
    match topicFilter h0 with None => Some (h :: hs) | Some _ => hs' ← add_handler hs h; Some (h0 :: hs') end
  end.

Definition cstring_topic (p : ptr) : MQTTString := mkMQTTString (Some p) 0 None.

Definition MQTTSubscribe (fuel : nat) (topicFilter : ptr) (qos : Z) (messageHandler : messageHandler) : M st Z :=
  c ← get_c;
  if isconnected c =? 0 then mret FAILURE else
  timer ← command_timer;
  id ← getNextPacketId;
  len ← on_mem (MQTTSerialize_subscribe (c_buf c) (to_int (buf_size c)) 0 (to_ushort id) 1
                  [cstring_topic topicFilter] [qos]);
  if len <=? 0 then mret FAILURE else
  rc ← sendPacket fuel len timer;
  if negb (rc =? SUCCESS) then mret rc else
  r ← waitfor fuel SUBACK timer;
  if r =? SUBACK then
    m ← on_mem get;
    '(ok, o) ← lift (MQTTDeserialize_suback m (mkSubackOut (po_packetid stack) 0 [-1]) 1 (c_readbuf c)
                       (to_int (readbuf_size c)));
    rc ← (if ok =? 1 then lift (arr_get (so_grantedQoSs o) 0) else mret rc);
    if negb (rc =? 128) then
      c ← get_c;
      match add_handler (messageHandlers c) (mkHandler (Some topicFilter) messageHandler) with
      | Some hs => set_c (set_messageHandlers hs c);; mret 0
      | None => mret rc
      end
    else mret rc
  else mret FAILURE.

Definition MQTTUnsubscribe (fuel : nat) (topicFilter : ptr) : M st Z :=
  c ← get_c;
  if isconnected c =? 0 then mret FAILURE else
  timer ← command_timer;
  id ← getNextPacketId;
  len ← on_mem (MQTTSerialize_unsubscribe (c_buf c) (to_int (buf_size c)) 0 (to_ushort id) 1
                  [cstring_topic topicFilter]);
  if len <=? 0 then mret FAILURE else
  rc ← sendPacket fuel len timer;
  if negb (rc =? SUCCESS) then mret rc else
  r ← waitfor fuel UNSUBACK timer;
  if r =? UNSUBACK then
    m ← on_mem get;
    '(ok, _) ← lift (MQTTDeserialize_unsuback m (po_packetid stack) (c_readbuf c) (to_int (readbuf_size c)));
    if ok =? 1 then mret 0 else mret rc
  else mret FAILURE.

(** Waiting for PUBACK or PUBCOMP at the end of [MQTTPublish]. *)
Definition publish_wait (fuel : nat) (packet_type rc : Z) (timer : Timer) : M st Z :=
  r ← waitfor fuel packet_type timer;
  if r =? packet_type then
    c ← get_c; m ← on_mem get;
    '(ok, _) ← lift (MQTTDeserialize_ack m (mkAckOut 0 0 (po_packetid stack)) (c_readbuf c) (to_int (readbuf_size c)));
    if negb (ok =? 1) then mret FAILURE else mret rc
  else mret FAILURE.

(** [if (message->qos == QOS1 || message->qos == QOS2) message->id = getNextPacketId(c);] *)
Definition publish_id (message : MQTTMessage) : M st MQTTMessage :=
  if (m_qos message =? QOS1) || (m_qos message =? QOS2)
  then id ← getNextPacketId;
       mret (mkMessage (m_qos message) (m_retained message) (m_dup message) (to_ushort id)
               (m_payload message) (m_payloadlen message))
  else mret message.

(** Returns [rc] and [*message]. *)
Definition MQTTPublish (fuel : nat) (topicName : ptr) (message : MQTTMessage) : M st (Z * MQTTMessage) :=
  c ← get_c;
  if isconnected c =? 0 then mret (FAILURE, message) else
  timer ← command_timer;
  message ← publish_id message;
  payload ← lift (m_payload message);
  len ← on_mem (MQTTSerialize_publish (c_buf c) (to_int (buf_size c)) 0 (m_qos message) (m_retained message)
                  (m_id message) (cstring_topic topicName) payload (to_int (m_payloadlen message)));
  if len <=? 0 then mret (FAILURE, message) else
  rc ← sendPacket fuel len timer;
  if negb (rc =? SUCCESS) then mret (rc, message) else
  rc ← (if m_qos message =? QOS1 then publish_wait fuel PUBACK rc timer
        else if m_qos message =? QOS2 then publish_wait fuel PUBCOMP rc timer
        else mret rc);
  mret (rc, message).

Definition MQTTDisconnect (fuel : nat) : M st Z :=
  timer ← command_timer;
  c ← get_c;
  len ← on_mem (MQTTSerialize_disconnect (c_buf c) (to_int (buf_size c)));
  rc ← (if 0 <? len then sendPacket fuel len timer else mret FAILURE);
  c ← get_c; set_c (set_isconnected 0 c);; mret rc.

End Definitions.
