(* ===== verification/ClientSpec.v ===== *)
(** * ClientSpec: what the C client promises

    The client of Client.v on a platform without faults: the properties of
    sending, receiving, delivering and of the commands; and its behaviour when
    the platform writes less than it was given or fails to read. *)
From S2P Require Import Prelude CMem Wire Packet Publish Connect Subscribe Unsubscribe Topic Platform Client.

(** ** Plumbing *)
Section Plumbing.
Context `{CharAbi} `{Platform}.

Lemma on_mem_Some {A} (f : M mem A) s a m' :
  f (s_mem s) = Some (a, m') -> on_mem f s = Some (a, mkSt m' (s_c s) (s_w s) (s_log s)).
Proof. intros Hf. unfold on_mem. by rewrite Hf. Qed.

Lemma on_w_Some {A} (f : M W A) s a w' :
  f (s_w s) = Some (a, w') -> on_w f s = Some (a, mkSt (s_mem s) (s_c s) w' (s_log s)).
Proof. intros Hf. unfold on_w. by rewrite Hf. Qed.

Lemma on_w_pure {A} (f : M W A) s a : f (s_w s) = Some (a, s_w s) -> on_w f s = Some (a, s).
Proof. intros Hf. rewrite (on_w_Some f s a _ Hf). by destruct s. Qed.

Lemma on_mem_get s : on_mem get s = Some (s_mem s, s).
Proof. unfold on_mem, get. by destruct s. Qed.

Lemma get_c_Some s : get_c s = Some (s_c s, s).
Proof. done. Qed.
End Plumbing.

(** ** Packet identifiers *)
Section PacketId.
Context `{CharAbi} `{Platform}.

Lemma getNextPacketId_spec s :
  1 <= next_packetid (s_c s) <= 65535 ->
  getNextPacketId s = Some (next_id (next_packetid (s_c s)),
    mkSt (s_mem s) (set_next_packetid (next_id (next_packetid (s_c s))) (s_c s)) (s_w s) (s_log s)).
Proof.
  intros Hr. unfold getNextPacketId. step (get_c_Some s). unfold MAX_PACKET_ID.
  assert ((if next_packetid (s_c s) =? 65535 then 1 else to_uint (next_packetid (s_c s) + 1)) =
    next_id (next_packetid (s_c s))) as ->.
  { unfold next_id. destruct (Z.eqb_spec (next_packetid (s_c s)) 65535); [done|]. apply Z.mod_small. lia. }
  pose proof (next_id_range _ Hr). erewrite M_bind_Some by done.
  by rewrite to_int_id by (unfold INT_MIN, INT_MAX; lia).
Qed.

(** Packet identifiers: from a client whose last identifier is in 1..65535,
    [getNextPacketId] returns one in 1..65535, the successor with 65535 followed by
    1, and keeps it; so [k] calls yield the [k]-th number on that cycle, never 0,
    and the first 65535 are all different. *)
Theorem packet_ids k s i :
  next_packetid (s_c s) = i -> 1 <= i <= 65535 ->
  exists id s', Nat.iter k (fun st_ => '(_, s) ← st_; getNextPacketId s) (Some (i, s)) = Some (id, s') /\
    id = (i - 1 + Z.of_nat k) mod 65535 + 1 /\ 1 <= id <= 65535 /\ next_packetid (s_c s') = id /\
    s_mem s' = s_mem s /\ s_w s' = s_w s /\ s_log s' = s_log s.
Proof.
  intros Hi Hr. induction k as [|k (id & s' & He & Hid & Hrange & Hn & Hm & Hw & Hl)].
  { exists i, s. simpl. splits; try done; try lia. rewrite Z.add_0_r, Z.mod_small; lia. }
  change (Nat.iter (S k) ?f ?x) with (f (Nat.iter k f x)). cbv beta. rewrite He. msimpl.
  rewrite getNextPacketId_spec, Hn by lia. eexists _, _. split; [done|].
  cbn [s_mem s_w s_log s_c set_next_packetid next_packetid].
  assert (next_id id = (i - 1 + Z.of_nat (S k)) mod 65535 + 1).
  { rewrite next_id_mod, Hid by lia. replace (i - 1 + Z.of_nat (S k)) with ((i - 1 + Z.of_nat k) + 1) by lia.
    by rewrite <- (Z.add_mod_idemp_l (i - 1 + Z.of_nat k) 1 65535) by lia. }
  pose proof (next_id_range id Hrange). splits; (lia || congruence).
Qed.
End PacketId.

(** ** Sending and receiving on an ideal platform *)
Section Ideal.
Context `{CharAbi} `{IdealPlatform}.

Lemma sendPacket_spec fuel bs timer s :
  at_bytes (s_mem s) (c_buf (s_c s)) bs -> bs <> [] -> Z.of_nat (length bs) <= INT_MAX ->
  expired timer = false ->
  exists t w', sendPacket (S fuel) (Z.of_nat (length bs)) timer s =
      Some (SUCCESS, mkSt (s_mem s) (set_ping_timer t (s_c s)) w' (s_log s)) /\
    incoming w' = incoming (s_w s) /\ outgoing w' = outgoing (s_w s) ++ bs /\
    (0 < keepAliveInterval_ (s_c s) -> expired t = false).
Proof.
  intros Hat Hne Hmax Ht. unfold sendPacket.
  destruct (left_law timer (s_w s)) as (ms & Hms). destruct (write_law bs ms (s_w s)) as (w' & Hw & Hin & Hout).
  destruct (countdown_law (ping_timer (s_c s)) (keepAliveInterval_ (s_c s)) w') as (t & Hcd & Hexp).
  exists t, w'. split; [|done].
  assert (Hlen : 0 < Z.of_nat (length bs)) by (destruct bs; [done|simpl; lia]).
  assert (Hloop : send_loop (S fuel) (Z.of_nat (length bs)) 0 timer s =
    Some (Z.of_nat (length bs), mkSt (s_mem s) (s_c s) w' (s_log s))).
  { cbn [send_loop]. destruct (Z.ltb_spec 0 (Z.of_nat (length bs))); [|lia]. cbn [negb].
    step (on_w_pure _ s _ (expired_law timer (s_w s))). rewrite Ht. step (get_c_Some s).
    step (on_w_pure _ s _ Hms). step (on_mem_get s).
    rewrite padd_0. erewrite M_bind_lift by exact Hat. step (on_w_Some _ s _ _ Hw).
    destruct (Z.ltb_spec (Z.of_nat (length bs)) 0); [lia|].
    rewrite (M_bind_lift _ _ _ (Z.of_nat (length bs))) by (apply cint_ok; unfold INT_MIN; lia).
    destruct fuel; cbn [send_loop]; rewrite Z.ltb_irrefl; done. }
  step Hloop. rewrite Z.eqb_refl. erewrite M_bind_Some by done. cbn beta iota. cbn [s_c].
  erewrite M_bind_Some by (apply on_w_Some; cbn [s_w]; exact Hcd). done.
Qed.

Lemma net_read_Some p n ms s bs w' m' :
  mqttread n ms (s_w s) = Some ((n, bs), w') -> store_bytes (s_mem s) p bs = Some m' ->
  net_read p n ms s = Some (n, mkSt m' (s_c s) w' (s_log s)).
Proof.
  intros Hr Hs. unfold net_read. step (on_w_Some _ s _ _ Hr). cbn [snd fst].
  erewrite M_bind_Some by (apply on_mem_Some; unfold stores; cbn [s_mem]; rewrite Hs; done). done.
Qed.

Lemma readPacket_full timer s h body rest :
  incoming (s_w s) = packet h body ++ rest -> Z.of_nat (length body) < 268435456 ->
  room (s_mem s) (c_readbuf (s_c s)) (Z.of_nat (length (packet h body))) ->
  exists m' w', readPacket timer s = Some (hdr_type h, mkSt m' (s_c s) w' (s_log s)) /\
    at_bytes m' (c_readbuf (s_c s)) (packet h body) /\
    agree_except (p_blk (c_readbuf (s_c s))) (s_mem s) m' /\ incoming w' = rest /\ outgoing w' = outgoing (s_w s) /\
    (forall q k, room (s_mem s) q k -> room m' q k).
Proof.
  intros Hp Hl Hr. set (L := Z.of_nat (length body)) in *. set (p := c_readbuf (s_c s)) in *.
  destruct (room_store _ _ (packet h body) _ Hr) as (m3 & Hs); [lia|].
  pose proof (store_bytes_at _ _ _ _ Hs) as Hat. pose proof (store_bytes_agree _ _ _ _ Hs) as Hag.
  assert (Hroom : forall q k, room (s_mem s) q k -> room m3 q k) by (intros q k; exact (store_bytes_room _ _ _ _ q k Hs)).
  unfold packet in *. fold L in Hp, Hs, Hat |- *.
  change (h :: varint L ++ body) with ([h] ++ varint L ++ body) in Hs.
  apply store_bytes_app in Hs as (m1 & Hs1 & Hs). apply store_bytes_app in Hs as (m2 & Hs2 & Hs3).
  change (Z.of_nat (length [h])) with 1 in *. rewrite padd_padd in Hs3.
  destruct (left_law timer (s_w s)) as (ms & Hms).
  destruct (read_law 1 ms (s_w s)) as (w1 & Hr1 & Hi1 & Ho1); [rewrite Hp; simpl; lia|].
  rewrite Hp in Hr1, Hi1. change (Z.to_nat 1) with 1%nat in *. cbn [take drop app] in Hr1, Hi1. rewrite take_0 in Hr1.
  rewrite <- app_assoc in Hi1. destruct (left_law timer w1) as (ms1 & Hms1).
  destruct (ideal_delivers ms1 (varint L) w1 (body ++ rest) Hi1) as (w2 & Hd & Hi2 & Ho2).
  destruct (left_law timer w2) as (ms2 & Hms2).
  destruct (read_law L ms2 w2) as (w3 & Hr3 & Hi3 & Ho3); [rewrite Hi2, length_app; unfold L; lia|].
  unfold L in Hr3, Hi3. rewrite Nat2Z.id, Hi2, take_app_length in Hr3. rewrite Nat2Z.id, Hi2, drop_app_length in Hi3.
  fold L in Hr3. unfold readPacket. step (get_c_Some s). step (on_w_pure _ s _ Hms). fold p.
  step (net_read_Some p 1 ms s [h] w1 m1 Hr1 Hs1). change (1 =? 1) with true. cbn [negb].
  erewrite M_bind_Some by (apply on_w_pure; cbn [s_w]; exact Hms1). unfold decodePacket.
  erewrite M_bind_Some by (apply on_w_Some, (MQTTPacket_decode_varint _ L); [unfold L; lia|exact Hd]).
  cbn beta iota. cbn [s_mem s_c s_w s_log].
  erewrite M_bind_Some.
  2:{ apply on_mem_Some. cbn [s_mem]. unfold MQTTPacket_encode.
      rewrite encode_loop_stores by (unfold L; simpl; lia). rewrite padd_0.
      change (varint_n 5 L) with (varint L). rewrite Hs2. done. }
  cbv zeta. cbn [s_c s_w s_log]. rewrite Z.add_0_l.
  destruct (Z.ltb_spec 0 L) as [HL|HL].
  - exists m3, w3. split; [|split_and!; try done; congruence].
    erewrite M_bind_Some.
    2:{ erewrite M_bind_Some by (apply on_w_pure; cbn [s_w]; exact Hms2).
        erewrite M_bind_Some by (eapply net_read_Some; [exact Hr3|exact Hs3]).
        rewrite Z.eqb_refl. cbn [negb]. done. }
    cbn beta iota. erewrite M_bind_Some by apply on_mem_get. cbn [s_mem s_c s_w s_log].
    by rewrite (M_bind_lift _ _ _ h) by (by eapply at_bytes_load).
  - assert (body = []) as -> by (destruct body; [done|unfold L in HL; simpl in HL; lia]).
    simpl in Hs3. injection Hs3 as <-. simpl in Hi2.
    exists m2, w2. split; [|split_and!; try done; congruence].
    erewrite M_bind_Some by done. cbn beta iota. erewrite M_bind_Some by apply on_mem_get. cbn [s_mem s_c s_w s_log].
    by rewrite (M_bind_lift _ _ _ h) by (by eapply at_bytes_load).
Qed.

Lemma readPacket_spec timer s h body rest :
  incoming (s_w s) = packet h body ++ rest -> Z.of_nat (length body) < 268435456 ->
  room (s_mem s) (c_readbuf (s_c s)) (Z.of_nat (length (packet h body))) ->
  exists m' w', readPacket timer s = Some (hdr_type h, mkSt m' (s_c s) w' (s_log s)) /\
    at_bytes m' (c_readbuf (s_c s)) (packet h body) /\
    agree_except (p_blk (c_readbuf (s_c s))) (s_mem s) m' /\ incoming w' = rest /\ outgoing w' = outgoing (s_w s).
Proof.
  intros Hp Hl Hr. destruct (readPacket_full timer s h body rest Hp Hl Hr) as (m1 & w1 & ? & ? & ? & ? & ? & _).
  by exists m1, w1.
Qed.
End Ideal.

(** ** Delivering messages *)
Section Deliver.
Context `{CharAbi} `{Platform}.

Definition add_log (l : list call) (s : st) : st := mkSt (s_mem s) (s_c s) (s_w s) (s_log s ++ l).

Lemma add_log_nil s : add_log [] s = s.
Proof. unfold add_log. rewrite app_nil_r. by destruct s. Qed.

Lemma add_log_app l k s : add_log k (add_log l s) = add_log (l ++ k) s.
Proof. unfold add_log. simpl. by rewrite app_assoc. Qed.

(** Every subscribed filter is a C string outside block [b]. *)
Definition handlers_ok (m : mem) (b : nat) (hs : list MessageHandlers) : Prop :=
  Forall (fun h => forall f, topicFilter h = Some f -> p_blk f <> b /\ exists t, cstr m f t /\ short t) hs.

(** A topic name as the packet reader hands it out. *)
Definition name_arg (m : mem) (x : MQTTString) (t : list Z) : Prop :=
  mstr m x t /\ cstring x = None /\ lenstring_data x <> None /\ short t.

Definition matches (m : mem) (x : MQTTString) (h : MessageHandlers) : bool :=
  match handler_matches m h x with Some b => b | None => false end.

(** The handlers to be called, in the order of the table; the default if there are none. *)
Definition called (m : mem) (x : MQTTString) (hs : list MessageHandlers) : list nat :=
  omap (fun h => if matches m x h then fp h else None) hs.
Definition calls (m : mem) (x : MQTTString) (c : MQTTClient) : list nat :=
  match called m x (messageHandlers c) with
  | [] => match defaultMessageHandler c with Some f => [f] | None => [] end
  | l => l
  end.

Lemma handler_matches_total m b hs x t h :
  handlers_ok m b hs -> name_arg m x t -> h ∈ hs -> handler_matches m h x = Some (matches m x h).
Proof.
  intros Hh (Hx & Hc & Hd & Hs) Hin. unfold matches, handler_matches.
  destruct (topicFilter h) as [f|] eqn:Ef; [|done].
  unfold handlers_ok in Hh. rewrite Forall_forall in Hh.
  destruct (Hh h Hin f Ef) as (_ & u & Hu & Hus).
  rewrite (equals_spec m x t f u) by auto. msimpl. destruct (bool_decide (t = u)); [done|].
  by rewrite (isTopicMatched_total m f x u t).
Qed.

(** The table [hs] holds the subscriptions [ss]; their filters are C strings outside block [b]. *)
Definition table_is (m : mem) (b : nat) (hs : list MessageHandlers) (ss : list subscription) : Prop :=
  Forall2 (fun h s => fp h = s.2 /\
    match s.1 with
    | Some u => exists f, topicFilter h = Some f /\ p_blk f <> b /\ cstr m f u /\ short u
    | None => topicFilter h = None
    end) hs ss.

Lemma table_ok m b hs ss : table_is m b hs ss -> handlers_ok m b hs.
Proof.
  induction 1 as [|h [[u|] g] hs ss [_ Hs] _ IH]; cbn [fst] in *; constructor; try exact IH; intros f Hf.
  - destruct Hs as (f' & Hf' & Hb & Hc & Hu). assert (f' = f) as <- by congruence. eauto.
  - congruence.
Qed.

Lemma called_cons m x h hs :
  called m x (h :: hs) =
    match (if matches m x h then fp h else None) with Some f => f :: called m x hs | None => called m x hs end.
Proof. unfold called. simpl. destruct (matches m x h); [|done]. by destruct (fp h). Qed.

(** A slot of the table matches exactly if its subscription wants the topic. *)
Lemma slot_wanted m b h (s : subscription) x t :
  fp h = s.2 /\ match s.1 with
    | Some u => exists f, topicFilter h = Some f /\ p_blk f <> b /\ cstr m f u /\ short u
    | None => topicFilter h = None
    end -> name_arg m x t ->
  (if matches m x h then fp h else None) = (u ← s.1; if wanted u t then s.2 else None).
Proof.
  intros [-> Hs] (Hx & Hc & Hd & Hsh). unfold matches, handler_matches. destruct s as [[u|] g]; cbn [fst snd] in *.
  - destruct Hs as (f & -> & _ & Hu & Hus). rewrite (equals_spec m x t f u) by auto. msimpl. unfold wanted.
    destruct (bool_decide (t = u)); [done|]. by rewrite (isTopicMatched_total m f x u t).
  - by rewrite Hs.
Qed.

(** The handlers the loop calls are those of the subscriptions that want the topic. *)
Lemma called_reached m b hs ss x t : table_is m b hs ss -> name_arg m x t -> called m x hs = reached ss t.
Proof.
  intros Ht Hx. induction Ht as [|h s hs ss Hs _ IH]; [done|]. rewrite called_cons, (slot_wanted m b h s x t Hs Hx), IH.
  unfold reached. cbn [omap list_omap]. by destruct (u ← s.1; if wanted u t then s.2 else None).
Qed.

Lemma calls_receivers m b ss x t c : table_is m b (messageHandlers c) ss -> name_arg m x t ->
  calls m x c = receivers ss (defaultMessageHandler c) t.
Proof. intros Ht Hx. unfold calls, receivers. rewrite (called_reached m b _ ss x t Ht Hx). by destruct (reached ss t). Qed.

Lemma deliver_loop m x msg hs0 (hs : list MessageHandlers) : forall i rc s,
  s_mem s = m -> messageHandlers (s_c s) = hs0 -> (forall j h, hs !! j = Some h -> hs0 !! (i + j)%nat = Some h) ->
  Forall (fun h => handler_matches m h x = Some (matches m x h)) hs ->
  c_for i (length hs) (fun i rc =>
    c ← get_c; m ← on_mem get;
    h ← lift (messageHandlers c !! i);
    b ← lift (handler_matches m h x);
    if (b : bool) then
      match fp h with
      | Some f => call_handler f x msg;; mret SUCCESS
      | None => mret rc
      end
    else mret rc) rc s =
  Some (if bool_decide (called m x hs = []) then rc else SUCCESS,
        add_log (map (fun f => mkCall f x msg m) (called m x hs)) s).
Proof.
  induction hs as [|h hs IH]; intros i rc s Hm Hc Hj Hf; cbn [length c_for].
  { simpl. by rewrite add_log_nil. }
  apply Forall_cons in Hf as [Hh Hf].
  assert (Hnext : forall j h', hs !! j = Some h' -> hs0 !! (S i + j)%nat = Some h').
  { intros j h' Hj'. replace (S i + j)%nat with (i + S j)%nat by lia. by apply Hj. }
  unfold mbind at 1, M_bind at 1. step (get_c_Some s). step (on_mem_get s). rewrite Hc, Hm.
  rewrite (M_bind_lift _ _ _ h) by (rewrite <- (Nat.add_0_r i); by apply Hj).
  erewrite M_bind_lift by exact Hh.
  rewrite called_cons. destruct (matches m x h).
  - destruct (fp h) as [f|].
    + unfold call_handler. erewrite M_bind_Some by done. cbn beta iota.
      unfold mret at 1, M_ret at 1. cbv beta iota.
      rewrite (IH (S i) SUCCESS) by done. rewrite (bool_decide_false (f :: _ = [])) by done.
      unfold add_log. simpl. rewrite Hm, <- app_assoc. by destruct (bool_decide _).
    + unfold mret at 1, M_ret at 1. cbv beta iota. by apply IH.
  - unfold mret at 1, M_ret at 1. cbv beta iota. by apply IH.
Qed.

Lemma deliverMessage_calls s b x t msg :
  length (messageHandlers (s_c s)) = MAX_MESSAGE_HANDLERS ->
  handlers_ok (s_mem s) b (messageHandlers (s_c s)) -> name_arg (s_mem s) x t ->
  deliverMessage x msg s =
    Some (if bool_decide (calls (s_mem s) x (s_c s) = []) then FAILURE else SUCCESS,
          add_log (map (fun f => mkCall f x msg (s_mem s)) (calls (s_mem s) x (s_c s))) s).
Proof.
  intros Hl Hh Hx. unfold deliverMessage. rewrite <- Hl.
  assert (Hf : Forall (fun h => handler_matches (s_mem s) h x = Some (matches (s_mem s) x h)) (messageHandlers (s_c s))).
  { apply Forall_forall. intros h Hin. by eapply handler_matches_total. }
  step (deliver_loop (s_mem s) x msg (messageHandlers (s_c s)) (messageHandlers (s_c s)) 0 FAILURE s
    eq_refl eq_refl (fun j h Hj => Hj) Hf).
  erewrite M_bind_Some by done. cbn beta iota. cbn [s_c add_log]. unfold calls.
  destruct (called (s_mem s) x (messageHandlers (s_c s))) as [|f l]; [rewrite bool_decide_true by done|];
    destruct (defaultMessageHandler (s_c s)) as [d|]; try done.
  change (FAILURE =? FAILURE) with true. cbv iota. unfold call_handler. erewrite M_bind_Some by done.
  unfold add_log. simpl. by rewrite app_nil_r.
Qed.

(** [deliverMessage] calls, once each and in the order of the table, the handlers
    of the subscriptions whose filter equals or matches the topic, and the default
    handler when there is none; it answers SUCCESS exactly if a handler was called,
    and changes nothing else. *)
Theorem deliverMessage_spec s b x t msg :
  length (messageHandlers (s_c s)) = MAX_MESSAGE_HANDLERS ->
  handlers_ok (s_mem s) b (messageHandlers (s_c s)) -> name_arg (s_mem s) x t ->
  exists l rc, deliverMessage x msg s = Some (rc, add_log (map (fun f => mkCall f x msg (s_mem s)) l) s) /\
    (rc = SUCCESS /\ l <> [] \/ rc = FAILURE /\ l = []) /\
    (forall f, f ∈ called (s_mem s) x (messageHandlers (s_c s)) <->
       exists h, h ∈ messageHandlers (s_c s) /\ fp h = Some f /\ matches (s_mem s) x h = true) /\
    (called (s_mem s) x (messageHandlers (s_c s)) <> [] -> l = called (s_mem s) x (messageHandlers (s_c s))) /\
    (called (s_mem s) x (messageHandlers (s_c s)) = [] ->
       l = match defaultMessageHandler (s_c s) with Some f => [f] | None => [] end).
Proof.
  intros Hl Hh Hx. rewrite (deliverMessage_calls s b x t msg Hl Hh Hx). eexists _, _. split; [done|].
  splits.
  - case_bool_decide; [by right|by left].
  - intros f. unfold called. rewrite list_elem_of_omap. split.
    + intros (h & Hin & Hf). exists h. destruct (matches (s_mem s) x h); by simplify_eq.
    + intros (h & Hin & Hf & Hm). exists h. by rewrite Hm.
  - unfold calls. by destruct (called _ _ _).
  - unfold calls. by intros ->.
Qed.
End Deliver.

(** ** One packet *)
Section Cycle.
Context `{CharAbi} `{IdealPlatform}.

(** Nothing is due for the keep-alive. *)
Definition no_ping (c : MQTTClient) : Prop := keepAliveInterval_ c = 0 \/ expired (ping_timer c) = false.

Lemma keepalive_quiet fuel s : no_ping (s_c s) -> exists rc, keepalive fuel s = Some (rc, s).
Proof.
  intros Hq. unfold keepalive. rewrite (M_bind_Some _ _ _ _ _ (get_c_Some s)).
  destruct (Z.eqb_spec (keepAliveInterval_ (s_c s)) 0); [by eexists|].
  destruct Hq as [|Hq]; [done|]. step (on_w_pure _ s _ (expired_law (ping_timer (s_c s)) (s_w s))).
  rewrite Hq. by eexists.
Qed.

(** The send buffer can take [n] bytes, and [buf_size] says so. *)
Definition sendbuf_ok (s : st) (n : Z) : Prop :=
  room (s_mem s) (c_buf (s_c s)) n /\ n <= buf_size (s_c s) <= INT_MAX.

Lemma send_ack_spec fuel type id timer s :
  0 <= type < 16 -> 0 <= id < 65536 -> sendbuf_ok s 4 -> expired timer = false ->
  exists t w' m', send_ack (S fuel) type id timer s =
      Some (SUCCESS, mkSt m' (set_ping_timer t (s_c s)) w' (s_log s)) /\
    agree_except (p_blk (c_buf (s_c s))) (s_mem s) m' /\
    incoming w' = incoming (s_w s) /\ outgoing w' = outgoing (s_w s) ++ enc_ack type 0 id /\
    (0 < keepAliveInterval_ (s_c s) -> expired t = false).
Proof.
  intros Ht Hi [Hr Hb] Hexp. unfold send_ack. step (get_c_Some s).
  rewrite to_int_id by (unfold INT_MIN; lia).
  destruct (stored_room (s_mem s) (c_buf (s_c s)) (enc_ack type 0 id) 4 Hr) as (m' & Hs & Hat & Hag);
    [unfold enc_ack; rewrite length_be16_packet; lia|].
  erewrite M_bind_Some.
  2:{ apply on_mem_Some. rewrite MQTTSerialize_ack_spec by lia.
      destruct (Z.ltb_spec (buf_size (s_c s)) 4); [lia|]. exact Hs. }
  cbn beta iota. destruct (Z.leb_spec (Z.of_nat (length (enc_ack type 0 id))) 0) as [Hle|_];
    [change (Z.of_nat (length (enc_ack type 0 id))) with 4 in Hle; lia|].
  destruct (sendPacket_spec fuel (enc_ack type 0 id) timer (mkSt m' (s_c s) (s_w s) (s_log s)))
    as (t & w' & He & Hin & Hout & Hk); [done|done|unfold enc_ack; rewrite length_be16_packet; unfold INT_MAX; lia|done|].
  exists t, w', m'. split_and!; done.
Qed.

(** What the QoS of a PUBLISH is answered with. *)
Definition publish_answer (p : publish) : list Z :=
  if pb_qos p =? 1 then enc_ack PUBACK 0 (pb_id p)
  else if pb_qos p =? 2 then enc_ack PUBREC 0 (pb_id p) else [].

(** The message handed to the handlers stands for the packet. *)
Definition message_den (m : mem) (x : MQTTString) (msg : MQTTMessage) (p : publish) : Prop :=
  name_arg m x (pb_topic p) /\ m_qos msg = pb_qos p /\ m_retained msg = pb_retain p /\ m_dup msg = pb_dup p /\
  (0 < pb_qos p -> m_id msg = pb_id p) /\ m_payloadlen msg = Z.of_nat (length (pb_payload p)) /\
  exists q, m_payload msg = Some q /\ at_bytes m q (pb_payload p).

Lemma cycle_publish_spec stack fuel timer s p b :
  wf_publish p -> 0 <= pb_qos p <= 2 -> at_bytes (s_mem s) (c_readbuf (s_c s)) (enc_publish p) ->
  length (messageHandlers (s_c s)) = MAX_MESSAGE_HANDLERS ->
  handlers_ok (s_mem s) b (messageHandlers (s_c s)) ->
  sendbuf_ok s 4 -> expired timer = false ->
  exists x msg m' w' t,
    message_den (s_mem s) x msg p /\
    cycle_publish stack (S fuel) timer s =
      Some ((SUCCESS, false), mkSt m' (if pb_qos p =? 0 then s_c s else set_ping_timer t (s_c s)) w'
              (s_log s ++ map (fun f => mkCall f x msg (s_mem s)) (calls (s_mem s) x (s_c s)))) /\
    agree_except (p_blk (c_buf (s_c s))) (s_mem s) m' /\
    incoming w' = incoming (s_w s) /\ outgoing w' = outgoing (s_w s) ++ publish_answer p /\
    (0 < keepAliveInterval_ (s_c s) -> expired t = false).
Proof.
  intros Hwf Hq Hat Hlen Hh Hsb Hexp. unfold cycle_publish. step (get_c_Some s). step (on_mem_get s).
  destruct (MQTTDeserialize_publish_spec (s_mem s) stack (c_readbuf (s_c s)) (to_int (readbuf_size (s_c s))) p Hwf Hat)
    as (o & Hd & Eo1 & Eo2 & Eo3 & Eo4 & Hmx & Hxc & Hxd & Eo5 & q & Eq & Hpay).
  erewrite M_bind_lift by exact Hd. cbn beta iota. change (1 =? 1) with true. cbn [negb].
  set (msg := mkMessage _ _ _ _ _ _). destruct Hwf as (Hw1 & Hw2 & Hw3 & Hid & Hs & Hl).
  assert (Hpl : to_uint (po_payloadlen o) = Z.of_nat (length (pb_payload p))).
  { rewrite Eo5. unfold to_uint. apply Z.mod_small. rewrite length_publish_body in Hl.
    destruct (0 <? pb_qos p); lia. }
  assert (Hden : message_den (s_mem s) (po_topicName o) msg p).
  { unfold message_den, msg. cbn [m_qos m_retained m_dup m_id m_payload m_payloadlen]. rewrite Hpl.
    split_and!; try done. by exists q. }
  step (deliverMessage_calls s b (po_topicName o) (pb_topic p) msg Hlen Hh (conj Hmx (conj Hxc (conj Hxd Hs)))).
  set (s1 := add_log _ s). cbn [m_qos msg].
  assert (Hans : forall type, (type = PUBACK /\ pb_qos p = 1) \/ (type = PUBREC /\ pb_qos p = 2) ->
    publish_answer p = enc_ack type 0 (pb_id p)).
  { intros type [[-> E]|[-> E]]; unfold publish_answer; by rewrite E. }
  exists (po_topicName o), msg. cbn [m_id msg]. rewrite Eo2. unfold QOS0, QOS1, QOS2.
  destruct (Z.eqb_spec (pb_qos p) 0) as [E0|E0].
  - exists (s_mem s), (s_w s).
    destruct (countdown_law (ping_timer (s_c s)) (keepAliveInterval_ (s_c s)) (s_w s)) as (t & _ & Ht).
    exists t. split; [done|]. split; [done|]. unfold publish_answer. rewrite E0. rewrite app_nil_r. split_and!; done.
  - rewrite Eo4 by lia.
    assert (Hty : exists type : msgTypes, (type = PUBACK /\ pb_qos p = 1) \/ (type = PUBREC /\ pb_qos p = 2)).
    { destruct (decide (pb_qos p = 1)); [exists PUBACK; auto|exists PUBREC; right; split; [done|lia]]. }
    destruct Hty as (type & Hty).
    assert (Ht16 : 0 <= type < 16) by (destruct Hty as [[-> _]|[-> _]]; simpl; lia).
    destruct (send_ack_spec fuel type (pb_id p) timer s1 Ht16 Hid Hsb Hexp) as (t & w' & m' & He & Hag & Hin & Hout & Hk).
    exists m', w', t. split; [done|]. split; [|rewrite (Hans type Hty); done].
    destruct Hty as [[-> E]|[-> E]]; rewrite E; cbn [Z.eqb Pos.eqb]; step He; done.
Qed.

(** C5: end to end for an incoming PUBLISH: with the packet at the head of the
    connection, one [cycle] consumes exactly it, calls once each, in the order of the table, the
    handlers whose filters equal or match its topic (the default handler when there is none), with a topic
    and a message that denote, in the memory the handler sees when it is called, the packet's topic,
    payload, flags and identifier; it answers QoS 1 with a PUBACK and QoS 2 with a
    PUBREC of the same identifier (and QoS 0 with nothing), returns PUBLISH, and changes no memory
    but the client's two buffers. *)
Theorem cycle_delivers stack fuel timer s p rest ss :
  wf_publish p -> 0 <= pb_qos p <= 2 -> incoming (s_w s) = enc_publish p ++ rest ->
  room (s_mem s) (c_readbuf (s_c s)) (Z.of_nat (length (enc_publish p))) ->
  length (messageHandlers (s_c s)) = MAX_MESSAGE_HANDLERS ->
  table_is (s_mem s) (p_blk (c_readbuf (s_c s))) (messageHandlers (s_c s)) ss ->
  sendbuf_ok s 4 -> p_blk (c_buf (s_c s)) <> p_blk (c_readbuf (s_c s)) ->
  expired timer = false -> 0 <= keepAliveInterval_ (s_c s) -> no_ping (s_c s) ->
  exists m x msg s',
    cycle stack (S fuel) timer s = Some (PUBLISH : Z, s') /\
    s_log s' = s_log s ++ map (fun f => mkCall f x msg m) (receivers ss (defaultMessageHandler (s_c s)) (pb_topic p)) /\
    message_den m x msg p /\ at_bytes m (c_readbuf (s_c s)) (enc_publish p) /\
    agree_except (p_blk (c_readbuf (s_c s))) (s_mem s) m /\ agree_except (p_blk (c_buf (s_c s))) m (s_mem s') /\
    incoming (s_w s') = rest /\ outgoing (s_w s') = outgoing (s_w s) ++ publish_answer p.
Proof.
  intros Hwf Hq Hin Hr Hlen Htab [Hsb1 Hsb2] Hblk Hexp Hka Hnp.
  destruct Hwf as (Hw1 & Hw2 & Hw3 & Hw4 & Hw5 & Hw6).
  destruct (readPacket_spec timer s _ _ rest Hin Hw6 Hr) as (m & w1 & Hread & Hat & Hag & Hi1 & Ho1).
  set (s1 := mkSt m (s_c s) w1 (s_log s)).
  assert (Hroom : room m (c_buf (s_c s)) 4).
  { destruct Hsb1 as (blk & Hb & Ho & Hle). exists blk. rewrite Hag by done. done. }
  assert (Htab1 : table_is m (p_blk (c_readbuf (s_c s))) (messageHandlers (s_c s)) ss).
  { eapply Forall2_impl; [exact Htab|]. intros h [[u|] g] [Hg Hs]; split; try done. destruct Hs as (f & Hf & Hfb & Hc & Hu).
    exists f. split_and!; try done. by eapply cstr_agree. }
  destruct (cycle_publish_spec stack fuel timer s1 p (p_blk (c_readbuf (s_c s))))
    as (x & msg & m' & w' & t & Hden & Hcyc & Hag' & Hi' & Ho' & Hk); try done; [by eapply table_ok|].
  pose proof (calls_receivers m _ ss x (pb_topic p) (s_c s) Htab1 (proj1 Hden)) as Hcalls.
  change (calls (s_mem s1) x (s_c s1)) with (calls m x (s_c s)) in Hcyc. rewrite Hcalls in Hcyc.
  set (s2 := mkSt m' (if pb_qos p =? 0 then s_c s else set_ping_timer t (s_c s)) w'
    (s_log s ++ map (fun f => mkCall f x msg m) (receivers ss (defaultMessageHandler (s_c s)) (pb_topic p)))) in *.
  assert (Hquiet : no_ping (s_c s2)).
  { unfold s2. cbn [s_c]. destruct (pb_qos p =? 0); [done|]. unfold no_ping. cbn.
    destruct (decide (keepAliveInterval_ (s_c s) = 0)); [by left|right; apply Hk; cbn; lia]. }
  destruct (keepalive_quiet (S fuel) s2 Hquiet) as (rc & Hkeep).
  exists m, x, msg, s2. split; [|cbn [s2 s_log s_w]; split_and!; try done; [cbn in Hi'; congruence|cbn in Ho'; congruence]].
  unfold cycle. step Hread. destruct (header_get 3 (pb_dup p) (pb_qos p) (pb_retain p)) as (-> & _); try lia.
  change (to_ushort 3) with 3. change (3 =? PUBLISH) with true. cbv iota. step Hcyc. cbv iota. step Hkeep. done.
Qed.
End Cycle.

(** ** Commands *)
Section Commands.
Context `{CharAbi} `{IdealPlatform}.

Lemma nonempty_leb (bs : list Z) : bs <> [] -> (Z.of_nat (length bs) <=? 0) = false.
Proof. destruct bs; [done|]. intros _. cbn [length]. apply Z.leb_gt. lia. Qed.

(** A serializer into the send buffer, then [sendPacket]. *)
Lemma serialize_send fuel (ser : M mem Z) bs timer s :
  ser (s_mem s) = stored (s_mem s) (c_buf (s_c s)) bs -> bs <> [] ->
  room (s_mem s) (c_buf (s_c s)) (Z.of_nat (length bs)) -> Z.of_nat (length bs) <= INT_MAX ->
  expired timer = false ->
  exists m t w',
    on_mem ser s = Some (Z.of_nat (length bs), mkSt m (s_c s) (s_w s) (s_log s)) /\
    sendPacket (S fuel) (Z.of_nat (length bs)) timer (mkSt m (s_c s) (s_w s) (s_log s)) =
      Some (SUCCESS, mkSt m (set_ping_timer t (s_c s)) w' (s_log s)) /\
    agree_except (p_blk (c_buf (s_c s))) (s_mem s) m /\
    incoming w' = incoming (s_w s) /\ outgoing w' = outgoing (s_w s) ++ bs /\
    (0 <= keepAliveInterval_ (s_c s) -> no_ping (set_ping_timer t (s_c s))) /\
    (forall q k, room (s_mem s) q k -> room m q k).
Proof.
  intros Hser Hne Hr Hmax Hexp.
  destruct (stored_room _ _ bs _ Hr) as (m & Hs & Hat & Hag); [lia|].
  destruct (sendPacket_spec fuel bs timer (mkSt m (s_c s) (s_w s) (s_log s))) as (t & w' & He & Hin & Hout & Hk); try done.
  exists m, t, w'. split_and!; try done.
  - by rewrite (on_mem_Some _ s _ _ (eq_trans Hser Hs)).
  - intros Hka. destruct (decide (keepAliveInterval_ (s_c s) = 0)) as [E|E]; [by left|right]. apply Hk. cbn. lia.
  - intros q k. unfold stored in Hs. destruct (store_bytes _ _ bs) as [m'|] eqn:E; [|done].
    injection Hs as <-. by apply (store_bytes_room _ _ _ _ _ _ E).
Qed.

(** One [cycle] over a packet that needs no action of the client. *)
Lemma cycle_reply stack fuel timer s h body rest k :
  hdr_type h = k -> 0 <= k < 16 -> k <> PUBLISH -> k <> PUBREC -> k <> PINGRESP ->
  incoming (s_w s) = packet h body ++ rest -> Z.of_nat (length body) < 268435456 ->
  room (s_mem s) (c_readbuf (s_c s)) (Z.of_nat (length (packet h body))) -> no_ping (s_c s) ->
  exists m w, cycle stack fuel timer s = Some (k, mkSt m (s_c s) w (s_log s)) /\
    at_bytes m (c_readbuf (s_c s)) (packet h body) /\
    agree_except (p_blk (c_readbuf (s_c s))) (s_mem s) m /\ incoming w = rest /\ outgoing w = outgoing (s_w s).
Proof.
  intros Hk Hk16 N1 N2 N3 Hin Hl Hr Hnp.
  destruct (readPacket_spec timer s h body rest Hin Hl Hr) as (m & w & Hread & Hat & Hag & Hi & Ho).
  exists m, w. split; [|done]. unfold cycle. step Hread. rewrite Hk, to_ushort_id by lia.
  destruct (Z.eqb_spec k PUBLISH), (Z.eqb_spec k PUBREC), (Z.eqb_spec k PINGRESP); try done.
  erewrite M_bind_Some by done. cbn beta iota.
  destruct (keepalive_quiet fuel (mkSt m (s_c s) w (s_log s)) Hnp) as (rc & Hkeep). by step Hkeep.
Qed.

Lemma waitfor_loop_reply stack fuel timer s h body rest k rc :
  hdr_type h = k -> 0 <= k < 16 -> k <> PUBLISH -> k <> PUBREC -> k <> PINGRESP ->
  incoming (s_w s) = packet h body ++ rest -> Z.of_nat (length body) < 268435456 ->
  room (s_mem s) (c_readbuf (s_c s)) (Z.of_nat (length (packet h body))) -> no_ping (s_c s) ->
  expired timer = false ->
  exists m w, waitfor_loop stack (S fuel) k rc timer s = Some (k, mkSt m (s_c s) w (s_log s)) /\
    at_bytes m (c_readbuf (s_c s)) (packet h body) /\
    agree_except (p_blk (c_readbuf (s_c s))) (s_mem s) m /\ incoming w = rest /\ outgoing w = outgoing (s_w s).
Proof.
  intros Hk Hk16 N1 N2 N3 Hin Hl Hr Hnp Hexp.
  destruct (cycle_reply stack (S fuel) timer s h body rest k) as (m & w & Hc & Hrest); try done.
  exists m, w. split; [|done]. cbn [waitfor_loop].
  step (on_w_pure _ s _ (expired_law timer (s_w s))). rewrite Hexp. step Hc. by rewrite Z.eqb_refl.
Qed.

(** The command's timer is running. *)
Lemma command_timer_spec s :
  0 < command_timeout_ms (s_c s) -> exists timer, command_timer s = Some (timer, s) /\ expired timer = false.
Proof.
  intros Hms. destruct (countdown_ms_law TimerInit (command_timeout_ms (s_c s)) (s_w s)) as (t & Ht & Hexp).
  exists t. split; [|by apply Hexp]. unfold command_timer. step (get_c_Some s). by apply on_w_pure.
Qed.

(** The read buffer can take [n] bytes and is another block than the send buffer. *)
Definition readbuf_ok (s : st) (n : Z) : Prop :=
  room (s_mem s) (c_readbuf (s_c s)) n /\ p_blk (c_buf (s_c s)) <> p_blk (c_readbuf (s_c s)).

Lemma room_agree b m m' p n : agree_except b m m' -> p_blk p <> b -> room m p n -> room m' p n.
Proof. intros Ha Hp (blk & Hb & Ho). exists blk. by rewrite Ha. Qed.

Lemma room_le m p n n' : room m p n -> n' <= n -> room m p n'.
Proof. intros (blk & Hb & Ho & Hl) Hn. exists blk. split; [done|lia]. Qed.

(** [MQTTConnect] end to end: it sends exactly the CONNECT packet of the options,
    and with a CONNACK next on the connection returns its return code; the client is
    connected afterwards exactly if the code is 0. *)
Theorem MQTTConnect_spec stack fuel s o c t sp rc rest :
  isconnected (s_c s) = 0 -> 0 < command_timeout_ms (s_c s) ->
  wf_connect c -> connect_args (s_mem s) (p_blk (c_buf (s_c s))) o c ->
  MQTTPacket_len (Z.of_nat (length (connect_body c))) = Some t -> sendbuf_ok s t -> readbuf_ok s 4 ->
  byte rc -> 0 <= sp < 2 -> incoming (s_w s) = enc_connack sp rc ++ rest ->
  exists s', MQTTConnect stack (S fuel) (Some o) s = Some (rc, s') /\
    incoming (s_w s') = rest /\ outgoing (s_w s') = outgoing (s_w s) ++ enc_connect c /\
    isconnected (s_c s') = (if rc =? 0 then 1 else 0) /\ keepAliveInterval_ (s_c s') = cn_keepalive c /\
    s_log s' = s_log s.
Proof.
  intros Hcon Hms Hwf Ha Ht [Hsr Hsb] [Hrr Hblk] Hrc Hsp Hin.
  pose proof (length_enc_connect_le c t Hwf Ht) as Hlen. pose proof (proj2 (connect_body_small c Hwf)) as (_ & _ & Hsm).
  destruct (MQTTPacket_len_spec _ (conj (Nat2Z.is_nonneg _) Hsm)) as (t' & Ht' & Hle). assert (t' = t) as -> by congruence.
  pose proof Hwf as (_ & _ & Hka & _). pose proof Ha as (_ & _ & Eka & _).
  destruct (command_timer_spec s Hms) as (timer & Htm & Hexp).
  set (c1 := set_keepAliveInterval (cn_keepalive c) (s_c s)).
  destruct (countdown_law (ping_timer (s_c s)) (cn_keepalive c) (s_w s)) as (tp & Htp & _).
  set (s1 := mkSt (s_mem s) (set_ping_timer tp c1) (s_w s) (s_log s)).
  destruct (serialize_send fuel (MQTTSerialize_connect (c_buf (s_c s)) (to_int (buf_size (s_c s))) o)
    (enc_connect c) timer s1) as (m2 & t2 & w2 & Hser & Hsend & Hag2 & Hi2 & Ho2 & Hnp & Hroom2); try done.
  { cbn [s1 s_mem]. rewrite (MQTTSerialize_connect_spec _ _ _ o c t), to_int_id by (try done; unfold INT_MIN; lia).
    by destruct (Z.leb_spec t (buf_size (s_c s))); [|lia]. }
  { cbn [s1 s_mem s_c]. eapply room_le; [exact Hsr|lia]. }
  { unfold INT_MAX. lia. }
  cbn [s1 s_c s_mem s_w s_log] in *.
  set (s2 := mkSt m2 (set_ping_timer t2 (set_ping_timer tp c1)) w2 (s_log s)) in *.
  destruct (waitfor_loop_reply stack fuel timer s2 (header 2 0 0 0) [sp * 128; rc] rest CONNACK FAILURE) as
    (m3 & w3 & Hwait & Hat3 & Hag3 & Hi3 & Ho3); try done.
  { cbn [s2 s_w]. by rewrite Hi2. }
  { by apply Hroom2. }
  { apply Hnp. cbn. lia. }
  set (s3 := mkSt m3 (set_ping_timer t2 (set_ping_timer tp c1)) w3 (s_log s)).
  assert (Hbody : connect_body_ stack (S fuel) (Some o) s = Some (rc, s3)).
  { unfold connect_body_. step (get_c_Some s). rewrite Hcon. cbn [Z.eqb negb]. step Htm. cbv zeta.
    change (default MQTTPacket_connectData_initializer (Some o)) with o. rewrite Eka. erewrite M_bind_Some by done. cbn beta iota.
    erewrite M_bind_Some by (apply on_w_Some; cbn [s_w]; exact Htp). cbn beta iota.
    erewrite M_bind_Some by done. cbn beta iota. erewrite M_bind_Some by done. cbn beta iota.
    cbn [s_c s_mem s_w s_log].
    change (c_buf (set_keepAliveInterval (cn_keepalive c) (s_c s))) with (c_buf (s_c s)).
    change (buf_size (set_keepAliveInterval (cn_keepalive c) (s_c s))) with (buf_size (s_c s)).
    step Hser. rewrite nonempty_leb by done. step Hsend.
    change (SUCCESS =? SUCCESS) with true. cbn [negb].
    step (Hwait : waitfor stack (S fuel) CONNACK timer s2 = _). change (CONNACK =? CONNACK) with true. cbv iota.
    step (on_mem_get s3). cbn [s3 s_mem].
    rewrite (M_bind_lift _ _ _ (1, sp, rc)) by by apply MQTTDeserialize_connack_spec. done. }
  unfold MQTTConnect. step Hbody. unfold SUCCESS. destruct (Z.eqb_spec rc 0) as [->|Hne].
  - eexists. split; [done|]. cbn [s_w s_c s_log s3]. split_and!; try done. by rewrite Ho3.
  - eexists. split; [done|]. cbn [s_w s_c s_log s3]. split_and!; try done. by rewrite Ho3.
Qed.

(** One [cycle] over a PUBREC: it is answered with a PUBREL. *)
Lemma cycle_pubrec_reply stack fuel timer s id rest :
  0 <= id < 65536 -> incoming (s_w s) = enc_ack PUBREC 0 id ++ rest -> readbuf_ok s 4 -> sendbuf_ok s 4 ->
  expired timer = false -> 0 <= keepAliveInterval_ (s_c s) ->
  exists m t w, cycle stack (S fuel) timer s = Some (PUBREC : Z, mkSt m (set_ping_timer t (s_c s)) w (s_log s)) /\
    (forall b, b <> p_blk (c_readbuf (s_c s)) -> b <> p_blk (c_buf (s_c s)) -> m !! b = s_mem s !! b) /\
    room m (c_readbuf (s_c s)) 4 /\ incoming w = rest /\ outgoing w = outgoing (s_w s) ++ enc_ack PUBREL 0 id /\
    no_ping (set_ping_timer t (s_c s)).
Proof.
  intros Hid Hin [Hrr Hblk] [Hsr Hsb] Hexp Hka.
  destruct (readPacket_full timer s _ _ rest Hin) as (m1 & w1 & Hread & Hat & Hag & Hi1 & Ho1 & Hroom); [done|done|].
  set (s1 := mkSt m1 (s_c s) w1 (s_log s)).
  destruct (send_ack_spec fuel PUBREL id timer s1) as (t & w2 & m2 & Hsend & Hag2 & Hi2 & Ho2 & Hk); try done.
  { split; [|done]. cbn [s1 s_mem s_c]. by eapply room_agree. }
  exists m2, t, w2. cbn [s1 s_c s_mem s_w s_log] in *. split_and!.
  - unfold cycle. step Hread. change (hdr_type (header PUBREC 0 0 0)) with 5. change (to_ushort 5) with 5.
    change (5 =? PUBLISH) with false. change (5 =? PUBREC) with true. cbv iota.
    assert (Hpr : cycle_pubrec stack (S fuel) timer s1 =
      Some ((SUCCESS, false), mkSt m2 (set_ping_timer t (s_c s)) w2 (s_log s))).
    { unfold cycle_pubrec. step (get_c_Some s1). step (on_mem_get s1).
      rewrite (M_bind_lift _ _ _ (1, mkAckOut PUBREC 0 id))
        by (apply MQTTDeserialize_ack_spec; [simpl; lia|lia|done|exact Hat]).
      cbn beta iota. change (1 =? 1) with true. cbn [negb ao_packetid]. step Hsend. done. }
    step Hpr. cbv iota.
    assert (Hnp : no_ping (set_ping_timer t (s_c s))).
    { destruct (decide (keepAliveInterval_ (s_c s) = 0)) as [E|E]; [by left|right]. apply Hk. lia. }
    destruct (keepalive_quiet (S fuel) (mkSt m2 (set_ping_timer t (s_c s)) w2 (s_log s)) Hnp) as (rc & Hkeep).
    by step Hkeep.
  - intros b Hb1 Hb2. rewrite Hag2, Hag; done.
  - eapply room_agree; [exact Hag2|by apply not_eq_sym|].
    by apply Hroom.
  - congruence.
  - by rewrite Ho2, Ho1.
  - destruct (decide (keepAliveInterval_ (s_c s) = 0)) as [E|E]; [by left|right]. apply Hk. lia.
Qed.
(** What [publish_wait] does on the acknowledgement it waits for. *)
Lemma publish_wait_reply stack fuel s k id rc timer s1 m w t :
  waitfor stack fuel k timer s = Some (k, s1) -> s1 = mkSt m (set_ping_timer t (s_c s)) w (s_log s) ->
  0 <= k < 16 -> 0 <= id < 65536 -> at_bytes m (c_readbuf (s_c s)) (enc_ack k 0 id) ->
  publish_wait stack fuel k rc timer s = Some (rc, s1).
Proof.
  intros Hw -> Hk Hid Hat. unfold publish_wait. step Hw. rewrite Z.eqb_refl. erewrite M_bind_Some by done.
  erewrite M_bind_Some by apply on_mem_get. cbn [s_mem s_c].
  rewrite (M_bind_lift _ _ _ (1, mkAckOut k 0 id)); [done|].
  apply MQTTDeserialize_ack_spec; [done|lia|done|exact Hat].
Qed.

(** The acknowledgements of the peer to a PUBLISH, and what the client sends in all. *)
Definition publish_replies (qos id1 id2 : Z) : list Z :=
  if qos =? 1 then enc_ack PUBACK 0 id1
  else if qos =? 2 then enc_ack PUBREC 0 id1 ++ enc_ack PUBCOMP 0 id2 else [].
Definition publish_sends (p : publish) (id1 : Z) : list Z :=
  enc_publish p ++ (if pb_qos p =? 2 then enc_ack PUBREL 0 id1 else []).

Lemma publish_handshake stack fuel timer s qos id1 id2 rest :
  0 <= qos <= 2 -> 0 <= id1 < 65536 -> 0 <= id2 < 65536 ->
  incoming (s_w s) = publish_replies qos id1 id2 ++ rest -> readbuf_ok s 4 -> sendbuf_ok s 4 ->
  expired timer = false -> 0 <= keepAliveInterval_ (s_c s) -> no_ping (s_c s) ->
  exists s', (if qos =? QOS1 then publish_wait stack (S (S fuel)) PUBACK SUCCESS timer
     else if qos =? QOS2 then publish_wait stack (S (S fuel)) PUBCOMP SUCCESS timer else mret SUCCESS) s =
      Some (SUCCESS, s') /\
    incoming (s_w s') = rest /\
    outgoing (s_w s') = outgoing (s_w s) ++ (if qos =? 2 then enc_ack PUBREL 0 id1 else []) /\
    s_log s' = s_log s /\ next_packetid (s_c s') = next_packetid (s_c s).
Proof.
  intros Hq Hid1 Hid2 Hin Hrb Hsb Hexp Hka Hnp. unfold publish_replies, QOS1, QOS2 in *.
  pose proof Hrb as [Hrr Hblk].
  destruct (Z.eqb_spec qos 1) as [->|N1].
  - destruct (waitfor_loop_reply stack (S fuel) timer s (header PUBACK 0 0 0) (be16 id1) rest PUBACK FAILURE) as
      (m & w & Hwait & Hat & _ & Hi & Ho); try done.
    exists (mkSt m (s_c s) w (s_log s)). cbn [s_w s_log s_c]. rewrite app_nil_r. split_and!; try done.
    apply (publish_wait_reply _ _ _ _ id1 _ _ _ m w (ping_timer (s_c s)) Hwait); try done.
    by destruct s as [? [] ? ?].
  - destruct (Z.eqb_spec qos 2) as [->|N2].
    2:{ exists s. rewrite app_nil_r. done. }
    rewrite <- app_assoc in Hin.
    destruct (cycle_pubrec_reply stack (S fuel) timer s id1 _ Hid1 Hin Hrb Hsb Hexp Hka) as
      (m1 & t & w1 & Hc & _ & Hr1 & Hi1 & Ho1 & Hnp1).
    set (s1 := mkSt m1 (set_ping_timer t (s_c s)) w1 (s_log s)) in *.
    destruct (waitfor_loop_reply stack fuel timer s1 (header PUBCOMP 0 0 0) (be16 id2) rest PUBCOMP PUBREC) as
      (m & w & Hwait & Hat & _ & Hi & Ho); try done.
    exists (mkSt m (set_ping_timer t (s_c s)) w (s_log s)). cbn [s_w s_log s_c]. split_and!; try done.
    2:{ rewrite Ho. cbn [s1 s_w]. by rewrite Ho1. }
    apply (publish_wait_reply _ _ _ _ id2 _ _ _ m w t); try done.
    unfold waitfor. cbn [waitfor_loop]. step (on_w_pure _ s _ (expired_law timer (s_w s))). rewrite Hexp.
    step Hc. change (PUBREC =? PUBCOMP) with false. cbn [negb]. exact Hwait.
Qed.
(** The message to publish stands for the packet [p] with the identifier it will get. *)
Definition message_for (s : st) (topicName : ptr) (message : MQTTMessage) (p : publish) : Prop :=
  pb_dup p = 0 /\ pb_qos p = m_qos message /\ pb_retain p = m_retained message /\
  pb_id p = (if 0 <? m_qos message then next_id (next_packetid (s_c s)) else m_id message) /\
  m_payloadlen message = Z.of_nat (length (pb_payload p)) /\
  exists q, m_payload message = Some q /\ publish_args (s_mem s) (p_blk (c_buf (s_c s))) p (cstring_topic topicName) q.

Lemma publish_id_spec s topicName message p :
  1 <= next_packetid (s_c s) <= 65535 -> wf_publish p -> pb_qos p <= 2 -> message_for s topicName message p ->
  exists msg, publish_id message s = Some (msg, mkSt (s_mem s)
      (if 0 <? pb_qos p then set_next_packetid (pb_id p) (s_c s) else s_c s) (s_w s) (s_log s)) /\
    m_qos msg = pb_qos p /\ m_retained msg = pb_retain p /\ m_id msg = pb_id p /\
    m_payload msg = m_payload message /\ m_payloadlen msg = m_payloadlen message.
Proof.
  intros Hnid (_ & Hqw & _) Hq (_ & Eq & Er & Eid & _). pose proof (next_id_range _ Hnid) as Hr'.
  unfold publish_id, QOS1, QOS2. rewrite Er. rewrite <- Eq in Eid |- *. destruct (Z.ltb_spec 0 (pb_qos p)).
  - replace ((pb_qos p =? 1) || (pb_qos p =? 2)) with true by lia. eexists. split.
    { step (getNextPacketId_spec s Hnid). rewrite to_ushort_id by lia. by rewrite <- Eid. }
    by split_and!.
  - replace ((pb_qos p =? 1) || (pb_qos p =? 2)) with false by lia. exists message. split; [by destruct s|]. by split_and!.
Qed.

(** [MQTTPublish] end to end: it sends exactly one PUBLISH with DUP 0 and, from QoS 1
    on, the next packet identifier, which it also stores in the message; with PUBACK
    next on the connection (QoS 1), or PUBREC and PUBCOMP (QoS 2, the PUBREC being
    answered with its PUBREL), it returns SUCCESS with those packets consumed.  The
    identifiers of the acknowledgements are not compared with that of the PUBLISH. *)
Theorem MQTTPublish_spec stack fuel s topicName message p t id1 id2 rest :
  isconnected (s_c s) <> 0 -> 0 < command_timeout_ms (s_c s) -> 1 <= next_packetid (s_c s) <= 65535 ->
  0 <= keepAliveInterval_ (s_c s) -> wf_publish p -> pb_qos p <= 2 -> message_for s topicName message p ->
  MQTTPacket_len (Z.of_nat (length (publish_body p))) = Some t -> sendbuf_ok s t -> sendbuf_ok s 4 -> readbuf_ok s 4 ->
  0 <= id1 < 65536 -> 0 <= id2 < 65536 -> incoming (s_w s) = publish_replies (pb_qos p) id1 id2 ++ rest ->
  exists msg s', MQTTPublish stack (S (S fuel)) topicName message s = Some ((SUCCESS, msg), s') /\
    m_id msg = pb_id p /\ incoming (s_w s') = rest /\
    outgoing (s_w s') = outgoing (s_w s) ++ publish_sends p id1 /\
    next_packetid (s_c s') = (if 0 <? pb_qos p then pb_id p else next_packetid (s_c s)) /\ s_log s' = s_log s.
Proof.
  intros Hcon Hms Hnid Hka Hwf Hq2 Hmsg Ht [Hsr Hsb] [Hsr4 Hsb4] [Hrr Hblk] Hid1 Hid2 Hin.
  pose proof (length_enc_publish_le p t Hwf Ht) as Hlen. pose proof Hwf as (_ & Hqw & _ & _ & _ & Hsm).
  destruct (MQTTPacket_len_spec _ (conj (Nat2Z.is_nonneg _) Hsm)) as (t' & Ht' & Hle). assert (t' = t) as -> by congruence.
  destruct (command_timer_spec s Hms) as (timer & Htm & Hexp).
  set (c1 := if 0 <? pb_qos p then set_next_packetid (pb_id p) (s_c s) else s_c s).
  destruct (publish_id_spec s topicName message p Hnid Hwf Hq2 Hmsg) as (msg & Hnext & Em1 & Em2 & Em3 & Em4 & Em5).
  destruct Hmsg as (Ed & Eq & Er & Eid & El & q & Ep & Ha).
  set (s1 := mkSt (s_mem s) c1 (s_w s) (s_log s)) in *.
  assert (Hc1 : c_buf c1 = c_buf (s_c s) /\ c_readbuf c1 = c_readbuf (s_c s) /\ buf_size c1 = buf_size (s_c s) /\
    keepAliveInterval_ c1 = keepAliveInterval_ (s_c s)) by (unfold c1; destruct (0 <? pb_qos p); by split_and!).
  destruct Hc1 as (Ec1 & Ec2 & Ec3 & Ec4).
  destruct (serialize_send (S fuel) (MQTTSerialize_publish (c_buf (s_c s)) (to_int (buf_size (s_c s))) 0 (pb_qos p)
      (pb_retain p) (pb_id p) (cstring_topic topicName) q (Z.of_nat (length (pb_payload p))))
    (enc_publish p) timer s1) as (m2 & t2 & w2 & Hser & Hsend & Hag2 & Hi2 & Ho2 & Hnp & Hroom2); try done.
  { cbn [s1 s_mem s_c]. rewrite Ec1, to_int_id, <- Ed, (MQTTSerialize_publish_spec _ _ _ p _ _ t) by (try done; unfold INT_MIN; lia).
    by destruct (Z.leb_spec t (buf_size (s_c s))); [|lia]. }
  { cbn [s1 s_mem s_c]. rewrite Ec1. eapply room_le; [exact Hsr|lia]. }
  { unfold INT_MAX. lia. }
  cbn [s1 s_c s_mem s_w s_log] in *. rewrite Ec1, Ec4 in *.
  set (s2 := mkSt m2 (set_ping_timer t2 c1) w2 (s_log s)) in *.
  destruct (publish_handshake stack fuel timer s2 (pb_qos p) id1 id2 rest) as (s' & Hhs & Hi' & Ho' & Hl' & Hn'); try done.
  { lia. }
  { cbn [s2 s_w]. by rewrite Hi2. }
  { split; cbn [s2 s_mem s_c set_ping_timer c_readbuf c_buf]; rewrite Ec2, ?Ec1; [|done].
    by apply Hroom2. }
  { split; cbn [s2 s_mem s_c set_ping_timer c_buf buf_size]; rewrite ?Ec1, ?Ec3; [by apply Hroom2|done]. }
  { cbn. lia. }
  { apply Hnp. lia. }
  assert (Hpl : Z.of_nat (length (pb_payload p)) <= INT_MAX).
  { rewrite length_publish_body in Hsm. unfold INT_MAX. destruct (0 <? pb_qos p); lia. }
  exists msg, s'. split_and!; try done.
  - unfold MQTTPublish. step (get_c_Some s). destruct (Z.eqb_spec (isconnected (s_c s)) 0); [done|]. step Htm. step Hnext.
    rewrite Em1, Em2, Em3, Em4, Em5, Ep. erewrite M_bind_lift by done. rewrite El, (to_int_id (Z.of_nat _)) by (unfold INT_MIN; lia).
    step Hser. rewrite nonempty_leb by done. step Hsend. change (SUCCESS =? SUCCESS) with true. cbn [negb]. by step Hhs.
  - unfold publish_sends. rewrite Ho'. cbn [s2 s_w]. by rewrite Ho2, app_assoc.
  - rewrite Hn'. cbn [s2 s_c]. unfold c1. by destruct (0 <? pb_qos p).
Qed.
(** Serializing a request, sending it and waiting for its reply. *)
Lemma request_reply stack fuel (ser : M mem Z) bs timer s h body rest k :
  ser (s_mem s) = stored (s_mem s) (c_buf (s_c s)) bs -> bs <> [] ->
  room (s_mem s) (c_buf (s_c s)) (Z.of_nat (length bs)) -> Z.of_nat (length bs) <= INT_MAX ->
  expired timer = false -> 0 <= keepAliveInterval_ (s_c s) ->
  hdr_type h = k -> 0 <= k < 16 -> k <> PUBLISH -> k <> PUBREC -> k <> PINGRESP ->
  incoming (s_w s) = packet h body ++ rest -> Z.of_nat (length body) < 268435456 ->
  room (s_mem s) (c_readbuf (s_c s)) (Z.of_nat (length (packet h body))) ->
  exists s1 s2 t w,
    on_mem ser s = Some (Z.of_nat (length bs), s1) /\
    sendPacket (S fuel) (Z.of_nat (length bs)) timer s1 = Some (SUCCESS, s2) /\
    exists m3, waitfor stack (S fuel) k timer s2 = Some (k, mkSt m3 (set_ping_timer t (s_c s)) w (s_log s)) /\
    at_bytes m3 (c_readbuf (s_c s)) (packet h body) /\
    incoming w = rest /\ outgoing w = outgoing (s_w s) ++ bs.
Proof.
  intros Hser Hne Hr Hmax Hexp Hka Hh Hk N1 N2 N3 Hin Hl Hrr.
  destruct (serialize_send fuel ser bs timer s) as (m2 & t2 & w2 & Hs & Hsend & Hag2 & Hi2 & Ho2 & Hnp & Hroom2); try done.
  set (s2 := mkSt m2 (set_ping_timer t2 (s_c s)) w2 (s_log s)) in *.
  destruct (waitfor_loop_reply stack fuel timer s2 h body rest k FAILURE) as (m3 & w3 & Hwait & Hat & Hag & Hi & Ho); try done.
  { cbn [s2 s_w]. by rewrite Hi2. }
  { by apply Hroom2. }
  { by apply Hnp. }
  exists (mkSt m2 (s_c s) (s_w s) (s_log s)), s2, t2, w3. split; [done|]. split; [done|].
  exists m3. split_and!; try done. rewrite Ho. cbn [s2 s_w]. by rewrite Ho2.
Qed.

(** The client after [getNextPacketId]. *)
Definition numbered (s : st) : st :=
  mkSt (s_mem s) (set_next_packetid (next_id (next_packetid (s_c s))) (s_c s)) (s_w s) (s_log s).

(** The index of the first slot without a filter. *)
Definition first_free (hs : list MessageHandlers) : option nat :=
  fst <$> list_find (fun h => topicFilter h = None) hs.

Lemma add_handler_spec hs h : add_handler hs h = (fun i => <[i := h]> hs) <$> first_free hs.
Proof.
  unfold first_free. induction hs as [|h0 hs IH]; [done|]. cbn [add_handler list_find].
  destruct (topicFilter h0) as [f|] eqn:E; [rewrite decide_False by done|by rewrite decide_True].
  rewrite IH. by destruct (list_find _ hs) as [[]|].
Qed.

(** [MQTTSubscribe] end to end: it sends exactly the SUBSCRIBE of the filter with the
    next packet identifier; with a SUBACK next on the connection, its code decides: 128,
    where [char] is unsigned, is returned and leaves the handlers alone, and any other
    puts the handler into the first free slot and returns 0, or returns the code if no
    slot is free.  Where [char] is signed the failure code 128 arrives as -128: a
    refused subscription is stored and reported as a success. *)
Theorem MQTTSubscribe_spec stack fuel s f qos h topic t id' code rest :
  let id := next_id (next_packetid (s_c s)) in
  let r := to_char code in
  isconnected (s_c s) <> 0 -> 0 < command_timeout_ms (s_c s) -> 1 <= next_packetid (s_c s) <= 65535 ->
  0 <= keepAliveInterval_ (s_c s) -> wf_subscribe 0 id [(topic, qos)] ->
  subscribe_args (s_mem s) (p_blk (c_buf (s_c s))) [cstring_topic f] [qos] [(topic, qos)] ->
  MQTTPacket_len (Z.of_nat (length (subscribe_body id [(topic, qos)]))) = Some t -> sendbuf_ok s t -> readbuf_ok s 5 ->
  0 <= id' < 65536 -> byte code -> incoming (s_w s) = enc_suback id' [code] ++ rest ->
  exists rc s', MQTTSubscribe stack (S fuel) f qos h s = Some (rc, s') /\
    (rc, messageHandlers (s_c s')) =
      (if r =? 128 then (128, messageHandlers (s_c s)) else
       match first_free (messageHandlers (s_c s)) with
       | Some i => (0, <[i := mkHandler (Some f) h]> (messageHandlers (s_c s)))
       | None => (r, messageHandlers (s_c s)) end) /\
    incoming (s_w s') = rest /\ outgoing (s_w s') = outgoing (s_w s) ++ enc_subscribe 0 id [(topic, qos)] /\
    next_packetid (s_c s') = id /\ s_log s' = s_log s.
Proof.
  intros id r Hcon Hms Hnid Hka Hwf Ha Ht [Hsr Hsb] [Hrr Hblk] Hid' Hcode Hin.
  pose proof (next_id_range _ Hnid) as Hid. fold id in Hid. pose proof Hwf as (_ & _ & _ & Hsm).
  destruct (MQTTPacket_len_spec _ (conj (Nat2Z.is_nonneg _) Hsm)) as (t' & Ht' & Hle). assert (t' = t) as -> by congruence.
  assert (Hlen : Z.of_nat (length (enc_subscribe 0 id [(topic, qos)])) <= t).
  { unfold enc_subscribe. rewrite length_packet. lia. }
  destruct (command_timer_spec s Hms) as (timer & Htm & Hexp).
  destruct (request_reply stack fuel (MQTTSerialize_subscribe (c_buf (s_c s)) (to_int (buf_size (s_c s))) 0 id 1
      [cstring_topic f] [qos]) (enc_subscribe 0 id [(topic, qos)]) timer (numbered s) (header 9 0 0 0)
      (be16 id' ++ [code]) rest SUBACK) as (s1 & s2 & t2 & w & Hser & Hsend & m3 & Hwait & Hat & Hi & Ho); try done.
  { rewrite to_int_id by (unfold INT_MIN; lia). cbn [numbered s_mem s_c set_next_packetid c_buf].
    rewrite (MQTTSerialize_subscribe_spec (s_mem s) _ _ 0 id _ _ [(topic, qos)] t) by done.
    by destruct (Z.leb_spec t (buf_size (s_c s))); [|lia]. }
  { eapply room_le; [exact Hsr|lia]. }
  { unfold INT_MAX. lia. }
  set (s3 := mkSt m3 (set_ping_timer t2 (s_c (numbered s))) w (s_log s)) in *.
  unfold MQTTSubscribe. step (get_c_Some s). destruct (Z.eqb_spec (isconnected (s_c s)) 0); [done|]. step Htm.
  step (getNextPacketId_spec s Hnid). fold id. rewrite to_ushort_id by lia. step Hser.
  rewrite nonempty_leb by done. step Hsend. change (SUCCESS =? SUCCESS) with true. cbn [negb]. step Hwait.
  change (SUBACK =? SUBACK) with true. cbv iota. step (on_mem_get s3).
  rewrite (M_bind_lift _ _ _ (1, mkSubackOut id' 1 [r])); cycle 1.
  { apply (suback_maxcount m3 (mkSubackOut (po_packetid stack) 0 [-1]) 1 _ _ id' [code]); done. }
  cbn beta iota. change (1 =? 1) with true. cbv iota. cbn [so_grantedQoSs].
  rewrite (M_bind_Some (lift _) _ _ r s3) by (unfold lift; by rewrite (arr_get_in [r] 0 r)). cbn beta iota.
  destruct (Z.eqb_spec r 128) as [E|E]; cbn [negb].
  { exists r, s3. rewrite E. by split_and!. }
  step (get_c_Some s3). change (messageHandlers (s_c s3)) with (messageHandlers (s_c s)). rewrite add_handler_spec.
  destruct (first_free (messageHandlers (s_c s))) as [i|]; cbn [fmap option_fmap option_map].
  - eexists _, _. split; [done|]. by split_and!.
  - exists r, s3. by split_and!.
Qed.

(** [MQTTUnsubscribe] end to end: it sends exactly the UNSUBSCRIBE of the filter with
    the next packet identifier and with an UNSUBACK next on the connection returns 0;
    the table of message handlers stays as it is, so the handler of the filter
    remains registered. *)
Theorem MQTTUnsubscribe_spec stack fuel s f topic t id' rest :
  let id := next_id (next_packetid (s_c s)) in
  isconnected (s_c s) <> 0 -> 0 < command_timeout_ms (s_c s) -> 1 <= next_packetid (s_c s) <= 65535 ->
  0 <= keepAliveInterval_ (s_c s) -> wf_unsubscribe 0 id [topic] ->
  unsubscribe_args (s_mem s) (p_blk (c_buf (s_c s))) [cstring_topic f] [topic] ->
  MQTTPacket_len (Z.of_nat (length (unsubscribe_body id [topic]))) = Some t -> sendbuf_ok s t -> readbuf_ok s 4 ->
  0 <= id' < 65536 -> incoming (s_w s) = enc_ack UNSUBACK 0 id' ++ rest ->
  exists s', MQTTUnsubscribe stack (S fuel) f s = Some (0, s') /\
    incoming (s_w s') = rest /\ outgoing (s_w s') = outgoing (s_w s) ++ enc_unsubscribe 0 id [topic] /\
    messageHandlers (s_c s') = messageHandlers (s_c s) /\ next_packetid (s_c s') = id /\ s_log s' = s_log s.
Proof.
  intros id Hcon Hms Hnid Hka Hwf Ha Ht [Hsr Hsb] [Hrr Hblk] Hid' Hin.
  pose proof (next_id_range _ Hnid) as Hid. fold id in Hid. pose proof Hwf as (_ & _ & _ & Hsm).
  destruct (MQTTPacket_len_spec _ (conj (Nat2Z.is_nonneg _) Hsm)) as (t' & Ht' & Hle). assert (t' = t) as -> by congruence.
  assert (Hlen : Z.of_nat (length (enc_unsubscribe 0 id [topic])) <= t).
  { unfold enc_unsubscribe. rewrite length_packet. lia. }
  destruct (command_timer_spec s Hms) as (timer & Htm & Hexp).
  destruct (request_reply stack fuel (MQTTSerialize_unsubscribe (c_buf (s_c s)) (to_int (buf_size (s_c s))) 0 id 1
      [cstring_topic f]) (enc_unsubscribe 0 id [topic]) timer (numbered s) (header 11 0 0 0)
      (be16 id') rest UNSUBACK) as (s1 & s2 & t2 & w & Hser & Hsend & m3 & Hwait & Hat & Hi & Ho); try done.
  { rewrite to_int_id by (unfold INT_MIN; lia). cbn [numbered s_mem s_c set_next_packetid c_buf].
    rewrite (MQTTSerialize_unsubscribe_spec (s_mem s) _ _ 0 id _ [topic] t) by done.
    by destruct (Z.leb_spec t (buf_size (s_c s))); [|lia]. }
  { eapply room_le; [exact Hsr|lia]. }
  { unfold INT_MAX. lia. }
  set (s3 := mkSt m3 (set_ping_timer t2 (s_c (numbered s))) w (s_log s)) in *.
  unfold MQTTUnsubscribe. step (get_c_Some s). destruct (Z.eqb_spec (isconnected (s_c s)) 0); [done|]. step Htm.
  step (getNextPacketId_spec s Hnid). fold id. rewrite to_ushort_id by lia. step Hser.
  rewrite nonempty_leb by done. step Hsend. change (SUCCESS =? SUCCESS) with true. cbn [negb]. step Hwait.
  change (UNSUBACK =? UNSUBACK) with true. cbv iota. step (on_mem_get s3).
  rewrite (M_bind_lift _ _ _ (1, id')); cycle 1.
  { unfold MQTTDeserialize_unsuback. by rewrite (MQTTDeserialize_ack_spec _ _ _ _ 11 0 id') by (try done; lia). }
  exists s3. by split_and!.
Qed.
End Commands.

(** ** Faults *)
Section Faults.
Context `{CharAbi}.

(** [readPacket] stores whatever remaining length the peer announces, without looking
    at [readbuf_size]: a packet that does not fit the read buffer is written past its
    end. *)
Theorem readPacket_overrun `{IdealPlatform} timer s h body rest blk :
  incoming (s_w s) = packet h body ++ rest -> Z.of_nat (length body) < 268435456 ->
  s_mem s !! p_blk (c_readbuf (s_c s)) = Some blk ->
  Z.of_nat (length blk) < p_off (c_readbuf (s_c s)) + Z.of_nat (length (packet h body)) ->
  readPacket timer s = None.
Proof.
  intros Hp Hl Hb Ho. set (L := Z.of_nat (length body)) in *. set (p := c_readbuf (s_c s)) in *.
  assert (Hs : store_bytes (s_mem s) p ([h] ++ varint L ++ body) = None) by by eapply store_bytes_overrun.
  rewrite store_bytes_app_eq in Hs. change (Z.of_nat (length [h])) with 1 in Hs.
  unfold packet in Hp. fold L in Hp. change (h :: varint L ++ body) with ([h] ++ varint L ++ body) in Hp.
  destruct (left_law timer (s_w s)) as (ms & Hms).
  destruct (read_law 1 ms (s_w s)) as (w1 & Hr1 & Hi1 & Ho1); [rewrite Hp; simpl; lia|].
  rewrite Hp in Hr1, Hi1. change (Z.to_nat 1) with 1%nat in *. cbn [take drop app] in Hr1, Hi1. rewrite take_0 in Hr1.
  unfold readPacket. step (get_c_Some s). step (on_w_pure _ s _ Hms). fold p.
  destruct (store_bytes (s_mem s) p [h]) as [m1|] eqn:Hs1.
  2:{ apply M_bind_None. unfold net_read. step (on_w_Some _ s _ _ Hr1). cbn [snd fst].
      apply M_bind_None. unfold on_mem, stores. cbn [s_mem]. by rewrite Hs1. }
  cbn [mbind option_bind] in Hs. rewrite store_bytes_app_eq, padd_padd in Hs.
  step (net_read_Some p 1 ms s [h] w1 m1 Hr1 Hs1). change (1 =? 1) with true. cbn [negb].
  rewrite <- app_assoc in Hi1. destruct (left_law timer w1) as (ms1 & Hms1).
  destruct (ideal_delivers ms1 (varint L) w1 (body ++ rest) Hi1) as (w2 & Hd & Hi2 & Ho2).
  erewrite M_bind_Some by (apply on_w_pure; cbn [s_w]; exact Hms1). unfold decodePacket.
  erewrite M_bind_Some by (apply on_w_Some, (MQTTPacket_decode_varint _ L); [unfold L; lia|exact Hd]).
  cbn beta iota. cbn [s_mem s_c s_w s_log].
  assert (Henc : MQTTPacket_encode (padd p 1) L m1 =
    m' ← store_bytes m1 (padd p 1) (varint L); Some (0 + Z.of_nat (length (varint L)), m')).
  { unfold MQTTPacket_encode. rewrite encode_loop_stores by (unfold L; simpl; lia). by rewrite padd_0. }
  destruct (store_bytes m1 (padd p 1) (varint L)) as [m2|] eqn:Hs2.
  2:{ apply M_bind_None. unfold on_mem. cbn [s_mem]. by rewrite Henc. }
  cbn [mbind option_bind] in Hs, Henc. erewrite M_bind_Some by (apply on_mem_Some; exact Henc).
  cbv zeta. cbn [s_c s_w s_log]. rewrite Z.add_0_l.
  destruct (Z.ltb_spec 0 L) as [HL|HL]; [|by destruct body; [|unfold L in HL; simpl in HL; lia]].
  destruct (left_law timer w2) as (ms2 & Hms2).
  destruct (read_law L ms2 w2) as (w3 & Hr3 & _); [rewrite Hi2, length_app; unfold L; lia|].
  unfold L in Hr3. rewrite Nat2Z.id, Hi2, take_app_length in Hr3. fold L in Hr3.
  apply M_bind_None. erewrite M_bind_Some by (apply on_w_pure; cbn [s_w]; exact Hms2).
  apply M_bind_None. unfold net_read. erewrite M_bind_Some by (apply on_w_Some; exact Hr3). cbn [snd fst].
  apply M_bind_None. unfold on_mem, stores. cbn [s_mem]. by rewrite Hs.
Qed.
(** A lost connection is not reported: when the read of the first byte fails, [cycle]
    takes the FAILURE of [readPacket], as an [unsigned short], for a packet type and
    returns it as 65535, so [MQTTYield] returns SUCCESS when its time is up. *)
Theorem yield_hides_read_failure `{Platform} stack fuel s timeout t w0 ms w1 r w2 w3 :
  TimerCountdownMS TimerInit (to_uint timeout) (s_w s) = Some (t, w0) ->
  TimerLeftMS t w0 = Some (ms, w1) -> mqttread 1 ms w1 = Some ((r, []), w2) -> r <> 1 ->
  keepAliveInterval_ (s_c s) = 0 -> TimerIsExpired t w2 = Some (true, w3) ->
  cycle stack (S fuel) t (mkSt (s_mem s) (s_c s) w0 (s_log s)) = Some (65535, mkSt (s_mem s) (s_c s) w2 (s_log s)) /\
  MQTTYield stack (S fuel) timeout s = Some (SUCCESS, mkSt (s_mem s) (s_c s) w3 (s_log s)).
Proof.
  intros Ht Hms Hr Hne Hka Hex.
  assert (Hc : cycle stack (S fuel) t (mkSt (s_mem s) (s_c s) w0 (s_log s)) =
    Some (65535, mkSt (s_mem s) (s_c s) w2 (s_log s))).
  { unfold cycle. rewrite (M_bind_Some _ _ _ FAILURE (mkSt (s_mem s) (s_c s) w2 (s_log s))).
    - cbn beta iota. change (to_ushort FAILURE) with 65535. change (65535 =? PUBLISH) with false.
      change (65535 =? PUBREC) with false. change (65535 =? PINGRESP) with false. cbv iota.
      erewrite M_bind_Some by done. cbn beta iota. unfold keepalive. erewrite M_bind_Some.
      2:{ erewrite M_bind_Some by done. cbn beta iota. cbn [s_c]. rewrite Hka. done. }
      done.
    - unfold readPacket. erewrite M_bind_Some by done. cbn beta iota.
      erewrite M_bind_Some by (apply on_w_Some; exact Hms). unfold net_read.
      erewrite M_bind_Some.
      2:{ erewrite M_bind_Some by (apply on_w_Some; exact Hr). cbn [snd fst].
          erewrite M_bind_Some by (apply on_mem_Some; done). done. }
      cbn beta iota. by destruct (Z.eqb_spec r 1). }
  split; [done|]. unfold MQTTYield. step (on_w_Some _ s _ _ Ht). cbn [yield_loop]. step Hc.
  change (65535 =? FAILURE) with false. cbv iota. by erewrite M_bind_Some by (apply on_w_Some; exact Hex).
Qed.

(** After a short write [sendPacket] offers [length] bytes again, from where the first
    write ended: when the platform takes them, the peer gets [k] bytes that lie behind
    the packet, and [sendPacket] returns FAILURE. *)
Theorem sendPacket_short_write `{Platform} fuel n k timer s bs bs' ms w1 w2 :
  (forall w, TimerIsExpired timer w = Some (false, w)) -> (forall w, TimerLeftMS timer w = Some (ms, w)) ->
  0 < k < n -> k + n <= INT_MAX ->
  load_bytes (s_mem s) (c_buf (s_c s)) n = Some bs -> load_bytes (s_mem s) (padd (c_buf (s_c s)) k) n = Some bs' ->
  mqttwrite bs ms (s_w s) = Some (k, w1) -> mqttwrite bs' ms w1 = Some (n, w2) ->
  sendPacket (S (S fuel)) n timer s = Some (FAILURE, mkSt (s_mem s) (s_c s) w2 (s_log s)).
Proof.
  intros Hex Hms Hk Hn Hbs Hbs' Hw1 Hw2.
  assert (Hstep : forall fuel sent s0 bs0 r w', 0 <= sent < n -> sent + r <= INT_MAX -> 0 <= r ->
    load_bytes (s_mem s0) (padd (c_buf (s_c s0)) sent) n = Some bs0 -> mqttwrite bs0 ms (s_w s0) = Some (r, w') ->
    send_loop (S fuel) n sent timer s0 = send_loop fuel n (sent + r) timer (mkSt (s_mem s0) (s_c s0) w' (s_log s0))).
  { clear -Hex Hms. intros fuel sent s0 bs0 r w' Hs Hr Hr0 Hb Hw. cbn [send_loop].
    destruct (Z.ltb_spec sent n); [|lia]. cbn [negb]. step (on_w_pure _ s0 _ (Hex (s_w s0))).
    step (get_c_Some s0). step (on_w_pure _ s0 _ (Hms (s_w s0))). step (on_mem_get s0).
    erewrite M_bind_lift by exact Hb. step (on_w_Some _ s0 _ _ Hw). destruct (Z.ltb_spec r 0); [lia|].
    by rewrite (M_bind_lift _ _ _ (sent + r)) by (apply cint_ok; unfold INT_MIN; lia). }
  unfold sendPacket. rewrite (M_bind_Some _ _ _ (k + n) (mkSt (s_mem s) (s_c s) w2 (s_log s))).
  - destruct (Z.eqb_spec (k + n) n); [lia|done].
  - rewrite (Hstep _ 0 s bs k w1) by (rewrite ?padd_0; done || lia).
    rewrite Z.add_0_l, (Hstep _ k _ bs' n w2) by (done || lia). destruct fuel; cbn [send_loop];
      destruct (Z.ltb_spec (k + n) n); try lia; done.
Qed.
End Faults.

(** ** Concrete instances *)

(** One that takes a single byte with its first write. *)
Definition slow : Platform := {|
  W := list Z;
  Timer := bool;
  TimerInit := false;
  TimerIsExpired t w := Some (t, w);
  TimerCountdownMS _ ms w := Some (ms <=? 0, w);
  TimerCountdown _ s w := Some (s <=? 0, w);
  TimerLeftMS t w := Some (if t then 0 else 1, w);
  mqttread _ _ w := Some ((0, []), w);
  mqttwrite bs _ w :=
    match w with [] => Some (1, take 1 bs) | _ => Some (Z.of_nat (length bs), w ++ bs) end
|}.

#[local] Existing Instance sim_ideal.
#[local] Existing Instance x86_abi.

Definition ex_cmem : mem := <[2%nat := replicate 64 0]> ex_mem.
Definition ex_readbuf : ptr := Ptr 2 0.
Definition ex_handlers : list MessageHandlers :=
  mkHandler (Some ex_topic) (Some 7%nat) :: replicate 4 (mkHandler None None).
Definition ex_client (conn : Z) : @MQTTClient sim :=
  @mkClient sim 65535 1000 64 64 ex_buf ex_readbuf 60 0 conn ex_handlers None false.
Definition ex_st (conn : Z) (inp : list Z) : @st sim := @mkSt sim ex_cmem (ex_client conn) (inp, []) [].

Lemma ex_readbuf_ok conn inp n : n <= 64 -> readbuf_ok (ex_st conn inp) n.
Proof. intros. split; [exists (replicate 64 0)|done]. split_and!; [done|done|simpl; lia]. Qed.

Lemma ex_st_sendbuf conn inp n : n <= 64 -> sendbuf_ok (ex_st conn inp) n.
Proof. intros. split; [exists (replicate 64 0); split_and!; [done|done|simpl; lia]|split; [done|unfold INT_MAX; simpl; lia]]. Qed.

Lemma ex_handlers_ok : handlers_ok ex_cmem 2 ex_handlers.
Proof.
  repeat (apply Forall_cons; split; [intros f Hf; simplify_eq/=|]); [|apply Forall_nil; done].
  split; [done|]. exists [116; 47; 97]. split; [|done]. split; [by vm_compute|]. repeat constructor; lia.
Qed.

Lemma packet_ids_witness :
  exists id s', Nat.iter 3 (fun st_ => '(_, s) ← st_; getNextPacketId s) (Some (65535, ex_st 1 [])) = Some (id, s') /\
    id = 3.
Proof.
  destruct (packet_ids 3 (ex_st 1 []) 65535 eq_refl) as (id & s' & He & Hid & _); [lia|].
  exists id, s'. split; [exact He|exact Hid].
Defined.

(** The topic "t/a" as the reader hands it out. *)
Definition ex_name : MQTTString := mkMQTTString None 3 (Some ex_topic).

Definition ex_message (qos : Z) : MQTTMessage := mkMessage qos 0 0 9 (Some ex_payload) 3.

Lemma deliverMessage_spec_witness :
  deliverMessage ex_name (ex_message 0) (ex_st 1 []) =
    Some (SUCCESS, add_log [mkCall 7 ex_name (ex_message 0) ex_cmem] (ex_st 1 [])).
Proof.
  destruct (deliverMessage_spec (ex_st 1 []) 2 ex_name [116; 47; 97] (ex_message 0)) as (l & rc & He & Hrc & _ & Hl & _).
  - done.
  - exact ex_handlers_ok.
  - split_and!; [split; [done|right]; exists ex_topic; split; [done|by vm_compute]|done|done|done].
  - rewrite He. rewrite Hl in Hrc |- * by done. by destruct Hrc as [[-> _]|[_ ?]].
Defined.

Definition ex_pub (qos : Z) : publish := mkPublish 0 qos 0 1 [116; 47; 97] [104; 105; 33].

Lemma ex_wf_pub : wf_publish (ex_pub 1) /\ wf_publish (ex_pub 2).
Proof. unfold wf_publish, short. splits; by vm_compute. Qed.

Definition ex_timer : @Timer sim := false.

Definition ex_subscriptions : list subscription := (Some [116; 47; 97], Some 7%nat) :: replicate 4 (None, None).

Lemma ex_cstr : cstr ex_cmem ex_topic [116; 47; 97].
Proof. split; [by vm_compute|]. repeat constructor; lia. Qed.

Lemma ex_table : table_is ex_cmem 2 ex_handlers ex_subscriptions.
Proof. repeat constructor. exists ex_topic. split_and!; [done|done|exact ex_cstr|done]. Qed.

(** The one subscriber is called, and sees topic and payload. *)
Lemma cycle_delivers_witness :
  exists m x msg s',
    cycle ex_out 1 ex_timer (ex_st 1 (enc_publish (ex_pub 1) ++ [208; 0])) = Some (3, s') /\
    message_den m x msg (ex_pub 1) /\ s_log s' = [mkCall 7 x msg m] /\
    s_w s' = ([208; 0], enc_ack PUBACK 0 1).
Proof.
  destruct (cycle_delivers ex_out 0 ex_timer (ex_st 1 (enc_publish (ex_pub 1) ++ [208; 0])) (ex_pub 1) [208; 0] ex_subscriptions)
    as (m & x & msg & s' & He & Hlog & Hden & _ & _ & _ & Hin & Hout).
  - apply ex_wf_pub.
  - done.
  - done.
  - exists (replicate 64 0). split_and!; [done|done|simpl; lia].
  - done.
  - exact ex_table.
  - by apply ex_st_sendbuf.
  - done.
  - done.
  - done.
  - by right.
  - exists m, x, msg, s'. split_and!; [exact He|exact Hden|exact Hlog|].
    destruct (s_w s') as [i o]. cbn in Hin, Hout. by subst.
Defined.

Lemma ex_topic_arg : mstr_in ex_cmem 0 (cstring_topic ex_topic) [116; 47; 97].
Proof. split; [split; [exact ex_cstr|done]|]. split; intros p Hp; simpl in Hp; [by injection Hp as <-|done]. Qed.

Lemma ex_user_arg : mstr_in ex_cmem 0 (mkMQTTString None 3 (Some ex_payload)) [104; 105; 33].
Proof.
  split; [split; [done|]; right; exists ex_payload; split; [done|by vm_compute]|].
  split; intros p Hp; simpl in Hp; [done|by injection Hp as <-].
Qed.

(** The state [s'] has the connection at [i], with [o] written to it. *)
Ltac ends s' := exists s'; split; [eassumption|]; destruct (s_w s') as [i o]; cbn in *; by subst.

Lemma MQTTConnect_spec_witness :
  exists s', MQTTConnect ex_out 1 (Some (ex_options 4)) (ex_st 0 (enc_connack 0 0)) = Some (0, s') /\
    s_w s' = ([], enc_connect (ex_connect 4)).
Proof.
  destruct (MQTTConnect_spec ex_out 0 (ex_st 0 (enc_connack 0 0)) (ex_options 4) (ex_connect 4) 22 0 0 [])
    as (s' & He & Hin & Hout & _).
  - done.
  - done.
  - by apply ex_wf_connect; right.
  - split; [done|].
    exact (conj eq_refl (conj eq_refl (conj ex_topic_arg (conj eq_refl (conj (conj eq_refl ex_user_arg) eq_refl))))).
  - by vm_compute.
  - by apply ex_st_sendbuf.
  - by apply ex_readbuf_ok.
  - done.
  - done.
  - done.
  - ends s'.
Defined.

Lemma MQTTPublish_spec_witness :
  exists msg s', MQTTPublish ex_out 2 ex_topic (ex_message 2)
      (ex_st 1 (enc_ack PUBREC 0 1 ++ enc_ack PUBCOMP 0 1)) = Some ((SUCCESS, msg), s') /\
    s_w s' = ([], enc_publish (ex_pub 2) ++ enc_ack PUBREL 0 1).
Proof.
  destruct (MQTTPublish_spec ex_out 0 (ex_st 1 (enc_ack PUBREC 0 1 ++ enc_ack PUBCOMP 0 1)) ex_topic (ex_message 2)
    (ex_pub 2) 12 1 1 []) as (msg & s' & He & _ & Hin & Hout & _).
  - done.
  - done.
  - done.
  - done.
  - apply ex_wf_pub.
  - done.
  - split_and!; try done. exists ex_payload. split; [done|].
    split; [apply ex_topic_arg|]. split; [apply ex_topic_arg|]. by split; [vm_compute|].
  - by vm_compute.
  - by apply ex_st_sendbuf.
  - by apply ex_st_sendbuf.
  - by apply ex_readbuf_ok.
  - done.
  - done.
  - done.
  - exists msg. ends s'.
Defined.

(** A refused subscription, where [char] is signed: reported as a success. *)
Lemma MQTTSubscribe_spec_witness :
  exists s', MQTTSubscribe ex_out 1 ex_topic 1 (Some 8%nat) (ex_st 1 (enc_suback 1 [128])) = Some (0, s') /\
    s_w s' = ([], enc_subscribe 0 1 [([116; 47; 97], 1)]).
Proof.
  destruct (MQTTSubscribe_spec ex_out 0 (ex_st 1 (enc_suback 1 [128])) ex_topic 1 (Some 8%nat) [116; 47; 97] 10 1 128 [])
    as (rc & s' & He & Hrc & Hin & Hout & _).
  - done.
  - done.
  - done.
  - done.
  - split_and!; [done|done|done|done|by repeat constructor|by vm_compute].
  - split; [|done]. constructor; [apply ex_topic_arg|constructor].
  - by vm_compute.
  - by apply ex_st_sendbuf.
  - by apply ex_readbuf_ok.
  - done.
  - done.
  - done.
  - assert (rc = 0) as -> by (revert Hrc; by vm_compute; intros [= -> _]).
    ends s'.
Defined.

Lemma MQTTUnsubscribe_spec_witness :
  exists s', MQTTUnsubscribe ex_out 1 ex_topic (ex_st 1 (enc_ack UNSUBACK 0 1)) = Some (0, s') /\
    s_w s' = ([], enc_unsubscribe 0 1 [[116; 47; 97]]).
Proof.
  destruct (MQTTUnsubscribe_spec ex_out 0 (ex_st 1 (enc_ack UNSUBACK 0 1)) ex_topic [116; 47; 97] 9 1 [])
    as (s' & He & Hin & Hout & _).
  - done.
  - done.
  - done.
  - done.
  - split_and!; [done|done|done|done|by repeat constructor|by vm_compute].
  - constructor; [apply ex_topic_arg|constructor].
  - by vm_compute.
  - by apply ex_st_sendbuf.
  - by apply ex_readbuf_ok.
  - done.
  - done.
  - ends s'.
Defined.

Lemma readPacket_overrun_witness :
  readPacket ex_timer (ex_st 1 (packet 48 (replicate 70 65))) = None.
Proof.
  apply (readPacket_overrun ex_timer (ex_st 1 (packet 48 (replicate 70 65))) 48 (replicate 70 65) [] (replicate 64 0)).
  - by rewrite app_nil_r.
  - by vm_compute.
  - by vm_compute.
  - by vm_compute.
Defined.

(** A client without keep-alive, and nothing to read. *)
Definition ex_idle : @st sim := @mkSt sim ex_cmem (set_keepAliveInterval 0 (ex_client 1)) ([], []) [].

Lemma yield_hides_read_failure_witness : MQTTYield ex_out 1 0 ex_idle = Some (SUCCESS, ex_idle).
Proof.
  exact (proj2 (yield_hides_read_failure ex_out 0 ex_idle 0 true ([], []) 0 ([], []) 0 ([], []) ([], [])
    eq_refl eq_refl eq_refl ltac:(done) eq_refl eq_refl)).
Defined.

(** PINGREQ in a buffer that still holds what was sent before it. *)
Definition ex_slow : @st slow :=
  @mkSt slow (<[0%nat := [192; 0; 1; 2; 3]]> ∅)
    (@mkClient slow 1 1000 5 64 (Ptr 0 0) (Ptr 2 0) 60 0 1 [] None false) [] [].

Lemma sendPacket_short_write_witness :
  exists s', sendPacket 2 2 (false : @Timer slow) ex_slow = Some (FAILURE, s') /\ s_w s' = [192; 0; 1].
Proof.
  eexists. split.
  - apply (sendPacket_short_write 0 2 1 (false : @Timer slow) ex_slow [192; 0] [0; 1] 1 [192] [192; 0; 1]);
      try (by vm_compute); try done.
  - done.
Defined.
