(* ===== verification/Format.v ===== *)
(** * Format: MQTTFormat.c

    The one-line texts of packets for logs, with the part of [snprintf] they use,
    and what ends up in the caller's buffer. *)
From Stdlib Require Import Strings.String Strings.Ascii.
From S2P Require Import Prelude CMem Wire Packet Publish Connect Subscribe Unsubscribe.

(** ** [snprintf] *)

(** The characters of a literal. *)
Definition lit (s : string) : list Z := map (fun a => Z.of_nat (nat_of_ascii a)) (list_ascii_of_string s).

(** Decimal digits; ten are enough for 32 bits. *)
Fixpoint digits (fuel : nat) (n : Z) : list Z :=
  match fuel with
  | O => []
  | S fuel' => (if n <? 10 then [] else digits fuel' (n / 10)) ++ [48 + n mod 10]
  end.
Definition dec (n : Z) : list Z := if n <? 0 then 45 :: digits 10 (- n) else digits 10 n.

(** A piece of the output: literal text, [%d] with its argument, [%.*s] with its two. *)
Inductive piece :=
  | Txt (s : string)
  | Num (n : Z)
  | Str (precision : Z) (p : option ptr).

(** At most [n] characters, up to the terminator. *)
Fixpoint read_upto (m : mem) (n : nat) (p : ptr) : option (list Z) :=
  match n with
  | O => Some []
  | S n' => x ← load m p; if x =? 0 then Some [] else r ← read_upto m n' (padd p 1); Some (x :: r)
  end.

(** A negative precision is no precision; a null string is undefined. *)
Definition piece_text (m : mem) (a : piece) : option (list Z) :=
  match a with
  | Txt s => Some (lit s)
  | Num n => Some (dec n)
  | Str prec p =>
    p ← p;
    if prec <? 0 then n ← strlen m p; read_upto m (Z.to_nat n) p else read_upto m (Z.to_nat prec) p
  end.

Fixpoint text (m : mem) (l : list piece) : option (list Z) :=
  match l with [] => Some [] | a :: l => x ← piece_text m a; r ← text m l; Some (x ++ r) end.

(** [size] is a [size_t]: a negative [int] arrives as a huge one.  Returns the length of
    the whole text; what is stored is cut to [size - 1] characters and terminated. *)
Definition snprintf (s : ptr) (size : Z) (l : list piece) : M mem Z :=
  let size := size mod 4294967296 in
  m ← get;
  t ← lift (text m l);
  (if size =? 0 then mret tt else stores s (take (Z.to_nat (size - 1)) t ++ [0]));;
  lift (cint (Z.of_nat (length t))).

(** ** The texts *)

Definition MQTTPacket_names : list string :=
  ["RESERVED"; "CONNECT"; "CONNACK"; "PUBLISH"; "PUBACK"; "PUBREC"; "PUBREL"; "PUBCOMP"; "SUBSCRIBE"; "SUBACK";
   "UNSUBSCRIBE"; "UNSUBACK"; "PINGREQ"; "PINGRESP"; "DISCONNECT"]%string.

Definition MQTTPacket_getName (packetid : Z) : option string := arr_get MQTTPacket_names packetid.

(** The [%.*s] of an [MQTTString]. *)
Definition len_str (x : MQTTString) : piece := Str (lenstring_len x) (lenstring_data x).

(** One more [snprintf] behind [strindex]. *)
Definition more (strbuf : ptr) (strbuflen strindex : Z) (l : list piece) : M mem Z :=
  size ← lift (cint (strbuflen - strindex));
  n ← snprintf (padd strbuf strindex) size l;
  lift (cint (strindex + n)).

Definition MQTTStringFormat_connect (strbuf : ptr) (strbuflen : Z) (data : MQTTPacket_connectData) : M mem Z :=
  strindex ← snprintf strbuf strbuflen
    [Txt "CONNECT MQTT version "; Num (MQTTVersion data); Txt ", client id "; len_str (clientID data);
     Txt ", clean session "; Num (cleansession data); Txt ", keep alive "; Num (keepAliveInterval data)];
  strindex ← (if negb (willFlag data =? 0) then
      more strbuf strbuflen strindex
        [Txt ", will QoS "; Num (qos (will data)); Txt ", will retain "; Num (retained (will data));
         Txt ", will topic "; len_str (topicName (will data)); Txt ", will message "; len_str (message (will data))]
    else mret strindex);
  strindex ← (if bool_decide (lenstring_data (username data) <> None) && (0 <? lenstring_len (username data)) then
      more strbuf strbuflen strindex [Txt ", user name "; len_str (username data)]
    else mret strindex);
  if bool_decide (lenstring_data (password data) <> None) && (0 <? lenstring_len (password data)) then
    more strbuf strbuflen strindex [Txt ", password "; len_str (password data)]
  else mret strindex.

Definition MQTTStringFormat_connack (strbuf : ptr) (strbuflen connack_rc sessionPresent : Z) : M mem Z :=
  snprintf strbuf strbuflen [Txt "CONNACK session present "; Num sessionPresent; Txt ", rc "; Num connack_rc].

Definition publish_pieces (dup qos retained packetid : Z) (topicName : MQTTString) (payload : option ptr)
    (payloadlen : Z) : list piece :=
  [Txt "PUBLISH dup "; Num dup; Txt ", QoS "; Num qos; Txt ", retained "; Num retained;
   Txt ", packet id "; Num packetid; Txt ", topic ";
   Str (if lenstring_len topicName <? 20 then lenstring_len topicName else 20) (lenstring_data topicName);
   Txt ", payload length "; Num payloadlen; Txt ", payload ";
   Str (if payloadlen <? 20 then payloadlen else 20) payload].

Definition MQTTStringFormat_publish (strbuf : ptr) (strbuflen dup qos retained packetid : Z)
    (topicName : MQTTString) (payload : option ptr) (payloadlen : Z) : M mem Z :=
  snprintf strbuf strbuflen (publish_pieces dup qos retained packetid topicName payload payloadlen).

Definition MQTTStringFormat_ack (strbuf : ptr) (strbuflen packettype dup packetid : Z) : M mem Z :=
  name ← lift (MQTTPacket_getName packettype);
  strindex ← snprintf strbuf strbuflen [Txt name; Txt ", packet id "; Num packetid];
  if negb (dup =? 0) then more strbuf strbuflen strindex [Txt ", dup "; Num dup] else mret strindex.

Definition MQTTStringFormat_subscribe (strbuf : ptr) (strbuflen dup packetid count : Z)
    (topicFilters : list MQTTString) (requestedQoSs : list Z) : M mem Z :=
  x ← lift (arr_get topicFilters 0); q ← lift (arr_get requestedQoSs 0);
  snprintf strbuf strbuflen
    [Txt "SUBSCRIBE dup "; Num dup; Txt ", packet id "; Num packetid; Txt " count "; Num count; Txt " topic ";
     len_str x; Txt " qos "; Num q].

Definition MQTTStringFormat_suback (strbuf : ptr) (strbuflen packetid count : Z) (grantedQoSs : list Z) : M mem Z :=
  q ← lift (arr_get grantedQoSs 0);
  snprintf strbuf strbuflen
    [Txt "SUBACK packet id "; Num packetid; Txt " count "; Num count; Txt " granted qos "; Num q].

Definition MQTTStringFormat_unsubscribe (strbuf : ptr) (strbuflen dup packetid count : Z)
    (topicFilters : list MQTTString) : M mem Z :=
  x ← lift (arr_get topicFilters 0);
  snprintf strbuf strbuflen
    [Txt "UNSUBSCRIBE dup "; Num dup; Txt ", packet id "; Num packetid; Txt " count "; Num count; Txt " topic ";
     len_str x].

(** ** Whole packets *)
Section Whole.
Context `{CharAbi}.

(** The indeterminate values of uninitialised locals. *)
Record locals := mkLocals { l_int : Z; l_string : MQTTString; l_connect : MQTTPacket_connectData }.
Context (stack : locals).

Definition format_publish (strbuf : ptr) (strbuflen : Z) (buf : ptr) (buflen : Z) : M mem Z :=
  m ← get;
  '(ok, o) ← lift (MQTTDeserialize_publish m (mkPublishOut (l_int stack) (l_int stack) (l_int stack) (l_int stack)
                     MQTTString_initializer None (l_int stack)) buf buflen);
  if ok =? 1 then
    MQTTStringFormat_publish strbuf strbuflen (po_dup o) (po_qos o) (po_retained o) (po_packetid o) (po_topicName o)
      (po_payload o) (po_payloadlen o)
  else mret 0.

Definition format_ack (strbuf : ptr) (strbuflen : Z) (buf : ptr) (buflen : Z) : M mem Z :=
  m ← get;
  '(ok, o) ← lift (MQTTDeserialize_ack m (mkAckOut (l_int stack) (l_int stack) (l_int stack)) buf buflen);
  if ok =? 1 then MQTTStringFormat_ack strbuf strbuflen (ao_packettype o) (ao_dup o) (ao_packetid o) else mret 0.

Definition format_name (strbuf : ptr) (strbuflen type : Z) : M mem Z :=
  name ← lift (MQTTPacket_getName type); snprintf strbuf strbuflen [Txt name].

(** Reading the header and the remaining length, at the start of both functions. *)
Definition packet_header (buf : ptr) : M mem Z :=
  m ← get;
  header ← lift (load m buf);
  '(_, _) ← lift (MQTTPacket_decodeBuf m (padd buf 1));
  mret (hdr_type header).

Definition MQTTFormat_toClientString (strbuf : ptr) (strbuflen : Z) (buf : ptr) (buflen : Z) : M mem ptr :=
  type ← packet_header buf;
  strindex ←
    (if type =? CONNACK then
       m ← get;
       '(ok, sessionPresent, connack_rc) ← lift (MQTTDeserialize_connack m (l_int stack) (l_int stack) buf buflen);
       if ok =? 1 then MQTTStringFormat_connack strbuf strbuflen connack_rc sessionPresent else mret 0
     else if type =? PUBLISH then format_publish strbuf strbuflen buf buflen
     else if (type =? PUBACK) || (type =? PUBREC) || (type =? PUBREL) || (type =? PUBCOMP) then
       format_ack strbuf strbuflen buf buflen
     else if type =? SUBACK then
       m ← get;
       '(ok, o) ← lift (MQTTDeserialize_suback m (mkSubackOut (l_int stack) 0 [l_int stack]) 1 buf buflen);
       if ok =? 1 then MQTTStringFormat_suback strbuf strbuflen (so_packetid o) (so_count o) (so_grantedQoSs o)
       else mret 0
     else if type =? UNSUBACK then
       m ← get;
       '(ok, packetid) ← lift (MQTTDeserialize_unsuback m (l_int stack) buf buflen);
       if ok =? 1 then MQTTStringFormat_ack strbuf strbuflen UNSUBACK 0 packetid else mret 0
     else if (type =? PINGREQ) || (type =? PINGRESP) || (type =? DISCONNECT) then format_name strbuf strbuflen type
     else mret 0);
  mret strbuf.

Definition MQTTFormat_toServerString (strbuf : ptr) (strbuflen : Z) (buf : ptr) (buflen : Z) : M mem ptr :=
  type ← packet_header buf;
  strindex ←
    (if type =? CONNECT then
       m ← get;
       '(rc, data) ← lift (MQTTDeserialize_connect m (l_connect stack) buf buflen);
       if rc =? 1 then MQTTStringFormat_connect strbuf strbuflen data else mret 0
     else if type =? PUBLISH then format_publish strbuf strbuflen buf buflen
     else if (type =? PUBACK) || (type =? PUBREC) || (type =? PUBREL) || (type =? PUBCOMP) then
       format_ack strbuf strbuflen buf buflen
     else if type =? SUBSCRIBE then
       m ← get;
       '(ok, o) ← lift (MQTTDeserialize_subscribe m (mkSubscribeOut (l_int stack) (l_int stack) 0 [l_string stack]
                          [l_int stack]) 1 buf buflen);
       if ok =? 1 then
         MQTTStringFormat_subscribe strbuf strbuflen (su_dup o) (su_packetid o) (su_count o) (su_topicFilters o)
           (su_requestedQoSs o)
       else mret 0
     else if type =? UNSUBSCRIBE then
       m ← get;
       '(ok, o) ← lift (MQTTDeserialize_unsubscribe m (mkUnsubscribeOut (l_int stack) (l_int stack) 0 [l_string stack])
                          1 buf buflen);
       if ok =? 1 then
         MQTTStringFormat_unsubscribe strbuf strbuflen (un_dup o) (un_packetid o) (un_count o) (un_topicFilters o)
       else mret 0
     else if (type =? PINGREQ) || (type =? PINGRESP) || (type =? DISCONNECT) then format_name strbuf strbuflen type
     else mret 0);
  stores (padd strbuf strbuflen) [0];;
  mret strbuf.
End Whole.

(** ** What the texts are *)
Section Lines.
Context `{CharAbi}.

(** The characters before the first NUL. *)
Fixpoint upto0 (s : list Z) : list Z :=
  match s with [] => [] | x :: s => if x =? 0 then [] else x :: upto0 s end.

(** At most twenty characters of a topic or payload are shown. *)
Definition shown (s : list Z) : list Z := upto0 (take 20 s).

Definition publish_line (p : publish) (packetid : Z) : list Z :=
  lit "PUBLISH dup " ++ dec (pb_dup p) ++ lit ", QoS " ++ dec (pb_qos p) ++ lit ", retained " ++ dec (pb_retain p) ++
  lit ", packet id " ++ dec packetid ++ lit ", topic " ++ shown (pb_topic p) ++
  lit ", payload length " ++ dec (Z.of_nat (length (pb_payload p))) ++ lit ", payload " ++ shown (pb_payload p).

Lemma read_upto_spec m s : forall n p, at_bytes m p s -> (n <= length s)%nat -> read_upto m n p = Some (upto0 (take n s)).
Proof.
  induction s as [|x s IH]; intros [|n] p Hat Hn; simpl in Hn; try lia; [done|done|].
  cbn [read_upto take upto0]. rewrite (at_bytes_load _ _ _ _ Hat). cbn [mbind option_bind].
  destruct (x =? 0); [done|]. apply at_bytes_cons in Hat as [_ Hat]. rewrite (IH n) by (done || lia). done.
Qed.

Lemma str_shown m p s n :
  at_bytes m p s -> n = Z.of_nat (length s) -> piece_text m (Str (if n <? 20 then n else 20) (Some p)) = Some (shown s).
Proof.
  intros Hat ->. unfold piece_text, shown. cbn [mbind option_bind].
  destruct (Z.ltb_spec (Z.of_nat (length s)) 20) as [Hl|Hl].
  - destruct (Z.ltb_spec (Z.of_nat (length s)) 0); [lia|]. rewrite Nat2Z.id, (read_upto_spec m s) by done.
    by rewrite !take_ge by lia.
  - change (20 <? 0) with false. cbv iota. by rewrite (read_upto_spec m s) by (done || lia).
Qed.

(** The value of a string of digits. *)
Definition value (l : list Z) : Z := foldl (fun a c => a * 10 + (c - 48)) 0 l.

Lemma digits_value fuel : forall n, 0 <= n < 10 ^ Z.of_nat fuel -> value (digits fuel n) = n.
Proof.
  unfold value. induction fuel as [|fuel IH]; intros n Hn; [change (10 ^ Z.of_nat 0) with 1 in Hn; simpl; lia|].
  cbn [digits]. rewrite foldl_app. cbn [foldl]. rewrite Nat2Z.inj_succ, Z.pow_succ_r in Hn by lia.
  pose proof (Z.div_mod n 10 ltac:(lia)). destruct (Z.ltb_spec n 10).
  - cbn [foldl]. rewrite Z.mod_small by lia. lia.
  - rewrite IH; [lia|]. split; [apply Z.div_pos; lia|]. apply Z.div_lt_upper_bound; lia.
Qed.

Lemma dec_value n : 0 <= n < 10000000000 -> value (dec n) = n.
Proof. intros Hn. unfold dec. destruct (Z.ltb_spec n 0); [lia|]. by apply digits_value. Qed.

Lemma length_digits fuel n : (length (digits fuel n) <= fuel)%nat.
Proof.
  revert n. induction fuel as [|fuel IH]; intros n; [done|]. cbn [digits]. rewrite length_app. cbn [length].
  destruct (n <? 10); [simpl; lia|]. specialize (IH (n / 10)). lia.
Qed.

Lemma length_dec n : (length (dec n) <= 11)%nat.
Proof.
  unfold dec. pose proof (length_digits 10 (- n)). pose proof (length_digits 10 n).
  destruct (n <? 0); cbn [length]; lia.
Qed.

Lemma length_upto0 s : (length (upto0 s) <= length s)%nat.
Proof. induction s as [|x s IH]; [done|]. simpl. destruct (x =? 0); simpl; lia. Qed.

Lemma length_shown s : (length (shown s) <= 20)%nat.
Proof. unfold shown. pose proof (length_upto0 (take 20 s)). rewrite length_take in *. lia. Qed.

(** [snprintf] into a buffer of its size. *)
Lemma snprintf_spec m s size l t :
  text m l = Some t -> 0 < size <= INT_MAX -> room m s size -> Z.of_nat (length t) <= INT_MAX ->
  exists m', snprintf s size l m = Some (Z.of_nat (length t), m') /\
    at_bytes m' s (take (Z.to_nat (size - 1)) t ++ [0]) /\ agree_except (p_blk s) m m' /\ room m' s size.
Proof.
  intros Ht Hs Hr Hl. unfold snprintf. rewrite (Z.mod_small size) by (unfold INT_MAX in *; lia).
  destruct (room_store m s (take (Z.to_nat (size - 1)) t ++ [0]) size Hr) as (m' & Hm).
  { rewrite length_app, length_take. cbn [length]. lia. }
  exists m'. split; [|split_and!; [by eapply store_bytes_at|by eapply store_bytes_agree|by eapply store_bytes_room]].
  erewrite M_bind_Some by done. cbn beta. rewrite (M_bind_lift _ _ _ t) by done.
  destruct (Z.eqb_spec size 0); [lia|]. erewrite M_bind_Some by (unfold stores; by rewrite Hm).
  unfold lift. by rewrite cint_ok by (unfold INT_MIN; lia).
Qed.

Lemma publish_text m p x q packetid :
  mstr m x (pb_topic p) -> cstring x = None -> lenstring_data x <> None -> at_bytes m q (pb_payload p) ->
  text m (publish_pieces (pb_dup p) (pb_qos p) (pb_retain p) packetid x (Some q) (Z.of_nat (length (pb_payload p)))) =
    Some (publish_line p packetid).
Proof.
  intros Hx Hc Hd Hq. unfold mstr in Hx. rewrite Hc in Hx. destruct Hx as (Hl & Hx).
  assert (Hp : exists px, lenstring_data x = Some px /\ at_bytes m px (pb_topic p)).
  { destruct (lenstring_data x) as [px|]; [|done]. exists px. split; [done|].
    destruct Hx as [->|(px' & E & Hat)]; [apply at_bytes_nil|]. by simplify_eq. }
  destruct Hp as (px & E & Hat). unfold publish_pieces. rewrite E.
  cbn [text]. rewrite (str_shown m px (pb_topic p)), (str_shown m q (pb_payload p)) by done.
  cbn [piece_text mbind option_bind]. by rewrite app_nil_r.
Qed.
Lemma length_line p id : wf_publish p -> Z.of_nat (length (publish_line p id)) <= INT_MAX.
Proof.
  intros _. unfold publish_line.
  pose proof (length_dec (pb_dup p)). pose proof (length_dec (pb_qos p)). pose proof (length_dec (pb_retain p)).
  pose proof (length_dec id). pose proof (length_dec (Z.of_nat (length (pb_payload p)))).
  pose proof (length_shown (pb_topic p)). pose proof (length_shown (pb_payload p)).
  rewrite !length_app. cbn [length lit list_ascii_of_string map]. unfold INT_MAX. lia.
Qed.

(** Header and remaining length of a well-formed packet. *)
Lemma packet_header_spec m buf h body :
  byte h -> Z.of_nat (length body) < 268435456 -> at_bytes m buf (packet h body) ->
  packet_header buf m = Some (hdr_type h, m).
Proof.
  intros Hh Hl Hat. unfold packet_header. erewrite M_bind_Some by done. cbn beta.
  rewrite (M_bind_lift _ _ _ h) by (by eapply at_bytes_load).
  apply packet_prefix in Hat as (k & _ & _ & Hd & _); [|done|done]. by erewrite M_bind_lift by exact Hd.
Qed.

(** The log line of a PUBLISH: [MQTTFormat_toClientString] writes the flags, packet
    identifier, topic, payload length and payload of the packet in [buf], topic and
    payload cut to twenty characters, and the line to the buffer's size less one,
    terminated; nothing else is written.  For QoS 0 the identifier shown is whatever an
    uninitialised local held. *)
Theorem toClientString_publish stack m strbuf strbuflen buf buflen p :
  wf_publish p -> at_bytes m buf (enc_publish p) -> room m strbuf strbuflen -> 0 < strbuflen <= INT_MAX ->
  p_blk strbuf <> p_blk buf ->
  exists id m', (0 < pb_qos p -> id = pb_id p) /\
    MQTTFormat_toClientString stack strbuf strbuflen buf buflen m = Some (strbuf, m') /\
    at_bytes m' strbuf (take (Z.to_nat (strbuflen - 1)) (publish_line p id) ++ [0]) /\
    agree_except (p_blk strbuf) m m'.
Proof.
  intros Hwf Hat Hr Hs Hblk.
  destruct (MQTTDeserialize_publish_spec m (mkPublishOut (l_int stack) (l_int stack) (l_int stack) (l_int stack)
    MQTTString_initializer None (l_int stack)) buf buflen p Hwf Hat)
    as (o & Hd & Eo1 & Eo2 & Eo3 & Eo4 & Hmx & Hxc & Hxd & Eo5 & q & Eq & Hpay).
  destruct (snprintf_spec m strbuf strbuflen _ _ (publish_text m p _ q (po_packetid o) Hmx Hxc Hxd Hpay) Hs Hr
    (length_line p _ Hwf)) as (m' & Hsn & Hat' & Hag & _).
  exists (po_packetid o), m'. split; [done|]. split; [|done].
  unfold MQTTFormat_toClientString. destruct Hwf as (Hw1 & Hw2 & Hw3 & _ & _ & Hl).
  destruct (header_get 3 (pb_dup p) (pb_qos p) (pb_retain p)) as (Et & _); try lia.
  assert (Hb : byte (header 3 (pb_dup p) (pb_qos p) (pb_retain p))) by (apply header_byte; lia).
  pose proof (packet_header_spec m buf _ (publish_body p) Hb Hl Hat) as Hh.
  rewrite Et in Hh. rewrite (M_bind_Some _ _ _ _ _ Hh).
  cbn beta. change (3 =? CONNACK) with false. change (3 =? PUBLISH) with true. cbv iota.
  erewrite M_bind_Some; [done|]. unfold format_publish. erewrite M_bind_Some by done. cbn beta.
  erewrite M_bind_lift by exact Hd. cbn beta iota. change (1 =? 1) with true. cbv iota.
  unfold MQTTStringFormat_publish. rewrite Eo1, Eo2, Eo3, Eo5, Eq. exact Hsn.
Qed.
End Lines.

(** ** Where the texts overrun the buffer *)

(** Blocks keep their size. *)
Definition sized (m m' : mem) : Prop :=
  forall b blk, m !! b = Some blk -> exists blk', m' !! b = Some blk' /\ length blk' = length blk.

Definition keeps_sizes {A} (f : M mem A) : Prop := forall m a m', f m = Some (a, m') -> sized m m'.

Lemma sized_refl m : sized m m.
Proof. intros b blk Hb. by exists blk. Qed.

Lemma sized_trans m1 m2 m3 : sized m1 m2 -> sized m2 m3 -> sized m1 m3.
Proof.
  intros H12 H23 b blk Hb. destruct (H12 b blk Hb) as (blk2 & Hb2 & <-). exact (H23 b blk2 Hb2).
Qed.

Lemma keeps_bind {A B} (f : M mem A) (k : A -> M mem B) :
  keeps_sizes f -> (forall a, keeps_sizes (k a)) -> keeps_sizes (f ≫= k).
Proof.
  intros Hf Hk m b m' H. unfold mbind, M_bind in H. destruct (f m) as [[a m1]|] eqn:E; [|done].
  eapply sized_trans; [by eapply Hf|by eapply Hk].
Qed.

Lemma keeps_ret {A} (a : A) : keeps_sizes (mret a).
Proof. intros m a' m' H. injection H as _ <-. apply sized_refl. Qed.

Lemma keeps_lift {A} (o : option A) : keeps_sizes (lift o).
Proof. intros m a m' H. unfold lift in H. destruct o; [|done]. injection H as _ <-. apply sized_refl. Qed.

Lemma keeps_get : keeps_sizes get.
Proof. intros m a m' H. injection H as _ <-. apply sized_refl. Qed.

Lemma keeps_stores p bs : keeps_sizes (stores p bs).
Proof.
  intros m a m' H. unfold stores in H. destruct (store_bytes m p bs) as [m1|] eqn:E; [|done]. injection H as _ <-.
  intros b blk Hb. destruct bs as [|x bs]; [injection E as <-; by exists blk|]. unfold store_bytes in E.
  destruct (m !! p_blk p) as [blk0|] eqn:Hb0; [|done]. cbn [mbind option_bind] in E. case_decide as Hd; [|done].
  injection E as <-. destruct (decide (b = p_blk p)) as [->|Hne].
  - rewrite lookup_insert_eq. simplify_eq. eexists. split; [done|]. apply length_splice. simpl length in *. lia.
  - rewrite lookup_insert_ne by done. by exists blk.
Qed.

Create HintDb sizes.
#[export] Hint Resolve keeps_ret keeps_lift keeps_get keeps_stores : sizes.
#[export] Hint Extern 1 (keeps_sizes (_ ≫= _)) => apply keeps_bind; [|intros ?] : sizes.
#[export] Hint Extern 2 (keeps_sizes (if ?b then _ else _)) => destruct b : sizes.
#[export] Hint Extern 2 (keeps_sizes (match ?x with pair _ _ => _ end)) => destruct x : sizes.

Lemma keeps_snprintf s size l : keeps_sizes (snprintf s size l).
Proof. unfold snprintf. cbv zeta. eauto 20 with sizes. Qed.
#[export] Hint Resolve keeps_snprintf : sizes.

Lemma keeps_more s n i l : keeps_sizes (more s n i l).
Proof. unfold more. eauto 20 with sizes. Qed.
#[export] Hint Resolve keeps_more : sizes.

(** A store that ends behind its block is undefined. *)
Lemma stores_behind m p bs blk :
  m !! p_blk p = Some blk -> Z.of_nat (length blk) < p_off p + Z.of_nat (length bs) -> bs <> [] -> stores p bs m = None.
Proof. intros Hb Hl Hne. unfold stores. by rewrite (store_bytes_overrun _ _ _ blk). Qed.

Lemma bind_stores_behind {A B} (f : M mem A) (k : M mem B) m p bs blk :
  keeps_sizes f -> m !! p_blk p = Some blk -> Z.of_nat (length blk) < p_off p + Z.of_nat (length bs) -> bs <> [] ->
  (f;; stores p bs;; k) m = None.
Proof.
  intros Hf Hb Hl Hne. unfold mbind, M_bind. destruct (f m) as [[a m1]|] eqn:E; [|done].
  destruct (Hf _ _ _ E _ _ Hb) as (blk' & Hb' & Hlen). by rewrite (stores_behind m1 p bs blk') by (done || lia).
Qed.

Section Overrun.
Context `{CharAbi}.

Lemma keeps_format_publish stack s n buf l : keeps_sizes (format_publish stack s n buf l).
Proof. unfold format_publish, MQTTStringFormat_publish. eauto 20 with sizes. Qed.

Lemma keeps_ack s n t d i : keeps_sizes (MQTTStringFormat_ack s n t d i).
Proof. unfold MQTTStringFormat_ack. eauto 20 with sizes. Qed.
#[local] Hint Resolve keeps_format_publish keeps_ack : sizes.

Lemma keeps_format_ack stack s n buf l : keeps_sizes (format_ack stack s n buf l).
Proof. unfold format_ack. eauto 20 with sizes. Qed.

Lemma keeps_name s n t : keeps_sizes (format_name s n t).
Proof. unfold format_name. eauto 20 with sizes. Qed.

Lemma keeps_connect s n d : keeps_sizes (MQTTStringFormat_connect s n d).
Proof. unfold MQTTStringFormat_connect. eauto 30 with sizes. Qed.

Lemma keeps_subscribe s n d i c ts qs : keeps_sizes (MQTTStringFormat_subscribe s n d i c ts qs).
Proof. unfold MQTTStringFormat_subscribe. eauto 20 with sizes. Qed.

Lemma keeps_unsubscribe s n d i c ts : keeps_sizes (MQTTStringFormat_unsubscribe s n d i c ts).
Proof. unfold MQTTStringFormat_unsubscribe. eauto 20 with sizes. Qed.

Lemma keeps_header buf : keeps_sizes (packet_header buf).
Proof. unfold packet_header. eauto 20 with sizes. Qed.
#[local] Hint Resolve keeps_format_ack keeps_name keeps_connect keeps_subscribe keeps_unsubscribe keeps_header : sizes.

(** [MQTTFormat_toServerString] puts a terminator at [strbuf[strbuflen]], behind a
    buffer of [strbuflen] bytes: given the size of its buffer, as MQTTClient.h gives it,
    it has no defined behaviour on any packet. *)
Theorem toServerString_overrun stack m strbuf strbuflen buf buflen blk :
  m !! p_blk strbuf = Some blk -> p_off strbuf + strbuflen = Z.of_nat (length blk) ->
  MQTTFormat_toServerString stack strbuf strbuflen buf buflen m = None.
Proof.
  intros Hb Hl. unfold MQTTFormat_toServerString.
  destruct (packet_header buf m) as [[type m1]|] eqn:E; [|by apply M_bind_None].
  rewrite (M_bind_Some _ _ _ _ _ E). cbn beta. destruct (keeps_header _ _ _ _ E _ _ Hb) as (blk1 & Hb1 & Hl1).
  apply (bind_stores_behind _ _ _ _ _ blk1); [eauto 30 with sizes|done|cbn [p_off padd length]; lia|done].
Qed.

(** [MQTTStringFormat_connect] adds the lengths [snprintf] would have liked to write:
    when the first part of the text is longer than the buffer and there is a will, the
    second part is written behind the buffer. *)
Theorem connect_text_overrun m strbuf strbuflen data blk t :
  text m [Txt "CONNECT MQTT version "; Num (MQTTVersion data); Txt ", client id "; len_str (clientID data);
    Txt ", clean session "; Num (cleansession data); Txt ", keep alive "; Num (keepAliveInterval data)] = Some t ->
  m !! p_blk strbuf = Some blk -> p_off strbuf + strbuflen = Z.of_nat (length blk) -> 0 <= strbuflen ->
  strbuflen < Z.of_nat (length t) <= INT_MAX -> willFlag data <> 0 ->
  MQTTStringFormat_connect strbuf strbuflen data m = None.
Proof.
  intros Ht Hb Hl Hs Hlen Hw. unfold MQTTStringFormat_connect.
  match goal with |- (?f ≫= ?k) m = None => set (first := f); set (rest := k) end.
  destruct (first m) as [[i m1]|] eqn:E; [|by apply M_bind_None].
  rewrite (M_bind_Some _ _ _ _ _ E). destruct (keeps_snprintf _ _ _ _ _ _ E _ _ Hb) as (blk1 & Hb1 & Hl1).
  assert (i = Z.of_nat (length t)) as ->.
  { unfold first, snprintf in E. erewrite M_bind_Some in E by done. cbn beta in E.
    rewrite (M_bind_lift _ _ _ t) in E by done. unfold mbind, M_bind in E.
    destruct (_ : option (unit * mem)) as [[[] m2]|]; [|done]. unfold lift in E.
    rewrite cint_ok in E by (unfold INT_MIN; lia). by injection E. }
  unfold rest. clear rest E first. cbn beta. destruct (Z.eqb_spec (willFlag data) 0); [done|]. cbn [negb].
  apply M_bind_None. unfold more.
  rewrite (M_bind_lift _ _ _ (strbuflen - Z.of_nat (length t))) by (apply cint_ok; unfold INT_MIN, INT_MAX in *; lia).
  apply M_bind_None. unfold snprintf. erewrite M_bind_Some by done. cbn beta.
  destruct (text m1 _) as [t2|]; [|by apply M_bind_None]. erewrite M_bind_lift by done. apply M_bind_None.
  rewrite <- (Zmod_unique _ 4294967296 (-1) (strbuflen - Z.of_nat (length t) + 4294967296)) by (unfold INT_MAX in *; lia).
  destruct (Z.eqb_spec (strbuflen - Z.of_nat (length t) + 4294967296) 0); [unfold INT_MAX in *; lia|].
  apply (stores_behind _ _ _ blk1); [done|rewrite length_app; cbn [p_off padd length]; lia|by destruct (take _ t2)].
Qed.
End Overrun.

(** ** Concrete instances *)

Definition ex_stack : locals := mkLocals 0 MQTTString_initializer MQTTPacket_connectData_initializer.
Definition ex_fmem : mem := <[2%nat := enc_publish ex_publish]> ex_mem.

(** PUBLISH dup 0, QoS 1, retained 0, packet id 7, topic t/a, payload length 3, payload hi! *)
Lemma toClientString_publish_witness :
  exists m', MQTTFormat_toClientString (H := x86_abi) ex_stack ex_buf 64 (Ptr 2 0) 12 ex_fmem = Some (ex_buf, m') /\
    at_bytes m' ex_buf (lit "PUBLISH dup 0, QoS 1, retained 0, packet id 7, topic t/a, paylo" ++ [0]) /\
    agree_except 0 ex_fmem m'.
Proof.
  destruct (toClientString_publish (H := x86_abi) ex_stack ex_fmem ex_buf 64 (Ptr 2 0) 12 ex_publish)
    as (id & m' & Hid & He & Hat & Hag).
  - apply ex_wf_publish.
  - by vm_compute.
  - exists (replicate 64 0). split_and!; [done|done|simpl; lia].
  - done.
  - done.
  - rewrite (Hid ltac:(done)) in Hat. exists m'. split; [exact He|]. split; [|exact Hag].
    revert Hat. by vm_compute.
Defined.

Lemma toServerString_overrun_witness :
  MQTTFormat_toServerString (H := x86_abi) ex_stack ex_buf 64 (Ptr 2 0) 12 ex_fmem = None.
Proof. by apply (toServerString_overrun (H := x86_abi) ex_stack ex_fmem ex_buf 64 (Ptr 2 0) 12 (replicate 64 0)). Defined.

(** A buffer of twenty bytes, and a will. *)
Definition ex_will_data : MQTTPacket_connectData :=
  mkConnectData [] 0 4 (mkMQTTString None 3 (Some ex_topic)) 60 1 1 MQTTPacket_willOptions_initializer
    MQTTString_initializer MQTTString_initializer.

Lemma connect_text_overrun_witness : MQTTStringFormat_connect (Ptr 0 44) 20 ex_will_data ex_mem = None.
Proof.
  apply (connect_text_overrun ex_mem (Ptr 0 44) 20 ex_will_data (replicate 64 0)
    (lit "CONNECT MQTT version 4, client id t/a, clean session 1, keep alive 60")).
  - by vm_compute.
  - done.
  - done.
  - done.
  - unfold INT_MAX. by vm_compute.
  - done.
Defined.
