(* ===== verification/Linux.v ===== *)
(** * Linux: MQTTLinux.c

    Timers and sockets for the C client on Linux.  The system calls are the class
    [Os]; the timers are proved to keep the time of its clock, and reading to put
    the pieces of a stream together. *)
From S2P Require Import Prelude CMem Wire Packet Publish Connect Subscribe Unsubscribe Topic Platform Client.

(** ** The operating system *)

Record timeval := mkTimeval { tv_sec : Z; tv_usec : Z }.

Definition AF_INET : Z := 2.
Definition ENOTCONN : Z := 107.
Definition ECONNRESET : Z := 104.

(** An entry of the list [getaddrinfo] returns, and an address to connect to. *)
Record addrinfo := mkAddrinfo { ai_family : Z; ai_sin_addr : Z }.
Record sockaddr_in := mkSockaddr { sin_family : Z; sin_port : Z; sin_addr : Z }.

(** [recv] returns its value, the bytes stored and [errno]. *)
Class Os := {
  OS : Type;
  gettimeofday : M OS timeval;
  set_rcvtimeo : Z -> timeval -> M OS Z;
  recv : Z -> Z -> M OS (Z * list Z * Z);
  write : Z -> list Z -> M OS Z;
  getaddrinfo : list Z -> M OS (Z * list addrinfo);
  socket : Z -> M OS Z;
  connect_ : Z -> sockaddr_in -> M OS Z;
  close : Z -> M OS Z
}.

(** [sys/time.h] *)
Definition timeradd (a b : timeval) : timeval :=
  let sec := tv_sec a + tv_sec b in let usec := tv_usec a + tv_usec b in
  if 1000000 <=? usec then mkTimeval (sec + 1) (usec - 1000000) else mkTimeval sec usec.
Definition timersub (a b : timeval) : timeval :=
  let sec := tv_sec a - tv_sec b in let usec := tv_usec a - tv_usec b in
  if usec <? 0 then mkTimeval (sec - 1) (usec + 1000000) else mkTimeval sec usec.

(** Network byte order of a [uint16_t] on a little-endian machine. *)
Definition htons (z : Z) : Z := (z mod 256) * 256 + (z / 256) mod 256.

Section Definitions.
Context `{Os}.


(** ** Timers: [end_time] *)

Definition TimerInit_ : timeval := mkTimeval 0 0.

Definition TimerIsExpired_ (timer : timeval) : M OS bool :=
  now ← gettimeofday;
  let res := timersub timer now in
  mret ((tv_sec res <? 0) || ((tv_sec res =? 0) && (tv_usec res <=? 0))).

Definition TimerCountdownMS_ (timeout : Z) : M OS timeval :=
  now ← gettimeofday;
  mret (timeradd now (mkTimeval (timeout / 1000) (timeout mod 1000 * 1000))).

Definition TimerCountdown_ (timeout : Z) : M OS timeval :=
  now ← gettimeofday;
  mret (timeradd now (mkTimeval timeout 0)).

Definition TimerLeftMS_ (timer : timeval) : M OS Z :=
  now ← gettimeofday;
  let res := timersub timer now in
  if tv_sec res <? 0 then mret 0 else
  ms ← lift (cint (tv_sec res * 1000)); lift (cint (ms + Z.quot (tv_usec res) 1000)).

(** ** Reading and writing *)

(** [while (bytes < len)]; [got]: what has been stored in [buffer].  One [recv] per unit
    of fuel; returns [bytes] and the buffer. *)
Fixpoint recv_loop (fuel : nat) (sock len bytes : Z) (got : list Z) : M OS (Z * list Z) :=
  if negb (bytes <? len) then mret (bytes, got) else
  match fuel with
  | O => undefined
  | S fuel' =>
    '(rc, bs, errno) ← recv sock (len - bytes);
    if rc =? -1 then
      if negb (errno =? ENOTCONN) && negb (errno =? ECONNRESET) then mret (-1, got)
      else recv_loop fuel' sock len bytes got
    else bytes ← lift (cint (bytes + rc)); recv_loop fuel' sock len bytes (got ++ bs)
  end.

Definition linux_read (fuel : nat) (sock len timeout_ms : Z) : M OS (Z * list Z) :=
  let interval := mkTimeval (Z.quot timeout_ms 1000) (Z.rem timeout_ms 1000 * 1000) in
  let interval := if (tv_sec interval <? 0) || ((tv_sec interval =? 0) && (tv_usec interval <=? 0))
                  then mkTimeval 0 100 else interval in
  set_rcvtimeo sock interval;;
  recv_loop fuel sock len 0 [].

Definition linux_write (sock : Z) (buffer : list Z) (timeout_ms : Z) : M OS Z :=
  usec ← lift (cint (timeout_ms * 1000));
  set_rcvtimeo sock (mkTimeval 0 usec);;
  write sock buffer.

(** ** Connecting *)

(** [my_socket]; the function pointers never change. *)
Definition NetworkInit : Z := 0.

(** The address [result] points to after the loop: the first of family [AF_INET], else
    the first. *)
Fixpoint prefer_ip4 (l : list addrinfo) : option addrinfo :=
  match l with
  | [] => None
  | res :: l => if ai_family res =? AF_INET then Some res else prefer_ip4 l
  end.

(** Returns [rc] and [my_socket]. *)
Definition NetworkConnect (my_socket : Z) (addr : list Z) (port : Z) : M OS (Z * Z) :=
  '(rc, l) ← getaddrinfo addr;
  if negb (rc =? 0) then mret (rc, my_socket) else
  result ← lift (match prefer_ip4 l with Some res => Some res | None => head l end);
  if negb (ai_family result =? AF_INET) then mret (-1, my_socket) else
  let address := mkSockaddr AF_INET (htons (to_ushort port)) (ai_sin_addr result) in
  sock ← socket AF_INET;
  if negb (sock =? -1) then rc ← connect_ sock address; mret (rc, sock) else mret (0, sock).

Definition NetworkDisconnect (my_socket : Z) : M OS Z := close my_socket.

(** The platform of the client; [fuel] bounds the [recv]s of one read. *)
Definition on_os {A} (f : M OS A) : M (OS * Z) A := fun w =>
  match f w.1 with Some (a, o) => Some (a, (o, w.2)) | None => None end.

Definition linux (fuel : nat) : Platform := {|
  W := OS * Z;
  Timer := timeval;
  TimerInit := TimerInit_;
  TimerIsExpired t := on_os (TimerIsExpired_ t);
  TimerCountdownMS _ ms := on_os (TimerCountdownMS_ ms);
  TimerCountdown _ s := on_os (TimerCountdown_ s);
  TimerLeftMS t := on_os (TimerLeftMS_ t);
  mqttread n ms := fun w => on_os (linux_read fuel w.2 n ms) w;
  mqttwrite bs ms := fun w => on_os (linux_write w.2 bs ms) w
|}.
End Definitions.

Lemma prefer_ip4_none l : Forall (fun a => ai_family a <> AF_INET) l -> prefer_ip4 l = None.
Proof. induction 1 as [|a l Ha Hf IH]; [done|]. simpl. by destruct (Z.eqb_spec (ai_family a) AF_INET). Qed.
Lemma prefer_ip4_first pre a post : Forall (fun a => ai_family a <> AF_INET) pre -> ai_family a = AF_INET ->
  prefer_ip4 (pre ++ a :: post) = Some a.
Proof. intros Hpre Ha. induction Hpre as [|b pre Hb Hpre IH]; simpl; [by rewrite Ha|]. by destruct (Z.eqb_spec (ai_family b) AF_INET). Qed.

(** ** Timers keep the time of the clock *)
Section Timers.
Context `{Os}.

Definition us (t : timeval) : Z := tv_sec t * 1000000 + tv_usec t.
Definition wf_time (t : timeval) : Prop := 0 <= tv_usec t < 1000000.

(** The time a clock shows, in microseconds. *)
Definition shows (o : OS) (t : Z) (o' : OS) : Prop :=
  exists now, gettimeofday o = Some (now, o') /\ wf_time now /\ us now = t.

Lemma us_timeradd a b : wf_time a -> wf_time b -> us (timeradd a b) = us a + us b /\ wf_time (timeradd a b).
Proof.
  unfold us, wf_time, timeradd. intros Ha Hb.
  destruct (Z.leb_spec 1000000 (tv_usec a + tv_usec b)); cbn [tv_sec tv_usec]; lia.
Qed.

Lemma us_timersub a b : wf_time a -> wf_time b -> us (timersub a b) = us a - us b /\ wf_time (timersub a b).
Proof.
  unfold us, wf_time, timersub. intros Ha Hb.
  destruct (Z.ltb_spec (tv_usec a - tv_usec b) 0); cbn [tv_sec tv_usec]; lia.
Qed.

Lemma TimerCountdownMS_us o0 o1 t0 ms :
  0 <= ms -> shows o0 t0 o1 ->
  exists timer, TimerCountdownMS_ ms o0 = Some (timer, o1) /\ us timer = t0 + ms * 1000 /\ wf_time timer.
Proof.
  intros Hms (now & Hg & Hw & <-). unfold TimerCountdownMS_. rewrite (M_bind_Some _ _ _ _ _ Hg). cbn beta.
  pose proof (Z.div_mod ms 1000 ltac:(lia)). pose proof (Z.mod_pos_bound ms 1000 ltac:(lia)).
  destruct (us_timeradd now (mkTimeval (ms / 1000) (ms mod 1000 * 1000)) Hw) as [Hu Hw']; [unfold wf_time; cbn; lia|].
  eexists. split; [done|]. split; [|done]. rewrite Hu. unfold us at 2. cbn [tv_sec tv_usec]. lia.
Qed.

Lemma TimerCountdown_us o0 o1 t0 s :
  0 <= s -> shows o0 t0 o1 ->
  exists timer, TimerCountdown_ s o0 = Some (timer, o1) /\ us timer = t0 + s * 1000000 /\ wf_time timer.
Proof.
  intros Hms (now & Hg & Hw & <-). unfold TimerCountdown_. rewrite (M_bind_Some _ _ _ _ _ Hg). cbn beta.
  destruct (us_timeradd now (mkTimeval s 0) Hw) as [Hu Hw']; [unfold wf_time; cbn; lia|].
  eexists. split; [done|]. split; [|done]. rewrite Hu. unfold us at 2. cbn [tv_sec tv_usec]. lia.
Qed.

Lemma TimerIsExpired_us timer o o' t :
  wf_time timer -> shows o t o' -> TimerIsExpired_ timer o = Some (us timer <=? t, o').
Proof.
  intros Hw (now & Hg & Hn & <-). unfold TimerIsExpired_. rewrite (M_bind_Some _ _ _ _ _ Hg). cbn beta.
  destruct (us_timersub timer now Hw Hn) as [Hu Hs]. unfold mret, M_ret. do 2 f_equal.
  unfold us, wf_time in *. 
  destruct (Z.leb_spec (tv_sec timer * 1000000 + tv_usec timer) (tv_sec now * 1000000 + tv_usec now)); lia.
Qed.

Lemma TimerLeftMS_us timer o o' t :
  wf_time timer -> shows o t o' -> us timer - t <= INT_MAX * 1000 ->
  TimerLeftMS_ timer o = Some (Z.max 0 ((us timer - t) / 1000), o').
Proof.
  intros Hw (now & Hg & Hn & <-) Hmax. unfold TimerLeftMS_. rewrite (M_bind_Some _ _ _ _ _ Hg). cbn beta.
  destruct (us_timersub timer now Hw Hn) as [Hu Hs]. set (res := timersub timer now) in *. rewrite <- Hu in *.
  unfold us, wf_time in *. destruct (Z.ltb_spec (tv_sec res) 0).
  - unfold mret, M_ret. do 2 f_equal. rewrite Z.max_l; [done|].
    assert ((tv_sec res * 1000000 + tv_usec res) / 1000 < 0); [|lia]. apply Z.div_lt_upper_bound; lia.
  - assert (Hd : (tv_sec res * 1000000 + tv_usec res) / 1000 = tv_sec res * 1000 + tv_usec res / 1000).
    { replace (tv_sec res * 1000000 + tv_usec res) with (tv_sec res * 1000 * 1000 + tv_usec res) by lia.
      by rewrite Z.div_add_l by lia. }
    pose proof (Z.div_pos (tv_usec res) 1000 ltac:(lia) ltac:(lia)). rewrite Z.quot_div_nonneg by lia.
    assert ((tv_sec res * 1000000 + tv_usec res) / 1000 <= INT_MAX).
    { apply Z.div_le_upper_bound; lia. }
    rewrite (M_bind_lift _ _ _ (tv_sec res * 1000)) by (apply cint_ok; unfold INT_MIN; lia).
    unfold lift. rewrite cint_ok by (unfold INT_MIN; lia). by rewrite Hd, Z.max_r by lia.
Qed.

(** The timers keep time: a timer started with [ms] milliseconds, when asked after
    any other use of the system, has expired exactly when the clock has advanced by at
    least as much, and else has the rest of the time left, in whole milliseconds;
    [TimerCountdown] is the same in seconds. *)
Theorem timers_keep_time o0 o1 o2 o3 t0 t1 ms :
  0 <= ms <= INT_MAX -> shows o0 t0 o1 -> shows o2 t1 o3 -> t0 <= t1 ->
  exists timer, TimerCountdownMS_ ms o0 = Some (timer, o1) /\
    TimerIsExpired_ timer o2 = Some (bool_decide (ms * 1000 <= t1 - t0), o3) /\
    TimerLeftMS_ timer o2 = Some (Z.max 0 (ms - (t1 - t0 + 999) / 1000), o3) /\
    (forall s, ms = s * 1000 -> TimerCountdown_ s o0 = Some (timer, o1)).
Proof.
  intros Hms H0 H1 Ht. destruct (TimerCountdownMS_us o0 o1 t0 ms ltac:(lia) H0) as (timer & Hc & Hu & Hw).
  exists timer. split; [done|]. split; [|split].
  - rewrite (TimerIsExpired_us timer o2 o3 t1) by done. rewrite Hu. do 2 f_equal. rewrite bool_decide_decide. 
    destruct (Z.leb_spec (t0 + ms * 1000) t1); case_decide; lia.
  - rewrite (TimerLeftMS_us timer o2 o3 t1) by (done || lia). rewrite Hu. do 3 f_equal.
    replace (t0 + ms * 1000 - t1) with (ms * 1000 + - (t1 - t0)) by lia. rewrite Z.div_add_l by lia.
    pose proof (Z.div_mod (t1 - t0 + 999) 1000). pose proof (Z.mod_pos_bound (t1 - t0 + 999) 1000).
    pose proof (Z.div_mod (- (t1 - t0)) 1000). pose proof (Z.mod_pos_bound (- (t1 - t0)) 1000). lia.
  - intros s ->. rewrite <- Hc. unfold TimerCountdown_, TimerCountdownMS_. by rewrite Z.div_mul, Z.mod_mul by lia.
Qed.
End Timers.

(** ** Reading *)
Section Reading.
Context `{Os}.

(** [recv] of a stream socket whose peer will send [data]: what it may do at a state. *)
Definition recv_ok (sock n : Z) (o : OS) (data : list Z) (o' : OS) (data' : list Z) : Prop :=
  (exists bs, recv sock n o = Some ((Z.of_nat (length bs), bs, 0), o') /\
     data = bs ++ data' /\ 0 < Z.of_nat (length bs) <= n) \/
  (exists e, recv sock n o = Some ((-1, [], e), o') /\ data' = data /\ (e = ENOTCONN \/ e = ECONNRESET)).

(** A run of [k] [recv]s that ends with [len] bytes in all. *)
Inductive receives (sock : Z) : nat -> Z -> OS -> list Z -> OS -> list Z -> Prop :=
  | receives_done o data : receives sock 0 0 o data o data
  | receives_more k n n' o data o1 data1 o' data' :
      0 < n -> recv_ok sock n o data o1 data1 -> n' = n - (Z.of_nat (length data) - Z.of_nat (length data1)) ->
      receives sock k n' o1 data1 o' data' -> receives sock (S k) n o data o' data'.

Lemma receives_nonneg sock k n o data o' data' : receives sock k n o data o' data' -> 0 <= n.
Proof. by destruct 1; [|lia]. Qed.

Lemma recv_loop_spec sock len k n o data o' data' :
  receives sock k n o data o' data' -> len <= INT_MAX ->
  forall fuel bytes got, n = len - bytes -> bytes = Z.of_nat (length got) -> (k <= fuel)%nat ->
  exists bs, recv_loop fuel sock len bytes got o = Some ((len, got ++ bs), o') /\ data = bs ++ data' /\
    Z.of_nat (length bs) = n.
Proof.
  intros Hr Hlen. induction Hr as [o data|k n n' o data o1 data1 o' data' Hn Hrecv Hn' Hr IH];
    intros fuel bytes got Hnb Hb Hk.
  - exists []. rewrite app_nil_r. assert (bytes = len) as -> by lia.
    destruct fuel; cbn [recv_loop]; rewrite Z.ltb_irrefl; done.
  - destruct fuel as [|fuel]; [lia|]. cbn [recv_loop]. destruct (Z.ltb_spec bytes len); [|lia]. cbn [negb].
    rewrite <- Hnb. destruct Hrecv as [(bs & Hrecv & -> & Hbs)|(e & Hrecv & -> & He)];
      rewrite (M_bind_Some _ _ _ _ _ Hrecv); cbn beta iota.
    + destruct (Z.eqb_spec (Z.of_nat (length bs)) (-1)); [lia|].
      rewrite (M_bind_lift _ _ _ (bytes + Z.of_nat (length bs))) by (apply cint_ok; unfold INT_MIN; lia).
      rewrite length_app in Hn'.
      destruct (IH fuel (bytes + Z.of_nat (length bs)) (got ++ bs)) as (bs' & He & -> & Hl);
        [lia|rewrite length_app; lia|lia|].
      exists (bs ++ bs'). rewrite He, !app_assoc, length_app. split; [done|]. split; [done|lia].
    + change (-1 =? -1) with true. cbv iota. replace (negb (e =? ENOTCONN) && negb (e =? ECONNRESET)) with false.
      2:{ destruct He as [->| ->]; done. }
      replace n with n' by lia. apply (IH fuel bytes got); lia.
Qed.

(** [linux_read] puts a stream together: however [recv] cuts the data, and however
    often it fails with a reset connection in between, [len] bytes are returned in the
    order they were sent, and no more is taken. *)
Theorem linux_read_assembles fuel sock len timeout_ms o o1 z k data o' data' :
  0 <= len <= INT_MAX -> (forall t, set_rcvtimeo sock t o = Some (z, o1)) ->
  receives sock k len o1 data o' data' -> (k <= fuel)%nat ->
  exists bs, linux_read fuel sock len timeout_ms o = Some ((len, bs), o') /\
    data = bs ++ data' /\ Z.of_nat (length bs) = len.
Proof.
  intros Hlen Hset Hr Hk. unfold linux_read. cbv zeta. rewrite (M_bind_Some _ _ _ _ _ (Hset _)). cbn beta.
  apply (recv_loop_spec sock len k len o1 data o' data' Hr) with (bytes := 0) (got := []); (done || lia).
Qed.

(** Once the peer has closed the connection [recv] returns 0, and [linux_read] does
    not return: no number of rounds is enough. *)
Theorem linux_read_closed_hangs fuel sock len timeout_ms o :
  0 < len -> (forall t o, exists z o1, set_rcvtimeo sock t o = Some (z, o1)) ->
  (forall n o, exists o1, recv sock n o = Some ((0, [], 0), o1)) ->
  linux_read fuel sock len timeout_ms o = None.
Proof.
  intros Hlen Hset Hrecv. unfold linux_read. cbv zeta.
  match goal with |- context [set_rcvtimeo sock ?t] => destruct (Hset t o) as (z & o1 & Hs) end.
  rewrite (M_bind_Some _ _ _ _ _ Hs). cbn beta. clear Hs. revert o1.
  induction fuel as [|fuel IH]; intros o1; cbn [recv_loop]; (destruct (Z.ltb_spec 0 len); [|lia]); cbn [negb]; [done|].
  destruct (Hrecv (len - 0) o1) as (o2 & Ho). rewrite (M_bind_Some _ _ _ _ _ Ho). cbn beta iota.
  change (0 =? -1) with false. cbv iota. by rewrite (M_bind_lift _ _ _ 0).
Qed.

(** [NetworkConnect] connects to the first IPv4 address of the host, and its result is
    that of [connect]; it fails when the name is not resolved or the host has no IPv4
    address.  A failure of [socket], however, is reported as 0, a success. *)
Theorem NetworkConnect_spec my_socket addr port o rc l o1 :
  0 <= port < 65536 -> getaddrinfo addr o = Some ((rc, l), o1) -> (rc = 0 -> l <> []) ->
  (rc <> 0 -> NetworkConnect my_socket addr port o = Some ((rc, my_socket), o1)) /\
  (rc = 0 -> Forall (fun a => ai_family a <> AF_INET) l ->
     NetworkConnect my_socket addr port o = Some ((-1, my_socket), o1)) /\
  (forall pre a post sock o2, rc = 0 -> l = pre ++ a :: post ->
     Forall (fun a => ai_family a <> AF_INET) pre -> ai_family a = AF_INET -> socket AF_INET o1 = Some (sock, o2) ->
     NetworkConnect my_socket addr port o =
       if decide (sock = -1) then Some ((0, -1), o2) else
       '(rc, o3) ← connect_ sock (mkSockaddr AF_INET (htons port) (ai_sin_addr a)) o2; Some ((rc, sock), o3)).
Proof.
  intros Hport Hg Hne. unfold NetworkConnect. rewrite (M_bind_Some _ _ _ _ _ Hg). cbn beta iota.
  split; [|split].
  - intros Hrc. by destruct (Z.eqb_spec rc 0).
  - intros -> Hf. cbn [Z.eqb negb]. rewrite (prefer_ip4_none l Hf).
    specialize (Hne eq_refl). destruct l as [|a l]; [done|]. apply Forall_cons in Hf as [Ha _].
    erewrite M_bind_lift by done. by destruct (Z.eqb_spec (ai_family a) AF_INET).
  - intros pre a post sock o2 -> -> Hpre Ha Hs. cbn [Z.eqb negb]. rewrite (prefer_ip4_first pre a post Hpre Ha). erewrite M_bind_lift by done. rewrite Ha. cbn [Z.eqb Pos.eqb AF_INET negb]. rewrite to_ushort_id by done.
    rewrite (M_bind_Some _ _ _ _ _ Hs). cbn beta. destruct (Z.eqb_spec sock (-1)) as [->|Hne1]; cbn [negb];
      [by rewrite decide_True|rewrite decide_False by done].
    unfold mbind at 1, M_bind. by destruct (connect_ _ _ _) as [[]|].
Qed.
End Reading.

(** ** Concrete instances *)

(** A system with a clock, in microseconds, and a stream that comes byte by byte. *)
#[local] Instance sim_os : Os := {|
  OS := Z * list Z;
  gettimeofday o := Some (mkTimeval (o.1 / 1000000) (o.1 mod 1000000), o);
  set_rcvtimeo _ _ o := Some (0, o);
  recv _ _ o := match o.2 with [] => Some ((0, [], 0), o) | x :: l => Some ((1, [x], 0), (o.1, l)) end;
  write _ bs o := Some (Z.of_nat (length bs), o);
  getaddrinfo _ o := Some ((0, [mkAddrinfo 10 1; mkAddrinfo AF_INET 2130706433]), o);
  socket _ o := Some (-1, o);
  connect_ _ _ o := Some (0, o);
  close _ o := Some (0, o)
|}.

Definition ex_os (t : Z) (data : list Z) : @OS sim_os := (t, data).

Lemma ex_shows t data : 0 <= t -> shows (ex_os t data) t (ex_os t data).
Proof.
  intros Ht. eexists. split; [done|]. unfold wf_time, us. cbn.
  pose proof (Z.div_mod t 1000000 ltac:(lia)). pose proof (Z.mod_pos_bound t 1000000 ltac:(lia)). lia.
Qed.

Lemma timers_keep_time_witness :
  exists timer, TimerCountdownMS_ 2000 (ex_os 5999900 []) = Some (timer, ex_os 5999900 []) /\
    TimerIsExpired_ timer (ex_os 6000400 []) = Some (false, ex_os 6000400 []) /\
    TimerLeftMS_ timer (ex_os 6000400 []) = Some (1999, ex_os 6000400 []) /\
    TimerCountdown_ 2 (ex_os 5999900 []) = Some (timer, ex_os 5999900 []).
Proof.
  destruct (timers_keep_time (ex_os 5999900 []) (ex_os 5999900 []) (ex_os 6000400 []) (ex_os 6000400 []) 5999900 6000400 2000)
    as (timer & H1 & H2 & H3 & H4).
  - unfold INT_MAX. lia.
  - by apply ex_shows.
  - by apply ex_shows.
  - lia.
  - exists timer. split; [exact H1|]. split; [exact H2|]. split; [exact H3|]. by apply H4.
Defined.

Lemma linux_read_assembles_witness :
  linux_read 2 3 2 100 (ex_os 0 [7; 8; 9]) = Some ((2, [7; 8]), ex_os 0 [9]).
Proof.
  destruct (linux_read_assembles 2 3 2 100 (ex_os 0 [7; 8; 9]) (ex_os 0 [7; 8; 9]) 0 2 [7; 8; 9] (ex_os 0 [9]) [9])
    as (bs & He & Hd & Hl).
  - unfold INT_MAX. lia.
  - done.
  - apply (receives_more 3 1 2 1 _ _ (ex_os 0 [8; 9]) [8; 9]); [lia| |done|].
    { left. exists [7]. split_and!; done. }
    apply (receives_more 3 0 1 0 _ _ (ex_os 0 [9]) [9]); [lia| |done|constructor].
    left. exists [8]. split_and!; done.
  - done.
  - rewrite He. by apply (app_inj_tail [7; 8] bs 9 9) in Hd as [<- _].
Defined.

(** A system whose peers have all closed their connections. *)
Definition closed_os : Os := {|
  OS := unit;
  gettimeofday o := Some (mkTimeval 0 0, o);
  set_rcvtimeo _ _ o := Some (0, o);
  recv _ _ o := Some ((0, [], 0), o);
  write _ bs o := Some (Z.of_nat (length bs), o);
  getaddrinfo _ o := Some ((0, []), o);
  socket _ o := Some (3, o);
  connect_ _ _ o := Some (0, o);
  close _ o := Some (0, o)
|}.

Lemma linux_read_closed_hangs_witness : @linux_read closed_os 50 3 1 100 tt = None.
Proof.
  apply (@linux_read_closed_hangs closed_os 50 3 1 100 tt).
  - lia.
  - intros t o. by exists 0, o.
  - intros n o. by exists o.
Defined.

(** [socket] fails, [NetworkConnect] succeeds. *)
Lemma NetworkConnect_spec_witness : NetworkConnect 0 [] 1883 (ex_os 0 []) = Some ((0, -1), ex_os 0 []).
Proof.
  destruct (NetworkConnect_spec 0 [] 1883 (ex_os 0 []) 0 [mkAddrinfo 10 1; mkAddrinfo AF_INET 2130706433] (ex_os 0 []))
    as (_ & _ & Hc); [lia|done|done|].
  rewrite (Hc [mkAddrinfo 10 1] (mkAddrinfo AF_INET 2130706433) [] (-1) (ex_os 0 [])); try done.
  by repeat constructor.
Defined.
