(* ===== verification/PahoClient.v ===== *)
(** * PahoClient: MQTTClient.h

    The C++ client the gateway uses, [MQTT::Client<IPStack, Countdown, 512, 5>]: its
    object, and every member function as a state transformer over memory, object,
    platform and the calls of message handlers so far.  MQTTCLIENT_QOS1 is 1,
    MQTTCLIENT_QOS2 is 0 and MQTT_DEBUG is not defined, as the gateway compiles it.
    A member function [f] is [Client_f]. *)
From S2P Require Import Prelude CMem Wire Packet Publish Connect Subscribe Unsubscribe Topic Platform.

(** ** C strings in memory *)

(** [strcpy(dst, src)] *)
Definition strcpy (dst src : ptr) : M mem unit :=
  m ← get; n ← lift (strlen m src); memcpy dst src (n + 1).

(** [strcmp(a, b) == 0]: the comparison ends in the block of [a] or runs off it. *)
Definition strcmp_eq (m : mem) (a b : ptr) : option bool :=
  blk ← m !! p_blk a; strncmp_eq m a b (S (length blk)).

(** ** Data *)

Definition MAX_MQTT_PACKET_SIZE : Z := 512.
Definition MAX_HANDLERS : nat := 5.
Definition PacketId_MAX : Z := 65535.

Record Message := mkMessage {
  g_qos : Z; g_retained : Z; g_dup : Z; g_id : Z; g_payload : option ptr; g_payloadlen : Z
}.

(** [struct MessageHandlers]; a function pointer is known by its address. *)
Record HandlerSlot := mkSlot { topicFilter : option ptr; fp : option nat }.

(** One call of a message handler, with its [MessageData]. *)
Record HandlerCall := mkCall { handler : nat; md_topicName : MQTTString; md_message : Message }.

Section Definitions.
Context `{CharAbi} `{Platform}.

(** The members; the arrays are blocks of memory. *)
Record ClientObj := mkObj {
  command_timeout_ms : Z; sendbuf : ptr; readbuf : ptr; pubbuf : ptr; topicFilters : list ptr;
  last_sent : Timer; last_received : Timer; keepAliveInterval_ : Z; ping_outstanding : bool; cleansession_ : Z;
  next : Z; messageHandlers : list HandlerSlot; defaultMessageHandler : option nat; isconnected : bool;
  inflightLen : Z; inflightMsgid : Z; inflightQoS : Z
}.

(** Assignments to members. *)
Definition put_last_sent (x : Timer) (o : ClientObj) : ClientObj :=
  mkObj (command_timeout_ms o) (sendbuf o) (readbuf o) (pubbuf o) (topicFilters o) x (last_received o) 
    (keepAliveInterval_ o) (ping_outstanding o) (cleansession_ o) (next o) (messageHandlers o) 
    (defaultMessageHandler o) (isconnected o) (inflightLen o) (inflightMsgid o) (inflightQoS o).
Definition put_last_received (x : Timer) (o : ClientObj) : ClientObj :=
  mkObj (command_timeout_ms o) (sendbuf o) (readbuf o) (pubbuf o) (topicFilters o) (last_sent o) x 
    (keepAliveInterval_ o) (ping_outstanding o) (cleansession_ o) (next o) (messageHandlers o) 
    (defaultMessageHandler o) (isconnected o) (inflightLen o) (inflightMsgid o) (inflightQoS o).
Definition put_ping_outstanding (x : bool) (o : ClientObj) : ClientObj :=
  mkObj (command_timeout_ms o) (sendbuf o) (readbuf o) (pubbuf o) (topicFilters o) (last_sent o) (last_received o) 
    (keepAliveInterval_ o) x (cleansession_ o) (next o) (messageHandlers o) (defaultMessageHandler o) (isconnected o) 
    (inflightLen o) (inflightMsgid o) (inflightQoS o).
Definition put_next (x : Z) (o : ClientObj) : ClientObj :=
  mkObj (command_timeout_ms o) (sendbuf o) (readbuf o) (pubbuf o) (topicFilters o) (last_sent o) (last_received o) 
    (keepAliveInterval_ o) (ping_outstanding o) (cleansession_ o) x (messageHandlers o) (defaultMessageHandler o) 
    (isconnected o) (inflightLen o) (inflightMsgid o) (inflightQoS o).
Definition put_messageHandlers (x : list HandlerSlot) (o : ClientObj) : ClientObj :=
  mkObj (command_timeout_ms o) (sendbuf o) (readbuf o) (pubbuf o) (topicFilters o) (last_sent o) (last_received o) 
    (keepAliveInterval_ o) (ping_outstanding o) (cleansession_ o) (next o) x (defaultMessageHandler o) 
    (isconnected o) (inflightLen o) (inflightMsgid o) (inflightQoS o).
Definition put_defaultMessageHandler (x : option nat) (o : ClientObj) : ClientObj :=
  mkObj (command_timeout_ms o) (sendbuf o) (readbuf o) (pubbuf o) (topicFilters o) (last_sent o) (last_received o) 
    (keepAliveInterval_ o) (ping_outstanding o) (cleansession_ o) (next o) (messageHandlers o) x (isconnected o) 
    (inflightLen o) (inflightMsgid o) (inflightQoS o).
Definition put_isconnected (x : bool) (o : ClientObj) : ClientObj :=
  mkObj (command_timeout_ms o) (sendbuf o) (readbuf o) (pubbuf o) (topicFilters o) (last_sent o) (last_received o) 
    (keepAliveInterval_ o) (ping_outstanding o) (cleansession_ o) (next o) (messageHandlers o) 
    (defaultMessageHandler o) x (inflightLen o) (inflightMsgid o) (inflightQoS o).
Definition put_inflightMsgid (x : Z) (o : ClientObj) : ClientObj :=
  mkObj (command_timeout_ms o) (sendbuf o) (readbuf o) (pubbuf o) (topicFilters o) (last_sent o) (last_received o) 
    (keepAliveInterval_ o) (ping_outstanding o) (cleansession_ o) (next o) (messageHandlers o) 
    (defaultMessageHandler o) (isconnected o) (inflightLen o) x (inflightQoS o).
Definition put_options (x0 : Z) (x1 : Z) (o : ClientObj) : ClientObj :=
  mkObj (command_timeout_ms o) (sendbuf o) (readbuf o) (pubbuf o) (topicFilters o) (last_sent o) (last_received o) x0 
    (ping_outstanding o) x1 (next o) (messageHandlers o) (defaultMessageHandler o) (isconnected o) (inflightLen o) 
    (inflightMsgid o) (inflightQoS o).
Definition put_session (x0 : bool) (x1 : list HandlerSlot) (x2 : bool) (x3 : Z) (x4 : Z) (o : ClientObj) : ClientObj :=
  mkObj (command_timeout_ms o) (sendbuf o) (readbuf o) (pubbuf o) (topicFilters o) (last_sent o) (last_received o) 
    (keepAliveInterval_ o) x0 (cleansession_ o) (next o) x1 (defaultMessageHandler o) x2 (inflightLen o) x3 x4.
Definition put_inflight (x0 : Z) (x1 : Z) (x2 : Z) (o : ClientObj) : ClientObj :=
  mkObj (command_timeout_ms o) (sendbuf o) (readbuf o) (pubbuf o) (topicFilters o) (last_sent o) (last_received o) 
    (keepAliveInterval_ o) (ping_outstanding o) (cleansession_ o) (next o) (messageHandlers o) 
    (defaultMessageHandler o) (isconnected o) x0 x1 x2.


Record st := mkSt { s_mem : mem; s_o : ClientObj; s_w : W; s_log : list HandlerCall }.

Definition on_mem {A} (f : M mem A) : M st A := fun s =>
  match f (s_mem s) with Some (a, m) => Some (a, mkSt m (s_o s) (s_w s) (s_log s)) | None => None end.
Definition on_w {A} (f : M W A) : M st A := fun s =>
  match f (s_w s) with Some (a, w) => Some (a, mkSt (s_mem s) (s_o s) w (s_log s)) | None => None end.
Definition get_o : M st ClientObj := fun s => Some (s_o s, s).
Definition set_o (o : ClientObj) : M st unit := fun s => Some (tt, mkSt (s_mem s) o (s_w s) (s_log s)).

(** ** Construction *)

Definition free_slots (hs : list HandlerSlot) : list HandlerSlot := map (fun h => mkSlot None (fp h)) hs.

Definition cleaned (o : ClientObj) : ClientObj := put_session false (free_slots (messageHandlers o)) false 0 QOS0 o.
Definition Client_cleanSession : M st unit := o ← get_o; set_o (cleaned o).

(** [o]: the storage of the object before its constructor. *)
Definition Client_Client (command_timeout_ms_ : Z) (o : ClientObj) : ClientObj :=
  cleaned (mkObj command_timeout_ms_ (sendbuf o) (readbuf o) (pubbuf o) (topicFilters o) (last_sent o) (last_received o)
    (keepAliveInterval_ o) (ping_outstanding o) (cleansession_ o) 0 (map (fun h => mkSlot (topicFilter h) None) (messageHandlers o))
    None (isconnected o) (inflightLen o) (inflightMsgid o) (inflightQoS o)).

Definition Client_setDefaultMessageHandler (mh : nat) : M st unit := o ← get_o; set_o (put_defaultMessageHandler (Some mh) o).
Definition Client_isConnected : M st bool := o ← get_o; mret (isconnected o).

Definition PacketId_getNext : M st Z :=
  o ← get_o;
  n ← lift (if next o =? PacketId_MAX then Some 1 else cint (next o + 1));
  set_o (put_next n o);; mret n.

(** ** Sending and receiving *)

(** The loop of [sendPacket]; one write per unit of fuel.  Returns [sent]. *)
Fixpoint Client_send_loop (fuel : nat) (length sent : Z) (timer : Timer) : M st Z :=
  if negb (sent <? length) then mret sent else
  expired ← on_w (TimerIsExpired timer);
  if (expired : bool) then mret sent else
  match fuel with
  | O => undefined
  | S fuel' =>
    o ← get_o;
    left ← on_w (TimerLeftMS timer);
    m ← on_mem get;
    bs ← lift (load_bytes m (padd (sendbuf o) sent) (length - sent));
    rc ← on_w (mqttwrite bs left);
    if rc <? 0 then mret sent else
    sent ← lift (cint (sent + rc));
    Client_send_loop fuel' length sent timer
  end.

Definition Client_sendPacket (fuel : nat) (length : Z) (timer : Timer) : M st Z :=
  sent ← Client_send_loop fuel length 0 timer;
  if sent =? length then
    o ← get_o;
    if 0 <? keepAliveInterval_ o then
      t ← on_w (TimerCountdown (last_sent o) (keepAliveInterval_ o));
      set_o (put_last_sent t o);; mret SUCCESS
    else mret SUCCESS
  else mret FAILURE.

(** The loop is that of [MQTTPacket_decode]; returns [len] and [*value]. *)
Definition Client_decodePacket (timeout : Z) : M st (Z * Z) :=
  on_w (decode_loop (fun n => mqttread n timeout) 5 None 1 0 0).

(** [ipstack.read(p, n, timeout)] *)
Definition ipstack_read (p : ptr) (n timeout : Z) : M st Z :=
  r ← on_w (mqttread n timeout);
  on_mem (stores p r.2);; mret r.1.

Definition Client_readPacket (timer : Timer) : M st Z :=
  o ← get_o;
  left ← on_w (TimerLeftMS timer);
  r ← ipstack_read (readbuf o) 1 left;
  if negb (r =? 1) then mret FAILURE else
  left ← on_w (TimerLeftMS timer);
  '(_, rem_len) ← Client_decodePacket left;
  n ← on_mem (MQTTPacket_encode (padd (readbuf o) 1) rem_len);
  let len := 1 + n in
  if MAX_MQTT_PACKET_SIZE - len <? rem_len then mret BUFFER_OVERFLOW else
  bad ← (if 0 <? rem_len then
           left ← on_w (TimerLeftMS timer);
           r ← ipstack_read (padd (readbuf o) len) rem_len left;
           mret (negb (r =? rem_len))
         else mret false);
  if (bad : bool) then mret FAILURE else
  m ← on_mem get;
  header ← lift (load m (readbuf o));
  o ← get_o;
  (if 0 <? keepAliveInterval_ o then
     t ← on_w (TimerCountdown (last_received o) (keepAliveInterval_ o)); set_o (put_last_received t o)
   else mret tt);;
  mret (hdr_type header).

(** ** Delivering *)

(** The text of [isTopicMatched] is that of MQTTClient.c. *)
Definition Client_isTopicMatched (m : mem) (topicFilter : ptr) (topicName : MQTTString) : option bool :=
  isTopicMatched m topicFilter topicName.

(** [fp(md)] *)
Definition FP_call (f : nat) (topicName : MQTTString) (message : Message) : M st unit := fun s =>
  Some (tt, mkSt (s_mem s) (s_o s) (s_w s) (s_log s ++ [mkCall f topicName message])).

(** The condition on [messageHandlers[i]]. *)
Definition slot_matches (m : mem) (h : HandlerSlot) (topicName : MQTTString) : option bool :=
  match topicFilter h with
  | None => Some false
  | Some f =>
    eq ← MQTTPacket_equals m topicName f;
    if (eq : bool) then Some true else Client_isTopicMatched m f topicName
  end.

Definition Client_deliverMessage (topicName : MQTTString) (message : Message) : M st Z :=
  rc ← c_for 0 MAX_HANDLERS (fun i rc =>
    o ← get_o; m ← on_mem get;
    h ← lift (messageHandlers o !! i);
    b ← lift (slot_matches m h topicName);
    if (b : bool) then
      match fp h with Some f => FP_call f topicName message;; mret SUCCESS | None => mret rc end
    else mret rc) FAILURE;
  o ← get_o;
  match defaultMessageHandler o with
  | Some f => if rc =? FAILURE then FP_call f topicName message;; mret SUCCESS else mret rc
  | None => mret rc
  end.

Definition Client_keepalive (fuel : nat) : M st Z :=
  o ← get_o;
  if keepAliveInterval_ o =? 0 then mret SUCCESS else
  sent ← on_w (TimerIsExpired (last_sent o));
  due ← (if (sent : bool) then mret true else on_w (TimerIsExpired (last_received o)));
  if negb due then mret FAILURE else
  if ping_outstanding o then mret FAILURE else
  timer ← on_w (TimerCountdownMS TimerInit 1000);
  len ← on_mem (MQTTSerialize_pingreq (sendbuf o) MAX_MQTT_PACKET_SIZE);
  if negb (0 <? len) then mret FAILURE else
  rc ← Client_sendPacket fuel len timer;
  if rc =? SUCCESS then o ← get_o; set_o (put_ping_outstanding true o);; mret rc else mret rc.

(** ** One packet *)

(** [stack]: the indeterminate values of the uninitialised locals. *)
Context (stack : publish_out).

(** The answer to a PUBLISH: [MQTTSerialize_ack], then [sendPacket]. *)
Definition Client_send_ack (fuel : nat) (packettype packetid : Z) (timer : Timer) : M st Z :=
  o ← get_o;
  len ← on_mem (MQTTSerialize_ack (sendbuf o) MAX_MQTT_PACKET_SIZE packettype 0 packetid);
  if len <=? 0 then mret FAILURE else Client_sendPacket fuel len timer.

(** [case PUBLISH]; returns [rc] and whether [goto exit] was taken. *)
Definition Client_cycle_publish (fuel : nat) (timer : Timer) : M st (Z * bool) :=
  o ← get_o; m ← on_mem get;
  '(ok, p) ← lift (MQTTDeserialize_publish m stack (readbuf o) MAX_MQTT_PACKET_SIZE);
  if negb (ok =? 1) then mret (SUCCESS, true) else
  let msg := mkMessage (po_qos p) (po_retained p) (po_dup p) (po_packetid p) (po_payload p) (to_uint (po_payloadlen p)) in
  Client_deliverMessage (po_topicName p) msg;;
  if g_qos msg =? QOS0 then mret (SUCCESS, false) else
  rc ← (if g_qos msg =? QOS1 then Client_send_ack fuel PUBACK (g_id msg) timer
        else if g_qos msg =? QOS2 then Client_send_ack fuel PUBREC (g_id msg) timer
        else mret FAILURE);
  mret (rc, rc =? FAILURE).

Definition Client_cycle (fuel : nat) (timer : Timer) : M st Z :=
  packet_type ← Client_readPacket timer;
  '(rc, goto_exit) ←
    (if (packet_type =? FAILURE) || (packet_type =? BUFFER_OVERFLOW) then mret (packet_type, false)
     else if packet_type =? PUBLISH then Client_cycle_publish fuel timer
     else if packet_type =? PINGRESP then o ← get_o; set_o (put_ping_outstanding false o);; mret (SUCCESS, false)
     else mret (SUCCESS, false));
  (if (goto_exit : bool) then mret FAILURE else Client_keepalive fuel);;
  mret (if rc =? SUCCESS then packet_type else rc).

Fixpoint Client_yield_loop (fuel : nat) (timer : Timer) : M st Z :=
  match fuel with
  | O => undefined
  | S fuel' =>
    expired ← on_w (TimerIsExpired timer);
    if (expired : bool) then mret SUCCESS else
    r ← Client_cycle fuel timer;
    if r <? 0 then mret FAILURE else Client_yield_loop fuel' timer
  end.

Definition Client_yield (fuel : nat) (timeout_ms : Z) : M st Z :=
  timer ← on_w (TimerCountdownMS TimerInit (to_int timeout_ms));
  Client_yield_loop fuel timer.

Fixpoint Client_waitfor_loop (fuel : nat) (packet_type rc : Z) (timer : Timer) : M st Z :=
  match fuel with
  | O => undefined
  | S fuel' =>
    expired ← on_w (TimerIsExpired timer);
    if (expired : bool) then mret rc else
    rc ← Client_cycle fuel timer;
    if negb (rc =? packet_type) then Client_waitfor_loop fuel' packet_type rc timer else mret rc
  end.

Definition Client_waitfor (fuel : nat) (packet_type : Z) (timer : Timer) : M st Z :=
  Client_waitfor_loop fuel packet_type FAILURE timer.

(** ** The commands *)

(** [Timer timer(command_timeout_ms);] *)
Definition Client_timer : M st Timer :=
  o ← get_o; on_w (TimerCountdownMS TimerInit (to_int (command_timeout_ms o))).

(** [exit: if (rc != SUCCESS) cleanSession(); return rc;] *)
Definition or_clean (rc : Z) : M st Z := if negb (rc =? SUCCESS) then Client_cleanSession;; mret rc else mret rc.

(** The private [publish(int len, Timer& timer, enum QoS qos)]. *)
Definition Client_publish_sent (fuel : nat) (len : Z) (timer : Timer) (qos : Z) : M st Z :=
  rc ← Client_sendPacket fuel len timer;
  rc ← (if negb (rc =? SUCCESS) then mret rc else
        if qos =? QOS1 then
          r ← Client_waitfor fuel PUBACK timer;
          if r =? PUBACK then
            o ← get_o; m ← on_mem get;
            '(ok, a) ← lift (MQTTDeserialize_ack m (mkAckOut 0 0 (po_packetid stack)) (readbuf o) MAX_MQTT_PACKET_SIZE);
            if negb (ok =? 1) then mret FAILURE else
            if inflightMsgid o =? ao_packetid a then set_o (put_inflightMsgid 0 o);; mret rc else mret rc
          else mret FAILURE
        else mret rc);
  or_clean rc.

(** [connect(MQTTPacket_connectData&)] up to the CONNACK: [rc], or [None] for a [goto exit] with it. *)
Definition Client_connect_sent (fuel : nat) (connect_timer : Timer) (options : MQTTPacket_connectData) : M st (Z * bool) :=
  o ← get_o;
  set_o (put_options (Connect.keepAliveInterval options) (Connect.cleansession options) o);;
  len ← on_mem (MQTTSerialize_connect (sendbuf o) MAX_MQTT_PACKET_SIZE options);
  if len <=? 0 then mret (FAILURE, true) else
  rc ← Client_sendPacket fuel len connect_timer;
  if negb (rc =? SUCCESS) then mret (rc, true) else
  o ← get_o;
  (if 0 <? keepAliveInterval_ o then
     t ← on_w (TimerCountdown (last_received o) (keepAliveInterval_ o)); set_o (put_last_received t o)
   else mret tt);;
  r ← Client_waitfor fuel CONNACK connect_timer;
  if r =? CONNACK then
    o ← get_o; m ← on_mem get;
    '(ok, _, connack_rc) ← lift (MQTTDeserialize_connack m 0 255 (readbuf o) MAX_MQTT_PACKET_SIZE);
    mret (if ok =? 1 then connack_rc else FAILURE, false)
  else mret (FAILURE, false).

Definition Client_connect (fuel : nat) (options : MQTTPacket_connectData) : M st Z :=
  connect_timer ← Client_timer;
  o ← get_o;
  rc ← (if isconnected o then mret FAILURE else
        '(rc, goto_exit) ← Client_connect_sent fuel connect_timer options;
        if (goto_exit : bool) then mret rc else
        o ← get_o;
        if 0 <? inflightMsgid o then
          on_mem (memcpy (sendbuf o) (pubbuf o) MAX_MQTT_PACKET_SIZE);;
          Client_publish_sent fuel (inflightLen o) connect_timer (inflightQoS o)
        else mret rc);
  if rc =? SUCCESS then o ← get_o; set_o (put_isconnected true o);; mret rc else mret rc.

Definition Client_connect_default (fuel : nat) : M st Z := Client_connect fuel MQTTPacket_connectData_initializer.

(** The first free slot takes the filter, copied into its own array, and the handler. *)
Fixpoint Client_add_handler (i : nat) (n : nat) (filter : ptr) (mh : nat) : M st bool :=
  match n with
  | O => mret false
  | S n' =>
    o ← get_o;
    h ← lift (messageHandlers o !! i);
    match topicFilter h with
    | Some _ => Client_add_handler (S i) n' filter mh
    | None =>
      name ← lift (topicFilters o !! i);
      m ← on_mem get;
      len ← lift (strlen m filter);
      (if len <? 254 then on_mem (strcpy name filter) else mret tt);;
      set_o (put_messageHandlers (<[i := mkSlot (Some name) (Some mh)]> (messageHandlers o)) o);;
      mret true
    end
  end.

Definition string_topic (p : ptr) : MQTTString := mkMQTTString (Some p) 0 None.

Definition Client_subscribe (fuel : nat) (filter : ptr) (qos : Z) (mh : nat) : M st Z :=
  timer ← Client_timer;
  o ← get_o;
  rc ← (if negb (isconnected o) then mret FAILURE else
        id ← PacketId_getNext;
        len ← on_mem (MQTTSerialize_subscribe (sendbuf o) MAX_MQTT_PACKET_SIZE 0 (to_ushort id) 1 [string_topic filter] [qos]);
        if len <=? 0 then mret FAILURE else
        rc ← Client_sendPacket fuel len timer;
        if negb (rc =? SUCCESS) then mret rc else
        r ← Client_waitfor fuel SUBACK timer;
        if r =? SUBACK then
          m ← on_mem get;
          '(ok, a) ← lift (MQTTDeserialize_suback m (mkSubackOut (po_packetid stack) 0 [-1]) 1 (readbuf o) MAX_MQTT_PACKET_SIZE);
          rc ← (if ok =? 1 then lift (arr_get (so_grantedQoSs a) 0) else mret rc);
          if negb (rc =? 128) then
            added ← Client_add_handler 0 MAX_HANDLERS filter mh;
            mret (if (added : bool) then 0 else rc)
          else mret rc
        else mret FAILURE);
  or_clean rc.

(** The first slot with this filter is freed. *)
Fixpoint Client_remove_handler (i : nat) (n : nat) (filter : ptr) : M st unit :=
  match n with
  | O => mret tt
  | S n' =>
    o ← get_o; m ← on_mem get;
    h ← lift (messageHandlers o !! i);
    hit ← lift (match topicFilter h with Some f => strcmp_eq m f filter | None => Some false end);
    if (hit : bool) then set_o (put_messageHandlers (<[i := mkSlot None (fp h)]> (messageHandlers o)) o)
    else Client_remove_handler (S i) n' filter
  end.

Definition Client_unsubscribe (fuel : nat) (filter : ptr) : M st Z :=
  timer ← Client_timer;
  o ← get_o;
  rc ← (if negb (isconnected o) then mret FAILURE else
        id ← PacketId_getNext;
        len ← on_mem (MQTTSerialize_unsubscribe (sendbuf o) MAX_MQTT_PACKET_SIZE 0 (to_ushort id) 1 [string_topic filter]);
        if len <=? 0 then mret FAILURE else
        rc ← Client_sendPacket fuel len timer;
        if negb (rc =? SUCCESS) then mret rc else
        r ← Client_waitfor fuel UNSUBACK timer;
        if r =? UNSUBACK then
          m ← on_mem get;
          '(ok, _) ← lift (MQTTDeserialize_unsuback m (po_packetid stack) (readbuf o) MAX_MQTT_PACKET_SIZE);
          if ok =? 1 then Client_remove_handler 0 MAX_HANDLERS filter;; mret 0 else mret rc
        else mret FAILURE);
  or_clean rc.

(** [publish(topicName, payload, payloadlen, id, qos, retained)]: [rc] and [id]. *)
Definition Client_publish_id (fuel : nat) (topicName payload : ptr) (payloadlen id qos retained : Z) : M st (Z * Z) :=
  timer ← Client_timer;
  o ← get_o;
  if negb (isconnected o) then mret (FAILURE, id) else
  id ← (if (qos =? QOS1) || (qos =? QOS2) then n ← PacketId_getNext; mret (to_ushort n) else mret id);
  len ← on_mem (MQTTSerialize_publish (sendbuf o) MAX_MQTT_PACKET_SIZE 0 qos retained id (string_topic topicName) payload
                  (to_int payloadlen));
  if len <=? 0 then mret (FAILURE, id) else
  (if cleansession_ o =? 0 then
     on_mem (memcpy (pubbuf o) (sendbuf o) len);;
     o ← get_o; set_o (put_inflight len id qos o)
   else mret tt);;
  rc ← Client_publish_sent fuel len timer qos;
  mret (rc, id).

Definition Client_publish_payload (fuel : nat) (topicName payload : ptr) (payloadlen qos retained : Z) : M st Z :=
  '(rc, _) ← Client_publish_id fuel topicName payload payloadlen 0 qos retained; mret rc.

Definition Client_publish (fuel : nat) (topicName : ptr) (message : Message) : M st Z :=
  payload ← lift (g_payload message);
  Client_publish_payload fuel topicName payload (g_payloadlen message) (g_qos message) (g_retained message).

Definition Client_disconnect (fuel : nat) : M st Z :=
  timer ← Client_timer;
  o ← get_o;
  len ← on_mem (MQTTSerialize_disconnect (sendbuf o) MAX_MQTT_PACKET_SIZE);
  rc ← (if 0 <? len then Client_sendPacket fuel len timer else mret FAILURE);
  o ← get_o;
  (if negb (cleansession_ o =? 0) then Client_cleanSession else set_o (put_isconnected false o));;
  mret rc.

End Definitions.
