(* ===== verification/PahoSpec.v ===== *)
(** * PahoSpec: what the C++ client promises

    The client of PahoClient.v on a platform without faults: sending and receiving,
    delivery, and the commands end to end, with a calculus of postconditions over its
    state. *)
From S2P Require Import Prelude CMem Wire Packet Publish Connect Subscribe Unsubscribe Topic Platform PahoClient.

(** ** Memory outside some blocks *)

(** Only blocks of [B] have changed, and all of them are still there. *)
Definition changed (B : list nat) (m m' : mem) : Prop :=
  (forall b, b ∉ B -> m' !! b = m !! b) /\ (forall q n, room m q n -> room m' q n).

Lemma changed_refl B m : changed B m m.
Proof. done. Qed.
Lemma changed_trans B m1 m2 m3 : changed B m1 m2 -> changed B m2 m3 -> changed B m1 m3.
Proof. intros [H1 R1] [H2 R2]. split; [|auto]. intros b Hb. by rewrite H2, H1. Qed.
Lemma changed_one b B m m' : b ∈ B -> changed [b] m m' -> changed B m m'.
Proof. intros Hb [H R]. split; [|done]. intros c Hc. apply H. intros ->%list_elem_of_singleton. by apply Hc. Qed.
Lemma changed_store m p bs m' : store_bytes m p bs = Some m' -> changed [p_blk p] m m'.
Proof.
  intros Hs. split; [|intros q n; by apply (store_bytes_room _ _ _ _ q n Hs)].
  intros b Hb. apply (store_bytes_agree _ _ _ _ Hs). intros ->. by apply Hb, list_elem_of_singleton.
Qed.
Lemma changed_load B m m' p n : changed B m m' -> p_blk p ∉ B -> load_bytes m' p n = load_bytes m p n.
Proof. intros [H _] Hp. unfold load_bytes. by rewrite H. Qed.
Lemma changed_at B m m' p bs : changed B m m' -> p_blk p ∉ B -> at_bytes m p bs -> at_bytes m' p bs.
Proof. intros Hm Hp. unfold at_bytes. by rewrite (changed_load B m m'). Qed.
Lemma changed_cstr B m m' p t : changed B m m' -> p_blk p ∉ B -> cstr m p t -> cstr m' p t.
Proof. intros Hm Hp [Hat Hz]. split; [|done]. by eapply changed_at. Qed.

Section Spec.
Context `{CharAbi} `{IdealPlatform}.
Implicit Types (m : mem) (o : ClientObj) (w : W) (l : list HandlerCall) (timer : Timer).

(** ** Rules of the state *)

Lemma wp_on_mem {A} (f : M mem A) (Q : A -> st -> Prop) m o w l :
  wp f (fun a m' => Q a (mkSt m' o w l)) m -> wp (on_mem f) Q (mkSt m o w l).
Proof. unfold wp, on_mem. cbn [s_mem s_o s_w s_log]. by destruct (f m) as [[a m']|]. Qed.
Lemma wp_on_w {A} (f : M W A) (Q : A -> st -> Prop) m o w l a w' :
  f w = Some (a, w') -> Q a (mkSt m o w' l) -> wp (on_w f) Q (mkSt m o w l).
Proof. unfold wp, on_w. cbn [s_mem s_o s_w s_log]. by intros ->. Qed.
Lemma wp_get_o (Q : ClientObj -> st -> Prop) m o w l : Q o (mkSt m o w l) -> wp get_o Q (mkSt m o w l).
Proof. done. Qed.
Lemma wp_set_o (Q : unit -> st -> Prop) o' m o w l : Q tt (mkSt m o' w l) -> wp (set_o o') Q (mkSt m o w l).
Proof. done. Qed.
Lemma wp_FP_call f x msg (Q : unit -> st -> Prop) m o w l : Q tt (mkSt m o w (l ++ [mkCall f x msg])) -> wp (FP_call f x msg) Q (mkSt m o w l).
Proof. done. Qed.
Lemma wp_get_mem (Q : mem -> st -> Prop) m o w l : Q m (mkSt m o w l) -> wp (on_mem get) Q (mkSt m o w l).
Proof. done. Qed.

Lemma wp_left timer (Q : Z -> st -> Prop) m o w l :
  (forall ms, Q ms (mkSt m o w l)) -> wp (on_w (TimerLeftMS timer)) Q (mkSt m o w l).
Proof. intros HQ. destruct (left_law timer w) as (ms & Hms). by eapply wp_on_w. Qed.
Lemma wp_expired timer (Q : bool -> st -> Prop) m o w l :
  Q (expired timer) (mkSt m o w l) -> wp (on_w (TimerIsExpired timer)) Q (mkSt m o w l).
Proof. intros HQ. eapply wp_on_w; [apply expired_law|done]. Qed.
Lemma wp_countdown t sec (Q : Timer -> st -> Prop) m o w l :
  (forall t', (0 < sec -> expired t' = false) -> Q t' (mkSt m o w l)) -> wp (on_w (TimerCountdown t sec)) Q (mkSt m o w l).
Proof. intros HQ. destruct (countdown_law t sec w) as (t' & Ht & He). eapply wp_on_w; [done|auto]. Qed.
Lemma wp_countdown_ms t ms (Q : Timer -> st -> Prop) m o w l :
  (forall t', (0 < ms -> expired t' = false) -> Q t' (mkSt m o w l)) -> wp (on_w (TimerCountdownMS t ms)) Q (mkSt m o w l).
Proof. intros HQ. destruct (countdown_ms_law t ms w) as (t' & Ht & He). eapply wp_on_w; [done|auto]. Qed.

(** Storing in a buffer with room for it. *)
Lemma wp_stores p bs n (Q : unit -> mem -> Prop) m :
  room m p n -> Z.of_nat (length bs) <= n ->
  (forall m', store_bytes m p bs = Some m' -> changed [p_blk p] m m' -> at_bytes m' p bs -> Q tt m') -> wp (stores p bs) Q m.
Proof.
  intros Hr Hn HQ. destruct (room_store _ _ bs _ Hr Hn) as (m' & Hs). unfold wp, stores. rewrite Hs. cbn [mbind option_bind].
  apply HQ; [done|by eapply changed_store|by eapply store_bytes_at].
Qed.

(** What a serializer stores. *)
Lemma wp_stored (ser : M mem Z) p bs n (Q : Z -> mem -> Prop) m :
  ser m = stored m p bs -> room m p n -> Z.of_nat (length bs) <= n ->
  (forall m', changed [p_blk p] m m' -> at_bytes m' p bs -> Q (Z.of_nat (length bs)) m') -> wp ser Q m.
Proof.
  intros Hser Hr Hn HQ. destruct (room_store _ _ bs _ Hr Hn) as (m' & Hs). unfold wp. rewrite Hser. unfold stored. rewrite Hs.
  apply HQ; [by eapply changed_store|by eapply store_bytes_at].
Qed.

(** ** The object up to its timers *)

Definition retimed o o' : Prop := exists a b, o' = put_last_sent a (put_last_received b o).
(** Nothing is due for the keep-alive. *)
Definition no_ping o : Prop :=
  keepAliveInterval_ o = 0 \/ expired (last_sent o) = false /\ expired (last_received o) = false.

Lemma retimed_refl o : retimed o o.
Proof. exists (last_sent o), (last_received o). by destruct o. Qed.
Lemma retimed_trans o1 o2 o3 : retimed o1 o2 -> retimed o2 o3 -> retimed o1 o3.
Proof. intros (a & b & ->) (a' & b' & ->). by exists a', b'. Qed.
Lemma retimed_sent a o : retimed o (put_last_sent a o).
Proof. exists a, (last_received o). by destruct o. Qed.
Lemma retimed_received b o : retimed o (put_last_received b o).
Proof. exists (last_sent o), b. by destruct o. Qed.
End Spec.

Create HintDb paho.
#[export] Hint Resolve changed_refl retimed_refl retimed_sent retimed_received : paho.

(** Steps of a computation that need no choice. *)
Ltac pstep := lazymatch goal with
  | |- wp (mbind _ _) _ _ => apply wp_bind
  | |- wp (mret _) _ _ => apply wp_ret
  | |- wp get_o _ _ => apply wp_get_o
  | |- wp (set_o _) _ _ => apply wp_set_o
  | |- wp (FP_call _ _ _) _ _ => apply wp_FP_call
  | |- wp (on_mem get) _ _ => apply wp_get_mem
  | |- wp (on_mem _) _ _ => apply wp_on_mem
  | |- wp (on_w (TimerIsExpired _)) _ _ => apply wp_expired
  | |- wp (on_w (TimerLeftMS _)) _ _ => apply wp_left; intros ?ms
  end.
Ltac psteps := cbn beta iota zeta; repeat (pstep; cbn beta iota zeta).

(** ** Sending and receiving *)
Section Wire.
Context `{CharAbi} `{IdealPlatform}.
Implicit Types (m : mem) (o : ClientObj) (w : W) (l : list HandlerCall) (timer : Timer).

(** The object after a packet was sent, or received. *)
Definition sent_at (t : Timer) o : ClientObj := if 0 <? keepAliveInterval_ o then put_last_sent t o else o.
Definition received_at (t : Timer) o : ClientObj := if 0 <? keepAliveInterval_ o then put_last_received t o else o.

Lemma wp_sendPacket fuel bs timer (Q : Z -> st -> Prop) m o w l :
  at_bytes m (sendbuf o) bs -> bs <> [] -> Z.of_nat (length bs) <= INT_MAX -> expired timer = false ->
  (forall t w', (0 < keepAliveInterval_ o -> expired t = false) -> incoming w' = incoming w -> outgoing w' = outgoing w ++ bs ->
     Q SUCCESS (mkSt m (sent_at t o) w' l)) ->
  wp (Client_sendPacket (S fuel) (Z.of_nat (length bs)) timer) Q (mkSt m o w l).
Proof.
  intros Hat Hne Hmax Ht HQ. unfold Client_sendPacket. psteps.
  assert (Hlen : 0 < Z.of_nat (length bs)) by (destruct bs; [done|simpl; lia]).
  cbn [Client_send_loop]. destruct (Z.ltb_spec 0 (Z.of_nat (length bs))); [|lia]. cbn [negb]. psteps. rewrite Ht. psteps.
  rewrite padd_0, Z.sub_0_r. eapply wp_lift; [exact Hat|]. psteps.
  destruct (write_law bs ms w) as (w' & Hw & Hin & Hout). eapply wp_on_w; [exact Hw|].
  destruct (Z.ltb_spec (Z.of_nat (length bs)) 0); [lia|]. psteps.
  eapply wp_lift; [apply cint_ok; unfold INT_MIN; lia|]. rewrite Z.add_0_l.
  assert (Hstop : forall f (Q' : Z -> st -> Prop) s, Q' (Z.of_nat (length bs)) s ->
    wp (Client_send_loop f (Z.of_nat (length bs)) (Z.of_nat (length bs)) timer) Q' s).
  { intros f Q' s HQ'. destruct f; cbn [Client_send_loop]; rewrite Z.ltb_irrefl; exact HQ'. }
  apply Hstop. rewrite Z.eqb_refl. psteps. specialize (HQ).
  destruct (countdown_law (last_sent o) (keepAliveInterval_ o) w') as (t & Hcd & Hexp). specialize (HQ t w' Hexp Hin Hout).
  unfold sent_at in HQ. destruct (0 <? keepAliveInterval_ o); psteps; [|exact HQ].
  eapply wp_on_w; [exact Hcd|]. psteps. exact HQ.
Qed.

Lemma wp_ipstack_read p n (bs rest : list Z) ms k (Q : Z -> st -> Prop) m o w l :
  incoming w = bs ++ rest -> n = Z.of_nat (length bs) -> room m p k -> n <= k ->
  (forall m' w', store_bytes m p bs = Some m' -> incoming w' = rest -> outgoing w' = outgoing w -> Q n (mkSt m' o w' l)) ->
  wp (ipstack_read p n ms) Q (mkSt m o w l).
Proof.
  intros Hin -> Hr Hk HQ. unfold ipstack_read. psteps.
  destruct (read_law (Z.of_nat (length bs)) ms w) as (w' & Hread & Hin' & Hout); [rewrite Hin, length_app; lia|].
  rewrite Nat2Z.id in *. rewrite Hin, take_app_length in Hread. rewrite Hin, drop_app_length in Hin'.
  eapply wp_on_w; [exact Hread|]. psteps. cbn [fst snd]. eapply wp_stores; [exact Hr|done|]. intros m' Hs _ _. psteps. by apply HQ.
Qed.

Lemma wp_decode n ms (rest : list Z) (Q : Z * Z -> st -> Prop) m o w l :
  0 <= n < 268435456 -> incoming w = varint n ++ rest ->
  (forall w', incoming w' = rest -> outgoing w' = outgoing w -> Q (Z.of_nat (length (varint n)), n) (mkSt m o w' l)) ->
  wp (Client_decodePacket ms) Q (mkSt m o w l).
Proof.
  intros Hn Hin HQ. destruct (ideal_delivers ms (varint n) w rest Hin) as (w' & Hd & Hi & Ho).
  unfold Client_decodePacket. eapply wp_on_w; [exact (MQTTPacket_decode_varint _ n _ _ Hn Hd)|]. by apply HQ.
Qed.

Lemma wp_encode n p k (Q : Z -> mem -> Prop) m :
  0 <= n < 268435456 -> room m p k -> 5 <= k ->
  (forall m', store_bytes m p (varint n) = Some m' -> Q (Z.of_nat (length (varint n))) m') -> wp (MQTTPacket_encode p n) Q m.
Proof.
  intros Hn Hr Hk HQ. pose proof (length_varint n) as Hv. destruct (room_store _ _ (varint n) _ Hr) as (m' & Hs); [lia|].
  unfold wp, MQTTPacket_encode. rewrite encode_loop_stores by (simpl; lia). rewrite padd_0. change (varint_n 5 n) with (varint n).
  rewrite Hs. cbn [mbind option_bind]. rewrite Z.add_0_l. by apply HQ.
Qed.
Lemma room_padd m p n k : room m p n -> 0 <= k -> room m (padd p k) (n - k).
Proof. intros (b & Hb & Ho & Hl) Hk. exists b. cbn [padd p_blk p_off]. split; [done|lia]. Qed.

(** A packet that fits: it is stored, and its type returned. *)
Lemma wp_readPacket timer h body (rest : list Z) (Q : Z -> st -> Prop) m o w l :
  incoming w = packet h body ++ rest -> room m (readbuf o) MAX_MQTT_PACKET_SIZE ->
  Z.of_nat (length (packet h body)) <= MAX_MQTT_PACKET_SIZE ->
  (forall m' w' t, changed [p_blk (readbuf o)] m m' -> at_bytes m' (readbuf o) (packet h body) ->
     incoming w' = rest -> outgoing w' = outgoing w -> (0 < keepAliveInterval_ o -> expired t = false) ->
     Q (hdr_type h) (mkSt m' (received_at t o) w' l)) ->
  wp (Client_readPacket timer) Q (mkSt m o w l).
Proof.
  unfold MAX_MQTT_PACKET_SIZE. intros Hin Hr Hfit HQ. rewrite length_packet in Hfit. unfold packet in *.
  set (L := Z.of_nat (length body)) in *. pose proof (length_varint L) as Hv. set (v := varint L) in *.
  unfold Client_readPacket. psteps.
  eapply (wp_ipstack_read _ 1 [h] (v ++ body ++ rest)); [rewrite Hin; cbn; by rewrite <- app_assoc|done|exact Hr|lia|].
  intros m1 w1 Hs1 Hi1 Ho1. change (1 =? 1) with true. cbn [negb]. psteps.
  eapply (wp_decode L _ (body ++ rest)); [unfold L; lia|exact Hi1|]. intros w2 Hi2 Ho2. psteps.
  eapply (wp_encode _ _ 511); [unfold L; lia|apply (room_padd _ _ 512 1); [by apply (store_bytes_room _ _ _ _ _ _ Hs1)|lia]|lia|].
  intros m2 Hs2. fold v in Hs2 |- *. unfold MAX_MQTT_PACKET_SIZE.
  destruct (Z.ltb_spec (512 - (1 + Z.of_nat (length v))) L); [lia|]. psteps.
  assert (Hr2 : room m2 (padd (readbuf o) (1 + Z.of_nat (length v))) (512 - (1 + Z.of_nat (length v)))).
  { apply room_padd; [|lia]. apply (store_bytes_room _ _ _ _ _ _ Hs2), (store_bytes_room _ _ _ _ _ _ Hs1), Hr. }
  assert (Hall : forall m3, store_bytes m2 (padd (readbuf o) (1 + Z.of_nat (length v))) body = Some m3 ->
    changed [p_blk (readbuf o)] m m3 /\ at_bytes m3 (readbuf o) (h :: v ++ body)).
  { intros m3 Hs3. split.
    - eapply changed_trans; [exact (changed_store _ _ _ _ Hs1)|]. eapply changed_trans; [exact (changed_store _ _ _ _ Hs2)|].
      exact (changed_store _ _ _ _ Hs3).
    - apply (store_bytes_at m). change (h :: v ++ body) with ([h] ++ v ++ body). rewrite store_bytes_app_eq, Hs1. cbn [mbind option_bind].
      rewrite store_bytes_app_eq. change (Z.of_nat (length [h])) with 1. rewrite Hs2. cbn [mbind option_bind]. by rewrite padd_padd. }
  assert (Hend : forall m3 w3, changed [p_blk (readbuf o)] m m3 /\ at_bytes m3 (readbuf o) (h :: v ++ body) -> incoming w3 = rest ->
    outgoing w3 = outgoing w -> wp (m ← on_mem get; header ← lift (load m (readbuf o)); o ← get_o;
      (if 0 <? keepAliveInterval_ o then t ← on_w (TimerCountdown (last_received o) (keepAliveInterval_ o));
         set_o (put_last_received t o) else mret tt);; mret (hdr_type header)) Q (mkSt m3 o w3 l)).
  { intros m3 w3 [Hc Hat] Hi Ho. psteps. eapply wp_lift; [by eapply at_bytes_load|]. psteps.
    destruct (countdown_law (last_received o) (keepAliveInterval_ o) w3) as (t & Hcd & Hexp).
    specialize (HQ m3 w3 t Hc Hat Hi Ho Hexp). unfold received_at in HQ. destruct (0 <? keepAliveInterval_ o); psteps; [|exact HQ].
    eapply wp_on_w; [exact Hcd|]. psteps. exact HQ. }
  destruct (Z.ltb_spec 0 L).
  - psteps. eapply (wp_ipstack_read _ L body rest); [exact Hi2|done|exact Hr2|lia|]. intros m3 w3 Hs3 Hi3 Ho3. psteps.
    rewrite Z.eqb_refl. cbn [negb]. apply Hend; [by apply Hall|done|congruence].
  - assert (body = []) as Hb by (destruct body; [done|unfold L in *; simpl in *; lia]).
    do 2 pstep. cbn beta iota. apply Hend; [apply Hall; by rewrite Hb|by rewrite Hi2, Hb|congruence].
Qed.

(** A packet that does not fit: its header is stored, and its body stays unread. *)
Lemma wp_readPacket_long timer h body (rest : list Z) (Q : Z -> st -> Prop) m o w l :
  incoming w = packet h body ++ rest -> room m (readbuf o) MAX_MQTT_PACKET_SIZE ->
  MAX_MQTT_PACKET_SIZE < Z.of_nat (length (packet h body)) -> Z.of_nat (length body) < 268435456 ->
  (forall m' w', changed [p_blk (readbuf o)] m m' -> incoming w' = body ++ rest -> outgoing w' = outgoing w ->
     Q BUFFER_OVERFLOW (mkSt m' o w' l)) ->
  wp (Client_readPacket timer) Q (mkSt m o w l).
Proof.
  unfold MAX_MQTT_PACKET_SIZE. intros Hin Hr Hlong Hsmall HQ. rewrite length_packet in Hlong. unfold packet in *.
  set (L := Z.of_nat (length body)) in *. set (v := varint L) in *.
  unfold Client_readPacket. psteps.
  eapply (wp_ipstack_read _ 1 [h] (v ++ body ++ rest)); [rewrite Hin; cbn; by rewrite <- app_assoc|done|exact Hr|lia|].
  intros m1 w1 Hs1 Hi1 Ho1. change (1 =? 1) with true. cbn [negb]. psteps.
  eapply (wp_decode L _ (body ++ rest)); [unfold L; lia|exact Hi1|]. intros w2 Hi2 Ho2. psteps.
  eapply (wp_encode _ _ 511); [unfold L; lia|apply (room_padd _ _ 512 1); [by apply (store_bytes_room _ _ _ _ _ _ Hs1)|lia]|lia|].
  intros m2 Hs2. fold v in Hs2 |- *. unfold MAX_MQTT_PACKET_SIZE.
  destruct (Z.ltb_spec (512 - (1 + Z.of_nat (length v))) L); [|lia]. psteps.
  apply HQ; [|done|congruence]. eapply changed_trans; [exact (changed_store _ _ _ _ Hs1)|exact (changed_store _ _ _ _ Hs2)].
Qed.
End Wire.

(** ** The subscriptions of a client *)

Definition slot_ok (m : mem) (p : ptr) (h : HandlerSlot) (s : subscription) : Prop :=
  fp h = s.2 /\ match s.1 with
                | Some u => topicFilter h = Some p /\ cstr m p u /\ Z.of_nat (length u) < 255
                | None => topicFilter h = None
                end.

(** A topic name as the packet reader hands it out. *)
Definition topic_arg (m : mem) (x : MQTTString) (t : list Z) : Prop :=
  mstr m x t /\ cstring x = None /\ lenstring_data x <> None /\ short t.

(** The message handed to the handlers stands for the packet. *)
Definition message_is (m : mem) (x : MQTTString) (msg : Message) (p : publish) : Prop :=
  topic_arg m x (pb_topic p) /\ g_qos msg = pb_qos p /\ g_retained msg = pb_retain p /\ g_dup msg = pb_dup p /\
  (0 < pb_qos p -> g_id msg = pb_id p) /\ g_payloadlen msg = Z.of_nat (length (pb_payload p)) /\
  exists q, g_payload msg = Some q /\ at_bytes m q (pb_payload p).

(** The calls that deliver a packet. *)
Definition delivered (ss : list subscription) (d : option nat) (p : publish) (cs : list HandlerCall) : Prop :=
  exists m x msg, message_is m x msg p /\ cs = map (fun f => mkCall f x msg) (receivers ss d (pb_topic p)).

(** What the QoS of a PUBLISH is answered with. *)
Definition answer (p : publish) : list Z :=
  if pb_qos p =? 1 then enc_ack PUBACK 0 (pb_id p) else if pb_qos p =? 2 then enc_ack PUBREC 0 (pb_id p) else [].

Section Object.
Context `{Platform}.

(** The object is in order: its buffers are there and apart, and its slots hold the
    subscriptions [ss]. *)
Record wf_client (m : mem) (o : ClientObj) (ss : list subscription) : Prop := {
  wf_sendbuf : room m (sendbuf o) MAX_MQTT_PACKET_SIZE;
  wf_readbuf : room m (readbuf o) MAX_MQTT_PACKET_SIZE;
  wf_pubbuf : room m (pubbuf o) MAX_MQTT_PACKET_SIZE;
  wf_names : Forall (fun p => room m p 255) (topicFilters o);
  wf_blocks : NoDup (map p_blk (sendbuf o :: readbuf o :: pubbuf o :: topicFilters o));
  wf_handlers_length : length (messageHandlers o) = MAX_HANDLERS;
  wf_names_length : length (topicFilters o) = MAX_HANDLERS;
  wf_table_length : length ss = MAX_HANDLERS;
  wf_slots i p h s : topicFilters o !! i = Some p -> messageHandlers o !! i = Some h -> ss !! i = Some s -> slot_ok m p h s;
  wf_next : 0 <= next o <= 65535;
  wf_keepalive : 0 <= keepAliveInterval_ o < 65536;
  wf_timeout : 0 < command_timeout_ms o <= INT_MAX
}.

(** The blocks of the packet buffers. *)
Definition buffers (o : ClientObj) : list nat := [p_blk (sendbuf o); p_blk (readbuf o)].

Lemma slot_changed B m m' p h s : changed B m m' -> p_blk p ∉ B -> slot_ok m p h s -> slot_ok m' p h s.
Proof.
  intros Hm Hp [Hf Hs]. split; [done|]. destruct (s.1); [|done]. destruct Hs as (Ht & Hc & Hl).
  split_and!; [done|by eapply changed_cstr|done].
Qed.

Lemma wf_changed m m' o o' ss : wf_client m o ss -> changed (buffers o) m m' -> retimed o o' -> wf_client m' o' ss.
Proof.
  intros [] Hm (a & b & ->). destruct Hm as [Hm Hr]. constructor; try done; cbn; auto.
  - eapply Forall_impl; [exact wf_names0|]. intros p. apply Hr.
  - intros i p h s Hp Hh Hs. eapply slot_changed; [by split| |by eapply wf_slots0].
    unfold buffers. intros Hin. apply NoDup_cons in wf_blocks0 as [H1 Hnd]. apply NoDup_cons in Hnd as [H2 _].
    assert (p_blk p ∈ map p_blk (topicFilters o)) by (by apply list_elem_of_fmap_2, (list_elem_of_lookup_2 _ i)).
    apply elem_of_cons in Hin as [E|E%list_elem_of_singleton].
    + apply H1. rewrite !elem_of_cons, <- E. by right; right.
    + apply H2. rewrite !elem_of_cons, <- E. by right.
Qed.

Lemma buffers_apart m o ss : wf_client m o ss -> p_blk (sendbuf o) <> p_blk (readbuf o).
Proof. intros []. apply NoDup_cons in wf_blocks0 as [H1 _]. cbn [map] in H1. intros E. apply H1. rewrite elem_of_cons, E. by left. Qed.
End Object.

(** ** Delivering *)
Section Deliver.
Context `{CharAbi} `{IdealPlatform}.

Lemma slot_matches_spec m p h s x t : slot_ok m p h s -> topic_arg m x t ->
  slot_matches m h x = Some (match s.1 with Some u => wanted u t | None => false end).
Proof.
  intros [_ Hs] (Hx & Hc & Hd & Hsh). unfold slot_matches. destruct (s.1) as [u|]; [|by rewrite Hs].
  destruct Hs as (-> & Hu & Hl). rewrite (equals_spec m x t p u) by (auto; unfold short; lia). cbn [mbind option_bind].
  unfold wanted. destruct (bool_decide (t = u)); [done|]. by apply (isTopicMatched_total m p x u t).
Qed.

Lemma wp_deliver_loop x t msg ss m o w : wf_client m o ss -> topic_arg m x t -> forall n i rc l, (i + n)%nat = MAX_HANDLERS ->
  wp (c_for i n (fun i rc =>
        o ← get_o; m ← on_mem get;
        h ← lift (messageHandlers o !! i);
        b ← lift (slot_matches m h x);
        if (b : bool) then
          match fp h with Some f => FP_call f x msg;; mret SUCCESS | None => mret rc end
        else mret rc) rc)
    (fun rc' s' => rc' = (if bool_decide (reached (drop i ss) t = []) then rc else SUCCESS) /\
       s' = mkSt m o w (l ++ map (fun f => mkCall f x msg) (reached (drop i ss) t))) (mkSt m o w l).
Proof.
  intros Hwf Hx. induction n as [|n IH]; intros i rc l Hi; cbn [c_for].
  { rewrite drop_ge by (rewrite (wf_table_length _ _ _ Hwf); lia). apply wp_ret. cbn. by rewrite app_nil_r. }
  destruct (lookup_lt_is_Some_2 (messageHandlers o) i) as [h Hh]; [rewrite (wf_handlers_length _ _ _ Hwf); lia|].
  destruct (lookup_lt_is_Some_2 (topicFilters o) i) as [p Hp]; [rewrite (wf_names_length _ _ _ Hwf); lia|].
  destruct (lookup_lt_is_Some_2 ss i) as [s Hs]; [rewrite (wf_table_length _ _ _ Hwf); lia|].
  pose proof (wf_slots _ _ _ Hwf i p h s Hp Hh Hs) as Hok. rewrite (drop_S ss s i Hs).
  psteps. eapply wp_lift; [exact Hh|]. psteps. eapply wp_lift; [by eapply slot_matches_spec|]. destruct Hok as [-> _].
  unfold reached. cbn [omap list_omap]. fold (omap (M := list) (fun s : subscription => u ← s.1; if wanted u t then s.2 else None) (drop (S i) ss)).
  change (omap (fun s : subscription => u ← s.1; if wanted u t then s.2 else None) (drop (S i) ss)) with (reached (drop (S i) ss) t).
  destruct s as [[u|] f]; cbn [fst snd mbind option_bind].
  2:{ psteps. apply IH. lia. }
  destruct (wanted u t); [|psteps; apply IH; lia].
  destruct f as [f|]; [|psteps; apply IH; lia].
  psteps. eapply wp_mono; [apply IH; lia|]. intros rc' s' [-> ->]. cbn [map]. rewrite <- app_assoc. by destruct (bool_decide _).
Qed.

Lemma wp_deliver x t msg ss (Q : Z -> st -> Prop) m o w l :
  wf_client m o ss -> topic_arg m x t ->
  (forall rc, Q rc (mkSt m o w (l ++ map (fun f => mkCall f x msg) (receivers ss (defaultMessageHandler o) t)))) ->
  wp (Client_deliverMessage x msg) Q (mkSt m o w l).
Proof.
  intros Hwf Hx HQ. unfold Client_deliverMessage. apply wp_bind. eapply wp_mono; [by apply wp_deliver_loop|].
  intros rc s' [-> ->]. rewrite drop_0 in *. psteps. unfold receivers in HQ. destruct (reached ss t) as [|f fs].
  - rewrite bool_decide_true by done. change (FAILURE =? FAILURE) with true. cbn [map] in *. rewrite app_nil_r.
    destruct (defaultMessageHandler o) as [f|]; cbn [option_list map] in HQ.
    + psteps. apply HQ.
    + apply wp_ret. rewrite <- (app_nil_r l) at 1. apply HQ.
  - rewrite bool_decide_false by done. change (SUCCESS =? FAILURE) with false. destruct (defaultMessageHandler o); apply wp_ret, HQ.
Qed.
End Deliver.

(** ** One packet *)
Section Cycle.
Context `{CharAbi} `{IdealPlatform}.
Context (stack : publish_out).
Implicit Types (m : mem) (o : ClientObj) (w : W) (l : list HandlerCall) (timer : Timer) (ss : list subscription).

Lemma no_ping_sent t o : no_ping o -> (0 < keepAliveInterval_ o -> expired t = false) -> no_ping (sent_at t o).
Proof.
  unfold sent_at. destruct (Z.ltb_spec 0 (keepAliveInterval_ o)); [|done]. intros [Hp|[_ Hp]] Ht; [by left|right]. split; [by apply Ht|done].
Qed.
Lemma no_ping_received t o : no_ping o -> (0 < keepAliveInterval_ o -> expired t = false) -> no_ping (received_at t o).
Proof.
  unfold received_at. destruct (Z.ltb_spec 0 (keepAliveInterval_ o)); [|done]. intros [Hp|[Hp _]] Ht; [by left|right]. split; [done|by apply Ht].
Qed.
Lemma retimed_sent_at t o : retimed o (sent_at t o).
Proof. unfold sent_at. destruct (0 <? _); auto with paho. Qed.
Lemma retimed_received_at t o : retimed o (received_at t o).
Proof. unfold received_at. destruct (0 <? _); auto with paho. Qed.

Lemma wp_keepalive fuel (Q : Z -> st -> Prop) m o w l :
  no_ping o -> (forall rc, Q rc (mkSt m o w l)) -> wp (Client_keepalive fuel) Q (mkSt m o w l).
Proof.
  intros Hp HQ. unfold Client_keepalive. psteps. destruct (Z.eqb_spec (keepAliveInterval_ o) 0); [psteps; apply HQ|].
  destruct Hp as [Hp|[Hsent Hrecv]]; [done|]. psteps. rewrite Hsent. psteps. rewrite Hrecv. cbn [negb]. psteps. apply HQ.
Qed.

(** A serializer into the send buffer, then [sendPacket]. *)
Lemma wp_serialize_send {A} fuel (ser : M mem Z) bs timer (bad : M st A) (k : Z -> M st A) (Q : A -> st -> Prop) m o w l :
  ser m = stored m (sendbuf o) bs -> bs <> [] -> room m (sendbuf o) MAX_MQTT_PACKET_SIZE ->
  Z.of_nat (length bs) <= MAX_MQTT_PACKET_SIZE -> expired timer = false ->
  (forall m' t w', changed [p_blk (sendbuf o)] m m' -> at_bytes m' (sendbuf o) bs -> (0 < keepAliveInterval_ o -> expired t = false) ->
     incoming w' = incoming w -> outgoing w' = outgoing w ++ bs -> wp (k SUCCESS) Q (mkSt m' (sent_at t o) w' l)) ->
  wp (len ← on_mem ser; if len <=? 0 then bad else rc ← Client_sendPacket (S fuel) len timer; k rc) Q (mkSt m o w l).
Proof.
  intros Hser Hne Hr Hfit Ht HQ. psteps. eapply wp_stored; [exact Hser|exact Hr|done|]. intros m' Hc Hat.
  destruct (Z.leb_spec (Z.of_nat (length bs)) 0) as [Hl|_]; [destruct bs; [done|cbn [length] in Hl; lia]|]. psteps.
  eapply wp_sendPacket; [exact Hat|done|unfold MAX_MQTT_PACKET_SIZE, INT_MAX in *; lia|done|]. intros t w' He Hi Ho. by apply HQ.
Qed.

Lemma wp_send_ack fuel type id timer (Q : Z -> st -> Prop) m o w l :
  0 <= type < 16 -> 0 <= id < 65536 -> room m (sendbuf o) MAX_MQTT_PACKET_SIZE -> expired timer = false ->
  (forall m' t w', changed [p_blk (sendbuf o)] m m' -> (0 < keepAliveInterval_ o -> expired t = false) ->
     incoming w' = incoming w -> outgoing w' = outgoing w ++ enc_ack type 0 id -> Q SUCCESS (mkSt m' (sent_at t o) w' l)) ->
  wp (Client_send_ack (S fuel) type id timer) Q (mkSt m o w l).
Proof.
  intros Ht Hi Hr Hexp HQ. unfold Client_send_ack. apply wp_bind, wp_get_o.
  assert (Hl : Z.of_nat (length (enc_ack type 0 id)) = 4) by (unfold enc_ack; by rewrite length_be16_packet).
  apply wp_bind, wp_on_mem. eapply (wp_stored _ (sendbuf o) (enc_ack type 0 id)); [|exact Hr|rewrite Hl; done|].
  { rewrite MQTTSerialize_ack_spec by lia. done. }
  intros m' Hc Hat. rewrite Hl. change (4 <=? 0) with false. cbv iota. rewrite <- Hl.
  eapply wp_sendPacket; [exact Hat|done|rewrite Hl; done|done|]. intros t w' He Hin Hout. by apply HQ.
Qed.

Lemma wf_in_buffers m m' o o' ss b : wf_client m o ss -> b ∈ buffers o -> changed [b] m m' -> retimed o o' -> wf_client m' o' ss.
Proof. intros Hwf Hb Hm Ho. eapply wf_changed; [done| |done]. by eapply changed_one. Qed.
Lemma sendbuf_in o : p_blk (sendbuf o) ∈ buffers o.
Proof. apply elem_of_cons. by left. Qed.
Lemma readbuf_in o : p_blk (readbuf o) ∈ buffers o.
Proof. apply elem_of_cons. right. by apply list_elem_of_singleton. Qed.
#[local] Hint Resolve sendbuf_in readbuf_in retimed_sent_at retimed_received_at : paho.

(** The object is in order and quiet, and the packet buffers are all that changed. *)
Definition moved ss m o m' o' : Prop := wf_client m' o' ss /\ changed (buffers o) m m' /\ retimed o o' /\ no_ping o'.

Lemma moved_trans ss m1 o1 m2 o2 m3 o3 : moved ss m1 o1 m2 o2 -> moved ss m2 o2 m3 o3 -> moved ss m1 o1 m3 o3.
Proof.
  intros (W1 & C1 & (a & b & ->) & P1) (W2 & C2 & R2 & P2). split_and!; [done|by eapply changed_trans| |done].
  eapply retimed_trans; [|exact R2]. by exists a, b.
Qed.

Lemma moved_refl ss m o : wf_client m o ss -> no_ping o -> moved ss m o m o.
Proof. intros Hwf Hp. split_and!; auto with paho. Qed.
Lemma moved_read ss m o m' t : wf_client m o ss -> changed [p_blk (readbuf o)] m m' -> no_ping o ->
  (0 < keepAliveInterval_ o -> expired t = false) -> moved ss m o m' (received_at t o).
Proof.
  intros Hwf Hc Hp Ht. split_and!; [|by eapply changed_one; [apply readbuf_in|]|auto with paho|by apply no_ping_received].
  eapply wf_in_buffers; [exact Hwf| |exact Hc|]; auto with paho.
Qed.
Lemma moved_sent ss m o m' t : wf_client m o ss -> changed [p_blk (sendbuf o)] m m' -> no_ping o ->
  (0 < keepAliveInterval_ o -> expired t = false) -> moved ss m o m' (sent_at t o).
Proof.
  intros Hwf Hc Hp Ht. split_and!; [|by eapply changed_one; [apply sendbuf_in|]|auto with paho|by apply no_ping_sent].
  eapply wf_in_buffers; [exact Hwf| |exact Hc|]; auto with paho.
Qed.

(** [case PUBLISH], with the packet in the read buffer. *)
Lemma wp_cycle_publish fuel timer p ss (Q : Z * bool -> st -> Prop) m o w l :
  wf_client m o ss -> wf_publish p -> 0 <= pb_qos p <= 2 -> at_bytes m (readbuf o) (enc_publish p) ->
  expired timer = false -> no_ping o ->
  (forall m' o' w' cs, moved ss m o m' o' -> delivered ss (defaultMessageHandler o) p cs ->
     incoming w' = incoming w -> outgoing w' = outgoing w ++ answer p -> Q (SUCCESS, false) (mkSt m' o' w' (l ++ cs))) ->
  wp (Client_cycle_publish stack (S fuel) timer) Q (mkSt m o w l).
Proof.
  intros Hwf Hp Hq Hat Hexp Hnp HQ. unfold Client_cycle_publish. psteps.
  destruct (MQTTDeserialize_publish_spec m stack (readbuf o) MAX_MQTT_PACKET_SIZE p Hp Hat)
    as (d & Hd & Eo1 & Eo2 & Eo3 & Eo4 & Hmx & Hxc & Hxd & Eo5 & q & Eq & Hpay).
  eapply wp_lift; [exact Hd|]. change (1 =? 1) with true. cbn [negb]. cbv beta iota zeta.
  set (msg := mkMessage _ _ _ _ _ _). destruct Hp as (Hw1 & Hw2 & Hw3 & Hid & Hs & Hl).
  assert (Hpl : to_uint (po_payloadlen d) = Z.of_nat (length (pb_payload p))).
  { rewrite Eo5. unfold to_uint. apply Z.mod_small. rewrite length_publish_body in Hl. destruct (0 <? pb_qos p); lia. }
  assert (Hden : message_is m (po_topicName d) msg p).
  { unfold message_is, msg. cbn [g_qos g_retained g_dup g_id g_payload g_payloadlen]. rewrite Hpl. split_and!; try done. by exists q. }
  assert (Hdel : delivered ss (defaultMessageHandler o) p
    (map (fun f => mkCall f (po_topicName d) msg) (receivers ss (defaultMessageHandler o) (pb_topic p)))) by (by exists m, (po_topicName d), msg).
  apply wp_bind. eapply (wp_deliver _ (pb_topic p)); [exact Hwf|done|]. intros _.
  cbn [g_qos g_id msg]. rewrite Eo2. unfold QOS0, QOS1, QOS2.
  destruct (Z.eqb_spec (pb_qos p) 0) as [E0|E0].
  - psteps. apply HQ; [by apply moved_refl|done|done|]. unfold answer. rewrite E0. by rewrite app_nil_r.
  - rewrite Eo4 by lia.
    assert (Hack : forall k : msgTypes, answer p = enc_ack k 0 (pb_id p) ->
      wp (rc ← Client_send_ack (S fuel) k (pb_id p) timer; mret (rc, rc =? FAILURE)) Q
        (mkSt m o w (l ++ map (fun f => mkCall f (po_topicName d) msg) (receivers ss (defaultMessageHandler o) (pb_topic p))))).
    { intros k Hk. apply wp_bind. apply wp_send_ack; [by destruct k|done|apply (wf_sendbuf _ _ _ Hwf)|done|].
      intros m' t w' Hc He Hin Hout. apply wp_ret. change (SUCCESS =? FAILURE) with false.
      apply HQ; [by apply moved_sent|done|done|by rewrite Hk]. }
    destruct (Z.eqb_spec (pb_qos p) 1) as [E1|E1]; [apply Hack; unfold answer; by rewrite E1|].
    assert (pb_qos p = 2) as E2 by lia. rewrite E2. cbn [Z.eqb Pos.eqb]. apply Hack. unfold answer. by rewrite E2.
Qed.

Definition fits (p : publish) : Prop := wf_publish p /\ 0 <= pb_qos p <= 2 /\ Z.of_nat (length (enc_publish p)) <= MAX_MQTT_PACKET_SIZE.

(** [cycle] over a PUBLISH. *)
Lemma wp_cycle_delivers fuel timer p rest ss (Q : Z -> st -> Prop) m o w l :
  wf_client m o ss -> fits p -> incoming w = enc_publish p ++ rest -> expired timer = false -> no_ping o ->
  (forall m' o' w' cs, moved ss m o m' o' -> delivered ss (defaultMessageHandler o) p cs ->
     incoming w' = rest -> outgoing w' = outgoing w ++ answer p -> Q (PUBLISH : Z) (mkSt m' o' w' (l ++ cs))) ->
  wp (Client_cycle stack (S fuel) timer) Q (mkSt m o w l).
Proof.
  intros Hwf (Hp & Hq & Hfit) Hin Hexp Hnp HQ. unfold Client_cycle. apply wp_bind.
  eapply wp_readPacket; [exact Hin|apply (wf_readbuf _ _ _ Hwf)|exact Hfit|]. intros m1 w1 t Hc Hat Hi Ho Ht.
  pose proof (moved_read ss m o m1 t Hwf Hc Hnp Ht) as Hmv1. pose proof Hp as (Hd & _ & Hret & _). destruct (header_get 3 (pb_dup p) (pb_qos p) (pb_retain p)) as (-> & _); try lia.
  change ((3 =? FAILURE) || (3 =? BUFFER_OVERFLOW)) with false. change (3 =? PUBLISH) with true. cbv iota.
  assert (E : readbuf (received_at t o) = readbuf o /\ defaultMessageHandler (received_at t o) = defaultMessageHandler o)
    by (unfold received_at; by destruct (0 <? _)). destruct E as (E1 & E2).
  apply wp_bind. eapply (wp_cycle_publish _ _ p); [apply Hmv1|done|done|by rewrite E1|done|apply Hmv1|].
  intros m2 o2 w2 cs Hmv2 Hdel Hi2 Ho2. psteps. eapply wp_keepalive; [apply Hmv2|]. intros rc. psteps.
  apply (HQ m2 o2 w2 cs); [by eapply moved_trans|by rewrite <- E2|congruence|by rewrite Ho2, Ho].
Qed.

(** [cycle] over a packet that needs no action of the client. *)
Lemma wp_cycle_reply fuel timer h body rest ss (Q : Z -> st -> Prop) m o w l :
  hdr_type h <> PUBLISH -> hdr_type h <> PINGRESP -> 0 <= hdr_type h < 16 ->
  wf_client m o ss -> incoming w = packet h body ++ rest -> Z.of_nat (length (packet h body)) <= MAX_MQTT_PACKET_SIZE -> no_ping o ->
  (forall m' o' w', moved ss m o m' o' -> at_bytes m' (readbuf o) (packet h body) -> incoming w' = rest -> outgoing w' = outgoing w ->
     Q (hdr_type h) (mkSt m' o' w' l)) ->
  wp (Client_cycle stack fuel timer) Q (mkSt m o w l).
Proof.
  intros N1 N2 Hk Hwf Hin Hfit Hnp HQ. unfold Client_cycle. apply wp_bind.
  eapply wp_readPacket; [exact Hin|apply (wf_readbuf _ _ _ Hwf)|exact Hfit|]. intros m1 w1 t Hc Hat Hi Ho Ht.
  pose proof (moved_read ss m o m1 t Hwf Hc Hnp Ht) as Hmv.
  unfold FAILURE, BUFFER_OVERFLOW. destruct (Z.eqb_spec (hdr_type h) (-1)), (Z.eqb_spec (hdr_type h) (-2)); try lia. cbn [orb].
  destruct (Z.eqb_spec (hdr_type h) PUBLISH), (Z.eqb_spec (hdr_type h) PINGRESP); try done.
  psteps. eapply wp_keepalive; [apply Hmv|]. intros rc. psteps. by apply (HQ m1 _ w1).
Qed.

(** ** Waiting for a packet while others arrive *)

(** The PUBLISH packets [ps] are delivered one after the other. *)
Inductive delivered_all ss (d : option nat) : list publish -> list HandlerCall -> Prop :=
  | delivered_none : delivered_all ss d [] []
  | delivered_more p ps cs l : delivered ss d p cs -> delivered_all ss d ps l -> delivered_all ss d (p :: ps) (cs ++ l).

Definition enc_all (ps : list publish) : list Z := concat (map enc_publish ps).
Definition answers (ps : list publish) : list Z := concat (map answer ps).

(** [waitfor]: what is waited for arrives behind the PUBLISH packets [ps]. *)
Lemma wp_waitfor timer h body rest ps ss : forall fuel rc (Q : Z -> st -> Prop) m o w l,
  hdr_type h <> PUBLISH -> hdr_type h <> PINGRESP -> 0 <= hdr_type h < 16 -> Z.of_nat (length (packet h body)) <= MAX_MQTT_PACKET_SIZE ->
  Forall fits ps -> (length ps < fuel)%nat -> wf_client m o ss -> incoming w = enc_all ps ++ packet h body ++ rest -> expired timer = false -> no_ping o ->
  (forall m' o' w' cs, moved ss m o m' o' -> at_bytes m' (readbuf o) (packet h body) -> delivered_all ss (defaultMessageHandler o) ps cs ->
     incoming w' = rest -> outgoing w' = outgoing w ++ answers ps -> Q (hdr_type h) (mkSt m' o' w' (l ++ cs))) ->
  wp (Client_waitfor_loop stack fuel (hdr_type h) rc timer) Q (mkSt m o w l).
Proof.
  induction ps as [|p ps IH]; intros fuel rc Q m o w l N1 N2 Hk Hfit Hps Hfuel Hwf Hin Hexp Hnp HQ;
    (destruct fuel as [|fuel]; [cbn [length] in Hfuel; lia|]); cbn [Client_waitfor_loop]; psteps; rewrite Hexp; apply wp_bind.
  - eapply wp_cycle_reply; [done|done|done|exact Hwf|exact Hin|done|done|]. intros m' o' w' Hmv Hat Hi Ho.
    rewrite Z.eqb_refl. psteps. rewrite <- (app_nil_r l). apply HQ; [done|done|constructor|done|]. by rewrite app_nil_r.
  - apply Forall_cons in Hps as [Hp Hps]. unfold enc_all in Hin. cbn [map concat] in Hin. rewrite <- app_assoc in Hin.
    eapply wp_cycle_delivers; [exact Hwf|exact Hp|exact Hin|done|done|]. intros m1 o1 w1 cs Hmv Hdel Hi Ho.
    destruct (Z.eqb_spec PUBLISH (hdr_type h)) as [E|_]; [by destruct N1|]. cbn [negb]. cbn [length] in Hfuel.
    destruct Hmv as (Hwf1 & Hc1 & Hr1 & Hnp1).
    assert (E : readbuf o1 = readbuf o /\ defaultMessageHandler o1 = defaultMessageHandler o) by (by destruct Hr1 as (a & b & ->)).
    destruct E as [E1 E2].
    apply IH; try done; [lia|]. intros m2 o2 w2 cs' Hmv2 Hat2 Hdel2 Hi2 Ho2. rewrite <- app_assoc.
    apply HQ; [by eapply (moved_trans ss m o m1 o1)|by rewrite <- E1|by constructor; [|rewrite <- E2]|done|].
    unfold answers. cbn [map concat]. by rewrite Ho2, Ho, app_assoc.
Qed.
End Cycle.

#[export] Hint Resolve sendbuf_in readbuf_in retimed_sent_at retimed_received_at : paho.
