(* ===== verification/PahoCommands.v ===== *)
(** * PahoCommands: the commands of the C++ client

    connect, subscribe, unsubscribe, publish and yield end to end, over the bytes read
    and written and the table of subscriptions, while PUBLISH packets arrive in
    between. *)
From S2P Require Import Prelude CMem Wire Packet Publish Connect Subscribe Unsubscribe Topic Platform PahoClient PahoSpec.

(** ** The table of subscriptions *)

(** The first slot without a filter. *)
Definition free_slot (ss : list subscription) : option nat := fst <$> list_find (fun s => s.1 = None) ss.

(** [subscribe], [unsubscribe], which frees the first slot with filter [u], and what a failed command leaves. *)
Definition subscribed (i : nat) (u : list Z) (mh : nat) (ss : list subscription) : list subscription := <[i := (Some u, Some mh)]> ss.
Definition unsubscribed (u : list Z) (ss : list subscription) : list subscription :=
  match list_find (fun s => s.1 = Some u) ss with Some (i, s) => <[i := (None, s.2)]> ss | None => ss end.
Definition no_filters (ss : list subscription) : list subscription := map (fun s => (None, s.2)) ss.

Section Table.
Context `{Platform}.
Implicit Types (m : mem) (o : ClientObj) (ss : list subscription).

Lemma wf_put_slot m m' o ss i p h s :
  wf_client m o ss -> topicFilters o !! i = Some p -> changed [p_blk p] m m' -> slot_ok m' p h s ->
  wf_client m' (put_messageHandlers (<[i := h]> (messageHandlers o)) o) (<[i := s]> ss).
Proof.
  intros [] Hp Hm Hok. pose proof Hm as [_ Hr]. constructor; cbn; auto.
  - eapply Forall_impl; [exact wf_names|]. intros q. apply Hr.
  - by rewrite length_insert.
  - by rewrite length_insert.
  - intros j q h' s' Hq Hh Hs. destruct (decide (i = j)) as [->|Hne].
    + assert (q = p) as -> by congruence.
      rewrite list_lookup_insert_eq in Hh by (rewrite wf_handlers_length, <- wf_names_length; by eapply lookup_lt_Some).
      rewrite list_lookup_insert_eq in Hs by (rewrite wf_table_length, <- wf_names_length; by eapply lookup_lt_Some).
      by simplify_eq.
    + rewrite list_lookup_insert_ne in Hh by done. rewrite list_lookup_insert_ne in Hs by done. eapply slot_changed; [exact Hm| |by eapply wf_slots].
      intros E%list_elem_of_singleton. cbn [map] in wf_blocks.
      apply NoDup_cons in wf_blocks as [_ Hnd]. apply NoDup_cons in Hnd as [_ Hnd]. apply NoDup_cons in Hnd as [_ Hnd].
      apply Hne. eapply (NoDup_lookup _ i j (p_blk p) Hnd); rewrite list_lookup_fmap; [by rewrite Hp|by rewrite Hq, <- E].
Qed.

Lemma wf_cleaned m o ss : wf_client m o ss -> wf_client m (cleaned o) (no_filters ss).
Proof.
  intros []. constructor; cbn; auto.
  - unfold free_slots. by rewrite length_map.
  - unfold no_filters. by rewrite length_map.
  - intros i p h s Hp Hh Hs. unfold free_slots in Hh. unfold no_filters in Hs.
    apply list_lookup_fmap_Some in Hh as (h0 & -> & Hh0). apply list_lookup_fmap_Some in Hs as (s0 & -> & Hs0).
    destruct (wf_slots i p h0 s0 Hp Hh0 Hs0) as [Hf _]. by split.
Qed.

Lemma wf_put_next n m o ss : wf_client m o ss -> 0 <= n <= 65535 -> wf_client m (put_next n o) ss.
Proof. intros [] Hn. by constructor. Qed.
Lemma wf_put_options ka cs m o ss : wf_client m o ss -> 0 <= ka < 65536 -> wf_client m (put_options ka cs o) ss.
Proof. intros [] Hka. by constructor. Qed.
Lemma wf_put_isconnected b m o ss : wf_client m o ss -> wf_client m (put_isconnected b o) ss.
Proof. intros []. by constructor. Qed.
Lemma wf_put_ping b m o ss : wf_client m o ss -> wf_client m (put_ping_outstanding b o) ss.
Proof. intros []. by constructor. Qed.
Lemma wf_put_inflightMsgid n m o ss : wf_client m o ss -> wf_client m (put_inflightMsgid n o) ss.
Proof. intros []. by constructor. Qed.
End Table.

(** ** Strings *)

Lemma strcmp_loop m : forall s t a b n, cstr m a s -> cstr m b t -> (length s < n)%nat -> strncmp_eq m a b n = Some (bool_decide (s = t)).
Proof.
  induction s as [|x s IH]; intros [|y t] a b [|n] [Ha Hza] [Hb Hzb] Hn; cbn [length app] in *; try lia; cbn [strncmp_eq];
    rewrite (at_bytes_load _ _ _ _ Ha), (at_bytes_load _ _ _ _ Hb); msimpl.
  - done.
  - apply Forall_cons in Hzb as [Hy _]. destruct (Z.eqb_spec 0 y); [by subst|done].
  - apply Forall_cons in Hza as [Hx _]. destruct (Z.eqb_spec x 0); [by subst|done].
  - apply at_bytes_cons in Ha as [_ Ha]. apply at_bytes_cons in Hb as [_ Hb].
    apply Forall_cons in Hza as [Hx Hza]. apply Forall_cons in Hzb as [Hy Hzb]. destruct (Z.eqb_spec x y) as [->|Hne]; cbn [negb].
    + destruct (Z.eqb_spec y 0); [done|]. rewrite (IH t) by (done || lia). f_equal. apply bool_decide_ext. split; [by intros ->|by intros [= ->]].
    + f_equal. symmetry. apply bool_decide_false. congruence.
Qed.

Lemma strcmp_spec m a b s t : cstr m a s -> cstr m b t -> strcmp_eq m a b = Some (bool_decide (s = t)).
Proof.
  intros Ha Hb. unfold strcmp_eq. pose proof Ha as [Hat _]. apply at_bytes_spec in Hat as (blk & Hblk & Ho & Hl & _); [|by destruct s].
  rewrite Hblk. cbn [mbind option_bind]. apply strcmp_loop; [done|done|]. rewrite length_app in Hl. cbn [length] in Hl. lia.
Qed.

Lemma wp_strcpy dst src u n (Q : unit -> mem -> Prop) m :
  cstr m src u -> room m dst n -> Z.of_nat (length u) < n ->
  (forall m', changed [p_blk dst] m m' -> cstr m' dst u -> Q tt m') -> wp (strcpy dst src) Q m.
Proof.
  intros Hs Hr Hl HQ. unfold strcpy. apply wp_bind, wp_get, wp_bind. eapply wp_lift; [by apply cstr_strlen|].
  unfold memcpy. apply wp_bind, wp_get, wp_bind. pose proof Hs as [Hat Hz]. eapply wp_lift.
  { unfold at_bytes in Hat. rewrite length_app in Hat. cbn [length] in Hat. rewrite Nat2Z.inj_add in Hat. exact Hat. }
  eapply wp_stores; [exact Hr|rewrite length_app; cbn [length]; lia|]. intros m' _ Hc Hat'. by apply HQ.
Qed.

(** ** Taking and freeing a slot *)
Section Slots.
Context `{CharAbi} `{IdealPlatform}.
Implicit Types (m : mem) (o : ClientObj) (w : W) (l : list HandlerCall) (ss : list subscription).

(** Slots before [i] are taken. *)
Lemma wp_add_handler filter u mh ss (Q : bool -> st -> Prop) m o w l :
  wf_client m o ss -> cstr m filter u ->
  match free_slot ss with
  | None => Q false (mkSt m o w l)
  | Some i => forall p, topicFilters o !! i = Some p ->
      exists v, (254 <= Z.of_nat (length u) -> cstr m p v /\ Z.of_nat (length v) < 255) /\ (Z.of_nat (length u) < 254 -> v = u) /\
      forall m' h, changed [p_blk p] m m' -> wf_client m' (put_messageHandlers (<[i := h]> (messageHandlers o)) o) (subscribed i v mh ss) ->
        Q true (mkSt m' (put_messageHandlers (<[i := h]> (messageHandlers o)) o) w l)
  end -> wp (Client_add_handler 0 MAX_HANDLERS filter mh) Q (mkSt m o w l).
Proof.
  intros Hwf Hu.
  enough (forall n i, (i + n)%nat = MAX_HANDLERS -> (forall j s, (j < i)%nat -> ss !! j = Some s -> s.1 <> None) ->
    match free_slot ss with
    | None => Q false (mkSt m o w l)
    | Some i => forall p, topicFilters o !! i = Some p ->
        exists v, (254 <= Z.of_nat (length u) -> cstr m p v /\ Z.of_nat (length v) < 255) /\ (Z.of_nat (length u) < 254 -> v = u) /\
        forall m' h, changed [p_blk p] m m' -> wf_client m' (put_messageHandlers (<[i := h]> (messageHandlers o)) o) (subscribed i v mh ss) ->
          Q true (mkSt m' (put_messageHandlers (<[i := h]> (messageHandlers o)) o) w l)
    end -> wp (Client_add_handler i n filter mh) Q (mkSt m o w l)) as Hall by (intros HQ; apply (Hall _ 0%nat); [done|lia|done]).
  induction n as [|n IH]; intros i Hi Hbefore HQ; cbn [Client_add_handler].
  { assert (free_slot ss = None) as E; [|rewrite E in HQ; by apply wp_ret].
    unfold free_slot. rewrite (proj2 (list_find_None _ _)); [done|]. apply Forall_lookup. intros j s Hs. apply (Hbefore j s); [|done].
    apply lookup_lt_Some in Hs. rewrite (wf_table_length _ _ _ Hwf) in Hs. lia. }
  destruct (lookup_lt_is_Some_2 (messageHandlers o) i) as [h Hh]; [rewrite (wf_handlers_length _ _ _ Hwf); lia|].
  destruct (lookup_lt_is_Some_2 (topicFilters o) i) as [p Hp]; [rewrite (wf_names_length _ _ _ Hwf); lia|].
  destruct (lookup_lt_is_Some_2 ss i) as [s Hs]; [rewrite (wf_table_length _ _ _ Hwf); lia|].
  destruct (wf_slots _ _ _ Hwf i p h s Hp Hh Hs) as [_ Hok].
  psteps. eapply wp_lift; [exact Hh|]. destruct s as [[v|] f]; cbn [fst snd] in Hok.
  - destruct Hok as [-> _]. apply IH; [lia| |done]. intros j s Hj Hs'. destruct (decide (j = i)) as [->|]; [by simplify_eq|].
    apply (Hbefore j); [lia|done].
  - rewrite Hok. assert (free_slot ss = Some i) as E.
    { unfold free_slot. rewrite (proj2 (list_find_Some _ ss i (None, f))); [done|]. split_and!; [done|done|]. intros j s Hs' Hj. by apply (Hbefore j s). }
    rewrite E in HQ. destruct (HQ p Hp) as (v & Hlong & Hshort & HQ'). clear HQ.
    psteps. eapply wp_lift; [exact Hp|]. psteps. eapply wp_lift; [by apply cstr_strlen|]. psteps.
    destruct (Z.ltb_spec (Z.of_nat (length u)) 254).
    + rewrite (Hshort ltac:(lia)) in *. psteps. eapply (wp_strcpy _ _ u 255); [exact Hu| |lia|].
      { pose proof (wf_names _ _ _ Hwf) as Hn. by eapply Forall_lookup_1 in Hn. }
      intros m' Hc Hu'. psteps. apply HQ'; [done|]. eapply wf_put_slot; [done..|]. split; [done|]. split_and!; [done|done|lia].
    + destruct (Hlong ltac:(lia)) as [Hv Hlv]. psteps. apply HQ'; [done|]. eapply wf_put_slot; [done|done|done|]. by split.
Qed.

Lemma wp_remove_handler filter u ss (Q : unit -> st -> Prop) m o w l :
  wf_client m o ss -> cstr m filter u ->
  (forall hs, wf_client m (put_messageHandlers hs o) (unsubscribed u ss) -> Q tt (mkSt m (put_messageHandlers hs o) w l)) ->
  wp (Client_remove_handler 0 MAX_HANDLERS filter) Q (mkSt m o w l).
Proof.
  intros Hwf Hu HQ.
  assert (Hsame : put_messageHandlers (messageHandlers o) o = o) by (by destruct o).
  enough (forall n i, (i + n)%nat = MAX_HANDLERS -> (forall j s, (j < i)%nat -> ss !! j = Some s -> s.1 <> Some u) ->
    wp (Client_remove_handler i n filter) Q (mkSt m o w l)) as Hall by (apply (Hall _ 0%nat); [done|lia]).
  induction n as [|n IH]; intros i Hi Hbefore; cbn [Client_remove_handler].
  { apply wp_ret. rewrite <- Hsame. apply HQ. rewrite Hsame. unfold unsubscribed.
    rewrite (proj2 (list_find_None _ _)); [done|]. apply Forall_lookup. intros j s Hs. apply (Hbefore j s); [|done].
    apply lookup_lt_Some in Hs. rewrite (wf_table_length _ _ _ Hwf) in Hs. lia. }
  destruct (lookup_lt_is_Some_2 (messageHandlers o) i) as [h Hh]; [rewrite (wf_handlers_length _ _ _ Hwf); lia|].
  destruct (lookup_lt_is_Some_2 (topicFilters o) i) as [p Hp]; [rewrite (wf_names_length _ _ _ Hwf); lia|].
  destruct (lookup_lt_is_Some_2 ss i) as [s Hs]; [rewrite (wf_table_length _ _ _ Hwf); lia|].
  destruct (wf_slots _ _ _ Hwf i p h s Hp Hh Hs) as [Hfp Hok].
  psteps. eapply wp_lift; [exact Hh|]. psteps.
  apply (wp_lift _ (bool_decide (s.1 = Some u))).
  { destruct (s.1) as [v|]; [|by rewrite Hok]. destruct Hok as (-> & Hv & _). rewrite (strcmp_spec m p filter v u) by done.
    f_equal. apply bool_decide_ext. split; [by intros ->|by intros [= ->]]. }
  case_bool_decide as Hit.
  - psteps. apply HQ. unfold unsubscribed. rewrite (proj2 (list_find_Some _ ss i s)).
    2:{ split_and!; [done|done|]. intros j s' Hs' Hj. by apply (Hbefore j s'). }
    eapply wf_put_slot; [done|done|apply changed_refl|by split].
  - apply IH; [lia|]. intros j s' Hj Hs'. destruct (decide (j = i)) as [->|]; [by simplify_eq|]. apply (Hbefore j); [lia|done].
Qed.
End Slots.

(** ** A request and its reply *)
Section Commands.
Context `{CharAbi} `{IdealPlatform}.
Context (stack : publish_out).
Implicit Types (m : mem) (o : ClientObj) (w : W) (l : list HandlerCall) (ss : list subscription) (timer : Timer).

Lemma wp_timer (Q : Timer -> st -> Prop) m o w l ss : wf_client m o ss ->
  (forall timer, expired timer = false -> Q timer (mkSt m o w l)) -> wp Client_timer Q (mkSt m o w l).
Proof.
  intros Hwf HQ. pose proof (wf_timeout _ _ _ Hwf). unfold Client_timer. psteps. apply wp_countdown_ms. intros t Ht. apply HQ, Ht.
  rewrite to_int_id by (unfold INT_MIN, INT_MAX in *; lia). lia.
Qed.

Lemma wp_or_clean rc (Q : Z -> st -> Prop) m o w l :
  Q rc (mkSt m (if rc =? SUCCESS then o else cleaned o) w l) -> wp (or_clean rc) Q (mkSt m o w l).
Proof. intros HQ. unfold or_clean, Client_cleanSession. destruct (rc =? SUCCESS); cbn [negb]; psteps; exact HQ. Qed.

Lemma wp_getNext (Q : Z -> st -> Prop) m o w l ss : wf_client m o ss ->
  (wf_client m (put_next (next_id (next o)) o) ss -> 1 <= next_id (next o) <= 65535 ->
   Q (next_id (next o)) (mkSt m (put_next (next_id (next o)) o) w l)) ->
  wp PacketId_getNext Q (mkSt m o w l).
Proof.
  intros Hwf HQ. pose proof (wf_next _ _ _ Hwf) as Hn. unfold PacketId_getNext. psteps.
  assert (Hr : 1 <= next_id (next o) <= 65535) by (unfold next_id; destruct (Z.eqb_spec (next o) 65535); lia).
  apply (wp_lift _ (next_id (next o))).
  { unfold next_id, PacketId_MAX. destruct (Z.eqb_spec (next o) 65535); [done|]. apply cint_ok. unfold INT_MIN, INT_MAX. lia. }
  psteps. apply HQ; [apply wf_put_next; [done|lia]|done].
Qed.

(** A request is serialized and sent, and its reply waited for while the PUBLISH packets
    [ps] arrive. *)
Lemma wp_request fuel (ser : M mem Z) bs timer k h body rest ps ss (K : Z -> Z -> M st Z) (Q : Z -> st -> Prop) m o w l :
  ser m = stored m (sendbuf o) bs -> bs <> [] -> Z.of_nat (length bs) <= MAX_MQTT_PACKET_SIZE -> expired timer = false ->
  k = hdr_type h -> k <> PUBLISH -> k <> PINGRESP -> 0 <= k < 16 -> Z.of_nat (length (packet h body)) <= MAX_MQTT_PACKET_SIZE ->
  Forall fits ps -> (length ps <= fuel)%nat -> wf_client m o ss -> incoming w = enc_all ps ++ packet h body ++ rest -> no_ping o ->
  (forall m' o' w' cs, moved ss m o m' o' -> at_bytes m' (readbuf o) (packet h body) -> delivered_all ss (defaultMessageHandler o) ps cs ->
     incoming w' = rest -> outgoing w' = outgoing w ++ bs ++ answers ps -> wp (K SUCCESS k) Q (mkSt m' o' w' (l ++ cs))) ->
  wp (len ← on_mem ser; if len <=? 0 then mret FAILURE else
      rc ← Client_sendPacket (S fuel) len timer; if negb (rc =? SUCCESS) then mret rc else
      r ← Client_waitfor stack (S fuel) k timer; K rc r) Q (mkSt m o w l).
Proof.
  intros Hser Hne Hfit Hexp -> N1 N2 Hk Hfit' Hps Hfuel Hwf Hin Hnp HK.
  eapply wp_serialize_send; [exact Hser|done|apply (wf_sendbuf _ _ _ Hwf)|done|done|]. intros m1 t w1 Hc1 _ Ht Hi1 Ho1.
  change (SUCCESS =? SUCCESS) with true. cbn [negb]. apply wp_bind. pose proof (moved_sent ss m o m1 t Hwf Hc1 Hnp Ht) as Hmv.
  assert (E : readbuf (sent_at t o) = readbuf o /\ defaultMessageHandler (sent_at t o) = defaultMessageHandler o)
    by (unfold sent_at; by destruct (0 <? _)). destruct E as [E1 E2].
  eapply wp_waitfor; [done|done|done|exact Hfit'|exact Hps|lia|apply Hmv|by rewrite Hi1|done|apply Hmv|].
  rewrite E1, E2. intros m2 o2 w2 cs Hmv2 Hat Hdel Hi2 Ho2.
  apply HK; [by eapply moved_trans|done|done|done|]. by rewrite Ho2, Ho1, app_assoc.
Qed.

Lemma retimed_same o o' : retimed o o' ->
  sendbuf o' = sendbuf o /\ readbuf o' = readbuf o /\ topicFilters o' = topicFilters o /\ messageHandlers o' = messageHandlers o /\
  isconnected o' = isconnected o /\ inflightMsgid o' = inflightMsgid o /\ cleansession_ o' = cleansession_ o /\
  keepAliveInterval_ o' = keepAliveInterval_ o /\ defaultMessageHandler o' = defaultMessageHandler o.
Proof. by intros (a & b & ->). Qed.

Lemma names_apart m o ss i p : wf_client m o ss -> topicFilters o !! i = Some p -> p_blk p ∉ buffers o.
Proof.
  intros [] Hp. cbn [map] in wf_blocks. apply NoDup_cons in wf_blocks as [N1 Hnd]. apply NoDup_cons in Hnd as [N2 _].
  assert (Hin : p_blk p ∈ map p_blk (topicFilters o)) by (by apply list_elem_of_fmap_2, (list_elem_of_lookup_2 _ i)).
  intros [E|E%list_elem_of_singleton]%elem_of_cons.
  - apply N1. rewrite !elem_of_cons, <- E. by right; right.
  - apply N2. rewrite !elem_of_cons, <- E. by right.
Qed.

(** C4: [subscribe] end to end: it sends the SUBSCRIBE of the filter with the next packet
    identifier, delivers the PUBLISH packets that arrive before the SUBACK, and then the
    code decides: 128, where [char] is unsigned, ends the session; any other takes the
    first free slot.  Without a free slot a code of 0 is a success that registers nothing,
    and one of 1 or 2 ends the session.  A filter of 254 characters or more is not
    copied, so the handler is registered for the filter [v] the slot had before. *)
Theorem Client_subscribe_spec fuel s ss filter u v qos mh t id' code ps rest :
  let o := s_o s in let id := next_id (next o) in let r := to_char code in
  wf_client (s_mem s) o ss -> isconnected o = true -> no_ping o ->
  cstr (s_mem s) filter u -> p_blk filter ∉ buffers o -> wf_subscribe 0 id [(u, qos)] ->
  MQTTPacket_len (Z.of_nat (length (subscribe_body id [(u, qos)]))) = Some t -> t <= MAX_MQTT_PACKET_SIZE ->
  0 <= id' < 65536 -> byte code -> Forall fits ps -> (length ps <= fuel)%nat ->
  incoming (s_w s) = enc_all ps ++ enc_suback id' [code] ++ rest ->
  (Z.of_nat (length u) < 254 -> v = u) ->
  (254 <= Z.of_nat (length u) -> forall i p, free_slot ss = Some i -> topicFilters o !! i = Some p ->
     cstr (s_mem s) p v /\ Z.of_nat (length v) < 255) ->
  exists rc s' ss' cs, Client_subscribe stack (S fuel) filter qos mh s = Some (rc, s') /\
    (rc, isconnected (s_o s'), ss') =
      (if r =? 128 then (128, false, no_filters ss) else
       match free_slot ss with
       | Some i => (0, true, subscribed i v mh ss)
       | None => if r =? 0 then (0, true, ss) else (r, false, no_filters ss)
       end) /\
    wf_client (s_mem s') (s_o s') ss' /\ delivered_all ss (defaultMessageHandler o) ps cs /\ s_log s' = s_log s ++ cs /\
    incoming (s_w s') = rest /\ outgoing (s_w s') = outgoing (s_w s) ++ enc_subscribe 0 id [(u, qos)] ++ answers ps.
Proof.
  destruct s as [m o w l]. cbn [s_mem s_o s_w s_log]. cbv zeta. set (id := next_id (next o)). set (r := to_char code). intros Hwf Hcon Hnp Hu Hfb Hsub Ht Hfit Hid' Hcode Hps Hfuel Hin Hshort Hlong.
  assert (Hlen : Z.of_nat (length (enc_subscribe 0 id [(u, qos)])) <= t).
  { pose proof Hsub as (_ & _ & _ & Hsm). destruct (MQTTPacket_len_spec _ (conj (Nat2Z.is_nonneg _) Hsm)) as (t' & Ht' & Hle).
    assert (t' = t) as -> by congruence. unfold enc_subscribe. rewrite length_packet. lia. }
  enough (wp (Client_subscribe stack (S fuel) filter qos mh) (fun rc s' => exists ss' cs,
    (rc, isconnected (s_o s'), ss') =
      (if r =? 128 then (128, false, no_filters ss) else
       match free_slot ss with
       | Some i => (0, true, subscribed i v mh ss)
       | None => if r =? 0 then (0, true, ss) else (r, false, no_filters ss)
       end) /\
    wf_client (s_mem s') (s_o s') ss' /\ delivered_all ss (defaultMessageHandler o) ps cs /\ s_log s' = l ++ cs /\
    incoming (s_w s') = rest /\ outgoing (s_w s') = outgoing w ++ enc_subscribe 0 id [(u, qos)] ++ answers ps) (mkSt m o w l)) as Hwp.
  { apply wp_Some in Hwp as (rc & s' & Hrun & ss' & cs & HQ). by exists rc, s', ss', cs. }
  unfold Client_subscribe. apply wp_bind. eapply wp_timer; [exact Hwf|]. intros timer Hexp.
  apply wp_bind, wp_get_o, wp_bind. rewrite Hcon. cbn [negb]. apply wp_bind. eapply wp_getNext; [exact Hwf|]. fold id. intros Hwf1 Hid.
  set (o1 := put_next id o) in *. rewrite to_ushort_id by lia.
  eapply (wp_request fuel _ (enc_subscribe 0 id [(u, qos)]) timer SUBACK (header 9 0 0 0) (be16 id' ++ [code]) rest ps ss _ _ m o1 w l);
    [|done|lia|done|done|done|done|by split|done|done|done|done|done|done|].
  { rewrite (MQTTSerialize_subscribe_spec m (sendbuf o) _ 0 id _ _ [(u, qos)] t); [|done| |done].
    - by destruct (Z.leb_spec t MAX_MQTT_PACKET_SIZE); [|lia].
    - split; [|done]. constructor; [|constructor]. split; [by split|]. split; intros p Hp; cbn in Hp; simplify_eq.
      intros E. apply Hfb, elem_of_cons. by left. }
  intros m2 o2 w2 cs (Hwf2 & Hc2 & Hr2 & Hnp2) Hat Hdel Hi2 Ho2.
  destruct (retimed_same _ _ Hr2) as (E1 & E2 & E3 & E4 & E5 & _ & _ & _ & E6).
  change (SUBACK =? SUBACK) with true. cbv iota. psteps.
  eapply wp_lift; [apply (suback_maxcount m2 (mkSubackOut (po_packetid stack) 0 [-1]) 1 _ _ id' [code]); done|].
  cbn beta iota. change (1 =? 1) with true. cbv iota. cbn [so_grantedQoSs]. apply wp_bind.
  apply (wp_lift _ r); [by apply arr_get_in|].
  assert (Hend : forall rc m3 o3 ss', wf_client m3 o3 ss' -> isconnected o3 = true ->
    (if rc =? 0 then (rc, true, ss') else (rc, false, no_filters ss')) =
      (if r =? 128 then (128, false, no_filters ss) else
       match free_slot ss with Some i => (0, true, subscribed i v mh ss) | None => if r =? 0 then (0, true, ss) else (r, false, no_filters ss) end) ->
    wp (or_clean rc) (fun rc s' => exists ss' cs, (rc, isconnected (s_o s'), ss') =
      (if r =? 128 then (128, false, no_filters ss) else
       match free_slot ss with Some i => (0, true, subscribed i v mh ss) | None => if r =? 0 then (0, true, ss) else (r, false, no_filters ss) end) /\
      wf_client (s_mem s') (s_o s') ss' /\ delivered_all ss (defaultMessageHandler o) ps cs /\ s_log s' = l ++ cs /\
      incoming (s_w s') = rest /\ outgoing (s_w s') = outgoing w ++ enc_subscribe 0 id [(u, qos)] ++ answers ps) (mkSt m3 o3 w2 (l ++ cs))).
  { intros rc m3 o3 ss' Hwf3 Hcon3 Hres. apply wp_or_clean. cbn [s_mem s_o s_w s_log]. unfold SUCCESS in *. destruct (rc =? 0).
    - exists ss', cs. rewrite Hcon3. by split_and!.
    - exists (no_filters ss'), cs. split_and!; try done. by apply wf_cleaned. }
  destruct (Z.eqb_spec r 128) as [E|E]; cbn [negb].
  { apply wp_ret, (Hend r m2 o2 ss); [done|by rewrite E5|]. by rewrite E. }
  apply wp_bind. eapply (wp_add_handler filter u); [exact Hwf2|by eapply changed_cstr|].
  destruct (free_slot ss) as [i|].
  - intros p Hp. rewrite E3 in Hp. change (topicFilters o1) with (topicFilters o) in Hp. exists v. split_and!; [|done|].
    + intros Hl. destruct (Hlong Hl i p eq_refl Hp) as [Hv Hlv]. split; [|done].
      eapply changed_cstr; [exact Hc2| |exact Hv]. exact (names_apart m o ss i p Hwf Hp).
    + intros m3 h Hc3 Hwf3. apply wp_ret, (Hend 0 m3 _ (subscribed i v mh ss)); [done| |done]. cbn. by rewrite E5.
  - apply wp_ret, (Hend r m2 o2 ss); [done|by rewrite E5|]. by destruct (Z.eqb_spec r 0) as [->|].
Qed.
(** [unsubscribe] end to end: it sends the UNSUBSCRIBE of the filter with the next packet
    identifier, delivers the PUBLISH packets that arrive before the UNSUBACK, frees the
    first slot with this filter and no other, and returns 0. *)
Theorem Client_unsubscribe_spec fuel s ss filter u t id' ps rest :
  let o := s_o s in let id := next_id (next o) in
  wf_client (s_mem s) o ss -> isconnected o = true -> no_ping o ->
  cstr (s_mem s) filter u -> p_blk filter ∉ buffers o -> wf_unsubscribe 0 id [u] ->
  MQTTPacket_len (Z.of_nat (length (unsubscribe_body id [u]))) = Some t -> t <= MAX_MQTT_PACKET_SIZE ->
  0 <= id' < 65536 -> Forall fits ps -> (length ps <= fuel)%nat ->
  incoming (s_w s) = enc_all ps ++ enc_ack UNSUBACK 0 id' ++ rest ->
  exists s' cs, Client_unsubscribe stack (S fuel) filter s = Some (0, s') /\
    wf_client (s_mem s') (s_o s') (unsubscribed u ss) /\ isconnected (s_o s') = true /\
    delivered_all ss (defaultMessageHandler o) ps cs /\ s_log s' = s_log s ++ cs /\
    incoming (s_w s') = rest /\ outgoing (s_w s') = outgoing (s_w s) ++ enc_unsubscribe 0 id [u] ++ answers ps.
Proof.
  destruct s as [m o w l]. cbn [s_mem s_o s_w s_log]. cbv zeta. set (id := next_id (next o)).
  intros Hwf Hcon Hnp Hu Hfb Hsub Ht Hfit Hid' Hps Hfuel Hin.
  assert (Hlen : Z.of_nat (length (enc_unsubscribe 0 id [u])) <= t).
  { pose proof Hsub as (_ & _ & _ & Hsm). destruct (MQTTPacket_len_spec _ (conj (Nat2Z.is_nonneg _) Hsm)) as (t' & Ht' & Hle).
    assert (t' = t) as -> by congruence. unfold enc_unsubscribe. rewrite length_packet. lia. }
  enough (wp (Client_unsubscribe stack (S fuel) filter) (fun rc s' => rc = 0 /\ exists cs,
    wf_client (s_mem s') (s_o s') (unsubscribed u ss) /\ isconnected (s_o s') = true /\
    delivered_all ss (defaultMessageHandler o) ps cs /\ s_log s' = l ++ cs /\
    incoming (s_w s') = rest /\ outgoing (s_w s') = outgoing w ++ enc_unsubscribe 0 id [u] ++ answers ps) (mkSt m o w l)) as Hwp.
  { apply wp_Some in Hwp as (rc & s' & Hrun & -> & cs & HQ). by exists s', cs. }
  unfold Client_unsubscribe. apply wp_bind. eapply wp_timer; [exact Hwf|]. intros timer Hexp.
  apply wp_bind, wp_get_o, wp_bind. rewrite Hcon. cbn [negb]. apply wp_bind. eapply wp_getNext; [exact Hwf|]. fold id. intros Hwf1 Hid.
  set (o1 := put_next id o) in *. rewrite to_ushort_id by lia.
  eapply (wp_request fuel _ (enc_unsubscribe 0 id [u]) timer UNSUBACK (header 11 0 0 0) (be16 id') rest ps ss _ _ m o1 w l);
    [|done|lia|done|done|done|done|by split|done|done|done|done|done|done|].
  { rewrite (MQTTSerialize_unsubscribe_spec m (sendbuf o) _ 0 id _ [u] t); [|done| |done].
    - by destruct (Z.leb_spec t MAX_MQTT_PACKET_SIZE); [|lia].
    - constructor; [|constructor]. split; [by split|]. split; intros p Hp; cbn in Hp; simplify_eq.
      intros E. apply Hfb, elem_of_cons. by left. }
  intros m2 o2 w2 cs (Hwf2 & Hc2 & Hr2 & Hnp2) Hat Hdel Hi2 Ho2.
  destruct (retimed_same _ _ Hr2) as (E1 & E2 & E3 & E4 & E5 & _).
  change (UNSUBACK =? UNSUBACK) with true. cbv iota. psteps. apply (wp_lift _ (1, id')).
  { unfold MQTTDeserialize_unsuback. by rewrite (MQTTDeserialize_ack_spec _ _ _ _ 11 0 id') by (try done; lia). }
  cbn beta iota. change (1 =? 1) with true. cbv iota. apply wp_bind.
  eapply (wp_remove_handler filter u); [exact Hwf2|by eapply changed_cstr|]. intros hs Hwf3. apply wp_ret, wp_or_clean.
  change (0 =? SUCCESS) with true. cbv iota. split; [done|]. exists cs. split_and!; try done. cbn. by rewrite E5.
Qed.

(** The PUBLISH of a message. *)
Definition publish_of (msg : Message) (id : Z) (topic payload : list Z) : publish :=
  mkPublish 0 (g_qos msg) (g_retained msg) (if g_qos msg =? 0 then 0 else id) topic payload.
Definition publish_args_of m o (filter : ptr) (msg : Message) (topic payload : list Z) : Prop :=
  cstr m filter topic /\ p_blk filter <> p_blk (sendbuf o) /\ g_payloadlen msg = Z.of_nat (length payload) /\
  exists q, g_payload msg = Some q /\ at_bytes m q payload /\ p_blk q <> p_blk (sendbuf o).

Lemma wf_put_inflight m m' n id q o ss : wf_client m o ss -> changed [p_blk (pubbuf o)] m m' -> wf_client m' (put_inflight n id q o) ss.
Proof.
  intros [] Hm. pose proof Hm as [_ Hr]. constructor; cbn; auto.
  - eapply Forall_impl; [exact wf_names|]. intros p. apply Hr.
  - intros i p h s Hp Hh Hs. eapply slot_changed; [exact Hm| |by eapply wf_slots].
    intros E%list_elem_of_singleton. cbn [map] in wf_blocks.
    apply NoDup_cons in wf_blocks as [_ Hnd]. apply NoDup_cons in Hnd as [_ Hnd]. apply NoDup_cons in Hnd as [N _].
    apply N. rewrite <- E. by apply list_elem_of_fmap_2, (list_elem_of_lookup_2 _ i).
Qed.

Lemma pubbuf_apart m o ss : wf_client m o ss -> p_blk (sendbuf o) <> p_blk (pubbuf o) /\ p_blk (readbuf o) <> p_blk (pubbuf o).
Proof.
  intros []. cbn [map] in wf_blocks. apply NoDup_cons in wf_blocks as [N1 Hnd]. apply NoDup_cons in Hnd as [N2 _]. split; intros E.
  - apply N1. rewrite !elem_of_cons, E. by right; left.
  - apply N2. rewrite !elem_of_cons, E. by left.
Qed.

(** What is left of the publish in flight when the PUBACK of [id'] arrives. *)
Definition acked (id' : Z) o : ClientObj := if inflightMsgid o =? id' then put_inflightMsgid 0 o else o.

(** The private [publish]: what is in the send buffer goes out, and at QoS 1 the PUBACK is waited for. *)
Lemma wp_publish_sent fuel bs timer q id' ps rest ss (Q : Z -> st -> Prop) m o w l :
  at_bytes m (sendbuf o) bs -> bs <> [] -> Z.of_nat (length bs) <= MAX_MQTT_PACKET_SIZE -> expired timer = false ->
  wf_client m o ss -> no_ping o -> Forall fits ps -> (length ps <= fuel)%nat -> 0 <= id' < 65536 ->
  (q = 1 -> incoming w = enc_all ps ++ enc_ack PUBACK 0 id' ++ rest) ->
  (q = 1 -> forall m' o' w' cs, moved ss m o m' o' -> delivered_all ss (defaultMessageHandler o) ps cs -> incoming w' = rest ->
     outgoing w' = outgoing w ++ bs ++ answers ps -> Q SUCCESS (mkSt m' (acked id' o') w' (l ++ cs))) ->
  (q <> 1 -> forall t w', (0 < keepAliveInterval_ o -> expired t = false) -> incoming w' = incoming w -> outgoing w' = outgoing w ++ bs ->
     Q SUCCESS (mkSt m (sent_at t o) w' l)) ->
  wp (Client_publish_sent stack (S fuel) (Z.of_nat (length bs)) timer q) Q (mkSt m o w l).
Proof.
  intros Hat Hne Hfit Hexp Hwf Hnp Hps Hfuel Hid' Hin HQ1 HQ. unfold Client_publish_sent. apply wp_bind.
  eapply wp_sendPacket; [exact Hat|done|unfold MAX_MQTT_PACKET_SIZE, INT_MAX in *; lia|done|]. intros t w1 Ht Hi1 Ho1.
  change (SUCCESS =? SUCCESS) with true. cbn [negb]. unfold QOS1. destruct (Z.eqb_spec q 1) as [->|Hq].
  2:{ psteps. apply wp_or_clean. change (SUCCESS =? SUCCESS) with true. cbv iota. by apply HQ. }
  apply wp_bind, wp_bind. pose proof (moved_sent ss m o m t Hwf (changed_refl _ _) Hnp Ht) as Hmv.
  assert (E : readbuf (sent_at t o) = readbuf o /\ defaultMessageHandler (sent_at t o) = defaultMessageHandler o)
    by (unfold sent_at; by destruct (0 <? _)). destruct E as [E1 E2].
  eapply (wp_waitfor stack timer (header PUBACK 0 0 0) (be16 id') rest ps ss);
    [done|done|done|by rewrite length_be16_packet|done|lia|apply Hmv|by rewrite Hi1, Hin|done|apply Hmv|].
  rewrite E1, E2. intros m2 o2 w2 cs Hmv2 Hat2 Hdel Hi2 Ho2. change (hdr_type (header PUBACK 0 0 0)) with (msg_code PUBACK).
  change (PUBACK =? PUBACK) with true. cbv iota. psteps.
  assert (Er : readbuf o2 = readbuf o) by (destruct Hmv2 as (_ & _ & (a & b & ->) & _); exact E1). rewrite Er.
  eapply wp_lift; [apply (MQTTDeserialize_ack_spec _ _ _ _ PUBACK 0 id'); [done|done|done|exact Hat2]|]. cbn beta iota. change (1 =? 1) with true. cbn [negb ao_packetid].
  specialize (HQ1 eq_refl m2 o2 w2 cs (moved_trans _ _ _ _ _ _ _ Hmv Hmv2) Hdel Hi2). rewrite Ho2, Ho1, <- app_assoc in HQ1. specialize (HQ1 eq_refl).
  unfold acked in HQ1. destruct (inflightMsgid o2 =? id'); psteps; apply wp_or_clean; exact HQ1.
Qed.

(** The object once the packet of [p] is in the send buffer: the identifier is taken, and outside
    a clean session the packet is kept. *)
Definition publishing (p : publish) o : ClientObj :=
  let o1 := if pb_qos p =? 0 then o else put_next (pb_id p) o in
  if cleansession_ o =? 0 then put_inflight (Z.of_nat (length (enc_publish p))) (pb_id p) (pb_qos p) o1 else o1.

Lemma publishing_same p o : let o' := publishing p o in
  sendbuf o' = sendbuf o /\ readbuf o' = readbuf o /\ pubbuf o' = pubbuf o /\ isconnected o' = isconnected o /\
  defaultMessageHandler o' = defaultMessageHandler o /\ next o' = (if pb_qos p =? 0 then next o else pb_id p) /\
  inflightMsgid o' = (if cleansession_ o =? 0 then pb_id p else inflightMsgid o) /\ (no_ping o -> no_ping o').
Proof. unfold publishing. by destruct (pb_qos p =? 0), (cleansession_ o =? 0). Qed.

Lemma wp_publish_id fuel msg topicName q topic payload t ss (Q : Z * Z -> st -> Prop) m o w l :
  let p := publish_of msg (next_id (next o)) topic payload in let bs := enc_publish p in
  wf_client m o ss -> isconnected o = true -> 0 <= g_qos msg <= 2 -> wf_publish p ->
  publish_args_of m o topicName msg topic payload -> g_payload msg = Some q ->
  MQTTPacket_len (Z.of_nat (length (publish_body p))) = Some t -> t <= MAX_MQTT_PACKET_SIZE ->
  (forall timer m', expired timer = false -> wf_client m' (publishing p o) ss -> at_bytes m' (sendbuf o) bs ->
     (cleansession_ o = 0 -> at_bytes m' (pubbuf o) bs) -> bs <> [] -> Z.of_nat (length bs) <= MAX_MQTT_PACKET_SIZE ->
     wp (rc ← Client_publish_sent stack fuel (Z.of_nat (length bs)) timer (g_qos msg); mret (rc, pb_id p)) Q (mkSt m' (publishing p o) w l)) ->
  wp (Client_publish_id stack fuel topicName q (g_payloadlen msg) 0 (g_qos msg) (g_retained msg)) Q (mkSt m o w l).
Proof.
  cbv zeta. set (p := publish_of _ _ _ _). set (bs := enc_publish p). intros Hwf Hcon Hq Hp (Hu & Hub & Hpl & q' & Eq' & Hpay & Hpb) Eq Ht Hfit HQ.
  assert (q' = q) as -> by congruence. pose proof Hp as (_ & _ & _ & Hid & Hsh & Hsm).
  assert (Hlen : Z.of_nat (length bs) <= t).
  { destruct (MQTTPacket_len_spec _ (conj (Nat2Z.is_nonneg _) Hsm)) as (t' & Ht' & Hle).
    assert (t' = t) as -> by congruence. unfold bs, enc_publish. rewrite length_packet. lia. }
  unfold Client_publish_id. apply wp_bind. eapply wp_timer; [exact Hwf|]. intros timer Hexp.
  apply wp_bind, wp_get_o. rewrite Hcon. cbn [negb]. cbv iota.
  set (o1 := if pb_qos p =? 0 then o else put_next (pb_id p) o).
  assert (Ho1 : wf_client m o1 ss /\ sendbuf o1 = sendbuf o /\ pubbuf o1 = pubbuf o /\ cleansession_ o1 = cleansession_ o).
  { unfold o1. destruct (pb_qos p =? 0); [done|]. split; [|done]. by apply wf_put_next; [|lia]. }
  destruct Ho1 as (Hwf1 & E1 & E2 & E3).
  assert (Hids : forall (Q' : Z -> st -> Prop), Q' (pb_id p) (mkSt m o1 w l) ->
    wp (if (g_qos msg =? QOS1) || (g_qos msg =? QOS2) then n ← PacketId_getNext; mret (to_ushort n) else mret 0) Q' (mkSt m o w l)).
  { intros Q' HQ'. unfold o1 in HQ'. cbn [p publish_of pb_qos pb_id] in HQ'. unfold QOS1, QOS2.
    destruct (Z.eqb_spec (g_qos msg) 0) as [E0|E0].
    - rewrite E0. cbn [Z.eqb orb]. apply wp_ret, HQ'.
    - replace ((g_qos msg =? 1) || (g_qos msg =? 2)) with true by (symmetry; apply orb_true_iff; rewrite !Z.eqb_eq; lia).
      apply wp_bind. eapply wp_getNext; [exact Hwf|]. intros _ Hr. apply wp_ret. by rewrite to_ushort_id by lia. }
  apply wp_bind, Hids. clear Hids. apply wp_bind, wp_on_mem. eapply (wp_stored _ (sendbuf o) bs); [|apply (wf_sendbuf _ _ _ Hwf)|lia|].
  { rewrite Hpl, to_int_id by (rewrite length_publish_body in Hsm; cbn [p publish_of pb_payload] in Hsm; unfold INT_MIN, INT_MAX;
      destruct (0 <? _); lia).
    rewrite (MQTTSerialize_publish_spec m (sendbuf o) MAX_MQTT_PACKET_SIZE p (string_topic topicName) q t); [|done| |done].
    - by destruct (Z.leb_spec t MAX_MQTT_PACKET_SIZE); [|lia].
    - split_and!; [by split| |done|done]. by split; intros r Hr; cbn in Hr; simplify_eq. }
  intros m1 Hc1 Hat1. assert (Hne : bs <> []) by done.
  destruct (Z.leb_spec (Z.of_nat (length bs)) 0) as [Hl|_]; [destruct bs; [done|cbn [length] in Hl; lia]|].
  assert (Hwf2 : wf_client m1 o1 ss).
  { eapply wf_in_buffers; [exact Hwf1| |exact Hc1|apply retimed_refl]. rewrite <- E1. apply sendbuf_in. }
  specialize (HQ timer). unfold publishing in HQ. fold o1 in HQ.
  apply wp_bind. destruct (Z.eqb_spec (cleansession_ o) 0) as [Ecl|Ecl]; [|apply wp_ret; by apply HQ; [done|done|done| |done|lia]].
  apply wp_bind, wp_on_mem. unfold memcpy. apply wp_bind, wp_get, wp_bind. eapply wp_lift; [exact Hat1|].
  eapply wp_stores; [rewrite <- E2; apply (wf_pubbuf _ _ _ Hwf2)|lia|]. intros m2 _ Hc2 Hat2. destruct (pubbuf_apart _ _ _ Hwf) as [N _].
  apply wp_bind, wp_get_o, wp_set_o. apply HQ; [done| | |done|done|lia].
  - apply wf_put_inflight with m1; [done|by rewrite E2].
  - eapply changed_at; [exact Hc2| |exact Hat1]. by intros E%list_elem_of_singleton.
Qed.

(** C3: [publish] end to end: it sends the PUBLISH of the message, under the next
    packet identifier if its QoS is not 0, and returns 0; at QoS 1 after the PUBACK, delivering the
    PUBLISH packets that arrive before it.  Outside a clean session the packet is kept for sending
    it again, until a PUBACK with its identifier.  At QoS 2 it returns at once: the handshake
    is not begun, and when the PUBREC comes, [cycle] consumes it without a PUBREL. *)
Theorem Client_publish_spec fuel s ss topicName msg topic payload t id' ps rest :
  let o := s_o s in let id := next_id (next o) in let p := publish_of msg id topic payload in
  let kept := if cleansession_ o =? 0 then pb_id p else inflightMsgid o in
  wf_client (s_mem s) o ss -> isconnected o = true -> no_ping o ->
  0 <= g_qos msg <= 2 -> publish_args_of (s_mem s) o topicName msg topic payload -> wf_publish p ->
  MQTTPacket_len (Z.of_nat (length (publish_body p))) = Some t -> t <= MAX_MQTT_PACKET_SIZE ->
  0 <= id' < 65536 -> Forall fits ps -> (length ps <= fuel)%nat ->
  (g_qos msg = 1 -> incoming (s_w s) = enc_all ps ++ enc_ack PUBACK 0 id' ++ rest) ->
  (g_qos msg = 2 -> incoming (s_w s) = enc_ack PUBREC 0 id' ++ rest) ->
  exists s' cs, Client_publish stack (S fuel) topicName msg s = Some (0, s') /\
    wf_client (s_mem s') (s_o s') ss /\ isconnected (s_o s') = true /\ next (s_o s') = (if g_qos msg =? 0 then next o else id) /\
    inflightMsgid (s_o s') = (if (g_qos msg =? 1) && (kept =? id') then 0 else kept) /\
    (cleansession_ o = 0 -> at_bytes (s_mem s') (pubbuf o) (enc_publish p)) /\ s_log s' = s_log s ++ cs /\
    (g_qos msg = 1 -> delivered_all ss (defaultMessageHandler o) ps cs /\ incoming (s_w s') = rest /\
       outgoing (s_w s') = outgoing (s_w s) ++ enc_publish p ++ answers ps) /\
    (g_qos msg <> 1 -> cs = [] /\ incoming (s_w s') = incoming (s_w s) /\ outgoing (s_w s') = outgoing (s_w s) ++ enc_publish p) /\
    (g_qos msg = 2 -> forall timer, exists s'', Client_cycle stack (S fuel) timer s' = Some (PUBREC : Z, s'') /\
       incoming (s_w s'') = rest /\ outgoing (s_w s'') = outgoing (s_w s) ++ enc_publish p).
Proof.
  destruct s as [m o w l]. cbn [s_mem s_o s_w s_log]. cbv zeta. set (id := next_id (next o)). set (p := publish_of msg id topic payload).
  intros Hwf Hcon Hnp Hq Hargs Hp Ht Hfit Hid' Hps Hfuel Hin1 Hin2.
  pose proof (publishing_same p o) as (E1 & E2 & E3 & E4 & E5 & E6 & E7 & E8). set (o1 := publishing p o) in *. specialize (E8 Hnp).
  pose proof Hargs as (_ & _ & _ & q & Eq & _).
  enough (wp (Client_publish stack (S fuel) topicName msg) (fun rc s' => rc = 0 /\ exists cs,
    wf_client (s_mem s') (s_o s') ss /\ isconnected (s_o s') = true /\ next (s_o s') = (if g_qos msg =? 0 then next o else id) /\
    inflightMsgid (s_o s') = (if (g_qos msg =? 1) && (inflightMsgid o1 =? id') then 0 else inflightMsgid o1) /\
    (cleansession_ o = 0 -> at_bytes (s_mem s') (pubbuf o) (enc_publish p)) /\ s_log s' = l ++ cs /\
    (g_qos msg = 1 -> delivered_all ss (defaultMessageHandler o) ps cs /\ incoming (s_w s') = rest /\
       outgoing (s_w s') = outgoing w ++ enc_publish p ++ answers ps) /\
    (g_qos msg <> 1 -> cs = [] /\ incoming (s_w s') = incoming w /\ outgoing (s_w s') = outgoing w ++ enc_publish p) /\
    no_ping (s_o s')) (mkSt m o w l)) as Hwp.
  { apply wp_Some in Hwp as (rc & [m' o' w' l'] & Hrun & -> & cs & Hwf' & C1 & C2 & C3 & C4 & C5 & C6 & C7 & Hnp').
    cbn [s_mem s_o s_w s_log] in *. rewrite E7 in C3.
    exists (mkSt m' o' w' l'), cs. cbn [s_mem s_o s_w s_log]. split_and!; try done. intros E timer.
    destruct C7 as (_ & Hi & Ho); [lia|]. rewrite Hin2 in Hi by done.
    assert (wp (Client_cycle stack (S fuel) timer) (fun k s'' => k = (PUBREC : Z) /\ incoming (s_w s'') = rest /\
      outgoing (s_w s'') = outgoing w ++ enc_publish p) (mkSt m' o' w' l')) as Hwp; [|apply wp_Some in Hwp as (k & s'' & Hc & -> & HQ); by exists s''].
    eapply (wp_cycle_reply stack _ timer (header 5 0 0 0) (be16 id') rest ss); [done|done|done|exact Hwf'|exact Hi| |exact Hnp'|].
    { by rewrite length_be16_packet. }
    intros m2 o2 w2 _ _ Hi2 Ho2. cbn [s_w]. by rewrite Ho2. }
  unfold Client_publish. apply wp_bind. eapply wp_lift; [exact Eq|]. unfold Client_publish_payload. apply wp_bind.
  eapply (wp_publish_id _ msg topicName q topic payload t ss); [exact Hwf|done|done|exact Hp|exact Hargs|done|exact Ht|done|].
  fold id p o1. intros timer m1 Hexp Hwf1 Hat Hpub Hne Hl. apply wp_bind. rewrite <- E1 in Hat.
  eapply (wp_publish_sent _ _ timer _ id' ps rest ss); [exact Hat|done|done|done|exact Hwf1|exact E8|done|done|done|done| |].
  - intros Eq1 m2 o2 w2 cs (Hwf2 & Hc2 & (a & b & ->) & Hnp2) Hdel Hi2 Ho2. apply wp_ret, wp_ret. rewrite Eq1, E5 in *. split; [done|]. exists cs.
    unfold acked. cbn [s_mem s_o s_w s_log inflightMsgid put_last_sent put_last_received].
    change (1 =? 1) with true. cbn [andb Z.eqb Pos.eqb] in *. split_and!; try done.
    + destruct (inflightMsgid o1 =? id'); [by apply wf_put_inflightMsgid|done].
    + by destruct (inflightMsgid o1 =? id'); cbn; rewrite E4.
    + destruct (inflightMsgid o1 =? id'); cbn; rewrite E6; cbn [p publish_of pb_qos pb_id]; by rewrite Eq1.
    + by destruct (inflightMsgid o1 =? id').
    + intros Ecl. destruct (pubbuf_apart _ _ _ Hwf) as [N1 N2]. eapply changed_at; [exact Hc2| |by apply Hpub].
      unfold buffers. rewrite E1, E2. by intros [E|E%list_elem_of_singleton]%elem_of_cons.
    + by destruct (inflightMsgid o1 =? id').
  - intros Nq t' w' Ht' Hi Ho. apply wp_ret, wp_ret. split; [done|]. exists []. cbn [s_mem s_o s_w s_log].
    pose proof (no_ping_sent t' o1 E8 Ht') as Hnp'. destruct (retimed_sent_at t' o1) as (a & b & Es). rewrite Es in *.
    cbn [isconnected next inflightMsgid put_last_sent put_last_received].
    assert ((g_qos msg =? 1) = false) as -> by (by apply Z.eqb_neq). cbn [andb]. split_and!; try done.
    + eapply wf_changed; [exact Hwf1|apply changed_refl|by exists a, b].
    + by rewrite E4.
    + rewrite E6. cbn [p publish_of pb_qos pb_id]. by destruct (g_qos msg =? 0).
    + by rewrite app_nil_r.
Qed.
End Commands.
