(* ===== verification/PahoSession.v ===== *)
(** * PahoSession: sessions of the C++ client

    Connecting and reconnecting, what a packet that is too long does to the connection, and the
    answer of [yield] on a silent connection. *)
From S2P Require Import Prelude CMem Wire Packet Publish Connect Topic Platform PahoClient PahoSpec PahoCommands.

(** A whole buffer, of which the front is known. *)
Lemma room_front m p n bs : room m p n -> at_bytes m p bs -> bs <> [] -> Z.of_nat (length bs) <= n ->
  exists r, at_bytes m p (bs ++ r) /\ Z.of_nat (length (bs ++ r)) = n.
Proof.
  intros (b & Hb & Ho & Hl) Hat Hne Hn. apply at_bytes_spec in Hat as (b' & Hb' & _ & Hl' & Hbs); [|done]. assert (b' = b) as -> by congruence.
  set (x := take (Z.to_nat n) (drop (Z.to_nat (p_off p)) b)).
  assert (Hx : length x = Z.to_nat n) by (unfold x; rewrite length_take, length_drop; lia).
  assert (Ex : x = bs ++ drop (length bs) x).
  { rewrite <- (take_drop (length bs) x) at 1. f_equal. unfold x. rewrite take_take, Nat.min_l by lia.
    rewrite <- Hbs at 2. f_equal. }
  exists (drop (length bs) x). rewrite <- Ex, Hx. split; [|lia]. unfold at_bytes, load_bytes. rewrite Hx, Hb. cbn [mbind option_bind].
  destruct bs; [done|]. cbn [length] in *. rewrite decide_False by lia. rewrite decide_True by lia. f_equal. unfold x. f_equal. lia.
Qed.

Lemma varint_small n : n < 128 -> varint n = [n].
Proof. intros Hn. unfold varint, varint_n. by destruct (Z.ltb_spec n 128); [|lia]. Qed.

Section Connecting.
Context `{CharAbi} `{IdealPlatform}.
Context (stack : publish_out).
Implicit Types (m : mem) (o : ClientObj) (w : W) (l : list HandlerCall) (ss : list subscription) (timer : Timer).

(** The object of a client that connects with the options [c]. *)
Definition connecting (c : connect) o : ClientObj := put_options (cn_keepalive c) (cn_clean c) o.

(** The options [d] ask for the connection [c], and its packet fits. *)
Definition connect_asked m o (d : MQTTPacket_connectData) (c : connect) : Prop :=
  wf_connect c /\ connect_args m (p_blk (sendbuf o)) d c /\
  exists t, MQTTPacket_len (Z.of_nat (length (connect_body c))) = Some t /\ t <= MAX_MQTT_PACKET_SIZE.

(** Both timers of the keep-alive run after CONNECT, whatever they were before. *)
Lemma wp_connect_sent fuel timer d c sp code ps rest ss (Q : Z * bool -> st -> Prop) m o w l :
  wf_client m o ss -> connect_asked m o d c -> byte code -> 0 <= sp < 2 -> expired timer = false ->
  Forall fits ps -> (length ps <= fuel)%nat -> incoming w = enc_all ps ++ enc_connack sp code ++ rest ->
  (forall m' o' w' cs, moved ss m (connecting c o) m' o' -> delivered_all ss (defaultMessageHandler o) ps cs ->
     incoming w' = rest -> outgoing w' = outgoing w ++ enc_connect c ++ answers ps -> Q (code, false) (mkSt m' o' w' (l ++ cs))) ->
  wp (Client_connect_sent stack (S fuel) timer d) Q (mkSt m o w l).
Proof.
  intros Hwf (Hc & Ha & t & Ht & Hfit) Hcode Hsp Hexp Hps Hfuel Hin HQ.
  pose proof (length_enc_connect_le c t Hc Ht) as Hlen. pose proof Hc as (_ & _ & Hka & _). pose proof Ha as (_ & Ecl & Eka & _).
  unfold Client_connect_sent. apply wp_bind, wp_get_o, wp_bind, wp_set_o. rewrite Eka, Ecl. fold (connecting c o).
  set (o1 := connecting c o) in *. assert (Hwf1 : wf_client m o1 ss) by by apply wf_put_options.
  eapply (wp_serialize_send fuel _ (enc_connect c)); [|done|apply (wf_sendbuf _ _ _ Hwf)|lia|done|].
  { rewrite (MQTTSerialize_connect_spec m (sendbuf o) MAX_MQTT_PACKET_SIZE d c t) by done. by destruct (Z.leb_spec t MAX_MQTT_PACKET_SIZE); [|lia]. }
  intros m1 t1 w1 Hc1 _ Ht1 Hi1 Ho1. change (SUCCESS =? SUCCESS) with true. cbn [negb]. cbv iota.
  assert (Hgo : forall o2, retimed o1 o2 -> no_ping o2 ->
    wp (r ← Client_waitfor stack (S fuel) CONNACK timer;
        if r =? CONNACK then
          o ← get_o; m ← on_mem get;
          '(ok, _, connack_rc) ← lift (MQTTDeserialize_connack m 0 255 (readbuf o) MAX_MQTT_PACKET_SIZE);
          mret (if ok =? 1 then connack_rc else FAILURE, false)
        else mret (FAILURE, false)) Q (mkSt m1 o2 w1 l)).
  { intros o2 Hr2 Hnp2. apply wp_bind. assert (Hwf2 : wf_client m1 o2 ss) by (eapply wf_in_buffers; [exact Hwf1|apply sendbuf_in|exact Hc1|done]).
    assert (E : readbuf o2 = readbuf o /\ defaultMessageHandler o2 = defaultMessageHandler o) by (by destruct Hr2 as (a & b & ->)). destruct E as [E1 E2].
    eapply (wp_waitfor stack timer (header 2 0 0 0) [sp * 128; code] rest ps ss);
      [done|done|done|done|done|lia|exact Hwf2|by rewrite Hi1|done|done|].
    rewrite E1, E2. intros m3 o3 w3 cs (Hwf3 & Hc3 & Hr3 & Hnp3) Hat Hdel Hi3 Ho3. change (hdr_type (header 2 0 0 0)) with (msg_code CONNACK).
    change (CONNACK =? CONNACK) with true. cbv iota. apply wp_bind, wp_get_o, wp_bind, wp_get_mem, wp_bind.
    assert (readbuf o3 = readbuf o) as -> by (destruct Hr3 as (a & b & ->); exact E1).
    eapply wp_lift; [by apply (MQTTDeserialize_connack_spec m3 _ _ code sp)|]. cbn beta iota. change (1 =? 1) with true. cbv iota.
    apply wp_ret, HQ; [|done|done|by rewrite Ho3, Ho1, <- app_assoc].
    split_and!; [done| |by eapply retimed_trans|done]. eapply changed_trans; [eapply changed_one; [|exact Hc1]; apply sendbuf_in|].
    by destruct Hr2 as (a & b & ->). }
  apply wp_bind, wp_get_o, wp_bind. pose proof (retimed_sent_at t1 o1) as Hr1.
  destruct (Z.ltb_spec 0 (keepAliveInterval_ (sent_at t1 o1))) as [Hp|Hp].
  - apply wp_bind. apply wp_countdown. intros t2 Ht2. apply wp_set_o, Hgo; [eapply retimed_trans; [exact Hr1|apply retimed_received]|].
    right. unfold sent_at in *. cbn [connecting put_options keepAliveInterval_ o1] in *. destruct (Z.ltb_spec 0 (cn_keepalive c)); cbn in *; [auto|lia].
  - apply wp_ret, Hgo; [done|]. left. unfold sent_at in *. cbn [connecting put_options keepAliveInterval_ o1] in *.
    destruct (Z.ltb_spec 0 (cn_keepalive c)); cbn in *; lia.
Qed.

Lemma retimed_connecting c o o' : retimed (connecting c o) o' ->
  sendbuf o' = sendbuf o /\ readbuf o' = readbuf o /\ pubbuf o' = pubbuf o /\ defaultMessageHandler o' = defaultMessageHandler o /\
  inflightMsgid o' = inflightMsgid o /\ inflightLen o' = inflightLen o /\ inflightQoS o' = inflightQoS o.
Proof. by intros (a & b & ->). Qed.

Lemma wp_connect fuel d c sp code ps rest ss (Q : Z -> st -> Prop) m o w l :
  wf_client m o ss -> isconnected o = false -> inflightMsgid o = 0 -> connect_asked m o d c ->
  byte code -> 0 <= sp < 2 -> Forall fits ps -> (length ps <= fuel)%nat -> incoming w = enc_all ps ++ enc_connack sp code ++ rest ->
  (forall m' o' w' cs, wf_client m' o' ss -> isconnected o' = (code =? 0) -> no_ping o' ->
     keepAliveInterval_ o' = cn_keepalive c -> cleansession_ o' = cn_clean c -> inflightMsgid o' = 0 ->
     delivered_all ss (defaultMessageHandler o) ps cs ->
     incoming w' = rest -> outgoing w' = outgoing w ++ enc_connect c ++ answers ps -> Q code (mkSt m' o' w' (l ++ cs))) ->
  wp (Client_connect stack (S fuel) d) Q (mkSt m o w l).
Proof.
  intros Hwf Hcon Hfl Hd Hcode Hsp Hps Hfuel Hin HQ.
  unfold Client_connect. apply wp_bind. eapply wp_timer; [exact Hwf|]. intros timer Hexp.
  apply wp_bind, wp_get_o. rewrite Hcon. apply wp_bind, wp_bind.
  eapply (wp_connect_sent fuel timer d c sp code ps rest ss); [done..|].
  intros m1 o1 w1 cs (Hwf1 & _ & (a & b & ->) & Hnp) Hdel Hi Ho. cbn beta iota. psteps.
  cbn [inflightMsgid put_last_sent put_last_received connecting put_options]. rewrite Hfl. change (0 <? 0) with false. psteps.
  specialize (HQ m1). unfold SUCCESS. destruct (Z.eqb_spec code 0) as [->|Hne]; psteps; apply HQ; try done.
  - by apply wf_put_isconnected.
Qed.

(** A CONNECT that does not fit the send buffer: nothing is sent. *)
Lemma wp_connect_long fuel d c t ss (Q : Z -> st -> Prop) m o w l :
  wf_client m o ss -> isconnected o = false -> wf_connect c -> connect_args m (p_blk (sendbuf o)) d c ->
  MQTTPacket_len (Z.of_nat (length (connect_body c))) = Some t -> MAX_MQTT_PACKET_SIZE < t ->
  Q FAILURE (mkSt m (connecting c o) w l) -> wp (Client_connect stack fuel d) Q (mkSt m o w l).
Proof.
  intros Hwf Hcon Hc Ha Ht Hlong HQ. pose proof Ha as (_ & Ecl & Eka & _).
  unfold Client_connect. apply wp_bind. eapply wp_timer; [exact Hwf|]. intros timer _.
  apply wp_bind, wp_get_o. rewrite Hcon. unfold Client_connect_sent. apply wp_bind, wp_bind, wp_bind, wp_get_o, wp_bind, wp_set_o.
  rewrite Eka, Ecl. fold (connecting c o). apply wp_bind, wp_on_mem. eapply (wp_run _ _ _ MQTTPACKET_BUFFER_TOO_SHORT m).
  - change (sendbuf (connecting c o)) with (sendbuf o).
    rewrite (MQTTSerialize_connect_spec m (sendbuf o) MAX_MQTT_PACKET_SIZE d c t) by done. by destruct (Z.leb_spec t MAX_MQTT_PACKET_SIZE); [lia|].
  - change (MQTTPACKET_BUFFER_TOO_SHORT <=? 0) with true. psteps. exact HQ.
Qed.

(** C25: [connect] end to end, with no publish in flight: it sends the CONNECT of the
    options, delivers the PUBLISH packets that arrive before the CONNACK, and
    returns the code of the CONNACK; the client is connected exactly when it is 0, keeps its
    subscriptions either way and takes keep-alive and clean session from the options. *)
Theorem Client_connect_spec fuel s ss d c sp code ps rest :
  let o := s_o s in
  wf_client (s_mem s) o ss -> isconnected o = false -> inflightMsgid o = 0 -> connect_asked (s_mem s) o d c ->
  byte code -> 0 <= sp < 2 -> Forall fits ps -> (length ps <= fuel)%nat ->
  incoming (s_w s) = enc_all ps ++ enc_connack sp code ++ rest ->
  exists s' cs, Client_connect stack (S fuel) d s = Some (code, s') /\
    wf_client (s_mem s') (s_o s') ss /\ isconnected (s_o s') = (code =? 0) /\ no_ping (s_o s') /\
    keepAliveInterval_ (s_o s') = cn_keepalive c /\ cleansession_ (s_o s') = cn_clean c /\
    delivered_all ss (defaultMessageHandler o) ps cs /\ s_log s' = s_log s ++ cs /\
    incoming (s_w s') = rest /\ outgoing (s_w s') = outgoing (s_w s) ++ enc_connect c ++ answers ps.
Proof.
  destruct s as [m o w l]. cbn [s_mem s_o s_w s_log]. cbv zeta. intros Hwf Hcon Hfl Hd Hcode Hsp Hps Hfuel Hin.
  enough (wp (Client_connect stack (S fuel) d) (fun rc s' => rc = code /\ exists cs,
    wf_client (s_mem s') (s_o s') ss /\ isconnected (s_o s') = (code =? 0) /\ no_ping (s_o s') /\
    keepAliveInterval_ (s_o s') = cn_keepalive c /\ cleansession_ (s_o s') = cn_clean c /\
    delivered_all ss (defaultMessageHandler o) ps cs /\ s_log s' = l ++ cs /\
    incoming (s_w s') = rest /\ outgoing (s_w s') = outgoing w ++ enc_connect c ++ answers ps) (mkSt m o w l)) as Hwp.
  { apply wp_Some in Hwp as (rc & s' & Hrun & -> & cs & HQ). by exists s', cs. }
  eapply wp_connect; [done..|]. intros m' o' w' cs Hwf' Hc Hnp Hka Hcl _ Hdel Hi Ho. split; [done|]. by exists cs.
Qed.
Lemma delivered_all_app ss d ps1 ps2 cs1 cs2 :
  delivered_all ss d ps1 cs1 -> delivered_all ss d ps2 cs2 -> delivered_all ss d (ps1 ++ ps2) (cs1 ++ cs2).
Proof. induction 1; intros; cbn; [done|]. rewrite <- app_assoc. constructor; [done|auto]. Qed.

(** What the connection holds behind the CONNACK when a publish is in flight: at QoS 1, its
    PUBACK, and PUBLISH packets before it. *)
Definition retry_answer (qos : Z) (ps : list publish) (id : Z) (rest : list Z) : list Z :=
  if qos =? 1 then enc_all ps ++ enc_ack PUBACK 0 id ++ rest else rest.
Definition retry_delivers (qos : Z) (ps : list publish) : list publish := if qos =? 1 then ps else [].

(** C26: [connect] with a publish in flight: behind the CONNACK it sends the kept
    packet again, byte for byte, so without the DUP flag; at QoS 1 it waits for the
    PUBACK.  It returns 0 and the client counts as connected whatever the CONNACK said:
    the result of the publish replaces the code, also when the server refused. *)
Theorem Client_connect_resends fuel s ss d c sp code bs id' ps ps' rest :
  let o := s_o s in
  wf_client (s_mem s) o ss -> isconnected o = false -> connect_asked (s_mem s) o d c ->
  0 < inflightMsgid o -> inflightLen o = Z.of_nat (length bs) -> bs <> [] -> at_bytes (s_mem s) (pubbuf o) bs ->
  Z.of_nat (length bs) <= MAX_MQTT_PACKET_SIZE ->
  byte code -> 0 <= sp < 2 -> 0 <= id' < 65536 -> Forall fits ps -> Forall fits ps' -> (length ps <= fuel)%nat -> (length ps' <= fuel)%nat ->
  incoming (s_w s) = enc_all ps ++ enc_connack sp code ++ retry_answer (inflightQoS o) ps' id' rest ->
  exists s' cs, Client_connect stack (S fuel) d s = Some (0, s') /\
    wf_client (s_mem s') (s_o s') ss /\ isconnected (s_o s') = true /\
    inflightMsgid (s_o s') = (if (inflightQoS o =? 1) && (inflightMsgid o =? id') then 0 else inflightMsgid o) /\
    delivered_all ss (defaultMessageHandler o) (ps ++ retry_delivers (inflightQoS o) ps') cs /\ s_log s' = s_log s ++ cs /\
    incoming (s_w s') = rest /\
    outgoing (s_w s') = outgoing (s_w s) ++ enc_connect c ++ answers ps ++ bs ++ answers (retry_delivers (inflightQoS o) ps').
Proof.
  destruct s as [m o w l]. cbn [s_mem s_o s_w s_log]. cbv zeta.
  intros Hwf Hcon Hd Hid Hlen Hne Hat Hfit Hcode Hsp Hid' Hps Hps' Hfuel Hfuel' Hin.
  enough (wp (Client_connect stack (S fuel) d) (fun rc s' => rc = 0 /\ exists cs,
    wf_client (s_mem s') (s_o s') ss /\ isconnected (s_o s') = true /\
    inflightMsgid (s_o s') = (if (inflightQoS o =? 1) && (inflightMsgid o =? id') then 0 else inflightMsgid o) /\
    delivered_all ss (defaultMessageHandler o) (ps ++ retry_delivers (inflightQoS o) ps') cs /\ s_log s' = l ++ cs /\
    incoming (s_w s') = rest /\
    outgoing (s_w s') = outgoing w ++ enc_connect c ++ answers ps ++ bs ++ answers (retry_delivers (inflightQoS o) ps')) (mkSt m o w l)) as Hwp.
  { apply wp_Some in Hwp as (rc & s' & Hrun & -> & cs & HQ). by exists s', cs. }
  unfold Client_connect. apply wp_bind. eapply wp_timer; [exact Hwf|]. intros timer Hexp.
  apply wp_bind, wp_get_o. rewrite Hcon. apply wp_bind, wp_bind.
  eapply (wp_connect_sent fuel timer d c sp code ps _ ss); [exact Hwf|exact Hd|done|done|done|done|done|exact Hin|].
  intros m1 o1 w1 cs (Hwf1 & Hc1 & Hr1 & Hnp) Hdel Hi Ho. destruct (retimed_connecting _ _ _ Hr1) as (E1 & E2 & E3 & E4 & E5 & E6 & E7).
  cbn beta iota. apply wp_bind, wp_get_o. rewrite E5. destruct (Z.ltb_spec 0 (inflightMsgid o)); [|lia].
  destruct (pubbuf_apart _ _ _ Hwf) as [N1 N2].
  assert (Hat1 : at_bytes m1 (pubbuf o) bs).
  { eapply changed_at; [exact Hc1| |done]. unfold buffers. by intros [E|E%list_elem_of_singleton]%elem_of_cons. }
  destruct (room_front m1 (pubbuf o) MAX_MQTT_PACKET_SIZE bs) as (r & Hr & Hlr); [rewrite <- E3; apply (wf_pubbuf _ _ _ Hwf1)|done..|].
  apply wp_bind, wp_on_mem. unfold memcpy. apply wp_bind, wp_get, wp_bind. rewrite E1, E3. eapply wp_lift; [rewrite <- Hlr; exact Hr|].
  eapply wp_stores; [rewrite <- E1; apply (wf_sendbuf _ _ _ Hwf1)|lia|]. intros m2 _ Hc2 Hat2. apply at_bytes_app in Hat2 as [Hat2 _].
  rewrite E6, E7, Hlen. rewrite <- E1 in Hc2, Hat2.
  assert (Hwf2 : wf_client m2 o1 ss) by (eapply wf_in_buffers; [exact Hwf1|apply sendbuf_in|exact Hc2|apply retimed_refl]).
  unfold retry_answer, retry_delivers in *.
  eapply (wp_publish_sent stack fuel bs timer (inflightQoS o) id' ps' rest ss);
    [exact Hat2|done|done|done|exact Hwf2|done|done|done|done|by intros E; rewrite Hi, E| |].
  - intros EQ m3 o3 w3 cs3 (Hwf3 & Hc3 & Hr3 & Hnp3) Hdel3 Hi3 Ho3. change (SUCCESS =? SUCCESS) with true. cbv iota.
    rewrite EQ. change (1 =? 1) with true. cbn [andb]. psteps. split; [done|]. exists (cs ++ cs3). rewrite E4 in Hdel3.
    destruct Hr3 as (a & b & ->). unfold acked. cbn [s_mem s_o s_w s_log inflightMsgid put_last_sent put_last_received]. rewrite E5.
    split_and!; try done.
    + apply wf_put_isconnected. destruct (inflightMsgid o =? id'); [by apply wf_put_inflightMsgid|done].
    + destruct (inflightMsgid o =? id'); done.
    + by apply delivered_all_app.
    + by rewrite app_assoc.
    + by rewrite Ho3, Ho, <- !app_assoc.
  - intros NQ t w3 Ht Hi3 Ho3. change (SUCCESS =? SUCCESS) with true. cbv iota. apply Z.eqb_neq in NQ. rewrite NQ in *. cbn [andb].
    psteps. split; [done|]. exists cs. destruct (retimed_sent_at t o1) as (a & b & Es). rewrite Es.
    cbn [s_mem s_o s_w s_log inflightMsgid isconnected put_last_sent put_last_received put_isconnected]. rewrite !app_nil_r. split_and!; try done.
    + apply wf_put_isconnected. eapply wf_changed; [exact Hwf2|apply changed_refl|by exists a, b].
    + by rewrite Hi3, Hi.
    + by rewrite Ho3, Ho, <- !app_assoc.
Qed.
End Connecting.

(** ** Packets that do not fit *)
Section Long.
Context `{CharAbi} `{IdealPlatform}.
Context (stack : publish_out).
Implicit Types (m : mem) (o : ClientObj) (w : W) (l : list HandlerCall) (ss : list subscription) (timer : Timer).

(** [cycle] over a packet that does not fit: the body stays on the connection. *)
Lemma wp_cycle_long fuel timer h body rest ss (Q : Z -> st -> Prop) m o w l :
  wf_client m o ss -> incoming w = packet h body ++ rest -> MAX_MQTT_PACKET_SIZE < Z.of_nat (length (packet h body)) ->
  Z.of_nat (length body) < 268435456 -> no_ping o ->
  (forall m' w', moved ss m o m' o -> incoming w' = body ++ rest -> outgoing w' = outgoing w -> Q BUFFER_OVERFLOW (mkSt m' o w' l)) ->
  wp (Client_cycle stack fuel timer) Q (mkSt m o w l).
Proof.
  intros Hwf Hin Hlong Hsm Hnp HQ. unfold Client_cycle. apply wp_bind.
  eapply wp_readPacket_long; [exact Hin|apply (wf_readbuf _ _ _ Hwf)|done|done|]. intros m1 w1 Hc Hi Ho.
  change ((BUFFER_OVERFLOW =? FAILURE) || (BUFFER_OVERFLOW =? BUFFER_OVERFLOW)) with true. psteps.
  eapply wp_keepalive; [done|]. intros rc. psteps. apply HQ; [|done|done].
  split_and!; [eapply wf_in_buffers; [exact Hwf|apply readbuf_in|exact Hc|apply retimed_refl]|by eapply changed_one; [apply readbuf_in|]|apply retimed_refl|done].
Qed.

(** C27: a packet longer than the read buffer is reported as [BUFFER_OVERFLOW], but its body
    stays on the connection and is read as the next packets.  So whoever may publish a
    long message at QoS 0, under a topic of fewer than 128 characters, chooses what the client
    receives next: the topic is taken for a packet of type 0, and a PUBLISH in the payload
    is delivered like one of the server, to the handlers of its topic, and acknowledged. *)
Theorem long_publish_smuggles fuel timer s ss P p pad rest :
  wf_client (s_mem s) (s_o s) ss -> no_ping (s_o s) -> expired timer = false ->
  wf_publish P -> pb_qos P = 0 -> Z.of_nat (length (pb_topic P)) < 128 -> pb_payload P = enc_publish p ++ pad ->
  MAX_MQTT_PACKET_SIZE < Z.of_nat (length (enc_publish P)) -> fits p -> incoming (s_w s) = enc_publish P ++ rest ->
  exists s1 s2 s3 cs, Client_cycle stack (S fuel) timer s = Some (BUFFER_OVERFLOW, s1) /\
    Client_cycle stack (S fuel) timer s1 = Some (0, s2) /\ Client_cycle stack (S fuel) timer s2 = Some (PUBLISH : Z, s3) /\
    delivered ss (defaultMessageHandler (s_o s)) p cs /\ s_log s3 = s_log s ++ cs /\ isconnected (s_o s3) = isconnected (s_o s) /\
    incoming (s_w s3) = pad ++ rest /\ outgoing (s_w s3) = outgoing (s_w s) ++ answer p.
Proof.
  destruct s as [m o w l]. cbn [s_mem s_o s_w s_log]. intros Hwf Hnp Hexp HP Hq Htopic Hpay Hlong Hp Hin.
  pose proof HP as (_ & _ & _ & _ & _ & Hsm).
  assert (Hbody : publish_body P = packet 0 (pb_topic P) ++ enc_publish p ++ pad).
  { unfold publish_body, wstr. rewrite Hq, Hpay. change (0 <? 0) with false. cbn [app]. unfold packet.
    rewrite varint_small by lia. unfold be16. rewrite Z.div_small, Z.mod_small by lia. done. }
  assert (Hlp : Z.of_nat (length (packet 0 (pb_topic P))) <= MAX_MQTT_PACKET_SIZE)
    by (rewrite length_packet, varint_small by lia; cbn [length]; unfold MAX_MQTT_PACKET_SIZE; lia).
  assert (Hwp : wp (Client_cycle stack (S fuel) timer) (fun r1 s1 => r1 = BUFFER_OVERFLOW /\
    wp (Client_cycle stack (S fuel) timer) (fun r2 s2 => r2 = 0 /\
      wp (Client_cycle stack (S fuel) timer) (fun r3 s3 => r3 = (PUBLISH : Z) /\ exists cs, 
        delivered ss (defaultMessageHandler o) p cs /\ s_log s3 = l ++ cs /\ isconnected (s_o s3) = isconnected o /\
        incoming (s_w s3) = pad ++ rest /\ outgoing (s_w s3) = outgoing w ++ answer p) s2) s1) (mkSt m o w l)).
  { eapply (wp_cycle_long _ _ _ _ rest ss); [exact Hwf|exact Hin|done|done|done|]. intros m1 w1 (Hwf1 & _ & _ & _) Hi1 Ho1. split; [done|].
    rewrite Hbody, <- !app_assoc in Hi1.
    eapply (wp_cycle_reply stack _ timer 0 (pb_topic P) _ ss); [done|done|done|exact Hwf1|exact Hi1|done|done|].
    intros m2 o2 w2 (Hwf2 & _ & (a & b & E2) & Hnp2) _ Hi2 Ho2. split; [done|].
    eapply (wp_cycle_delivers stack _ timer p); [exact Hwf2|done|exact Hi2|done|done|].
    intros m3 o3 w3 cs (_ & _ & (a' & b' & E3) & _) Hdel Hi3 Ho3. split; [done|]. exists cs. cbn [s_mem s_o s_w s_log].
    subst o2 o3. split_and!; try done. by rewrite Ho3, Ho2, Ho1. }
  apply wp_Some in Hwp as (r1 & s1 & R1 & -> & Hwp). apply wp_Some in Hwp as (r2 & s2 & R2 & -> & Hwp).
  apply wp_Some in Hwp as (r3 & s3 & R3 & -> & cs & HQ). by exists s1, s2, s3, cs.
Qed.
End Long.

(** ** Listening *)
Section Yield.
Context `{CharAbi} `{IdealPlatform}.
Context (stack : publish_out).
Implicit Types (m : mem) (o : ClientObj) (w : W) (l : list HandlerCall) (ss : list subscription) (timer : Timer).

(** A read on a connection with nothing to read ends without a byte, as a timeout does. *)
Definition silent : Prop := forall ms w, incoming w = [] -> exists r w', mqttread 1 ms w = Some ((r, []), w') /\ r <> 1 /\
  incoming w' = [] /\ outgoing w' = outgoing w.

Lemma wp_cycle_silent fuel timer (Q : Z -> st -> Prop) m o w l : silent -> incoming w = [] -> no_ping o ->
  (forall w', incoming w' = [] -> outgoing w' = outgoing w -> Q FAILURE (mkSt m o w' l)) ->
  wp (Client_cycle stack fuel timer) Q (mkSt m o w l).
Proof.
  intros Hs Hin Hnp HQ. unfold Client_cycle, Client_readPacket, ipstack_read. psteps.
  destruct (Hs ms w Hin) as (r & w' & Hr & Hne & Hi & Ho). eapply wp_on_w; [exact Hr|]. psteps. cbn [fst snd]. unfold stores.
  apply (wp_run _ _ _ tt m); [done|]. psteps. apply Z.eqb_neq in Hne. rewrite Hne. cbn [negb]. psteps.
  change ((FAILURE =? FAILURE) || (FAILURE =? BUFFER_OVERFLOW)) with true. psteps. eapply wp_keepalive; [done|].
  intros rc. psteps. by apply HQ.
Qed.

Lemma wp_yield_loop ss ps : forall fuel timer (Q : Z -> st -> Prop) m o w l,
  silent -> expired timer = false -> wf_client m o ss -> no_ping o -> Forall fits ps -> (length ps < fuel)%nat -> incoming w = enc_all ps ->
  (forall m' o' w' cs, moved ss m o m' o' -> delivered_all ss (defaultMessageHandler o) ps cs -> incoming w' = [] ->
     outgoing w' = outgoing w ++ answers ps -> Q FAILURE (mkSt m' o' w' (l ++ cs))) ->
  wp (Client_yield_loop stack fuel timer) Q (mkSt m o w l).
Proof.
  induction ps as [|p ps IH]; intros [|fuel] timer Q m o w l Hs Hexp Hwf Hnp Hps Hfuel Hin HQ; cbn [length] in Hfuel; try lia;
    cbn [Client_yield_loop]; psteps; rewrite Hexp; apply wp_bind.
  - eapply wp_cycle_silent; [done|done|done|]. intros w' Hi Ho. psteps. rewrite <- (app_nil_r l).
    apply HQ; [by apply moved_refl|constructor|done|]. by rewrite app_nil_r.
  - apply Forall_cons in Hps as [Hp Hps]. unfold enc_all in Hin. cbn [map concat] in Hin.
    eapply wp_cycle_delivers; [exact Hwf|exact Hp|exact Hin|done|done|]. intros m1 o1 w1 cs Hmv Hdel Hi Ho.
    change (PUBLISH <? 0) with false. pose proof Hmv as (Hwf1 & _ & (a & b & E1) & Hnp1).
    eapply (IH fuel timer); try done; [lia|]. intros m2 o2 w2 cs2 Hmv2 Hdel2 Hi2 Ho2. rewrite <- app_assoc.
    apply HQ; [by eapply moved_trans|constructor; [done|by subst o1]|done|]. by rewrite Ho2, Ho, <- app_assoc.
Qed.

(** C7: [yield] delivers, in order, every PUBLISH there is, each to the handlers of its topic and
    acknowledged by its QoS; when the connection falls silent it returns [FAILURE] although
    nothing failed: the client is still connected. *)
Theorem Client_yield_delivers fuel timeout_ms s ss ps :
  silent -> 0 < to_int timeout_ms -> wf_client (s_mem s) (s_o s) ss -> no_ping (s_o s) ->
  Forall fits ps -> (length ps < fuel)%nat -> incoming (s_w s) = enc_all ps ->
  exists s' cs, Client_yield stack fuel timeout_ms s = Some (FAILURE, s') /\
    wf_client (s_mem s') (s_o s') ss /\ no_ping (s_o s') /\ isconnected (s_o s') = isconnected (s_o s) /\
    delivered_all ss (defaultMessageHandler (s_o s)) ps cs /\ s_log s' = s_log s ++ cs /\
    incoming (s_w s') = [] /\ outgoing (s_w s') = outgoing (s_w s) ++ answers ps.
Proof.
  intros Hs Ht. destruct s as [m o w l]. cbn [s_mem s_o s_w s_log]. intros Hwf Hnp Hps Hfuel Hin.
  enough (wp (Client_yield stack fuel timeout_ms) (fun r s' => r = FAILURE /\ exists cs,
      wf_client (s_mem s') (s_o s') ss /\ no_ping (s_o s') /\ isconnected (s_o s') = isconnected o /\
      delivered_all ss (defaultMessageHandler o) ps cs /\ s_log s' = l ++ cs /\
      incoming (s_w s') = [] /\ outgoing (s_w s') = outgoing w ++ answers ps) (mkSt m o w l)) as Hwp.
  { apply wp_Some in Hwp as (r & s' & Hrun & -> & cs & HQ). by exists s', cs. }
  unfold Client_yield. apply wp_bind, wp_countdown_ms. intros timer Hexp.
  eapply (wp_yield_loop ss ps); [done|by apply Hexp|exact Hwf|done..|].
  intros m' o' w' cs (Hwf' & _ & (a & b & ->) & Hnp') Hdel Hi Ho. split; [done|]. by exists cs.
Qed.
End Yield.
