(* ===== verification/PahoInvariant.v ===== *)
(** * PahoInvariant: the C++ client on any platform

    Whatever the network and the timers do, and whatever bytes arrive, a member call that
    is defined leaves the object in order and writes to no memory but its own.  A calculus of
    partial correctness, the blocks that serializers write, and the reachable states. *)
From S2P Require Import Prelude CMem Wire Packet Publish Connect Subscribe Unsubscribe Topic Platform PahoClient PahoSpec PahoCommands.

(** ** Partial correctness *)

Definition wlp {S A} (c : M S A) (Q : A -> S -> Prop) (s : S) : Prop := forall a s', c s = Some (a, s') -> Q a s'.

Section Rules.
Context {S : Type}.
Implicit Types (s : S).

Lemma wlp_bind {A B} (c : M S A) (k : A -> M S B) Q s : wlp c (fun a s' => wlp (k a) Q s') s -> wlp (c ≫= k) Q s.
Proof. unfold wlp, mbind, M_bind. intros Hc b s2. destruct (c s) as [[a s1]|] eqn:E; [|done]. by apply Hc. Qed.
Lemma wlp_ret {A} (a : A) (Q : A -> S -> Prop) s : Q a s -> wlp (mret a) Q s.
Proof. intros HQ b s'. by intros [= <- <-]. Qed.
Lemma wlp_get (Q : S -> S -> Prop) s : Q s s -> wlp get Q s.
Proof. intros HQ b s'. by intros [= <- <-]. Qed.
Lemma wlp_lift {A} (x : option A) (Q : A -> S -> Prop) s : (forall a, x = Some a -> Q a s) -> wlp (lift x) Q s.
Proof. unfold wlp, lift. intros HQ b s'. destruct x as [a|]; cbn; [|done]. intros [= <- <-]. by apply HQ. Qed.
Lemma wlp_undefined {A} (Q : A -> S -> Prop) s : wlp undefined Q s.
Proof. done. Qed.
Lemma wlp_mono {A} (c : M S A) (Q Q' : A -> S -> Prop) s : wlp c Q s -> (forall a s', Q a s' -> Q' a s') -> wlp c Q' s.
Proof. unfold wlp. eauto. Qed.
Lemma wlp_c_for {A} (I : A -> S -> Prop) (f : nat -> A -> M S A) : (forall i a s, I a s -> wlp (f i a) I s) ->
  forall n i a s, I a s -> wlp (c_for i n f a) I s.
Proof.
  intros Hf. induction n as [|n IH]; intros i a s HI; cbn [c_for]; [by apply wlp_ret|].
  apply wlp_bind. eapply wlp_mono; [by apply Hf|]. intros a' s' HI'. by apply IH.
Qed.
End Rules.

(** What [strlen] measures is a string. *)
Lemma strlen_cstr m p n : strlen m p = Some n -> exists u, cstr m p u /\ Z.of_nat (length u) = n.
Proof.
  unfold strlen. destruct (m !! p_blk p) as [b|] eqn:Hb; [|done]. cbn [mbind option_bind]. case_decide as Ho; [|done].
  assert (Hall : forall x n, scan0 x = Some n -> exists u r, x = u ++ 0 :: r /\ Forall (fun z => z <> 0) u /\ Z.of_nat (length u) = n).
  { induction x as [|z x IH]; intros k; cbn [scan0]; [done|]. destruct (Z.eqb_spec z 0) as [->|Hz].
    - intros [= <-]. by exists [], x.
    - destruct (scan0 x) as [k'|]; cbn; [|done]. intros [= <-]. destruct (IH k' eq_refl) as (u & r & -> & Hu & <-).
      exists (z :: u), r. split_and!; [done|by constructor|cbn; lia]. }
  intros (u & r & Hx & Hu & Hn)%Hall. exists u. split; [|done]. split; [|done].
  apply at_bytes_spec; [by destruct u|]. exists b. assert (Hl : length (drop (Z.to_nat (p_off p)) b) = length (u ++ 0 :: r)) by by rewrite Hx.
  rewrite length_drop, !length_app in *. cbn [length] in *. split_and!; [done|lia|lia|].
  rewrite Hx. change (u ++ 0 :: r) with (u ++ [0] ++ r). rewrite app_assoc, take_app_length'; [done|]. by rewrite length_app.
Qed.

(** ** What a function on memory may write *)

(** [f] writes to block [b] only, and what it returns satisfies [Q]. *)
Definition confined {A} (b : nat) (f : M mem A) (Q : A -> Prop) : Prop := forall m, wlp f (fun a m' => changed [b] m m' /\ Q a) m.

Section Confined.
Context (b : nat).

Lemma confined_bind {A B} (f : M mem A) (k : A -> M mem B) (Q : A -> Prop) R :
  confined b f Q -> (forall a, Q a -> confined b (k a) R) -> confined b (f ≫= k) R.
Proof.
  intros Hf Hk m. apply wlp_bind. eapply wlp_mono; [apply Hf|]. intros a m1 [Hc Ha].
  eapply wlp_mono; [by apply Hk|]. intros r m2 [Hc2 Hr]. split; [|done]. by eapply changed_trans.
Qed.
Lemma confined_ret {A} (a : A) (Q : A -> Prop) : Q a -> confined b (mret a) Q.
Proof. intros HQ m. apply wlp_ret. by split. Qed.
Lemma confined_get Q : (forall m, Q m) -> confined b get Q.
Proof. intros HQ m. apply wlp_get. by split. Qed.
Lemma confined_lift {A} (x : option A) (Q : A -> Prop) : (forall a, x = Some a -> Q a) -> confined b (lift x) Q.
Proof. intros HQ m. apply wlp_lift. intros a E. split; [done|auto]. Qed.
Lemma confined_undefined {A} (Q : A -> Prop) : confined b undefined Q.
Proof. done. Qed.
Lemma confined_mono {A} (f : M mem A) (Q R : A -> Prop) : confined b f Q -> (forall a, Q a -> R a) -> confined b f R.
Proof. intros Hf HR m. eapply wlp_mono; [apply Hf|]. intros a m' [Hc Ha]. auto. Qed.
Lemma confined_for {A} (f : nat -> A -> M mem A) (Q : A -> Prop) : (forall i a, Q a -> confined b (f i a) Q) ->
  forall n i a, Q a -> confined b (c_for i n f a) Q.
Proof.
  intros Hf. induction n as [|n IH]; intros i a Ha; cbn [c_for]; [by apply confined_ret|].
  eapply confined_bind; [by apply Hf|]. intros a' Ha'. by apply IH.
Qed.
Lemma confined_stores p bs : p_blk p = b -> confined b (stores p bs) (fun _ => True).
Proof.
  intros Hp m u m'. unfold stores. destruct (store_bytes m p bs) as [m1|] eqn:E; cbn; [|done]. intros [= <- <-].
  split; [|done]. rewrite <- Hp. by eapply changed_store.
Qed.
Lemma confined_memcpy dst src n : p_blk dst = b -> confined b (memcpy dst src n) (fun _ => True).
Proof.
  intros Hd. unfold memcpy. eapply confined_bind; [by apply (confined_get (fun _ => True))|]. intros m _.
  eapply confined_bind; [by apply (confined_lift _ (fun _ => True))|]. intros bs _. by apply confined_stores.
Qed.
End Confined.

(** One step of a proof of [confined]; pointers stay in their block. *)
Create HintDb confined.
#[export] Hint Resolve confined_stores confined_memcpy : confined.
Ltac confine1 := lazymatch goal with
  | |- confined _ (if ?c then _ else _) _ => destruct c
  | |- confined _ (match ?c with Some _ => _ | None => _ end) _ => destruct c
  | |- confined ?b (mbind _ (lift _)) _ => apply (confined_bind b _ _ (fun _ => True)); [|intros ? ?; cbv beta in *]
  | |- confined ?b (@mbind _ _ ptr _ _ _) _ => apply (confined_bind b _ _ (fun p => p_blk p = b)); [|intros ? ?; cbv beta in *]
  | |- confined ?b (mbind _ _) _ => apply (confined_bind b _ _ (fun _ => True)); [|intros ? ?; cbv beta in *]
  | |- confined ?b (@c_for _ ptr _ _ _ _) _ => apply (confined_for b _ (fun p => p_blk p = b)); [intros ? ? ?|done]
  | |- confined ?b (c_for _ _ _ _) _ => apply (confined_for b _ (fun _ => True)); [intros ? ? ?|done]
  | |- confined _ (mret _) _ => apply confined_ret; try done
  | |- confined _ get _ => apply (confined_get _ (fun _ => True)); done
  | |- confined _ (lift _) _ => apply (confined_lift _ _ (fun _ => True)); done
  | |- confined _ undefined _ => apply confined_undefined
  | |- confined _ _ _ => solve [eauto with confined]
  end.
Ltac confine := repeat confine1.

Section Writers.
Context `{CharAbi}.

Lemma confined_encode b : forall fuel p rc n, p_blk p = b -> confined b (encode_loop fuel p rc n) (fun _ => True).
Proof. induction fuel as [|fuel IH]; intros p rc n Hp; cbn [encode_loop]; confine. Qed.
Lemma confined_MQTTPacket_encode b p n : p_blk p = b -> confined b (MQTTPacket_encode p n) (fun _ => True).
Proof. by apply confined_encode. Qed.
Lemma confined_writeChar b p c : p_blk p = b -> confined b (writeChar p c) (fun p' => p_blk p' = b).
Proof. intros Hp. unfold writeChar. confine. Qed.
Lemma confined_writeInt b p n : p_blk p = b -> confined b (writeInt p n) (fun p' => p_blk p' = b).
Proof. intros Hp. unfold writeInt. confine. Qed.
End Writers.
#[export] Hint Resolve confined_MQTTPacket_encode confined_writeChar confined_writeInt : confined.

Section Serializers.
Context `{CharAbi}.

Lemma confined_writeCString b p s : p_blk p = b -> confined b (writeCString p s) (fun p' => p_blk p' = b).
Proof. intros Hp. unfold writeCString. confine. Qed.
Lemma confined_writeCString_literal b p s : p_blk p = b -> confined b (writeCString_literal p s) (fun p' => p_blk p' = b).
Proof. intros Hp. unfold writeCString_literal. confine. Qed.
#[local] Hint Resolve confined_writeCString confined_writeCString_literal : confined.
Lemma confined_writeMQTTString b p s : p_blk p = b -> confined b (writeMQTTString p s) (fun p' => p_blk p' = b).
Proof. intros Hp. unfold writeMQTTString. confine. Qed.
#[local] Hint Resolve confined_writeMQTTString : confined.

Lemma confined_connect b p n d : p_blk p = b -> confined b (MQTTSerialize_connect p n d) (fun _ => True).
Proof. intros Hp. unfold MQTTSerialize_connect. confine. Qed.
Lemma confined_zero b p n t : p_blk p = b -> confined b (MQTTSerialize_zero p n t) (fun _ => True).
Proof. intros Hp. unfold MQTTSerialize_zero. confine. Qed.
Lemma confined_ack b p n t d i : p_blk p = b -> confined b (MQTTSerialize_ack p n t d i) (fun _ => True).
Proof. intros Hp. unfold MQTTSerialize_ack. confine. Qed.
Lemma confined_publish b p n d q r i x y z : p_blk p = b -> confined b (MQTTSerialize_publish p n d q r i x y z) (fun _ => True).
Proof. intros Hp. unfold MQTTSerialize_publish. confine. Qed.
Lemma confined_subscribe b p n d i c fs qs : p_blk p = b -> confined b (MQTTSerialize_subscribe p n d i c fs qs) (fun _ => True).
Proof. intros Hp. unfold MQTTSerialize_subscribe, MQTTSerialize_subscribeLength. confine. Qed.
Lemma confined_unsubscribe b p n d i c fs : p_blk p = b -> confined b (MQTTSerialize_unsubscribe p n d i c fs) (fun _ => True).
Proof. intros Hp. unfold MQTTSerialize_unsubscribe, MQTTSerialize_unsubscribeLength. confine. Qed.
End Serializers.
#[export] Hint Resolve confined_connect confined_zero confined_ack confined_publish confined_subscribe confined_unsubscribe : confined.

(** ** The object after a call *)

(** A relation between the worlds before and after that every operation of the platform keeps. *)
Class WorldLaw `{Platform} (R : relation W) := {
  world_preorder :: PreOrder R;
  world_expired t w a w' : TimerIsExpired t w = Some (a, w') -> R w w';
  world_countdown_ms t ms w a w' : TimerCountdownMS t ms w = Some (a, w') -> R w w';
  world_countdown t s w a w' : TimerCountdown t s w = Some (a, w') -> R w w';
  world_left t w a w' : TimerLeftMS t w = Some (a, w') -> R w w';
  world_read n ms w a w' : mqttread n ms w = Some (a, w') -> R w w';
  world_write bs ms w a w' : mqttwrite bs ms w = Some (a, w') -> R w w'
}.
#[export] Instance world_any `{Platform} : WorldLaw (fun _ _ => True).
Proof. by constructor. Defined.

Create HintDb stable.

(** [f] keeps the relation. *)
Definition moves `{Platform} (R : relation W) {A} (f : M W A) : Prop := forall w a w', f w = Some (a, w') -> R w w'.

Section Worlds.
Context `{WorldLaw}.
Lemma moves_expired t : moves R (TimerIsExpired t).
Proof. intros w a w'. apply world_expired. Qed.
Lemma moves_countdown_ms t ms : moves R (TimerCountdownMS t ms).
Proof. intros w a w'. apply world_countdown_ms. Qed.
Lemma moves_countdown t s : moves R (TimerCountdown t s).
Proof. intros w a w'. apply world_countdown. Qed.
Lemma moves_left t : moves R (TimerLeftMS t).
Proof. intros w a w'. apply world_left. Qed.
Lemma moves_read n ms : moves R (mqttread n ms).
Proof. intros w a w'. apply world_read. Qed.
Lemma moves_write bs ms : moves R (mqttwrite bs ms).
Proof. intros w a w'. apply world_write. Qed.
Lemma moves_decode ms : forall fuel c k len v, moves R (decode_loop (fun n => mqttread n ms) fuel c k len v).
Proof.
  enough (forall fuel c k len v w0 w, R w0 w -> wlp (decode_loop (fun n => mqttread n ms) fuel c k len v) (fun _ w' => R w0 w') w) as Hall.
  { intros fuel c k len v w a w' Hrun. by eapply Hall. }
  induction fuel as [|fuel IH]; intros c k len v w0 w Hw; cbn [decode_loop]; [done|].
  destruct (_ <? _); [by apply wlp_ret|]. apply wlp_bind. intros r w1 Hr%world_read.
  assert (Hw1 : R w0 w1) by (by etransitivity). apply wlp_bind, wlp_lift. intros c' _. destruct (negb _); [by apply wlp_ret|].
  apply wlp_bind, wlp_lift. intros ch _. destruct (negb _); [by apply IH|by apply wlp_ret].
Qed.
End Worlds.
#[export] Hint Resolve moves_expired moves_countdown_ms moves_countdown moves_left moves_read moves_write moves_decode : stable.

Section Later.
Context `{CharAbi} `{WorldLaw}.
Implicit Types (m : mem) (o : ClientObj) (w : W) (l : list HandlerCall) (ss : list subscription) (s : st).

(** The memory of the object, which no call moves. *)
Definition own (o : ClientObj) : list nat := map p_blk (sendbuf o :: readbuf o :: pubbuf o :: topicFilters o).
Definition layout (o : ClientObj) := (sendbuf o, readbuf o, pubbuf o, topicFilters o, command_timeout_ms o).

Definition in_order (s : st) : Prop := exists ss, wf_client (s_mem s) (s_o s) ss.

(** What may happen between [s0] and [s]. *)
Definition later (s0 s : st) : Prop :=
  in_order s /\ changed (own (s_o s0)) (s_mem s0) (s_mem s) /\ layout (s_o s) = layout (s_o s0) /\
  R (s_w s0) (s_w s) /\ exists l, s_log s = s_log s0 ++ l.

(** A defined run from an object in order ends in one. *)
Definition stable {A} (c : M st A) : Prop := forall s0 s, later s0 s -> wlp c (fun _ s' => later s0 s') s.

Lemma later_refl s : in_order s -> later s s.
Proof. intros Hs. split_and!; [done..|reflexivity|]. exists []. by rewrite app_nil_r. Qed.

Lemma later_blk s0 m o w l p : later s0 (mkSt m o w l) -> p ∈ sendbuf o :: readbuf o :: pubbuf o :: topicFilters o -> p_blk p ∈ own (s_o s0).
Proof. intros (_ & _ & E & _) Hp. cbn in E. unfold own. injection E as <- <- <- <- _. by apply list_elem_of_fmap_2. Qed.
Lemma later_sendbuf s0 m o w l : later s0 (mkSt m o w l) -> p_blk (sendbuf o) ∈ own (s_o s0).
Proof. intros Hl. eapply later_blk; [done|]. by left. Qed.
Lemma later_readbuf s0 m o w l : later s0 (mkSt m o w l) -> p_blk (readbuf o) ∈ own (s_o s0).
Proof. intros Hl. eapply later_blk; [done|]. right. by left. Qed.
Lemma later_pubbuf s0 m o w l : later s0 (mkSt m o w l) -> p_blk (pubbuf o) ∈ own (s_o s0).
Proof. intros Hl. eapply later_blk; [done|]. right. right. by left. Qed.

Lemma later_w s0 m o w w' l : later s0 (mkSt m o w l) -> R w w' -> later s0 (mkSt m o w' l).
Proof. intros (? & ? & ? & Hw & ?) Hw'. split_and!; [done..| |done]. by etransitivity. Qed.
Lemma later_log s0 m o w l l' : later s0 (mkSt m o w l) -> later s0 (mkSt m o w (l ++ l')).
Proof. intros (? & ? & ? & ? & l0 & E). split_and!; [done..|]. exists (l0 ++ l'). cbn in *. by rewrite E, app_assoc. Qed.
Lemma later_put s0 m o o' w l : later s0 (mkSt m o w l) -> layout o' = layout o ->
  (forall ss, wf_client m o ss -> exists ss', wf_client m o' ss') -> later s0 (mkSt m o' w l).
Proof.
  intros ((ss & Hwf) & Hc & Hl & Hw & Hlog) E Hput. split_and!; [|done|by cbn; rewrite E|done|done].
  destruct (Hput ss Hwf) as (ss' & Hwf'). by exists ss'.
Qed.

(** The packet buffers carry no part of the table. *)
Lemma wf_packet_bufs m m' o ss b : wf_client m o ss -> b ∈ [p_blk (sendbuf o); p_blk (readbuf o); p_blk (pubbuf o)] -> changed [b] m m' -> wf_client m' o ss.
Proof.
  intros Hwf Hb Hm. rewrite !elem_of_cons in Hb. destruct Hb as [->|[->|[->|Hb]]]; [| | |by apply elem_of_nil in Hb].
  - eapply wf_in_buffers; [exact Hwf|apply sendbuf_in|exact Hm|apply retimed_refl].
  - eapply wf_in_buffers; [exact Hwf|apply readbuf_in|exact Hm|apply retimed_refl].
  - eapply (wf_put_inflight m m' (inflightLen o) (inflightMsgid o) (inflightQoS o)) in Hwf; [by destruct o|done].
Qed.
Lemma later_mem s0 m m' o w l b : later s0 (mkSt m o w l) -> b ∈ [p_blk (sendbuf o); p_blk (readbuf o); p_blk (pubbuf o)] -> changed [b] m m' ->
  later s0 (mkSt m' o w l).
Proof.
  intros ((ss & Hwf) & Hc & Hl & Hlog) Hb Hm. split; [|split; [eapply changed_trans; [exact Hc|]|done]].
  - exists ss. by eapply wf_packet_bufs.
  - eapply changed_one; [|exact Hm]. cbn in Hl. unfold own. injection Hl as <- <- <- <- _. cbn [map].
    rewrite !elem_of_cons in *. destruct Hb as [->|[->|[->|Hb]]]; [by left|by right; left|by right; right; left|by apply elem_of_nil in Hb].
Qed.

(** Rules of [wlp] that carry [later] along. *)
Lemma later_on_w {A} (f : M W A) s0 (K : A -> st -> Prop) m o w l : moves R f -> later s0 (mkSt m o w l) ->
  (forall a w', later s0 (mkSt m o w' l) -> K a (mkSt m o w' l)) -> wlp (on_w f) K (mkSt m o w l).
Proof.
  intros Hf Hl HK a s'. unfold on_w. cbn [s_w s_mem s_o s_log]. destruct (f w) as [[a' w']|] eqn:E; [|done]. intros [= <- <-].
  apply HK, (later_w _ _ _ w); [done|]. by eapply Hf.
Qed.
Lemma later_on_mem {A} (f : M mem A) b Qf s0 (K : A -> st -> Prop) m o w l m1 o1 w1 l1 :
  confined b f Qf -> later s0 (mkSt m o w l) -> later s0 (mkSt m1 o1 w1 l1) -> b ∈ [p_blk (sendbuf o1); p_blk (readbuf o1); p_blk (pubbuf o1)] ->
  (forall a m', later s0 (mkSt m' o w l) -> K a (mkSt m' o w l)) -> wlp (on_mem f) K (mkSt m o w l).
Proof.
  intros Hf Hl Hl1 Hb HK a s'. unfold on_mem. cbn [s_w s_mem s_o s_log]. destruct (f m) as [[a' m']|] eqn:E; [|done]. intros [= <- <-].
  destruct (Hf _ _ _ E) as [Hm _]. apply HK. eapply later_mem; [done| |exact Hm].
  destruct Hl as (_ & _ & E1 & _), Hl1 as (_ & _ & E2 & _). cbn in E1, E2. rewrite <- E2 in E1. by injection E1 as -> -> -> _ _.
Qed.
Lemma later_call {A} (c : M st A) s0 (K : A -> st -> Prop) s : stable c -> later s0 s ->
  (forall a m o w l, later s0 (mkSt m o w l) -> K a (mkSt m o w l)) -> wlp c K s.
Proof. intros Hc Hl HK. eapply wlp_mono; [by apply Hc|]. intros a [m o w l] Hl'. by apply HK. Qed.
Lemma wlp_get_mem s0 (K : mem -> st -> Prop) m o w l : later s0 (mkSt m o w l) -> K m (mkSt m o w l) -> wlp (on_mem get) K (mkSt m o w l).
Proof. intros _ HK a s'. by intros [= <- <-]. Qed.
Lemma wlp_get_o s0 (K : ClientObj -> st -> Prop) m o w l : later s0 (mkSt m o w l) -> K o (mkSt m o w l) -> wlp get_o K (mkSt m o w l).
Proof. intros _ HK a s'. by intros [= <- <-]. Qed.
Lemma wlp_set_o s0 (K : unit -> st -> Prop) m o o' w l : later s0 (mkSt m o w l) -> layout o' = layout o ->
  (forall ss, wf_client m o ss -> exists ss', wf_client m o' ss') -> (later s0 (mkSt m o' w l) -> K tt (mkSt m o' w l)) ->
  wlp (set_o o') K (mkSt m o w l).
Proof. intros Hl E Hput HK a s'. intros [= <- <-]. apply HK. by eapply later_put. Qed.
Lemma wlp_lift_mem {A} (f : M mem A) (K : A -> st -> Prop) m o w l :
  wlp f (fun a m' => K a (mkSt m' o w l)) m -> wlp (on_mem f) K (mkSt m o w l).
Proof.
  intros Hf a s'. unfold on_mem. cbn [s_w s_mem s_o s_log]. destruct (f m) as [[a' m']|] eqn:E; [|done]. intros [= <- <-]. by apply Hf.
Qed.
Lemma wlp_FP_call f x msg s0 (K : unit -> st -> Prop) m o w l : later s0 (mkSt m o w l) ->
  (forall l', later s0 (mkSt m o w l') -> K tt (mkSt m o w l')) -> wlp (FP_call f x msg) K (mkSt m o w l).
Proof. intros Hl HK a s'. intros [= <- <-]. by apply HK, later_log. Qed.
End Later.

(** Assignments that leave the table as it is. *)
Section Puts.
Context `{CharAbi} `{Platform}.
Lemma wf_put_last_sent t m o ss : wf_client m o ss -> exists ss', wf_client m (put_last_sent t o) ss'.
Proof. intros Hwf. exists ss. eapply wf_changed; [exact Hwf|apply changed_refl|apply retimed_sent]. Qed.
Lemma wf_put_last_received t m o ss : wf_client m o ss -> exists ss', wf_client m (put_last_received t o) ss'.
Proof. intros Hwf. exists ss. eapply wf_changed; [exact Hwf|apply changed_refl|apply retimed_received]. Qed.
Lemma wf_put_default mh m o ss : wf_client m o ss -> wf_client m (put_defaultMessageHandler mh o) ss.
Proof. intros []. by constructor. Qed.
Lemma wf_any m (o' : ClientObj) ss : wf_client m o' ss -> exists ss', wf_client m o' ss'.
Proof. by exists ss. Qed.
End Puts.
#[export] Hint Resolve wf_put_last_sent wf_put_last_received wf_put_options wf_put_default wf_any wf_put_ping wf_put_isconnected wf_put_inflightMsgid wf_cleaned : stable.
#[export] Hint Extern 4 (exists _, wf_client _ (put_inflight _ _ _ _) _) => eapply wf_any, wf_put_inflight; [eassumption|apply changed_refl] : stable.

(** One step of a proof of [stable]. *)
Ltac in_bufs := solve [left; reflexivity | right; left; reflexivity | right; right; left; reflexivity].
Ltac keep1 := cbn beta iota zeta; lazymatch goal with
  | |- wlp (mbind _ _) _ _ => apply wlp_bind
  | |- wlp (mret _) _ _ => apply wlp_ret
  | |- wlp undefined _ _ => apply wlp_undefined
  | |- wlp (lift _) _ _ => apply wlp_lift; intros ? ?
  | L : later _ (mkSt ?m ?o ?w ?l) |- wlp get_o _ (mkSt ?m ?o ?w ?l) => apply (wlp_get_o _ _ _ _ _ _ L)
  | L : later _ (mkSt ?m ?o ?w ?l) |- wlp (on_mem get) _ (mkSt ?m ?o ?w ?l) => apply (wlp_get_mem _ _ _ _ _ _ L)
  | L : later _ (mkSt ?m ?o ?w ?l) |- wlp (set_o _) _ (mkSt ?m ?o ?w ?l) => apply (wlp_set_o _ _ _ _ _ _ _ L); [reflexivity|eauto with stable|intros ?L]
  | L : later _ (mkSt ?m ?o ?w ?l) |- wlp (FP_call _ _ _) _ (mkSt ?m ?o ?w ?l) => apply (wlp_FP_call _ _ _ _ _ _ _ _ _ L); intros ? ?L
  | L : later _ (mkSt ?m ?o ?w ?l) |- wlp (on_w _) _ (mkSt ?m ?o ?w ?l) => eapply (fun Hf => later_on_w _ _ _ _ _ _ _ Hf L); [solve [eauto with stable]|intros ? ? ?L]
  | |- wlp (if ?c then _ else _) _ _ => destruct c
  | |- wlp (match ?c with _ => _ end) _ _ => destruct c
  | L : later _ ?s |- later _ ?s => exact L
  | L : later _ (mkSt ?m ?o ?w ?l) |- wlp (on_mem _) _ (mkSt ?m ?o ?w ?l) =>
      match goal with L1 : later _ (mkSt _ _ _ _) |- _ =>
        eapply (fun b Qf Hf => later_on_mem _ b Qf _ _ _ _ _ _ _ _ _ _ Hf L L1); [solve [eauto with confined]|in_bufs|intros ? ? ?L]
      end
  | L : later _ ?s |- wlp _ _ ?s => eapply later_call; [solve [eauto with stable]|exact L|intros ? ? ? ? ? ?L]
  end.
Ltac keep := repeat keep1.
Ltac stability := let m := fresh "m" in let o := fresh "o" in let w := fresh "w" in let l := fresh "l" in
  intros ? [m o w l] ?; keep.

Section Members.
Context `{CharAbi} `{WorldLaw}.
Context (stack : publish_out).
#[local] Abbreviation later := (later (R := R)).
#[local] Abbreviation stable := (stable (R := R)).

Lemma stable_cleanSession : stable Client_cleanSession.
Proof. unfold Client_cleanSession. stability. Qed.
Lemma stable_timer : stable Client_timer.
Proof. unfold Client_timer. stability. Qed.
Lemma stable_send_loop : forall fuel n sent timer, stable (Client_send_loop fuel n sent timer).
Proof. induction fuel as [|fuel IH]; intros n sent timer; cbn [Client_send_loop]; stability. Qed.
#[local] Hint Resolve stable_cleanSession stable_timer stable_send_loop : stable.
Lemma stable_sendPacket fuel n timer : stable (Client_sendPacket fuel n timer).
Proof. unfold Client_sendPacket. stability. Qed.
#[local] Hint Resolve stable_sendPacket : stable.
Lemma stable_decodePacket ms : stable (Client_decodePacket ms).
Proof. unfold Client_decodePacket. stability. Qed.
Lemma stable_readPacket timer : stable (Client_readPacket timer).
Proof. unfold Client_readPacket, Client_decodePacket, ipstack_read. stability. Qed.
#[local] Hint Resolve stable_decodePacket stable_readPacket : stable.

Lemma stable_deliverMessage x msg : stable (Client_deliverMessage x msg).
Proof.
  intros s0 [m o w l] L. unfold Client_deliverMessage. apply wlp_bind. eapply wlp_mono.
  - apply (wlp_c_for (fun _ s' => later s0 s')); [|exact L]. clear. intros i rc [m o w l] L. keep.
  - clear. intros rc [m o w l] L. keep.
Qed.
Lemma stable_keepalive fuel : stable (Client_keepalive fuel).
Proof. unfold Client_keepalive, MQTTSerialize_pingreq. stability. Qed.
Lemma stable_send_ack fuel type id timer : stable (Client_send_ack fuel type id timer).
Proof. unfold Client_send_ack. stability. Qed.
#[local] Hint Resolve stable_deliverMessage stable_keepalive stable_send_ack : stable.
Lemma stable_cycle_publish fuel timer : stable (Client_cycle_publish stack fuel timer).
Proof. unfold Client_cycle_publish. stability. Qed.
#[local] Hint Resolve stable_cycle_publish : stable.
Lemma stable_cycle fuel timer : stable (Client_cycle stack fuel timer).
Proof. unfold Client_cycle. stability. Qed.
#[local] Hint Resolve stable_cycle : stable.
Lemma stable_yield_loop : forall fuel timer, stable (Client_yield_loop stack fuel timer).
Proof. induction fuel as [|fuel IH]; intros timer; cbn [Client_yield_loop]; stability. Qed.
#[local] Hint Resolve stable_yield_loop : stable.
Lemma stable_yield fuel ms : stable (Client_yield stack fuel ms).
Proof. unfold Client_yield. stability. Qed.
Lemma stable_waitfor_loop : forall fuel type rc timer, stable (Client_waitfor_loop stack fuel type rc timer).
Proof. induction fuel as [|fuel IH]; intros type rc timer; cbn [Client_waitfor_loop]; stability. Qed.
Lemma stable_waitfor fuel type timer : stable (Client_waitfor stack fuel type timer).
Proof. apply stable_waitfor_loop. Qed.
Lemma stable_or_clean rc : stable (or_clean rc).
Proof. unfold or_clean. stability. Qed.
#[local] Hint Resolve stable_waitfor stable_or_clean : stable.
Lemma stable_publish_sent fuel len timer qos : stable (Client_publish_sent stack fuel len timer qos).
Proof. unfold Client_publish_sent. stability. Qed.
Lemma stable_getNext : stable PacketId_getNext.
Proof.
  unfold PacketId_getNext. stability. match goal with H : _ = Some a |- _ => revert H end. unfold PacketId_MAX.
  intros E ss Hwf. exists ss. apply wf_put_next; [done|]. pose proof (wf_next _ _ _ Hwf). destruct (Z.eqb_spec (next o) 65535).
  - injection E as <-. lia.
  - unfold cint in E. destruct (int_ok (next o + 1)); [|done]. injection E as <-. lia.
Qed.
#[local] Hint Resolve stable_publish_sent stable_getNext : stable.

Lemma stable_connect_sent fuel timer d : 0 <= keepAliveInterval d < 65536 -> stable (Client_connect_sent stack fuel timer d).
Proof. intros Hka. unfold Client_connect_sent. stability. Qed.
#[local] Hint Resolve stable_connect_sent : stable.
Lemma stable_connect fuel d : 0 <= keepAliveInterval d < 65536 -> stable (Client_connect stack fuel d).
Proof. intros Hka. unfold Client_connect. stability. Qed.
Lemma stable_publish_id fuel x q n id qos r : stable (Client_publish_id stack fuel x q n id qos r).
Proof. unfold Client_publish_id. stability. Qed.
#[local] Hint Resolve stable_publish_id : stable.
Lemma stable_publish fuel x msg : stable (Client_publish stack fuel x msg).
Proof. unfold Client_publish, Client_publish_payload. stability. Qed.
Lemma stable_disconnect fuel : stable (Client_disconnect fuel).
Proof. unfold Client_disconnect, MQTTSerialize_disconnect. stability. Qed.
Lemma stable_setDefaultMessageHandler mh : stable (Client_setDefaultMessageHandler mh).
Proof. unfold Client_setDefaultMessageHandler. stability. Qed.

(** A string argument outside the object, short enough to be copied to a slot. *)
Definition filter_ok (s0 : st) (filter : ptr) : Prop :=
  (p_blk filter ∉ own (s_o s0)) /\ (forall n, strlen (s_mem s0) filter = Some n -> n < 254).

(** The copy of a filter into its slot. *)
Lemma wlp_strcpy dst src u n (Q : unit -> mem -> Prop) m :
  cstr m src u -> room m dst n -> Z.of_nat (length u) < n ->
  (forall m', changed [p_blk dst] m m' -> cstr m' dst u -> Q tt m') -> wlp (strcpy dst src) Q m.
Proof.
  intros Hu Hr Hn HQ a s' Hrun. pose proof (wp_strcpy dst src u n Q m Hu Hr Hn HQ) as Hwp.
  apply wp_Some in Hwp as (a1 & s1 & Hrun1 & Hq). by simplify_eq.
Qed.

Lemma wlp_add_handler s0 filter mh : filter_ok s0 filter -> forall n i s, later s0 s ->
  wlp (Client_add_handler i n filter mh) (fun _ s' => later s0 s') s.
Proof.
  intros [Hblk Hlen]. induction n as [|n IH]; intros i [m o w l] L; cbn [Client_add_handler]; [by apply wlp_ret|].
  apply wlp_bind. eapply wlp_get_o; [exact L|]. apply wlp_bind, wlp_lift. intros h Hh. destruct (topicFilter h); [by apply IH|].
  apply wlp_bind, wlp_lift. intros p Hp. apply wlp_bind. eapply wlp_get_mem; [exact L|]. apply wlp_bind, wlp_lift. intros k Hk.
  assert (Hs : strlen m filter = strlen (s_mem s0) filter).
  { destruct L as (_ & [Hc _] & _). unfold strlen. cbn in Hc. by rewrite Hc. }
  pose proof (Hlen k) as Hk4. rewrite <- Hs in Hk4. specialize (Hk4 Hk). destruct (strlen_cstr _ _ _ Hk) as (u & Hu & <-).
  destruct L as ((ss & Hwf) & Hc & Hlay & Hw & Hlog). cbn [s_mem s_o s_w s_log] in *.
  assert (Hin : p_blk p ∈ own (s_o s0)).
  { injection Hlay as E1 E2 E3 E4 E5. unfold own. rewrite <- E1, <- E2, <- E3, <- E4.
    apply list_elem_of_fmap_2. right. right. right. by eapply list_elem_of_lookup_2. }
  destruct (Z.ltb_spec (Z.of_nat (length u)) 254); [|lia].
  assert (Hroom : room m p 255) by exact (Forall_lookup_1 _ _ _ _ (wf_names _ _ _ Hwf) Hp).
  apply wlp_bind, (wlp_lift_mem (strcpy p filter)), (wlp_strcpy p filter u 255); [done|done|lia|].
  intros m1 Hc1 Hu1. apply wlp_bind. intros a s1 [= <- <-]. intros b s2 [= <- <-].
  destruct (lookup_lt_is_Some_2 ss i) as [x Hx]; [rewrite (wf_table_length _ _ _ Hwf), <- (wf_handlers_length _ _ _ Hwf); by eapply lookup_lt_Some|].
  split_and!; [|eapply changed_trans; [exact Hc|]; by eapply changed_one|done..].
  exists (<[i := (Some u, Some mh)]> ss). cbn [s_mem s_o]. eapply wf_put_slot; [exact Hwf|exact Hp|done|]. split; [done|]. by split_and!; [|done|lia].
Qed.

Lemma wlp_remove_handler filter : forall n i, stable (Client_remove_handler i n filter).
Proof.
  induction n as [|n IH]; intros i s0 [m o w l] L; cbn [Client_remove_handler]; [by apply wlp_ret|].
  apply wlp_bind. eapply wlp_get_o; [exact L|]. apply wlp_bind. eapply wlp_get_mem; [exact L|].
  apply wlp_bind, wlp_lift. intros h Hh. apply wlp_bind, wlp_lift. intros hit _. destruct hit; [|by apply IH].
  eapply wlp_set_o; [exact L|done| |done]. intros ss Hwf.
  destruct (lookup_lt_is_Some_2 ss i) as [x Hx]; [rewrite (wf_table_length _ _ _ Hwf), <- (wf_handlers_length _ _ _ Hwf); by eapply lookup_lt_Some|].
  destruct (lookup_lt_is_Some_2 (topicFilters o) i) as [p Hp];
    [rewrite (wf_names_length _ _ _ Hwf), <- (wf_handlers_length _ _ _ Hwf); by eapply lookup_lt_Some|].
  exists (<[i := (None, fp h)]> ss). eapply wf_put_slot; [exact Hwf|exact Hp|apply changed_refl|done].
Qed.
#[local] Hint Resolve wlp_remove_handler : stable.

Lemma stable_unsubscribe fuel filter : stable (Client_unsubscribe stack fuel filter).
Proof. unfold Client_unsubscribe. stability. Qed.
Lemma wlp_subscribe fuel filter qos mh s0 s : filter_ok s0 filter -> later s0 s ->
  wlp (Client_subscribe stack fuel filter qos mh) (fun _ s' => later s0 s') s.
Proof.
  intros Hf. destruct s as [m o w l]. intros L. unfold Client_subscribe. keep.
  all: eapply wlp_mono; [by eapply wlp_add_handler|]; intros r [m9 o9 w9 l9] L9; cbv beta in L9; keep.
Qed.
End Members.

(** ** Sessions *)
Section Sessions.
Context `{CharAbi} `{WorldLaw}.
Context (stack : publish_out).
Implicit Types (s : st).
#[local] Abbreviation later := (later (R := R)).

(** A call of a public member function that returns, with any fuel. *)
Inductive member_call s : st -> Prop :=
  | call_setDefaultMessageHandler mh s' : Client_setDefaultMessageHandler mh s = Some (tt, s') -> member_call s s'
  | call_connect fuel d r s' : 0 <= keepAliveInterval d < 65536 -> Client_connect stack fuel d s = Some (r, s') -> member_call s s'
  | call_subscribe fuel filter qos mh r s' : filter_ok s filter -> Client_subscribe stack fuel filter qos mh s = Some (r, s') -> member_call s s'
  | call_unsubscribe fuel filter r s' : Client_unsubscribe stack fuel filter s = Some (r, s') -> member_call s s'
  | call_publish fuel x msg r s' : Client_publish stack fuel x msg s = Some (r, s') -> member_call s s'
  | call_yield fuel ms r s' : Client_yield stack fuel ms s = Some (r, s') -> member_call s s'
  | call_disconnect fuel r s' : Client_disconnect fuel s = Some (r, s') -> member_call s s'.

(** A step of the program around the client: a call, or a change of memory and platform that
    leaves the object alone. *)
Inductive client_step s : st -> Prop :=
  | step_call s' : member_call s s' -> client_step s s'
  | step_outside m w : (forall b, b ∈ own (s_o s) -> m !! b = s_mem s !! b) -> client_step s (mkSt m (s_o s) w (s_log s)).

Lemma member_call_later s s' : member_call s s' -> in_order s -> later s s'.
Proof.
  intros Hcall Hs. apply (later_refl (R := R)) in Hs. destruct Hcall.
  - by eapply stable_setDefaultMessageHandler.
  - by eapply (stable_connect stack).
  - by eapply (wlp_subscribe stack).
  - by eapply (stable_unsubscribe stack).
  - by eapply (stable_publish stack).
  - by eapply (stable_yield stack).
  - by eapply stable_disconnect.
Qed.

End Sessions.

(** ** Reading, whatever arrives *)
Section Total.
Context `{CharAbi} `{Platform}.
Implicit Types (m : mem) (o : ClientObj) (w : W) (l : list HandlerCall) (timer : Timer).

(** Timers answer, and a read stores no more than it is asked for, and at least what it says it has stored. *)
Record answering : Prop := {
  answers_left t w : exists ms w', TimerLeftMS t w = Some (ms, w');
  answers_countdown t sec w : exists t' w', TimerCountdown t sec w = Some (t', w');
  answers_read n ms w : 0 <= n -> exists r bs w', mqttread n ms w = Some ((r, bs), w') /\ Z.of_nat (length bs) <= n /\ r <= Z.of_nat (length bs)
}.
Context (Hans : answering).

Lemma decode_total ms : forall fuel c len v w, 0 <= len <= 4 -> 5 - len <= Z.of_nat fuel -> 0 <= v < 128 ^ len ->
  wp (decode_loop (fun n => mqttread n ms) fuel c (128 ^ len) len v) (fun r _ => 0 <= r.2 < 128 ^ 4) w.
Proof.
  induction fuel as [|fuel IH]; intros c len v w Hlen Hfuel Hv; [lia|]. cbn [decode_loop]. unfold MAX_NO_OF_REMAINING_LENGTH_BYTES.
  assert (Hup : 128 ^ len <= 128 ^ 4) by (apply Z.pow_le_mono_r; lia).
  destruct (Z.ltb_spec 4 (len + 1)); [apply wp_ret; cbn; lia|]. apply wp_bind.
  destruct (answers_read Hans 1 ms w) as (r & bs & w' & Hr & Hbs & Hrn); [lia|]. unfold wp at 1. rewrite Hr. cbn [fst snd].
  assert (Hc : exists c', recv1 c bs = Some c' /\ (r = 1 -> exists b, c' = Some b)).
  { destruct bs as [|b [|b' bs]]; cbn [length recv1] in *; [exists c; split; [done|lia]|exists (Some b); eauto|lia]. }
  destruct Hc as (c' & Hc & Hb). apply wp_bind. eapply wp_lift; [exact Hc|].
  destruct (Z.eqb_spec r 1) as [->|]; cbn [negb]; [|apply wp_ret; cbn; lia]. destruct (Hb eq_refl) as (b & ->).
  apply wp_bind. eapply wp_lift; [done|].
  assert (Hland : 0 <= Z.land b 127 < 128) by (change 127 with (Z.ones 7); rewrite Z.land_ones by lia; apply Z.mod_pos_bound; lia).
  assert (Hnext : 128 ^ (len + 1) = 128 ^ len * 128) by (rewrite Z.pow_add_r by lia; lia).
  assert (Hv' : 0 <= v + Z.land b 127 * 128 ^ len < 128 ^ (len + 1)) by nia.
  assert (128 ^ (len + 1) <= 128 ^ 4) by (apply Z.pow_le_mono_r; lia).
  destruct (negb (Z.land b 128 =? 0)); [rewrite <- Hnext; apply IH; lia|apply wp_ret; cbn; lia].
Qed.

Lemma wp_read_any p n k ms (Q : Z -> st -> Prop) m o w l : 0 <= n <= k -> room m p k ->
  (forall r m' w', (forall q j, room m q j -> room m' q j) -> Q r (mkSt m' o w' l)) -> wp (ipstack_read p n ms) Q (mkSt m o w l).
Proof.
  intros Hn Hr HQ. unfold ipstack_read. apply wp_bind. destruct (answers_read Hans n ms w) as (r & bs & w' & Hrd & Hbs & _); [lia|].
  unfold wp at 1, on_w. cbn [s_w s_mem s_o s_log]. rewrite Hrd. cbn [fst snd]. apply wp_bind.
  destruct (room_store _ _ bs _ Hr) as (m' & Hs); [lia|]. unfold wp at 1, on_mem, stores. cbn [s_mem s_o s_w s_log]. rewrite Hs.
  cbn [mbind option_bind]. apply wp_ret, HQ. intros q j. by apply (store_bytes_room _ _ _ _ q j Hs).
Qed.

Lemma wp_left_any t (Q : Z -> st -> Prop) m o w l : (forall ms w', Q ms (mkSt m o w' l)) -> wp (on_w (TimerLeftMS t)) Q (mkSt m o w l).
Proof. intros HQ. destruct (answers_left Hans t w) as (ms & w' & Ht). unfold wp, on_w. cbn [s_w s_mem s_o s_log]. by rewrite Ht. Qed.
Lemma wp_countdown_any t sec (Q : Timer -> st -> Prop) m o w l :
  (forall t' w', Q t' (mkSt m o w' l)) -> wp (on_w (TimerCountdown t sec)) Q (mkSt m o w l).
Proof. intros HQ. destruct (answers_countdown Hans t sec w) as (t' & w' & Ht). unfold wp, on_w. cbn [s_w s_mem s_o s_log]. by rewrite Ht. Qed.

Lemma room_load m p n : room m p n -> 0 < n -> exists x, load m p = Some x.
Proof.
  intros (b & Hb & Ho & Hl) Hn. unfold load, load_bytes. rewrite Hb. cbn [mbind option_bind].
  destruct (decide _); [done|]. rewrite decide_True by lia. cbn [mbind option_bind].
  destruct (drop (Z.to_nat (p_off p)) b) as [|x r] eqn:E; [|by exists x].
  apply (f_equal length) in E. rewrite length_drop in E. cbn in E. lia.
Qed.

(** The last part of [readPacket]: the type of the packet in the buffer. *)
Lemma wp_read_rest m o w l (Q : Z -> st -> Prop) : room m (readbuf o) MAX_MQTT_PACKET_SIZE -> (forall r s', Q r s') ->
  wp (m ← on_mem get; header ← lift (load m (readbuf o)); o ← get_o;
      (if 0 <? keepAliveInterval_ o then t ← on_w (TimerCountdown (last_received o) (keepAliveInterval_ o));
         set_o (put_last_received t o) else mret tt);; mret (hdr_type header)) Q (mkSt m o w l).
Proof.
  intros Hr HQ. do 2 pstep. cbn beta. pstep. destruct (room_load m (readbuf o) MAX_MQTT_PACKET_SIZE) as (x & Hx); [done|by vm_compute|].
  eapply wp_lift; [exact Hx|]. do 3 pstep. destruct (0 <? _); [|by repeat pstep]. pstep. apply wp_countdown_any. intros t' w'. by repeat pstep.
Qed.

(** Whatever arrives, [readPacket] stays in the read buffer. *)
Lemma readPacket_total timer m o w l (Q : Z -> st -> Prop) :
  room m (readbuf o) MAX_MQTT_PACKET_SIZE -> (forall r s', Q r s') -> wp (Client_readPacket timer) Q (mkSt m o w l).
Proof.
  intros Hr HQ. unfold Client_readPacket. do 3 pstep. apply wp_left_any. intros ms w1. pstep.
  apply (wp_read_any _ _ MAX_MQTT_PACKET_SIZE); [by vm_compute|done|]. intros r m1 w2 Hr1.
  destruct (negb (r =? 1)); [by pstep|]. pstep. apply wp_left_any. intros ms1 w3. unfold Client_decodePacket. pstep.
  pose proof (decode_total ms1 5 None 0 0 w3 ltac:(lia) ltac:(lia) ltac:(lia)) as Hd.
  apply wp_Some in Hd as ([n v] & w4 & Hd & Hv). cbn [snd] in Hv. unfold wp at 1, on_w. cbn [s_w s_mem s_o s_log].
  change (128 ^ 0) with 1 in Hd. rewrite Hd. cbn beta iota.
  pose proof (length_varint v) as Hlen.
  pstep. pstep. eapply (wp_encode _ _ 511); [change (128 ^ 4) with 268435456 in Hv; lia| |lia|].
  { apply (room_padd _ _ 512 1); [by apply Hr1|lia]. }
  intros m2 Hs2. cbv zeta. assert (Hr2 : room m2 (readbuf o) MAX_MQTT_PACKET_SIZE) by by apply (store_bytes_room _ _ _ _ _ _ Hs2), Hr1.
  destruct (Z.ltb_spec (MAX_MQTT_PACKET_SIZE - (1 + Z.of_nat (length (varint v)))) v) as [|Hfit]; [by pstep|]. pstep.
  destruct (Z.ltb_spec 0 v).
  - pstep. apply wp_left_any. intros ms2 w5. pstep.
    apply (wp_read_any _ _ (MAX_MQTT_PACKET_SIZE - (1 + Z.of_nat (length (varint v))))); [lia|apply room_padd; [done|lia]|].
    intros r3 m3 w6 Hr3. pstep. destruct (negb (r3 =? v)); [by pstep|]. apply wp_read_rest; [by apply Hr3|done].
  - pstep. by apply wp_read_rest.
Qed.
End Total.

(** ** Every session *)
Section Reachable.
Context `{CharAbi} `{Platform}.
Context (stack : publish_out).
Implicit Types (s : st).

(** Memory outside the object does not matter. *)
Lemma wf_outside m m' o ss : wf_client m o ss -> (forall b, b ∈ own o -> m' !! b = m !! b) -> wf_client m' o ss.
Proof.
  intros Hwf Hm. assert (Hroom : forall p n, p_blk p ∈ own o -> room m p n -> room m' p n).
  { intros p n Hp (b & Hb & Hr). exists b. by rewrite Hm. }
  assert (Hin : forall p, p ∈ sendbuf o :: readbuf o :: pubbuf o :: topicFilters o -> p_blk p ∈ own o)
    by (intros p Hp; unfold own; by apply list_elem_of_fmap_2).
  destruct Hwf. constructor; try done.
  - apply Hroom; [|done]. apply Hin. by left.
  - apply Hroom; [|done]. apply Hin. right. by left.
  - apply Hroom; [|done]. apply Hin. right. right. by left.
  - rewrite Forall_forall in *. intros p Hp. apply Hroom; [|by apply wf_names]. apply Hin. by right; right; right.
  - intros i p h x Hp Hh Hx. destruct (wf_slots i p h x Hp Hh Hx) as [Hf Hs]. split; [done|]. destruct (x.1); [|done].
    destruct Hs as (Ht & Hc & Hl). split_and!; [done| |done]. destruct Hc as [Hat Hz]. split; [|done].
    unfold at_bytes, load_bytes in *. rewrite Hm; [done|]. apply Hin. right. right. right. by eapply list_elem_of_lookup_2.
Qed.
Lemma in_order_outside m w s : in_order s -> (forall b, b ∈ own (s_o s) -> m !! b = s_mem s !! b) -> in_order (mkSt m (s_o s) w (s_log s)).
Proof. intros (ss & Hwf) Hm. exists ss. by eapply wf_outside. Qed.

(** The storage of a client, before its constructor runs: the arrays are there and apart. *)
Definition storage_ok m (o : ClientObj) : Prop :=
  room m (sendbuf o) MAX_MQTT_PACKET_SIZE /\ room m (readbuf o) MAX_MQTT_PACKET_SIZE /\ room m (pubbuf o) MAX_MQTT_PACKET_SIZE /\
  Forall (fun p => room m p 255) (topicFilters o) /\ NoDup (own o) /\
  length (messageHandlers o) = MAX_HANDLERS /\ length (topicFilters o) = MAX_HANDLERS /\ 0 <= keepAliveInterval_ o < 65536.

Lemma Client_in_order m o w ms : storage_ok m o -> 0 < ms <= INT_MAX -> in_order (mkSt m (Client_Client ms o) w []).
Proof.
  intros (R1 & R2 & R3 & R4 & Hnd & L1 & L2 & Hka) Hms. exists (replicate MAX_HANDLERS (None, None)). constructor; try done; cbn; try lia.
  - unfold free_slots. by rewrite !length_map.
  - intros i p h s Hp Hh Hs. unfold free_slots in Hh. apply list_lookup_fmap_Some in Hh as (h' & -> & Hh).
    apply list_lookup_fmap_Some in Hh as (h0 & -> & _). apply (lookup_replicate_1 5) in Hs as [-> _]. done.
Qed.

(** C8: whatever the network delivers, whenever the timers run out, and whatever else the
    program does with its own memory, a member call that returns leaves the object in order: from the
    constructor on, the packet buffers and the five slots keep their places, every used slot
    points to its own array and holds a terminated filter of fewer than 255 characters, packet
    identifiers fit 16 bits, and the call has written to no memory but the object's.  In every such state
    the packet reader is defined for any bytes at all: on a network that stores no more than it is asked
    for, [readPacket] never leaves the read buffer.  Calls that do not return in the model are not spoken of: those that
    never end, and those whose behaviour is undefined, such as a [subscribe] that is answered with a SUBACK of two return
    codes ([suback_maxcount]). *)
Theorem client_session_in_order m o w ms s s' :
  storage_ok m o -> 0 < ms <= INT_MAX -> rtc (client_step stack) (mkSt m (Client_Client ms o) w []) s -> member_call stack s s' ->
  in_order s /\ in_order s' /\ layout (s_o s') = layout (Client_Client ms o) /\
  changed (own (s_o s)) (s_mem s) (s_mem s') /\ (exists l, s_log s' = s_log s ++ l) /\
  (answering -> forall timer, exists r s2, Client_readPacket timer s' = Some (r, s2)).
Proof.
  intros Hst Hms Hsteps Hcall. pose proof (Client_in_order m o w ms Hst Hms) as H0'.
  assert (Hs : in_order s /\ layout (s_o s) = layout (Client_Client ms o)).
  { clear Hcall. remember (mkSt m (Client_Client ms o) w []) as s0 eqn:E.
    assert (El : layout (s_o s0) = layout (Client_Client ms o)) by by subst. clear E. induction Hsteps as [|s0 s1 s2 Hstep _ IH]; [done|].
    destruct Hstep as [s1 Hc|m1 w1 Hout].
    - destruct (member_call_later (R := fun _ _ => True) stack _ _ Hc H0') as (Ho & _ & Hl & _). apply IH; [done|by rewrite Hl].
    - apply IH; [by apply in_order_outside|done]. }
  destruct Hs as [Hs El]. destruct (member_call_later (R := fun _ _ => True) stack _ _ Hcall Hs) as (Ho & Hc & Hl & _ & Hlog).
  split_and!; [done|done|by rewrite Hl|done|done|]. intros Hans timer. destruct Ho as (ss & Hwf). destruct s' as [m' o' w' l'].
  destruct (wp_Some _ _ _ (readPacket_total Hans timer m' o' w' l' (fun _ _ => True) (wf_readbuf _ _ _ Hwf) (fun _ _ => I))) as (r & s2 & Hr & _).
  by exists r, s2.
Qed.

(** A client without a session. *)
Definition no_session (o : ClientObj) : Prop :=
  isconnected o = false /\ ping_outstanding o = false /\ inflightMsgid o = 0 /\ Forall (fun h => topicFilter h = None) (messageHandlers o).

Lemma wlp_or_clean rc s : rc <> SUCCESS -> wlp (or_clean rc) (fun r s' => r = rc /\ no_session (s_o s')) s.
Proof.
  intros Hrc r s'. unfold or_clean. apply Z.eqb_neq in Hrc. rewrite Hrc. cbn [negb]. intros [= <- <-]. split; [done|].
  split_and!; try done. cbn. unfold free_slots. apply Forall_forall. intros h (h0 & -> & _)%list_elem_of_fmap. done.
Qed.

(** A command that ends in [or_clean]. *)
Definition ends_clean {A} (c : M st A) (rc : A -> Z) : Prop := forall s, wlp c (fun a s' => rc a <> SUCCESS -> no_session (s_o s')) s.
Lemma ends_clean_or_clean (c : M st Z) : ends_clean (r ← c; or_clean r) id.
Proof.
  intros s. apply wlp_bind. intros r s1 _ a s2 Hrun Ha. destruct (decide (r = SUCCESS)) as [->|Hr].
  - cbv in Hrun. by injection Hrun as <- _.
  - by destruct (wlp_or_clean r s1 Hr _ _ Hrun).
Qed.
Lemma ends_clean_bind {A B} (c : M st A) (k : A -> M st B) rc : (forall a, ends_clean (k a) rc) -> ends_clean (c ≫= k) rc.
Proof. intros Hk s. apply wlp_bind. intros a s1 _. apply Hk. Qed.

(** C28: a subscribe, an unsubscribe, or the sending part of a publish that does not return 0
    leaves a client without a session, whatever the reason: not connected, no other
    subscription left, and the publish kept for another try forgotten, so the retry in
    [connect] never sends a publish that failed. *)
Theorem failed_command_ends_session rc s s' : rc <> 0 ->
  (exists fuel filter qos mh, Client_subscribe stack fuel filter qos mh s = Some (rc, s')) \/
  (exists fuel filter, Client_unsubscribe stack fuel filter s = Some (rc, s')) \/
  (exists fuel len timer qos, Client_publish_sent stack fuel len timer qos s = Some (rc, s')) ->
  no_session (s_o s').
Proof.
  assert (Hgo : forall c, ends_clean c id -> rc <> 0 -> c s = Some (rc, s') -> no_session (s_o s')) by (intros c Hc Hne Hrun; by apply (Hc s _ _ Hrun)).
  intros Hne [(fuel & filter & qos & mh & Hrun)|[(fuel & filter & Hrun)|(fuel & len & timer & qos & Hrun)]];
    (eapply Hgo; [|done|exact Hrun]); repeat first [apply ends_clean_or_clean|apply ends_clean_bind; intros ?].
Qed.
End Reachable.
