(* ===== verification/IpStack.v ===== *)
(** * IpStack: linux.cpp

    Sockets and timers for the C++ client: [IPStack] and [Countdown].  What the message
    handler asks of a network is the class [Network]; linux.cpp is its instance. *)
From S2P Require Import Prelude CMem Wire Packet Transport Publish Connect Subscribe Unsubscribe Topic Platform Client Linux.

(** ** What the message handler asks of the network *)

(** The platform of the client, and connections: [IPStack_connect_ip ip port] is
    [ipstack.connect((uint32_t) ip, port)], [IPStack_connect_host] is given the characters
    of the host name. *)
Class Network := {
  net_platform :: Platform;
  IPStack_connect_ip : Z -> Z -> M W Z;
  IPStack_connect_host : list Z -> Z -> M W Z;
  IPStack_disconnect : M W Z
}.

(** Network byte order of a [uint32_t] on a little-endian machine. *)
Definition htonl (z : Z) : Z :=
  (z mod 256) * 16777216 + (z / 256) mod 256 * 65536 + (z / 65536) mod 256 * 256 + (z / 16777216) mod 256.

Section Definitions.
Context `{Os}.

(** ** IPStack; the state is [mysock] beside the system *)

(** [Socket_error(aString)], given [errno]: its local [rc] is not what it returns. *)
Definition Socket_error (errno : Z) : Z := errno.

(** [socket] and [::connect]; [rc] is 0 before. *)
Definition IPStack_open (address : sockaddr_in) : M (OS * Z) Z := fun w =>
  '(sock, o) ← socket (sin_family address) w.1;
  if negb (sock =? -1) then '(rc, o) ← connect_ sock address o; Some (rc, (o, sock)) else Some (0, (o, sock)).

Definition ip_connect (ip port : Z) : M (OS * Z) Z :=
  IPStack_open (mkSockaddr AF_INET (htons (to_ushort port)) (htonl ip)).

Definition host_connect (hostname : list Z) (port : Z) : M (OS * Z) Z :=
  '(rc, result) ← on_os (getaddrinfo hostname);
  if negb (rc =? 0) then mret rc else
  result ← lift (match prefer_ip4 result with Some res => Some res | None => head result end);
  if ai_family result =? AF_INET then IPStack_open (mkSockaddr AF_INET (htons (to_ushort port)) (ai_sin_addr result))
  else mret (-1).

(** [while (bytes < len)]; [got]: what has been stored in [buffer].  One [recv] per unit of fuel. *)
Fixpoint ip_recv_loop (fuel : nat) (sock len bytes : Z) (got : list Z) : M OS (Z * list Z) :=
  if negb (bytes <? len) then mret (bytes, got) else
  match fuel with
  | O => undefined
  | S fuel' =>
    '(rc, bs, errno) ← recv sock (len - bytes);
    if rc =? -1 then
      if negb (Socket_error errno =? 0) then mret (-1, got)
      else ip_recv_loop fuel' sock len bytes got
    else bytes ← lift (cint (bytes + rc)); ip_recv_loop fuel' sock len bytes (got ++ bs)
  end.

Definition ip_read (fuel : nat) (sock len timeout_ms : Z) : M OS (Z * list Z) :=
  let interval := mkTimeval (Z.quot timeout_ms 1000) (Z.rem timeout_ms 1000 * 1000) in
  let interval := if (tv_sec interval <? 0) || ((tv_sec interval =? 0) && (tv_usec interval <=? 0))
                  then mkTimeval 0 100 else interval in
  set_rcvtimeo sock interval;;
  ip_recv_loop fuel sock len 0 [].

Definition ip_write (sock : Z) (buffer : list Z) (timeout : Z) : M OS Z :=
  usec ← lift (cint (timeout * 1000));
  set_rcvtimeo sock (mkTimeval 0 usec);;
  write sock buffer.

Definition ip_disconnect : M (OS * Z) Z := fun w => on_os (close w.2) w.

(** ** Countdown: [end_time]; [expired], [countdown] and [left_ms] have the text of MQTTLinux.c *)

Definition countdown_ms (ms : Z) : M OS timeval :=
  now ← gettimeofday;
  mret (timeradd now (mkTimeval (Z.quot ms 1000) (Z.rem ms 1000 * 1000))).

Definition ipstack_platform (fuel : nat) : Platform := {|
  W := OS * Z;
  Timer := timeval;
  TimerInit := mkTimeval 0 0;
  TimerIsExpired t := on_os (TimerIsExpired_ t);
  TimerCountdownMS _ ms := on_os (countdown_ms ms);
  TimerCountdown _ s := on_os (TimerCountdown_ s);
  TimerLeftMS t := on_os (TimerLeftMS_ t);
  mqttread n ms := fun w => on_os (ip_read fuel w.2 n ms) w;
  mqttwrite bs ms := fun w => on_os (ip_write w.2 bs ms) w
|}.

Definition ipstack (fuel : nat) : Network := {|
  net_platform := ipstack_platform fuel;
  IPStack_connect_ip := ip_connect;
  IPStack_connect_host := host_connect;
  IPStack_disconnect := ip_disconnect
|}.
End Definitions.

(** ** Reading *)
Section Reading.
Context `{Os}.

(** A stream socket whose peer will send [data]: [k] calls of [recv] deliver [bs] of it. *)
Inductive streams (sock len : Z) : nat -> Z -> OS -> list Z -> OS -> Prop :=
  | streams_none bytes o : streams sock len 0 bytes o [] o
  | streams_more k bytes o bs o1 bs' o' :
      recv sock (len - bytes) o = Some ((Z.of_nat (length bs), bs, 0), o1) -> bs <> [] ->
      streams sock len k (bytes + Z.of_nat (length bs)) o1 bs' o' -> streams sock len (S k) bytes o (bs ++ bs') o'.

Lemma ip_recv_streams sock len k fuel bytes o bs o' : streams sock len k bytes o bs o' -> bytes + Z.of_nat (length bs) <= len <= INT_MAX ->
  0 <= bytes -> forall got, ip_recv_loop (k + fuel) sock len bytes got o = ip_recv_loop fuel sock len (bytes + Z.of_nat (length bs)) (got ++ bs) o'.
Proof.
  induction 1 as [bytes o|k bytes o bs o1 bs' o' Hr Hne _ IH]; intros Hl Hb got; [by rewrite app_nil_r, Z.add_0_r|].
  rewrite length_app in Hl. assert (0 < Z.of_nat (length bs)) by (destruct bs; [done|cbn [length]; lia]).
  cbn [ip_recv_loop Nat.add]. destruct (Z.ltb_spec bytes len); [|lia]. cbn [negb]. rewrite (M_bind_Some _ _ _ _ _ Hr). cbn beta iota.
  destruct (Z.eqb_spec (Z.of_nat (length bs)) (-1)); [lia|].
  rewrite (M_bind_lift _ _ _ (bytes + Z.of_nat (length bs))) by (apply cint_ok; unfold INT_MIN; lia).
  rewrite IH by lia. rewrite length_app, <- app_assoc. f_equal. lia.
Qed.

(** A connection the peer has closed: [recv] returns 0, now and later. *)
Definition peer_closed (sock : Z) (closed : OS -> Prop) : Prop :=
  forall n o, closed o -> exists o', recv sock n o = Some ((0, [], 0), o') /\ closed o'.

Lemma ip_recv_closed sock len closed : peer_closed sock closed -> forall fuel bytes o got,
  closed o -> 0 <= bytes < len -> len <= INT_MAX -> ip_recv_loop fuel sock len bytes got o = None.
Proof.
  intros Hc. induction fuel as [|fuel IH]; intros bytes o got Ho Hb Hl; cbn [ip_recv_loop]; (destruct (Z.ltb_spec bytes len); [|lia]); [done|].
  cbn [negb]. destruct (Hc (len - bytes) o Ho) as (o' & Hr & Ho'). rewrite (M_bind_Some _ _ _ _ _ Hr). cbn beta iota.
  change (0 =? -1) with false. cbv iota. rewrite (M_bind_lift _ _ _ (bytes + 0)) by (apply cint_ok; unfold INT_MIN; lia).
  apply IH; [done|lia|done].
Qed.

Lemma ip_recv_short sock len k bytes o bs o' : streams sock len k bytes o bs o' -> bytes + Z.of_nat (length bs) < len -> len <= INT_MAX ->
  0 <= bytes -> forall fuel got, (fuel <= k)%nat -> ip_recv_loop fuel sock len bytes got o = None.
Proof.
  induction 1 as [bytes o|k bytes o bs o1 bs' o' Hr Hne _ IH]; intros Hl Hm Hb [|fuel] got Hk; try lia;
    [cbn; destruct (Z.ltb_spec bytes len); [done|cbn in Hl; lia]|cbn; destruct (Z.ltb_spec bytes len); [done|lia]|].
  rewrite length_app in Hl. cbn [ip_recv_loop]. destruct (Z.ltb_spec bytes len); [|lia]. cbn [negb]. rewrite (M_bind_Some _ _ _ _ _ Hr). cbn beta iota.
  destruct (Z.eqb_spec (Z.of_nat (length bs)) (-1)); [lia|].
  rewrite (M_bind_lift _ _ _ (bytes + Z.of_nat (length bs))) by (apply cint_ok; unfold INT_MIN; lia). apply IH; lia.
Qed.

(** C33: [IPStack::read] over the calls of [recv] it makes, of which the first [k] deliver [bs].  When
    that is all that was asked for, it is returned, however it was cut.  When [recv] then
    fails, a timeout included, the result is -1: what arrived is taken from the stream, and
    how much it was is lost.  And when the peer has closed the connection, [recv] returns
    0 and the loop does not end: no number of rounds is enough. *)
Theorem ip_read_spec sock len timeout_ms o z o1 k bs o2 :
  0 < len <= INT_MAX -> (forall t, set_rcvtimeo sock t o = Some (z, o1)) -> streams sock len k 0 o1 bs o2 ->
  (Z.of_nat (length bs) = len -> forall fuel, ip_read (k + fuel) sock len timeout_ms o = Some ((len, bs), o2)) /\
  (Z.of_nat (length bs) < len -> forall e o3 fuel, recv sock (len - Z.of_nat (length bs)) o2 = Some ((-1, [], e), o3) -> e <> 0 ->
     ip_read (k + S fuel) sock len timeout_ms o = Some ((-1, bs), o3)) /\
  (Z.of_nat (length bs) < len -> forall closed fuel, peer_closed sock closed -> closed o2 -> ip_read fuel sock len timeout_ms o = None).
Proof.
  intros Hlen Hset Hs. unfold ip_read. cbv zeta. split_and!.
  - intros Hl fuel. rewrite (M_bind_Some _ _ _ _ _ (Hset _)). rewrite (ip_recv_streams _ _ _ _ _ _ _ _ Hs) by lia.
    rewrite Hl. destruct fuel; cbn [ip_recv_loop]; by rewrite Z.ltb_irrefl.
  - intros Hl e o3 fuel Hr He. rewrite (M_bind_Some _ _ _ _ _ (Hset _)). rewrite (ip_recv_streams _ _ _ _ _ _ _ _ Hs) by lia.
    rewrite Z.add_0_l. cbn [ip_recv_loop app]. destruct (Z.ltb_spec (Z.of_nat (length bs)) len); [|lia]. cbn [negb].
    rewrite (M_bind_Some _ _ _ _ _ Hr). cbn beta iota. unfold Socket_error. by destruct (Z.eqb_spec e 0).
  - intros Hl closed fuel Hc Ho. rewrite (M_bind_Some _ _ _ _ _ (Hset _)).
    destruct (decide (fuel <= k)%nat) as [Hk|Hk]; [by eapply ip_recv_short; [exact Hs|lia..]|].
    replace fuel with (k + (fuel - k))%nat by lia. rewrite (ip_recv_streams _ _ _ _ _ _ _ _ Hs) by lia.
    apply (ip_recv_closed _ _ closed); [done|done|lia|lia].
Qed.
End Reading.

(** ** Connecting *)
Section Connecting.
Context `{Os}.

(** The address of four bytes is the one the socket connects to, in network byte order. *)
Lemma htonl_bytes a b c d : byte a -> byte b -> byte c -> byte d ->
  htonl (a * 16777216 + b * 65536 + c * 256 + d) = d * 16777216 + c * 65536 + b * 256 + a.
Proof. unfold byte, htonl. intros. zdiv. Qed.

(** [IPStack::connect] to an address opens a socket and connects it there, and the result is that
    of [::connect]; to a host, it takes the first IPv4 address of the host.  When no socket can be
    opened the result is 0, so the handler goes on with a connection it does not have. *)
Theorem IPStack_connect_spec ip hostname port o s0 rc l o0 sock o1 :
  getaddrinfo hostname o0 = Some ((rc, l), o) -> socket AF_INET o = Some (sock, o1) ->
  let opened addr := if decide (sock = -1) then Some (0, (o1, -1)) else
    '(rc, o2) ← connect_ sock (mkSockaddr AF_INET (htons (to_ushort port)) addr) o1; Some (rc, (o2, sock)) in
  ip_connect ip port (o, s0) = opened (htonl ip) /\
  (rc <> 0 -> host_connect hostname port (o0, s0) = Some (rc, (o, s0))) /\
  (forall pre a post, rc = 0 -> l = pre ++ a :: post -> Forall (fun a => ai_family a <> AF_INET) pre -> ai_family a = AF_INET ->
     host_connect hostname port (o0, s0) = opened (ai_sin_addr a)) /\
  (rc = 0 -> l <> [] -> Forall (fun a => ai_family a <> AF_INET) l -> host_connect hostname port (o0, s0) = Some (-1, (o, s0))).
Proof.
  intros Hg Hs. cbv zeta.
  assert (Hopen : forall addr, IPStack_open (mkSockaddr AF_INET (htons (to_ushort port)) addr) (o, s0) =
    if decide (sock = -1) then Some (0, (o1, -1)) else
    '(rc, o2) ← connect_ sock (mkSockaddr AF_INET (htons (to_ushort port)) addr) o1; Some (rc, (o2, sock))).
  { intros addr. unfold IPStack_open. cbn [fst sin_family]. rewrite Hs. cbn [mbind option_bind].
    destruct (Z.eqb_spec sock (-1)) as [->|Hne]; cbn [negb]; [by rewrite decide_True|by rewrite decide_False]. }
  assert (Hhost : (on_os (getaddrinfo hostname)) (o0, s0) = Some ((rc, l), (o, s0))) by (unfold on_os; cbn [fst snd]; by rewrite Hg).
  split; [apply Hopen|]. unfold host_connect. rewrite (M_bind_Some _ _ _ _ _ Hhost). cbn beta iota. split_and!.
  - intros Hrc. by destruct (Z.eqb_spec rc 0).
  - intros pre a post -> -> Hpre Ha. cbn [Z.eqb negb]. rewrite (prefer_ip4_first pre a post Hpre Ha). rewrite (M_bind_lift _ _ _ a) by done. rewrite Ha. cbn [Z.eqb Pos.eqb AF_INET]. apply Hopen.
  - intros -> Hne Hf. cbn [Z.eqb negb]. rewrite (prefer_ip4_none l Hf).
    destruct l as [|a l]; [done|]. apply Forall_cons in Hf as [Ha _]. rewrite (M_bind_lift _ _ _ a) by done.
    by destruct (Z.eqb_spec (ai_family a) AF_INET).
Qed.
End Connecting.
