(* ===== verification/PahoHandler.v ===== *)
(** * PahoHandler: PahoMqttMessageHandler.cpp

    The gateway's side of the C++ client: it reads the MQTT configuration from the core, opens
    the connection, and hands messages on.  The core is a submodule of the repository that is
    not part of it; it is the class [Core]. *)
From S2P Require Import Prelude CMem Wire Packet Publish Connect Subscribe Unsubscribe Topic Platform PahoClient IpStack.

(** ** What the handler asks of the core

    A method that fills arrays returns what it stores in each of them; [core_publish] is given
    the memory and its arguments. *)
Class Core := {
  CORE : Type;
  CORE_SUCCESS : Z;
  get_mqtt_config : M CORE (bool * list Z * Z * list Z);
  get_mqtt_login_config : M CORE (bool * list Z * list Z);
  get_mqtt_will : M CORE (bool * list Z * list Z * Z * Z);
  core_publish : mem -> ptr -> option ptr -> Z -> Z -> M CORE Z;
  notify_mqtt_connected : M CORE unit;
  logger_log : list Z -> Z -> M CORE unit
}.

(** The members; [core] and [client] are null or not. *)
Record HandlerObj := mkHandler { hostname : option ptr; port : Z; ip_address : Z; core : bool; client : bool }.

(** The local arrays of [getConfigAndConnect]. *)
Record frame := mkFrame {
  server_ip : ptr; client_id : ptr; fr_username : ptr; fr_password : ptr; will_topic : ptr; will_msg : ptr
}.

(** "MQTT connected" *)
Definition mqtt_connected_msg : list Z := [77; 81; 84; 84; 32; 99; 111; 110; 110; 101; 99; 116; 101; 100].

(** [memset(p, 0, n)] *)
Definition memset0 (p : ptr) (n : nat) : M mem unit := stores p (replicate n 0).

(** The characters of a string argument. *)
Definition c_chars (m : mem) (p : ptr) : option (list Z) := n ← strlen m p; load_bytes m p n.

Section Definitions.
Context `{CharAbi} `{Network} `{Core}.
Context (stack : publish_out).

(** The handler, the client and the core. *)
Record hst := mkHst { h_obj : HandlerObj; h_cl : st; h_core : CORE }.

Definition get_h : M hst HandlerObj := fun s => Some (h_obj s, s).
Definition set_h (h : HandlerObj) : M hst unit := fun s => Some (tt, mkHst h (h_cl s) (h_core s)).
Definition on_st {A} (f : M st A) : M hst A := fun s =>
  match f (h_cl s) with Some (a, c) => Some (a, mkHst (h_obj s) c (h_core s)) | None => None end.
(** A call through the pointer [client]. *)
Definition on_client {A} (f : M st A) : M hst A := fun s => if client (h_obj s) then on_st f s else None.
(** A call through the pointer [core]. *)
Definition on_core {A} (f : M CORE A) : M hst A := fun s =>
  if core (h_obj s) then match f (h_core s) with Some (a, c) => Some (a, mkHst (h_obj s) (h_cl s) c) | None => None end else None.

(** [storage]: where [new] puts the client; its second argument has the default 30000. *)
Definition begin (storage : ClientObj) : M hst bool :=
  h ← get_h;
  if negb (core h) then mret false else
  set_h (mkHandler (hostname h) (port h) (ip_address h) (core h) true);;
  on_st (set_o (Client_Client 30000 storage));;
  mret true.

Definition setCore (core : bool) : M hst unit :=
  h ← get_h; set_h (mkHandler (hostname h) (port h) (ip_address h) core (client h)).

(** [ip_address] is an [int64_t]; the shifted bytes are [int]s. *)
Definition setServer_ip (ip : ptr) (port : Z) : M hst unit :=
  h ← get_h; m ← on_st (on_mem get);
  a ← lift (load m ip); b ← lift (load m (padd ip 1)); c ← lift (load m (padd ip 2)); d ← lift (load m (padd ip 3));
  let addr := Z.lor 0 (to_int (Z.shiftl a 24)) in
  let addr := Z.lor addr (to_int (Z.shiftl b 16)) in
  let addr := Z.lor addr (to_int (Z.shiftl c 8)) in
  let addr := Z.lor addr (to_int (Z.shiftl d 0)) in
  set_h (mkHandler None port addr (core h) (client h)).

Definition setServer_host (name : ptr) (port : Z) : M hst unit :=
  h ← get_h; set_h (mkHandler (Some name) port (-1) (core h) (client h)).

(** ** The four [connect]s *)

(** [ipstack.connect(...)], or [None] for [return false]. *)
Definition connect_ipstack : M hst (option Z) :=
  h ← get_h;
  match hostname h with
  | Some p =>
    m ← on_st (on_mem get); name ← lift (c_chars m p);
    rc ← on_st (on_w (IPStack_connect_host name (port h))); mret (Some rc)
  | None =>
    if negb (ip_address h =? -1) then
      rc ← on_st (on_w (IPStack_connect_ip (ip_address h mod 4294967296) (port h))); mret (Some rc)
    else mret None
  end.

(** The rest of a [connect]; [data] is [None] where a wrong QoS returns. *)
Definition connect_data (fuel : nat) (data : option MQTTPacket_connectData) : M hst bool :=
  rc ← connect_ipstack;
  match rc with
  | None => mret false
  | Some rc =>
    if negb (rc =? 0) then mret false else
    match data with
    | None => mret false
    | Some data => rc ← on_client (Client_connect stack fuel data); mret (rc =? 0)
    end
  end.

Definition set_version (v : Z) (d : MQTTPacket_connectData) : MQTTPacket_connectData :=
  mkConnectData (struct_id d) (struct_version d) v (clientID d) (keepAliveInterval d) (cleansession d) (willFlag d) (will d)
    (username d) (password d).
Definition set_login (user pass : ptr) (d : MQTTPacket_connectData) : MQTTPacket_connectData :=
  set_password (set_username d (string_topic user)) (string_topic pass).
Definition set_will_ (topic message : ptr) (qos retained : Z) (d : MQTTPacket_connectData) : MQTTPacket_connectData :=
  set_will d 1 (set_w_flags (set_w_message (set_w_topic (will d) (string_topic topic)) (string_topic message)) qos retained).
Definition client_data (version : Z) (id : ptr) : MQTTPacket_connectData :=
  set_clientID (set_version version MQTTPacket_connectData_initializer) (string_topic id).
Definition qos_ok (qos : Z) : bool := (qos =? 0) || (qos =? 1) || (qos =? 2).

Definition connect_id (fuel : nat) (id : ptr) : M hst bool := connect_data fuel (Some (client_data 3 id)).
Definition connect_login (fuel : nat) (id user pass : ptr) : M hst bool :=
  connect_data fuel (Some (set_login user pass (client_data 4 id))).
Definition connect_will (fuel : nat) (id willTopic : ptr) (willQos willRetain : Z) (willMessage : ptr) (willMessageLength : Z) : M hst bool :=
  connect_data fuel (if qos_ok willQos then Some (set_will_ willTopic willMessage willQos 0 (client_data 4 id)) else None).
Definition connect_login_will (fuel : nat) (id user pass willTopic : ptr) (willQos willRetain : Z) (willMessage : ptr)
    (willMessageLength : Z) : M hst bool :=
  connect_data fuel (if qos_ok willQos then Some (set_will_ willTopic willMessage willQos (to_uchar willRetain)
                                                    (set_login user pass (client_data 4 id))) else None).

Definition disconnect (fuel : nat) : M hst unit :=
  on_client (Client_disconnect fuel);; on_st (on_w IPStack_disconnect);; mret tt.

(** ** Messages *)

(** The address of [messageArrived]. *)
Context (messageArrived_fp : nat).

(** [message.id] and the local [message] otherwise are not initialised. *)
Definition publish_ (fuel : nat) (topic payload : ptr) (plength qos retained : Z) : M hst bool :=
  if negb (qos_ok qos) then mret false else
  let message := mkMessage qos retained 0 (po_packetid stack) (Some payload) plength in
  rc ← on_client (Client_publish stack fuel topic message);
  mret (rc =? 0).

Definition subscribe_ (fuel : nat) (topic : ptr) (qos : Z) : M hst bool :=
  if negb (qos_ok qos) then mret false else
  rc ← on_client (Client_subscribe stack fuel topic qos messageArrived_fp);
  mret (rc =? 0).

Definition unsubscribe_ (fuel : nat) (topic : option ptr) : M hst bool :=
  match topic with
  | None => mret true
  | Some topic =>
    m ← on_st (on_mem get); n ← lift (strlen m topic);
    if n =? 0 then mret true else
    rc ← on_client (Client_unsubscribe stack fuel topic);
    mret (rc =? 0)
  end.

Definition receive_publish (m : mem) (topic : ptr) (payload : option ptr) (length : Z) : M CORE bool :=
  publish_result ← core_publish m topic payload length 0;
  mret (publish_result =? CORE_SUCCESS).

(** Over memory and core, while the client delivers a message; [topic_name_buffer] is its local array. *)
Definition messageArrived (topic_name_buffer : ptr) (topicName : MQTTString) (message : Message) : M (mem * CORE) unit :=
  on_fst (memset0 topic_name_buffer 1024);;
  if lenstring_len topicName <? 1024 then
    data ← lift (match lenstring_data topicName with Some p => Some p | None => None end);
    on_fst (memcpy topic_name_buffer data (lenstring_len topicName));;
    m ← on_fst get;
    on_snd (receive_publish m topic_name_buffer (g_payload message) (to_uint (g_payloadlen message)));;
    mret tt
  else mret tt.

(** ** The loop *)

(** The arguments of type [char*] are arrays of the frame [fr]. *)
Definition getConfigAndConnect (fuel : nat) (fr : frame) : M hst bool :=
  on_st (on_mem (memset0 (server_ip fr) 4));;
  on_st (on_mem (memset0 (client_id fr) 24));;
  '(ok, ip, server_port, id) ← on_core get_mqtt_config;
  on_st (on_mem (stores (server_ip fr) ip));; on_st (on_mem (stores (client_id fr) id));;
  if negb ok then mret false else
  on_st (on_mem (memset0 (fr_username fr) 24));;
  on_st (on_mem (memset0 (fr_password fr) 24));;
  on_st (on_mem (memset0 (will_topic fr) 255));;
  on_st (on_mem (memset0 (will_msg fr) 255));;
  '(has_mqtt_login_config, user, pass) ← on_core get_mqtt_login_config;
  on_st (on_mem (stores (fr_username fr) user));; on_st (on_mem (stores (fr_password fr) pass));;
  '(has_mqtt_will, topic, msg, will_qos, will_retain) ← on_core get_mqtt_will;
  on_st (on_mem (stores (will_topic fr) topic));; on_st (on_mem (stores (will_msg fr) msg));;
  setServer_ip (server_ip fr) server_port;;
  if has_mqtt_login_config && has_mqtt_will then
    m ← on_st (on_mem get); n ← lift (strlen m (will_msg fr));
    connect_login_will fuel (client_id fr) (fr_username fr) (fr_password fr) (will_topic fr) will_qos will_retain (will_msg fr) (to_ushort (n + 1))
  else if (has_mqtt_login_config : bool) then connect_login fuel (client_id fr) (fr_username fr) (fr_password fr)
  else if (has_mqtt_will : bool) then
    m ← on_st (on_mem get); n ← lift (strlen m (will_msg fr));
    connect_will fuel (client_id fr) (will_topic fr) will_qos will_retain (will_msg fr) (to_ushort (n + 1))
  else connect_id fuel (client_id fr).

Definition loop (fuel : nat) (fr : frame) : M hst bool :=
  connected ← on_client Client_isConnected;
  if (connected : bool) then on_client (Client_yield stack fuel 300);; mret true
  else
    ok ← getConfigAndConnect fuel fr;
    if (ok : bool) then on_core notify_mqtt_connected;; on_core (logger_log mqtt_connected_msg 1);; mret true
    else mret false.
End Definitions.
