(* ===== verification/PahoHandlerSpec.v ===== *)
(** * PahoHandlerSpec: what the message handler promises

    The address it connects to, the CONNECT the configuration of the core becomes, messages on
    their way to the core, and the sockets it leaves open. *)
From S2P Require Import Prelude CMem Wire Packet Publish Connect Subscribe Unsubscribe Topic Platform PahoClient PahoSpec.
From S2P Require Import PahoCommands PahoSession PahoInvariant IpStack PahoHandler.

(** ** Rules of the state *)
Section Rules.
Context `{CharAbi} `{Network} `{Core}.
Implicit Types (h : HandlerObj) (m : mem) (o : ClientObj) (w : W) (l : list HandlerCall) (k : CORE).

Lemma wp_get_h (Q : HandlerObj -> hst -> Prop) s : Q (h_obj s) s -> wp get_h Q s.
Proof. done. Qed.
Lemma wp_set_h h' (Q : unit -> hst -> Prop) s : Q tt (mkHst h' (h_cl s) (h_core s)) -> wp (set_h h') Q s.
Proof. done. Qed.
Lemma wp_on_st {A} (f : M st A) (Q : A -> hst -> Prop) h c k :
  wp f (fun a c' => Q a (mkHst h c' k)) c -> wp (on_st f) Q (mkHst h c k).
Proof. unfold wp, on_st. cbn [h_cl h_obj h_core]. by destruct (f c) as [[a c']|]. Qed.
Lemma wp_on_client {A} (f : M st A) (Q : A -> hst -> Prop) h c k : client h = true ->
  wp f (fun a c' => Q a (mkHst h c' k)) c -> wp (on_client f) Q (mkHst h c k).
Proof. intros Hc Hf. unfold wp, on_client. cbn [h_obj]. rewrite Hc. by apply wp_on_st. Qed.
Lemma wp_on_core {A} (f : M CORE A) (Q : A -> hst -> Prop) h c k a k' : core h = true ->
  f k = Some (a, k') -> Q a (mkHst h c k') -> wp (on_core f) Q (mkHst h c k).
Proof. intros Hc Hf. unfold wp, on_core. cbn [h_obj h_cl h_core]. by rewrite Hc, Hf. Qed.
Lemma wp_fill p bs n (Q : unit -> hst -> Prop) h m o w l k :
  room m p n -> Z.of_nat (length bs) <= n ->
  (forall m', changed [p_blk p] m m' -> at_bytes m' p bs -> Q tt (mkHst h (mkSt m' o w l) k)) ->
  wp (on_st (on_mem (stores p bs))) Q (mkHst h (mkSt m o w l) k).
Proof. intros Hr Hn HQ. apply wp_on_st, wp_on_mem. eapply wp_stores; [exact Hr|done|]. intros m' _ Hc Hat. by apply HQ. Qed.
End Rules.

(** ** The address of the server *)

(** What four bytes become as an [int64_t] of shifted [int]s. *)
Definition address_of (a b c d : Z) : Z := (((if a <? 128 then a else a - 256) * 256 + b) * 256 + c) * 256 + d.

Lemma shifted_bytes a b c d : byte a -> byte b -> byte c -> byte d ->
  Z.lor (Z.lor (Z.lor (Z.lor 0 (to_int (Z.shiftl a 24))) (to_int (Z.shiftl b 16))) (to_int (Z.shiftl c 8))) (to_int (Z.shiftl d 0)) = address_of a b c d.
Proof.
  unfold byte. intros Ha Hb Hc Hd. rewrite Z.lor_0_l, !Z.shiftl_mul_pow2 by lia.
  assert (Ea : to_int (a * 2 ^ 24) = (if a <? 128 then a else a - 256) * 2 ^ 24).
  { unfold to_int. destruct (Z.ltb_spec a 128); zdiv. }
  rewrite Ea, (to_int_id (b * 2 ^ 16)), (to_int_id (c * 2 ^ 8)), (to_int_id (d * 2 ^ 0)) by (unfold INT_MIN, INT_MAX; lia).
  unfold address_of. set (x := if a <? 128 then a else a - 256).
  rewrite (lor_below x (b * 2 ^ 16) 24) by lia.
  replace (x * 2 ^ 24 + b * 2 ^ 16) with ((x * 2 ^ 8 + b) * 2 ^ 16) by lia. rewrite (lor_below _ (c * 2 ^ 8) 16) by lia.
  replace ((x * 2 ^ 8 + b) * 2 ^ 16 + c * 2 ^ 8) with (((x * 2 ^ 8 + b) * 2 ^ 8 + c) * 2 ^ 8) by lia. rewrite (lor_below _ (d * 2 ^ 0) 8) by lia. lia.
Qed.

Definition ip_number (a b c d : Z) : Z := a * 16777216 + b * 65536 + c * 256 + d.

Lemma address_of_number a b c d : byte a -> byte b -> byte c -> byte d -> address_of a b c d mod 4294967296 = ip_number a b c d.
Proof. unfold byte, address_of, ip_number. intros. destruct (Z.ltb_spec a 128); zdiv. Qed.
Lemma address_of_unset a b c d : byte a -> byte b -> byte c -> byte d -> (address_of a b c d =? -1) = (ip_number a b c d =? 4294967295).
Proof.
  unfold byte, address_of, ip_number. intros.
  destruct (Z.ltb_spec a 128);
    match goal with |- (?x =? ?y) = (?u =? ?v) => destruct (Z.eqb_spec x y), (Z.eqb_spec u v) end; lia.
Qed.

(** ** Connecting with the configuration of the core *)

(** The configuration: address, port, client identifier, user name and password, and will. *)
Record config := mkConfig {
  cg_ip : Z * Z * Z * Z; cg_port : Z; cg_id : list Z; cg_login : option (list Z * list Z); cg_will : option Wire.will
}.

Definition cg_number (g : config) : Z := let '(a, b, c, d) := cg_ip g in ip_number a b c d.

(** The CONNECT it becomes: without a login and a will, that of MQTT 3.1; and without a login, the
    will is not retained. *)
Definition config_connect (g : config) : connect :=
  mkConnect (match cg_login g, cg_will g with None, None => 3 | _, _ => 4 end) 1 60 (cg_id g)
    (match cg_will g with
     | Some w => Some (mkWill (wl_qos w) (match cg_login g with Some _ => wl_retain w | None => 0 end) (wl_topic w) (wl_message w))
     | None => None
     end) (fst <$> cg_login g) (snd <$> cg_login g).

(** A string the core stores in an array of [n] bytes. *)
Definition text_of (n : Z) (t : list Z) : Prop := Forall (fun x => x <> 0) t /\ Z.of_nat (length t) < n.

Definition wf_config (g : config) : Prop :=
  (let '(a, b, c, d) := cg_ip g in byte a /\ byte b /\ byte c /\ byte d) /\ text_of 24 (cg_id g) /\
  (forall u p, cg_login g = Some (u, p) -> text_of 24 u /\ text_of 24 p) /\
  (forall w, cg_will g = Some w -> text_of 255 (wl_topic w) /\ text_of 255 (wl_message w) /\ 0 <= wl_qos w < 3 /\ 0 <= wl_retain w < 2).

Section Config.
Context `{CharAbi} `{Network} `{Core}.
Implicit Types (h : HandlerObj) (m : mem) (o : ClientObj) (w : W) (l : list HandlerCall) (k : CORE).

(** The core answers with the configuration [g]; what it stores without a login or a will is not used. *)
Definition core_config (g : config) (k k' : CORE) : Prop :=
  exists k1 k2 user pass topic msg qos retain, let '(a, b, c, d) := cg_ip g in
    get_mqtt_config k = Some ((true, [a; b; c; d], cg_port g, cg_id g ++ [0]), k1) /\
    get_mqtt_login_config k1 = Some ((bool_decide (is_Some (cg_login g)), user, pass), k2) /\
    get_mqtt_will k2 = Some ((bool_decide (is_Some (cg_will g)), topic, msg, qos, retain), k') /\
    Z.of_nat (length user) <= 24 /\ Z.of_nat (length pass) <= 24 /\ Z.of_nat (length topic) <= 255 /\ Z.of_nat (length msg) <= 255 /\
    (forall u p, cg_login g = Some (u, p) -> user = u ++ [0] /\ pass = p ++ [0]) /\
    (forall x, cg_will g = Some x -> topic = wl_topic x ++ [0] /\ msg = wl_message x ++ [0] /\ qos = wl_qos x /\ retain = wl_retain x).

(** The local arrays are there, apart from each other and from the client. *)
Definition frame_ok m o (fr : frame) : Prop :=
  room m (server_ip fr) 4 /\ room m (client_id fr) 24 /\ room m (fr_username fr) 24 /\ room m (fr_password fr) 24 /\
  room m (will_topic fr) 255 /\ room m (will_msg fr) 255 /\
  NoDup (map p_blk [server_ip fr; client_id fr; fr_username fr; fr_password fr; will_topic fr; will_msg fr] ++ own o).

(** The configuration, as far as it is used, in the arrays. *)
Definition framed m (fr : frame) (g : config) : Prop :=
  (let '(a, b, c, d) := cg_ip g in at_bytes m (server_ip fr) [a; b; c; d]) /\ at_bytes m (client_id fr) (cg_id g ++ [0]) /\
  (forall u p, cg_login g = Some (u, p) -> at_bytes m (fr_username fr) (u ++ [0]) /\ at_bytes m (fr_password fr) (p ++ [0])) /\
  (forall x, cg_will g = Some x -> at_bytes m (will_topic fr) (wl_topic x ++ [0]) /\ at_bytes m (will_msg fr) (wl_message x ++ [0])).

(** The memory of the client is as it was. *)
Definition same_own o m m' : Prop := (forall b, b ∈ own o -> m' !! b = m !! b) /\ (forall q n, room m q n -> room m' q n).
Lemma same_own_step o m m1 m2 b : changed [b] m1 m2 -> b ∉ own o -> same_own o m m1 -> same_own o m m2.
Proof. intros [Hc Hr] Hb [Hs Hrs]. split; [|auto]. intros x Hx. rewrite Hc; [by apply Hs|]. by intros ->%list_elem_of_singleton. Qed.

(** Carry what is known of memory across one change. *)
Ltac advance Hc :=
  lazymatch type of Hc with changed [?b] ?m ?m' =>
    repeat match goal with
      | H : room m _ _ |- _ => apply (proj2 Hc) in H
      | H : at_bytes m _ _ |- _ => apply (changed_at _ _ _ _ _ Hc) in H; [|apply not_elem_of_cons; split; [congruence|apply not_elem_of_nil]]
      | H : same_own _ _ m |- _ => apply (same_own_step _ _ _ _ _ Hc) in H; [|assumption]
    end
  end.

Lemma wp_setServer ip pt a b c d (Q : unit -> hst -> Prop) h m o w l k :
  byte a -> byte b -> byte c -> byte d -> at_bytes m ip [a; b; c; d] ->
  Q tt (mkHst (mkHandler None pt (address_of a b c d) (core h) (client h)) (mkSt m o w l) k) ->
  wp (setServer_ip ip pt) Q (mkHst h (mkSt m o w l) k).
Proof.
  intros Ha Hb Hc Hd Hat HQ. unfold setServer_ip. apply wp_bind, wp_get_h, wp_bind, wp_on_st, wp_get_mem.
  apply at_bytes_cons in Hat as [A Hat]. apply at_bytes_cons in Hat as [B Hat]. apply at_bytes_cons in Hat as [C D]. rewrite !padd_padd in *.
  apply wp_bind. eapply wp_lift; [by eapply at_bytes_load|]. apply wp_bind. eapply wp_lift; [by eapply at_bytes_load|].
  apply wp_bind. eapply wp_lift; [by eapply at_bytes_load|]. apply wp_bind. eapply wp_lift; [by eapply at_bytes_load|].
  cbv zeta. rewrite shifted_bytes by done. by apply wp_set_h.
Qed.

Lemma wp_getConfig stack fuel fr g (Q : bool -> hst -> Prop) h m o w l k k' :
  core h = true -> frame_ok m o fr -> wf_config g -> core_config g k k' ->
  (forall m' n retain, framed m' fr g -> same_own o m m' -> (forall x, cg_will g = Some x -> retain = wl_retain x) ->
     wp (match cg_login g, cg_will g with
         | Some _, Some x => connect_login_will stack fuel (client_id fr) (fr_username fr) (fr_password fr) (will_topic fr) (wl_qos x) retain (will_msg fr) n
         | Some _, None => connect_login stack fuel (client_id fr) (fr_username fr) (fr_password fr)
         | None, Some x => connect_will stack fuel (client_id fr) (will_topic fr) (wl_qos x) retain (will_msg fr) n
         | None, None => connect_id stack fuel (client_id fr)
         end) Q (mkHst (mkHandler None (cg_port g) (let '(a, b, c, d) := cg_ip g in address_of a b c d) true (client h)) (mkSt m' o w l) k')) ->
  wp (getConfigAndConnect stack fuel fr) Q (mkHst h (mkSt m o w l) k).
Proof.
  intros Hcore (R1 & R2 & R3 & R4 & R5 & R6 & Hnd) (Hip & (_ & Hid) & _ & Hwills)
    (k1 & k2 & user & pass & topic & msg & qos & retain & Hans) HQ.
  destruct (cg_ip g) as [[[a b] c] d] eqn:Eip. destruct Hip as (Ha & Hb & Hc & Hd).
  destruct Hans as (G1 & G2 & G3 & L1 & L2 & L3 & L4 & Hlogin & Hwill).
  cbn [map app] in Hnd. rewrite !NoDup_cons, !not_elem_of_cons in Hnd. destruct_and! Hnd.
  assert (Hown : same_own o m m) by done.
  unfold getConfigAndConnect, memset0.
  apply wp_bind. eapply wp_fill; [exact R1|done|]. intros m1 C1 _. advance C1.
  apply wp_bind. eapply wp_fill; [exact R2|done|]. intros m2 C2 _. advance C2.
  apply wp_bind. eapply wp_on_core; [done|exact G1|]. cbn beta iota.
  apply wp_bind. eapply wp_fill; [exact R1|done|]. intros m3 C3 A1. advance C3.
  apply wp_bind. eapply wp_fill; [exact R2|rewrite length_app; cbn [length]; lia|]. intros m4 C4 A2. advance C4. cbn [negb].
  apply wp_bind. eapply wp_fill; [exact R3|done|]. intros m5 C5 _. advance C5.
  apply wp_bind. eapply wp_fill; [exact R4|done|]. intros m6 C6 _. advance C6.
  apply wp_bind. eapply wp_fill; [exact R5|done|]. intros m7 C7 _. advance C7.
  apply wp_bind. eapply wp_fill; [exact R6|done|]. intros m8 C8 _. advance C8.
  apply wp_bind. eapply wp_on_core; [done|exact G2|]. cbn beta iota.
  apply wp_bind. eapply wp_fill; [exact R3|done|]. intros m9 C9 A3. advance C9.
  apply wp_bind. eapply wp_fill; [exact R4|done|]. intros m10 C10 A4. advance C10.
  apply wp_bind. eapply wp_on_core; [done|exact G3|]. cbn beta iota.
  apply wp_bind. eapply wp_fill; [exact R5|done|]. intros m11 C11 A5. advance C11.
  apply wp_bind. eapply wp_fill; [exact R6|done|]. intros m12 C12 A6. advance C12.
  apply wp_bind. eapply wp_setServer; [exact Ha|exact Hb|exact Hc|exact Hd|exact A1|]. rewrite Hcore.
  assert (Hf : framed m12 fr g).
  { unfold framed. rewrite Eip. split_and!; [done|done| |].
    - intros u p E. destruct (Hlogin u p E) as [-> ->]. done.
    - intros x E. destruct (Hwill x E) as (-> & -> & _). done. }
  specialize (HQ m12). destruct (cg_login g) as [[u p]|], (cg_will g) as [x|].
  all: rewrite ?bool_decide_true by (by eexists); rewrite ?bool_decide_false by (by intros [? ?]); cbn [andb].
  all: try (destruct (Hwill x eq_refl) as (-> & -> & -> & ->); destruct (Hwills x eq_refl) as (_ & (Hz & _) & _)).
  all: try (apply wp_bind, wp_on_st, wp_get_mem, wp_bind; eapply wp_lift; [apply (cstr_strlen _ _ (wl_message x)); by split|]).
  all: first [apply HQ; [done|done|by intros ? [= <-]]|apply (HQ 0 0); [done|done|by intros ? [=]]].
Qed.

Lemma config_wf g : wf_config g -> wf_connect (config_connect g).
Proof.
  intros (_ & (_ & Hid) & Hlogin & Hwill). unfold wf_connect, config_connect, short. cbn [cn_version cn_clean cn_keepalive cn_client cn_will cn_user cn_pass].
  split_and!; try lia.
  - destruct (cg_login g), (cg_will g); auto.
  - intros x E. destruct (cg_will g) as [x'|]; [|done]. injection E as <-. destruct (Hwill x' eq_refl) as ((_ & Ht) & (_ & Hm) & Hq & Hr).
    cbn. destruct (cg_login g); lia.
  - intros u E. destruct (cg_login g) as [[u' p']|]; [|done]. injection E as <-. destruct (Hlogin u' p' eq_refl) as ((_ & Hu) & _). lia.
  - intros u E. destruct (cg_login g) as [[u' p']|]; [|done]. injection E as <-. destruct (Hlogin u' p' eq_refl) as (_ & (_ & Hp)). lia.
Qed.

(** The options each [connect] builds from the arrays. *)
Definition config_data (fr : frame) (g : config) : MQTTPacket_connectData :=
  match cg_login g, cg_will g with
  | Some _, Some x => set_will_ (will_topic fr) (will_msg fr) (wl_qos x) (to_uchar (wl_retain x))
                        (set_login (fr_username fr) (fr_password fr) (client_data 4 (client_id fr)))
  | Some _, None => set_login (fr_username fr) (fr_password fr) (client_data 4 (client_id fr))
  | None, Some x => set_will_ (will_topic fr) (will_msg fr) (wl_qos x) 0 (client_data 4 (client_id fr))
  | None, None => client_data 3 (client_id fr)
  end.

Lemma config_data_args m fr g b : wf_config g -> framed m fr g ->
  b ∉ map p_blk [client_id fr; fr_username fr; fr_password fr; will_topic fr; will_msg fr] -> connect_args m b (config_data fr g) (config_connect g).
Proof.
  intros (_ & (Hnz & _) & Hlogin & Hwill) (_ & Hid & Hfl & Hfw) Hb. cbn [map] in Hb. rewrite !not_elem_of_cons in Hb. destruct_and! Hb.
  assert (Harg : forall p t, at_bytes m p (t ++ [0]) -> Forall (fun x => x <> 0) t -> b <> p_blk p -> mstr_in m b (string_topic p) t).
  { intros p t Hat Hz Hne. split; [by split; [by split|cbn; lia]|]. split; intros q Hq; cbn in Hq; simplify_eq. congruence. }
  unfold config_data, config_connect.
  destruct (cg_login g) as [[u p]|], (cg_will g) as [x|];
    try (destruct (Hlogin u p eq_refl) as [[Hzu _] [Hzp _]], (Hfl u p eq_refl) as [Hu Hp]);
    try (destruct (Hwill x eq_refl) as ((Hzt & _) & (Hzm & _) & _ & Hr), (Hfw x eq_refl) as [Ht Hm]);
    (split; [done|]); split_and!; try done; try (by apply Harg).
  all: cbn; split_and!; try done; try (by apply Harg).
  by rewrite to_uchar_id by (unfold byte; lia).
Qed.
End Config.

(** ** One round of the loop *)
Section Loop.
Context `{CharAbi} `{Network} {ideal : IdealPlatform} `{Core}.
Context (stack : publish_out).
Implicit Types (h : HandlerObj) (m : mem) (o : ClientObj) (w : W) (l : list HandlerCall) (k : CORE).

(** The handler after it has taken over the configuration. *)
Definition configured (g : config) h : HandlerObj :=
  mkHandler None (cg_port g) (let '(a, b, c, d) := cg_ip g in address_of a b c d) true (client h).

(** All four [connect]s: the network connection to the address, then the client's. *)
Lemma wp_connect_data fuel g fr (Q : bool -> hst -> Prop) h m o w w1 l k rc :
  wf_config g -> cg_number g <> 4294967295 -> client h = true ->
  IPStack_connect_ip (cg_number g) (cg_port g) w = Some (rc, w1) ->
  (rc = 0 -> wp (Client_connect stack fuel (config_data fr g)) (fun r c => Q (r =? 0) (mkHst (configured g h) c k)) (mkSt m o w1 l)) ->
  (rc <> 0 -> Q false (mkHst (configured g h) (mkSt m o w1 l) k)) ->
  wp (connect_data stack fuel (Some (config_data fr g))) Q (mkHst (configured g h) (mkSt m o w l) k).
Proof.
  intros (Hip & _) Hset Hcl Hnet HQ HQ'. unfold connect_data, connect_ipstack. apply wp_bind, wp_bind, wp_get_h.
  unfold configured, cg_number in *. cbn [h_obj hostname ip_address port]. destruct (cg_ip g) as [[[a b] c] d]. destruct Hip as (Ha & Hb & Hc & Hd).
  rewrite address_of_unset by done. apply Z.eqb_neq in Hset as ->. cbn [negb].
  rewrite address_of_number by done. apply wp_bind, wp_on_st. eapply wp_on_w; [exact Hnet|]. apply wp_ret.
  destruct (Z.eqb_spec rc 0) as [->|Hrc]; cbn [negb]; [|apply wp_ret; auto].
  apply wp_bind, wp_on_client; [done|]. eapply wp_mono; [by apply HQ|]. intros r c' Hr. by apply wp_ret.
Qed.

Lemma wp_four_connects fuel fr g n retain Q s : wf_config g -> (forall x, cg_will g = Some x -> retain = wl_retain x) ->
  wp (connect_data stack fuel (Some (config_data fr g))) Q s ->
  wp (match cg_login g, cg_will g with
      | Some _, Some x => connect_login_will stack fuel (client_id fr) (fr_username fr) (fr_password fr) (will_topic fr) (wl_qos x) retain (will_msg fr) n
      | Some _, None => connect_login stack fuel (client_id fr) (fr_username fr) (fr_password fr)
      | None, Some x => connect_will stack fuel (client_id fr) (will_topic fr) (wl_qos x) retain (will_msg fr) n
      | None, None => connect_id stack fuel (client_id fr)
      end) Q s.
Proof.
  intros (_ & _ & _ & Hwill) Hret HQ. unfold config_data in HQ.
  assert (Hq : forall x, cg_will g = Some x -> qos_ok (wl_qos x) = true).
  { intros x E. destruct (Hwill x E) as (_ & _ & Hq & _). unfold qos_ok. rewrite !orb_true_iff, !Z.eqb_eq. lia. }
  destruct (cg_login g), (cg_will g) as [x|]; try done.
  - unfold connect_login_will. rewrite (Hq x), (Hret x) by done. exact HQ.
  - unfold connect_will. rewrite (Hq x) by done. exact HQ.
Qed.

Lemma frame_apart m o fr p : frame_ok m o fr -> p ∈ own o -> p ∉ map p_blk [client_id fr; fr_username fr; fr_password fr; will_topic fr; will_msg fr].
Proof.
  intros (_ & _ & _ & _ & _ & _ & Hnd) Hp Hin. cbn [map app] in Hnd. apply NoDup_cons in Hnd as [_ Hnd].
  apply (NoDup_app [_; _; _; _; _]) in Hnd as (_ & Hd & _). by apply (Hd p).
Qed.

(** C2: one round of [loop] while the client is not connected, from the configuration of the core to the
    broker and back: the handler opens a connection to the address and port of the configuration,
    sends the CONNECT that [config_connect] makes of it, and reports to the core and returns true
    exactly when the CONNACK says 0.  If that CONNECT does not fit the client's send buffer,
    which the lengths of a will allow, nothing is ever sent. *)
Theorem loop_connects fuel fr g t code sp rest s ss k' k1 k2 w1 :
  let o := s_o (h_cl s) in let c := config_connect g in
  core (h_obj s) = true -> client (h_obj s) = true -> wf_client (s_mem (h_cl s)) o ss -> isconnected o = false -> inflightMsgid o = 0 ->
  frame_ok (s_mem (h_cl s)) o fr -> wf_config g -> core_config g (h_core s) k' -> cg_number g <> 4294967295 ->
  IPStack_connect_ip (cg_number g) (cg_port g) (s_w (h_cl s)) = Some (0, w1) ->
  MQTTPacket_len (Z.of_nat (length (connect_body c))) = Some t ->
  incoming w1 = enc_connack sp code ++ rest -> byte code -> 0 <= sp < 2 ->
  notify_mqtt_connected k' = Some (tt, k1) -> logger_log mqtt_connected_msg 1 k1 = Some (tt, k2) ->
  let accepted := (t <=? MAX_MQTT_PACKET_SIZE) && (code =? 0) in
  exists s', loop stack (S fuel) fr s = Some (accepted, s') /\
    wf_client (s_mem (h_cl s')) (s_o (h_cl s')) ss /\ isconnected (s_o (h_cl s')) = accepted /\
    h_core s' = (if accepted then k2 else k') /\
    outgoing (s_w (h_cl s')) = outgoing w1 ++ (if t <=? MAX_MQTT_PACKET_SIZE then enc_connect c else []).
Proof.
  destruct s as [h [m o w l] k]. cbn [h_obj h_cl h_core s_mem s_o s_w s_log]. cbv zeta.
  intros Hcore Hcl Hwf Hcon Hfl Hfr Hg Hk Hset Hnet Ht Hin Hcode Hsp Hn1 Hn2.
  set (acc := (t <=? MAX_MQTT_PACKET_SIZE) && (code =? 0)).
  enough (wp (loop stack (S fuel) fr) (fun b s' => b = acc /\
    wf_client (s_mem (h_cl s')) (s_o (h_cl s')) ss /\ isconnected (s_o (h_cl s')) = acc /\
    h_core s' = (if acc then k2 else k') /\
    outgoing (s_w (h_cl s')) = outgoing w1 ++ (if t <=? MAX_MQTT_PACKET_SIZE then enc_connect (config_connect g) else [])) (mkHst h (mkSt m o w l) k)) as Hwp.
  { apply wp_Some in Hwp as (b & s' & Hrun & -> & HQ). by exists s'. }
  unfold loop. apply wp_bind, wp_on_client; [done|]. unfold Client_isConnected. apply wp_bind, wp_get_o, wp_ret. rewrite Hcon.
  apply wp_bind. eapply wp_getConfig; [done|exact Hfr|exact Hg|exact Hk|]. intros m1 n retain Hf Hown Hret.
  apply wp_four_connects; [done|done|]. fold (configured g h). eapply wp_connect_data; [done|done|done|exact Hnet| |done]. intros _.
  pose proof (wf_outside _ _ _ _ Hwf (proj1 Hown)) as Hwf1.
  assert (Hargs : connect_args m1 (p_blk (sendbuf o)) (config_data fr g) (config_connect g)).
  { apply config_data_args; [done|done|]. eapply frame_apart; [exact Hfr|]. unfold own. cbn. by left. }
  pose proof (config_wf g Hg) as Hc. unfold acc. destruct (Z.leb_spec t MAX_MQTT_PACKET_SIZE) as [Hle|Hlt]; cbn [andb].
  - eapply (wp_connect _ fuel _ (config_connect g) sp code [] rest ss); [exact Hwf1|done|done| |done|done|constructor|cbn; lia|exact Hin|].
    { split; [done|]. split; [done|]. by exists t. }
    intros m2 o2 w2 cs Hwf2 Hcon2 _ _ _ _ _ _ Ho2. cbn [answers map concat] in Ho2. rewrite app_nil_r in Ho2.
    destruct (Z.eqb_spec code 0) as [->|Hne].
    + change (0 =? 0) with true. cbv iota. apply wp_bind. eapply wp_on_core; [done|exact Hn1|].
      apply wp_bind. eapply wp_on_core; [done|exact Hn2|]. by apply wp_ret.
    + apply wp_ret. by split_and!.
  - eapply wp_connect_long; [exact Hwf1|done|exact Hc|exact Hargs|exact Ht|done|]. change (FAILURE =? 0) with false. cbv iota. apply wp_ret.
    pose proof Hc as (_ & _ & Hka & _). split_and!; [done|by apply wf_put_options|done|done|by rewrite app_nil_r].
Qed.

(** ** A broker that refuses *)

(** Rounds of [loop] that all return false. *)
Fixpoint failing_rounds (fuel : nat) (fr : frame) (n : nat) (s : hst) : option hst :=
  match n with
  | O => Some s
  | S n' => '(ok, s) ← loop stack fuel fr s; if (ok : bool) then None else failing_rounds fuel fr n' s
  end.

(** The sockets that are open: as many after every operation of the platform, and one more after a
    connection, which is refused by the broker. *)
Definition refusing (opened : W -> Z) (g : config) : Prop :=
  WorldLaw (fun w w' => opened w' = opened w) /\
  forall w, exists w1 sp code, IPStack_connect_ip (cg_number g) (cg_port g) w = Some (0, w1) /\ opened w1 = opened w + 1 /\
    incoming w1 = enc_connack sp code /\ byte code /\ code <> 0 /\ 0 <= sp < 2.

(** What one round needs and leaves. *)
Definition retrying (fr : frame) ss (s : hst) : Prop :=
  core (h_obj s) = true /\ client (h_obj s) = true /\ wf_client (s_mem (h_cl s)) (s_o (h_cl s)) ss /\ isconnected (s_o (h_cl s)) = false /\
  inflightMsgid (s_o (h_cl s)) = 0 /\ frame_ok (s_mem (h_cl s)) (s_o (h_cl s)) fr.

Lemma frame_ok_later m m' o o' fr : frame_ok m o fr -> (forall q n, room m q n -> room m' q n) -> layout o' = layout o -> frame_ok m' o' fr.
Proof.
  intros (R1 & R2 & R3 & R4 & R5 & R6 & Hnd) Hr E. unfold frame_ok, own in *. injection E as -> -> -> -> _. split_and!; auto.
Qed.

Lemma refused_round fuel fr g t opened ss s : refusing opened g -> wf_config g -> cg_number g <> 4294967295 ->
  (forall k, exists k', core_config g k k') -> MQTTPacket_len (Z.of_nat (length (connect_body (config_connect g)))) = Some t -> t <= MAX_MQTT_PACKET_SIZE ->
  retrying fr ss s -> exists s', loop stack (S fuel) fr s = Some (false, s') /\ retrying fr ss s' /\ opened (s_w (h_cl s')) = opened (s_w (h_cl s)) + 1.
Proof.
  intros [Hlaw Hnet] Hg Hset Hcores Ht Hfit. destruct s as [h [m o w l] k]. intros (Hcore & Hcl & Hwf & Hcon & Hfl & Hfr).
  cbn [h_obj h_cl h_core s_mem s_o s_w s_log] in *. destruct (Hcores k) as (k' & Hk). destruct (Hnet w) as (w1 & sp & code & Hn & Hop & Hin & Hcode & Hne & Hsp).
  enough (wp (loop stack (S fuel) fr) (fun b s' => b = false /\ retrying fr ss s' /\ opened (s_w (h_cl s')) = opened w + 1) (mkHst h (mkSt m o w l) k)) as Hwp.
  { apply wp_Some in Hwp as (b & s' & Hrun & -> & HQ). by exists s'. }
  unfold loop. apply wp_bind, wp_on_client; [done|]. unfold Client_isConnected. apply wp_bind, wp_get_o, wp_ret. rewrite Hcon.
  apply wp_bind. eapply wp_getConfig; [done|exact Hfr|exact Hg|exact Hk|]. intros m1 n retain Hf [Hown Hroom] Hret.
  apply wp_four_connects; [done|done|]. fold (configured g h). eapply wp_connect_data; [done|done|done|exact Hn| |done]. intros _.
  pose proof (wf_outside _ _ _ _ Hwf Hown) as Hwf1. pose proof (config_wf g Hg) as Hc. pose proof Hc as (_ & _ & Hka & _).
  assert (Hargs : connect_args m1 (p_blk (sendbuf o)) (config_data fr g) (config_connect g)).
  { apply config_data_args; [done|done|]. eapply frame_apart; [exact Hfr|]. unfold own. cbn. by left. }
  assert (Hwp : wp (Client_connect stack (S fuel) (config_data fr g)) (fun r c => r = code /\
    wf_client (s_mem c) (s_o c) ss /\ isconnected (s_o c) = false /\ inflightMsgid (s_o c) = 0) (mkSt m1 o w1 l)).
  { eapply (wp_connect _ fuel _ (config_connect g) sp code [] [] ss); [exact Hwf1|done|done| |done|done|constructor|cbn; lia|by rewrite app_nil_r|].
    { split; [done|]. split; [done|]. by exists t. }
    intros m2 o2 w2 cs Hwf2 Hcon2 _ _ _ Hfl2 _ _ _. cbn [s_mem s_o]. split_and!; try done. rewrite Hcon2. by apply Z.eqb_neq. }
  apply wp_Some in Hwp as (r & [m2 o2 w2 l2] & Hrun & -> & Hwf2 & Hcon2 & Hfl2).
  assert (Hlater : later (R := fun w w' => opened w' = opened w) (mkSt m1 o w1 l) (mkSt m2 o2 w2 l2)).
  { eapply (stable_connect (R := fun w w' => opened w' = opened w) stack (S fuel) (config_data fr g)); [|apply later_refl; by exists ss|exact Hrun].
    destruct Hargs as (_ & _ & -> & _). done. }
  destruct Hlater as (_ & Hch & Hlay & Hopen & _). cbn [s_mem s_o s_w s_log] in *.
  eapply wp_run; [exact Hrun|]. apply Z.eqb_neq in Hne as ->. apply wp_ret. split; [done|]. split; [|cbn; lia].
  split_and!; try done. cbn [h_cl s_mem s_o]. eapply (frame_ok_later m m2 o o2); [exact Hfr| |exact Hlay]. intros q x Hq. by apply (proj2 Hch), Hroom.
Qed.

(** While the broker refuses, every round of [loop] opens one more socket and closes none: after [n]
    rounds there are [n] more. *)
Theorem refused_rounds_leak fuel fr g t opened ss n s : refusing opened g -> wf_config g -> cg_number g <> 4294967295 ->
  (forall k, exists k', core_config g k k') -> MQTTPacket_len (Z.of_nat (length (connect_body (config_connect g)))) = Some t -> t <= MAX_MQTT_PACKET_SIZE ->
  retrying fr ss s -> exists s', failing_rounds (S fuel) fr n s = Some s' /\ retrying fr ss s' /\
    opened (s_w (h_cl s')) = opened (s_w (h_cl s)) + Z.of_nat n.
Proof.
  intros Hre Hg Hset Hcores Ht Hfit. revert s. induction n as [|n IH]; intros s Hs; cbn [failing_rounds]; [exists s; split_and!; [done|done|lia]|].
  destruct (refused_round fuel fr g t opened ss s) as (s1 & Hrun & Hs1 & Ho1); [done..|]. rewrite Hrun. cbn [mbind option_bind].
  destruct (IH s1 Hs1) as (s2 & Hrun2 & Hs2 & Ho2). exists s2. split_and!; [done|done|lia].
Qed.
End Loop.

(** ** The address, and messages for the core *)
Section Messages.
Context `{CharAbi} `{Network} `{Core}.

(** [setServer] and [connect]: the connection goes to the address of the four bytes, high byte first, and
    to the port; only 255.255.255.255 is taken for no address, and nothing is tried. *)
Theorem setServer_connects ip pt a b c d rc w1 s :
  byte a -> byte b -> byte c -> byte d -> at_bytes (s_mem (h_cl s)) ip [a; b; c; d] ->
  IPStack_connect_ip (ip_number a b c d) pt (s_w (h_cl s)) = Some (rc, w1) ->
  exists h, hostname h = None /\ port h = pt /\ core h = core (h_obj s) /\ client h = client (h_obj s) /\
    (setServer_ip ip pt;; connect_ipstack) s =
      if ip_number a b c d =? 4294967295 then Some (None, mkHst h (h_cl s) (h_core s))
      else Some (Some rc, mkHst h (mkSt (s_mem (h_cl s)) (s_o (h_cl s)) w1 (s_log (h_cl s))) (h_core s)).
Proof.
  destruct s as [h [m o w l] k]. cbn [h_obj h_cl h_core s_mem s_o s_w s_log]. intros Ha Hb Hc Hd Hat Hn.
  exists (mkHandler None pt (address_of a b c d) (core h) (client h)). split_and!; try done.
  assert (Hset : wp (setServer_ip ip pt) (fun u s' => u = tt /\ s' = mkHst (mkHandler None pt (address_of a b c d) (core h) (client h)) (mkSt m o w l) k)
    (mkHst h (mkSt m o w l) k)) by (eapply wp_setServer; [exact Ha|exact Hb|exact Hc|exact Hd|exact Hat|]; done).
  apply wp_Some in Hset as (u & s' & Hrun & -> & ->). rewrite (M_bind_Some _ _ _ _ _ Hrun). unfold connect_ipstack, get_h.
  unfold mbind, M_bind. cbn [h_obj hostname ip_address]. rewrite address_of_unset by done.
  destruct (ip_number a b c d =? 4294967295); cbn [negb]; [done|]. unfold on_st, on_w. cbn [h_cl s_w h_obj s_mem s_o s_log h_core port ip_address].
  by rewrite address_of_number, Hn by done.
Qed.

Lemma wp_on_fst {S T A} (f : M S A) (Q : A -> S * T -> Prop) s t : wp f (fun a s' => Q a (s', t)) s -> wp (on_fst f) Q (s, t).
Proof. unfold wp, on_fst. cbn. by destruct (f s) as [[a s']|]. Qed.

(** A message on its way to the core: [messageArrived] calls the publish of the core with the topic as a
    terminated string and the payload with its length, and never as retained, whatever the
    flag of the packet; a topic of 1024 characters or more would be dropped, but no
    packet the client accepts has one. *)
Theorem messageArrived_forwards m x msg p buf k : 
  message_is m x msg p -> Z.of_nat (length (enc_publish p)) <= MAX_MQTT_PACKET_SIZE -> room m buf 1024 ->
  (forall q, lenstring_data x = Some q -> p_blk q <> p_blk buf) -> (forall q, g_payload msg = Some q -> p_blk q <> p_blk buf) ->
  exists m' q, g_payload msg = Some q /\ at_bytes m' buf (pb_topic p ++ [0]) /\ at_bytes m' q (pb_payload p) /\ changed [p_blk buf] m m' /\
    messageArrived buf x msg (m, k) =
      '(_, k') ← core_publish m' buf (Some q) (Z.of_nat (length (pb_payload p))) 0 k; Some (tt, (m', k')).
Proof.
  intros ((Hx & Hxc & Hxd & _) & _ & _ & _ & _ & Hpl & q & Eq & Hpay) Hfit Hroom Hxb Hqb.
  destruct (lenstring_data x) as [d|] eqn:Ed; [|done]. unfold mstr in Hx. rewrite Hxc in Hx. destruct Hx as [Hlen Hdata].
  assert (Hl : Z.of_nat (length (pb_topic p)) <= MAX_MQTT_PACKET_SIZE /\ Z.of_nat (length (pb_payload p)) <= MAX_MQTT_PACKET_SIZE).
  { unfold enc_publish in Hfit. rewrite length_packet in Hfit. pose proof (length_publish_body p).
    destruct (0 <? pb_qos p); lia. }
  unfold MAX_MQTT_PACKET_SIZE in *.
  assert (Hat : at_bytes m d (pb_topic p)) by (destruct Hdata as [->|(d' & Ed' & Hd)]; [apply at_bytes_nil|congruence]).
  assert (Hfill : wp (on_fst (T := CORE) (memset0 buf 1024)) (fun u mk => u = tt /\ mk.2 = k /\ changed [p_blk buf] m mk.1 /\ at_bytes mk.1 buf (replicate 1024 0)) (m, k)).
  { apply wp_on_fst. eapply wp_stores; [exact Hroom|rewrite length_replicate; lia|]. intros m1 _ Hc Hz. by split_and!. }
  apply wp_Some in Hfill as (u & [m1 k1] & Hrun & -> & Ek & Hc1 & Hz). cbn [fst snd] in *. subst k1.
  assert (Hat1 : at_bytes m1 d (pb_topic p)).
  { eapply changed_at; [exact Hc1| |done]. intros E%list_elem_of_singleton. by apply (Hxb d). }
  assert (Hcopy : wp (on_fst (T := CORE) (memcpy buf d (lenstring_len x))) (fun u mk => u = tt /\ mk.2 = k /\ changed [p_blk buf] m1 mk.1 /\
    at_bytes mk.1 buf (pb_topic p ++ [0])) (m1, k)).
  { apply wp_on_fst. unfold memcpy. apply wp_bind, wp_get, wp_bind. rewrite Hlen. eapply wp_lift; [exact Hat1|].
    destruct (room_store m1 buf (pb_topic p) 1024) as (m2 & Hs); [by apply (proj2 Hc1)|lia|]. eapply wp_run; [unfold stores; by rewrite Hs|].
    split_and!; [done|done|by eapply changed_store|].
    replace 1024%nat with (length (pb_topic p) + (1024 - length (pb_topic p)))%nat in Hz by lia. rewrite replicate_add in Hz.
    pose proof (store_bytes_over _ _ _ _ (pb_topic p) _ Hz ltac:(by rewrite length_replicate) Hs) as Hat2.
    replace (1024 - length (pb_topic p))%nat with (S (1023 - length (pb_topic p)))%nat in Hat2 by lia. cbn [replicate] in Hat2.
    change (0 :: ?x) with ([0] ++ x) in Hat2. rewrite app_assoc in Hat2. by apply at_bytes_app in Hat2 as [Hat2 _]. }
  apply wp_Some in Hcopy as (u & [m2 k2] & Hrun2 & -> & Ek & Hc2 & Hat2). cbn [fst snd] in *. subst k2.
  assert (Hpay2 : at_bytes m2 q (pb_payload p)).
  { assert (Hq : p_blk q ∉ [p_blk buf]) by (intros E%list_elem_of_singleton; by apply (Hqb q)).
    eapply changed_at; [exact Hc2|done|]. by eapply changed_at. }
  exists m2, q. split_and!; [done|done|done|by eapply changed_trans|].
  unfold messageArrived. rewrite (M_bind_Some _ _ _ _ _ Hrun), Hlen. destruct (Z.ltb_spec (Z.of_nat (length (pb_topic p))) 1024); [|lia].
  rewrite Ed, (M_bind_lift _ _ _ d) by done. rewrite Hlen in Hrun2. rewrite (M_bind_Some _ _ _ _ _ Hrun2).
  rewrite (M_bind_Some _ _ (m2, k) m2 (m2, k)) by done. rewrite Eq, Hpl. unfold to_uint. rewrite Z.mod_small by lia.
  unfold receive_publish, on_snd, mbind, M_bind. cbn [fst snd]. by destruct (core_publish _ _ _ _ _ _) as [[r k']|].
Qed.
End Messages.
