(* ===== verification/PahoExamples.v ===== *)
(** * PahoExamples: the theorems on the C++ client and its handler at concrete inputs

    A client with its arrays in memory, on the simulated platform, and runs of it. *)
From S2P Require Import Prelude CMem Wire Packet Publish Connect Subscribe Unsubscribe Topic Platform PahoClient PahoSpec.
From S2P Require Import PahoCommands PahoSession PahoInvariant.

#[local] Existing Instances x86_abi sim sim_ideal.

(** The arrays of a client, and a block of strings: the filter "a/+", the name "a/b", the message "hi!". *)
Definition ex_arrays : list (list Z) :=
  replicate 3 (replicate 512 0) ++ replicate 5 (replicate 255 0) ++ [[97; 47; 43; 0; 97; 47; 98; 0; 104; 105; 33; 0] ++ replicate 52 0].
Definition ex_pmem : mem := list_to_map (imap (fun i b => (i, b)) ex_arrays).
Definition ex_filter : ptr := Ptr 8 0.
Definition ex_topic_ab : ptr := Ptr 8 4.
Definition ex_hi : ptr := Ptr 8 8.
Definition ex_stack : publish_out := mkPublishOut 0 0 0 0 MQTTString_initializer None 0.

Definition ex_obj (con : bool) (clean : Z) (len id qos : Z) : ClientObj :=
  mkObj 30000 (Ptr 0 0) (Ptr 1 0) (Ptr 2 0) (map (fun i => Ptr i 0) [3; 4; 5; 6; 7]%nat) false false 60 false clean 0
    (replicate 5 (mkSlot None None)) (Some 9%nat) con len id qos.
Definition ex_pst (con : bool) (clean : Z) (inp : list Z) : st := mkSt ex_pmem (ex_obj con clean 0 0 0) (inp, []) [].
Definition ex_none : list subscription := replicate 5 (None, None).

Lemma ex_proom b : (b < 3)%nat -> room ex_pmem (Ptr b 0) 512.
Proof. intros Hb. exists (replicate 512 0). destruct b as [|[|[|b]]]; [split_and!; [by vm_compute|cbn; lia|cbn; lia]..|lia]. Qed.

Lemma ex_storage con clean len id qos : storage_ok ex_pmem (ex_obj con clean len id qos).
Proof.
  split_and!; [apply (ex_proom 0); lia|apply (ex_proom 1); lia|apply (ex_proom 2); lia| | |done|done|done|done].
  - cbn [ex_obj topicFilters map]. rewrite !Forall_cons. split_and!; try done;
      (exists (replicate 255 0); split_and!; [by vm_compute|cbn; lia|cbn; lia]).
  - apply (bool_decide_unpack _). by vm_compute.
Qed.

Lemma ex_wf con clean len id qos : wf_client ex_pmem (ex_obj con clean len id qos) ex_none.
Proof.
  destruct (ex_storage con clean len id qos) as (R1 & R2 & R3 & R4 & Hnd & _). constructor; try done.
  intros i p h x _ Hh Hx. apply (lookup_replicate_1 5) in Hh as [-> _]. apply (lookup_replicate_1 5) in Hx as [-> _]. done.
Qed.

Lemma ex_pcstr m p t : at_bytes m p (t ++ [0]) -> forallb (fun x => negb (x =? 0)) t = true -> cstr m p t.
Proof. intros Hat Hz. split; [done|]. apply Forall_forall. intros x Hx. rewrite forallb_forall in Hz. apply list_elem_of_In, Hz in Hx. lia. Qed.

(** A PUBLISH to "a/b", and a handler 7 for "a/+". *)
Definition ex_pub (qos : Z) : publish := mkPublish 0 qos 0 5 [97; 47; 98] [104; 105; 33].
Lemma ex_fits qos : 0 <= qos <= 2 -> fits (ex_pub qos).
Proof. intros Hq. assert (qos = 0 \/ qos = 1 \/ qos = 2) as [->|[->| ->]] by lia; split_and!; (done || by vm_compute). Qed.

(** "a/+" is subscribed while a PUBLISH arrives, which the default handler gets. *)
Lemma Client_subscribe_spec_witness :
  exists s' cs, Client_subscribe ex_stack 2 ex_filter 1 7 (ex_pst true 1 (enc_publish (ex_pub 1) ++ enc_suback 1 [1])) = Some (0, s') /\
    wf_client (s_mem s') (s_o s') (subscribed 0 [97; 47; 43] 7 ex_none) /\ s_log s' = cs /\
    outgoing (s_w s') = enc_subscribe 0 1 [([97; 47; 43], 1)] ++ enc_ack PUBACK 0 5.
Proof.
  destruct (Client_subscribe_spec ex_stack 1 (ex_pst true 1 (enc_publish (ex_pub 1) ++ enc_suback 1 [1])) ex_none ex_filter [97; 47; 43] [97; 47; 43] 1 7
    10 1 1 [ex_pub 1] []) as (rc & s' & ss' & cs & Hrun & Hres & Hwf & _ & Hlog & _ & Hout).
  - apply ex_wf.
  - done.
  - by right.
  - apply ex_pcstr; by vm_compute.
  - apply (bool_decide_unpack _). by vm_compute.
  - split_and!; first [by vm_compute|by repeat constructor].
  - by vm_compute.
  - done.
  - done.
  - done.
  - constructor; [by apply ex_fits|constructor].
  - by vm_compute.
  - by vm_compute.
  - done.
  - intros Hl. by vm_compute in Hl.
  - assert (Er : (rc, ss') = (0, subscribed 0 [97; 47; 43] 7 ex_none)) by (revert Hres; vm_compute; by intros [= -> _ ->]).
    injection Er as -> ->. exists s', cs. split_and!; [exact Hrun|exact Hwf|exact Hlog|exact Hout].
Defined.

(** The same with the slot taken: it is freed. *)
Definition ex_sub_mem : mem := <[3%nat := [97; 47; 43; 0] ++ replicate 251 0]> ex_pmem.
Definition ex_sub_obj : ClientObj :=
  put_messageHandlers [mkSlot (Some (Ptr 3 0)) (Some 7%nat); mkSlot None None; mkSlot None None; mkSlot None None; mkSlot None None] (ex_obj true 1 0 0 0).
Definition ex_sub (inp : list Z) : st := mkSt ex_sub_mem ex_sub_obj (inp, []) [].
Definition ex_one : list subscription := subscribed 0 [97; 47; 43] 7 ex_none.

Lemma ex_sub_wf : wf_client ex_sub_mem ex_sub_obj ex_one.
Proof.
  eapply (wf_put_slot ex_pmem _ (ex_obj true 1 0 0 0) ex_none 0 (Ptr 3 0) (mkSlot (Some (Ptr 3 0)) (Some 7%nat)) (Some [97; 47; 43], Some 7%nat)).
  - apply ex_wf.
  - done.
  - split.
    + intros b Hb. unfold ex_sub_mem. rewrite lookup_insert_ne; [done|]. intros <-. apply Hb. by apply list_elem_of_singleton.
    + intros q n (x & Hx & Ho & Hl). unfold ex_sub_mem, room. destruct (decide (p_blk q = 3%nat)) as [E|E].
      * rewrite E in *. assert (x = replicate 255 0) as -> by (vm_compute in Hx; by injection Hx).
        eexists. rewrite lookup_insert_eq. split; [done|]. split; [done|]. cbn in *. lia.
      * rewrite lookup_insert_ne by done. by exists x.
  - split; [done|]. split_and!; [done| |done]. apply ex_pcstr; by vm_compute.
Qed.

Lemma Client_unsubscribe_spec_witness :
  exists s', Client_unsubscribe ex_stack 1 ex_filter (ex_sub (enc_ack UNSUBACK 0 1)) = Some (0, s') /\
    wf_client (s_mem s') (s_o s') (unsubscribed [97; 47; 43] ex_one) /\ outgoing (s_w s') = enc_unsubscribe 0 1 [[97; 47; 43]].
Proof.
  destruct (Client_unsubscribe_spec ex_stack 0 (ex_sub (enc_ack UNSUBACK 0 1)) ex_one ex_filter [97; 47; 43] 9 1 [] [])
    as (s' & cs & Hrun & Hwf & _ & _ & _ & _ & Hout).
  - apply ex_sub_wf.
  - done.
  - by right.
  - apply ex_pcstr; by vm_compute.
  - apply (bool_decide_unpack _). by vm_compute.
  - split_and!; first [by vm_compute|by repeat constructor].
  - by vm_compute.
  - done.
  - done.
  - constructor.
  - by vm_compute.
  - done.
  - exists s'. split_and!; [exact Hrun|exact Hwf|exact Hout].
Defined.

(** A publish at QoS 1 outside a clean session; another message arrives before the PUBACK. *)
Lemma Client_publish_spec_witness :
  let msg := mkMessage 1 0 0 0 (Some ex_hi) 3 in
  exists s' cs, Client_publish ex_stack 2 ex_topic_ab msg (ex_pst true 0 (enc_publish (ex_pub 0) ++ enc_ack PUBACK 0 1)) = Some (0, s') /\
    inflightMsgid (s_o s') = 0 /\ at_bytes (s_mem s') (Ptr 2 0) (enc_publish (mkPublish 0 1 0 1 [97; 47; 98] [104; 105; 33])) /\
    s_log s' = cs /\ delivered_all ex_none (Some 9%nat) [ex_pub 0] cs /\
    outgoing (s_w s') = enc_publish (mkPublish 0 1 0 1 [97; 47; 98] [104; 105; 33]).
Proof.
  intros msg. destruct (Client_publish_spec ex_stack 1 (ex_pst true 0 (enc_publish (ex_pub 0) ++ enc_ack PUBACK 0 1)) ex_none ex_topic_ab msg
    [97; 47; 98] [104; 105; 33] 12 1 [ex_pub 0] []) as (s' & cs & Hrun & _ & _ & _ & Hid & Hkept & Hlog & H1 & _ & _).
  - apply ex_wf.
  - done.
  - by right.
  - done.
  - split_and!; [apply ex_pcstr; by vm_compute|done|done|]. exists ex_hi. split_and!; [done|by vm_compute|done].
  - split_and!; by vm_compute.
  - by vm_compute.
  - done.
  - done.
  - constructor; [by apply ex_fits|constructor].
  - by vm_compute.
  - done.
  - done.
  - destruct (H1 eq_refl) as (Hdel & _ & Hout). exists s', cs. split_and!; [exact Hrun|exact Hid|by apply Hkept|exact Hlog|exact Hdel|exact Hout].
Defined.

(** ** Sessions *)

Definition ex_connect : connect := mkConnect 4 1 60 [97; 47; 98] None None None.
Definition ex_options : MQTTPacket_connectData := set_clientID MQTTPacket_connectData_initializer (string_topic ex_topic_ab).

Lemma ex_connect_asked m con clean len id qos : at_bytes m ex_topic_ab [97; 47; 98; 0] -> connect_asked m (ex_obj con clean len id qos) ex_options ex_connect.
Proof.
  intros Hat. split; [|split].
  - split_and!; try done. by right.
  - split; [done|]. split_and!; try done. split; [by split; [apply (ex_pcstr _ _ [97; 47; 98])|]|]. split; intros q Hq; cbn in Hq; by simplify_eq.
  - exists 17. by split; [vm_compute|].
Qed.

Lemma Client_connect_spec_witness :
  exists s', Client_connect ex_stack 1 ex_options (ex_pst false 0 (enc_connack 0 5)) = Some (5, s') /\ isconnected (s_o s') = false /\
    outgoing (s_w s') = enc_connect ex_connect.
Proof.
  destruct (Client_connect_spec ex_stack 0 (ex_pst false 0 (enc_connack 0 5)) ex_none ex_options ex_connect 0 5 [] [])
    as (s' & cs & Hrun & _ & Hcon & _ & _ & _ & _ & _ & _ & Hout).
  - apply ex_wf.
  - done.
  - done.
  - apply ex_connect_asked. by vm_compute.
  - done.
  - done.
  - constructor.
  - by vm_compute.
  - done.
  - exists s'. split_and!; [exact Hrun|exact Hcon|exact Hout].
Defined.

(** A PUBLISH of QoS 2 in flight, and a CONNACK that refuses: the client is connected. *)
Definition ex_kept_mem : mem := <[2%nat := [52; 7; 0; 1; 97; 0; 6; 104; 105] ++ replicate 503 0]> ex_pmem.
Lemma Client_connect_resends_witness :
  let s := mkSt ex_kept_mem (ex_obj false 0 9 6 2) (enc_connack 0 5, []) [] in
  exists s', Client_connect ex_stack 1 ex_options s = Some (0, s') /\ isconnected (s_o s') = true /\
    outgoing (s_w s') = enc_connect ex_connect ++ [52; 7; 0; 1; 97; 0; 6; 104; 105].
Proof.
  intros s. destruct (Client_connect_resends ex_stack 0 s ex_none ex_options ex_connect 0 5 [52; 7; 0; 1; 97; 0; 6; 104; 105] 0 [] [] [])
    as (s' & cs & Hrun & _ & Hcon & _ & _ & _ & _ & Hout).
  - eapply wf_packet_bufs; [apply ex_wf|right; right; left; done|]. split.
    + intros b Hb. unfold s, ex_kept_mem. cbn [s_mem]. rewrite lookup_insert_ne; [done|]. intros <-. apply Hb. by apply list_elem_of_singleton.
    + intros q n (x & Hx & Ho & Hl). unfold s, ex_kept_mem, room. cbn [s_mem]. destruct (decide (p_blk q = 2%nat)) as [E|E].
      * rewrite E in *. assert (x = replicate 512 0) as -> by (vm_compute in Hx; by injection Hx).
        eexists. rewrite lookup_insert_eq. split; [done|]. split; [done|]. cbn in *. lia.
      * rewrite lookup_insert_ne by done. by exists x.
  - done.
  - apply ex_connect_asked. by vm_compute.
  - done.
  - done.
  - done.
  - by vm_compute.
  - done.
  - done.
  - done.
  - done.
  - constructor.
  - constructor.
  - by vm_compute.
  - by vm_compute.
  - by vm_compute.
  - exists s'. split_and!; [exact Hrun|exact Hcon|exact Hout].
Defined.

Definition ex_timer : Timer := false.

(** A long publish of the topic "a/b"; its payload holds a PUBLISH of QoS 1. *)
Definition ex_long : publish := mkPublish 0 0 0 0 [97; 47; 98] (enc_publish (ex_pub 1) ++ replicate 600 1).
Lemma long_publish_smuggles_witness :
  exists s1 s2 s3 cs, Client_cycle ex_stack 1 ex_timer (ex_pst true 1 (enc_publish ex_long)) = Some (BUFFER_OVERFLOW, s1) /\
    Client_cycle ex_stack 1 ex_timer s1 = Some (0, s2) /\ Client_cycle ex_stack 1 ex_timer s2 = Some (PUBLISH : Z, s3) /\
    delivered ex_none (Some 9%nat) (ex_pub 1) cs /\ s_log s3 = cs /\ outgoing (s_w s3) = enc_ack PUBACK 0 5.
Proof.
  destruct (long_publish_smuggles ex_stack 0 ex_timer (ex_pst true 1 (enc_publish ex_long)) ex_none ex_long (ex_pub 1) (replicate 600 1) [])
    as (s1 & s2 & s3 & cs & R1 & R2 & R3 & Hdel & Hlog & _ & _ & Hout).
  - apply ex_wf.
  - by right.
  - done.
  - split_and!; by vm_compute.
  - done.
  - done.
  - done.
  - by vm_compute.
  - by apply ex_fits.
  - by vm_compute.
  - exists s1, s2, s3, cs. split_and!; [exact R1|exact R2|exact R3|exact Hdel|exact Hlog|exact Hout].
Defined.

Lemma ex_silent : silent.
Proof. intros ms [i out] Hin. cbn in Hin. subst i. exists 0, ([], out). by split_and!. Qed.

Lemma Client_yield_delivers_witness :
  exists s' cs, Client_yield ex_stack 3 300 (ex_sub (enc_publish (ex_pub 1) ++ enc_publish (ex_pub 0))) = Some (FAILURE, s') /\
    delivered_all ex_one (Some 9%nat) [ex_pub 1; ex_pub 0] cs /\ s_log s' = cs /\ outgoing (s_w s') = enc_ack PUBACK 0 5.
Proof.
  destruct (Client_yield_delivers ex_stack 3 300 (ex_sub (enc_publish (ex_pub 1) ++ enc_publish (ex_pub 0))) ex_one [ex_pub 1; ex_pub 0])
    as (s' & cs & Hrun & _ & _ & _ & Hdel & Hlog & _ & Hout).
  - exact ex_silent.
  - by vm_compute.
  - apply ex_sub_wf.
  - by right.
  - constructor; [by apply ex_fits|]. constructor; [by apply ex_fits|constructor].
  - by vm_compute.
  - by vm_compute.
  - exists s', cs. split_and!; [exact Hrun|exact Hdel|exact Hlog|exact Hout].
Defined.

(** From the constructor through a connect to a subscribe. *)
Definition ex_raw : ClientObj := ex_obj true 1 0 0 0.
Definition ex_start (inp : list Z) : st := mkSt ex_pmem (Client_Client 30000 ex_raw) (inp, []) [].
Definition run_of {A} (r : option (A * st)) (s : st) : st := match r with Some (_, s') => s' | None => s end.
Definition ex_connected : st := run_of (Client_connect ex_stack 1 ex_options (ex_start (enc_connack 0 0 ++ enc_suback 1 [1]))) (ex_start []).
Definition ex_subscribed : st := run_of (Client_subscribe ex_stack 1 ex_filter 1 7 ex_connected) ex_connected.

Lemma ex_answering : @answering sim.
Proof.
  split; [intros t w; by eexists _, _|intros t sec w; by eexists _, _|].
  intros n ms w Hn. cbn. destruct (Z.leb_spec n (Z.of_nat (length w.1))); eexists _, _, _; (split; [done|]); [|cbn; lia].
  rewrite length_take. lia.
Qed.

Lemma client_session_in_order_witness :
  isconnected (s_o ex_connected) = true /\ in_order ex_subscribed /\
  topicFilter <$> (messageHandlers (s_o ex_subscribed) !! 0%nat) = Some (Some (Ptr 3 0)) /\
  exists r s2, Client_readPacket (false : @Timer sim) ex_subscribed = Some (r, s2).
Proof.
  destruct (client_session_in_order ex_stack ex_pmem ex_raw (enc_connack 0 0 ++ enc_suback 1 [1], []) 30000 ex_connected ex_subscribed)
    as (_ & Ho & _ & _ & _ & Hread).
  - apply ex_storage.
  - by vm_compute.
  - eapply rtc_once, step_call. apply (call_connect _ _ 1 ex_options 0); [by vm_compute|]. by vm_compute.
  - apply (call_subscribe _ _ 1 ex_filter 1 7 0); [|by vm_compute]. split; [apply (bool_decide_unpack _); by vm_compute|].
    intros n. vm_compute. by intros [= <-].
  - split_and!; [by vm_compute|exact Ho|by vm_compute|exact (Hread ex_answering false)].
Defined.

(** A subscribe while the connection is lost, with a subscription in the table and a publish in flight. *)
Definition ex_lost : st := mkSt ex_sub_mem (put_isconnected false (put_inflight 9 6 2 ex_sub_obj)) ([], []) [].
Definition ex_failed : st := run_of (Client_subscribe ex_stack 1 ex_filter 1 7 ex_lost) ex_lost.
Lemma failed_command_ends_session_witness : Client_subscribe ex_stack 1 ex_filter 1 7 ex_lost = Some (-1, ex_failed) /\ no_session (s_o ex_failed).
Proof.
  assert (Hrun : Client_subscribe ex_stack 1 ex_filter 1 7 ex_lost = Some (-1, ex_failed)) by by vm_compute. split; [exact Hrun|].
  apply (failed_command_ends_session ex_stack (-1) ex_lost ex_failed).
  - done.
  - left. by exists 1%nat, ex_filter, 1, 7%nat.
Defined.
