(* ===== verification/HandlerExamples.v ===== *)
(** * HandlerExamples: the theorems on sockets and handler at concrete inputs *)
From S2P Require Import Prelude CMem Wire Packet Publish Connect Subscribe Unsubscribe Topic Platform PahoClient PahoSpec.
From S2P Require Import PahoCommands PahoSession PahoInvariant PahoExamples Linux IpStack PahoHandler PahoHandlerSpec.

(** ** linux.cpp *)

(** A connection that brings "hi" in two pieces and then fails with EAGAIN, the timeout. *)
Definition slow_os : Os := {|
  OS := list (list Z);
  gettimeofday o := Some (mkTimeval 0 0, o);
  set_rcvtimeo _ _ o := Some (0, o);
  recv _ _ o := match o with [] => Some ((-1, [], 11), o) | x :: l => Some ((Z.of_nat (length x), x, 0), l) end;
  write _ bs o := Some (Z.of_nat (length bs), o);
  getaddrinfo _ o := Some ((0, [mkAddrinfo 10 1; mkAddrinfo AF_INET 16777343]), o);
  socket _ o := Some (5, o);
  connect_ _ _ o := Some (0, o);
  close _ o := Some (0, o)
|}.

Lemma ip_read_spec_witness :
  @ip_read slow_os 2 5 2 100 [[104]; [105]] = Some ((2, [104; 105]), []) /\ @ip_read slow_os 3 5 3 100 [[104]; [105]] = Some ((-1, [104; 105]), []).
Proof.
  assert (Hs : forall len, @streams slow_os 5 len 2 0 [[104]; [105]] [104; 105] []).
  { intros len. apply (@streams_more slow_os 5 len 1 0 [[104]; [105]] [104] [[105]] [105] []); [done|done|].
    apply (@streams_more slow_os 5 len 0 1 [[105]] [105] [] [] []); [done|done|constructor]. }
  split.
  - destruct (@ip_read_spec slow_os 5 2 100 [[104]; [105]] 0 [[104]; [105]] 2 [104; 105] []) as (H & _ & _);
      [by vm_compute|done|apply Hs|]. apply (H eq_refl 0%nat).
  - destruct (@ip_read_spec slow_os 5 3 100 [[104]; [105]] 0 [[104]; [105]] 2 [104; 105] []) as (_ & H & _);
      [by vm_compute|done|apply Hs|]. by apply (H ltac:(by vm_compute) 11 [] 0%nat).
Defined.

Lemma IPStack_connect_spec_witness :
  @ip_connect slow_os 2130706433 1883 ([], 0) = Some (0, ([], 5)) /\ @host_connect slow_os [] 1883 ([], 0) = Some (0, ([], 5)).
Proof.
  destruct (@IPStack_connect_spec slow_os 2130706433 [] 1883 [] 0 0 [mkAddrinfo 10 1; mkAddrinfo AF_INET 16777343] [] 5 [])
    as (Hip & _ & Hhost & _); [done|done|]. split.
  - etransitivity; [exact Hip|by vm_compute].
  - etransitivity; [apply (Hhost [mkAddrinfo 10 1] (mkAddrinfo AF_INET 16777343) []); [done|done|by repeat constructor|done]|by vm_compute].
Defined.

(** ** A network and a core *)

(** The simulated platform with a number of open sockets; every connection is answered with [reply]. *)
Definition net_sim (reply : list Z) : Network := {|
  net_platform := {|
    W := Z * (list Z * list Z);
    Timer := bool;
    TimerInit := false;
    TimerIsExpired t w := Some (t, w);
    TimerCountdownMS _ ms w := Some (ms <=? 0, w);
    TimerCountdown _ s w := Some (s <=? 0, w);
    TimerLeftMS t w := Some (if t then 0 else 1, w);
    mqttread n _ w :=
      if n <=? Z.of_nat (length w.2.1) then Some ((n, take (Z.to_nat n) w.2.1), (w.1, (drop (Z.to_nat n) w.2.1, w.2.2)))
      else Some ((0, []), w);
    mqttwrite bs _ w := Some (Z.of_nat (length bs), (w.1, (w.2.1, w.2.2 ++ bs)))
  |};
  IPStack_connect_ip _ _ w := Some (0, (w.1 + 1, (reply, w.2.2)));
  IPStack_connect_host _ _ w := Some (0, (w.1 + 1, (reply, w.2.2)));
  IPStack_disconnect w := Some (0, (w.1 - 1, w.2))
|}.

#[local] Instance net_sim_ideal reply : @IdealPlatform (@net_platform (net_sim reply)).
Proof.
  refine (@Build_IdealPlatform (@net_platform (net_sim reply)) (fun w => w.2.1) (fun w => w.2.2) id _ _ _ _ _ _).
  - done.
  - intros t w. by eexists.
  - intros t ms w. exists (ms <=? 0). split; [done|apply sim_leb].
  - intros t s w. exists (s <=? 0). split; [done|apply sim_leb].
  - intros n ms w Hn. eexists. cbn. destruct (Z.leb_spec n (Z.of_nat (length w.2.1))); [done|lia].
  - intros bs ms w. by eexists.
Defined.

(** A core with a configuration, and the number of times it was told of a connection. *)
Definition ex_config : config := mkConfig (192, 168, 0, 1) 1883 [103; 119] (Some ([117], [112])) (Some (mkWill 1 1 [119] [98; 121; 101])).
Definition ex_core : Core := {|
  CORE := Z;
  CORE_SUCCESS := 0;
  get_mqtt_config k := Some ((true, [192; 168; 0; 1], 1883, [103; 119; 0]), k);
  get_mqtt_login_config k := Some ((true, [117; 0], [112; 0]), k);
  get_mqtt_will k := Some ((true, [119; 0], [98; 121; 101; 0], 1, 1), k);
  core_publish _ _ _ n _ k := Some (0, k + 100 * n);
  notify_mqtt_connected k := Some (tt, k + 1);
  logger_log _ _ k := Some (tt, k)
|}.
#[local] Existing Instances x86_abi ex_core.

Lemma ex_core_config k : core_config ex_config k k.
Proof.
  exists k, k, [117; 0], [112; 0], [119; 0], [98; 121; 101; 0], 1, 1. cbn [ex_config cg_ip]. split_and!; try done.
  - by intros u p [= <- <-].
  - by intros x [= <-].
Qed.
Lemma ex_wf_config : wf_config ex_config.
Proof.
  split_and!; try done.
  - by repeat constructor.
  - intros u p [= <- <-]. split; (split; [by repeat constructor|done]).
  - intros w [= <-]. split_and!; try done; by repeat constructor.
Qed.

(** The local arrays of the handler are blocks 9 to 14, 15 is that of [messageArrived]. *)
Definition ex_hmem : mem := list_to_map (imap (fun i b => (i, b)) (ex_arrays ++ replicate 6 (replicate 255 0) ++ [replicate 1024 0])).
Definition ex_frame : frame := mkFrame (Ptr 9 0) (Ptr 10 0) (Ptr 11 0) (Ptr 12 0) (Ptr 13 0) (Ptr 14 0).
Section Run.
Context (reply : list Z).
#[local] Instance ex_net : Network := net_sim reply.
Definition ex_handler_obj : HandlerObj := mkHandler None 0 (-1) true true.
Definition ex_hobj : ClientObj := mkObj 30000 (Ptr 0 0) (Ptr 1 0) (Ptr 2 0) (map (fun i => Ptr i 0) [3; 4; 5; 6; 7]%nat) (false : Timer) (false : Timer) 60 false 1 0
    (replicate 5 (mkSlot None None)) (Some 9%nat) false 0 0 0.
Definition ex_hst : hst := mkHst ex_handler_obj (mkSt ex_hmem ex_hobj ((0, ([], [])) : W) []) (0 : CORE).

Lemma ex_hroom b n : (9 <= b < 15)%nat -> n <= 255 -> room ex_hmem (Ptr b 0) n.
Proof.
  intros Hb Hn. exists (replicate 255 0). assert (b = 9 \/ b = 10 \/ b = 11 \/ b = 12 \/ b = 13 \/ b = 14)%nat as Hc by lia.
  destruct Hc as [->|[->|[->|[->|[->| ->]]]]]; (split; [by vm_compute|cbn; lia]).
Qed.
Lemma ex_frame_ok : frame_ok ex_hmem ex_hobj ex_frame.
Proof.
  unfold frame_ok. split_and!; [apply ex_hroom; lia..|]. apply (bool_decide_unpack _). by vm_compute.
Qed.
Lemma ex_hwf : wf_client ex_hmem ex_hobj ex_none.
Proof.
  assert (Hr : forall b, (b < 3)%nat -> room ex_hmem (Ptr b 0) 512).
  { intros b Hb. exists (replicate 512 0). destruct b as [|[|[|b]]]; [split; [by vm_compute|cbn; lia]..|lia]. }
  constructor; try done; try (apply Hr; lia).
  - cbn [ex_hobj topicFilters map]. rewrite !Forall_cons. split_and!; try done; (exists (replicate 255 0); split; [by vm_compute|cbn; lia]).
  - apply (bool_decide_unpack _). by vm_compute.
  - intros i p h x _ Hh Hx. apply (lookup_replicate_1 5) in Hh as [-> _]. apply (lookup_replicate_1 5) in Hx as [-> _]. done.
Qed.

Lemma ex_retrying : retrying ex_frame ex_none ex_hst.
Proof. split_and!; [done|done|apply ex_hwf|done|done|apply ex_frame_ok]. Qed.
End Run.

(** The broker accepts: one CONNECT, and the core is told. *)
Lemma loop_connects_witness :
  exists s', @loop _ (net_sim (enc_connack 0 0)) _ ex_stack 1 ex_frame (ex_hst (enc_connack 0 0)) = Some (true, s') /\
    @h_core (net_sim (enc_connack 0 0)) _ s' = 1 /\ isconnected (s_o (h_cl s')) = true /\
    (s_w (h_cl s')).2.2 = enc_connect (mkConnect 4 1 60 [103; 119] (Some (mkWill 1 1 [119] [98; 121; 101])) (Some [117]) (Some [112])).
Proof.
  destruct (@loop_connects _ (net_sim (enc_connack 0 0)) (net_sim_ideal _) _ ex_stack 0 ex_frame ex_config 30 0 0 [] (ex_hst (enc_connack 0 0)) ex_none
    0 1 1 (1, (enc_connack 0 0, []))) as (s' & Hrun & _ & Hcon & Hcore & Hout).
  - done.
  - done.
  - apply ex_hwf.
  - done.
  - done.
  - apply ex_frame_ok.
  - apply ex_wf_config.
  - apply ex_core_config.
  - by vm_compute.
  - by vm_compute.
  - by vm_compute.
  - by vm_compute.
  - by unfold byte.
  - done.
  - done.
  - done.
  - exists s'. split_and!; [exact Hrun|exact Hcore|exact Hcon|exact Hout].
Defined.

(** The broker refuses: after three rounds three sockets are open. *)
Lemma refused_rounds_leak_witness :
  exists s', @failing_rounds _ (net_sim (enc_connack 0 5)) _ ex_stack 1 ex_frame 3 (ex_hst (enc_connack 0 5)) = Some s' /\ (s_w (h_cl s')).1 = 3.
Proof.
  destruct (@refused_rounds_leak _ (net_sim (enc_connack 0 5)) (net_sim_ideal _) _ ex_stack 0 ex_frame ex_config 30 fst ex_none 3 (ex_hst (enc_connack 0 5)))
    as (s' & Hrun & _ & Hop).
  - split.
    + constructor; cbn; try (by intros; simplify_eq).
      * constructor; [done|]. intros x y z H1 H2. congruence.
      * intros n ms w a w'. by destruct (_ <=? _); intros [= _ <-].
    + intros w. exists (w.1 + 1, (enc_connack 0 5, w.2.2)), 0, 5. by split_and!.
  - apply ex_wf_config.
  - by vm_compute.
  - intros k. exists k. apply ex_core_config.
  - by vm_compute.
  - done.
  - apply ex_retrying.
  - exists s'. split; [exact Hrun|exact Hop].
Defined.

(** 192.168.0.1, whose first byte makes a negative [int]. *)
Definition ex_ip_mem : mem := <[9%nat := [192; 168; 0; 1]]> ex_hmem.
Lemma setServer_connects_witness :
  exists h, (setServer_ip (Ptr 9 0) 1883;; connect_ipstack) (@mkHst (net_sim []) ex_core ex_handler_obj (mkSt ex_ip_mem (ex_hobj []) (0, ([], [])) []) 0) =
    Some (Some 0, @mkHst (net_sim []) ex_core h (mkSt ex_ip_mem (ex_hobj []) (1, ([], [])) []) 0).
Proof.
  destruct (@setServer_connects (net_sim []) ex_core (Ptr 9 0) 1883 192 168 0 1 0 (1, ([], []))
    (@mkHst (net_sim []) ex_core ex_handler_obj (mkSt ex_ip_mem (ex_hobj []) (0, ([], [])) []) 0)) as (h & _ & _ & _ & _ & Hrun).
  - by unfold byte.
  - by unfold byte.
  - by unfold byte.
  - by unfold byte.
  - by vm_compute.
  - done.
  - exists h. exact Hrun.
Defined.

(** A PUBLISH of "hi!" to "a/b" in the read buffer. *)
Definition ex_read_mem : mem := <[1%nat := enc_publish (ex_pub 0) ++ replicate 502 0]> ex_hmem.
Lemma messageArrived_forwards_witness :
  exists m', messageArrived (Ptr 15 0) (mkMQTTString None 3 (Some (Ptr 1 4))) (mkMessage 0 0 0 0 (Some (Ptr 1 7)) 3) (ex_read_mem, 0) = Some (tt, (m', 300)) /\
    at_bytes m' (Ptr 15 0) [97; 47; 98; 0].
Proof.
  destruct (@messageArrived_forwards ex_core ex_read_mem (mkMQTTString None 3 (Some (Ptr 1 4))) (mkMessage 0 0 0 0 (Some (Ptr 1 7)) 3) (ex_pub 0) (Ptr 15 0) 0)
    as (m' & q & _ & Hat & _ & _ & Hrun).
  - split_and!; try done.
    + split_and!; try done. split; [done|]. right. exists (Ptr 1 4). by split; [|vm_compute].
    + exists (Ptr 1 7). by split; [|vm_compute].
  - done.
  - exists (replicate 1024 0). split; [by vm_compute|cbn; lia].
  - by intros q [= <-].
  - by intros q [= <-].
  - exists m'. split; [exact Hrun|exact Hat].
Defined.
