(* ===== verification/SnSocket.v ===== *)
(** * SnSocket: what the MQTT-SN sockets share

    What a socket asks of the core of the gateway, and addresses of internet sockets as
    addresses of devices, which LinuxUdpSocket.cpp and SingleTcpSocket.cpp have in the same
    words. *)
From S2P Require Import Prelude CMem Linux.

(** The MQTT-SN message handler of the core, and the size of its [device_address].
    [receiveData] is given the bytes of the address, and all of the array the data is in; it is a
    step of the core alone: it does not call the socket. *)
Class MqttSn := {
  SN : Type;
  sizeof_device_address : nat;
  notify_socket_connected : M SN unit;
  notify_socket_disconnected : M SN unit;
  receiveData : list Z -> list Z -> M SN unit
}.

(** An array of [n] bytes after [memset(..., 0, n)]. *)
Definition zero_bytes (n : nat) : list Z := replicate n 0.
(** [memcpy(&a[i], bs, ...)] into an array. *)
Definition copy_to (a : list Z) (i : nat) (bs : list Z) : option (list Z) :=
  if (i + length bs <=? length a)%nat then Some (splice a i bs) else None.

(** [uint32_t] and [uint16_t] in memory, on a little-endian machine *)
Definition u16_bytes (v : Z) : list Z := [v mod 256; (v / 256) mod 256].
Definition u32_bytes (v : Z) : list Z := [v mod 256; (v / 256) mod 256; (v / 65536) mod 256; (v / 16777216) mod 256].
Definition number_of_bytes (bs : list Z) : Z := foldr (fun b v => b + 256 * v) 0 bs.

Definition PORT : Z := 8888.
Definition BUFLEN : Z := 255.
Definition INADDR_ANY : Z := 0.

(** An entry of [getifaddrs]: the family of its address if it has one, and its name. *)
Record ifaddr := mkIfaddr { ifa_addr_family : option Z; ifa_name : list Z }.
(** "eth0" *)
Definition eth0 : list Z := [101; 116; 104; 48].
(** [exit(EXIT_FAILURE)]: the program ends. *)
Definition exit_failure {S A} : M S A := undefined.

Section Addresses.
Context `{MqttSn}.

(** What an [ip_address] and a [port] are as a device address; [own_port] is the [PORT] of the
    socket, which stands for 0. *)
Definition address_of_ip (own_port ip port : Z) : option (list Z) :=
  address ← copy_to (zero_bytes sizeof_device_address) 0 (u32_bytes ip);
  let port := if port =? 0 then own_port else port in
  copy_to address 4 (u16_bytes port).

Definition getDevice_address (addr : sockaddr_in) : option (list Z) := address_of_ip PORT (sin_addr addr) (sin_port addr).

(** [memcpy] of a part of [address->bytes] *)
Definition address_part (address : list Z) (i n : nat) : option Z :=
  if (i + n <=? length address)%nat then Some (number_of_bytes (take n (drop i address))) else None.
Definition getIp_address (address : list Z) : option Z := address_part address 0 4.
Definition getPort (address : list Z) : option Z := address_part address 4 2.

Lemma u32_number v : 0 <= v < 4294967296 -> number_of_bytes (u32_bytes v) = v.
Proof. intros Hv. cbn. zdiv. Qed.
Lemma u16_number v : 0 <= v < 65536 -> number_of_bytes (u16_bytes v) = v.
Proof. intros Hv. cbn. zdiv. Qed.

(** The address of a device, and back: nothing is lost but a port of 0. *)
Lemma device_address_roundtrip addr : (6 <= sizeof_device_address)%nat -> 0 <= sin_addr addr < 4294967296 -> 0 < sin_port addr < 65536 ->
  exists a, getDevice_address addr = Some a /\ length a = sizeof_device_address /\
    getIp_address a = Some (sin_addr addr) /\ getPort a = Some (sin_port addr).
Proof.
  intros Hsz Hip Hport. unfold getDevice_address, address_of_ip. set (n := sizeof_device_address) in *.
  assert (Hz : exists r, zero_bytes n = [0; 0; 0; 0; 0; 0] ++ r) by (exists (zero_bytes (n - 6)); unfold zero_bytes; change [0; 0; 0; 0; 0; 0] with (replicate 6 0); rewrite <- replicate_add; f_equal; lia).
  destruct Hz as [r Er]. assert (Hlen : length (zero_bytes n) = n) by apply length_replicate. rewrite Er in *. cbn [length app] in Hlen.
  destruct (Z.eqb_spec (sin_port addr) 0); [lia|]. unfold copy_to, u32_bytes, u16_bytes. cbn [length app Nat.add Nat.leb splice take drop mbind option_bind].
  eexists. split; [reflexivity|]. split; [exact Hlen|]. unfold getIp_address, getPort, address_part. cbn [length app take drop Nat.add Nat.leb splice]. split; f_equal.
  - by apply u32_number.
  - apply u16_number. lia.
Qed.

(** ** The address of the interface *)

(** The walk through the interfaces, with the text [getnameinfo] gives of an address;
    [family]: the local that is never assigned. *)
Context {W : Type} (own_port : Z) (getnameinfo : Z -> ifaddr -> M W (Z * list Z)) (inet_pton : list Z -> Z).

Fixpoint interfaces_loop (family : Z) (own : list Z) (l : list ifaddr) : M W (list Z) :=
  match l with
  | [] => mret own
  | ifa :: l' =>
    match ifa_addr_family ifa with
    | None => interfaces_loop family own l'
    | Some f =>
      if (f =? AF_INET) && bool_decide (eth0 = ifa_name ifa) then
        '(s, host) ← getnameinfo (if family =? AF_INET then 16 else 28) ifa;
        if negb (s =? 0) then mret own else
        own ← lift (address_of_ip own_port (inet_pton host) 0);
        interfaces_loop family own l'
      else interfaces_loop family own l'
    end
  end.

(** The address of a socket that is open.  What [ioctl] tells is overwritten. *)
Definition interface_address (ioctl : M W (Z * sockaddr_in)) (getifaddrs : M W (option (list ifaddr))) (family : Z) : M W (list Z) :=
  '(_, addr) ← ioctl;
  _ ← lift (address_of_ip own_port (sin_addr addr) (sin_port addr));
  interfaces ← getifaddrs;
  match interfaces with
  | None => exit_failure
  | Some l => interfaces_loop family (zero_bytes sizeof_device_address) l
  end.
End Addresses.
