(* ===== verification/Serial.v ===== *)
(** * Serial: LinuxSerialSocket.cpp

    The MQTT-SN socket behind a serial line: a bridge on the other side is told in lines of
    text what to send, and asked what was received.  The functions that read a line of
    the bridge are also those of LinuxTelnetSocket.cpp, whose text is the same. *)
From Stdlib Require Import Strings.String.
From S2P Require Import Prelude CMem Format SnSocket.

(** ** What it asks of the system *)

Record termios := mkTermios { c_iflag : Z; c_oflag : Z; c_cflag : Z; c_lflag : Z; c_vmin : Z; c_vtime : Z }.

(** [sys_read fd] is [read(fd, &c, 1)]: its value, and what it stores in [c] when that is 1. *)
Class SerialOs := {
  SW : Type;
  sys_open : list Z -> Z -> M SW Z;
  tcgetattr : Z -> M SW (Z * termios);
  tcsetattr : Z -> termios -> M SW Z;
  cfsetospeed : termios -> Z -> termios;
  cfsetispeed : termios -> Z -> termios;
  sys_read : Z -> M SW (Z * Z);
  sys_write : Z -> list Z -> M SW Z
}.

(** Constants of Linux. *)
Definition O_RDWR_NOCTTY_SYNC : Z := Z.lor 2 (Z.lor 256 1052672).
Definition B9600 : Z := 13.
Definition IGNBRK : Z := 1.
Definition IXON_IXOFF_IXANY : Z := Z.lor 1024 (Z.lor 4096 2048).
Definition CSIZE : Z := 48.
Definition CS8 : Z := 48.
Definition CSTOPB : Z := 64.
Definition CREAD : Z := 128.
Definition PARENB : Z := 256.
Definition PARODD : Z := 512.
Definition CLOCAL : Z := 2048.
Definition CRTSCTS : Z := 2147483648.
(** [x & ~y] *)
Definition clear (x y : Z) : Z := Z.ldiff x y.

Definition UINT8_MAX : Z := 255.
Definition UINT16_MAX : Z := 65535.
Definition LONG_MAX : Z := 2147483647.
Definition LONG_MIN : Z := -2147483648.

(** ** Text *)

Definition NL : Z := 10.
Definition SP : Z := 32.
Definition text_line (s : string) : list Z := lit s ++ [NL].
Arguments text_line s%_string.

(** [char buffer[1024]], and [buffer[i] = c] *)
Definition BUFFER : nat := 1024.
Definition put_char (buffer : list Z) (i c : Z) : option (list Z) :=
  if i <? Z.of_nat BUFFER then Some (<[Z.to_nat i := c]> buffer) else None.

(** [strsep(&p, " ")]: [p] and the token are what follows them in the array; past its end is undefined. *)
Fixpoint strsep_at (s : list Z) : option (list Z * option (list Z)) :=
  match s with
  | [] => None
  | c :: s' => if c =? 0 then Some (s, None) else if c =? SP then Some (0 :: s', Some s') else
               '(t, r) ← strsep_at s'; Some (c :: t, r)
  end.
Definition strsep (p : option (list Z)) : option (option (list Z) * option (list Z)) :=
  match p with None => Some (None, None) | Some s => '(t, r) ← strsep_at s; Some (Some t, r) end.

(** [memcmp(token, s, strlen(s)) == 0] *)
Definition memcmp_eq (token s : list Z) : option bool :=
  if (length token <? length s)%nat then None else Some (bool_decide (take (length s) token = s)).

(** [strcmp(a, b) == 0] of two arrays *)
Fixpoint strcmp_eq_at (a b : list Z) : option bool :=
  match a, b with
  | x :: a', y :: b' => if x =? y then if x =? 0 then Some true else strcmp_eq_at a' b' else Some false
  | _, _ => None
  end.

(** [strtol(str, &end, 0)]: the value, whether [errno] is [ERANGE], and what [end] points to;
    [None] where there is no number and it is [str]. *)
Definition digit_value (base c : Z) : option Z :=
  let d := if (48 <=? c) && (c <=? 57) then c - 48 else if (65 <=? c) && (c <=? 90) then c - 55 else
           if (97 <=? c) && (c <=? 122) then c - 87 else 36 in
  if d <? base then Some d else None.
Fixpoint strtol_digits (base acc : Z) (s : list Z) : option (Z * list Z) :=
  match s with
  | [] => None
  | c :: s' => match digit_value base c with Some d => strtol_digits base (acc * base + d) s' | None => Some (acc, s) end
  end.
Fixpoint strtol_space (s : list Z) : option (list Z) :=
  match s with [] => None | c :: s' => if (c =? SP) || ((9 <=? c) && (c <=? 13)) then strtol_space s' else Some s end.
Definition strtol_base (s : list Z) : option (Z * list Z) :=
  match s with
  | [] => None
  | c :: s1 =>
    if negb (c =? 48) then Some (10, s) else
    match s1 with
    | [] => None
    | x :: s2 =>
      if negb ((x =? 120) || (x =? 88)) then Some (8, s) else
      match s2 with [] => None | h :: _ => Some (if digit_value 16 h is Some _ then (16, s2) else (8, s)) end
    end
  end.
Definition strtol (str : list Z) : option (Z * bool * option (list Z)) :=
  s ← strtol_space str;
  c ← head s;
  let negative := c =? 45 in
  let s := if (c =? 45) || (c =? 43) then tail s else s in
  '(base, s) ← strtol_base s;
  c ← head s;
  match digit_value base c with
  | None => Some (0, false, None)
  | Some _ =>
    '(v, rest) ← strtol_digits base 0 s;
    let v := if (negative : bool) then - v else v in
    Some (if v <? LONG_MIN then (LONG_MIN, true, Some rest) else if LONG_MAX <? v then (LONG_MAX, true, Some rest) else (v, false, Some rest))
  end.

(** [parseLong(str, &val)]: its value and [val] *)
Definition parseLong (str : list Z) : option (bool * Z) :=
  '(val, erange, temp) ← strtol str;
  match temp with
  | None => Some (false, val)
  | Some temp =>
    c ← head temp;
    Some (negb ((negb (c =? 0) && negb (c =? NL)) || (((val =? LONG_MIN) || (val =? LONG_MAX)) && erange)), val)
  end.

Inductive TransmissionProtocolUartBridgeStatus := STARTING | IDLE | SEND | RECEIVE | CONFIGURATION | PARSE_FAILURE | ERROR.

Section Definitions.
Context `{SerialOs} `{MqttSn}.

(** ** The object *)

(** [fd] is [sock] in LinuxTelnetSocket; pointers are null or not. *)
Record SerialObj := mkSerial {
  fd : Z; logger : bool; mqttSnMessageHandler : bool; ownAddress : list Z; broadcastAddress : list Z;
  maximumMessageLength : Z; serialBufferSize : Z; from_address : list Z; data : list Z; data_length : Z;
  status : TransmissionProtocolUartBridgeStatus
}.
Definition put_fd (x : Z) (o : SerialObj) : SerialObj :=
  mkSerial x (logger o) (mqttSnMessageHandler o) (ownAddress o) (broadcastAddress o) (maximumMessageLength o) (serialBufferSize o)
    (from_address o) (data o) (data_length o) (status o).
Definition put_interfaces (x y : bool) (o : SerialObj) : SerialObj :=
  mkSerial (fd o) x y (ownAddress o) (broadcastAddress o) (maximumMessageLength o) (serialBufferSize o) (from_address o) (data o)
    (data_length o) (status o).
Definition put_addresses (own broadcast : list Z) (o : SerialObj) : SerialObj :=
  mkSerial (fd o) (logger o) (mqttSnMessageHandler o) own broadcast (maximumMessageLength o) (serialBufferSize o) (from_address o)
    (data o) (data_length o) (status o).
Definition put_limits (x y : Z) (o : SerialObj) : SerialObj :=
  mkSerial (fd o) (logger o) (mqttSnMessageHandler o) (ownAddress o) (broadcastAddress o) x y (from_address o) (data o)
    (data_length o) (status o).
Definition put_from (x : list Z) (o : SerialObj) : SerialObj :=
  mkSerial (fd o) (logger o) (mqttSnMessageHandler o) (ownAddress o) (broadcastAddress o) (maximumMessageLength o) (serialBufferSize o)
    x (data o) (data_length o) (status o).
Definition put_data (x : list Z) (y : Z) (o : SerialObj) : SerialObj :=
  mkSerial (fd o) (logger o) (mqttSnMessageHandler o) (ownAddress o) (broadcastAddress o) (maximumMessageLength o) (serialBufferSize o)
    (from_address o) x y (status o).
Definition put_status (x : TransmissionProtocolUartBridgeStatus) (o : SerialObj) : SerialObj :=
  mkSerial (fd o) (logger o) (mqttSnMessageHandler o) (ownAddress o) (broadcastAddress o) (maximumMessageLength o) (serialBufferSize o)
    (from_address o) (data o) (data_length o) x.

Record ser := mkSer { s_obj : SerialObj; s_port : SW; s_sn : SN }.
Definition get_obj : M ser SerialObj := fun s => Some (s_obj s, s).
Definition set_obj (o : SerialObj) : M ser unit := fun s => Some (tt, mkSer o (s_port s) (s_sn s)).
Definition upd (f : SerialObj -> SerialObj) : M ser unit := o ← get_obj; set_obj (f o).
Definition on_port {A} (f : M SW A) : M ser A := fun s =>
  match f (s_port s) with Some (a, w) => Some (a, mkSer (s_obj s) w (s_sn s)) | None => None end.
(** A call through the pointer [mqttSnMessageHandler]. *)
Definition on_sn (f : M SN unit) : M ser unit := fun s =>
  if mqttSnMessageHandler (s_obj s) then match f (s_sn s) with Some (a, k) => Some (a, mkSer (s_obj s) (s_port s) k) | None => None end
  else None.

Definition setLogger (x : bool) : M ser unit := upd (fun o => put_interfaces x (mqttSnMessageHandler o) o).
Definition setMqttSnMessageHandler (x : bool) : M ser unit := upd (fun o => put_interfaces (logger o) x o).
Definition getBroadcastAddress : M ser (list Z) := o ← get_obj; mret (broadcastAddress o).
Definition getAddress : M ser (list Z) := o ← get_obj; mret (ownAddress o).
Definition getMaximumMessageLength : M ser Z := o ← get_obj; mret (to_uchar (maximumMessageLength o)).

Definition write_text (s : list Z) : M ser unit := o ← get_obj; _ ← on_port (sys_write (fd o) s); mret tt.

(** ** Reading lines *)

(** [char c; read(fd, &c, 1)]; the value of [read] is not looked at, so without a character [c] is indeterminate. *)
Definition read_char : M ser Z :=
  o ← get_obj; '(n, c) ← on_port (sys_read (fd o)); if n =? 1 then mret c else undefined.

(** The loop that fills [buffer] with a line; the 1025th character has no place in it.  One character per unit of
    fuel; to run out of it is the value [None], which is not an undefined one. *)
Fixpoint read_line_loop (fuel : nat) (buffer : list Z) (buffer_read : Z) : M ser (option (list Z)) :=
  match fuel with
  | O => mret None
  | S fuel' =>
    c ← read_char;
    buffer ← lift (put_char buffer buffer_read c);
    if c =? NL then mret (Some buffer) else read_line_loop fuel' buffer (to_ushort (buffer_read + 1))
  end.
Definition read_line : M ser (list Z) := line ← read_line_loop (S BUFFER) (zero_bytes BUFFER) 0; lift line.

(** One character per unit of fuel, [None] when it runs out.  [toCompare]: the characters of the string. *)
Fixpoint waitFor_loop (fuel : nat) (toCompare buffer : list Z) (buffer_read : Z) : M ser (option bool) :=
  match fuel with
  | O => mret None
  | S fuel' =>
    c ← read_char;
    buffer ← lift (put_char buffer buffer_read c);
    let buffer_read := to_ushort (buffer_read + 1) in
    if c =? NL then
      same ← (if Z.of_nat (length toCompare) =? buffer_read then lift (strcmp_eq_at buffer (toCompare ++ [0])) else mret false);
      if (same : bool) then mret (Some true) else waitFor_loop fuel' toCompare (zero_bytes BUFFER) 0
    else waitFor_loop fuel' toCompare buffer buffer_read
  end.
Definition waitFor (fuel : nat) (toCompare : list Z) : M ser bool := there ← waitFor_loop fuel toCompare (zero_bytes BUFFER) 0; lift there.

Definition no_address : list Z := zero_bytes sizeof_device_address.
Definition no_data : list Z := zero_bytes (Z.to_nat UINT16_MAX).

(** The names of the states, in the order they are compared. *)
Definition status_names : list (list Z) :=
  map lit ["STARTING"; "IDLE"; "SEND"; "RECEIVE"; "CONFIGURATION"; "PARSE_FAILURE"; "ERROR"]%string.
Fixpoint starts_with_one (token : list Z) (names : list (list Z)) : option bool :=
  match names with
  | [] => Some false
  | n :: names => hit ← memcmp_eq token n; if (hit : bool) then Some true else starts_with_one token names
  end.

(** A line that starts with [keyword]; [None] where the token is missing or another. *)
Definition read_keyword (keyword : list Z) : M ser (option (option (list Z))) :=
  buffer ← read_line;
  '(token, buffer_p) ← lift (strsep (Some buffer));
  match token with
  | None => mret None
  | Some token => hit ← lift (memcmp_eq token keyword); mret (if (hit : bool) then Some buffer_p else None)
  end.

(** The state that is read is stored in a local of the name [status]. *)
Definition readStatus : M ser bool :=
  line ← read_keyword (lit "STATUS");
  match line with
  | None => upd (put_status ERROR);; mret false
  | Some buffer_p =>
    upd (put_from no_address);;
    '(token, _) ← lift (strsep buffer_p);
    match token with None => mret true | Some token => lift (starts_with_one token status_names) end
  end.

(** What the token [N/A] does in the loop over an address. *)
Inductive na_token := Na_fails | Na_stops | Na_untested.

(** The loop over the numbers of an address: [false] for a return with the address cleared. *)
Fixpoint address_loop (na : na_token) (fuel : nat) (buffer_p : option (list Z)) (address : list Z) (len : Z) : option (bool * list Z * Z) :=
  match fuel with
  | O => None
  | S fuel' =>
    '(token, buffer_p) ← strsep buffer_p;
    match token with
    | None => Some (true, address, len)
    | Some token =>
      is_na ← match na with Na_untested => Some false | _ => memcmp_eq token (lit "N/A") end;
      if (is_na : bool) then
        match na with Na_stops => Some (true, no_address, Z.of_nat sizeof_device_address) | _ => Some (false, no_address, len) end
      else
      '(ok, number) ← parseLong token;
      if negb ok then Some (false, no_address, len) else
      if (UINT8_MAX <? number) || (number <? 0) then Some (false, no_address, len) else
      if Z.of_nat sizeof_device_address <? len + 1 then Some (false, no_address, len) else
      address_loop na fuel' buffer_p (<[Z.to_nat len := to_uchar number]> address) (to_ushort (len + 1))
    end
  end.

Definition put_own (x : list Z) : M ser unit := upd (fun o => put_addresses x (broadcastAddress o) o).
Definition put_broadcast (x : list Z) : M ser unit := upd (fun o => put_addresses (ownAddress o) x o).

(** Where the address is too short, it is [from_address] that is cleared. *)
Definition readOwnAddress : M ser bool :=
  line ← read_keyword (lit "OWN_ADDRESS");
  match line with
  | None => put_own no_address;; mret false
  | Some buffer_p =>
    '(ok, address, len) ← lift (address_loop Na_fails (S BUFFER) buffer_p no_address 0);
    put_own address;;
    if negb ok then mret false else
    if negb (len =? Z.of_nat sizeof_device_address) then upd (put_from no_address);; mret false else mret true
  end.

Definition readBroadcastAddress : M ser bool :=
  line ← read_keyword (lit "BROADCAST_ADDRESS");
  match line with
  | None => put_broadcast no_address;; mret false
  | Some buffer_p =>
    '(ok, address, len) ← lift (address_loop Na_stops (S BUFFER) buffer_p no_address 0);
    put_broadcast address;;
    if negb ok then mret false else
    if negb (len =? Z.of_nat sizeof_device_address) then put_broadcast no_address;; mret false else mret true
  end.

Definition readSendAddress : M ser unit :=
  line ← read_keyword (lit "ADDRESS");
  match line with
  | None => upd (put_from no_address)
  | Some buffer_p =>
    '(ok, address, len) ← lift (address_loop Na_untested (S BUFFER) buffer_p no_address 0);
    upd (put_from address);;
    if negb ok then mret tt else
    if negb (len =? Z.of_nat sizeof_device_address) then upd (put_from no_address) else mret tt
  end.

(** The loop over a line of one number; the last counts, and without one it is [number]. *)
Fixpoint number_loop (fuel : nat) (buffer_p : option (list Z)) (number : Z) : option (option Z) :=
  match fuel with
  | O => None
  | S fuel' =>
    '(token, buffer_p) ← strsep buffer_p;
    match token with
    | None => Some (Some number)
    | Some token =>
      '(ok, number) ← parseLong token;
      if negb ok then Some None else
      if (UINT8_MAX <? number) || (number <? 0) then Some None else number_loop fuel' buffer_p number
    end
  end.
Definition read_limit (keyword : list Z) (put : Z -> M ser unit) : M ser bool :=
  line ← read_keyword keyword;
  match line with
  | None => put 0;; mret false
  | Some buffer_p =>
    number ← lift (number_loop (S BUFFER) buffer_p 0);
    match number with None => put 0;; mret false | Some number => put (to_ushort number);; mret true end
  end.
Definition readMaximumMessageLength : M ser bool :=
  read_limit (lit "MAXIMUM_MESSAGE_LENGTH") (fun x => upd (fun o => put_limits x (serialBufferSize o) o)).
Definition readSerialBufferSize : M ser bool :=
  read_limit (lit "SERIAL_BUFFER_SIZE") (fun x => upd (fun o => put_limits (maximumMessageLength o) x o)).

(** The loop over the numbers of the data; [data[data_length++]] has 65535 places. *)
Fixpoint data_loop (fuel : nat) (buffer_p : option (list Z)) (data : list Z) (len : Z) : option (list Z * Z) :=
  match fuel with
  | O => None
  | S fuel' =>
    '(token, buffer_p) ← strsep buffer_p;
    match token with
    | None => Some (data, len)
    | Some token =>
      '(ok, number) ← parseLong token;
      if negb ok then Some (no_data, 0) else
      if (UINT8_MAX <? number) || (number <? 0) then Some (no_data, 0) else
      if UINT16_MAX <=? len then None else
      data_loop fuel' buffer_p (<[Z.to_nat len := to_uchar number]> data) (to_ushort (len + 1))
    end
  end.
Definition readData : M ser unit :=
  line ← read_keyword (lit "DATA");
  match line with
  | None => upd (put_data no_data 0)
  | Some buffer_p => '(d, n) ← lift (data_loop (S BUFFER) buffer_p no_data 0); upd (put_data d n)
  end.

(** ** Writing *)

Fixpoint write_numbers (bs : list Z) : M ser unit :=
  match bs with
  | [] => mret tt
  | b :: bs' => write_text [SP];; write_text (dec b);; write_numbers bs'
  end.

(** ** The line itself *)

Definition set_interface_attribs (fd speed parity : Z) : M ser Z :=
  '(rc, tty) ← on_port (tcgetattr fd);
  if negb (rc =? 0) then mret (-1) else
  let tty := cfsetispeed (cfsetospeed tty speed) speed in
  let cflag := Z.lor (clear (c_cflag tty) CSIZE) CS8 in
  let iflag := clear (c_iflag tty) IGNBRK in
  let iflag := clear iflag IXON_IXOFF_IXANY in
  let cflag := Z.lor cflag (Z.lor CLOCAL CREAD) in
  let cflag := clear cflag (Z.lor PARENB PARODD) in
  let cflag := Z.lor cflag parity in
  let cflag := clear cflag CSTOPB in
  let cflag := clear cflag CRTSCTS in
  rc ← on_port (tcsetattr fd (mkTermios iflag 0 cflag 0 0 5));
  mret (if negb (rc =? 0) then -1 else 0).

Definition set_blocking (fd : Z) (should_block : bool) : M ser Z :=
  '(rc, tty) ← on_port (tcgetattr fd);
  if negb (rc =? 0) then mret (-1) else
  rc ← on_port (tcsetattr fd (mkTermios (c_iflag tty) (c_oflag tty) (c_cflag tty) (c_lflag tty) (if should_block then 1 else 0) 5));
  mret (if negb (rc =? 0) then -1 else 0).

Definition portname : list Z := lit "/dev/ttyUSB1".
Definition initSerialPort : M ser bool :=
  x ← on_port (sys_open portname O_RDWR_NOCTTY_SYNC);
  upd (put_fd x);;
  if x <? 0 then mret false else
  rc ← set_interface_attribs x B9600 0;
  if rc <? 0 then mret false else
  rc ← set_blocking x true;
  mret (negb (rc <? 0)).

(** ** The conversation

    The texts of LinuxSerialSocket and LinuxTelnetSocket differ in [waitFor] and in how a
    command ends. *)
Section Conversation.
Context (waitFor : list Z -> M ser bool) (cmd_termination : list Z).

Definition waitForOKIdle : M ser bool := waitFor (text_line "OK IDLE").
Definition waitForOkAwaitAddress : M ser bool := waitFor (text_line "OK AWAIT_ADDRESS").
Definition waitForOkAwaitData : M ser bool := waitFor (text_line "OK AWAIT_DATA").
Definition waitForOkSending : M ser bool := waitFor (text_line "OK SENDING").
Definition waitForOkSendAddress : M ser bool := waitFor (text_line "OK SEND_ADDRESS").
Definition waitForOkSendData : M ser bool := waitFor (text_line "OK SEND_DATA").

Definition sendAddress (address : list Z) : M ser unit :=
  write_text (lit "ADDRESS");; write_numbers address;; write_text cmd_termination.
(** [buf]: what the pointer points to; [len] is a [uint8_t]. *)
Definition sendData (buf : list Z) (len : Z) : M ser unit :=
  write_text (lit "DATA");;
  (if (length buf <? Z.to_nat len)%nat then undefined else write_numbers (take (Z.to_nat len) buf));;
  write_text cmd_termination.

(** [if (!waitFor(toCompare)) return false; if (!read()) return false;] *)
Definition ask (toCompare : list Z) (read k : M ser bool) : M ser bool :=
  there ← waitFor toCompare;
  if negb there then mret false else
  ok ← read;
  if negb ok then mret false else k.
Definition updateConfiguration : M ser bool :=
  write_text (lit "CONFIGURATION" ++ cmd_termination);;
  ask (text_line "OK SEND_STATUS") readStatus (
  ask (text_line "OK SEND_OWN_ADDRESS") readOwnAddress (
  ask (text_line "OK SEND_BROADCAST_ADDRESS") readBroadcastAddress (
  ask (text_line "OK SEND_MAXIMUM_MESSAGE_LENGTH") readMaximumMessageLength (
  ask (text_line "OK SEND_SERIAL_BUFFER_SIZE") readSerialBufferSize waitForOKIdle)))).

Definition send_with_strength (destination bytes : list Z) (bytes_len signal_strength : Z) : M ser bool :=
  write_text (lit "SEND" ++ cmd_termination);;
  _ ← waitForOkAwaitAddress;
  sendAddress destination;;
  _ ← waitForOkAwaitData;
  sendData bytes (to_uchar bytes_len);;
  _ ← waitForOkSending;
  _ ← waitForOKIdle;
  mret true.
Definition send (destination bytes : list Z) (bytes_len : Z) : M ser bool :=
  send_with_strength destination bytes bytes_len UINT8_MAX.

(** Where [fd] is 0 the function ends without a value. *)
Definition loop : M ser bool :=
  o ← get_obj;
  if fd o <? 0 then mret false else
  if negb (0 <? fd o) then undefined else
  write_text (lit "RECEIVE" ++ cmd_termination);;
  _ ← waitForOkSendAddress;
  readSendAddress;;
  _ ← waitForOkSendData;
  readData;;
  _ ← waitForOKIdle;
  o ← get_obj;
  first ← lift (head (from_address o));
  (if negb (first =? 0) then on_sn (receiveData (from_address o) (data o)) else mret tt);;
  mret true.
End Conversation.

(** ** Starting; the terminator of the text goes out with [RESET] *)

Definition resetController (fuel : nat) : M ser bool := write_text (lit "RESET" ++ [NL; 0]);; waitForOKIdle (waitFor fuel).

Definition begin (fuel : nat) : M ser bool :=
  o ← get_obj;
  if negb (logger o) then mret false else
  if negb (mqttSnMessageHandler o) then mret false else
  upd (put_addresses no_address no_address);;
  up ← initSerialPort;
  if negb up then mret false else
  up ← resetController fuel;
  if negb up then mret false else
  up ← updateConfiguration (waitFor fuel) [NL];
  if negb up then mret false else
  on_sn notify_socket_connected;; mret true.
End Definitions.
