(* ===== verification/SerialSpec.v ===== *)
(** * SerialSpec: the conversation with the bridge over Serial.v

    What the functions that read a line make of any line, and the conversations of
    [send], [loop] and [updateConfiguration] from end to end, on a line that loses nothing. *)
From Stdlib Require Import Strings.String ZifyBool.
From S2P Require Import Prelude CMem Format SnSocket Serial.

(** ** A line that loses nothing *)

(** The characters on the line, in the order they pass: heard from the bridge, or said to it. *)
Inductive passing := Heard (c : Z) | Said (c : Z).
Definition said_of (x : passing) : option Z := match x with Said c => Some c | Heard _ => None end.

(** What the bridge has to say, and what has passed so far. *)
Class SerialLaw `{SerialOs} := {
  to_read : SW -> list Z;
  traffic : SW -> list passing;
  sys_read_law f c rest w : to_read w = c :: rest ->
    exists w', sys_read f w = Some ((1, c), w') /\ to_read w' = rest /\ traffic w' = traffic w ++ [Heard c];
  sys_write_law f bs w : exists n w', sys_write f bs w = Some (n, w') /\ to_read w' = to_read w /\ traffic w' = traffic w ++ map Said bs
}.
(** All that was said. *)
Definition written `{SerialLaw} (w : SW) : list Z := omap said_of (traffic w).

Lemma omap_heard bs : omap said_of (map Heard bs) = [].
Proof. by induction bs. Qed.
Lemma omap_said bs : omap said_of (map Said bs) = bs.
Proof. induction bs as [|b bs IH]; [done|]. cbn in *. by rewrite IH. Qed.

(** ** Texts *)

(** A line as it is split at its spaces. *)
Fixpoint split_sp (l : list Z) : list (list Z) :=
  match l with
  | [] => [[]]
  | c :: l' => if c =? SP then [] :: split_sp l' else match split_sp l' with w :: ws => (c :: w) :: ws | [] => [[c]] end
  end.
Definition spaced (ws : list (list Z)) : list Z := concat (map (cons SP) ws).

(** A token: no space, no terminator. *)
Definition token (w : list Z) : Prop := Forall (fun c => c <> SP /\ c <> 0) w.

Lemma split_sp_spec l : Forall (fun c => c <> 0) l ->
  exists w ws, split_sp l = w :: ws /\ l = w ++ spaced ws /\ token w /\ Forall token ws.
Proof.
  induction 1 as [|c l Hc _ (w & ws & E & -> & Hw & Hws)]; cbn [split_sp].
  { exists [], []. split_and!; [done|done|constructor|repeat constructor]. }
  destruct (Z.eqb_spec c SP) as [->|]; rewrite E; [exists [], (w :: ws)|exists (c :: w), ws]; split_and!; try done; repeat constructor; done.
Qed.

Lemma split_sp_token w r : token w -> split_sp (w ++ r) = match split_sp r with v :: vs => (w ++ v) :: vs | [] => [w] end.
Proof.
  induction 1 as [|c w [Hc _] _ IH]; cbn [app split_sp]; [destruct r as [|c r]; [done|]; cbn [split_sp]; destruct (c =? SP); [done|by destruct (split_sp r)]|].
  destruct (Z.eqb_spec c SP); [done|]. rewrite IH. by destruct (split_sp r).
Qed.

Lemma split_spaced w ws : token w -> Forall token ws -> split_sp (w ++ spaced ws) = w :: ws.
Proof.
  intros Hw Hws. revert w Hw. induction Hws as [|v ws Hv _ IH]; intros w Hw; rewrite split_sp_token by done; [cbn; by rewrite app_nil_r|].
  change (split_sp (spaced (v :: ws))) with ([] :: split_sp (v ++ spaced ws)). by rewrite IH, app_nil_r.
Qed.

(** ** [strsep] and numbers *)

(** Where [strsep] stands in a buffer with the words [ws] ahead, and [k] zeros behind them. *)
Definition ahead (ws : list (list Z)) (k : nat) : option (list Z) :=
  match ws with [] => None | w :: ws => Some (w ++ spaced ws ++ zero_bytes k) end.

Lemma strsep_at_space w r : token w -> strsep_at (w ++ SP :: r) = Some (w ++ 0 :: r, Some r).
Proof.
  induction 1 as [|c w [H1 H2] _ IH]; [done|]. cbn [app strsep_at]. apply Z.eqb_neq in H1 as ->, H2 as ->. by rewrite IH.
Qed.
Lemma strsep_at_end w r : token w -> strsep_at (w ++ 0 :: r) = Some (w ++ 0 :: r, None).
Proof.
  induction 1 as [|c w [H1 H2] _ IH]; [done|]. cbn [app strsep_at]. apply Z.eqb_neq in H1 as ->, H2 as ->. by rewrite IH.
Qed.

Lemma strsep_ahead w ws k : token w -> (0 < k)%nat ->
  exists r, strsep (ahead (w :: ws) k) = Some (Some (w ++ 0 :: r), ahead ws k) /\ S (length r) = (length (spaced ws) + k)%nat.
Proof.
  intros Hw Hk. cbn [ahead strsep]. destruct ws as [|v ws]; cbn [spaced map concat app ahead].
  - destruct k as [|k]; [lia|]. change (zero_bytes (S k)) with (0 :: zero_bytes k).
    exists (zero_bytes k). rewrite strsep_at_end by done. unfold zero_bytes. by rewrite length_replicate.
  - rewrite strsep_at_space by done. eexists. split; [unfold spaced; cbn [mbind option_bind]; by rewrite <- app_assoc|].
    unfold spaced. cbn [map concat app length]. rewrite !length_app. unfold zero_bytes. rewrite length_replicate. lia.
Qed.

(** What [parseLong] makes of a token does not depend on what is behind its terminator. *)
Lemma strtol_space_token w : token w -> exists v, token v /\ forall r, strtol_space (w ++ 0 :: r) = Some (v ++ 0 :: r).
Proof.
  induction 1 as [|c w Hc Hw (v & Hv & IH)]; [exists []; split; [constructor|done]|]. cbn [app strtol_space].
  destruct ((c =? SP) || ((9 <=? c) && (c <=? 13))); [by exists v|]. exists (c :: w). split; [by constructor|done].
Qed.
Lemma strtol_base_token w : token w -> exists b v, token v /\ forall r, strtol_base (w ++ 0 :: r) = Some (b, v ++ 0 :: r).
Proof.
  intros Hw. destruct w as [|c w]; [exists 10, []; split; [constructor|done]|]. cbn [app strtol_base].
  destruct (c =? 48) eqn:Hc; cbn [negb]; [|by exists 10, (c :: w)]. destruct w as [|x w]; [exists 8, [c]; done|]. cbn [app].
  destruct ((x =? 120) || (x =? 88)); cbn [negb]; [|by exists 8, (c :: x :: w)]. apply Forall_cons in Hw as [Hc0 Hw]. pose proof Hw as [_ Hw']%Forall_cons.
  destruct w as [|h w]; [exists 8, [c; x]; split; [by constructor|done]|]. cbn [app].
  destruct (digit_value 16 h); [by exists 16, (h :: w)|]. exists 8, (c :: x :: h :: w). split; [by constructor|done].
Qed.
Lemma strtol_digits_token b w : b <= 36 -> token w -> forall acc, exists n v, token v /\ forall r, strtol_digits b acc (w ++ 0 :: r) = Some (n, v ++ 0 :: r).
Proof.
  intros Hb. induction 1 as [|c w Hc Hw IH]; intros acc.
  - exists acc, []. split; [constructor|]. intros r. cbn [app strtol_digits]. unfold digit_value. cbn. by destruct (Z.ltb_spec 36 b); [lia|].
  - cbn [app strtol_digits]. destruct (digit_value b c); [apply IH|]. exists acc, (c :: w). split; [by constructor|done].
Qed.
Lemma strtol_base_le s b v : strtol_base s = Some (b, v) -> b <= 36.
Proof.
  destruct s as [|c [|x [|h s]]]; cbn [strtol_base]; [done| | |]; destruct (c =? 48); cbn [negb]; try (intros; simplify_eq; lia);
    destruct ((x =? 120) || (x =? 88)); cbn [negb]; try (intros; simplify_eq; lia).
  destruct (digit_value 16 h); intros; simplify_eq; lia.
Qed.

Lemma parseLong_token w : token w -> exists ok n, forall r, parseLong (w ++ 0 :: r) = Some (ok, n).
Proof.
  intros Hw. unfold parseLong, strtol. destruct (strtol_space_token w Hw) as (v & Hv & Es).
  set (v' := if (default 0 (head v) =? 45) || (default 0 (head v) =? 43) then tail v else v).
  assert (token v') as Hv' by (unfold v'; destruct v as [|c v]; cbn [head tail]; [by destruct (_ || _)|]; apply Forall_cons in Hv as [? ?]; case_match; [done|by constructor]).
  destruct (strtol_base_token v' Hv') as (b & u & Hu & Eb). pose proof (strtol_base_le _ _ _ (Eb [])) as Hb36.
  destruct (strtol_digits_token b u Hb36 Hu 0) as (n & t & Ht & Ed).
  assert (Hhead : forall (x : list Z) r, token x -> head (x ++ 0 :: r) = Some (default 0 (head x))) by (intros [|c x] r _; done).
  assert (Hv0 : forall r, (if (default 0 (head v) =? 45) || (default 0 (head v) =? 43) then tail (v ++ 0 :: r) else v ++ 0 :: r) = v' ++ 0 :: r).
  { intros r. unfold v'. destruct v as [|c v]; [done|]. cbn [head default from_option app tail]. by case_match. }
  destruct (digit_value b (default 0 (head u))) as [d|] eqn:Hd.
  - set (val := if default 0 (head v) =? 45 then - n else n).
    exists (negb ((negb (default 0 (head t) =? 0) && negb (default 0 (head t) =? NL)) ||
      (((if val <? LONG_MIN then LONG_MIN else if LONG_MAX <? val then LONG_MAX else val) =? LONG_MIN) ||
       ((if val <? LONG_MIN then LONG_MIN else if LONG_MAX <? val then LONG_MAX else val) =? LONG_MAX)) &&
       ((val <? LONG_MIN) || (LONG_MAX <? val)))), (if val <? LONG_MIN then LONG_MIN else if LONG_MAX <? val then LONG_MAX else val).
    intros r. rewrite Es. cbn [mbind option_bind]. rewrite Hhead by done. cbn [mbind option_bind]. rewrite Hv0, Eb. cbn [mbind option_bind].
    rewrite Hhead by done. cbn [mbind option_bind]. rewrite Hd, Ed. cbn [mbind option_bind]. fold val.
    destruct (val <? LONG_MIN); [|destruct (LONG_MAX <? val)]; rewrite Hhead by done; reflexivity.
  - exists false, 0. intros r. rewrite Es. cbn [mbind option_bind]. rewrite Hhead by done. cbn [mbind option_bind]. rewrite Hv0, Eb. cbn [mbind option_bind].
    rewrite Hhead by done. cbn [mbind option_bind]. by rewrite Hd.
Qed.

(** The number a token is, if it is one of a byte. *)
Definition number_of (w : list Z) : option Z :=
  match parseLong (w ++ [0]) with
  | Some (true, n) => if (UINT8_MAX <? n) || (n <? 0) then None else Some n
  | _ => None
  end.

Lemma number_of_token w : token w ->
  exists ok n, (forall r, parseLong (w ++ 0 :: r) = Some (ok, n)) /\
    number_of w = (if (ok : bool) then if (UINT8_MAX <? n) || (n <? 0) then None else Some n else None).
Proof.
  intros Hw. destruct (parseLong_token w Hw) as (ok & n & Hp). exists ok, n. split; [done|].
  unfold number_of. rewrite Hp. by destruct ok.
Qed.

Lemma number_of_byte w n : number_of w = Some n -> byte n.
Proof.
  unfold number_of, byte, UINT8_MAX. destruct (parseLong _) as [[[] m]|]; try done.
  destruct ((255 <? m) || (m <? 0)) eqn:E; [done|]. intros [= ->]. lia.
Qed.

Definition numbers_of (ws : list (list Z)) : option (list Z) := mapM number_of ws.

Lemma data_loop_ahead k ws : Forall token ws -> (0 < k)%nat -> forall fuel d n, (length ws < fuel)%nat -> 0 <= n ->
  n + Z.of_nat (length ws) < UINT16_MAX -> (Z.to_nat n + length ws <= length d)%nat ->
  data_loop fuel (ahead ws k) d n =
  Some (match numbers_of ws with Some ns => (splice d (Z.to_nat n) ns, n + Z.of_nat (length ns)) | None => (no_data, 0) end).
Proof.
  intros Hws Hk. unfold numbers_of, UINT16_MAX. induction Hws as [|w ws Hw Hws IH]; intros fuel d n Hf Hn Hl Hd; (destruct fuel as [|fuel]; [cbn in Hf; lia|]).
  - cbn. by rewrite splice_nil, Z.add_0_r.
  - cbn [length] in *. cbn [data_loop]. destruct (strsep_ahead w ws k Hw Hk) as (r & -> & _). cbn [mbind option_bind].
    destruct (number_of_token w Hw) as (ok & m & Hp & Hno). rewrite Hp. cbn [mapM mbind option_bind]. rewrite Hno.
    destruct ok; cbn [negb]; [|done]. destruct ((UINT8_MAX <? m) || (m <? 0)) eqn:Hm; [done|]. unfold UINT8_MAX, UINT16_MAX in *.
    destruct (Z.leb_spec 65535 n); [lia|]. rewrite to_ushort_id by lia. rewrite IH by (rewrite ?length_insert; lia).
    cbn [mbind option_bind]. destruct (mapM number_of ws) as [ns|] eqn:Hns; [|done]. cbn [mbind option_bind].
    apply length_mapM in Hns. rewrite to_uchar_id by (unfold byte; lia). f_equal. f_equal; [|cbn [length]; lia].
    replace (Z.to_nat (n + 1)) with (S (Z.to_nat n)) by lia. apply splice_insert. lia.
Qed.

(** The words of an address: as many numbers as an address has bytes. *)
Definition address_words `{MqttSn} (ws : list (list Z)) : option (list Z) :=
  ns ← numbers_of ws; if (length ns =? sizeof_device_address)%nat then Some ns else None.

(** Where [N/A] is not accepted, testing for it makes no difference: it is not a number. *)
Lemma na_not_number w r : token w -> memcmp_eq (w ++ 0 :: r) (lit "N/A") = Some true -> number_of w = None.
Proof.
  unfold memcmp_eq. destruct (_ <? _)%nat; [done|]. intros Hw [= E%bool_decide_eq_true].
  destruct w as [|c w]; [done|]. cbn in E. injection E as -> _. done.
Qed.

Section Address.
Context `{MqttSn}.

Lemma address_loop_ahead na k ws : (na = Na_stops -> is_Some (numbers_of ws)) -> Forall token ws -> (3 <= k)%nat -> forall fuel a n, (length ws < fuel)%nat ->
  Z.of_nat (length ws) < 65535 -> (n <= sizeof_device_address)%nat -> Z.of_nat sizeof_device_address < 65535 -> length a = sizeof_device_address ->
  exists ok a' m, address_loop na fuel (ahead ws k) a (Z.of_nat n) = Some (ok, a', Z.of_nat m) /\
    match numbers_of ws with
    | Some ns => if (n + length ns <=? sizeof_device_address)%nat then ok = true /\ a' = splice a n ns /\ m = (n + length ns)%nat
                 else ok = false /\ a' = no_address
    | None => ok = false /\ a' = no_address
    end.
Proof.
  intros Hna Hws Hk. unfold numbers_of in *. induction Hws as [|w ws Hw Hws IH]; intros fuel a n Hf Hl Hn Hsz Ha; (destruct fuel as [|fuel]; [cbn in Hf; lia|]).
  - cbn. exists true, a, n. rewrite Nat.add_0_r. destruct (Nat.leb_spec n sizeof_device_address); [|lia]. by rewrite splice_nil.
  - cbn [length] in *. cbn [address_loop]. destruct (strsep_ahead w ws k Hw ltac:(lia)) as (r & -> & Hr). cbn [mbind option_bind].
    destruct (number_of_token w Hw) as (ok & m & Hp & Hno). cbn [mapM mbind option_bind].
    assert (exists b, (match na with Na_untested => Some false | _ => memcmp_eq (w ++ 0 :: r) (lit "N/A") end) = Some b /\ (b = true -> number_of w = None)) as (b & -> & Hb).
    { assert (exists b, memcmp_eq (w ++ 0 :: r) (lit "N/A") = Some b) as (b & Eb).
      { unfold memcmp_eq. destruct (Nat.ltb_spec (length (w ++ 0 :: r)) (length (lit "N/A"))) as [Hlt|]; [|by eexists].
        rewrite length_app in Hlt. cbn [length lit map list_ascii_of_string] in Hlt. lia. }
      destruct na; [| |by exists false]; (exists b; split; [done|]; intros ->; by eapply na_not_number). }
    cbn [mbind option_bind]. destruct b.
    { specialize (Hb eq_refl). rewrite Hb. cbn [mbind option_bind].
      destruct na; [|destruct (Hna eq_refl) as [x Hx]; cbn [mapM] in Hx; by rewrite Hb in Hx|]; by exists false, no_address, n. }
    assert (Hna' : na = Na_stops -> is_Some (mapM number_of ws)).
    { intros E. destruct (Hna E) as [x Hx]. cbn [mapM] in Hx. destruct (number_of w); [|done]. cbn [mbind option_bind] in Hx. by destruct (mapM number_of ws). }
    specialize (IH Hna').
    rewrite Hp. cbn [mbind option_bind]. rewrite Hno. destruct ok; cbn [negb]; [|by exists false, no_address, n].
    destruct ((UINT8_MAX <? m) || (m <? 0)) eqn:Hm; [by exists false, no_address, n|]. cbn [mbind option_bind]. unfold UINT8_MAX in *.
    destruct (Z.ltb_spec (Z.of_nat sizeof_device_address) (Z.of_nat n + 1)).
    { exists false, no_address, n. split; [done|]. destruct (mapM number_of ws) as [ns|]; [|done]. cbn [mbind option_bind mret option_ret length].
      destruct (Nat.leb_spec (n + S (length ns)) sizeof_device_address); [lia|done]. }
    rewrite to_ushort_id by lia. rewrite Nat2Z.id, to_uchar_id by (unfold byte; lia). replace (Z.of_nat n + 1) with (Z.of_nat (S n)) by lia.
    destruct (IH fuel (<[n := m]> a) (S n)) as (ok & a' & m' & Hrun & Hres); [lia|lia|lia|lia|by rewrite length_insert|].
    exists ok, a', m'. split; [done|]. destruct (mapM number_of ws) as [ns|]; [|done]. cbn [mbind option_bind mret option_ret length].
    replace (n + S (length ns))%nat with (S n + length ns)%nat by lia. revert Hres.
    destruct (Nat.leb_spec (S n + length ns) sizeof_device_address); [|done]. intros (-> & -> & ->). split_and!; [done|apply splice_insert; lia|done].
Qed.
End Address.

(** ** Rules of the conversation *)

(** A line as it arrives: no line feed, no terminator, and short enough for the buffer. *)
Definition short_line (l : list Z) : Prop := Forall (fun c => c <> NL /\ c <> 0) l /\ (length l <= 1020)%nat.
Definition as_lines (ls : list (list Z)) : list Z := concat (map (fun l => l ++ [NL]) ls).
(** What the bridge may say before the line that is waited for. *)
Definition chatter (t : list Z) (ls : list (list Z)) : Prop := Forall (fun l => short_line l /\ l <> t) ls.

Section Rules.
Context `{law : SerialLaw} `{sn : MqttSn}.

Implicit Types (o : SerialObj) (w : SW) (k : SN).

Lemma wp_get_obj (Q : SerialObj -> ser -> Prop) s : Q (s_obj s) s -> wp get_obj Q s.
Proof. done. Qed.
Lemma wp_upd_obj f (Q : unit -> ser -> Prop) o w k : Q tt (mkSer (f o) w k) -> wp (upd f) Q (mkSer o w k).
Proof. done. Qed.

(** What the socket says moves nothing else; what it hears is said by the bridge. *)
Definition says (bs : list Z) (w w' : SW) : Prop := to_read w' = to_read w /\ traffic w' = traffic w ++ map Said bs.
Definition hears (bs : list Z) (w w' : SW) : Prop := traffic w' = traffic w ++ map Heard bs.

Lemma says_written bs w w' : says bs w w' -> written w' = written w ++ bs.
Proof. intros [_ E]. unfold written. by rewrite E, omap_app, omap_said. Qed.
Lemma hears_written bs w w' : hears bs w w' -> written w' = written w.
Proof. unfold hears, written. intros ->. by rewrite omap_app, omap_heard, app_nil_r. Qed.
Lemma hears_app a b w w1 w2 : hears a w w1 -> hears b w1 w2 -> hears (a ++ b) w w2.
Proof. unfold hears. intros E1 E2. by rewrite E2, E1, map_app, app_assoc. Qed.

Lemma wp_write_text bs (Q : unit -> ser -> Prop) o w k :
  (forall w', says bs w w' -> Q tt (mkSer o w' k)) -> wp (write_text bs) Q (mkSer o w k).
Proof.
  intros HQ. destruct (sys_write_law (fd o) bs w) as (n & w' & E & Hr & Hw). apply wp_bind, wp_get_obj. cbn [s_obj].
  apply wp_bind. unfold wp, on_port. cbn [s_port]. rewrite E. by apply HQ.
Qed.

Lemma says_app a b w w1 w2 : says a w w1 -> says b w1 w2 -> says (a ++ b) w w2.
Proof. intros [R1 O1] [R2 O2]. split; [congruence|]. by rewrite O2, O1, map_app, app_assoc. Qed.

Lemma wp_write_numbers bs (Q : unit -> ser -> Prop) o k : forall w,
  (forall w', says (spaced (map dec bs)) w w' -> Q tt (mkSer o w' k)) -> wp (write_numbers bs) Q (mkSer o w k).
Proof.
  induction bs as [|b bs IH]; intros w HQ; cbn [write_numbers].
  - apply wp_ret, HQ. split; [done|]. by rewrite app_nil_r.
  - apply wp_bind, wp_write_text. intros w1 Hw1. apply wp_bind, wp_write_text. intros w2 Hw2. apply IH. intros w3 Hw3. apply HQ.
    change (spaced (map dec (b :: bs))) with ([SP] ++ dec b ++ spaced (map dec bs)). do 2 (eapply says_app; [eassumption|]). done.
Qed.

Lemma wp_read_char c rest (Q : Z -> ser -> Prop) o w k : to_read w = c :: rest ->
  (forall w', to_read w' = rest -> hears [c] w w' -> Q c (mkSer o w' k)) -> wp read_char Q (mkSer o w k).
Proof.
  intros Hr HQ. destruct (sys_read_law (fd o) c rest w Hr) as (w' & E & Hr' & Hw). apply wp_bind, wp_get_obj. cbn [s_obj].
  apply wp_bind. unfold wp, on_port. cbn [s_port]. rewrite E. by apply HQ.
Qed.

Lemma read_char_run c rest o w k : to_read w = c :: rest -> exists w', read_char (mkSer o w k) = Some (c, mkSer o w' k) /\ to_read w' = rest.
Proof.
  intros Hr. assert (wp read_char (fun c' s => c' = c /\ exists w', s = mkSer o w' k /\ to_read w' = rest) (mkSer o w k)) as Hwp
    by (eapply wp_read_char; [exact Hr|]; intros w' ? _; split; [done|by exists w']).
  apply wp_Some in Hwp as (c' & s & E & -> & w' & -> & Hr'). by exists w'.
Qed.

(** A buffer with the characters [l] so far. *)
Definition filled (l : list Z) : list Z := l ++ zero_bytes (BUFFER - length l).

Lemma put_char_filled l c : (length l < BUFFER)%nat -> put_char (filled l) (Z.of_nat (length l)) c = Some (filled (l ++ [c])).
Proof.
  intros Hl. unfold put_char. destruct (Z.ltb_spec (Z.of_nat (length l)) (Z.of_nat BUFFER)); [|lia]. f_equal. rewrite Nat2Z.id. unfold filled, zero_bytes.
  rewrite length_app. cbn [length]. replace (BUFFER - length l)%nat with (S (BUFFER - (length l + 1))) by lia. cbn [replicate].
  rewrite <- app_assoc. cbn [app]. rewrite <- (Nat.add_0_r (length l)) at 1. by rewrite insert_app_r.
Qed.
Lemma put_char_full b c : put_char b (Z.of_nat BUFFER) c = None.
Proof. done. Qed.

Lemma filled_buffer l (P : list Z -> nat -> Prop) : (forall n, (n + length l = BUFFER)%nat -> P (l ++ zero_bytes n) n) -> (length l <= BUFFER)%nat -> P (filled l) (BUFFER - length l)%nat.
Proof. intros HP Hl. apply HP. lia. Qed.

Lemma wp_read_line_loop l2 rest (Q : option (list Z) -> ser -> Prop) o k : forall l1 fuel w, Forall (fun c => c <> NL) l2 ->
  to_read w = l2 ++ NL :: rest -> (length l1 + length l2 < BUFFER)%nat -> (length l2 < fuel)%nat ->
  (forall w', to_read w' = rest -> hears (l2 ++ [NL]) w w' -> Q (Some (filled (l1 ++ l2 ++ [NL]))) (mkSer o w' k)) ->
  wp (read_line_loop fuel (filled l1) (Z.of_nat (length l1))) Q (mkSer o w k).
Proof.
  induction l2 as [|c l2 IH]; intros l1 fuel w Hl Hr Hlen Hf HQ; (destruct fuel as [|fuel]; [cbn in Hf; lia|]); cbn [read_line_loop app] in *.
  - apply wp_bind. eapply wp_read_char; [exact Hr|]. intros w' Hr' Hw'. apply wp_bind. eapply wp_lift; [apply put_char_filled; cbn in Hlen; lia|].
    change (NL =? NL) with true. apply wp_ret. by apply HQ.
  - apply Forall_cons in Hl as [Hc Hl]. cbn [length] in *. apply wp_bind. eapply wp_read_char; [exact Hr|]. intros w' Hr' Hw'.
    apply wp_bind. eapply wp_lift; [apply put_char_filled; lia|]. apply Z.eqb_neq in Hc as ->. change BUFFER with 1024%nat in *. rewrite to_ushort_id by lia.
    replace (Z.of_nat (length l1) + 1) with (Z.of_nat (length (l1 ++ [c]))) by (rewrite length_app; cbn; lia).
    apply IH; [done|exact Hr'|rewrite length_app; cbn; change BUFFER with 1024%nat; lia|lia|]. intros w2 Hr2 Hw2. rewrite <- app_assoc. apply HQ; [done|exact (hears_app [c] _ _ _ _ Hw' Hw2)].
Qed.

Lemma wp_read_line l rest (Q : list Z -> ser -> Prop) o w k : Forall (fun c => c <> NL) l -> to_read w = l ++ NL :: rest -> (length l < BUFFER)%nat ->
  (forall w', to_read w' = rest -> hears (l ++ [NL]) w w' -> Q (filled (l ++ [NL])) (mkSer o w' k)) -> wp read_line Q (mkSer o w k).
Proof.
  intros Hl Hr Hlen HQ. unfold read_line. change (zero_bytes BUFFER) with (filled []). change 0 with (Z.of_nat (length (@nil Z))).
  apply wp_bind. eapply wp_read_line_loop; [exact Hl|exact Hr|cbn; lia|lia|]. intros w' Hr' Hw'. eapply wp_lift; [done|].
  by apply HQ.
Qed.

Lemma strcmp_filled l t : Forall (fun c => c <> 0) t -> length l = length t -> (length l < 1023)%nat ->
  strcmp_eq_at (filled (l ++ [NL])) ((t ++ [NL]) ++ [0]) = Some (bool_decide (l = t)).
Proof.
  intros Ht Hlen Hl. unfold filled. rewrite length_app. cbn [length]. change BUFFER with 1024%nat.
  destruct (1024 - (length l + 1))%nat as [|n] eqn:En; [lia|]. clear En Hl. change (zero_bytes (S n)) with (0 :: zero_bytes n). rewrite <- !app_assoc. cbn [app].
  revert l Hlen. induction Ht as [|c t Hc Ht IH]; intros [|x l] Hlen; try done. cbn [app strcmp_eq_at].
  destruct (Z.eqb_spec x c) as [->|Hne].
  - apply Z.eqb_neq in Hc as ->. rewrite IH by (cbn in Hlen; lia). f_equal. apply bool_decide_ext. split; [by intros ->|by intros [= ->]].
  - f_equal. symmetry. apply bool_decide_eq_false. by intros [= -> _].
Qed.

Lemma wp_waitFor_line t l2 rest (Q : option bool -> ser -> Prop) o k : short_line t -> forall l1 fuel w, Forall (fun c => c <> NL) l2 ->
  to_read w = l2 ++ NL :: rest -> (length l1 + length l2 <= 1020)%nat -> (length l2 < fuel)%nat ->
  (forall w', to_read w' = rest -> hears (l2 ++ [NL]) w w' -> if decide (l1 ++ l2 = t) then Q (Some true) (mkSer o w' k)
     else wp (waitFor_loop (fuel - S (length l2)) (t ++ [NL]) (filled []) 0) Q (mkSer o w' k)) ->
  wp (waitFor_loop fuel (t ++ [NL]) (filled l1) (Z.of_nat (length l1))) Q (mkSer o w k).
Proof.
  intros [Ht Htl]. induction l2 as [|c l2 IH]; intros l1 fuel w Hl Hr Hlen Hf HQ; (destruct fuel as [|fuel]; [cbn in Hf; lia|]); cbn [waitFor_loop app length] in *.
  - apply wp_bind. eapply wp_read_char; [exact Hr|]. intros w' Hr' Hw'.
    apply wp_bind. eapply wp_lift; [apply put_char_filled; change BUFFER with 1024%nat; lia|].
    change (NL =? NL) with true. cbv zeta. rewrite to_ushort_id by lia. specialize (HQ w' Hr' Hw'). rewrite app_nil_r in HQ. cbn [Nat.sub] in HQ. rewrite Nat.sub_0_r in HQ.
    apply wp_bind. rewrite length_app. cbn [length]. destruct (Z.eqb_spec (Z.of_nat (length t + 1)) (Z.of_nat (length l1) + 1)) as [E|E].
    + eapply wp_lift; [apply strcmp_filled; [by eapply Forall_impl; [exact Ht|]; intros ? []|lia|lia]|].
      destruct (decide (l1 = t)) as [->|Hne]; [rewrite bool_decide_true by done; by apply wp_ret|]. by rewrite bool_decide_false.
    + apply wp_ret. destruct (decide (l1 = t)) as [->|Hne]; [lia|]. exact HQ.
  - apply Forall_cons in Hl as [Hc Hl]. apply wp_bind. eapply wp_read_char; [exact Hr|]. intros w' Hr' Hw'.
    apply wp_bind. eapply wp_lift; [apply put_char_filled; change BUFFER with 1024%nat; lia|]. apply Z.eqb_neq in Hc as ->. cbv zeta. rewrite to_ushort_id by lia.
    replace (Z.of_nat (length l1) + 1) with (Z.of_nat (length (l1 ++ [c]))) by (rewrite length_app; cbn; lia).
    apply IH; [done|exact Hr'|rewrite length_app; cbn; lia|lia|]. intros w2 Hr2 Hw2. rewrite <- app_assoc. cbn [app]. apply HQ; [done|exact (hears_app [c] _ _ _ _ Hw' Hw2)].
Qed.

(** [waitFor] skips any lines but the one it waits for. *)
Lemma wp_waitFor fuel t ls rest (Q : bool -> ser -> Prop) o k : short_line t -> chatter t ls -> forall w,
  to_read w = as_lines ls ++ t ++ NL :: rest -> (length (as_lines ls) + length t < fuel)%nat ->
  (forall w', to_read w' = rest -> hears (as_lines ls ++ t ++ [NL]) w w' -> Q true (mkSer o w' k)) ->
  wp (waitFor fuel (t ++ [NL])) Q (mkSer o w k).
Proof.
  intros Ht Hls w Hr Hf HQ. unfold waitFor. apply wp_bind.
  enough (wp (waitFor_loop fuel (t ++ [NL]) (zero_bytes BUFFER) 0) (fun r s' => exists w', r = Some true /\ s' = mkSer o w' k /\ to_read w' = rest /\
    hears (as_lines ls ++ t ++ [NL]) w w') (mkSer o w k)) as Hwp.
  { eapply wp_mono; [exact Hwp|]. intros r s' (w' & -> & -> & Hr' & Hw'). eapply wp_lift; [done|]. by apply HQ. }
  clear HQ Q. revert w Hr Hf. revert Ht Hls. change (zero_bytes BUFFER) with (filled []). change 0 with (Z.of_nat (length (@nil Z))). intros Ht Hls. revert fuel.
  assert (Hnl : forall l, short_line l -> Forall (fun c => c <> NL) l) by (intros l [Hl _]; by eapply Forall_impl; [exact Hl|]; intros ? []).
  induction Hls as [|l ls [Hl Hne] _ IH]; intros fuel w Hr Hf.
  - cbn [as_lines map concat app] in Hr |- *. eapply wp_waitFor_line; [done|by apply Hnl|exact Hr|destruct Ht; cbn; lia|cbn in Hf; lia|].
    intros w' Hr' Hw'. cbn [app]. destruct (decide (t = t)); [by exists w'|done].
  - change (as_lines (l :: ls)) with ((l ++ [NL]) ++ as_lines ls) in Hr, Hf |- *. rewrite !length_app in Hf. cbn [length] in Hf. rewrite <- !app_assoc in Hr. cbn [app] in Hr.
    eapply wp_waitFor_line; [done|by apply Hnl|exact Hr|destruct Hl; cbn; lia|lia|].
    intros w' Hr' Hw'. cbn [app]. destruct (decide (l = t)); [done|]. eapply wp_mono; [apply IH; [done|lia]|].
    intros r s' (w2 & -> & -> & Hr2 & Hw2). exists w2. split_and!; [done|done|done|]. rewrite <- app_assoc. by eapply hears_app.
Qed.

(** The words of a line that starts with a keyword. *)
Definition fields (keyword l : list Z) : option (list (list Z)) :=
  match split_sp (l ++ [NL]) with w :: ws => if decide (take (length keyword) w = keyword) then Some ws else None | [] => None end.

Lemma memcmp_token (v r keyword : list Z) : token v -> Forall (fun c => c <> 0) keyword -> (length keyword <= length v + S (length r))%nat ->
  memcmp_eq (v ++ 0 :: r) keyword = Some (bool_decide (take (length keyword) v = keyword)).
Proof.
  intros Hw Hk Hl. unfold memcmp_eq. destruct (Nat.ltb_spec (length (v ++ 0 :: r)) (length keyword)) as [Hlt|_]; [rewrite length_app in Hlt; cbn [length] in Hlt; lia|].
  f_equal. apply bool_decide_ext. rewrite take_app. destruct (Nat.le_gt_cases (length keyword) (length v)) as [Hle|Hgt].
  - replace (length keyword - length v)%nat with 0%nat by lia. cbn [take]. by rewrite app_nil_r.
  - split; intros E; exfalso.
    + rewrite (take_ge v) in E by lia. destruct (length keyword - length v)%nat as [|n] eqn:En; [lia|]. cbn [take] in E. rewrite <- E in Hk.
      apply Forall_app in Hk as [_ [? _]%Forall_cons]. done.
    + apply (f_equal length) in E. rewrite length_take in E. lia.
Qed.

Lemma wp_read_keyword keyword l rest (Q : option (option (list Z)) -> ser -> Prop) o w k :
  short_line l -> Forall (fun c => c <> 0) keyword -> (length keyword <= 30)%nat -> to_read w = l ++ NL :: rest ->
  (forall w' n, to_read w' = rest -> hears (l ++ [NL]) w w' -> n = (BUFFER - S (length l))%nat ->
     match fields keyword l with
     | Some ws => Forall token ws /\ (length ws <= 1021)%nat -> Q (Some (ahead ws n)) (mkSer o w' k)
     | None => Q None (mkSer o w' k)
     end) -> wp (read_keyword keyword) Q (mkSer o w k).
Proof.
  intros [Hl Hlen] Hk Hkl Hr HQ. unfold read_keyword. apply wp_bind. eapply wp_read_line; [by eapply Forall_impl; [exact Hl|]; intros ? []|exact Hr|change BUFFER with 1024%nat; lia|].
  intros w' Hr' Hw'. specialize (HQ w'). unfold fields in HQ.
  destruct (split_sp_spec (l ++ [NL])) as (v & ws & E & Hj & Hv & Hws).
  { apply Forall_app. split; [by eapply Forall_impl; [exact Hl|]; intros ? []|by repeat constructor]. }
  rewrite E in HQ. set (n := (BUFFER - length (l ++ [NL]))%nat). assert (Hn : (3 <= n)%nat) by (unfold n; rewrite length_app; cbn; change BUFFER with 1024%nat; lia).
  assert (Hws20 : (length ws <= 1021)%nat).
  { apply (f_equal length) in Hj. rewrite !length_app in Hj. cbn [length] in Hj. assert (length ws <= length (spaced ws))%nat; [|lia].
    clear. induction ws as [|x ws IH]; [done|]. unfold spaced in *. cbn [map concat app length]. rewrite length_app. lia. }
  destruct (strsep_ahead v ws n Hv ltac:(lia)) as (r & Hsep & Hr3).
  assert (Hfill : filled (l ++ [NL]) = v ++ spaced ws ++ zero_bytes n) by (unfold filled; fold n; rewrite Hj; by rewrite <- app_assoc).
  apply wp_bind. eapply wp_lift; [rewrite Hfill; exact Hsep|]. cbn beta iota.
  apply wp_bind. eapply wp_lift.
  { apply memcmp_token; [done|done|]. apply (f_equal length) in Hj. rewrite !length_app in *. cbn [length] in *. rewrite Hr3.
    unfold n. rewrite length_app. cbn [length]. change BUFFER with 1024%nat. lia. }
  apply wp_ret. specialize (HQ n Hr' Hw' ltac:(unfold n; rewrite length_app; cbn [length]; f_equal; lia)). destruct (decide (take (length keyword) v = keyword)); [rewrite bool_decide_true by done|rewrite bool_decide_false by done]; auto.
Qed.

(** What the data and the address lines carry. *)
Definition data_of (l : list Z) : list Z := default [] (fields (lit "DATA") l ≫= numbers_of).
Definition address_of (keyword l : list Z) : option (list Z) := fields keyword l ≫= address_words.
(** The array [data] with [bs] in it. *)
Definition data_array (bs : list Z) : list Z := bs ++ drop (length bs) no_data.

Lemma length_no_data : Z.of_nat (length no_data) = UINT16_MAX.
Proof. unfold no_data, zero_bytes. rewrite length_replicate. by rewrite Z2Nat.id. Qed.

Lemma wp_readData l rest (Q : unit -> ser -> Prop) o w k : short_line l -> to_read w = l ++ NL :: rest ->
  (forall w', to_read w' = rest -> hears (l ++ [NL]) w w' ->
     Q tt (mkSer (put_data (data_array (data_of l)) (Z.of_nat (length (data_of l))) o) w' k)) ->
  wp readData Q (mkSer o w k).
Proof.
  intros Hl Hr HQ. apply wp_bind. eapply wp_read_keyword; [exact Hl|by repeat constructor|cbn; lia|exact Hr|]. intros w' n Hr' Hw' ->.
  assert (Hn : (3 <= BUFFER - S (length l))%nat) by (destruct Hl; change BUFFER with 1024%nat; lia).
  specialize (HQ w' Hr' Hw'). unfold data_of, data_array in HQ. destruct (fields (lit "DATA") l) as [ws|]; cbn [mbind option_bind] in HQ.
  - intros [Hws Hlen]. apply wp_bind. pose proof length_no_data as Hnd. unfold UINT16_MAX in Hnd. eapply wp_lift.
    { apply data_loop_ahead; [done|lia|change BUFFER with 1024%nat; lia|lia|unfold UINT16_MAX; lia|lia]. }
    destruct (numbers_of ws) as [ns|]; cbn [default from_option] in HQ; apply wp_upd_obj; exact HQ.
  - apply wp_upd_obj. exact HQ.
Qed.

Context (address_size : 0 < Z.of_nat sizeof_device_address < 65535).

Lemma splice_all (a ns : list Z) : length ns = length a -> splice a 0 ns = ns.
Proof. intros E. unfold splice. cbn [take app Nat.add]. by rewrite E, drop_all, app_nil_r. Qed.

Lemma length_no_address : length no_address = sizeof_device_address.
Proof. apply length_replicate. Qed.

Lemma address_words_run na ws n : (na = Na_stops -> is_Some (numbers_of ws)) -> Forall token ws -> (length ws <= 1021)%nat -> (3 <= n)%nat ->
  exists ok a m, address_loop na (S BUFFER) (ahead ws n) no_address 0 = Some (ok, a, Z.of_nat m) /\
    match address_words ws with
    | Some ns => ok = true /\ a = ns /\ m = sizeof_device_address
    | None => ok = false /\ a = no_address \/ ok = true /\ (m < sizeof_device_address)%nat
    end.
Proof.
  intros Hna Hws Hl Hn. destruct (address_loop_ahead na n ws Hna Hws Hn (S BUFFER) no_address 0) as (ok & a & m & Hrun & Hres);
    [change BUFFER with 1024%nat; lia|lia|lia|lia|apply length_no_address|].
  exists ok, a, m. split; [exact Hrun|]. unfold address_words. destruct (numbers_of ws) as [ns|]; cbn [mbind option_bind]; [|by left].
  revert Hres. rewrite !Nat.add_0_l. destruct (Nat.leb_spec (length ns) sizeof_device_address); destruct (Nat.eqb_spec (length ns) sizeof_device_address); try lia.
  - intros (-> & -> & ->). split_and!; [done| |done]. apply splice_all. by rewrite length_no_address.
  - intros (-> & ->). by left.
Qed.

Lemma wp_readSendAddress l rest (Q : unit -> ser -> Prop) o w k : short_line l -> to_read w = l ++ NL :: rest ->
  (forall w', to_read w' = rest -> hears (l ++ [NL]) w w' ->
     Q tt (mkSer (put_from (default no_address (address_of (lit "ADDRESS") l)) o) w' k)) ->
  wp readSendAddress Q (mkSer o w k).
Proof.
  intros Hl Hr HQ. apply wp_bind. eapply wp_read_keyword; [exact Hl|by repeat constructor|cbn; lia|exact Hr|]. intros w' n Hr' Hw' ->.
  assert (Hn : (3 <= BUFFER - S (length l))%nat) by (destruct Hl; change BUFFER with 1024%nat; lia).
  specialize (HQ w' Hr' Hw'). unfold address_of in HQ. destruct (fields (lit "ADDRESS") l) as [ws|]; cbn [mbind option_bind default from_option] in HQ; [|by apply wp_upd_obj].
  intros [Hws Hlen]. destruct (address_words_run Na_untested ws (BUFFER - S (length l))) as (ok & a & m & Hrun & Hres); [done|done|done|done|].
  apply wp_bind. eapply wp_lift; [exact Hrun|]. apply wp_bind, wp_upd_obj. destruct (address_words ws) as [ns|]; cbn [default from_option] in HQ.
  - destruct Hres as (-> & -> & ->). cbn [negb]. rewrite Z.eqb_refl. by apply wp_ret.
  - destruct Hres as [[-> ->]|[-> Hm]]; [by apply wp_ret|]. cbn [negb].
    destruct (Z.eqb_spec (Z.of_nat m) (Z.of_nat sizeof_device_address)); [lia|]. cbn [negb]. by apply wp_upd_obj.
Qed.

(** A refused own address leaves the object in a state of no interest. *)
Lemma wp_readOwnAddress l rest (Q : bool -> ser -> Prop) o w k : short_line l -> to_read w = l ++ NL :: rest ->
  (forall w', to_read w' = rest -> hears (l ++ [NL]) w w' ->
     match address_of (lit "OWN_ADDRESS") l with
     | Some a => Q true (mkSer (put_addresses a (broadcastAddress o) o) w' k)
     | None => forall o', Q false (mkSer o' w' k)
     end) -> wp readOwnAddress Q (mkSer o w k).
Proof.
  intros Hl Hr HQ. apply wp_bind. eapply wp_read_keyword; [exact Hl|by repeat constructor|cbn; lia|exact Hr|]. intros w' n Hr' Hw' ->.
  assert (Hn : (3 <= BUFFER - S (length l))%nat) by (destruct Hl; change BUFFER with 1024%nat; lia).
  specialize (HQ w' Hr' Hw'). unfold address_of in HQ. destruct (fields (lit "OWN_ADDRESS") l) as [ws|]; cbn [mbind option_bind] in HQ;
    [|apply wp_bind, wp_upd_obj, wp_ret, HQ].
  intros [Hws Hlen]. destruct (address_words_run Na_fails ws (BUFFER - S (length l))) as (ok & a & m & Hrun & Hres); [done|done|done|done|].
  apply wp_bind. eapply wp_lift; [exact Hrun|]. apply wp_bind, wp_upd_obj. destruct (address_words ws) as [ns|].
  - destruct Hres as (-> & -> & ->). cbn [negb]. rewrite Z.eqb_refl. by apply wp_ret.
  - destruct Hres as [[-> ->]|[-> Hm]]; [by apply wp_ret|]. cbn [negb].
    destruct (Z.eqb_spec (Z.of_nat m) (Z.of_nat sizeof_device_address)); [lia|]. cbn [negb]. by apply wp_bind, wp_upd_obj, wp_ret.
Qed.

(** A broadcast address: numbers, or [N/A] for none. *)
Definition broadcast_of (l : list Z) : option (list Z) :=
  ws ← fields (lit "BROADCAST_ADDRESS") l;
  match ws with w :: _ => if decide (take 3 w = lit "N/A") then Some no_address else address_words ws | [] => address_words ws end.

Lemma address_loop_na fuel v vs n a m : token v -> (3 <= n)%nat -> take 3 v = lit "N/A" ->
  address_loop Na_stops (S fuel) (ahead (v :: vs) n) a m = Some (true, no_address, Z.of_nat sizeof_device_address).
Proof.
  intros Hv Hn E. destruct (strsep_ahead v vs n Hv ltac:(lia)) as (r & Hsep & Hr3). cbn [address_loop]. rewrite Hsep. cbn [mbind option_bind].
  rewrite memcmp_token; [|done|by repeat constructor|cbn [lit length map list_ascii_of_string]; lia]. change (length (lit "N/A")) with 3%nat. by rewrite bool_decide_true.
Qed.

Lemma wp_readBroadcastAddress l a rest (Q : bool -> ser -> Prop) o w k : short_line l -> to_read w = l ++ NL :: rest -> broadcast_of l = Some a ->
  (forall w', to_read w' = rest -> hears (l ++ [NL]) w w' -> Q true (mkSer (put_addresses (ownAddress o) a o) w' k)) ->
  wp readBroadcastAddress Q (mkSer o w k).
Proof.
  intros Hl Hr Ha HQ. apply wp_bind. eapply wp_read_keyword; [exact Hl|by repeat constructor|cbn; lia|exact Hr|]. intros w' n Hr' Hw' ->.
  assert (Hn : (3 <= BUFFER - S (length l))%nat) by (destruct Hl; change BUFFER with 1024%nat; lia).
  specialize (HQ w' Hr' Hw'). unfold broadcast_of in Ha. destruct (fields (lit "BROADCAST_ADDRESS") l) as [ws|]; [|done]. cbn [mbind option_bind] in Ha.
  intros [Hws Hlen]. apply wp_bind.
  assert (exists ns, address_loop Na_stops (S BUFFER) (ahead ws (BUFFER - S (length l))) no_address 0 = Some (true, ns, Z.of_nat sizeof_device_address) /\ ns = a) as (ns & Hrun & ->).
  { assert (Hnum : address_words ws = Some a -> exists ns, address_loop Na_stops (S BUFFER) (ahead ws (BUFFER - S (length l))) no_address 0 =
      Some (true, ns, Z.of_nat sizeof_device_address) /\ ns = a).
    { intros E. destruct (address_words_run Na_stops ws (BUFFER - S (length l))) as (ok & a' & m & Hrun & Hres); [|done|done|done|].
      - intros _. unfold address_words in E. by destruct (numbers_of ws).
      - rewrite E in Hres. destruct Hres as (-> & -> & ->). by eexists. }
    destruct ws as [|v vs]; [by apply Hnum|]. destruct (decide (take 3 v = lit "N/A")) as [E|]; [|by apply Hnum]. injection Ha as <-.
    exists no_address. split; [|done]. apply Forall_cons in Hws as [Hv _]. by apply address_loop_na. }
  eapply wp_lift; [exact Hrun|]. apply wp_bind, wp_upd_obj. cbn [negb]. rewrite Z.eqb_refl. by apply wp_ret.
Qed.

Lemma number_loop_ahead m ws : Forall token ws -> (0 < m)%nat -> forall fuel n, (length ws < fuel)%nat ->
  number_loop fuel (ahead ws m) n = Some (match numbers_of ws with Some ns => Some (List.last ns n) | None => None end).
Proof.
  intros Hws Hm. unfold numbers_of. induction Hws as [|w ws Hw Hws IH]; intros fuel n Hf; (destruct fuel as [|fuel]; [cbn in Hf; lia|]); [done|].
  cbn [number_loop length] in *. destruct (strsep_ahead w ws m Hw Hm) as (r & -> & _). cbn [mbind option_bind].
  destruct (number_of_token w Hw) as (ok & x & Hp & Hno). rewrite Hp. cbn [mapM mbind option_bind]. rewrite Hno.
  destruct ok; cbn [negb]; [|done]. destruct ((UINT8_MAX <? x) || (x <? 0)); [done|]. rewrite IH by lia.
  cbn [mbind option_bind]. destruct (mapM number_of ws) as [[|y ns]|]; [done| |done]. cbn [mbind option_bind mret option_ret]. do 2 f_equal.
  symmetry. change (List.last (y :: ns) n = List.last (y :: ns) x). clear. revert y. induction ns as [|z ns IH]; intros y; [done|]. apply IH.
Qed.

(** A limit: the last of the numbers, 0 if there is none. *)
Definition limit_of (keyword l : list Z) : option Z := ws ← fields keyword l; ns ← numbers_of ws; Some (List.last ns 0).

Lemma numbers_of_bytes ws ns : numbers_of ws = Some ns -> Forall byte ns.
Proof. intros E%mapM_Some. induction E as [|w n ws ns Hn _ IH]; constructor; [by eapply number_of_byte|done]. Qed.

Lemma wp_read_limit keyword put f l x rest (Q : bool -> ser -> Prop) o w k : (forall n, put n = upd (f n)) -> short_line l -> Forall (fun c => c <> 0) keyword ->
  (length keyword <= 30)%nat -> to_read w = l ++ NL :: rest -> limit_of keyword l = Some x ->
  (forall w', to_read w' = rest -> hears (l ++ [NL]) w w' -> Q true (mkSer (f x o) w' k)) -> wp (read_limit keyword put) Q (mkSer o w k).
Proof.
  intros Hput Hl Hk Hkl Hr Hx HQ. apply wp_bind. eapply wp_read_keyword; [exact Hl|done|done|exact Hr|]. intros w' n Hr' Hw' ->.
  specialize (HQ w' Hr' Hw'). unfold limit_of in Hx. destruct (fields keyword l) as [ws|]; [|done]. cbn [mbind option_bind] in Hx.
  intros [Hws Hlen]. apply wp_bind. eapply wp_lift; [apply number_loop_ahead; [done|destruct Hl; change BUFFER with 1024%nat; lia|change BUFFER with 1024%nat; lia]|].
  destruct (numbers_of ws) as [ns|] eqn:Hns; [|done]. injection Hx as <-. rewrite Hput. apply numbers_of_bytes in Hns.
  assert (0 <= List.last ns 0 < 256). { clear HQ. induction Hns as [|n ns Hn Hns IH]; [cbn; lia|]. destruct ns; [exact Hn|exact IH]. }
  rewrite to_ushort_id by lia. apply wp_bind, wp_upd_obj, wp_ret. exact HQ.
Qed.

(** A status: a name of one, or nothing. *)
Definition status_line (l : list Z) : Prop :=
  exists ws, fields (lit "STATUS") l = Some ws /\ match ws with [] => True | v :: _ => exists s, s ∈ status_names /\ take (length s) v = s end.

Lemma starts_with_one_hit v r names s : token v -> Forall (fun n => Forall (fun c => c <> 0) n /\ (length n <= length v + S (length r))%nat) names ->
  s ∈ names -> take (length s) v = s -> starts_with_one (v ++ 0 :: r) names = Some true.
Proof.
  intros Hv Hn Hs Ht. induction Hn as [|n names [Hn0 Hnl] _ IH]; [by apply elem_of_nil in Hs|]. cbn [starts_with_one]. rewrite memcmp_token by done. cbn [mbind option_bind].
  destruct (bool_decide (take (length n) v = n)) eqn:E; [done|]. apply bool_decide_eq_false in E. apply elem_of_cons in Hs as [->|Hs]; [done|by apply IH].
Qed.

Lemma wp_readStatus l rest (Q : bool -> ser -> Prop) o w k : short_line l -> (length l <= 1000)%nat -> to_read w = l ++ NL :: rest -> status_line l ->
  (forall w', to_read w' = rest -> hears (l ++ [NL]) w w' -> Q true (mkSer (put_from no_address o) w' k)) -> wp readStatus Q (mkSer o w k).
Proof.
  intros Hl Hlen Hr (ws & Hf & Hst) HQ. apply wp_bind. eapply wp_read_keyword; [exact Hl|by repeat constructor|cbn; lia|exact Hr|]. intros w' n Hr' Hw' ->.
  rewrite Hf. intros [Hws _]. specialize (HQ w' Hr' Hw'). apply wp_bind, wp_upd_obj, wp_bind. destruct ws as [|v vs]; [by eapply wp_lift|]. destruct Hst as (s & Hs & Ht).
  apply Forall_cons in Hws as [Hv _]. destruct (strsep_ahead v vs (BUFFER - S (length l)) Hv ltac:(change BUFFER with 1024%nat; lia)) as (r & Hsep & Hr3).
  eapply wp_lift; [exact Hsep|]. cbn beta iota. eapply wp_lift; [eapply starts_with_one_hit; [done| |exact Hs|exact Ht]|exact HQ].
  change BUFFER with 1024%nat in Hr3. assert (13 <= length v + S (length r))%nat by lia. unfold status_names. cbn [map].
  repeat (apply Forall_cons_2; [split; [by repeat constructor|cbn [lit length map list_ascii_of_string]; lia]|]). apply Forall_nil_2.
Qed.

End Rules.

(** ** What is written is what is read *)

(** A keyword and numbers, as [sendAddress] and [sendData] write them. *)
Definition numbers_line (keyword : string) (ns : list Z) : list Z := lit keyword ++ spaced (map dec ns).

Definition byte_text (b : Z) : bool :=
  forallb (fun c => negb (c =? SP) && negb (c =? NL) && negb (c =? 0)) (dec b) && (length (dec b) <=? 3)%nat &&
  bool_decide (number_of (dec b) = Some b) && bool_decide (number_of (dec b ++ [NL]) = Some b).
Lemma byte_texts b : byte b -> byte_text b = true.
Proof. apply (byte_forallb byte_text). by vm_compute. Qed.

Lemma dec_token b : byte b -> token (dec b) /\ Forall (fun c => c <> NL /\ c <> 0) (dec b) /\ (length (dec b) <= 3)%nat /\
  number_of (dec b) = Some b /\ number_of (dec b ++ [NL]) = Some b.
Proof.
  intros Hb. pose proof (byte_texts b Hb) as E. unfold byte_text in E. rewrite !andb_true_iff, forallb_forall in E. destruct E as [[[Hc Hl] H1] H2].
  apply bool_decide_eq_true in H1, H2. split_and!; [| |lia|done|done]; apply Forall_forall; intros c Hin%list_elem_of_In; specialize (Hc c Hin); unfold SP, NL in *; lia.
Qed.

Lemma spaced_app a b : spaced (a ++ b) = spaced a ++ spaced b.
Proof. unfold spaced. by rewrite map_app, concat_app. Qed.

Lemma fields_numbers keyword ns : token (lit keyword) -> Forall byte ns ->
  exists ws, fields (lit keyword) (numbers_line keyword ns) = Some ws /\ numbers_of ws = Some ns.
Proof.
  intros Hk Hns. unfold fields, numbers_line.
  assert (Hone : forall x, token (x ++ [NL]) <-> token x) by (intros x; split; [by intros [? _]%Forall_app|intros; apply Forall_app; split; [done|by repeat constructor]]).
  destruct ns as [|b ns _] using rev_ind.
  - exists []. assert (E : (lit keyword ++ spaced (map dec [])) ++ [NL] = (lit keyword ++ [NL]) ++ spaced []) by (unfold spaced; cbn; by rewrite !app_nil_r).
    rewrite E, split_spaced by (try apply Hone; done). by rewrite take_app_length, decide_True.
  - apply Forall_app in Hns as [Hns [Hb _]%Forall_cons]. exists (map dec ns ++ [dec b ++ [NL]]).
    assert (Htok : Forall token (map dec ns ++ [dec b ++ [NL]])).
    { apply Forall_app. split; [apply Forall_map; by eapply Forall_impl; [exact Hns|]; intros x Hx; apply dec_token|]. constructor; [|constructor]. apply Hone. by apply dec_token. }
    assert (E : (lit keyword ++ spaced (map dec (ns ++ [b]))) ++ [NL] = lit keyword ++ spaced (map dec ns ++ [dec b ++ [NL]])).
    { rewrite map_app, !spaced_app, <- !app_assoc. do 2 f_equal. unfold spaced. cbn. by rewrite !app_nil_r. }
    rewrite E, split_spaced by done. rewrite firstn_all, decide_True by done. split; [done|]. apply mapM_Some. apply Forall2_app; [|constructor; [|constructor]].
    + apply Forall2_fmap_l. clear -Hns. induction Hns; [constructor|]. constructor; [by apply dec_token|done].
    + by apply dec_token.
Qed.

Lemma length_spaced_dec ns : Forall byte ns -> (length (spaced (map dec ns)) <= 4 * length ns)%nat.
Proof. induction 1 as [|b ns Hb _ IH]; [done|]. change (spaced (map dec (b :: ns))) with ((SP :: dec b) ++ spaced (map dec ns)). rewrite length_app. destruct (dec_token b Hb) as (_ & _ & ? & _). cbn [length]. lia. Qed.

Lemma short_numbers keyword ns : Forall (fun c => c <> NL /\ c <> 0) (lit keyword) -> Forall byte ns -> (length (lit keyword) + 4 * length ns <= 1020)%nat ->
  short_line (numbers_line keyword ns).
Proof.
  intros Hk Hns Hl. split; [|unfold numbers_line; rewrite length_app; pose proof (length_spaced_dec ns Hns); lia]. apply Forall_app. split; [done|].
  clear Hl. induction Hns as [|b ns Hb _ IH]; [constructor|]. change (spaced (map dec (b :: ns))) with ((SP :: dec b) ++ spaced (map dec ns)).
  apply Forall_app. split; [constructor; [done|by apply dec_token]|done].
Qed.

Lemma data_of_numbers ns : Forall byte ns -> data_of (numbers_line "DATA" ns) = ns.
Proof. intros Hns. unfold data_of. destruct (fields_numbers "DATA" ns) as (ws & E & Hn); [by repeat constructor|done|]. rewrite E. cbn [mbind option_bind]. by rewrite Hn. Qed.
Lemma address_of_numbers `{MqttSn} keyword ns : token (lit keyword) -> Forall byte ns -> length ns = sizeof_device_address ->
  address_of (lit keyword) (numbers_line keyword ns) = Some ns.
Proof.
  intros Hk Hns Hl. unfold address_of. destruct (fields_numbers keyword ns) as (ws & E & Hn); [done|done|]. rewrite E. cbn [mbind option_bind]. unfold address_words.
  rewrite Hn. cbn [mbind option_bind]. by rewrite Hl, Nat.eqb_refl.
Qed.

(** ** The conversations *)
Section Spec.
Context `{law : SerialLaw} `{sn : MqttSn}.
Context (address_size : 0 < Z.of_nat sizeof_device_address < 65535).
(** [wait] is one of the two [waitFor], with the fuel [fuel], and [e] is how a command ends. *)
Context (fuel : nat) (wait : list Z -> M ser bool) (e : list Z).
Context (wait_law : forall t s, wait t s = waitFor fuel t s).

(** The bridge says [ls], and then the line [t] that is waited for. *)
Definition answer (ls : list (list Z)) (t : string) : list Z := as_lines ls ++ text_line t.
Definition answers (ls : list (list Z)) (t : string) : Prop := chatter (lit t) ls /\ short_line (lit t).
(** ... and then a line of its own. *)
Definition answer_line (ls : list (list Z)) (t : string) (l : list Z) : list Z := answer ls t ++ l ++ [NL].

Lemma wp_wait t ls rest (Q : bool -> ser -> Prop) o w k : answers ls t -> to_read w = answer ls t ++ rest ->
  (length (answer ls t) <= fuel)%nat -> (forall w', to_read w' = rest -> hears (answer ls t) w w' -> Q true (mkSer o w' k)) ->
  wp (wait (text_line t)) Q (mkSer o w k).
Proof.
  intros [Hc Ht] Hr Hf HQ. unfold answer, text_line in *. rewrite <- !app_assoc in Hr. cbn [app] in Hr. rewrite !length_app in Hf. cbn [length] in Hf.
  unfold wp. rewrite wait_law. eapply wp_waitFor; [exact Ht|exact Hc|exact Hr|lia|exact HQ].
Qed.

(** What passes while [send] runs. *)
Definition send_traffic (ls1 ls2 ls3 ls4 : list (list Z)) (destination bs : list Z) : list passing :=
  map Said (lit "SEND" ++ e) ++ map Heard (answer ls1 "OK AWAIT_ADDRESS") ++
  map Said (numbers_line "ADDRESS" destination ++ e) ++ map Heard (answer ls2 "OK AWAIT_DATA") ++
  map Said (numbers_line "DATA" bs ++ e) ++ map Heard (answer ls3 "OK SENDING" ++ answer ls4 "OK IDLE").

(** [SEND] and its questions.  The length is cut to eight bits. *)
Lemma wp_send ls1 ls2 ls3 ls4 rest (Q : bool -> ser -> Prop) destination bs len strength o w k :
  answers ls1 "OK AWAIT_ADDRESS" -> answers ls2 "OK AWAIT_DATA" -> answers ls3 "OK SENDING" -> answers ls4 "OK IDLE" ->
  (length (to_read w) <= fuel)%nat -> 0 <= len <= Z.of_nat (length bs) ->
  to_read w = answer ls1 "OK AWAIT_ADDRESS" ++ answer ls2 "OK AWAIT_DATA" ++ answer ls3 "OK SENDING" ++ answer ls4 "OK IDLE" ++ rest ->
  (forall w', to_read w' = rest -> traffic w' = traffic w ++ send_traffic ls1 ls2 ls3 ls4 destination (take (Z.to_nat (len mod 256)) bs) ->
     Q true (mkSer o w' k)) ->
  wp (send_with_strength wait e destination bs len strength) Q (mkSer o w k).
Proof.
  intros H1 H2 H3 H4 Hf Hlen Hr HQ. rewrite Hr, !length_app in Hf. unfold send_with_strength.
  apply wp_bind, wp_write_text. intros w1 [R1 O1]. apply wp_bind. eapply wp_wait; [exact H1|rewrite R1; exact Hr|lia|]. intros w2 R2 O2.
  apply wp_bind. unfold sendAddress. apply wp_bind, wp_write_text. intros w3 S3. apply wp_bind, wp_write_numbers. intros w4 S4.
  apply wp_write_text. intros w5 S5. destruct (says_app _ _ _ _ _ (says_app _ _ _ _ _ S3 S4) S5) as [R5 O5].
  apply wp_bind. eapply wp_wait; [exact H2|rewrite R5; exact R2|lia|]. intros w6 R6 O6.
  apply wp_bind. unfold sendData. apply wp_bind, wp_write_text. intros w7 S7. unfold to_uchar.
  assert (0 <= len mod 256 <= len) by (zdiv).
  apply wp_bind. destruct (Nat.ltb_spec (length bs) (Z.to_nat (len mod 256))); [lia|]. apply wp_write_numbers. intros w8 S8.
  apply wp_write_text. intros w9 S9. destruct (says_app _ _ _ _ _ (says_app _ _ _ _ _ S7 S8) S9) as [R9 O9].
  apply wp_bind. eapply wp_wait; [exact H3|rewrite R9; exact R6|lia|]. intros w10 R10 O10.
  apply wp_bind. eapply wp_wait; [exact H4|exact R10|lia|]. intros w11 R11 O11. apply wp_ret, HQ; [done|].
  rewrite O11, O10, O9, O6, O5, O2, O1. unfold send_traffic, numbers_line. by rewrite !map_app, <- !app_assoc.
Qed.

(** C12: [send] end to end, with a bridge that may say anything before each of its four lines.  What passes
    on the line is fixed character by character, in this order: SEND goes out; only when OK AWAIT_ADDRESS has been
    read, the address as a line of decimal numbers; only when OK AWAIT_DATA has been read, the data; then
    OK SENDING and OK IDLE are read, and no character behind them.  Of the data only as many bytes go out as the
    length says modulo 256, so none of a message of 256 bytes; and the result is [true]. *)
Theorem Serial_send_spec ls1 ls2 ls3 ls4 rest destination bs len s :
  answers ls1 "OK AWAIT_ADDRESS" -> answers ls2 "OK AWAIT_DATA" -> answers ls3 "OK SENDING" -> answers ls4 "OK IDLE" ->
  (length (to_read (s_port s)) <= fuel)%nat -> 0 <= len <= Z.of_nat (length bs) ->
  to_read (s_port s) = answer ls1 "OK AWAIT_ADDRESS" ++ answer ls2 "OK AWAIT_DATA" ++ answer ls3 "OK SENDING" ++ answer ls4 "OK IDLE" ++ rest ->
  exists w', send wait e destination bs len s = Some (true, mkSer (s_obj s) w' (s_sn s)) /\ to_read w' = rest /\
    traffic w' = traffic (s_port s) ++
      map Said (lit "SEND" ++ e) ++ map Heard (answer ls1 "OK AWAIT_ADDRESS") ++
      map Said (numbers_line "ADDRESS" destination ++ e) ++ map Heard (answer ls2 "OK AWAIT_DATA") ++
      map Said (numbers_line "DATA" (take (Z.to_nat (len mod 256)) bs) ++ e) ++ map Heard (answer ls3 "OK SENDING" ++ answer ls4 "OK IDLE").
Proof.
  intros H1 H2 H3 H4 Hf Hlen Hr. destruct s as [o w k]. cbn [s_obj s_port s_sn] in *.
  assert (wp (send wait e destination bs len) (fun r s' => exists w', r = true /\ s' = mkSer o w' k /\ to_read w' = rest /\
    traffic w' = traffic w ++ send_traffic ls1 ls2 ls3 ls4 destination (take (Z.to_nat (len mod 256)) bs)) (mkSer o w k)) as Hwp.
  { eapply wp_send; [exact H1|exact H2|exact H3|exact H4|exact Hf|exact Hlen|exact Hr|]. intros w' Hr' Hw'. by exists w'. }
  apply wp_Some in Hwp as (r & s' & Hrun & w' & -> & -> & Hr' & Hw'). by exists w'.
Qed.

(** [RECEIVE] and its questions. *)
Lemma wp_loop ls1 la ls2 ld ls3 rest k' (Q : bool -> ser -> Prop) o w k :
  let from := default no_address (address_of (lit "ADDRESS") la) in let bs := data_of ld in
  0 < fd o -> mqttSnMessageHandler o = true -> answers ls1 "OK SEND_ADDRESS" -> answers ls2 "OK SEND_DATA" -> answers ls3 "OK IDLE" ->
  short_line la -> short_line ld -> (length (to_read w) <= fuel)%nat ->
  to_read w = answer_line ls1 "OK SEND_ADDRESS" la ++ answer_line ls2 "OK SEND_DATA" ld ++ answer ls3 "OK IDLE" ++ rest ->
  receiveData from (data_array bs) k = Some (tt, k') ->
  (forall w', to_read w' = rest -> traffic w' = traffic w ++ map Said (lit "RECEIVE" ++ e) ++
       map Heard (answer_line ls1 "OK SEND_ADDRESS" la ++ answer_line ls2 "OK SEND_DATA" ld ++ answer ls3 "OK IDLE") ->
     Q true (mkSer (put_data (data_array bs) (Z.of_nat (length bs)) (put_from from o)) w' (if default 0 (head from) =? 0 then k else k'))) ->
  wp (loop wait e) Q (mkSer o w k).
Proof.
  intros from bs Hfd Hh H1 H2 H3 Hla Hld Hf Hr Hrec HQ. unfold answer_line in Hr. rewrite <- !app_assoc in Hr. cbn [app] in Hr.
  rewrite Hr in Hf. repeat rewrite ?length_app, ?length_cons in Hf. unfold loop. apply wp_bind, wp_get_obj. cbn [s_obj].
  destruct (Z.ltb_spec (fd o) 0); [lia|]. destruct (Z.ltb_spec 0 (fd o)); [|lia]. cbn [negb].
  apply wp_bind, wp_write_text. intros w1 [R1 O1]. apply wp_bind. eapply wp_wait; [exact H1|rewrite R1; exact Hr|lia|]. intros w2 R2 O2.
  apply wp_bind. eapply wp_readSendAddress; [exact address_size|exact Hla|exact R2|]. intros w3 R3 O3. fold from.
  apply wp_bind. eapply wp_wait; [exact H2|exact R3|lia|]. intros w4 R4 O4.
  apply wp_bind. eapply wp_readData; [exact Hld|exact R4|]. intros w5 R5 O5. fold bs.
  apply wp_bind. eapply wp_wait; [exact H3|exact R5|lia|]. intros w6 R6 O6.
  apply wp_bind, wp_get_obj. cbn [s_obj put_data put_from from_address data].
  assert (Hhead : exists c, head from = Some c).
  { assert (length from = sizeof_device_address) as Hl.
    { unfold from, address_of. destruct (fields (lit "ADDRESS") la) as [ws|]; [|apply length_no_address]. cbn [mbind option_bind].
      unfold address_words. destruct (numbers_of ws) as [ns|]; [|apply length_no_address]. cbn [mbind option_bind].
      by destruct (Nat.eqb_spec (length ns) sizeof_device_address); [|apply length_no_address]. }
    destruct from; [cbn in Hl; lia|by eexists]. }
  destruct Hhead as [c Hc]. apply wp_bind. eapply wp_lift; [exact Hc|]. specialize (HQ w6 R6). rewrite Hc in HQ. cbn [default from_option] in HQ.
  assert (Hout : traffic w6 = traffic w ++ map Said (lit "RECEIVE" ++ e) ++
       map Heard (answer_line ls1 "OK SEND_ADDRESS" la ++ answer_line ls2 "OK SEND_DATA" ld ++ answer ls3 "OK IDLE")).
  { unfold hears in *. rewrite O6, O5, O4, O3, O2, O1. unfold answer_line. by rewrite !map_app, <- !app_assoc. }
  specialize (HQ Hout). cbn [id] in HQ. apply wp_bind. revert HQ.
  destruct (c =? 0); cbn [negb]; intros HQ; [by apply wp_ret, wp_ret|]. unfold wp at 1, on_sn.
  cbn [s_obj put_data put_from mqttSnMessageHandler s_sn s_port]. rewrite Hh, Hrec. by apply wp_ret.
Qed.

(** C13: [loop] end to end, whatever the two lines of the bridge are: the core is given the numbers of the
    data line with the address of the address line, in an array of zeros and without their
    number; a line that is not numbers of a byte counts as no data.  An address line that is not as
    many numbers as an address has bytes, and any address whose first byte is 0, is dropped.  RECEIVE goes out
    before anything is read, and nothing else goes out. *)
Theorem Serial_loop_spec ls1 la ls2 ld ls3 rest k' s :
  let from := default no_address (address_of (lit "ADDRESS") la) in let bs := data_of ld in
  0 < fd (s_obj s) -> mqttSnMessageHandler (s_obj s) = true -> answers ls1 "OK SEND_ADDRESS" -> answers ls2 "OK SEND_DATA" -> answers ls3 "OK IDLE" ->
  short_line la -> short_line ld -> (length (to_read (s_port s)) <= fuel)%nat ->
  to_read (s_port s) = answer_line ls1 "OK SEND_ADDRESS" la ++ answer_line ls2 "OK SEND_DATA" ld ++ answer ls3 "OK IDLE" ++ rest ->
  receiveData from (data_array bs) (s_sn s) = Some (tt, k') ->
  exists w', loop wait e s = Some (true, mkSer (put_data (data_array bs) (Z.of_nat (length bs)) (put_from from (s_obj s))) w'
      (if default 0 (head from) =? 0 then s_sn s else k')) /\
    to_read w' = rest /\ written w' = written (s_port s) ++ lit "RECEIVE" ++ e /\
    traffic w' = traffic (s_port s) ++ map Said (lit "RECEIVE" ++ e) ++
      map Heard (answer_line ls1 "OK SEND_ADDRESS" la ++ answer_line ls2 "OK SEND_DATA" ld ++ answer ls3 "OK IDLE").
Proof.
  intros from bs Hfd Hh H1 H2 H3 Hla Hld Hf Hr Hrec. destruct s as [o w k]. cbn [s_obj s_port s_sn] in *.
  set (T := map Said (lit "RECEIVE" ++ e) ++ map Heard (answer_line ls1 "OK SEND_ADDRESS" la ++ answer_line ls2 "OK SEND_DATA" ld ++ answer ls3 "OK IDLE")).
  assert (wp (loop wait e) (fun r s' => exists w', (r, s') = (true, mkSer (put_data (data_array bs) (Z.of_nat (length bs)) (put_from from o)) w'
      (if default 0 (head from) =? 0 then k else k')) /\ to_read w' = rest /\ traffic w' = traffic w ++ T) (mkSer o w k)) as Hwp.
  { eapply wp_loop; [done|done|exact H1|exact H2|exact H3|exact Hla|exact Hld|exact Hf|exact Hr|exact Hrec|]. intros w' Hr' Hw'. by exists w'. }
  apply wp_Some in Hwp as (r & s' & Hrun & w' & [= -> ->] & Hr' & Hw'). exists w'. split_and!; [exact Hrun|exact Hr'| |exact Hw'].
  unfold written. rewrite Hw'. unfold T. by rewrite !omap_app, omap_said, omap_heard, app_nil_r.
Qed.

(** C16: the lines that [send] writes for an address and a message are lines from which [loop] hands the core
    the same address and the same bytes.  For every message of fewer than 255 bytes and every address
    of at most 250 bytes whose first byte is not 0: [send] writes exactly SEND, the ADDRESS line and the DATA
    line, and a socket whose bridge passes these two lines on gives the core that address and, in an array of zeros,
    those bytes.  (A DATA line of 255 numbers of three digits does not fit the buffer it is read into, see
    [long_line_undefined]; an address that starts with 0 is dropped, see [Serial_loop_spec].) *)
Theorem bridge_roundtrip ls1 ls2 ls3 ls4 rest a bs s ms1 ms2 ms3 rest' k' s' :
  answers ls1 "OK AWAIT_ADDRESS" -> answers ls2 "OK AWAIT_DATA" -> answers ls3 "OK SENDING" -> answers ls4 "OK IDLE" ->
  answers ms1 "OK SEND_ADDRESS" -> answers ms2 "OK SEND_DATA" -> answers ms3 "OK IDLE" ->
  Forall byte bs -> (length bs < 255)%nat -> Forall byte a -> length a = sizeof_device_address -> (sizeof_device_address <= 250)%nat ->
  head a <> Some 0 -> 0 < fd (s_obj s') -> mqttSnMessageHandler (s_obj s') = true ->
  to_read (s_port s) = answer ls1 "OK AWAIT_ADDRESS" ++ answer ls2 "OK AWAIT_DATA" ++ answer ls3 "OK SENDING" ++ answer ls4 "OK IDLE" ++ rest ->
  (length (to_read (s_port s)) <= fuel)%nat -> (length (to_read (s_port s')) <= fuel)%nat ->
  receiveData a (data_array bs) (s_sn s') = Some (tt, k') ->
  let address_line := numbers_line "ADDRESS" a in let data_line := numbers_line "DATA" bs in
  to_read (s_port s') = answer_line ms1 "OK SEND_ADDRESS" address_line ++ answer_line ms2 "OK SEND_DATA" data_line ++ answer ms3 "OK IDLE" ++ rest' ->
  exists w s2, send wait e a bs (Z.of_nat (length bs)) s = Some (true, mkSer (s_obj s) w (s_sn s)) /\
    written w = written (s_port s) ++ lit "SEND" ++ e ++ address_line ++ e ++ data_line ++ e /\
    loop wait e s' = Some (true, s2) /\ s_sn s2 = k' /\ from_address (s_obj s2) = a /\ data (s_obj s2) = data_array bs /\
    data_length (s_obj s2) = Z.of_nat (length bs) /\ to_read (s_port s2) = rest'.
Proof.
  intros H1 H2 H3 H4 H5 H6 H7 Hbs Hlen Ha Hl Hsz Hne Hfd Hh Hr Hf Hf' Hrec al dl Hr'. destruct s as [o w k], s' as [o' w' k0]. cbn [s_obj s_port s_sn] in *.
  assert (Hmod : take (Z.to_nat (Z.of_nat (length bs) mod 256)) bs = bs) by (rewrite Z.mod_small by lia; by rewrite Nat2Z.id, firstn_all).
  assert (wp (send wait e a bs (Z.of_nat (length bs))) (fun r s' => exists w', r = true /\ s' = mkSer o w' k /\
    written w' = written w ++ lit "SEND" ++ e ++ al ++ e ++ dl ++ e) (mkSer o w k)) as Hwp.
  { eapply wp_send; [exact H1|exact H2|exact H3|exact H4|exact Hf|lia|exact Hr|]. intros w1 Hr1 Hw1. exists w1. split_and!; [done|done|].
    unfold written. rewrite Hw1, Hmod. unfold send_traffic. rewrite !omap_app, !omap_said, !omap_heard. cbn [app]. by rewrite app_nil_r, <- !app_assoc. }
  apply wp_Some in Hwp as (r & s1 & Hrun & w1 & -> & -> & Hw1).
  assert (wp (loop wait e) (fun r s2 => r = true /\ s_sn s2 = k' /\ from_address (s_obj s2) = a /\ data (s_obj s2) = data_array bs /\
    data_length (s_obj s2) = Z.of_nat (length bs) /\ to_read (s_port s2) = rest') (mkSer o' w' k0)) as Hwp.
  { eapply wp_loop; [done|done|exact H5|exact H6|exact H7| | |exact Hf'|exact Hr'| |].
    - apply short_numbers; [by repeat constructor|done|change (length (lit "ADDRESS")) with 7%nat; lia].
    - apply short_numbers; [by repeat constructor|done|change (length (lit "DATA")) with 4%nat; lia].
    - unfold al, dl. rewrite address_of_numbers by (done || by repeat constructor). rewrite data_of_numbers by done. exact Hrec.
    - intros w2 Hr2 _. unfold al, dl. rewrite address_of_numbers by (done || by repeat constructor). rewrite data_of_numbers by done.
      cbn [default from_option id s_sn s_port s_obj put_data put_from from_address data data_length].
      destruct a as [|c a]; [cbn in Hl; lia|]. cbn [head default from_option id]. destruct (Z.eqb_spec c 0) as [->|]; done. }
  apply wp_Some in Hwp as (r & s2 & Hrun2 & -> & Hs2). by exists w1, s2.
Qed.

(** The 1025th character of a line has no place in the buffer. *)
Lemma read_line_loop_overrun x rest o k l2 : forall l1 n w, Forall (fun c => c <> NL) l2 -> to_read w = l2 ++ x :: rest ->
  (length l1 + length l2 = BUFFER)%nat -> (length l2 < n)%nat ->
  read_line_loop n (filled l1) (Z.of_nat (length l1)) (mkSer o w k) = None.
Proof.
  induction l2 as [|c l2 IH]; intros l1 n w Hl Hr Hlen Hn; (destruct n as [|n]; [cbn in Hn; lia|]); cbn [read_line_loop app length] in *.
  - destruct (read_char_run x rest o w k Hr) as (w' & E & _). rewrite (M_bind_Some _ _ _ _ _ E).
    replace (Z.of_nat (length l1)) with (Z.of_nat BUFFER) by lia. done.
  - apply Forall_cons in Hl as [Hc Hl]. destruct (read_char_run c _ o w k Hr) as (w' & E & Hr'). rewrite (M_bind_Some _ _ _ _ _ E).
    rewrite (M_bind_lift _ _ _ (filled (l1 ++ [c]))) by (apply put_char_filled; lia). apply Z.eqb_neq in Hc as ->. change BUFFER with 1024%nat in *.
    rewrite to_ushort_id by lia. replace (Z.of_nat (length l1) + 1) with (Z.of_nat (length (l1 ++ [c]))) by (rewrite length_app; cbn; lia).
    apply IH; [done|done|rewrite length_app; cbn; lia|lia].
Qed.
Lemma waitFor_loop_overrun t x rest o k l2 : forall l1 n w, Forall (fun c => c <> NL) l2 -> to_read w = l2 ++ x :: rest ->
  (length l1 + length l2 = BUFFER)%nat -> (length l2 < n)%nat ->
  waitFor_loop n t (filled l1) (Z.of_nat (length l1)) (mkSer o w k) = None.
Proof.
  induction l2 as [|c l2 IH]; intros l1 n w Hl Hr Hlen Hn; (destruct n as [|n]; [cbn in Hn; lia|]); cbn [waitFor_loop app length] in *.
  - destruct (read_char_run x rest o w k Hr) as (w' & E & _). rewrite (M_bind_Some _ _ _ _ _ E).
    replace (Z.of_nat (length l1)) with (Z.of_nat BUFFER) by lia. done.
  - apply Forall_cons in Hl as [Hc Hl]. destruct (read_char_run c _ o w k Hr) as (w' & E & Hr'). rewrite (M_bind_Some _ _ _ _ _ E).
    rewrite (M_bind_lift _ _ _ (filled (l1 ++ [c]))) by (apply put_char_filled; lia). apply Z.eqb_neq in Hc as ->. cbv zeta. change BUFFER with 1024%nat in *.
    rewrite to_ushort_id by lia. replace (Z.of_nat (length l1) + 1) with (Z.of_nat (length (l1 ++ [c]))) by (rewrite length_app; cbn; lia).
    apply IH; [done|done|rewrite length_app; cbn; lia|lia].
Qed.

(** C32: a line of more than 1024 characters is written behind the buffer it is read into, both by [read_line], with which every
    function that takes a line apart begins, and by [waitFor], whatever it waits for.  It is not the fuel that
    runs out: with any fuel of more than 1024 rounds the loops are undefined, where running out of it would be the
    value [None]; and with the fuel of [read_line], a line of up to 1023 characters is read. *)
Theorem long_line_undefined l t (s : ser) n : Forall (fun c => c <> NL) l -> (length l = BUFFER)%nat -> l `prefix_of` to_read (s_port s) ->
  (BUFFER < length (to_read (s_port s)))%nat -> (BUFFER < n)%nat ->
  read_line_loop n (zero_bytes BUFFER) 0 s = None /\ read_line s = None /\
  waitFor_loop n t (zero_bytes BUFFER) 0 s = None /\ waitFor n t s = None /\
  forall l' w rest, Forall (fun c => c <> NL) l' -> (length l' < BUFFER)%nat -> to_read w = l' ++ NL :: rest ->
    exists w', read_line (mkSer (s_obj s) w (s_sn s)) = Some (filled (l' ++ [NL]), mkSer (s_obj s) w' (s_sn s)) /\ to_read w' = rest.
Proof.
  intros Hl Hlen [rest Hr] Hmore Hn. rewrite Hr, length_app in Hmore. destruct rest as [|x rest]; [cbn in Hmore; lia|]. destruct s as [o w k]. cbn [s_port] in Hr.
  assert (H1 : forall n, (BUFFER < n)%nat -> read_line_loop n (zero_bytes BUFFER) 0 (mkSer o w k) = None)
    by (intros j Hj; apply (read_line_loop_overrun x rest o k l []); [done|done|done|lia]).
  assert (H2 : waitFor_loop n t (zero_bytes BUFFER) 0 (mkSer o w k) = None) by (apply (waitFor_loop_overrun t x rest o k l []); [done|done|done|lia]).
  split_and!; [by apply H1| |exact H2| |].
  - unfold read_line, mbind, M_bind. by rewrite H1 by lia.
  - unfold waitFor, mbind, M_bind. by rewrite H2.
  - intros l' w1 rest1 Hl' Hlen' Hr1. cbn [s_obj s_sn].
    assert (wp read_line (fun r s' => r = filled (l' ++ [NL]) /\ exists w', s' = mkSer o w' k /\ to_read w' = rest1) (mkSer o w1 k)) as Hwp
      by (eapply wp_read_line; [exact Hl'|exact Hr1|exact Hlen'|]; intros w' Hw' _; split; [done|by exists w']).
    apply wp_Some in Hwp as (r & s' & Hrun & -> & w' & -> & Hw'). by exists w'.
Qed.

(** What a bridge answers to [CONFIGURATION]: what it says before its lines, and the lines. *)
Record bridge := mkBridge {
  b_chat : nat -> list (list Z); b_status : list Z; b_own : list Z; b_broadcast : list Z; b_maximum : list Z; b_buffer : list Z
}.
Definition configuration (b : bridge) : list Z :=
  answer_line (b_chat b 1) "OK SEND_STATUS" (b_status b) ++ answer_line (b_chat b 2) "OK SEND_OWN_ADDRESS" (b_own b) ++
  answer_line (b_chat b 3) "OK SEND_BROADCAST_ADDRESS" (b_broadcast b) ++
  answer_line (b_chat b 4) "OK SEND_MAXIMUM_MESSAGE_LENGTH" (b_maximum b) ++
  answer_line (b_chat b 5) "OK SEND_SERIAL_BUFFER_SIZE" (b_buffer b) ++ answer (b_chat b 6) "OK IDLE".
(** All of it is well-formed; its own address may be [N/A] or otherwise not one. *)
Definition bridge_ok (b : bridge) (broadcast : list Z) (maximum buffer : Z) : Prop :=
  answers (b_chat b 1) "OK SEND_STATUS" /\ answers (b_chat b 2) "OK SEND_OWN_ADDRESS" /\ answers (b_chat b 3) "OK SEND_BROADCAST_ADDRESS" /\
  answers (b_chat b 4) "OK SEND_MAXIMUM_MESSAGE_LENGTH" /\ answers (b_chat b 5) "OK SEND_SERIAL_BUFFER_SIZE" /\ answers (b_chat b 6) "OK IDLE" /\
  short_line (b_status b) /\ (length (b_status b) <= 1000)%nat /\ short_line (b_own b) /\ short_line (b_broadcast b) /\ short_line (b_maximum b) /\
  short_line (b_buffer b) /\ status_line (b_status b) /\ broadcast_of (b_broadcast b) = Some broadcast /\
  limit_of (lit "MAXIMUM_MESSAGE_LENGTH") (b_maximum b) = Some maximum /\ limit_of (lit "SERIAL_BUFFER_SIZE") (b_buffer b) = Some buffer.

Lemma wp_ask ls t l rest (read kont : M ser bool) (Q : bool -> ser -> Prop) o w k :
  answers ls t -> to_read w = answer_line ls t l ++ rest -> (length (answer ls t) <= fuel)%nat ->
  (forall w', to_read w' = l ++ NL :: rest -> hears (answer ls t) w w' -> wp read (fun ok s' => if (ok : bool) then wp kont Q s' else Q false s') (mkSer o w' k)) ->
  wp (ask wait (text_line t) read kont) Q (mkSer o w k).
Proof.
  intros Ha Hr Hf HQ. unfold answer_line in Hr. rewrite <- !app_assoc in Hr. cbn [app] in Hr. unfold ask. apply wp_bind.
  eapply wp_wait; [exact Ha|exact Hr|exact Hf|]. intros w' Hr' Hw'. cbn [negb]. apply wp_bind. eapply wp_mono; [by apply HQ|].
  intros [] s' Hs'; cbn [negb]; [exact Hs'|by apply wp_ret].
Qed.

Lemma wp_updateConfiguration b broadcast maximum buffer rest (Q : bool -> ser -> Prop) o w k :
  bridge_ok b broadcast maximum buffer -> to_read w = configuration b ++ rest -> (length (to_read w) <= fuel)%nat ->
  match address_of (lit "OWN_ADDRESS") (b_own b) with
  | Some own => forall w', to_read w' = rest -> written w' = written w ++ lit "CONFIGURATION" ++ e ->
      Q true (mkSer (put_limits maximum buffer (put_addresses own broadcast (put_from no_address o))) w' k)
  | None => forall s', Q false s'
  end -> wp (updateConfiguration wait e) Q (mkSer o w k).
Proof.
  intros (A1 & A2 & A3 & A4 & A5 & A6 & L1 & L1' & L2 & L3 & L4 & L5 & Hst & Hbc & Hmx & Hsb) Hr Hf HQ.
  rewrite Hr in Hf. unfold configuration, answer_line in Hf, Hr. repeat rewrite ?length_app, ?length_cons in Hf. rewrite <- !app_assoc in Hr. cbn [app] in Hr.
  assert (Hassoc : forall ls t l (r : list Z), answer_line ls t l ++ r = answer ls t ++ l ++ NL :: r) by (intros; unfold answer_line; by rewrite <- !app_assoc).
  apply wp_bind, wp_write_text. intros w1 [R1 O1]. rewrite Hr in R1.
  eapply wp_ask; [exact A1|rewrite Hassoc; exact R1|lia|]. intros w2 R2 O2.
  eapply wp_readStatus; [exact L1|exact L1'|exact R2|exact Hst|]. intros w3 R3 O3.
  eapply wp_ask; [exact A2|rewrite Hassoc; exact R3|lia|]. intros w4 R4 O4.
  eapply wp_readOwnAddress; [exact address_size|exact L2|exact R4|]. intros w5 R5 O5.
  destruct (address_of (lit "OWN_ADDRESS") (b_own b)) as [own|]; [|intros o'; apply HQ].
  eapply wp_ask; [exact A3|rewrite Hassoc; exact R5|lia|]. intros w6 R6 O6.
  eapply wp_readBroadcastAddress; [exact address_size|exact L3|exact R6|exact Hbc|]. intros w7 R7 O7.
  eapply wp_ask; [exact A4|rewrite Hassoc; exact R7|lia|]. intros w8 R8 O8.
  eapply (wp_read_limit _ _ (fun n o => put_limits n (serialBufferSize o) o)); [done|exact L4|by repeat constructor|cbn; lia|exact R8|exact Hmx|]. intros w9 R9 O9.
  eapply wp_ask; [exact A5|rewrite Hassoc; exact R9|lia|]. intros w10 R10 O10.
  eapply (wp_read_limit _ _ (fun n o => put_limits (maximumMessageLength o) n o)); [done|exact L5|by repeat constructor|cbn; lia|exact R10|exact Hsb|]. intros w11 R11 O11.
  eapply wp_wait; [exact A6|exact R11|lia|]. intros w12 R12 O12. apply HQ; [done|]. unfold written, hears in *.
  rewrite O12, O11, O10, O9, O8, O7, O6, O5, O4, O3, O2, O1. by rewrite !omap_app, !omap_heard, omap_said, !app_nil_r.
Qed.

End Spec.

Section Begin.
Context `{law : SerialLaw} `{sn : MqttSn}.
Context (address_size : 0 < Z.of_nat sizeof_device_address < 65535).

(** [begin] once the serial line is open: the bridge is reset and asked for its configuration, the
    addresses and limits it answers are those of the socket, and the core is told.  A broadcast
    address of [N/A] is all zeros; a bridge whose own address is [N/A], or is no address, is refused. *)
Theorem Serial_begin_spec fuel b broadcast maximum buffer ls rest f w1 k1 s :
  let o := s_obj s in let o1 := put_fd f (put_addresses no_address no_address o) in
  logger o = true -> mqttSnMessageHandler o = true ->
  initSerialPort (mkSer (put_addresses no_address no_address o) (s_port s) (s_sn s)) = Some (true, mkSer o1 w1 (s_sn s)) ->
  answers ls "OK IDLE" -> bridge_ok b broadcast maximum buffer -> to_read w1 = answer ls "OK IDLE" ++ configuration b ++ rest ->
  (length (to_read w1) <= fuel)%nat -> notify_socket_connected (s_sn s) = Some (tt, k1) ->
  match address_of (lit "OWN_ADDRESS") (b_own b) with
  | Some own => exists w', begin fuel s = Some (true, mkSer (put_limits maximum buffer (put_addresses own broadcast (put_from no_address o1))) w' k1) /\
      to_read w' = rest /\ written w' = written w1 ++ lit "RESET" ++ [NL; 0] ++ text_line "CONFIGURATION"
  | None => exists s', begin fuel s = Some (false, s')
  end.
Proof.
  destruct s as [o w k]. cbn [s_obj s_port s_sn]. set (o1 := put_fd f (put_addresses no_address no_address o)). intros Hlog Hh Hinit Hls Hb Hr Hf Hn.
  assert (forall Q : bool -> ser -> Prop, match address_of (lit "OWN_ADDRESS") (b_own b) with
    | Some own => forall w', to_read w' = rest -> written w' = written w1 ++ lit "RESET" ++ [NL; 0] ++ text_line "CONFIGURATION" ->
        Q true (mkSer (put_limits maximum buffer (put_addresses own broadcast (put_from no_address o1))) w' k1)
    | None => forall s', Q false s' end -> wp (begin fuel) Q (mkSer o w k)) as Hwp.
  { intros Q HQ. unfold begin. apply wp_bind, wp_get_obj. cbn [s_obj]. rewrite Hlog, Hh. cbn [negb]. apply wp_bind, wp_upd_obj, wp_bind.
    eapply wp_run; [exact Hinit|]. cbn [negb]. apply wp_bind. unfold resetController. apply wp_bind, wp_write_text. intros w2 S2. pose proof (says_written _ _ _ S2) as O2. destruct S2 as [R2 _].
    rewrite Hr, length_app in Hf. eapply (wp_wait fuel); [done|exact Hls|rewrite R2; exact Hr|lia|]. intros w3 R3 O3. cbn [negb]. apply wp_bind.
    eapply (wp_updateConfiguration address_size fuel); [done|exact Hb|exact R3|rewrite R3; lia|].
    destruct (address_of (lit "OWN_ADDRESS") (b_own b)) as [own|]; cbn [negb]; [|intros s'; apply wp_ret, HQ].
    intros w4 R4 O4. cbn [negb]. apply wp_bind. unfold wp at 1, on_sn. cbn [s_obj put_limits put_addresses put_from put_fd o1 mqttSnMessageHandler s_sn s_port].
    rewrite Hh, Hn. apply wp_ret. apply HQ; [done|]. rewrite O4, (hears_written _ _ _ O3), O2. by rewrite <- !app_assoc. }
  destruct (address_of (lit "OWN_ADDRESS") (b_own b)) as [own|].
  - destruct (wp_Some (begin fuel) _ _ (Hwp (fun r s' => exists w', (r, s') = (true, mkSer (put_limits maximum buffer (put_addresses own broadcast (put_from no_address o1))) w' k1) /\
      to_read w' = rest /\ written w' = written w1 ++ lit "RESET" ++ [NL; 0] ++ text_line "CONFIGURATION")
      ltac:(intros w' ? ?; by exists w'))) as (r & s' & Hrun & w' & [= -> ->] & Hrest). by exists w'.
  - destruct (wp_Some (begin fuel) _ _ (Hwp (fun r _ => r = false) ltac:(done))) as (r & s' & Hrun & ->). by exists s'.
Qed.
End Begin.

(** ** Examples *)

(** A line in memory, and a core that keeps what it receives. *)
Definition sim_port : SerialOs := {|
  SW := list Z * list passing;
  sys_open _ _ w := Some (3, w);
  tcgetattr _ w := Some ((0, mkTermios 0 0 0 0 0 0), w);
  tcsetattr _ _ w := Some (0, w);
  cfsetospeed t _ := t;
  cfsetispeed t _ := t;
  sys_read _ w := match w.1 with c :: r => Some ((1, c), (r, w.2 ++ [Heard c])) | [] => Some ((-1, 0), w) end;
  sys_write _ bs w := Some (Z.of_nat (length bs), (w.1, w.2 ++ map Said bs))
|}.
Definition sim_sn : MqttSn := {|
  SN := list (list Z * list Z);
  sizeof_device_address := 2;
  notify_socket_connected k := Some (tt, k);
  notify_socket_disconnected k := Some (tt, k);
  receiveData a d k := Some (tt, k ++ [(a, d)])
|}.
#[local] Existing Instances sim_port sim_sn.
#[local] Instance sim_port_law : SerialLaw.
Proof.
  refine (@Build_SerialLaw sim_port fst snd _ _); [|intros f bs w; by exists (Z.of_nat (length bs)), (w.1, w.2 ++ map Said bs)].
  intros f c rest [i o] E. cbn in *. subst. by exists (rest, o ++ [Heard c]).
Defined.

Lemma ex_size : 0 < Z.of_nat (@sizeof_device_address sim_sn) < 65535.
Proof. cbn. lia. Qed.
Definition ex_serial : SerialObj := mkSerial 3 true true [0; 0] [0; 0] 0 0 [0; 0] [] 0 STARTING.
Definition ex_ser (input : list Z) : ser := mkSer ex_serial (input, []) [].
Definition ex_hello : list (list Z) := [lit "BRIDGE READY"].

Ltac short := split; [by repeat constructor|cbn; lia].
Lemma ex_answers t : short_line (lit t) -> lit t <> lit "BRIDGE READY" -> answers ex_hello t /\ answers [] t.
Proof. intros Ht Hne. split; (split; [|done]); repeat constructor; try done; cbn; lia. Qed.
Ltac answered := apply ex_answers; [short|done].

Definition ex_send_script : list Z :=
  answer ex_hello "OK AWAIT_ADDRESS" ++ answer [] "OK AWAIT_DATA" ++ answer ex_hello "OK SENDING" ++ answer [] "OK IDLE" ++ [88].
Lemma Serial_send_spec_witness : exists w', send (waitFor 200) [NL] [7; 200] [3; 4; 255] 3 (ex_ser ex_send_script) = Some (true, mkSer ex_serial w' []) /\
  to_read w' = [88] /\ traffic w' = map Said (text_line "SEND") ++ map Heard (answer ex_hello "OK AWAIT_ADDRESS") ++ map Said (text_line "ADDRESS 7 200") ++
    map Heard (answer [] "OK AWAIT_DATA") ++ map Said (text_line "DATA 3 4 255") ++ map Heard (answer ex_hello "OK SENDING" ++ answer [] "OK IDLE").
Proof.
  destruct (Serial_send_spec 200 (waitFor 200) [NL] ltac:(done) ex_hello [] ex_hello [] [88] [7; 200] [3; 4; 255] 3 (ex_ser ex_send_script)) as (w' & Hrun & Hr & Hw);
    [answered|answered|answered|answered|vm_compute; lia|cbn; lia|done|].
  exists w'. split_and!; [exact Hrun|exact Hr|rewrite Hw; vm_compute; reflexivity].
Defined.

Definition ex_loop_script : list Z :=
  answer_line ex_hello "OK SEND_ADDRESS" (lit "ADDRESS 7 0xC8") ++ answer_line [] "OK SEND_DATA" (lit "DATA 3 04 255") ++ answer [] "OK IDLE" ++ [88].
Lemma Serial_loop_spec_witness : exists w', loop (waitFor 200) [NL] (ex_ser ex_loop_script) =
    Some (true, mkSer (put_data (data_array [3; 4; 255]) 3 (put_from [7; 200] ex_serial)) w' [([7; 200], data_array [3; 4; 255])]) /\
  to_read w' = [88] /\ written w' = text_line "RECEIVE".
Proof.
  assert (Ha : default no_address (address_of (lit "ADDRESS") (lit "ADDRESS 7 0xC8")) = [7; 200]) by (vm_compute; reflexivity).
  assert (Hd : data_of (lit "DATA 3 04 255") = [3; 4; 255]) by (vm_compute; reflexivity).
  destruct (Serial_loop_spec ex_size 200 (waitFor 200) [NL] ltac:(done) ex_hello (lit "ADDRESS 7 0xC8") [] (lit "DATA 3 04 255") [] [88] [([7; 200], data_array [3; 4; 255])] (ex_ser ex_loop_script))
    as (w' & Hrun & Hr & Hw & _); [cbn; lia|done|answered|answered|answered|short|short|vm_compute; lia|done|by rewrite Ha, Hd|].
  rewrite Ha, Hd in Hrun. exists w'. split_and!; [exact Hrun|exact Hr|exact Hw].
Defined.

Definition ex_relay_script : list Z :=
  answer_line ex_hello "OK SEND_ADDRESS" (numbers_line "ADDRESS" [7; 200]) ++ answer_line [] "OK SEND_DATA" (numbers_line "DATA" [1; 2; 3]) ++ answer [] "OK IDLE" ++ [88].
Lemma bridge_roundtrip_witness : exists w s2, send (waitFor 200) [NL] [7; 200] [1; 2; 3] 3 (ex_ser ex_send_script) = Some (true, mkSer ex_serial w []) /\
  written w = text_line "SEND" ++ text_line "ADDRESS 7 200" ++ text_line "DATA 1 2 3" /\
  loop (waitFor 200) [NL] (ex_ser ex_relay_script) = Some (true, s2) /\ s_sn s2 = [([7; 200], data_array [1; 2; 3])] /\ to_read (s_port s2) = [88].
Proof.
  destruct (bridge_roundtrip ex_size 200 (waitFor 200) [NL] ltac:(done) ex_hello [] ex_hello [] [88] [7; 200] [1; 2; 3] (ex_ser ex_send_script) ex_hello [] [] [88]
    [([7; 200], data_array [1; 2; 3])] (ex_ser ex_relay_script)) as (w & s2 & Hrun & Hw & Hloop & Hs2 & _ & _ & _ & Hr2);
    [answered|answered|answered|answered|answered|answered|answered|by repeat constructor|cbn; lia|by repeat constructor|done|cbn; lia|done|cbn; lia|done|done|
     vm_compute; lia|vm_compute; lia|done|done|].
  exists w, s2. split_and!; [exact Hrun|rewrite Hw; vm_compute; reflexivity|exact Hloop|exact Hs2|exact Hr2].
Defined.

(** A line that is too long, for [read_line] and for a wait. *)
Lemma long_line_undefined_witness : read_line (ex_ser (replicate 1025 65)) = None /\ waitFor_loop 2000 (text_line "OK IDLE") (zero_bytes BUFFER) 0 (ex_ser (replicate 1025 65)) = None.
Proof.
  destruct (long_line_undefined (replicate 1024 65) (text_line "OK IDLE") (ex_ser (replicate 1025 65)) 2000) as (_ & Hread & Hwait & _);
    [apply Forall_forall; intros x [-> _]%elem_of_replicate; done|by vm_compute|by exists [65]|vm_compute; lia|change BUFFER with 1024%nat; lia|].
  split; [exact Hread|exact Hwait].
Defined.

Definition ex_bridge : bridge := mkBridge (fun _ => ex_hello) (lit "STATUS IDLE") (lit "OWN_ADDRESS 7 200") (lit "BROADCAST_ADDRESS N/A")
  (lit "MAXIMUM_MESSAGE_LENGTH 40") (lit "SERIAL_BUFFER_SIZE 255").
(** The same with no address of its own. *)
Definition ex_mute : bridge := mkBridge (fun _ => ex_hello) (lit "STATUS IDLE") (lit "OWN_ADDRESS N/A") (lit "BROADCAST_ADDRESS N/A")
  (lit "MAXIMUM_MESSAGE_LENGTH 40") (lit "SERIAL_BUFFER_SIZE 255").
Lemma ex_bridge_ok b : b = ex_bridge \/ b = ex_mute -> bridge_ok b [0; 0] 40 255.
Proof.
  assert (Hst : status_line (lit "STATUS IDLE")).
  { exists [lit "IDLE" ++ [NL]]. split; [by vm_compute|]. exists (lit "IDLE"). split; [|by vm_compute]. unfold status_names. cbn [map]. by apply list_elem_of_further, list_elem_of_here. }
  intros [-> | ->]; (split_and!; [answered|answered|answered|answered|answered|answered|short|cbn; lia|short|short|short|short|exact Hst| | |]);
    by vm_compute.
Qed.
Definition ex_start (b : bridge) : ser := ex_ser (answer [] "OK IDLE" ++ configuration b ++ [88]).
Lemma Serial_begin_spec_witness :
  (exists w', begin 900 (ex_start ex_bridge) =
     Some (true, mkSer (put_limits 40 255 (put_addresses [7; 200] [0; 0] (put_from [0; 0] (put_fd 3 (put_addresses [0; 0] [0; 0] ex_serial))))) w' []) /\
     to_read w' = [88] /\ written w' = lit "RESET" ++ [NL; 0] ++ text_line "CONFIGURATION") /\
  (exists s', begin 900 (ex_start ex_mute) = Some (false, s')).
Proof.
  split.
  - pose proof (Serial_begin_spec ex_size 900 ex_bridge [0; 0] 40 255 [] [88] 3 (s_port (ex_start ex_bridge)) [] (ex_start ex_bridge)) as H. cbv zeta in H.
    assert (E : address_of (lit "OWN_ADDRESS") (b_own ex_bridge) = Some [7; 200]) by (vm_compute; reflexivity). rewrite E in H.
    apply H; [done|done|by vm_compute|answered|by apply ex_bridge_ok; left|done|vm_compute; lia|done].
  - pose proof (Serial_begin_spec ex_size 900 ex_mute [0; 0] 40 255 [] [88] 3 (s_port (ex_start ex_mute)) [] (ex_start ex_mute)) as H. cbv zeta in H.
    assert (E : address_of (lit "OWN_ADDRESS") (b_own ex_mute) = None) by (vm_compute; reflexivity). rewrite E in H.
    apply H; [done|done|by vm_compute|answered|by apply ex_bridge_ok; right|done|vm_compute; lia|done].
Defined.
