(* ===== verification/Telnet.v ===== *)
(** * Telnet: LinuxTelnetSocket.cpp

    The MQTT-SN socket of Serial.v with a connection of TCP in place of the serial line.  Its
    object is that of Serial.v, with [fd] for [sock]; what is not here has the text of
    LinuxSerialSocket.cpp. *)
From Stdlib Require Import Strings.String.
From S2P Require Import Prelude CMem Format SnSocket Serial SerialSpec.

(** ** What it asks of the system in addition

    [tcp_connect] is given the address and the port of [server]. *)
Class TelnetOs `{SerialOs} := {
  tcp_socket : M SW Z;
  set_reuseaddr : Z -> M SW Z;
  tcp_connect : Z -> list Z -> Z -> M SW Z;
  tcp_close : Z -> M SW Z;
  sys_sleep : Z -> M SW unit
}.

Definition TELNET_SOCKET_MAXIMUM_MESSAGE_LENGTH : Z := 255.
Definition TELNET_IP_ADDRESS : list Z := lit "192.168.178.20".
Definition TELNET_PORT : Z := 8888.
(** [cmd_termination] *)
Definition CRLF : list Z := [13; 10].

Section Definitions.
Context `{TelnetOs} `{MqttSn}.

(** The length is looked at behind the character it should keep out. *)
Fixpoint Telnet_waitFor_loop (fuel : nat) (toCompare buffer : list Z) (buffer_read : Z) : M ser (option bool) :=
  match fuel with
  | O => mret None
  | S fuel' =>
    c ← read_char;
    buffer ← lift (put_char buffer buffer_read c);
    let buffer_read := to_ushort (buffer_read + 1) in
    if 1024 <? buffer_read then mret (Some false) else
    if c =? NL then
      same ← (if Z.of_nat (length toCompare) =? buffer_read then lift (strcmp_eq_at buffer (toCompare ++ [0])) else mret false);
      if (same : bool) then mret (Some true) else Telnet_waitFor_loop fuel' toCompare (zero_bytes BUFFER) 0
    else Telnet_waitFor_loop fuel' toCompare buffer buffer_read
  end.
Definition Telnet_waitFor (fuel : nat) (toCompare : list Z) : M ser bool :=
  there ← Telnet_waitFor_loop fuel toCompare (zero_bytes BUFFER) 0; lift there.

(** [!(sock = socket(...)) > 0] asks whether the socket is 0. *)
Definition initTelnetPort : M ser bool :=
  sock ← on_port tcp_socket;
  upd (put_fd sock);;
  if sock =? 0 then mret false else
  rc ← on_port (set_reuseaddr sock);
  if rc =? -1 then mret false else
  rc ← on_port (tcp_connect sock TELNET_IP_ADDRESS TELNET_PORT);
  mret (negb (rc <? 0)).

Definition Telnet_updateConfiguration (fuel : nat) : M ser bool := updateConfiguration (Telnet_waitFor fuel) CRLF.

Definition Telnet_begin (fuel : nat) : M ser bool :=
  o ← get_obj;
  if negb (logger o) then mret false else
  if negb (mqttSnMessageHandler o) then mret false else
  upd (put_addresses no_address no_address);;
  up ← initTelnetPort;
  if negb up then mret false else
  up ← Telnet_updateConfiguration fuel;
  if negb up then mret false else
  on_sn notify_socket_connected;; mret true.

Definition Telnet_getMaximumMessageLength (fuel : nat) : M ser Z :=
  o ← get_obj;
  let answer := o ← get_obj; mret (to_uchar (maximumMessageLength o)) in
  if fd o =? -1 then
    up ← initTelnetPort;
    if negb up then mret TELNET_SOCKET_MAXIMUM_MESSAGE_LENGTH else
    up ← Telnet_updateConfiguration fuel;
    if negb up then mret TELNET_SOCKET_MAXIMUM_MESSAGE_LENGTH else
    o ← get_obj;
    _ ← on_port (tcp_close (fd o));
    upd (put_fd (-1));;
    answer
  else answer.

Definition Telnet_send_with_strength (fuel : nat) (destination bytes : list Z) (bytes_len signal_strength : Z) : M ser bool :=
  send_with_strength (Telnet_waitFor fuel) CRLF destination bytes bytes_len signal_strength.
Definition Telnet_send (fuel : nat) (destination bytes : list Z) (bytes_len : Z) : M ser bool :=
  Telnet_send_with_strength fuel destination bytes bytes_len UINT8_MAX.
Definition Telnet_loop (fuel : nat) : M ser bool := loop (Telnet_waitFor fuel) CRLF.

Definition waitForBridgeReady (fuel : nat) : M ser bool := Telnet_waitFor fuel (text_line "RHRF95DatagramConsoleBridge v0.1 ready!").
Definition Telnet_resetController (fuel : nat) : M ser bool :=
  write_text (lit "RESET" ++ CRLF);;
  o ← get_obj;
  _ ← on_port (tcp_close (fd o));
  on_port (sys_sleep 10000);;
  up ← initTelnetPort;
  if negb up then mret false else waitForBridgeReady fuel.

(** ** The two [waitFor] *)

Lemma Telnet_waitFor_loop_same t fuel : forall buffer n s, 0 <= n -> Telnet_waitFor_loop fuel t buffer n s = waitFor_loop fuel t buffer n s.
Proof.
  induction fuel as [|fuel IH]; intros buffer n s Hn; [done|]. cbn [Telnet_waitFor_loop waitFor_loop]. unfold mbind, M_bind. destruct (read_char s) as [[c s1]|]; [|done].
  unfold lift at 1 3, put_char. change BUFFER with 1024%nat. destruct (Z.ltb_spec n (Z.of_nat 1024)); [|done]. cbn [mbind option_bind]. rewrite to_ushort_id by lia.
  destruct (Z.ltb_spec 1024 (n + 1)); [lia|]. destruct (c =? NL); [|apply IH; lia].
  match goal with |- match ?x with _ => _ end = _ => destruct x as [[[] s2]|] end; [done|apply IH; lia|done].
Qed.

(** Telnet's test of the length makes no difference: it comes too late to keep a character out
    of the buffer, and never fails before. *)
Theorem Telnet_waitFor_same fuel t s : Telnet_waitFor fuel t s = waitFor fuel t s.
Proof. unfold Telnet_waitFor, waitFor, mbind, M_bind. by rewrite Telnet_waitFor_loop_same. Qed.
End Definitions.

(** ** Asked before it is connected *)
Section Spec.
Context `{TelnetOs} `{!SerialLaw} `{MqttSn}.
Context (address_size : 0 < Z.of_nat sizeof_device_address < 65535).

(** Asked for the maximum length while there is no connection, the socket connects, reads the whole
    configuration of the bridge, hangs up, and answers the limit the bridge gave; a bridge
    that is refused gets 255 as an answer, and its connection stays open. *)
Theorem Telnet_maximum_spec fuel b broadcast maximum buffer rest f w1 w2 s :
  let o := s_obj s in
  fd o = -1 -> initTelnetPort s = Some (true, mkSer (put_fd f o) w1 (s_sn s)) -> bridge_ok b broadcast maximum buffer ->
  to_read w1 = configuration b ++ rest -> (length (to_read w1) <= fuel)%nat -> 0 <= maximum < 256 ->
  (forall w, to_read w = rest -> exists rc, tcp_close f w = Some (rc, w2)) ->
  match address_of (lit "OWN_ADDRESS") (b_own b) with
  | Some own => Telnet_getMaximumMessageLength fuel s =
      Some (maximum, mkSer (put_fd (-1) (put_limits maximum buffer (put_addresses own broadcast (put_from no_address (put_fd f o))))) w2 (s_sn s))
  | None => exists s', Telnet_getMaximumMessageLength fuel s = Some (255, s')
  end.
Proof.
  destruct s as [o w k]. cbn [s_obj s_sn]. intros Hfd Hinit Hb Hr Hf Hmax Hclose.
  assert (forall Q : Z -> ser -> Prop, match address_of (lit "OWN_ADDRESS") (b_own b) with
    | Some own => Q maximum (mkSer (put_fd (-1) (put_limits maximum buffer (put_addresses own broadcast (put_from no_address (put_fd f o))))) w2 k)
    | None => forall s', Q 255 s' end -> wp (Telnet_getMaximumMessageLength fuel) Q (mkSer o w k)) as Hwp.
  { intros Q HQ. apply wp_bind, wp_get_obj. cbn [s_obj]. rewrite Hfd, Z.eqb_refl. apply wp_bind. eapply wp_run; [exact Hinit|]. cbn [negb]. apply wp_bind.
    eapply (wp_updateConfiguration address_size fuel); [intros t s; apply Telnet_waitFor_same|exact Hb|exact Hr|exact Hf|].
    destruct (address_of (lit "OWN_ADDRESS") (b_own b)) as [own|]; cbn [negb]; [|intros s'; apply wp_ret, HQ].
    intros w3 R3 _. cbn [negb]. apply wp_bind, wp_get_obj. cbn [s_obj put_limits put_addresses put_from put_fd fd]. destruct (Hclose w3 R3) as [rc Hrc].
    apply wp_bind. unfold wp at 1, on_port. cbn [s_port s_obj s_sn]. rewrite Hrc. apply wp_bind, wp_upd_obj, wp_bind, wp_get_obj, wp_ret.
    cbn [s_obj put_limits put_addresses put_from put_fd maximumMessageLength]. by rewrite to_uchar_id. }
  destruct (address_of (lit "OWN_ADDRESS") (b_own b)) as [own|].
  - destruct (wp_Some _ _ _ (Hwp (fun r s' => (r, s') = (maximum, mkSer (put_fd (-1) (put_limits maximum buffer (put_addresses own broadcast
      (put_from no_address (put_fd f o))))) w2 k)) eq_refl)) as (r & s' & Hrun & E). by rewrite Hrun, E.
  - destruct (wp_Some _ _ _ (Hwp (fun r _ => r = 255) ltac:(done))) as (r & s' & Hrun & ->). by exists s'.
Qed.
End Spec.

(** A bridge behind a connection that loses nothing. *)
#[local] Existing Instances sim_port sim_sn sim_port_law.
#[local] Instance sim_telnet : TelnetOs := {|
  tcp_socket w := Some (3, w);
  set_reuseaddr _ w := Some (0, w);
  tcp_connect _ _ _ w := Some (0, w);
  tcp_close _ w := Some (0, ([], []));
  sys_sleep _ w := Some (tt, w)
|}.
Definition ex_telnet (b : bridge) : ser := mkSer (put_fd (-1) ex_serial) (configuration b ++ [88], []) [].
Lemma Telnet_maximum_spec_witness : exists s', Telnet_getMaximumMessageLength 900 (ex_telnet ex_bridge) = Some (40, s') /\ fd (s_obj s') = -1.
Proof.
  pose proof (Telnet_maximum_spec ex_size 900 ex_bridge [0; 0] 40 255 [88] 3 (s_port (ex_telnet ex_bridge)) ([], []) (ex_telnet ex_bridge)) as H. cbv zeta in H.
  assert (E : address_of (lit "OWN_ADDRESS") (b_own ex_bridge) = Some [7; 200]) by (vm_compute; reflexivity). rewrite E in H.
  eexists. split; [apply H; [done|by vm_compute|by apply ex_bridge_ok; left|done|vm_compute; lia|lia|intros w _; by exists 0]|done].
Defined.
