(* ===== verification/Udp.v ===== *)
(** * Udp: LinuxUdpSocket.cpp

    The MQTT-SN socket over UDP: one socket for devices, one for a multicast group, both asked
    in turn by [loop]. *)
From S2P Require Import Prelude CMem Linux SnSocket.

(** ** What it asks of the system *)

(** Options of sockets. *)
Inductive sockopt :=
  | SO_REUSEADDR | SO_BROADCAST | IP_MULTICAST_LOOP
  | IP_ADD_MEMBERSHIP (imr_multiaddr imr_interface : Z)
  | SO_RCVTIMEO (tv : timeval).

(** [recvfrom] returns its value, the bytes and the address stored where that is not -1;
    [getnameinfo] is given the length of the address, and returns its value and the text. *)
Class UdpOs := {
  UW : Type;
  u_socket : Z -> Z -> Z -> M UW Z;
  u_setsockopt : Z -> sockopt -> M UW Z;
  u_bind : Z -> sockaddr_in -> M UW Z;
  u_sendto : Z -> list Z -> sockaddr_in -> M UW Z;
  u_recvfrom : Z -> Z -> M UW (Z * list Z * sockaddr_in);
  u_ioctl : Z -> M UW (Z * sockaddr_in);
  u_getifaddrs : M UW (option (list ifaddr));
  u_getnameinfo : Z -> ifaddr -> M UW (Z * list Z);
  u_inet_pton : list Z -> Z
}.

Definition SOCK_DGRAM : Z := 2.
Definition IPPROTO_UDP : Z := 17.
(** [inet_addr("224.0.0.0")], and its port in the host's byte order *)
Definition multicast_group : Z := 224.
Definition multicast_port : Z := 1234.
(** 200 ms *)
Definition receive_timeout : timeval := mkTimeval 0 200000.

Section Definitions.
Context `{UdpOs} `{MqttSn}.

(** ** The object *)

Record UdpObj := mkUdp {
  udp_socket : Z; socket_descriptor : Z; si_other : sockaddr_in; u_buf : list Z; u_recv_len : Z; u_mqttsn : bool; u_logger : bool;
  u_own_address : list Z; u_broadcast_address : list Z
}.
Definition put_udp_socket (x : Z) (o : UdpObj) : UdpObj :=
  mkUdp x (socket_descriptor o) (si_other o) (u_buf o) (u_recv_len o) (u_mqttsn o) (u_logger o) (u_own_address o) (u_broadcast_address o).
Definition put_descriptor (x : Z) (o : UdpObj) : UdpObj :=
  mkUdp (udp_socket o) x (si_other o) (u_buf o) (u_recv_len o) (u_mqttsn o) (u_logger o) (u_own_address o) (u_broadcast_address o).
Definition put_other (x : sockaddr_in) (o : UdpObj) : UdpObj :=
  mkUdp (udp_socket o) (socket_descriptor o) x (u_buf o) (u_recv_len o) (u_mqttsn o) (u_logger o) (u_own_address o) (u_broadcast_address o).
Definition put_buf (x : list Z) (o : UdpObj) : UdpObj :=
  mkUdp (udp_socket o) (socket_descriptor o) (si_other o) x (u_recv_len o) (u_mqttsn o) (u_logger o) (u_own_address o) (u_broadcast_address o).
Definition put_recv_len (x : Z) (o : UdpObj) : UdpObj :=
  mkUdp (udp_socket o) (socket_descriptor o) (si_other o) (u_buf o) x (u_mqttsn o) (u_logger o) (u_own_address o) (u_broadcast_address o).
Definition put_interfaces (x y : bool) (o : UdpObj) : UdpObj :=
  mkUdp (udp_socket o) (socket_descriptor o) (si_other o) (u_buf o) (u_recv_len o) x y (u_own_address o) (u_broadcast_address o).
Definition put_own_address (x : list Z) (o : UdpObj) : UdpObj :=
  mkUdp (udp_socket o) (socket_descriptor o) (si_other o) (u_buf o) (u_recv_len o) (u_mqttsn o) (u_logger o) x (u_broadcast_address o).
Definition put_broadcast_address (x : list Z) (o : UdpObj) : UdpObj :=
  mkUdp (udp_socket o) (socket_descriptor o) (si_other o) (u_buf o) (u_recv_len o) (u_mqttsn o) (u_logger o) (u_own_address o) x.

Record udp := mkU { u_obj : UdpObj; u_w : UW; u_sn : SN }.
Definition obj : M udp UdpObj := fun s => Some (u_obj s, s).
Definition change (f : UdpObj -> UdpObj) : M udp unit := fun s => Some (tt, mkU (f (u_obj s)) (u_w s) (u_sn s)).
Definition sys {A} (f : M UW A) : M udp A := fun s =>
  match f (u_w s) with Some (a, w) => Some (a, mkU (u_obj s) w (u_sn s)) | None => None end.
(** A call through the pointer [mqttsn]. *)
Definition core_call (f : M SN unit) : M udp unit := fun s =>
  if u_mqttsn (u_obj s) then match f (u_sn s) with Some (a, k) => Some (a, mkU (u_obj s) (u_w s) k) | None => None end else None.

Definition udp_setLogger (x : bool) : M udp unit := change (fun o => put_interfaces (u_mqttsn o) x o).
Definition udp_setMqttSnMessageHandler (x : bool) : M udp unit := change (fun o => put_interfaces x (u_logger o) o).
Definition udp_getMaximumMessageLength : Z := if 255 <? BUFLEN then 255 else to_uchar BUFLEN.

(** ** Starting *)

Definition initUdpSocket : M udp bool :=
  s ← sys (u_socket AF_INET SOCK_DGRAM IPPROTO_UDP);
  change (put_udp_socket s);;
  if s =? -1 then mret false else
  rc ← sys (u_setsockopt s SO_REUSEADDR);
  if rc =? -1 then mret false else
  rc ← sys (u_bind s (mkSockaddr AF_INET (htons PORT) INADDR_ANY));
  if rc =? -1 then mret false else
  rc ← sys (u_setsockopt s (SO_RCVTIMEO receive_timeout));
  if rc =? -1 then mret false else
  rc ← sys (u_setsockopt s SO_BROADCAST);
  mret (negb (rc =? -1)).

Definition initMulticastUdpSocket : M udp bool :=
  s ← sys (u_socket AF_INET SOCK_DGRAM 0);
  change (put_descriptor s);;
  if s =? -1 then mret false else
  rc ← sys (u_setsockopt s SO_REUSEADDR);
  if rc <? 0 then exit_failure else
  rc ← sys (u_bind s (mkSockaddr AF_INET (htons multicast_port) INADDR_ANY));
  if rc <? 0 then mret false else
  rc ← sys (u_setsockopt s IP_MULTICAST_LOOP);
  if rc <? 0 then mret false else
  rc ← sys (u_setsockopt s (IP_ADD_MEMBERSHIP multicast_group INADDR_ANY));
  if rc <? 0 then mret false else
  rc ← sys (u_setsockopt s (SO_RCVTIMEO receive_timeout));
  if rc =? -1 then mret false else
  bc_address ← lift (getDevice_address (mkSockaddr AF_INET (htons multicast_port) multicast_group));
  change (put_broadcast_address bc_address);;
  mret true.

Definition udp_begin : M udp bool :=
  o ← obj;
  if negb (u_mqttsn o) then mret false else
  up ← initUdpSocket;
  if negb up then mret false else
  up ← initMulticastUdpSocket;
  if negb up then mret false else
  o ← obj;
  (if (0 <=? udp_socket o) && (0 <=? socket_descriptor o) then core_call notify_socket_connected else mret tt);;
  mret (0 <=? udp_socket o).

(** ** Addresses *)

(** The pointer that is returned is to the member. *)
Definition udp_getBroadcastAddress : M udp (list Z) :=
  o ← obj;
  (if udp_socket o <? 0 then change (put_broadcast_address (zero_bytes sizeof_device_address)) else mret tt);;
  o ← obj; mret (u_broadcast_address o).

Definition udp_getAddress (family : Z) : M udp (list Z) :=
  change (put_own_address (zero_bytes sizeof_device_address));;
  o ← obj;
  if udp_socket o <? 0 then mret (u_own_address o) else
  address ← sys (interface_address PORT u_getnameinfo u_inet_pton (u_ioctl (udp_socket o)) u_getifaddrs family);
  change (put_own_address address);;
  o ← obj; mret (u_own_address o).

(** ** Messages *)

(** A pointer to a device address: that of [broadcast_address], or to another one. *)
Inductive address_ptr := Broadcast | Device (address : list Z).

(** [bytes]: what the pointer points to. *)
Definition udp_send (destination : address_ptr) (bytes : list Z) (bytes_len : Z) : M udp bool :=
  if Z.of_nat (length bytes) <? bytes_len then undefined else
  let message := take (Z.to_nat bytes_len) bytes in
  o ← obj;
  match destination with
  | Broadcast =>
    _ ← sys (u_sendto (socket_descriptor o) message (mkSockaddr AF_INET (htons multicast_port) multicast_group));
    mret (0 <=? socket_descriptor o)
  | Device address =>
    ip ← lift (getIp_address address);
    port ← lift (getPort address);
    change (put_other (mkSockaddr (sin_family (si_other o)) port ip));;
    o ← obj;
    _ ← sys (u_sendto (udp_socket o) message (si_other o));
    mret (0 <=? udp_socket o)
  end.
Definition udp_send_with_strength (destination : address_ptr) (bytes : list Z) (bytes_len signal_strength : Z) : M udp bool :=
  udp_send destination bytes bytes_len.

(** One of the two halves of [loop]. *)
Definition receive_from (sock : Z) : M udp unit :=
  change (put_buf (zero_bytes (Z.to_nat BUFLEN)));;
  '(recv_len, bs, from) ← sys (u_recvfrom sock BUFLEN);
  change (put_recv_len recv_len);;
  if recv_len =? -1 then mret tt else
  o ← obj;
  buf ← lift (copy_to (u_buf o) 0 bs);
  change (fun o => put_buf buf (put_other from o));;
  if recv_len <=? 255 then
    client_address ← lift (getDevice_address from);
    core_call (receiveData client_address buf)
  else mret tt.

(** [receiveData] does not call [send] here, which would change [si_other] and the system before the second
    [recvfrom]. *)
Definition udp_loop : M udp bool :=
  o ← obj;
  if udp_socket o <? 0 then
    core_call notify_socket_disconnected;;
    up ← udp_begin;
    if (up : bool) then core_call notify_socket_connected;; mret true else mret false
  else
    receive_from (udp_socket o);;
    o ← obj;
    receive_from (socket_descriptor o);;
    o ← obj;
    mret (0 <=? udp_socket o).
End Definitions.
