(* ===== verification/UdpSpec.v ===== *)
(** * UdpSpec: what LinuxUdpSocket.cpp does with datagrams

    One turn of [loop] from end to end, the way back to a sender, and what is left of a
    socket that has to be opened again. *)
From S2P Require Import Prelude CMem Linux SnSocket Udp.

Section Spec.
Context `{os : UdpOs} `{sn : MqttSn}.
Implicit Types (o : UdpObj) (w : UW) (k : SN).

(** ** Steps *)

Lemma wp_obj (Q : UdpObj -> udp -> Prop) s : Q (u_obj s) s -> wp obj Q s.
Proof. done. Qed.
Lemma wp_change f (Q : unit -> udp -> Prop) o w k : Q tt (mkU (f o) w k) -> wp (change f) Q (mkU o w k).
Proof. done. Qed.
Lemma wp_sys {A} (f : M UW A) a w' (Q : A -> udp -> Prop) o w k : f w = Some (a, w') -> Q a (mkU o w' k) -> wp (sys f) Q (mkU o w k).
Proof. intros E HQ. unfold wp, sys. cbn [u_w]. by rewrite E. Qed.
Lemma wp_core f k' (Q : unit -> udp -> Prop) o w k : u_mqttsn o = true -> f k = Some (tt, k') -> Q tt (mkU o w k') -> wp (core_call f) Q (mkU o w k).
Proof. intros Hm E HQ. unfold wp, core_call. cbn [u_obj u_sn]. by rewrite Hm, E. Qed.

(** ** Receiving *)

(** The array of a datagram: its bytes, then zeros. *)
Definition datagram (bs : list Z) : list Z := bs ++ zero_bytes (Z.to_nat BUFLEN - length bs).

(** What [recvfrom] may say: an error, or a datagram cut to the array. *)
Definition received (r : Z * list Z * sockaddr_in) : Prop :=
  r.1.1 = -1 \/ (r.1.1 = Z.of_nat (length r.1.2) /\ r.1.1 <= BUFLEN).

(** What the core and the object make of it. *)
Definition handed (r : Z * list Z * sockaddr_in) (k : SN) : option SN :=
  if r.1.1 =? -1 then Some k else
  address ← getDevice_address r.2;
  '(_, k) ← receiveData address (datagram r.1.2) k;
  Some k.
Definition noted (r : Z * list Z * sockaddr_in) (o : UdpObj) : UdpObj :=
  if r.1.1 =? -1 then put_recv_len r.1.1 (put_buf (zero_bytes (Z.to_nat BUFLEN)) o)
  else put_buf (datagram r.1.2) (put_other r.2 (put_recv_len r.1.1 (put_buf (zero_bytes (Z.to_nat BUFLEN)) o))).

Lemma copy_datagram bs : Z.of_nat (length bs) <= BUFLEN -> copy_to (zero_bytes (Z.to_nat BUFLEN)) 0 bs = Some (datagram bs).
Proof.
  intros Hl. unfold copy_to, zero_bytes. rewrite length_replicate. cbn [Nat.add]. destruct (Nat.leb_spec (length bs) (Z.to_nat BUFLEN)); [|lia].
  unfold splice, datagram, zero_bytes. cbn [take app Nat.add]. by rewrite drop_replicate.
Qed.

Lemma wp_receive_from sock r w' k' (Q : unit -> udp -> Prop) o w k :
  u_mqttsn o = true -> u_recvfrom sock BUFLEN w = Some (r, w') -> received r -> handed r k = Some k' ->
  Q tt (mkU (noted r o) w' k') -> wp (receive_from sock) Q (mkU o w k).
Proof.
  destruct r as [[n bs] from]. intros Hm Hr Hrec Hk HQ. unfold handed, noted in *. cbn [fst snd] in *.
  apply wp_bind, wp_change, wp_bind. eapply wp_sys; [exact Hr|]. apply wp_bind, wp_change.
  destruct (Z.eqb_spec n (-1)) as [->|Hn]; [injection Hk as <-; by apply wp_ret|].
  destruct Hrec as [?|[Hlen Hmax]]; cbn [fst snd] in *; [done|].
  apply wp_bind, wp_obj, wp_bind. eapply wp_lift; [by apply copy_datagram; lia|]. apply wp_bind, wp_change.
  destruct (Z.leb_spec n 255); [|unfold BUFLEN in *; lia].
  destruct (getDevice_address from) as [a|] eqn:Ea; [|done]. cbn [mbind option_bind] in Hk.
  apply wp_bind. eapply wp_lift; [reflexivity|]. destruct (receiveData a (datagram bs) k) as [[[] k2]|] eqn:Ek; [|done]. cbn in Hk. injection Hk as <-.
  by eapply wp_core.
Qed.

(** C21: one turn of [loop] asks the socket of the devices and then that of the group, once each.
    Each datagram is given to the core in that order, with its sender's address and padded with
    zeros to 255 bytes; its length is not.  A timeout gives nothing, and neither ends the loop. *)
Theorem udp_loop_spec s r1 w1 k1 r2 w2 k2 :
  u_mqttsn (u_obj s) = true -> 0 <= udp_socket (u_obj s) ->
  u_recvfrom (udp_socket (u_obj s)) BUFLEN (u_w s) = Some (r1, w1) -> received r1 -> handed r1 (u_sn s) = Some k1 ->
  u_recvfrom (socket_descriptor (u_obj s)) BUFLEN w1 = Some (r2, w2) -> received r2 -> handed r2 k1 = Some k2 ->
  udp_loop s = Some (true, mkU (noted r2 (noted r1 (u_obj s))) w2 k2).
Proof.
  destruct s as [o w k]. cbn [u_obj u_w u_sn]. intros Hm Hs E1 R1 K1 E2 R2 K2.
  assert (Hkeep : forall r o', udp_socket (noted r o') = udp_socket o' /\ socket_descriptor (noted r o') = socket_descriptor o' /\ u_mqttsn (noted r o') = u_mqttsn o')
    by (intros r o'; unfold noted; by destruct (r.1.1 =? -1)).
  assert (wp udp_loop (fun b s' => b = true /\ s' = mkU (noted r2 (noted r1 o)) w2 k2) (mkU o w k)) as Hwp.
  { unfold udp_loop. apply wp_bind, wp_obj. cbn [u_obj]. destruct (Z.ltb_spec (udp_socket o) 0); [lia|].
    apply wp_bind. eapply wp_receive_from; [done|exact E1|done|exact K1|]. apply wp_bind, wp_obj, wp_bind. cbn [u_obj].
    destruct (Hkeep r1 o) as (Es & -> & Em).
    eapply wp_receive_from; [by rewrite Em|exact E2|done|exact K2|]. apply wp_bind, wp_obj, wp_ret. cbn [u_obj]. split; [|done].
    destruct (Hkeep r2 (noted r1 o)) as (-> & _ & _). rewrite Es. destruct (Z.leb_spec 0 (udp_socket o)); [done|lia]. }
  apply wp_Some in Hwp as (b & s' & Hrun & -> & ->). exact Hrun.
Qed.

(** ** Sending *)

(** C30: a message sent to the address the core was given for a sender goes to that sender: the address
    [getDevice_address] makes of [from] is one that [send] turns into the address and the port of
    [from] again, whatever the socket did in between.  Sent is what was asked for, and the answer only
    says that the socket is open. *)
Theorem udp_reply_spec from bs len :
  (6 <= sizeof_device_address)%nat -> 0 <= sin_addr from < 4294967296 -> 0 < sin_port from < 65536 -> 0 <= len <= Z.of_nat (length bs) ->
  exists a, getDevice_address from = Some a /\ length a = sizeof_device_address /\
    forall s, udp_send (Device a) bs len s =
      let o := put_other (mkSockaddr (sin_family (si_other (u_obj s))) (sin_port from) (sin_addr from)) (u_obj s) in
      '(_, w) ← u_sendto (udp_socket o) (take (Z.to_nat len) bs) (si_other o) (u_w s);
      Some (0 <=? udp_socket o, mkU o w (u_sn s)).
Proof.
  intros Hsz Hip Hport Hlen. destruct (device_address_roundtrip from Hsz Hip Hport) as (a & Ea & La & Ei & Ep). exists a. split; [done|]. split; [done|].
  intros [o w k]. cbn [u_obj u_w u_sn]. unfold udp_send. destruct (Z.ltb_spec (Z.of_nat (length bs)) len); [lia|].
  unfold mbind, M_bind, obj, lift, change, sys, mret, M_ret. cbn [u_obj u_w u_sn mbind option_bind]. rewrite Ei, Ep. cbn [mbind option_bind u_obj u_w u_sn].
  by destruct (u_sendto _ _ _ w) as [[n w']|].
Qed.

(** ** Starting again *)

(** What starting does not touch. *)
Definition same_core (o o' : UdpObj) : Prop := u_mqttsn o' = u_mqttsn o /\ u_own_address o' = u_own_address o /\ si_other o' = si_other o.
(** The same, and the sockets are those that were opened. *)
Definition same_sockets (o o' : UdpObj) : Prop := same_core o o' /\ udp_socket o' = udp_socket o /\ socket_descriptor o' = socket_descriptor o.
#[local] Instance same_core_preorder : PreOrder same_core.
Proof. split; [done|]. unfold same_core. intros o1 o2 o3 (? & ? & ?) (? & ? & ?). split_and!; congruence. Qed.
#[local] Instance same_sockets_preorder : PreOrder same_sockets.
Proof. split; [done|]. unfold same_sockets. intros o1 o2 o3 (? & ? & ?) (? & ? & ?). split_and!; [by etrans|congruence|congruence]. Qed.

(** A part of starting that the core does not hear of, with what it does to the object. *)
Definition quiet (R : relation UdpObj) {A} (c : M udp A) : Prop :=
  forall s a s', c s = Some (a, s') -> u_sn s' = u_sn s /\ R (u_obj s) (u_obj s').

Lemma quiet_bind R {A B} (c : M udp A) (f : A -> M udp B) : Transitive R -> quiet R c -> (forall a, quiet R (f a)) -> quiet R (c ≫= f).
Proof.
  intros HR Hc Hf s b s2 E. unfold mbind, M_bind in E. destruct (c s) as [[a s1]|] eqn:E1; [|done].
  apply Hc in E1 as (N1 & C1). apply Hf in E as (N2 & C2). split; [congruence|by etrans].
Qed.
Lemma quiet_ret R {A} (a : A) : Reflexive R -> quiet R (mret a).
Proof. by intros HR s b s' [= <- <-]. Qed.
Lemma quiet_sys R {A} (f : M UW A) : Reflexive R -> quiet R (sys f).
Proof. intros HR s a s' E. unfold sys in E. destruct (f (u_w s)) as [[b w]|]; [|done]. by injection E as <- <-. Qed.
Lemma quiet_change (R : relation UdpObj) f : (forall o, R o (f o)) -> quiet R (change f).
Proof. intros Hf s a s' E. injection E as <- <-. split; [done|apply Hf]. Qed.
Lemma quiet_lift R {A} (x : option A) : Reflexive R -> quiet R (lift x).
Proof. intros HR s a s' E. unfold lift in E. destruct x; [|done]. cbn in E. by injection E as <- <-. Qed.
Lemma quiet_exit R {A} : quiet R (exit_failure (A := A)).
Proof. by intros s a s' E. Qed.

Ltac quiet_steps := repeat first
  [ apply quiet_ret; exact _ | apply quiet_sys; exact _ | apply quiet_lift; exact _ | apply quiet_exit | apply quiet_change; done
  | eapply quiet_bind; [exact _| |intro] | progress case_match ].

(** A system in which [socket] fails with -1 only. *)
Context (socket_law : forall d t p w r w', u_socket d t p w = Some (r, w') -> -1 <= r).

(** Opening a socket: it is there if opening does not fail. *)
Lemma opened d t p (put : Z -> UdpObj -> UdpObj) (the : UdpObj -> Z) (rest : Z -> M udp bool) s b s' :
  (forall x o, same_core o (put x o) /\ the (put x o) = x) -> (forall o o', same_sockets o o' -> the o' = the o) ->
  (forall x, quiet same_sockets (rest x)) ->
  (x ← sys (u_socket d t p); change (put x);; if x =? -1 then mret false else rest x) s = Some (b, s') ->
  u_sn s' = u_sn s /\ exists x, same_sockets (put x (u_obj s)) (u_obj s') /\ (b = true -> 0 <= x).
Proof.
  intros Hput Hthe Hrest E. unfold mbind, M_bind, sys, change in E. destruct (u_socket d t p (u_w s)) as [[x w]|] eqn:Ex; [|done].
  apply socket_law in Ex. destruct (Z.eqb_spec x (-1)).
  - injection E as <- <-. cbn [u_sn u_obj]. split; [done|]. by exists x.
  - apply Hrest in E as [N C]. cbn [u_sn u_obj] in N, C. split; [done|]. exists x. split; [done|lia].
Qed.

Lemma initUdpSocket_opens s b s' : initUdpSocket s = Some (b, s') ->
  u_sn s' = u_sn s /\ same_core (u_obj s) (u_obj s') /\ (b = true -> 0 <= udp_socket (u_obj s')).
Proof.
  intros (N & x & (C & Ex & _) & Hb)%(opened _ _ _ _ udp_socket); [| | |].
  - split; [done|]. split; [exact C|]. by rewrite Ex.
  - done.
  - by intros o o' (_ & -> & _).
  - intros x. quiet_steps.
Qed.
Lemma initMulticastUdpSocket_opens s b s' : initMulticastUdpSocket s = Some (b, s') ->
  u_sn s' = u_sn s /\ same_core (u_obj s) (u_obj s') /\ udp_socket (u_obj s') = udp_socket (u_obj s) /\ (b = true -> 0 <= socket_descriptor (u_obj s')).
Proof.
  intros (N & x & (C & Ex & Ed) & Hb)%(opened _ _ _ _ socket_descriptor); [| | |].
  - split; [done|]. split; [exact C|]. split; [exact Ex|]. by rewrite Ed.
  - done.
  - by intros o o' (_ & _ & ->).
  - intros x. quiet_steps.
Qed.

(** [begin]: the core is told once where both sockets are open, and not at all otherwise. *)
Lemma begin_tells s b s' : u_mqttsn (u_obj s) = true -> udp_begin s = Some (b, s') ->
  same_core (u_obj s) (u_obj s') /\
  if (b : bool) then 0 <= udp_socket (u_obj s') /\ 0 <= socket_descriptor (u_obj s') /\ notify_socket_connected (u_sn s) = Some (tt, u_sn s')
  else u_sn s' = u_sn s.
Proof.
  intros Hm. unfold udp_begin. unfold mbind, M_bind, obj. rewrite Hm. cbn [negb].
  destruct (initUdpSocket s) as [[ok s1]|] eqn:E1; [|done]. apply initUdpSocket_opens in E1 as (N1 & C1 & O1).
  destruct ok; cbn [negb]; [|by intros [= <- <-]].
  destruct (initMulticastUdpSocket s1) as [[ok s2]|] eqn:E2; [|done]. apply initMulticastUdpSocket_opens in E2 as (N2 & C2 & S2 & O2).
  assert (same_core (u_obj s) (u_obj s2)) as C by by etrans. destruct ok; cbn [negb]; [|intros [= <- <-]; split; [done|congruence]].
  specialize (O1 eq_refl). specialize (O2 eq_refl). rewrite S2. destruct (Z.leb_spec 0 (udp_socket (u_obj s1))); [|lia].
  destruct (Z.leb_spec 0 (socket_descriptor (u_obj s2))); [|lia]. cbn [andb]. unfold core_call.
  destruct C as (Cm & Cr). rewrite Cm, Hm. destruct (notify_socket_connected (u_sn s2)) as [[[] k]|] eqn:Ek; [|done].
  intros [= <- <-]. cbn [u_obj u_sn]. split; [done|]. rewrite S2. split_and!; [done|done|congruence].
Qed.

(** A turn of [loop] without a socket: the core hears that it is disconnected, and the sockets are
    opened again.  Where that succeeds both are open and the core hears that it is connected, twice:
    from [begin] and from [loop].  Where it fails the core hears nothing more.  The core, its
    address and the last sender are kept in both cases. *)
Theorem udp_reconnect_spec s b s' :
  u_mqttsn (u_obj s) = true -> udp_socket (u_obj s) < 0 -> udp_loop s = Some (b, s') ->
  same_core (u_obj s) (u_obj s') /\
  exists k1, notify_socket_disconnected (u_sn s) = Some (tt, k1) /\
    if (b : bool) then 0 <= udp_socket (u_obj s') /\ 0 <= socket_descriptor (u_obj s') /\
      exists k2, notify_socket_connected k1 = Some (tt, k2) /\ notify_socket_connected k2 = Some (tt, u_sn s')
    else u_sn s' = k1.
Proof.
  destruct s as [o w k]. cbn [u_obj u_sn]. intros Hm Hs. unfold udp_loop. unfold mbind, M_bind, obj. cbn [u_obj].
  destruct (Z.ltb_spec (udp_socket o) 0); [|lia]. unfold core_call at 1. cbn [u_obj u_sn u_w]. rewrite Hm.
  destruct (notify_socket_disconnected k) as [[[] k1]|]; [|done].
  destruct (udp_begin (mkU o w k1)) as [[up s2]|] eqn:Eb; [|done]. apply begin_tells in Eb as [C Hup]; [|done]. cbn [u_obj u_sn] in C, Hup.
  destruct up.
  - unfold core_call. destruct C as (Cm & Cr). rewrite Cm, Hm. destruct Hup as (H1 & H2 & Hk).
    destruct (notify_socket_connected (u_sn s2)) as [[[] k2]|] eqn:Ek; [|done]. intros [= <- <-]. cbn [u_obj u_sn].
    split; [done|]. exists k1. split; [done|]. split_and!; [done|done|]. by exists (u_sn s2).
  - intros [= <- <-]. split; [done|]. by exists k1.
Qed.
End Spec.

(** ** Examples *)

(** A system whose calls succeed, except for the setting of the group; it hands out the sockets
    3, 4, ..., the datagrams of a list, and keeps what is sent. *)
Record sim := mkSim { next_socket : nat; group_ok : bool; incoming : list (list Z * sockaddr_in); outgoing : list (Z * list Z * sockaddr_in) }.
#[local] Instance sim_os : UdpOs := {|
  UW := sim;
  u_socket _ _ _ w := Some (Z.of_nat (next_socket w), mkSim (S (next_socket w)) (group_ok w) (incoming w) (outgoing w));
  u_setsockopt _ x w := Some (match x with IP_ADD_MEMBERSHIP _ _ => if group_ok w then 0 else -1 | _ => 0 end, w);
  u_bind _ _ w := Some (0, w);
  u_sendto s bs a w := Some (Z.of_nat (length bs), mkSim (next_socket w) (group_ok w) (incoming w) (outgoing w ++ [(s, bs, a)]));
  u_recvfrom s n w := match incoming w with
    | (bs, from) :: l => Some ((Z.of_nat (length bs), bs, from), mkSim (next_socket w) (group_ok w) l (outgoing w))
    | [] => Some ((-1, [], mkSockaddr 0 0 0), w)
    end;
  u_ioctl _ w := Some ((0, mkSockaddr 0 0 0), w);
  u_getifaddrs w := Some (Some [], w);
  u_getnameinfo _ _ w := Some ((0, []), w);
  u_inet_pton _ := 0
|}.
(** A core that keeps what it hears. *)
Inductive heard := Connected | Disconnected | Data (address data : list Z).
#[local] Instance sim_core : MqttSn := {|
  SN := list heard;
  sizeof_device_address := 6;
  notify_socket_connected k := Some (tt, k ++ [Connected]);
  notify_socket_disconnected k := Some (tt, k ++ [Disconnected]);
  receiveData a d k := Some (tt, k ++ [Data a d])
|}.
Definition ex_from : sockaddr_in := mkSockaddr AF_INET 40000 16777343.
Definition ex_udp (sock : Z) (w : sim) : udp :=
  mkU (mkUdp sock 4 (mkSockaddr AF_INET 0 0) [] 0 true false [] []) w [].

Lemma udp_loop_spec_witness : exists s',
  udp_loop (ex_udp 3 (mkSim 5 true [([5; 12; 0; 1; 65], ex_from)] [])) = Some (true, s') /\
  u_sn s' = [Data [127; 0; 0; 1; 64; 156] (datagram [5; 12; 0; 1; 65])].
Proof.
  set (s := ex_udp 3 (mkSim 5 true [([5; 12; 0; 1; 65], ex_from)] [])).
  eexists. split.
  - apply (udp_loop_spec s (5, [5; 12; 0; 1; 65], ex_from) (mkSim 5 true [] []) [Data [127; 0; 0; 1; 64; 156] (datagram [5; 12; 0; 1; 65])]
      (-1, [], mkSockaddr 0 0 0) (mkSim 5 true [] []) [Data [127; 0; 0; 1; 64; 156] (datagram [5; 12; 0; 1; 65])]);
      [done|cbn; lia|done|right; by vm_compute|by vm_compute|done|by left|done].
  - done.
Defined.

(** The sender of the datagram above is answered. *)
Lemma udp_reply_spec_witness : exists a, getDevice_address ex_from = Some a /\
  exists s', udp_send (Device a) [3; 13; 0; 0] 3 (ex_udp 3 (mkSim 5 true [] [])) = Some (true, s') /\ outgoing (u_w s') = [(3, [3; 13; 0], ex_from)].
Proof.
  destruct (udp_reply_spec ex_from [3; 13; 0; 0] 3) as (a & Ea & _ & Hsend); [cbn; lia|cbn; lia|cbn; lia|cbn; lia|].
  exists a. split; [exact Ea|]. rewrite Hsend. eexists. split; [reflexivity|reflexivity].
Defined.

(** Opened again, and with a group that cannot be joined: then the first socket stays open. *)
Lemma udp_reconnect_spec_witness :
  (exists s', udp_loop (ex_udp (-1) (mkSim 5 true [] [])) = Some (true, s') /\ u_sn s' = [Disconnected; Connected; Connected] /\ 0 <= socket_descriptor (u_obj s')) /\
  (exists s', udp_loop (ex_udp (-1) (mkSim 5 false [] [])) = Some (false, s') /\ u_sn s' = [Disconnected] /\ udp_socket (u_obj s') = 5).
Proof.
  assert (Hlaw : forall d t p (w : UW) r w', u_socket d t p w = Some (r, w') -> -1 <= r) by (intros d t p w r w' [= <- <-]; lia).
  split.
  - set (s := ex_udp (-1) (mkSim 5 true [] [])). assert (exists s', udp_loop s = Some (true, s')) as [s' E] by (eexists; vm_compute; reflexivity).
    destruct (udp_reconnect_spec Hlaw s true s' eq_refl ltac:(by vm_compute) E) as (_ & k1 & Hk1 & _ & Hd & k2 & Hk2 & Hk).
    exists s'. split; [exact E|]. injection Hk1 as <-. injection Hk2 as <-. injection Hk as Hk. split; [symmetry; exact Hk|exact Hd].
  - set (s := ex_udp (-1) (mkSim 5 false [] [])). assert (exists s', udp_loop s = Some (false, s') /\ udp_socket (u_obj s') = 5) as (s' & E & Hu) by (eexists; split; vm_compute; reflexivity).
    destruct (udp_reconnect_spec Hlaw s false s' eq_refl ltac:(by vm_compute) E) as (_ & k1 & Hk1 & Hk).
    exists s'. split; [exact E|]. injection Hk1 as <-. split; [exact Hk|exact Hu].
Defined.
