(* ===== verification/Tcp.v ===== *)
(** * Tcp: SingleTcpSocket.cpp

    The MQTT-SN socket over TCP with one client: [loop] waits for a connection, and then
    reads from it. *)
From S2P Require Import Prelude CMem Linux SnSocket.

(** ** What it asks of the system *)

(** [recv] returns its value and the bytes it stored; [fcntl] is told the flags it is to set, if any. *)
Class TcpOs := {
  TW : Type;
  t_socket : Z -> Z -> Z -> M TW Z;
  t_reuse_addr : Z -> M TW Z;
  t_bind : Z -> sockaddr_in -> M TW Z;
  t_listen : Z -> Z -> M TW Z;
  t_accept : Z -> M TW Z;
  t_fcntl : Z -> option Z -> M TW Z;
  t_write : Z -> list Z -> M TW Z;
  t_recv : Z -> Z -> M TW (Z * list Z);
  t_ioctl : Z -> M TW (Z * sockaddr_in);
  t_getifaddrs : M TW (option (list ifaddr));
  t_getnameinfo : Z -> ifaddr -> M TW (Z * list Z);
  t_inet_pton : list Z -> Z
}.

Definition SOCK_STREAM : Z := 1.
Definition O_NONBLOCK : Z := 2048.

Section Definitions.
Context `{os : TcpOs} `{sn : MqttSn}.

(** ** The object *)

Record TcpObj := mkTcp {
  tcp_socket : Z; save_fd : Z; connection_socket : Z; tcp_socket_address : sockaddr_in; t_handler : bool; t_logger : bool;
  t_own_address : list Z; t_broadcast_address : list Z
}.
Definition put_tcp_socket (x : Z) (o : TcpObj) : TcpObj :=
  mkTcp x (save_fd o) (connection_socket o) (tcp_socket_address o) (t_handler o) (t_logger o) (t_own_address o) (t_broadcast_address o).
Definition put_save_fd (x : Z) (o : TcpObj) : TcpObj :=
  mkTcp (tcp_socket o) x (connection_socket o) (tcp_socket_address o) (t_handler o) (t_logger o) (t_own_address o) (t_broadcast_address o).
Definition put_connection (x : Z) (o : TcpObj) : TcpObj :=
  mkTcp (tcp_socket o) (save_fd o) x (tcp_socket_address o) (t_handler o) (t_logger o) (t_own_address o) (t_broadcast_address o).
Definition put_socket_address (x : sockaddr_in) (o : TcpObj) : TcpObj :=
  mkTcp (tcp_socket o) (save_fd o) (connection_socket o) x (t_handler o) (t_logger o) (t_own_address o) (t_broadcast_address o).
Definition put_users (x y : bool) (o : TcpObj) : TcpObj :=
  mkTcp (tcp_socket o) (save_fd o) (connection_socket o) (tcp_socket_address o) x y (t_own_address o) (t_broadcast_address o).
Definition put_tcp_addresses (x y : list Z) (o : TcpObj) : TcpObj :=
  mkTcp (tcp_socket o) (save_fd o) (connection_socket o) (tcp_socket_address o) (t_handler o) (t_logger o) x y.

Record tcp := mkT { t_obj : TcpObj; t_w : TW; t_sn : SN }.
Definition tcp_get : M tcp TcpObj := fun s => Some (t_obj s, s).
Definition tcp_set (f : TcpObj -> TcpObj) : M tcp unit := fun s => Some (tt, mkT (f (t_obj s)) (t_w s) (t_sn s)).
Definition tcp_sys {A} (f : M TW A) : M tcp A := fun s =>
  match f (t_w s) with Some (a, w) => Some (a, mkT (t_obj s) w (t_sn s)) | None => None end.
(** A call through the pointer [mqttSnMessageHandler]. *)
Definition tcp_core (f : M SN unit) : M tcp unit := fun s =>
  if t_handler (t_obj s) then match f (t_sn s) with Some (a, k) => Some (a, mkT (t_obj s) (t_w s) k) | None => None end else None.

Definition tcp_setLogger (x : bool) : M tcp unit := tcp_set (fun o => put_users (t_handler o) x o).
Definition tcp_setMqttSnMessageHandler (x : bool) : M tcp unit := tcp_set (fun o => put_users x (t_logger o) o).
Definition tcp_getBroadcastAddress : M tcp (list Z) := o ← tcp_get; mret (t_broadcast_address o).
Definition tcp_getMaximumMessageLength : Z := to_uchar BUFLEN.

Definition tcp_getAddress (family : Z) : M tcp (list Z) :=
  tcp_set (fun o => put_tcp_addresses (zero_bytes sizeof_device_address) (t_broadcast_address o) o);;
  o ← tcp_get;
  if tcp_socket o <? 0 then mret (t_own_address o) else
  address ← tcp_sys (interface_address PORT t_getnameinfo t_inet_pton (t_ioctl (tcp_socket o)) t_getifaddrs family);
  tcp_set (fun o => put_tcp_addresses address (t_broadcast_address o) o);;
  o ← tcp_get; mret (t_own_address o).

(** ** Starting *)

(** The test is [(!(tcp_socket = socket(...))) > 0].  [save_fd] is what [loop] left in it, and nothing
    before the first [loop]. *)
Definition initTcpSocket : M tcp bool :=
  s ← tcp_sys (t_socket AF_INET SOCK_STREAM 0);
  tcp_set (put_tcp_socket s);;
  if 0 <? bool_to_Z (s =? 0) then mret false else
  let address := mkSockaddr AF_INET (htons PORT) INADDR_ANY in
  tcp_set (put_socket_address address);;
  rc ← tcp_sys (t_reuse_addr s);
  if rc =? -1 then mret false else
  rc ← tcp_sys (t_bind s address);
  if negb (rc =? 0) then mret false else
  _ ← tcp_sys (t_listen s 5);
  tcp_set (put_connection 0);;
  o ← tcp_get;
  mret (negb (save_fd o =? -1)).

Definition tcp_begin : M tcp bool :=
  o ← tcp_get;
  if negb (t_handler o) then mret false else
  up ← initTcpSocket;
  if negb up then mret false else
  tcp_set (fun o => put_tcp_addresses (t_own_address o) (replicate sizeof_device_address 255) o);;
  o ← tcp_get;
  (if 0 <=? tcp_socket o then tcp_core notify_socket_connected else mret tt);;
  mret (0 <=? tcp_socket o).

(** ** Messages *)

(** [bytes]: what the pointer points to. *)
Definition tcp_send (destination : list Z) (bytes : list Z) (bytes_len : Z) : M tcp bool :=
  o ← tcp_get;
  if bool_decide (destination = t_broadcast_address o) then mret true else
  if connection_socket o =? 0 then mret true else
  if Z.of_nat (length bytes) <? bytes_len then undefined else
  n ← tcp_sys (t_write (connection_socket o) (take (Z.to_nat bytes_len) bytes));
  mret (n =? bytes_len).
Definition tcp_send_with_strength (destination : list Z) (bytes : list Z) (bytes_len signal_strength : Z) : M tcp bool :=
  tcp_send destination bytes bytes_len.

(** [save_fd = fcntl(fd, F_GETFL); save_fd |= O_NONBLOCK; fcntl(fd, F_SETFL, save_fd);] *)
Definition set_nonblocking (fd : Z) : M tcp unit :=
  flags ← tcp_sys (t_fcntl fd None);
  let flags := Z.lor flags O_NONBLOCK in
  tcp_set (put_save_fd flags);;
  _ ← tcp_sys (t_fcntl fd (Some flags));
  mret tt.

(** [receiveData] does not call [send] here. *)
Definition tcp_loop : M tcp bool :=
  o ← tcp_get;
  if tcp_socket o <? 0 then
    tcp_core notify_socket_disconnected;;
    up ← tcp_begin;
    if (up : bool) then tcp_core notify_socket_connected;; mret true else mret false
  else if connection_socket o <=? 0 then
    set_nonblocking (tcp_socket o);;
    c ← tcp_sys (t_accept (tcp_socket o));
    tcp_set (put_connection c);;
    mret true
  else
    set_nonblocking (connection_socket o);;
    '(recv_len, bs) ← tcp_sys (t_recv (connection_socket o) BUFLEN);
    (if 0 <? recv_len then
      buf ← lift (copy_to (zero_bytes (Z.to_nat BUFLEN)) 0 bs);
      o ← tcp_get;
      client_address ← lift (getDevice_address (tcp_socket_address o));
      tcp_core (receiveData client_address buf)
    else mret tt);;
    mret true.
End Definitions.
