(* ===== verification/TcpSpec.v ===== *)
(** * TcpSpec: what SingleTcpSocket.cpp does with its clients *)
From S2P Require Import Prelude CMem Linux SnSocket Tcp.

Section Spec.
Context `{os : TcpOs} `{sn : MqttSn}.
Implicit Types (o : TcpObj) (w : TW) (k : SN).

Lemma wp_tcp_get (Q : TcpObj -> tcp -> Prop) s : Q (t_obj s) s -> wp tcp_get Q s.
Proof. done. Qed.
Lemma wp_tcp_set f (Q : unit -> tcp -> Prop) o w k : Q tt (mkT (f o) w k) -> wp (tcp_set f) Q (mkT o w k).
Proof. done. Qed.
Lemma wp_tcp_sys {A} (f : M TW A) a w' (Q : A -> tcp -> Prop) o w k : f w = Some (a, w') -> Q a (mkT o w' k) -> wp (tcp_sys f) Q (mkT o w k).
Proof. intros E HQ. unfold wp, tcp_sys. cbn [t_w]. by rewrite E. Qed.

(** What [set_nonblocking] asks of the system. *)
Definition nonblocking_w (fd : Z) (w : TW) : option TW :=
  '(flags, w) ← t_fcntl fd None w; '(_, w) ← t_fcntl fd (Some (Z.lor flags O_NONBLOCK)) w; Some w.
(** [fcntl] is a call like another: only [save_fd] is new. *)
Lemma set_nonblocking_run fd s u s' : set_nonblocking fd s = Some (u, s') ->
  exists flags w, s' = mkT (put_save_fd flags (t_obj s)) w (t_sn s) /\ nonblocking_w fd (t_w s) = Some w.
Proof.
  unfold nonblocking_w.
  unfold set_nonblocking, mbind, M_bind, tcp_sys, tcp_set, mret, M_ret. destruct (t_fcntl fd None (t_w s)) as [[flags w]|]; [|done].
  cbn [t_obj t_w t_sn mbind option_bind]. cbn [mbind option_bind].
  destruct (t_fcntl fd _ w) as [[n w2]|]; [|done]. intros [= _ <-]. by eexists _, w2.
Qed.

(** ** A client *)

Fixpoint turns (n : nat) : M tcp unit :=
  match n with O => mret tt | S n => _ ← tcp_loop; turns n end.

(** What the client sent by then: [recv] is asked [n] times, and stores something or not. *)
Fixpoint reads (n : nat) (fd : Z) (w : TW) : option (list (list Z) * TW) :=
  match n with
  | O => Some ([], w)
  | S n =>
    w ← nonblocking_w fd w;
    '(recv_len, bs, w) ← t_recv fd BUFLEN w;
    '(chunks, w) ← reads n fd w;
    Some (if 0 <? recv_len then bs :: chunks else chunks, w)
  end.

(** The core is given chunks of a stream, each from the same address. *)
Fixpoint chunks_handed (a : list Z) (chunks : list (list Z)) (k : SN) : option SN :=
  match chunks with
  | [] => Some k
  | bs :: chunks =>
    buf ← copy_to (zero_bytes (Z.to_nat BUFLEN)) 0 bs;
    '(_, k) ← receiveData a buf k; chunks_handed a chunks k
  end.

Lemma chunks_handed_app a c1 : forall c2 k k1, chunks_handed a c1 k = Some k1 -> chunks_handed a (c1 ++ c2) k = chunks_handed a c2 k1.
Proof.
  induction c1 as [|bs c1 IH]; intros c2 k k1; cbn [chunks_handed app]; [by intros [= ->]|].
  destruct (copy_to _ 0 bs) as [buf|]; [|done]. cbn [mbind option_bind]. destruct (receiveData a buf k) as [[[] k']|]; [|done]. cbn [mbind option_bind]. apply IH.
Qed.

Lemma reads_app n m fd : forall w w1 c2 w2 c1, reads n fd w = Some (c1, w1) -> reads m fd w1 = Some (c2, w2) -> reads (n + m) fd w = Some (c1 ++ c2, w2).
Proof.
  induction n as [|n IH]; intros w w1 c2 w2 c1; cbn [reads Nat.add]; [by intros [= <- <-]|]. destruct (nonblocking_w fd w) as [w'|]; [|done]. cbn [mbind option_bind].
  destruct (t_recv fd BUFLEN w') as [[[r bs] w0]|]; [|done]. cbn [mbind option_bind]. destruct (reads n fd w0) as [[c w3]|] eqn:E; [|done].
  cbn [mbind option_bind]. intros [= <- ->] E2. erewrite IH by eassumption. cbn [mbind option_bind]. by destruct (0 <? r).
Qed.

(** The sockets of two states are the same. *)
Definition same_sockets (o o' : TcpObj) : Prop :=
  tcp_socket o' = tcp_socket o /\ connection_socket o' = connection_socket o /\ tcp_socket_address o' = tcp_socket_address o.

(** The address every client has: that of the socket itself. *)
Definition client_address o : list Z := default [] (getDevice_address (tcp_socket_address o)).

Lemma tcp_turn s b s' : 0 <= tcp_socket (t_obj s) -> 0 < connection_socket (t_obj s) -> tcp_loop s = Some (b, s') ->
  b = true /\ same_sockets (t_obj s) (t_obj s') /\
  exists chunks, reads 1 (connection_socket (t_obj s)) (t_w s) = Some (chunks, t_w s') /\ chunks_handed (client_address (t_obj s)) chunks (t_sn s) = Some (t_sn s').
Proof.
  intros Ht Hc. unfold tcp_loop. unfold mbind at 1, M_bind at 1, tcp_get at 1. destruct (Z.ltb_spec (tcp_socket (t_obj s)) 0); [lia|].
  destruct (Z.leb_spec (connection_socket (t_obj s)) 0); [lia|]. unfold mbind, M_bind.
  destruct (set_nonblocking (connection_socket (t_obj s)) s) as [[u s1]|] eqn:E1; [|done]. apply set_nonblocking_run in E1 as (flags & w & -> & Ew). cbn [reads]. rewrite Ew. cbn [mbind option_bind].
  unfold tcp_sys. cbn [t_w t_obj t_sn]. destruct (t_recv _ BUFLEN w) as [[[n bs] w1]|]; [|done]. cbn [mbind option_bind]. destruct (Z.ltb_spec 0 n).
  - unfold lift, tcp_get, tcp_core. destruct (copy_to _ 0 bs) as [buf|] eqn:Eb; [|done]. cbn [mbind option_bind t_obj t_w t_sn put_save_fd tcp_socket_address t_handler].
    destruct (getDevice_address (tcp_socket_address (t_obj s))) as [a|] eqn:Ea; [|done]. cbn [mbind option_bind t_obj t_w t_sn put_save_fd t_handler].
    destruct (t_handler (t_obj s)); [|done]. destruct (receiveData a buf (t_sn s)) as [[[] k]|] eqn:Ek; [|done].
    intros [= <- <-]. split; [done|]. split; [done|]. exists [bs]. split; [done|]. unfold client_address. rewrite Ea. cbn [chunks_handed default from_option].
    rewrite Eb. cbn [mbind option_bind id]. by rewrite Ek.
  - intros [= <- <-]. split; [done|]. split; [done|]. by exists [].
Qed.

(** C31: once a client is connected, every turn of [loop] reads from it and no turn accepts another: the
    connection is the same after any number of turns, also where [recv] said that the client closed
    it.  The core is given what each [recv] stored, at most one chunk of the stream in a turn and
    in order, as if it were a message, and always from the address of the socket itself. *)
Theorem tcp_client_spec n s u s' : 0 <= tcp_socket (t_obj s) -> 0 < connection_socket (t_obj s) -> turns n s = Some (u, s') ->
  same_sockets (t_obj s) (t_obj s') /\
  exists chunks, reads n (connection_socket (t_obj s)) (t_w s) = Some (chunks, t_w s') /\ chunks_handed (client_address (t_obj s)) chunks (t_sn s) = Some (t_sn s').
Proof.
  intros Ht Hc. revert s Ht Hc. induction n as [|n IH]; intros s Ht Hc; cbn [turns]; [intros [= _ <-]; split; [done|]; by exists []|].
  unfold mbind, M_bind. destruct (tcp_loop s) as [[b s1]|] eqn:E; [|done]. apply tcp_turn in E as (_ & C1 & c1 & R1 & H1); [|done|done]. intros Hn.
  pose proof C1 as (T1 & N1 & A1). apply IH in Hn as (C2 & c2 & R2 & H2); [|by rewrite T1|by rewrite N1].
  split; [destruct C2 as (? & ? & ?); split_and!; congruence|]. exists (c1 ++ c2). split; [rewrite N1 in R2; by apply (reads_app 1 n _ _ _ _ _ _ R1)|].
  rewrite (chunks_handed_app _ _ _ _ _ H1). unfold client_address in *. by rewrite A1 in H2.
Qed.

(** ** Without a client *)

(** A message sent before a client is there is dropped, and [send] says so or not: it is [true] while
    [connection_socket] is still 0 as [begin] left it, and [false] once a turn of [loop] found nobody,
    since [connection_socket] is the -1 of [accept] then and is written to. *)
Theorem tcp_idle_send_spec destination bs len w1 n2 w2 s b s' :
  0 <= tcp_socket (t_obj s) -> connection_socket (t_obj s) = 0 -> destination <> t_broadcast_address (t_obj s) -> 0 <= len <= Z.of_nat (length bs) ->
  tcp_loop s = Some (b, s') -> connection_socket (t_obj s') = -1 -> t_w s' = w1 -> t_write (-1) (take (Z.to_nat len) bs) w1 = Some (n2, w2) -> n2 < 0 ->
  tcp_send destination bs len s = Some (true, s) /\
  b = true /\ tcp_send destination bs len s' = Some (false, mkT (t_obj s') w2 (t_sn s')) /\ t_sn s' = t_sn s.
Proof.
  intros Ht Hc Hd Hl Hloop Hc' Hw Hwr Hn. split.
  { unfold tcp_send, mbind, M_bind, tcp_get. rewrite bool_decide_false by done. by rewrite Hc. }
  revert Hloop Hc' Hw. unfold tcp_loop. unfold mbind at 1, M_bind at 1, tcp_get at 1. destruct (Z.ltb_spec (tcp_socket (t_obj s)) 0); [lia|]. rewrite Hc.
  change (0 <=? 0) with true. cbv iota. unfold mbind, M_bind. destruct (set_nonblocking (tcp_socket (t_obj s)) s) as [[u s1]|] eqn:E1; [|done].
  apply set_nonblocking_run in E1 as (flags & w & -> & _). unfold tcp_sys, tcp_set. cbn [t_w t_obj t_sn]. destruct (t_accept _ w) as [[c w0]|]; [|done]. intros [= <- <-]. cbn [t_w t_obj t_sn put_connection connection_socket]. intros -> ->.
  split; [done|]. split; [|done]. unfold tcp_send, mbind, M_bind, tcp_get. cbn [t_obj put_connection put_save_fd t_broadcast_address connection_socket].
  rewrite bool_decide_false by done. change (-1 =? 0) with false. destruct (Z.ltb_spec (Z.of_nat (length bs)) len); [lia|]. unfold tcp_sys. cbn [t_w t_obj t_sn].
  rewrite Hwr. destruct (Z.eqb_spec n2 len); [lia|]. done.
Qed.
End Spec.

(** ** Examples *)

(** A system with one client at most, and the chunks it sends before it closes the connection. *)
#[local] Instance sim_tcp : TcpOs := {|
  TW := option (list (list Z));
  t_socket _ _ _ w := Some (3, w);
  t_reuse_addr _ w := Some (0, w);
  t_bind _ _ w := Some (0, w);
  t_listen _ _ w := Some (0, w);
  t_accept _ w := Some (match w with Some _ => 4 | None => -1 end, w);
  t_fcntl _ _ w := Some (0, w);
  t_write s bs w := Some (if s <? 0 then -1 else Z.of_nat (length bs), w);
  t_recv _ _ w := match w with Some (bs :: l) => Some ((Z.of_nat (length bs), bs), Some l) | _ => Some ((0, []), w) end;
  t_ioctl _ w := Some ((0, mkSockaddr 0 0 0), w);
  t_getifaddrs w := Some (Some [], w);
  t_getnameinfo _ _ w := Some ((0, []), w);
  t_inet_pton _ := 0
|}.
#[local] Instance sim_core : MqttSn := {|
  SN := list (list Z * list Z);
  sizeof_device_address := 6;
  notify_socket_connected k := Some (tt, k);
  notify_socket_disconnected k := Some (tt, k);
  receiveData a d k := Some (tt, k ++ [(a, take 4 d)])
|}.
(** What [begin] leaves, with [save_fd] from before. *)
Definition ex_tcp (w : option (list (list Z))) : tcp :=
  mkT (mkTcp 3 2048 0 (mkSockaddr AF_INET (htons PORT) INADDR_ANY) true true [] [255; 255; 255; 255; 255; 255]) w [].

(** The client sends two messages in one chunk, and then closes. *)
Lemma tcp_client_spec_witness : exists s1 s', tcp_loop (ex_tcp (Some [[2; 24; 2; 22]])) = Some (true, s1) /\ turns 3 s1 = Some (tt, s') /\
  connection_socket (t_obj s') = 4 /\ t_sn s' = [([0; 0; 0; 0; 34; 184], [2; 24; 2; 22])].
Proof.
  assert (exists s1, tcp_loop (ex_tcp (Some [[2; 24; 2; 22]])) = Some (true, s1) /\ tcp_socket (t_obj s1) = 3 /\ connection_socket (t_obj s1) = 4 /\
    exists s', turns 3 s1 = Some (tt, s') /\ t_sn s' = [([0; 0; 0; 0; 34; 184], [2; 24; 2; 22])]) as (s1 & E1 & T1 & N1 & s' & E & K)
    by (eexists; split; [vm_compute; reflexivity|split; [reflexivity|split; [reflexivity|eexists; split; vm_compute; reflexivity]]]).
  exists s1, s'. split; [exact E1|]. split; [exact E|].
  destruct (tcp_client_spec 3 s1 tt s' ltac:(rewrite T1; lia) ltac:(rewrite N1; lia) E) as ((_ & Hc & _) & _). split; [rewrite Hc; exact N1|exact K].
Defined.

Lemma tcp_idle_send_spec_witness : exists s', tcp_loop (ex_tcp None) = Some (true, s') /\
  tcp_send [1; 2; 3; 4; 5; 6] [2; 24] 2 (ex_tcp None) = Some (true, ex_tcp None) /\
  exists s2, tcp_send [1; 2; 3; 4; 5; 6] [2; 24] 2 s' = Some (false, s2).
Proof.
  assert (exists s', tcp_loop (ex_tcp None) = Some (true, s') /\ connection_socket (t_obj s') = -1 /\ t_w s' = t_w (ex_tcp None)) as (s' & E & N & W) by (eexists; split_and!; vm_compute; reflexivity).
  exists s'. split; [exact E|].
  destruct (tcp_idle_send_spec [1; 2; 3; 4; 5; 6] [2; 24] 2 (t_w (ex_tcp None)) (-1) (t_w (ex_tcp None)) (ex_tcp None) true s') as (H1 & _ & H2 & _); [cbn; lia|done|cbn; congruence|cbn; lia|exact E|exact N|exact W|reflexivity|lia|].
  split; [exact H1|]. eexists. exact H2.
Defined.
