(* ===== verification/TcpMany.v ===== *)
(** * TcpMany: TcpSocket.cpp and its threads

    The MQTT-SN socket over TCP with many clients: one thread of ConnectionAcceptor.cpp accepts
    clients, one thread of TcpConnection.cpp per client reads its messages, TcpMessage.cpp, into
    the queue of Queue.h, and [loop] takes them out.  The threads share the object of the socket;
    each step below is one that a lock or a single call keeps together, and threads take steps
    in any order.  A step that gives [None] is undefined behaviour. *)
From S2P Require Import Prelude CMem Linux SnSocket Tcp.

Definition IPPROTO_TCP : Z := 6.
Definition MANY_PORT : Z := 9999.
Definition RECEIVE_BUFFER_SIZE : nat := 255.

(** ** Data *)

(** TcpMessage.h *)
Record TcpMessage := mkTcpMessage { payload : list Z; payload_length : Z; msg_deviceAddress : list Z }.

(** Where the thread of a connection is in [TcpConnection::loop]. *)
Inductive connection_place := CnTest | CnRecv | CnPush (msg : TcpMessage) | CnRemove | CnClose | CnEnded.
(** TcpConnection.h; [new TcpConnection()] sets every member to 0. *)
Record TcpConnection := mkTcpConnection {
  deviceAddress : list Z; socketfd : Z; cn_stopped : bool; receive_buffer : list Z; cn_at : connection_place
}.
Definition put_device (x : list Z) (c : TcpConnection) : TcpConnection := mkTcpConnection x (socketfd c) (cn_stopped c) (receive_buffer c) (cn_at c).
Definition put_socketfd (x : Z) (c : TcpConnection) : TcpConnection := mkTcpConnection (deviceAddress c) x (cn_stopped c) (receive_buffer c) (cn_at c).
Definition put_cn_stopped (x : bool) (c : TcpConnection) : TcpConnection := mkTcpConnection (deviceAddress c) (socketfd c) x (receive_buffer c) (cn_at c).
Definition put_receive_buffer (x : list Z) (c : TcpConnection) : TcpConnection := mkTcpConnection (deviceAddress c) (socketfd c) (cn_stopped c) x (cn_at c).
Definition put_cn_at (x : connection_place) (c : TcpConnection) : TcpConnection := mkTcpConnection (deviceAddress c) (socketfd c) (cn_stopped c) (receive_buffer c) x.

(** Where the thread of the acceptor is in [ConnectionAcceptor::loop]; [AcAdd id]: behind the start of the thread
    of connection [id]. *)
Inductive acceptor_place := AcTest | AcAccept | AcAdd (id : nat) | AcClose | AcEnded.
(** ConnectionAcceptor.h; [new ConnectionAcceptor()] sets every member to 0. *)
Record ConnectionAcceptor := mkAcceptor { tcp_socket_fd : Z; ac_stopped : bool; ac_at : acceptor_place }.
Definition setTcpSocketFd (x : Z) (a : ConnectionAcceptor) : ConnectionAcceptor := mkAcceptor x (ac_stopped a) (ac_at a).
Definition put_ac_at (x : acceptor_place) (a : ConnectionAcceptor) : ConnectionAcceptor := mkAcceptor (tcp_socket_fd a) (ac_stopped a) x.

(** The object of the socket.  A pointer to a connection is its number in [threads]; [m_sent] is what was sent over which
    descriptor. *)
Record many := mkMany {
  m_socket : Z; m_socket_address : sockaddr_in; m_handler : bool; m_logger : bool; m_own_address : list Z; m_broadcast_address : list Z;
  receiver_queue : list TcpMessage; connections : list nat; threads : list TcpConnection; acceptor : option ConnectionAcceptor; m_sent : list (Z * list Z)
}.
Definition put_m_socket (x : Z) (s : many) : many :=
  mkMany x (m_socket_address s) (m_handler s) (m_logger s) (m_own_address s) (m_broadcast_address s) (receiver_queue s) (connections s) (threads s) (acceptor s) (m_sent s).
Definition put_m_socket_address (x : sockaddr_in) (s : many) : many :=
  mkMany (m_socket s) x (m_handler s) (m_logger s) (m_own_address s) (m_broadcast_address s) (receiver_queue s) (connections s) (threads s) (acceptor s) (m_sent s).
Definition put_m_users (x y : bool) (s : many) : many :=
  mkMany (m_socket s) (m_socket_address s) x y (m_own_address s) (m_broadcast_address s) (receiver_queue s) (connections s) (threads s) (acceptor s) (m_sent s).
Definition put_m_addresses (x y : list Z) (s : many) : many :=
  mkMany (m_socket s) (m_socket_address s) (m_handler s) (m_logger s) x y (receiver_queue s) (connections s) (threads s) (acceptor s) (m_sent s).
Definition put_receiver_queue (x : list TcpMessage) (s : many) : many :=
  mkMany (m_socket s) (m_socket_address s) (m_handler s) (m_logger s) (m_own_address s) (m_broadcast_address s) x (connections s) (threads s) (acceptor s) (m_sent s).
Definition put_m_connections (x : list nat) (s : many) : many :=
  mkMany (m_socket s) (m_socket_address s) (m_handler s) (m_logger s) (m_own_address s) (m_broadcast_address s) (receiver_queue s) x (threads s) (acceptor s) (m_sent s).
Definition put_m_threads (x : list TcpConnection) (s : many) : many :=
  mkMany (m_socket s) (m_socket_address s) (m_handler s) (m_logger s) (m_own_address s) (m_broadcast_address s) (receiver_queue s) (connections s) x (acceptor s) (m_sent s).
Definition put_acceptor (x : option ConnectionAcceptor) (s : many) : many :=
  mkMany (m_socket s) (m_socket_address s) (m_handler s) (m_logger s) (m_own_address s) (m_broadcast_address s) (receiver_queue s) (connections s) (threads s) x (m_sent s).
Definition put_m_sent (x : list (Z * list Z)) (s : many) : many :=
  mkMany (m_socket s) (m_socket_address s) (m_handler s) (m_logger s) (m_own_address s) (m_broadcast_address s) (receiver_queue s) (connections s) (threads s) (acceptor s) x.
Definition upd_connection (id : nat) (f : TcpConnection -> TcpConnection) (s : many) : many := put_m_threads (alter f id (threads s)) s.

(** ** Queue.h *)

(** [pop] waits while the queue is empty: [None]. *)
Definition queue_pop {T} (q : list T) : option (T * list T) := match q with x :: q => Some (x, q) | [] => None end.
Definition queue_push {T} (x : T) (q : list T) : list T := q ++ [x].
Definition queue_empty {T} (q : list T) : bool := match q with [] => true | _ => false end.

Section Definitions.
Context `{os : TcpOs} `{sn : MqttSn}.

(** ** TcpMessage.cpp *)

Definition TcpMessage_new : TcpMessage := mkTcpMessage (zero_bytes 255) 0 (zero_bytes sizeof_device_address).
(** The length is not stored; [bytes]: what the pointer points to. *)
Definition setPayload (bytes : list Z) (len : nat) (m : TcpMessage) : option TcpMessage :=
  if (length bytes <? len)%nat then None else
  payload ← copy_to (payload m) 0 (take len bytes);
  Some (mkTcpMessage payload (payload_length m) (msg_deviceAddress m)).
Definition setDeviceAddress (address : list Z) (m : TcpMessage) : option TcpMessage :=
  address ← copy_to (msg_deviceAddress m) 0 address;
  Some (mkTcpMessage (payload m) (payload_length m) address).

(** ** TcpConnection.cpp *)

Definition TcpConnection_new : TcpConnection := mkTcpConnection (zero_bytes sizeof_device_address) 0 false (zero_bytes RECEIVE_BUFFER_SIZE) CnTest.
Definition getDeviceAddress (c : TcpConnection) : list Z := deviceAddress c.
Definition setSocketFd (x : Z) (c : TcpConnection) : TcpConnection := put_socketfd x c.
(** [uninitialised]: the local [address] before.  Its port is compared with that of the client, and not set. *)
Definition setSocketAddress (uninitialised : list Z) (addr : sockaddr_in) (c : TcpConnection) : option TcpConnection :=
  address ← copy_to uninitialised 0 (u32_bytes (sin_addr addr));
  Some (put_device address c).

(** [send_bytes]: the value of [send]; what it counts has been sent. *)
Definition send_message (payload : list Z) (payload_length send_bytes : Z) (c : TcpConnection) (s : many) : option (bool * many) :=
  if Z.of_nat (length payload) <? payload_length then None else
  let s := if 0 <=? send_bytes then put_m_sent (m_sent s ++ [(socketfd c, take (Z.to_nat send_bytes) payload)]) s else s in
  Some (send_bytes =? payload_length, s).

(** [received]: what [recv] stored, or nothing and -1. *)
Definition cn_receive (received : option (list Z)) (c : TcpConnection) : option TcpConnection :=
  let read_length := match received with Some bs => Z.of_nat (length bs) | None => -1 end in
  buffer ← copy_to (receive_buffer c) 0 (default [] received);
  let c := put_receive_buffer buffer c in
  first ← buffer !! 0%nat;
  if read_length =? first then
    msg ← setDeviceAddress (deviceAddress c) TcpMessage_new;
    msg ← setPayload buffer (Z.to_nat read_length) msg;
    Some (put_cn_at (CnPush msg) c)
  else Some (put_cn_at CnTest c).

(** ** TcpSocket.cpp *)

Definition receive_message (msg : TcpMessage) (s : many) : many := put_receiver_queue (queue_push msg (receiver_queue s)) s.
Definition addTcpConnection (id : nat) (s : many) : many := put_m_connections (connections s ++ [id]) s.
(** [remove] in the loop over the same list frees the element the loop is at, and the loop goes on from it. *)
Definition removeTcpConnection (id : nat) (s : many) : option many :=
  if bool_decide (id ∈ connections s) then None else Some s.

(** A step of the thread of connection [id]; [received] is looked at where it calls [recv]. *)
Definition cn_step (id : nat) (received : option (list Z)) (s : many) : option many :=
  c ← threads s !! id;
  match cn_at c with
  | CnTest => Some (upd_connection id (put_cn_at (if cn_stopped c then CnRemove else CnRecv)) s)
  | CnRecv => c ← cn_receive received c; Some (upd_connection id (fun _ => c) s)
  | CnPush msg => Some (upd_connection id (put_cn_at CnTest) (receive_message msg s))
  | CnRemove => s ← removeTcpConnection id s; Some (upd_connection id (put_cn_at CnClose) s)
  | CnClose => Some (upd_connection id (put_cn_at CnEnded) s)
  | CnEnded => Some s
  end.
(** [stop_loop] up to [join]. *)
Definition cn_stop_loop (id : nat) (s : many) : many := upd_connection id (put_cn_stopped true) s.

Fixpoint find_connection (destination : list Z) (ids : list nat) (s : many) : option TcpConnection :=
  match ids with
  | [] => None
  | id :: ids =>
    match threads s !! id with
    | Some c => if bool_decide (destination = getDeviceAddress c) then Some c else find_connection destination ids s
    | None => None
    end
  end.
Definition many_send (send_bytes : Z) (destination bytes : list Z) (bytes_len : Z) (s : many) : option (bool * many) :=
  match find_connection destination (connections s) s with
  | Some c => send_message bytes bytes_len send_bytes c s
  | None => Some (false, s)
  end.
Definition many_send_with_strength (send_bytes : Z) (destination bytes : list Z) (bytes_len signal_strength : Z) (s : many) : option (bool * many) :=
  many_send send_bytes destination bytes bytes_len s.

(** The call of [receiveData] is a comment. *)
Definition many_loop (s : many) : option (bool * many) :=
  if negb (queue_empty (receiver_queue s)) then
    '(msg, q) ← queue_pop (receiver_queue s);
    Some (true, put_receiver_queue q s)
  else Some (true, s).

(** ** ConnectionAcceptor.cpp *)

Definition Acceptor_new : ConnectionAcceptor := mkAcceptor 0 false AcTest.
(** [stop_loop] up to [join]: [stopped = stopped]. *)
Definition ac_stop_loop (a : ConnectionAcceptor) : ConnectionAcceptor := mkAcceptor (tcp_socket_fd a) (ac_stopped a) (ac_at a).

(** A step of the thread.  [accepted]: what [accept] gave, and of which client; [writable]: that
    [cli_addr], which is never set, happens to point to eight bytes that may be written. *)
Definition ac_step (writable : bool) (uninitialised : list Z) (accepted : option (Z * sockaddr_in)) (s : many) : option many :=
  a ← acceptor s;
  let go p s := put_acceptor (Some (put_ac_at p a)) s in
  match ac_at a with
  | AcTest => Some (go (if negb (ac_stopped a) || (tcp_socket_fd a <? 0) then AcAccept else AcClose) s)
  | AcAccept =>
    match accepted with
    | None => Some (go AcTest s)
    | Some (newsockfd, cli_addr) =>
      if negb writable then None else
      c ← setSocketAddress uninitialised cli_addr (setSocketFd newsockfd TcpConnection_new);
      Some (go (AcAdd (length (threads s))) (put_m_threads (threads s ++ [c]) s))
    end
  | AcAdd id => Some (go AcTest (addTcpConnection id s))
  | AcClose => Some (go AcEnded s)
  | AcEnded => Some s
  end.

(** ** Starting *)

Record many_st := mkManySt { mn : many; mn_w : TW; mn_sn : SN }.
Definition many_get : M many_st many := fun s => Some (mn s, s).
Definition many_set (f : many -> many) : M many_st unit := fun s => Some (tt, mkManySt (f (mn s)) (mn_w s) (mn_sn s)).
Definition many_sys {A} (f : M TW A) : M many_st A := fun s =>
  match f (mn_w s) with Some (a, w) => Some (a, mkManySt (mn s) w (mn_sn s)) | None => None end.
(** A call through the pointer [mqttSnMessageHandler]. *)
Definition many_core (f : M SN unit) : M many_st unit := fun s =>
  if m_handler (mn s) then match f (mn_sn s) with Some (a, k) => Some (a, mkManySt (mn s) (mn_w s) k) | None => None end else None.

Definition many_initTcpSocket : M many_st bool :=
  s ← many_sys (t_socket AF_INET SOCK_STREAM IPPROTO_TCP);
  many_set (put_m_socket s);;
  if s =? -1 then mret false else
  rc ← many_sys (t_reuse_addr s);
  if rc =? -1 then mret false else
  let address := mkSockaddr AF_INET (htons MANY_PORT) INADDR_ANY in
  many_set (put_m_socket_address address);;
  rc ← many_sys (t_bind s address);
  if rc =? -1 then mret false else
  _ ← many_sys (t_listen s 5);
  many_set (put_acceptor (Some (setTcpSocketFd s Acceptor_new)));;
  mret true.

Definition many_begin : M many_st bool :=
  o ← many_get;
  if negb (m_handler o) then mret false else
  up ← many_initTcpSocket;
  if negb up then mret false else
  many_set (fun o => put_m_addresses (m_own_address o) (replicate sizeof_device_address 255) o);;
  o ← many_get;
  (if 0 <=? m_socket o then many_core notify_socket_connected else mret tt);;
  mret (0 <=? m_socket o).

Definition many_setLogger (x : bool) : M many_st unit := many_set (fun o => put_m_users (m_handler o) x o).
Definition many_setMqttSnMessageHandler (x : bool) : M many_st unit := many_set (fun o => put_m_users x (m_logger o) o).
Definition many_getBroadcastAddress : M many_st (list Z) := o ← many_get; mret (m_broadcast_address o).
Definition many_getMaximumMessageLength : Z := to_uchar BUFLEN.
Definition many_getAddress (family : Z) : M many_st (list Z) :=
  many_set (fun o => put_m_addresses (zero_bytes sizeof_device_address) (m_broadcast_address o) o);;
  o ← many_get;
  if m_socket o <? 0 then mret (m_own_address o) else
  address ← many_sys (interface_address MANY_PORT t_getnameinfo t_inet_pton (t_ioctl (m_socket o)) t_getifaddrs family);
  many_set (fun o => put_m_addresses address (m_broadcast_address o) o);;
  o ← many_get; mret (m_own_address o).

(** ** All threads *)

(** What the next step of a thread puts into the queue. *)
Definition pushes (id : nat) (s : many) : list TcpMessage :=
  match threads s !! id with Some c => match cn_at c with CnPush msg => [msg] | _ => [] end | None => [] end.

(** The calls of the system and of the gateway that steps are taken with; [recv] is told there are 255 bytes,
    [accept] gives descriptors, and nobody but who stops a connection calls its [stop_loop]. *)
Inductive many_event :=
  | Acceptor (accepted : option (Z * sockaddr_in))
  | Thread (id : nat) (received : option (list Z))
  | Send (send_bytes : Z) (destination bytes : list Z) (bytes_len : Z)
  | Loop
  | StopAcceptor
  | StopConnection (id : nat).
Definition many_run1 (writable : bool) (uninitialised : list Z) (e : many_event) (s : many) : option many :=
  match e with
  | Acceptor accepted => ac_step writable uninitialised accepted s
  | Thread id received => cn_step id received s
  | Send n destination bytes len => snd <$> many_send n destination bytes len s
  | Loop => snd <$> many_loop s
  | StopAcceptor => Some (put_acceptor (ac_stop_loop <$> acceptor s) s)
  | StopConnection id => Some (cn_stop_loop id s)
  end.
Fixpoint many_run (writable : bool) (uninitialised : list Z) (es : list many_event) (s : many) : option many :=
  match es with [] => Some s | e :: es => s ← many_run1 writable uninitialised e s; many_run writable uninitialised es s end.
End Definitions.
