(* ===== verification/TcpManySpec.v ===== *)
(** * TcpManySpec: what the threads of TcpSocket.cpp do with what clients send *)
From S2P Require Import Prelude CMem Linux SnSocket Tcp TcpMany.

Lemma alter_same {A} (l : list A) i : alter (fun x => x) i l = l.
Proof. apply list_eq. intros j. destruct (decide (j = i)) as [->|]; [rewrite list_lookup_alter_eq; by destruct (_ !! i)|by rewrite list_lookup_alter_ne]. Qed.

Section Spec.
Context `{os : TcpOs} `{sn : MqttSn} (writable : bool) (uninitialised : list Z).
Implicit Types (s : many) (c : TcpConnection).

(** ** Well-formed sockets *)

Record cn_wf c : Prop := {
  wf_buffer : length (receive_buffer c) = RECEIVE_BUFFER_SIZE; wf_bytes : bytes (receive_buffer c);
  wf_address : length (deviceAddress c) = sizeof_device_address
}.
Record many_wf s : Prop := {
  wf_threads : Forall cn_wf (threads s); wf_known : Forall (fun id => (id < length (threads s))%nat) (connections s); wf_nodup : NoDup (connections s);
  wf_adding : forall a id, acceptor s = Some a -> ac_at a = AcAdd id -> (id < length (threads s))%nat /\ id ∉ connections s
}.
(** What [recv] stores, and what a caller of [send] promises. *)
Definition event_ok (e : many_event) : Prop :=
  match e with
  | Thread _ (Some bs) => (length bs <= RECEIVE_BUFFER_SIZE)%nat /\ bytes bs
  | Send _ _ bs len => len <= Z.of_nat (length bs)
  | _ => True
  end.

Lemma wf_at p c : cn_wf c -> cn_wf (put_cn_at p c).
Proof. intros []. by split. Qed.
Lemma wf_connection s id c : many_wf s -> threads s !! id = Some c -> cn_wf c.
Proof. intros H E. eapply Forall_lookup_1; [apply H|done]. Qed.

(** A step of a thread changes its connection, and what it shares. *)
Lemma upd_threads_lookup id f s i : threads (upd_connection id f s) !! i = if decide (i = id) then f <$> threads s !! i else threads s !! i.
Proof. cbn. destruct (decide (i = id)) as [->|Hne]; [by rewrite list_lookup_alter_eq|by rewrite list_lookup_alter_ne]. Qed.

Lemma wf_upd id f s : many_wf s -> (forall c, threads s !! id = Some c -> cn_wf (f c)) -> many_wf (upd_connection id f s).
Proof.
  intros [H1 H2 H3 H4] Hf. assert (length (alter f id (threads s)) = length (threads s)) as Hl by apply length_alter. split; cbn; rewrite ?Hl; try done.
  apply Forall_lookup_2. intros i c E. change (alter f id (threads s)) with (threads (upd_connection id f s)) in E. rewrite upd_threads_lookup in E.
  destruct (decide (i = id)) as [->|]; [|by eapply Forall_lookup_1].
  destruct (threads s !! id) eqn:E1; [|done]. cbn in E. injection E as <-. by apply Hf.
Qed.
Lemma wf_shared s s' : many_wf s -> threads s' = threads s -> connections s' = connections s -> acceptor s' = acceptor s -> many_wf s'.
Proof. intros [H1 H2 H3 H4] E1 E2 E3. split; rewrite ?E1, ?E2, ?E3; done. Qed.

(** ** Reading *)

(** What stands in the first byte of the buffer after [recv]. *)
Definition first_after (first : Z) (received : option (list Z)) : Z :=
  match received with Some (b :: _) => b | _ => first end.
Definition whole (first : Z) (bs : list Z) : bool := Z.of_nat (length bs) =? first.
Definition message_of (address bs : list Z) : TcpMessage := mkTcpMessage (splice (zero_bytes 255) 0 bs) 0 address.

Lemma splice_0 (l bs : list Z) : (length bs <= length l)%nat -> splice l 0 bs = bs ++ drop (length bs) l.
Proof. intros H. unfold splice. by rewrite take_0. Qed.

(** One [recv]: a message, if what came is as long as its first byte says. *)
Lemma cn_receive_spec received c : cn_wf c -> event_ok (Thread 0 received) -> exists first c',
  head (receive_buffer c) = Some first /\ cn_receive received c = Some c' /\ cn_wf c' /\ deviceAddress c' = deviceAddress c /\ cn_stopped c' = cn_stopped c /\
  head (receive_buffer c') = Some (first_after first received) /\
  cn_at c' = match received with
             | Some bs => if whole (first_after first received) bs then CnPush (message_of (deviceAddress c) bs) else CnTest
             | None => CnTest
             end.
Proof.
  intros [Hl Hb Ha] Hr. destruct (receive_buffer c) as [|first rest] eqn:E; [done|]. rewrite <- E in *.
  set (bs := default [] received). assert ((length bs <= RECEIVE_BUFFER_SIZE)%nat /\ bytes bs) as [Hlb Hbb] by (destruct received; [done|split; [cbn; lia|constructor]]).
  set (buffer := splice (receive_buffer c) 0 bs).
  assert (length buffer = RECEIVE_BUFFER_SIZE) as Hl' by (unfold buffer; rewrite splice_0, length_app, length_drop by lia; lia).
  assert (head buffer = Some (first_after first received)) as Hh.
  { unfold buffer. rewrite splice_0 by lia. unfold bs. by destruct received as [[|b bs']|]; cbn [default first_after length drop app]; rewrite ?E. }
  assert (bytes buffer) as Hb' by (unfold buffer; rewrite splice_0 by lia; apply Forall_app; split; [done|by apply Forall_drop]).
  assert (0 <= first_after first received) as Hpos.
  { destruct buffer as [|b0 rest']; [done|]. injection Hh as ->. inversion_clear Hb'. unfold byte in *. lia. }
  exists first. unfold cn_receive. fold bs.
  assert (copy_to (receive_buffer c) 0 bs = Some buffer) as ->.
  { unfold copy_to, buffer. rewrite (proj2 (Nat.leb_le _ _)) by (cbn [Nat.add]; lia). done. }
  cbn [mbind option_bind].
  assert (buffer !! 0%nat = Some (first_after first received)) as -> by (by destruct buffer).
  cbn [mbind option_bind]. destruct received as [bs0|].
  - assert (length bs0 <= RECEIVE_BUFFER_SIZE)%nat as Hl0 by exact Hlb. fold (whole (first_after first (Some bs0)) bs0). destruct (whole _ _) eqn:Ew.
    + unfold setDeviceAddress, TcpMessage_new, copy_to. cbn [msg_deviceAddress payload payload_length deviceAddress put_receive_buffer].
      assert (length (zero_bytes sizeof_device_address) = sizeof_device_address) as Hz by apply length_replicate. rewrite Hz, Ha, (proj2 (Nat.leb_le _ _)) by (cbn [Nat.add]; lia).
      cbn [mbind option_bind]. unfold setPayload. cbn [payload payload_length msg_deviceAddress]. rewrite Nat2Z.id, (proj2 (Nat.ltb_ge _ _)) by lia.
      assert (take (length bs0) buffer = bs0) as Ht by (unfold buffer; rewrite splice_0 by lia; unfold bs; by rewrite take_app_length).
      rewrite Ht. unfold copy_to. assert (length (zero_bytes 255) = RECEIVE_BUFFER_SIZE) as -> by apply length_replicate. rewrite (proj2 (Nat.leb_le _ _)) by (cbn [Nat.add]; unfold bs in *; lia).
      cbn [mbind option_bind]. eexists. split; [by rewrite E|]. split; [reflexivity|]. split; [by split|]. split; [done|]. split; [done|]. split; [done|]. cbn [cn_at put_cn_at].
      unfold message_of. do 2 f_equal. rewrite splice_0 by lia. rewrite drop_ge by lia. by rewrite app_nil_r.
    + eexists. split; [by rewrite E|]. split; [reflexivity|]. split; [by split|]. done.
  - destruct (Z.eqb_spec (-1) (first_after first None)); [lia|]. eexists. split; [by rewrite E|]. split; [reflexivity|]. split; [by split|]. done.
Qed.

(** ** Logs of a run *)

(** What a step is given by [recv], what it puts into the queue, and what it takes out. *)
Definition got_by (e : many_event) s : list (nat * option (list Z)) :=
  match e with
  | Thread i r => match threads s !! i with Some c => match cn_at c with CnRecv => [(i, r)] | _ => [] end | None => [] end
  | _ => []
  end.
Definition pushed_by (e : many_event) s : list (nat * TcpMessage) := match e with Thread i _ => pair i <$> pushes i s | _ => [] end.
Definition popped_by (e : many_event) s : list TcpMessage := match e with Loop => take 1 (receiver_queue s) | _ => [] end.
Fixpoint many_log (es : list many_event) s : list (nat * option (list Z)) * list (nat * TcpMessage) * list TcpMessage :=
  match es with
  | [] => ([], [], [])
  | e :: es =>
    match many_run1 writable uninitialised e s with
    | Some s1 => let '(g, p, o) := many_log es s1 in (got_by e s ++ g, pushed_by e s ++ p, popped_by e s ++ o)
    | None => ([], [], [])
    end
  end.
Definition of_connection {T} (id : nat) (l : list (nat * T)) : list T := (filter (fun x : nat * T => x.1 = id) l).*2.

(** The reference: messages of a connection are the chunks of its stream that are as long as their first byte
    says; a chunk of no bytes, at the end of the stream, still has the first byte of the last. *)
Fixpoint framed (address : list Z) (first : Z) (rs : list (option (list Z))) : list TcpMessage :=
  match rs with
  | [] => []
  | r :: rs =>
    let first := first_after first r in
    match r with Some bs => if whole first bs then [message_of address bs] else [] | None => [] end ++ framed address first rs
  end.
Lemma framed_app address rs1 rs2 first : framed address first (rs1 ++ rs2) = framed address first rs1 ++ framed address (foldl first_after first rs1) rs2.
Proof. revert first. induction rs1 as [|r rs1 IH]; intros first; [done|]. cbn [framed app foldl]. by rewrite IH, app_assoc. Qed.

Lemma of_connection_app {T} id (l1 l2 : list (nat * T)) : of_connection id (l1 ++ l2) = of_connection id l1 ++ of_connection id l2.
Proof. unfold of_connection. by rewrite filter_app, fmap_app. Qed.
Lemma of_connection_self {T} id (l : list T) : of_connection id (pair id <$> l) = l.
Proof. induction l as [|x l IH]; [done|]. unfold of_connection in *. cbn [fmap list_fmap]. rewrite filter_cons_True by done. cbn [fmap list_fmap snd]. by rewrite IH. Qed.
Lemma of_connection_other {T} id i (l : list T) : i <> id -> of_connection id (pair i <$> l) = [].
Proof. intros Hne. induction l as [|x l IH]; [done|]. unfold of_connection in *. cbn [fmap list_fmap]. by rewrite filter_cons_False. Qed.

Definition first_of (id : nat) s : Z := match threads s !! id with Some c => default 0 (head (receive_buffer c)) | None => 0 end.
Definition address_of (id : nat) s : option (list Z) := deviceAddress <$> threads s !! id.

(** What a step is to connection [id]. *)
Record step_frames (id : nat) (e : many_event) s s1 : Prop := {
  sf_wf : many_wf s1;
  sf_first : first_of id s1 = foldl first_after (first_of id s) (of_connection id (got_by e s));
  sf_address : forall a, address_of id s = Some a -> address_of id s1 = Some a;
  sf_frames : forall a, (forall a', address_of id s1 = Some a' -> a' = a) ->
    of_connection id (pushed_by e s) ++ pushes id s1 = pushes id s ++ framed a (first_of id s) (of_connection id (got_by e s))
}.

(** A step that leaves the connections alone. *)
Lemma frames_shared id e s s1 : many_wf s1 -> got_by e s = [] -> pushed_by e s = [] -> threads s1 = threads s -> step_frames id e s s1.
Proof.
  intros Hwf Hg Hp Ht. assert (pushes id s1 = pushes id s) as E by (unfold pushes; by rewrite Ht).
  split; rewrite ?Hg, ?Hp; cbn; [done| | |]; unfold first_of, address_of in *; rewrite ?Ht; try done. intros a _. by rewrite E, app_nil_r.
Qed.

(** A step of the thread of another connection. *)
Lemma frames_other id i r f s s1 : i <> id -> many_wf s1 -> threads s1 = alter f i (threads s) -> step_frames id (Thread i r) s s1.
Proof.
  intros Hne Hwf Ht. assert (threads s1 !! id = threads s !! id) as El by (rewrite Ht; by rewrite list_lookup_alter_ne).
  assert (of_connection id (got_by (Thread i r) s) = []) as Eg.
  { cbn [got_by]. repeat case_match; try done. by apply (of_connection_other id i [r]). }
  split; [done|rewrite Eg; cbn; unfold first_of; by rewrite El|unfold address_of; by rewrite El|].
  intros a _. cbn [pushed_by]. rewrite of_connection_other, Eg by done. unfold pushes. rewrite El. cbn. by rewrite app_nil_r.
Qed.

(** A step of the thread of the connection itself. *)
Lemma frames_self id r f s s1 c : many_wf s1 -> threads s !! id = Some c -> threads s1 = alter f id (threads s) -> deviceAddress (f c) = deviceAddress c ->
  head (receive_buffer (f c)) = Some (foldl first_after (first_of id s) (of_connection id (got_by (Thread id r) s))) ->
  (match cn_at c with CnPush msg => [msg] | _ => [] end) ++ match cn_at (f c) with CnPush msg => [msg] | _ => [] end =
    (match cn_at c with CnPush msg => [msg] | _ => [] end) ++ framed (deviceAddress c) (first_of id s) (of_connection id (got_by (Thread id r) s)) ->
  step_frames id (Thread id r) s s1.
Proof.
  intros Hwf Ec Ht Ha Hh Hf. assert (threads s1 !! id = Some (f c)) as El by (by rewrite Ht, list_lookup_alter_eq, Ec).
  split; [done|unfold first_of at 1; by rewrite El, Hh| |]; unfold address_of; rewrite ?Ec, ?El; cbn [fmap option_fmap option_map].
  - by rewrite Ha.
  - intros a Ha'. rewrite <- (Ha' _ eq_refl). cbn [pushed_by]. rewrite of_connection_self. unfold pushes. rewrite El, Ec, Ha. by rewrite Hf.
Qed.

Lemma cn_step_frames i r s s1 id : many_wf s -> event_ok (Thread i r) -> cn_step i r s = Some s1 -> step_frames id (Thread i r) s s1.
Proof.
  intros Hwf Hr Hs. unfold cn_step in Hs. destruct (threads s !! i) as [c|] eqn:Ec; [|done]. cbn [mbind option_bind] in Hs.
  pose proof (wf_connection _ _ _ Hwf Ec) as Hc.
  assert (forall f s2, many_wf s2 -> threads s2 = threads s -> (cn_wf c -> cn_wf (f c)) -> deviceAddress (f c) = deviceAddress c ->
    (cn_at c = CnRecv -> head (receive_buffer (f c)) = Some (first_after (first_of i s) r) /\
       match cn_at (f c) with CnPush msg => [msg] | _ => [] end = framed (deviceAddress c) (first_of i s) [r]) ->
    (cn_at c <> CnRecv -> receive_buffer (f c) = receive_buffer c /\ match cn_at (f c) with CnPush msg => [msg] | _ => [] end = []) ->
    step_frames id (Thread i r) s (upd_connection i f s2)) as Hupd.
  { intros f s2 Hw2 Ht2 Hf Ha H1 H2. assert (many_wf (upd_connection i f s2)) as Hw by (apply wf_upd; [done|]; intros c2; rewrite Ht2, Ec; intros [= <-]; by apply Hf).
    destruct (decide (i = id)) as [->|Hne]; [|by apply (frames_other id i r f); [done|done|cbn; by rewrite Ht2]].
    apply (frames_self id r f s _ c); [done|done|cbn; by rewrite Ht2|done| |]; cbn [got_by]; rewrite Ec; destruct (cn_at c) eqn:Ep;
      try (destruct H2 as [Hb Hp]; [done|]; cbn [of_connection filter list_filter fmap list_fmap foldl framed app]; rewrite ?Hp; try done;
           unfold first_of; rewrite Ec, Hb; destruct Hc as [Hl _ _]; by destruct (receive_buffer c));
      destruct H1 as [Hb Hp]; try done; rewrite (of_connection_self id [r] : of_connection id [(id, r)] = [r]); cbn [foldl]; by rewrite ?Hb, ?Hp. }
  destruct (cn_at c) eqn:Ep.
  - injection Hs as <-. apply Hupd; try done; try apply wf_at. intros _. split; [done|]. cbn. by destruct (cn_stopped c).
  - destruct (cn_receive_spec r c Hc Hr) as (first & c' & Hh & Er & Hc' & Ha & _ & Hh' & Hat). rewrite Er in Hs. cbn [mbind option_bind] in Hs. injection Hs as <-.
    assert (first_of i s = first) as Ef by (unfold first_of; by rewrite Ec, Hh).
    apply Hupd; try done; try apply wf_at. intros _. rewrite Ef. split; [done|]. rewrite Hat. cbn [framed]. rewrite app_nil_r. destruct r as [bs|]; [|done]. by destruct (whole _ bs).
  - injection Hs as <-. apply Hupd; try done.
    + by apply (wf_shared s).
    + apply wf_at.
  - unfold removeTcpConnection in Hs. destruct (bool_decide _); [done|]. cbn [mbind option_bind] in Hs. injection Hs as <-. apply Hupd; try done; apply wf_at.
  - injection Hs as <-. apply Hupd; try done; apply wf_at.
  - injection Hs as <-. replace s with (upd_connection i (fun c => c) s) at 2; [apply Hupd; try done; by rewrite Ep|].
    destruct s. unfold upd_connection, put_m_threads. cbn. by rewrite alter_same.
Qed.

Lemma copy_to_length (a bs r : list Z) i : copy_to a i bs = Some r -> length r = length a.
Proof. unfold copy_to. destruct (Nat.leb_spec (i + length bs) (length a)); [|done]. intros [= <-]. unfold splice. rewrite !length_app, length_take, length_drop. lia. Qed.

(** A connection as the acceptor makes it. *)
Lemma accepted_wf fd addr c : length uninitialised = sizeof_device_address -> setSocketAddress uninitialised addr (setSocketFd fd TcpConnection_new) = Some c ->
  cn_wf c /\ head (receive_buffer c) = Some 0 /\ cn_at c = CnTest /\ cn_stopped c = false.
Proof.
  intros Hu. unfold setSocketAddress. destruct (copy_to _ _ _) as [a|] eqn:E; [|done]. intros [= <-]. apply copy_to_length in E. split; [|done].
  split; [done|by apply (Forall_replicate (A := Z))|by cbn; rewrite E].
Qed.

Lemma ac_step_frames accepted s s1 id : many_wf s -> length uninitialised = sizeof_device_address -> ac_step writable uninitialised accepted s = Some s1 ->
  step_frames id (Acceptor accepted) s s1.
Proof.
  intros Hwf Hu. unfold ac_step. destruct (acceptor s) as [a|] eqn:Ea; [|done]. cbn [mbind option_bind]. pose proof Hwf as [H1 H2 H3 H4].
  assert (forall p, (forall i, p = AcAdd i -> False) -> step_frames id (Acceptor accepted) s (put_acceptor (Some (put_ac_at p a)) s)) as Hgo.
  { intros p Hp. apply frames_shared; try done. split; cbn; try done. intros a' i [= <-] E. cbn in E. by destruct (Hp i). }
  destruct (ac_at a) eqn:Eat.
  - intros [= <-]. apply Hgo. by destruct (_ || _).
  - destruct accepted as [[fd addr]|]; [|intros [= <-]; by apply Hgo]. destruct writable; [|done]. cbn [negb].
    destruct (setSocketAddress _ _ _) as [c|] eqn:Ec; [|done]. cbn [mbind option_bind]. intros [= <-].
    destruct (accepted_wf _ _ _ Hu Ec) as (Hc & Hh & Hp & _). set (s1 := put_acceptor _ _).
    assert (forall i, threads s1 !! i = if decide (i = length (threads s)) then Some c else threads s !! i) as Hl.
    { intros i. cbn. destruct (decide (i = length (threads s))) as [->|Hne]; [by rewrite lookup_app_r, Nat.sub_diag|].
      destruct (decide (i < length (threads s))%nat) as [Hi|Hi]; [by rewrite lookup_app_l|]. rewrite !lookup_ge_None_2; [done|lia|rewrite length_app; cbn; lia]. }
    assert (threads s !! length (threads s) = None) as Hnone by (by apply lookup_ge_None_2).
    split; [|cbn; unfold first_of; rewrite Hl|unfold address_of; intros a'; rewrite Hl|intros a' _; cbn; unfold pushes; rewrite Hl; rewrite app_nil_r];
      try (destruct (decide (id = length (threads s))) as [->|]; [rewrite ?Hnone, ?Hh, ?Hp; done|done]).
    split; cbn; [apply Forall_app_2; [done|by apply Forall_singleton]|eapply Forall_impl; [exact H2|]; intros i Hi; cbn in Hi |- *; rewrite length_app; lia|done|].
    intros a' i [= <-] [= <-]. split; [rewrite length_app; cbn; lia|]. intros Hin. rewrite Forall_forall in H2. specialize (H2 _ Hin). cbn in H2. lia.
  - intros [= <-]. destruct (H4 _ _ Ea Eat) as [Hi Hni]. apply frames_shared; try done. split; cbn; [done|apply Forall_app_2; [done|by apply Forall_singleton]| |by intros a' i [= <-]].
    apply NoDup_app. split; [done|]. split; [intros x Hx [->|[]%not_elem_of_nil]%elem_of_cons; done|apply NoDup_singleton].
  - intros [= <-]. by apply Hgo.
  - intros [= <-]. apply frames_shared; try done.
Qed.

Lemma many_send_shared n d bs len s b s1 : many_send n d bs len s = Some (b, s1) ->
  threads s1 = threads s /\ connections s1 = connections s /\ acceptor s1 = acceptor s /\ receiver_queue s1 = receiver_queue s.
Proof. unfold many_send, send_message. repeat case_match; by intros [= <- <-]. Qed.

Lemma run1_frames e s s1 id : many_wf s -> event_ok e -> length uninitialised = sizeof_device_address -> many_run1 writable uninitialised e s = Some s1 -> step_frames id e s s1.
Proof.
  intros Hwf He Hu. destruct e as [accepted|i r|n d bs len| | |i]; cbn [many_run1].
  - by apply ac_step_frames.
  - by apply cn_step_frames.
  - destruct (many_send n d bs len s) as [[b s']|] eqn:E; [|done]. intros [= <-]. apply many_send_shared in E as (E1 & E2 & E3 & _).
    apply frames_shared; try done. by apply (wf_shared s).
  - unfold many_loop. destruct (receiver_queue s); intros [= <-]; apply frames_shared; try done; by apply (wf_shared s).
  - intros [= <-]. apply frames_shared; try done. destruct Hwf as [H1 H2 H3 H4]. split; cbn; try done.
    intros a i. destruct (acceptor s) as [a0|]; [|done]. intros [= <-]. cbn. intros E. by eapply H4.
  - intros [= <-]. set (f := put_cn_stopped true). assert (forall c, cn_wf c -> cn_wf (f c)) as Hf by (intros c []; by split).
    assert (forall j, threads (cn_stop_loop i s) !! j = (fun c => if decide (j = i) then f c else c) <$> threads s !! j) as Hl.
    { intros j. unfold cn_stop_loop. rewrite upd_threads_lookup. destruct (decide (j = i)); [done|]. by destruct (threads s !! j). }
    split; [apply wf_upd; [done|]; intros c Ec; by apply Hf, (wf_connection s i)| | |]; cbn; unfold first_of, address_of, pushes; rewrite Hl;
      destruct (threads s !! id) as [c|]; cbn; destruct (decide (id = i)); cbn; rewrite ?app_nil_r; done.
Qed.

Lemma run1_queue e s s1 : many_run1 writable uninitialised e s = Some s1 ->
  receiver_queue s ++ (pushed_by e s).*2 = popped_by e s ++ receiver_queue s1.
Proof.
  intros E. destruct e as [accepted|i r|n d bs len| | |i]; cbn [many_run1 pushed_by popped_by fmap list_fmap app] in *; rewrite ?app_nil_r.
  - unfold ac_step in E. destruct (acceptor s) as [a|]; [|done]. cbn [mbind option_bind] in E. repeat case_match; try done; try (by injection E as <-).
    destruct (setSocketAddress _ _ _); [|done]. by injection E as <-.
  - assert (forall T (l : list T), (pair i <$> l).*2 = l) as -> by (intros T l; rewrite <- list_fmap_compose; apply list_fmap_id).
    unfold cn_step, pushes in *. destruct (threads s !! i) as [c|]; [|done]. cbn [mbind option_bind] in E.
    destruct (cn_at c); rewrite ?app_nil_r; try (by injection E as <-).
    + destruct (cn_receive r c) as [c'|]; [|done]. by injection E as <-.
    + unfold removeTcpConnection in E. destruct (bool_decide _); [done|]. by injection E as <-.
  - destruct (many_send n d bs len s) as [[b s']|] eqn:Es; [|done]. injection E as <-. by apply many_send_shared in Es as (_ & _ & _ & ->).
  - unfold many_loop in E. destruct (receiver_queue s) as [|m q] eqn:Eq; injection E as <-; cbn; rewrite ?Eq; by rewrite ?take_0.
  - by injection E as <-.
  - by injection E as <-.
Qed.

(** ** Runs *)

Lemma run_address id es : forall s s' a, length uninitialised = sizeof_device_address -> many_wf s -> Forall event_ok es ->
  many_run writable uninitialised es s = Some s' -> address_of id s = Some a -> address_of id s' = Some a.
Proof.
  induction es as [|e es IH]; intros s s' a Hu Hwf Hes; cbn [many_run]; [by intros [= ->]|].
  destruct (many_run1 writable uninitialised e s) as [s1|] eqn:E; [|done]. inversion_clear Hes as [|? ? He Hes']. intros Hrun Ha.
  destruct (run1_frames e s s1 id Hwf He Hu E) as [Hwf1 _ Hadr _]. by eapply IH; [..|apply Hadr].
Qed.

Lemma run_frames id es a : forall s s', length uninitialised = sizeof_device_address -> many_wf s -> Forall event_ok es ->
  many_run writable uninitialised es s = Some s' -> address_of id s' = Some a ->
  many_wf s' /\
  of_connection id (many_log es s).1.2 ++ pushes id s' = pushes id s ++ framed a (first_of id s) (of_connection id (many_log es s).1.1) /\
  receiver_queue s ++ (many_log es s).1.2.*2 = (many_log es s).2 ++ receiver_queue s'.
Proof.
  induction es as [|e es IH]; intros s s' Hu Hwf Hes; cbn [many_run many_log].
  - intros [= <-] Ha. cbn. by rewrite !app_nil_r.
  - destruct (many_run1 writable uninitialised e s) as [s1|] eqn:E; [|done]. cbn [mbind option_bind]. intros Hrun Ha. inversion_clear Hes as [|? ? He Hes'].
    pose proof (run1_frames e s s1 id Hwf He Hu E) as [Hwf1 Hf _ Hfr]. apply run1_queue in E as Hq.
    destruct (IH s1 s' Hu Hwf1 Hes' Hrun Ha) as (Hwf' & IHf & IHq).
    assert (forall a', address_of id s1 = Some a' -> a' = a) as Ha1 by (intros a' E1; apply (run_address id es s1 s') in E1; try done; congruence).
    destruct (many_log es s1) as [[g p] o]. cbn [fst snd] in *. split; [done|]. split.
    + rewrite !of_connection_app, <- app_assoc, IHf, framed_app, app_assoc, (Hfr a Ha1), Hf. by rewrite app_assoc.
    + rewrite fmap_app, app_assoc, Hq, <- !app_assoc. by rewrite IHq.
Qed.
(** A socket after [begin]. *)
Definition many_fresh s : Prop :=
  threads s = [] /\ connections s = [] /\ receiver_queue s = [] /\ exists fd, acceptor s = Some (setTcpSocketFd fd Acceptor_new).
Lemma fresh_wf s : many_fresh s -> many_wf s.
Proof. intros (E1 & E2 & _ & fd & E3). split; rewrite ?E1, ?E2, ?E3; [constructor|constructor|constructor|by intros a id [= <-]]. Qed.

(** C19: in every run of the threads from a fresh socket, whatever the order of their steps: what connection [id] has put
    into the queue, with the message it is about to put, is its stream cut into messages by
    the reference [framed], from its own address; and the queue hands out what all
    connections put into it, each message once and in order. *)
Theorem many_clients_spec es s s' id a : length uninitialised = sizeof_device_address -> many_fresh s -> Forall event_ok es ->
  many_run writable uninitialised es s = Some s' -> address_of id s' = Some a ->
  of_connection id (many_log es s).1.2 ++ pushes id s' = framed a 0 (of_connection id (many_log es s).1.1) /\
  (many_log es s).1.2.*2 = (many_log es s).2 ++ receiver_queue s'.
Proof.
  intros Hu Hs Hes Hrun Ha. destruct (run_frames id es a s s' Hu (fresh_wf s Hs) Hes Hrun Ha) as (_ & H1 & H2).
  destruct Hs as (E1 & _ & E3 & _). unfold pushes at 2, first_of in H1. rewrite E1 in H1. by rewrite E3 in H2.
Qed.

(** ** What the reference says *)

(** A message of MQTT-SN, whose first byte is its length. *)
Definition sn_packet (p : list Z) : Prop := head p = Some (Z.of_nat (length p)).
Lemma whole_packet first p : sn_packet p -> first_after first (Some p) = Z.of_nat (length p) /\ whole (Z.of_nat (length p)) p = true.
Proof. intros H. destruct p as [|b p]; [done|]. injection H as H. split; [done|]. unfold whole. apply Z.eqb_refl. Qed.

(** Packets that arrive one by one are all queued; *)
Theorem packets_queued a first ps : Forall sn_packet ps -> framed a first (Some <$> ps) = message_of a <$> ps.
Proof.
  intros H. revert first. induction H as [|p ps Hp _ IH]; intros first; [done|]. cbn [fmap list_fmap framed].
  destruct (whole_packet first p Hp) as [-> ->]. by rewrite IH.
Qed.
(** Two packets that arrive together are dropped, *)
Theorem joined_packets_dropped a first p q : sn_packet p -> q <> [] -> framed a first [Some (p ++ q)] = [].
Proof.
  intros Hp Hq. destruct p as [|b p]; [done|]. injection Hp as Hb. cbn [framed first_after app]. unfold whole.
  destruct (Z.eqb_spec (Z.of_nat (length (b :: p ++ q))) b) as [E|]; [|done]. rewrite Hb in E. cbn [length] in E. rewrite length_app in E. destruct q; [done|cbn in E; lia].
Qed.
(** And so is one that arrives in two parts, unless the second part looks like a packet. *)
Theorem split_packet_dropped a first p q : p <> [] -> q <> [] -> sn_packet (p ++ q) -> ~ sn_packet q -> framed a first [Some p; Some q] = [].
Proof.
  intros Hp Hq Hpq Hn. destruct p as [|b p]; [done|]. destruct q as [|c q]; [done|]. injection Hpq as Hb. cbn [framed first_after app]. unfold whole.
  destruct (Z.eqb_spec (Z.of_nat (length (b :: p))) b) as [E|]; [rewrite Hb in E; cbn [length] in E; rewrite length_app in E; cbn in E; lia|].
  destruct (Z.eqb_spec (Z.of_nat (length (c :: q))) c) as [E|]; [|done]. destruct Hn. unfold sn_packet. cbn [head]. by rewrite E at 1.
Qed.
(** A client that goes away without having sent anything is a message of no bytes for every call of [recv]. *)
Theorem closed_client_floods a n : framed a 0 (replicate n (Some [])) = replicate n (message_of a []).
Proof. induction n as [|n IH]; [done|]. cbn [replicate framed first_after]. unfold whole. cbn. by rewrite IH. Qed.

(** ** Steps that are defined *)

Definition unstopped s : Prop := Forall (fun c => cn_stopped c = false /\ match cn_at c with CnRemove | CnClose | CnEnded => False | _ => True end) (threads s).
(** A step that can be taken: the thread exists, and nobody stops a connection. *)
Definition enabled (e : many_event) s : Prop :=
  match e with Acceptor _ => is_Some (acceptor s) | Thread i _ => (i < length (threads s))%nat | StopConnection _ => False | _ => True end.

Lemma unstopped_upd i f s s1 : unstopped s -> threads s1 = alter f i (threads s) ->
  (forall c, threads s !! i = Some c -> cn_stopped c = false -> cn_stopped (f c) = false /\ match cn_at (f c) with CnRemove | CnClose | CnEnded => False | _ => True end) -> unstopped s1.
Proof.
  intros H Ht Hf. unfold unstopped. rewrite Ht. apply Forall_lookup_2. intros j c. destruct (decide (j = i)) as [->|Hne].
  - rewrite list_lookup_alter_eq. destruct (threads s !! i) as [c0|] eqn:E; [|done]. intros [= <-]. apply Hf; [done|]. eapply (Forall_lookup_1 _ _ _ _ H) in E. apply E.
  - rewrite list_lookup_alter_ne by done. intros E. by eapply (Forall_lookup_1 _ _ _ _ H).
Qed.

Lemma cn_step_defined i r s : many_wf s -> unstopped s -> event_ok (Thread i r) -> (i < length (threads s))%nat -> exists s1, cn_step i r s = Some s1 /\ unstopped s1.
Proof.
  intros Hwf Hun Hr Hi. destruct (lookup_lt_is_Some_2 _ _ Hi) as [c Ec]. pose proof (Forall_lookup_1 _ _ _ _ Hun Ec) as [Hst Hat]. unfold cn_step. rewrite Ec. cbn [mbind option_bind].
  destruct (cn_at c) eqn:Ep; try done.
  - eexists. split; [done|]. eapply unstopped_upd; [done|done|]. intros c0 E0 Hs0. rewrite Ec in E0. injection E0 as <-. cbn. by rewrite Hst.
  - destruct (cn_receive_spec r c (wf_connection _ _ _ Hwf Ec) Hr) as (first & c' & _ & -> & _ & _ & Hs' & _ & Hat'). cbn [mbind option_bind]. eexists. split; [done|].
    eapply unstopped_upd; [done|done|]. intros ? _ _. cbv beta. rewrite Hs', Hat'. split; [done|]. by repeat case_match.
  - eexists. split; [done|]. by eapply unstopped_upd.
Qed.

(** While nobody stops a connection, and [cli_addr] happens to point to memory that may be written, every
    step a thread of a fresh socket comes to is defined: the buffer, the payload and the
    addresses are large enough for what is copied into them. *)
Theorem many_step_defined e s : writable = true -> (4 <= sizeof_device_address)%nat -> length uninitialised = sizeof_device_address ->
  many_wf s -> unstopped s -> event_ok e -> enabled e s ->
  exists s1, many_run1 writable uninitialised e s = Some s1 /\ many_wf s1 /\ unstopped s1.
Proof.
  intros Hw Hsz Hu Hwf Hun He Hen. assert (exists s1, many_run1 writable uninitialised e s = Some s1 /\ unstopped s1) as (s1 & E & H1);
    [|exists s1; split; [done|]; split; [by apply (run1_frames e s s1 0%nat)|done]].
  destruct e as [accepted|i r|n d bs len| | |i]; cbn [many_run1 enabled] in *; [| | | | |done].
  - destruct Hen as [a Ea]. unfold ac_step. rewrite Ea. cbn [mbind option_bind]. destruct (ac_at a); try (by eexists).
    destruct accepted as [[fd addr]|]; [|by eexists]. rewrite Hw. cbn [negb].
    destruct (setSocketAddress uninitialised addr (setSocketFd fd TcpConnection_new)) as [c|] eqn:Ec.
    + destruct (accepted_wf _ _ _ Hu Ec) as (_ & _ & Hp & Hs). cbn [mbind option_bind]. eexists. split; [done|]. unfold unstopped. cbn. apply Forall_app_2; [done|]. apply Forall_singleton. by rewrite Hs, Hp.
    + unfold setSocketAddress, copy_to in Ec. rewrite Hu, (proj2 (Nat.leb_le _ _)) in Ec; [done|by cbn].
  - by apply cn_step_defined.
  - assert (exists b s1, many_send n d bs len s = Some (b, s1)) as (b & s1 & E).
    { unfold many_send, send_message. destruct (find_connection d (connections s) s) as [c|]; [|by eexists _, _]. rewrite (proj2 (Z.ltb_ge _ _)) by (cbn in He; lia). by eexists _, _. }
    rewrite E. eexists. split; [done|]. apply many_send_shared in E as (Et & _). unfold unstopped in *. cbn [fmap option_fmap option_map snd]. by rewrite Et.
  - unfold many_loop. destruct (receiver_queue s); by eexists.
  - by eexists.
Qed.

(** Stopping a connection that the socket lists ends in undefined behaviour as soon as its thread sees it: the
    loop of [removeTcpConnection] goes on from the element it has freed. *)
Theorem stopped_connection_undefined id s c r1 r2 : threads s !! id = Some c -> cn_at c = CnTest -> id ∈ connections s ->
  many_run writable uninitialised [StopConnection id; Thread id r1; Thread id r2] s = None.
Proof.
  intros Ec Ep Hin. cbn [many_run many_run1 mbind option_bind].
  assert (threads (cn_stop_loop id s) !! id = Some (put_cn_stopped true c)) as E1 by (unfold cn_stop_loop; rewrite upd_threads_lookup, decide_True, Ec by done; done).
  set (s2 := upd_connection id (put_cn_at CnRemove) (cn_stop_loop id s)).
  assert (cn_step id r1 (cn_stop_loop id s) = Some s2) as -> by (unfold cn_step; rewrite E1; cbn [mbind option_bind put_cn_stopped cn_at]; by rewrite Ep).
  cbn [mbind option_bind]. assert (threads s2 !! id = Some (put_cn_at CnRemove (put_cn_stopped true c))) as E2 by (unfold s2; rewrite upd_threads_lookup, decide_True, E1 by done; done).
  assert (cn_step id r2 s2 = None) as ->; [|done]. unfold cn_step. rewrite E2. cbn [mbind option_bind put_cn_at cn_at]. unfold removeTcpConnection. by rewrite bool_decide_eq_true_2.
Qed.

(** ** The acceptor *)

(** The thread of the acceptor never ends, whoever calls [stop_loop]: so the call, which waits for the thread, does not return. *)
Theorem acceptor_never_ends es : forall s s' fd p, acceptor s = Some (mkAcceptor fd false p) -> p <> AcClose -> p <> AcEnded ->
  many_run writable uninitialised es s = Some s' -> exists p', acceptor s' = Some (mkAcceptor fd false p') /\ p' <> AcClose /\ p' <> AcEnded.
Proof.
  induction es as [|e es IH]; intros s s' fd p Ha Hp1 Hp2; cbn [many_run]; [intros [= <-]; by exists p|].
  destruct (many_run1 writable uninitialised e s) as [s1|] eqn:E; [|done]. cbn [mbind option_bind]. intros Hrun.
  assert (exists p1, acceptor s1 = Some (mkAcceptor fd false p1) /\ p1 <> AcClose /\ p1 <> AcEnded) as (p1 & E1 & H1 & H2); [|by eapply IH].
  destruct e as [accepted|i r|n d bs len| | |i]; cbn [many_run1] in E.
  - unfold ac_step in E. rewrite Ha in E. cbn [mbind option_bind ac_at ac_stopped negb orb] in E. destruct p; try done; repeat case_match; try done; try (injection E as <-; by eexists).
    destruct (setSocketAddress _ _ _); [|done]. injection E as <-. by eexists.
  - exists p. split; [|done]. rewrite <- Ha. unfold cn_step in E. destruct (threads s !! i) as [c|]; [|done]. cbn [mbind option_bind] in E. destruct (cn_at c); try (by injection E as <-).
    + destruct (cn_receive r c); [|done]. by injection E as <-.
    + unfold removeTcpConnection in E. destruct (bool_decide _); [done|]. by injection E as <-.
  - destruct (many_send n d bs len s) as [[b s2]|] eqn:Es; [|done]. injection E as <-. apply many_send_shared in Es as (_ & _ & -> & _). by exists p.
  - unfold many_loop in E. destruct (receiver_queue s); injection E as <-; by exists p.
  - injection E as <-. cbn. rewrite Ha. by exists p.
  - injection E as <-. by exists p.
Qed.

(** ** Sending *)

Lemma find_connection_first destination ids s : Forall (fun id => (id < length (threads s))%nat) ids ->
  find_connection destination ids s = snd <$> list_find (fun c => destination = deviceAddress c) (omap (fun id => threads s !! id) ids).
Proof.
  induction 1 as [|id ids Hid _ IH]; [done|]. cbn [find_connection omap list_omap]. destruct (lookup_lt_is_Some_2 _ _ Hid) as [c Ec]. rewrite Ec.
  cbn [list_find]. unfold getDeviceAddress. case_bool_decide as E; [by rewrite decide_True|]. rewrite decide_False by done. rewrite IH. unfold omap. by destruct (list_find _ _) as [[]|].
Qed.

(** Clients of one host have the same address whatever their ports are, where the unset bytes are the same:
    only the one that is first in the list is ever sent anything. *)
Theorem port_ignored ip port1 port2 f1 f2 fd1 fd2 c1 c2 : setSocketAddress uninitialised (mkSockaddr f1 port1 ip) (setSocketFd fd1 TcpConnection_new) = Some c1 ->
  setSocketAddress uninitialised (mkSockaddr f2 port2 ip) (setSocketFd fd2 TcpConnection_new) = Some c2 ->
  forall destination ids s id1 id2, threads s !! id1 = Some c1 -> threads s !! id2 = Some c2 ->
  find_connection destination (id1 :: id2 :: ids) s = find_connection destination (id1 :: ids) s.
Proof.
  unfold setSocketAddress. cbn [sin_addr]. destruct (copy_to _ _ _) as [a|]; [|done]. intros [= <-] [= <-] d ids s id1 id2 E1 E2. cbn [find_connection]. rewrite E1, E2. cbn. by case_bool_decide.
Qed.

(** ** Starting *)

(** [begin] succeeds with an open socket, a fresh one if it was new, and tells the core so once; where it fails the core is not told. *)
Theorem many_begin_spec st b st' : many_begin st = Some (b, st') ->
  if b then 0 <= m_socket (mn st') /\ m_handler (mn st) = true /\ m_broadcast_address (mn st') = replicate sizeof_device_address 255 /\
    notify_socket_connected (mn_sn st) = Some (tt, mn_sn st') /\
    (threads (mn st) = [] -> connections (mn st) = [] -> receiver_queue (mn st) = [] -> many_fresh (mn st'))
  else mn_sn st' = mn_sn st.
Proof.
  destruct st as [s w k]. unfold many_begin, many_initTcpSocket, mbind, M_bind, many_get, many_sys, many_set, many_core, mret, M_ret. cbn [mn mn_w mn_sn].
  destruct (m_handler s) eqn:Eh; cbn [negb mn mn_w mn_sn]; [|by intros [= <- <-]].
  destruct (t_socket AF_INET SOCK_STREAM IPPROTO_TCP w) as [[fd w1]|]; [|done]. cbn [mn mn_w mn_sn]. destruct (fd =? -1); [by cbn; intros [= <- <-]|cbn [negb mn mn_w mn_sn]].
  destruct (t_reuse_addr fd w1) as [[rc w2]|]; [|done]. cbn [mn mn_w mn_sn]. destruct (rc =? -1); [by cbn; intros [= <- <-]|cbn [negb mn mn_w mn_sn]].
  destruct (t_bind fd (mkSockaddr AF_INET (htons MANY_PORT) INADDR_ANY) w2) as [[rc2 w3]|]; [|done]. cbn [mn mn_w mn_sn]. destruct (rc2 =? -1); [by cbn; intros [= <- <-]|cbn [negb mn mn_w mn_sn]].
  destruct (t_listen fd 5 w3) as [[rc3 w4]|]; [|done]. cbn. destruct (Z.leb_spec 0 fd); [|by intros [= <- <-]].
  cbn. rewrite Eh. destruct (notify_socket_connected k) as [[[] k']|]; [|done]. intros [= <- <-]. cbn. split_and!; try done.
  intros E1 E2 E3. split_and!; [done..|by exists fd].
Qed.
End Spec.

(** ** An example *)

#[local] Instance many_sim : MqttSn := {|
  SN := unit;
  sizeof_device_address := 6;
  notify_socket_connected k := Some (tt, k);
  notify_socket_disconnected k := Some (tt, k);
  receiveData _ _ k := Some (tt, k)
|}.
Definition ex_many : many :=
  mkMany 3 (mkSockaddr AF_INET (htons MANY_PORT) INADDR_ANY) true true [] (replicate 6 255) [] [] [] (Some (setTcpSocketFd 3 Acceptor_new)) [].
(** Two clients of 10.0.0.1 and 10.0.0.2; the first sends a packet, the second two packets at once. *)
Definition ex_turn (id : nat) (r : option (list Z)) : list many_event := [Thread id r; Thread id r; Thread id r].
Definition ex_events : list many_event :=
  [Acceptor None; Acceptor (Some (4, mkSockaddr AF_INET 1000 16777226)); Acceptor None; Acceptor None;
   Thread 0 None; Acceptor (Some (5, mkSockaddr AF_INET 1001 33554442)); Acceptor None; Thread 0 (Some [3; 22; 1]); Thread 0 None] ++
  ex_turn 0 (Some [2; 24; 2; 22]) ++ [Thread 1 None; Thread 1 (Some [2; 24]); Thread 1 None; Loop; StopAcceptor] ++
  [Send 2 [10; 0; 0; 2; 9; 9] [2; 23] 2].
Lemma ex_fresh : many_fresh ex_many.
Proof. split_and!; [done..|by exists 3]. Qed.
Lemma ex_events_ok : Forall event_ok ex_events.
Proof. repeat constructor; cbn; try lia; unfold byte; lia. Qed.

Lemma many_clients_spec_witness : exists s', many_run true [0; 0; 0; 0; 9; 9] ex_events ex_many = Some s' /\
  of_connection 0 (many_log true [0; 0; 0; 0; 9; 9] ex_events ex_many).1.2 = [message_of [10; 0; 0; 1; 9; 9] [3; 22; 1]] /\
  receiver_queue s' = [message_of [10; 0; 0; 2; 9; 9] [2; 24]] /\ m_sent s' = [(5, [2; 23])].
Proof.
  assert (exists s', many_run true [0; 0; 0; 0; 9; 9] ex_events ex_many = Some s' /\ address_of 0 s' = Some [10; 0; 0; 1; 9; 9] /\ pushes 0 s' = [] /\
    receiver_queue s' = [message_of [10; 0; 0; 2; 9; 9] [2; 24]] /\ m_sent s' = [(5, [2; 23])]) as (s' & E & A & P & Q & S) by (eexists; split_and!; vm_compute; reflexivity).
  exists s'. split; [exact E|].
  destruct (many_clients_spec (sn := many_sim) true [0; 0; 0; 0; 9; 9] ex_events ex_many s' 0 [10; 0; 0; 1; 9; 9] eq_refl ex_fresh ex_events_ok E A) as [H _].
  rewrite P, app_nil_r in H. rewrite H. split; [vm_compute; reflexivity|split; [exact Q|exact S]].
Defined.
