(* ===== verification/Ble.v ===== *)
(** * Ble: the socket over Bluetooth Low Energy, src/Implementation/Ble

    BLESocket.cpp, the thread of each BLEConnection.cpp, the turns of the thread of
    BLEConnectionAcceptor.cpp, and BLEDeviceStatistic.cpp.  The threads share the object of the socket; each
    step below is one that the locks, the atomic flag or the order of the calls keep
    together, and threads take steps in any order. *)
From S2P Require Import Prelude CMem SnSocket Serial.

(** A [std::string] *)
Abbreviation str := (list Z).

(** What a call that may throw gives; [None] around it is undefined behaviour. *)
Inductive result (A : Type) := Returns (a : A) | Throws.
Arguments Returns {A} a.
Arguments Throws {A}.

(** ** BLEDeviceStatistic.cpp *)

(** [lastChanged] in nanoseconds. *)
Record BLEDeviceStatistic := mkStatistic { connectFailed : Z; serviceFailed : Z; lastChanged : Z; connectionInProgress : bool }.
Definition BLEDeviceStatistic_new (now : Z) : BLEDeviceStatistic := mkStatistic 0 0 now false.
Definition incrementConnectFailed (now : Z) (d : BLEDeviceStatistic) : BLEDeviceStatistic :=
  mkStatistic (to_uchar (connectFailed d + 1)) (serviceFailed d) now (connectionInProgress d).
Definition incrementServiceFailed (now : Z) (d : BLEDeviceStatistic) : BLEDeviceStatistic :=
  mkStatistic (connectFailed d) (to_uchar (serviceFailed d + 1)) now (connectionInProgress d).
Definition set_connectionInProgress (b : bool) (d : BLEDeviceStatistic) : BLEDeviceStatistic :=
  mkStatistic (connectFailed d) (serviceFailed d) (lastChanged d) b.
Definition setConnectionInProgress := set_connectionInProgress true.
Definition unsetConnectionInProgress := set_connectionInProgress false.
Definition statistic_reset (now : Z) (d : BLEDeviceStatistic) : BLEDeviceStatistic := mkStatistic 0 0 now (connectionInProgress d).
(** The clock is asked once, and again ([later]) where the failures are forgotten. *)
Definition isFaulty (now later : Z) (d : BLEDeviceStatistic) : bool * BLEDeviceStatistic :=
  if 300 <? Z.quot (lastChanged d - now) 1000000000 then (false, mkStatistic 0 0 later (connectionInProgress d))
  else ((3 <? connectFailed d) || (3 <? serviceFailed d), d).

(** ** Addresses *)

Definition COLON : Z := 58.
(** A digit of [std::hex] with [std::uppercase] *)
Definition hex_digit (d : Z) : Z := if d <? 10 then 48 + d else 55 + d.
(** [std::setw(2) << static_cast<unsigned>(b)] *)
Definition hex2 (b : Z) : str := [hex_digit (b / 16); hex_digit (b mod 16)].
Fixpoint getMacFromDeviceAddress (address : list Z) : str :=
  match address with [] => [] | [b] => hex2 b | b :: address => hex2 b ++ COLON :: getMacFromDeviceAddress address end.

(** [%x] of [sscanf]: the number and what is behind it. *)
Fixpoint scan_digits (acc : Z) (s : str) : Z * str :=
  match s with
  | [] => (acc, [])
  | c :: s' => match digit_value 16 c with Some d => scan_digits (16 * acc + d) s' | None => (acc, s) end
  end.
Definition scan_number (s : str) : option (Z * str) :=
  match s with
  | c :: _ => match digit_value 16 c with Some _ => Some (scan_digits 0 s) | None => None end
  | [] => None
  end.
Definition scan_prefix (s : str) : option (Z * str) :=
  match s with
  | z :: x :: s' => if (z =? 48) && ((x =? 120) || (x =? 88)) then scan_number s' else scan_number s
  | _ => scan_number s
  end.
Fixpoint skip_space (s : str) : str :=
  match s with c :: s' => if (c =? SP) || ((9 <=? c) && (c <=? 13)) then skip_space s' else s | [] => [] end.
Definition scan_hex (s : str) : option (Z * str) :=
  match skip_space s with
  | c :: s' => if c =? 45 then '(n, r) ← scan_prefix s'; Some (- n, r) else if c =? 43 then scan_prefix s' else scan_prefix (c :: s')
  | [] => None
  end.
(** [sscanf(s, "%x:...:%x%c", ...)] with [n] numbers before the [%c]: the numbers, if its value is [n]. *)
Fixpoint scan_mac (n : nat) (s : str) : option (list Z) :=
  match n with
  | O => None
  | S n =>
    '(v, r) ← scan_hex s;
    match n, r with
    | O, [] => Some [v]
    | S _, c :: r => if c =? COLON then vs ← scan_mac n r; Some (v :: vs) else None
    | _, _ => None
    end
  end.

(** [c_str()] as the functions of C read it *)
Fixpoint c_str (s : str) : str := match s with [] => [] | c :: s => if c =? 0 then [] else c :: c_str s end.

(** [tmp_mac] has 17 bytes, and [strcpy] stores the terminator as well; [slack] bytes behind it are
    unused in the frame the compiler made.  [uninitialised] is the local [deviceAddress] before. *)
Definition getDeviceAddressFromMac (slack : nat) (uninitialised : list Z) (mac : str) : option (result (list Z)) :=
  if negb (length mac =? 17)%nat then Some Throws else
  if (17 + slack <? length (c_str mac) + 1)%nat then None else
  match scan_mac 6 (c_str mac) with
  | Some values => address ← copy_to uninitialised 0 (map to_uchar values); Some (Returns address)
  | None => Some (Returns uninitialised)
  end.

(** ** The shared state *)

Record BLEMessage := mkMessage { bm_mac : str; bm_data : list Z }.

(** Where the thread of a connection is in [handleConnection]. *)
Inductive place :=
  | AtConnect | AtService | AtChoose | AtMac | AtReset | AtAdd
  | AtPoll | AtPush (msg : list Z) | AtDisconnect | AtRemove | AtUnset | Ended.
(** [statistic_of]: the device whose statistic it was given; [bleDeviceMac]: the address it asked for. *)
Record BLEConnection := mkConnection { statistic_of : str; bleDeviceMac : str; signalInterruptReceived : bool; at_place : place }.

(** [bleConnections] holds weak pointers: the number of a connection, which is alive until its thread
    ends.  [nus_sent]: what was sent over which connection.  The statistics are those of the acceptor. *)
Record ble := mkBle {
  bleMessageQueue : list BLEMessage; bleConnections : gmap str nat; deviceStatistics : gmap str BLEDeviceStatistic;
  connection_threads : list BLEConnection; nus_sent : list (nat * list Z)
}.
Definition put_queue (x : list BLEMessage) (s : ble) : ble := mkBle x (bleConnections s) (deviceStatistics s) (connection_threads s) (nus_sent s).
Definition put_connections (x : gmap str nat) (s : ble) : ble := mkBle (bleMessageQueue s) x (deviceStatistics s) (connection_threads s) (nus_sent s).
Definition put_statistics (x : gmap str BLEDeviceStatistic) (s : ble) : ble := mkBle (bleMessageQueue s) (bleConnections s) x (connection_threads s) (nus_sent s).
Definition put_threads (x : list BLEConnection) (s : ble) : ble := mkBle (bleMessageQueue s) (bleConnections s) (deviceStatistics s) x (nus_sent s).
Definition put_sent (x : list (nat * list Z)) (s : ble) : ble := mkBle (bleMessageQueue s) (bleConnections s) (deviceStatistics s) (connection_threads s) x.
Definition ble_new : ble := mkBle [] ∅ ∅ [] [].

(** ** BLESocket.cpp *)

Definition alive (s : ble) (id : nat) : bool :=
  match connection_threads s !! id with Some c => match at_place c with Ended => false | _ => true end | None => false end.

Definition addBLEConnection (mac : str) (id : nat) (s : ble) : ble :=
  match bleConnections s !! mac with Some _ => s | None => put_connections (<[mac := id]> (bleConnections s)) s end.
Definition removeBLEConnection (mac : str) (s : ble) : ble := put_connections (delete mac (bleConnections s)) s.
Definition addBLEMessage (m : BLEMessage) (s : ble) : ble := put_queue (bleMessageQueue s ++ [m]) s.

(** [bytes]: what the pointer points to. *)
Definition ble_send (destination bytes : list Z) (bytes_len : Z) (s : ble) : option (bool * ble) :=
  let destinationMac := getMacFromDeviceAddress destination in
  match bleConnections s !! destinationMac with
  | Some id =>
    if alive s id then
      if Z.of_nat (length bytes) <? bytes_len then None else
      Some (true, put_sent (nus_sent s ++ [(id, take (Z.to_nat bytes_len) bytes)]) s)
    else Some (true, removeBLEConnection destinationMac s)
  | None => Some (true, s)
  end.

Section Socket.
Context `{MqttSn}.

Definition ble_getMaximumMessageLength : Z := 20.
Definition ble_getBroadcastAddress : option (list Z) := None.
(** [ownMac]: that of the adapter, empty if there is none. *)
Definition ble_getAddress (slack : nat) (uninitialised : list Z) (ownMac : str) : option (result (list Z)) :=
  match ownMac with [] => Some Throws | _ => getDeviceAddressFromMac slack uninitialised ownMac end.
(** [started]: that the acceptor found an adapter. *)
Definition ble_begin (started : bool) : M SN bool := if negb started then mret false else notify_socket_connected;; mret true.

(** What a message becomes that was taken from the queue. *)
Definition ble_deliver (slack : nat) (uninitialised : list Z) (m : BLEMessage) (k : SN) : option (result bool * SN) :=
  if (255 <? length (bm_data m))%nat then Some (Returns true, k) else
  data ← copy_to (zero_bytes 255) 0 (bm_data m);
  address ← getDeviceAddressFromMac slack uninitialised (bm_mac m);
  match address with
  | Throws => Some (Throws, k)
  | Returns address => '(_, k) ← receiveData address data k; Some (Returns true, k)
  end.

Definition ble_loop (slack : nat) (uninitialised : list Z) (s : ble) (k : SN) : option (result bool * ble * SN) :=
  match bleMessageQueue s with
  | m :: q => '(r, k) ← ble_deliver slack uninitialised m k; Some (r, put_queue q s, k)
  | [] => Some (Returns true, s, k)
  end.
End Socket.

(** ** BLEConnection.cpp *)

Definition put_place (p : place) (c : BLEConnection) : BLEConnection := mkConnection (statistic_of c) (bleDeviceMac c) (signalInterruptReceived c) p.
Definition put_mac (mac : str) (c : BLEConnection) : BLEConnection := mkConnection (statistic_of c) mac (signalInterruptReceived c) (at_place c).
Definition interrupt (c : BLEConnection) : BLEConnection := mkConnection (statistic_of c) (bleDeviceMac c) true (at_place c).

Definition upd_thread (id : nat) (f : BLEConnection -> BLEConnection) (s : ble) : ble := put_threads (alter f id (connection_threads s)) s.
Definition upd_statistic (mac : str) (f : BLEDeviceStatistic -> BLEDeviceStatistic) (s : ble) : ble := put_statistics (alter f mac (deviceStatistics s)) s.

(** The service of a device that is used: the first with a last message, of several; none, of a single one. *)
Definition choose_nus (multiple : bool) (lastMessages : list (list Z)) : option nat :=
  if multiple then fst <$> list_find (fun m => m <> []) lastMessages else None.

(** What libBLE answers to the call a thread makes at its place. *)
Inductive answer :=
  | Connected (b : bool)
  | HasNUS (b : bool)
  | LastMessages (multiple : bool) (lastMessages : list (list Z))
  | Mac (mac : str)
  | Polled (isConnected : bool) (msg : list Z)
  | Disconnected (throws : bool)
  | Silent.

(** The next step of the thread of connection [id]: to [p], with [f] done on the way. *)
Definition connection_step (now : Z) (id : nat) (a : answer) (s : ble) : option ble :=
  c ← connection_threads s !! id;
  let go p s := Some (upd_thread id (put_place p) s) in
  let statistic f := upd_statistic (statistic_of c) f s in
  match at_place c, a with
  | AtConnect, Connected b => if b then go AtService s else go AtUnset (statistic (incrementConnectFailed now))
  | AtService, HasNUS b => if b then go AtChoose s else go AtUnset (statistic (incrementServiceFailed now))
  | AtChoose, LastMessages multiple l =>
    match choose_nus multiple l with Some _ => go AtMac s | None => go AtUnset (statistic (incrementServiceFailed now)) end
  | AtMac, Mac [] => go Ended s
  | AtMac, Mac mac => go AtReset (upd_thread id (put_mac mac) s)
  | AtReset, Silent => go AtAdd (statistic (statistic_reset now))
  | AtAdd, Silent => go AtPoll (addBLEConnection (bleDeviceMac c) id s)
  | AtPoll, Polled isConnected msg =>
    if isConnected && negb (signalInterruptReceived c)
    then match msg with [] => go AtPoll s | _ => go (AtPush msg) s end else go AtDisconnect s
  | AtPush msg, Silent => go AtPoll (addBLEMessage (mkMessage (bleDeviceMac c) msg) s)
  | AtDisconnect, Disconnected throws => go (if throws then AtUnset else AtRemove) s
  | AtRemove, Silent => go AtUnset (removeBLEConnection (bleDeviceMac c) s)
  | AtUnset, Silent => go Ended (statistic unsetConnectionInProgress)
  | _, _ => None
  end.

(** ** BLEConnectionAcceptor.cpp *)

Definition deviceStatisticsContains (mac : str) (s : ble) : bool := bool_decide (is_Some (deviceStatistics s !! mac)).

(** What [loop] does with one device of the adapter; [connect] starts the thread. *)
Definition accept_device (now later : Z) (isBroken : bool) (mac : str) (s : ble) : ble :=
  if isBroken then s else
  if bool_decide (mac = []) then s else
  match deviceStatistics s !! mac with
  | Some d =>
    if connectionInProgress d then s else
    let '(faulty, d) := isFaulty now later d in
    if faulty then put_statistics (<[mac := d]> (deviceStatistics s)) s else
    put_statistics (<[mac := setConnectionInProgress d]> (deviceStatistics s))
      (put_threads (connection_threads s ++ [mkConnection mac [] false AtConnect]) s)
  | None => put_statistics (<[mac := BLEDeviceStatistic_new now]> (deviceStatistics s)) s
  end.

(** ** All threads *)

(** What the next step of a thread puts into the queue. *)
Definition pushed_by (id : nat) (s : ble) : list BLEMessage :=
  match connection_threads s !! id with
  | Some c => match at_place c with AtPush msg => [mkMessage (bleDeviceMac c) msg] | _ => [] end
  | None => []
  end.

Section Threads.
Context `{MqttSn} (slack : nat) (uninitialised : list Z).

(** A step of a thread, with the messages it puts into the queue and those it takes from it; the
    last three are those of the gateway and of who stops a connection. *)
Inductive step : ble * SN -> list BLEMessage -> list BLEMessage -> ble * SN -> Prop :=
  | step_acceptor now later isBroken mac s k : step (s, k) [] [] (accept_device now later isBroken mac s, k)
  | step_connection now id a s s' k : connection_step now id a s = Some s' -> step (s, k) (pushed_by id s) [] (s', k)
  | step_loop s k b s' k' : ble_loop slack uninitialised s k = Some (Returns b, s', k') -> step (s, k) [] (take 1 (bleMessageQueue s)) (s', k')
  | step_send destination bytes len b s s' k : ble_send destination bytes len s = Some (b, s') -> step (s, k) [] [] (s', k)
  | step_stop id s k : step (s, k) [] [] (upd_thread id interrupt s, k).

(** Steps of all threads, as they happen to follow one another. *)
Inductive steps : ble * SN -> list BLEMessage -> list BLEMessage -> ble * SN -> Prop :=
  | steps_refl x : steps x [] [] x
  | steps_step x y z ps ts ps' ts' : step x ps ts y -> steps y ps' ts' z -> steps x (ps ++ ps') (ts ++ ts') z.
End Threads.
