(* ===== verification/BleSpec.v ===== *)
(** * BleSpec: addresses, messages and sessions of the socket of Ble.v *)
From Stdlib Require Import ZifyBool.
From S2P Require Import Prelude CMem SnSocket Serial Ble.

(** ** Addresses *)

Lemma hex_digit_value d : 0 <= d < 16 -> digit_value 16 (hex_digit d) = Some d.
Proof. intros Hd. unfold digit_value, hex_digit. destruct (Z.ltb_spec d 10); repeat case_match; try lia; f_equal; lia. Qed.
Lemma hex_digit_plain d : 0 <= d < 16 -> hex_digit d = 48 \/ 49 <= hex_digit d <= 57 \/ 65 <= hex_digit d <= 70.
Proof. unfold hex_digit. destruct (Z.ltb_spec d 10); lia. Qed.

(** What [%x] reads of the two digits of a byte, before a colon or at the end. *)
Lemma scan_hex2 b r : byte b -> r = [] \/ head r = Some COLON -> scan_hex (hex2 b ++ r) = Some (b, r).
Proof.
  unfold byte. intros Hb Hr. assert (0 <= b / 16 < 16) as H1 by (split; [apply Z.div_pos; lia|apply Z.div_lt_upper_bound; lia]).
  assert (0 <= b mod 16 < 16) as H2 by (apply Z.mod_pos_bound; lia).
  pose proof (hex_digit_plain _ H1) as P1. pose proof (hex_digit_plain _ H2) as P2. pose proof (hex_digit_value _ H1) as V1. pose proof (hex_digit_value _ H2) as V2.
  unfold hex2. set (x := hex_digit (b / 16)) in *. set (y := hex_digit (b mod 16)) in *.
  assert (scan_digits 0 (x :: y :: r) = (b, r)) as Hscan.
  { cbn [scan_digits]. rewrite V1. cbn [scan_digits]. rewrite V2. pose proof (Z.div_mod b 16 ltac:(lia)).
    replace (16 * (16 * 0 + b / 16) + b mod 16) with b by lia. destruct Hr as [->|Hr]; [done|]. destruct r as [|c r]; [done|]. by injection Hr as ->. }
  cbn [app]. unfold scan_hex. cbn [skip_space]. destruct ((x =? SP) || ((9 <=? x) && (x <=? 13))) eqn:E; [unfold SP in E; lia|].
  destruct (Z.eqb_spec x 45); [lia|]. destruct (Z.eqb_spec x 43); [lia|]. cbn [scan_prefix].
  destruct ((x =? 48) && ((y =? 120) || (y =? 88))) eqn:E2; [lia|]. unfold scan_number. by rewrite V1, Hscan.
Qed.

Lemma mac_cons b a : a <> [] -> getMacFromDeviceAddress (b :: a) = hex2 b ++ COLON :: getMacFromDeviceAddress a.
Proof. by destruct a. Qed.

Lemma mac_scan a : a <> [] -> bytes a -> scan_mac (length a) (getMacFromDeviceAddress a) = Some a.
Proof.
  intros Hne Ha. induction Ha as [|b a Hb Ha IH]; [done|]. destruct a as [|b2 a].
  - cbn [getMacFromDeviceAddress length scan_mac]. rewrite <- (app_nil_r (hex2 b)), scan_hex2 by (by try left). done.
  - rewrite mac_cons by done. cbn [length scan_mac] in *. rewrite scan_hex2 by (by try right). cbn [mbind option_bind].
    rewrite Z.eqb_refl. by rewrite IH.
Qed.

Lemma mac_chars a : bytes a -> Forall (fun c => c <> 0) (getMacFromDeviceAddress a).
Proof.
  assert (forall b, byte b -> Forall (fun c => c <> 0) (hex2 b)) as Hhex.
  { unfold byte. intros b Hb. repeat constructor; intros E.
    - pose proof (hex_digit_plain (b / 16) ltac:(split; [apply Z.div_pos; lia|apply Z.div_lt_upper_bound; lia])). lia.
    - pose proof (hex_digit_plain (b mod 16) ltac:(apply Z.mod_pos_bound; lia)). lia. }
  induction 1 as [|b a Hb Ha IH]; [constructor|]. destruct a as [|b2 a]; [by apply Hhex|]. rewrite mac_cons by done.
  apply Forall_app. split; [by apply Hhex|]. by constructor.
Qed.
Lemma c_str_id l : Forall (fun c => c <> 0) l -> c_str l = l.
Proof. induction 1 as [|c l Hc _ IH]; [done|]. cbn. destruct (Z.eqb_spec c 0); [done|]. by rewrite IH. Qed.
Lemma mac_length a : a <> [] -> (length (getMacFromDeviceAddress a) = 3 * length a - 1)%nat.
Proof. intros Hne. induction a as [|b a IH]; [done|]. destruct a as [|b2 a]; [done|]. rewrite mac_cons by done. cbn [length app hex2] in *. rewrite IH by done. lia. Qed.

(** The address of a device, as text and back, is the address again; but [tmp_mac] has no place for the
    terminator of [strcpy], so this, and with it everything the socket receives, rests on an
    unused byte behind it in the frame: without one the behaviour is undefined for every address. *)
Theorem mac_roundtrip slack uninitialised a : bytes a -> length a = 6%nat -> length uninitialised = 6%nat ->
  getDeviceAddressFromMac slack uninitialised (getMacFromDeviceAddress a) = match slack with O => None | S _ => Some (Returns a) end.
Proof.
  intros Ha Hl Hu. assert (a <> []) as Hne by (by intros ->). unfold getDeviceAddressFromMac. rewrite mac_length, Hl by done. cbn [Nat.mul Nat.add Nat.sub Nat.eqb negb].
  rewrite c_str_id by (by apply mac_chars). rewrite mac_length, Hl by done. cbn [Nat.mul Nat.add Nat.sub].
  destruct slack as [|slack]; [done|]. rewrite (proj2 (Nat.ltb_ge _ _)) by lia.
  rewrite <- Hl, mac_scan by done. assert (map to_uchar a = a) as ->.
  { clear -Ha. induction Ha as [|b a Hb _ IH]; [done|]. cbn. by rewrite to_uchar_id, IH. }
  unfold copy_to. rewrite Hl, Hu. cbn [Nat.add Nat.leb mbind option_bind]. unfold splice. cbn [take app Nat.add]. rewrite drop_ge by lia. by rewrite app_nil_r.
Qed.

(** ** Steps of threads *)

Definition running (c : BLEConnection) : Prop := at_place c <> Ended.
(** Whether a session with a device is in progress, if the device is known. *)
Definition progress (s : ble) (mac : str) : option bool := connectionInProgress <$> deviceStatistics s !! mac.

Lemma progress_upd mac f s m : progress (upd_statistic mac f s) m = if decide (m = mac) then (fun d => connectionInProgress (f d)) <$> deviceStatistics s !! m else progress s m.
Proof.
  unfold progress. cbn. destruct (decide (m = mac)) as [->|Hne]; [|by rewrite lookup_alter_ne]. rewrite lookup_alter_eq. by destruct (deviceStatistics s !! mac).
Qed.
(** All but the end of a session leaves [progress] alone. *)
Lemma progress_kept mac f s m : (forall d, connectionInProgress (f d) = connectionInProgress d) -> progress (upd_statistic mac f s) m = progress s m.
Proof. intros Hf. rewrite progress_upd. destruct (decide (m = mac)) as [->|]; [|done]. unfold progress. destruct (deviceStatistics s !! mac); [cbn; by rewrite Hf|done]. Qed.

Lemma alter_insert {A} (l : list A) i x f : l !! i = Some x -> alter f i l = <[i := f x]> l.
Proof.
  intros E. apply list_eq. intros j. destruct (decide (j = i)) as [->|Hne]; [|by rewrite list_lookup_alter_ne, list_lookup_insert_ne].
  rewrite list_lookup_alter_eq, E, list_lookup_insert_eq; [done|by eapply lookup_lt_Some].
Qed.

(** What the step of a thread is to the others: the connection stays that of its device, and nothing
    is in progress or not that was not before, but its own session when it ends. *)
Definition thread_moves (id : nat) (s s' : ble) : Prop :=
  exists c c', connection_threads s !! id = Some c /\ running c /\ statistic_of c' = statistic_of c /\
    connection_threads s' = <[id := c']> (connection_threads s) /\ nus_sent s' = nus_sent s /\
    forall m, running c' \/ m <> statistic_of c -> progress s' m = progress s m.

Lemma thread_moves_intro id c p s s1 : connection_threads s !! id = Some c -> running c -> connection_threads s1 = connection_threads s ->
  nus_sent s1 = nus_sent s -> (forall m, p <> Ended \/ m <> statistic_of c -> progress s1 m = progress s m) -> thread_moves id s (upd_thread id (put_place p) s1).
Proof. intros Ec Hc Ht Hn Hp. exists c, (put_place p c). split_and!; try done. cbn. rewrite Ht. by apply alter_insert. Qed.

Lemma connection_step_moves now id a s s' : connection_step now id a s = Some s' -> thread_moves id s s'.
Proof.
  unfold connection_step, addBLEConnection. destruct (connection_threads s !! id) as [c|] eqn:Ec; [|done]. cbn [mbind option_bind].
  destruct (at_place c) eqn:Ep; destruct a as [b|b|multiple l|[|x mac]|isc m2|throws|]; try done; repeat case_match; intros [= <-];
    try (apply (thread_moves_intro id c); [done|unfold running; congruence|done|done|]; intros m Hm; try done;
         first [by apply progress_kept|by rewrite progress_upd; destruct (decide (m = statistic_of c)); [destruct Hm|]]).
  - exists c, (put_place AtReset (put_mac (x :: mac) c)). split_and!; [done|unfold running; congruence|done| |done|done].
    cbn. rewrite (alter_insert (connection_threads s) id c) by done. rewrite (alter_insert _ id (put_mac (x :: mac) c)); [by rewrite list_insert_insert_eq|].
    rewrite list_lookup_insert_eq; [done|by eapply lookup_lt_Some].
Qed.

Lemma connection_step_queue now id a s s' : connection_step now id a s = Some s' -> bleMessageQueue s' = bleMessageQueue s ++ pushed_by id s.
Proof.
  unfold connection_step, pushed_by. destruct (connection_threads s !! id) as [c|]; [|done]. cbn [mbind option_bind].
  destruct (at_place c); destruct a as [b|b|multiple l|[|x mac]|isc m2|throws|]; try done; repeat case_match; intros [= <-]; cbn; rewrite ?app_nil_r; try done;
    unfold addBLEConnection; by case_match.
Qed.

Lemma accept_device_queue now later isBroken mac s : bleMessageQueue (accept_device now later isBroken mac s) = bleMessageQueue s.
Proof. unfold accept_device. by repeat case_match. Qed.
Lemma ble_send_queue destination bs len s b s' : ble_send destination bs len s = Some (b, s') ->
  bleMessageQueue s' = bleMessageQueue s /\ connection_threads s' = connection_threads s /\ deviceStatistics s' = deviceStatistics s.
Proof. unfold ble_send. repeat case_match; by intros [= <- <-]. Qed.

(** ** Messages *)

Section Messages.
Context `{sn : MqttSn} (slack : nat) (uninitialised : list Z).

Lemma steps_one x ps ts y : step slack uninitialised x ps ts y -> steps slack uninitialised x ps ts y.
Proof. intros H. rewrite <- (app_nil_r ps), <- (app_nil_r ts). by eapply steps_step, steps_refl. Qed.
Lemma steps_trans x y z ps ts ps' ts' : steps slack uninitialised x ps ts y -> steps slack uninitialised y ps' ts' z -> steps slack uninitialised x (ps ++ ps') (ts ++ ts') z.
Proof. induction 1 as [x|x x2 y ps1 ts1 ps2 ts2 H1 _ IH]; [done|]. intros Hz. rewrite <- !app_assoc. by eapply steps_step, IH. Qed.

(** The core is given messages one after another. *)
Fixpoint deliver_all (ms : list BLEMessage) (k : SN) : option SN :=
  match ms with
  | [] => Some k
  | m :: ms => '(r, k) ← ble_deliver slack uninitialised m k; match r with Returns _ => deliver_all ms k | Throws => None end
  end.
Lemma deliver_all_app ms1 ms2 k k1 : deliver_all ms1 k = Some k1 -> deliver_all (ms1 ++ ms2) k = deliver_all ms2 k1.
Proof.
  revert k. induction ms1 as [|m ms1 IH]; intros k; cbn [deliver_all app]; [by intros [= ->]|].
  destruct (ble_deliver slack uninitialised m k) as [[r k2]|]; [|done]. cbn [mbind option_bind]. destruct r; [apply IH|done].
Qed.

Lemma step_in_order x ps ts y : step slack uninitialised x ps ts y ->
  bleMessageQueue x.1 ++ ps = ts ++ bleMessageQueue y.1 /\ deliver_all ts x.2 = Some y.2.
Proof.
  intros []; cbn [fst snd].
  - by rewrite accept_device_queue, app_nil_r.
  - match goal with E : connection_step _ _ _ _ = _ |- _ => by rewrite (connection_step_queue _ _ _ _ _ E) end.
  - match goal with E : ble_loop _ _ _ _ = _ |- _ => revert E end. unfold ble_loop. destruct (bleMessageQueue s) as [|m q] eqn:Eq; [intros [= _ <- <-]; by rewrite Eq|].
    cbn [take deliver_all]. destruct (ble_deliver slack uninitialised m k) as [[r k2]|]; [|done]. cbn [mbind option_bind]. intros [= -> <- <-]. by rewrite app_nil_r.
  - match goal with E : ble_send _ _ _ _ = _ |- _ => apply ble_send_queue in E as (-> & _) end. by rewrite app_nil_r.
  - by rewrite app_nil_r.
Qed.

(** C14: however the threads of the socket take turns, the core is given the messages of the devices in
    the order they were put into the queue, each once: what was there and what was put in is
    what was taken out, in this order, and what is left, and the core is given what was taken.
    So the messages of one device are in its order. *)
Theorem ble_in_order s k ps ts s' k' : steps slack uninitialised (s, k) ps ts (s', k') ->
  bleMessageQueue s ++ ps = ts ++ bleMessageQueue s' /\ deliver_all ts k = Some k' /\
  forall mac, filter (fun m : BLEMessage => bm_mac m = mac) (bleMessageQueue s ++ ps) = filter (fun m : BLEMessage => bm_mac m = mac) ts ++ filter (fun m : BLEMessage => bm_mac m = mac) (bleMessageQueue s').
Proof.
  assert (forall x ps ts y, steps slack uninitialised x ps ts y -> bleMessageQueue x.1 ++ ps = ts ++ bleMessageQueue y.1 /\ deliver_all ts x.2 = Some y.2) as Hsteps.
  { induction 1 as [x|x y z ps1 ts1 ps2 ts2 H1 _ [IHq IHd]]; [by rewrite app_nil_r|]. apply step_in_order in H1 as [Hq Hd].
    split; [by rewrite app_assoc, Hq, <- app_assoc, IHq, app_assoc|by rewrite (deliver_all_app _ _ _ _ Hd)]. }
  intros [Hq Hd]%Hsteps. split; [exact Hq|]. split; [exact Hd|]. intros mac. cbn [fst] in Hq. by rewrite Hq, filter_app.
Qed.
End Messages.

(** ** Sessions *)

Section Sessions.
Context `{sn : MqttSn} (slack : nat) (uninitialised : list Z).

(** A thread that runs has a session in progress, and there is one for a device at most. *)
Definition one_session (s : ble) : Prop :=
  (forall id c, connection_threads s !! id = Some c -> running c -> progress s (statistic_of c) = Some true) /\
  (forall id c id' c', connection_threads s !! id = Some c -> running c -> connection_threads s !! id' = Some c' -> running c' ->
    statistic_of c' = statistic_of c -> id' = id).

Lemma one_session_same s s' : connection_threads s' = connection_threads s -> (forall m, progress s m = Some true -> progress s' m = Some true) -> one_session s -> one_session s'.
Proof. intros Ht Hp [H1 H2]. unfold one_session. rewrite Ht. split; [|exact H2]. intros id c Hc Hr. by eapply Hp, H1. Qed.

Lemma accept_device_cases now later isBroken mac s : let s' := accept_device now later isBroken mac s in
  (connection_threads s' = connection_threads s /\ forall m, progress s m = Some true -> progress s' m = Some true) \/
  (progress s mac = Some false /\ connection_threads s' = connection_threads s ++ [mkConnection mac [] false AtConnect] /\ progress s' mac = Some true /\
   forall m, m <> mac -> progress s' m = progress s m).
Proof.
  unfold accept_device, progress. cbv zeta. destruct isBroken; [by left|]. destruct (bool_decide (mac = [])); [by left|]. destruct (deviceStatistics s !! mac) as [d|] eqn:Ed.
  - destruct (connectionInProgress d) eqn:Ep; [by left|]. assert (connectionInProgress (isFaulty now later d).2 = false) as Ef by (unfold isFaulty; by case_match).
    destruct (isFaulty now later d) as [[] d']; cbn [fst snd] in *.
    + left. split; [done|]. intros m. cbn. destruct (decide (m = mac)) as [->|Hne]; [|by rewrite lookup_insert_ne]. rewrite Ed. cbn. by rewrite Ep.
    + right. cbn. split_and!; [by rewrite Ep|done|by rewrite lookup_insert_eq|]. intros m Hne. by rewrite lookup_insert_ne.
  - left. split; [done|]. intros m Hm. cbn. rewrite lookup_insert_ne; [done|]. intros <-. by rewrite Ed in Hm.
Qed.

Lemma thread_moves_one_session id s s' : thread_moves id s s' -> one_session s -> one_session s'.
Proof.
  intros (c & c' & Ec & Hc & Hst & Ht & _ & Hp) [H1 H2].
  assert (forall i x, connection_threads s' !! i = Some x -> exists x0, connection_threads s !! i = Some x0 /\ statistic_of x0 = statistic_of x /\ (running x -> running x0) /\ (i = id -> x = c')) as Hback.
  { intros i x. rewrite Ht. destruct (decide (i = id)) as [->|Hne].
    - rewrite list_lookup_insert_eq by (by eapply lookup_lt_Some). intros [= <-]. by exists c.
    - rewrite list_lookup_insert_ne by done. intros Hx. by exists x. }
  split.
  - intros i x Hx Hr. destruct (Hback i x Hx) as (x0 & Hx0 & <- & Hrun & Hid). rewrite Hp; [by eapply H1; [|apply Hrun]|].
    destruct (decide (i = id)) as [->|Hne]; [left; by rewrite <- Hid|right]. intros E. apply Hne. by eapply H2; [exact Ec|exact Hc|exact Hx0|by apply Hrun|].
  - intros i x i' x' Hx Hr Hx' Hr' E. destruct (Hback i x Hx) as (x0 & Hx0 & E0 & Hrun & _). destruct (Hback i' x' Hx') as (x0' & Hx0' & E0' & Hrun' & _).
    eapply H2; [exact Hx0|by apply Hrun|exact Hx0'|by apply Hrun'|congruence].
Qed.

Lemma step_one_session x ps ts y : step slack uninitialised x ps ts y -> one_session x.1 -> one_session y.1.
Proof.
  intros []; cbn [fst]; intros Hs.
  - destruct (accept_device_cases now later isBroken mac s) as [[Ht Hp]|(Hno & Ht & Hyes & Hp)]; [by eapply one_session_same|].
    destruct Hs as [H1 H2]. set (c0 := mkConnection mac [] false AtConnect) in *.
    assert (forall i c, connection_threads (accept_device now later isBroken mac s) !! i = Some c -> running c ->
      (connection_threads s !! i = Some c /\ statistic_of c <> mac) \/ (i = length (connection_threads s) /\ c = c0)) as Hold.
    { intros i c. rewrite Ht, lookup_app_Some. intros [Hc|[Hi Hc]] Hr.
      - left. split; [done|]. intros E. apply H1 in Hc; [|done]. congruence.
      - right. apply list_lookup_singleton_Some in Hc as [? <-]. split; [lia|done]. }
    split.
    + intros i c Hc Hr. destruct (Hold i c Hc Hr) as [[Hs Hne]|[_ ->]]; [rewrite Hp by done; by eapply H1|done].
    + intros i c i' c' Hc Hr Hc' Hr' E. destruct (Hold i c Hc Hr) as [[Hs Hne]|[-> ->]], (Hold i' c' Hc' Hr') as [[Hs' Hne']|[-> ->]]; [by eapply H2|by rewrite <- E in Hne|by rewrite E in Hne'|done].
  - by eapply thread_moves_one_session; [eapply connection_step_moves|].
  - match goal with E : ble_loop _ _ _ _ = _ |- _ => revert E end. unfold ble_loop. destruct (bleMessageQueue s) as [|m q]; [by intros [= _ <- _]|].
    destruct (ble_deliver slack uninitialised m k) as [[r k2]|]; [|done]. by intros [= _ <- _].
  - match goal with E : ble_send _ _ _ _ = _ |- _ => apply ble_send_queue in E as (_ & Ht & Hd) end. eapply one_session_same; [exact Ht| |exact Hs]. unfold progress. by rewrite Hd.
  - destruct Hs as [H1 H2]. assert (forall i c, connection_threads (upd_thread id interrupt s) !! i = Some c ->
      exists c0, connection_threads s !! i = Some c0 /\ statistic_of c0 = statistic_of c /\ (running c -> running c0)) as Hback.
    { intros i c. cbn. destruct (decide (i = id)) as [->|Hne]; [rewrite list_lookup_alter_eq|rewrite list_lookup_alter_ne by done; by exists c].
      destruct (connection_threads s !! id) as [c0|]; [|done]. intros [= <-]. by exists c0. }
    split.
    + intros i c (c0 & Hc & <- & Hr)%Hback Hrun. by eapply H1, Hr.
    + intros i c i' c' (c0 & Hc & E & Hr)%Hback Hrun (c0' & Hc' & E' & Hr')%Hback Hrun' Es. eapply H2; [exact Hc|by apply Hr|exact Hc'|by apply Hr'|congruence].
Qed.

Lemma reachable_one_session x ps ts y : steps slack uninitialised x ps ts y -> one_session x.1 -> one_session y.1.
Proof. induction 1 as [x|x y z ps1 ts1 ps2 ts2 H1 _ IH]; [done|]. intros Hx. by eapply IH, step_one_session. Qed.
Lemma one_session_new : one_session ble_new.
Proof. split; intros ? ? ?; done. Qed.

(** C15: in every state the threads lead to from the start, no two connections with one device run at a
    time, and a device with a running connection is marked as in progress, so that the acceptor
    starts no second one. *)
Theorem one_session_per_device k ps ts s' k' : steps slack uninitialised (ble_new, k) ps ts (s', k') -> one_session s'.
Proof. intros H. exact (reachable_one_session _ _ _ _ H one_session_new). Qed.
End Sessions.

(** ** Devices the socket loses *)

Section Lost.
Context `{sn : MqttSn} (slack : nat) (uninitialised : list Z).

(** Marked as in progress, with no thread that could take the mark back. *)
Definition lost (s : ble) (mac : str) : Prop :=
  progress s mac = Some true /\ forall id c, connection_threads s !! id = Some c -> running c -> statistic_of c <> mac.

Lemma step_lost x ps ts y mac : step slack uninitialised x ps ts y -> lost x.1 mac -> lost y.1 mac.
Proof.
  intros [now later isBroken m s k|now id a s s' k E|s k b s' k' E|dest bs len b s s' k E|id s k]; cbn [fst]; intros [Hp Hr].
  - destruct (accept_device_cases now later isBroken m s) as [[Ht Hk]|(Hno & Ht & Hyes & Hk)]; (split; [|rewrite Ht]).
    + by apply Hk.
    + done.
    + rewrite Hk; [done|congruence].
    + intros i c [Hc|[_ [_ <-]%list_lookup_singleton_Some]]%lookup_app_Some Hc'; [by eapply Hr|]. cbn. congruence.
  - apply connection_step_moves in E as (c & c' & Ec & Hc & Es & Ht & _ & Hk). assert (statistic_of c <> mac) as Hne by (by eapply Hr).
    split; [rewrite Hk; [done|by right; congruence]|]. rewrite Ht. intros i c2 Hx. destruct (decide (i = id)) as [->|Hi].
    + rewrite list_lookup_insert_eq in Hx by (by eapply lookup_lt_Some). injection Hx as <-. by rewrite Es.
    + rewrite list_lookup_insert_ne in Hx by done. by eapply Hr.
  - revert E. unfold ble_loop. destruct (bleMessageQueue s) as [|m q]; [by intros [= _ <- _]|].
    destruct (ble_deliver slack uninitialised m k) as [[r k2]|]; [|done]. by intros [= _ <- _].
  - apply ble_send_queue in E as (_ & Ht & Hd). split; [unfold progress; by rewrite Hd|by rewrite Ht].
  - split; [done|]. intros i c Hc Hrun. cbn in Hc. destruct (decide (i = id)) as [->|Hi]; [rewrite list_lookup_alter_eq in Hc|rewrite list_lookup_alter_ne in Hc by done; by eapply Hr].
    destruct (connection_threads s !! id) as [c0|] eqn:E0; [|done]. injection Hc as <-. by eapply (Hr id c0).
Qed.

(** A device whose address is empty at the moment its connection asks for it is lost: the thread ends
    without [unsetConnectionInProgress], and in no state that any steps lead to from there
    is there a running connection with that device again. *)
Theorem empty_mac_loses_device now id c s s1 k ps ts s' k' :
  one_session s -> connection_threads s !! id = Some c -> at_place c = AtMac -> connection_step now id (Mac []) s = Some s1 ->
  steps slack uninitialised (s1, k) ps ts (s', k') -> lost s' (statistic_of c).
Proof.
  intros [H1 H2] Ec Ep E Hsteps. assert (running c) as Hrun by (unfold running; congruence).
  assert (forall x ps ts y mac, steps slack uninitialised x ps ts y -> lost x.1 mac -> lost y.1 mac) as Hkeep.
  { induction 1 as [x|x y z ps1 ts1 ps2 ts2 Hs _ IH]; [done|]. intros Hx. by eapply IH, step_lost. }
  apply (Hkeep _ _ _ _ (statistic_of c)) in Hsteps; [done|]. cbn [fst]. unfold connection_step in E. rewrite Ec in E. cbn [mbind option_bind] in E. rewrite Ep in E. injection E as <-.
  split; [by eapply H1|]. intros i x Hx Hx' Es. cbn in Hx. destruct (decide (i = id)) as [->|Hi].
  - rewrite list_lookup_alter_eq, Ec in Hx. injection Hx as <-. done.
  - rewrite list_lookup_alter_ne in Hx by done. apply Hi. by eapply H2.
Qed.
End Lost.

(** A turn of the acceptor: the devices it looks at, with what it asks of each and of the clock. *)
Record visit := mkVisit { v_now : Z; v_later : Z; v_broken : bool; v_mac : str }.
Definition accept_all (vs : list visit) (s : ble) : ble := foldl (fun s v => accept_device (v_now v) (v_later v) (v_broken v) (v_mac v) s) s vs.

Lemma faulty_stays now later d : 3 < connectFailed d \/ 3 < serviceFailed d -> lastChanged d <= now -> isFaulty now later d = (true, d).
Proof.
  intros Hf Hn. unfold isFaulty. assert (Z.quot (lastChanged d - now) 1000000000 <= 0).
  { apply Z.opp_nonneg_nonpos. rewrite <- Z.quot_opp_l by done. apply Z.quot_pos; lia. }
  destruct (Z.ltb_spec 300 (Z.quot (lastChanged d - now) 1000000000)); [lia|]. f_equal. lia.
Qed.

(** A device with more than three failures is given up for good: however long the acceptor goes on
    and however much time passes, no connection is started with it and its failures are not
    forgotten, unless the clock is set back by more than 300 seconds. *)
Theorem faulty_device_given_up vs s mac d :
  deviceStatistics s !! mac = Some d -> connectionInProgress d = false -> 3 < connectFailed d \/ 3 < serviceFailed d ->
  Forall (fun v => lastChanged d <= v_now v) vs ->
  deviceStatistics (accept_all vs s) !! mac = Some d /\
  filter (fun c : BLEConnection => statistic_of c = mac) (connection_threads (accept_all vs s)) = filter (fun c : BLEConnection => statistic_of c = mac) (connection_threads s).
Proof.
  intros Hd Hno Hf Hvs. revert s Hd. induction Hvs as [|v vs Hv _ IH]; intros s Hd; [done|]. unfold accept_all. cbn [foldl]. fold (accept_all vs).
  set (s1 := accept_device _ _ _ _ s). assert (deviceStatistics s1 !! mac = Some d /\
    filter (fun c : BLEConnection => statistic_of c = mac) (connection_threads s1) = filter (fun c : BLEConnection => statistic_of c = mac) (connection_threads s)) as [Hd1 <-]; [|by apply IH].
  unfold s1, accept_device. destruct (v_broken v); [done|]. destruct (bool_decide (v_mac v = [])); [done|].
  destruct (decide (v_mac v = mac)) as [->|Hne].
  - rewrite Hd, Hno, faulty_stays by done. cbn. by rewrite lookup_insert_eq.
  - destruct (deviceStatistics s !! v_mac v) as [d2|]; [|cbn; by rewrite lookup_insert_ne]. destruct (connectionInProgress d2); [done|].
    destruct (isFaulty _ _ d2) as [[] d2']; cbn; rewrite lookup_insert_ne by done; [done|]. by rewrite filter_app, filter_cons_False, app_nil_r.
Qed.

(** ** A connection that stays registered *)

(** The turns of one thread, each with the time and the answer of libBLE. *)
Fixpoint turns (id : nat) (l : list (Z * answer)) (s : ble) : option ble :=
  match l with [] => Some s | (now, a) :: l => s ← connection_step now id a s; turns id l s end.

Lemma turns_app id l1 l2 s : turns id (l1 ++ l2) s = s1 ← turns id l1 s; turns id l2 s1.
Proof. revert s. induction l1 as [|[now a] l1 IH]; intros s; cbn [turns app]; [done|]. destruct (connection_step now id a s) as [s1|]; [apply IH|done]. Qed.

(** A session before it is registered, while it is, and afterwards. *)
Inductive phase := Opening | Registered | Closing.
Definition phase_of (c : BLEConnection) : phase :=
  match at_place c with
  | AtConnect | AtService | AtChoose | AtMac | AtReset | AtAdd => Opening
  | AtPoll | AtPush _ | AtDisconnect => Registered
  | AtRemove | AtUnset | Ended => Closing
  end.

(** What a turn does to [bleConnections], by the phases before and after it. *)
Definition entries_after (id : nat) (c c' : BLEConnection) (s s' : ble) : Prop :=
  match phase_of c, phase_of c' with
  | Opening, Registered => bleConnections s' = bleConnections (addBLEConnection (bleDeviceMac c') id s)
  | Opening, _ => bleConnections s' = bleConnections s
  | Registered, Registered | Registered, Closing => bleDeviceMac c' = bleDeviceMac c /\ bleConnections s' = bleConnections s
  | Closing, Closing => bleConnections s' = bleConnections s \/ bleConnections s' = delete (bleDeviceMac c) (bleConnections s)
  | _, _ => False
  end.

Lemma connection_step_entries now id a s s' c : connection_step now id a s = Some s' -> connection_threads s !! id = Some c ->
  exists c', connection_threads s' !! id = Some c' /\ entries_after id c c' s s' /\ nus_sent s' = nus_sent s /\
    forall j, j <> id -> connection_threads s' !! j = connection_threads s !! j.
Proof.
  intros E Ec. destruct (connection_step_moves _ _ _ _ _ E) as (c0 & c' & Ec0 & _ & _ & Ht & Hn & _). assert (c0 = c) as -> by congruence.
  exists c'. assert (connection_threads s' !! id = Some c') as Ec' by (rewrite Ht; apply list_lookup_insert_eq; by eapply lookup_lt_Some).
  split_and!; [done| |done|intros j Hj; rewrite Ht; by rewrite list_lookup_insert_ne].
  clear Ht Hn. revert E Ec'. unfold connection_step, addBLEConnection. rewrite Ec. cbn [mbind option_bind].
  destruct (at_place c) eqn:Ep; destruct a as [b|b|multiple l|[|x mac]|isc m2|throws|]; try done; repeat case_match; intros [= <-]; cbn;
    rewrite ?list_lookup_alter_eq, ?Ec; cbn; intros [= <-]; unfold entries_after, phase_of; rewrite Ep; cbn; try done; try (by left); try (by right).
  all: unfold addBLEConnection; by case_match.
Qed.

(** A session that is registered has been entered for the device it asked, unless there was an entry. *)
Lemma session_entry id l s0 s1 c0 c1 : turns id l s0 = Some s1 -> connection_threads s0 !! id = Some c0 -> phase_of c0 = Opening ->
  connection_threads s1 !! id = Some c1 -> phase_of c1 = Registered ->
  bleConnections s1 = bleConnections (addBLEConnection (bleDeviceMac c1) id s0).
Proof.
  intros Hrun H0 P0 H1 P1. assert (Hgen : forall l s c, turns id l s = Some s1 -> connection_threads s !! id = Some c ->
    (phase_of c = Opening /\ bleConnections s = bleConnections s0) \/
    (phase_of c = Registered /\ bleConnections s = bleConnections (addBLEConnection (bleDeviceMac c) id s0)) \/ phase_of c = Closing ->
    bleConnections s1 = bleConnections (addBLEConnection (bleDeviceMac c1) id s0)); [|by eapply Hgen; [exact Hrun|exact H0|left]].
  clear Hrun l. induction l as [|[now a] l IH]; intros s c; cbn [turns].
  - intros [= ->] Hc. assert (c = c1) as -> by congruence. rewrite P1. by intros [[? ?]|[[? ?]|?]].
  - destruct (connection_step now id a s) as [s'|] eqn:E; [|done]. cbn [mbind option_bind]. intros Hrun Hc Hinv.
    destruct (connection_step_entries _ _ _ _ _ c E Hc) as (c' & Hc' & He & _). apply (IH s' c' Hrun Hc'). unfold entries_after in He.
    destruct Hinv as [[P Hs]|[[P Hs]|P]]; rewrite P in He; destruct (phase_of c') eqn:P'; try done; auto.
    + left. split; [done|congruence].
    + right; left. split; [done|]. rewrite He. unfold addBLEConnection. rewrite Hs. by case_match; cbn; rewrite ?Hs.
    + right; left. destruct He as [Em He]. split; [done|]. by rewrite He, Hs, Em.
Qed.

Lemma turns_others id l s s1 c : turns id l s = Some s1 -> connection_threads s !! id = Some c ->
  nus_sent s1 = nus_sent s /\ forall j, j <> id -> connection_threads s1 !! j = connection_threads s !! j.
Proof.
  revert s c. induction l as [|[now a] l IH]; intros s c; cbn [turns]; [by intros [= ->]|].
  destruct (connection_step now id a s) as [s'|] eqn:E; [|done]. intros Hrun Hc. destruct (connection_step_entries _ _ _ _ _ c E Hc) as (c' & Hc' & _ & Hn & Ho).
  destruct (IH s' c' Hrun Hc') as [Hn' Ho']. split; [congruence|]. intros j Hj. by rewrite Ho', Ho.
Qed.

Lemma disconnected_step now id throws s s' : connection_step now id (Disconnected throws) s = Some s' ->
  exists c, connection_threads s !! id = Some c /\ at_place c = AtDisconnect /\ s' = upd_thread id (put_place (if throws then AtUnset else AtRemove)) s.
Proof.
  unfold connection_step. destruct (connection_threads s !! id) as [c|]; [|done]. cbn [mbind option_bind]. intros E. exists c. split; [done|].
  destruct (at_place c) eqn:Ep; try done. by injection E as <-.
Qed.
Lemma unset_step now id s s' c : connection_step now id Silent s = Some s' -> connection_threads s !! id = Some c -> at_place c = AtUnset ->
  connection_threads s' !! id = Some (put_place Ended c) /\ bleConnections s' = bleConnections s.
Proof.
  intros E Ec Ep. revert E. unfold connection_step. rewrite Ec. cbn [mbind option_bind]. rewrite Ep. intros [= <-]. cbn. by rewrite list_lookup_alter_eq, Ec.
Qed.

(** A session whose [disconnect] throws is over, and its entry is still there. *)
Lemma thrown_session_stays id l n1 n2 s0 s1 c0 c1 : turns id (l ++ [(n1, Disconnected true); (n2, Silent)]) s0 = Some s1 ->
  connection_threads s0 !! id = Some c0 -> at_place c0 = AtConnect -> connection_threads s1 !! id = Some c1 -> bleConnections s0 !! bleDeviceMac c1 = None ->
  at_place c1 = Ended /\ bleConnections s1 !! bleDeviceMac c1 = Some id.
Proof.
  rewrite turns_app. destruct (turns id l s0) as [s|] eqn:Hl; [|done]. cbn [mbind option_bind turns]. intros Hrun H0 P0 H1 Hno.
  destruct (connection_step n1 id (Disconnected true) s) as [s'|] eqn:E; [|done]. cbn [mbind option_bind] in Hrun.
  destruct (connection_step n2 id Silent s') as [s''|] eqn:E'; [|done]. injection Hrun as ->.
  destruct (disconnected_step _ _ _ _ _ E) as (c & Ec & Ep & ->).
  assert (He : bleConnections s = bleConnections (addBLEConnection (bleDeviceMac c) id s0)).
  { eapply session_entry; [exact Hl|exact H0|by unfold phase_of; rewrite P0|exact Ec|by unfold phase_of; rewrite Ep]. }
  destruct (unset_step _ _ _ _ (put_place AtUnset c) E') as [Ec1 Eb]; [by cbn; rewrite list_lookup_alter_eq, Ec|done|].
  assert (c1 = put_place Ended (put_place AtUnset c)) as -> by congruence. split; [done|]. cbn [put_place bleDeviceMac] in *.
  rewrite Eb. cbn. rewrite He. unfold addBLEConnection. rewrite Hno. cbn. apply lookup_insert_eq.
Qed.

(** What happens during a session: a turn of its thread, or a call of [send] for its device. *)
Inductive event := Sent (bytes : list Z) (len : Z) | Turn (now : Z) (a : answer).
(** The results of the sends. *)
Fixpoint events (id : nat) (destination : list Z) (l : list event) (s : ble) : option (list bool * ble) :=
  match l with
  | [] => Some ([], s)
  | Sent bytes len :: l => '(b, s) ← ble_send destination bytes len s; '(bs, s) ← events id destination l s; Some (b :: bs, s)
  | Turn now a :: l => s ← connection_step now id a s; events id destination l s
  end.

(** The device of [destination] is not reached: its entry, if there is one, is that of a session [old] that is over, and the thread [id]
    of its session will not register any more. *)
Definition deaf (old id : nat) (destination : list Z) (s : ble) : Prop :=
  old <> id /\ alive s old = false /\ (exists c, connection_threads s !! id = Some c /\ phase_of c <> Opening) /\
  (bleConnections s !! getMacFromDeviceAddress destination = Some old \/ bleConnections s !! getMacFromDeviceAddress destination = None).

Lemma deaf_send old id destination bs len s : deaf old id destination s ->
  exists s', ble_send destination bs len s = Some (true, s') /\ nus_sent s' = nus_sent s /\ deaf old id destination s'.
Proof.
  intros (Hne & Ho & Hc & He). unfold ble_send. destruct He as [He|He]; rewrite He; [rewrite Ho|]; eexists; (split; [done|]); (split; [done|]); split_and!; auto.
  right. cbn. apply lookup_delete_eq.
Qed.
Lemma deaf_turn old id destination now a s s' : deaf old id destination s -> connection_step now id a s = Some s' ->
  nus_sent s' = nus_sent s /\ deaf old id destination s'.
Proof.
  intros (Hne & Ho & (c & Hc & Hp) & He) E. destruct (connection_step_entries _ _ _ _ _ c E Hc) as (c' & Hc' & Hent & Hn & Hoth). split; [done|].
  unfold entries_after in Hent. split_and!; [done|by unfold alive in *; rewrite Hoth| |].
  - exists c'. split; [done|]. intros P'. rewrite P' in Hent. by destruct (phase_of c).
  - destruct (phase_of c); [done| |]; destruct (phase_of c'); try done.
    + by rewrite (proj2 Hent).
    + by rewrite (proj2 Hent).
    + destruct Hent as [-> | ->]; [done|]. set (m := getMacFromDeviceAddress destination) in *. destruct (decide (m = bleDeviceMac c)) as [<-|]; [right; apply lookup_delete_eq|by rewrite lookup_delete_ne].
Qed.

(** C29: how a device is lost for [send].  A session with a device that had no entry in [bleConnections] runs, by any turns, until
    [disconnect] throws: its entry stays, although the session is over.  When the acceptor meets the device again and
    the second session has come, by any turns, to exchange messages with the device, every [send] to the device
    returns [true] and sends nothing, however many messages there are and whatever the session does meanwhile. *)
Theorem stale_connection_deafens id l n1 n2 s0 s1 c0 c1 now later mac id2 l2 c2 s2 c3 destination evs out s3 :
  connection_threads s0 !! id = Some c0 -> at_place c0 = AtConnect -> turns id (l ++ [(n1, Disconnected true); (n2, Silent)]) s0 = Some s1 ->
  connection_threads s1 !! id = Some c1 -> bleDeviceMac c1 = getMacFromDeviceAddress destination ->
  bleConnections s0 !! getMacFromDeviceAddress destination = None ->
  connection_threads (accept_device now later false mac s1) !! id2 = Some c2 -> at_place c2 = AtConnect ->
  turns id2 l2 (accept_device now later false mac s1) = Some s2 -> connection_threads s2 !! id2 = Some c3 -> at_place c3 = AtPoll ->
  bleDeviceMac c3 = getMacFromDeviceAddress destination -> events id2 destination evs s2 = Some (out, s3) ->
  bleConnections s1 !! getMacFromDeviceAddress destination = Some id /\ alive s1 id = false /\
  Forall (fun b => b = true) out /\ nus_sent s3 = nus_sent s0 /\
  forall bs len, exists s4, ble_send destination bs len s3 = Some (true, s4) /\ nus_sent s4 = nus_sent s0.
Proof.
  intros H0 P0 Hrun H1 Em1 Hno H2 P2 Hrun2 H3 P3 Em3 Hev. set (s1' := accept_device now later false mac s1) in *.
  destruct (thrown_session_stays id l n1 n2 s0 s1 c0 c1 Hrun H0 P0 H1 ltac:(by rewrite Em1)) as [Hend Hent]. rewrite Em1 in Hent.
  assert (alive s1 id = false) as Hdead by (unfold alive; by rewrite H1, Hend).
  assert (bleConnections s1' = bleConnections s1 /\ nus_sent s1' = nus_sent s1) as [Eb En] by (unfold s1', accept_device; by repeat case_match).
  assert (connection_threads s1' !! id = Some c1) as H1'.
  { destruct (accept_device_cases now later false mac s1) as [[Ht _]|(_ & Ht & _)]; fold s1' in Ht; rewrite Ht; [done|]. by apply lookup_app_l_Some. }
  assert (id <> id2) as Hne by (intros <-; assert (c1 = c2) as -> by congruence; congruence).
  destruct (turns_others _ _ _ _ _ Hrun H0) as [Hn1 _]. destruct (turns_others _ _ _ _ _ Hrun2 H2) as [Hn2 Hoth].
  assert (deaf id id2 destination s2) as Hdeaf.
  { split_and!; [done|unfold alive; by rewrite Hoth, H1', Hend|exists c3; split; [done|unfold phase_of; by rewrite P3]|left].
    rewrite (session_entry id2 l2 s1' s2 c2 c3 Hrun2 H2) by (first [done|by unfold phase_of; rewrite ?P2, ?P3]). rewrite Em3. unfold addBLEConnection. by rewrite Eb, Hent, <- Eb in *. }
  assert (Hall : Forall (fun b => b = true) out /\ nus_sent s3 = nus_sent s2 /\ deaf id id2 destination s3).
  { clear -Hdeaf Hev. revert s2 out Hdeaf Hev. induction evs as [|[bytes len|now a] evs IH]; intros s out Hd; cbn [events].
    - intros [= <- <-]. by split.
    - destruct (deaf_send id id2 destination bytes len s Hd) as (s' & -> & Hn & Hd'). cbn [mbind option_bind].
      destruct (events id2 destination evs s') as [[bs s'']|] eqn:E; [|done]. intros [= <- <-]. destruct (IH s' bs Hd' E) as (Hf & Hn' & Hd''). split_and!; [by constructor|congruence|done].
    - destruct (connection_step now id2 a s) as [s'|] eqn:E; [|done]. cbn [mbind option_bind]. intros Hev.
      destruct (deaf_turn _ _ _ _ _ _ _ Hd E) as [Hn Hd']. destruct (IH s' out Hd' Hev) as (Hf & Hn' & Hd''). split_and!; [done|congruence|done]. }
  destruct Hall as (Hout & Hn3 & Hd3). split_and!; [done|done|done|congruence|]. intros bs len.
  destruct (deaf_send id id2 destination bs len s3 Hd3) as (s4 & Hs & Hn4 & _). exists s4. split; [exact Hs|congruence].
Qed.

(** ** Examples *)

#[local] Instance sim_core : MqttSn := {|
  SN := list (list Z * list Z);
  sizeof_device_address := 6;
  notify_socket_connected k := Some (tt, k);
  notify_socket_disconnected k := Some (tt, k);
  receiveData a d k := Some (tt, k ++ [(a, take 4 d)])
|}.
Definition ex_address : list Z := [184; 39; 235; 0; 10; 255].
Definition ex_mac : str := getMacFromDeviceAddress ex_address.

Lemma mac_roundtrip_witness :
  getDeviceAddressFromMac 1 [9; 9; 9; 9; 9; 9] ex_mac = Some (Returns ex_address) /\ getDeviceAddressFromMac 0 [9; 9; 9; 9; 9; 9] ex_mac = None.
Proof.
  assert (bytes ex_address) as Ha by (repeat constructor; lia).
  split; [exact (mac_roundtrip 1 [9; 9; 9; 9; 9; 9] ex_address Ha eq_refl eq_refl)|exact (mac_roundtrip 0 [9; 9; 9; 9; 9; 9] ex_address Ha eq_refl eq_refl)].
Defined.

(** The steps of one thread. *)
Fixpoint run (id : nat) (answers : list answer) (s : ble) : option ble :=
  match answers with [] => Some s | a :: answers => s ← connection_step 0 id a s; run id answers s end.
Definition ex_opening : list answer := [Connected true; HasNUS true; LastMessages true [[]; [1]]; Mac ex_mac; Silent].
Lemma run_steps slack u id answers s s' k : run id answers s = Some s' -> exists ps, steps slack u (s, k) ps [] (s', k).
Proof.
  revert s. induction answers as [|a answers IH]; intros s; cbn [run]; [intros [= <-]; eexists; constructor|].
  destruct (connection_step 0 id a s) as [s1|] eqn:E; [|done]. intros [ps Hps]%IH. eexists. eapply (steps_step _ _ _ _ _ _ [] _ []); [by eapply step_connection|exact Hps].
Qed.

(** The acceptor meets the device, and meets it again. *)
Definition ex_started : ble := accept_device 0 0 false ex_mac (accept_device 0 0 false ex_mac ble_new).
Lemma ex_started_steps k : steps 1 (replicate 6 0) (ble_new, k) [] [] (ex_started, k).
Proof.
  unfold ex_started. eapply (steps_trans _ _ _ _ _ [] [] [] []); apply steps_one, step_acceptor.
Qed.

(** A message on its way from the device to the core. *)
Lemma ble_in_order_witness : exists ps s', steps 1 (replicate 6 0) (ble_new, []) ps [mkMessage ex_mac [5; 12; 0; 1; 65]] (s', [(ex_address, [5; 12; 0; 1])]) /\
  filter (fun m : BLEMessage => bm_mac m = ex_mac) ps = [mkMessage ex_mac [5; 12; 0; 1; 65]] ++ filter (fun m : BLEMessage => bm_mac m = ex_mac) (bleMessageQueue s').
Proof.
  assert (exists s1, run 0 (ex_opening ++ [Silent; Polled true [5; 12; 0; 1; 65]; Silent; Polled true []]) ex_started = Some s1 /\
    exists s2, ble_loop 1 (replicate 6 0) s1 [] = Some (Returns true, s2, [(ex_address, [5; 12; 0; 1])]) /\ take 1 (bleMessageQueue s1) = [mkMessage ex_mac [5; 12; 0; 1; 65]])
    as (s1 & E1 & s2 & E2 & Eq) by (eexists; split; [vm_compute; reflexivity|eexists; split; vm_compute; reflexivity]).
  destruct (run_steps 1 (replicate 6 0) _ _ _ _ [] E1) as [ps Hps].
  assert (steps 1 (replicate 6 0) (ble_new, []) ps [mkMessage ex_mac [5; 12; 0; 1; 65]] (s2, [(ex_address, [5; 12; 0; 1])])) as Hall.
  { eapply (steps_trans _ _ _ _ _ [] [] ps); [apply ex_started_steps|]. rewrite <- (app_nil_r ps). eapply (steps_trans _ _ _ _ _ _ []); [exact Hps|].
    rewrite <- Eq. exact (steps_one 1 (replicate 6 0) _ _ _ _ (step_loop 1 (replicate 6 0) _ _ _ _ _ E2)). }
  exists ps, s2. split; [exact Hall|]. destruct (ble_in_order (sn := sim_core) 1 (replicate 6 0) ble_new [] ps _ s2 _ Hall) as (_ & _ & Hmac). exact (Hmac ex_mac).
Defined.

Lemma one_session_per_device_witness : one_session ex_started /\ connection_threads ex_started = [mkConnection ex_mac [] false AtConnect].
Proof. split; [exact (one_session_per_device (sn := sim_core) 1 (replicate 6 0) [] [] [] ex_started [] (ex_started_steps [])) | vm_compute; reflexivity]. Defined.

(** The device has no address any more when its connection asks for it. *)
Lemma empty_mac_loses_device_witness : exists s s1, run 0 [Connected true; HasNUS true; LastMessages true [[]; [1]]] ex_started = Some s /\
  connection_step 0 0 (Mac []) s = Some s1 /\ lost (accept_device 0 0 false ex_mac s1) ex_mac.
Proof.
  assert (exists s, run 0 [Connected true; HasNUS true; LastMessages true [[]; [1]]] ex_started = Some s /\ connection_threads s !! 0%nat = Some (mkConnection ex_mac [] false AtMac) /\
    exists s1, connection_step 0 0 (Mac []) s = Some s1) as (s & E & Ec & s1 & E1) by (eexists; split; [vm_compute; reflexivity|split; [vm_compute; reflexivity|eexists; vm_compute; reflexivity]]).
  exists s, s1. split; [exact E|]. split; [exact E1|]. destruct (run_steps 1 (replicate 6 0) _ _ _ _ [] E) as [ps Hps].
  assert (one_session s) as Hs by exact (reachable_one_session (sn := sim_core) 1 (replicate 6 0) _ _ _ _ Hps (reachable_one_session (sn := sim_core) 1 (replicate 6 0) _ _ _ _ (ex_started_steps []) one_session_new)).
  refine (empty_mac_loses_device (sn := sim_core) 1 (replicate 6 0) 0 0 _ s s1 [] [] [] _ [] Hs Ec eq_refl E1 _).
  apply steps_one, step_acceptor.
Defined.

Lemma faulty_device_given_up_witness :
  let d := mkStatistic 4 0 0 false in let s := put_statistics {[ex_mac := d]} ble_new in
  let visits := map (fun day => mkVisit (day * 86400000000000) 0 false ex_mac) [1; 2; 365] in
  deviceStatistics (accept_all visits s) !! ex_mac = Some d /\ filter (fun c : BLEConnection => statistic_of c = ex_mac) (connection_threads (accept_all visits s)) = [].
Proof.
  intros d s visits. apply (faulty_device_given_up visits s ex_mac d); [by vm_compute|done|left; cbn; lia|repeat constructor; cbn; lia].
Defined.

(** A session ends by an exception; the device is met again, and two messages to it are sent, with a message from it between them. *)
Definition at_time_0 (l : list answer) : list (Z * answer) := map (pair 0) l.
Definition ex_first : list (Z * answer) := at_time_0 (ex_opening ++ [Silent; Polled false []]).
Definition ex_events : list event := [Sent [2; 24] 2; Turn 0 (Polled true [7]); Turn 0 Silent; Sent [9] 1].
Lemma stale_connection_deafens_witness : exists s1 s2 s3 s4,
  turns 0 (ex_first ++ [(0, Disconnected true); (0, Silent)]) ex_started = Some s1 /\
  turns 1 (at_time_0 (ex_opening ++ [Silent])) (accept_device 0 0 false ex_mac s1) = Some s2 /\
  events 1 ex_address ex_events s2 = Some ([true; true], s3) /\ nus_sent s3 = [] /\ ble_send ex_address [3] 1 s3 = Some (true, s4) /\ nus_sent s4 = [].
Proof.
  assert (exists s1 s2 s3 c1 c2 c3, turns 0 (ex_first ++ [(0, Disconnected true); (0, Silent)]) ex_started = Some s1 /\ connection_threads s1 !! 0%nat = Some c1 /\ bleDeviceMac c1 = ex_mac /\
    connection_threads (accept_device 0 0 false ex_mac s1) !! 1%nat = Some c2 /\ at_place c2 = AtConnect /\
    turns 1 (at_time_0 (ex_opening ++ [Silent])) (accept_device 0 0 false ex_mac s1) = Some s2 /\ connection_threads s2 !! 1%nat = Some c3 /\ at_place c3 = AtPoll /\ bleDeviceMac c3 = ex_mac /\
    events 1 ex_address ex_events s2 = Some ([true; true], s3))
    as (s1 & s2 & s3 & c1 & c2 & c3 & E1 & T1 & M1 & T2 & P2 & E2 & T3 & P3 & M3 & E3) by (do 6 eexists; split_and!; vm_compute; reflexivity).
  destruct (stale_connection_deafens 0 ex_first 0 0 ex_started s1 (mkConnection ex_mac [] false AtConnect) c1 0 0 ex_mac 1 (at_time_0 (ex_opening ++ [Silent])) c2 s2 c3 ex_address ex_events
    [true; true] s3 eq_refl eq_refl E1 T1 M1 ltac:(vm_compute; reflexivity) T2 P2 E2 T3 P3 M3 E3) as (_ & _ & _ & Hn & Hsend).
  destruct (Hsend [3] 1) as (s4 & Hs & Hn4). exists s1, s2, s3, s4. split_and!; [exact E1|exact E2|exact E3|exact Hn|exact Hs|exact Hn4].
Defined.
