(* ===== verification/BleScan.v ===== *)
(** * BleScan: the scanner of the older socket over Bluetooth Low Energy, Ble_old/Scanner

    Scanner.cpp: the advertising data a device sends, cut into flags and name, and the thread that
    reads reports from the HCI socket and tells who is interested of each new device; ScanResult.cpp.
    [None] is undefined behaviour. *)
From S2P Require Import Prelude CMem SnSocket Serial.

(** hci.h, which is not in the repository *)
Definition HCI_MAX_EVENT_SIZE : nat := 260.
Definition HCI_EVENT_HDR_SIZE : nat := 2.
(** errno.h and signal.h *)
Definition EINTR : Z := 4.
Definition EAGAIN : Z := 11.
Definition SIGINT : Z := 2.

(** Scanner.h *)
Definition FLAGS_AD_TYPE : Z := 1.
Definition FLAGS_LIMITED_MODE_BIT : Z := 1.
Definition FLAGS_GENERAL_MODE_BIT : Z := 2.
Definition EIR_NAME_SHORT : Z := 8.
Definition EIR_NAME_COMPLETE : Z := 9.

(** ** Advertising data *)

(** [while (offset < size)] of [read_flags]; the result is the byte [*flags] is set to, or [None] for
    [-ENOENT].  [data]: all that is behind the pointer. *)
Fixpoint read_flags_loop (fuel : nat) (data : list Z) (size offset : nat) : option (option Z) :=
  match fuel with
  | O => None
  | S fuel =>
    if (offset <? size)%nat then
      len ← data !! offset;
      if len =? 0 then Some None else
      if (size <? Z.to_nat len + offset)%nat then Some None else
      type ← data !! (offset + 1)%nat;
      if type =? FLAGS_AD_TYPE then flags ← data !! (offset + 2)%nat; Some (Some flags)
      else read_flags_loop fuel data size (offset + (1 + Z.to_nat len))
    else Some None
  end.
Definition read_flags (data : list Z) (size : nat) : option (option Z) := read_flags_loop (S size) data size 0.

(** 'l' and 'g' *)
Definition LIMITED : Z := 108.
Definition GENERAL : Z := 103.
Definition check_report_filter (procedure : Z) (data : list Z) (length : nat) : option bool :=
  if procedure =? 0 then Some true else
  flags ← read_flags data length;
  match flags with
  | None => Some false
  | Some flags =>
    if procedure =? LIMITED then Some (negb (Z.land flags FLAGS_LIMITED_MODE_BIT =? 0))
    else if procedure =? GENERAL then Some (negb (Z.land flags (Z.lor FLAGS_LIMITED_MODE_BIT FLAGS_GENERAL_MODE_BIT) =? 0))
    else Some false
  end.

(** [snprintf(buf, buf_len, text)] of a text without formats *)
Definition snprintf_text (buf : list Z) (buf_len : nat) (text : list Z) : option (list Z) :=
  match buf_len with O => Some buf | S n => copy_to buf 0 (take n text ++ [0]) end.
(** "(unknown)" *)
Definition unknown_name : list Z := [40; 117; 110; 107; 110; 111; 119; 110; 41].

(** [while (offset < eir_len)] of [eir_parse_name], with [failed]; [eir] is advanced by what it passes. *)
Fixpoint eir_parse_name_loop (fuel : nat) (eir : list Z) (eir_len : nat) (buf : list Z) (buf_len offset : nat) : option (list Z) :=
  match fuel with
  | O => None
  | S fuel =>
    let failed := snprintf_text buf buf_len unknown_name in
    if (offset <? eir_len)%nat then
      field_len ← eir !! 0%nat;
      if field_len =? 0 then failed else
      if (eir_len <? offset + Z.to_nat field_len)%nat then failed else
      type ← eir !! 1%nat;
      if (type =? EIR_NAME_SHORT) || (type =? EIR_NAME_COMPLETE) then
        let name_len := (Z.to_nat field_len - 1)%nat in
        if (buf_len <? name_len)%nat then failed else
        if (length eir <? 2 + name_len)%nat then None else copy_to buf 0 (take name_len (drop 2 eir))
      else eir_parse_name_loop fuel (drop (Z.to_nat field_len + 1) eir) eir_len buf buf_len (offset + (Z.to_nat field_len + 1))
    else failed
  end.
Definition eir_parse_name (eir : list Z) (eir_len : nat) (buf : list Z) (buf_len : nat) : option (list Z) :=
  eir_parse_name_loop (S eir_len) eir eir_len buf buf_len 0.

(** ** Reports *)

(** [meta->subevent], and [info->bdaddr], [info->length] and [info->data] of the first report behind it. *)
Definition subevent_at : nat := 1 + HCI_EVENT_HDR_SIZE.
Definition info_at : nat := subevent_at + 2.
Definition info_bdaddr (buf : list Z) : list Z := take 6 (drop (info_at + 2) buf).
Definition info_length (buf : list Z) : option Z := buf !! (info_at + 8)%nat.
Definition info_data (buf : list Z) : list Z := drop (info_at + 9) buf.

(** What a scanner tells of a device: ScannerCallbackInterface.h.  A [ScanResult] is its number. *)
Class ScannerCallback := { CB : Type; onScanReceive : nat -> CB -> option (bool * CB) }.

(** What [read] gives. *)
Inductive read_answer := ReadBytes (bs : list Z) | ReadFails (errno : Z).

Section Definitions.
Context `{MqttSn} `{ScannerCallback}.

(** ScanResult.cpp *)
Definition ScanResult_new (address : list Z) : list Z := address.

(** The object; [heap] holds the results that are not deleted. *)
Record Scanner := mkScanner {
  signal_received : Z; scanner_stopped : bool; scanResults : list nat; callbackInterface : bool; heap : gmap nat (list Z); next_result : nat; callback : CB
}.
Definition put_signal (x : Z) (s : Scanner) : Scanner := mkScanner x (scanner_stopped s) (scanResults s) (callbackInterface s) (heap s) (next_result s) (callback s).
Definition put_stopped (x : bool) (s : Scanner) : Scanner := mkScanner (signal_received s) x (scanResults s) (callbackInterface s) (heap s) (next_result s) (callback s).
Definition put_callbackInterface (x : bool) (s : Scanner) : Scanner := mkScanner (signal_received s) (scanner_stopped s) (scanResults s) x (heap s) (next_result s) (callback s).
Definition put_callback (x : CB) (s : Scanner) : Scanner := mkScanner (signal_received s) (scanner_stopped s) (scanResults s) (callbackInterface s) (heap s) (next_result s) x.

Definition getScanResults (s : Scanner) : list nat := scanResults s.
Definition setSignal (sig : Z) (s : Scanner) : Scanner := put_signal sig s.
Definition isRunning (s : Scanner) : bool := negb (scanner_stopped s).
(** [stop] up to [join]. *)
Definition stop_scan (s : Scanner) : Scanner := put_stopped true s.
(** [delete] of a result that is not there is undefined. *)
Definition removeScanResult (id : nat) (s : Scanner) : option Scanner :=
  _ ← heap s !! id;
  Some (mkScanner (signal_received s) (scanner_stopped s) (filter (fun i => i <> id) (scanResults s)) (callbackInterface s) (delete id (heap s)) (next_result s) (callback s)).
Fixpoint delete_all (ids : list nat) (h : gmap nat (list Z)) : option (gmap nat (list Z)) :=
  match ids with [] => Some h | id :: ids => _ ← h !! id; delete_all ids (delete id h) end.
Definition free_scanResults (s : Scanner) : option Scanner :=
  h ← delete_all (scanResults s) (heap s);
  Some (mkScanner (signal_received s) (scanner_stopped s) [] (callbackInterface s) h (next_result s) (callback s)).

(** The search for an address in the list. *)
Fixpoint in_list (address : list Z) (ids : list nat) (h : gmap nat (list Z)) : option bool :=
  match ids with
  | [] => Some false
  | id :: ids => a ← h !! id; if bool_decide (a = address) then Some true else in_list address ids h
  end.

(** The report that is in [buf]. *)
Definition report (filter_type : Z) (buf : list Z) (s : Scanner) : option Scanner :=
  length ← info_length buf;
  let data := info_data buf in
  ok ← check_report_filter filter_type data (Z.to_nat length);
  if negb ok then Some s else
  name ← eir_parse_name data (Z.to_nat length) (zero_bytes 30) 29;
  address ← copy_to (zero_bytes sizeof_device_address) 0 (info_bdaddr buf);
  found ← in_list address (scanResults s) (heap s);
  if (found : bool) then Some s else
  let id := next_result s in
  let s := mkScanner (signal_received s) (scanner_stopped s) (id :: scanResults s) (callbackInterface s) (<[id := ScanResult_new address]> (heap s)) (S id) (callback s) in
  if callbackInterface s then
    '(cb_return, c) ← onScanReceive id (callback s);
    let s := put_callback c s in
    Some (if (cb_return : bool) then s else put_stopped true s)
  else Some s.

(** One [read] and what follows it, up to the next; the first result is the value where the loop ends.  [now]: [time(NULL)]. *)
Definition scan_turn (filter_type duration start : Z) (a : read_answer) (now : Z) (buf : list Z) (s : Scanner) : option (option Z * list Z * Scanner) :=
  match a with
  | ReadFails errno =>
    if (errno =? EINTR) && (signal_received s =? SIGINT) then Some (Some 0, buf, s) else
    if (errno =? EAGAIN) || (errno =? EINTR) then Some (None, buf, s) else Some (Some (-1), buf, s)
  | ReadBytes bs =>
    buf ← copy_to buf 0 bs;
    let len := Z.of_nat (length bs) - Z.of_nat (1 + HCI_EVENT_HDR_SIZE) in
    let done := if len <? 0 then -1 else 0 in
    subevent ← buf !! subevent_at;
    if negb (subevent =? 2) then Some (Some done, buf, s) else
    s ← report filter_type buf s;
    if scanner_stopped s then Some (Some done, buf, s) else
    if negb (duration =? 0) && (start + duration <? now) then Some (Some done, buf, s) else Some (None, buf, s)
  end.
(** The loop, as far as the answers go: [None] as its value is that it waits in [read]. *)
Fixpoint scan_turns (filter_type duration start : Z) (reads : list (read_answer * Z)) (buf : list Z) (s : Scanner) : option (option Z * Scanner) :=
  match reads with
  | [] => Some (None, s)
  | (a, now) :: reads =>
    '(rc, buf, s) ← scan_turn filter_type duration start a now buf s;
    match rc with Some rc => Some (Some rc, s) | None => scan_turns filter_type duration start reads buf s end
  end.

(** The calls before and after the loop, each an answer of the system. *)
Record hci_answers := mkHci {
  str2ba_rc : Z; hci_open_rc : Z; scan_parameters_rc : Z; scan_enable_rc : Z; getsockopt_rc : Z; setsockopt_rc : Z; scan_disable_rc : Z; start_time : Z
}.
(** How [lescan] ends: [exit(1)], waiting in [read], or at its end. *)
Inductive lescan_end := LescanExits | LescanWaits | LescanEnds.
Definition print_advertising_devices (h : hci_answers) (filter_type duration : Z) (reads : list (read_answer * Z)) (uninitialised : list Z) (s : Scanner) : option (option Z * Scanner) :=
  if getsockopt_rc h <? 0 then Some (Some (-1), s) else
  if setsockopt_rc h <? 0 then Some (Some (-1), s) else
  scan_turns filter_type duration (start_time h) reads uninitialised s.
Definition lescan (h : hci_answers) (duration : Z) (reads : list (read_answer * Z)) (uninitialised : list Z) (s : Scanner) : option (lescan_end * Scanner) :=
  if negb (str2ba_rc h =? 0) then Some (LescanExits, s) else
  if hci_open_rc h <? 0 then Some (LescanExits, s) else
  if scan_parameters_rc h <? 0 then Some (LescanExits, s) else
  if scan_enable_rc h <? 0 then Some (LescanExits, s) else
  '(err, s) ← print_advertising_devices h 0 duration reads uninitialised s;
  match err with
  | None => Some (LescanWaits, s)
  | Some err => if err <? 0 then Some (LescanExits, s) else Some (LescanEnds, put_stopped true s)
  end.

Definition scan_for (h : hci_answers) (duration : Z) (reads : list (read_answer * Z)) (uninitialised : list Z) (s : Scanner) : option (lescan_end * Scanner) :=
  lescan h (to_ushort duration) reads uninitialised (put_stopped false s).
(** What [scan] does before its thread runs, and what the thread does. *)
Definition scan_start (s : Scanner) : Scanner := put_stopped false (put_callbackInterface true s).
Definition scanWithCallback (h : hci_answers) (reads : list (read_answer * Z)) (uninitialised : list Z) (s : Scanner) : option (lescan_end * Scanner) :=
  '(e, s) ← lescan h 0 reads uninitialised (put_stopped false s);
  Some (e, match e with LescanEnds => put_callbackInterface false s | _ => s end).
End Definitions.
