(* ===== verification/BleScanSpec.v ===== *)
(** * BleScanSpec: advertising data and reports of the scanner of BleScan.v *)
From Stdlib Require Import ZifyBool.
From S2P Require Import Prelude CMem SnSocket Serial BleScan.

(** ** Advertising data *)

(** A field of advertising data: its type and its value; before them stands the length of both. *)
Abbreviation field := (Z * list Z)%type.
Definition field_bytes (f : field) : list Z := Z.of_nat (S (length f.2)) :: f.1 :: f.2.
Definition advertising (fs : list field) : list Z := concat (field_bytes <$> fs).
Definition is_name (t : Z) : bool := (t =? EIR_NAME_SHORT) || (t =? EIR_NAME_COMPLETE).

(** The reference: the first flags, and the first name. *)
Fixpoint first_flags (fs : list field) : option Z :=
  match fs with [] => None | (t, v) :: fs => if t =? FLAGS_AD_TYPE then head v else first_flags fs end.
Fixpoint first_name (fs : list field) : option (list Z) :=
  match fs with [] => None | (t, v) :: fs => if is_name t then Some v else first_name fs end.
(** What the buffer of the name holds then. *)
Definition name_buffer (name : option (list Z)) : list Z :=
  match name with
  | Some v => if (length v <=? 29)%nat then splice (zero_bytes 30) 0 v else splice (zero_bytes 30) 0 (unknown_name ++ [0])
  | None => splice (zero_bytes 30) 0 (unknown_name ++ [0])
  end.

Lemma advertising_cons f fs : advertising (f :: fs) = field_bytes f ++ advertising fs.
Proof. done. Qed.
Lemma field_length f : length (field_bytes f) = S (S (length f.2)).
Proof. done. Qed.
Lemma advertising_fields fs : (length fs <= length (advertising fs))%nat.
Proof. induction fs as [|f fs IH]; [done|]. rewrite advertising_cons, length_app, field_length. cbn [length]. lia. Qed.
Lemma unknown_stored : snprintf_text (zero_bytes 30) 29 unknown_name = Some (name_buffer None).
Proof. done. Qed.

(** Flags without a value are read from what follows. *)
Definition flags_have_value (f : field) : Prop := f.1 = FLAGS_AD_TYPE -> f.2 <> [].

Lemma read_flags_at fs rest : Forall flags_have_value fs -> forall done fuel, (length fs < fuel)%nat ->
  read_flags_loop fuel (done ++ advertising fs ++ rest) (length done + length (advertising fs)) (length done) = Some (first_flags fs).
Proof.
  induction 1 as [|[t v] fs Hf _ IH]; intros done fuel Hfuel; (destruct fuel as [|fuel]; [cbn in Hfuel; lia|]); cbn [read_flags_loop].
  - rewrite (proj2 (Nat.ltb_ge _ _)); [done|cbn; lia].
  - rewrite advertising_cons, length_app, field_length. cbn [snd]. rewrite (proj2 (Nat.ltb_lt _ _)) by lia.
    assert (forall k, (done ++ (field_bytes (t, v) ++ advertising fs) ++ rest) !! (length done + k)%nat = (Z.of_nat (S (length v)) :: t :: v ++ advertising fs ++ rest) !! k) as Hk.
    { intros k. rewrite lookup_app_r by lia. replace (length done + k - length done)%nat with k by lia. unfold field_bytes. cbn [fst snd]. by rewrite <- app_assoc. }
    pose proof (Hk 0%nat) as H0. rewrite Nat.add_0_r in H0. rewrite H0, !Hk. cbn [lookup list_lookup mbind option_bind].
    destruct (Z.eqb_spec (Z.of_nat (S (length v))) 0); [lia|]. rewrite Nat2Z.id, (proj2 (Nat.ltb_ge _ _)) by lia.
    cbn [first_flags]. destruct (Z.eqb_spec t FLAGS_AD_TYPE) as [Et|Et]; [by destruct v as [|b v]; [destruct (Hf Et)|]|].
    specialize (IH (done ++ field_bytes (t, v)) fuel ltac:(cbn in Hfuel; lia)). rewrite <- app_assoc, length_app, field_length in IH. cbn [snd] in IH.
    replace (length done + (1 + S (length v)))%nat with (length done + S (S (length v)))%nat by lia.
    replace (length done + (S (S (length v)) + length (advertising fs)))%nat with (length done + S (S (length v)) + length (advertising fs))%nat by lia.
    rewrite <- app_assoc. exact IH.
Qed.

(** Of well-formed advertising data, [read_flags] gives the first flags, whatever lies behind the data. *)
Theorem read_flags_fields fs rest : Forall flags_have_value fs -> read_flags (advertising fs ++ rest) (length (advertising fs)) = Some (first_flags fs).
Proof. intros H. apply (read_flags_at fs rest H []). pose proof (advertising_fields fs). lia. Qed.

Lemma eir_name_at fs rest : forall offset fuel, (length fs < fuel)%nat ->
  eir_parse_name_loop fuel (advertising fs ++ rest) (offset + length (advertising fs)) (zero_bytes 30) 29 offset = Some (name_buffer (first_name fs)).
Proof.
  induction fs as [|[t v] fs IH]; intros offset fuel Hfuel; (destruct fuel as [|fuel]; [cbn in Hfuel; lia|]); cbn [eir_parse_name_loop].
  - rewrite (proj2 (Nat.ltb_ge _ _)) by (cbn; lia). apply unknown_stored.
  - rewrite advertising_cons, length_app, field_length. cbn [snd]. rewrite (proj2 (Nat.ltb_lt _ _)) by lia.
    unfold field_bytes. cbn [fst snd app lookup list_lookup mbind option_bind first_name].
    destruct (Z.eqb_spec (Z.of_nat (S (length v))) 0); [lia|]. rewrite Nat2Z.id, (proj2 (Nat.ltb_ge _ _)) by lia.
    fold (is_name t). destruct (is_name t) eqn:Et.
    + replace (S (length v) - 1)%nat with (length v) by lia. unfold name_buffer. destruct (Nat.leb_spec (length v) 29) as [Hv|Hv].
      * rewrite (proj2 (Nat.ltb_ge _ _)) by lia. rewrite (proj2 (Nat.ltb_ge _ _)) by (cbn [length]; rewrite !length_app; lia).
        cbn [drop]. rewrite drop_0, <- app_assoc, take_app_length. unfold copy_to. rewrite (proj2 (Nat.leb_le _ _)); [done|]. change (length (zero_bytes 30)) with 30%nat. cbn. lia.
      * rewrite (proj2 (Nat.ltb_lt _ _)) by lia. apply unknown_stored.
    + replace (S (length v) + 1)%nat with (S (S (length v))) by lia. cbn [drop]. rewrite <- app_assoc, drop_app_length.
      replace (offset + (S (S (length v)) + length (advertising fs)))%nat with (offset + S (S (length v)) + length (advertising fs))%nat by lia. apply IH. cbn in Hfuel. lia.
Qed.

(** Of well-formed advertising data, [eir_parse_name] stores the first name, if it fits, and else "(unknown)". *)
Theorem eir_name_fields fs rest : eir_parse_name (advertising fs ++ rest) (length (advertising fs)) (zero_bytes 30) 29 = Some (name_buffer (first_name fs)).
Proof. apply (eir_name_at fs rest 0). pose proof (advertising_fields fs). lia. Qed.

(** A name whose last byte is missing is taken for whole: its last byte is read from behind the data. *)
Theorem short_name_accepted v x rest : (length v < 29)%nat ->
  eir_parse_name (field_bytes (EIR_NAME_COMPLETE, v ++ [x]) ++ rest) (length (field_bytes (EIR_NAME_COMPLETE, v ++ [x])) - 1) (zero_bytes 30) 29 = Some (splice (zero_bytes 30) 0 (v ++ [x])).
Proof.
  intros Hv. rewrite field_length. cbn [snd]. set (w := v ++ [x]). assert (length w = S (length v)) as Hw by (unfold w; rewrite length_app; cbn; lia).
  unfold eir_parse_name. cbn [eir_parse_name_loop]. rewrite (proj2 (Nat.ltb_lt _ _)) by lia. unfold field_bytes. cbn [fst snd app lookup list_lookup mbind option_bind].
  destruct (Z.eqb_spec (Z.of_nat (S (length w))) 0); [lia|]. rewrite Nat2Z.id, (proj2 (Nat.ltb_ge _ _)) by lia. change (_ || _) with true. cbv iota.
  replace (S (length w) - 1)%nat with (length w) by lia. rewrite (proj2 (Nat.ltb_ge _ _)) by lia. rewrite (proj2 (Nat.ltb_ge _ _)) by (cbn [length]; rewrite length_app; lia).
  cbn [drop]. rewrite drop_0, take_app_length. unfold copy_to. rewrite (proj2 (Nat.leb_le _ _)); [done|]. change (length (zero_bytes 30)) with 30%nat. cbn. lia.
Qed.

(** ** Bounds *)

Lemma read_flags_defined data size : bytes data -> (size + 2 <= length data)%nat -> forall fuel offset, (size - offset < fuel)%nat -> is_Some (read_flags_loop fuel data size offset).
Proof.
  intros Hb Hl. induction fuel as [|fuel IH]; intros offset Hf; [lia|]. cbn [read_flags_loop]. destruct (Nat.ltb_spec offset size) as [Ho|]; [|by eexists].
  destruct (lookup_lt_is_Some_2 data offset ltac:(lia)) as [len El]. rewrite El. cbn [mbind option_bind]. pose proof (Forall_lookup_1 _ _ _ _ Hb El) as Hlen. unfold byte in Hlen.
  destruct (Z.eqb_spec len 0); [by eexists|]. destruct (Nat.ltb_spec size (Z.to_nat len + offset)); [by eexists|].
  destruct (lookup_lt_is_Some_2 data (offset + 1) ltac:(lia)) as [type ->]. cbn [mbind option_bind]. destruct (type =? FLAGS_AD_TYPE).
  - destruct (lookup_lt_is_Some_2 data (offset + 2) ltac:(lia)) as [flags ->]. by eexists.
  - apply IH. lia.
Qed.

Lemma unknown_defined buf buf_len : (0 < buf_len <= length buf)%nat -> is_Some (snprintf_text buf buf_len unknown_name).
Proof.
  intros H. unfold snprintf_text. destruct buf_len as [|n]; [lia|]. unfold copy_to. rewrite (proj2 (Nat.leb_le _ _)); [by eexists|]. rewrite length_app, length_take. cbn [length]. lia.
Qed.
Lemma eir_name_defined eir_len buf buf_len : (0 < buf_len <= length buf)%nat -> forall fuel eir offset, bytes eir -> (eir_len + 1 <= offset + length eir)%nat -> (eir_len - offset < fuel)%nat ->
  exists name, eir_parse_name_loop fuel eir eir_len buf buf_len offset = Some name.
Proof.
  intros Hbuf. induction fuel as [|fuel IH]; intros eir offset Hb Hl Hf; [lia|]. cbn [eir_parse_name_loop]. destruct (Nat.ltb_spec offset eir_len) as [Ho|]; [|by apply unknown_defined].
  destruct (lookup_lt_is_Some_2 eir 0 ltac:(lia)) as [len El]. rewrite El. cbn [mbind option_bind]. pose proof (Forall_lookup_1 _ _ _ _ Hb El) as Hlen. unfold byte in Hlen.
  destruct (Z.eqb_spec len 0); [by apply unknown_defined|]. destruct (Nat.ltb_spec eir_len (offset + Z.to_nat len)); [by apply unknown_defined|].
  destruct (lookup_lt_is_Some_2 eir 1 ltac:(lia)) as [type ->]. cbn [mbind option_bind]. destruct (_ || _).
  - destruct (Nat.ltb_spec buf_len (Z.to_nat len - 1)); [by apply unknown_defined|]. rewrite (proj2 (Nat.ltb_ge _ _)) by lia. unfold copy_to.
    rewrite (proj2 (Nat.leb_le _ _)); [by eexists|]. rewrite length_take, length_drop. lia.
  - apply IH; [by apply Forall_drop|rewrite length_drop; lia|lia].
Qed.

(** Whatever a device advertises, [read_flags] ends and reads at most two bytes behind the data, and [eir_parse_name] ends and reads at most one. *)
Theorem advertising_bounds data size : bytes data ->
  ((size + 2 <= length data)%nat -> exists r, read_flags data size = Some r) /\ ((size + 1 <= length data)%nat -> exists name, eir_parse_name data size (zero_bytes 30) 29 = Some name).
Proof.
  intros Hb. split; intros Hl.
  - apply read_flags_defined; [done|done|lia].
  - apply eir_name_defined; [change (length (zero_bytes 30)) with 30%nat; lia|done|lia|lia].
Qed.

(** ** Reports *)

Lemma omap_ext_Forall {A B} (f g : A -> option B) (l : list A) : Forall (fun x => f x = g x) l -> omap f l = omap g l.
Proof. induction 1 as [|x l Hx _ IH]; [done|]. cbn. rewrite Hx. destruct (g x); by rewrite <- ?IH. Qed.

Section Reports.
Context `{sn : MqttSn} `{cb : ScannerCallback}.
Implicit Types (s : Scanner).

(** What [read] gives of one report: a whole event that fits, with data the buffer has room for. *)
Record report_ok (bs : list Z) : Prop := {
  ro_bytes : bytes bs; ro_length : (info_at + 9 <= length bs <= HCI_MAX_EVENT_SIZE)%nat; ro_subevent : bs !! subevent_at = Some 2;
  ro_data : exists n, info_length bs = Some n /\ n <= 245
}.
(** The address of the device that sent it. *)
Definition address_in (bs : list Z) : list Z := splice (zero_bytes sizeof_device_address) 0 (info_bdaddr bs).

(** The devices a scanner knows, the latest first. *)
Definition known (s : Scanner) : list (list Z) := omap (fun id => heap s !! id) (scanResults s).
Definition see (seen : list (list Z)) (a : list Z) : list (list Z) := if decide (a ∈ seen) then seen else a :: seen.
(** The devices among [addresses] that are not in [seen], each once, in the order of their first report. *)
Fixpoint fresh (seen addresses : list (list Z)) : list (list Z) :=
  match addresses with
  | [] => []
  | a :: addresses => if decide (a ∈ seen) then fresh seen addresses else a :: fresh (a :: seen) addresses
  end.
(** The calls of [onScanReceive] for the results [ids], in this order. *)
Fixpoint tell (ids : list nat) (c : CB) : option CB :=
  match ids with [] => Some c | id :: ids => '(_, c) ← onScanReceive id c; tell ids c end.

Record scanner_wf s : Prop := {
  sw_results : Forall (fun id => is_Some (heap s !! id)) (scanResults s);
  sw_next : forall id, (next_result s <= id)%nat -> heap s !! id = None
}.

(** From [s] to [s'] the devices [news] have been found: each has got one result, with the next number, that is put in front of
    the list, and that [onScanReceive] has been called with; there were no other calls and no other results. *)
Record found_new s (news : list (list Z)) s' : Prop := {
  fn_next : next_result s' = (next_result s + length news)%nat;
  fn_results : scanResults s' = reverse (seq (next_result s) (length news)) ++ scanResults s;
  fn_new : Forall2 (fun id a => heap s' !! id = Some a) (seq (next_result s) (length news)) news;
  fn_old id : (id < next_result s)%nat -> heap s' !! id = heap s !! id;
  fn_told : tell (seq (next_result s) (length news)) (callback s) = Some (callback s')
}.

Lemma found_none s : found_new s [] s.
Proof. split; try done. Qed.

Lemma tell_app ids1 ids2 c c1 : tell ids1 c = Some c1 -> tell (ids1 ++ ids2) c = tell ids2 c1.
Proof. revert c. induction ids1 as [|id ids1 IH]; intros c; cbn [tell app]; [by intros [= ->]|]. destruct (onScanReceive id c) as [[b c2]|]; [|done]. cbn [mbind option_bind]. apply IH. Qed.

Lemma found_trans s1 s2 s3 news1 news2 : found_new s1 news1 s2 -> found_new s2 news2 s3 -> found_new s1 (news1 ++ news2) s3.
Proof.
  intros [N1 R1 F1 O1 T1] [N2 R2 F2 O2 T2]. split; rewrite ?length_app, ?seq_app, <- ?N1.
  - lia.
  - by rewrite R2, R1, reverse_app, <- app_assoc.
  - apply Forall2_app; [|done]. apply Forall2_same_length_lookup. split; [by eapply Forall2_length|].
    intros i id a Hi Ha. rewrite O2 by (apply lookup_seq in Hi; lia). exact (Forall2_lookup_lr _ _ _ _ _ _ F1 Hi Ha).
  - intros id Hid. rewrite O2 by lia. by apply O1.
  - by rewrite (tell_app _ _ _ _ T1).
Qed.

Lemma in_list_spec a ids (h : gmap nat (list Z)) : Forall (fun id => is_Some (h !! id)) ids -> in_list a ids h = Some (bool_decide (a ∈ omap (fun id => h !! id) ids)).
Proof.
  induction 1 as [|id ids [b Eb] _ IH]; [done|]. cbn [in_list omap list_omap]. rewrite Eb. cbn [mbind option_bind]. destruct (decide (b = a)) as [->|Hne].
  - rewrite !bool_decide_eq_true_2; [done|by left|done].
  - rewrite bool_decide_eq_false_2 by done. rewrite IH. f_equal. apply bool_decide_ext. unfold omap. rewrite elem_of_cons. split; [by right|intros [->|Hin]; done].
Qed.

Lemma copy_to_bytes (l bs : list Z) : (length bs <= length l)%nat -> copy_to l 0 bs = Some (bs ++ drop (length bs) l).
Proof. intros H. unfold copy_to. rewrite (proj2 (Nat.leb_le _ _)) by (cbn; lia). unfold splice. by rewrite take_0. Qed.

(** What the report [bs] is to the scanner. *)
Lemma report_spec buf bs s : scanner_wf s -> callbackInterface s = true -> (forall id c, exists c', onScanReceive id c = Some (true, c')) ->
  (6 <= sizeof_device_address)%nat -> report_ok bs -> length buf = HCI_MAX_EVENT_SIZE -> bytes buf ->
  exists s', report 0 (bs ++ drop (length bs) buf) s = Some s' /\ scanner_wf s' /\ callbackInterface s' = true /\ scanner_stopped s' = scanner_stopped s /\
    known s' = see (known s) (address_in bs) /\ found_new s (fresh (known s) [address_in bs]) s'.
Proof.
  intros [Hr Hn] Hcb Hacc Hsz [Hb Hl Hs (n & En & Hn245)] Hlb Hbb. set (buf' := bs ++ drop (length bs) buf). unfold info_at, subevent_at, HCI_EVENT_HDR_SIZE in Hl. cbn [Nat.add] in Hl.
  assert (length buf' = HCI_MAX_EVENT_SIZE) as Hl' by (unfold buf'; rewrite length_app, length_drop; lia).
  assert (bytes buf') as Hb' by (apply Forall_app_2; [done|by apply Forall_drop]).
  assert (info_length buf' = Some n) as En' by (unfold info_length, buf', info_at, subevent_at, HCI_EVENT_HDR_SIZE in *; cbn [Nat.add] in *; rewrite lookup_app_l by lia; done).
  assert (info_bdaddr buf' = info_bdaddr bs) as Ea.
  { unfold info_bdaddr, buf', info_at, subevent_at, HCI_EVENT_HDR_SIZE. cbn [Nat.add]. rewrite drop_app_le by lia. rewrite take_app_le; [done|rewrite length_drop; lia]. }
  assert (0 <= n) as Hn0 by (apply (Forall_lookup_1 _ _ _ _ Hb) in En; unfold byte in En; lia).
  unfold report. rewrite En'. cbn [mbind option_bind]. unfold check_report_filter. rewrite Z.eqb_refl. cbn [mbind option_bind negb].
  destruct (proj2 (advertising_bounds (info_data buf') (Z.to_nat n) ltac:(by apply Forall_drop))) as [name ->].
  { unfold info_data, info_at, subevent_at, HCI_EVENT_HDR_SIZE. cbn [Nat.add]. rewrite length_drop, Hl'. unfold HCI_MAX_EVENT_SIZE. lia. }
  cbn [mbind option_bind]. rewrite Ea.
  assert (copy_to (zero_bytes sizeof_device_address) 0 (info_bdaddr bs) = Some (address_in bs)) as ->.
  { unfold copy_to. rewrite (proj2 (Nat.leb_le _ _)); [done|]. unfold info_bdaddr, zero_bytes. rewrite length_take, length_replicate. lia. }
  cbn [mbind option_bind]. rewrite in_list_spec by done. cbn [mbind option_bind]. fold (known s). unfold see. cbn [fresh]. destruct (decide (address_in bs ∈ known s)) as [Hin|Hni].
  - rewrite bool_decide_eq_true_2 by done. exists s. split_and!; try done.
  - rewrite bool_decide_eq_false_2 by done. cbn [callbackInterface]. rewrite Hcb. cbn [callback]. destruct (Hacc (next_result s) (callback s)) as [c' Ec]. rewrite Ec. cbn [mbind option_bind].
    eexists _. split; [done|].
    assert (forall id, is_Some (heap s !! id) -> <[next_result s := ScanResult_new (address_in bs)]> (heap s) !! id = heap s !! id) as Hold.
    { intros id [b Eb]. rewrite lookup_insert_ne; [done|]. intros <-. rewrite Hn in Eb by lia. done. }
    split_and!; try done.
    + split; cbn.
      * constructor; [by rewrite lookup_insert_eq; eexists|]. eapply Forall_impl; [exact Hr|]. intros id Hid. cbn in *. by rewrite Hold.
      * intros id Hid. rewrite lookup_insert_ne by lia. apply Hn. lia.
    + unfold known. cbn [put_callback scanResults heap omap list_omap]. rewrite lookup_insert_eq. f_equal. apply omap_ext_Forall. eapply Forall_impl; [exact Hr|exact Hold].
    + split; cbn [length seq reverse tell put_callback next_result scanResults heap callback]; [lia|done| | |by rewrite Ec].
      * constructor; [apply lookup_insert_eq|constructor].
      * intros id Hid. rewrite lookup_insert_ne; [done|lia].
Qed.

Lemma fresh_cons seen a addresses : fresh seen (a :: addresses) = fresh seen [a] ++ fresh (see seen a) addresses.
Proof. unfold see. cbn [fresh]. by destruct (decide (a ∈ seen)). Qed.
Lemma see_NoDup seen addresses : NoDup seen -> NoDup (foldl see seen addresses).
Proof. revert seen. induction addresses as [|a l IH]; intros seen H; [done|]. apply IH. unfold see. case_decide; [done|by constructor]. Qed.

(** C20: however often devices report themselves, the scanner makes one result of each that it does not know, in the order in which they
    were first seen, and calls [onScanReceive] exactly once for each of these, with its result and in that order, and never else; no device is
    in its list twice; and it goes on reading. *)
Theorem scanner_reports_once reports start : (6 <= sizeof_device_address)%nat -> (forall id c, exists c', onScanReceive id c = Some (true, c')) -> Forall (fun r => report_ok r.1) reports ->
  forall buf s, length buf = HCI_MAX_EVENT_SIZE -> bytes buf -> scanner_wf s -> scanner_stopped s = false -> callbackInterface s = true ->
  exists s', scan_turns 0 0 start (map (fun r => (ReadBytes r.1, r.2)) reports) buf s = Some (None, s') /\ scanner_wf s' /\ scanner_stopped s' = false /\
    known s' = foldl see (known s) (address_in <$> reports.*1) /\ (NoDup (known s) -> NoDup (known s')) /\
    found_new s (fresh (known s) (address_in <$> reports.*1)) s'.
Proof.
  intros Hsz Hacc Hok. induction Hok as [|[bs now] reports Hbs _ IH]; intros buf s Hlb Hbb Hwf Hst Hcb.
  - exists s. split_and!; done || apply found_none.
  - cbn [map scan_turns scan_turn fst snd]. cbn [fst] in Hbs. pose proof Hbs as [Hb Hl Hsub _]. unfold info_at, subevent_at, HCI_EVENT_HDR_SIZE in Hl. cbn [Nat.add] in Hl.
    rewrite copy_to_bytes by lia. cbn [mbind option_bind]. set (buf' := bs ++ drop (length bs) buf).
    assert (buf' !! subevent_at = Some 2) as -> by (unfold buf', subevent_at, HCI_EVENT_HDR_SIZE in *; cbn [Nat.add] in *; rewrite lookup_app_l by lia; done).
    cbn [mbind option_bind]. change (negb (2 =? 2)) with false. cbv iota.
    destruct (report_spec buf bs s Hwf Hcb Hacc Hsz Hbs Hlb Hbb) as (s1 & E1 & Hwf1 & Hcb1 & Hst1 & Hk1 & Hf1). fold buf' in E1. rewrite E1. cbn [mbind option_bind].
    rewrite Hst1, Hst. change (negb (0 =? 0)) with false. cbn [andb]. cbv iota.
    destruct (IH buf' s1) as (s2 & E2 & Hwf2 & Hst2 & Hk2 & _ & Hf2); try done.
    + unfold buf'. rewrite length_app, length_drop. unfold HCI_MAX_EVENT_SIZE in *. lia.
    + apply Forall_app_2; [done|by apply Forall_drop].
    + congruence.
    + cbn [mbind option_bind]. exists s2. rewrite Hk1 in Hk2, Hf2. split_and!; [exact E2|done|done|exact Hk2| |].
      * rewrite Hk2. intros Hnd. by apply see_NoDup, (see_NoDup _ [address_in bs]).
      * change (address_in <$> ((bs, now) :: reports).*1) with (address_in bs :: (address_in <$> reports.*1)). rewrite fresh_cons. by eapply found_trans.
Qed.

(** Any other event of the controller, such as that of a connection, ends the scan, and the thread forgets who is interested. *)
Theorem other_event_ends_scan h bs now reads uninitialised s e : str2ba_rc h = 0 -> 0 <= hci_open_rc h -> 0 <= scan_parameters_rc h -> 0 <= scan_enable_rc h -> 0 <= getsockopt_rc h -> 0 <= setsockopt_rc h ->
  length uninitialised = HCI_MAX_EVENT_SIZE -> (4 <= length bs <= HCI_MAX_EVENT_SIZE)%nat -> bs !! subevent_at = Some e -> e <> 2 ->
  scanWithCallback h ((ReadBytes bs, now) :: reads) uninitialised s = Some (LescanEnds, put_callbackInterface false (put_stopped true (put_stopped false s))).
Proof.
  intros H1 H2 H3 H4 H5 H6 Hu Hl He Hne. unfold scanWithCallback, lescan. rewrite H1. cbn [negb Z.eqb].
  do 3 (rewrite (proj2 (Z.ltb_ge _ _)) by lia). unfold print_advertising_devices. do 2 (rewrite (proj2 (Z.ltb_ge _ _)) by lia).
  cbn [scan_turns scan_turn]. rewrite copy_to_bytes by lia. cbn [mbind option_bind].
  assert ((bs ++ drop (length bs) uninitialised) !! subevent_at = Some e) as -> by (rewrite lookup_app_l; [done|unfold subevent_at, HCI_EVENT_HDR_SIZE; cbn; lia]).
  cbn [mbind option_bind]. destruct (Z.eqb_spec e 2); [done|]. cbn [negb mbind option_bind].
  assert ((Z.of_nat (length bs) - Z.of_nat (1 + HCI_EVENT_HDR_SIZE) <? 0) = false) as -> by (unfold HCI_EVENT_HDR_SIZE; cbn; lia). done.
Qed.
End Reports.

(** ** An example *)

#[local] Instance scan_sim : MqttSn := {|
  SN := unit;
  sizeof_device_address := 6;
  notify_socket_connected k := Some (tt, k);
  notify_socket_disconnected k := Some (tt, k);
  receiveData _ _ k := Some (tt, k)
|}.
#[local] Instance scan_sim_callback : ScannerCallback := {| CB := list nat; onScanReceive id l := Some (true, l ++ [id]) |}.
(** An advertising report with a name, from the device whose address ends in [b]. *)
Definition ex_report (b : Z) : list Z := [4; 62; 16; 2; 1; 0; 0; b; 1; 2; 3; 4; 5; 4; 3; 9; 66; 84; 0].
Definition ex_reports : list (list Z * Z) := [(ex_report 7, 0); (ex_report 8, 0); (ex_report 7, 1)].
Lemma ex_reports_ok : Forall (fun r => report_ok r.1) ex_reports.
Proof.
  unfold ex_reports. repeat constructor; cbn; try (unfold byte; lia); try (unfold HCI_MAX_EVENT_SIZE; lia); by eexists.
Qed.
Definition ex_callback : @CB scan_sim_callback := ([] : list nat).
Definition ex_scanner : @Scanner scan_sim_callback := scan_start (mkScanner 0 true [] false ∅ 0 ex_callback).
(** Two devices, the first of which reports twice: two results and two calls. *)
Lemma scanner_reports_once_witness : exists s', scan_turns 0 0 0 (map (fun r => (ReadBytes r.1, r.2)) ex_reports) (zero_bytes 260) ex_scanner = Some (None, s') /\
  known s' = [[8; 1; 2; 3; 4; 5]; [7; 1; 2; 3; 4; 5]] /\ tell [0; 1]%nat ex_callback = Some (callback s') /\ scanResults s' = [1; 0]%nat.
Proof.
  destruct (scanner_reports_once (sn := scan_sim) (cb := scan_sim_callback) ex_reports 0 ltac:(cbn; lia) ltac:(intros id c; by exists (c ++ [id])) ex_reports_ok (zero_bytes 260)
    ex_scanner) as (s' & E & _ & _ & Hk & _ & [_ Hr _ _ Ht]); [done|apply (Forall_replicate (A := Z)); unfold byte; lia|split; [constructor|done]|done|done|].
  exists s'. split_and!; [exact E|rewrite Hk; vm_compute; reflexivity|exact Ht|exact Hr].
Defined.
