(* ===== verification/System.v ===== *)
(** * System: the clock of the gateway, LinuxSystem.cpp

    The heartbeat and the time since the last question, from the [millis] of the Arduino
    library: a counter of milliseconds of 32 bits. *)
From S2P Require Import Prelude CMem.

Record LinuxSystem := mkSystem { heartbeat_period : Z; heartbeat_current : Z; elapsed_current : Z }.
(** As declared; the constructor starts the timer of [millis]. *)
Definition LinuxSystem_init : LinuxSystem := mkSystem 10000 0 0.

Definition set_heartbeat (period : Z) (o : LinuxSystem) : LinuxSystem := mkSystem period (heartbeat_current o) (elapsed_current o).
Definition get_heartbeat (o : LinuxSystem) : Z := heartbeat_period o.

(** [current]: what [millis()] says. *)
Definition has_beaten (current : Z) (o : LinuxSystem) : bool * LinuxSystem :=
  if heartbeat_period o <? to_uint (current - heartbeat_current o)
  then (true, mkSystem (heartbeat_period o) current (elapsed_current o)) else (false, o).

Definition get_elapsed_time (current : Z) (o : LinuxSystem) : Z * LinuxSystem :=
  (to_uint (current - elapsed_current o), mkSystem (heartbeat_period o) (heartbeat_current o) current).

(** ** Time *)

(** What [millis] says at a time, in milliseconds since the timer was started. *)
Definition millis (t : Z) : Z := to_uint t.

(** Questions at the times [ts], in order: the answers, and the system after them. *)
Fixpoint elapsed_times (ts : list Z) (o : LinuxSystem) : list Z * LinuxSystem :=
  match ts with
  | [] => ([], o)
  | t :: ts => let '(e, o) := get_elapsed_time (millis t) o in let '(es, o) := elapsed_times ts o in (e :: es, o)
  end.
(** Consecutive questions less than 2^32 ms (49 days) apart. *)
Fixpoint spaced_times (t0 : Z) (ts : list Z) : Prop :=
  match ts with [] => True | t :: ts => 0 <= t - t0 < 4294967296 /\ spaced_times t ts end.
Definition last_time (t0 : Z) (ts : list Z) : Z := default t0 (last ts).
Definition sum (l : list Z) : Z := foldr Z.add 0 l.

Lemma millis_diff t t0 : 0 <= t - t0 < 4294967296 -> to_uint (millis t - millis t0) = t - t0.
Proof. intros H. unfold millis, to_uint. rewrite <- Zminus_mod. by apply Z.mod_small. Qed.

(** No time is lost or counted twice between questions: the answers of [get_elapsed_time] add up to
    the time from the first question to the last, however often the counter of [millis] starts over
    in between, as long as it does so at most once between two questions. *)
Theorem elapsed_times_sum ts t0 o es o' :
  elapsed_current o = millis t0 -> spaced_times t0 ts -> elapsed_times ts o = (es, o') ->
  sum es = last_time t0 ts - t0 /\ elapsed_current o' = millis (last_time t0 ts) /\ length es = length ts.
Proof.
  revert t0 o es o'. induction ts as [|t ts IH]; intros t0 o es o' Ho Hts; cbn [elapsed_times]; [intros [= <- <-]; unfold last_time; cbn; split_and!; [lia|done|done]|].
  destruct Hts as [Ht Hts]. unfold get_elapsed_time. rewrite Ho, millis_diff by done.
  destruct (elapsed_times ts _) as [es2 o2] eqn:E. intros [= <- <-]. apply (IH t) in E as (Hs & Hc & Hl); [|done|done].
  assert (last_time t0 (t :: ts) = last_time t ts) as -> by (unfold last_time; rewrite last_cons; by destruct (last ts)).
  cbn [sum foldr length]. fold (sum es2). split_and!; [lia|done|lia].
Qed.

(** Questions for the heartbeat: at each time, whether it has beaten. *)
Fixpoint beats (ts : list Z) (o : LinuxSystem) : list bool * LinuxSystem :=
  match ts with
  | [] => ([], o)
  | t :: ts => let '(b, o) := has_beaten (millis t) o in let '(bs, o) := beats ts o in (b :: bs, o)
  end.
(** The reference: the beats of a clock that does not start over, given when it last beat. *)
Fixpoint beats_at (period t0 : Z) (ts : list Z) : list bool :=
  match ts with
  | [] => []
  | t :: ts => let b := period <? t - t0 in b :: beats_at period (if b then t else t0) ts
  end.
(** In order, and close enough to one another for the period. *)
Fixpoint close_times (limit t0 : Z) (ts : list Z) : Prop :=
  match ts with [] => True | t :: ts => 0 <= t - t0 < limit /\ close_times limit t ts end.

(** The heartbeat is that of a clock without an end: asked at times less than [gap] apart,
    [has_beaten] says yes exactly where more than the period has passed since it last did, also
    where the counter of [millis] started over, if period and [gap] fit into it together. *)
Theorem beats_spec gap ts t0 o bs o' :
  0 <= heartbeat_period o -> heartbeat_period o + gap < 4294967296 -> heartbeat_current o = millis t0 ->
  close_times gap t0 ts -> beats ts o = (bs, o') -> bs = beats_at (heartbeat_period o) t0 ts.
Proof.
  intros Hp Hg Ho Hts E.
  assert (forall last, t0 <= last -> last - t0 <= heartbeat_period o -> close_times gap last ts -> bs = beats_at (heartbeat_period o) t0 ts) as Hgen; [|by apply (Hgen t0); [lia|lia|]].
  clear Hts. revert t0 o bs o' Hp Hg Ho E. induction ts as [|t ts IH]; intros t0 o bs o' Hp Hg Ho E last Hl Hd Hts; cbn [beats beats_at] in *; [by injection E as <- <-|].
  destruct Hts as [Ht Hts]. unfold has_beaten in E. rewrite Ho, millis_diff in E by lia.
  destruct (Z.ltb_spec (heartbeat_period o) (t - t0)).
  - destruct (beats ts _) as [bs2 o2] eqn:E2. injection E as <- <-. f_equal.
    eapply (IH t (mkSystem _ _ _)) in E2; [exact E2|done|done|done|reflexivity|cbn; lia|exact Hts].
  - destruct (beats ts o) as [bs2 o2] eqn:E2. injection E as <- <-. f_equal. eapply (IH t0); [exact Hp|exact Hg|exact Ho|exact E2|exact (ltac:(lia) : t0 <= t)|lia|exact Hts].
Qed.

(** Over the end of the counter: 200 ms before it, and 300 and 10100 ms after. *)
Lemma elapsed_times_sum_witness : exists es, elapsed_times [4294967496; 4294977396] (mkSystem 10000 0 4294967096) = (es, mkSystem 10000 0 10100) /\ sum es = 10300.
Proof.
  eexists. split; [vm_compute; reflexivity|].
  exact (proj1 (elapsed_times_sum [4294967496; 4294977396] 4294967096 (mkSystem 10000 0 4294967096) _ _ ltac:(by vm_compute) ltac:(cbn; lia) ltac:(vm_compute; reflexivity))).
Defined.
Lemma beats_spec_witness : fst (beats [4294967496; 4294977396; 4294977397] (mkSystem 10000 4294967096 0)) = beats_at 10000 4294967096 [4294967496; 4294977396; 4294977397].
Proof.
  destruct (beats _ _) as [bs o'] eqn:E. cbn [fst].
  exact (beats_spec 20000 [4294967496; 4294977396; 4294977397] 4294967096 (mkSystem 10000 4294967096 0) bs o' ltac:(cbn; lia) ltac:(cbn; lia) ltac:(by vm_compute) ltac:(cbn; lia) E).
Defined.
