(* ===== verification/Logger.v ===== *)
(** * Logger: what LinuxLogger.cpp prints

    The overloads with [char *] call those with [const char *]; there is one of each here. *)
From S2P Require Import Prelude CMem Format.

Record LinuxLogger := mkLogger { current_log_lvl : Z; last_started_log_lvl : Z }.
Definition LinuxLogger_init : LinuxLogger := mkLogger 2 255.

(** A line feed, [sprintf("%ld", millis())], a colon and a space, and the message *)
Definition log_line (now : Z) (msg : list Z) : list Z := 10 :: dec now ++ [58; 32] ++ msg.

(** The calls give what is printed, and the logger after them. *)
Definition log (now : Z) (msg : list Z) (log_lvl : Z) (o : LinuxLogger) : list Z * LinuxLogger :=
  if current_log_lvl o <? log_lvl then ([], o) else (log_line now msg, o).
Definition start_log (now : Z) (msg : list Z) (log_lvl : Z) (o : LinuxLogger) : list Z * LinuxLogger :=
  let o := mkLogger (current_log_lvl o) log_lvl in
  if current_log_lvl o <? last_started_log_lvl o then ([], o) else (log_line now msg, o).
Definition append_log (msg : list Z) (o : LinuxLogger) : list Z * LinuxLogger :=
  if current_log_lvl o <? last_started_log_lvl o then ([], o) else (msg, o).
Definition set_current_log_lvl (log_lvl : Z) (o : LinuxLogger) : list Z * LinuxLogger := ([], mkLogger (current_log_lvl o) log_lvl).
Definition set_log_lvl (log_lvl : Z) (o : LinuxLogger) : list Z * LinuxLogger := ([], mkLogger log_lvl (last_started_log_lvl o)).

(** Calls one after another: all that is printed. *)
Fixpoint print_all (calls : list (LinuxLogger -> list Z * LinuxLogger)) (o : LinuxLogger) : list Z * LinuxLogger :=
  match calls with [] => ([], o) | c :: calls => let '(out, o) := c o in let '(out', o) := print_all calls o in (out ++ out', o) end.

(** A record of the log: started, and continued piece by piece, or not. *)
Record entry := mkEntry { e_time : Z; e_level : Z; e_start : list Z; e_pieces : list (list Z) }.
Definition entry_calls (e : entry) : list (LinuxLogger -> list Z * LinuxLogger) := start_log (e_time e) (e_start e) (e_level e) :: map append_log (e_pieces e).

Lemma print_all_app cs1 cs2 o : print_all (cs1 ++ cs2) o =
  let '(out1, o1) := print_all cs1 o in let '(out2, o2) := print_all cs2 o1 in (out1 ++ out2, o2).
Proof.
  revert o. induction cs1 as [|c cs1 IH]; intros o; cbn [print_all app]; [by destruct (print_all cs2 o)|].
  destruct (c o) as [out o1]. rewrite IH. destruct (print_all cs1 o1) as [out1 o2]. destruct (print_all cs2 o2) as [out2 o3]. by rewrite app_assoc.
Qed.

Lemma print_pieces ps o : print_all (map append_log ps) o = (if current_log_lvl o <? last_started_log_lvl o then [] else concat ps, o).
Proof.
  induction ps as [|p ps IH]; cbn [map print_all concat]; [by destruct (_ <? _)|]. unfold append_log at 1. destruct (current_log_lvl o <? last_started_log_lvl o) eqn:E; by rewrite IH.
Qed.

(** The log is cut by level record by record: records of a level up to the current one are printed
    whole, with all their pieces, in order, and of the others nothing is. *)
Theorem log_by_level es o : fst (print_all (concat (map entry_calls es)) o) =
  concat (map (fun e => log_line (e_time e) (e_start e) ++ concat (e_pieces e)) (filter (fun e => e_level e <= current_log_lvl o) es)).
Proof.
  revert o. induction es as [|e es IH]; intros o; [done|]. cbn [map concat]. rewrite print_all_app. unfold entry_calls. cbn [print_all]. unfold start_log at 1. cbn [current_log_lvl last_started_log_lvl].
  set (o1 := mkLogger (current_log_lvl o) (e_level e)). specialize (IH o1). destruct (Z.ltb_spec (current_log_lvl o) (e_level e)) as [Hlt|Hle]; rewrite print_pieces; cbn [o1 current_log_lvl last_started_log_lvl];
    destruct (Z.ltb_spec (current_log_lvl o) (e_level e)); try lia; fold o1; destruct (print_all _ o1) as [out o2]; cbn [fst] in *; rewrite IH; cbn [o1 current_log_lvl].
  - by rewrite filter_cons_False by lia.
  - by rewrite filter_cons_True by lia.
Qed.
