(* ===== verification/Ringbuf.v ===== *)
(** * Ringbuf: ringbuf.c of BlueZ

    The ring buffer with free-running counters, and that it is a bounded queue of
    bytes.  [size_t] is 32 bits wide; [unsigned] arithmetic wraps. *)
From S2P Require Import Prelude CMem.

(** [struct ringbuf]; the tracing callback is known by its address. *)
Record ringbuf := mkRingbuf {
  buffer : list Z; size : Z; in_ : Z; out_ : Z; in_tracing : option nat; in_data : nat
}.

Definition UINT_MAX : Z := 4294967295.
Definition RINGBUF_RESET : Z := 0.

(** [x ? sizeof(x) * 8 - __builtin_clz(x) : 0] *)
Definition clz (x : Z) : Z := 31 - Z.log2 x.
Definition fls (x : Z) : Z := if x =? 0 then 0 else 32 - clz x.

(** [1 << n] in [int]: undefined from 31 on. *)
Definition align_power2 (u : Z) : option Z :=
  let n := fls (to_uint (u - 1)) in
  if n <? 31 then Some (to_uint (2 ^ n)) else None.

(** [malloc], with the indeterminate contents of what it returns. *)
Definition ringbuf_new (malloc : Z -> option (list Z)) (size : Z) : option (option ringbuf) :=
  if (size <? 2) || (UINT_MAX <? size) then Some None else
  real_size ← align_power2 (to_uint size);
  match malloc real_size with
  | None => Some None
  | Some buffer => Some (Some (mkRingbuf buffer real_size RINGBUF_RESET RINGBUF_RESET None 0))
  end.

(** The functions take a [struct ringbuf *] and return it with what it points to
    afterwards; null is [None]. *)
Definition ringbuf_set_input_tracing (r : option ringbuf) (callback : option nat) (user_data : nat)
    : bool * option ringbuf :=
  match r with
  | None => (false, None)
  | Some r => (true, Some (mkRingbuf (buffer r) (size r) (in_ r) (out_ r) callback user_data))
  end.

Definition ringbuf_capacity (r : option ringbuf) : Z :=
  match r with None => 0 | Some r => size r end.

Definition ringbuf_len (r : option ringbuf) : Z :=
  match r with None => 0 | Some r => to_uint (in_ r - out_ r) end.

(** [ringbuf->out += n] and the reset of an empty buffer. *)
Definition advance_out (r : ringbuf) (n : Z) : ringbuf :=
  let out := to_uint (out_ r + n) in
  if out =? in_ r then mkRingbuf (buffer r) (size r) RINGBUF_RESET RINGBUF_RESET (in_tracing r) (in_data r)
  else mkRingbuf (buffer r) (size r) (in_ r) out (in_tracing r) (in_data r).

Definition ringbuf_drain (r : option ringbuf) (count : Z) : Z * option ringbuf :=
  match r with
  | None => (0, None)
  | Some r =>
    let len := Z.min count (to_uint (in_ r - out_ r)) in
    if len =? 0 then (0, Some r) else (len, Some (advance_out r len))
  end.

(** Returns the offset of the pointer into the buffer, and [*len_nowrap]. *)
Definition ringbuf_peek (r : option ringbuf) (offset : Z) : option (Z * Z) :=
  match r with
  | None => None
  | Some r =>
    let offset := Z.land (to_uint (out_ r + offset)) (to_uint (size r - 1)) in
    let len := to_uint (in_ r - out_ r) in
    Some (offset, Z.min len (to_uint (size r - offset)))
  end.

(** [n] bytes of the buffer from [off], as an [iovec] names them. *)
Definition region (b : list Z) (off n : Z) : option (list Z) :=
  if decide (0 <= off /\ 0 <= n /\ off + n <= Z.of_nat (length b))
  then Some (take (Z.to_nat n) (drop (Z.to_nat off) b)) else None.

(** Bytes stored into the buffer at [off]. *)
Definition put (b : list Z) (off : Z) (xs : list Z) : option (list Z) :=
  if decide (0 <= off /\ off + Z.of_nat (length xs) <= Z.of_nat (length b))
  then Some (splice b (Z.to_nat off) xs) else None.

(** A call of the tracing callback. *)
Record trace := mkTrace { callback : nat; traced : list Z; trace_data : nat }.
Definition tracing (r : ringbuf) (xs : list Z) : list trace :=
  match in_tracing r with Some f => [mkTrace f xs (in_data r)] | None => [] end.

Section Io.
Context {O : Type}.

(** [writev(fd, iov, 2)] is given the bytes of the two vectors; [readv] their lengths,
    and returns its value and the bytes it stored, from the first vector on. *)
Context (writev : Z -> list Z -> list Z -> M O Z) (readv : Z -> Z -> Z -> M O (Z * list Z)).

Definition ringbuf_write (r : option ringbuf) (fd : Z) : M O (Z * option ringbuf) :=
  match r with
  | None => mret (-1, None)
  | Some r =>
    if fd <? 0 then mret (-1, Some r) else
    let len := to_uint (in_ r - out_ r) in
    if len =? 0 then mret (0, Some r) else
    let offset := Z.land (out_ r) (to_uint (size r - 1)) in
    let end_ := Z.min len (to_uint (size r - offset)) in
    iov0 ← lift (region (buffer r) offset end_);
    iov1 ← lift (region (buffer r) 0 (to_uint (len - end_)));
    consumed ← writev fd iov0 iov1;
    if consumed <? 0 then mret (-1, Some r) else mret (consumed, Some (advance_out r consumed))
  end.

Definition ringbuf_avail (r : option ringbuf) : Z :=
  match r with None => 0 | Some r => to_uint (size r - in_ r + out_ r) end.

(** What [ringbuf_read] and [ringbuf_vprintf] store: [xs] up to the end of the buffer,
    the rest from its beginning, with the calls of the tracing callback; [in] moves by
    [n]. *)
Definition store_wrapped (r : ringbuf) (offset end_ n : Z) (xs : list Z)
    : option (ringbuf * list trace) :=
  let first := take (Z.to_nat end_) xs in
  let rest := drop (Z.to_nat end_) xs in
  b ← put (buffer r) offset first;
  b ← put b 0 rest;
  Some (mkRingbuf b (size r) (to_uint (in_ r + n)) (out_ r) (in_tracing r) (in_data r),
        tracing r first ++ (if 0 <? Z.of_nat (length rest) then tracing r rest else [])).

(** [str]: what [vasprintf] makes of format and arguments; [None] if it fails. *)
Definition ringbuf_vprintf (r : option ringbuf) (str : option (list Z)) : option (Z * option ringbuf * list trace) :=
  match r with
  | None => Some (-1, None, [])
  | Some r =>
    let avail := to_uint (size r - in_ r + out_ r) in
    if avail =? 0 then Some (-1, Some r, []) else
    match str with
    | None => Some (-1, Some r, [])
    | Some str =>
      let len := Z.of_nat (length str) in
      if avail <? len then Some (-1, Some r, []) else
      let offset := Z.land (in_ r) (to_uint (size r - 1)) in
      let end_ := Z.min len (to_uint (size r - offset)) in
      '(r, tr) ← store_wrapped r offset end_ len str;
      Some (len, Some r, tr)
    end
  end.

Definition ringbuf_read (r : option ringbuf) (fd : Z) : M O (Z * option ringbuf * list trace) :=
  match r with
  | None => mret (-1, None, [])
  | Some r =>
    if fd <? 0 then mret (-1, Some r, []) else
    let avail := to_uint (size r - in_ r + out_ r) in
    if avail =? 0 then mret (-1, Some r, []) else
    let offset := Z.land (in_ r) (to_uint (size r - 1)) in
    let end_ := Z.min avail (to_uint (size r - offset)) in
    '(consumed, bs) ← readv fd end_ (to_uint (avail - end_));
    if consumed <? 0 then mret (-1, Some r, []) else
    '(r, tr) ← lift (store_wrapped r offset end_ consumed bs);
    mret (consumed, Some r, tr)
  end.
End Io.

(** ** The buffer as a queue *)

(** [b] from position [o] on, and round. *)
Definition rot {A} (o : nat) (b : list A) : list A := drop o b ++ take o b.

Lemma rot_lookup {A} (b : list A) o i :
  (o < length b)%nat -> (i < length b)%nat -> rot o b !! i = b !! (if decide (o + i < length b) then o + i else o + i - length b)%nat.
Proof.
  intros Ho Hi. unfold rot. case_decide.
  - rewrite lookup_app_l by (rewrite length_drop; lia). by rewrite lookup_drop.
  - rewrite lookup_app_r by (rewrite length_drop; lia). rewrite length_drop, lookup_take_lt by lia. f_equal. lia.
Qed.

Lemma length_rot {A} o (b : list A) : length (rot o b) = length b.
Proof. unfold rot. rewrite length_app, length_drop, length_take. lia. Qed.

Lemma splice_lookup {A} (l xs : list A) i j :
  (i + length xs <= length l)%nat ->
  splice l i xs !! j = if decide (i <= j < i + length xs)%nat then xs !! (j - i)%nat else l !! j.
Proof.
  intros Hl. unfold splice. case_decide as Hd.
  - rewrite lookup_app_r by (rewrite length_take; lia). rewrite length_take, Nat.min_l by lia.
    by rewrite lookup_app_l by lia.
  - destruct (decide (j < i)%nat).
    + rewrite lookup_app_l by (rewrite length_take; lia). by rewrite lookup_take_lt by lia.
    + rewrite lookup_app_r by (rewrite length_take; lia). rewrite length_take, Nat.min_l by lia.
      rewrite lookup_app_r by lia. rewrite lookup_drop. f_equal. lia.
Qed.

(** Dropping from the front moves the start. *)
Lemma rot_drop {A} (b : list A) o n l :
  (o < length b)%nat -> (n <= l)%nat -> (l <= length b)%nat ->
  take (l - n) (rot (if decide (o + n < length b) then o + n else o + n - length b)%nat b) = drop n (take l (rot o b)).
Proof.
  intros Ho Hn Hl. apply list_eq. intros i. rewrite lookup_drop.
  destruct (decide (i < l - n)%nat) as [Hi|Hi].
  - rewrite !lookup_take_lt by lia. rewrite !rot_lookup by (repeat case_decide; lia).
    f_equal. repeat case_decide; lia.
  - rewrite !lookup_take_ge by lia. done.
Qed.

(** Storing behind the contents, wrapped at the end of the buffer. *)
Lemma rot_store {A} (b xs : list A) o l off e :
  (o < length b)%nat -> (l + length xs <= length b)%nat ->
  off = (if decide (o + l < length b) then o + l else o + l - length b)%nat ->
  e = (length b - off)%nat \/ (length xs <= e <= length b - off)%nat ->
  take (l + length xs) (rot o (splice (splice b off (take e xs)) 0 (drop e xs))) = take l (rot o b) ++ xs.
Proof.
  intros Ho Hl Hoff He.
  assert (off < length b)%nat by (subst off; case_decide; lia).
  assert (H1 : (off + length (take e xs) <= length b)%nat) by (rewrite length_take; lia).
  assert (H2 : (0 + length (drop e xs) <= length (splice b off (take e xs)))%nat)
    by (rewrite length_splice, length_drop by done; lia).
  assert (Hlen : length (splice (splice b off (take e xs)) 0 (drop e xs)) = length b) by (by rewrite !length_splice).
  apply list_eq. intros i. destruct (decide (i < l + length xs)%nat) as [Hi|Hi].
  2:{ rewrite !lookup_ge_None_2; [done| |]; rewrite ?length_app, ?length_take, ?length_rot; lia. }
  rewrite lookup_take_lt by lia. rewrite rot_lookup, Hlen by lia. rewrite splice_lookup, splice_lookup by done.
  rewrite length_take, length_drop in *. destruct (decide (i < l)%nat) as [Hil|Hil].
  - rewrite lookup_app_l by (rewrite length_take, length_rot; lia). rewrite (lookup_take_lt (rot o b)), rot_lookup by lia.
    repeat case_decide; try lia; done.
  - rewrite lookup_app_r by (rewrite length_take, length_rot; lia). rewrite length_take, length_rot, (Nat.min_l l) by lia.
    repeat case_decide; try lia; rewrite ?lookup_drop, ?lookup_take_lt by lia; f_equal; lia.
Qed.

(** The size is a power of two, the buffer has it, and no more is filled than fits. *)
Definition inv (r : ringbuf) : Prop :=
  (exists k, 1 <= k <= 30 /\ size r = 2 ^ k) /\ Z.of_nat (length (buffer r)) = size r /\
  0 <= in_ r < 4294967296 /\ 0 <= out_ r < 4294967296 /\ to_uint (in_ r - out_ r) <= size r.

(** The bytes in the buffer, oldest first. *)
Definition contents (r : ringbuf) : list Z :=
  take (Z.to_nat (to_uint (in_ r - out_ r))) (rot (Z.to_nat (out_ r mod size r)) (buffer r)).

Lemma to_uint_range z : 0 <= to_uint z < 4294967296.
Proof. apply Z.mod_pos_bound. lia. Qed.

Lemma pow2_bounds k : 1 <= k <= 30 -> 2 <= 2 ^ k <= 1073741824.
Proof.
  intros Hk. pose proof (Z.pow_le_mono_r 2 1 k). pose proof (Z.pow_le_mono_r 2 k 30).
  change (2 ^ 1) with 2 in *. change (2 ^ 30) with 1073741824 in *. lia.
Qed.

Lemma pow2_divide k : 1 <= k <= 30 -> (2 ^ k | 4294967296).
Proof.
  intros Hk. exists (2 ^ (32 - k)). rewrite <- Z.pow_add_r by lia. by replace (32 - k + k) with 32 by lia.
Qed.

Lemma land_size r x : inv r -> Z.land x (to_uint (size r - 1)) = x mod size r.
Proof.
  intros ((k & Hk & Hs) & _). pose proof (pow2_bounds k Hk). rewrite to_uint_id by lia. rewrite Hs.
  rewrite <- Z.land_ones by lia. by rewrite Z.ones_equiv.
Qed.

(** Moving a counter moves its position in the buffer. *)
Lemma advance_pos r x n :
  inv r -> 0 <= n <= size r ->
  Z.to_nat (to_uint (x + n) mod size r) =
    (if decide (Z.to_nat (x mod size r) + Z.to_nat n < length (buffer r))
     then Z.to_nat (x mod size r) + Z.to_nat n else Z.to_nat (x mod size r) + Z.to_nat n - length (buffer r))%nat.
Proof.
  intros ((k & Hk & Hs) & Hb & _) Hn. pose proof (pow2_bounds k Hk). rewrite Hs in *. unfold to_uint.
  rewrite Z.mod_mod_divide by by apply pow2_divide. rewrite <- Z.add_mod_idemp_l by lia.
  pose proof (Z.mod_pos_bound x (2 ^ k) ltac:(lia)). set (y := x mod 2 ^ k) in *.
  case_decide.
  - rewrite Z.mod_small by lia. lia.
  - rewrite <- (Zmod_unique (y + n) (2 ^ k) 1 (y + n - 2 ^ k)) by lia. lia.
Qed.

Lemma length_contents r : inv r -> Z.of_nat (length (contents r)) = to_uint (in_ r - out_ r).
Proof.
  intros (_ & Hb & _ & _ & Hl). unfold contents. rewrite length_take, length_rot.
  pose proof (to_uint_range (in_ r - out_ r)). lia.
Qed.

Lemma ringbuf_len_contents r : inv r -> ringbuf_len (Some r) = Z.of_nat (length (contents r)).
Proof. intros Hr. by rewrite length_contents. Qed.

Lemma ringbuf_avail_contents r :
  inv r -> ringbuf_avail (Some r) = size r - Z.of_nat (length (contents r)).
Proof.
  intros Hr. rewrite length_contents by done. destruct Hr as ((k & Hk & Hs) & Hb & Hi & Ho & Hl).
  pose proof (pow2_bounds k Hk). cbn [ringbuf_avail]. revert Hl. unfold to_uint.
  replace (size r - in_ r + out_ r) with (size r - (in_ r - out_ r)) by lia.
  set (d := in_ r - out_ r). rewrite <- Zminus_mod_idemp_r. intros Hl.
  pose proof (Z.mod_pos_bound d 4294967296 ltac:(lia)). apply Z.mod_small. lia.
Qed.

(** Consuming [n] bytes drops them. *)
Lemma advance_out_spec r n :
  inv r -> 0 <= n <= Z.of_nat (length (contents r)) ->
  inv (advance_out r n) /\ contents (advance_out r n) = drop (Z.to_nat n) (contents r) /\
  size (advance_out r n) = size r.
Proof.
  intros Hr Hn. rewrite length_contents in Hn by done. pose proof Hr as ((k & Hk & Hs) & Hb & Hi & Ho & Hl).
  pose proof (pow2_bounds k Hk). unfold advance_out.
  assert (Hd : to_uint (in_ r - to_uint (out_ r + n)) = to_uint (in_ r - out_ r) - n).
  { unfold to_uint in *. rewrite Zminus_mod_idemp_r.
    replace (in_ r - (out_ r + n)) with ((in_ r - out_ r) - n) by lia. rewrite <- Zminus_mod_idemp_l.
    apply Z.mod_small. pose proof (Z.mod_pos_bound (in_ r - out_ r) 4294967296 ltac:(lia)). lia. }
  destruct (Z.eqb_spec (to_uint (out_ r + n)) (in_ r)) as [E|E].
  - rewrite E, Z.sub_diag in Hd. change (to_uint 0) with 0 in Hd.
    split; [|split; [|done]].
    + unfold inv. cbn [size buffer in_ out_]. unfold RINGBUF_RESET. split_and!; try done; [by exists k|change (to_uint (0 - 0)) with 0; lia].
    + unfold contents at 1. cbn [in_ out_ RINGBUF_RESET Z.sub]. change (to_uint (0 - 0)) with 0. cbn [Z.to_nat take].
      rewrite drop_ge; [done|]. pose proof (length_contents r Hr). lia.
  - split; [|split; [|done]].
    + unfold inv. cbn [size buffer in_ out_]. pose proof (to_uint_range (out_ r + n)).
      split_and!; try done; try lia. by exists k.
    + unfold contents. cbn [size buffer in_ out_]. rewrite Hd, (advance_pos r) by (done || lia).
      rewrite Z2Nat.inj_sub by lia. apply rot_drop; [|lia|lia].
      pose proof (Z.mod_pos_bound (out_ r) (size r) ltac:(lia)). lia.
Qed.

(** Storing appends. *)
Lemma store_wrapped_spec r X xs :
  inv r -> Z.of_nat (length xs) <= size r - Z.of_nat (length (contents r)) -> Z.of_nat (length xs) <= X ->
  let offset := in_ r mod size r in
  exists r' tr, store_wrapped r offset (Z.min X (to_uint (size r - offset))) (Z.of_nat (length xs)) xs = Some (r', tr) /\
    inv r' /\ contents r' = contents r ++ xs /\ size r' = size r /\
    concat (map traced tr) = match in_tracing r with Some _ => xs | None => [] end.
Proof.
  intros Hr Hfit HX offset. rewrite length_contents in Hfit by done. pose proof Hr as ((k & Hk & Hs) & Hb & Hi & Ho & Hl).
  pose proof (pow2_bounds k Hk). pose proof (to_uint_range (in_ r - out_ r)) as Hu.
  pose proof (Z.mod_pos_bound (in_ r) (size r) ltac:(lia)) as Hoff. fold offset in Hoff.
  rewrite to_uint_id by lia. set (e := Z.min X (size r - offset)).
  set (o := Z.to_nat (out_ r mod size r)). set (l := Z.to_nat (to_uint (in_ r - out_ r))).
  pose proof (Z.mod_pos_bound (out_ r) (size r) ltac:(lia)).
  assert (Hin : to_uint (out_ r + to_uint (in_ r - out_ r)) = in_ r).
  { unfold to_uint. rewrite Z.add_mod_idemp_r by lia. replace (out_ r + (in_ r - out_ r)) with (in_ r) by lia.
    by apply Z.mod_small. }
  assert (Hpos : Z.to_nat offset = (if decide (o + l < length (buffer r)) then o + l else o + l - length (buffer r))%nat).
  { pose proof (advance_pos r (out_ r) (to_uint (in_ r - out_ r)) Hr ltac:(lia)) as Hp. by rewrite Hin in Hp. }
  unfold store_wrapped, put. rewrite decide_True by (rewrite length_take; lia). cbn [mbind option_bind].
  assert (Hf : (Z.to_nat offset + length (take (Z.to_nat e) xs) <= length (buffer r))%nat) by (rewrite length_take; lia).
  rewrite decide_True by (rewrite length_splice, length_drop by done; lia). cbn [mbind option_bind].
  eexists _, _. split; [done|]. cbn [in_ out_ size buffer].
  assert (Hd : to_uint (to_uint (in_ r + Z.of_nat (length xs)) - out_ r) = to_uint (in_ r - out_ r) + Z.of_nat (length xs)).
  { unfold to_uint in *. rewrite Zminus_mod_idemp_l. replace (in_ r + Z.of_nat (length xs) - out_ r) with
      ((in_ r - out_ r) + Z.of_nat (length xs)) by lia. rewrite <- Z.add_mod_idemp_l by lia. apply Z.mod_small. lia. }
  split; [|split; [|split; [done|]]].
  - unfold inv. cbn [in_ out_ size buffer]. rewrite !length_splice by
      (try rewrite length_splice by done; try rewrite length_drop; done || lia).
    pose proof (to_uint_range (in_ r + Z.of_nat (length xs))). split_and!; try done; try lia. by exists k.
  - unfold contents. cbn [in_ out_ size buffer]. rewrite Hd, Z2Nat.inj_add, Nat2Z.id by lia.
    fold o l. change (Z.to_nat 0) with 0%nat. apply rot_store; [lia|lia|exact Hpos|lia].
  - unfold tracing. destruct (in_tracing r); cbn [map concat app traced].
    + destruct (Z.ltb_spec 0 (Z.of_nat (length (drop (Z.to_nat e) xs)))) as [Hp|Hp]; cbn [map concat app traced].
      * by rewrite app_nil_r, take_drop.
      * rewrite app_nil_r. apply take_ge. rewrite length_drop in Hp. lia.
    + by destruct (_ <? _).
Qed.

(** ** The abstract queue *)

(** What is asked of the buffer; [Write c]: the descriptor takes up to [c] bytes, or
    fails; [Read bs]: it has the bytes [bs] to give. *)
Inductive op :=
  | Printf (str : option (list Z))
  | Drain (count : Z)
  | Write (c : Z)
  | Read (bs : list Z).

(** A bounded queue [q] of capacity [cap]: result, bytes given out, and the new queue. *)
Definition queue_step (cap : Z) (q : list Z) (o : op) : Z * list Z * list Z :=
  let len := Z.of_nat (length q) in
  match o with
  | Printf None => (-1, [], q)
  | Printf (Some str) =>
    if (len =? cap) || (cap - len <? Z.of_nat (length str)) then (-1, [], q)
    else (Z.of_nat (length str), [], q ++ str)
  | Drain count => let n := Z.min count len in (n, [], drop (Z.to_nat n) q)
  | Write c =>
    if len =? 0 then (0, [], q) else if c <? 0 then (-1, [], q) else
    let n := Z.min c len in (n, take (Z.to_nat n) q, drop (Z.to_nat n) q)
  | Read bs =>
    if len =? cap then (-1, [], q) else
    let xs := take (Z.to_nat (cap - len)) bs in (Z.of_nat (length xs), [], q ++ xs)
  end.

(** The descriptors of the ring buffer's operations: [O] is what has been given out. *)
Definition write_fd (c : Z) (fd : Z) (iov0 iov1 : list Z) : M (list Z) Z := fun o =>
  if c <? 0 then Some (-1, o) else
  let n := Z.min c (Z.of_nat (length (iov0 ++ iov1))) in Some (n, o ++ take (Z.to_nat n) (iov0 ++ iov1)).
Definition read_fd (bs : list Z) (fd n0 n1 : Z) : M (list Z) (Z * list Z) := fun o =>
  let xs := take (Z.to_nat (n0 + n1)) bs in Some ((Z.of_nat (length xs), xs), o).

Definition ring_step (r : option ringbuf) (o : op) : option (Z * list Z * option ringbuf) :=
  match o with
  | Printf str => '(rc, r, _) ← ringbuf_vprintf r str; Some (rc, [], r)
  | Drain count => let '(n, r) := ringbuf_drain r count in Some (n, [], r)
  | Write c => '((rc, r), out) ← ringbuf_write (write_fd c) r 3 []; Some (rc, out, r)
  | Read bs => '((rc, r, _), _) ← ringbuf_read (read_fd bs) r 3 []; Some (rc, [], r)
  end.

(** Both, over a list of operations: the results and the bytes given out by each. *)
Fixpoint queue_run (cap : Z) (q : list Z) (l : list op) : list (Z * list Z) * list Z :=
  match l with
  | [] => ([], q)
  | o :: l => let '(rc, out, q) := queue_step cap q o in let '(res, q) := queue_run cap q l in ((rc, out) :: res, q)
  end.
Fixpoint ring_run (r : option ringbuf) (l : list op) : option (list (Z * list Z) * option ringbuf) :=
  match l with
  | [] => Some ([], r)
  | o :: l => '(rc, out, r) ← ring_step r o; '(res, r) ← ring_run r l; Some ((rc, out) :: res, r)
  end.

Definition op_ok (o : op) : Prop :=
  match o with
  | Printf (Some str) => Z.of_nat (length str) <= INT_MAX
  | Drain count => 0 <= count < 4294967296
  | _ => True
  end.

Definition step_refines (r : ringbuf) (o : op) : Prop :=
  exists rc out r', ring_step (Some r) o = Some (rc, out, Some r') /\
    queue_step (size r) (contents r) o = (rc, out, contents r') /\ inv r' /\ size r' = size r.

Lemma drain_refines r count : inv r -> op_ok (Drain count) -> step_refines r (Drain count).
Proof.
  intros Hr Hc. unfold step_refines. cbn [ring_step ringbuf_drain queue_step]. rewrite <- length_contents by done.
  cbn in Hc. destruct (Z.eqb_spec (Z.min count (Z.of_nat (length (contents r)))) 0) as [E|E].
  - eexists _, _, r. split; [done|]. split; [by rewrite E|done].
  - destruct (advance_out_spec r (Z.min count (Z.of_nat (length (contents r)))) Hr) as (Hi & Hcon & Hs); [lia|].
    eexists _, _, _. split; [done|]. by rewrite Hcon.
Qed.

(** Where the free space starts and how much there is. *)
Lemma in_space r : inv r ->
  Z.land (in_ r) (to_uint (size r - 1)) = in_ r mod size r /\
  to_uint (size r - in_ r + out_ r) = size r - Z.of_nat (length (contents r)) /\
  0 <= size r - Z.of_nat (length (contents r)).
Proof.
  intros Hr. split; [by apply land_size|]. split; [exact (ringbuf_avail_contents r Hr)|].
  rewrite length_contents by done. destruct Hr as (_ & _ & _ & _ & Hl). lia.
Qed.

Lemma printf_refines r str : inv r -> op_ok (Printf str) -> step_refines r (Printf str).
Proof.
  intros Hr Hop. unfold step_refines. destruct (in_space r Hr) as (Hoff & Hav & Hpos).
  cbn [ring_step ringbuf_vprintf queue_step]. rewrite Hav, Hoff.
  destruct (Z.eqb_spec (size r - Z.of_nat (length (contents r))) 0) as [E|E].
  { eexists _, _, r. split; [done|]. split; [|done]. destruct str as [str|]; [|done].
    by rewrite (proj2 (Z.eqb_eq _ _)) by lia. }
  destruct str as [str|]; [|by eexists _, _, r]. rewrite (proj2 (Z.eqb_neq (Z.of_nat _) (size r))) by lia. cbn [orb].
  destruct (Z.ltb_spec (size r - Z.of_nat (length (contents r))) (Z.of_nat (length str))) as [Hl|Hl];
    [by eexists _, _, r|].
  destruct (store_wrapped_spec r (Z.of_nat (length str)) str Hr ltac:(lia) ltac:(lia)) as (r' & tr & He & Hi & Hc & Hs & _).
  eexists _, _, r'. rewrite He. cbn [mbind option_bind]. split; [done|]. by rewrite Hc.
Qed.

Lemma read_refines r bs : inv r -> step_refines r (Read bs).
Proof.
  intros Hr. unfold step_refines. destruct (in_space r Hr) as (Hoff & Hav & Hpos).
  cbn [ring_step ringbuf_read queue_step]. change (3 <? 0) with false. cbv iota. rewrite Hav, Hoff.
  destruct (Z.eqb_spec (size r - Z.of_nat (length (contents r))) 0) as [E|E].
  { eexists _, _, r. split; [done|]. by rewrite (proj2 (Z.eqb_eq _ _)) by lia. }
  rewrite (proj2 (Z.eqb_neq (Z.of_nat _) (size r))) by lia.
  set (avail := size r - Z.of_nat (length (contents r))) in *. set (xs := take (Z.to_nat avail) bs).
  pose proof Hr as ((k & Hk & Hs) & _). pose proof (pow2_bounds k Hk).
  pose proof (Z.mod_pos_bound (in_ r) (size r) ltac:(lia)).
  assert (Hx : Z.of_nat (length xs) <= avail) by (unfold xs; rewrite length_take; lia).
  destruct (store_wrapped_spec r avail xs Hr ltac:(lia) Hx) as (r' & tr & He & Hi & Hc & Hs' & _).
  set (e := Z.min avail (to_uint (size r - in_ r mod size r))) in *.
  assert (Hsum : e + to_uint (avail - e) = avail).
  { unfold e. rewrite !to_uint_id by lia. lia. }
  exists (Z.of_nat (length xs)), [], r'. split; [|by rewrite Hc].
  unfold read_fd. unfold mbind at 2, M_bind at 1. rewrite Hsum. fold xs.
  destruct (Z.ltb_spec (Z.of_nat (length xs)) 0); [lia|]. rewrite He.
  unfold lift, mret, M_ret, mbind, M_bind, option_bind. done.
Qed.

(** The two vectors hold the contents. *)
Lemma ringbuf_write_spec {O} (writev : Z -> list Z -> list Z -> M O Z) r fd o :
  inv r -> 0 <= fd -> contents r <> [] ->
  exists iov0 iov1, iov0 ++ iov1 = contents r /\
    ringbuf_write writev (Some r) fd o =
      (consumed ← writev fd iov0 iov1;
       if consumed <? 0 then mret (-1, Some r) else mret (consumed, Some (advance_out r consumed))) o.
Proof.
  intros Hr Hfd Hne. assert (0 < Z.of_nat (length (contents r))) by (destruct (contents r); [done|simpl; lia]).
  cbn [ringbuf_write]. destruct (Z.ltb_spec fd 0); [lia|].
  rewrite <- length_contents by done. destruct (Z.eqb_spec (Z.of_nat (length (contents r))) 0); [lia|].
  rewrite land_size by done. pose proof Hr as ((k & Hk & Hs) & Hb & _ & _ & Hl). pose proof (pow2_bounds k Hk).
  pose proof (length_contents r Hr) as Hlen. rewrite <- Hlen in Hl.
  pose proof (Z.mod_pos_bound (out_ r) (size r) ltac:(lia)) as Ho. rewrite (to_uint_id (size r - out_ r mod size r)) by lia.
  set (off := out_ r mod size r) in *. set (l := Z.of_nat (length (contents r))) in *. rewrite to_uint_id by lia.
  set (e := Z.min l (size r - off)). unfold region. rewrite !decide_True by lia.
  exists (take (Z.to_nat e) (drop (Z.to_nat off) (buffer r))), (take (Z.to_nat (l - e)) (buffer r)). split; [|done].
  unfold contents, rot. rewrite <- Hlen. fold l off. rewrite take_app, length_drop, take_take.
  f_equal; [|f_equal; lia]. destruct (decide (l <= size r - off)); [f_equal; lia|].
  rewrite !take_ge; rewrite ?length_drop; (done || lia).
Qed.

Lemma write_refines r c : inv r -> step_refines r (Write c).
Proof.
  intros Hr. unfold step_refines. cbn [ring_step queue_step].
  destruct (decide (contents r = [])) as [E|E].
  { exists 0, [], r. split; [|by rewrite E]. cbn [ringbuf_write]. change (3 <? 0) with false. cbv iota.
    rewrite <- length_contents, E by done. done. }
  assert (0 < Z.of_nat (length (contents r))) by (destruct (contents r); [done|simpl; lia]).
  destruct (ringbuf_write_spec (write_fd c) r 3 [] Hr ltac:(lia) E) as (iov0 & iov1 & Hio & ->).
  destruct (Z.eqb_spec (Z.of_nat (length (contents r))) 0); [lia|].
  unfold write_fd. unfold mbind at 2, M_bind at 1. rewrite Hio. set (l := Z.of_nat (length (contents r))) in *.
  destruct (Z.ltb_spec c 0) as [Hc|Hc]; [by eexists _, _, r|].
  destruct (Z.ltb_spec (Z.min c l) 0); [lia|].
  destruct (advance_out_spec r (Z.min c l) Hr) as (Hi & Hcon & Hs'); [lia|].
  eexists _, _, _. split; [done|]. rewrite Hcon. done.
Qed.

Lemma ring_step_refines r o : inv r -> op_ok o -> step_refines r o.
Proof.
  intros Hr Ho. destruct o; [by apply printf_refines|by apply drain_refines|by apply write_refines|by apply read_refines].
Qed.

(** The buffer after [ringbuf_new]. *)
Lemma ringbuf_new_inv malloc n k b :
  1 <= k <= 30 -> 2 ^ (k - 1) < n <= 2 ^ k -> malloc (2 ^ k) = Some b -> Z.of_nat (length b) = 2 ^ k ->
  exists r, ringbuf_new malloc n = Some (Some r) /\ inv r /\ contents r = [] /\ size r = 2 ^ k.
Proof.
  intros Hk Hn Hm Hb. pose proof (pow2_bounds k Hk). assert (1 <= 2 ^ (k - 1)) by (apply (Z.pow_le_mono_r 2 0); lia).
  unfold ringbuf_new, UINT_MAX, align_power2, fls, clz. rewrite (to_uint_id n) by lia. rewrite to_uint_id by lia.
  destruct (Z.ltb_spec n 2); [lia|]. destruct (Z.ltb_spec 4294967295 n); [lia|]. cbn [orb].
  destruct (Z.eqb_spec (n - 1) 0); [lia|].
  assert (Hlog : Z.log2 (n - 1) = k - 1).
  { apply Z.log2_unique; [lia|]. rewrite Z.add_1_r, Z.succ_pred || replace (Z.succ (k - 1)) with k by lia. lia. }
  rewrite Hlog. replace (32 - (31 - (k - 1))) with k by lia. destruct (Z.ltb_spec k 31); [|lia].
  rewrite to_uint_id by lia. cbn [mbind option_bind]. rewrite Hm. eexists. split; [done|].
  split; [|done]. unfold inv, RINGBUF_RESET. cbn [size buffer in_ out_]. split_and!; try done; [by exists k|].
  change (to_uint (0 - 0)) with 0. lia.
Qed.

(** The ring buffer is a bounded queue: created for [n] bytes, at most half a
    gigabyte or so, it has the least power of two that holds them as its capacity, and
    any sequence of formatted writes, drains, and transfers to and from descriptors
    gives the results, and gives out the bytes, of a queue of that capacity; the
    counters may wrap around. *)
Theorem ringbuf_refines_queue malloc n k b l :
  1 <= k <= 30 -> 2 ^ (k - 1) < n <= 2 ^ k -> malloc (2 ^ k) = Some b -> Z.of_nat (length b) = 2 ^ k ->
  Forall op_ok l ->
  exists r r', ringbuf_new malloc n = Some (Some r) /\ ringbuf_capacity (Some r) = 2 ^ k /\
    ring_run (Some r) l = Some ((queue_run (2 ^ k) [] l).1, Some r') /\
    contents r' = (queue_run (2 ^ k) [] l).2 /\ ringbuf_len (Some r') = Z.of_nat (length (contents r')) /\
    ringbuf_avail (Some r') = 2 ^ k - Z.of_nat (length (contents r')).
Proof.
  intros Hk Hn Hm Hb Hl. destruct (ringbuf_new_inv malloc n k b Hk Hn Hm Hb) as (r & Hnew & Hr & Hc & Hs).
  assert (Hrun : exists r', ring_run (Some r) l = Some ((queue_run (2 ^ k) [] l).1, Some r') /\
    contents r' = (queue_run (2 ^ k) [] l).2 /\ inv r' /\ size r' = 2 ^ k).
  { rewrite <- Hc. clear Hnew Hc. revert r Hr Hs. induction Hl as [|o l Ho Hl IH]; intros r Hr Hs; [by exists r|].
    destruct (ring_step_refines r o Hr Ho) as (rc & out & r1 & Hstep & Hq & Hr1 & Hs1).
    cbn [ring_run queue_run]. rewrite Hstep. rewrite Hs in *. rewrite Hq. cbn [mbind option_bind].
    destruct (IH r1 Hr1 Hs1) as (r' & Hrun & Hc' & Hr' & Hs'). rewrite Hrun. cbn [mbind option_bind].
    destruct (queue_run (2 ^ k) (contents r1) l) as [res q]. exists r'. by split_and!. }
  destruct Hrun as (r' & Hrun & Hc' & Hr' & Hs'). exists r, r'. split_and!; try done.
  - by apply ringbuf_len_contents.
  - by rewrite ringbuf_avail_contents, Hs' by done.
Qed.

(** [ringbuf_peek] points at the bytes that are [offset] behind the oldest; of the
    [len_nowrap] bytes it promises there, those before the end of the contents are
    the contents'.  The promise is too large by up to [offset]. *)
Theorem ringbuf_peek_spec r offset :
  inv r -> 0 <= offset <= Z.of_nat (length (contents r)) ->
  exists p n bs, ringbuf_peek (Some r) offset = Some (p, n) /\ region (buffer r) p n = Some bs /\
    n = Z.min (Z.of_nat (length (contents r))) (size r - p) /\
    let m := Nat.min (length bs) (length (contents r) - Z.to_nat offset) in
    take m bs = take m (drop (Z.to_nat offset) (contents r)).
Proof.
  intros Hr Ho. pose proof (length_contents r Hr) as Hlen. pose proof Hr as ((k & Hk & Hs) & Hb & _ & _ & Hl).
  pose proof (pow2_bounds k Hk). pose proof (Z.mod_pos_bound (to_uint (out_ r + offset)) (size r) ltac:(lia)).
  pose proof (Z.mod_pos_bound (out_ r) (size r) ltac:(lia)).
  pose proof (advance_pos r (out_ r) offset Hr ltac:(lia)) as Hp.
  cbn [ringbuf_peek]. rewrite land_size, <- Hlen by done. set (p := to_uint (out_ r + offset) mod size r) in *.
  rewrite to_uint_id by lia. set (n := Z.min (Z.of_nat (length (contents r))) (size r - p)).
  exists p, n, (take (Z.to_nat n) (drop (Z.to_nat p) (buffer r))). split; [done|].
  split; [unfold region; by rewrite decide_True by lia|]. split; [done|]. cbv zeta.
  rewrite length_take, length_drop. set (m := Nat.min _ _). apply list_eq. intros i.
  destruct (decide (i < m)%nat); [|by rewrite !lookup_take_ge by lia].
  rewrite !lookup_take_lt by lia. rewrite !lookup_drop. unfold contents.
  rewrite lookup_take_lt by lia. rewrite rot_lookup by lia. f_equal. rewrite Hp. repeat case_decide; lia.
Qed.

(** ** Concrete instances *)

Definition ex_ops : list op :=
  [Printf (Some [1; 2; 3]); Drain 2; Printf (Some [4; 5; 6]); Printf (Some [9]); Write 3; Read [7; 8; 9; 10; 11]; Drain 1].

Lemma ringbuf_refines_queue_witness :
  exists r r', ringbuf_new (fun n => Some (replicate (Z.to_nat n) 0)) 3 = Some (Some r) /\
    ring_run (Some r) ex_ops =
      Some ([(3, []); (2, []); (3, []); (-1, []); (3, [3; 4; 5]); (3, []); (1, [])], Some r') /\
    contents r' = [7; 8; 9].
Proof.
  destruct (ringbuf_refines_queue (fun n => Some (replicate (Z.to_nat n) 0)) 3 2 [0; 0; 0; 0] ex_ops)
    as (r & r' & H1 & _ & H2 & H3 & _).
  - lia.
  - vm_compute. by split.
  - done.
  - done.
  - repeat constructor; unfold op_ok, INT_MAX; simpl; lia.
  - exists r, r'. split; [exact H1|]. split; [exact H2|exact H3].
Defined.

Lemma ringbuf_peek_spec_witness :
  exists p n bs, ringbuf_peek (Some (mkRingbuf [5; 6; 3; 4] 4 6 3 None 0)) 1 = Some (p, n) /\
    region [5; 6; 3; 4] p n = Some bs /\ n = Z.min 3 (4 - p).
Proof.
  destruct (ringbuf_peek_spec (mkRingbuf [5; 6; 3; 4] 4 6 3 None 0) 1) as (p & n & bs & H1 & H2 & H3 & _).
  - split_and!; try done. exists 2. done.
  - vm_compute. by split.
  - exists p, n, bs. split; [exact H1|]. split; [exact H2|exact H3].
Defined.
