(* ===== verification/Queue.v ===== *)
(** * Queue: queue.c of BlueZ

    The singly linked queue over a heap of entries, and that it is a list. *)
From S2P Require Import Prelude CMem.

(** [void *]: null or an address. *)
Abbreviation data_t := (option nat).

(** [struct queue_entry] and [struct queue] *)
Record queue_entry := mkEntry { data : data_t; next : option nat }.
Record queue := mkQueue { ref_count : Z; head : option nat; tail : option nat; entries : Z }.

(** The heap, and what the callbacks keep. *)
Record world (U : Type) := mkWorld { ents : gmap nat queue_entry; queues : gmap nat queue; user : U }.
Arguments mkWorld {U}.
Arguments ents {U}.
Arguments queues {U}.
Arguments user {U}.

Section Definitions.
Context {U : Type}.
Abbreviation MQ := (M (world U)).

(** Access through a pointer: undefined if it is not that of a live object. *)
Definition get_entry (a : nat) : MQ queue_entry := fun w =>
  e ← ents w !! a; Some (e, w).
Definition get_queue (q : nat) : MQ queue := fun w =>
  x ← queues w !! q; Some (x, w).
Definition put_entry (a : nat) (e : queue_entry) : MQ unit := fun w =>
  _ ← ents w !! a; Some (tt, mkWorld (<[a := e]> (ents w)) (queues w) (user w)).
Definition put_queue (q : nat) (x : queue) : MQ unit := fun w =>
  _ ← queues w !! q; Some (tt, mkWorld (ents w) (<[q := x]> (queues w)) (user w)).
Definition free_entry (a : nat) : MQ unit := fun w =>
  _ ← ents w !! a; Some (tt, mkWorld (delete a (ents w)) (queues w) (user w)).
Definition free_queue (q : nat) : MQ unit := fun w =>
  _ ← queues w !! q; Some (tt, mkWorld (ents w) (delete q (queues w)) (user w)).

Definition set_head (q : nat) (h : option nat) : MQ unit :=
  x ← get_queue q; put_queue q (mkQueue (ref_count x) h (tail x) (entries x)).
Definition set_tail (q : nat) (t : option nat) : MQ unit :=
  x ← get_queue q; put_queue q (mkQueue (ref_count x) (head x) t (entries x)).
Definition set_entries (q : nat) (n : Z) : MQ unit :=
  x ← get_queue q; put_queue q (mkQueue (ref_count x) (head x) (tail x) (to_uint n)).
Definition set_next (a : nat) (n : option nat) : MQ unit :=
  e ← get_entry a; put_entry a (mkEntry (data e) n).

(** [__sync_fetch_and_add], [__sync_sub_and_fetch] on [ref_count] *)
Definition queue_ref (queue : option nat) : MQ (option nat) :=
  match queue with
  | None => mret None
  | Some q =>
    x ← get_queue q; n ← lift (cint (ref_count x + 1));
    put_queue q (mkQueue n (head x) (tail x) (entries x));; mret (Some q)
  end.
Definition queue_unref (queue : nat) : MQ unit :=
  x ← get_queue queue; n ← lift (cint (ref_count x - 1));
  put_queue queue (mkQueue n (head x) (tail x) (entries x));;
  if negb (n =? 0) then mret tt else free_queue queue.

(** [new0] ends the program when there is no memory. *)
Definition queue_new : MQ (option nat) := fun w =>
  let q := fresh (dom (queues w)) in
  queue_ref (Some q) (mkWorld (ents w) (<[q := mkQueue 0 None None 0]> (queues w)) (user w)).
Definition queue_entry_new (d : data_t) : MQ nat := fun w =>
  let a := fresh (dom (ents w)) in
  Some (a, mkWorld (<[a := mkEntry d None]> (ents w)) (queues w) (user w)).

Definition queue_push_tail (queue : option nat) (d : data_t) : MQ bool :=
  match queue with
  | None => mret false
  | Some queue =>
    entry ← queue_entry_new d;
    x ← get_queue queue;
    (match tail x with Some t => set_next t (Some entry) | None => mret tt end);;
    set_tail queue (Some entry);;
    (match head x with None => set_head queue (Some entry) | Some _ => mret tt end);;
    set_entries queue (entries x + 1);;
    mret true
  end.

Definition queue_push_head (queue : option nat) (d : data_t) : MQ bool :=
  match queue with
  | None => mret false
  | Some queue =>
    entry ← queue_entry_new d;
    x ← get_queue queue;
    set_next entry (head x);;
    set_head queue (Some entry);;
    (match tail x with None => set_tail queue (Some entry) | Some _ => mret tt end);;
    set_entries queue (entries x + 1);;
    mret true
  end.

(** [for (tmp = queue->head; tmp; tmp = tmp->next)]: the first entry that satisfies [f]. *)
Fixpoint find_entry (fuel : nat) (f : data_t -> bool) (tmp : option nat) : MQ (option nat) :=
  match tmp with
  | None => mret None
  | Some a =>
    match fuel with
    | O => undefined
    | S fuel' => e ← get_entry a; if f (data e) then mret (Some a) else find_entry fuel' f (next e)
    end
  end.

(** Any walk over the entries takes at most one round for each live one. *)
Definition walk_fuel : MQ nat := fun w => Some (S (size (ents w)), w).

Definition queue_push_after (queue : option nat) (entry d : data_t) : MQ bool :=
  match queue with
  | None => mret false
  | Some queue =>
    x ← get_queue queue;
    fuel ← walk_fuel;
    qentry ← find_entry fuel (fun d' => bool_decide (d' = entry)) (head x);
    match qentry with
    | None => mret false
    | Some qentry =>
      new_entry ← queue_entry_new d;
      e ← get_entry qentry;
      set_next new_entry (next e);;
      (match next e with None => set_tail queue (Some new_entry) | Some _ => mret tt end);;
      set_next qentry (Some new_entry);;
      set_entries queue (entries x + 1);;
      mret true
    end
  end.

Definition queue_pop_head (queue : option nat) : MQ data_t :=
  match queue with
  | None => mret None
  | Some queue =>
    x ← get_queue queue;
    match head x with
    | None => mret None
    | Some entry =>
      e ← get_entry entry;
      (match next e with
       | None => set_head queue None;; set_tail queue None
       | Some n => set_head queue (Some n)
       end);;
      free_entry entry;;
      set_entries queue (entries x - 1);;
      mret (data e)
    end
  end.

Definition queue_peek_head (queue : option nat) : MQ data_t :=
  match queue with
  | None => mret None
  | Some queue => x ← get_queue queue; match head x with None => mret None | Some a => e ← get_entry a; mret (data e) end
  end.

Definition queue_peek_tail (queue : option nat) : MQ data_t :=
  match queue with
  | None => mret None
  | Some queue => x ← get_queue queue; match tail x with None => mret None | Some a => e ← get_entry a; mret (data e) end
  end.

(** [while (entry && queue->head && queue->ref_count > 1)] *)
Fixpoint foreach_loop (fuel : nat) (queue : nat) (function : data_t -> MQ unit) (entry : option nat) : MQ unit :=
  match entry with
  | None => mret tt
  | Some a =>
    x ← get_queue queue;
    if bool_decide (head x = None) || (ref_count x <=? 1) then mret tt else
    match fuel with
    | O => undefined
    | S fuel' =>
      e ← get_entry a;
      function (data e);;
      foreach_loop fuel' queue function (next e)
    end
  end.

(** [function]: the callback with its [user_data]. *)
Definition queue_foreach (fuel : nat) (queue : option nat) (function : option (data_t -> MQ unit)) : MQ unit :=
  match queue, function with
  | Some queue, Some function =>
    x ← get_queue queue;
    match head x with
    | None => mret tt
    | Some a => queue_ref (Some queue);; foreach_loop fuel queue function (Some a);; queue_unref queue
    end
  | _, _ => mret tt
  end.

Definition direct_match (a b : data_t) : bool := bool_decide (a = b).

Definition queue_find (queue : option nat) (function : option (data_t -> data_t -> bool)) (match_data : data_t)
    : MQ data_t :=
  match queue with
  | None => mret None
  | Some queue =>
    let function := default direct_match function in
    x ← get_queue queue;
    fuel ← walk_fuel;
    entry ← find_entry fuel (fun d => function d match_data) (head x);
    match entry with None => mret None | Some a => e ← get_entry a; mret (data e) end
  end.

(** Taking the entry [a] with contents [e] out of the list behind [prev], and freeing it. *)
Definition unlink (queue : nat) (prev : option nat) (a : nat) (e : queue_entry) : MQ data_t :=
  (match prev with Some p => set_next p (next e) | None => set_head queue (next e) end);;
  (match next e with None => set_tail queue prev | Some _ => mret tt end);;
  free_entry a;;
  x ← get_queue queue;
  set_entries queue (entries x - 1);;
  mret (data e).

(** The loops of [queue_remove] and [queue_remove_if]: unlink the first entry that
    satisfies [f]. *)
Fixpoint remove_loop (fuel : nat) (queue : nat) (f : data_t -> bool) (prev entry : option nat) : MQ (option data_t) :=
  match entry with
  | None => mret None
  | Some a =>
    match fuel with
    | O => undefined
    | S fuel' =>
      e ← get_entry a;
      if f (data e) then d ← unlink queue prev a e; mret (Some d)
      else remove_loop fuel' queue f (Some a) (next e)
    end
  end.

Definition queue_remove (queue : option nat) (d : data_t) : MQ bool :=
  match queue with
  | None => mret false
  | Some queue =>
    x ← get_queue queue;
    fuel ← walk_fuel;
    r ← remove_loop fuel queue (fun d' => bool_decide (d' = d)) None (head x);
    mret (bool_decide (r <> None))
  end.

Definition queue_remove_if (queue : option nat) (function : option (data_t -> data_t -> bool)) (user_data : data_t)
    : MQ data_t :=
  match queue, function with
  | Some queue, Some function =>
    x ← get_queue queue;
    fuel ← walk_fuel;
    r ← remove_loop fuel queue (fun d => function d user_data) None (head x);
    mret (default None r)
  | _, _ => mret None
  end.

(** [while (entry)] with a match function: until nothing was removed. *)
Fixpoint remove_matching (fuel : nat) (queue : nat) (function : data_t -> data_t -> bool) (user_data : data_t)
    (destroy : option (data_t -> MQ unit)) (count : Z) : MQ Z :=
  match fuel with
  | O => undefined
  | S fuel' =>
    x ← get_queue queue;
    d ← queue_remove_if (Some queue) (Some function) user_data;
    x' ← get_queue queue;
    if entries x =? entries x' then mret count else
    (match destroy with Some f => f d | None => mret tt end);;
    remove_matching fuel' queue function user_data destroy (to_uint (count + 1))
  end.

(** [while (entry)] without one: every entry is destroyed and freed. *)
Fixpoint remove_entries (fuel : nat) (destroy : option (data_t -> MQ unit)) (entry : option nat) (count : Z) : MQ Z :=
  match entry with
  | None => mret count
  | Some a =>
    match fuel with
    | O => undefined
    | S fuel' =>
      e ← get_entry a;
      (match destroy with Some f => f (data e) | None => mret tt end);;
      free_entry a;;
      remove_entries fuel' destroy (next e) (to_uint (count + 1))
    end
  end.

Definition queue_remove_all (fuel : nat) (queue : option nat) (function : option (data_t -> data_t -> bool))
    (user_data : data_t) (destroy : option (data_t -> MQ unit)) : MQ Z :=
  match queue with
  | None => mret 0
  | Some queue =>
    x ← get_queue queue;
    match function with
    | Some function =>
      match head x with
      | None => mret 0
      | Some _ => remove_matching fuel queue function user_data destroy 0
      end
    | None =>
      set_head queue None;; set_tail queue None;; set_entries queue 0;;
      remove_entries fuel destroy (head x) 0
    end
  end.

Definition queue_destroy (fuel : nat) (queue : option nat) (destroy : option (data_t -> MQ unit)) : MQ unit :=
  match queue with
  | None => mret tt
  | Some q => queue_remove_all fuel (Some q) None None destroy;; queue_unref q
  end.

Definition queue_get_entries (queue : option nat) : MQ (option nat) :=
  match queue with None => mret None | Some queue => x ← get_queue queue; mret (head x) end.

Definition queue_length (queue : option nat) : MQ Z :=
  match queue with None => mret 0 | Some queue => x ← get_queue queue; mret (entries x) end.

Definition queue_isempty (queue : option nat) : MQ bool :=
  match queue with None => mret true | Some queue => x ← get_queue queue; mret (entries x =? 0) end.
End Definitions.

(** ** Segments of the heap *)

(** From [p] the heap leads through the entries [l], addresses with data, to [q]. *)
Fixpoint lseg (h : gmap nat queue_entry) (p : option nat) (l : list (nat * data_t)) (q : option nat) : Prop :=
  match l with
  | [] => p = q
  | (a, d) :: l => p = Some a /\ exists n, h !! a = Some (mkEntry d n) /\ lseg h n l q
  end.

Lemma lseg_app h l1 : forall p l2 q, lseg h p (l1 ++ l2) q <-> exists m, lseg h p l1 m /\ lseg h m l2 q.
Proof.
  induction l1 as [|[a d] l1 IH]; intros p l2 q; simpl.
  - split; [intros Hl; by exists p|by intros (m & -> & Hl)].
  - split.
    + intros (-> & n & Hn & Hl). apply IH in Hl as (m & H1 & H2). exists m. split; [|done]. split; [done|]. by exists n.
    + intros (m & (-> & n & Hn & Hl) & H2). split; [done|]. exists n. split; [done|]. apply IH. by exists m.
Qed.

Lemma lseg_snoc h p l a d q :
  lseg h p (l ++ [(a, d)]) q <-> lseg h p l (Some a) /\ h !! a = Some (mkEntry d q).
Proof.
  rewrite lseg_app. simpl. split.
  - intros (m & H1 & -> & n & Hn & ->). done.
  - intros [H1 H2]. exists (Some a). split; [done|]. split; [done|]. by exists q.
Qed.

(** Entries elsewhere do not matter. *)
Lemma lseg_frame h h' l : forall p q,
  (forall a, a ∈ l.*1 -> h' !! a = h !! a) -> lseg h p l q -> lseg h' p l q.
Proof.
  induction l as [|[a d] l IH]; intros p q Hh Hl; simpl in *; [done|]. destruct Hl as (-> & n & Hn & Hl).
  split; [done|]. exists n. split; [rewrite Hh by (left; done); done|]. apply IH; [|done]. intros b Hb. apply Hh. by right.
Qed.

Lemma lseg_insert h l p q a e : a ∉ l.*1 -> lseg h p l q -> lseg (<[a := e]> h) p l q.
Proof. intros Ha. apply lseg_frame. intros b Hb. apply lookup_insert_ne. by intros ->. Qed.

Lemma lseg_delete h l p q a : a ∉ l.*1 -> lseg h p l q -> lseg (delete a h) p l q.
Proof. intros Ha. apply lseg_frame. intros b Hb. apply lookup_delete_ne. by intros ->. Qed.

Lemma lseg_live h l p q : lseg h p l q -> forall a, a ∈ l.*1 -> is_Some (h !! a).
Proof.
  revert p. induction l as [|[a d] l IH]; intros p Hl b Hb; simpl in *; [by apply not_elem_of_nil in Hb|].
  destruct Hl as (-> & n & Hn & Hl). apply elem_of_cons in Hb as [->|Hb]; [by eexists|by eapply IH].
Qed.

Lemma lseg_null h p l : lseg h p l None -> p = None -> l = [].
Proof. destruct l as [|[a d] l]; [done|]. intros (-> & _). done. Qed.

Lemma lseg_fuel h p l q : lseg h p l q -> NoDup (l.*1) -> (length l <= size h)%nat.
Proof.
  intros Hl Hnd. rewrite <- (length_fmap fst l), <- (size_list_to_set (C := gset nat)) by done.
  rewrite <- size_dom. apply subseteq_size. intros a Ha. apply elem_of_list_to_set in Ha. apply elem_of_dom.
  by eapply lseg_live.
Qed.

(** The structure of the queue [q] with the entries [l]. *)
Definition is_queue {U} (w : world U) (q : nat) (rc : Z) (l : list (nat * data_t)) : Prop :=
  exists h, lseg (ents w) h l None /\ NoDup (l.*1) /\
    queues w !! q = Some (mkQueue rc h (last (l.*1)) (to_uint (Z.of_nat (length l)))).

(** Nothing else changes: other queues, entries that are not of [l], the callbacks' state. *)
Definition same_else {U} (w w' : world U) (q : nat) (l : list (nat * data_t)) : Prop :=
  user w' = user w /\ (forall q', q' <> q -> queues w' !! q' = queues w !! q') /\
  (forall a, is_Some (ents w !! a) -> a ∉ l.*1 -> ents w' !! a = ents w !! a).

(** ** Steps *)
Section Steps.
Context {U : Type}.
Implicit Types (h : gmap nat queue_entry) (qs : gmap nat queue) (u : U).

Lemma run_get_queue h qs u q x : qs !! q = Some x -> get_queue q (mkWorld h qs u) = Some (x, mkWorld h qs u).
Proof. intros Hq. unfold get_queue. simpl. by rewrite Hq. Qed.

Lemma run_get_entry h qs u a e : h !! a = Some e -> get_entry a (mkWorld h qs u) = Some (e, mkWorld h qs u).
Proof. intros Hq. unfold get_entry. simpl. by rewrite Hq. Qed.

Lemma run_set_head h qs u q rc p t n p' : qs !! q = Some (mkQueue rc p t n) ->
  set_head q p' (mkWorld h qs u) = Some (tt, mkWorld h (<[q := mkQueue rc p' t n]> qs) u).
Proof. intros Hq. unfold set_head. rewrite (M_bind_Some _ _ _ _ _ (run_get_queue h qs u q _ Hq)). unfold put_queue. simpl. by rewrite Hq. Qed.

Lemma run_set_tail h qs u q rc p t n t' : qs !! q = Some (mkQueue rc p t n) ->
  set_tail q t' (mkWorld h qs u) = Some (tt, mkWorld h (<[q := mkQueue rc p t' n]> qs) u).
Proof. intros Hq. unfold set_tail. rewrite (M_bind_Some _ _ _ _ _ (run_get_queue h qs u q _ Hq)). unfold put_queue. simpl. by rewrite Hq. Qed.

Lemma run_set_entries h qs u q rc p t n n' : qs !! q = Some (mkQueue rc p t n) ->
  set_entries q n' (mkWorld h qs u) = Some (tt, mkWorld h (<[q := mkQueue rc p t (to_uint n')]> qs) u).
Proof. intros Hq. unfold set_entries. rewrite (M_bind_Some _ _ _ _ _ (run_get_queue h qs u q _ Hq)). unfold put_queue. simpl. by rewrite Hq. Qed.

Lemma run_set_next h qs u a e n : h !! a = Some e ->
  set_next a n (mkWorld h qs u) = Some (tt, mkWorld (<[a := mkEntry (data e) n]> h) qs u).
Proof. intros Ha. unfold set_next. rewrite (M_bind_Some _ _ _ _ _ (run_get_entry h qs u a _ Ha)). unfold put_entry. simpl. by rewrite Ha. Qed.

Lemma run_free_entry h qs u a e : h !! a = Some e -> free_entry a (mkWorld h qs u) = Some (tt, mkWorld (delete a h) qs u).
Proof. intros Ha. unfold free_entry. simpl. by rewrite Ha. Qed.

Lemma run_entry_new h qs u d :
  exists a, h !! a = None /\ queue_entry_new d (mkWorld h qs u) = Some (a, mkWorld (<[a := mkEntry d None]> h) qs u).
Proof. exists (fresh (dom h)). split; [|done]. apply not_elem_of_dom, is_fresh. Qed.
End Steps.

(** ** Operations on the structure *)
Section Operations.
Context {U : Type}.
Implicit Types (w : world U) (l : list (nat * data_t)).

Lemma NoDup_snoc l a d : a ∉ l.*1 -> NoDup (l.*1) -> NoDup ((l ++ [(a, d)]).*1).
Proof.
  intros Ha Hl. rewrite fmap_app. change ([(a, d)].*1) with [a]. apply NoDup_app. split; [done|].
  split; [|apply NoDup_singleton]. intros x Hx Hin. apply list_elem_of_singleton in Hin. by subst.
Qed.

Lemma lseg_head h p a d l q : lseg h p (l ++ [(a, d)]) q -> p <> None.
Proof. intros H ->. destruct l as [|[]]; by destruct H. Qed.

Lemma last_fst l a d : last ((l ++ [(a, d)]).*1) = Some a.
Proof. rewrite fmap_app. exact (last_snoc _ _). Qed.

(** Close goals about lookups and membership. *)
Ltac lists := rewrite ?fmap_app, ?elem_of_app, ?list_elem_of_singleton in *; naive_solver.

Lemma same_else_intro h h' qs (u : U) q x l :
  (forall b, is_Some (h !! b) -> b ∉ l.*1 -> h' !! b = h !! b) ->
  same_else (mkWorld h qs u) (mkWorld h' (<[q := x]> qs) u) q l.
Proof. intros Hb. split_and!; cbn; [done|intros q' Hq'; by rewrite lookup_insert_ne|done]. Qed.

Lemma to_uint_sub z n : to_uint (to_uint z - n) = to_uint (z - n).
Proof. unfold to_uint. by rewrite Zminus_mod_idemp_l. Qed.

Lemma lseg_none h l a : lseg h None l (Some a) -> False.
Proof. destruct l as [|[]]; simpl; [done|by intros []]. Qed.

Lemma push_tail_spec w q rc l d :
  is_queue w q rc l ->
  exists a, ents w !! a = None /\ exists w', queue_push_tail (Some q) d w = Some (true, w') /\ is_queue w' q rc (l ++ [(a, d)]) /\ same_else w w' q l.
Proof.
  destruct w as [h qs u]. intros (p & Hl & Hnd & Hq). cbn [ents queues] in *.
  destruct (run_entry_new h qs u d) as (a & Ha & Hnew). exists a. split; [done|]. unfold queue_push_tail. step Hnew.
  assert (Hal : a ∉ l.*1) by (intros Hin; destruct (lseg_live _ _ _ _ Hl a Hin); congruence).
  step (run_get_queue (<[a := mkEntry d None]> h) qs u q _ Hq). cbn [tail head entries].
  destruct l as [|[t dt] l _] using rev_ind.
  - simpl in Hl. subst p. cbn [fmap list_fmap last].
    erewrite M_bind_Some by done. cbn beta.
    step (run_set_tail (<[a := mkEntry d None]> h) qs u q _ _ _ _ (Some a) Hq).
    erewrite M_bind_Some by (eapply run_set_head, lookup_insert_eq). cbn beta.
    erewrite M_bind_Some by (eapply run_set_entries, lookup_insert_eq). cbn beta.
    rewrite !insert_insert_eq. eexists. split; [done|]. split.
    + exists (Some a). cbn [ents queues]. split_and!; [|by apply NoDup_singleton|].
      * simpl. split; [done|]. exists None. by rewrite lookup_insert_eq.
      * rewrite lookup_insert_eq. cbn. by rewrite to_uint_add.
    + apply same_else_intro. intros b Hb _. rewrite lookup_insert_ne; [done|]. intros ->. destruct Hb. congruence.
  - apply lseg_snoc in Hl as [Hl Ht]. assert (t <> a) by congruence. rewrite last_fst in Hq |- *.
    assert (Ht' : <[a := mkEntry d None]> h !! t = Some (mkEntry dt None)) by by rewrite lookup_insert_ne.
    step (run_set_next _ qs u t _ (Some a) Ht').
    erewrite M_bind_Some by (eapply run_set_tail, Hq). cbn beta.
    destruct p as [p|]; [|by apply lseg_none in Hl].
    erewrite M_bind_Some by done. cbn beta.
    erewrite M_bind_Some by (eapply run_set_entries, lookup_insert_eq). cbn beta.
    rewrite insert_insert_eq. eexists. split; [done|]. rewrite fmap_app in Hal, Hnd.
    apply not_elem_of_app in Hal as [Hal _]. apply NoDup_app in Hnd as (Hnd & Htl & _).
    assert (t ∉ l.*1) by (intros Hin; apply (Htl t Hin); by left).
    split; [exists (Some p); cbn [ents queues data]; split_and!|].
    + apply lseg_snoc. rewrite lookup_insert_ne, lookup_insert_eq by done. split; [|done].
      apply lseg_snoc. rewrite lookup_insert_eq. split; [|done]. by apply lseg_insert, lseg_insert.
    + apply NoDup_snoc; [|by apply NoDup_snoc]. rewrite fmap_app. change ([(t, dt)].*1) with [t].
      rewrite elem_of_app, list_elem_of_singleton. by intros [?|?].
    + rewrite lookup_insert_eq, last_fst. do 2 f_equal. rewrite to_uint_add. f_equal. rewrite !length_app. simpl. lia.
    + apply same_else_intro. intros b Hb Hin. rewrite fmap_app in Hin. rewrite lookup_insert_ne; [rewrite lookup_insert_ne; [done|]|].
      * intros ->. destruct Hb. congruence.
      * intros ->. apply Hin, elem_of_app. right. by left.
Qed.

Lemma push_head_spec w q rc l d :
  is_queue w q rc l ->
  exists a, ents w !! a = None /\ exists w', queue_push_head (Some q) d w = Some (true, w') /\ is_queue w' q rc ((a, d) :: l) /\ same_else w w' q l.
Proof.
  destruct w as [h qs u]. intros (p & Hl & Hnd & Hq). cbn [ents queues] in *.
  destruct (run_entry_new h qs u d) as (a & Ha & Hnew). exists a. split; [done|]. unfold queue_push_head. step Hnew.
  assert (Hal : a ∉ l.*1) by (intros Hin; destruct (lseg_live _ _ _ _ Hl a Hin); congruence).
  step (run_get_queue (<[a := mkEntry d None]> h) qs u q _ Hq). cbn [head tail entries].
  erewrite M_bind_Some by (eapply run_set_next, lookup_insert_eq). cbn beta.
  erewrite M_bind_Some by (eapply run_set_head, Hq). cbn beta. cbn [data].
  assert (Htail : forall (k : unit -> M (world U) bool), ((match last (l.*1) with None => set_tail q (Some a) | Some _ => mret tt end) ≫= k)
      (mkWorld (<[a := mkEntry d p]> (<[a := mkEntry d None]> h)) (<[q := mkQueue rc (Some a) (last (l.*1)) (to_uint (Z.of_nat (length l)))]> qs) u) =
    k tt (mkWorld (<[a := mkEntry d p]> h) (<[q := mkQueue rc (Some a) (last (((a, d) :: l).*1)) (to_uint (Z.of_nat (length l)))]> qs) u)).
  { intros k. rewrite insert_insert_eq. destruct l as [|[b db] l].
    - erewrite M_bind_Some by (eapply run_set_tail, lookup_insert_eq). by rewrite insert_insert_eq.
    - change (((a, d) :: (b, db) :: l).*1) with (a :: b :: l.*1). change (((b, db) :: l).*1) with (b :: l.*1).
      rewrite last_cons_cons. destruct (last (b :: l.*1)) eqn:E; [done|]. by apply last_None in E. }
  rewrite Htail. erewrite M_bind_Some by (eapply run_set_entries, lookup_insert_eq). rewrite insert_insert_eq.
  eexists. split; [done|]. split.
  - exists (Some a). cbn [ents queues]. split_and!.
    + simpl. split; [done|]. exists p. rewrite lookup_insert_eq. split; [done|]. by apply lseg_insert.
    + by apply NoDup_cons.
    + rewrite lookup_insert_eq. do 2 f_equal. rewrite to_uint_add. f_equal. simpl. lia.
  - apply same_else_intro. intros b Hb _. apply lookup_insert_ne. intros ->. destruct Hb. congruence.
Qed.

(** The first entry whose data satisfies [f], with its index. *)
Definition first_match (f : data_t -> bool) l : option (nat * (nat * data_t)) :=
  list_find (fun x => f x.2 = true) l.

Lemma first_match_cons f a d l :
  first_match f ((a, d) :: l) =
    if f d then Some (0%nat, (a, d)) else (fun x => (S x.1, x.2)) <$> first_match f l.
Proof.
  unfold first_match. cbn [list_find snd]. destruct (f d) eqn:E; [by rewrite decide_True|rewrite decide_False by congruence].
  by destruct (list_find _ l) as [[]|].
Qed.

(** Walking to the first entry that satisfies [f]. *)
Lemma find_entry_spec h qs (u : U) f l : forall p fuel,
  lseg h p l None -> (length l <= fuel)%nat ->
  find_entry fuel f p (mkWorld h qs u) =
    Some ((fun x => x.2.1) <$> first_match f l, mkWorld h qs u).
Proof.
  induction l as [|[a d] l IH]; intros p fuel Hl Hf; simpl in Hl; [subst; by destruct fuel|].
  destruct Hl as (-> & n & Hn & Hl). destruct fuel as [|fuel]; [simpl in Hf; lia|]. cbn [find_entry].
  step (run_get_entry h qs u a _ Hn). cbn [data next]. rewrite first_match_cons. destruct (f d); [done|].
  rewrite (IH n fuel) by (done || (simpl in Hf; lia)). by destruct (first_match _ l) as [[i [b db]]|].
Qed.

Lemma run_walk_fuel w : walk_fuel w = Some (S (size (ents w)), w).
Proof. done. Qed.

(** Unlinking an entry. *)
Lemma unlink_spec w q rc l1 a d l2 e :
  is_queue w q rc (l1 ++ (a, d) :: l2) -> ents w !! a = Some e ->
  exists w', unlink q (last (l1.*1)) a e w = Some (d, w') /\ is_queue w' q rc (l1 ++ l2) /\
    same_else w w' q (l1 ++ (a, d) :: l2) /\ ents w' !! a = None.
Proof.
  destruct w as [h qs u]. intros (p & Hl & Hnd & Hq) He. cbn [ents queues] in *.
  pose proof Hl as Hl0. apply lseg_app in Hl as (m & H1 & -> & n & Hn & H2).
  assert (e = mkEntry d n) as -> by congruence. clear Hn.
  rewrite fmap_app in Hnd. change (((a, d) :: l2).*1) with (a :: l2.*1) in Hnd.
  apply NoDup_app in Hnd as (Hnd1 & Hd & Hnd2). apply NoDup_cons in Hnd2 as [Ha2 Hnd2].
  assert (Ha1 : a ∉ l1.*1) by (intros Hin; apply (Hd a Hin); by left).
  assert (Hd' : forall x, x ∈ l1.*1 -> x ∉ l2.*1) by (intros x Hx Hin; apply (Hd x Hx); by right).
  (* the heap and the queue after the list has been rewired *)
  assert (exists h1 p1, (match last (l1.*1) with Some p => set_next p n | None => set_head q n end)
      (mkWorld h qs u) = Some (tt, mkWorld h1 (<[q := mkQueue rc p1 (last ((l1 ++ (a, d) :: l2).*1))
        (to_uint (Z.of_nat (length (l1 ++ (a, d) :: l2))))]> qs) u) /\
    lseg h1 p1 (l1 ++ l2) None /\ h1 !! a = Some (mkEntry d n) /\
    (forall b, b ∉ l1.*1 -> h1 !! b = h !! b)) as (h1 & p1 & Hrew & Hl1 & Hh1 & Hsame).
  { destruct l1 as [|[b db] l1 _] using rev_ind.
    - cbn [fmap list_fmap last]. exists h, n. split; [by eapply run_set_head|]. done.
    - rewrite last_fst. apply lseg_snoc in H1 as [H1 Hb]. rewrite fmap_app in Hnd1, Ha1, Hd' |-.
      change ([(b, db)].*1) with [b] in Hnd1, Ha1, Hd'.
      apply NoDup_app in Hnd1 as (Hnd1 & Hb1 & _). assert (b ∉ l1.*1) by (intros Hin; apply (Hb1 b Hin); by left).
      assert (b <> a) by (intros ->; apply Ha1, elem_of_app; right; by left).
      exists (<[b := mkEntry db n]> h), p. split; [|split; [|split]].
      + rewrite (run_set_next h qs u b _ n Hb). cbn [data]. by rewrite (insert_id qs q) by exact Hq.
      + apply lseg_app. exists n. split; [apply lseg_snoc; split; [by apply lseg_insert|by rewrite lookup_insert_eq]|].
        apply lseg_insert; [|done]. apply Hd', elem_of_app. right. by left.
      + by rewrite lookup_insert_ne.
      + intros c Hc. apply lookup_insert_ne. intros ->. apply Hc. rewrite fmap_app. apply elem_of_app. right. by left. }
  set (qs1 := <[q := _]> qs) in Hrew.
  assert (Htail : exists qs2, (match n with None => set_tail q (last (l1.*1)) | Some _ => mret tt end)
      (mkWorld h1 qs1 u) = Some (tt, mkWorld h1 qs2 u) /\
    qs2 = <[q := mkQueue rc p1 (last ((l1 ++ l2).*1)) (to_uint (Z.of_nat (length (l1 ++ (a, d) :: l2))))]> qs).
  { eexists. split; [|done]. destruct l2 as [|[b db] l2].
    - simpl in H2. subst n. rewrite app_nil_r. unfold qs1. rewrite (run_set_tail h1 _ u q rc p1 (last ((l1 ++ [(a, d)]).*1)) _ _)
        by apply lookup_insert_eq. by rewrite insert_insert_eq.
    - destruct H2 as (-> & _). unfold qs1. do 3 f_equal. rewrite !fmap_app.
      change (((a, d) :: (b, db) :: l2).*1) with (a :: b :: l2.*1). change (((b, db) :: l2).*1) with (b :: l2.*1).
      by rewrite !last_app, last_cons_cons. }
  destruct Htail as (qs2 & Htail & ->). unfold unlink. cbn [next data]. step Hrew. step Htail.
  step (run_free_entry h1 (<[q := mkQueue rc p1 (last ((l1 ++ l2).*1)) (to_uint (Z.of_nat (length (l1 ++ (a, d) :: l2))))]> qs) u a _ Hh1).
  erewrite M_bind_Some by (apply run_get_queue, lookup_insert_eq). cbn beta. cbn [entries].
  erewrite M_bind_Some by (eapply run_set_entries, lookup_insert_eq). rewrite insert_insert_eq. eexists. split; [done|].
  split; [|split].
  - exists p1. cbn [ents queues]. split_and!.
    + apply lseg_delete; [|done]. rewrite fmap_app, elem_of_app. by intros [?|?].
    + rewrite fmap_app. apply NoDup_app. by split_and!.
    + rewrite lookup_insert_eq. do 2 f_equal. rewrite to_uint_sub. f_equal. rewrite !length_app. simpl. lia.
  - apply same_else_intro. intros b _ Hb. rewrite fmap_app, elem_of_app in Hb.
    change (((a, d) :: l2).*1) with (a :: l2.*1) in Hb.
    rewrite lookup_delete_ne; [apply Hsame; by intros ?; apply Hb; left|]. intros ->. apply Hb. right. by left.
  - cbn [ents]. apply lookup_delete_eq.
Qed.

Lemma pop_head_spec w q rc l :
  is_queue w q rc l ->
  exists w', queue_pop_head (Some q) w = Some (match l with [] => None | x :: _ => x.2 end, w') /\
    is_queue w' q rc (drop 1 l) /\ same_else w w' q l.
Proof.
  destruct w as [h qs u]. intros (p & Hl & Hnd & Hq). cbn [ents queues] in *. unfold queue_pop_head.
  step (run_get_queue h qs u q _ Hq). cbn [head entries]. destruct l as [|[a d] l]; simpl in Hl.
  { subst p. eexists. split; [done|]. split; [exists None; by split_and!|]. by split_and!. }
  destruct Hl as (-> & n & Hn & Hl). change (((a, d) :: l).*1) with (a :: l.*1) in Hnd, Hq.
  apply NoDup_cons in Hnd as [Ha Hnd].
  step (run_get_entry h qs u a _ Hn). cbn [next data].
  assert (Hset : (match n with None => set_head q None;; set_tail q None | Some n => set_head q (Some n) end)
    (mkWorld h qs u) = Some (tt, mkWorld h (<[q := mkQueue rc n (last (l.*1)) (to_uint (Z.of_nat (length ((a, d) :: l))))]> qs) u)).
  { destruct l as [|[b db] l].
    - simpl in Hl. subst n. erewrite M_bind_Some by (eapply run_set_head, Hq).
      erewrite run_set_tail by apply lookup_insert_eq. by rewrite insert_insert_eq.
    - destruct Hl as (-> & _). erewrite run_set_head by exact Hq. change (((b, db) :: l).*1) with (b :: l.*1). by rewrite last_cons_cons. }
  step Hset. erewrite M_bind_Some by (eapply run_free_entry, Hn). cbn beta.
  erewrite M_bind_Some by (eapply run_set_entries, lookup_insert_eq). rewrite insert_insert_eq. eexists. split; [done|].
  split; [|apply same_else_intro; intros b _ Hb; apply lookup_delete_ne; intros ->; apply Hb; by left].
  exists n. cbn [ents queues]. split_and!; [by apply lseg_delete|done|].
  rewrite lookup_insert_eq. do 2 f_equal. rewrite to_uint_sub. f_equal. rewrite length_drop. cbn [length]. lia.
Qed.
(** The first entry that satisfies [f], with what is before and behind it. *)
Lemma first_match_split (f : data_t -> bool) l i x :
  first_match f l = Some (i, x) ->
  l = take i l ++ x :: drop (S i) l /\ f x.2 = true /\ Forall (fun x => f x.2 = false) (take i l).
Proof.
  intros Hf. apply list_find_Some in Hf as (Hi & Hx & Hb). split; [by rewrite take_drop_middle|]. split; [done|].
  apply Forall_lookup. intros j y Hy. assert (j < i)%nat as Hj by (apply lookup_lt_Some in Hy; rewrite length_take in Hy; lia).
  rewrite lookup_take_lt in Hy by done. specialize (Hb j y Hy Hj). by destruct (f y.2).
Qed.

Lemma remove_loop_spec q rc f l2 : forall fuel w l1 p,
  is_queue w q rc (l1 ++ l2) -> lseg (ents w) p l2 None -> (length l2 <= fuel)%nat ->
  match first_match f l2 with
  | None => remove_loop fuel q f (last (l1.*1)) p w = Some (None, w)
  | Some (i, (a, d)) => exists w', remove_loop fuel q f (last (l1.*1)) p w = Some (Some d, w') /\
      is_queue w' q rc (l1 ++ take i l2 ++ drop (S i) l2) /\ same_else w w' q (l1 ++ l2)
  end.
Proof.
  induction l2 as [|[a d] l2 IH]; intros fuel w l1 p Hq Hl Hf.
  { simpl in Hl. subst. by destruct fuel. }
  destruct fuel as [|fuel]; [simpl in Hf; lia|]. destruct Hl as (-> & n & Hn & Hl). cbn [remove_loop].
  assert (Hget : get_entry a w = Some (mkEntry d n, w)) by (unfold get_entry; by rewrite Hn).
  rewrite first_match_cons. destruct (f d) eqn:E.
  - step Hget. cbn [data]. rewrite E.
    destruct (unlink_spec w q rc l1 a d l2 _ Hq Hn) as (w' & Hu & Hq' & Hsame & _). exists w'. step Hu. done.
  - assert (Hq1 : is_queue w q rc ((l1 ++ [(a, d)]) ++ l2)) by by rewrite <- app_assoc.
    specialize (IH fuel w (l1 ++ [(a, d)]) n Hq1 Hl). rewrite last_fst in IH. simpl in Hf.
    destruct (first_match _ l2) as [[i [b db]]|]; cbn [fmap option_fmap option_map fst snd].
    + destruct IH as (w' & Hr & Hq' & Hsame); [lia|]. exists w'. step Hget. cbn [data next]. rewrite E.
      rewrite <- !app_assoc in *. done.
    + step Hget. cbn [data next]. rewrite E. apply IH. lia.
Qed.

(** ** Each operation on the list of entries *)

Lemma queue_eta w q rc l : is_queue w q rc l -> exists h, queues w !! q = Some (mkQueue rc h (last (l.*1)) (to_uint (Z.of_nat (length l)))) /\
  lseg (ents w) h l None /\ (length l <= size (ents w))%nat.
Proof. intros (h & Hl & Hnd & Hq). exists h. split_and!; [done|done|by eapply lseg_fuel]. Qed.

Lemma run_get w q x : queues w !! q = Some x -> get_queue q w = Some (x, w).
Proof. intros Hq. unfold get_queue. by rewrite Hq. Qed.

Lemma remove_first_spec w q rc l f :
  is_queue w q rc l -> exists x, queues w !! q = Some x /\
  match first_match f l with
  | None => remove_loop (S (size (ents w))) q f None (head x) w = Some (None, w)
  | Some (i, (a, d)) => exists w', remove_loop (S (size (ents w))) q f None (head x) w = Some (Some d, w') /\
      is_queue w' q rc (take i l ++ drop (S i) l) /\ same_else w w' q l
  end.
Proof.
  intros Hq. destruct (queue_eta w q rc l Hq) as (h & Hx & Hl & Hs). eexists. split; [exact Hx|].
  exact (remove_loop_spec q rc f l (S (size (ents w))) w [] h Hq Hl ltac:(lia)).
Qed.

Lemma queue_remove_spec w q rc l d :
  is_queue w q rc l ->
  match first_match (fun d' => bool_decide (d' = d)) l with
  | None => queue_remove (Some q) d w = Some (false, w)
  | Some (i, _) => exists w', queue_remove (Some q) d w = Some (true, w') /\
      is_queue w' q rc (take i l ++ drop (S i) l) /\ same_else w w' q l
  end.
Proof.
  intros Hq. destruct (remove_first_spec w q rc l (fun d' => bool_decide (d' = d)) Hq) as (x & Hx & H).
  unfold queue_remove. destruct (first_match _ l) as [[i [a d']]|].
  - destruct H as (w' & Hr & H). exists w'. split; [|done]. step (run_get w q x Hx). step (run_walk_fuel w). by step Hr.
  - step (run_get w q x Hx). step (run_walk_fuel w). by step H.
Qed.

Lemma queue_remove_if_spec w q rc l f m :
  is_queue w q rc l ->
  match first_match (fun d => f d m) l with
  | None => queue_remove_if (Some q) (Some f) m w = Some (None, w)
  | Some (i, (_, d)) => exists w', queue_remove_if (Some q) (Some f) m w = Some (d, w') /\
      is_queue w' q rc (take i l ++ drop (S i) l) /\ same_else w w' q l
  end.
Proof.
  intros Hq. destruct (remove_first_spec w q rc l (fun d => f d m) Hq) as (x & Hx & H).
  unfold queue_remove_if. destruct (first_match _ l) as [[i [a d]]|].
  - destruct H as (w' & Hr & H). exists w'. split; [|done]. step (run_get w q x Hx). step (run_walk_fuel w). by step Hr.
  - step (run_get w q x Hx). step (run_walk_fuel w). by step H.
Qed.

Lemma queue_find_spec w q rc l f m :
  is_queue w q rc l ->
  queue_find (Some q) f m w =
    Some (match first_match (fun d => default direct_match f d m) l with Some (_, x) => x.2 | None => None end, w).
Proof.
  intros Hq. destruct (queue_eta w q rc l Hq) as (h & Hx & Hl & Hs). unfold queue_find. cbv zeta.
  step (run_get w q _ Hx). step (run_walk_fuel w). destruct w as [hp qs u]. cbn [head ents] in *.
  step (find_entry_spec hp qs u (fun d => default direct_match f d m) l h (S (size hp)) Hl ltac:(lia)).
  destruct (first_match _ l) as [[i [a d]]|] eqn:E; [|done]. cbn [fmap option_fmap option_map snd fst].
  apply (first_match_split (fun d => default direct_match f d m)) in E as (E & _). rewrite E in Hl.
  apply lseg_app in Hl as (p & _ & -> & n & Hn & _). by step (run_get_entry hp qs u a _ Hn).
Qed.

Lemma queue_peek_head_spec w q rc l :
  is_queue w q rc l -> queue_peek_head (Some q) w = Some (match l with [] => None | x :: _ => x.2 end, w).
Proof.
  intros Hq. destruct (queue_eta w q rc l Hq) as (h & Hx & Hl & Hs). unfold queue_peek_head. step (run_get w q _ Hx). cbn [head].
  destruct w as [hp qs u]. destruct l as [|[a d] l]; simpl in Hl; [by subst|]. destruct Hl as (-> & n & Hn & _).
  by step (run_get_entry hp qs u a _ Hn).
Qed.

Lemma queue_peek_tail_spec w q rc l :
  is_queue w q rc l -> queue_peek_tail (Some q) w = Some (match last l with None => None | Some x => x.2 end, w).
Proof.
  intros Hq. destruct (queue_eta w q rc l Hq) as (h & Hx & Hl & Hs). unfold queue_peek_tail. step (run_get w q _ Hx).
  destruct w as [hp qs u]. destruct l as [|[a d] l _] using rev_ind; [done|].
  rewrite last_fst, last_snoc. cbn [tail]. apply lseg_snoc in Hl as [_ Hn].
  by step (run_get_entry hp qs u a _ Hn).
Qed.

Lemma queue_length_spec w q rc l :
  is_queue w q rc l -> queue_length (Some q) w = Some (to_uint (Z.of_nat (length l)), w) /\
    queue_isempty (Some q) w = Some (to_uint (Z.of_nat (length l)) =? 0, w).
Proof.
  intros Hq. destruct (queue_eta w q rc l Hq) as (h & Hx & Hl & Hs). unfold queue_length, queue_isempty.
  split; by step (run_get w q _ Hx).
Qed.

Lemma push_after_spec w q rc l entry d :
  is_queue w q rc l ->
  match first_match (fun d' => bool_decide (d' = entry)) l with
  | None => queue_push_after (Some q) entry d w = Some (false, w)
  | Some (i, _) => exists a, ents w !! a = None /\ exists w', queue_push_after (Some q) entry d w = Some (true, w') /\
      is_queue w' q rc (take (S i) l ++ (a, d) :: drop (S i) l) /\ same_else w w' q l
  end.
Proof.
  intros Hq. destruct (queue_eta w q rc l Hq) as (h & Hx & Hl & Hs). unfold queue_push_after.
  pose proof (run_get w q _ Hx) as Hg. destruct w as [hp qs u]. cbn [ents queues] in *.
  pose proof (find_entry_spec hp qs u (fun d' => bool_decide (d' = entry)) l h (S (size hp)) Hl ltac:(lia)) as Hfind.
  destruct (first_match _ l) as [[i [b db]]|] eqn:E; cbn [fmap option_fmap option_map snd fst] in Hfind.
  2:{ step Hg. step (run_walk_fuel (mkWorld hp qs u)). by step Hfind. }
  assert (Hb : l !! i = Some (b, db)) by by apply list_find_Some in E as (? & _).
  apply (first_match_split (fun d' => bool_decide (d' = entry))) in E as (E & _).
  destruct (run_entry_new hp qs u d) as (a & Ha & Hnew). exists a. split; [done|].
  rewrite (take_S_r _ _ _ Hb), <- app_assoc. set (l1 := take i l) in *. set (l2 := drop (S i) l) in *.
  rewrite E in Hl. pose proof Hl as Hlive. apply lseg_app in Hl as (m & H1 & -> & n & Hn & H2).
  destruct Hq as (h' & Hl' & Hnd & Hq'). cbn [ents queues] in *. rewrite E, fmap_app in Hnd.
  change (((b, db) :: l2).*1) with (b :: l2.*1) in Hnd. apply NoDup_app in Hnd as (Hnd1 & Hd & Hnd2).
  apply NoDup_cons in Hnd2 as [Hb2 Hnd2].
  assert (Hal : a ∉ l1.*1 ++ b :: l2.*1).
  { intros Hin. destruct (lseg_live _ _ _ _ Hlive a) as [e He]; [by rewrite fmap_app|congruence]. }
  apply not_elem_of_app in Hal as [Ha1 Ha2]. apply not_elem_of_cons in Ha2 as [Hab Ha2].
  assert (Hb1 : b ∉ l1.*1) by (intros Hin; apply (Hd b Hin); by left).
  step Hg. step (run_walk_fuel (mkWorld hp qs u)). cbn [head ents]. step Hfind. step Hnew.
  assert (Hn' : <[a := mkEntry d None]> hp !! b = Some (mkEntry db n)) by by rewrite lookup_insert_ne.
  step (run_get_entry (<[a := mkEntry d None]> hp) qs u b _ Hn'). cbn [next].
  erewrite M_bind_Some by (eapply run_set_next, lookup_insert_eq). cbn beta. cbn [data]. rewrite insert_insert_eq.
  assert (Htail : exists k, (match n with None => set_tail q (Some a) | Some _ => mret tt end)
      (mkWorld (<[a := mkEntry d n]> hp) qs u) = Some (tt, mkWorld (<[a := mkEntry d n]> hp) k u) /\
    k = <[q := mkQueue rc h (last ((l1 ++ (b, db) :: (a, d) :: l2).*1)) (to_uint (Z.of_nat (length l)))]> qs).
  { eexists. split; [|done]. rewrite !fmap_app in *. change (((b, db) :: (a, d) :: l2).*1) with (b :: a :: l2.*1).
    destruct l2 as [|[c dc] l2'].
    - simpl in H2. subst n. erewrite run_set_tail by exact Hx. rewrite last_app. done.
    - destruct H2 as (-> & _). rewrite (insert_id qs q); [done|]. rewrite Hx, E, fmap_app. do 2 f_equal.
      change (((b, db) :: (c, dc) :: l2').*1) with (b :: c :: l2'.*1). change (((c, dc) :: l2').*1) with (c :: l2'.*1).
      by rewrite !last_app, !last_cons_cons. }
  destruct Htail as (k & Htail & ->). step Htail.
  assert (Hn2 : <[a := mkEntry d n]> hp !! b = Some (mkEntry db n)) by by rewrite lookup_insert_ne.
  erewrite M_bind_Some by (eapply run_set_next, Hn2). cbn beta. cbn [data entries].
  erewrite M_bind_Some by (eapply run_set_entries, lookup_insert_eq). rewrite insert_insert_eq. eexists. split; [done|].
  split; [exists h; cbn [ents queues]; split_and!|].
  - apply lseg_app. exists (Some b). split; [by apply lseg_insert, lseg_insert|]. simpl. split; [done|]. exists (Some a).
    rewrite lookup_insert_eq. split; [done|]. split; [done|]. exists n. rewrite lookup_insert_ne, lookup_insert_eq by done.
    split; [done|]. by apply lseg_insert, lseg_insert.
  - rewrite fmap_app. change (([(b, db)] ++ (a, d) :: l2).*1) with (b :: a :: l2.*1). apply NoDup_app. split_and!; [done| |].
    + intros x Hx1. rewrite !not_elem_of_cons. split_and!; [by intros ->|by intros ->|].
      intros Hin. apply (Hd x Hx1). by right.
    + rewrite !NoDup_cons, not_elem_of_cons. done.
  - rewrite lookup_insert_eq. do 2 f_equal. rewrite to_uint_add. f_equal. rewrite E, !length_app. cbn [length]. lia.
  - apply same_else_intro. intros c Hc Hin. rewrite E, fmap_app in Hin. rewrite !lookup_insert_ne; [done| |].
    + intros ->. destruct Hc. congruence.
    + intros ->. apply Hin, elem_of_app. right. by left.
Qed.
End Operations.

(** ** The queue is a list *)

Inductive qop :=
  | PushTail (d : data_t) | PushHead (d : data_t) | PushAfter (entry d : data_t)
  | PopHead | PeekHead | PeekTail
  | Find (f : option (data_t -> data_t -> bool)) (m : data_t)
  | Remove (d : data_t) | RemoveIf (f : data_t -> data_t -> bool) (m : data_t)
  | Length | IsEmpty.

Inductive qres := RBool (b : bool) | RData (d : data_t) | RNum (n : Z).

(** The index and value of the first element that satisfies [f]. *)
Definition find_first (f : data_t -> bool) (L : list data_t) : option (nat * data_t) := list_find (fun d => f d = true) L.

(** What the operations do to a list. *)
Definition list_step (L : list data_t) (o : qop) : qres * list data_t :=
  match o with
  | PushTail d => (RBool true, L ++ [d])
  | PushHead d => (RBool true, d :: L)
  | PushAfter entry d =>
    match find_first (fun d' => bool_decide (d' = entry)) L with
    | Some (i, _) => (RBool true, take (S i) L ++ d :: drop (S i) L)
    | None => (RBool false, L)
    end
  | PopHead => (RData (default None (hd_error L)), drop 1 L)
  | PeekHead => (RData (default None (hd_error L)), L)
  | PeekTail => (RData (default None (last L)), L)
  | Find f m =>
    (RData (match find_first (fun d => default direct_match f d m) L with Some (_, d) => d | None => None end), L)
  | Remove d =>
    match find_first (fun d' => bool_decide (d' = d)) L with
    | Some (i, _) => (RBool true, take i L ++ drop (S i) L)
    | None => (RBool false, L)
    end
  | RemoveIf f m =>
    match find_first (fun d => f d m) L with
    | Some (i, d) => (RData d, take i L ++ drop (S i) L)
    | None => (RData None, L)
    end
  | Length => (RNum (to_uint (Z.of_nat (length L))), L)
  | IsEmpty => (RBool (to_uint (Z.of_nat (length L)) =? 0), L)
  end.

Fixpoint list_run (L : list data_t) (ops : list qop) : list qres * list data_t :=
  match ops with
  | [] => ([], L)
  | o :: ops => let '(r, L) := list_step L o in let '(rs, L) := list_run L ops in (r :: rs, L)
  end.

Section Refinement.
Context {U : Type}.
Implicit Types (w : world U) (l : list (nat * data_t)).

Definition queue_step (q : nat) (o : qop) : M (world U) qres :=
  match o with
  | PushTail d => b ← queue_push_tail (Some q) d; mret (RBool b)
  | PushHead d => b ← queue_push_head (Some q) d; mret (RBool b)
  | PushAfter e d => b ← queue_push_after (Some q) e d; mret (RBool b)
  | PopHead => d ← queue_pop_head (Some q); mret (RData d)
  | PeekHead => d ← queue_peek_head (Some q); mret (RData d)
  | PeekTail => d ← queue_peek_tail (Some q); mret (RData d)
  | Find f m => d ← queue_find (Some q) f m; mret (RData d)
  | Remove d => b ← queue_remove (Some q) d; mret (RBool b)
  | RemoveIf f m => d ← queue_remove_if (Some q) (Some f) m; mret (RData d)
  | Length => n ← queue_length (Some q); mret (RNum n)
  | IsEmpty => b ← queue_isempty (Some q); mret (RBool b)
  end.

Fixpoint queue_run (q : nat) (ops : list qop) : M (world U) (list qres) :=
  match ops with [] => mret [] | o :: ops => r ← queue_step q o; rs ← queue_run q ops; mret (r :: rs) end.

(** The queue holds the list [L]; [foreign]: the entries that are not its own. *)
Definition represents w q (L : list data_t) (foreign : gmap nat queue_entry) : Prop :=
  exists l, is_queue w q 1 l /\ l.*2 = L /\ (forall a, a ∈ l.*1 -> foreign !! a = None) /\ foreign ⊆ ents w.

Lemma first_match_data f l : (fun x => (x.1, x.2.2)) <$> first_match f l = find_first f (l.*2).
Proof.
  unfold find_first. induction l as [|[a d] l IH]; [done|]. rewrite first_match_cons. cbn [fmap list_fmap snd list_find].
  destruct (f d) eqn:E; [by rewrite decide_True|rewrite decide_False by congruence]. change (list_fmap _ _ snd l) with (l.*2).
  rewrite <- IH. by destruct (first_match f l) as [[i [b db]]|].
Qed.

Lemma find_first_None f l : first_match f l = None -> find_first f (l.*2) = None.
Proof. intros E. by rewrite <- first_match_data, E. Qed.

Lemma find_first_Some f l i a d : first_match f l = Some (i, (a, d)) -> find_first f (l.*2) = Some (i, d).
Proof. intros E. by rewrite <- first_match_data, E. Qed.

(** What an operation leaves represents what it should, if it kept the other entries. *)
Lemma represents_step w w' q l l' foreign :
  is_queue w' q 1 l' -> same_else w w' q l -> (forall a, a ∈ l.*1 -> foreign !! a = None) -> foreign ⊆ ents w ->
  (forall a, a ∈ l'.*1 -> a ∈ l.*1 \/ ents w !! a = None) ->
  exists L', represents w' q L' foreign /\ L' = l'.*2.
Proof.
  intros Hq (_ & _ & He) Hf Hs Hl. exists (l'.*2). split; [|done]. exists l'. split; [done|]. split; [done|]. split.
  - intros a Ha. destruct (Hl a Ha) as [Hin|Hn]; [by apply Hf|]. by eapply lookup_weaken_None.
  - apply map_subseteq_spec. intros a e Hae. rewrite He; [by eapply lookup_weaken|by eexists; eapply lookup_weaken|].
    intros Hin. rewrite Hf in Hae; done.
Qed.

Lemma in_take {A} (x : A) n k : x ∈ take n k -> x ∈ k.
Proof. intros Hx. rewrite <- (take_drop n k). apply elem_of_app. by left. Qed.

Lemma in_drop {A} (x : A) n k : x ∈ drop n k -> x ∈ k.
Proof. intros Hx. rewrite <- (take_drop n k). apply elem_of_app. by right. Qed.

Lemma hd_data l : match l with [] => None | x :: _ => x.2 end = default None (hd_error (l.*2)).
Proof. by destruct l. Qed.

Lemma queue_step_refines w q L foreign o :
  represents w q L foreign ->
  exists w', queue_step q o w = Some ((list_step L o).1, w') /\ represents w' q (list_step L o).2 foreign.
Proof.
  intros Hrep. pose proof Hrep as (l & Hq & <- & Hf & Hs).
  destruct o as [d|d|e d| | | |f m|d|f m| |]; cbn [queue_step list_step].
  - destruct (push_tail_spec w q 1 l d Hq) as (a & Ha & w' & Hr & Hq' & Hsame). exists w'. step Hr. split; [done|].
    destruct (represents_step w w' q l _ foreign Hq' Hsame Hf Hs) as (L' & HL & ->); [|by rewrite fmap_app in HL].
    intros b. rewrite fmap_app. intros [Hb|Hb]%elem_of_app; [by left|right]. by apply list_elem_of_singleton in Hb as ->.
  - destruct (push_head_spec w q 1 l d Hq) as (a & Ha & w' & Hr & Hq' & Hsame). exists w'. step Hr. split; [done|].
    destruct (represents_step w w' q l _ foreign Hq' Hsame Hf Hs) as (L' & HL & ->); [|done].
    intros b [->|Hb]%elem_of_cons; [by right|by left].
  - pose proof (push_after_spec w q 1 l e d Hq) as H.
    destruct (first_match _ l) as [[i [b db]]|] eqn:E; [apply find_first_Some in E|apply find_first_None in E]; rewrite E.
    + destruct H as (a & Ha & w' & Hr & Hq' & Hsame). exists w'. step Hr. split; [done|].
      destruct (represents_step w w' q l _ foreign Hq' Hsame Hf Hs) as (L' & HL & ->).
      * intros c. rewrite fmap_app, fmap_cons, fmap_take, fmap_drop.
        intros [Hc|[->|Hc]%elem_of_cons]%elem_of_app; [left|by right|left]; [by eapply in_take|by eapply in_drop].
      * by rewrite fmap_app, fmap_cons, fmap_take, fmap_drop in HL.
    + exists w. by step H.
  - destruct (pop_head_spec w q 1 l Hq) as (w' & Hr & Hq' & Hsame). exists w'. step Hr. rewrite hd_data. split; [done|].
    destruct (represents_step w w' q l _ foreign Hq' Hsame Hf Hs) as (L' & HL & ->); [|by rewrite fmap_drop in HL].
    intros b. rewrite fmap_drop. intros Hb. left. by eapply in_drop.
  - exists w. step (queue_peek_head_spec w q 1 l Hq). by rewrite hd_data.
  - exists w. step (queue_peek_tail_spec w q 1 l Hq). split; [|done]. rewrite fmap_last. by destruct (last l).
  - exists w. step (queue_find_spec w q 1 l f m Hq). split; [|done].
    destruct (first_match _ l) as [[i [b db]]|] eqn:E; [apply find_first_Some in E|apply find_first_None in E]; by rewrite E.
  - pose proof (queue_remove_spec w q 1 l d Hq) as H.
    destruct (first_match _ l) as [[i [b db]]|] eqn:E; [apply find_first_Some in E|apply find_first_None in E]; rewrite E;
      [|exists w; by step H].
    destruct H as (w' & Hr & Hq' & Hsame). exists w'. step Hr. split; [done|].
    destruct (represents_step w w' q l _ foreign Hq' Hsame Hf Hs) as (L' & HL & ->).
    + intros c. rewrite fmap_app, fmap_take, fmap_drop. intros [Hc|Hc]%elem_of_app; left;
        [by eapply in_take|by eapply in_drop].
    + by rewrite fmap_app, fmap_take, fmap_drop in HL.
  - pose proof (queue_remove_if_spec w q 1 l f m Hq) as H.
    destruct (first_match _ l) as [[i [b db]]|] eqn:E; [apply find_first_Some in E|apply find_first_None in E]; rewrite E;
      [|exists w; by step H].
    destruct H as (w' & Hr & Hq' & Hsame). exists w'. step Hr. split; [done|].
    destruct (represents_step w w' q l _ foreign Hq' Hsame Hf Hs) as (L' & HL & ->).
    + intros c. rewrite fmap_app, fmap_take, fmap_drop. intros [Hc|Hc]%elem_of_app; left;
        [by eapply in_take|by eapply in_drop].
    + by rewrite fmap_app, fmap_take, fmap_drop in HL.
  - destruct (queue_length_spec w q 1 l Hq) as [Hr _]. exists w. step Hr. by rewrite length_fmap.
  - destruct (queue_length_spec w q 1 l Hq) as [_ Hr]. exists w. step Hr. by rewrite length_fmap.
Qed.

(** C39: the queue is a list: whatever operations are called on a new queue, their results
    are those of the list functions, in particular first-in first-out for [push_tail]
    and [pop_head]; they are always defined, and the entries of other queues stay as
    they are. *)
Theorem queue_refines_list w ops :
  exists q w0 w', queue_new w = Some (Some q, w0) /\ queues w !! q = None /\
    queue_run q ops w0 = Some ((list_run [] ops).1, w') /\ represents w' q (list_run [] ops).2 (ents w).
Proof.
  set (q := fresh (dom (queues w))). assert (Hq : queues w !! q = None) by apply not_elem_of_dom, is_fresh.
  set (w0 := mkWorld (ents w) (<[q := mkQueue 1 None None 0]> (queues w)) (user w)).
  assert (Hnew : queue_new w = Some (Some q, w0)).
  { unfold queue_new, queue_ref. erewrite M_bind_Some by (apply run_get_queue, lookup_insert_eq). cbn beta. cbn [ref_count].
    rewrite (M_bind_lift _ _ _ 1) by done. unfold mbind, M_bind, put_queue. cbn [queues]. rewrite lookup_insert_eq.
    cbn [mbind option_bind head tail entries ents user]. by rewrite insert_insert_eq. }
  assert (H0 : represents w0 q [] (ents w)).
  { exists []. split; [exists None; split_and!; [done|by apply NoDup_nil|apply lookup_insert_eq]|].
    split; [done|]. split; [intros a Ha; by apply not_elem_of_nil in Ha|done]. }
  assert (Hrun : forall w1 L, represents w1 q L (ents w) ->
    exists w', queue_run q ops w1 = Some ((list_run L ops).1, w') /\ represents w' q (list_run L ops).2 (ents w)).
  { clear -U. induction ops as [|o ops IH]; intros w1 L H; [by exists w1|].
    destruct (queue_step_refines w1 q L (ents w) o H) as (w2 & Hs & H2). cbn [queue_run list_run]. step Hs.
    destruct (list_step L o) as [r L2]. cbn [fst snd] in *. destruct (IH w2 L2 H2) as (w' & Hr & H'). exists w'. step Hr.
    by destruct (list_run L2 ops). }
  destruct (Hrun w0 [] H0) as (w' & Hr & H'). by exists q, w0, w'.
Qed.
End Refinement.

(** ** Walking with callbacks *)
Section Callbacks.
Context {U : Type}.
Implicit Types (w : world U) (l : list (nat * data_t)).

(** A callback that only keeps its own state. *)
Definition plain_callback (f : data_t -> M (world U) unit) (g : data_t -> U -> U) : Prop :=
  forall d h qs u, f d (mkWorld h qs u) = Some (tt, mkWorld h qs (g d u)).

Lemma foreach_loop_spec q f g h qs rc hd t n l : forall fuel p u,
  plain_callback f g -> lseg h p l None -> qs !! q = Some (mkQueue rc (Some hd) t n) -> 1 < rc -> (length l <= fuel)%nat ->
  foreach_loop fuel q f p (mkWorld h qs u) = Some (tt, mkWorld h qs (foldl (fun u d => g d u) u (l.*2))).
Proof.
  intros fuel p u Hf Hl Hq Hrc. revert fuel p u Hl. induction l as [|[a d] l IH]; intros fuel p u Hl Hfuel.
  { simpl in Hl. subst. by destruct fuel. }
  destruct Hl as (-> & n' & Hn & Hl). destruct fuel as [|fuel]; [simpl in Hfuel; lia|]. cbn [foreach_loop].
  step (run_get_queue h qs u q _ Hq). cbn [head ref_count]. rewrite bool_decide_false by done.
  destruct (Z.leb_spec rc 1); [lia|]. cbn [orb]. step (run_get_entry h qs u a _ Hn). cbn [data next].
  step (Hf d h qs u). apply IH; [done|]. simpl in Hfuel. lia.
Qed.

(** [queue_foreach] calls its callback once for every element, in order, and leaves the
    queue as it was, for a callback that does not touch the queue. *)
Theorem queue_foreach_visits fuel w q rc l f g :
  is_queue w q rc l -> 1 <= rc < INT_MAX -> plain_callback f g -> (length l <= fuel)%nat ->
  queue_foreach fuel (Some q) (Some f) w =
    Some (tt, mkWorld (ents w) (queues w) (foldl (fun u d => g d u) (user w) (l.*2))).
Proof.
  intros Hq Hrc Hf Hfuel. destruct (queue_eta w q rc l Hq) as (p & Hx & Hl & _). destruct w as [h qs u].
  cbn [ents queues user] in *. unfold queue_foreach. step (run_get_queue h qs u q _ Hx). cbn [head].
  destruct p as [p|]; [|by rewrite (lseg_null _ _ _ Hl eq_refl)].
  set (qs1 := <[q := mkQueue (rc + 1) (Some p) (last (l.*1)) (to_uint (Z.of_nat (length l)))]> qs).
  assert (Hq1 : qs1 !! q = Some (mkQueue (rc + 1) (Some p) (last (l.*1)) (to_uint (Z.of_nat (length l))))) by apply lookup_insert_eq.
  assert (Href : queue_ref (Some q) (mkWorld h qs u) = Some (Some q, mkWorld h qs1 u)).
  { unfold queue_ref. step (run_get_queue h qs u q _ Hx). cbn [ref_count].
    rewrite (M_bind_lift _ _ _ (rc + 1)) by (apply cint_ok; unfold INT_MIN; lia).
    unfold mbind, M_bind, put_queue. cbn [queues]. by rewrite Hx. }
  step Href. step (foreach_loop_spec q f g h qs1 (rc + 1) p _ _ l fuel (Some p) u Hf Hl Hq1 ltac:(lia) Hfuel).
  unfold queue_unref. erewrite M_bind_Some by (apply run_get_queue; exact Hq1). cbn beta. cbn [ref_count].
  rewrite (M_bind_lift _ _ _ rc) by (replace (rc + 1 - 1) with rc by lia; apply cint_ok; unfold INT_MIN, INT_MAX in *; lia).
  cbn [head tail entries]. unfold mbind, M_bind, put_queue. cbn [queues]. rewrite Hq1. cbn [mbind option_bind ents user].
  destruct (Z.eqb_spec rc 0); [lia|]. cbn [negb]. unfold qs1. rewrite insert_insert_eq, insert_id by done. done.
Qed.

Lemma to_uint_succ n : (to_uint (Z.of_nat (S n)) =? to_uint (Z.of_nat n)) = false.
Proof.
  apply Z.eqb_neq. unfold to_uint. rewrite Nat2Z.inj_succ. intros E. assert (((Z.succ (Z.of_nat n)) - Z.of_nat n) mod 4294967296 = 0) as E'.
  { rewrite Zminus_mod, E, Z.sub_diag. done. }
  replace (Z.succ (Z.of_nat n) - Z.of_nat n) with 1 in E' by lia. done.
Qed.

(** Counting up to less than the width. *)
Lemma count_fold {A} (L : list A) : forall c, 0 <= c -> c + Z.of_nat (length L) < 4294967296 ->
  foldl (fun c _ => to_uint (c + 1)) c L = c + Z.of_nat (length L).
Proof.
  induction L as [|x L IH]; intros c Hc Hl; [simpl; lia|]. cbn [foldl length] in *.
  assert (to_uint (c + 1) = c + 1) as -> by (apply Z.mod_small; lia). rewrite IH by lia. lia.
Qed.

Lemma filter_none {A} (P : A -> Prop) `{forall x, Decision (P x)} (L : list A) : Forall (fun x => ~ P x) L -> filter P L = [].
Proof. induction 1 as [|x L Hx HL IH]; [done|]. by rewrite filter_cons_False. Qed.

Lemma filter_all {A} (P : A -> Prop) `{forall x, Decision (P x)} (L : list A) : Forall P L -> filter P L = L.
Proof. induction 1 as [|x L Hx HL IH]; [done|]. rewrite filter_cons_True by done. by rewrite IH. Qed.

(** Destroying a list of data in order. *)
Definition destroyed (g : data_t -> U -> U) (u : U) (L : list data_t) : U := foldl (fun u d => g d u) u L.

Lemma remove_matching_spec q rc f m destroy g : plain_callback destroy g -> forall k l w fuel count,
  is_queue w q rc l -> k = length l -> (k < fuel)%nat ->
  exists w' l', remove_matching fuel q f m (Some destroy) count w =
      Some (foldl (fun c _ => to_uint (c + 1)) count (filter (fun d => f d m = true) (l.*2)), w') /\
    is_queue w' q rc l' /\ l'.*2 = filter (fun d => f d m = false) (l.*2) /\
    user w' = destroyed g (user w) (filter (fun d => f d m = true) (l.*2)).
Proof.
  intros Hd k. induction k as [k IH] using lt_wf_ind. intros l w fuel count Hq Hk Hfuel.
  destruct fuel as [|fuel]; [lia|]. cbn [remove_matching]. destruct (queue_eta w q rc l Hq) as (p & Hx & _ & _).
  pose proof (queue_remove_if_spec w q rc l f m Hq) as H. step (run_get w q _ Hx).
  destruct (first_match _ l) as [[i [a d]]|] eqn:E.
  - destruct H as (w1 & Hr & Hq1 & Hu & _). step Hr. destruct (queue_eta w1 q rc _ Hq1) as (p1 & Hx1 & _ & _).
    step (run_get w1 q _ Hx1). cbn [entries].
    apply (first_match_split (fun d => f d m)) in E as (E & Hfd & Hpre). cbn [snd] in Hfd.
    set (l1 := take i l) in *. set (l2 := drop (S i) l) in *.
    assert (Hlen : length l = S (length (l1 ++ l2))) by (rewrite E, !length_app; simpl; lia).
    rewrite Hlen, to_uint_succ. destruct w1 as [h1 qs1 u1]. cbn [user] in Hu. subst u1.
    step (Hd d h1 qs1 (user w)).
    destruct (IH (length (l1 ++ l2)) ltac:(lia) (l1 ++ l2) (mkWorld h1 qs1 (g d (user w))) fuel (to_uint (count + 1)))
      as (w' & l' & Hrun & Hq' & Hl' & Hu'); [exact Hq1|done|lia|].
    assert (Hnone : filter (fun d => f d m = true) (l1.*2) = []).
    { apply filter_none, Forall_fmap. eapply Forall_impl; [exact Hpre|]. cbn. congruence. }
    assert (Htrue : filter (fun d => f d m = true) (l.*2) = d :: filter (fun d => f d m = true) ((l1 ++ l2).*2)).
    { rewrite E, !fmap_app, !filter_app, Hnone. cbn [app]. by rewrite fmap_cons, filter_cons_True by done. }
    assert (Hfalse : filter (fun d => f d m = false) (l.*2) = filter (fun d => f d m = false) ((l1 ++ l2).*2)).
    { rewrite E, !fmap_app, !filter_app, fmap_cons, filter_cons_False; [done|]. cbn [snd]. congruence. }
    exists w', l'. rewrite Htrue, Hfalse. by split_and!.
  - step H. step (run_get w q _ Hx). rewrite Z.eqb_refl.
    assert (Hall : Forall (fun d => f d m = false) (l.*2)).
    { apply Forall_fmap, Forall_forall. intros x Hx'. apply list_find_None in E. rewrite Forall_forall in E.
      specialize (E x Hx'). cbn in *. by destruct (f x.2 m). }
    exists w, l. rewrite (filter_all (fun d => f d m = false)) by done.
    rewrite (filter_none (fun d => f d m = true)); [by split_and!|].
    eapply Forall_impl; [exact Hall|]. cbn. congruence.
Qed.

(** All entries of a segment are destroyed and freed. *)
Lemma remove_entries_spec destroy g : plain_callback destroy g -> forall l p h qs u fuel count,
  lseg h p l None -> NoDup (l.*1) -> (length l <= fuel)%nat ->
  exists h', remove_entries fuel (Some destroy) p count (mkWorld h qs u) =
      Some (foldl (fun c _ => to_uint (c + 1)) count l, mkWorld h' qs (destroyed g u (l.*2))) /\
    forall b, h' !! b = if decide (b ∈ l.*1) then None else h !! b.
Proof.
  intros Hd l. induction l as [|[a d] l IH]; intros p h qs u fuel count Hl Hnd Hfuel.
  { simpl in Hl. subst. exists h. split; [by destruct fuel|]. intros b. rewrite decide_False; [done|]. apply not_elem_of_nil. }
  destruct Hl as (-> & n & Hn & Hl). change (((a, d) :: l).*1) with (a :: l.*1) in *. apply NoDup_cons in Hnd as [Ha Hnd].
  destruct fuel as [|fuel]; [simpl in Hfuel; lia|]. cbn [remove_entries]. step (run_get_entry h qs u a _ Hn). cbn [data next].
  step (Hd d h qs u). step (run_free_entry h qs (g d u) a _ Hn).
  destruct (IH n (delete a h) qs (g d u) fuel (to_uint (count + 1))) as (h' & Hr & Hh');
    [by apply lseg_delete|done|simpl in Hfuel; lia|]. exists h'. split; [exact Hr|]. intros b. rewrite Hh'.
  destruct (decide (b = a)) as [->|Hb].
  - rewrite lookup_delete_eq, (decide_True (P := a ∈ a :: _)) by by left. by destruct (decide _).
  - rewrite lookup_delete_ne by done. destruct (decide (b ∈ l.*1)).
    + by rewrite decide_True by by right.
    + rewrite decide_False; [done|]. by intros [->|?]%elem_of_cons.
Qed.

(** [queue_remove_all] with a match function removes exactly the elements that match,
    destroys them in order, counts them, and keeps the others in order. *)
Theorem queue_remove_all_matching fuel w q rc l f m destroy g :
  is_queue w q rc l -> plain_callback destroy g -> (length l < fuel)%nat -> Z.of_nat (length l) < 4294967296 ->
  exists w' l', queue_remove_all fuel (Some q) (Some f) m (Some destroy) w =
      Some (Z.of_nat (length (filter (fun d => f d m = true) (l.*2))), w') /\
    is_queue w' q rc l' /\ l'.*2 = filter (fun d => f d m = false) (l.*2) /\
    user w' = destroyed g (user w) (filter (fun d => f d m = true) (l.*2)).
Proof.
  intros Hq Hd Hfuel Hlen. destruct (queue_eta w q rc l Hq) as (p & Hx & Hl & _).
  unfold queue_remove_all. step (run_get w q _ Hx). cbn [head].
  destruct p as [p|].
  - destruct (remove_matching_spec q rc f m destroy g Hd (length l) l w fuel 0 Hq eq_refl Hfuel) as (w' & l' & Hr & Hrest).
    exists w', l'. split; [|done]. rewrite Hr, count_fold; [by rewrite Z.add_0_l|lia|].
    pose proof (length_filter (fun d => f d m = true) (l.*2)) as Hf. rewrite length_fmap in Hf. lia.
  - apply lseg_null in Hl as ->; [|done]. by exists w, [].
Qed.

(** [queue_destroy] destroys every element in order, frees every entry and the queue,
    and nothing else. *)
Theorem queue_destroy_frees fuel w q l destroy g :
  is_queue w q 1 l -> plain_callback destroy g -> (length l <= fuel)%nat ->
  exists w', queue_destroy fuel (Some q) (Some destroy) w = Some (tt, w') /\
    user w' = destroyed g (user w) (l.*2) /\ queues w' = delete q (queues w) /\
    forall a, ents w' !! a = if decide (a ∈ l.*1) then None else ents w !! a.
Proof.
  intros Hq Hd Hfuel. pose proof Hq as (p' & Hl & Hnd & Hx). destruct w as [h qs u]. cbn [ents queues user] in *.
  set (qs1 := <[q := mkQueue 1 None None 0]> qs).
  destruct (remove_entries_spec destroy g Hd l p' h qs1 u fuel 0 Hl Hnd Hfuel) as (h' & Hr & Hh').
  exists (mkWorld h' (delete q qs) (destroyed g u (l.*2))). split; [|by split_and!].
  assert (Hall : queue_remove_all fuel (Some q) None None (Some destroy) (mkWorld h qs u) =
    Some (foldl (fun c _ => to_uint (c + 1)) 0 l, mkWorld h' qs1 (destroyed g u (l.*2)))).
  { unfold queue_remove_all. step (run_get_queue h qs u q _ Hx). cbn [head].
    erewrite M_bind_Some by (eapply run_set_head, Hx). cbn beta.
    erewrite M_bind_Some by (eapply run_set_tail, lookup_insert_eq). cbn beta.
    erewrite M_bind_Some by (eapply run_set_entries, lookup_insert_eq). cbn beta.
    rewrite !insert_insert_eq. exact Hr. }
  unfold queue_destroy. step Hall. unfold queue_unref.
  erewrite M_bind_Some by (apply run_get_queue, lookup_insert_eq). cbn beta. cbn [ref_count].
  rewrite (M_bind_lift _ _ _ 0) by done. unfold mbind, M_bind, put_queue. cbn [queues].
  assert (Hq1 : qs1 !! q = Some (mkQueue 1 None None 0)) by apply lookup_insert_eq. rewrite Hq1.
  cbn [mbind option_bind ents user]. unfold qs1. rewrite insert_insert_eq. change (negb (0 =? 0)) with false. cbv iota.
  unfold free_queue. cbn [queues]. rewrite lookup_insert_eq. cbn [mbind option_bind ents user]. by rewrite delete_insert_eq.
Qed.
End Callbacks.

(** ** Examples *)

(** A queue of the elements 5, 6 and 7, and a callback that records what it sees. *)
Definition ex_world : world (list data_t) :=
  mkWorld (<[0%nat := mkEntry (Some 5%nat) (Some 1%nat)]> (<[1%nat := mkEntry (Some 6%nat) (Some 2%nat)]>
    (<[2%nat := mkEntry (Some 7%nat) None]> ∅))) (<[0%nat := mkQueue 1 (Some 0%nat) (Some 2%nat) 3]> ∅) [].
Definition ex_list : list (nat * data_t) := [(0%nat, Some 5%nat); (1%nat, Some 6%nat); (2%nat, Some 7%nat)].
Definition ex_record (d : data_t) (u : list data_t) : list data_t := u ++ [d].
Definition ex_callback (d : data_t) : M (world (list data_t)) unit := fun w =>
  Some (tt, mkWorld (ents w) (queues w) (ex_record d (user w))).

Lemma ex_is_queue : is_queue ex_world 0 1 ex_list.
Proof.
  exists (Some 0%nat). split_and!; [|by apply (bool_decide_unpack _); vm_compute|done].
  split; [done|]. eexists. split; [done|]. split; [done|]. eexists. split; [done|]. split; [done|]. by eexists.
Qed.

Lemma ex_plain_callback : plain_callback ex_callback ex_record.
Proof. done. Qed.

Lemma queue_foreach_visits_witness :
  queue_foreach 3 (Some 0%nat) (Some ex_callback) ex_world =
    Some (tt, mkWorld (ents ex_world) (queues ex_world) [Some 5%nat; Some 6%nat; Some 7%nat]).
Proof.
  exact (queue_foreach_visits 3 ex_world 0 1 ex_list ex_callback ex_record ex_is_queue
    ltac:(unfold INT_MAX; lia) ex_plain_callback ltac:(simpl; lia)).
Defined.

Lemma queue_remove_all_matching_witness :
  exists w' l', queue_remove_all 4 (Some 0%nat) (Some direct_match) (Some 6%nat) (Some ex_callback) ex_world = Some (1, w') /\
    is_queue w' 0 1 l' /\ l'.*2 = [Some 5%nat; Some 7%nat] /\ user w' = [Some 6%nat].
Proof.
  exact (queue_remove_all_matching 4 ex_world 0 1 ex_list direct_match (Some 6%nat) ex_callback ex_record
    ex_is_queue ex_plain_callback ltac:(simpl; lia) ltac:(simpl; lia)).
Defined.

Lemma queue_destroy_frees_witness :
  exists w', queue_destroy 3 (Some 0%nat) (Some ex_callback) ex_world = Some (tt, w') /\
    user w' = [Some 5%nat; Some 6%nat; Some 7%nat] /\ queues w' = delete 0%nat (queues ex_world) /\
    forall a, ents w' !! a = if decide (a ∈ ex_list.*1) then None else ents ex_world !! a.
Proof.
  exact (queue_destroy_frees 3 ex_world 0 ex_list ex_callback ex_record ex_is_queue ex_plain_callback ltac:(simpl; lia)).
Defined.
