(* ===== verification/Att.v ===== *)
(** * Att: attrib/att.c of BlueZ

    The encoders and decoders of the Attribute Protocol that gattlib is built on, and
    that they invert each other.  [size_t] is 32 bits wide: lengths wrap. *)
From Stdlib Require Import String.
From S2P Require Import Prelude CMem Subscribe.

(** ** att.h *)

Definition ATT_SIGNATURE_LEN : Z := 12.
Definition ATT_OP_ERROR : Z := 0x01.
Definition ATT_OP_MTU_REQ : Z := 0x02.
Definition ATT_OP_MTU_RESP : Z := 0x03.
Definition ATT_OP_FIND_INFO_REQ : Z := 0x04.
Definition ATT_OP_FIND_INFO_RESP : Z := 0x05.
Definition ATT_OP_FIND_BY_TYPE_REQ : Z := 0x06.
Definition ATT_OP_FIND_BY_TYPE_RESP : Z := 0x07.
Definition ATT_OP_READ_BY_TYPE_REQ : Z := 0x08.
Definition ATT_OP_READ_BY_TYPE_RESP : Z := 0x09.
Definition ATT_OP_READ_REQ : Z := 0x0A.
Definition ATT_OP_READ_RESP : Z := 0x0B.
Definition ATT_OP_READ_BLOB_REQ : Z := 0x0C.
Definition ATT_OP_READ_BLOB_RESP : Z := 0x0D.
Definition ATT_OP_READ_BY_GROUP_REQ : Z := 0x10.
Definition ATT_OP_READ_BY_GROUP_RESP : Z := 0x11.
Definition ATT_OP_WRITE_REQ : Z := 0x12.
Definition ATT_OP_WRITE_RESP : Z := 0x13.
Definition ATT_OP_WRITE_CMD : Z := 0x52.
Definition ATT_OP_PREP_WRITE_REQ : Z := 0x16.
Definition ATT_OP_PREP_WRITE_RESP : Z := 0x17.
Definition ATT_OP_EXEC_WRITE_REQ : Z := 0x18.
Definition ATT_OP_EXEC_WRITE_RESP : Z := 0x19.
Definition ATT_OP_HANDLE_NOTIFY : Z := 0x1B.
Definition ATT_OP_HANDLE_IND : Z := 0x1D.
Definition ATT_OP_HANDLE_CNF : Z := 0x1E.
Definition ATT_OP_SIGNED_WRITE_CMD : Z := 0xD2.

(** [ATT_ECODE_...] and their names *)
Definition att_ecode2str (status : Z) : string :=
  if status =? 1 then "Invalid handle" else
  if status =? 2 then "Attribute can't be read" else
  if status =? 3 then "Attribute can't be written" else
  if status =? 4 then "Attribute PDU was invalid" else
  if status =? 5 then "Attribute requires authentication before read/write" else
  if status =? 6 then "Server doesn't support the request received" else
  if status =? 7 then "Offset past the end of the attribute" else
  if status =? 8 then "Attribute requires authorization before read/write" else
  if status =? 9 then "Too many prepare writes have been queued" else
  if status =? 0x0A then "No attribute found within the given range" else
  if status =? 0x0B then "Attribute can't be read/written using Read Blob Req" else
  if status =? 0x0C then "Encryption Key Size is insufficient" else
  if status =? 0x0D then "Attribute value length is invalid" else
  if status =? 0x0E then "Request attribute has encountered an unlikely error" else
  if status =? 0x0F then "Encryption required before read/write" else
  if status =? 0x10 then "Attribute type is not a supported grouping attribute" else
  if status =? 0x11 then "Insufficient Resources to complete the request" else
  if status =? 0x80 then "Internal application error: I/O" else
  if status =? 0x81 then "A timeout occured" else
  if status =? 0x82 then "The operation was aborted" else
  "Unexpected error code".

(** errno.h *)
Definition EINVAL : Z := 22.
Definition ENOBUFS : Z := 105.

(** The structures are values; the entries [data] points to are blocks of the heap. *)
Record att_data_list := mkDataList { dl_num : Z; dl_len : Z; dl_data : list (option ptr) }.
Record att_range := mkRange { r_start : Z; r_end : Z }.

(** ** What lies outside the file: uuid.h and bluetooth.h (not in the repository), GLib, and
    the signing of [bt_crypto_sign_att], which asks the kernel *)
Class AttLibs := {
  bt_uuid_t : Type;
  BT_UUID16 : Z;
  BT_UUID128 : Z;
  uuid_type : bt_uuid_t -> Z;
  value_u16 : bt_uuid_t -> Z;
  value_u128 : bt_uuid_t -> list Z;
  bt_uuid16_create : Z -> bt_uuid_t;
  bt_uuid128_create : list Z -> bt_uuid_t;
  bswap_128 : list Z -> list Z;
  g_malloc0 : Z -> M mem (option ptr);
  g_free : option ptr -> M mem unit;
  g_slist_append : list att_range -> att_range -> list att_range;
  bt_crypto_sign_att : nat -> list Z -> list Z -> Z -> option (list Z)
}.

(** ** Access to memory *)

Definition null {A} (p : option A) : bool := match p with None => true | Some _ => false end.

(** [*p = v]; a null [p] is undefined. *)
Definition assign {A} (p : option A) (v : A) : M mem (option A) := _ ← lift p; mret (Some v).

Definition get8 (p : ptr) : M mem Z := m ← get; lift (load m p).
Definition set8 (p : ptr) (v : Z) : M mem unit := stores p [to_uchar v].

(** util.h *)
Definition get_le16 (p : ptr) : M mem Z :=
  m ← get; bs ← lift (load_bytes m p 2);
  match bs with [lo; hi] => mret (lo + 256 * hi) | _ => undefined end.
Definition put_le16 (val : Z) (dst : ptr) : M mem unit := stores dst [val mod 256; (val / 256) mod 256].

(** [memcpy(dst, src, n)] where [src] is a pointer the caller passed. *)
Definition copy_from (dst : ptr) (src : option ptr) (n : Z) : M mem unit := s ← lift src; memcpy dst s n.
Definition copy_to (dst : option ptr) (src : ptr) (n : Z) : M mem unit := d ← lift dst; memcpy d src n.

Section Definitions.
Context `{AttLibs}.

(** ** UUIDs *)

Definition put_uuid_le (src : bt_uuid_t) (dst : ptr) : M mem unit :=
  if uuid_type src =? BT_UUID16 then put_le16 (value_u16 src) dst
  else stores dst (bswap_128 (value_u128 src)).

Definition get_uuid (type : Z) (val : ptr) (uuid : option bt_uuid_t) : M mem (option bt_uuid_t) :=
  if type =? BT_UUID16 then v ← get_le16 val; assign uuid (bt_uuid16_create v)
  else
    m ← get; bs ← lift (load_bytes m val 16);
    assign uuid (bt_uuid128_create (bswap_128 bs)).

(** ** Lists of attribute data *)

(** [for (i = 0; i < list->num; i++)], [k] rounds left. *)
Fixpoint free_entries (k : nat) (i : Z) (data : list (option ptr)) : M mem unit :=
  match k with
  | O => mret tt
  | S k' => p ← lift (arr_get data i); g_free p;; free_entries k' (i + 1) data
  end.

Definition att_data_list_free (list_ : option att_data_list) : M mem unit :=
  match list_ with
  | None => mret tt
  | Some l =>
    match dl_data l with
    | [] => mret tt
    | data => free_entries (Z.to_nat (dl_num l)) 0 data
    end
  end.

Fixpoint alloc_entries (k : nat) (len : Z) (data : list (option ptr)) : M mem (list (option ptr)) :=
  match k with
  | O => mret data
  | S k' => p ← g_malloc0 len; alloc_entries k' len (data ++ [p])
  end.

(** [num] and [len] are [uint16_t]. *)
Definition att_data_list_alloc (num len : Z) : M mem (option att_data_list) :=
  if 255 <? len then mret None else
  data ← alloc_entries (Z.to_nat num) len [];
  mret (Some (mkDataList num len data)).

(** [for (i = 0; i < list->num && w + l <= len; i++)]: [k] entries left, [w] wrapped to its
    type by [wrap]; returns [w]. *)
Fixpoint put_entries (wrap : Z -> Z) (l len : Z) (k : nat) (i : Z) (data : list (option ptr)) (dst : ptr) (w : Z) : M mem Z :=
  match k with
  | O => mret w
  | S k' =>
    if len <? to_uint (w + l) then mret w else
    p ← lift (arr_get data i);
    copy_from dst p l;;
    put_entries wrap l len k' (i + 1) data (padd dst l) (wrap (w + l))
  end.

(** [for (i = 0; i < num; i++)] of the decoders. *)
Fixpoint take_entries (l : Z) (k : nat) (i : Z) (data : list (option ptr)) (src : ptr) : M mem unit :=
  match k with
  | O => mret tt
  | S k' =>
    p ← lift (arr_get data i);
    copy_to p src l;;
    take_entries l k' (i + 1) data (padd src l)
  end.

(** [list = att_data_list_alloc(num, elen)] and copying the entries into it. *)
Definition dec_entries (num elen : Z) (src : ptr) : M mem (option att_data_list) :=
  list_ ← att_data_list_alloc num elen;
  match list_ with
  | None => mret None
  | Some l => take_entries (dl_len l) (Z.to_nat num) 0 (dl_data l) src;; mret (Some l)
  end.

(** ** Read By Group Type *)

Definition enc_read_by_grp_req (start end_ : Z) (uuid : option bt_uuid_t) (pdu : option ptr) (len : Z) : M mem Z :=
  match uuid with
  | None => mret 0
  | Some uuid =>
    if negb ((uuid_type uuid =? BT_UUID16) || (uuid_type uuid =? BT_UUID128)) then mret 0 else
    let uuid_len := if uuid_type uuid =? BT_UUID16 then 2 else 16 in
    pdu ← lift pdu;
    set8 pdu ATT_OP_READ_BY_GROUP_REQ;;
    put_le16 start (padd pdu 1);;
    put_le16 end_ (padd pdu 3);;
    put_uuid_le uuid (padd pdu 5);;
    mret (5 + uuid_len)
  end.

Definition dec_read_by_grp_req (pdu : option ptr) (len : Z) (start end_ : option Z) (uuid : option bt_uuid_t)
    : M mem (Z * option Z * option Z * option bt_uuid_t) :=
  let fail := mret (0, start, end_, uuid) in
  let min_len := 5 in
  match pdu with
  | None => fail
  | Some pdu =>
    if null start || null end_ || null uuid then fail else
    op ← get8 pdu;
    if negb (op =? ATT_OP_READ_BY_GROUP_REQ) then fail else
    if negb ((len =? min_len + 2) || (len =? min_len + 16)) then fail else
    let type := if len =? min_len + 2 then BT_UUID16 else BT_UUID128 in
    s ← get_le16 (padd pdu 1); start ← assign start s;
    e ← get_le16 (padd pdu 3); end_ ← assign end_ e;
    uuid ← get_uuid type (padd pdu 5) uuid;
    mret (to_ushort len, start, end_, uuid)
  end.

Definition enc_read_by_grp_resp (list_ : option att_data_list) (pdu : option ptr) (len : Z) : M mem Z :=
  match list_ with
  | None => mret 0
  | Some l =>
    if len <? dl_len l + 2 then mret 0 else
    pdu ← lift pdu;
    set8 pdu ATT_OP_READ_BY_GROUP_RESP;;
    set8 (padd pdu 1) (dl_len l);;
    put_entries to_ushort (dl_len l) len (Z.to_nat (dl_num l)) 0 (dl_data l) (padd pdu 2) 2
  end.

Definition dec_read_by_grp_resp (pdu : option ptr) (len : Z) : M mem (option att_data_list) :=
  pdu ← lift pdu;
  op ← get8 pdu;
  if negb (op =? ATT_OP_READ_BY_GROUP_RESP) then mret None else
  if len <? 7 then mret None else
  elen ← get8 (padd pdu 1);
  if elen <? 5 then mret None else
  if negb ((len - 2) mod elen =? 0) then mret None else
  dec_entries (to_ushort ((len - 2) / elen)) elen (padd pdu 2).

(** ** Find By Type Value *)

(** [if (vlen > len - min_len) vlen = len - min_len], in [size_t]. *)
Definition cut_vlen (vlen len min_len : Z) : Z :=
  if to_uint (len - min_len) <? vlen then to_uint (len - min_len) else vlen.

Definition enc_find_by_type_req (start end_ : Z) (uuid : option bt_uuid_t) (value : option ptr) (vlen : Z)
    (pdu : option ptr) (len : Z) : M mem Z :=
  let min_len := 7 in
  match pdu, uuid with
  | Some pdu, Some uuid =>
    if negb (uuid_type uuid =? BT_UUID16) then mret 0 else
    let vlen := cut_vlen vlen len min_len in
    set8 pdu ATT_OP_FIND_BY_TYPE_REQ;;
    put_le16 start (padd pdu 1);;
    put_le16 end_ (padd pdu 3);;
    put_le16 (value_u16 uuid) (padd pdu 5);;
    if 0 <? vlen then copy_from (padd pdu 7) value vlen;; mret (to_ushort (min_len + vlen))
    else mret min_len
  | _, _ => mret 0
  end.

Definition dec_find_by_type_req (pdu : option ptr) (len : Z) (start end_ : option Z) (uuid : option bt_uuid_t)
    (value : option ptr) (vlen : option Z) : M mem (Z * option Z * option Z * option bt_uuid_t * option Z) :=
  let fail := mret (0, start, end_, uuid, vlen) in
  match pdu with
  | None => fail
  | Some pdu =>
    if len <? 7 then fail else
    op ← get8 pdu;
    if negb (op =? ATT_OP_FIND_BY_TYPE_REQ) then fail else
    s ← get_le16 (padd pdu 1); start ← assign start s;
    e ← get_le16 (padd pdu 3); end_ ← assign end_ e;
    u ← get_le16 (padd pdu 5); uuid ← assign uuid (bt_uuid16_create u);
    vlen ← assign vlen (len - 7);
    (if 0 <? len - 7 then copy_to value (padd pdu 7) (len - 7) else mret tt);;
    mret (to_ushort len, start, end_, uuid, vlen)
  end.

Fixpoint put_ranges (matches : list att_range) (pdu : ptr) (len offset : Z) : M mem Z :=
  match matches with
  | [] => mret offset
  | range :: l =>
    if len <? offset + 4 then mret offset else
    put_le16 (r_start range) (padd pdu offset);;
    put_le16 (r_end range) (padd pdu (offset + 2));;
    put_ranges l pdu len (to_ushort (offset + 4))
  end.

Definition enc_find_by_type_resp (matches : list att_range) (pdu : option ptr) (len : Z) : M mem Z :=
  match pdu with
  | None => mret 0
  | Some pdu => set8 pdu ATT_OP_FIND_BY_TYPE_RESP;; put_ranges matches pdu len 1
  end.

(** A round reads four bytes, so [len] rounds are enough. *)
Fixpoint take_ranges (fuel : nat) (pdu : ptr) (len offset : Z) (matches : list att_range) : M mem (list att_range) :=
  if len <? to_uint (offset + 4) then mret matches else
  match fuel with
  | O => undefined
  | S fuel' =>
    s ← get_le16 (padd pdu offset);
    e ← get_le16 (padd pdu (offset + 2));
    take_ranges fuel' pdu len (offset + 4) (g_slist_append matches (mkRange s e))
  end.

Definition dec_find_by_type_resp (pdu : option ptr) (len : Z) : M mem (list att_range) :=
  match pdu with
  | None => mret []
  | Some pdu =>
    if len <? 5 then mret [] else
    op ← get8 pdu;
    if negb (op =? ATT_OP_FIND_BY_TYPE_RESP) then mret [] else
    if negb ((len - 1) mod 4 =? 0) then mret [] else
    take_ranges (Z.to_nat len) pdu len 1 []
  end.

(** ** Read By Type *)

Definition enc_read_by_type_req (start end_ : Z) (uuid : option bt_uuid_t) (pdu : option ptr) (len : Z) : M mem Z :=
  match uuid with
  | None => mret 0
  | Some uuid =>
    if negb ((uuid_type uuid =? BT_UUID16) || (uuid_type uuid =? BT_UUID128)) then mret 0 else
    let uuid_len := if uuid_type uuid =? BT_UUID16 then 2 else 16 in
    pdu ← lift pdu;
    set8 pdu ATT_OP_READ_BY_TYPE_REQ;;
    put_le16 start (padd pdu 1);;
    put_le16 end_ (padd pdu 3);;
    put_uuid_le uuid (padd pdu 5);;
    mret (5 + uuid_len)
  end.

Definition dec_read_by_type_req (pdu : option ptr) (len : Z) (start end_ : option Z) (uuid : option bt_uuid_t)
    : M mem (Z * option Z * option Z * option bt_uuid_t) :=
  let fail := mret (0, start, end_, uuid) in
  let min_len := 5 in
  match pdu with
  | None => fail
  | Some pdu =>
    if null start || null end_ || null uuid then fail else
    if negb ((len =? min_len + 2) || (len =? min_len + 16)) then fail else
    let type := if len =? min_len + 2 then BT_UUID16 else BT_UUID128 in
    op ← get8 pdu;
    if negb (op =? ATT_OP_READ_BY_TYPE_REQ) then fail else
    s ← get_le16 (padd pdu 1); start ← assign start s;
    e ← get_le16 (padd pdu 3); end_ ← assign end_ e;
    uuid ← get_uuid type (padd pdu 5) uuid;
    mret (to_ushort len, start, end_, uuid)
  end.

Definition enc_read_by_type_resp (list_ : option att_data_list) (pdu : option ptr) (len : Z) : M mem Z :=
  match list_, pdu with
  | Some list_, Some pdu =>
    let l := Z.min (to_uint (len - 2)) (dl_len list_) in
    set8 pdu ATT_OP_READ_BY_TYPE_RESP;;
    set8 (padd pdu 1) l;;
    w ← put_entries to_uint l len (Z.to_nat (dl_num list_)) 0 (dl_data list_) (padd pdu 2) 2;
    mret (to_ushort w)
  | _, _ => mret 0
  end.

Definition dec_read_by_type_resp (pdu : option ptr) (len : Z) : M mem (option att_data_list) :=
  pdu ← lift pdu;
  op ← get8 pdu;
  if negb (op =? ATT_OP_READ_BY_TYPE_RESP) then mret None else
  if len <? 5 then mret None else
  elen ← get8 (padd pdu 1);
  if elen <? 3 then mret None else
  if negb ((len - 2) mod elen =? 0) then mret None else
  dec_entries (to_ushort ((len - 2) / elen)) elen (padd pdu 2).

(** ** Writing *)

Definition enc_write_cmd (handle : Z) (value : option ptr) (vlen : Z) (pdu : option ptr) (len : Z) : M mem Z :=
  let min_len := 3 in
  match pdu with
  | None => mret 0
  | Some pdu =>
    let vlen := cut_vlen vlen len min_len in
    set8 pdu ATT_OP_WRITE_CMD;;
    put_le16 handle (padd pdu 1);;
    if 0 <? vlen then copy_from (padd pdu 3) value vlen;; mret (to_ushort (min_len + vlen))
    else mret min_len
  end.

Definition dec_write_cmd (pdu : option ptr) (len : Z) (handle : option Z) (value : option ptr) (vlen : option Z)
    : M mem (Z * option Z * option Z) :=
  let fail := mret (0, handle, vlen) in
  let min_len := 3 in
  match pdu with
  | None => fail
  | Some pdu =>
    if null value || null vlen || null handle then fail else
    if len <? min_len then fail else
    op ← get8 pdu;
    if negb (op =? ATT_OP_WRITE_CMD) then fail else
    h ← get_le16 (padd pdu 1); handle ← assign handle h;
    copy_to value (padd pdu min_len) (len - min_len);;
    vlen ← assign vlen (len - min_len);
    mret (to_ushort len, handle, vlen)
  end.

Definition enc_signed_write_cmd (handle : Z) (value : option ptr) (vlen : Z) (crypto : nat) (csrk : ptr)
    (sign_cnt : Z) (pdu : option ptr) (len : Z) : M mem Z :=
  let hdr_len := 3 in let min_len := hdr_len + ATT_SIGNATURE_LEN in
  match pdu with
  | None => mret 0
  | Some pdu =>
    let vlen := cut_vlen vlen len min_len in
    set8 pdu ATT_OP_SIGNED_WRITE_CMD;;
    put_le16 handle (padd pdu 1);;
    (if 0 <? vlen then copy_from (padd pdu hdr_len) value vlen else mret tt);;
    m ← get;
    key ← lift (load_bytes m csrk 16);
    msg ← lift (load_bytes m pdu (hdr_len + vlen));
    match bt_crypto_sign_att crypto key msg sign_cnt with
    | None => mret 0
    | Some signature => stores (padd pdu (hdr_len + vlen)) signature;; mret (to_ushort (min_len + vlen))
    end
  end.

Definition dec_signed_write_cmd (pdu : option ptr) (len : Z) (handle : option Z) (value : option ptr)
    (vlen : option Z) (signature : ptr) : M mem (Z * option Z * option Z) :=
  let fail := mret (0, handle, vlen) in
  let hdr_len := 3 in let min_len := hdr_len + ATT_SIGNATURE_LEN in
  match pdu with
  | None => fail
  | Some pdu =>
    if null value || null vlen || null handle then fail else
    if len <? min_len then fail else
    op ← get8 pdu;
    if negb (op =? ATT_OP_SIGNED_WRITE_CMD) then fail else
    vlen ← assign vlen (len - min_len);
    h ← get_le16 (padd pdu 1); handle ← assign handle h;
    copy_to value (padd pdu hdr_len) (len - min_len);;
    memcpy signature (padd pdu (hdr_len + (len - min_len))) ATT_SIGNATURE_LEN;;
    mret (to_ushort len, handle, vlen)
  end.

Definition enc_write_req (handle : Z) (value : option ptr) (vlen : Z) (pdu : option ptr) (len : Z) : M mem Z :=
  let min_len := 3 in
  match pdu with
  | None => mret 0
  | Some pdu =>
    let vlen := cut_vlen vlen len min_len in
    set8 pdu ATT_OP_WRITE_REQ;;
    put_le16 handle (padd pdu 1);;
    if 0 <? vlen then copy_from (padd pdu 3) value vlen;; mret (to_ushort (min_len + vlen))
    else mret min_len
  end.

Definition dec_write_req (pdu : option ptr) (len : Z) (handle : option Z) (value : option ptr) (vlen : option Z)
    : M mem (Z * option Z * option Z) :=
  let fail := mret (0, handle, vlen) in
  let min_len := 3 in
  match pdu with
  | None => fail
  | Some pdu =>
    if null value || null vlen || null handle then fail else
    if len <? min_len then fail else
    op ← get8 pdu;
    if negb (op =? ATT_OP_WRITE_REQ) then fail else
    h ← get_le16 (padd pdu 1); handle ← assign handle h;
    vlen ← assign vlen (len - min_len);
    (if 0 <? len - min_len then copy_to value (padd pdu min_len) (len - min_len) else mret tt);;
    mret (to_ushort len, handle, vlen)
  end.

Definition enc_write_resp (pdu : option ptr) : M mem Z :=
  match pdu with None => mret 0 | Some pdu => set8 pdu ATT_OP_WRITE_RESP;; mret 1 end.

Definition dec_write_resp (pdu : option ptr) (len : Z) : M mem Z :=
  match pdu with
  | None => mret 0
  | Some pdu => op ← get8 pdu; if negb (op =? ATT_OP_WRITE_RESP) then mret 0 else mret (to_ushort len)
  end.

(** ** Reading *)

Definition enc_read_req (handle : Z) (pdu : option ptr) (len : Z) : M mem Z :=
  match pdu with
  | None => mret 0
  | Some pdu => set8 pdu ATT_OP_READ_REQ;; put_le16 handle (padd pdu 1);; mret 3
  end.

Definition enc_read_blob_req (handle offset : Z) (pdu : option ptr) (len : Z) : M mem Z :=
  match pdu with
  | None => mret 0
  | Some pdu =>
    set8 pdu ATT_OP_READ_BLOB_REQ;; put_le16 handle (padd pdu 1);; put_le16 offset (padd pdu 3);; mret 5
  end.

Definition dec_read_req (pdu : option ptr) (len : Z) (handle : option Z) : M mem (Z * option Z) :=
  let fail := mret (0, handle) in
  let min_len := 3 in
  match pdu with
  | None => fail
  | Some pdu =>
    if null handle then fail else
    if len <? min_len then fail else
    op ← get8 pdu;
    if negb (op =? ATT_OP_READ_REQ) then fail else
    h ← get_le16 (padd pdu 1); handle ← assign handle h;
    mret (min_len, handle)
  end.

Definition dec_read_blob_req (pdu : option ptr) (len : Z) (handle offset : option Z) : M mem (Z * option Z * option Z) :=
  let fail := mret (0, handle, offset) in
  let min_len := 5 in
  match pdu with
  | None => fail
  | Some pdu =>
    if null handle then fail else
    if null offset then fail else
    if len <? min_len then fail else
    op ← get8 pdu;
    if negb (op =? ATT_OP_READ_BLOB_REQ) then fail else
    h ← get_le16 (padd pdu 1); handle ← assign handle h;
    o ← get_le16 (padd pdu 3); offset ← assign offset o;
    mret (min_len, handle, offset)
  end.

Definition enc_read_resp (value : option ptr) (vlen : Z) (pdu : option ptr) (len : Z) : M mem Z :=
  match pdu with
  | None => mret 0
  | Some pdu =>
    let vlen := cut_vlen vlen len 1 in
    set8 pdu ATT_OP_READ_RESP;;
    copy_from (padd pdu 1) value vlen;;
    mret (to_ushort (vlen + 1))
  end.

Definition enc_read_blob_resp (value : option ptr) (vlen offset : Z) (pdu : option ptr) (len : Z) : M mem Z :=
  match pdu with
  | None => mret 0
  | Some pdu =>
    let vlen := cut_vlen (to_uint (vlen - offset)) len 1 in
    set8 pdu ATT_OP_READ_BLOB_RESP;;
    value ← lift value;
    memcpy (padd pdu 1) (padd value offset) vlen;;
    mret (to_ushort (vlen + 1))
  end.

(** The result is an [ssize_t]. *)
Definition dec_read_resp (pdu : option ptr) (len : Z) (value : option ptr) (vlen : Z) : M mem Z :=
  match pdu with
  | None => mret (- EINVAL)
  | Some pdu =>
    op ← get8 pdu;
    if negb (op =? ATT_OP_READ_RESP) then mret (- EINVAL) else
    match value with
    | None => mret (to_int (len - 1))
    | Some _ =>
      if vlen <? to_uint (len - 1) then mret (- ENOBUFS) else
      copy_to value (padd pdu 1) (to_uint (len - 1));;
      mret (to_int (len - 1))
    end
  end.

Definition enc_error_resp (opcode handle status : Z) (pdu : option ptr) (len : Z) : M mem Z :=
  pdu ← lift pdu;
  set8 pdu ATT_OP_ERROR;;
  set8 (padd pdu 1) opcode;;
  put_le16 handle (padd pdu 2);;
  set8 (padd pdu 4) status;;
  mret 5.

(** ** Find Information *)

Definition enc_find_info_req (start end_ : Z) (pdu : option ptr) (len : Z) : M mem Z :=
  match pdu with
  | None => mret 0
  | Some pdu =>
    set8 pdu ATT_OP_FIND_INFO_REQ;; put_le16 start (padd pdu 1);; put_le16 end_ (padd pdu 3);; mret 5
  end.

Definition dec_find_info_req (pdu : option ptr) (len : Z) (start end_ : option Z) : M mem (Z * option Z * option Z) :=
  let fail := mret (0, start, end_) in
  let min_len := 5 in
  match pdu with
  | None => fail
  | Some pdu =>
    if len <? min_len then fail else
    if null start || null end_ then fail else
    op ← get8 pdu;
    if negb (op =? ATT_OP_FIND_INFO_REQ) then fail else
    s ← get_le16 (padd pdu 1); start ← assign start s;
    e ← get_le16 (padd pdu 3); end_ ← assign end_ e;
    mret (min_len, start, end_)
  end.

Definition enc_find_info_resp (format : Z) (list_ : option att_data_list) (pdu : option ptr) (len : Z) : M mem Z :=
  match pdu, list_ with
  | Some pdu, Some l =>
    if len <? dl_len l + 2 then mret 0 else
    set8 pdu ATT_OP_FIND_INFO_RESP;;
    set8 (padd pdu 1) format;;
    w ← put_entries to_uint (dl_len l) len (Z.to_nat (dl_num l)) 0 (dl_data l) (padd pdu 2) 2;
    mret (to_ushort w)
  | _, _ => mret 0
  end.

Definition dec_find_info_resp (pdu : option ptr) (len : Z) (format : option Z)
    : M mem (option att_data_list * option Z) :=
  match pdu with
  | None => mret (None, format)
  | Some pdu =>
    if null format then mret (None, format) else
    op ← get8 pdu;
    if negb (op =? ATT_OP_FIND_INFO_RESP) then mret (None, format) else
    f ← get8 (padd pdu 1); format ← assign format f;
    let elen := if f =? 0x01 then 2 + 2 else if f =? 0x02 then 2 + 16 else 2 in
    list_ ← dec_entries (to_ushort (to_uint (len - 2) / elen)) elen (padd pdu 2);
    mret (list_, format)
  end.

(** ** Notifications and indications *)

Definition enc_notification (handle : Z) (value : option ptr) (vlen : Z) (pdu : option ptr) (len : Z) : M mem Z :=
  let min_len := 3 in
  match pdu with
  | None => mret 0
  | Some pdu =>
    if len <? to_uint (vlen + min_len) then mret 0 else
    set8 pdu ATT_OP_HANDLE_NOTIFY;;
    put_le16 handle (padd pdu 1);;
    copy_from (padd pdu 3) value vlen;;
    mret (to_ushort (vlen + min_len))
  end.

Definition enc_indication (handle : Z) (value : option ptr) (vlen : Z) (pdu : option ptr) (len : Z) : M mem Z :=
  let min_len := 3 in
  match pdu with
  | None => mret 0
  | Some pdu =>
    if len <? to_uint (vlen + min_len) then mret 0 else
    set8 pdu ATT_OP_HANDLE_IND;;
    put_le16 handle (padd pdu 1);;
    copy_from (padd pdu 3) value vlen;;
    mret (to_ushort (vlen + min_len))
  end.

Definition dec_indication (pdu : option ptr) (len : Z) (handle : option Z) (value : option ptr) (vlen : Z)
    : M mem (Z * option Z) :=
  let min_len := 3 in
  match pdu with
  | None => mret (0, handle)
  | Some pdu =>
    op ← get8 pdu;
    if negb (op =? ATT_OP_HANDLE_IND) then mret (0, handle) else
    if len <? min_len then mret (0, handle) else
    let dlen := to_ushort (Z.min (len - min_len) vlen) in
    handle ← (match handle with None => mret None | Some _ => h ← get_le16 (padd pdu 1); assign handle h end);
    copy_to value (padd pdu 3) dlen;;
    mret (dlen, handle)
  end.

Definition enc_confirmation (pdu : option ptr) (len : Z) : M mem Z :=
  match pdu with None => mret 0 | Some pdu => set8 pdu ATT_OP_HANDLE_CNF;; mret 1 end.

(** ** Exchange MTU *)

Definition enc_mtu_req (mtu : Z) (pdu : option ptr) (len : Z) : M mem Z :=
  match pdu with
  | None => mret 0
  | Some pdu => set8 pdu ATT_OP_MTU_REQ;; put_le16 mtu (padd pdu 1);; mret 3
  end.

Definition dec_mtu_req (pdu : option ptr) (len : Z) (mtu : option Z) : M mem (Z * option Z) :=
  let fail := mret (0, mtu) in
  let min_len := 3 in
  match pdu with
  | None => fail
  | Some pdu =>
    if null mtu then fail else
    if len <? min_len then fail else
    op ← get8 pdu;
    if negb (op =? ATT_OP_MTU_REQ) then fail else
    v ← get_le16 (padd pdu 1); mtu ← assign mtu v;
    mret (min_len, mtu)
  end.

Definition enc_mtu_resp (mtu : Z) (pdu : option ptr) (len : Z) : M mem Z :=
  match pdu with
  | None => mret 0
  | Some pdu => set8 pdu ATT_OP_MTU_RESP;; put_le16 mtu (padd pdu 1);; mret 3
  end.

Definition dec_mtu_resp (pdu : option ptr) (len : Z) (mtu : option Z) : M mem (Z * option Z) :=
  let fail := mret (0, mtu) in
  let min_len := 3 in
  match pdu with
  | None => fail
  | Some pdu =>
    if null mtu then fail else
    if len <? min_len then fail else
    op ← get8 pdu;
    if negb (op =? ATT_OP_MTU_RESP) then fail else
    v ← get_le16 (padd pdu 1); mtu ← assign mtu v;
    mret (min_len, mtu)
  end.

(** ** Queued writes *)

Definition enc_prep_write_req (handle offset : Z) (value : option ptr) (vlen : Z) (pdu : option ptr) (len : Z) : M mem Z :=
  let min_len := 5 in
  match pdu with
  | None => mret 0
  | Some pdu =>
    let vlen := cut_vlen vlen len min_len in
    set8 pdu ATT_OP_PREP_WRITE_REQ;;
    put_le16 handle (padd pdu 1);;
    put_le16 offset (padd pdu 3);;
    if 0 <? vlen then copy_from (padd pdu 5) value vlen;; mret (to_ushort (min_len + vlen))
    else mret min_len
  end.

Definition dec_prep_write_req (pdu : option ptr) (len : Z) (handle offset : option Z) (value : option ptr)
    (vlen : option Z) : M mem (Z * option Z * option Z * option Z) :=
  let fail := mret (0, handle, offset, vlen) in
  let min_len := 5 in
  match pdu with
  | None => fail
  | Some pdu =>
    if null handle || null offset || null value || null vlen then fail else
    if len <? min_len then fail else
    op ← get8 pdu;
    if negb (op =? ATT_OP_PREP_WRITE_REQ) then fail else
    h ← get_le16 (padd pdu 1); handle ← assign handle h;
    o ← get_le16 (padd pdu 3); offset ← assign offset o;
    vlen ← assign vlen (len - min_len);
    (if 0 <? len - min_len then copy_to value (padd pdu min_len) (len - min_len) else mret tt);;
    mret (to_ushort len, handle, offset, vlen)
  end.

Definition enc_prep_write_resp (handle offset : Z) (value : option ptr) (vlen : Z) (pdu : option ptr) (len : Z) : M mem Z :=
  let min_len := 5 in
  match pdu with
  | None => mret 0
  | Some pdu =>
    let vlen := cut_vlen vlen len min_len in
    set8 pdu ATT_OP_PREP_WRITE_RESP;;
    put_le16 handle (padd pdu 1);;
    put_le16 offset (padd pdu 3);;
    if 0 <? vlen then copy_from (padd pdu 5) value vlen;; mret (to_ushort (min_len + vlen))
    else mret min_len
  end.

Definition dec_prep_write_resp (pdu : option ptr) (len : Z) (handle offset : option Z) (value : option ptr)
    (vlen : option Z) : M mem (Z * option Z * option Z * option Z) :=
  let fail := mret (0, handle, offset, vlen) in
  let min_len := 5 in
  match pdu with
  | None => fail
  | Some pdu =>
    if null handle || null offset || null value || null vlen then fail else
    if len <? min_len then fail else
    op ← get8 pdu;
    if negb (op =? ATT_OP_PREP_WRITE_REQ) then fail else
    h ← get_le16 (padd pdu 1); handle ← assign handle h;
    o ← get_le16 (padd pdu 3); offset ← assign offset o;
    vlen ← assign vlen (len - min_len);
    (if 0 <? len - min_len then copy_to value (padd pdu min_len) (len - min_len) else mret tt);;
    mret (to_ushort len, handle, offset, vlen)
  end.

Definition enc_exec_write_req (flags : Z) (pdu : option ptr) (len : Z) : M mem Z :=
  match pdu with
  | None => mret 0
  | Some pdu =>
    if 1 <? flags then mret 0 else
    set8 pdu ATT_OP_EXEC_WRITE_REQ;; set8 (padd pdu 1) flags;; mret 2
  end.

Definition dec_exec_write_req (pdu : option ptr) (len : Z) (flags : option Z) : M mem (Z * option Z) :=
  let fail := mret (0, flags) in
  let min_len := 2 in
  match pdu with
  | None => fail
  | Some pdu =>
    if null flags then fail else
    if len <? min_len then fail else
    op ← get8 pdu;
    if negb (op =? ATT_OP_EXEC_WRITE_REQ) then fail else
    f ← get8 (padd pdu 1); flags ← assign flags f;
    mret (min_len, flags)
  end.

Definition enc_exec_write_resp (pdu : option ptr) : M mem Z :=
  match pdu with None => mret 0 | Some pdu => set8 pdu ATT_OP_EXEC_WRITE_RESP;; mret 1 end.

Definition dec_exec_write_resp (pdu : option ptr) (len : Z) : M mem Z :=
  match pdu with
  | None => mret 0
  | Some pdu =>
    if len <? 1 then mret 0 else
    op ← get8 pdu;
    if negb (op =? ATT_OP_EXEC_WRITE_RESP) then mret 0 else mret (to_ushort len)
  end.
End Definitions.
