(* ===== verification/AttSpec.v ===== *)
(** * AttSpec: the Attribute Protocol over Att.v

    PDUs as data with their bytes, that the encoders write these bytes, and that the
    decoders read them back. *)
From Stdlib Require Import ZifyBool.
From S2P Require Import Prelude CMem Subscribe Att.

(** ** The protocol: PDUs and their bytes *)

Inductive uuid := U16 (v : Z) | U128 (be : list Z).

Inductive apdu :=
  | ErrorResp (opcode handle status : Z)
  | MtuReq (mtu : Z) | MtuResp (mtu : Z)
  | FindInfoReq (s e : Z)
  | FindByTypeReq (s e t : Z) (v : list Z)
  | ReadByTypeReq (s e : Z) (u : uuid) | ReadByGroupReq (s e : Z) (u : uuid)
  | ReadReq (h : Z) | ReadResp (v : list Z)
  | ReadBlobReq (h o : Z) | ReadBlobResp (o : Z) (v : list Z)
  | WriteReq (h : Z) (v : list Z) | WriteResp | WriteCmd (h : Z) (v : list Z)
  | SignedWriteCmd (h : Z) (v signature : list Z)
  | PrepWriteReq (h o : Z) (v : list Z) | PrepWriteResp (h o : Z) (v : list Z)
  | ExecWriteReq (flags : Z) | ExecWriteResp
  | Notification (h : Z) (v : list Z) | Indication (h : Z) (v : list Z) | Confirmation.

Definition le16 (v : Z) : list Z := [v mod 256; (v / 256) mod 256].
Definition uuid_wire (u : uuid) : list Z := match u with U16 v => le16 v | U128 be => rev be end.

Definition wire (p : apdu) : list Z :=
  match p with
  | ErrorResp op h st => 0x01 :: op :: le16 h ++ [st]
  | MtuReq n => 0x02 :: le16 n
  | MtuResp n => 0x03 :: le16 n
  | FindInfoReq s e => 0x04 :: le16 s ++ le16 e
  | FindByTypeReq s e t v => 0x06 :: le16 s ++ le16 e ++ le16 t ++ v
  | ReadByTypeReq s e u => 0x08 :: le16 s ++ le16 e ++ uuid_wire u
  | ReadByGroupReq s e u => 0x10 :: le16 s ++ le16 e ++ uuid_wire u
  | ReadReq h => 0x0A :: le16 h
  | ReadResp v => 0x0B :: v
  | ReadBlobReq h o => 0x0C :: le16 h ++ le16 o
  | ReadBlobResp o v => 0x0D :: drop (Z.to_nat o) v
  | WriteReq h v => 0x12 :: le16 h ++ v
  | WriteResp => [0x13]
  | WriteCmd h v => 0x52 :: le16 h ++ v
  | SignedWriteCmd h v sg => 0xD2 :: le16 h ++ v ++ sg
  | PrepWriteReq h o v => 0x16 :: le16 h ++ le16 o ++ v
  | PrepWriteResp h o v => 0x17 :: le16 h ++ le16 o ++ v
  | ExecWriteReq f => [0x18; f]
  | ExecWriteResp => [0x19]
  | Notification h v => 0x1B :: le16 h ++ v
  | Indication h v => 0x1D :: le16 h ++ v
  | Confirmation => [0x1E]
  end.

(** The attribute value a PDU carries. *)
Definition payload (p : apdu) : list Z :=
  match p with
  | FindByTypeReq _ _ _ v | ReadResp v | ReadBlobResp _ v | WriteReq _ v | WriteCmd _ v | SignedWriteCmd _ v _
  | PrepWriteReq _ _ v | PrepWriteResp _ _ v | Notification _ v | Indication _ v => v
  | _ => []
  end.

Definition u16 (z : Z) : Prop := 0 <= z < 65536.
Definition wf_uuid (u : uuid) : Prop := match u with U16 v => u16 v | U128 be => length be = 16%nat end.

(** The fields are within their widths. *)
Definition wf (p : apdu) : Prop :=
  match p with
  | ErrorResp op h st => byte op /\ u16 h /\ byte st
  | MtuReq n | MtuResp n => u16 n
  | FindInfoReq s e => u16 s /\ u16 e
  | FindByTypeReq s e t _ => u16 s /\ u16 e /\ u16 t
  | ReadByTypeReq s e u | ReadByGroupReq s e u => u16 s /\ u16 e /\ wf_uuid u
  | ReadReq h => u16 h
  | ReadResp _ => True
  | ReadBlobReq h o => u16 h /\ u16 o
  | ReadBlobResp o v => u16 o /\ o <= Z.of_nat (length v)
  | WriteReq h _ | WriteCmd h _ | Notification h _ | Indication h _ => u16 h
  | SignedWriteCmd h _ sg => u16 h /\ length sg = 12%nat
  | PrepWriteReq h o _ | PrepWriteResp h o _ => u16 h /\ u16 o
  | ExecWriteReq f => 0 <= f <= 1
  | WriteResp | ExecWriteResp | Confirmation => True
  end.

(** What is sent of a PDU that has to fit [n] bytes: the value is cut, or the PDU refused. *)
Definition cut (n hdr : Z) (v : list Z) : list Z := take (Z.to_nat (n - hdr)) v.
Definition fit (n : Z) (p : apdu) : option apdu :=
  match p with
  | FindByTypeReq s e t v => Some (FindByTypeReq s e t (cut n 7 v))
  | ReadResp v => Some (ReadResp (cut n 1 v))
  | ReadBlobResp o v => Some (ReadBlobResp o (take (Z.to_nat o + Z.to_nat (n - 1)) v))
  | WriteReq h v => Some (WriteReq h (cut n 3 v))
  | WriteCmd h v => Some (WriteCmd h (cut n 3 v))
  | SignedWriteCmd h v sg => Some (SignedWriteCmd h (cut n 15 v) sg)
  | PrepWriteReq h o v => Some (PrepWriteReq h o (cut n 5 v))
  | PrepWriteResp h o v => Some (PrepWriteResp h o (cut n 5 v))
  | Notification h v => if n <? 3 + Z.of_nat (length v) then None else Some p
  | Indication h v => if n <? 3 + Z.of_nat (length v) then None else Some p
  | _ => Some p
  end.

(** The bytes a PDU takes without its value. *)
Definition overhead (p : apdu) : Z :=
  match p with
  | ErrorResp _ _ _ | FindInfoReq _ _ | ReadBlobReq _ _ | PrepWriteReq _ _ _ | PrepWriteResp _ _ _ => 5
  | MtuReq _ | MtuResp _ | ReadReq _ | WriteReq _ _ | WriteCmd _ _ | Notification _ _ | Indication _ _ => 3
  | FindByTypeReq _ _ _ _ => 7
  | ReadByTypeReq _ _ u | ReadByGroupReq _ _ u => match u with U16 _ => 7 | U128 _ => 21 end
  | ReadResp _ | ReadBlobResp _ _ | WriteResp | ExecWriteResp | Confirmation => 1
  | SignedWriteCmd _ _ _ => 15
  | ExecWriteReq _ => 2
  end.

(** What the libraries promise. *)
Class AttLibsOk `{AttLibs} := {
  uuid_types_differ : BT_UUID16 <> BT_UUID128;
  uuid16_type v : uuid_type (bt_uuid16_create v) = BT_UUID16;
  uuid16_value v : u16 v -> value_u16 (bt_uuid16_create v) = v;
  uuid128_type be : uuid_type (bt_uuid128_create be) = BT_UUID128;
  uuid128_value be : length be = 16%nat -> value_u128 (bt_uuid128_create be) = be;
  bswap_128_rev bs : length bs = 16%nat -> bswap_128 bs = rev bs;
  g_malloc0_spec n m : 0 < n -> exists b, m !! b = None /\
    g_malloc0 n m = Some (Some (Ptr b 0), <[b := replicate (Z.to_nat n) 0]> m);
  g_free_spec b (m : mem) : is_Some (m !! b) -> g_free (Some (Ptr b 0)) m = Some (tt, delete b m);
  g_slist_append_spec l x : g_slist_append l x = l ++ [x];
  sign_att_length c key msg n sg : bt_crypto_sign_att c key msg n = Some sg -> length sg = 12%nat
}.

Definition uuid_of `{AttLibs} (u : uuid) : bt_uuid_t :=
  match u with U16 v => bt_uuid16_create v | U128 be => bt_uuid128_create be end.

(** ** Reading *)

Lemma run_get8 m p x bs : at_bytes m p (x :: bs) -> get8 p m = Some (x, m).
Proof. intros Hm. unfold get8, get, lift, mbind, M_bind, option_bind. by rewrite (at_bytes_load _ _ _ _ Hm). Qed.

Lemma run_get_le16 m p v bs : u16 v -> at_bytes m p (le16 v ++ bs) -> get_le16 p m = Some (v, m).
Proof.
  intros Hv [Hm _]%at_bytes_app. unfold get_le16, get, lift, mbind, M_bind, option_bind.
  rewrite (at_bytes_load_bytes m p (le16 v)) by done. unfold le16, mret, M_ret. do 2 f_equal.
  unfold u16 in Hv. rewrite (Z.mod_small (v / 256)) 
    by (split; [apply Z.div_pos; lia|apply Z.div_lt_upper_bound; lia]).
  pose proof (Z.div_mod v 256). lia.
Qed.

Lemma run_copy_to m d src bs n m' :
  at_bytes m src bs -> n = Z.of_nat (length bs) -> store_bytes m d bs = Some m' -> copy_to (Some d) src n m = Some (tt, m').
Proof.
  intros Hm -> Hs. unfold copy_to, memcpy, get, lift, stores, mbind, M_bind, option_bind.
  by rewrite (at_bytes_load_bytes m src bs _ Hm eq_refl), Hs.
Qed.

Lemma run_assign {A} (o : A) v (m : mem) : assign (Some o) v m = Some (Some v, m).
Proof. done. Qed.

Ltac assigned := erewrite M_bind_Some by apply run_assign; cbn beta.

(** Run the reads of a decoder: opcodes and 16-bit fields from the front of [Hm]. *)
Ltac read8 Hm := erewrite M_bind_Some by (eapply run_get8, Hm); cbn beta; apply at_bytes_cons in Hm as [_ Hm].
Ltac read16 Hm :=
  erewrite M_bind_Some by (eapply run_get_le16; [|exact Hm]; tauto); cbn beta;
  apply at_bytes_app in Hm as [_ Hm]; rewrite padd_padd in Hm; assigned.

Ltac passes :=
  match goal with |- (if ?c then _ else _) _ = _ =>
    let E := fresh in
    assert (E : c = false) by (first [reflexivity|cbn [length app le16] in *; rewrite ?length_app in *; lia]);
    rewrite E; clear E; cbv iota
  end.

Section Protocol.
Context `{AttLibsOk} (crypto : nat) (csrk : ptr) (key : list Z) (sign_cnt : Z).

(** The encoder of each PDU. *)
Definition encode (p : apdu) (value : option ptr) (pdu : option ptr) (len : Z) : M mem Z :=
  let vlen := Z.of_nat (length (payload p)) in
  match p with
  | ErrorResp op h st => enc_error_resp op h st pdu len
  | MtuReq n => enc_mtu_req n pdu len
  | MtuResp n => enc_mtu_resp n pdu len
  | FindInfoReq s e => enc_find_info_req s e pdu len
  | FindByTypeReq s e t _ => enc_find_by_type_req s e (Some (bt_uuid16_create t)) value vlen pdu len
  | ReadByTypeReq s e u => enc_read_by_type_req s e (Some (uuid_of u)) pdu len
  | ReadByGroupReq s e u => enc_read_by_grp_req s e (Some (uuid_of u)) pdu len
  | ReadReq h => enc_read_req h pdu len
  | ReadResp _ => enc_read_resp value vlen pdu len
  | ReadBlobReq h o => enc_read_blob_req h o pdu len
  | ReadBlobResp o _ => enc_read_blob_resp value vlen o pdu len
  | WriteReq h _ => enc_write_req h value vlen pdu len
  | WriteResp => enc_write_resp pdu
  | WriteCmd h _ => enc_write_cmd h value vlen pdu len
  | SignedWriteCmd h _ _ => enc_signed_write_cmd h value vlen crypto csrk sign_cnt pdu len
  | PrepWriteReq h o _ => enc_prep_write_req h o value vlen pdu len
  | PrepWriteResp h o _ => enc_prep_write_resp h o value vlen pdu len
  | ExecWriteReq f => enc_exec_write_req f pdu len
  | ExecWriteResp => enc_exec_write_resp pdu
  | Notification h _ => enc_notification h value vlen pdu len
  | Indication h _ => enc_indication h value vlen pdu len
  | Confirmation => enc_confirmation pdu len
  end.

(** The signature is that of the PDU. *)
Definition signed (p : apdu) : Prop :=
  match p with
  | SignedWriteCmd h v sg => bt_crypto_sign_att crypto key (0xD2 :: le16 h ++ v) sign_cnt = Some sg
  | _ => True
  end.

(** ** Writing at a fixed place *)

(** In a memory like [m0] but for block [b], [f] stores [bs] at [p] and returns [r]. *)
Definition writes (b : nat) (m0 : mem) (p : ptr) (f : M mem Z) (bs : list Z) (r : Z) : Prop :=
  forall m, p_blk p = b -> agree_except b m0 m -> f m = m' ← store_bytes m p bs; Some (r, m').

Lemma writes_ret b m0 p r : writes b m0 p (mret r) [] r.
Proof. intros m _ _. done. Qed.

Lemma writes_stores b m0 p q bs k ks r :
  q = padd p (Z.of_nat (length bs)) -> writes b m0 q k ks r -> writes b m0 p (stores p bs;; k) (bs ++ ks) r.
Proof.
  intros -> Hk m Hp Ha. rewrite store_bytes_app_eq. unfold stores, mbind at 1, M_bind.
  destruct (store_bytes m p bs) as [m1|] eqn:Hs; [|done]. cbn [mbind option_bind]. apply Hk; [done|].
  eapply agree_except_trans; [done|]. rewrite <- Hp. by eapply store_bytes_agree.
Qed.

Lemma writes_set8 b m0 p q v k ks r :
  q = padd p 1 -> byte v -> writes b m0 q k ks r -> writes b m0 p (set8 p v;; k) (v :: ks) r.
Proof. intros -> Hv. unfold set8. rewrite to_uchar_id by done. by apply (writes_stores b m0 p _ [v]). Qed.

Lemma writes_le16 b m0 p q v k ks r :
  q = padd p 2 -> writes b m0 q k ks r -> writes b m0 p (put_le16 v p;; k) (le16 v ++ ks) r.
Proof. intros ->. by apply (writes_stores b m0 p _ (le16 v)). Qed.

Lemma writes_copy b m0 p q s n bs k ks r :
  q = padd p n -> at_bytes m0 s bs -> p_blk s <> b -> n = Z.of_nat (length bs) ->
  writes b m0 q k ks r -> writes b m0 p (copy_from p (Some s) n;; k) (bs ++ ks) r.
Proof.
  intros Hq Hs Hb -> Hk m Hp Ha. pose proof (writes_stores b m0 p q bs k ks r Hq Hk m Hp Ha) as <-.
  unfold copy_from, memcpy, get, lift, mbind, M_bind, option_bind.
  by rewrite (at_bytes_load_bytes m s bs _ ltac:(by eapply at_bytes_agree) eq_refl).
Qed.

Lemma writes_app_nil b m0 p f bs r : writes b m0 p f (bs ++ []) r -> writes b m0 p f bs r.
Proof. by rewrite app_nil_r. Qed.

Lemma writes_set8_end b m0 p v r : byte v -> writes b m0 p (set8 p v;; mret r) [v] r.
Proof. intros. by eapply writes_set8; [done..|apply writes_ret]. Qed.

Lemma writes_le16_end b m0 p v r : writes b m0 p (put_le16 v p;; mret r) (le16 v) r.
Proof. apply writes_app_nil. by eapply writes_le16; [done|apply writes_ret]. Qed.

(** ** Cutting the value *)

Lemma cut_vlen_spec v len hdr :
  0 <= hdr -> hdr <= len < 65536 -> cut_vlen (Z.of_nat (length v)) len hdr = Z.of_nat (length (cut len hdr v)).
Proof.
  intros. unfold cut_vlen, cut. rewrite to_uint_id, length_take by lia. destruct (Z.ltb_spec (len - hdr) (Z.of_nat (length v))); lia.
Qed.

Lemma at_bytes_take m p v n : at_bytes m p v -> at_bytes m p (take n v).
Proof. rewrite <- (take_drop n v) at 1. by intros [? _]%at_bytes_app. Qed.

Lemma cut_length v len hdr : hdr <= len -> Z.of_nat (length (cut len hdr v)) <= len - hdr.
Proof. intros. unfold cut. rewrite length_take. lia. Qed.

(** The tail of the encoders that cut the value. *)
Lemma writes_value b m0 p s v len hdr :
  0 <= hdr -> hdr <= len < 65536 -> at_bytes m0 s v -> p_blk s <> b ->
  writes b m0 p
    (let vlen := cut_vlen (Z.of_nat (length v)) len hdr in
     if 0 <? vlen then copy_from p (Some s) vlen;; mret (to_ushort (hdr + vlen)) else mret hdr)
    (cut len hdr v) (hdr + Z.of_nat (length (cut len hdr v))).
Proof.
  intros Hh Hl Hv Hb. rewrite cut_vlen_spec by done. cbv zeta. pose proof (cut_length v len hdr ltac:(lia)).
  destruct (Z.ltb_spec 0 (Z.of_nat (length (cut len hdr v)))).
  - rewrite to_ushort_id by lia. apply writes_app_nil.
    eapply writes_copy; [done|by apply at_bytes_take|done|done|apply writes_ret].
  - destruct (cut len hdr v) as [|x l]; [|cbn [length] in *; lia]. replace (hdr + Z.of_nat (length [])) with hdr by (simpl; lia).
    apply writes_ret.
Qed.

Lemma writes_uuid b m0 p u r : wf_uuid u -> writes b m0 p (put_uuid_le (uuid_of u) p;; mret r) (uuid_wire u) r.
Proof.
  intros Hu. unfold put_uuid_le. destruct u as [v|be]; simpl in *.
  - rewrite uuid16_type, Z.eqb_refl, uuid16_value by done. apply writes_le16_end.
  - rewrite uuid128_type, uuid128_value, bswap_128_rev by done. pose proof uuid_types_differ.
    destruct (Z.eqb_spec BT_UUID128 BT_UUID16); [congruence|].
    apply writes_app_nil. by eapply writes_stores; [done|apply writes_ret].
Qed.

Lemma writes_run m p f bs r : writes (p_blk p) m p f bs r -> f m = m' ← store_bytes m p bs; Some (r, m').
Proof. intros Hw. apply Hw; [done|apply agree_except_refl]. Qed.

(** Run through the stores of an encoder. *)
Ltac writes := repeat first
  [ apply writes_set8_end; first [done|unfold byte; lia]
  | apply writes_le16_end
  | apply writes_uuid; done
  | eapply writes_set8; [by rewrite ?padd_padd|first [done|unfold byte; lia]|]
  | eapply writes_le16; [by rewrite ?padd_padd|] ].

Lemma signed_write_spec h v sg m s pdu len :
  u16 h -> length sg = 12%nat -> 15 <= len < 65536 -> at_bytes m csrk key -> length key = 16%nat -> at_bytes m s v ->
  p_blk s <> p_blk pdu -> p_blk csrk <> p_blk pdu -> signed (SignedWriteCmd h (cut len 15 v) sg) ->
  enc_signed_write_cmd h (Some s) (Z.of_nat (length v)) crypto csrk sign_cnt (Some pdu) len m =
    m' ← store_bytes m pdu (wire (SignedWriteCmd h (cut len 15 v) sg));
    Some (Z.of_nat (length (wire (SignedWriteCmd h (cut len 15 v) sg))), m').
Proof.
  intros Hh Hsg Hlen Hkey Hkl Hv Hb Hb' Hsig. unfold enc_signed_write_cmd, ATT_SIGNATURE_LEN. cbv zeta.
  change (3 + 12) with 15. rewrite cut_vlen_spec by lia. pose proof (cut_length v len 15 ltac:(lia)) as Hcut.
  set (c := cut len 15 v) in *. set (msg := 0xD2 :: le16 h ++ c).
  assert (Hmsg : length msg = (3 + length c)%nat) by done.
  transitivity (m1 ← store_bytes m pdu msg; (m' ← get;
    key ← lift (load_bytes m' csrk 16); msg ← lift (load_bytes m' pdu (3 + Z.of_nat (length c)));
    match bt_crypto_sign_att crypto key msg sign_cnt with
    | None => mret 0
    | Some signature => stores (padd pdu (3 + Z.of_nat (length c))) signature;; mret (to_ushort (15 + Z.of_nat (length c)))
    end) m1).
  - assert (Hif : forall (k : M mem Z) m0, ((if 0 <? Z.of_nat (length c) then copy_from (padd pdu 3) (Some s) (Z.of_nat (length c))
        else mret tt);; k) m0 = (copy_from (padd pdu 3) (Some s) (Z.of_nat (length c));; k) m0).
    { intros k m0. destruct (Z.ltb_spec 0 (Z.of_nat (length c))); [done|]. by destruct c; [|cbn [length] in *; lia]. }
    unfold msg. change (0xD2 :: le16 h ++ c) with ([0xD2] ++ le16 h ++ c). rewrite !store_bytes_app_eq.
    unfold set8, put_le16, stores. unfold mbind at 1, M_bind at 1. change (to_uchar ATT_OP_SIGNED_WRITE_CMD) with 0xD2.
    destruct (store_bytes m pdu [0xD2]) as [m1|] eqn:H1; [|done]. cbn [mbind option_bind].
    unfold mbind at 1, M_bind at 1. change (padd pdu (Z.of_nat (length [0xD2]))) with (padd pdu 1). fold (le16 h).
    rewrite store_bytes_app_eq.
    destruct (store_bytes m1 (padd pdu 1) (le16 h)) as [m2|] eqn:H2; [|done]. cbn [mbind option_bind].
    setoid_rewrite Hif. rewrite padd_padd. change (1 + Z.of_nat (length (le16 h))) with 3.
    assert (Hc : at_bytes m2 s c).
    { apply at_bytes_take. eapply (at_bytes_agree (p_blk pdu) m); [|done..]. eapply agree_except_trans.
      - by eapply store_bytes_agree in H1.
      - by eapply store_bytes_agree in H2. }
    unfold copy_from, memcpy, get, lift, stores, mbind, M_bind, option_bind.
    rewrite (at_bytes_load_bytes m2 s c _ Hc eq_refl). by destruct (store_bytes m2 (padd pdu 3) c).
  - change (wire (SignedWriteCmd h c sg)) with (0xD2 :: le16 h ++ c ++ sg).
    replace (0xD2 :: le16 h ++ c ++ sg) with (msg ++ sg) by (unfold msg; cbn; by rewrite <- ?app_assoc).
    rewrite store_bytes_app_eq. destruct (store_bytes m pdu msg) as [m1|] eqn:H1; [|done]. cbn [mbind option_bind].
    pose proof (store_bytes_agree _ _ _ _ H1) as Hag. unfold get, lift, mbind, M_bind, option_bind.
    rewrite (at_bytes_load_bytes m1 csrk key 16) by (first [by eapply at_bytes_agree|lia]).
    rewrite (at_bytes_load_bytes m1 pdu msg) by (first [by eapply store_bytes_at|lia]).
    change (bt_crypto_sign_att crypto key msg sign_cnt = Some sg) in Hsig. rewrite Hsig.
    unfold stores, mbind, M_bind, option_bind. replace (3 + Z.of_nat (length c)) with (Z.of_nat (length msg)) by lia.
    destruct (store_bytes m1 _ sg); [|done]. unfold mret, M_ret.
    rewrite to_ushort_id, length_app by lia. do 2 f_equal. lia.
Qed.

Lemma writes_run_eq m p f bs r n :
  writes (p_blk p) m p f bs r -> r = n -> f m = m' ← store_bytes m p bs; Some (n, m').
Proof. intros Hw <-. by apply writes_run. Qed.

(** The two requests that end in a UUID. *)
Lemma uuid_request_writes b m0 pdu op s e u :
  byte op -> wf_uuid u ->
  writes b m0 pdu
    (if negb ((uuid_type (uuid_of u) =? BT_UUID16) || (uuid_type (uuid_of u) =? BT_UUID128)) then mret 0 else
     let uuid_len := if uuid_type (uuid_of u) =? BT_UUID16 then 2 else 16 in
     pdu ← lift (Some pdu);
     set8 pdu op;; put_le16 s (padd pdu 1);; put_le16 e (padd pdu 3);; put_uuid_le (uuid_of u) (padd pdu 5);;
     mret (5 + uuid_len))
    (op :: le16 s ++ le16 e ++ uuid_wire u) (Z.of_nat (length (op :: le16 s ++ le16 e ++ uuid_wire u))).
Proof.
  intros Hop Hu. pose proof uuid_types_differ. assert (Hw : forall n, writes b m0 pdu
    (set8 pdu op;; put_le16 s (padd pdu 1);; put_le16 e (padd pdu 3);; put_uuid_le (uuid_of u) (padd pdu 5);; mret n)
    (op :: le16 s ++ le16 e ++ uuid_wire u) n) by (intros n; writes).
  destruct u as [v|be]; cbn [uuid_of] in *.
  - rewrite uuid16_type, Z.eqb_refl. cbn [orb negb]. apply (Hw 7).
  - rewrite uuid128_type, Z.eqb_refl. destruct (Z.eqb_spec BT_UUID128 BT_UUID16); [congruence|]. cbn [orb negb].
    replace (Z.of_nat (length _)) with 21; [apply (Hw 21)|]. simpl in Hu. cbn [length app le16 uuid_wire]. rewrite length_rev. lia.
Qed.

Lemma notify_spec op h v m s pdu len :
  byte op -> len < 65536 -> Z.of_nat (length v) < 4294967293 -> at_bytes m s v -> p_blk s <> p_blk pdu ->
  (if len <? to_uint (Z.of_nat (length v) + 3) then mret 0 else
   set8 pdu op;; put_le16 h (padd pdu 1);; copy_from (padd pdu 3) (Some s) (Z.of_nat (length v));;
   mret (to_ushort (Z.of_nat (length v) + 3))) m =
  if len <? 3 + Z.of_nat (length v) then Some (0, m) else
  m' ← store_bytes m pdu (op :: le16 h ++ v); Some (Z.of_nat (length (op :: le16 h ++ v)), m').
Proof.
  intros Hop Hlen Hpl Hv Hb. rewrite to_uint_id by lia. rewrite (Z.add_comm _ 3).
  destruct (Z.ltb_spec len (3 + Z.of_nat (length v))); [done|]. rewrite to_ushort_id by lia.
  eapply writes_run_eq; [writes|].
  - apply writes_app_nil. eapply writes_copy; [done..|apply writes_ret].
  - cbn [length app le16]. lia.
Qed.

Lemma att_encode_run p m s pdu len :
  wf p -> overhead p <= len < 65536 -> Z.of_nat (length (payload p)) < 4294967293 ->
  at_bytes m s (payload p) -> p_blk s <> p_blk pdu ->
  at_bytes m csrk key -> length key = 16%nat -> p_blk csrk <> p_blk pdu ->
  (forall q, fit len p = Some q -> signed q) ->
  encode p (Some s) (Some pdu) len m =
    match fit len p with
    | None => Some (0, m)
    | Some q => m' ← store_bytes m pdu (wire q); Some (Z.of_nat (length (wire q)), m')
    end.
Proof.
  intros Hwf Hlen Hpl Hv Hb Hkey Hkl Hkb Hsig.
  destruct p; cbn [encode fit payload wf overhead] in *;
    try (apply (signed_write_spec h v signature); intuition; fail);
    try (apply writes_run; unfold enc_mtu_req, enc_mtu_resp, enc_find_info_req, enc_read_req, enc_read_blob_req,
      enc_write_resp, enc_exec_write_resp, enc_confirmation; writes; fail).
  - destruct Hwf as (Ho & Hh & Hst). apply writes_run. unfold enc_error_resp.
    eapply (writes_set8 _ _ pdu (padd pdu 1)); [done|done|]. eapply writes_set8; [by rewrite padd_padd|done|].
    eapply writes_le16; [by rewrite padd_padd|]. by apply writes_set8_end.
  - destruct Hwf as (Hs & He & Ht). eapply writes_run_eq; [unfold enc_find_by_type_req;
      rewrite uuid16_type, Z.eqb_refl, uuid16_value by done; cbn [negb]; writes; by apply writes_value|].
    cbn [length app le16 wire]. lia.
  - apply writes_run, (uuid_request_writes _ _ _ ATT_OP_READ_BY_TYPE_REQ); [done|tauto].
  - apply writes_run, (uuid_request_writes _ _ _ ATT_OP_READ_BY_GROUP_REQ); [done|tauto].
  - eapply writes_run_eq; [unfold enc_read_resp; rewrite cut_vlen_spec by lia; writes|].
    + apply writes_app_nil. eapply writes_copy; [done|by apply at_bytes_take|done|done|apply writes_ret].
    + pose proof (cut_length v len 1 ltac:(lia)). rewrite to_ushort_id by lia. cbn [wire length]. lia.
  - destruct Hwf as [Ho Hov]. set (n := (Z.to_nat o + Z.to_nat (len - 1))%nat).
    assert (Hcut : drop (Z.to_nat o) (take n v) = cut len 1 (drop (Z.to_nat o) v))
      by (unfold cut, n; rewrite take_drop_commute; done).
    assert (Hwire : wire (ReadBlobResp o (take n v)) = 0x0D :: cut len 1 (drop (Z.to_nat o) v)) by (cbn [wire]; by rewrite Hcut).
    rewrite Hwire. set (c := drop (Z.to_nat o) v) in *. unfold u16 in Ho.
    assert (Hc : Z.of_nat (length c) = Z.of_nat (length v) - o) by (unfold c; rewrite length_drop; lia).
    pose proof (cut_length c len 1 ltac:(lia)).
    eapply writes_run_eq; [unfold enc_read_blob_resp; rewrite (to_uint_id (_ - _)), <- Hc, cut_vlen_spec by lia; writes|].
    + apply writes_app_nil, (writes_copy _ _ _ (padd (padd pdu 1) (Z.of_nat (length (cut len 1 c)))) (padd s o));
        [done| |done|done|apply writes_ret].
      apply at_bytes_take. rewrite <- (take_drop (Z.to_nat o) v), at_bytes_app in Hv. destruct Hv as [_ Hv].
      rewrite length_take, Nat.min_l, Z2Nat.id in Hv by lia. done.
    + rewrite to_ushort_id by lia. cbn [length]. lia.
  - eapply writes_run_eq; [unfold enc_write_req; writes; by apply writes_value|cbn [length app le16 wire]; lia].
  - eapply writes_run_eq; [unfold enc_write_cmd; writes; by apply writes_value|cbn [length app le16 wire]; lia].
  - eapply writes_run_eq; [unfold enc_prep_write_req; writes; by apply writes_value|cbn [length app le16 wire]; lia].
  - eapply writes_run_eq; [unfold enc_prep_write_resp; writes; by apply writes_value|cbn [length app le16 wire]; lia].
  - apply writes_run. unfold enc_exec_write_req. destruct (Z.ltb_spec 1 flags); [lia|]. writes.
  - etransitivity; [apply (notify_spec ATT_OP_HANDLE_NOTIFY); [done|lia|done..]|]. by destruct (_ <? _).
  - etransitivity; [apply (notify_spec ATT_OP_HANDLE_IND); [done|lia|done..]|]. by destruct (_ <? _).
Qed.

(** ** Decoding *)

(** The PDUs att.c reads back: it has no decoder of an Error Response, a Read Blob Response, a Notification and a
    Confirmation, and the one of a Prepare Write Response refuses every one ([prep_write_resp_refused]). *)
Definition read_back (p : apdu) : bool :=
  match p with ErrorResp _ _ _ | ReadBlobResp _ _ | Notification _ _ | Confirmation | PrepWriteResp _ _ _ => false | _ => true end.

(** What the decoder of a PDU must give on its bytes at [pdu], with room for values at [out]
    and for signatures at [sig]. *)
Definition decodes (m : mem) (p : apdu) (pdu : ptr) (out sig : ptr) : Prop :=
  let len := Z.of_nat (length (wire p)) in
  let stored (v : list Z) (m' : mem) := store_bytes m out v = Some m' in
  match p with
  | MtuReq n => dec_mtu_req (Some pdu) len (Some 0) m = Some ((len, Some n), m)
  | MtuResp n => dec_mtu_resp (Some pdu) len (Some 0) m = Some ((len, Some n), m)
  | FindInfoReq s e => dec_find_info_req (Some pdu) len (Some 0) (Some 0) m = Some ((len, Some s, Some e), m)
  | FindByTypeReq s e t v => forall u0, exists m', stored v m' /\
      dec_find_by_type_req (Some pdu) len (Some 0) (Some 0) (Some u0) (Some out) (Some 0) m =
        Some ((len, Some s, Some e, Some (bt_uuid16_create t), Some (Z.of_nat (length v))), m')
  | ReadByTypeReq s e u => forall u0,
      dec_read_by_type_req (Some pdu) len (Some 0) (Some 0) (Some u0) m = Some ((len, Some s, Some e, Some (uuid_of u)), m)
  | ReadByGroupReq s e u => forall u0,
      dec_read_by_grp_req (Some pdu) len (Some 0) (Some 0) (Some u0) m = Some ((len, Some s, Some e, Some (uuid_of u)), m)
  | ReadReq h => dec_read_req (Some pdu) len (Some 0) m = Some ((len, Some h), m)
  | ReadResp v => forall vlen, exists m', stored v m' /\
      dec_read_resp (Some pdu) len None vlen m = Some (Z.of_nat (length v), m) /\
      dec_read_resp (Some pdu) len (Some out) vlen m =
        if vlen <? Z.of_nat (length v) then Some (- ENOBUFS, m) else Some (Z.of_nat (length v), m')
  | ReadBlobReq h o => dec_read_blob_req (Some pdu) len (Some 0) (Some 0) m = Some ((len, Some h, Some o), m)
  | WriteReq h v => exists m', stored v m' /\
      dec_write_req (Some pdu) len (Some 0) (Some out) (Some 0) m = Some ((len, Some h, Some (Z.of_nat (length v))), m')
  | WriteResp => dec_write_resp (Some pdu) len m = Some (len, m)
  | WriteCmd h v => exists m', stored v m' /\
      dec_write_cmd (Some pdu) len (Some 0) (Some out) (Some 0) m = Some ((len, Some h, Some (Z.of_nat (length v))), m')
  | SignedWriteCmd h v sg => exists m1 m', stored v m1 /\ store_bytes m1 sig sg = Some m' /\
      dec_signed_write_cmd (Some pdu) len (Some 0) (Some out) (Some 0) sig m = Some ((len, Some h, Some (Z.of_nat (length v))), m')
  | PrepWriteReq h o v => exists m', stored v m' /\
      dec_prep_write_req (Some pdu) len (Some 0) (Some 0) (Some out) (Some 0) m =
        Some ((len, Some h, Some o, Some (Z.of_nat (length v))), m')
  | ExecWriteReq f => dec_exec_write_req (Some pdu) len (Some 0) m = Some ((len, Some f), m)
  | ExecWriteResp => dec_exec_write_resp (Some pdu) len m = Some (len, m)
  | Indication h v => exists m', stored v m' /\
      dec_indication (Some pdu) len (Some 0) (Some out) (Z.of_nat (length v)) m = Some ((Z.of_nat (length v), Some h), m')
  | ErrorResp _ _ _ | ReadBlobResp _ _ | Notification _ _ | Confirmation | PrepWriteResp _ _ _ => False
  end.

(** The length of a PDU whose value [v] follows [n] bytes. *)
Ltac value_at n v :=
  match goal with |- context [Z.of_nat (length (?op :: ?w))] =>
    replace (Z.of_nat (length (op :: w))) with (n + Z.of_nat (length v)) in *
      by (cbn [length app le16]; rewrite ?length_app; lia)
  end;
  replace (n + Z.of_nat (length v) - n) with (Z.of_nat (length v)) by lia.

Lemma run_value m p out v m' :
  at_bytes m p v -> store_bytes m out v = Some m' ->
  (if 0 <? Z.of_nat (length v) then copy_to (Some out) p (Z.of_nat (length v)) else mret tt) m = Some (tt, m').
Proof.
  intros Hm Hs. destruct (Z.ltb_spec 0 (Z.of_nat (length v))); [by eapply run_copy_to|].
  destruct v; [|cbn [length] in *; lia]. by simplify_eq/=.
Qed.

Ltac store_value Hm Hst :=
  repeat assigned; erewrite M_bind_Some by (apply (run_value _ _ _ _ _ Hm Hst)); cbn beta; by rewrite to_ushort_id by lia.

Lemma run_get_uuid m p u u0 :
  wf_uuid u -> at_bytes m p (uuid_wire u) -> get_uuid (uuid_type (uuid_of u)) p (Some u0) m = Some (Some (uuid_of u), m).
Proof.
  intros Hu Hm. unfold get_uuid. pose proof uuid_types_differ. destruct u as [v|be]; cbn [uuid_of uuid_wire wf_uuid] in *.
  - rewrite uuid16_type, Z.eqb_refl. rewrite <- (app_nil_r (le16 v)) in Hm.
    erewrite M_bind_Some by (eapply run_get_le16; done). done.
  - rewrite uuid128_type. destruct (Z.eqb_spec BT_UUID128 BT_UUID16); [congruence|].
    unfold get, lift, mbind, M_bind, option_bind. rewrite (at_bytes_load_bytes m p (rev be)) by (rewrite ?length_rev, ?Hu; done).
    unfold assign, lift, mbind, M_bind, option_bind, mret, M_ret.
    rewrite bswap_128_rev, rev_involutive by (by rewrite length_rev). done.
Qed.

(** The length tells the width of the UUID. *)
Lemma uuid_length op s e u :
  wf_uuid u -> Z.of_nat (length (op :: le16 s ++ le16 e ++ uuid_wire u)) = match u with U16 _ => 7 | U128 _ => 21 end.
Proof. destruct u as [v|be]; [done|]. simpl. rewrite length_rev. lia. Qed.

Lemma uuid_by_length u :
  let len := match u with U16 _ => 7 | U128 _ => 21 end in
  negb ((len =? 5 + 2) || (len =? 5 + 16)) = false /\
  (if len =? 5 + 2 then BT_UUID16 else BT_UUID128) = uuid_type (uuid_of u) /\ to_ushort len = len.
Proof. destruct u; cbn [uuid_of]; by rewrite ?uuid16_type, ?uuid128_type. Qed.

Lemma signed_decode_ok h v sg m pdu out sig :
  u16 h -> length sg = 12%nat -> at_bytes m pdu (wire (SignedWriteCmd h v sg)) ->
  Z.of_nat (length (wire (SignedWriteCmd h v sg))) < 65536 ->
  room m out (Z.of_nat (length v)) -> room m sig 12 -> p_blk out <> p_blk pdu -> decodes m (SignedWriteCmd h v sg) pdu out sig.
Proof.
  intros Hh Hsg Hm Hlen Hr Hrs Hb. destruct (room_store m out v _ Hr) as [m1 Hs1]; [lia|].
  destruct (room_store m1 sig sg 12) as [m2 Hs2]; [by eapply store_bytes_room|lia|].
  cbn [decodes]. exists m1, m2. split; [done|]. split; [done|]. unfold dec_signed_write_cmd, ATT_SIGNATURE_LEN. cbn [wire] in *.
  replace (Z.of_nat (length (_ :: le16 h ++ v ++ sg))) with (15 + Z.of_nat (length v)) in *
    by (cbn [length app le16]; rewrite length_app; lia).
  change (3 + 12) with 15. replace (15 + Z.of_nat (length v) - 15) with (Z.of_nat (length v)) by lia.
  do 2 passes. read8 Hm. passes. assigned. read16 Hm. apply at_bytes_app in Hm as [Hv Hsig].
  erewrite M_bind_Some by (by eapply run_copy_to). cbn beta. rewrite padd_padd in Hsig.
  assert (Hsig1 : at_bytes m1 (padd pdu (3 + Z.of_nat (length v))) sg)
    by (eapply at_bytes_agree; [by eapply store_bytes_agree|done|exact Hsig]).
  erewrite M_bind_Some with (a := tt) (s' := m2).
  2: { unfold memcpy, get, lift, stores, mbind, M_bind, option_bind. by rewrite (at_bytes_load_bytes _ _ _ _ Hsig1) by lia; rewrite Hs2. }
  cbn beta. by rewrite to_ushort_id by lia.
Qed.

Lemma decode_ok p m pdu out sig :
  wf p -> read_back p = true -> at_bytes m pdu (wire p) -> Z.of_nat (length (wire p)) < 65536 ->
  room m out (Z.of_nat (length (payload p))) -> room m sig 12 -> p_blk out <> p_blk pdu -> p_blk sig <> p_blk pdu ->
  decodes m p pdu out sig.
Proof.
  intros Hwf Hback Hm Hlen Hr Hrs Hb Hbs.
  assert (Hst : exists m', store_bytes m out (payload p) = Some m') by (by eapply room_store).
  destruct Hst as [m' Hst].
  destruct p; cbn [decodes wf wire payload] in *; try done.
  - unfold dec_mtu_req. rewrite <- (app_nil_r (le16 mtu)) in Hm. do 2 passes. read8 Hm. passes. read16 Hm. done.
  - unfold dec_mtu_resp. rewrite <- (app_nil_r (le16 mtu)) in Hm. do 2 passes. read8 Hm. passes. read16 Hm. done.
  - unfold dec_find_info_req. rewrite <- (app_nil_r (le16 e)) in Hm. do 2 passes. read8 Hm. passes. read16 Hm. read16 Hm. done.
  - intros u0. exists m'. split; [done|]. unfold dec_find_by_type_req. value_at 7 v. passes. read8 Hm. passes. do 2 read16 Hm.
    erewrite M_bind_Some by (eapply run_get_le16; [|exact Hm]; tauto). cbn beta.
    apply at_bytes_app in Hm as [_ Hm]. rewrite padd_padd in Hm. store_value Hm Hst.
  - intros u0. unfold dec_read_by_type_req. rewrite uuid_length by tauto. passes.
    destruct (uuid_by_length u) as (-> & -> & ->). cbv iota. read8 Hm. passes. do 2 read16 Hm.
    erewrite M_bind_Some by (apply run_get_uuid; [tauto|exact Hm]). done.
  - intros u0. unfold dec_read_by_grp_req. rewrite uuid_length by tauto. passes. read8 Hm. passes.
    destruct (uuid_by_length u) as (-> & -> & ->). cbv iota. do 2 read16 Hm.
    erewrite M_bind_Some by (apply run_get_uuid; [tauto|exact Hm]). done.
  - unfold dec_read_req. rewrite <- (app_nil_r (le16 h)) in Hm. do 2 passes. read8 Hm. passes. read16 Hm. done.
  - intros vlen. exists m'. split; [done|]. unfold dec_read_resp. value_at 1 v.
    rewrite to_uint_id, to_int_id by (unfold INT_MIN, INT_MAX; lia). split; read8 Hm; passes; [done|].
    replace (1 + Z.of_nat (length v) - 1) with (Z.of_nat (length v)) by lia.
    destruct (vlen <? _); [done|]. erewrite M_bind_Some by (by eapply run_copy_to). done.
  - unfold dec_read_blob_req. rewrite <- (app_nil_r (le16 o)) in Hm. do 2 passes. read8 Hm. passes. do 2 read16 Hm. done.
  - exists m'. split; [done|]. unfold dec_write_req. value_at 3 v. do 2 passes. read8 Hm. passes. read16 Hm. store_value Hm Hst.
  - unfold dec_write_resp. read8 Hm. passes. done.
  - exists m'. split; [done|]. unfold dec_write_cmd. value_at 3 v. do 2 passes. read8 Hm. passes. read16 Hm.
    erewrite M_bind_Some by (by eapply run_copy_to). cbn beta. assigned. by rewrite to_ushort_id by lia.
  - apply signed_decode_ok; tauto.
  - exists m'. split; [done|]. unfold dec_prep_write_req. value_at 5 v. do 2 passes. read8 Hm. passes. do 2 read16 Hm. store_value Hm Hst.
  - unfold dec_exec_write_req. do 2 passes. read8 Hm. passes. read8 Hm. by assigned.
  - unfold dec_exec_write_resp. passes. read8 Hm. passes. done.
  - exists m'. split; [done|]. unfold dec_indication. value_at 3 v. read8 Hm. do 2 passes.
    replace (3 + Z.of_nat (length v) - 3) with (Z.of_nat (length v)) by lia. rewrite Z.min_id, to_ushort_id by lia.
    erewrite M_bind_Some by (erewrite M_bind_Some by (eapply run_get_le16; [|exact Hm]; tauto); apply run_assign). cbn beta.
    apply at_bytes_app in Hm as [_ Hm]. rewrite padd_padd in Hm. erewrite M_bind_Some by (by eapply run_copy_to). done.
Qed.

Lemma fit_length n p q : wf p -> fit n p = Some q -> overhead p <= n -> Z.of_nat (length (wire q)) <= n.
Proof.
  intros Hwf Hf Ho. destruct p; cbn [fit overhead wf] in *; repeat case_match; simplify_eq; try done; cbn [wire length app le16];
    rewrite ?length_app; try (pose proof (cut_length v n 7); pose proof (cut_length v n 5); pose proof (cut_length v n 3);
    pose proof (cut_length v n 15); pose proof (cut_length v n 1); cbn [length uuid_wire] in *; rewrite ?length_rev in *;
    simpl in *; rewrite ?length_drop, ?length_take in *; lia).
  all: destruct Hwf as (_ & _ & Hu); cbn [uuid_wire le16 length]; rewrite ?length_rev; simpl in Hu; lia.
Qed.

(** An encoder given room for [len] bytes writes the bytes of its PDU and no more than
    [len] of them, and returns their number; a value that does not fit is cut, a
    notification or indication refused with memory as it was. *)
Theorem att_encode_spec p m s pdu len :
  wf p -> overhead p <= len < 65536 -> Z.of_nat (length (payload p)) < 4294967293 ->
  at_bytes m s (payload p) -> p_blk s <> p_blk pdu -> at_bytes m csrk key -> length key = 16%nat -> p_blk csrk <> p_blk pdu ->
  (forall q, fit len p = Some q -> signed q) -> room m pdu len ->
  exists n m', encode p (Some s) (Some pdu) len m = Some (n, m') /\
    match fit len p with
    | None => n = 0 /\ m' = m
    | Some q => n = Z.of_nat (length (wire q)) /\ n <= len /\ at_bytes m' pdu (wire q) /\ agree_except (p_blk pdu) m m'
    end.
Proof.
  intros Hwf Hlen Hpl Hs Hb Hkey Hkl Hkb Hsig Hroom. rewrite att_encode_run by done.
  destruct (fit len p) as [q|] eqn:Hfit; [|by exists 0, m].
  pose proof (fit_length len p q Hwf Hfit ltac:(lia)) as Hq. destruct (room_store m pdu (wire q) len Hroom Hq) as [m' Hm'].
  rewrite Hm'. exists (Z.of_nat (length (wire q))), m'. split; [done|].
  split_and!; [done|done|by eapply store_bytes_at|by eapply store_bytes_agree].
Qed.

Lemma fit_kept n p q : fit n p = Some q ->
  (wf p -> read_back p = true -> wf q /\ read_back q = true) /\ (length (payload q) <= length (payload p))%nat.
Proof.
  destruct p; cbn [fit]; repeat case_match; intros [= <-]; cbn [wf read_back payload]; (split; [intros ?; try done; by split|]);
    unfold cut; rewrite ?length_take; lia.
Qed.

(** C38: what an encoder writes, the decoder of the same PDU reads back: every field, and the value byte for byte,
    cut to what fits in [len] bytes, as the encoder cut it ([q]; where the value fits, [q] is [p]).  This is for the
    seventeen PDUs of [read_back]: of the others with an encoder, four have no decoder in att.c, and
    the Prepare Write Response has one that refuses it; the responses that are lists are those of [att_list_roundtrip]. *)
Theorem att_roundtrip p q m s pdu len out sig :
  wf p -> read_back p = true -> overhead p <= len < 65536 -> fit len p = Some q -> signed q -> Z.of_nat (length (payload p)) < 4294967293 ->
  at_bytes m s (payload p) -> p_blk s <> p_blk pdu -> at_bytes m csrk key -> length key = 16%nat -> p_blk csrk <> p_blk pdu ->
  room m pdu len -> room m out (Z.of_nat (length (payload q))) -> p_blk out <> p_blk pdu ->
  room m sig 12 -> p_blk sig <> p_blk pdu ->
  exists m', encode p (Some s) (Some pdu) len m = Some (Z.of_nat (length (wire q)), m') /\ decodes m' q pdu out sig.
Proof.
  intros Hwf Hback Hlen Hfit Hsig Hpl Hs Hb Hkey Hkl Hkb Hroom Hout Hob Hsr Hsb.
  destruct (proj1 (fit_kept _ _ _ Hfit) Hwf Hback) as [Hwq Hbq].
  pose proof (fit_length len p q Hwf Hfit ltac:(lia)) as Hw.
  destruct (room_store m pdu (wire q) len Hroom Hw) as [m' Hm']. exists m'. split.
  - rewrite att_encode_run, Hfit by (try done; intros q' Hq; congruence). by rewrite Hm'.
  - apply decode_ok; [done|done|by eapply store_bytes_at|lia|by eapply store_bytes_room|by eapply store_bytes_room|done..].
Qed.

(** A Prepare Write Response is never accepted: [dec_prep_write_resp] wants the opcode of
    the request, so it refuses every response its own encoder writes. *)
Theorem prep_write_resp_refused h o v m s pdu len out handle offset vlen n :
  u16 h -> u16 o -> at_bytes m s v -> p_blk s <> p_blk pdu -> 5 <= len < 65536 -> room m pdu len ->
  exists m', enc_prep_write_resp h o (Some s) (Z.of_nat (length v)) (Some pdu) len m =
      Some (5 + Z.of_nat (length (cut len 5 v)), m') /\
    dec_prep_write_resp (Some pdu) n handle offset out vlen m' = Some ((0, handle, offset, vlen), m').
Proof.
  intros Hh Ho Hs Hb Hlen Hr. set (q := PrepWriteResp h o (cut len 5 v)).
  destruct (room_store m pdu (wire q) len Hr) as [m' Hm'].
  { apply (fit_length len (PrepWriteResp h o v) q); cbn; [done|done|lia]. }
  exists m'. split.
  - pose proof (writes_run m pdu (enc_prep_write_resp h o (Some s) (Z.of_nat (length v)) (Some pdu) len) (wire q)) as Hrun.
    rewrite (Hrun (5 + Z.of_nat (length (cut len 5 v)))), Hm'; [done|].
    unfold enc_prep_write_resp. writes. apply writes_value; try done; lia.
  - unfold dec_prep_write_resp. destruct handle, offset, out, vlen; try done. cbn [null orb].
    destruct (n <? 5); [done|]. apply store_bytes_at in Hm'.
    erewrite M_bind_Some by (by apply (run_get8 _ _ 0x17 (le16 h ++ le16 o ++ cut len 5 v))). done.
Qed.

(** A buffer shorter than the header does not bound the value: the room that is left wraps
    to a huge number and the whole value is written, whatever [len] says. *)
Theorem short_buffer_not_cut h v m s pdu len :
  0 <= len < 3 -> at_bytes m s v -> p_blk s <> p_blk pdu -> Z.of_nat (length v) < 65533 ->
  enc_write_req h (Some s) (Z.of_nat (length v)) (Some pdu) len m =
    m' ← store_bytes m pdu (wire (WriteReq h v)); Some (Z.of_nat (length (wire (WriteReq h v))), m').
Proof.
  intros Hlen Hs Hb Hv. apply writes_run. unfold enc_write_req.
  assert (Hcut : cut_vlen (Z.of_nat (length v)) len 3 = Z.of_nat (length v)).
  { unfold cut_vlen, to_uint. rewrite <- (Z_mod_plus_full _ 1), Z.mod_small by lia.
    destruct (Z.ltb_spec (len - 3 + 1 * 4294967296) (Z.of_nat (length v))); lia. }
  rewrite Hcut. cbv zeta. writes. destruct (Z.ltb_spec 0 (Z.of_nat (length v))).
  - apply writes_app_nil. eapply writes_copy; [done..|]. rewrite to_ushort_id by lia.
    replace (3 + Z.of_nat (length v)) with (Z.of_nat (length (wire (WriteReq h v)))) by (cbn [wire length app le16]; lia).
    apply writes_ret.
  - destruct v; [apply writes_ret|cbn [length] in *; lia].
Qed.
End Protocol.

(** ** Lists of attribute data *)
Section Lists.
Context `{AttLibsOk}.

(** The entries [es] lie behind the pointers [data]. *)
Definition arrays (m : mem) (data : list (option ptr)) (es : list (list Z)) : Prop :=
  Forall2 (fun p e => exists q, p = Some q /\ at_bytes m q e) data es.

(** None of the pointers is into block [b]. *)
Definition outside (b : nat) (data : list (option ptr)) : Prop := Forall (fun p => forall q, p = Some q -> p_blk q <> b) data.

(** How many entries of [l] bytes fit [n] bytes. *)
Definition fitting (n l : Z) (es : list (list Z)) : nat := Nat.min (length es) (Z.to_nat (n / l)).

Lemma fitting_cons n l e es : 0 < l <= n -> fitting n l (e :: es) = S (fitting (n - l) l es).
Proof.
  intros Hl. unfold fitting. replace (n / l) with ((n - l) / l + 1) by (rewrite <- Z_div_plus by lia; f_equal; lia).
  pose proof (Z.div_pos (n - l) l). cbn [length]. rewrite Z2Nat.inj_add by lia. lia.
Qed.

Lemma fitting_none n l es : 0 < l -> 0 <= n < l -> fitting n l es = 0%nat.
Proof. intros. unfold fitting. rewrite Z.div_small by lia. lia. Qed.

Lemma arr_get_app {A} (pre : list A) x post : arr_get (pre ++ x :: post) (Z.of_nat (length pre)) = Some x.
Proof. apply arr_get_in; [|lia]. by rewrite Nat2Z.id, list_lookup_middle. Qed.

Lemma put_entries_writes (wrap : Z -> Z) l len b m0 : forall es data pre dst w,
  (forall z, 0 <= z < 65536 -> wrap z = z) -> 0 < l < 65536 -> 0 <= w <= len -> len < 65536 ->
  arrays m0 data es -> outside b data -> Forall (fun e => Z.of_nat (length e) = l) es ->
  writes b m0 dst (put_entries wrap l len (length es) (Z.of_nat (length pre)) (pre ++ data) dst w)
    (concat (take (fitting (len - w) l es) es)) (w + Z.of_nat (fitting (len - w) l es) * l).
Proof.
  induction es as [|e es IH]; intros data pre dst w Hw Hl Hwl Hlen Ha Ho Hes.
  { cbn [length put_entries fitting]. rewrite take_nil. replace (w + _) with w by (cbn; lia). apply writes_ret. }
  inversion Ha as [|p e' data' es' (q & -> & He) Ha']; subst. inversion Ho as [|? ? Hq Ho']; subst. inversion Hes; subst.
  cbn [length put_entries].
  rewrite to_uint_id by lia. destruct (Z.ltb_spec len (w + Z.of_nat (length e))) as [Hlt|Hge].
  - rewrite fitting_none by lia. replace (w + Z.of_nat 0 * _) with w by lia. apply writes_ret.
  - rewrite fitting_cons, firstn_cons by lia. cbn [concat]. unfold writes. intros m Hp Hag. rewrite arr_get_app.
    eapply (writes_copy b m0 dst); [done|done|by apply Hq|done| |done|done].
    replace (Z.of_nat (length pre) + 1) with (Z.of_nat (length (pre ++ [Some q]))) by (rewrite length_app; cbn; lia).
    replace (pre ++ Some q :: data') with ((pre ++ [Some q]) ++ data') by (by rewrite <- app_assoc).
    rewrite Hw by lia. replace (len - w - Z.of_nat (length e)) with (len - (w + Z.of_nat (length e))) by lia.
    replace (w + Z.of_nat (S _) * Z.of_nat (length e)) with (w + Z.of_nat (length e) +
      Z.of_nat (fitting (len - (w + Z.of_nat (length e))) (Z.of_nat (length e)) es) * Z.of_nat (length e)) by lia.
    by apply IH; try lia.
Qed.

(** Blocks [bs] with the contents [es] besides the memory [m]. *)
Definition blocks (bs : list nat) (es : list (list Z)) : mem := list_to_map (zip bs es).
Definition pointers (bs : list nat) : list (option ptr) := map (fun b => Some (Ptr b 0)) bs.
Definition fresh_blocks (m : mem) (bs : list nat) : Prop := NoDup bs /\ Forall (fun b => m !! b = None) bs.

Lemma blocks_cons b bs e es m : blocks (b :: bs) (e :: es) ∪ m = <[b := e]> (blocks bs es ∪ m).
Proof. unfold blocks. cbn [zip zip_with list_to_map foldr]. by rewrite <- insert_union_l. Qed.

Lemma blocks_None bs es b : b ∉ bs -> blocks bs es !! b = None.
Proof.
  intros Hb. apply not_elem_of_list_to_map. intros Hin. apply Hb. apply list_elem_of_fmap in Hin as ([b' e] & -> & Hin).
  by apply elem_of_zip_l in Hin.
Qed.

Lemma blocks_Some bs es b : length bs = length es -> b ∈ bs -> is_Some (blocks bs es !! b).
Proof.
  intros Hl Hb. destruct (blocks bs es !! b) eqn:E; [by eexists|]. apply not_elem_of_list_to_map in E. exfalso. apply E.
  change ((zip bs es).*1) with (fst <$> zip bs es). by rewrite fst_zip by lia.
Qed.

(** New contents for the same blocks. *)
Lemma blocks_overwrite bs es zs m :
  length bs = length es -> blocks bs es ∪ (blocks bs zs ∪ m) = blocks bs es ∪ m.
Proof.
  intros Hl. apply map_eq. intros b. rewrite !lookup_union. destruct (decide (b ∈ bs)) as [Hb|Hb].
  - destruct (blocks_Some bs es b Hl Hb) as [x ->]. by destruct (blocks bs zs !! b), (m !! b).
  - by rewrite !blocks_None, !(left_id_L None _) by done.
Qed.

Lemma at_bytes_blocks m m' p bs : m' !! p_blk p = m !! p_blk p -> at_bytes m p bs -> at_bytes m' p bs.
Proof. unfold at_bytes, load_bytes. by intros ->. Qed.

Lemma alloc_entries_spec l k : forall data m, 0 < l ->
  exists bs, length bs = k /\ fresh_blocks m bs /\
    alloc_entries k l data m = Some (data ++ pointers bs, blocks bs (replicate k (replicate (Z.to_nat l) 0)) ∪ m).
Proof.
  induction k as [|k IH]; intros data m Hl.
  { exists []. split; [done|]. split; [split; [by apply NoDup_nil|done]|]. cbn. by rewrite app_nil_r, (left_id_L ∅ _). }
  destruct (g_malloc0_spec l m Hl) as (b & Hb & Hm). cbn [alloc_entries]. step Hm.
  set (m1 := <[b := replicate (Z.to_nat l) 0]> m). destruct (IH (data ++ [Some (Ptr b 0)]) m1 Hl) as (bs & Hlen & [Hnd Hf] & Hr).
  assert (Hin : b ∉ bs).
  { intros Hin. rewrite Forall_forall in Hf. specialize (Hf b Hin). unfold m1 in Hf. by rewrite lookup_insert_eq in Hf. }
  exists (b :: bs). split; [by simpl; rewrite Hlen|]. split.
  - split; [by apply NoDup_cons|]. apply Forall_cons. split; [done|]. apply Forall_forall. intros c Hc.
    rewrite Forall_forall in Hf. specialize (Hf c Hc). unfold m1 in Hf. by apply lookup_insert_None in Hf as [? _].
  - rewrite Hr. cbn [replicate]. rewrite blocks_cons, <- app_assoc. do 2 f_equal. unfold m1.
    rewrite <- insert_union_r by by apply blocks_None. done.
Qed.

Lemma store_whole (m : mem) b z e : m !! b = Some z -> length z = length e -> e <> [] ->
  store_bytes m (Ptr b 0) e = Some (<[b := e]> m).
Proof.
  intros Hz Hl He. destruct e as [|x e]; [done|]. unfold store_bytes. cbn [p_blk p_off]. rewrite Hz. cbn [mbind option_bind].
  rewrite decide_True by lia. unfold splice. cbn [Z.to_nat take app Nat.add].
  by rewrite drop_ge, app_nil_r by lia.
Qed.

Lemma take_entries_spec l : 0 < l -> forall es bs pre src m,
  at_bytes m src (concat es) -> p_blk src ∉ bs -> NoDup bs -> length bs = length es ->
  Forall (fun e => Z.of_nat (length e) = l) es ->
  Forall (fun b => exists z, m !! b = Some z /\ Z.of_nat (length z) = l) bs ->
  take_entries l (length es) (Z.of_nat (length pre)) (pre ++ pointers bs) src m = Some (tt, blocks bs es ∪ m).
Proof.
  intros Hl. induction es as [|e es IH]; intros bs pre src m Hm Hsrc Hnd Hlen Hes Hz.
  { destruct bs; [|done]. cbn. unfold mret, M_ret. by rewrite (left_id_L ∅ _). }
  destruct bs as [|b bs]; [done|]. inversion Hes; subst. inversion Hz as [|? ? (z & Hz1 & Hz2) Hz']; subst.
  apply NoDup_cons in Hnd as [Hb Hnd]. apply not_elem_of_cons in Hsrc as [Hsb Hsrc].
  cbn [concat] in Hm. apply at_bytes_app in Hm as [He Hm]. cbn [length take_entries pointers map].
  rewrite (M_bind_lift _ _ _ _ (arr_get_app pre (Some (Ptr b 0)) _)).
  erewrite M_bind_Some by (eapply run_copy_to; [exact He|done|apply (store_whole m b z e Hz1); [lia|by destruct e]]).
  cbn beta. fold (pointers bs).
  replace (Z.of_nat (length pre) + 1) with (Z.of_nat (length (pre ++ [Some (Ptr b 0)]))) by (rewrite length_app; cbn; lia).
  replace (pre ++ Some (Ptr b 0) :: pointers bs) with ((pre ++ [Some (Ptr b 0)]) ++ pointers bs) by (by rewrite <- app_assoc).
  rewrite IH; [| |done|done|by simplify_eq/=|done|].
  - do 2 f_equal. by rewrite blocks_cons, insert_union_r by by apply blocks_None.
  - eapply (at_bytes_agree b m); [|done|done]. intros c Hc. by rewrite lookup_insert_ne.
  - apply Forall_forall. intros c Hc. rewrite Forall_forall in Hz'. destruct (Hz' c Hc) as (y & Hy & Hy').
    exists y. split; [|done]. rewrite lookup_insert_ne; [done|]. by intros <-.
Qed.

Lemma concat_length l (es : list (list Z)) :
  Forall (fun e => Z.of_nat (length e) = l) es -> Z.of_nat (length (concat es)) = Z.of_nat (length es) * l.
Proof. induction 1 as [|e es He _ IH]; [done|]. cbn [concat length]. rewrite length_app. lia. Qed.

Lemma dec_entries_spec l es src m :
  0 < l <= 255 -> es <> [] -> Z.of_nat (length es) < 65536 -> Forall (fun e => Z.of_nat (length e) = l) es ->
  at_bytes m src (concat es) ->
  exists bs, length bs = length es /\ fresh_blocks m bs /\
    dec_entries (Z.of_nat (length es)) l src m =
      Some (Some (mkDataList (Z.of_nat (length es)) l (pointers bs)), blocks bs es ∪ m).
Proof.
  intros Hl Hne Hn Hes Hm. destruct (alloc_entries_spec l (length es) [] m ltac:(lia)) as (bs & Hlen & Hf & Hr).
  exists bs. split; [done|]. split; [done|]. set (zs := replicate (length es) (replicate (Z.to_nat l) 0)) in *.
  assert (Hzs : length bs = length zs) by (unfold zs; by rewrite length_replicate).
  unfold dec_entries, att_data_list_alloc. destruct (Z.ltb_spec 255 l); [lia|]. rewrite Nat2Z.id.
  erewrite M_bind_Some by (step Hr; done). cbn beta iota. cbn [dl_len dl_data app].
  assert (Hsrc : is_Some (m !! p_blk src)).
  { destruct es as [|e es]; [done|]. cbn [concat] in Hm. apply at_bytes_app in Hm as [Hm _]. inversion Hes; subst.
    apply at_bytes_spec in Hm as (b & -> & _); [by eexists|]. destruct e; [cbn [length] in *; lia|done]. }
  destruct Hf as [Hnd Hf]. rewrite Forall_forall in Hf.
  assert (Hsb : p_blk src ∉ bs). { intros Hin. rewrite (Hf _ Hin) in Hsrc. by destruct Hsrc. }
  erewrite M_bind_Some; [|apply (take_entries_spec l ltac:(lia) es bs [] src); try done].
  - cbn beta. by rewrite blocks_overwrite.
  - eapply (at_bytes_blocks m); [|exact Hm]. rewrite lookup_union, blocks_None by done. by rewrite (left_id_L None _).
  - apply Forall_forall. intros b Hb. destruct (blocks_Some bs zs b Hzs Hb) as [z Hz].
    exists z. split; [by apply lookup_union_Some_l|].
    unfold blocks in Hz. apply elem_of_list_to_map_2, elem_of_zip_r in Hz. unfold zs in Hz. apply elem_of_replicate in Hz as [-> _].
    rewrite length_replicate. lia.
Qed.

Lemma free_entries_spec es : forall bs pre m,
  length bs = length es -> fresh_blocks m bs ->
  free_entries (length bs) (Z.of_nat (length pre)) (pre ++ pointers bs) (blocks bs es ∪ m) = Some (tt, m).
Proof.
  induction es as [|e es IH]; intros [|b bs] pre m Hlen [Hnd Hf]; try done.
  { cbn. unfold mret, M_ret. by rewrite (left_id_L ∅ _). }
  apply NoDup_cons in Hnd as [Hb Hnd]. apply Forall_cons in Hf as [Hbm Hf]. rewrite blocks_cons.
  cbn [length free_entries pointers map]. rewrite (M_bind_lift _ _ _ _ (arr_get_app pre (Some (Ptr b 0)) _)).
  erewrite M_bind_Some by (apply g_free_spec; rewrite lookup_insert_eq; by eexists). cbn beta.
  rewrite delete_insert_id by (rewrite lookup_union, blocks_None, Hbm by done; done). fold (pointers bs).
  replace (Z.of_nat (length pre) + 1) with (Z.of_nat (length (pre ++ [Some (Ptr b 0)]))) by (rewrite length_app; cbn; lia).
  replace (pre ++ Some (Ptr b 0) :: pointers bs) with ((pre ++ [Some (Ptr b 0)]) ++ pointers bs) by (by rewrite <- app_assoc).
  apply IH; [by simplify_eq/=|done].
Qed.

(** The responses that carry a list, and their encoders and decoders. *)
Inductive list_resp := ByGroup | ByType | Info16 | Info128.

Definition list_header (k : list_resp) (l : Z) : list Z :=
  match k with ByGroup => [0x11; l] | ByType => [0x09; l] | Info16 => [0x05; 1] | Info128 => [0x05; 2] end.
Definition entry_length (k : list_resp) (l : Z) : Prop :=
  match k with ByGroup => 5 <= l <= 255 | ByType => 3 <= l <= 255 | Info16 => l = 4 | Info128 => l = 18 end.
Definition enc_list (k : list_resp) (x : option att_data_list) (pdu : option ptr) (len : Z) : M mem Z :=
  match k with
  | ByGroup => enc_read_by_grp_resp x pdu len
  | ByType => enc_read_by_type_resp x pdu len
  | Info16 => enc_find_info_resp 1 x pdu len
  | Info128 => enc_find_info_resp 2 x pdu len
  end.
Definition dec_list (k : list_resp) (pdu : option ptr) (len : Z) : M mem (option att_data_list) :=
  match k with
  | ByGroup => dec_read_by_grp_resp pdu len
  | ByType => dec_read_by_type_resp pdu len
  | Info16 | Info128 => '(x, _) ← dec_find_info_resp pdu len (Some 0); mret x
  end.

Lemma fitting_bound n l es : 0 < l -> 0 <= n -> Z.of_nat (fitting n l es) * l <= n.
Proof.
  intros. unfold fitting. pose proof (Z.mul_div_le n l ltac:(done)). pose proof (Z.div_pos n l).
  assert (Z.of_nat (Nat.min (length es) (Z.to_nat (n / l))) <= n / l) by lia. nia.
Qed.

Lemma enc_list_writes k es l data m pdu len :
  entry_length k l -> es <> [] -> Forall (fun e => Z.of_nat (length e) = l) es -> arrays m data es ->
  outside (p_blk pdu) data -> 2 + l <= len < 65536 ->
  enc_list k (Some (mkDataList (Z.of_nat (length es)) l data)) (Some pdu) len m =
    m' ← store_bytes m pdu (list_header k l ++ concat (take (fitting (len - 2) l es) es));
    Some (2 + Z.of_nat (fitting (len - 2) l es) * l, m').
Proof.
  intros Hk Hne Hes Ha Ho Hlen. assert (Hl : 3 <= l <= 255) by (destruct k; simpl in Hk; lia).
  pose proof (fitting_bound (len - 2) l es ltac:(lia) ltac:(lia)) as Hb.
  assert (Hput : forall wrap, (forall z, 0 <= z < 65536 -> wrap z = z) -> forall a b, byte a -> byte b ->
    writes (p_blk pdu) m pdu (set8 pdu a;; set8 (padd pdu 1) b;;
      put_entries wrap l len (Z.to_nat (Z.of_nat (length es))) 0 data (padd pdu 2) 2)
      ([a; b] ++ concat (take (fitting (len - 2) l es) es)) (2 + Z.of_nat (fitting (len - 2) l es) * l)).
  { intros wrap Hw a b Hba Hbb. eapply writes_set8; [done|done|]. eapply writes_set8; [by rewrite padd_padd|done|].
    rewrite Nat2Z.id. apply (put_entries_writes wrap l len _ m es data []); try done; lia. }
  assert (Hput' : forall a b, byte a -> byte b ->
    writes (p_blk pdu) m pdu (set8 pdu a;; set8 (padd pdu 1) b;;
      w ← put_entries to_uint l len (Z.to_nat (Z.of_nat (length es))) 0 data (padd pdu 2) 2; mret (to_ushort w))
      ([a; b] ++ concat (take (fitting (len - 2) l es) es)) (2 + Z.of_nat (fitting (len - 2) l es) * l)).
  { intros a b Hba Hbb m0 Hp Hag. specialize (Hput to_uint ltac:(intros; apply to_uint_id; lia) a b Hba Hbb m0 Hp Hag).
    revert Hput. unfold mbind, M_bind. destruct (set8 pdu a m0) as [[[] m1]|]; [|by destruct (store_bytes _ _ _)].
    destruct (set8 (padd pdu 1) b m1) as [[[] m2]|]; [|by destruct (store_bytes _ _ _)].
    intros ->. destruct (store_bytes _ _ _); [|done]. cbn. unfold mret, M_ret. by rewrite to_ushort_id by lia. }
  apply writes_run. unfold enc_list. destruct k; cbn [list_header]; simpl in Hk.
  - unfold enc_read_by_grp_resp. cbn [dl_len dl_num dl_data]. destruct (Z.ltb_spec len (l + 2)); [lia|].
    apply (Hput to_ushort); [by intros; apply to_ushort_id|done|unfold byte; lia].
  - unfold enc_read_by_type_resp. cbn [dl_len dl_num dl_data]. rewrite to_uint_id, Z.min_r by lia. cbv zeta.
    apply Hput'; [done|unfold byte; lia].
  - unfold enc_find_info_resp. cbn [dl_len dl_num dl_data]. destruct (Z.ltb_spec len (l + 2)); [lia|]. by apply Hput'.
  - unfold enc_find_info_resp. cbn [dl_len dl_num dl_data]. destruct (Z.ltb_spec len (l + 2)); [lia|]. by apply Hput'.
Qed.

Lemma dec_list_spec k es l m pdu :
  entry_length k l -> es <> [] -> Forall (fun e => Z.of_nat (length e) = l) es ->
  at_bytes m pdu (list_header k l ++ concat es) -> 2 + Z.of_nat (length es) * l < 65536 ->
  exists bs, length bs = length es /\ fresh_blocks m bs /\
    dec_list k (Some pdu) (2 + Z.of_nat (length es) * l) m =
      Some (Some (mkDataList (Z.of_nat (length es)) l (pointers bs)), blocks bs es ∪ m).
Proof.
  intros Hk Hne Hes Hm Hlen. assert (Hl : 3 <= l <= 255) by (destruct k; simpl in Hk; lia).
  assert (Hn : 0 < Z.of_nat (length es)) by (destruct es; [done|cbn [length]; lia]).
  assert (Hnl : l <= Z.of_nat (length es) * l) by nia.
  assert (Hsub : 2 + Z.of_nat (length es) * l - 2 = Z.of_nat (length es) * l) by lia.
  assert (Hm' := Hm). apply at_bytes_app in Hm' as [Hh Hc].
  replace (Z.of_nat (length (list_header k l))) with 2 in Hc by by destruct k.
  destruct (dec_entries_spec l es (padd pdu 2) m ltac:(lia) Hne ltac:(nia) Hes Hc) as (bs & Hbs & Hf & Hr).
  exists bs. split; [done|]. split; [done|].
  assert (Hdiv : to_ushort (Z.of_nat (length es) * l / l) = Z.of_nat (length es)) by (rewrite Z.div_mul by lia; apply to_ushort_id; nia).
  assert (Hinfo : forall f, f = 1 /\ l = 4 \/ f = 2 /\ l = 18 -> at_bytes m pdu [0x05; f] ->
    dec_find_info_resp (Some pdu) (2 + Z.of_nat (length es) * l) (Some 0) m =
      Some ((Some (mkDataList (Z.of_nat (length es)) l (pointers bs)), Some f), blocks bs es ∪ m)).
  { intros f Hfl Hf'. unfold dec_find_info_resp. passes. read8 Hf'. passes. read8 Hf'. assigned. cbv zeta.
    replace (if f =? 1 then _ else _) with l by (destruct Hfl as [[-> ->]|[-> ->]]; done).
    rewrite Hsub, to_uint_id, Hdiv by lia. by step Hr. }
  destruct k; cbn [list_header] in *; simpl in Hk; unfold dec_list.
  - unfold dec_read_by_grp_resp. cbn [mbind]. rewrite (M_bind_lift _ _ _ _ eq_refl). read8 Hh. passes. passes. read8 Hh. passes.
    rewrite Hsub, Z.mod_mul by lia. passes. by rewrite Hdiv.
  - unfold dec_read_by_type_resp. rewrite (M_bind_lift _ _ _ _ eq_refl). read8 Hh. passes. passes. read8 Hh. passes.
    rewrite Hsub, Z.mod_mul by lia. passes. by rewrite Hdiv.
  - by step (Hinfo 1 ltac:(lia) Hh).
  - by step (Hinfo 2 ltac:(lia) Hh).
Qed.

(** A response with a list of attribute data carries the entries that fit its buffer;
    the decoder finds just these, each in a block of its own, and freeing the list gives
    the memory back as it was. *)
Theorem att_list_roundtrip k es l data m pdu len :
  entry_length k l -> es <> [] -> Z.of_nat (length es) < 65536 -> Forall (fun e => Z.of_nat (length e) = l) es ->
  arrays m data es -> outside (p_blk pdu) data -> room m pdu len -> 2 + l <= len < 65536 ->
  let sent := take (Z.to_nat ((len - 2) / l)) es in
  let n := 2 + Z.of_nat (length sent) * l in
  exists m1 bs, let got := mkDataList (Z.of_nat (length sent)) l (pointers bs) in
    enc_list k (Some (mkDataList (Z.of_nat (length es)) l data)) (Some pdu) len m = Some (n, m1) /\ n <= len /\
    at_bytes m1 pdu (list_header k l ++ concat sent) /\
    length bs = length sent /\ fresh_blocks m1 bs /\
    dec_list k (Some pdu) n m1 = Some (Some got, blocks bs sent ∪ m1) /\
    att_data_list_free (Some got) (blocks bs sent ∪ m1) = Some (tt, m1).
Proof.
  intros Hk Hne Hn Hes Ha Ho Hr Hlen sent n. assert (Hl : 3 <= l <= 255) by (destruct k; simpl in Hk; lia).
  assert (Hfit : take (fitting (len - 2) l es) es = sent).
  { unfold sent, fitting. destruct (Nat.min_spec (length es) (Z.to_nat ((len - 2) / l))) as [[Hlt ->]|[_ ->]]; [|done].
    by rewrite !take_ge by lia. }
  assert (Hlsent : length sent = fitting (len - 2) l es) by (unfold sent, fitting; rewrite length_take; lia).
  assert (Hsent : Forall (fun e => Z.of_nat (length e) = l) sent) by by apply Forall_take.
  pose proof (fitting_bound (len - 2) l es ltac:(lia) ltac:(lia)) as Hbound.
  assert (Hsne : sent <> []).
  { unfold sent. destruct es; [done|]. pose proof (Z.div_le_lower_bound (len - 2) l 1 ltac:(lia) ltac:(lia)).
    by destruct (Z.to_nat ((len - 2) / l)) eqn:E; [lia|]. }
  assert (Hhl : Z.of_nat (length (list_header k l)) = 2) by by destruct k.
  destruct (room_store m pdu (list_header k l ++ concat sent) len Hr) as [m1 Hm1].
  { rewrite length_app, Nat2Z.inj_add, (concat_length l) by done. lia. }
  pose proof (store_bytes_at _ _ _ _ Hm1) as Hat.
  destruct (dec_list_spec k sent l m1 pdu Hk Hsne Hsent Hat ltac:(lia)) as (bs & Hbs & Hf & Hdec).
  exists m1, bs. cbv zeta. split_and!; [|lia|done|done|done|exact Hdec|].
  - rewrite enc_list_writes, Hfit, Hm1 by done. unfold n. by rewrite Hlsent.
  - unfold att_data_list_free. cbn [dl_data dl_num]. rewrite Nat2Z.id.
    destruct (pointers bs) eqn:Hp; [destruct bs; [by destruct sent|done]|]. rewrite <- Hp, <- Hbs.
    by apply (free_entries_spec sent bs []).
Qed.
End Lists.

(** ** Ranges of handles *)
Section Ranges.
Context `{AttLibsOk}.

Definition range_wire (r : att_range) : list Z := le16 (r_start r) ++ le16 (r_end r).
Definition wf_range (r : att_range) : Prop := u16 (r_start r) /\ u16 (r_end r).

Lemma put_ranges_writes b m0 pdu len : len < 65536 -> forall l offset, 0 <= offset <= len ->
  let n := fitting (len - offset) 4 (map range_wire l) in
  writes b m0 (padd pdu offset) (put_ranges l pdu len offset) (concat (map range_wire (take n l))) (offset + Z.of_nat n * 4).
Proof.
  intros Hlen. induction l as [|r l IH]; intros offset Ho; cbv zeta.
  { cbn [put_ranges map]. rewrite take_nil. replace (offset + _) with offset by (cbn; lia). apply writes_ret. }
  cbn [put_ranges map]. destruct (Z.ltb_spec len (offset + 4)) as [Hlt|Hge].
  - rewrite fitting_none by lia. replace (offset + Z.of_nat 0 * 4) with offset by lia. apply writes_ret.
  - rewrite fitting_cons by lia. cbn [take map concat]. unfold range_wire at 1. rewrite <- app_assoc.
    eapply writes_le16; [by rewrite padd_padd|]. eapply writes_le16; [by rewrite padd_padd|].
    rewrite to_ushort_id by lia. specialize (IH (offset + 4) ltac:(lia)). cbv zeta in IH.
    replace (len - offset - 4) with (len - (offset + 4)) by lia.
    replace (offset + 2 + 2) with (offset + 4) by lia.
    by replace (offset + Z.of_nat (S _) * 4)
      with (offset + 4 + Z.of_nat (fitting (len - (offset + 4)) 4 (map range_wire l)) * 4) by lia.
Qed.

Lemma take_ranges_spec pdu len m : len < 65536 -> forall l fuel offset acc,
  Forall wf_range l -> 0 <= offset -> len = offset + 4 * Z.of_nat (length l) -> (length l <= fuel)%nat ->
  at_bytes m (padd pdu offset) (concat (map range_wire l)) ->
  take_ranges fuel pdu len offset acc m = Some (acc ++ l, m).
Proof.
  intros Hlen. induction l as [|r l IH]; intros fuel offset acc Hwf Ho Hl Hfuel Hm.
  { assert (Hc : (len <? to_uint (offset + 4)) = true) by (cbn [length] in Hl; rewrite to_uint_id by lia; lia).
    rewrite app_nil_r. destruct fuel; cbn [take_ranges]; by rewrite Hc. }
  cbn [length] in *. destruct fuel as [|fuel]; [lia|]. apply Forall_cons in Hwf as [[Hs He] Hwf].
  assert (Hc : (len <? to_uint (offset + 4)) = false) by (rewrite to_uint_id by lia; lia).
  cbn [take_ranges]. rewrite Hc. cbn [map concat] in Hm. unfold range_wire at 1 in Hm. rewrite <- app_assoc in Hm.
  erewrite M_bind_Some by (eapply run_get_le16; [|exact Hm]; done). cbn beta. apply at_bytes_app in Hm as [_ Hm].
  rewrite padd_padd in Hm. erewrite M_bind_Some by (eapply run_get_le16; [|exact Hm]; done). cbn beta.
  apply at_bytes_app in Hm as [_ Hm]. rewrite padd_padd in Hm.
  replace (offset + Z.of_nat (length (le16 (r_start r))) + Z.of_nat (length (le16 (r_end r)))) with (offset + 4) in Hm by (cbn; lia).
  rewrite g_slist_append_spec, IH; [|done|lia|lia|lia|exact Hm]. rewrite <- app_assoc. by destruct r.
Qed.

(** A Find By Type Value Response carries the ranges that fit its buffer, and the decoder
    lists just these, in order. *)
Theorem find_by_type_resp_roundtrip l m pdu len :
  Forall wf_range l -> 1 <= len < 65536 -> room m pdu len ->
  let sent := take (Z.to_nat ((len - 1) / 4)) l in
  let n := 1 + Z.of_nat (length sent) * 4 in
  exists m', enc_find_by_type_resp l (Some pdu) len m = Some (n, m') /\ n <= len /\
    at_bytes m' pdu (0x07 :: concat (map range_wire sent)) /\
    dec_find_by_type_resp (Some pdu) n m' = Some (sent, m').
Proof.
  intros Hwf Hlen Hr sent n. set (k := fitting (len - 1) 4 (map range_wire l)).
  assert (Hk : take k l = sent).
  { unfold k, sent, fitting. rewrite length_map. destruct (Nat.min_spec (length l) (Z.to_nat ((len - 1) / 4))) as [[Hlt ->]|[_ ->]]; [|done].
    by rewrite !take_ge by lia. }
  assert (Hls : length sent = k) by (unfold sent, k, fitting; rewrite length_take, length_map; lia).
  pose proof (fitting_bound (len - 1) 4 (map range_wire l) ltac:(lia) ltac:(lia)) as Hb. fold k in Hb.
  assert (Hcl : Z.of_nat (length (concat (map range_wire sent))) = 4 * Z.of_nat (length sent)).
  { clear. induction sent as [|r s IH]; [done|]. cbn [map concat length]. rewrite length_app. cbn [length range_wire app le16]. lia. }
  destruct (room_store m pdu (0x07 :: concat (map range_wire sent)) len Hr) as [m' Hm']; [cbn [length]; lia|].
  pose proof (store_bytes_at _ _ _ _ Hm') as Hat. exists m'. split_and!; [|lia|done|].
  - assert (Hw : writes (p_blk pdu) m pdu (enc_find_by_type_resp l (Some pdu) len) (0x07 :: concat (map range_wire sent)) n).
    { unfold enc_find_by_type_resp. eapply writes_set8; [done|done|]. unfold n. rewrite Hls, <- Hk.
      apply (put_ranges_writes _ _ pdu len); lia. }
    by rewrite (writes_run _ _ _ _ _ Hw), Hm'.
  - unfold dec_find_by_type_resp. destruct (Z.ltb_spec n 5) as [Hn|Hn]; [by destruct sent; [|unfold n in Hn; cbn [length] in Hn; lia]|].
    read8 Hat. passes. replace ((n - 1) mod 4) with 0 by (unfold n; rewrite Z.add_simpl_l, Z.mod_mul; done).
    passes. apply (take_ranges_spec pdu n m' ltac:(lia) sent); [by apply Forall_take|done|lia|lia|exact Hat].
Qed.
End Ranges.

(** ** Examples *)

(** The libraries as simple functions: UUIDs are their values, blocks come from an unused
    number, and the signature is twelve times the length of the message. *)
#[export] Instance att_sim : AttLibs := {|
  bt_uuid_t := uuid;
  BT_UUID16 := 16;
  BT_UUID128 := 128;
  uuid_type u := match u with U16 _ => 16 | U128 _ => 128 end;
  value_u16 u := match u with U16 v => v | U128 _ => 0 end;
  value_u128 u := match u with U16 _ => [] | U128 be => be end;
  bt_uuid16_create := U16;
  bt_uuid128_create := U128;
  bswap_128 := @rev Z;
  g_malloc0 n := fun m => let b := fresh (dom m) in Some (Some (Ptr b 0), <[b := replicate (Z.to_nat n) 0]> m);
  g_free p := fun m => match p with Some q => Some (tt, delete (p_blk q) m) | None => Some (tt, m) end;
  g_slist_append l x := l ++ [x];
  bt_crypto_sign_att _ _ msg _ := Some (replicate 12 (Z.of_nat (length msg)))
|}.

#[export] Instance att_sim_ok : AttLibsOk.
Proof.
  split; try done.
  - intros n m Hn. exists (fresh (dom m)). split; [|done]. apply not_elem_of_dom, is_fresh.
  - intros c key msg n sg [= <-]. done.
Qed.

(** A value in block 0, a key in block 1, an empty PDU in block 2 and buffers in 3 and 4. *)
Definition ex_att_mem : mem :=
  <[0%nat := [7; 8; 9]]> (<[1%nat := replicate 16 1]> (<[2%nat := replicate 24 0]>
    (<[3%nat := [0; 0; 0]]> (<[4%nat := replicate 12 0]> ∅)))).

Lemma ex_att_room b n l : ex_att_mem !! b = Some l -> n <= Z.of_nat (length l) -> room ex_att_mem (Ptr b 0) n.
Proof. intros Hb Hn. exists l. cbn [p_blk p_off]. split; [done|]. lia. Qed.

Definition ex_signed : apdu := SignedWriteCmd 0x1234 [7; 8; 9] (replicate 12 6).

Lemma att_encode_spec_witness :
  exists n m', encode 0%nat (Ptr 1 0) 1 (WriteReq 0x1234 [7; 8; 9]) (Some (Ptr 0 0)) (Some (Ptr 2 0)) 5 ex_att_mem = Some (n, m') /\
    n = 5 /\ n <= 5 /\ at_bytes m' (Ptr 2 0) [0x12; 0x34; 0x12; 7; 8] /\ agree_except 2 ex_att_mem m'.
Proof.
  apply (att_encode_spec 0 (Ptr 1 0) (replicate 16 1) 1 (WriteReq 0x1234 [7; 8; 9]) ex_att_mem (Ptr 0 0) (Ptr 2 0) 5);
    [done|done|done|done|done|done|done|done|by intros q [= <-]|by eapply ex_att_room].
Defined.

(** A signed write, and a write whose value of three bytes is cut to two. *)
Lemma att_roundtrip_witness :
  (exists m', encode 0%nat (Ptr 1 0) 1 ex_signed (Some (Ptr 0 0)) (Some (Ptr 2 0)) 24 ex_att_mem = Some (18, m') /\
    decodes m' ex_signed (Ptr 2 0) (Ptr 3 0) (Ptr 4 0)) /\
  (exists m', encode 0%nat (Ptr 1 0) 1 (WriteReq 0x1234 [7; 8; 9]) (Some (Ptr 0 0)) (Some (Ptr 2 0)) 5 ex_att_mem = Some (5, m') /\
    decodes m' (WriteReq 0x1234 [7; 8]) (Ptr 2 0) (Ptr 3 0) (Ptr 4 0)).
Proof.
  split.
  - apply (att_roundtrip 0 (Ptr 1 0) (replicate 16 1) 1 ex_signed ex_signed ex_att_mem (Ptr 0 0) (Ptr 2 0) 24 (Ptr 3 0) (Ptr 4 0));
      [done|done|done|done|done|done|done|done|done|done|done|by eapply ex_att_room|by eapply ex_att_room|done|by eapply ex_att_room|done].
  - apply (att_roundtrip 0 (Ptr 1 0) (replicate 16 1) 1 (WriteReq 0x1234 [7; 8; 9]) (WriteReq 0x1234 [7; 8]) ex_att_mem (Ptr 0 0) (Ptr 2 0) 5 (Ptr 3 0) (Ptr 4 0));
      [done|done|done|done|done|done|done|done|done|done|done|by eapply ex_att_room|by eapply ex_att_room|done|by eapply ex_att_room|done].
Defined.

Lemma prep_write_resp_refused_witness :
  exists m', enc_prep_write_resp 1 2 (Some (Ptr 0 0)) 3 (Some (Ptr 2 0)) 24 ex_att_mem = Some (8, m') /\
    dec_prep_write_resp (Some (Ptr 2 0)) 8 (Some 0) (Some 0) (Some (Ptr 3 0)) (Some 0) m' = Some ((0, Some 0, Some 0, Some 0), m').
Proof.
  apply (prep_write_resp_refused 1 2 [7; 8; 9] ex_att_mem (Ptr 0 0) (Ptr 2 0) 24 (Some (Ptr 3 0)) (Some 0) (Some 0) (Some 0) 8);
    [done|done|done|done|done|by eapply ex_att_room].
Defined.

Lemma short_buffer_not_cut_witness :
  enc_write_req 1 (Some (Ptr 0 0)) 3 (Some (Ptr 2 0)) 2 ex_att_mem =
    m' ← store_bytes ex_att_mem (Ptr 2 0) [0x12; 1; 0; 7; 8; 9]; Some (6, m').
Proof. apply (short_buffer_not_cut 1 [7; 8; 9] ex_att_mem (Ptr 0 0) (Ptr 2 0) 2); done. Defined.

Definition ex_list_mem : mem :=
  <[0%nat := [1; 0; 5; 0; 9; 6; 0; 7; 0; 8]]> (<[2%nat := replicate 10 0]> ∅).

Lemma att_list_roundtrip_witness :
  exists m1 bs, let got := mkDataList 1 5 (pointers bs) in
    enc_list ByGroup (Some (mkDataList 2 5 [Some (Ptr 0 0); Some (Ptr 0 5)])) (Some (Ptr 2 0)) 10 ex_list_mem = Some (7, m1) /\ 7 <= 10 /\
    at_bytes m1 (Ptr 2 0) [0x11; 5; 1; 0; 5; 0; 9] /\
    length bs = 1%nat /\ fresh_blocks m1 bs /\
    dec_list ByGroup (Some (Ptr 2 0)) 7 m1 = Some (Some got, blocks bs [[1; 0; 5; 0; 9]] ∪ m1) /\
    att_data_list_free (Some got) (blocks bs [[1; 0; 5; 0; 9]] ∪ m1) = Some (tt, m1).
Proof.
  apply (att_list_roundtrip ByGroup [[1; 0; 5; 0; 9]; [6; 0; 7; 0; 8]] 5 [Some (Ptr 0 0); Some (Ptr 0 5)] ex_list_mem (Ptr 2 0) 10);
    [done|done|done|by repeat constructor| | | |done].
  - constructor; [by exists (Ptr 0 0)|]. constructor; [by exists (Ptr 0 5)|done].
  - repeat constructor; by intros q [= <-].
  - exists (replicate 10 0). done.
Defined.

Lemma find_by_type_resp_roundtrip_witness :
  exists m', enc_find_by_type_resp [mkRange 1 5; mkRange 6 0x1234] (Some (Ptr 2 0)) 10 ex_list_mem = Some (9, m') /\ 9 <= 10 /\
    at_bytes m' (Ptr 2 0) [0x07; 1; 0; 5; 0; 6; 0; 0x34; 0x12] /\
    dec_find_by_type_resp (Some (Ptr 2 0)) 9 m' = Some ([mkRange 1 5; mkRange 6 0x1234], m').
Proof.
  apply (find_by_type_resp_roundtrip [mkRange 1 5; mkRange 6 0x1234] ex_list_mem (Ptr 2 0) 10); [by repeat constructor|done|].
  exists (replicate 10 0). done.
Defined.
