(* ===== verification/BleConnection.v ===== *)
(** * BleConnection: a connection of the older socket over Bluetooth Low Energy, Ble_old/Connect

    Connection.cpp and ConnectionCallbacks.cpp: two threads of one connection, the observer, which looks at
    the state and asks for what comes next, and the main loop of GLib, which calls back with what
    the device answered.  A step of the observer is one look at the state, or one call; a step of the
    main loop is one callback.  [None] is undefined behaviour. *)
From Stdlib Require Import String.
From S2P Require Import Prelude CMem SnSocket Att.

(** Connection.h *)
Inductive ConnectionErrorStatus := MissingService | InternalBluetoothError | ConnectionRefused | ConnectionDisconnected.
Inductive ConnectionState :=
  | STATE_DISCONNECTED | STATE_CONNECTED | STATE_HANDLE_READY | STATE_TX_VALUE_SAVED | STATE_RX_NOTIFY_ENABLED | STATE_NUS_READY
  | STATE_PENDING_CHANGE | STATE_CLOSED | STATE_ERROR.
#[export] Instance ConnectionState_eq_dec : EqDecision ConnectionState.
Proof. solve_decision. Defined.
#[export] Instance ConnectionErrorStatus_eq_dec : EqDecision ConnectionErrorStatus.
Proof. solve_decision. Defined.
Definition TX_CHRC_UUID : string := "6e400003-b5a3-f393-e0a9-e50e24dcca9e".
Definition RX_CHRC_UUID : string := "6e400002-b5a3-f393-e0a9-e50e24dcca9e".
Definition RX_CCCD_UUID : string := "00002902-0000-1000-8000-00805f9b34fb".
Record gatt_desc := mkDesc { desc_handle : Z; desc_uuid : string }.

(** ** What is asked of the libraries *)

Inductive bt_source := SourceHci (device : string) | SourceAddress (text : string) | SourceAny.
Inductive bt_sec := BT_IO_SEC_LOW | BT_IO_SEC_MEDIUM | BT_IO_SEC_HIGH.
Inductive bt_dest_type := BDADDR_LE_PUBLIC | BDADDR_LE_RANDOM.
(** The options of [bt_io_connect]: over the attribute channel, or over a PSM. *)
Inductive bt_options :=
  | OverATT (source : bt_source) (dest : list Z) (dest_type : bt_dest_type) (sec : bt_sec)
  | OverPSM (source : bt_source) (dest : list Z) (psm mtu : Z) (sec : bt_sec).

(** [dst]: the address whose text is given. *)
Definition gatt_connect (src : option string) (dst : list Z) (dst_type sec_level : string) (psm mtu : Z) : bt_options :=
  let sba := match src with
             | Some src => if String.prefix "hci" src then SourceHci (String.substring 3 (String.length src - 3) src) else SourceAddress src
             | None => SourceAny
             end in
  let dest_type := if String.eqb dst_type "random" then BDADDR_LE_RANDOM else BDADDR_LE_PUBLIC in
  let sec := if String.eqb sec_level "medium" then BT_IO_SEC_MEDIUM else if String.eqb sec_level "high" then BT_IO_SEC_HIGH else BT_IO_SEC_LOW in
  if psm =? 0 then OverATT sba dst dest_type sec else OverPSM sba dst psm mtu sec.

Inductive request :=
  | Connect (options : bt_options) | DiscoverDescriptors (first last : Z) | ReadCharacteristic (handle : Z)
  | WriteCommand (handle : Z) (value : list Z) | WriteCharacteristic (handle : Z) (value : list Z) | Confirm.

(** ** The threads *)

(** Where the observer is: at a test of its loop, or in a [cmd_] function. *)
Inductive observer :=
  | ObNone | ObTest (n : nat)
  | ConnTest | ConnCall | ConnAssign (ok : bool) | ConnWatch (ok : bool) | ConnSet
  | DescTest | DescSet | DescCall
  | ReadTest | ReadSet | ReadCall
  | NotifyTest | NotifyCall | NotifySet
  | ReadySet | ReadyGive
  | ObEnded.
(** The main loop; [MainRefused]: in [connect_cb], between [setState] and [setErrorState]. *)
Inductive main_loop := MainNone | MainIdle | MainRefused | MainEnded.

(** The object, and what the libraries are about to call back.  [opt_dst]: the address it is the text of.
    [iochannel] and [attrib]: that they are not null.  [given]: what the receiver was handed. *)
Record Connection := mkConnection {
  cn_address : list Z; errorStatus : ConnectionErrorStatus; conn_state : ConnectionState; cn_receiver : bool; opt_dst : option (list Z);
  opt_mtu : Z; nus_rx_notify_handle : Z; nus_rx_handle : Z; nus_tx_handle : Z; tx_buffer : list Z;
  iochannel : bool; attrib : bool; cn_freed : bool; observer_at : observer; main_at : main_loop;
  connecting : bool; discovering : bool; reading : bool; writing : nat; watching : bool;
  requests : list request; given : list (list Z)
}.
Definition put_error (x0 : ConnectionErrorStatus) (c : Connection) : Connection :=
  mkConnection (cn_address c) x0 (conn_state c) (cn_receiver c) (opt_dst c) (opt_mtu c) (nus_rx_notify_handle c) (nus_rx_handle c) (nus_tx_handle c) (tx_buffer c) (iochannel c) (attrib c) (cn_freed c) (observer_at c) (main_at c) (connecting c) (discovering c) (reading c) (writing c) (watching c) (requests c) (given c).
Definition put_state (x0 : ConnectionState) (c : Connection) : Connection :=
  mkConnection (cn_address c) (errorStatus c) x0 (cn_receiver c) (opt_dst c) (opt_mtu c) (nus_rx_notify_handle c) (nus_rx_handle c) (nus_tx_handle c) (tx_buffer c) (iochannel c) (attrib c) (cn_freed c) (observer_at c) (main_at c) (connecting c) (discovering c) (reading c) (writing c) (watching c) (requests c) (given c).
Definition put_receiver (x0 : bool) (c : Connection) : Connection :=
  mkConnection (cn_address c) (errorStatus c) (conn_state c) x0 (opt_dst c) (opt_mtu c) (nus_rx_notify_handle c) (nus_rx_handle c) (nus_tx_handle c) (tx_buffer c) (iochannel c) (attrib c) (cn_freed c) (observer_at c) (main_at c) (connecting c) (discovering c) (reading c) (writing c) (watching c) (requests c) (given c).
Definition put_opt_dst (x0 : option (list Z)) (c : Connection) : Connection :=
  mkConnection (cn_address c) (errorStatus c) (conn_state c) (cn_receiver c) x0 (opt_mtu c) (nus_rx_notify_handle c) (nus_rx_handle c) (nus_tx_handle c) (tx_buffer c) (iochannel c) (attrib c) (cn_freed c) (observer_at c) (main_at c) (connecting c) (discovering c) (reading c) (writing c) (watching c) (requests c) (given c).
Definition put_handles (x0 : Z) (x1 : Z) (x2 : Z) (c : Connection) : Connection :=
  mkConnection (cn_address c) (errorStatus c) (conn_state c) (cn_receiver c) (opt_dst c) (opt_mtu c) x0 x1 x2 (tx_buffer c) (iochannel c) (attrib c) (cn_freed c) (observer_at c) (main_at c) (connecting c) (discovering c) (reading c) (writing c) (watching c) (requests c) (given c).
Definition put_tx_buffer (x0 : list Z) (c : Connection) : Connection :=
  mkConnection (cn_address c) (errorStatus c) (conn_state c) (cn_receiver c) (opt_dst c) (opt_mtu c) (nus_rx_notify_handle c) (nus_rx_handle c) (nus_tx_handle c) x0 (iochannel c) (attrib c) (cn_freed c) (observer_at c) (main_at c) (connecting c) (discovering c) (reading c) (writing c) (watching c) (requests c) (given c).
Definition put_channel (x0 : bool) (c : Connection) : Connection :=
  mkConnection (cn_address c) (errorStatus c) (conn_state c) (cn_receiver c) (opt_dst c) (opt_mtu c) (nus_rx_notify_handle c) (nus_rx_handle c) (nus_tx_handle c) (tx_buffer c) x0 (attrib c) (cn_freed c) (observer_at c) (main_at c) (connecting c) (discovering c) (reading c) (writing c) (watching c) (requests c) (given c).
Definition put_io (x0 : Z) (x1 : bool) (x2 : bool) (c : Connection) : Connection :=
  mkConnection (cn_address c) (errorStatus c) (conn_state c) (cn_receiver c) (opt_dst c) x0 (nus_rx_notify_handle c) (nus_rx_handle c) (nus_tx_handle c) (tx_buffer c) x1 x2 (cn_freed c) (observer_at c) (main_at c) (connecting c) (discovering c) (reading c) (writing c) (watching c) (requests c) (given c).
Definition put_attrib (x0 : bool) (c : Connection) : Connection :=
  mkConnection (cn_address c) (errorStatus c) (conn_state c) (cn_receiver c) (opt_dst c) (opt_mtu c) (nus_rx_notify_handle c) (nus_rx_handle c) (nus_tx_handle c) (tx_buffer c) (iochannel c) x0 (cn_freed c) (observer_at c) (main_at c) (connecting c) (discovering c) (reading c) (writing c) (watching c) (requests c) (given c).
Definition put_freed (x0 : bool) (c : Connection) : Connection :=
  mkConnection (cn_address c) (errorStatus c) (conn_state c) (cn_receiver c) (opt_dst c) (opt_mtu c) (nus_rx_notify_handle c) (nus_rx_handle c) (nus_tx_handle c) (tx_buffer c) (iochannel c) (attrib c) x0 (observer_at c) (main_at c) (connecting c) (discovering c) (reading c) (writing c) (watching c) (requests c) (given c).
Definition put_observer (x0 : observer) (c : Connection) : Connection :=
  mkConnection (cn_address c) (errorStatus c) (conn_state c) (cn_receiver c) (opt_dst c) (opt_mtu c) (nus_rx_notify_handle c) (nus_rx_handle c) (nus_tx_handle c) (tx_buffer c) (iochannel c) (attrib c) (cn_freed c) x0 (main_at c) (connecting c) (discovering c) (reading c) (writing c) (watching c) (requests c) (given c).
Definition put_main (x0 : main_loop) (c : Connection) : Connection :=
  mkConnection (cn_address c) (errorStatus c) (conn_state c) (cn_receiver c) (opt_dst c) (opt_mtu c) (nus_rx_notify_handle c) (nus_rx_handle c) (nus_tx_handle c) (tx_buffer c) (iochannel c) (attrib c) (cn_freed c) (observer_at c) x0 (connecting c) (discovering c) (reading c) (writing c) (watching c) (requests c) (given c).
Definition put_connecting (x0 : bool) (c : Connection) : Connection :=
  mkConnection (cn_address c) (errorStatus c) (conn_state c) (cn_receiver c) (opt_dst c) (opt_mtu c) (nus_rx_notify_handle c) (nus_rx_handle c) (nus_tx_handle c) (tx_buffer c) (iochannel c) (attrib c) (cn_freed c) (observer_at c) (main_at c) x0 (discovering c) (reading c) (writing c) (watching c) (requests c) (given c).
Definition put_discovering (x0 : bool) (c : Connection) : Connection :=
  mkConnection (cn_address c) (errorStatus c) (conn_state c) (cn_receiver c) (opt_dst c) (opt_mtu c) (nus_rx_notify_handle c) (nus_rx_handle c) (nus_tx_handle c) (tx_buffer c) (iochannel c) (attrib c) (cn_freed c) (observer_at c) (main_at c) (connecting c) x0 (reading c) (writing c) (watching c) (requests c) (given c).
Definition put_reading (x0 : bool) (c : Connection) : Connection :=
  mkConnection (cn_address c) (errorStatus c) (conn_state c) (cn_receiver c) (opt_dst c) (opt_mtu c) (nus_rx_notify_handle c) (nus_rx_handle c) (nus_tx_handle c) (tx_buffer c) (iochannel c) (attrib c) (cn_freed c) (observer_at c) (main_at c) (connecting c) (discovering c) x0 (writing c) (watching c) (requests c) (given c).
Definition put_writing (x0 : nat) (c : Connection) : Connection :=
  mkConnection (cn_address c) (errorStatus c) (conn_state c) (cn_receiver c) (opt_dst c) (opt_mtu c) (nus_rx_notify_handle c) (nus_rx_handle c) (nus_tx_handle c) (tx_buffer c) (iochannel c) (attrib c) (cn_freed c) (observer_at c) (main_at c) (connecting c) (discovering c) (reading c) x0 (watching c) (requests c) (given c).
Definition put_watching (x0 : bool) (c : Connection) : Connection :=
  mkConnection (cn_address c) (errorStatus c) (conn_state c) (cn_receiver c) (opt_dst c) (opt_mtu c) (nus_rx_notify_handle c) (nus_rx_handle c) (nus_tx_handle c) (tx_buffer c) (iochannel c) (attrib c) (cn_freed c) (observer_at c) (main_at c) (connecting c) (discovering c) (reading c) (writing c) x0 (requests c) (given c).
Definition put_requests (x0 : list request) (c : Connection) : Connection :=
  mkConnection (cn_address c) (errorStatus c) (conn_state c) (cn_receiver c) (opt_dst c) (opt_mtu c) (nus_rx_notify_handle c) (nus_rx_handle c) (nus_tx_handle c) (tx_buffer c) (iochannel c) (attrib c) (cn_freed c) (observer_at c) (main_at c) (connecting c) (discovering c) (reading c) (writing c) (watching c) x0 (given c).
Definition put_given (x0 : list (list Z)) (c : Connection) : Connection :=
  mkConnection (cn_address c) (errorStatus c) (conn_state c) (cn_receiver c) (opt_dst c) (opt_mtu c) (nus_rx_notify_handle c) (nus_rx_handle c) (nus_tx_handle c) (tx_buffer c) (iochannel c) (attrib c) (cn_freed c) (observer_at c) (main_at c) (connecting c) (discovering c) (reading c) (writing c) (watching c) (requests c) x0.

(** [setState], by which all threads change the state. *)
Definition setState (x : ConnectionState) (c : Connection) : Connection := put_state x c.
Definition getState (c : Connection) : ConnectionState := conn_state c.
Definition setErrorState (x : ConnectionErrorStatus) (c : Connection) : Connection := put_error x c.
Definition getErrorStatus (c : Connection) : ConnectionErrorStatus := errorStatus c.
Definition getAddress (c : Connection) : list Z := cn_address c.
Definition isDeviceAddress (address : list Z) (c : Connection) : bool := bool_decide (cn_address c = address).
Definition setReceiverInterface (x : bool) (c : Connection) : Connection := put_receiver x c.
Definition in_state (x : ConnectionState) (c : Connection) : bool := bool_decide (conn_state c = x).

(** The constructor. *)
Definition Connection_new (address : list Z) : Connection :=
  mkConnection address ConnectionDisconnected STATE_DISCONNECTED false None 0 0 0 0 (zero_bytes 20) false false false ObNone MainNone false false false 0 false [] [].

(** [data] is what the pointer points to; nothing is kept of it without a receiver. *)
Definition onReceive (data : list Z) (length_ : Z) (c : Connection) : option Connection :=
  if Z.of_nat (length data) <? length_ then None else
  Some (if cn_receiver c then put_given (given c ++ [take (Z.to_nat length_) data]) c else c).

(** A request over [attrib]: nothing is sent, and nothing called back, where it is null. *)
Definition request_over (r : request) (f : Connection -> Connection) (c : Connection) : Connection :=
  if attrib c then f (put_requests (requests c ++ [r]) c) else c.

(** [connect] up to [join]. *)
Definition connect_start (c : Connection) : Connection :=
  put_observer (ObTest 0) (put_main MainIdle (put_opt_dst (Some (cn_address c)) c)).
(** ... and its value. *)
Definition connect_result (c : Connection) : option bool := match observer_at c with ObEnded => Some (in_state STATE_NUS_READY c) | _ => None end.

(** The tests of [call_observe_state_loop] in their order, and where they lead. *)
Definition observer_tests : list (ConnectionState * observer) :=
  [(STATE_CLOSED, ObEnded); (STATE_ERROR, ObEnded); (STATE_PENDING_CHANGE, ObTest 0); (STATE_DISCONNECTED, ConnTest); (STATE_CONNECTED, DescTest);
   (STATE_HANDLE_READY, ReadTest); (STATE_TX_VALUE_SAVED, NotifyTest); (STATE_RX_NOTIFY_ENABLED, ReadySet)].

(** [(uint16_t) c] of a [char] that is held as a byte *)
Definition ushort_of_char (b : Z) : Z := to_ushort (if b <? 128 then b else b - 256).

(** [opt_src], the address of the adapter; it never begins with "hci". *)
Definition gatt_connect_of (opt_src : string) (dst : list Z) (c : Connection) : bt_options := gatt_connect (Some opt_src) dst "public" "low" 0 (opt_mtu c).

(** A step of [cmd_connect]; [ok] is what [gatt_connect] gives, where it is called. *)
Definition cmd_connect_step (opt_src : string) (ok : bool) (c : Connection) : option Connection :=
  let go p c := Some (put_observer p c) in
  match observer_at c with
  | ConnTest => match opt_dst c with Some _ => go (if in_state STATE_DISCONNECTED c then ConnCall else ObTest 0) c | None => go (ObTest 0) c end
  | ConnCall =>
    dst ← opt_dst c;
    go (ConnAssign ok) (put_requests (requests c ++ [Connect (gatt_connect_of opt_src dst c)]) (put_connecting ok c))
  | ConnAssign ok => go (ConnWatch ok) (put_channel ok c)
  | ConnWatch ok => if ok then go ConnSet (put_watching true c) else go (ObTest 0) (setState STATE_ERROR c)
  | ConnSet => go (ObTest 0) (setState STATE_PENDING_CHANGE c)
  | _ => Some c
  end.

(** A step of the observer. *)
Definition observer_step (opt_src : string) (ok : bool) (c : Connection) : option Connection :=
  let go p c := Some (put_observer p c) in
  match observer_at c with
  | ObNone | ObEnded => Some c
  | ObTest n => match observer_tests !! n with Some (state, p) => go (if in_state state c then p else ObTest (S n)) c | None => go (ObTest 0) c end
  | ConnTest | ConnCall | ConnAssign _ | ConnWatch _ | ConnSet => cmd_connect_step opt_src ok c
  | DescTest => go (if in_state STATE_CONNECTED c then DescSet else ObTest 0) c
  | DescSet => go DescCall (setState STATE_PENDING_CHANGE c)
  | DescCall => go (ObTest 0) (request_over (DiscoverDescriptors 1 0xffff) (put_discovering true) c)
  | ReadTest => go (if in_state STATE_HANDLE_READY c then ReadSet else ObTest 0) c
  | ReadSet => go ReadCall (setState STATE_PENDING_CHANGE c)
  | ReadCall => go (ObTest 0) (request_over (ReadCharacteristic (nus_rx_handle c)) (put_reading true) c)
  | NotifyTest => go (if in_state STATE_TX_VALUE_SAVED c && negb (nus_rx_notify_handle c <=? 0) then NotifyCall else ObTest 0) c
  | NotifyCall => go NotifySet (request_over (WriteCommand (nus_rx_notify_handle c) [1; 0]) (fun c => c) c)
  | NotifySet => go (ObTest 0) (setState STATE_RX_NOTIFY_ENABLED c)
  | ReadySet => go ReadyGive (setState STATE_NUS_READY c)
  | ReadyGive =>
    kind ← tx_buffer c !! 1%nat;
    first ← tx_buffer c !! 0%nat;
    c ← (if kind =? 2 then onReceive (tx_buffer c) (ushort_of_char first) c else Some c);
    go ObEnded c
  end.

(** ** ConnectionCallbacks.cpp *)

(** [err]: the code of the error, if there is one. *)
Definition connect_cb (err : option Z) (c : Connection) : Connection :=
  match err with
  | Some code => put_main (if code =? 111 then MainRefused else MainIdle) (setState STATE_ERROR c)
  | None => setState STATE_CONNECTED (put_attrib (iochannel c) c)
  end.

Definition disconnect_io (c : Connection) : Connection :=
  if in_state STATE_CLOSED c then c else setState STATE_CLOSED (put_io 0 false false c).
Definition channel_watcher (c : Connection) : Connection := put_watching false (disconnect_io c).

(** The handles found so far; [None]: that of the notifications, of what is read, of what is written. *)
Record nus_handles := mkHandles { hnd_rx_cccd : option Z; hnd_rx : option Z; hnd_tx : option Z }.
Definition is_set (h : option Z) : bool := match h with Some _ => true | None => false end.
Definition handles_done (h : nus_handles) : bool := is_set (hnd_tx h) && is_set (hnd_rx h) && is_set (hnd_rx_cccd h).
(** The loop over the descriptors: what was found, and whether it was left for a duplicate. *)
Fixpoint find_handles (descs : list gatt_desc) (h : nus_handles) : nus_handles * bool :=
  match descs with
  | [] => (h, false)
  | d :: descs =>
    if handles_done h then find_handles descs h else
    let tx := String.eqb (desc_uuid d) TX_CHRC_UUID in
    if tx && is_set (hnd_tx h) then (h, true) else
    let h := if tx then mkHandles (hnd_rx_cccd h) (hnd_rx h) (Some (desc_handle d)) else h in
    let rx := String.eqb (desc_uuid d) RX_CHRC_UUID in
    if rx && is_set (hnd_rx h) then (h, true) else
    let h := if rx then mkHandles (hnd_rx_cccd h) (Some (desc_handle d)) (hnd_tx h) else h in
    let cccd := negb (is_set (hnd_rx_cccd h)) && is_set (hnd_rx h) && String.eqb (desc_uuid d) RX_CCCD_UUID in
    find_handles descs (if cccd then mkHandles (Some (desc_handle d)) (hnd_rx h) (hnd_tx h) else h)
  end.
(** The members the handles are stored in keep what they had where nothing is found. *)
Definition store_handles (h : nus_handles) (c : Connection) : Connection :=
  put_handles (default (nus_rx_notify_handle c) (hnd_rx_cccd h)) (default (nus_rx_handle c) (hnd_rx h)) (default (nus_tx_handle c) (hnd_tx h)) c.
Definition check_characteristic_descriptors (status : Z) (descriptors : list gatt_desc) (c : Connection) : Connection :=
  if negb (status =? 0) then c else
  let '(h, duplicate) := find_handles descriptors (mkHandles None None None) in
  let c := store_handles h c in
  if negb duplicate && handles_done h then setState STATE_HANDLE_READY c else c.

(** A decoder of attrib/att.c on the bytes of a PDU and a local array. *)
Definition att_call {A} (pdu value : list Z) (f : option ptr -> option ptr -> M mem A) : option (A * list Z) :=
  '(r, m) ← f (Some (Ptr 0 0)) (Some (Ptr 1 0)) (<[0%nat := pdu]> (<[1%nat := value]> ∅));
  value ← m !! 1%nat; Some (r, value).

(** [slack] bytes behind [tx_buffer] are unused in the object the compiler laid out; what is stored
    there is not looked at. *)
Definition cmd_read_tx_buffer_cb (slack : nat) (status : Z) (pdu : list Z) (c : Connection) : option Connection :=
  let plen := Z.of_nat (length pdu) in
  if negb (status =? 0) then Some c else
  '(vlen, value) ← att_call pdu (zero_bytes (length pdu)) (fun p v => dec_read_resp p plen v plen);
  if vlen <? 0 then Some c else
  buffer ← SnSocket.copy_to (zero_bytes (20 + slack)) 0 (take (Z.to_nat vlen) value);
  Some (setState STATE_TX_VALUE_SAVED (put_tx_buffer (take 20 buffer) c)).

Definition char_write_req_raw_cb (status : Z) (pdu : list Z) (c : Connection) : option Connection :=
  let plen := Z.of_nat (length pdu) in
  if negb (status =? 0) then Some (setState STATE_ERROR c) else
  '(r1, _) ← att_call pdu [] (fun p _ => dec_write_resp p plen);
  '(r2, _) ← att_call pdu [] (fun p _ => dec_exec_write_resp p plen);
  Some (setState (if (r1 =? 0) && (r2 =? 0) then STATE_ERROR else STATE_NUS_READY) c).

Definition events_handler (pdu : list Z) (c : Connection) : option Connection :=
  op ← pdu !! 0%nat; lo ← pdu !! 1%nat; hi ← pdu !! 2%nat;
  let handle := lo + 256 * hi in
  if op =? ATT_OP_HANDLE_NOTIFY then
    if handle =? nus_rx_notify_handle c then Some c
    else if handle =? nus_rx_handle c then onReceive (drop 3 pdu) (to_ushort (Z.of_nat (length pdu) - 3)) c
    else Some c
  else if op =? ATT_OP_HANDLE_IND then Some (request_over Confirm (fun c => c) c)
  else Some c.

(** ** Sending and closing *)

(** [r]: the value of [gatt_write_char]. *)
Definition cmd_char_write_raw (r : Z) (length_ : Z) (data : list Z) (c : Connection) : option (bool * Connection) :=
  if 20 <? length_ then Some (false, c) else
  if negb (in_state STATE_NUS_READY c) then Some (false, c) else
  if Z.of_nat (length data) <? length_ then None else
  Some (0 <? r, if 0 <? r then put_requests (requests c ++ [WriteCharacteristic (nus_tx_handle c) (take (Z.to_nat length_) data)]) (put_writing (S (writing c)) c) else c).
Definition connection_send (r : Z) (data : list Z) (length_ : Z) (c : Connection) : option (bool * Connection) :=
  if negb (in_state STATE_NUS_READY c) then Some (false, c) else cmd_char_write_raw r length_ data c.

(** [close], once the main loop has come to its end; what it frees it may not free again. *)
Definition connection_close (c : Connection) : option Connection :=
  if cn_freed c then None else
  let c := setState STATE_CLOSED c in
  let c := match main_at c with MainIdle => put_main MainEnded c | MainRefused => put_main MainEnded (setErrorState ConnectionRefused c) | _ => c end in
  let c := disconnect_io c in
  Some (put_freed true (put_opt_dst None c)).
(** [delete] of an object whose threads are not joined ends the program. *)
Definition connection_delete (c : Connection) : option unit :=
  match main_at c with MainNone | MainEnded => Some tt | _ => None end.

(** ** Both threads *)

Inductive connection_event :=
  | Observer (ok : bool)
  | ConnectCb (err : option Z) | SetRefused
  | DescriptorsCb (status : Z) (descriptors : list gatt_desc)
  | ReadCb (status : Z) (pdu : list Z)
  | WriteCb (status : Z) (pdu : list Z)
  | EventCb (pdu : list Z)
  | HangUp
  | SendCall (r : Z) (data : list Z) (length_ : Z).

Definition main_idle (c : Connection) : bool := match main_at c with MainIdle => true | _ => false end.
(** That the libraries may call back so. *)
Definition event_enabled (e : connection_event) (c : Connection) : bool :=
  match e with
  | Observer _ | SendCall _ _ _ => true
  | ConnectCb _ => main_idle c && connecting c
  | SetRefused => match main_at c with MainRefused => true | _ => false end
  | DescriptorsCb _ _ => main_idle c && discovering c
  | ReadCb _ _ => main_idle c && reading c
  | WriteCb _ _ => main_idle c && (0 <? writing c)%nat
  | EventCb _ => main_idle c && attrib c
  | HangUp => main_idle c && watching c
  end.
Definition connection_step (opt_src : string) (slack : nat) (e : connection_event) (c : Connection) : option Connection :=
  match e with
  | Observer ok => observer_step opt_src ok c
  | ConnectCb err => Some (connect_cb err (put_connecting false c))
  | SetRefused => Some (put_main MainIdle (setErrorState ConnectionRefused c))
  | DescriptorsCb status descriptors => Some (check_characteristic_descriptors status descriptors (put_discovering false c))
  | ReadCb status pdu => cmd_read_tx_buffer_cb slack status pdu (put_reading false c)
  | WriteCb status pdu => char_write_req_raw_cb status pdu (put_writing (pred (writing c)) c)
  | EventCb pdu => events_handler pdu c
  | HangUp => Some (channel_watcher c)
  | SendCall r data length_ => snd <$> connection_send r data length_ c
  end.

(** Steps of both threads in any order, with their list. *)
Inductive connection_steps (opt_src : string) (slack : nat) : Connection -> list connection_event -> Connection -> Prop :=
  | connection_refl c : connection_steps opt_src slack c [] c
  | connection_one c e c1 es c2 : event_enabled e c = true -> connection_step opt_src slack e c = Some c1 ->
      connection_steps opt_src slack c1 es c2 -> connection_steps opt_src slack c (e :: es) c2.
