(* ===== verification/BleConnectionSpec.v ===== *)
(** * BleConnectionSpec: the two threads of a connection of BleConnection.v *)
From Stdlib Require Import String.
From S2P Require Import Prelude CMem SnSocket Att AttSpec BleConnection.

(** ** Descriptors *)

(** The reference: the first characteristic that is written, the first that is read, and the first
    configuration behind that. *)
Fixpoint first_handle (uuid : string) (descs : list gatt_desc) : option Z :=
  match descs with [] => None | d :: descs => if String.eqb (desc_uuid d) uuid then Some (desc_handle d) else first_handle uuid descs end.
Fixpoint notify_handle (behind : bool) (descs : list gatt_desc) : option Z :=
  match descs with
  | [] => None
  | d :: descs =>
    let behind := behind || String.eqb (desc_uuid d) RX_CHRC_UUID in
    if behind && String.eqb (desc_uuid d) RX_CCCD_UUID then Some (desc_handle d) else notify_handle behind descs
  end.
Definition or_else (x y : option Z) : option Z := match x with Some _ => x | None => y end.

Lemma find_handles_refines descs : forall h h', find_handles descs h = (h', false) ->
  hnd_tx h' = or_else (hnd_tx h) (first_handle TX_CHRC_UUID descs) /\ hnd_rx h' = or_else (hnd_rx h) (first_handle RX_CHRC_UUID descs) /\
  hnd_rx_cccd h' = or_else (hnd_rx_cccd h) (notify_handle (is_set (hnd_rx h)) descs).
Proof.
  induction descs as [|d descs IH]; intros h h'; cbn [find_handles first_handle notify_handle].
  - intros [= <-]. destruct h as [[] [] []]; done.
  - destruct (handles_done h) eqn:Ed.
    + intros E. destruct (IH _ _ E) as (-> & -> & ->). destruct h as [[] [] []]; done.
    + destruct d as [v u]. cbn [desc_uuid desc_handle]. destruct h as [cc rx tx]; cbn [hnd_tx hnd_rx hnd_rx_cccd] in *.
      destruct (String.eqb_spec u TX_CHRC_UUID) as [->|Ntx]; [|destruct (String.eqb_spec u RX_CHRC_UUID) as [->|Nrx]; [|destruct (String.eqb_spec u RX_CCCD_UUID) as [->|Ncc]]].
      * change (String.eqb TX_CHRC_UUID RX_CHRC_UUID) with false. change (String.eqb TX_CHRC_UUID RX_CCCD_UUID) with false. cbn [andb orb]. destruct tx; [done|]. cbn [is_set hnd_tx hnd_rx hnd_rx_cccd].
        rewrite !andb_false_r, orb_false_r. intros E. by destruct (IH _ _ E) as (-> & -> & ->).
      * cbn [andb orb is_set hnd_tx hnd_rx hnd_rx_cccd]. destruct rx; [done|]. change (String.eqb RX_CHRC_UUID RX_CCCD_UUID) with false. cbn [is_set hnd_tx hnd_rx hnd_rx_cccd].
        rewrite !andb_false_r. intros E. by destruct (IH _ _ E) as (-> & -> & ->).
      * cbn [andb orb is_set hnd_tx hnd_rx hnd_rx_cccd]. rewrite orb_false_r, !andb_true_r. destruct cc, rx; cbn [negb andb is_set hnd_tx hnd_rx hnd_rx_cccd]; intros E; by destruct (IH _ _ E) as (-> & -> & ->).
      * cbn [andb orb is_set hnd_tx hnd_rx hnd_rx_cccd]. rewrite orb_false_r, !andb_false_r. intros E. by destruct (IH _ _ E) as (-> & -> & ->).
Qed.

Lemma find_handles_complete descs : forall h, Forall (fun d => desc_uuid d <> TX_CHRC_UUID) descs \/ hnd_tx h = None /\ (length (filter (fun d => desc_uuid d = TX_CHRC_UUID) descs) <= 1)%nat ->
  Forall (fun d => desc_uuid d <> RX_CHRC_UUID) descs \/ hnd_rx h = None /\ (length (filter (fun d => desc_uuid d = RX_CHRC_UUID) descs) <= 1)%nat ->
  (find_handles descs h).2 = false.
Proof.
  induction descs as [|d descs IH]; intros h Htx Hrx; [done|]. cbn [find_handles].
  assert (forall u (x : option Z), Forall (fun d => desc_uuid d <> u) (d :: descs) \/ x = None /\ (length (filter (fun d => desc_uuid d = u) (d :: descs)) <= 1)%nat ->
    (desc_uuid d = u -> x = None /\ Forall (fun d => desc_uuid d <> u) descs) /\
    (desc_uuid d <> u -> Forall (fun d => desc_uuid d <> u) descs \/ x = None /\ (length (filter (fun d => desc_uuid d = u) descs) <= 1)%nat)) as Hsplit.
  { intros u x [HF|[-> Hl]].
    - inversion_clear HF. split; [done|by left].
    - split; intros Hd; [rewrite filter_cons_True in Hl by done|rewrite filter_cons_False in Hl by done; by right]. split; [done|]. cbn [length] in Hl.
      apply Forall_forall. intros d' Hin Hd'. assert (d' ∈ filter (fun d => desc_uuid d = u) descs) as Hf by (by apply list_elem_of_filter). destruct (filter (fun d => desc_uuid d = u) descs) as [|x1 l1]; [by apply elem_of_nil in Hf|cbn in Hl; lia]. }
  destruct (Hsplit _ _ Htx) as [Htx1 Htx2]. destruct (Hsplit _ _ Hrx) as [Hrx1 Hrx2]. clear Hsplit.
  assert (forall (x : option Z) u, Forall (fun d => desc_uuid d <> u) descs -> Forall (fun d => desc_uuid d <> u) descs \/ x = None /\ (length (filter (fun d => desc_uuid d = u) descs) <= 1)%nat) as Hl by (by left).
  destruct (String.eqb_spec (desc_uuid d) TX_CHRC_UUID) as [Etx|Ntx].
  - destruct (Htx1 Etx) as [E0 HF]. assert (desc_uuid d <> RX_CHRC_UUID) as Nrx by (by rewrite Etx). destruct (handles_done h) eqn:Ed; [apply IH; auto|]. rewrite E0. cbn [is_set andb].
    destruct (String.eqb_spec (desc_uuid d) RX_CHRC_UUID); [done|]. cbn [andb hnd_rx hnd_tx hnd_rx_cccd]. apply IH; case_match; cbn; auto.
  - destruct (String.eqb_spec (desc_uuid d) RX_CHRC_UUID) as [Erx|Nrx]; cbn [andb].
    + destruct (Hrx1 Erx) as [E0 HF]. destruct (handles_done h) eqn:Ed; [apply IH; auto|]. rewrite E0. cbn [is_set andb]. apply IH; case_match; cbn; auto.
    + destruct (handles_done h) eqn:Ed; [apply IH; auto|]. apply IH; case_match; cbn; auto.
Qed.

(** What a device must have: the two characteristics, once, and a configuration behind the one that is read. *)
Definition has_nus (descs : list gatt_desc) (notify rx tx : Z) : Prop :=
  (length (filter (fun d => desc_uuid d = TX_CHRC_UUID) descs) <= 1)%nat /\ (length (filter (fun d => desc_uuid d = RX_CHRC_UUID) descs) <= 1)%nat /\
  first_handle TX_CHRC_UUID descs = Some tx /\ first_handle RX_CHRC_UUID descs = Some rx /\ notify_handle false descs = Some notify.

(** The handles of a device that has the service are found, whatever else it has. *)
Theorem descriptors_found descs notify rx tx c : has_nus descs notify rx tx ->
  check_characteristic_descriptors 0 descs c = setState STATE_HANDLE_READY (put_handles notify rx tx c).
Proof.
  intros (Htx & Hrx & E1 & E2 & E3). unfold check_characteristic_descriptors. cbn [negb Z.eqb].
  pose proof (find_handles_complete descs (mkHandles None None None) ltac:(by right) ltac:(by right)) as Hd.
  destruct (find_handles descs _) as [h b] eqn:E. cbn in Hd. subst b. destruct (find_handles_refines _ _ _ E) as (H1 & H2 & H3). cbn [hnd_tx hnd_rx hnd_rx_cccd or_else is_set] in *.
  destruct h as [cc r t]; cbn [hnd_tx hnd_rx hnd_rx_cccd] in *. rewrite E1 in H1. rewrite E2 in H2. rewrite E3 in H3. subst. done.
Qed.
(** A state is set only with all three handles set to what the reference finds. *)
Theorem descriptors_sound descs c : conn_state (check_characteristic_descriptors 0 descs c) = conn_state c \/
  exists notify rx tx, first_handle TX_CHRC_UUID descs = Some tx /\ first_handle RX_CHRC_UUID descs = Some rx /\ notify_handle false descs = Some notify /\
    check_characteristic_descriptors 0 descs c = setState STATE_HANDLE_READY (put_handles notify rx tx c).
Proof.
  unfold check_characteristic_descriptors. cbn [negb Z.eqb]. destruct (find_handles descs _) as [h b] eqn:E. destruct b; [by left|]. cbn [negb andb].
  destruct (handles_done h) eqn:Ed; [|by left]. right. destruct (find_handles_refines _ _ _ E) as (H1 & H2 & H3). cbn [hnd_tx hnd_rx hnd_rx_cccd or_else is_set] in *.
  destruct h as [[cc|] [r|] [t|]]; try done. cbn in *. by exists cc, r, t.
Qed.

(** ** The first message *)

(** What [dec_read_resp] makes of the reply to a read, with the array the callback has for it. *)
Lemma read_resp_call v : Z.of_nat (length v) < 65535 ->
  att_call (ATT_OP_READ_RESP :: v) (zero_bytes (S (length v))) (fun p q => dec_read_resp p (Z.of_nat (S (length v))) q (Z.of_nat (S (length v)))) = Some (Z.of_nat (length v), v ++ [0]).
Proof.
  intros Hv. unfold att_call. set (m := <[0%nat := _]> _).
  assert (at_bytes m (Ptr 0 0) (ATT_OP_READ_RESP :: v)) as Hm by (apply at_bytes_spec; [done|]; exists (ATT_OP_READ_RESP :: v); split; [by unfold m; rewrite lookup_insert_eq|cbn [p_off]; split_and!; [lia|lia|by rewrite drop_0, firstn_all]]).
  assert (m !! 1%nat = Some (zero_bytes (S (length v)))) as H1 by (unfold m; by rewrite lookup_insert_ne, lookup_insert_eq).
  assert (exists m', store_bytes m (Ptr 1 0) v = Some m' /\ m' !! 1%nat = Some (v ++ [0])) as (m' & Est & Hm').
  { assert (splice (zero_bytes (S (length v))) 0 v = v ++ [0]) as Es by (unfold splice, zero_bytes; rewrite take_0, drop_replicate; cbn [app]; by replace (S (length v) - (0 + length v))%nat with 1%nat by lia).
    destruct v as [|b v']; [by exists m|]. unfold store_bytes. cbn [p_blk p_off]. rewrite H1. cbn [mbind option_bind]. rewrite decide_True by (unfold zero_bytes; rewrite length_replicate; lia).
    eexists. split; [done|]. change (Z.to_nat 0) with 0%nat. by rewrite lookup_insert_eq, Es. }
  assert (dec_read_resp (Some (Ptr 0 0)) (Z.of_nat (S (length v))) (Some (Ptr 1 0)) (Z.of_nat (S (length v))) m = Some (Z.of_nat (length v), m')) as ->.
  { unfold dec_read_resp. read8 Hm. change (negb (ATT_OP_READ_RESP =? ATT_OP_READ_RESP)) with false. cbv iota. replace (Z.of_nat (S (length v)) - 1) with (Z.of_nat (length v)) by lia.
    rewrite to_uint_id, to_int_id by (unfold INT_MIN, INT_MAX; lia). rewrite (proj2 (Z.ltb_ge _ _)) by lia. erewrite M_bind_Some by (by eapply run_copy_to). done. }
  cbn [mbind option_bind]. by rewrite Hm'.
Qed.

(** The message as it is kept. *)
Definition kept (v : list Z) : list Z := splice (zero_bytes 20) 0 v.

Lemma read_cb_spec slack v c : Z.of_nat (length v) < 65535 ->
  cmd_read_tx_buffer_cb slack 0 (ATT_OP_READ_RESP :: v) c =
  if (20 + slack <? length v)%nat then None else Some (setState STATE_TX_VALUE_SAVED (put_tx_buffer (take 20 (kept v)) c)).
Proof.
  intros Hv. unfold cmd_read_tx_buffer_cb. cbn [negb Z.eqb]. change (length (ATT_OP_READ_RESP :: v)) with (S (length v)). rewrite read_resp_call by done. cbn [mbind option_bind].
  rewrite (proj2 (Z.ltb_ge _ _)) by lia. rewrite Nat2Z.id, take_app_length. unfold SnSocket.copy_to. assert (length (zero_bytes (20 + slack)) = (20 + slack)%nat) as -> by apply length_replicate. cbn [Nat.add].
  destruct (Nat.ltb_spec (S (S (S (S (S (S (S (S (S (S (S (S (S (S (S (S (S (S (S (S slack)))))))))))))))))))) (length v)) as [Hl|Hl].
  - by rewrite (proj2 (Nat.leb_gt _ _)) by lia.
  - rewrite (proj2 (Nat.leb_le _ _)) by lia. cbn [mbind option_bind]. do 3 f_equal. unfold kept, splice, zero_bytes. rewrite !take_0, !drop_replicate. cbn [app Nat.add].
    destruct (decide (length v <= 20)%nat); [rewrite !take_app, !take_replicate; do 2 f_equal; lia|].
    by rewrite !take_app_le by lia.
Qed.

(** A first message of more than twenty bytes, and the channel carries up to twenty-two, is written past [tx_buffer]: undefined,
    but for what the compiler left unused behind it. *)
Theorem first_message_overrun slack v c : (20 + slack < length v)%nat -> Z.of_nat (length v) < 65535 -> cmd_read_tx_buffer_cb slack 0 (ATT_OP_READ_RESP :: v) c = None.
Proof. intros Hl Hv. rewrite read_cb_spec by done. by rewrite (proj2 (Nat.ltb_lt _ _)). Qed.

(** ** Requests in their order *)

Section Threads.
Context (opt_src : string) (slack : nat).
Implicit Types (c : Connection).

Definition is_setup (r : request) : bool := match r with WriteCharacteristic _ _ | Confirm => false | _ => true end.
Definition setup c : list request := filter (fun r : request => is_setup r = true) (requests c).
(** What is asked of a device to set up a connection, with the handles it has. *)
Definition script c : list request :=
  [Connect (gatt_connect (Some opt_src) (cn_address c) "public" "low" 0 0); DiscoverDescriptors 1 0xffff; ReadCharacteristic (nus_rx_handle c); WriteCommand (nus_rx_notify_handle c) [1; 0]].

Definition is_conn (o : observer) : bool := match o with ConnAssign _ | ConnWatch _ | ConnSet => true | _ => false end.
Definition is_ready (o : observer) : bool := match o with ReadyGive | ObEnded => true | _ => false end.

(** How far the set up is in a state: [k] requests were made. *)
Definition state_at (k : nat) c : Prop :=
  match conn_state c with
  | STATE_DISCONNECTED => k = 0%nat \/ k = 1%nat /\ is_conn (observer_at c) = true
  | STATE_CONNECTED => k = 1%nat /\ connecting c = false
  | STATE_HANDLE_READY => k = 2%nat /\ discovering c = false
  | STATE_TX_VALUE_SAVED => k = 3%nat /\ reading c = false \/ observer_at c = NotifySet
  | STATE_NUS_READY => is_ready (observer_at c) = true
  | _ => True
  end.
Definition observer_at_phase (k : nat) c : Prop :=
  match observer_at c with
  | ConnTest | ConnCall => k = 0%nat
  | ConnAssign _ | ConnWatch _ | ConnSet => k = 1%nat
  | DescTest | DescSet => k = 1%nat /\ connecting c = false
  | DescCall => k = 1%nat /\ connecting c = false /\ (conn_state c = STATE_PENDING_CHANGE \/ conn_state c = STATE_CLOSED)
  | ReadTest | ReadSet => k = 2%nat /\ discovering c = false
  | ReadCall => k = 2%nat /\ discovering c = false /\ (conn_state c = STATE_PENDING_CHANGE \/ conn_state c = STATE_CLOSED)
  | NotifyTest | NotifyCall => k = 3%nat /\ reading c = false
  | _ => True
  end.
Record in_phase (k : nat) c : Prop := {
  ph_setup : setup c = take k (script c);
  ph_opts : opt_dst c = Some (cn_address c) /\ opt_mtu c = 0;
  ph_connecting : connecting c = true -> k = 1%nat;
  ph_discovering : discovering c = true -> k = 2%nat;
  ph_reading : reading c = true -> k = 3%nat;
  ph_writing : (0 < writing c)%nat -> is_ready (observer_at c) = true;
  ph_state : state_at k c;
  ph_observer : observer_at_phase k c
}.

Lemma setup_snoc c r : is_setup r = true -> filter (fun r : request => is_setup r = true) (requests c ++ [r]) = setup c ++ [r].
Proof. intros H. rewrite filter_app, filter_cons_True by done. done. Qed.
Lemma setup_snoc_other c r : is_setup r = false -> filter (fun r : request => is_setup r = true) (requests c ++ [r]) = setup c.
Proof. intros H. rewrite filter_app, filter_cons_False by congruence. by rewrite filter_nil, app_nil_r. Qed.


(** What is left of a step: a case for each state. *)
Ltac phase_cases :=
  unfold state_at, observer_at_phase in *; cbn in *;
  repeat match goal with |- context [match conn_state ?c with _ => _ end] => destruct (conn_state c) eqn:? end; cbn in *;
  intuition (try discriminate; try congruence; try lia).

(** Where a state leads the observer. *)
Definition place_of (x : ConnectionState) : observer :=
  match x with
  | STATE_CLOSED | STATE_ERROR => ObEnded | STATE_PENDING_CHANGE | STATE_NUS_READY => ObTest 0 | STATE_DISCONNECTED => ConnTest | STATE_CONNECTED => DescTest
  | STATE_HANDLE_READY => ReadTest | STATE_TX_VALUE_SAVED => NotifyTest | STATE_RX_NOTIFY_ENABLED => ReadySet
  end.
Lemma observer_tests_place n x p : observer_tests !! n = Some (x, p) -> p = place_of x.
Proof. do 8 (destruct n as [|n]; [by intros [= <- <-]|]). done. Qed.

(** The observer goes on without a word. *)
Lemma phase_moves k c p : in_phase k c -> ((0 < writing c)%nat -> is_ready p = true) -> state_at k (put_observer p c) -> observer_at_phase k (put_observer p c) -> in_phase k (put_observer p c).
Proof. by intros [] ???; split. Qed.
Lemma phase_test k c n p : in_phase k c -> observer_at c = ObTest n -> p = place_of (conn_state c) \/ (exists m, p = ObTest m) -> in_phase k (put_observer p c).
Proof.
  intros H En Hp. pose proof H as [_ _ _ _ _ Hw Hst _]. rewrite En in Hw. unfold state_at in Hst. rewrite En in Hst. apply phase_moves; [done|intros Hw1; by specialize (Hw Hw1)| |].
  - unfold state_at. cbn. destruct Hp as [->|[m ->]]; phase_cases.
  - unfold observer_at_phase. cbn. destruct Hp as [->|[m ->]]; [destruct (conn_state c) eqn:Ex|]; phase_cases.
Qed.

(** The observer sets the state, or asks for something. *)
Lemma phase_sets k c x p : in_phase k c -> writing c = 0%nat -> state_at k (put_observer p (setState x c)) -> observer_at_phase k (put_observer p (setState x c)) -> in_phase k (put_observer p (setState x c)).
Proof. intros [] Hw ??. split; try done. cbn. lia. Qed.
Lemma writing_0 k c : in_phase k c -> is_ready (observer_at c) = false -> writing c = 0%nat.
Proof. intros [_ _ _ _ _ Hw _ _] Hr. destruct (writing c); [done|]. rewrite Hw in Hr by lia. done. Qed.

Lemma observer_phase ok k c c' : in_phase k c -> observer_step opt_src ok c = Some c' -> exists k', in_phase k' c'.
Proof.
  intros H. pose proof H as [Hs [Hd Hm] Hc Hi Hr _ Hst Ho]. pose proof (writing_0 k c H) as Hw. unfold observer_step, in_state, request_over. unfold observer_at_phase in Ho. unfold state_at in Hst.
  destruct (observer_at c) as [|n| | |ok'|ok'| | | | | | | | | | | | |] eqn:Eo; cbn [is_ready] in Hw; try specialize (Hw eq_refl); unfold cmd_connect_step, in_state; rewrite ?Eo.
  - intros [= <-]. by exists k.
  - destruct (observer_tests !! n) as [[x p]|] eqn:En.
    + case_bool_decide as Ex; intros [= <-]; exists k; apply (phase_test k c n); try done; [left; rewrite Ex; by eapply observer_tests_place|right; by eexists].
    + intros [= <-]. exists k. apply (phase_test k c n); [done..|right; by eexists].
  - rewrite Hd. case_bool_decide as Ex; intros [= <-]; exists k; apply phase_moves; try done; try lia; phase_cases.
  - rewrite Hd. cbn [mbind option_bind]. intros [= <-]. exists 1%nat. split; unfold setup; cbn; try done; try lia; try (intros Hx; first [specialize (Hc Hx) | specialize (Hi Hx) | specialize (Hr Hx)]; lia).
    + rewrite setup_snoc by done. rewrite Hs, Ho. unfold gatt_connect_of. by rewrite ?Hm.
    + phase_cases.
  - intros [= <-]. exists k. split; try done; try (cbn; lia); phase_cases.
  - destruct ok'; intros [= <-]; exists k; (split; try done; try (cbn; lia); phase_cases).
  - intros [= <-]. exists k. apply phase_sets; try done; phase_cases.
  - case_bool_decide as Ex; intros [= <-]; exists k; apply phase_moves; try done; try lia; phase_cases.
  - intros [= <-]. exists k. apply phase_sets; try done; phase_cases.
  - intros [= <-]. destruct (attrib c).
    + exists 2%nat. destruct Ho as (-> & Hnc & Hos). split; unfold setup; cbn; try done; try lia; try congruence; try (intros Hx; first [specialize (Hc Hx) | specialize (Hi Hx) | specialize (Hr Hx)]; lia).
      * rewrite setup_snoc by done. by rewrite Hs.
      * phase_cases.
    + exists k. apply phase_moves; try done; try lia; phase_cases.
  - case_bool_decide as Ex; intros [= <-]; exists k; apply phase_moves; try done; try lia; phase_cases.
  - intros [= <-]. exists k. apply phase_sets; try done; phase_cases.
  - intros [= <-]. destruct (attrib c).
    + exists 3%nat. destruct Ho as (-> & Hnc & Hos). split; unfold setup; cbn; try done; try lia; try congruence; try (intros Hx; first [specialize (Hc Hx) | specialize (Hi Hx) | specialize (Hr Hx)]; lia).
      * rewrite setup_snoc by done. by rewrite Hs.
      * phase_cases.
    + exists k. apply phase_moves; try done; try lia; phase_cases.
  - case_bool_decide as Ex; cbn [andb]; [destruct (negb _)|]; intros [= <-]; exists k; apply phase_moves; try done; try lia; phase_cases.
  - intros [= <-]. destruct (attrib c).
    + exists 4%nat. destruct Ho as (-> & Hnc). split; unfold setup; cbn; try done; try lia; try congruence; try (intros Hx; first [specialize (Hc Hx) | specialize (Hi Hx) | specialize (Hr Hx)]; lia).
      * rewrite setup_snoc by done. by rewrite Hs.
      * phase_cases.
    + exists k. apply phase_moves; try done; try lia; phase_cases.
  - intros [= <-]. exists k. apply phase_sets; try done; phase_cases.
  - intros [= <-]. exists k. apply phase_sets; try done; phase_cases.
  - destruct (tx_buffer c !! 1%nat) as [kind|]; [|done]. destruct (tx_buffer c !! 0%nat) as [first|]; [|done]. cbn [mbind option_bind].
    assert (forall c1, in_phase k c1 -> observer_at c1 = ReadyGive -> in_phase k (put_observer ObEnded c1)) as Hend.
    { intros c1 H1 E1. pose proof H1 as [_ _ _ _ _ _ Hst1 _]. unfold state_at in Hst1. rewrite E1 in Hst1. apply phase_moves; try done; phase_cases. }
    destruct (kind =? 2); [|intros [= <-]; exists k; by apply Hend]. unfold onReceive. destruct (_ <? _); [done|]. cbn [mbind option_bind]. intros [= <-]. exists k.
    destruct (cn_receiver c); apply Hend; try done. destruct H. by split.
  - intros [= <-]. by exists k.
Qed.

(** What only the main loop and the libraries use may change. *)
Lemma phase_given k c l : in_phase k c -> in_phase k (put_given l c).
Proof. intros []. by split. Qed.
Lemma phase_onReceive k c data len c' : in_phase k c -> onReceive data len c = Some c' -> in_phase k c'.
Proof. intros H. unfold onReceive. destruct (_ <? _); [done|]. intros [= <-]. destruct (cn_receiver c); [by apply phase_given|done]. Qed.
Lemma phase_other k c r : is_setup r = false -> in_phase k c -> in_phase k (request_over r (fun c => c) c).
Proof. intros Hr [Hs]. unfold request_over. destruct (attrib c); [|by split]. split; try done. unfold setup in *. cbn. by rewrite (setup_snoc_other c r Hr). Qed.

Lemma event_phase e k c c' : in_phase k c -> event_enabled e c = true -> connection_step opt_src slack e c = Some c' -> exists k', in_phase k' c'.
Proof.
  intros H He Hstep. destruct e as [ok|err| |status descs|status pdu|status pdu|pdu| |r data len]; cbn [connection_step event_enabled] in *;
    [by eapply observer_phase|..]; exists k; try apply andb_true_iff in He as [_ He].
  - injection Hstep as <-. destruct H as [Hs [Hd Hm] Hc Hi Hr Hw Hst Ho]. specialize (Hc He). subst k. destruct err as [code|]; cbn [connect_cb]; [destruct (code =? 111)|];
      (split; try done; try (cbn; congruence); phase_cases); destruct (observer_at c); phase_cases.
  - injection Hstep as <-. destruct H. by split.
  - injection Hstep as <-. destruct H as [Hs [Hd Hm] Hc Hi Hr Hw Hst Ho]. specialize (Hi He). subst k. unfold check_characteristic_descriptors.
    assert (forall h c1, in_phase 2 c1 -> in_phase 2 (store_handles h c1)) as Hstore by (intros h c1 []; by split).
    assert (in_phase 2 (put_discovering false c)) as H1 by (split; try done; phase_cases; destruct (observer_at c); phase_cases).
    destruct (negb (status =? 0)); [done|]. destruct (find_handles descs _) as [h dup]. destruct (negb dup && handles_done h); [|by apply Hstore].
    apply (Hstore h) in H1. destruct H1 as [Hs1 [Hd1 Hm1] Hc1 Hi1 Hr1 Hw1 Hst1 Ho1]. split; try done. unfold observer_at_phase in *. cbn in *. destruct (observer_at c); phase_cases.
  - unfold cmd_read_tx_buffer_cb in Hstep. destruct H as [Hs [Hd Hm] Hc Hi Hr Hw Hst Ho]. specialize (Hr He). subst k.
    assert (in_phase 3 (put_reading false c)) as H1 by (split; try done; phase_cases; destruct (observer_at c); phase_cases).
    destruct (negb (status =? 0)); [by injection Hstep as <-|]. destruct (att_call _ _ _) as [[vlen value]|]; [|done]. cbn [mbind option_bind] in Hstep. destruct (vlen <? 0); [by injection Hstep as <-|].
    destruct (SnSocket.copy_to _ _ _) as [b|]; [|done]. injection Hstep as <-. destruct H1 as [Hs1 [Hd1 Hm1] Hc1 Hi1 Hr1 Hw1 Hst1 Ho1]. split; try done; phase_cases; destruct (observer_at c); phase_cases.
  - apply Nat.ltb_lt in He. unfold char_write_req_raw_cb in Hstep. destruct H as [Hs [Hd Hm] Hc Hi Hr Hw Hst Ho]. specialize (Hw He).
    assert (forall x, x = STATE_ERROR \/ x = STATE_NUS_READY -> in_phase k (setState x (put_writing (pred (writing c)) c))) as Hx.
    { intros x [-> | ->]; (split; try done; phase_cases; destruct (observer_at c); phase_cases). }
    destruct (negb (status =? 0)); [injection Hstep as <-; apply Hx; by left|]. destruct (att_call pdu [] (fun p _ => dec_write_resp p (Z.of_nat (length pdu)))) as [[r1 v1]|]; [|done]. cbn [mbind option_bind] in Hstep.
    destruct (att_call pdu [] (fun p _ => dec_exec_write_resp p (Z.of_nat (length pdu)))) as [[r2 v2]|]; [|done]. injection Hstep as <-. apply Hx. destruct (_ && _); [by left|by right].
  - unfold events_handler in Hstep. destruct (pdu !! 0%nat) as [op|]; [|done]. destruct (pdu !! 1%nat) as [lo|]; [|done]. destruct (pdu !! 2%nat) as [hi|]; [|done]. cbn [mbind option_bind] in Hstep.
    repeat case_match; try (by injection Hstep as <-); [by eapply phase_onReceive|]. injection Hstep as <-. by apply phase_other.
  - injection Hstep as <-. unfold channel_watcher, disconnect_io, in_state. destruct H as [Hs [Hd Hm] Hc Hi Hr Hw Hst Ho].
    case_bool_decide; (split; try done; phase_cases; destruct (observer_at c); phase_cases).
  - destruct (connection_send r data len c) as [[b c1]|] eqn:E; [|done]. injection Hstep as <-. unfold connection_send, cmd_char_write_raw, in_state in E. repeat case_match; try done; injection E as <- <-; try done.
    destruct H as [Hs [Hd Hm] Hc Hi Hr Hw Hst Ho]. split; try done.
    + unfold setup in *. cbn. by rewrite (setup_snoc_other c) by done.
    + intros _. cbn. case_bool_decide as Ex; [|done]. unfold state_at in Hst. by rewrite Ex in Hst.
Qed.

(** A new connection, of which [connect] has been called. *)
Definition connection_started (address : list Z) (receiver : bool) : Connection := connect_start (setReceiverInterface receiver (Connection_new address)).

Lemma started_phase address receiver : in_phase 0 (connection_started address receiver).
Proof. split; try done; try (cbn; lia). Qed.

Lemma steps_phase c es c' : connection_steps opt_src slack c es c' -> forall k, in_phase k c -> exists k', in_phase k' c'.
Proof. induction 1 as [c|c e c1 es c2 He Hs _ IH]; intros k H; [by exists k|]. destruct (event_phase e k c c1 H He Hs) as [k1 H1]. by apply (IH k1). Qed.

(** C17: however the two threads and the device take turns, what a connection has asked of the device, apart from
    messages and confirmations, are the first requests of the script in their order and each once: connect, discover
    the descriptors, read the first message, enable the notifications; so a reply that comes late, twice as fast as the
    observer, or after the connection was closed never repeats or swaps one. *)
Theorem requests_in_order address receiver es c : connection_steps opt_src slack (connection_started address receiver) es c ->
  exists k, setup c = take k (script c).
Proof. intros H. destruct (steps_phase _ _ _ H 0 (started_phase address receiver)) as [k []]. by exists k. Qed.

(** ** Connections that never come up *)

(** The state of waiting, with nothing left to wait for. *)
Record forgotten c : Prop := {
  fg_state : conn_state c = STATE_PENDING_CHANGE; fg_observer : exists n, observer_at c = ObTest n;
  fg_calls : connecting c = false /\ discovering c = false /\ reading c = false /\ writing c = 0%nat
}.

Lemma forgotten_step e c c' : e <> HangUp -> forgotten c -> event_enabled e c = true -> connection_step opt_src slack e c = Some c' -> forgotten c'.
Proof.
  intros Hne [Hs [n Ho] (H1 & H2 & H3 & H4)] He Hstep. destruct e as [ok|err| |status descs|status pdu|status pdu|pdu| |r data len]; cbn [event_enabled connection_step] in *; rewrite ?H1, ?H2, ?H3, ?H4, ?andb_false_r in He; try done.
  - unfold observer_step in Hstep. rewrite Ho in Hstep. unfold in_state in Hstep. rewrite Hs in Hstep.
    do 8 (destruct n as [|n]; [injection Hstep as <-; split; try done; by eexists|]). injection Hstep as <-. split; try done. by eexists.
  - injection Hstep as <-. split; try done. by exists n.
  - unfold events_handler in Hstep. destruct (pdu !! 0%nat) as [op|]; [|done]. destruct (pdu !! 1%nat) as [lo|]; [|done]. destruct (pdu !! 2%nat) as [hi|]; [|done]. cbn [mbind option_bind] in Hstep.
    unfold onReceive, request_over in Hstep. repeat case_match; try done; injection Hstep as <-; try done; try (split; try done; by exists n).
  - unfold connection_send, in_state in Hstep. rewrite Hs in Hstep. injection Hstep as <-. split; try done. by exists n.
Qed.

(** A connection that waits with nothing to wait for waits for ever, until the device hangs up: [connect] does not return,
    and with it the thread of the connector, which called it. *)
Theorem forgotten_forever c es c' : forgotten c -> connection_steps opt_src slack c es c' -> HangUp ∉ es -> forgotten c' /\ connect_result c' = None.
Proof.
  intros H Hs. revert H. induction Hs as [c|c e c1 es c2 He Hstep _ IH]; intros H Hn.
  - split; [done|]. destruct H as [_ [n Ho] _]. unfold connect_result. by rewrite Ho.
  - apply IH; [|set_solver +Hn]. apply (forgotten_step e c); [set_solver +Hn|done..].
Qed.

(** So do a device without the service, and one that refuses to tell its descriptors or its first message. *)
Theorem refusal_forgets c n status descs pdu : conn_state c = STATE_PENDING_CHANGE -> observer_at c = ObTest n -> connecting c = false -> writing c = 0%nat ->
  (reading c = false -> status <> 0 \/ first_handle TX_CHRC_UUID descs = None \/ first_handle RX_CHRC_UUID descs = None ->
   exists c', connection_step opt_src slack (DescriptorsCb status descs) c = Some c' /\ forgotten c') /\
  (discovering c = false -> status <> 0 -> exists c', connection_step opt_src slack (ReadCb status pdu) c = Some c' /\ forgotten c').
Proof.
  intros Hs Ho Hc Hw. split.
  - intros Hr Hst. cbn [connection_step]. eexists. split; [done|]. assert (forgotten (put_discovering false c)) as Hf by (split; [done|by exists n|done]).
    unfold check_characteristic_descriptors. destruct (Z.eqb_spec status 0) as [->|]; [|done]. cbn [negb]. destruct (find_handles descs _) as [h dup] eqn:E.
    assert (forall h', forgotten (store_handles h' (put_discovering false c))) as Hf' by (intros h'; split; [done|by exists n|done]).
    destruct dup; [apply Hf'|]. cbn [negb andb]. destruct (handles_done h) eqn:Ed; [|apply Hf']. exfalso. destruct (find_handles_refines _ _ _ E) as (E1 & E2 & _). cbn [hnd_tx hnd_rx or_else] in *.
    unfold handles_done in Ed. destruct Hst as [|[Hn|Hn]]; [done|by rewrite E1, Hn in Ed|rewrite E2, Hn in Ed; by rewrite andb_false_r in Ed].
  - intros Hd Hne. cbn [connection_step]. unfold cmd_read_tx_buffer_cb. rewrite (proj2 (Z.eqb_neq _ _) Hne). cbn [negb]. eexists. split; [done|]. split; [done|by exists n|done].
Qed.

(** ** Running *)

Fixpoint observer_run (n : nat) (c : Connection) : option Connection :=
  match n with O => Some c | S n => c ← observer_step opt_src true c; observer_run n c end.
Lemma observer_steps n : forall c c1 es c2, observer_run n c = Some c1 -> connection_steps opt_src slack c1 es c2 -> connection_steps opt_src slack c (replicate n (Observer true) ++ es) c2.
Proof.
  induction n as [|n IH]; intros c c1 es c2; cbn [observer_run replicate app]; [by intros [= ->]|]. destruct (observer_step opt_src true c) as [c3|] eqn:E; [|done]. cbn [mbind option_bind].
  intros H1 H2. eapply connection_one; [done|exact E|]. by eapply IH.
Qed.

Lemma observer_run_app n m c c1 c2 : observer_run n c = Some c1 -> observer_run m c1 = Some c2 -> observer_run (n + m) c = Some c2.
Proof. revert c. induction n as [|n IH]; intros c; cbn [observer_run Nat.add]; [by intros [= ->]|]. destruct (observer_step opt_src true c); [|done]. cbn [mbind option_bind]. apply IH. Qed.

(** A connection on the way: what is still open, and what was asked. *)
Definition stage (address : list Z) (receiver : bool) (st : ConnectionState) (ob : observer) (hs : Z * Z * Z) (buf : list Z) (at_ con disc rd : bool) (rqs : list request) (gv : list (list Z)) : Connection :=
  mkConnection address ConnectionDisconnected st receiver (Some address) 0 hs.1.1 hs.1.2 hs.2 buf true at_ false ob MainIdle con disc rd 0 true rqs gv.
Definition request1 (address : list Z) : request := Connect (gatt_connect (Some opt_src) address "public" "low" 0 0).
Definition no_handles : Z * Z * Z := (0, 0, 0).

Lemma run_connect address receiver :
  observer_run 8 (connection_started address receiver) = Some (stage address receiver STATE_DISCONNECTED ConnSet no_handles (zero_bytes 20) false true false false [request1 address] []).
Proof. reflexivity. Qed.
Lemma run_connect_set address receiver st at_ con : st <> STATE_CLOSED ->
  observer_run 1 (stage address receiver st ConnSet no_handles (zero_bytes 20) at_ con false false [request1 address] []) =
  Some (stage address receiver STATE_PENDING_CHANGE (ObTest 0) no_handles (zero_bytes 20) at_ con false false [request1 address] []).
Proof. reflexivity. Qed.
Lemma run_discover address receiver :
  observer_run 8 (stage address receiver STATE_CONNECTED (ObTest 0) no_handles (zero_bytes 20) true false false false [request1 address] []) =
  Some (stage address receiver STATE_PENDING_CHANGE (ObTest 0) no_handles (zero_bytes 20) true false true false [request1 address; DiscoverDescriptors 1 0xffff] []).
Proof. reflexivity. Qed.
Lemma run_read address receiver hs rqs :
  observer_run 9 (stage address receiver STATE_HANDLE_READY (ObTest 0) hs (zero_bytes 20) true false false false rqs []) =
  Some (stage address receiver STATE_PENDING_CHANGE (ObTest 0) hs (zero_bytes 20) true false false true (rqs ++ [ReadCharacteristic hs.1.2]) []).
Proof. reflexivity. Qed.
Lemma run_notify address receiver hs buf rqs : 0 < hs.1.1 ->
  observer_run 10 (stage address receiver STATE_TX_VALUE_SAVED (ObTest 0) hs buf true false false false rqs []) =
  Some (stage address receiver STATE_RX_NOTIFY_ENABLED (ObTest 0) hs buf true false false false (rqs ++ [WriteCommand hs.1.1 [1; 0]]) []).
Proof.
  intros Hn. change 10%nat with (7 + 3)%nat.
  apply (observer_run_app 7 3 _ (stage address receiver STATE_TX_VALUE_SAVED NotifyTest hs buf true false false false rqs [])); [reflexivity|].
  cbn [observer_run]. assert (observer_step opt_src true (stage address receiver STATE_TX_VALUE_SAVED NotifyTest hs buf true false false false rqs []) =
    Some (stage address receiver STATE_TX_VALUE_SAVED NotifyCall hs buf true false false false rqs [])) as ->; [|reflexivity].
  unfold observer_step. change (nus_rx_notify_handle (stage address receiver STATE_TX_VALUE_SAVED NotifyTest hs buf true false false false rqs [])) with hs.1.1.
  rewrite (proj2 (Z.leb_gt _ _)) by done. reflexivity.
Qed.

(** Whether a connection comes up is a race: where the device accepts before the observer has noted that it is asking, the note
    overwrites what the callback said, and the connection waits for ever. *)
Theorem accepted_too_soon address receiver : exists es c, connection_steps opt_src slack (connection_started address receiver) es c /\ forgotten c /\ attrib c = true /\ HangUp ∉ es.
Proof.
  exists (replicate 8 (Observer true) ++ ConnectCb None :: replicate 1 (Observer true) ++ []). eexists. split; [|split; [|split]].
  - eapply observer_steps; [apply run_connect|]. eapply (connection_one _ _ _ _ (stage address receiver STATE_CONNECTED ConnSet no_handles (zero_bytes 20) true false false false [request1 address] [])); [done|done|].
    eapply observer_steps; [by apply run_connect_set|]. apply connection_refl.
  - split; [done|by exists 0%nat|done].
  - done.
  - intros Hin. repeat (apply elem_of_cons in Hin as [Hin|Hin]; [done|]). by apply elem_of_nil in Hin.
Qed.

(** What the receiver is handed of the first message: the length a CONNECT begins with, of the type it has there. *)
Definition first_message (receiver : bool) (buf : list Z) : list (list Z) :=
  if receiver && (nth 1 buf 0 =? 2) then [take (Z.to_nat (nth 0 buf 0)) buf] else [].

Lemma run_ready address receiver hs buf rqs : length buf = 20%nat -> 0 <= nth 0 buf 0 <= 20 ->
  observer_run 10 (stage address receiver STATE_RX_NOTIFY_ENABLED (ObTest 0) hs buf true false false false rqs []) =
  Some (stage address receiver STATE_NUS_READY ObEnded hs buf true false false false rqs (first_message receiver buf)).
Proof.
  intros Hl H0. change 10%nat with (9 + 1)%nat.
  apply (observer_run_app 9 1 _ (stage address receiver STATE_NUS_READY ReadyGive hs buf true false false false rqs [])); [reflexivity|].
  cbn [observer_run]. destruct buf as [|b0 [|b1 buf]]; [done..|]. cbn [nth] in H0. unfold first_message. cbn [nth].
  unfold observer_step. change (tx_buffer (stage address receiver STATE_NUS_READY ReadyGive hs (b0 :: b1 :: buf) true false false false rqs [])) with (b0 :: b1 :: buf).
  cbn [lookup list_lookup mbind option_bind stage observer_at]. destruct (b1 =? 2); [|by destruct receiver].
  unfold onReceive, ushort_of_char. rewrite (proj2 (Z.ltb_lt b0 128)), to_ushort_id by lia. rewrite Hl, (proj2 (Z.ltb_ge _ _)) by lia. by destruct receiver.
Qed.

(** A connection to a device that has the service and answers what it is asked, each time after the observer began to wait,
    comes up: [connect] returns true, with the handles of the device, having asked what the script says, and the receiver has been given
    the message the device kept, if it is a CONNECT. *)
Theorem connection_comes_up address receiver descs notify rx tx v : has_nus descs notify rx tx -> 0 < notify ->
  (length v <= 20)%nat -> 0 <= nth 0 (kept v) 0 <= 20 ->
  exists es c, connection_steps opt_src slack (connection_started address receiver) es c /\ connect_result c = Some true /\
    nus_tx_handle c = tx /\ nus_rx_handle c = rx /\ requests c = script c /\ given c = first_message receiver (kept v).
Proof.
  intros Hnus Hn Hv H0. set (hs := (notify, rx, tx)). assert (length (kept v) = 20%nat) as Hk by (unfold kept; rewrite length_splice; [by unfold zero_bytes; rewrite length_replicate|by unfold zero_bytes; rewrite length_replicate]).
  set (rqs := [request1 address; DiscoverDescriptors 1 0xffff]).
  exists (replicate 8 (Observer true) ++ replicate 1 (Observer true) ++ ConnectCb None :: replicate 8 (Observer true) ++ DescriptorsCb 0 descs :: replicate 9 (Observer true) ++
    ReadCb 0 (ATT_OP_READ_RESP :: v) :: replicate 10 (Observer true) ++ replicate 10 (Observer true) ++ []). eexists. split; [|split; [|split; [|split; [|split]]]].
  - eapply observer_steps; [apply run_connect|]. eapply observer_steps; [by apply run_connect_set|].
    eapply (connection_one _ _ _ _ (stage address receiver STATE_CONNECTED (ObTest 0) no_handles (zero_bytes 20) true false false false [request1 address] [])); [done|done|].
    eapply observer_steps; [apply run_discover|].
    eapply (connection_one _ _ _ _ (stage address receiver STATE_HANDLE_READY (ObTest 0) hs (zero_bytes 20) true false false false rqs [])); [done|cbn [connection_step]; by rewrite (descriptors_found _ _ _ _ _ Hnus)|].
    eapply observer_steps; [apply run_read|].
    eapply (connection_one _ _ _ _ (stage address receiver STATE_TX_VALUE_SAVED (ObTest 0) hs (kept v) true false false false _ [])); [done| |].
    { cbn [connection_step]. rewrite read_cb_spec by lia. rewrite (proj2 (Nat.ltb_ge _ _)) by lia. rewrite take_ge by lia. done. }
    eapply observer_steps; [by apply run_notify|]. eapply observer_steps; [by apply run_ready|]. apply connection_refl.
  - done.
  - done.
  - done.
  - done.
  - done.
Qed.

(** An error is forgotten: where two messages are under way and the first is refused, the reply to the second makes the
    connection ready again. *)
Theorem refused_write_forgotten c status : status <> 0 -> main_at c = MainIdle -> writing c = 2%nat ->
  exists c1 c2, connection_step opt_src slack (WriteCb status []) c = Some c1 /\ conn_state c1 = STATE_ERROR /\
    event_enabled (WriteCb 0 [ATT_OP_WRITE_RESP]) c1 = true /\ connection_step opt_src slack (WriteCb 0 [ATT_OP_WRITE_RESP]) c1 = Some c2 /\ conn_state c2 = STATE_NUS_READY.
Proof.
  intros Hs Hm Hw. unfold connection_step, char_write_req_raw_cb, event_enabled, main_idle. rewrite (proj2 (Z.eqb_neq _ _) Hs). cbn [negb].
  eexists _, (setState STATE_NUS_READY _). split; [done|]. split; [done|]. split; [cbn; by rewrite Hm, Hw|]. split; done.
Qed.
End Threads.

(** ** An example *)

(** A device with two other descriptors, whose first message is a CONNECT of six bytes. *)
Definition ex_descs : list gatt_desc :=
  [mkDesc 3 "00002a00-0000-1000-8000-00805f9b34fb"; mkDesc 12 RX_CHRC_UUID; mkDesc 13 RX_CCCD_UUID; mkDesc 15 TX_CHRC_UUID; mkDesc 17 RX_CCCD_UUID].
Lemma ex_descs_nus : has_nus ex_descs 13 12 15.
Proof. split_and!; try reflexivity; vm_compute; lia. Qed.
Lemma requests_in_order_witness : exists es c k, connection_steps "00:1A:7D:DA:71:21" 0 (connection_started [1; 2; 3; 4; 5; 6] true) es c /\
  connect_result c = Some true /\ given c = [[6; 2; 4; 1; 65; 66]] /\ setup c = take k (script "00:1A:7D:DA:71:21" c).
Proof.
  destruct (connection_comes_up "00:1A:7D:DA:71:21" 0 [1; 2; 3; 4; 5; 6] true ex_descs 13 12 15 [6; 2; 4; 1; 65; 66] ex_descs_nus) as (es & c & Hs & Hr & _ & _ & _ & Hg); [lia|cbn; lia|vm_compute; done|].
  destruct (requests_in_order "00:1A:7D:DA:71:21" 0 [1; 2; 3; 4; 5; 6] true es c Hs) as [k Hk].
  exists es, c, k. split; [exact Hs|]. split; [exact Hr|]. split; [rewrite Hg; vm_compute; reflexivity|exact Hk].
Defined.
