(* ===== verification/BleOld.v ===== *)
(** * BleOld: the older socket over Bluetooth Low Energy, src/Implementation/Ble_old

    Connector.cpp, whose thread connects to the devices the scanner has seen, and
    BluetoothLowEnergySocket.cpp with its messages, over the scanner of BleScan.v and the connections of
    BleConnection.v.  [None] is undefined behaviour, or the end of the program. *)
From Stdlib Require Import String.
From S2P Require Import Prelude CMem SnSocket TcpMany BleScan BleConnection.

(** BluetoothLowEnergyMessage.cpp; [uninitialised]: the array before. *)
Record BluetoothLowEnergyMessage := mkBleMessage { msg_address : list Z; msg_payload : list Z; msg_payload_length : Z }.
Definition BluetoothLowEnergyMessage_new (uninitialised address payload : list Z) : option BluetoothLowEnergyMessage :=
  stored ← copy_to uninitialised 0 payload;
  Some (mkBleMessage address stored (Z.of_nat (length payload))).

(** ** Connector.cpp *)

(** The connector as the scanner sees it: its list of results. *)
#[export] Instance connector_callback : ScannerCallback := {| CB := list nat; onScanReceive id l := Some (true, l ++ [id]) |}.

(** The scanner, whose [callback] is the list [scanResults] of the connector; connections by number, of
    which those not deleted are in [objects]; and the queue of the socket. *)
Record connector := mkConnector {
  co_scanner : Scanner; active_connections : list nat; objects : gmap nat Connection; co_stopped : bool; receiver_queue : list BluetoothLowEnergyMessage
}.
Definition put_scanner (x : Scanner) (s : connector) : connector := mkConnector x (active_connections s) (objects s) (co_stopped s) (receiver_queue s).
Definition put_active (x : list nat) (s : connector) : connector := mkConnector (co_scanner s) x (objects s) (co_stopped s) (receiver_queue s).
Definition put_objects (x : gmap nat Connection) (s : connector) : connector := mkConnector (co_scanner s) (active_connections s) x (co_stopped s) (receiver_queue s).
Definition put_co_stopped (x : bool) (s : connector) : connector := mkConnector (co_scanner s) (active_connections s) (objects s) x (receiver_queue s).
Definition put_ble_queue (x : list BluetoothLowEnergyMessage) (s : connector) : connector := mkConnector (co_scanner s) (active_connections s) (objects s) (co_stopped s) x.
Definition results (s : connector) : list nat := callback (co_scanner s).
Definition put_results (x : list nat) (s : connector) : connector := put_scanner (put_callback x (co_scanner s)) s.

Definition connector_start (s : connector) : connector := put_co_stopped false s.
(** [stop] up to [join]. *)
Definition connector_stop (s : connector) : connector := put_co_stopped true s.

(** [close] and [delete] of the object behind a pointer. *)
Definition close_object (id : nat) (s : connector) : option connector := c ← objects s !! id; c ← connection_close c; Some (put_objects (<[id := c]> (objects s)) s).
Definition delete_object (id : nat) (s : connector) : option connector := c ← objects s !! id; _ ← connection_delete c; Some (put_objects (delete id (objects s)) s).
Fixpoint for_each (f : nat -> connector -> option connector) (ids : list nat) (s : connector) : option connector :=
  match ids with [] => Some s | id :: ids => s ← f id s; for_each f ids s end.

Definition closeIfStateError (id : nat) (s : connector) : option connector := c ← objects s !! id; if in_state STATE_ERROR c then close_object id s else Some s.
(** It returns true for every connection. *)
Definition deleteIfStateClosed (id : nat) (s : connector) : option connector := c ← objects s !! id; if in_state STATE_CLOSED c then delete_object id s else Some s.
(** [remove_if(deleteIfStateClosed)] *)
Definition remove_closed (s : connector) : option connector := s ← for_each deleteIfStateClosed (active_connections s) s; Some (put_active [] s).

(** [scanResults.remove(scanResult)], and the use of the reference to the element it has freed: [readable]: that
    the freed element still holds the pointer. *)
Definition remove_result (id : nat) (s : connector) : connector := put_results (filter (fun i => i <> id) (results s)) s.
Definition remove_from_scanner (readable : bool) (id : nat) (s : connector) : option connector :=
  if negb readable then None else scanner ← removeScanResult id (co_scanner s); Some (put_scanner scanner s).

Section Receiver.
Context (uninitialised : list Z).

(** [onReceive] of the connector and of the socket, which looks at the length and goes on. *)
Definition connector_onReceive (address payload : list Z) (s : connector) : option connector :=
  msg ← BluetoothLowEnergyMessage_new uninitialised address payload;
  Some (put_ble_queue (queue_push msg (receiver_queue s)) s).
Fixpoint receive_all (address : list Z) (payloads : list (list Z)) (s : connector) : option connector :=
  match payloads with [] => Some s | p :: payloads => s ← connector_onReceive address p s; receive_all address payloads s end.

(** What [connect_loop] does with the first result, between [stop] and [scan] of the scanner.  [c]: the object of the
    new connection, number [id], when [connect] has returned [ok]. *)
Definition connect_first (readable : bool) (id : nat) (c : Connection) (ok : bool) (s : connector) : option connector :=
  match results s with
  | [] => Some s
  | r :: _ =>
    _ ← heap (co_scanner s) !! r;
    s ← receive_all (cn_address c) (given c) (put_objects (<[id := c]> (objects s)) s);
    if negb ok && bool_decide (getErrorStatus c = InternalBluetoothError) then
      s ← remove_from_scanner readable r (remove_result r s);
      s ← close_object id s;
      delete_object id s
    else if negb ok && (bool_decide (getErrorStatus c = MissingService) || bool_decide (getErrorStatus c = ConnectionRefused)) then
      s ← close_object id (remove_result r s);
      delete_object id s
    else
      s ← remove_from_scanner readable r (remove_result r s);
      s ← for_each closeIfStateError (active_connections s) s;
      s ← remove_closed s;
      Some (put_active (id :: active_connections s) s)
  end.
(** The object the loop makes of the first result, which [connect] is called of. *)
Definition new_connection (s : connector) : option Connection :=
  match results s with r :: _ => address ← heap (co_scanner s) !! r; Some (connect_start (setReceiverInterface true (Connection_new address))) | [] => None end.
(** ... and the end of the round. *)
Definition restart_scanner (scanner_status : bool) (s : connector) : connector := if scanner_status then put_scanner (scan_start (co_scanner s)) s else s.

(** The search of [send] and [isConnected]: a connection to the address that is ready, or one that is closed for its error. *)
Fixpoint search (address : list Z) (ids : list nat) (s : connector) : option (option nat * connector) :=
  match ids with
  | [] => Some (None, s)
  | id :: ids =>
    c ← objects s !! id;
    if bool_decide (address = getAddress c) then
      if in_state STATE_NUS_READY c then Some (Some id, s)
      else if in_state STATE_ERROR c then s ← close_object id s; Some (None, s)
      else search address ids s
    else search address ids s
  end.
(** [r]: the value of [gatt_write_char]. *)
Definition connector_send (r : Z) (destination payload : list Z) (payload_length : Z) (s : connector) : option (bool * connector) :=
  '(found, s) ← search destination (active_connections s) s;
  match found with
  | Some id => c ← objects s !! id; '(b, c) ← connection_send r payload payload_length c; Some (b, put_objects (<[id := c]> (objects s)) s)
  | None => Some (false, s)
  end.
Definition isConnected (address : list Z) (s : connector) : option (bool * connector) :=
  '(found, s) ← search address (active_connections s) s; Some (match found with Some _ => true | None => false end, s).
(** The address is not looked at, and the list keeps the pointer. *)
Definition connector_close (address : list Z) (s : connector) : option connector :=
  match active_connections s with [] => Some s | id :: _ => s ← close_object id s; delete_object id s end.
Definition free_connections (s : connector) : option connector :=
  s ← for_each close_object (active_connections s) s;
  s ← for_each delete_object (active_connections s) s;
  Some (put_active [] s).

(** What a connection that is up does, or its device: a step of BleConnection.v, and what it gives is received. *)
Definition object_step (opt_src : string) (slack : nat) (id : nat) (e : connection_event) (s : connector) : option connector :=
  c ← objects s !! id;
  if negb (event_enabled e c) then Some s else
  c' ← connection_step opt_src slack e c;
  receive_all (cn_address c) (drop (length (given c)) (given c')) (put_objects (<[id := c']> (objects s)) s).

(** ** BluetoothLowEnergySocket.cpp *)

Context `{MqttSn}.

Definition old_getMaximumMessageLength : Z := 20.
(** The address of the socket is never set. *)
Definition old_getAddress (uninitialised_address : list Z) : list Z := uninitialised_address.
Definition old_getBroadcastAddress : list Z := replicate sizeof_device_address 255.
(** The scanner runs and the connector has begun; the thread of neither has done anything yet. *)
Definition old_begin (k : SN) : option (bool * connector * SN) :=
  '(_, k) ← notify_socket_connected k;
  Some (true, mkConnector (scan_start (mkScanner 0 true [] false ∅ 0 [])) [] ∅ false [], k).
Definition old_send (r : Z) (destination bytes : list Z) (bytes_len : Z) (s : connector) : option (bool * connector) :=
  '(connected, s) ← isConnected destination s;
  if negb (connected : bool) then Some (true, s) else
  '(sent, s) ← connector_send r destination bytes bytes_len s;
  if negb (sent : bool) then Some (true, s) else Some (true, s).
Definition old_send_with_strength (r : Z) (destination bytes : list Z) (bytes_len signal_strength : Z) (s : connector) : option (bool * connector) :=
  old_send r destination bytes bytes_len s.
Definition old_loop (s : connector) (k : SN) : option (bool * connector * SN) :=
  if negb (queue_empty (receiver_queue s)) then
    '(msg, q) ← queue_pop (receiver_queue s);
    _ ← copy_to (zero_bytes 255) 0 (msg_payload msg);
    '(_, k) ← receiveData (msg_address msg) (msg_payload msg) k;
    Some (true, put_ble_queue q s, k)
  else Some (true, s, k).
End Receiver.
