(* ===== verification/BleOldSpec.v ===== *)
(** * BleOldSpec: devices and messages of the socket of BleOld.v *)
From Stdlib Require Import String.
From S2P Require Import Prelude CMem SnSocket TcpMany BleScan BleScanSpec BleConnection BleOld.

Section Spec.
Context `{sn : MqttSn} (opt_src : string) (slack : nat) (uninitialised : list Z) (readable : bool).
Implicit Types (s : connector) (c : Connection).

(** ** Messages *)

Lemma receive_all_keeps address payloads : forall s s', receive_all uninitialised address payloads s = Some s' ->
  co_scanner s' = co_scanner s /\ active_connections s' = active_connections s /\ objects s' = objects s.
Proof.
  induction payloads as [|p payloads IH]; intros s s'; cbn [receive_all]; [by intros [= ->]|]. unfold connector_onReceive.
  destruct (BluetoothLowEnergyMessage_new uninitialised address p) as [msg|]; [|done]. cbn [mbind option_bind]. intros E. by destruct (IH _ _ E) as (-> & -> & ->).
Qed.
(** The messages of a device, as they are queued. *)
Definition message_at (address payload : list Z) : BluetoothLowEnergyMessage := mkBleMessage address (splice uninitialised 0 payload) (Z.of_nat (length payload)).
Lemma receive_all_spec address payloads : forall s, Forall (fun p => (length p <= length uninitialised)%nat) payloads ->
  receive_all uninitialised address payloads s = Some (put_ble_queue (receiver_queue s ++ (message_at address <$> payloads)) s).
Proof.
  induction payloads as [|p payloads IH]; intros s Hp; cbn [receive_all fmap list_fmap]; [rewrite app_nil_r; by destruct s|]. inversion_clear Hp as [|? ? H1 H2].
  unfold connector_onReceive, BluetoothLowEnergyMessage_new, copy_to. rewrite (proj2 (Nat.leb_le _ _)) by (cbn; lia). cbn [mbind option_bind]. rewrite IH by done.
  unfold queue_push. cbn [receiver_queue put_ble_queue]. by rewrite <- app_assoc.
Qed.

(** A message that is longer than 255 bytes is stored past the array of its object: the length is looked at, and then not acted on. *)
Theorem long_message_overrun address payload s : (length uninitialised < length payload)%nat -> connector_onReceive uninitialised address payload s = None.
Proof. intros H. unfold connector_onReceive, BluetoothLowEnergyMessage_new, copy_to. by rewrite (proj2 (Nat.leb_gt _ _)) by (cbn; lia). Qed.

(** ** The connections that are active *)

Lemma for_each_keeps (f : nat -> connector -> option connector) ids : (forall id s s', f id s = Some s' -> active_connections s' = active_connections s) ->
  forall s s', for_each f ids s = Some s' -> active_connections s' = active_connections s.
Proof.
  intros Hf. induction ids as [|id ids IH]; intros s s'; cbn [for_each]; [by intros [= ->]|]. destruct (f id s) as [s1|] eqn:E; [|done]. cbn [mbind option_bind]. intros E1. rewrite (IH _ _ E1). by apply Hf in E.
Qed.
Lemma close_object_active id s s' : close_object id s = Some s' -> active_connections s' = active_connections s.
Proof. unfold close_object. destruct (objects s !! id) as [c|]; [|done]. cbn [mbind option_bind]. destruct (connection_close c); [|done]. by intros [= <-]. Qed.
Lemma delete_object_active id s s' : delete_object id s = Some s' -> active_connections s' = active_connections s.
Proof. unfold delete_object. destruct (objects s !! id) as [c|]; [|done]. cbn [mbind option_bind]. destruct (connection_delete c); [|done]. by intros [= <-]. Qed.
Lemma search_active address ids : forall s r, search address ids s = Some r -> active_connections r.2 = active_connections s.
Proof.
  induction ids as [|id ids IH]; intros s r; cbn [search]; [by intros [= <-]|]. destruct (objects s !! id) as [c|]; [|done]. cbn [mbind option_bind].
  destruct (bool_decide _); [|apply IH]. destruct (in_state STATE_NUS_READY c); [by intros [= <-]|]. destruct (in_state STATE_ERROR c); [|apply IH].
  destruct (close_object id s) as [s1|] eqn:E; [|done]. intros [= <-]. by apply close_object_active in E.
Qed.
Lemma isConnected_active address s b s' : isConnected address s = Some (b, s') -> active_connections s' = active_connections s.
Proof. unfold isConnected. destruct (search _ _ _) as [[f s1]|] eqn:E; [|done]. intros [= _ <-]. by apply search_active in E. Qed.
Lemma connector_send_active r d p len s b s' : connector_send r d p len s = Some (b, s') -> active_connections s' = active_connections s.
Proof.
  unfold connector_send. destruct (search _ _ _) as [[f s1]|] eqn:E; [|done]. apply search_active in E. cbn [mbind option_bind]. destruct f as [id|]; [|intros [= _ <-]; done].
  destruct (objects s1 !! id) as [c|]; [|done]. cbn [mbind option_bind]. destruct (connection_send r p len c) as [[b' c']|]; [|done]. by intros [= _ <-].
Qed.

Lemma connect_first_active id c ok s s' : connect_first uninitialised readable id c ok s = Some s' ->
  active_connections s' = active_connections s \/ active_connections s' = [id].
Proof.
  unfold connect_first. destruct (results s) as [|r rs]; [intros [= <-]; by left|]. destruct (heap (co_scanner s) !! r); [|done]. cbn [mbind option_bind].
  destruct (receive_all _ _ _ _) as [s1|] eqn:E1; [|done]. apply receive_all_keeps in E1 as (_ & Ea & _). cbn [mbind option_bind].
  assert (forall x s2, remove_from_scanner readable r (remove_result r x) = Some s2 -> active_connections s2 = active_connections x) as Hrem.
  { intros x s2. unfold remove_from_scanner. destruct readable; [|done]. cbn [negb]. destruct (removeScanResult _ _); [|done]. by intros [= <-]. }
  destruct (_ && _).
  - destruct (remove_from_scanner _ _ _) as [s2|] eqn:E2; [|done]. apply Hrem in E2. cbn [mbind option_bind]. destruct (close_object id s2) as [s3|] eqn:E3; [|done]. apply close_object_active in E3.
    cbn [mbind option_bind]. intros E4. apply delete_object_active in E4. left. rewrite E4, E3, E2. exact Ea.
  - destruct (_ && _).
    + destruct (close_object _ _) as [s3|] eqn:E3; [|done]. apply close_object_active in E3. cbn [mbind option_bind]. intros E4. apply delete_object_active in E4. left. rewrite E4, E3. exact Ea.
    + destruct (remove_from_scanner _ _ _) as [s2|]; [|done]. cbn [mbind option_bind]. destruct (for_each closeIfStateError _ s2) as [s3|]; [|done]. cbn [mbind option_bind].
      unfold remove_closed. destruct (for_each deleteIfStateClosed _ s3) as [s4|]; [|done]. intros [= <-]. by right.
Qed.

(** The steps of all threads: reports, the rounds of the connector with the whole run of [connect] in each, what connections that are
    up and their devices do, and the calls of the gateway. *)
Inductive old_step : connector -> connector -> Prop :=
  | old_report a now buf rc buf' scanner s : scan_turn 0 0 0 a now buf (co_scanner s) = Some (rc, buf', scanner) -> old_step s (put_scanner scanner s)
  | old_connect id c0 es c ok status s s' : new_connection s = Some c0 -> connection_steps opt_src slack c0 es c -> connect_result c = Some ok -> objects s !! id = None ->
      connect_first uninitialised readable id c ok s = Some s' -> old_step s (restart_scanner status s')
  | old_object id e s s' : object_step uninitialised opt_src slack id e s = Some s' -> old_step s s'
  | old_sends r d p len b s s' : old_send r d p len s = Some (b, s') -> old_step s s'
  | old_loops k b s s' k' : old_loop s k = Some (b, s', k') -> old_step s s'
  | old_closes d s s' : connector_close d s = Some s' -> old_step s s'
  | old_frees s s' : free_connections s = Some s' -> old_step s s'.
Inductive old_steps : connector -> connector -> Prop :=
  | old_refl s : old_steps s s
  | old_one s s1 s2 : old_step s s1 -> old_steps s1 s2 -> old_steps s s2.

Lemma old_step_active s s' : old_step s s' -> (length (active_connections s) <= 1)%nat -> (length (active_connections s') <= 1)%nat.
Proof.
  intros H Hs. destruct H as [a now buf rc buf' scanner s _|id c0 es c ok status s s' _ _ _ _ E|id e s s' E|r d p len b s s' E|k b s s' k' E|d s s' E|s s' E].
  - done.
  - apply connect_first_active in E. unfold restart_scanner. destruct status; cbn; destruct E as [-> | ->]; done.
  - unfold object_step in E. destruct (objects s !! id) as [c|]; [|done]. cbn [mbind option_bind] in E. destruct (negb _); [by injection E as <-|]. destruct (connection_step opt_src slack e c) as [c'|]; [|done].
    cbn [mbind option_bind] in E. apply receive_all_keeps in E as (_ & -> & _). done.
  - unfold old_send in E. destruct (isConnected d s) as [[b1 s1]|] eqn:E1; [|done]. apply isConnected_active in E1. cbn [mbind option_bind] in E. destruct (negb b1); [injection E as _ <-; by rewrite E1|].
    destruct (connector_send r d p len s1) as [[b2 s2]|] eqn:E2; [|done]. apply connector_send_active in E2. cbn [mbind option_bind] in E. destruct (negb b2); injection E as _ <-; by rewrite E2, E1.
  - unfold old_loop in E. destruct (negb _); [|by injection E as _ <-]. destruct (receiver_queue s) as [|m q]; [done|]. cbn [queue_pop mbind option_bind] in E. destruct (copy_to _ _ _); [|done]. cbn [mbind option_bind] in E.
    destruct (receiveData _ _ k) as [[u k1]|]; [|done]. by injection E as _ <-.
  - unfold connector_close in E. destruct (active_connections s) as [|id ids] eqn:Ea; [injection E as <-; by rewrite Ea|]. destruct (close_object id s) as [s1|] eqn:E1; [|done]. apply close_object_active in E1. cbn [mbind option_bind] in E.
    apply delete_object_active in E. by rewrite E, E1, Ea.
  - unfold free_connections in E. destruct (for_each close_object _ s) as [s1|]; [|done]. cbn [mbind option_bind] in E. destruct (for_each delete_object _ s1) as [s2|]; [|done]. injection E as <-. cbn. lia.
Qed.

(** Whatever devices there are, and however long the socket runs, it never has more than one connection it can send over. *)
Theorem at_most_one_connection k b s0 k0 s : old_begin k = Some (b, s0, k0) -> old_steps s0 s -> (length (active_connections s) <= 1)%nat.
Proof.
  intros Hb H. assert (length (active_connections s0) <= 1)%nat as H0.
  { unfold old_begin in Hb. destruct (notify_socket_connected k) as [[u k1]|]; [|done]. injection Hb as _ <- _. cbn. lia. }
  clear Hb. induction H as [s|s s1 s2 H1 _ IH]; [done|]. apply IH. by eapply old_step_active.
Qed.

(** ** A second device *)

(** A result of the scanner that the connector has as well. *)
Definition seen_device (r : nat) (rs : list nat) (a : list Z) s : Prop := results s = r :: rs /\ heap (co_scanner s) !! r = Some a.
(** What the messages of a new connection may be. *)
Definition messages_fit c : Prop := Forall (fun p => (length p <= length uninitialised)%nat) (given c).

(** A round in which [connect] says true, up to the connections that were active. *)
Lemma connect_round r rs a id c s : readable = true -> seen_device r rs a s -> messages_fit c -> exists s1,
  connect_first uninitialised readable id c true s = (s ← for_each closeIfStateError (active_connections s1) s1; s ← remove_closed s; Some (put_active (id :: active_connections s) s)) /\
  active_connections s1 = active_connections s /\ objects s1 = <[id := c]> (objects s) /\ receiver_queue s1 = receiver_queue s ++ (message_at (cn_address c) <$> given c) /\
  results s1 = filter (fun i => i <> r) (r :: rs).
Proof.
  intros Hr [Er Ea] Hm. unfold connect_first. rewrite Er, Ea. cbn [mbind option_bind]. rewrite receive_all_spec by done. cbn [mbind option_bind negb andb].
  unfold remove_from_scanner. rewrite Hr. cbn [negb]. unfold removeScanResult. cbn [co_scanner put_scanner remove_result put_results heap put_callback put_ble_queue put_objects]. rewrite Ea. cbn [mbind option_bind].
  eexists. split; [reflexivity|]. split_and!; [done..|]. by rewrite <- Er.
Qed.

(** C18: when a second device is connected, the first, whose connection is up and is neither closed nor deleted, can no longer be
    reached: the gateway is told that messages to it were sent, and none is. *)
Theorem second_device_loses_first r rs a2 id1 c1 id2 c2 s : readable = true -> seen_device r rs a2 s -> messages_fit c2 ->
  active_connections s = [id1] -> objects s !! id1 = Some c1 -> id2 <> id1 -> conn_state c1 = STATE_NUS_READY -> cn_address c2 <> cn_address c1 ->
  exists s', connect_first uninitialised readable id2 c2 true s = Some s' /\ objects s' !! id1 = Some c1 /\ active_connections s' = [id2] /\
    forall n bytes len, old_send n (cn_address c1) bytes len s' = Some (true, s').
Proof.
  intros Hr Hseen Hm Ha E1 Hne Hst Hne2. destruct (connect_round r rs a2 id2 c2 s Hr Hseen Hm) as (s1 & -> & Ha1 & Ho1 & _). rewrite Ha1, Ha.
  assert (objects s1 !! id1 = Some c1) as E1' by (by rewrite Ho1, lookup_insert_ne).
  cbn [for_each]. unfold closeIfStateError, in_state. rewrite E1'. cbn [mbind option_bind]. rewrite Hst, bool_decide_eq_false_2 by done. cbn [mbind option_bind].
  unfold remove_closed. rewrite Ha1, Ha. cbn [for_each]. unfold deleteIfStateClosed, in_state. rewrite E1'. cbn [mbind option_bind]. rewrite Hst, bool_decide_eq_false_2 by done. cbn [mbind option_bind].
  eexists. split; [reflexivity|]. split; [done|]. split; [done|]. intros n bytes len. unfold old_send, isConnected. cbn [active_connections put_active search]. 
  assert (objects (put_active [id2] (put_active [] s1)) !! id2 = Some c2) as -> by (cbn; by rewrite Ho1, lookup_insert_eq). cbn [mbind option_bind]. unfold getAddress. by rewrite bool_decide_eq_false_2.
Qed.

(** When a device hangs up and another is connected then, the program ends: the connection that is closed is deleted with the thread of its
    main loop still running. *)
Theorem hang_up_then_connect_ends r rs a2 id1 c1 id2 c2 s : readable = true -> seen_device r rs a2 s -> messages_fit c2 ->
  active_connections s = [id1] -> objects s !! id1 = Some c1 -> id2 <> id1 -> conn_state c1 = STATE_NUS_READY -> main_at c1 = MainIdle -> watching c1 = true ->
  exists s1, object_step uninitialised opt_src slack id1 HangUp s = Some s1 /\ connect_first uninitialised readable id2 c2 true s1 = None.
Proof.
  intros Hr [Er Ea2] Hm Ha E1 Hne Hst Hmain Hw. unfold object_step. rewrite E1. cbn [mbind option_bind event_enabled]. unfold main_idle. rewrite Hmain, Hw. cbn [andb negb connection_step mbind option_bind].
  set (c1' := channel_watcher c1). assert (conn_state c1' = STATE_CLOSED /\ main_at c1' = MainIdle /\ given c1' = given c1) as (Hst' & Hmain' & Hg).
  { unfold c1', channel_watcher, disconnect_io, in_state. by rewrite Hst, bool_decide_eq_false_2. }
  rewrite Hg, drop_all. cbn [receive_all]. eexists. split; [reflexivity|]. set (s1 := put_objects _ s).
  destruct (connect_round r rs a2 id2 c2 s1 Hr (conj Er Ea2) Hm) as (s2 & -> & Ha2 & Ho2 & _). assert (active_connections s1 = [id1]) as Ha1 by done. rewrite Ha2, Ha1.
  assert (objects s2 !! id1 = Some c1') as E1' by (rewrite Ho2, lookup_insert_ne by done; apply lookup_insert_eq).
  cbn [for_each]. unfold closeIfStateError, in_state. rewrite E1'. cbn [mbind option_bind]. rewrite Hst', bool_decide_eq_false_2 by done. cbn [mbind option_bind].
  unfold remove_closed. rewrite Ha2, Ha1. cbn [for_each]. unfold deleteIfStateClosed, in_state. rewrite E1'. cbn [mbind option_bind]. rewrite Hst', bool_decide_eq_true_2 by done.
  unfold delete_object. rewrite E1'. cbn [mbind option_bind]. unfold connection_delete. by rewrite Hmain'.
Qed.

(** [close] closes whatever connection there is, whichever address it is given, and leaves its pointer in the list: the next
    message to any device is undefined behaviour. *)
Theorem close_leaves_pointer a d id c s s' : active_connections s = [id] -> objects s !! id = Some c -> connector_close a s = Some s' ->
  objects s' !! id = None /\ forall n bytes len, old_send n d bytes len s' = None.
Proof.
  intros Ha E. unfold connector_close, close_object. rewrite Ha, E. cbn [mbind option_bind]. destruct (connection_close c) as [c'|]; [|done]. cbn [mbind option_bind].
  unfold delete_object. cbn [objects put_objects]. rewrite lookup_insert_eq. cbn [mbind option_bind]. destruct (connection_delete c'); [|done]. intros [= <-].
  cbn [objects put_objects]. split; [by rewrite lookup_delete_eq|]. intros n bytes len. unfold old_send, isConnected. cbn [active_connections put_objects]. rewrite Ha. cbn [search objects put_objects]. by rewrite lookup_delete_eq.
Qed.

(** A device that has refused a connection once is not tried again: the scanner keeps its address, and tells of no report from it. *)
Theorem refused_device_ignored r rs a id c s s' : seen_device r rs a s -> errorStatus c = ConnectionRefused -> connect_first uninitialised readable id c false s = Some s' ->
  r ∈ scanResults (co_scanner s) -> a ∈ known (co_scanner s') /\ r ∉ results s'.
Proof.
  intros [Er Ea] Hc. unfold connect_first, getErrorStatus. rewrite Er, Ea, Hc. cbn [mbind option_bind]. destruct (receive_all _ _ _ _) as [s1|] eqn:E1; [|done]. apply receive_all_keeps in E1 as (Esc & _ & _).
  cbn [mbind option_bind negb andb]. rewrite bool_decide_eq_false_2 by done. rewrite (bool_decide_eq_true_2 (ConnectionRefused = ConnectionRefused)) by done. cbn [andb]. rewrite orb_true_r.
  destruct (close_object id _) as [s2|] eqn:E2; [|done]. cbn [mbind option_bind]. intros E3 Hin.
  assert (co_scanner s' = put_callback (filter (fun i => i <> r) (results s1)) (co_scanner s1)) as E4.
  { unfold close_object in E2. destruct (objects _ !! id) as [c2|]; [|done]. cbn [mbind option_bind] in E2. destruct (connection_close c2); [|done]. injection E2 as <-.
    unfold delete_object in E3. destruct (objects _ !! id) as [c3|]; [|done]. cbn [mbind option_bind] in E3. destruct (connection_delete c3); [|done]. by injection E3 as <-. }
  unfold results. rewrite E4, Esc. split.
  - unfold known. cbn. apply list_elem_of_omap. by exists r.
  - cbn. intros Hf. apply list_elem_of_filter in Hf as [Hf _]. done.
Qed.

(** [loop] hands out the oldest message, all of its array whatever its length. *)
Theorem old_loop_spec m q s k k' : receiver_queue s = m :: q -> length (msg_payload m) = 255%nat -> receiveData (msg_address m) (msg_payload m) k = Some (tt, k') ->
  old_loop s k = Some (true, put_ble_queue q s, k').
Proof.
  intros Eq Hl Ek. unfold old_loop. rewrite Eq. cbn [queue_empty negb queue_pop mbind option_bind]. unfold copy_to. assert (length (zero_bytes 255) = 255%nat) as -> by apply length_replicate.
  rewrite Hl. cbn [Nat.add Nat.leb mbind option_bind]. by rewrite Ek.
Qed.
End Spec.

(** ** An example *)

#[local] Instance old_sim : MqttSn := {|
  SN := unit;
  sizeof_device_address := 6;
  notify_socket_connected k := Some (tt, k);
  notify_socket_disconnected k := Some (tt, k);
  receiveData _ _ k := Some (tt, k)
|}.
(** A connection that is up, and the connector with it when the scanner has seen a second device. *)
Definition ex_up (b : Z) : Connection := put_main MainIdle (put_observer ObEnded (setState STATE_NUS_READY (connect_start (setReceiverInterface true (Connection_new [b; 1; 2; 3; 4; 5]))))).
Definition ex_connector : connector := mkConnector (mkScanner 0 true [1%nat] false {[ 1%nat := [8; 1; 2; 3; 4; 5] ]} 2 [1%nat]) [0%nat] {[ 0%nat := ex_up 7 ]} false [].
Lemma second_device_loses_first_witness : exists s', connect_first (zero_bytes 255) true 1 (ex_up 8) true ex_connector = Some s' /\ objects s' !! 0%nat = Some (ex_up 7) /\
  old_send 1 [7; 1; 2; 3; 4; 5] [2; 24] 2 ex_connector = Some (true, put_objects {[ 0%nat := put_requests [WriteCharacteristic 0 [2; 24]] (put_writing 1 (ex_up 7)) ]} ex_connector) /\
  old_send 1 [7; 1; 2; 3; 4; 5] [2; 24] 2 s' = Some (true, s').
Proof.
  destruct (second_device_loses_first (zero_bytes 255) true 1 [] [8; 1; 2; 3; 4; 5] 0 (ex_up 7) 1 (ex_up 8) ex_connector) as (s' & E & E1 & _ & Hs); try done; [constructor|].
  exists s'. split; [exact E|]. split; [exact E1|]. split; [vm_compute; reflexivity|exact (Hs 1 [2; 24] 2)].
Defined.
