(* ===== verification/Persist.v ===== *)
(** * Persist: LinuxPersistent.h and LinuxPersistent.cpp

    What the gateway remembers about its clients: a registry of fixed-size entries in
    the file CLIENTS, four files per client (registrations, subscriptions, will,
    pending publishes), the subscription counts of the gateway in MQTT.SUB, and
    text files of configuration.  What is logged is left out, but not the arrays the
    debugging output prints numbers into (PERSISTENT_DEBUG is 1): where a number may not
    fit, printing it is a step that can fail. *)
From S2P Require Import Prelude CMem.

(** ** What lies outside the repository *)

(** Types of the gateway core.  Enumerations are integers of some size, a
    [device_address] is an array of bytes. *)
Class CoreTypes := {
  sizeof_address : nat;
  sizeof_status : nat;
  sizeof_message_type : nat;
  EMPTY : Z;
  ACTIVE : Z;
  LOST : Z;
  MQTTSN_PINGREQ : Z;
  SUCCESS : Z
}.

(** The SD library: [SDS] is the card together with the one [File] the class keeps open.
    [f_read] returns its value and the bytes stored. *)
Inductive open_mode := FILE_READ | FILE_WRITE.
Class Sd := {
  SDS : Type;
  sd_open : list Z -> open_mode -> M SDS unit;
  sd_exists : list Z -> M SDS bool;
  sd_remove : list Z -> M SDS bool;
  f_close : M SDS unit;
  f_flush : M SDS unit;
  f_seek : Z -> M SDS bool;
  f_read : Z -> M SDS (Z * list Z);
  f_getc : M SDS Z;
  f_write : list Z -> M SDS Z
}.

(** ** C strings and integers in memory *)

(** A [char] array up to its NUL; running off the array is undefined. *)
Fixpoint cstring (a : list Z) : option (list Z) :=
  match a with
  | [] => None
  | c :: a => if c =? 0 then Some [] else s ← cstring a; Some (c :: s)
  end.
Definition strlen_ (a : list Z) : option Z := s ← cstring a; Some (Z.of_nat (length s)).

(** [strcpy(array, s)]: the array keeps what is behind the terminator; a string that does
    not fit overruns it. *)
Definition strcpy_ (a s : list Z) : option (list Z) :=
  if decide (length s < length a)%nat then Some (splice a 0 (s ++ [0])) else None.
(** [memcpy(array, bs, n)] *)
Definition memcpy_ (a bs : list Z) : option (list Z) :=
  if decide (length bs <= length a)%nat then Some (splice a 0 bs) else None.
Definition zeros (n : nat) : list Z := replicate n 0.

(** Little-endian integers of [n] bytes. *)
Fixpoint le (n : nat) (v : Z) : list Z :=
  match n with O => [] | S n => v mod 256 :: le n (v / 256) end.
Definition unle (l : list Z) : Z := foldr (fun b a => b + 256 * a) 0 l.

(** [n] bytes of a structure from [off] on. *)
Definition member (off n : nat) (b : list Z) : list Z := take n (drop off b).
Definition bool_byte (b : bool) : Z := if b then 1 else 0.

(** ** The entries of the files *)

Definition MAXIMUM_CLIENT_ID_LENGTH : Z := 24.
Definition MAXIMUM_TOPIC_NAME_LENGTH : Z := 255.

Record entry_mqtt_subscription := mkMqttSub { client_subscription_count : Z; ms_topic_name : list Z }.
Record entry_will := mkWill { willtopic : list Z; willmsg : list Z; willmsg_length : Z; will_qos : Z; will_retain : bool }.
Record entry_subscription := mkSub { s_topic_id : Z; s_qos : Z; s_topic_name : list Z }.
Record entry_registration := mkReg { r_topic_id : Z; r_topic_name : list Z; r_known : bool }.
Record entry_publish := mkPub {
  p_msg : list Z; p_msg_length : Z; p_topic_id : Z; p_qos : Z; p_retain : bool; p_dup : bool;
  p_msg_id : Z; p_publish_id : Z; p_retransmition_timeout : Z
}.
Record entry_client := mkClient {
  client_id : list Z; file_number : list Z; client_address : list Z; client_status : Z;
  duration : Z; timeout : Z; await_message_id : Z; await_message : Z
}.

(** Their bytes: members at their alignment, padding zero; [entry_client] is packed. *)
Definition mqtt_sub_bytes (e : entry_mqtt_subscription) : list Z := le 4 (client_subscription_count e) ++ ms_topic_name e ++ zeros 1.
Definition mqtt_sub_of (b : list Z) : entry_mqtt_subscription := mkMqttSub (unle (member 0 4 b)) (member 4 255 b).
Definition will_bytes (e : entry_will) : list Z :=
  willtopic e ++ willmsg e ++ le 1 (willmsg_length e) ++ le 1 (will_qos e) ++ [bool_byte (will_retain e)].
Definition will_of (b : list Z) : entry_will :=
  mkWill (member 0 255 b) (member 255 255 b) (unle (member 510 1 b)) (unle (member 511 1 b)) (negb (unle (member 512 1 b) =? 0)).
Definition sub_bytes (e : entry_subscription) : list Z := le 2 (s_topic_id e) ++ le 1 (s_qos e) ++ s_topic_name e.
Definition sub_of (b : list Z) : entry_subscription := mkSub (unle (member 0 2 b)) (unle (member 2 1 b)) (member 3 255 b).
Definition reg_bytes (e : entry_registration) : list Z := le 2 (r_topic_id e) ++ r_topic_name e ++ [bool_byte (r_known e)].
Definition reg_of (b : list Z) : entry_registration := mkReg (unle (member 0 2 b)) (member 2 255 b) (negb (unle (member 257 1 b) =? 0)).
Definition pub_bytes (e : entry_publish) : list Z :=
  p_msg e ++ le 1 (p_msg_length e) ++ le 2 (p_topic_id e) ++ le 1 (p_qos e) ++ [bool_byte (p_retain e); bool_byte (p_dup e); 0] ++
  le 2 (p_msg_id e) ++ le 2 (p_publish_id e) ++ zeros 2 ++ le 4 (p_retransmition_timeout e).
Definition pub_of (b : list Z) : entry_publish :=
  mkPub (member 0 255 b) (unle (member 255 1 b)) (unle (member 256 2 b)) (unle (member 258 1 b))
    (negb (unle (member 259 1 b) =? 0)) (negb (unle (member 260 1 b) =? 0))
    (unle (member 262 2 b)) (unle (member 264 2 b)) (unle (member 268 4 b)).

Definition sizeof_mqtt_sub : nat := 260.
Definition sizeof_will : nat := 513.
Definition sizeof_sub : nat := 258.
Definition sizeof_reg : nat := 258.
Definition sizeof_pub : nat := 272.

Section Client_entry.
Context `{CoreTypes}.

Definition sizeof_client : nat := 24 + 9 + sizeof_address + sizeof_status + 4 + 4 + 2 + sizeof_message_type.
Definition client_bytes (e : entry_client) : list Z :=
  client_id e ++ file_number e ++ client_address e ++ le sizeof_status (client_status e) ++ le 4 (duration e) ++
  le 4 (timeout e) ++ le 2 (await_message_id e) ++ le sizeof_message_type (await_message e).
Definition client_of (b : list Z) : entry_client :=
  let o1 := (33 + sizeof_address)%nat in let o2 := (o1 + sizeof_status)%nat in
  mkClient (member 0 24 b) (member 24 9 b) (member 33 sizeof_address b) (unle (member o1 sizeof_status b))
    (unle (member o2 4 b)) (unle (member (o2 + 4) 4 b)) (unle (member (o2 + 8) 2 b))
    (unle (member (o2 + 10) sizeof_message_type b)).
End Client_entry.

(** ** Numbers in text *)

Definition is_digit (c : Z) : bool := (48 <=? c) && (c <=? 57).
Definition is_space (c : Z) : bool := (c =? 32) || ((9 <=? c) && (c <=? 13)).

(** [atoi]: white space, a sign, digits; a value that is no [int] is undefined. *)
Fixpoint atoi_digits (acc : Z) (s : list Z) : Z :=
  match s with c :: s => if is_digit c then atoi_digits (acc * 10 + (c - 48)) s else acc | [] => acc end.
Fixpoint skip_space (s : list Z) : list Z :=
  match s with c :: s' => if is_space c then skip_space s' else s | [] => [] end.
Definition atoi (s : list Z) : option Z :=
  match skip_space s with
  | [] => Some 0
  | c :: s' => if c =? 45 then cint (- atoi_digits 0 s') else if c =? 43 then cint (atoi_digits 0 s') else cint (atoi_digits 0 (c :: s'))
  end.

(** [sprintf(file_number, "%08d", n)] of a number that is no longer than that. *)
Definition pad8 (n : Z) : option (list Z) :=
  if (0 <=? n) && (n <? 100000000) then Some (map (fun k => 48 + (n / 10 ^ k) mod 10) [7; 6; 5; 4; 3; 2; 1; 0]) else None.

(** [sprintf(a, "%d", v)] into a [char a[n]], [v] read as an [int]: sign, digits and NUL
    must fit.  The other calls print values of one or two bytes, message types and [1]
    into arrays they always fit. *)
Definition sprintf_d (n v : Z) : option unit :=
  if (- 10 ^ (n - 2) <? to_int v) && (to_int v <? 10 ^ (n - 1)) then Some tt else None.

(** Repeated [strtok]: the non-empty pieces between delimiters. *)
Fixpoint strtok_all (delim : Z) (cur s : list Z) : list (list Z) :=
  match s with
  | [] => match cur with [] => [] | _ => [cur] end
  | c :: s => if c =? delim then match cur with [] => strtok_all delim [] s | _ => cur :: strtok_all delim [] s end
              else strtok_all delim (cur ++ [c]) s
  end.

(** ** The values behind the space of a configuration line (LinuxPersistent.h) *)

(** [while ( *source++ != ' ')]: [start], or no value. *)
Fixpoint find_space (fuel : nat) (b : list Z) (start max : Z) : option (option Z) :=
  match fuel with
  | O => None
  | S fuel' =>
    c ← b !! Z.to_nat start;
    if c =? 32 then Some (Some start) else
    let start := to_ushort (start + 1) in
    c ← b !! Z.to_nat start;
    if (c =? 10) || (start =? max) then Some None else find_space fuel' b start max
  end.

(** [while ( *source != '\n' && *source != 0)], [source] one ahead of [end]. *)
Fixpoint find_end (fuel : nat) (b : list Z) (end_ max : Z) : option (option Z) :=
  match fuel with
  | O => None
  | S fuel' =>
    c ← b !! Z.to_nat (end_ + 1);
    if (c =? 10) || (c =? 0) then Some (Some end_) else
    let end_ := to_ushort (end_ + 1) in
    if max <? end_ then Some None else find_end fuel' b end_ max
  end.

Definition after_space (b : list Z) (max : Z) : option (option (Z * Z)) :=
  start ← find_space (S (length b)) b 0 max;
  match start with
  | None => Some None
  | Some start =>
    end_ ← find_end (S (length b)) b start max;
    match end_ with None => Some None | Some end_ => Some (Some (start, end_)) end
  end.

(** The [end - start] characters behind [start]. *)
Definition value_of (b : list Z) (start end_ : Z) : list Z := member (Z.to_nat (start + 1)) (Z.to_nat (end_ - start)) b.

(** Each returns its result and [*destination]. *)
Definition parse_uint16_t_after_space (destination : Z) (source : list Z) (max : Z) : option (bool * Z) :=
  se ← after_space source max;
  match se with
  | None => Some (false, destination)
  | Some (start, end_) =>
    if (start + 1 <? max) && negb (start =? end_) && (end_ - start <=? 6) && (1 <=? end_ - start) then
      tmp_number ← cstring (value_of source start end_ ++ zeros (7 - Z.to_nat (end_ - start)));
      n ← atoi tmp_number;
      Some (negb (to_ushort n =? 0), to_ushort n)
    else Some (false, destination)
  end.

Definition parse_uint8_t_after_space (destination : Z) (source : list Z) (max : Z) : option (bool * Z) :=
  se ← after_space source max;
  match se with
  | None => Some (false, destination)
  | Some (start, end_) =>
    if (start + 1 <? max) && negb (start =? end_) && (end_ - start <=? 3) && (1 <=? end_ - start) then
      tmp_number ← cstring (value_of source start end_ ++ zeros (4 - Z.to_nat (end_ - start)));
      n ← atoi tmp_number;
      Some (true, to_uchar n)
    else Some (false, destination)
  end.

Definition parse_string_after_space (destination : list Z) (source : list Z) (max : Z) : option (bool * list Z) :=
  se ← after_space source max;
  match se with
  | None => Some (false, destination)
  | Some (start, end_) =>
    if (start + 1 <? max) && negb (start =? end_) then
      destination ← memcpy_ destination (value_of source start end_);
      n ← strlen_ destination;
      Some (negb (n =? 0), destination)
    else Some (false, destination)
  end.

(** [while (found)]: the numbers of the address. *)
Fixpoint ip_loop (found : list (list Z)) (numbers : nat) (destination : list Z) : option (bool * list Z) :=
  match found with
  | [] => Some (false, destination)
  | tok :: found =>
    n ← atoi tok;
    let tmp_number := to_ushort n in
    if 255 <? tmp_number then Some (false, destination) else
    _ ← destination !! numbers;
    let destination := <[numbers := tmp_number]> destination in
    let numbers := S numbers in
    match found with
    | [] => Some (bool_decide (numbers = 4%nat), destination)
    | _ => if bool_decide (numbers = 4%nat) then Some (false, destination) else ip_loop found numbers destination
    end
  end.

Definition parse_ipaddress_after_space (destination : list Z) (source : list Z) (max : Z) : option (bool * list Z) :=
  se ← after_space source max;
  match se with
  | None => Some (false, destination)
  | Some (start, end_) =>
    if (start + 1 <? max) && negb (start =? end_) && (end_ - start <? 17) && (7 <? end_ - start) then
      tmp_only_id ← cstring (value_of source start end_ ++ zeros (17 - Z.to_nat (end_ - start)));
      ip_loop (strtok_all 46 [] tmp_only_id) 0 destination
    else Some (false, destination)
  end.

(** ** The object *)

Section Definitions.
Context `{CoreTypes} `{Sd}.

(** Loops over a file take one round for each entry and one at its end; the text loops one
    for each line.  [fuel] bounds them. *)
Context (fuel : nat).

Record pst := mkP {
  sd : SDS;
  _entry_client : entry_client;
  _registration_entry : entry_registration;
  _predefined_registration_entry : entry_registration;
  _not_in_client_registry : bool;
  _transaction_started : bool;
  _error : bool;
  _is_mqttsn_online : bool;
  _is_mqtt_online : bool;
  core_set : bool;
  logger_set : bool
}.

Definition with_sd (x : SDS) (s : pst) : pst :=
  mkP x (_entry_client s) (_registration_entry s) (_predefined_registration_entry s) (_not_in_client_registry s)
    (_transaction_started s) (_error s) (_is_mqttsn_online s) (_is_mqtt_online s) (core_set s) (logger_set s).
Definition with_client (x : entry_client) (s : pst) : pst :=
  mkP (sd s) x (_registration_entry s) (_predefined_registration_entry s) (_not_in_client_registry s)
    (_transaction_started s) (_error s) (_is_mqttsn_online s) (_is_mqtt_online s) (core_set s) (logger_set s).
Definition with_reg (x : entry_registration) (s : pst) : pst :=
  mkP (sd s) (_entry_client s) x (_predefined_registration_entry s) (_not_in_client_registry s)
    (_transaction_started s) (_error s) (_is_mqttsn_online s) (_is_mqtt_online s) (core_set s) (logger_set s).
Definition with_predefined (x : entry_registration) (s : pst) : pst :=
  mkP (sd s) (_entry_client s) (_registration_entry s) x (_not_in_client_registry s)
    (_transaction_started s) (_error s) (_is_mqttsn_online s) (_is_mqtt_online s) (core_set s) (logger_set s).
(** The flags [_not_in_client_registry], [_transaction_started], [_error]. *)
Definition with_flags (nr ts er : bool) (s : pst) : pst :=
  mkP (sd s) (_entry_client s) (_registration_entry s) (_predefined_registration_entry s) nr ts er
    (_is_mqttsn_online s) (_is_mqtt_online s) (core_set s) (logger_set s).
Definition with_online (sn mq : bool) (s : pst) : pst :=
  mkP (sd s) (_entry_client s) (_registration_entry s) (_predefined_registration_entry s) (_not_in_client_registry s)
    (_transaction_started s) (_error s) sn mq (core_set s) (logger_set s).
Definition with_set (c l : bool) (s : pst) : pst :=
  mkP (sd s) (_entry_client s) (_registration_entry s) (_predefined_registration_entry s) (_not_in_client_registry s)
    (_transaction_started s) (_error s) (_is_mqttsn_online s) (_is_mqtt_online s) c l.

Abbreviation MP := (M pst).
Definition upd (f : pst -> pst) : MP unit := fun s => Some (tt, f s).
Definition set_error (b : bool) : MP unit := upd (fun s => with_flags (_not_in_client_registry s) (_transaction_started s) b s).
Definition set_not_in_client_registry (b : bool) : MP unit := upd (fun s => with_flags b (_transaction_started s) (_error s) s).
Definition set_transaction_started (b : bool) : MP unit := upd (fun s => with_flags (_not_in_client_registry s) b (_error s) s).
Definition set_entry_client (e : entry_client) : MP unit := upd (with_client e).
Definition set_registration_entry (e : entry_registration) : MP unit := upd (with_reg e).
Definition set_predefined (e : entry_registration) : MP unit := upd (with_predefined e).

(** [_open_file] and [SD] *)
Definition on_sd {A} (c : M SDS A) : MP A := fun s =>
  match c (sd s) with Some (a, x) => Some (a, with_sd x s) | None => None end.
Definition open_ (name : list Z) (mode : open_mode) : MP unit := on_sd (sd_open name mode).
Definition close : MP unit := on_sd f_close.
Definition flush : MP unit := on_sd f_flush.
Definition seek (pos : Z) : MP bool := on_sd (f_seek (to_uint pos)).
Definition read (n : nat) : MP (Z * list Z) := on_sd (f_read (Z.of_nat n)).
Definition write (bs : list Z) : MP Z := on_sd (f_write bs).

(** Of several definitions: text as the codes of its characters. *)
Definition client_registry : list Z := [67; 76; 73; 69; 78; 84; 83].
Definition mqtt_sub : list Z := [77; 81; 84; 84; 46; 83; 85; 66].
Definition predefined_topic : list Z := [84; 79; 80; 73; 67; 83; 46; 80; 82; 69].
Definition mqtt_configuration : list Z := [77; 81; 84; 84; 46; 67; 79; 78].
Definition mqttsn_configuration : list Z := [77; 81; 84; 84; 83; 78; 46; 67; 79; 78].
Definition SUBSCRIBE_FILE_ENDING : list Z := [46; 83; 85; 66].
Definition REGISTRATION_FILE_ENDING : list Z := [46; 82; 69; 71].
Definition WILL_FILE_ENDING : list Z := [46; 87; 73; 76].
Definition PUBLISH_FILE_ENDING : list Z := [46; 80; 85; 66].

(** [filename_with_extension] *)
Definition filename_with_extension (ending : list Z) : MP (list Z) :=
  s ← get; n ← lift (cstring (file_number (_entry_client s))); mret (n ++ ending).

(** [memset(&entry, 0, n); readChars = _open_file.read(&entry, n)]: [readChars] and the
    bytes of the entry. *)
Definition read_entry (n : nat) : MP (Z * list Z) :=
  '(rc, bs) ← read n; mret (rc, bs ++ zeros (n - length bs)).

(** [do { read an entry; body } while (readChars > 0)]: the body goes on, breaks or returns. *)
Inductive ctl (A R : Type) := Next (a : A) | Break (a : A) | Return (r : R).
#[global] Arguments Next {A R}.
#[global] Arguments Break {A R}.
#[global] Arguments Return {A R}.

Fixpoint do_read {A R} (k : nat) (n : nat) (body : Z -> list Z -> A -> MP (ctl A R)) (a : A) : MP (A + R) :=
  match k with
  | O => undefined
  | S k' =>
    '(readChars, buf) ← read_entry n;
    c ← body readChars buf a;
    match c with
    | Return r => mret (inr r)
    | Break a => mret (inl a)
    | Next a => if 0 <? readChars then do_read k' n body a else mret (inl a)
    end
  end.

(** [readCharUntil('\n', buffer, buffer_size)]: the characters read. *)
Fixpoint readCharUntil (terminator : Z) (buffer_size : nat) : MP (list Z) :=
  match buffer_size with
  | O => mret []
  | S n =>
    c ← on_sd f_getc;
    if (c <? 0) || (c =? terminator) then mret [] else
    r ← readCharUntil terminator n; mret (c :: r)
  end.
(** [readLine] into a buffer of zeros: the number of characters and the buffer. *)
Definition readLine (buffer_size : nat) : MP (Z * list Z) :=
  l ← readCharUntil 10 buffer_size; mret (Z.of_nat (length l), l ++ zeros (buffer_size - length l)).

Definition create_file (file_path : list Z) : MP unit := close;; open_ file_path FILE_WRITE;; close.
Definition delete_file (file_path : list Z) : MP unit :=
  close;;
  ex ← on_sd (sd_exists file_path);
  if (ex : bool) then _ ← on_sd (sd_remove file_path); mret tt else mret tt.

Definition parse_file_number_to_int (e : entry_client) : MP Z :=
  s ← lift (cstring (file_number e)); lift (atoi s).

(** [if (!_transaction_started || _error) return d; if (_not_in_client_registry) return d;] *)
Definition in_transaction {A} (d : A) (k : MP A) : MP A :=
  s ← get;
  if negb (_transaction_started s) || _error s then mret d else
  if _not_in_client_registry s then mret d else k.

(** [topic_name == nullptr || strlen(topic_name) == 0 || strlen(topic_name) >= MAXIMUM_TOPIC_NAME_LENGTH];
    a string argument is its characters. *)
Definition bad_topic (topic_name : option (list Z)) : bool :=
  match topic_name with
  | None => true
  | Some t => (Z.of_nat (length t) =? 0) || (MAXIMUM_TOPIC_NAME_LENGTH <=? Z.of_nat (length t))
  end.

(** [c && k], [strlen(a) == 0], and [strlen(a) < MAXIMUM_TOPIC_NAME_LENGTH && strcmp(a, t) == 0] *)
Definition also (c : bool) (k : MP bool) : MP bool := if c then k else mret false.
Definition no_name (a : list Z) : MP bool := n ← lift (strlen_ a); mret (n =? 0).
Definition short_name (a : list Z) : MP bool := n ← lift (strlen_ a); mret (n <? MAXIMUM_TOPIC_NAME_LENGTH).
Definition name_is (t a : list Z) : MP bool :=
  s ← lift (cstring a); mret ((Z.of_nat (length s) <? MAXIMUM_TOPIC_NAME_LENGTH) && bool_decide (s = t)).

(** The entry of the registry at [client_position]: overwritten by [_entry_client]. *)
Definition save_client_at (position : Z) : MP unit :=
  _ ← seek (position * Z.of_nat sizeof_client);
  s ← get; _ ← write (client_bytes (_entry_client s)); mret tt.

(** ** Start and connection state *)

Definition begin : MP bool :=
  s ← get;
  if negb (core_set s) then (if logger_set s then mret false else undefined) else
  if negb (logger_set s) then undefined else
  set_transaction_started false;;
  set_not_in_client_registry false;;
  _ ← on_sd (sd_remove mqtt_sub);
  create_file client_registry;;
  create_file mqtt_sub;;
  mret true.

(** Whether the pointer is null. *)
Definition setCore (core : bool) : MP unit := upd (fun s => with_set core (logger_set s) s).
Definition setLogger (logger : bool) : MP unit := upd (fun s => with_set (core_set s) logger s).

Definition set_mqttsn_disconnected : MP Z := upd (fun s => with_online false (_is_mqtt_online s) s);; mret SUCCESS.
Definition set_mqtt_disconnected : MP Z := upd (fun s => with_online (_is_mqttsn_online s) false s);; mret SUCCESS.
Definition set_mqtt_connected : MP Z := upd (fun s => with_online (_is_mqttsn_online s) true s);; mret SUCCESS.
Definition set_mqttsn_connected : MP Z := upd (fun s => with_online true (_is_mqtt_online s) s);; mret SUCCESS.
Definition is_mqttsn_online : MP bool := s ← get; mret (_is_mqttsn_online s).
Definition is_mqtt_online : MP bool := s ← get; mret (_is_mqtt_online s).

(** ** Transactions *)

(** [strlen(_entry_client.client_id) < MAXIMUM_CLIENT_ID_LENGTH && strcmp(...) == 0] *)
Definition client_is (id : list Z) (e : entry_client) : option bool :=
  s ← cstring (client_id e);
  Some ((Z.of_nat (length s) <? MAXIMUM_CLIENT_ID_LENGTH) && bool_decide (s = id)).

(** The body of the searches for a client: [test] on a full entry. *)
Definition find_client_body (test : entry_client -> option bool) (found : Z -> MP unit)
    (readChars : Z) (buf : list Z) (line_number : Z) : MP (ctl Z unit) :=
  let e := client_of buf in
  set_entry_client e;;
  hit ← (if readChars =? Z.of_nat sizeof_client then lift (test e) else mret false);
  if hit : bool then found line_number;; mret (Return tt) else mret (Next (to_uint (line_number + 1))).

Definition start_client_transaction (id : list Z) : MP unit :=
  s ← get;
  if _transaction_started s then set_error true else
  if MAXIMUM_CLIENT_ID_LENGTH <=? Z.of_nat (length id) then set_error true else
  set_transaction_started true;; set_error false;; set_not_in_client_registry true;;
  close;;
  open_ client_registry FILE_READ;;
  r ← do_read fuel sizeof_client (find_client_body (client_is id)
        (fun _ => close;; set_not_in_client_registry false)) 0;
  match r with inr _ => mret tt | inl _ => set_not_in_client_registry true end.

Definition address_is (address : list Z) (e : entry_client) : option bool :=
  s ← cstring (client_id e);
  Some ((Z.of_nat (length s) <? MAXIMUM_CLIENT_ID_LENGTH) && bool_decide (client_address e = address)).

Definition start_client_transaction_address (address : list Z) : MP unit :=
  s ← get;
  if _transaction_started s then set_error true else
  set_transaction_started true;; set_error false;; set_not_in_client_registry false;;
  close;;
  open_ client_registry FILE_READ;;
  r ← do_read fuel sizeof_client (find_client_body (address_is address)
        (fun _ => set_not_in_client_registry false;; close)) 0;
  match r with inr _ => mret tt | inl _ => close;; set_not_in_client_registry true end.

Definition apply_transaction : MP Z :=
  close;;
  s ← get;
  upd (with_flags false false false);;
  if _transaction_started s then
    if _error s then mret 0 else if _not_in_client_registry s then mret 0 else mret 1
  else mret 0.

Definition client_exist : MP bool :=
  s ← get;
  if negb (_transaction_started s) || _error s then mret false else mret (negb (_not_in_client_registry s)).

(** ** The registry of clients *)

(** The loop of [find_empty_entry_space_in_registry]; its [readChars] is a [size_t]. *)
Fixpoint find_empty_loop (k : nat) (entry_number : Z) : MP Z :=
  match k with
  | O => undefined
  | S k' =>
    '(readChars, buf) ← read_entry sizeof_client;
    set_entry_client (client_of buf);;
    if to_uint readChars =? 0 then mret entry_number else
    n ← lift (strlen_ (client_id (client_of buf)));
    if n =? 0 then mret entry_number else find_empty_loop k' (to_ushort (entry_number + 1))
  end.
Definition find_empty_entry_space_in_registry : MP Z :=
  flush;; close;; open_ client_registry FILE_READ;; find_empty_loop fuel 0.

Definition get_client_subscription_count : MP Z :=
  in_transaction 0 (
    flush;; close;;
    name ← filename_with_extension SUBSCRIBE_FILE_ENDING;
    open_ name FILE_READ;;
    r ← do_read (R := False) fuel sizeof_sub (fun readChars buf entry_number =>
      mret (Next (if (readChars =? Z.of_nat sizeof_sub) && negb (s_topic_id (sub_of buf) =? 0)
                  then to_ushort (entry_number + 1) else entry_number))) 0;
    match r with inl n => mret n | inr _ => undefined end).

Definition delete_client (id : list Z) : MP unit :=
  in_transaction tt (
    if MAXIMUM_CLIENT_ID_LENGTH <=? Z.of_nat (length id) then set_error true else
    subscription_count ← get_client_subscription_count;
    if 0 <? subscription_count then set_error true else
    f ← filename_with_extension REGISTRATION_FILE_ENDING; delete_file f;;
    f ← filename_with_extension SUBSCRIBE_FILE_ENDING; delete_file f;;
    f ← filename_with_extension WILL_FILE_ENDING; delete_file f;;
    f ← filename_with_extension PUBLISH_FILE_ENDING; delete_file f;;
    close;;
    open_ client_registry FILE_READ;;
    r ← do_read fuel sizeof_client (find_client_body (client_is id) (fun line_number =>
          set_entry_client (client_of (zeros sizeof_client));;
          close;;
          open_ client_registry FILE_WRITE;;
          save_client_at line_number;;
          set_not_in_client_registry true)) 0;
    match r with inr _ => mret tt | inl _ => set_not_in_client_registry true end).

Definition add_client (id address : list Z) (duration_ : Z) : MP unit :=
  s ← get;
  if negb (_transaction_started s) then mret tt else
  if _error s then mret tt else
  if negb (_not_in_client_registry s) then set_error true else
  if MAXIMUM_CLIENT_ID_LENGTH <=? Z.of_nat (length id) then set_error true else
  _ ← lift (sprintf_d 10 duration_);
  empty_space ← find_empty_entry_space_in_registry;
  id_ ← lift (strcpy_ (zeros 24) id);
  n ← lift (pad8 empty_space); number ← lift (strcpy_ (zeros 9) n);
  set_entry_client (mkClient id_ number address ACTIVE duration_ 0 0 MQTTSN_PINGREQ);;
  f ← filename_with_extension REGISTRATION_FILE_ENDING; create_file f;;
  f ← filename_with_extension SUBSCRIBE_FILE_ENDING; create_file f;;
  f ← filename_with_extension WILL_FILE_ENDING; create_file f;;
  f ← filename_with_extension PUBLISH_FILE_ENDING; create_file f;;
  open_ client_registry FILE_WRITE;;
  save_client_at empty_space;;
  close;;
  set_not_in_client_registry false.

Definition reset_client (id address : list Z) (duration_ : Z) : MP unit :=
  in_transaction tt (
    if MAXIMUM_CLIENT_ID_LENGTH <=? Z.of_nat (length id) then set_error true else
    s ← get;
    own ← lift (cstring (client_id (_entry_client s)));
    if negb (bool_decide (own = id)) then set_error true else
    open_ client_registry FILE_READ;;
    r ← do_read fuel sizeof_client (find_client_body (client_is id) (fun line_number =>
          s ← get;
          id_ ← lift (strcpy_ (zeros 24) id);
          set_entry_client (mkClient id_ (file_number (_entry_client s)) address ACTIVE duration_ 0 0 MQTTSN_PINGREQ);;
          close;;
          open_ client_registry FILE_WRITE;;
          save_client_at line_number;;
          set_not_in_client_registry false)) 0;
    match r with inr _ => mret tt | inl _ => set_error true;; set_not_in_client_registry true end).

Definition set_client_await_message (msg_type : Z) : MP unit :=
  in_transaction tt (
    s ← get; let e := _entry_client s in
    client_position ← parse_file_number_to_int e;
    set_entry_client (mkClient (client_id e) (file_number e) (client_address e) (client_status e) (duration e) (timeout e)
      (await_message_id e) msg_type);;
    open_ client_registry FILE_WRITE;;
    save_client_at client_position;;
    close).

Definition get_client_await_message_type : MP Z :=
  in_transaction MQTTSN_PINGREQ (s ← get; mret (await_message (_entry_client s))).

Definition set_timeout (timeout_ : Z) : MP unit :=
  in_transaction tt (
    close;;
    open_ client_registry FILE_WRITE;;
    s ← get; let e := _entry_client s in
    client_position ← parse_file_number_to_int e;
    set_entry_client (mkClient (client_id e) (file_number e) (client_address e) (client_status e) (duration e) timeout_
      (await_message_id e) (await_message e));;
    save_client_at client_position;;
    close).

Definition set_client_state (status : Z) : MP unit :=
  in_transaction tt (
    close;;
    open_ client_registry FILE_WRITE;;
    s ← get; let e := _entry_client s in
    set_entry_client (mkClient (client_id e) (file_number e) (client_address e) status (duration e) (timeout e)
      (await_message_id e) (await_message e));;
    client_position ← parse_file_number_to_int e;
    save_client_at client_position;;
    close).

Definition set_client_duration (duration_ : Z) : MP unit := mret tt.

Definition get_client_status : MP Z := in_transaction LOST (s ← get; mret (client_status (_entry_client s))).

Definition get_client_await_msg_id : MP Z := in_transaction 0 (s ← get; mret (await_message_id (_entry_client s))).

Definition set_client_await_msg_id (msg_id : Z) : MP unit :=
  in_transaction tt (
    s ← get; let e := _entry_client s in
    set_entry_client (mkClient (client_id e) (file_number e) (client_address e) (client_status e) (duration e) (timeout e)
      msg_id (await_message e));;
    close;;
    open_ client_registry FILE_WRITE;;
    n ← parse_file_number_to_int e;
    save_client_at n).

(** [*address], if it was written. *)
Definition get_last_client_address : MP (option (list Z)) :=
  close;;
  open_ client_registry FILE_READ;;
  r ← do_read (R := False) fuel sizeof_client (fun readChars buf address =>
    let e := client_of buf in
    mret (Next (if (readChars =? Z.of_nat sizeof_client) && negb (client_status e =? EMPTY)
                then Some (client_address e) else address))) None;
  close;;
  match r with inl a => mret a | inr _ => undefined end.

(** [client_id], [*target_address], [*target_status], [*target_duration], [*target_timeout];
    the counter [n] has 64 bits, [n * sizeof(entry_client)] too. *)
Definition get_nth_client (n : Z) : MP (list Z * list Z * Z * Z * Z) :=
  close;;
  open_ client_registry FILE_READ;;
  _ ← on_sd (f_seek (n * Z.of_nat sizeof_client));
  '(readChars, buf) ← read_entry sizeof_client;
  let e := client_of buf in
  id ← lift (cstring (client_id e));
  mret (id, client_address e, client_status e, duration e, timeout e).

(** [client_id], if it was written. *)
Definition get_client_id : MP (option (list Z)) :=
  in_transaction None (
    s ← get;
    id ← lift (cstring (client_id (_entry_client s)));
    if MAXIMUM_CLIENT_ID_LENGTH <=? Z.of_nat (length id) then mret None else mret (Some id)).

(** ** Wills *)

Definition has_client_will : MP bool :=
  in_transaction false (
    close;;
    name ← filename_with_extension WILL_FILE_ENDING;
    open_ name FILE_READ;;
    '(readChar, buf) ← read_entry sizeof_will;
    c ← lift (head (willtopic (will_of buf)));
    mret ((readChar =? Z.of_nat sizeof_will) && negb (c =? 0))).

(** Topic, message, QoS and retain flag, if they were written. *)
Definition get_client_will : MP (option (list Z * list Z * Z * bool)) :=
  in_transaction None (
    close;;
    name ← filename_with_extension WILL_FILE_ENDING;
    open_ name FILE_READ;;
    '(readChar, buf) ← read_entry sizeof_will;
    if readChar =? Z.of_nat sizeof_will then
      let e := will_of buf in
      topic ← lift (cstring (willtopic e));
      mret (Some (topic, take (Z.to_nat (willmsg_length e)) (willmsg e), will_qos e, will_retain e))
    else mret None).

(** Reading the will file, changing the entry and writing it back. *)
Definition change_will (f : entry_will -> option entry_will) : MP unit :=
  close;;
  name ← filename_with_extension WILL_FILE_ENDING;
  open_ name FILE_READ;;
  '(readChars, buf) ← read_entry sizeof_will;
  e ← lift (f (will_of buf));
  close;;
  open_ name FILE_WRITE;;
  _ ← seek 0;
  _ ← write (will_bytes e); mret tt.

Definition set_client_willtopic (topic : list Z) (qos : Z) (retain : bool) : MP unit :=
  in_transaction tt (
    if MAXIMUM_TOPIC_NAME_LENGTH <=? Z.of_nat (length topic) then mret tt else
    change_will (fun e =>
      t ← strcpy_ (zeros 255) topic; Some (mkWill t (willmsg e) (willmsg_length e) qos retain))).

(** [msg]: the [willmsg_length] bytes at [willmsg]. *)
Definition set_client_willmessage (msg : list Z) : MP unit :=
  in_transaction tt (
    change_will (fun e =>
      w ← memcpy_ (zeros 255) msg; Some (mkWill (willtopic e) w (Z.of_nat (length msg)) (will_qos e) (will_retain e)))).

Definition delete_will : MP unit :=
  in_transaction tt (
    close;;
    name ← filename_with_extension WILL_FILE_ENDING;
    _ ← on_sd (sd_remove name);
    create_file name).

(** ** Topic registrations *)

Definition get_topic_name (topic_id : Z) : MP (option (list Z)) :=
  s ← get;
  if negb (_transaction_started s) || _error s then mret None else
  if topic_id =? 0 then mret None else
  flush;; close;;
  name ← filename_with_extension REGISTRATION_FILE_ENDING;
  open_ name FILE_READ;;
  r ← do_read fuel sizeof_reg (fun readChars buf (_ : unit) =>
    let e := reg_of buf in
    set_registration_entry e;;
    hit ← also ((readChars =? Z.of_nat sizeof_reg) && (r_topic_id e =? topic_id)) (short_name (r_topic_name e));
    if (hit : bool) then t ← lift (cstring (r_topic_name e)); mret (Return t) else mret (Next tt)) tt;
  match r with inr t => mret (Some t) | inl _ => mret None end.

Definition get_topic_id (topic_name : list Z) : MP Z := mret 0.

(** A topic that is not found runs off the end of the function, without a value. *)
Definition is_topic_known (topic_id : Z) : MP bool :=
  in_transaction false (
    if topic_id =? 0 then set_error true;; mret false else
    flush;; close;;
    name ← filename_with_extension REGISTRATION_FILE_ENDING;
    open_ name FILE_READ;;
    r ← do_read fuel sizeof_reg (fun readChars buf (_ : unit) =>
      let e := reg_of buf in
      set_registration_entry e;;
      if readChars =? Z.of_nat sizeof_reg then
        empty ← also (r_topic_id e =? 0) (no_name (r_topic_name e));
        if (empty : bool) then mret (Next tt) else
        hit ← also (r_topic_id e =? topic_id) (short_name (r_topic_name e));
        if (hit : bool) then mret (Return (r_known e)) else mret (Next tt)
      else if negb (readChars =? 0) && (readChars <? Z.of_nat sizeof_reg) then mret (Break tt)
      else mret (Next tt)) tt;
    match r with inr b => mret b | inl _ => undefined end).

Definition set_topic_known (topic_id : Z) (known : bool) : MP bool := mret false.

(** [*topic_id], if it was written. *)
Definition add_client_registration (topic_name : list Z) : MP (option Z) :=
  in_transaction None (
    if MAXIMUM_TOPIC_NAME_LENGTH <? Z.of_nat (length topic_name) then set_error true;; mret None else
    flush;; close;;
    name ← filename_with_extension REGISTRATION_FILE_ENDING;
    open_ name FILE_READ;;
    r ← do_read fuel sizeof_reg (fun readChars buf '(entry_number, first_empty_space) =>
      let e := reg_of buf in
      set_registration_entry e;;
      let next f := mret (Next (to_ushort (entry_number + 1), f)) in
      if readChars =? Z.of_nat sizeof_reg then
        empty ← also (r_topic_id e =? 0) (no_name (r_topic_name e));
        if (empty : bool) then next entry_number else
        hit ← also (negb (r_topic_id e =? 0)) (name_is topic_name (r_topic_name e));
        if (hit : bool) then
          set_registration_entry (mkReg (r_topic_id e) (r_topic_name e) true);;
          mret (Return (r_topic_id e))
        else next first_empty_space
      else if negb (readChars =? 0) && (readChars <? Z.of_nat sizeof_reg) then mret (Break (entry_number, first_empty_space))
      else next first_empty_space) (0, -1);
    match r with
    | inr id => mret (Some id)
    | inl (entry_number, first_empty_space) =>
      let first_empty_space := if first_empty_space =? -1 then entry_number - 1 else first_empty_space in
      s ← get;
      t ← lift (strcpy_ (r_topic_name (_registration_entry s)) topic_name);
      let e := mkReg entry_number t true in
      set_registration_entry e;;
      close;;
      open_ name FILE_WRITE;;
      _ ← seek (first_empty_space * Z.of_nat sizeof_reg);
      _ ← write (reg_bytes e);
      close;;
      mret (Some entry_number)
    end).

(** Lines of TOPICS.PRE: an identifier, a space, a name. *)
Fixpoint predefined_loop (k : nat) (topic_id : Z) : MP (option (list Z)) :=
  match k with
  | O => undefined
  | S k' =>
    '(readChars, buffer) ← readLine 262;
    let continue_ := if 0 <? readChars then predefined_loop k' topic_id else mret None in
    if 3 <? readChars then
      line ← lift (cstring buffer);
      match strtok_all 32 [] line with
      | [] => continue_
      | [_] => undefined
      | found :: found_topic_name :: _ =>
        n ← lift (atoi found);
        let found_topic_id := to_ushort n in
        if MAXIMUM_TOPIC_NAME_LENGTH <=? Z.of_nat (length found_topic_name) then continue_ else
        if found_topic_id =? topic_id then
          s ← get;
          t ← lift (strcpy_ (r_topic_name (_predefined_registration_entry s)) found_topic_name);
          set_predefined (mkReg found_topic_id t (r_known (_predefined_registration_entry s)));;
          mret (Some found_topic_name)
        else continue_
      end
    else continue_
  end.

Definition get_predefined_topic_name (topic_id : Z) : MP (option (list Z)) :=
  s ← get;
  if _error s then mret None else
  flush;; close;;
  open_ predefined_topic FILE_READ;;
  set_predefined (reg_of (zeros sizeof_reg));;
  predefined_loop fuel topic_id.

(** ** Subscriptions of the client *)

(** The searches for a topic name in the subscriptions: [ret] of the entry found. *)
Definition find_subscription {A} (topic_name : list Z) (ret : entry_subscription -> A) : MP (option A) :=
  name ← filename_with_extension SUBSCRIBE_FILE_ENDING;
  open_ name FILE_READ;;
  r ← do_read fuel sizeof_sub (fun readChars buf (_ : unit) =>
    let e := sub_of buf in
    if readChars =? Z.of_nat sizeof_sub then
      hit ← name_is topic_name (s_topic_name e);
      if (hit : bool) then mret (Return (ret e)) else mret (Next tt)
    else mret (Next tt)) tt;
  match r with inr a => mret (Some a) | inl _ => mret None end.

Definition is_subscribed (topic_name : option (list Z)) : MP bool :=
  in_transaction false (
    if bad_topic topic_name then mret false else
    t ← lift topic_name;
    r ← find_subscription t (fun _ => true);
    mret (default false r)).

Definition get_subscription_qos (topic_name : option (list Z)) : MP Z :=
  in_transaction 0 (
    if bad_topic topic_name then mret 0 else
    t ← lift topic_name;
    r ← find_subscription t s_qos;
    mret (default (-1) r)).

Definition get_subscription_topic_id (topic_name : option (list Z)) : MP Z :=
  in_transaction 0 (
    if bad_topic topic_name then mret 0 else
    t ← lift topic_name;
    r ← find_subscription t s_topic_id;
    mret (default 0 r)).

Definition add_subscription (topic_name : option (list Z)) (topic_id qos : Z) : MP unit :=
  in_transaction tt (
    if bad_topic topic_name then mret tt else
    if topic_id =? 0 then mret tt else
    topic ← lift topic_name;
    name ← filename_with_extension SUBSCRIBE_FILE_ENDING;
    open_ name FILE_READ;;
    r ← do_read fuel sizeof_sub (fun readChars buf '(entry_number, first_empty_space) =>
      let e := sub_of buf in
      let next f := mret (Next (to_ushort (entry_number + 1), f)) in
      if readChars =? Z.of_nat sizeof_sub then
        empty ← also (s_topic_id e =? 0) (no_name (s_topic_name e));
        if (empty : bool) then next entry_number else
        hit ← also (s_topic_id e =? topic_id) (name_is topic (s_topic_name e));
        if (hit : bool) then mret (Return tt)
        else next first_empty_space
      else next first_empty_space) (0, -1);
    match r with
    | inr _ => mret tt
    | inl (entry_number, first_empty_space) =>
      let first_empty_space := if first_empty_space =? -1 then entry_number - 1 else first_empty_space in
      t ← lift (strcpy_ (zeros 255) topic);
      close;;
      open_ name FILE_WRITE;;
      _ ← seek (first_empty_space * Z.of_nat sizeof_sub);
      _ ← write (sub_bytes (mkSub topic_id qos t));
      close
    end).

Definition delete_subscription (topic_id : Z) : MP unit :=
  s ← get;
  if negb (_transaction_started s) || _error s then mret tt else
  if topic_id =? 0 then mret tt else
  flush;; close;;
  name ← filename_with_extension SUBSCRIBE_FILE_ENDING;
  open_ name FILE_READ;;
  r ← do_read fuel sizeof_sub (fun readChars buf line_number =>
    let e := sub_of buf in
    let next := mret (Next (to_ushort (line_number + 1))) in
    if (readChars =? Z.of_nat sizeof_sub) && (s_topic_id e =? topic_id) then
      close;;
      open_ name FILE_WRITE;;
      ok ← seek (line_number * Z.of_nat sizeof_sub);
      if (ok : bool) then _ ← write (sub_bytes (sub_of (zeros sizeof_sub))); mret (Return tt) else next
    else next) 0;
  match r with inr _ => mret tt | inl _ => set_error true end.

Definition get_nth_subscribed_topic_id (n : Z) : MP Z :=
  s ← get;
  if negb (_transaction_started s) || _error s then mret 0 else
  flush;; close;;
  name ← filename_with_extension SUBSCRIBE_FILE_ENDING;
  open_ name FILE_READ;;
  _ ← seek (n * Z.of_nat sizeof_sub);
  '(readChars, buf) ← read_entry sizeof_sub;
  if (readChars =? Z.of_nat sizeof_sub) && negb (s_topic_id (sub_of buf) =? 0) then mret (s_topic_id (sub_of buf)) else mret 0.

(** ** Subscriptions of the gateway: how many clients want a topic *)

(** The second test of the length can never hold behind the first. *)
Definition with_global_topic {A} (d : A) (topic_name : option (list Z)) (k : list Z -> MP A) : MP A :=
  s ← get;
  if _error s then mret d else
  if bad_topic topic_name then mret d else
  t ← lift topic_name;
  if MAXIMUM_TOPIC_NAME_LENGTH <? Z.of_nat (length t) then set_error true;; mret d else
  close;;
  open_ mqtt_sub FILE_READ;;
  k t.

(** [client_subscription_count == 0 && strlen(topic_name) == 0], and the entry of topic [t] *)
Definition ms_empty (e : entry_mqtt_subscription) : MP bool := also (client_subscription_count e =? 0) (no_name (ms_topic_name e)).
Definition ms_is (t : list Z) (e : entry_mqtt_subscription) : MP bool :=
  also (negb (client_subscription_count e =? 0)) (name_is t (ms_topic_name e)).

(** Saving an entry over the one found: the file is opened again without closing it. *)
Definition save_mqtt_sub (entry_number : Z) (e : entry_mqtt_subscription) : MP unit :=
  open_ mqtt_sub FILE_WRITE;;
  _ ← seek (entry_number * Z.of_nat sizeof_mqtt_sub);
  _ ← write (mqtt_sub_bytes e); mret tt.

Definition decrement_global_subscription_count (topic_name : option (list Z)) : MP bool :=
  with_global_topic false topic_name (fun t =>
    r ← do_read fuel sizeof_mqtt_sub (fun readChars buf entry_number =>
      let e := mqtt_sub_of buf in
      let next := mret (Next (to_ushort (entry_number + 1))) in
      if readChars =? Z.of_nat sizeof_mqtt_sub then
        empty ← ms_empty e;
        if (empty : bool) then next else
        hit ← ms_is t e;
        if (hit : bool) then
          let n := to_uint (client_subscription_count e - 1) in
          _ ← lift (sprintf_d 6 n);
          save_mqtt_sub entry_number
            (if n =? 0 then mqtt_sub_of (zeros sizeof_mqtt_sub) else mkMqttSub n (ms_topic_name e));;
          mret (Return tt)
        else next
      else if negb (readChars =? 0) && (readChars <? Z.of_nat sizeof_mqtt_sub) then mret (Break entry_number)
      else next) 0;
    mret true).

Definition increment_global_subscription_count (topic_name : option (list Z)) : MP bool :=
  with_global_topic false topic_name (fun t =>
    r ← do_read fuel sizeof_mqtt_sub (fun readChars buf '(entry_number, first_empty_space, _) =>
      let e := mqtt_sub_of buf in
      let next f := mret (Next (to_ushort (entry_number + 1), f, e)) in
      if readChars =? Z.of_nat sizeof_mqtt_sub then
        empty ← ms_empty e;
        if (empty : bool) then next entry_number else
        hit ← ms_is t e;
        if (hit : bool) then
          let n := to_uint (client_subscription_count e + 1) in
          _ ← lift (sprintf_d 6 n);
          save_mqtt_sub entry_number (mkMqttSub n (ms_topic_name e));;
          mret (Return tt)
        else next first_empty_space
      else if negb (readChars =? 0) && (readChars <? Z.of_nat sizeof_mqtt_sub) then mret (Break (entry_number, first_empty_space, e))
      else next first_empty_space) (0, -1, mqtt_sub_of (zeros sizeof_mqtt_sub));
    match r with
    | inr _ => mret true
    | inl (entry_number, first_empty_space, e) =>
      let first_empty_space := if first_empty_space =? -1 then entry_number - 1 else first_empty_space in
      topic ← lift (strcpy_ (ms_topic_name e) t);
      close;;
      save_mqtt_sub first_empty_space (mkMqttSub 1 topic);;
      close;;
      mret true
    end).

Definition get_global_topic_subscription_count (topic_name : option (list Z)) : MP Z :=
  with_global_topic 0 topic_name (fun t =>
    r ← do_read fuel sizeof_mqtt_sub (fun readChars buf (_ : unit) =>
      let e := mqtt_sub_of buf in
      if readChars =? Z.of_nat sizeof_mqtt_sub then
        hit ← ms_is t e;
        if (hit : bool) then _ ← lift (sprintf_d 6 (client_subscription_count e)); mret (Return (client_subscription_count e))
        else mret (Next tt)
      else if negb (readChars =? 0) && (readChars <? Z.of_nat sizeof_mqtt_sub) then mret (Break tt)
      else mret (Next tt)) tt;
    match r with inr n => mret n | inl _ => mret 0 end).

(** ** Publishes waiting for the client *)

Definition open_publishes : MP (list Z) :=
  close;; name ← filename_with_extension PUBLISH_FILE_ENDING; open_ name FILE_READ;; mret name.

Definition has_client_publishes : MP bool :=
  in_transaction false (
    open_publishes;;
    r ← do_read fuel sizeof_pub (fun readChars buf (_ : unit) =>
      if readChars =? Z.of_nat sizeof_pub then
        if negb (p_publish_id (pub_of buf) =? 0) then mret (Return tt) else mret (Next tt)
      else if negb (readChars =? 0) && (readChars <? Z.of_nat sizeof_pub) then mret (Break tt)
      else mret (Next tt)) tt;
    match r with inr _ => mret true | inl _ => mret false end).

(** [data]: the [data_len] bytes; [dup] and [msg_id] are not used. *)
Definition add_client_publish (data : list Z) (topic_id : Z) (retain : bool) (qos : Z) (dup : bool) (msg_id : Z) : MP unit :=
  in_transaction tt (
    name ← open_publishes;
    r ← do_read (R := False) fuel sizeof_pub (fun readChars buf '(entry_number, first_empty_space) =>
      if readChars =? Z.of_nat sizeof_pub then
        mret (Next (to_ushort (entry_number + 1), if p_publish_id (pub_of buf) =? 0 then entry_number else first_empty_space))
      else if negb (readChars =? 0) && (readChars <? Z.of_nat sizeof_pub) then mret (Break (entry_number, first_empty_space))
      else mret (Next (to_ushort (entry_number + 1), first_empty_space))) (0, -1);
    match r with
    | inr _ => undefined
    | inl (entry_number, first_empty_space) =>
      let first_empty_space := if first_empty_space =? -1 then entry_number - 1 else first_empty_space in
      msg ← lift (memcpy_ (zeros 255) data);
      close;;
      open_ name FILE_WRITE;;
      _ ← seek (first_empty_space * Z.of_nat sizeof_pub);
      _ ← write (pub_bytes (mkPub msg (Z.of_nat (length data)) topic_id qos retain false 0 (to_ushort (first_empty_space + 1)) 0));
      mret tt
    end).

(** [data], [*topic_id], [*retain], [*qos], [*dup], [*publish_id]; without a publish only
    [*data_len] and [*publish_id] are written, zero. *)
Definition get_next_publish : MP (option (list Z * Z * bool * Z * bool * Z)) :=
  in_transaction None (
    name ← open_publishes;
    r ← do_read (R := False) fuel sizeof_pub (fun readChars buf '(entry_number, last_publish_entry) =>
      if readChars =? Z.of_nat sizeof_pub then
        mret (Next (to_ushort (entry_number + 1), if p_publish_id (pub_of buf) =? 0 then last_publish_entry else entry_number))
      else if negb (readChars =? 0) && (readChars <? Z.of_nat sizeof_pub) then mret (Break (entry_number, last_publish_entry))
      else mret (Next (to_ushort (entry_number + 1), last_publish_entry))) (0, -1);
    match r with
    | inr _ => undefined
    | inl (_, last_publish_entry) =>
      if last_publish_entry =? -1 then mret None else
      close;;
      open_ name FILE_READ;;
      _ ← seek (last_publish_entry * Z.of_nat sizeof_pub);
      '(_, buf) ← read_entry sizeof_pub;
      let e := pub_of buf in
      mret (Some (take (Z.to_nat (p_msg_length e)) (p_msg e), p_topic_id e, p_retain e, p_qos e, p_dup e, p_publish_id e))
    end).

(** The entry of [publish_id], changed and written back. *)
Definition change_publish (publish_id : Z) (f : entry_publish -> entry_publish) : MP unit :=
  in_transaction tt (
    name ← open_publishes;
    _ ← seek ((publish_id - 1) * Z.of_nat sizeof_pub);
    '(readChars, buf) ← read_entry sizeof_pub;
    let e := pub_of buf in
    if readChars =? Z.of_nat sizeof_pub then
      if p_publish_id e =? publish_id then
        close;;
        open_ name FILE_WRITE;;
        _ ← seek ((publish_id - 1) * Z.of_nat sizeof_pub);
        _ ← write (pub_bytes (f e)); mret tt
      else set_error true
    else mret tt).

Definition set_publish_msg_id (publish_id msg_id : Z) : MP unit :=
  change_publish publish_id (fun e =>
    mkPub (p_msg e) (p_msg_length e) (p_topic_id e) (p_qos e) (p_retain e) (p_dup e) msg_id (p_publish_id e) (p_retransmition_timeout e)).

Definition remove_publish_by_publish_id (publish_id : Z) : MP unit :=
  change_publish publish_id (fun _ => pub_of (zeros sizeof_pub)).

(** [sizeof(buffer_size)] is that of a [uint16_t]. *)
Definition remove_publish_by_msg_id (msg_id : Z) : MP unit :=
  in_transaction tt (
    (if msg_id =? 0 then set_error true else mret tt);;
    name ← open_publishes;
    r ← do_read fuel sizeof_pub (fun readChars buf entry_number =>
      if readChars =? Z.of_nat sizeof_pub then
        if p_msg_id (pub_of buf) =? msg_id then
          open_ name FILE_WRITE;;
          _ ← seek (entry_number * 2);
          _ ← write (take 2 (pub_bytes (pub_of (zeros sizeof_pub))));
          mret (Return tt)
        else mret (Next (to_ushort (entry_number + 1)))
      else if negb (readChars =? 0) && (readChars <? Z.of_nat sizeof_pub) then mret (Break entry_number)
      else mret (Next (to_ushort (entry_number + 1)))) 0;
    mret tt).

(** ** Configuration files *)

(** [while (readLine(...) > 0)]: [line] of every line with its length and one, over the values read so far. *)
Fixpoint config_loop {A} (k : nat) (buffer_size : nat) (line : list Z -> Z -> A -> option A) (a : A) : MP A :=
  match k with
  | O => undefined
  | S k' =>
    '(n, buffer) ← readLine buffer_size;
    if negb (0 <? n) then mret a else
    len ← lift (strlen_ buffer);
    a ← lift (line buffer (to_ushort (len + 1)) a);
    config_loop k' buffer_size line a
  end.

(** [memcmp(&buffer, key, strlen(key)) == 0] *)
Definition starts (key buffer : list Z) : bool := bool_decide (take (length key) buffer = key).

Definition k_advertise : list Z := [97; 100; 118; 101; 114; 116; 105; 115; 101].
Definition k_timeout : list Z := [116; 105; 109; 101; 111; 117; 116].
Definition k_gatewayid : list Z := [103; 97; 116; 101; 119; 97; 121; 105; 100].
Definition k_brokeraddress : list Z := [98; 114; 111; 107; 101; 114; 97; 100; 100; 114; 101; 115; 115].
Definition k_brokerport : list Z := [98; 114; 111; 107; 101; 114; 112; 111; 114; 116].
Definition k_clientid : list Z := [99; 108; 105; 101; 110; 116; 105; 100].
Definition k_username : list Z := [117; 115; 101; 114; 110; 97; 109; 101].
Definition k_password : list Z := [112; 97; 115; 115; 119; 111; 114; 100].
Definition k_willtopic : list Z := [119; 105; 108; 108; 116; 111; 112; 105; 99].
Definition k_willmessage : list Z := [119; 105; 108; 108; 109; 101; 115; 115; 97; 103; 101].
Definition k_willqos : list Z := [119; 105; 108; 108; 113; 111; 115].
Definition k_willretain : list Z := [119; 105; 108; 108; 114; 101; 116; 97; 105; 110].

(** The loop of the two durations: whether the key was found, and its value. *)
Definition duration_loop (key : list Z) : MP (bool * Z) :=
  config_loop fuel 512 (fun buffer len '(has, d) =>
    if starts key buffer then parse_uint16_t_after_space d buffer len else Some (has, d)) (false, 0).

Definition get_advertise_duration : MP Z :=
  open_ mqttsn_configuration FILE_READ;;
  '(has, d) ← duration_loop k_advertise;
  mret (if (has : bool) then d else 900).

Definition get_timeout_check_duration : MP Z :=
  open_ mqttsn_configuration FILE_READ;;
  '(has, d) ← duration_loop k_timeout;
  mret (if (has : bool) then d else 10).

(** The functions below return their result and the buffers they were given. *)
Definition get_gateway_id (gateway_id : Z) : MP (bool * Z) :=
  open_ mqttsn_configuration FILE_READ;;
  '(has, id) ← config_loop fuel 512 (fun buffer len '(has, id) =>
    if starts k_gatewayid buffer then parse_uint8_t_after_space id buffer len else Some (has, id)) (false, gateway_id);
  mret (true, if (has : bool) then id else 0).

Definition get_mqtt_config (server_ip : list Z) (server_port : Z) (id : list Z) : MP (bool * list Z * Z * list Z) :=
  open_ mqtt_configuration FILE_READ;;
  '(a, ip, p, port, c, id) ← config_loop fuel 512 (fun buffer len '(a, ip, p, port, c, id) =>
    if starts k_brokeraddress buffer then '(a, ip) ← parse_ipaddress_after_space ip buffer len; Some (a, ip, p, port, c, id)
    else if starts k_brokerport buffer then '(p, port) ← parse_uint16_t_after_space port buffer len; Some (a, ip, p, port, c, id)
    else if starts k_clientid buffer then '(c, id) ← parse_string_after_space id buffer len; Some (a, ip, p, port, c, id)
    else Some (a, ip, p, port, c, id)) (false, server_ip, false, server_port, false, id);
  close;;
  mret ((a : bool) && (p : bool) && (c : bool), ip, port, id).

Definition get_mqtt_login_config (username password : list Z) : MP (bool * list Z * list Z) :=
  close;;
  open_ mqtt_configuration FILE_READ;;
  '(u, username, p, password) ← config_loop fuel 128 (fun buffer len '(u, username, p, password) =>
    if starts k_username buffer then '(u, username) ← parse_string_after_space username buffer len; Some (u, username, p, password)
    else if starts k_password buffer then '(p, password) ← parse_string_after_space password buffer len; Some (u, username, p, password)
    else Some (u, username, p, password)) (false, username, false, password);
  mret ((u : bool) && (p : bool), username, password).

Definition get_mqtt_will (will_topic will_msg : list Z) (will_qos : Z) (will_retain : bool)
    : MP (bool * list Z * list Z * Z * bool) :=
  close;;
  open_ mqtt_configuration FILE_READ;;
  '(t, topic, m, msg, q, qos, r, retain) ← config_loop fuel 128 (fun buffer len '(t, topic, m, msg, q, qos, r, retain) =>
    if starts k_willtopic buffer then '(t, topic) ← parse_string_after_space topic buffer len; Some (t, topic, m, msg, q, qos, r, retain)
    else if starts k_willmessage buffer then '(m, msg) ← parse_string_after_space msg buffer len; Some (t, topic, m, msg, q, qos, r, retain)
    else if starts k_willqos buffer then '(q, qos) ← parse_uint8_t_after_space qos buffer len; Some (t, topic, m, msg, q, qos, r, retain)
    else if starts k_willretain buffer then
      '(ok, tmp_number) ← parse_uint8_t_after_space 0 buffer len;
      if (ok : bool) && (tmp_number <=? 1) then Some (t, topic, m, msg, q, qos, true, negb (tmp_number =? 0))
      else Some (t, topic, m, msg, q, qos, r, retain)
    else Some (t, topic, m, msg, q, qos, r, retain))
    (false, will_topic, false, will_msg, false, will_qos, false, will_retain);
  mret ((t : bool) && (m : bool) && (q : bool) && (r : bool), topic, msg, qos, retain).
End Definitions.
