(* ===== verification/Card.v ===== *)
(** * Card: files of the SD card as tables of entries

    What is assumed of the card, a total-correctness calculus for the operations of
    Persist.v over it, and the fixed-size entries: their bytes, reading a table entry by
    entry, and writing one entry of it. *)
From Stdlib Require Import ZifyBool.
From S2P Require Import Prelude CMem Persist.

(** ** The card *)

Abbreviation filemap := (gmap (list Z) (list Z)).
Abbreviation handle_t := (option (list Z * open_mode * Z)).

(** What the SD library documents, for the uses in this program: reading starts at the
    front, writing at the end of a file that is created if need be; positions are
    inside the file. *)
Class SdOk `{Sd} := {
  files : SDS -> filemap;
  handle : SDS -> handle_t;
  open_read_ok x f b : files x !! f = Some b -> exists x', sd_open f FILE_READ x = Some (tt, x') /\
    files x' = files x /\ handle x' = Some (f, FILE_READ, 0);
  open_write_ok x f : exists x', sd_open f FILE_WRITE x = Some (tt, x') /\
    files x' = <[f := default [] (files x !! f)]> (files x) /\
    handle x' = Some (f, FILE_WRITE, Z.of_nat (length (default [] (files x !! f))));
  close_ok x : exists x', f_close x = Some (tt, x') /\ files x' = files x /\ handle x' = None;
  flush_ok x : exists x', f_flush x = Some (tt, x') /\ files x' = files x /\ handle x' = handle x;
  exists_ok x f : exists x', sd_exists f x = Some (bool_decide (is_Some (files x !! f)), x') /\
    files x' = files x /\ handle x' = handle x;
  remove_ok x f : handle x = None -> exists r x', sd_remove f x = Some (r, x') /\
    files x' = delete f (files x) /\ handle x' = None;
  seek_ok x f m p b q : handle x = Some (f, m, p) -> files x !! f = Some b -> 0 <= q <= Z.of_nat (length b) ->
    exists x', f_seek q x = Some (true, x') /\ files x' = files x /\ handle x' = Some (f, m, q);
  read_ok x f m p b n : handle x = Some (f, m, p) -> files x !! f = Some b -> 0 <= p <= Z.of_nat (length b) -> 0 <= n ->
    let bs := take (Z.to_nat n) (drop (Z.to_nat p) b) in
    exists x', f_read n x = Some ((Z.of_nat (length bs), bs), x') /\ files x' = files x /\
      handle x' = Some (f, m, p + Z.of_nat (length bs));
  getc_ok x f m p b : handle x = Some (f, m, p) -> files x !! f = Some b -> 0 <= p <= Z.of_nat (length b) -> bytes b ->
    exists x', f_getc x = Some (default (-1) (b !! Z.to_nat p), x') /\ files x' = files x /\
      handle x' = Some (f, m, Z.min (p + 1) (Z.of_nat (length b)));
  write_ok x f p b bs : handle x = Some (f, FILE_WRITE, p) -> files x !! f = Some b -> 0 <= p <= Z.of_nat (length b) ->
    exists r x', f_write bs x = Some (r, x') /\ files x' = <[f := splice b (Z.to_nat p) bs]> (files x) /\
      handle x' = Some (f, FILE_WRITE, p + Z.of_nat (length bs))
}.

(** ** Strings and integers in memory *)

Lemma cstring_app s r : Forall (fun c => c <> 0) s -> cstring (s ++ 0 :: r) = Some s.
Proof. induction 1 as [|c s Hc Hs IH]; [done|]. cbn [app cstring]. destruct (Z.eqb_spec c 0); [done|]. by rewrite IH. Qed.

Lemma cstring_Some a s : cstring a = Some s -> Forall (fun c => c <> 0) s /\ exists r, a = s ++ 0 :: r.
Proof.
  revert s. induction a as [|c a IH]; intros s; [done|]. cbn [cstring]. destruct (Z.eqb_spec c 0) as [->|Hc].
  - intros [= <-]. split; [done|by exists a].
  - destruct (cstring a) as [s'|]; [|done]. intros [= <-]. destruct (IH s' eq_refl) as (Hs & r & ->). split; [by constructor|by exists r].
Qed.

Lemma cstring_short a s : cstring a = Some s -> (length s < length a)%nat.
Proof. intros (_ & r & ->)%cstring_Some. rewrite length_app. cbn [length]. lia. Qed.

Lemma length_zeros n : length (zeros n) = n.
Proof. apply length_replicate. Qed.

(** A string in an array of zeros. *)
Lemma strcpy_zeros n s : (length s < n)%nat -> strcpy_ (zeros n) s = Some (s ++ zeros (n - length s)).
Proof.
  intros Hn. unfold strcpy_. rewrite length_zeros, decide_True by done. unfold splice, zeros.
  rewrite drop_replicate, length_app, <- app_assoc. cbn [take app length].
  by replace (n - length s)%nat with (S (n - (0 + (length s + 1)))) by lia.
Qed.

Lemma cstring_padded n s : Forall (fun c => c <> 0) s -> (length s < n)%nat -> cstring (s ++ zeros (n - length s)) = Some s.
Proof. intros Hs Hn. destruct (n - length s)%nat as [|k] eqn:E; [lia|]. by apply cstring_app. Qed.

Lemma length_le n v : length (le n v) = n.
Proof. revert v. induction n as [|n IH]; intros v; cbn [le length]; [done|]. by rewrite IH. Qed.

Lemma unle_le n v : 0 <= v < 256 ^ Z.of_nat n -> unle (le n v) = v.
Proof.
  revert v. induction n as [|n IH]; intros v Hv; [simpl in *; lia|]. cbn [le unle foldr]. fold (unle (le n (v / 256))).
  rewrite Nat2Z.inj_succ, Z.pow_succ_r in Hv by lia. rewrite IH.
  - pose proof (Z.div_mod v 256). lia.
  - split; [apply Z.div_pos; lia|]. apply Z.div_lt_upper_bound; lia.
Qed.

(** Members of a structure that is put together from its members. *)
Lemma member_at off n a r : off = O -> length a = n -> member off n (a ++ r) = a.
Proof. intros -> <-. unfold member. rewrite drop_0. by rewrite take_app_length. Qed.
Lemma member_last off n a : off = O -> length a = n -> member off n a = a.
Proof. intros -> <-. unfold member. rewrite drop_0. by rewrite take_ge. Qed.
Lemma member_skip off n a r : (length a <= off)%nat -> member off n (a ++ r) = member (off - length a) n r.
Proof. intros H. unfold member. by rewrite drop_app_ge. Qed.

Create Rewrite HintDb layout.
#[export] Hint Rewrite @length_app @length_cons @length_nil length_le length_zeros @length_map : layout.
Ltac lens := autorewrite with layout in *; unfold sizeof_mqtt_sub, sizeof_will, sizeof_sub, sizeof_reg, sizeof_pub, sizeof_client in *; try lia.
Lemma app_three {A} (a b c : A) r : [a; b; c] ++ r = [a] ++ [b] ++ [c] ++ r.
Proof. done. Qed.
(** A member of a structure: skip what is before it, then take it. *)
Ltac layout := rewrite ?member_skip by lens; first [rewrite member_at by lens | rewrite member_last by lens].

Definition ranged (n : nat) (v : Z) : Prop := 0 <= v < 256 ^ Z.of_nat n.
Lemma unle_ranged n v : ranged n v -> unle (le n v) = v.
Proof. apply unle_le. Qed.
Lemma bool_byte_ne b : negb (unle [bool_byte b] =? 0) = b.
Proof. by destruct b. Qed.
Lemma unle_zeros n : unle (zeros n) = 0.
Proof. induction n as [|n IH]; [done|]. unfold zeros in *. cbn [replicate unle foldr] in *. fold (unle (replicate n 0)). lia. Qed.
Lemma le_0 n : le n 0 = zeros n.
Proof. induction n as [|n IH]; [done|]. cbn [le]. change (0 / 256) with 0. rewrite IH. done. Qed.
Lemma member_zeros off n k : (off + n <= k)%nat -> member off n (zeros k) = zeros n.
Proof. intros H. unfold member, zeros. rewrite drop_replicate, take_replicate. f_equal. lia. Qed.
Lemma zeros_app a b : zeros a ++ zeros b = zeros (a + b).
Proof. symmetry. apply replicate_add. Qed.

(** ** Entries of a fixed size *)

(** What an entry is as bytes; the operations are proved against [EntryOk]. *)
Class Entry (E : Type) := { enc : E -> list Z; dec : list Z -> E; esize : nat; wf : E -> Prop }.
Class EntryOk (E : Type) `{Entry E} := {
  esize_pos : (0 < esize)%nat;
  enc_length e : wf e -> length (enc e) = esize;
  dec_enc e : wf e -> dec (enc e) = e;
  wf_zero : wf (dec (zeros esize));
  enc_zero : enc (dec (zeros esize)) = zeros esize
}.
Definition zero_entry {E} `{Entry E} : E := dec (zeros esize).

#[export] Instance mqtt_sub_entry : Entry entry_mqtt_subscription :=
  {| enc := mqtt_sub_bytes; dec := mqtt_sub_of; esize := sizeof_mqtt_sub;
     wf e := ranged 4 (client_subscription_count e) /\ length (ms_topic_name e) = 255%nat |}.
#[export] Instance will_entry : Entry entry_will :=
  {| enc := will_bytes; dec := will_of; esize := sizeof_will;
     wf e := length (willtopic e) = 255%nat /\ length (willmsg e) = 255%nat /\ ranged 1 (willmsg_length e) /\ ranged 1 (will_qos e) |}.
#[export] Instance sub_entry : Entry entry_subscription :=
  {| enc := sub_bytes; dec := sub_of; esize := sizeof_sub;
     wf e := ranged 2 (s_topic_id e) /\ ranged 1 (s_qos e) /\ length (s_topic_name e) = 255%nat |}.
#[export] Instance reg_entry : Entry entry_registration :=
  {| enc := reg_bytes; dec := reg_of; esize := sizeof_reg;
     wf e := ranged 2 (r_topic_id e) /\ length (r_topic_name e) = 255%nat |}.
#[export] Instance pub_entry : Entry entry_publish :=
  {| enc := pub_bytes; dec := pub_of; esize := sizeof_pub;
     wf e := length (p_msg e) = 255%nat /\ ranged 1 (p_msg_length e) /\ ranged 2 (p_topic_id e) /\ ranged 1 (p_qos e) /\
       ranged 2 (p_msg_id e) /\ ranged 2 (p_publish_id e) /\ ranged 4 (p_retransmition_timeout e) |}.
#[export] Instance client_entry `{CoreTypes} : Entry entry_client :=
  {| enc := client_bytes; dec := client_of; esize := sizeof_client;
     wf e := length (client_id e) = 24%nat /\ length (file_number e) = 9%nat /\ length (client_address e) = sizeof_address /\
       ranged sizeof_status (client_status e) /\ ranged 4 (duration e) /\ ranged 4 (timeout e) /\
       ranged 2 (await_message_id e) /\ ranged sizeof_message_type (await_message e) |}.

Lemma ranged_0 n : ranged n 0.
Proof. unfold ranged. pose proof (Z.pow_pos_nonneg 256 (Z.of_nat n)). lia. Qed.
#[export] Hint Resolve ranged_0 : core.

(** The laws of a structure: its length, each member read back, and the zero entry. *)
Ltac entry_laws := split; cbn [enc dec wf esize mqtt_sub_entry will_entry sub_entry reg_entry pub_entry client_entry]; [
  unfold sizeof_mqtt_sub, sizeof_will, sizeof_sub, sizeof_reg, sizeof_pub, sizeof_client; lia
 | intros []; unfold mqtt_sub_bytes, will_bytes, sub_bytes, reg_bytes, pub_bytes, client_bytes; cbn in *; intros; destruct_and?; lens
 | intros []; unfold mqtt_sub_bytes, mqtt_sub_of, will_bytes, will_of, sub_bytes, sub_of, reg_bytes, reg_of, pub_bytes, pub_of,
     client_bytes, client_of; cbn [client_subscription_count ms_topic_name willtopic willmsg willmsg_length will_qos will_retain
     s_topic_id s_qos s_topic_name r_topic_id r_topic_name r_known p_msg p_msg_length p_topic_id p_qos p_retain p_dup p_msg_id
     p_publish_id p_retransmition_timeout client_id file_number client_address client_status duration timeout await_message_id
     await_message]; intros; destruct_and?;
   rewrite ?app_three; f_equal; layout; by rewrite ?unle_ranged, ?bool_byte_ne
 | .. ].

#[export] Instance mqtt_sub_entry_ok : EntryOk entry_mqtt_subscription.
Proof. entry_laws; done. Qed.
#[export] Instance will_entry_ok : EntryOk entry_will.
Proof. entry_laws; done. Qed.
#[export] Instance sub_entry_ok : EntryOk entry_subscription.
Proof. entry_laws; done. Qed.
#[export] Instance reg_entry_ok : EntryOk entry_registration.
Proof. entry_laws; done. Qed.
#[export] Instance pub_entry_ok : EntryOk entry_publish.
Proof. entry_laws; done. Qed.
#[export] Instance client_entry_ok `{CoreTypes} : EntryOk entry_client.
Proof.
  entry_laws; unfold client_of, client_bytes; cbn [client_id file_number client_address client_status duration timeout
    await_message_id await_message]; rewrite !member_zeros by (unfold sizeof_client; lia); rewrite !unle_zeros.
  - rewrite !length_zeros. repeat match goal with |- _ /\ _ => split end; auto.
  - rewrite !le_0, !zeros_app. f_equal. lens.
Qed.
(** ** Files that are tables of entries *)

Section Table.
Context `{EntryOk E}.

Definition table (es : list E) : list Z := concat (map enc es).

Lemma length_table es : Forall wf es -> length (table es) = (length es * esize)%nat.
Proof.
  induction 1 as [|e es He _ IH]; [done|]. unfold table in *. cbn [map concat]. rewrite length_app, IH, enc_length by done. done.
Qed.

Lemma table_app es es' : table (es ++ es') = table es ++ table es'.
Proof. unfold table. by rewrite map_app, concat_app. Qed.

Lemma table_lookup es i e : Forall wf es -> es !! i = Some e -> take esize (drop (i * esize) (table es)) = enc e.
Proof.
  intros Hes (l1 & l2 & -> & ->)%list_elem_of_split_length. apply Forall_app in Hes as [Hes1 [He _]%Forall_cons].
  rewrite table_app, drop_app_length' by (by rewrite length_table). unfold table. cbn [map concat].
  by rewrite take_app_length' by (by rewrite enc_length).
Qed.

(** Writing an entry at or just behind the entries. *)
Lemma table_put es i e : Forall wf es -> wf e -> (i <= length es)%nat ->
  splice (table es) (i * esize) (enc e) = table (splice es i [e]).
Proof.
  intros Hes He Hi. unfold splice. rewrite !table_app. cbn [length]. rewrite enc_length by done.
  assert (Hw : forall k, Forall wf (take k es)) by (intros k; by apply Forall_take).
  assert (Ht : forall k, (k <= length es)%nat -> take (k * esize) (table es) = table (take k es)).
  { intros k Hk. rewrite <- (take_drop k es) at 1. rewrite table_app, take_app_length'; [done|].
    rewrite length_table, length_take_le by done. done. }
  assert (Hd : forall k, drop (k * esize) (table es) = table (drop k es)).
  { intros k. destruct (decide (k <= length es)%nat) as [Hk|Hk].
    - rewrite <- (take_drop k es) at 1. rewrite table_app, drop_app_length'; [done|].
      rewrite length_table, length_take_le by done. done.
    - rewrite drop_ge, (drop_ge es) by (rewrite ?length_table by done; nia). done. }
  rewrite Ht by done. replace (i * esize + esize)%nat with ((i + 1) * esize)%nat by lia. rewrite Hd.
  unfold table. cbn [map concat]. by rewrite app_nil_r.
Qed.

Lemma wf_put es i (e : E) : Forall wf es -> wf e -> Forall wf (splice es i [e]).
Proof. intros. unfold splice. repeat apply Forall_app_2; auto using Forall_take, Forall_drop. Qed.
End Table.

(** ** The operations of the class on the card *)

Section Runs.
Context `{SdOk}.
Implicit Types (s : pst) (fs : filemap) (h : handle_t).

(** The files of the card and what is open. *)
Definition card fs h s : Prop := files (sd s) = fs /\ handle (sd s) = h.

Lemma wp_on_sd {A} (c : M SDS A) (Q : A -> pst -> Prop) s a x :
  c (sd s) = Some (a, x) -> Q a (with_sd x s) -> wp (on_sd c) Q s.
Proof. unfold wp, on_sd. by intros ->. Qed.

Lemma wp_close fs h s (Q : unit -> pst -> Prop) :
  card fs h s -> (forall x, card fs None (with_sd x s) -> Q tt (with_sd x s)) -> wp close Q s.
Proof. intros [<- <-] HQ. destruct (close_ok (sd s)) as (x & Hx & Hf & Hh). eapply wp_on_sd; [done|]. by apply HQ. Qed.

Lemma wp_flush fs h s (Q : unit -> pst -> Prop) :
  card fs h s -> (forall x, card fs h (with_sd x s) -> Q tt (with_sd x s)) -> wp flush Q s.
Proof. intros [<- <-] HQ. destruct (flush_ok (sd s)) as (x & Hx & Hf & Hh). eapply wp_on_sd; [done|]. by apply HQ. Qed.

Lemma wp_open_read fs h s f b (Q : unit -> pst -> Prop) :
  card fs h s -> fs !! f = Some b ->
  (forall x, card fs (Some (f, FILE_READ, 0)) (with_sd x s) -> Q tt (with_sd x s)) -> wp (open_ f FILE_READ) Q s.
Proof.
  intros [<- <-] Hb HQ. destruct (open_read_ok (sd s) f b Hb) as (x & Hx & Hf & Hh). eapply wp_on_sd; [done|]. by apply HQ.
Qed.

Lemma wp_open_write fs h s f b (Q : unit -> pst -> Prop) :
  card fs h s -> default [] (fs !! f) = b ->
  (forall x, card (<[f := b]> fs) (Some (f, FILE_WRITE, Z.of_nat (length b))) (with_sd x s) -> Q tt (with_sd x s)) ->
  wp (open_ f FILE_WRITE) Q s.
Proof.
  intros [<- <-] <- HQ. destruct (open_write_ok (sd s) f) as (x & Hx & Hf & Hh). eapply wp_on_sd; [done|]. by apply HQ.
Qed.

Lemma wp_exists fs h s f (Q : bool -> pst -> Prop) :
  card fs h s -> (forall x, card fs h (with_sd x s) -> Q (bool_decide (is_Some (fs !! f))) (with_sd x s)) ->
  wp (on_sd (sd_exists f)) Q s.
Proof. intros [<- <-] HQ. destruct (exists_ok (sd s) f) as (x & Hx & Hf & Hh). eapply wp_on_sd; [done|]. by apply HQ. Qed.

Lemma wp_remove fs s f (Q : bool -> pst -> Prop) :
  card fs None s -> (forall r x, card (delete f fs) None (with_sd x s) -> Q r (with_sd x s)) -> wp (on_sd (sd_remove f)) Q s.
Proof. intros [<- Hn] HQ. destruct (remove_ok (sd s) f Hn) as (r & x & Hx & Hf & Hh). eapply wp_on_sd; [done|]. by apply HQ. Qed.

Lemma wp_seek fs s f m p b q (Q : bool -> pst -> Prop) :
  card fs (Some (f, m, p)) s -> fs !! f = Some b -> 0 <= q <= Z.of_nat (length b) -> q < 4294967296 ->
  (forall x, card fs (Some (f, m, q)) (with_sd x s) -> Q true (with_sd x s)) -> wp (seek q) Q s.
Proof.
  intros [<- Hn] Hb Hq Hq' HQ. destruct (seek_ok (sd s) f m p b q Hn Hb Hq) as (x & Hx & Hf & Hh).
  unfold seek. rewrite to_uint_id by lia. eapply wp_on_sd; [done|]. by apply HQ.
Qed.

Lemma wp_write fs s f p b bs (Q : Z -> pst -> Prop) :
  card fs (Some (f, FILE_WRITE, p)) s -> fs !! f = Some b -> 0 <= p <= Z.of_nat (length b) ->
  (forall r x, card (<[f := splice b (Z.to_nat p) bs]> fs) (Some (f, FILE_WRITE, p + Z.of_nat (length bs))) (with_sd x s) ->
    Q r (with_sd x s)) -> wp (write bs) Q s.
Proof.
  intros [<- Hn] Hb Hp HQ. destruct (write_ok (sd s) f p b bs Hn Hb Hp) as (r & x & Hx & Hf & Hh).
  eapply wp_on_sd; [done|]. by apply HQ.
Qed.

(** Reading from position [p] of a file: what is there, up to [n] bytes. *)
Lemma wp_read fs s f m p b n (Q : Z * list Z -> pst -> Prop) :
  card fs (Some (f, m, p)) s -> fs !! f = Some b -> 0 <= p <= Z.of_nat (length b) ->
  (forall bs x, bs = take n (drop (Z.to_nat p) b) -> card fs (Some (f, m, p + Z.of_nat (length bs))) (with_sd x s) ->
    Q (Z.of_nat (length bs), bs) (with_sd x s)) -> wp (read n) Q s.
Proof.
  intros [<- Hn] Hb Hp HQ. destruct (read_ok (sd s) f m p b (Z.of_nat n) Hn Hb Hp) as (x & Hx & Hf & Hh); [lia|].
  eapply wp_on_sd; [exact Hx|]. apply HQ; [by rewrite Nat2Z.id|]. by rewrite Nat2Z.id in *.
Qed.

Lemma wp_upd f (Q : unit -> pst -> Prop) s : Q tt (f s) -> wp (upd f) Q s.
Proof. done. Qed.

Section Entries.
Context `{EntryOk E}.
Implicit Types (es : list E).

(** The file [f] is the table [es] and is open at entry [i]. *)
Definition at_entry fs f (m : open_mode) (i : nat) : pst -> Prop := card fs (Some (f, m, Z.of_nat (i * esize))).

Lemma wp_read_entry fs s f m es i e (Q : Z * list Z -> pst -> Prop) :
  at_entry fs f m i s -> fs !! f = Some (table es) -> Forall wf es -> es !! i = Some e ->
  (forall x, at_entry fs f m (S i) (with_sd x s) -> Q (Z.of_nat esize, enc e) (with_sd x s)) -> wp (read_entry esize) Q s.
Proof.
  intros Hc Hb Hes He HQ. assert (Hwf : wf e) by (by eapply Forall_lookup_1).
  assert (Hi := lookup_lt_Some _ _ _ He). unfold read_entry. apply wp_bind.
  eapply wp_read; [exact Hc|done|rewrite length_table by done; nia|]. intros bs x ->.
  rewrite Nat2Z.id, (table_lookup es i e), enc_length by done. intros Hx. apply wp_ret.
  rewrite Nat.sub_diag. unfold zeros. cbn [replicate]. rewrite app_nil_r. apply HQ. unfold at_entry.
  by replace (Z.of_nat (S i * esize)) with (Z.of_nat (i * esize) + Z.of_nat esize) by lia.
Qed.

Lemma wp_read_end fs s f m es (Q : Z * list Z -> pst -> Prop) :
  at_entry fs f m (length es) s -> fs !! f = Some (table es) -> Forall wf es ->
  (forall x, at_entry fs f m (length es) (with_sd x s) -> Q (0, zeros esize) (with_sd x s)) -> wp (read_entry esize) Q s.
Proof.
  intros Hc Hb Hes HQ. unfold read_entry. apply wp_bind. eapply wp_read; [exact Hc|done|rewrite length_table by done; lia|].
  intros bs x ->. rewrite Nat2Z.id, drop_ge, take_nil by (by rewrite length_table). intros Hx. apply wp_ret.
  cbn [length app]. rewrite Nat.sub_0_r. apply HQ. unfold at_entry. by rewrite Z.add_0_r in Hx.
Qed.

(** Running through a table: [I] holds of what is carried round before entry [i]; at the
    end [body] gets no bytes and must not go on for ever. *)
Lemma wp_do_read {A R} (body : Z -> list Z -> A -> M pst (ctl A R)) (I : nat -> A -> pst -> Prop)
    (Q : A + R -> pst -> Prop) fs f m es k :
  fs !! f = Some (table es) -> Forall wf es ->
  (forall i e a s, es !! i = Some e -> I i a s -> at_entry fs f m (S i) s ->
    wp (body (Z.of_nat esize) (enc e) a)
      (fun c s' => match c with
                   | Next a' => I (S i) a' s' /\ at_entry fs f m (S i) s'
                   | Break a' => Q (inl a') s'
                   | Return r => Q (inr r) s' end) s) ->
  (forall a s, I (length es) a s -> at_entry fs f m (length es) s ->
    wp (body 0 (zeros esize) a)
      (fun c s' => match c with Next a' | Break a' => Q (inl a') s' | Return r => Q (inr r) s' end) s) ->
  (forall i a s x, I i a s -> I i a (with_sd x s)) ->
  forall a s, (length es < k)%nat -> I 0%nat a s -> at_entry fs f m 0 s -> wp (do_read k esize body a) Q s.
Proof.
  intros Hb Hes Hstep Hend Hsd.
  enough (forall n i a s k, (n = length es - i)%nat -> (i <= length es)%nat -> (n < k)%nat -> I i a s -> at_entry fs f m i s ->
    wp (do_read k esize body a) Q s) as Hall.
  { intros a s Hk HI Hat. apply (Hall (length es) 0%nat); [lia|lia|done..]. }
  intros n. induction n as [|n IH]; intros i a s k' Hn Hi Hk HI Hat; (destruct k' as [|k']; [lia|]); cbn [do_read]; apply wp_bind.
  - assert (i = length es) as -> by lia. eapply wp_read_end; [done..|]. intros x Hx.
    apply wp_bind. eapply wp_mono; [apply Hend; [by apply Hsd|done]|]. intros [a'|a'|r] s' HQ; by apply wp_ret.
  - destruct (lookup_lt_is_Some_2 es i) as [e He]; [lia|]. eapply wp_read_entry; [done..|]. intros x Hx.
    apply wp_bind. eapply wp_mono; [eapply Hstep; [done|by apply Hsd|done]|]. pose proof esize_pos.
    intros [a'|a'|r] s' HQ; [|by apply wp_ret..]. destruct (Z.ltb_spec 0 (Z.of_nat esize)); [|lia]. destruct HQ. apply (IH (S i)); auto; lia.
Qed.

(** A loop whose body looks at each entry and leaves the card alone: [step] decides, [fin]
    closes the loop at the end, and [g] is what a round leaves in the object. *)
Context {A R : Type} (step : E -> A -> ctl A R) (fin : A -> A).
Fixpoint scan (es : list E) (a : A) : (A + R) * E :=
  match es with
  | [] => (inl (fin a), zero_entry)
  | e :: es => match step e a with Next a => scan es a | Break a => (inl a, e) | Return x => (inr x, e) end
  end.

Lemma wp_scan (body : Z -> list Z -> A -> M pst (ctl A R)) (g : E -> pst -> pst) (Q : A + R -> pst -> Prop) fs f m es k a s :
  fs !! f = Some (table es) -> Forall wf es -> (length es < k)%nat -> at_entry fs f m 0 s ->
  (forall e a s, e ∈ es -> wp (body (Z.of_nat esize) (enc e) a) (fun c s' => c = step e a /\ s' = g e s) s) ->
  (forall a s, wp (body 0 (zeros esize) a) (fun c s' => c = Next (fin a) /\ s' = g zero_entry s) s) ->
  (forall e e' x s, g e (with_sd x (g e' s)) = g e (with_sd x s)) -> (forall e s, sd (g e s) = sd s) ->
  (forall x h, card fs h (g (scan es a).2 (with_sd x s)) -> Q (scan es a).1 (g (scan es a).2 (with_sd x s))) ->
  wp (do_read k esize body a) Q s.
Proof.
  intros Hb Hes Hk Hat Hbody Hend Hg Hsd HQ.
  assert (Hcard : forall h e s, card fs h s -> card fs h (g e s)) by (unfold card; intros h e s0; by rewrite Hsd).
  assert (Hself : forall e s', (forall e y, g e (with_sd y s') = g e (with_sd y s)) -> g e s' = g e (with_sd (sd s') s)).
  { intros e s' HJ. rewrite <- HJ. by destruct s'. }
  apply (wp_do_read body (fun i a' s' => scan es a = scan (drop i es) a' /\ forall e y, g e (with_sd y s') = g e (with_sd y s))
    Q fs f m es k); [done|done|..].
  - intros i e a' s' He [Hscan HJ] Hs'. rewrite (drop_S _ _ _ He) in Hscan. cbn [scan] in Hscan.
    eapply wp_mono; [apply Hbody; by eapply list_elem_of_lookup_2|]. intros c s'' [-> ->].
    pose proof (Hcard _ e _ Hs') as Hc. destruct (step e a') as [a''|a''|r] eqn:Estep.
    + split; [|exact Hc]. split; [done|]. intros e' y. by rewrite Hg.
    + rewrite Hscan in HQ. rewrite Hself in * by done. by eapply HQ.
    + rewrite Hscan in HQ. rewrite Hself in * by done. by eapply HQ.
  - intros a' s' [Hscan HJ] Hs'. rewrite drop_all in Hscan. cbn [scan] in Hscan. eapply wp_mono; [apply Hend|].
    intros c s'' [-> ->]. pose proof (Hcard _ zero_entry _ Hs') as Hc. rewrite Hscan in HQ. rewrite Hself in * by done. by eapply HQ.
  - intros i a' s' x [Hscan HJ]. split; [done|]. intros e y. apply HJ.
  - done.
  - done.
  - done.
Qed.

(** A loop that does its work at the first entry that is a [hit], and only counts before. *)
Lemma wp_scan_hit (body : Z -> list Z -> A -> M pst (ctl A R)) (hit : E -> bool) (next : A -> E -> A)
    (Q : A + R -> pst -> Prop) fs f m es k a s :
  fs !! f = Some (table es) -> Forall wf es -> (length es < k)%nat -> at_entry fs f m 0 s ->
  (forall e a s, e ∈ es -> hit e = false -> wp (body (Z.of_nat esize) (enc e) a) (fun c s' => c = Next (next a e) /\ s' = s) s) ->
  (forall a s, wp (body 0 (zeros esize) a) (fun c s' => c = Next (fin a) /\ s' = s) s) ->
  match list_find hit es with
  | Some (i, e) => forall x, at_entry fs f m (S i) (with_sd x s) ->
      wp (body (Z.of_nat esize) (enc e) (foldl next a (take i es)))
        (fun c s' => match c with Return r => Q (inr r) s' | Break a => Q (inl a) s' | Next _ => False end) (with_sd x s)
  | None => forall x h, card fs h (with_sd x s) -> Q (inl (fin (foldl next a es))) (with_sd x s)
  end -> wp (do_read k esize body a) Q s.
Proof.
  intros Hb Hes Hk Hat Hbody Hend HQ.
  apply (wp_do_read body (fun i a' s' => a' = foldl next a (take i es) /\ (forall j e, es !! j = Some e -> (j < i)%nat -> hit e = false) /\
    exists x, s' = with_sd x s) Q fs f m es k); [done|done|..].
  - intros i e a' s' He (-> & Hbefore & x & ->) Hs'. destruct (hit e) eqn:Eh.
    + rewrite (proj2 (list_find_Some _ es i e)) in HQ.
      * eapply wp_mono; [by apply HQ|]. by intros [].
      * splits; [done|by rewrite Eh|]. intros j e' Hj Hji. rewrite (Hbefore j e' Hj Hji). by intros [].
    + eapply wp_mono; [apply Hbody; [by eapply list_elem_of_lookup_2|done]|]. intros c s' [-> ->]. split; [|done].
      splits; [by rewrite (take_S_r _ _ e He), foldl_app| |by exists x].
      intros j e' Hj Hji. destruct (decide (j = i)) as [->|]; [congruence|]. apply (Hbefore j e' Hj). lia.
  - intros a' s' (-> & Hbefore & x & ->) Hs'. rewrite (proj2 (list_find_None _ es)) in HQ.
    + eapply wp_mono; [apply Hend|]. intros c s' [-> ->]. rewrite take_ge by done. by eapply HQ.
    + apply Forall_lookup. intros j e' Hj. rewrite (Hbefore j e' Hj) by (by eapply lookup_lt_Some). by intros [].
  - intros i a' s' y (-> & Hb' & x & ->). splits; [done|done|]. by exists y.
  - done.
  - splits; [done|lia|]. exists (sd s). by destruct s.
  - done.
Qed.
End Entries.
End Runs.

(** One step of an operation: plumbing, changes of the object, and the calls of the card
    that always succeed; [Hc] says what is on the card. *)
Ltac wp_prim := lazymatch goal with
  | |- wp (_ ≫= _) _ _ => apply wp_bind
  | |- wp (mret _) _ _ => apply wp_ret
  | |- wp get _ _ => apply wp_get
  | |- wp (upd _) _ _ => apply wp_upd
  | |- wp (set_error _) _ _ => apply wp_upd
  | |- wp (set_not_in_client_registry _) _ _ => apply wp_upd
  | |- wp (set_transaction_started _) _ _ => apply wp_upd
  | |- wp (set_entry_client _) _ _ => apply wp_upd
  | |- wp (set_registration_entry _) _ _ => apply wp_upd
  | Hc : card _ _ _ |- wp close _ _ => eapply wp_close; [exact Hc|clear Hc; let z := fresh "sdx" in intros z Hc]
  | Hc : card _ _ _ |- wp flush _ _ => eapply wp_flush; [exact Hc|clear Hc; let z := fresh "sdx" in intros z Hc]
  | Hc : card _ _ _, Hf : _ !! ?f = Some _ |- wp (open_ ?f FILE_READ) _ _ => eapply wp_open_read; [exact Hc|exact Hf|clear Hc; let z := fresh "sdx" in intros z Hc]
  | Hc : card _ _ _, Hf : _ !! ?f = Some _ |- wp (open_ ?f FILE_WRITE) _ _ =>
      eapply wp_open_write; [exact Hc|rewrite Hf; reflexivity|rewrite (insert_id _ _ _ Hf); clear Hc; let z := fresh "sdx" in intros z Hc]
  end; cbn beta iota zeta.
Ltac wp_go := cbn beta iota zeta; repeat wp_prim.
(** The members of an object that has been changed. *)
Ltac pst_simpl := cbn [sd _entry_client _registration_entry _predefined_registration_entry _not_in_client_registry
  _transaction_started _error with_sd with_client with_reg with_predefined with_flags] in *.
