(* ===== verification/Registry.v ===== *)
(** * Registry: what LinuxPersistent promises

    An abstract registry: slots that are free or hold a client with its registrations,
    subscriptions, will and pending publishes, the transaction and its error flag, and the
    operations on it as functions.  The files PersistSpec and PersistData show that
    the class implements it. *)
From S2P Require Import Prelude CMem Persist Card.

(** ** Lists of entries *)

(** The text in a [char] array, and an array with a text in it. *)
Definition text (a : list Z) : list Z := default [] (cstring a).
Definition padded (n : nat) (x : list Z) : list Z := x ++ zeros (n - length x).

(** The first entry that satisfies [p], seen through [f]; the last index; where a new entry
    goes: into the last free one, or behind all. *)
Definition look {E A} (p : E -> bool) (f : E -> A) (l : list E) : option A := (fun x => f (snd x)) <$> list_find p l.
Definition last_index {E} (p : E -> bool) (l : list E) : option nat :=
  (foldl (fun '(k, f) e => (S k, if p e then Some k else f)) (O, None) l).2.
Definition free_index {E} (p : E -> bool) (l : list E) : nat := default (length l) (last_index p l).
Definition put_free {E} (p : E -> bool) (l : list E) (e : E) : list E := splice l (free_index p l) [e].

(** Writing one element, also just behind a list. *)
Lemma lookup_splice_one {E} (l : list E) i o j : (i <= length l)%nat -> splice l i [o] !! j = if decide (j = i) then Some o else l !! j.
Proof.
  intros Hi. unfold splice. cbn [length app]. destruct (decide (j = i)) as [->|Hne].
  - rewrite lookup_app_r by (rewrite length_take; lia). rewrite length_take, Nat.min_l, Nat.sub_diag by lia. done.
  - destruct (decide (j < i)%nat) as [Hj|Hj].
    + rewrite lookup_app_l by (rewrite length_take; lia). by rewrite lookup_take_lt.
    + rewrite lookup_app_r by (rewrite length_take; lia). rewrite length_take, Nat.min_l by lia.
      destruct (j - i)%nat as [|k] eqn:Ek; [lia|]. change ((o :: drop (i + 1) l) !! S k) with (drop (i + 1) l !! k).
      rewrite lookup_drop. f_equal. lia.
Qed.

Lemma length_splice_put {E} (l : list E) i o : (i <= length l)%nat -> length (splice l i [o]) = Nat.max (S i) (length l).
Proof. intros Hi. unfold splice. rewrite !length_app, length_take, length_drop. cbn [length]. lia. Qed.

Lemma last_index_Some {E} (p : E -> bool) es i : last_index p es = Some i -> exists e, es !! i = Some e /\ p e = true.
Proof.
  unfold last_index. induction es as [|e es IH] using rev_ind; [done|]. rewrite foldl_app. cbn [foldl].
  assert (Hlen : forall l k o, (foldl (fun '(k, f) (e : E) => (S k, if p e then Some k else f)) (k, o) l).1 = (k + length l)%nat).
  { induction l as [|e' l IHl]; intros k o; cbn [foldl length]; [cbn; lia|]. rewrite IHl. lia. }
  specialize (Hlen es O None). destruct (foldl _ (O, None) es) as [k o]. cbn [fst snd] in *. subst k.
  destruct (p e) eqn:Ep.
  - intros [= <-]. exists e. split; [|done]. by rewrite lookup_app_r, Nat.sub_diag by done.
  - intros ->. destruct (IH eq_refl) as (e' & He' & Hp). exists e'. split; [|done]. by apply lookup_app_l_Some.
Qed.

Lemma free_index_le {E} (p : E -> bool) es : (free_index p es <= length es)%nat.
Proof.
  unfold free_index. destruct (last_index p es) as [i|] eqn:Ei; [|done]. apply last_index_Some in Ei as (e & He & _).
  apply lookup_lt_Some in He. cbn. lia.
Qed.

Lemma look_cons {E A} (p : E -> bool) (f : E -> A) e es : look p f (e :: es) = if p e then Some (f e) else look p f es.
Proof.
  unfold look. cbn [list_find]. destruct (p e); [by rewrite decide_True|].
  rewrite decide_False by (by intros []). by destruct (list_find p es) as [[]|].
Qed.

Lemma existsb_look {E A} (p : E -> bool) (f : E -> A) l : existsb p l = match look p f l with Some _ => true | None => false end.
Proof. induction l as [|e l IH]; [done|]. rewrite look_cons. cbn [existsb]. rewrite IH. by destruct (p e). Qed.

(** The number of the entry after so many rounds of a loop. *)
Lemma foldl_count {E} (es : list E) i : Z.of_nat (i + length es) < 65536 ->
  foldl (fun n (_ : E) => to_ushort (n + 1)) (Z.of_nat i) es = Z.of_nat (i + length es).
Proof.
  revert i. induction es as [|e es IH]; intros i Hi; cbn [foldl length] in *; [by rewrite Nat.add_0_r|].
  rewrite to_ushort_id by lia. replace (Z.of_nat i + 1) with (Z.of_nat (S i)) by lia. rewrite IH by lia. f_equal. lia.
Qed.

Lemma foldl_entry_number {E} (es : list E) : Z.of_nat (length es) < 65536 -> foldl (fun n (_ : E) => to_ushort (n + 1)) 0 es = Z.of_nat (length es).
Proof. apply (foldl_count es 0). Qed.

(** ** The abstract registry *)

Section Registry.
Context `{CoreTypes}.

(** The entries of the client's four files. *)
Record data := mkData {
  regs : list entry_registration; subs : list entry_subscription; wills : list entry_will; pubs : list entry_publish
}.
Record info := mkInfo {
  i_id : list Z; i_address : list Z; i_status : Z; i_duration : Z; i_timeout : Z; i_await_id : Z; i_await : Z;
  i_data : data
}.
(** [current]: the slot of the client of the transaction, if it is registered. *)
Record registry := mkRegistry { slots : list (option info); current : option nat; started : bool; err : bool }.

Inductive op :=
  | Start (id : list Z) | StartAddress (a : list Z) | Apply | Exist
  | Add (id a : list Z) (d : Z) | Reset_ (id a : list Z) (d : Z) | Delete (id : list Z)
  | SetState (v : Z) | SetTimeout (v : Z) | SetAwait (v : Z) | SetAwaitId (v : Z)
  | GetState | GetAwait | GetAwaitId | GetId | SubscriptionCount
  | AddSub (t : option (list Z)) (id qos : Z) | DelSub (id : Z) | IsSub (t : option (list Z)) | SubQos (t : option (list Z))
  | SubTopic (t : option (list Z)) | NthSub (n : nat)
  | AddReg (t : list Z) | TopicName (id : Z) | TopicKnown (id : Z)
  | HasWill | GetWill | SetWillTopic (t : list Z) (qos : Z) (retain : bool) | SetWillMessage (m : list Z) | DeleteWill
  | HasPub | AddPub (m : list Z) (id : Z) (retain : bool) (qos : Z) (dup : bool) (msg_id : Z) | NextPub
  | SetPubMsgId (pid mid : Z) | RemovePub (pid : Z).
Inductive result :=
  | Done | Num (v : Z) | Flag (b : bool) | Id (id : option (list Z))
  | Will (w : option (list Z * list Z * Z * bool)) | Pub (p : option (list Z * Z * bool * Z * bool * Z)).

Definition has_id (id : list Z) (o : option info) : bool := match o with Some c => bool_decide (i_id c = id) | None => false end.
Definition has_address (a : list Z) (o : option info) : bool := match o with Some c => bool_decide (i_address c = a) | None => false end.
Definition first (p : option info -> bool) (l : list (option info)) : option nat := fst <$> list_find p l.
Definition is_free (o : option info) : bool := match o with None => true | _ => false end.
Definition first_free (l : list (option info)) : nat := default (length l) (first is_free l).
Definition subscribed (l : list entry_subscription) : Z := Z.of_nat (length (filter (fun e => s_topic_id e <> 0) l)).
Definition too_long (id : list Z) : bool := MAXIMUM_CLIENT_ID_LENGTH <=? Z.of_nat (length id).

(** The client an operation works on: none outside a transaction or after an error. *)
Definition acting (r : registry) : option (nat * info) :=
  if started r && negb (err r) then i ← current r; o ← slots r !! i; c ← o; Some (i, c) else None.
Definition failed (r : registry) : registry := mkRegistry (slots r) (current r) (started r) true.
Definition set_slot (r : registry) (i : nat) (c : info) : registry :=
  mkRegistry (<[i := Some c]> (slots r)) (current r) (started r) (err r).
Definition change (r : registry) (f : info -> info) : result * registry :=
  match acting r with Some (i, c) => (Done, set_slot r i (f c)) | None => (Done, r) end.
Definition ask (r : registry) (d : result) (f : info -> result) : result * registry :=
  (match acting r with Some (_, c) => f c | None => d end, r).
Definition new_info (id a : list Z) (d : Z) (da : data) : info := mkInfo id a ACTIVE d 0 0 MQTTSN_PINGREQ da.
Definition no_data : data := mkData [] [] [] [].

(** ** The entries of a client *)

(** The data of the client changed, or an error. *)
Definition with_data (c : info) (d : data) : info :=
  mkInfo (i_id c) (i_address c) (i_status c) (i_duration c) (i_timeout c) (i_await_id c) (i_await c) d.
Definition change_data (r : registry) (f : data -> option data) : result * registry :=
  match acting r with
  | Some (i, c) => (Done, match f (i_data c) with Some d => set_slot r i (with_data c d) | None => failed r end)
  | None => (Done, r)
  end.

Definition with_subs (d : data) (l : list entry_subscription) : data := mkData (regs d) l (wills d) (pubs d).
Definition with_regs (d : data) (l : list entry_registration) : data := mkData l (subs d) (wills d) (pubs d).
Definition with_wills (d : data) (l : list entry_will) : data := mkData (regs d) (subs d) l (pubs d).
Definition with_pubs (d : data) (l : list entry_publish) : data := mkData (regs d) (subs d) (wills d) l.

(** A new subscription goes into the last freed entry, or behind the entries; one there
    already is left alone.  Unsubscribing frees the first entry of the topic id. *)
Definition topic_of (e : entry_subscription) : list Z := text (s_topic_name e).
Definition sub_free (e : entry_subscription) : bool := (s_topic_id e =? 0) && bool_decide (topic_of e = []).
Definition sub_is (t : list Z) (e : entry_subscription) : bool := bool_decide (topic_of e = t).
Definition add_sub (t : list Z) (id qos : Z) (l : list entry_subscription) : list entry_subscription :=
  if existsb (fun e => (s_topic_id e =? id) && sub_is t e) l then l else put_free sub_free l (mkSub id qos (padded 255 t)).
Definition del_sub (id : Z) (l : list entry_subscription) : option (list entry_subscription) :=
  '(i, _) ← list_find (fun e => s_topic_id e =? id) l; Some (<[i := zero_entry]> l).
(** Asking about a topic name: [d] if there is none, [nf] if it is not subscribed. *)
Definition ask_sub {A} (t : option (list Z)) (d nf : A) (f : entry_subscription -> A) (l : list entry_subscription) : A :=
  if bad_topic t then d else default nf (look (sub_is (default [] t)) f l).

(** The topic id of a name: that it has, or the next one. *)
Definition reg_name (e : entry_registration) : list Z := text (r_topic_name e).
Definition reg_free (e : entry_registration) : bool := (r_topic_id e =? 0) && bool_decide (reg_name e = []).
Definition reg_is (t : list Z) (e : entry_registration) : bool := negb (r_topic_id e =? 0) && bool_decide (reg_name e = t).
Definition reg_id (t : list Z) (l : list entry_registration) : Z := default (Z.of_nat (length l) + 1) (look (reg_is t) r_topic_id l).
Definition add_reg (t : list Z) (l : list entry_registration) : list entry_registration :=
  if existsb (reg_is t) l then l else put_free reg_free l (mkReg (Z.of_nat (length l) + 1) (padded 255 t) true).

Definition will_now (d : data) : entry_will := default zero_entry (head (wills d)).
Definition will_topic (w : entry_will) : list Z := text (willtopic w).

(** Publishes: new ones as subscriptions; the next one is the last of them; the id of a
    publish says where it is. *)
Definition pub_free (e : entry_publish) : bool := p_publish_id e =? 0.
Definition new_pub (m : list Z) (id : Z) (retain : bool) (qos : Z) (i : nat) : entry_publish :=
  mkPub (padded 255 m) (Z.of_nat (length m)) id qos retain false 0 (Z.of_nat i + 1) 0.
Definition add_pub (m : list Z) (id : Z) (retain : bool) (qos : Z) (l : list entry_publish) : list entry_publish :=
  put_free pub_free l (new_pub m id retain qos (free_index pub_free l)).
Definition next_pub (l : list entry_publish) : option entry_publish := i ← last_index (fun e => negb (pub_free e)) l; l !! i.
Definition pub_result (e : entry_publish) : list Z * Z * bool * Z * bool * Z :=
  (take (Z.to_nat (p_msg_length e)) (p_msg e), p_topic_id e, p_retain e, p_qos e, p_dup e, p_publish_id e).
Definition change_pub (pid : Z) (f : entry_publish -> entry_publish) (l : list entry_publish) : option (list entry_publish) :=
  match l !! Z.to_nat (pid - 1) with
  | None => Some l
  | Some e => if p_publish_id e =? pid then Some (<[Z.to_nat (pid - 1) := f e]> l) else None
  end.
Definition with_msg_id (mid : Z) (e : entry_publish) : entry_publish :=
  mkPub (p_msg e) (p_msg_length e) (p_topic_id e) (p_qos e) (p_retain e) (p_dup e) mid (p_publish_id e) (p_retransmition_timeout e).

(** ** The operations *)

Definition spec_op (o : op) (r : registry) : result * registry :=
  match o with
  | Start id => (Done, if started r || too_long id then failed r else mkRegistry (slots r) (first (has_id id) (slots r)) true false)
  | StartAddress a => (Done, if started r then failed r else mkRegistry (slots r) (first (has_address a) (slots r)) true false)
  | Apply => (Num (if acting r is Some _ then 1 else 0), mkRegistry (slots r) None false false)
  | Exist => (Flag (if acting r is Some _ then true else false), r)
  | Add id a d =>
      (Done, if negb (started r) || err r then r else if current r is Some _ then failed r else if too_long id then failed r else
             let i := first_free (slots r) in mkRegistry (splice (slots r) i [Some (new_info id a d no_data)]) (Some i) true false)
  | Reset_ id a d =>
      match acting r with
      | None => (Done, r)
      | Some (i, c) =>
        (Done, if too_long id || negb (bool_decide (i_id c = id)) then failed r else
               match first (has_id id) (slots r) with
               | Some j => mkRegistry (alter (fun o => c ← o; Some (new_info id a d (i_data c))) j (slots r)) (Some j) true false
               | None => r
               end)
      end
  | Delete id =>
      match acting r with
      | None => (Done, r)
      | Some (i, c) =>
        (Done, if too_long id || (0 <? subscribed (subs (i_data c))) then failed r else
               mkRegistry (match first (has_id id) (slots r) with Some j => <[j := None]> (slots r) | None => slots r end) None true false)
      end
  | SetState v => change r (fun c => mkInfo (i_id c) (i_address c) v (i_duration c) (i_timeout c) (i_await_id c) (i_await c) (i_data c))
  | SetTimeout v => change r (fun c => mkInfo (i_id c) (i_address c) (i_status c) (i_duration c) v (i_await_id c) (i_await c) (i_data c))
  | SetAwait v => change r (fun c => mkInfo (i_id c) (i_address c) (i_status c) (i_duration c) (i_timeout c) (i_await_id c) v (i_data c))
  | SetAwaitId v => change r (fun c => mkInfo (i_id c) (i_address c) (i_status c) (i_duration c) (i_timeout c) v (i_await c) (i_data c))
  | GetState => ask r (Num LOST) (fun c => Num (i_status c))
  | GetAwait => ask r (Num MQTTSN_PINGREQ) (fun c => Num (i_await c))
  | GetAwaitId => ask r (Num 0) (fun c => Num (i_await_id c))
  | GetId => ask r (Id None) (fun c => Id (Some (i_id c)))
  | SubscriptionCount => ask r (Num 0) (fun c => Num (subscribed (subs (i_data c))))
  | AddSub t id qos => change_data r (fun d =>
      Some (if bad_topic t || (id =? 0) then d else with_subs d (add_sub (default [] t) id qos (subs d))))
  | DelSub id => change_data r (fun d => if id =? 0 then Some d else l ← del_sub id (subs d); Some (with_subs d l))
  | IsSub t => ask r (Flag false) (fun c => Flag (ask_sub t false false (fun _ => true) (subs (i_data c))))
  | SubQos t => ask r (Num 0) (fun c => Num (ask_sub t 0 (-1) s_qos (subs (i_data c))))
  | SubTopic t => ask r (Num 0) (fun c => Num (ask_sub t 0 0 s_topic_id (subs (i_data c))))
  | NthSub n => ask r (Num 0) (fun c => Num (default 0 (s_topic_id <$> subs (i_data c) !! n)))
  | AddReg t => (match acting r with Some (_, c) => Num (reg_id t (regs (i_data c))) | None => Id None end,
                 (change_data r (fun d => Some (with_regs d (add_reg t (regs d))))).2)
  | TopicName id => ask r (Id None) (fun c => Id (if id =? 0 then None else look (fun e => r_topic_id e =? id) reg_name (regs (i_data c))))
  | TopicKnown id =>
      if id =? 0 then (Flag false, (change_data r (fun d => None)).2) else
      ask r (Flag false) (fun c => Flag (default false (look (fun e => r_topic_id e =? id) r_known (regs (i_data c)))))
  | HasWill => ask r (Flag false) (fun c => Flag (if head (wills (i_data c)) is Some w then negb (bool_decide (will_topic w = [])) else false))
  | GetWill => ask r (Will None) (fun c => Will (w ← head (wills (i_data c));
      Some (will_topic w, take (Z.to_nat (willmsg_length w)) (willmsg w), will_qos w, will_retain w)))
  | SetWillTopic t qos retain => change_data r (fun d => Some (
      if MAXIMUM_TOPIC_NAME_LENGTH <=? Z.of_nat (length t) then d else
      let w := will_now d in with_wills d [mkWill (padded 255 t) (willmsg w) (willmsg_length w) qos retain]))
  | SetWillMessage m => change_data r (fun d =>
      let w := will_now d in Some (with_wills d [mkWill (willtopic w) (padded 255 m) (Z.of_nat (length m)) (will_qos w) (will_retain w)]))
  | DeleteWill => change_data r (fun d => Some (with_wills d []))
  | HasPub => ask r (Flag false) (fun c => Flag (existsb (fun e => negb (pub_free e)) (pubs (i_data c))))
  | AddPub m id retain qos _ _ => change_data r (fun d => Some (with_pubs d (add_pub m id retain qos (pubs d))))
  | NextPub => ask r (Pub None) (fun c => Pub (pub_result <$> next_pub (pubs (i_data c))))
  | SetPubMsgId pid mid => change_data r (fun d => l ← change_pub pid (with_msg_id mid) (pubs d); Some (with_pubs d l))
  | RemovePub pid => change_data r (fun d => l ← change_pub pid (fun _ => zero_entry) (pubs d); Some (with_pubs d l))
  end.

Fixpoint spec_ops (os : list op) (r : registry) : list result * registry :=
  match os with
  | [] => ([], r)
  | o :: os => let '(x, r) := spec_op o r in let '(xs, r) := spec_ops os r in (x :: xs, r)
  end.
End Registry.

