(* ===== verification/PersistSpec.v ===== *)
(** * PersistSpec: the registry of clients over Persist.v

    An abstract registry (slots that are free or hold a client, a transaction), the
    operations on it, and that LinuxPersistent implements them in the file CLIENTS and
    the four files of each client, whatever sequence of operations is called. *)
From Stdlib Require Import ZifyBool.
From S2P Require Import Prelude CMem Persist Card Registry.

(** What the gateway core has to say about its types. *)
Class CoreOk `{CoreTypes} := {
  ACTIVE_ok : ranged sizeof_status ACTIVE;
  PINGREQ_ok : ranged sizeof_message_type MQTTSN_PINGREQ
}.

(** ** File numbers *)

Definition num (i : nat) : list Z := map (fun k => 48 + (Z.of_nat i / 10 ^ k) mod 10) [7; 6; 5; 4; 3; 2; 1; 0].
Definition extensions : list (list Z) := [REGISTRATION_FILE_ENDING; SUBSCRIBE_FILE_ENDING; WILL_FILE_ENDING; PUBLISH_FILE_ENDING].
Ltac in_extensions := unfold extensions; rewrite ?elem_of_cons; tauto.

Lemma pad8_num i : Z.of_nat i < 65536 -> pad8 (Z.of_nat i) = Some (num i).
Proof. intros Hi. unfold pad8. by replace ((0 <=? Z.of_nat i) && (Z.of_nat i <? 100000000)) with true by lia. Qed.

Lemma num_digits i : Forall (fun c => 48 <= c <= 57) (num i).
Proof. unfold num. apply Forall_forall. intros c (k & -> & _)%list_elem_of_fmap. pose proof (Z.mod_pos_bound (Z.of_nat i / 10 ^ k) 10). lia. Qed.

Lemma cstring_num i r : cstring (num i ++ 0 :: r) = Some (num i).
Proof. apply cstring_app. eapply Forall_impl; [apply num_digits|]. cbn beta. lia. Qed.

Lemma strcpy_num i : strcpy_ (zeros 9) (num i) = Some (num i ++ [0]).
Proof. rewrite strcpy_zeros by (unfold num; rewrite length_map; cbn; lia). done. Qed.

(** Digits, from the most significant one on. *)
Lemma atoi_digits_num acc n : forall ds, Forall (fun c => 48 <= c <= 57) ds ->
  atoi_digits acc (ds ++ n) = atoi_digits (foldl (fun a c => a * 10 + (c - 48)) acc ds) n.
Proof.
  intros ds Hds. revert acc. induction Hds as [|c ds Hc Hds IH]; intros acc; [done|]. cbn [app atoi_digits foldl].
  unfold is_digit. replace ((48 <=? c) && (c <=? 57)) with true by lia. apply IH.
Qed.

Lemma num_digits_value n : 0 <= n < 100000000 ->
  foldl (fun a c => a * 10 + (c - 48)) 0 (map (fun k => 48 + (n / 10 ^ k) mod 10) [7; 6; 5; 4; 3; 2; 1; 0]) = n.
Proof.
  intros Hn. cbn [map foldl].
  change (10 ^ 7) with 10000000. change (10 ^ 6) with 1000000. change (10 ^ 5) with 100000. change (10 ^ 4) with 10000.
  change (10 ^ 3) with 1000. change (10 ^ 2) with 100. change (10 ^ 1) with 10. change (10 ^ 0) with 1.
  assert (Hdiv : forall k, 0 < k -> n / k = 10 * (n / (10 * k)) + (n / k) mod 10).
  { intros k Hk. rewrite (Z.mul_comm 10 k), <- Z.div_div by lia. apply Z.div_mod. lia. }
  assert (n / 1 = 10 * (n / 10) + (n / 1) mod 10) by exact (Hdiv 1 eq_refl).
  assert (n / 10 = 10 * (n / 100) + (n / 10) mod 10) by exact (Hdiv 10 eq_refl).
  assert (n / 100 = 10 * (n / 1000) + (n / 100) mod 10) by exact (Hdiv 100 eq_refl).
  assert (n / 1000 = 10 * (n / 10000) + (n / 1000) mod 10) by exact (Hdiv 1000 eq_refl).
  assert (n / 10000 = 10 * (n / 100000) + (n / 10000) mod 10) by exact (Hdiv 10000 eq_refl).
  assert (n / 100000 = 10 * (n / 1000000) + (n / 100000) mod 10) by exact (Hdiv 100000 eq_refl).
  assert (n / 1000000 = 10 * (n / 10000000) + (n / 1000000) mod 10) by exact (Hdiv 1000000 eq_refl).
  assert (n / 10000000 = 10 * (n / 100000000) + (n / 10000000) mod 10) by exact (Hdiv 10000000 eq_refl).
  rewrite (Z.div_small n 100000000) in * by lia. rewrite Z.div_1_r in *. lia.
Qed.

Lemma atoi_num i : Z.of_nat i < 65536 -> atoi (num i) = Some (Z.of_nat i).
Proof.
  intros Hi. pose proof (num_digits i) as Hd. pose proof (atoi_digits_num 0 [] _ Hd) as Hv.
  rewrite app_nil_r in Hv. unfold num in Hv at 2. rewrite num_digits_value in Hv by lia. cbn [atoi_digits] in Hv.
  assert (Hns : forall c s, 48 <= c <= 57 -> atoi (c :: s) = cint (atoi_digits 0 (c :: s))).
  { intros c s Hc. unfold atoi. cbn [skip_space]. unfold is_space. replace ((c =? 32) || ((9 <=? c) && (c <=? 13))) with false by lia.
    destruct (Z.eqb_spec c 45), (Z.eqb_spec c 43); [lia..|done]. }
  destruct (num i) as [|c s] eqn:E; [done|]. apply Forall_cons in Hd as [Hc _].
  rewrite Hns, Hv by done. apply cint_ok. unfold INT_MIN, INT_MAX. lia.
Qed.

Lemma num_inj i j : Z.of_nat i < 65536 -> Z.of_nat j < 65536 -> num i = num j -> i = j.
Proof. intros Hi Hj E. apply Nat2Z.inj, (inj Some). by rewrite <- !atoi_num, E by done. Qed.

Lemma name_inj i j x y : Z.of_nat i < 65536 -> Z.of_nat j < 65536 -> num i ++ x = num j ++ y -> i = j /\ x = y.
Proof. intros Hi Hj [E ->]%app_inj_1; [|done]. split; [by apply num_inj|done]. Qed.

Lemma name_registry i x : x ∈ extensions -> num i ++ x <> client_registry.
Proof. intros Hx E%(f_equal length). rewrite length_app in E. unfold extensions in Hx. set_unfold in Hx. destruct_or? Hx; by subst. Qed.

(** How many slots and entries are used at most, and the fuel of the loops: counters of 16
    bits and positions of 32 do not wrap. *)
Class Limits `{CoreTypes} := {
  fuel : nat;
  cap : nat;
  cap_fuel : (cap < fuel)%nat;
  cap_ushort : Z.of_nat cap < 65535;
  cap_size : Z.of_nat (cap * sizeof_client) < 4294967296
}.

(** ** The registry on the card *)

Section Representation.
Context `{CoreTypes} `{!CoreOk} `{!Limits} `{SdOk}.
Let Hfuel : (cap < fuel)%nat := cap_fuel.
Let Hcap : Z.of_nat cap < 65535 := cap_ushort.
Let Hsize : Z.of_nat (cap * sizeof_client) < 4294967296 := cap_size.
Implicit Types (s : pst) (fs : filemap) (r : registry) (c : info) (o : option info) (l : list (option info)).

Definition id_ok (id : list Z) : Prop := id <> [] /\ Forall (fun x => x <> 0) id.
Definition stored {E} `{Entry E} (nul : E -> list Z) (l : list E) : Prop :=
  Forall wf l /\ (length l <= cap)%nat /\ Forall (fun e => is_Some (cstring (nul e))) l.
(** Entries that their files can hold, with texts that end inside their arrays. *)
Definition data_ok (d : data) : Prop :=
  stored r_topic_name (regs d) /\ stored s_topic_name (subs d) /\ stored willtopic (wills d) /\ (length (wills d) <= 1)%nat /\
  (Forall wf (pubs d) /\ (length (pubs d) <= cap)%nat).
Definition info_ok c : Prop :=
  id_ok (i_id c) /\ (length (i_id c) < 24)%nat /\ length (i_address c) = sizeof_address /\
  ranged sizeof_status (i_status c) /\ ranged 4 (i_duration c) /\ ranged 4 (i_timeout c) /\ ranged 2 (i_await_id c) /\
  ranged sizeof_message_type (i_await c) /\ data_ok (i_data c).

Definition client_entry_at (i : nat) c : entry_client :=
  mkClient (padded 24 (i_id c)) (num i ++ [0]) (i_address c) (i_status c) (i_duration c) (i_timeout c) (i_await_id c) (i_await c).
Definition entry_at (i : nat) o : entry_client := match o with Some c => client_entry_at i c | None => zero_entry end.
Definition entries l : list entry_client := imap entry_at l.

(** The four files of slot [i]. *)
Definition slot_files fs (i : nat) o : Prop :=
  match o with
  | Some c =>
      fs !! (num i ++ REGISTRATION_FILE_ENDING) = Some (table (regs (i_data c))) /\
      fs !! (num i ++ SUBSCRIBE_FILE_ENDING) = Some (table (subs (i_data c))) /\
      fs !! (num i ++ WILL_FILE_ENDING) = Some (table (wills (i_data c))) /\
      fs !! (num i ++ PUBLISH_FILE_ENDING) = Some (table (pubs (i_data c)))
  | None => forall x, x ∈ extensions -> fs !! (num i ++ x) = None
  end.
Definition on_card l fs : Prop :=
  fs !! client_registry = Some (table (entries l)) /\ (forall i, (i < cap)%nat -> slot_files fs i (mjoin (l !! i))).
Definition slots_ok l : Prop := (length l <= cap)%nat /\ (forall i c, l !! i = Some (Some c) -> info_ok c).

Definition rep r s : Prop :=
  (exists fs h, card fs h s /\ on_card (slots r) fs) /\ slots_ok (slots r) /\
  _transaction_started s = started r /\ _error s = err r /\
  match current r with
  | Some i => started r = true /\ _not_in_client_registry s = false /\
              exists c, slots r !! i = Some (Some c) /\ _entry_client s = client_entry_at i c
  | None => started r = true -> _not_in_client_registry s = true
  end.

Lemma wf_entry_at l i o : slots_ok l -> l !! i = Some o -> wf (entry_at i o).
Proof.
  intros [_ Hok] Hi. destruct o as [c|]; [|apply wf_zero].
  destruct (Hok i c Hi) as (_ & Hl & ? & ? & ? & ? & ? & ? & _).
  cbn [wf client_entry client_entry_at entry_at client_id file_number client_address client_status duration timeout await_message_id await_message].
  unfold padded. rewrite !length_app, length_zeros. splits; done || lia.
Qed.

Lemma wf_entries l : slots_ok l -> Forall wf (entries l).
Proof.
  intros Hl. apply Forall_lookup. intros i e. unfold entries. rewrite list_lookup_imap.
  destruct (l !! i) as [o|] eqn:E; [|done]. intros [= <-]. by apply (wf_entry_at l).
Qed.

Lemma length_slot_entries l : length (entries l) = length l.
Proof. apply length_imap. Qed.

Lemma entries_lookup l i e : entries l !! i = Some e -> exists o, l !! i = Some o /\ e = entry_at i o.
Proof. unfold entries. rewrite list_lookup_imap. destruct (l !! i); [|done]. intros [= <-]. eauto. Qed.

Lemma entries_put l i o : (i <= length l)%nat -> entries (splice l i [o]) = splice (entries l) i [entry_at i o].
Proof.
  intros Hi. apply list_eq. intros j. unfold entries, splice. rewrite list_lookup_imap. cbn [length].
  destruct (decide (j < i)%nat) as [Hj|Hj].
  - rewrite !lookup_app_l, !lookup_take_lt by (rewrite ?length_take, ?length_imap; lia). by rewrite list_lookup_imap.
  - rewrite (lookup_app_r (take i l)) by (rewrite length_take; lia).
    rewrite (lookup_app_r (take i (imap entry_at l))) by (rewrite length_take, length_imap; lia).
    rewrite !length_take, length_imap, !Nat.min_l by lia. destruct (j - i)%nat as [|k] eqn:E.
    + cbn. by replace j with i by lia.
    + change (entry_at j <$> drop (i + 1) l !! k = drop (i + 1) (imap entry_at l) !! k).
      rewrite !lookup_drop, list_lookup_imap. by replace (i + 1 + k)%nat with j by lia.
Qed.

Definition id_of o : list Z := match o with Some c => i_id c | None => [] end.
Lemma cstring_id l i o : slots_ok l -> l !! i = Some o -> cstring (client_id (entry_at i o)) = Some (id_of o).
Proof.
  intros [_ Hok] Hi. destruct o as [c|].
  - destruct (Hok i c Hi) as ((_ & Hid) & Hl & _). by apply cstring_padded.
  - cbn [entry_at id_of]. change (client_id zero_entry) with (member 0 24 (zeros sizeof_client)).
    rewrite member_zeros by (unfold sizeof_client; lia). done.
Qed.

(** ** Running the operations *)

(** Both searches for a client: [test] on the entries is [t] on the slots. *)
Lemma wp_find_client l fs (test : entry_client -> option bool) (t : option info -> bool) (found : Z -> M pst unit) (Q : Z + unit -> pst -> Prop) s :
  slots_ok l -> fs !! client_registry = Some (table (entries l)) ->
  (forall i o, l !! i = Some o -> test (entry_at i o) = Some (t o)) ->
  card fs (Some (client_registry, FILE_READ, 0)) s ->
  match first t l with
  | Some i => forall o x, l !! i = Some o -> t o = true -> card fs (Some (client_registry, FILE_READ, Z.of_nat (S i * sizeof_client))) (with_client (entry_at i o) (with_sd x s)) ->
      wp (found (Z.of_nat i)) (fun _ => Q (inr tt)) (with_client (entry_at i o) (with_sd x s))
  | None => forall n h x, card fs h (with_sd x s) -> Q (inl n) (with_client zero_entry (with_sd x s))
  end ->
  wp (do_read fuel sizeof_client (find_client_body test found) 0) Q s.
Proof.
  intros Hl Hfs Htest Hc HQ.
  change sizeof_client with (esize (E := entry_client)).
  apply (wp_do_read (E := entry_client) (find_client_body test found)
    (fun i a s' => a = Z.of_nat i /\ (forall j o, l !! j = Some o -> (j < i)%nat -> t o = false) /\
      exists e x, s' = with_client e (with_sd x s)) Q fs client_registry FILE_READ (entries l) fuel); [done|by apply wf_entries|..].
  - intros i e a s' (o & Ho & ->)%entries_lookup (-> & Hbefore & e' & x & ->) Hat.
    unfold find_client_body. change (client_of (enc (entry_at i o))) with (dec (E := entry_client) (enc (entry_at i o))). rewrite dec_enc by (by eapply wf_entry_at).
    apply wp_bind, wp_upd, wp_bind. change (esize (E := entry_client)) with sizeof_client. rewrite Z.eqb_refl. eapply wp_lift; [by apply Htest|]. destruct (t o) eqn:Et.
    + assert (first t l = Some i) as E.
      { unfold first. erewrite (proj2 (list_find_Some _ _ i o)); [done|]. splits; [done|by rewrite Et|].
        intros j o' Hj Hji. rewrite (Hbefore j o' Hj Hji). by intros []. }
      rewrite E in HQ. apply wp_bind. eapply wp_mono; [by apply (HQ o x)|]. intros [] s' HQ'. by apply wp_ret.
    + apply wp_ret. splits; [..|done].
      * destruct Hl as [Hl _]. apply lookup_lt_Some in Ho. rewrite to_uint_id; lia.
      * intros j o' Hj Hji. destruct (decide (j = i)) as [->|]; [congruence|]. apply (Hbefore j o'); [done|lia].
      * by exists (entry_at i o), x.
  - intros a s' (-> & Hbefore & e' & x & ->) Hat. unfold find_client_body.
    assert (first t l = None) as E.
    { unfold first. rewrite (proj2 (list_find_None _ _)); [done|]. apply Forall_lookup. intros j o Hj.
      rewrite (Hbefore j o Hj); [by intros []|]. rewrite length_slot_entries. by eapply lookup_lt_Some. }
    rewrite E in HQ. apply wp_bind, wp_upd, wp_bind. pose proof (esize_pos (E := entry_client)).
    replace (0 =? Z.of_nat sizeof_client) with false by (change sizeof_client with (esize (E := entry_client)); lia).
    apply wp_ret, wp_ret. eapply (HQ _ _ x). exact Hat.
  - intros i a s' x (-> & Hb & e & x' & ->). splits; [done|done|]. by exists e, x.
  - rewrite length_slot_entries. destruct Hl. lia.
  - splits; [done|lia|]. exists (_entry_client s), (sd s). by destruct s.
  - done.
Qed.

(** The operation [o] of the class. *)
Definition run_op (o : op) : M pst result :=
  match o with
  | Start id => start_client_transaction fuel id;; mret Done
  | StartAddress a => start_client_transaction_address fuel a;; mret Done
  | Apply => v ← apply_transaction; mret (Num v)
  | Exist => b ← client_exist; mret (Flag b)
  | Add id a d => add_client fuel id a d;; mret Done
  | Reset_ id a d => reset_client fuel id a d;; mret Done
  | Delete id => delete_client fuel id;; mret Done
  | SetState v => set_client_state v;; mret Done
  | SetTimeout v => set_timeout v;; mret Done
  | SetAwait v => set_client_await_message v;; mret Done
  | SetAwaitId v => set_client_await_msg_id v;; mret Done
  | GetState => v ← get_client_status; mret (Num v)
  | GetAwait => v ← get_client_await_message_type; mret (Num v)
  | GetAwaitId => v ← get_client_await_msg_id; mret (Num v)
  | GetId => id ← get_client_id; mret (Id id)
  | SubscriptionCount => v ← get_client_subscription_count fuel; mret (Num v)
  | AddSub t id qos => add_subscription fuel t id qos;; mret Done
  | DelSub id => delete_subscription fuel id;; mret Done
  | IsSub t => b ← is_subscribed fuel t; mret (Flag b)
  | SubQos t => v ← get_subscription_qos fuel t; mret (Num v)
  | SubTopic t => v ← get_subscription_topic_id fuel t; mret (Num v)
  | NthSub n => v ← get_nth_subscribed_topic_id (Z.of_nat n); mret (Num v)
  | AddReg t => v ← add_client_registration fuel t; mret (if v is Some v then Num v else Id None)
  | TopicName id => t ← get_topic_name fuel id; mret (Id t)
  | TopicKnown id => b ← is_topic_known fuel id; mret (Flag b)
  | HasWill => b ← has_client_will; mret (Flag b)
  | GetWill => w ← get_client_will; mret (Will w)
  | SetWillTopic t qos retain => set_client_willtopic t qos retain;; mret Done
  | SetWillMessage m => set_client_willmessage m;; mret Done
  | DeleteWill => delete_will;; mret Done
  | HasPub => b ← has_client_publishes fuel; mret (Flag b)
  | AddPub m id retain qos dup msg_id => add_client_publish fuel m id retain qos dup msg_id;; mret Done
  | NextPub => p ← get_next_publish fuel; mret (Pub p)
  | SetPubMsgId pid mid => set_publish_msg_id pid mid;; mret Done
  | RemovePub pid => remove_publish_by_publish_id pid;; mret Done
  end.

(** The data of the client operated on, if there is one. *)
Definition on_data r (P : data -> Prop) : Prop := match acting r with Some (_, c) => P (i_data c) | None => True end.
(** [delete_subscription], [get_topic_name] and [get_nth_subscribed_topic_id] do not look
    whether the client is registered. *)
Definition registered r : Prop := started r = true -> err r = false -> is_Some (current r).
Definition string_ok (t : list Z) : Prop := Forall (fun x => x <> 0) t.

(** The arguments an operation is called with: strings, addresses and values of their types;
    not the empty client id or the zero address, which freed slots have; a new client's
    duration that the debugging output has room for; new clients and
    entries only while there is room; the client deleted is that of the transaction; and
    publish ids that have been given out. *)
Definition op_ok (o : op) r : Prop :=
  match o with
  | Start id => id_ok id
  | StartAddress a => length a = sizeof_address /\ a <> zeros sizeof_address
  | Add id a d => id_ok id /\ length a = sizeof_address /\ ranged 4 d /\ (first_free (slots r) < cap)%nat /\ is_Some (sprintf_d 10 d)
  | Reset_ id a d => id_ok id /\ length a = sizeof_address /\ ranged 4 d
  | Delete id => id_ok id /\ first (has_id id) (slots r) = current r
  | SetState v => ranged sizeof_status v
  | SetTimeout v => ranged 4 v
  | SetAwait v => ranged sizeof_message_type v
  | SetAwaitId v => ranged 2 v
  | AddSub t id qos => string_ok (default [] t) /\ ranged 2 id /\ ranged 1 qos /\ on_data r (fun d => (length (subs d) < cap)%nat)
  | DelSub id => registered r
  | NthSub n => registered r /\ on_data r (fun d => (n <= length (subs d))%nat)
  | AddReg t => string_ok t /\ (length t < 255)%nat /\ on_data r (fun d => (length (regs d) < cap)%nat)
  | TopicName id => registered r
  | TopicKnown id => on_data r (fun d => id <> 0 -> is_Some (look (fun e => r_topic_id e =? id) r_known (regs d)))
  | SetWillTopic t qos retain => string_ok t /\ ranged 1 qos
  | SetWillMessage m => (length m <= 255)%nat
  | AddPub m id retain qos dup mid => (length m <= 255)%nat /\ ranged 2 id /\ ranged 1 qos /\ on_data r (fun d => (length (pubs d) < cap)%nat)
  | SetPubMsgId pid mid => ranged 2 mid /\ on_data r (fun d => 1 <= pid <= Z.of_nat (length (pubs d)) + 1)
  | RemovePub pid => on_data r (fun d => 1 <= pid <= Z.of_nat (length (pubs d)) + 1)
  | _ => True
  end.
Fixpoint ops_ok (os : list op) r : Prop :=
  match os with [] => True | o :: os => op_ok o r /\ ops_ok os (spec_op o r).2 end.

Definition implements (o : op) r s : Prop :=
  wp (run_op o) (fun x s' => x = (spec_op o r).1 /\ rep (spec_op o r).2 s') s.

Lemma client_is_entry l id i o : slots_ok l -> id_ok id -> l !! i = Some o -> client_is id (entry_at i o) = Some (has_id id o).
Proof.
  intros Hl [Hid _] Hi. unfold client_is. rewrite (cstring_id l) by done. cbn [mbind option_bind]. f_equal.
  destruct o as [c|]; cbn [id_of has_id].
  - destruct (proj2 Hl i c Hi) as (_ & Hlen & _). unfold MAXIMUM_CLIENT_ID_LENGTH. destruct (Z.ltb_spec (Z.of_nat (length (i_id c))) 24); [done|lia].
  - rewrite bool_decide_eq_false_2 by done. apply andb_false_r.
Qed.

Lemma address_is_entry l a i o : slots_ok l -> a <> zeros sizeof_address -> l !! i = Some o ->
  address_is a (entry_at i o) = Some (has_address a o).
Proof.
  intros Hl Ha Hi. unfold address_is. rewrite (cstring_id l) by done. cbn [mbind option_bind]. f_equal.
  destruct o as [c|]; cbn [id_of has_address].
  - destruct (proj2 Hl i c Hi) as (_ & Hlen & _). unfold MAXIMUM_CLIENT_ID_LENGTH. destruct (Z.ltb_spec (Z.of_nat (length (i_id c))) 24); [done|lia].
  - change (client_address (entry_at i None)) with (member 33 sizeof_address (zeros sizeof_client)).
    rewrite member_zeros by (unfold sizeof_client; lia). by rewrite bool_decide_eq_false_2 by congruence.
Qed.

(** The state after a search that found [i], or nothing. *)
Lemma rep_found r s (p : option info -> bool) fs h nr :
  card fs h s -> on_card (slots r) fs -> slots_ok (slots r) -> _transaction_started s = true -> _error s = false ->
  _not_in_client_registry s = nr ->
  match first p (slots r) with
  | Some i => nr = false /\ exists c, slots r !! i = Some (Some c) /\ _entry_client s = client_entry_at i c
  | None => nr = true
  end -> rep (mkRegistry (slots r) (first p (slots r)) true false) s.
Proof.
  intros Hc Hon Hl Ht He Hn Hp. unfold rep. cbn [slots current started err]. splits; eauto.
  destruct (first p (slots r)) as [i|]; [|congruence]. destruct Hp as [-> Hp]. by splits.
Qed.

Lemma find_registry l fs s (test : entry_client -> option bool) (t : option info -> bool) (found : Z -> M pst unit) (Q : Z + unit -> pst -> Prop) :
  slots_ok l -> fs !! client_registry = Some (table (entries l)) -> (forall o, t o = true -> is_Some o) ->
  (forall i o, l !! i = Some o -> test (entry_at i o) = Some (t o)) ->
  card fs (Some (client_registry, FILE_READ, 0)) s ->
  match first t l with
  | Some i => forall c x h, l !! i = Some (Some c) -> card fs h (with_client (client_entry_at i c) (with_sd x s)) ->
      wp (found (Z.of_nat i)) (fun _ => Q (inr tt)) (with_client (client_entry_at i c) (with_sd x s))
  | None => forall n h x, card fs h (with_sd x s) -> Q (inl n) (with_client zero_entry (with_sd x s))
  end ->
  wp (do_read fuel sizeof_client (find_client_body test found) 0) Q s.
Proof.
  intros Hl Hreg Hsome Htest Hc HQ. eapply wp_find_client; [done..|]. destruct (first t l) as [i|]; [|done].
  intros o x Hi Ht Hx. destruct (Hsome o Ht) as [c ->]. by eapply HQ.
Qed.

Lemma has_id_Some id o : has_id id o = true -> is_Some o.
Proof. by destruct o. Qed.
Lemma has_address_Some a o : has_address a o = true -> is_Some o.
Proof. by destruct o. Qed.

Ltac open_rep := intros ((fs & h & Hc & Hon) & Hl & Hts & Her & Hcur).
Lemma rep_failed r s : rep r s -> rep (failed r) (with_flags (_not_in_client_registry s) (_transaction_started s) true s).
Proof. open_rep. unfold rep. cbn. splits; eauto. Qed.

Lemma start_ok id r s : id_ok id -> rep r s -> implements (Start id) r s.
Proof.
  intros Hid Hrep. pose proof (rep_failed r s Hrep) as Hfail. revert Hrep. open_rep.
  unfold implements, run_op, start_client_transaction, spec_op, too_long. wp_go. rewrite Hts.
  destruct (started r); [by wp_go|]. cbn [orb]. destruct (MAXIMUM_CLIENT_ID_LENGTH <=? _); [by wp_go|]. wp_go.
  pose proof Hon as [Hreg _]. wp_go.
  eapply find_registry; [done|exact Hreg|apply has_id_Some|by intros; eapply client_is_entry|exact Hc|].
  destruct (first (has_id id) (slots r)) as [i|] eqn:E.
  - intros c x3 h3 Hi Hc3. wp_go. split; [done|]. cbn [snd]. rewrite <- E.
    eapply rep_found; [exact Hc3|done..|]. rewrite E. eauto.
  - intros n h3 x3 Hc3. wp_go. split; [done|]. cbn [snd]. rewrite <- E. eapply rep_found; [exact Hc3|done..|]. by rewrite E.
Qed.

Lemma start_address_ok a r s : length a = sizeof_address -> a <> zeros sizeof_address -> rep r s -> implements (StartAddress a) r s.
Proof.
  intros Hlen Ha Hrep. pose proof (rep_failed r s Hrep) as Hfail. revert Hrep. open_rep.
  unfold implements, run_op, start_client_transaction_address, spec_op. wp_go. rewrite Hts.
  destruct (started r); [by wp_go|]. wp_go. pose proof Hon as [Hreg _]. wp_go.
  eapply find_registry; [done|exact Hreg|apply has_address_Some|by intros; eapply address_is_entry|exact Hc|].
  destruct (first (has_address a) (slots r)) as [i|] eqn:E.
  - intros c x3 h3 Hi Hc3. wp_go. split; [done|]. cbn [snd]. rewrite <- E.
    eapply rep_found; [exact Hc3|done..|]. rewrite E. eauto.
  - intros n h3 x3 Hc3. wp_go. split; [done|]. cbn [snd]. rewrite <- E. eapply rep_found; [exact Hc3|done..|]. by rewrite E.
Qed.

(** Who an operation works on, seen from the object. *)
Lemma rep_acting r s : rep r s ->
  match acting r with
  | Some (i, c) => current r = Some i /\ slots r !! i = Some (Some c) /\ _entry_client s = client_entry_at i c /\
      info_ok c /\ (i < cap)%nat /\ started r = true /\ err r = false /\
      forall A (d : A) k Q, wp k Q s -> wp (in_transaction d k) Q s
  | None => forall A (d : A) k (Q : A -> pst -> Prop), Q d s -> wp (in_transaction d k) Q s
  end.
Proof.
  open_rep. unfold acting. destruct (started r) eqn:Es, (err r) eqn:Ee; cbn [andb negb].
  2: destruct (current r) as [i|] eqn:Ec; cbn [mbind option_bind].
  2: destruct Hcur as (_ & Hn & c & Hi & He); rewrite Hi; cbn [mbind option_bind]; pose proof (proj2 Hl i c Hi) as Hok;
     assert (i < length (slots r))%nat by (by eapply lookup_lt_Some); destruct Hl as [Hlen _]; splits; try done; try lia.
  all: intros A d k Q HQ; unfold in_transaction; wp_go; rewrite ?Hts, ?Her; cbn [negb orb]; try done.
  - by rewrite Hn.
  - by rewrite Hcur.
Qed.

Lemma apply_ok r s : rep r s -> implements Apply r s.
Proof.
  open_rep.
  unfold implements, run_op, apply_transaction, spec_op. wp_go. pst_simpl. rewrite Hts, Her. unfold acting.
  assert (forall s', rep (mkRegistry (slots r) None false false) (with_flags false false false s') <-> exists fs h, card fs h s' /\ on_card (slots r) fs) as Hend.
  { intros s'. unfold rep. cbn. split; [tauto|]. intros HH. splits; done. }
  destruct (started r), (err r); cbn [negb andb]; wp_go; try (split; [done|apply Hend; eauto]).
  destruct (current r) as [i|] eqn:Ec.
  - destruct Hcur as (_ & -> & c & Hi & _). cbn [mbind option_bind]. rewrite Hi. cbn [mbind option_bind]. wp_go. split; [done|apply Hend; eauto].
  - rewrite Hcur by done. wp_go. split; [done|apply Hend; eauto].
Qed.

Lemma exist_ok r s : rep r s -> implements Exist r s.
Proof.
  intros Hrep. pose proof Hrep as Hr. revert Hrep. open_rep. unfold implements, run_op, client_exist, spec_op. wp_go. rewrite Hts, Her.
  unfold acting. destruct (started r), (err r); cbn [negb andb orb]; wp_go; try done.
  destruct (current r) as [i|].
  - destruct Hcur as (_ & -> & c & Hi & _). cbn [mbind option_bind]. rewrite Hi. done.
  - by rewrite Hcur.
Qed.

(** The operations that look something up in the entry of the client. *)
Lemma ask_ok r s {A} (d : A) (k : M pst A) (v : info -> A) (mk : A -> result) : rep r s ->
  (forall i c, acting r = Some (i, c) -> wp k (fun x s' => x = v c /\ rep r s') s) ->
  wp (x ← in_transaction d k; mret (mk x)) (fun x s' => x = (ask r (mk d) (fun c => mk (v c))).1 /\ rep (ask r (mk d) (fun c => mk (v c))).2 s') s.
Proof.
  intros Hrep Hk. pose proof (rep_acting r s Hrep) as Hact. unfold ask. cbn [fst snd]. apply wp_bind.
  destruct (acting r) as [[i c]|] eqn:E.
  - destruct Hact as (_ & _ & _ & _ & _ & _ & _ & Hact). apply Hact. eapply wp_mono; [by eapply Hk|]. by intros a s' [-> ?].
  - by apply Hact.
Qed.

Lemma getters_ok r s : rep r s -> implements GetState r s /\ implements GetAwait r s /\ implements GetAwaitId r s /\ implements GetId r s.
Proof.
  intros Hrep. pose proof (rep_acting r s Hrep) as Hact.
  splits; unfold implements, run_op, get_client_status, get_client_await_message_type, get_client_await_msg_id, get_client_id, spec_op.
  1: eapply (ask_ok r s _ _ i_status Num).
  3: eapply (ask_ok r s _ _ i_await Num).
  5: eapply (ask_ok r s _ _ i_await_id Num).
  7: eapply (ask_ok r s _ _ (fun c => Some (i_id c)) Id).
  all: try done; intros i c E; rewrite E in Hact; destruct Hact as (_ & Hi & He & Hok & _); wp_go; rewrite He; try done.
  eapply wp_lift; [by apply (cstring_id (slots r) i (Some c)); [destruct Hrep as (_ & ? & _)|]|]. wp_go.
  cbn [id_of]. destruct Hok as (_ & Hlen & _). unfold MAXIMUM_CLIENT_ID_LENGTH. destruct (Z.leb_spec 24 (Z.of_nat (length (i_id c)))); [lia|]. by wp_go.
Qed.

(** ** Changing an entry *)

Lemma registry_name i x : x ∈ extensions -> client_registry <> num i ++ x.
Proof. intros Hx E. by eapply name_registry. Qed.


Lemma slot_files_agree fs fs' i o :
  (forall x, x ∈ extensions -> fs' !! (num i ++ x) = fs !! (num i ++ x)) -> slot_files fs i o -> slot_files fs' i o.
Proof.
  intros Hx. destruct o as [c|]; cbn [slot_files].
  - intros (? & ? & ? & ?). rewrite !Hx by in_extensions. by splits.
  - intros Hall x Hin. rewrite Hx by done. auto.
Qed.

Lemma on_card_put l fs fs' i o : (i <= length l)%nat -> (i < cap)%nat -> on_card l fs ->
  (forall j x, j <> i -> x ∈ extensions -> (j < cap)%nat -> fs' !! (num j ++ x) = fs !! (num j ++ x)) ->
  slot_files fs' i o ->
  on_card (splice l i [o]) (<[client_registry := table (splice (entries l) i [entry_at i o])]> fs').
Proof.
  intros Hi Hic [Hreg Hfiles] Hsame Hio. split.
  - by rewrite lookup_insert_eq, entries_put.
  - intros j Hj. rewrite lookup_splice_one by done.
    assert (slot_files fs' j (mjoin (if decide (j = i) then Some o else l !! j))) as HH.
    { destruct (decide (j = i)) as [->|Hne]; [by destruct o|]. eapply slot_files_agree; [|by apply Hfiles]. auto. }
    eapply slot_files_agree; [|exact HH]. intros x Hx. rewrite lookup_insert_ne; [done|]. by apply registry_name.
Qed.

Lemma slots_ok_put l i o : (i <= length l)%nat -> (i < cap)%nat -> slots_ok l -> (forall c, o = Some c -> info_ok c) -> slots_ok (splice l i [o]).
Proof.
  intros Hi Hic [Hlen Hok] Ho. split; [rewrite length_splice_put by done; lia|]. intros j c. rewrite lookup_splice_one by done.
  destruct (decide (j = i)); [intros [= ->]; auto|apply Hok].
Qed.

Lemma wp_save l fs p i (Q : unit -> pst -> Prop) s : (i <= length l)%nat -> (i < cap)%nat -> slots_ok l ->
  card fs (Some (client_registry, FILE_WRITE, p)) s -> fs !! client_registry = Some (table (entries l)) -> wf (_entry_client s) ->
  (forall x h, card (<[client_registry := table (splice (entries l) i [_entry_client s])]> fs) h (with_sd x s) -> Q tt (with_sd x s)) ->
  wp (save_client_at (Z.of_nat i)) Q s.
Proof.
  intros Hi Hic Hl Hc Hreg Hwf HQ. unfold save_client_at. wp_prim.
  pose proof (wf_entries l Hl) as Hes. pose proof (length_table _ Hes) as Hlen. rewrite length_slot_entries in Hlen.
  change (esize (E := entry_client)) with sizeof_client in Hlen.
  eapply wp_seek; [exact Hc|exact Hreg|nia|nia|]. clear Hc. intros x Hc. wp_go.
  eapply wp_write; [exact Hc|exact Hreg|nia|]. clear Hc. intros r x2 Hc. wp_go.
  replace (Z.to_nat (Z.of_nat i * Z.of_nat sizeof_client)) with (i * esize (E := entry_client))%nat in Hc by (change (esize (E := entry_client)) with sizeof_client; lia).
  change (client_bytes (_entry_client (with_sd x s))) with (enc (_entry_client s)) in Hc.
  rewrite table_put in Hc by (rewrite ?length_slot_entries; done). eapply (HQ x2). exact Hc.
Qed.

(** The end of every setter: the entry of slot [i] is that of [c'], in the object and on the card. *)
Lemma rep_set_slot r s i c c' fs h : rep r s -> acting r = Some (i, c) -> info_ok c' -> i_data c' = i_data c ->
  on_card (slots r) fs -> forall s',
  card (<[client_registry := table (splice (entries (slots r)) i [client_entry_at i c'])]> fs) h s' ->
  _transaction_started s' = _transaction_started s -> _error s' = _error s ->
  _not_in_client_registry s' = _not_in_client_registry s -> _entry_client s' = client_entry_at i c' ->
  rep (set_slot r i c') s'.
Proof.
  intros Hrep Ha Hok Hsame Hon s' Hc Et Ee En Hent. pose proof (rep_acting r s Hrep) as Hact. rewrite Ha in Hact.
  destruct Hact as (Hcur & Hi & _ & _ & Hic & Hst & _). destruct Hrep as (_ & Hl & Hts & Her & Hcu).
  rewrite Hcur in Hcu. destruct Hcu as (_ & Hn & _). assert (Hlt := lookup_lt_Some _ _ _ Hi).
  unfold rep, set_slot. cbn [slots current started err]. rewrite (insert_splice _ i) by done.
  splits; [|apply slots_ok_put; [lia|done|done|by intros ? [= <-]]|congruence..|].
  - exists (<[client_registry := table (splice (entries (slots r)) i [client_entry_at i c'])]> fs), h. split; [done|].
    apply (on_card_put _ fs fs i (Some c')); [lia|done|done|done|]. destruct Hon as [_ Hf]. specialize (Hf i Hic). rewrite Hi in Hf.
    cbn [slot_files mjoin option_join] in *. by rewrite Hsame.
  - rewrite Hcur. splits; [done|congruence|]. exists c'. rewrite lookup_splice_one, decide_True by (done || lia). done.
Qed.

Lemma wp_parse i c (Q : Z -> pst -> Prop) s : (i < cap)%nat -> Q (Z.of_nat i) s -> wp (parse_file_number_to_int (client_entry_at i c)) Q s.
Proof.
  intros Hi HQ. unfold parse_file_number_to_int. apply wp_bind. eapply wp_lift; [apply cstring_num|].
  eapply wp_lift; [apply atoi_num; lia|done].
Qed.

(** Outside a transaction a setter does nothing; inside it is run on the client's entry. *)
Lemma change_ok r s f (k : M pst unit) : rep r s -> (forall c, info_ok c -> info_ok (f c) /\ i_data (f c) = i_data c) ->
  (forall i c fs h, acting r = Some (i, c) -> (i < cap)%nat -> (i <= length (slots r))%nat -> slots_ok (slots r) -> card fs h s ->
    fs !! client_registry = Some (table (entries (slots r))) -> _entry_client s = client_entry_at i c -> wf (client_entry_at i (f c)) ->
    wp k (fun _ s' => s' = with_client (client_entry_at i (f c)) (with_sd (sd s') s) /\ exists h', card (<[client_registry := table (splice (entries (slots r)) i [client_entry_at i (f c)])]> fs) h' s') s) ->
  wp (in_transaction tt k;; mret Done) (fun x s' => x = (change r f).1 /\ rep (change r f).2 s') s.
Proof.
  intros Hrep Hf Hk. pose proof (rep_acting r s Hrep) as Hact. unfold change. apply wp_bind.
  destruct (acting r) as [[i c]|] eqn:Ha; [|by apply Hact].
  destruct Hact as (Hcur & Hi & He & Hok & Hic & _ & _ & Hact). apply Hact.
  pose proof Hrep as ((fs & h & Hc & Hon) & Hl & _). destruct (Hf c Hok) as [Hok' Hsubs].
  assert (Hlt := lookup_lt_Some _ _ _ Hi).
  eapply wp_mono; [eapply (Hk i c fs h); try done; [lia|apply Hon|]|].
  - apply (wf_entry_at (splice (slots r) i [Some (f c)]) i (Some (f c))).
    + apply slots_ok_put; [lia|done|done|by intros ? [= <-]].
    + rewrite lookup_splice_one, decide_True by (done || lia). done.
  - intros [] s' [E [h' Hc']]. apply wp_ret. split; [done|].
    eapply (rep_set_slot r s i c (f c) fs h'); try done; by rewrite E.
Qed.

Ltac setter_run Hi He := wp_go; pst_simpl; rewrite ?He; wp_go; pst_simpl; rewrite ?He; try (apply wp_parse; [exact Hi|]); wp_go.

Lemma setters_ok r s v : rep r s ->
  (ranged sizeof_status v -> implements (SetState v) r s) /\ (ranged 4 v -> implements (SetTimeout v) r s) /\
  (ranged sizeof_message_type v -> implements (SetAwait v) r s) /\ (ranged 2 v -> implements (SetAwaitId v) r s).
Proof.
  intros Hrep. splits; intros Hv; apply change_ok; try done.
  all: try (intros c (? & ? & ? & ? & ? & ? & ? & ? & ? & ?); split; [by unfold info_ok; cbn; splits|done]).
  all: intros i c fs h Ha Hi Hlen Hl Hc Hreg He Hwf.
  all: setter_run Hi He.
  all: eapply wp_save; [exact Hlen|exact Hi|exact Hl|exact Hc|exact Hreg|exact Hwf|].
  all: intros x' h' Hc'; wp_go.
  all: split; [done|eexists; exact Hc'].
Qed.

(** ** Counting the subscriptions of the client *)

Lemma wp_filename i c x (Q : list Z -> pst -> Prop) s :
  _entry_client s = client_entry_at i c -> Q (num i ++ x) s -> wp (filename_with_extension x) Q s.
Proof. intros He HQ. unfold filename_with_extension. wp_go. rewrite He. eapply wp_lift; [apply cstring_num|]. by wp_go. Qed.

Lemma subscribed_snoc es e : subscribed (es ++ [e]) = subscribed es + (if s_topic_id e =? 0 then 0 else 1).
Proof.
  unfold subscribed. rewrite filter_app, length_app, filter_cons, filter_nil. destruct (Z.eqb_spec (s_topic_id e) 0).
  - rewrite decide_False by tauto. cbn [length]. lia.
  - rewrite decide_True by done. cbn [length]. lia.
Qed.

Lemma subscribed_range es : 0 <= subscribed es <= Z.of_nat (length es).
Proof. unfold subscribed. pose proof (length_filter (fun e => s_topic_id e <> 0) es). lia. Qed.

Lemma wp_subscription_count r s i c fs h (Q : Z -> pst -> Prop) : rep r s -> acting r = Some (i, c) ->
  card fs h s -> on_card (slots r) fs ->
  (forall x h', card fs h' (with_sd x s) -> Q (subscribed (subs (i_data c))) (with_sd x s)) -> wp (get_client_subscription_count fuel) Q s.
Proof.
  intros Hrep Ha Hc [_ Hf] HQ. pose proof (rep_acting r s Hrep) as Hact. rewrite Ha in Hact.
  destruct Hact as (_ & Hi & He & Hok & Hic & _ & _ & Hact). apply Hact. specialize (Hf i Hic). rewrite Hi in Hf.
  destruct Hf as (_ & Hsub & _). destruct Hok as (_ & _ & _ & _ & _ & _ & _ & _ & Hd). destruct Hd as (_ & (Hwf & Hlen & _) & _).
  wp_go. eapply wp_filename; [exact He|]. wp_go.
  change sizeof_sub with (esize (E := entry_subscription)).
  apply (wp_do_read (E := entry_subscription) _ (fun i a s' => a = subscribed (take i (subs (i_data c))) /\ exists x, s' = with_sd x s)
    _ fs (num i ++ SUBSCRIBE_FILE_ENDING) FILE_READ (subs (i_data c)) fuel); [done|done|..].
  - intros j e a s' Hj (-> & x' & ->) Hat. wp_go. split; [|done]. split; [|by exists x'].
    change (sub_of (enc e)) with (dec (E := entry_subscription) (enc e)). rewrite dec_enc by (by eapply Forall_lookup_1).
    rewrite (take_S_r _ _ e Hj), subscribed_snoc. change sizeof_sub with (esize (E := entry_subscription)). rewrite Z.eqb_refl.
    pose proof (subscribed_range (take j (subs (i_data c)))) as Hr. rewrite length_take in Hr. apply lookup_lt_Some in Hj.
    destruct (s_topic_id e =? 0); cbn [andb negb]; [lia|]. rewrite to_ushort_id; lia.
  - intros a s' (-> & x' & ->) Hat. wp_go. rewrite take_ge by done. eapply HQ. exact Hat.
  - intros j a s' y (-> & x' & ->). split; [done|]. by exists y.
  - lia.
  - split; [done|]. eexists. reflexivity.
  - done.
Qed.

Lemma rep_with_sd r s fs h x : rep r s -> on_card (slots r) fs -> card fs h (with_sd x s) -> rep r (with_sd x s).
Proof. intros (_ & Hl & Hts & Her & Hcur) Hon Hc. unfold rep. splits; eauto. Qed.

Lemma subscription_count_ok r s : rep r s -> implements SubscriptionCount r s.
Proof.
  intros Hrep. pose proof Hrep as ((fs & h & Hc & Hon) & _). pose proof (rep_acting r s Hrep) as Hact.
  unfold implements, run_op, spec_op, ask. cbn [fst snd]. apply wp_bind. destruct (acting r) as [[i c]|] eqn:Ha; [|by apply Hact].
  eapply wp_subscription_count; [done..|]. intros x h' Hc'. apply wp_ret. split; [done|]. by eapply rep_with_sd.
Qed.

(** ** Adding, resetting and deleting a client *)

(** The search for a free slot. *)
Lemma find_empty_from l fs (Q : Z -> pst -> Prop) : forall n i k s, slots_ok l -> n = (length l - i)%nat -> (i <= length l)%nat -> (n < k)%nat ->
  fs !! client_registry = Some (table (entries l)) -> at_entry (E := entry_client) fs client_registry FILE_READ i s ->
  (forall j o, l !! j = Some o -> (j < i)%nat -> is_free o = false) ->
  (forall x e h, card fs h (with_sd x s) -> Q (Z.of_nat (first_free l)) (with_client e (with_sd x s))) ->
  wp (find_empty_loop k (Z.of_nat i)) Q s.
Proof.
  intros n. induction n as [|n IH]; intros i k s Hl Hn Hi Hk Hreg Hat Hbefore HQ; (destruct k as [|k]; [lia|]); cbn [find_empty_loop];
    apply wp_bind; change sizeof_client with (esize (E := entry_client)).
  - assert (i = length (entries l)) as -> by (rewrite length_slot_entries; lia).
    eapply wp_read_end; [exact Hat|exact Hreg|by apply wf_entries|]. intros x Hx. cbn beta iota zeta. wp_go.
    assert (first_free l = length (entries l)) as <-; [|by eapply HQ].
    unfold first_free, first. rewrite length_slot_entries, (proj2 (list_find_None _ _)); [done|]. apply Forall_lookup. intros j o Hj.
    rewrite (Hbefore j o Hj); [by intros []|]. rewrite length_slot_entries. by eapply lookup_lt_Some.
  - destruct (lookup_lt_is_Some_2 l i) as [o Ho]; [lia|].
    eapply (wp_read_entry (E := entry_client) fs s client_registry FILE_READ (entries l) i (entry_at i o)); [exact Hat|exact Hreg|by apply wf_entries| |].
    { unfold entries. by rewrite list_lookup_imap, Ho. }
    intros x Hx. cbn beta iota zeta. change (client_of (enc (entry_at i o))) with (dec (E := entry_client) (enc (entry_at i o))).
    rewrite dec_enc by (by eapply wf_entry_at). wp_go. change (esize (E := entry_client)) with sizeof_client.
    destruct (to_uint (Z.of_nat sizeof_client) =? 0) eqn:Ez.
    { destruct Hl as [Hlen _]. rewrite to_uint_id in Ez by nia. pose proof (esize_pos (E := entry_client)) as Hp.
      change (esize (E := entry_client)) with sizeof_client in Hp. lia. }
    apply wp_bind. unfold strlen_. eapply wp_lift; [by rewrite (cstring_id l)|]. cbn beta iota zeta.
    destruct o as [c|]; cbn [id_of].
    + destruct (proj2 Hl i c Ho) as ([Hne _] & _). destruct (Z.eqb_spec (Z.of_nat (length (i_id c))) 0) as [E0|_].
      { destruct (i_id c); [done|]. cbn [length] in E0. lia. }
      replace (to_ushort (Z.of_nat i + 1)) with (Z.of_nat (S i)).
      2: { destruct Hl as [Hlen _]. rewrite to_ushort_id; lia. }
      eapply (IH (S i)); [done|lia|lia|lia|exact Hreg|exact Hx| |].
      * intros j o Hj Hji. destruct (decide (j = i)) as [->|]; [by simplify_eq|]. apply (Hbefore j o Hj). lia.
      * intros y e h Hc. exact (HQ y e h Hc).
    + cbn [length Z.of_nat Z.eqb]. wp_go. assert (first_free l = i) as <-; [|by eapply HQ].
      unfold first_free, first. erewrite (proj2 (list_find_Some _ _ i None)); [done|]. splits; [done|done|].
      intros j o' Hj Hji. rewrite (Hbefore j o' Hj Hji). by intros [].
Qed.

(** Creating and deleting files. *)
Definition created fs (names : list (list Z)) : filemap := foldl (fun m f => <[f := default [] (m !! f)]> m) fs names.
Definition deleted fs (names : list (list Z)) : filemap := foldl (fun m f => delete f m) fs names.

Lemma lookup_created fs names f : created fs names !! f = if decide (f ∈ names) then Some (default [] (fs !! f)) else fs !! f.
Proof.
  revert fs. induction names as [|g names IH]; intros fs; [done|]. cbn [created foldl]. fold (created (<[g := default [] (fs !! g)]> fs) names).
  rewrite IH. destruct (decide (f = g)) as [->|Hne].
  - rewrite lookup_insert_eq. rewrite (decide_True (P := g ∈ g :: names)) by apply list_elem_of_here. by destruct (decide (g ∈ names)).
  - rewrite lookup_insert_ne by done. by rewrite (decide_ext (f ∈ g :: names) (f ∈ names)) by (rewrite elem_of_cons; tauto).
Qed.

Lemma lookup_deleted fs names f : deleted fs names !! f = if decide (f ∈ names) then None else fs !! f.
Proof.
  revert fs. induction names as [|g names IH]; intros fs; [done|]. cbn [deleted foldl]. fold (deleted (delete g fs) names).
  rewrite IH. destruct (decide (f = g)) as [->|Hne].
  - rewrite lookup_delete_eq. rewrite (decide_True (P := g ∈ g :: names)) by apply list_elem_of_here. by destruct (decide (g ∈ names)).
  - rewrite lookup_delete_ne by done. by rewrite (decide_ext (f ∈ g :: names) (f ∈ names)) by (rewrite elem_of_cons; tauto).
Qed.

Lemma wp_create_file fs h s f (Q : unit -> pst -> Prop) : card fs h s ->
  (forall x, card (<[f := default [] (fs !! f)]> fs) None (with_sd x s) -> Q tt (with_sd x s)) -> wp (create_file f) Q s.
Proof.
  intros Hc HQ. unfold create_file. wp_go. eapply wp_open_write; [exact Hc|reflexivity|]. clear Hc. intros x2 Hc. wp_go.
  match goal with Hc : card _ None (with_sd ?x _) |- _ => exact (HQ x Hc) end.
Qed.

Lemma wp_delete_file fs h s f (Q : unit -> pst -> Prop) : card fs h s ->
  (forall x, card (delete f fs) None (with_sd x s) -> Q tt (with_sd x s)) -> wp (delete_file f) Q s.
Proof.
  intros Hc HQ. unfold delete_file. wp_go. eapply wp_exists; [exact Hc|]. clear Hc. intros x2 Hc. cbn beta.
  case_bool_decide as Hex; wp_go.
  - eapply wp_remove; [exact Hc|]. clear Hc. intros b x3 Hc. wp_go. exact (HQ x3 Hc).
  - apply (HQ x2). rewrite delete_id by (by apply eq_None_not_Some). exact Hc.
Qed.

Definition names (i : nat) : list (list Z) := map (fun x => num i ++ x) extensions.
Lemma names_self i x : x ∈ extensions -> num i ++ x ∈ names i.
Proof. intros Hx. unfold names. apply list_elem_of_fmap. eauto. Qed.
Lemma names_other i j x : j <> i -> (i < cap)%nat -> (j < cap)%nat -> num j ++ x ∉ names i.
Proof. intros Hne Hi Hj (y & E & _)%list_elem_of_fmap. apply name_inj in E; lia. Qed.
Lemma names_registry i : client_registry ∉ names i.
Proof. intros (y & E & Hy)%list_elem_of_fmap. by eapply registry_name. Qed.

Lemma first_free_slot l : slots_ok l -> (first_free l <= length l)%nat /\ mjoin (l !! first_free l) = None.
Proof.
  intros Hl. unfold first_free, first. destruct (list_find is_free l) as [[i o]|] eqn:E; cbn.
  - apply list_find_Some in E as (Hi & Hf & _). rewrite Hi. split; [apply lookup_lt_Some in Hi; lia|by destruct o].
  - split; [done|]. by rewrite (proj2 (lookup_ge_None _ _)).
Qed.

Lemma new_info_ok id a d da : id_ok id -> (length id < 24)%nat -> length a = sizeof_address -> ranged 4 d ->
  data_ok da -> info_ok (new_info id a d da).
Proof.
  intros. unfold info_ok. cbn [new_info i_id i_address i_status i_duration i_timeout i_await_id i_await i_data].
  splits; try done; try apply ranged_0; [apply ACTIVE_ok|apply PINGREQ_ok].
Qed.

Lemma no_data_ok : data_ok no_data.
Proof. unfold data_ok, stored. cbn. splits; auto; lia. Qed.

Lemma too_long_false id : too_long id = false -> (length id < 24)%nat.
Proof. unfold too_long, MAXIMUM_CLIENT_ID_LENGTH. lia. Qed.

Lemma add_ok id a d r s : op_ok (Add id a d) r -> rep r s -> implements (Add id a d) r s.
Proof.
  intros (Hid & Ha & Hd & Hfree & [[] Hprint]) Hrep. pose proof (rep_failed r s Hrep) as Hfail. pose proof Hrep as Hr. revert Hrep. open_rep.
  unfold implements, run_op, add_client, spec_op. wp_go. rewrite Hts, Her.
  destruct (started r) eqn:Est; cbn [negb orb]; [|by wp_go]. destruct (err r) eqn:Eer; [by wp_go|].
  destruct (current r) as [k|] eqn:Ecur.
  { destruct Hcur as (_ & -> & _). by wp_go. }
  rewrite Hcur by done. cbn [negb]. fold (too_long id). destruct (too_long id) eqn:Elong; [by wp_go|].
  apply too_long_false in Elong. wp_go. eapply wp_lift; [exact Hprint|]. apply wp_bind, wp_bind. unfold find_empty_entry_space_in_registry.
  destruct (first_free_slot (slots r) Hl) as [Hi Hnone]. pose proof Hon as [Hreg Hfiles]. wp_go.
  eapply (find_empty_from (slots r) fs _ _ 0 fuel); [done|reflexivity|lia|destruct Hl; lia|done|exact Hc|lia|].
  clear Hc. intros x4 e h4 Hc. set (i := first_free (slots r)) in *. wp_go.
  eapply wp_lift; [by apply strcpy_zeros|]. wp_go. eapply wp_lift; [apply pad8_num; lia|]. wp_go.
  eapply wp_lift; [apply strcpy_num|]. wp_go.
  set (c := new_info id a d no_data). assert (Hok : info_ok c) by (apply new_info_ok; try done; apply no_data_ok).
  do 4 (eapply (wp_filename i c); [reflexivity|]; wp_go; eapply wp_create_file; [exact Hc|]; clear Hc; intros ? Hc; wp_go).
  match type of Hc with card ?m _ _ => change m with (created fs (names i)) in Hc end.
  assert (Hother : forall f, f ∉ names i -> created fs (names i) !! f = fs !! f) by (intros; by rewrite lookup_created, decide_False).
  pose proof (Hother _ (names_registry i)) as Hreg'. rewrite Hreg in Hreg'. wp_go.
  assert (Hl' : slots_ok (splice (slots r) i [Some c])) by (apply slots_ok_put; try done; by intros ? [= <-]).
  eapply (wp_save (slots r) _ _ i); [done|done|done|exact Hc|exact Hreg'|apply (wf_entry_at _ i (Some c) Hl'); rewrite lookup_splice_one, decide_True; done|].
  clear Hc. intros x9 h9 Hc. wp_go. split; [done|]. cbn [snd].
  unfold rep. cbn [slots current started err]. splits; [|done|done|done|done|done|].
  - eexists _, _. split; [exact Hc|]. apply (on_card_put _ fs _ i (Some c)); [done..| |].
    + intros j x' Hj Hx Hjc. apply Hother. by apply names_other.
    + cbn [slot_files]. specialize (Hfiles i Hfree). rewrite Hnone in Hfiles. cbn [slot_files] in Hfiles.
      assert (Hnew : forall x, x ∈ extensions -> created fs (names i) !! (num i ++ x) = Some []).
      { intros x' Hx. by rewrite lookup_created, decide_True, Hfiles by (by try apply names_self). }
      splits; by apply Hnew; in_extensions.
  - exists c. split; [|done]. by rewrite lookup_splice_one, decide_True.
Qed.

Lemma first_exists id l i c : l !! i = Some (Some c) -> i_id c = id -> exists j c', first (has_id id) l = Some j /\ l !! j = Some (Some c').
Proof.
  intros Hi E. unfold first. destruct (list_find (has_id id) l) as [[j o]|] eqn:Ef.
  - apply list_find_Some in Ef as (Hj & Ht & _). destruct o as [c'|]; [|done]. by exists j, c'.
  - apply list_find_None in Ef. rewrite Forall_lookup in Ef. specialize (Ef i _ Hi). cbn in Ef. by rewrite bool_decide_eq_true_2 in Ef.
Qed.

Lemma reset_ok id a d r s : op_ok (Reset_ id a d) r -> rep r s -> implements (Reset_ id a d) r s.
Proof.
  intros (Hid & Ha & Hd) Hrep. pose proof (rep_failed r s Hrep) as Hfail. pose proof (rep_acting r s Hrep) as Hact.
  unfold implements, run_op, reset_client, spec_op. apply wp_bind. destruct (acting r) as [[i c]|] eqn:Eact; [|by apply Hact].
  destruct Hact as (Hcur & Hi & He & Hok & Hic & Hst & Herr & Hact). apply Hact. clear Hact. fold (too_long id).
  destruct (too_long id) eqn:Elong; [by wp_go|]. apply too_long_false in Elong. cbn [orb].
  pose proof Hrep as ((fs & h & Hc & Hon) & Hl & Hts & Her & _). wp_go.
  rewrite He. eapply wp_lift; [apply (cstring_id (slots r) i (Some c) Hl Hi)|]. cbn [id_of].
  case_bool_decide as Eid; cbn [negb]; [|by wp_go]. destruct (first_exists id (slots r) i c Hi Eid) as (j & cj & Ej & Hj). rewrite Ej.
  pose proof Hon as [Hreg Hfiles]. wp_go.
  eapply find_registry; [done|exact Hreg|apply has_id_Some|by intros; eapply client_is_entry|exact Hc|]. rewrite Ej.
  clear Hc. intros cj' x2 h2 Hj' Hc. assert (cj' = cj) as -> by congruence. wp_go.
  eapply wp_lift; [by apply strcpy_zeros|]. wp_go.
  destruct (proj2 Hl j cj Hj) as (_ & _ & _ & _ & _ & _ & _ & _ & Hda).
  set (c' := new_info id a d (i_data cj)). assert (Hok' : info_ok c') by (by apply new_info_ok).
  assert (Hjl := lookup_lt_Some _ _ _ Hj). assert (j < cap)%nat as Hjc by (destruct Hl; lia).
  assert (Hl' : slots_ok (splice (slots r) j [Some c'])) by (apply slots_ok_put; try done; [lia|by intros ? [= <-]]).
  eapply (wp_save (slots r) _ _ j); [lia|done|done|exact Hc|exact Hreg| |].
  { apply (wf_entry_at _ j (Some c') Hl'). rewrite lookup_splice_one, decide_True; done || lia. }
  clear Hc. intros x9 h9 Hc. wp_go. split; [done|]. cbn [snd].
  assert (alter (fun o => c ← o; Some (new_info id a d (i_data c))) j (slots r) = splice (slots r) j [Some c']) as ->.
  { rewrite <- insert_splice by done. apply list_eq. intros k. destruct (decide (k = j)) as [->|].
    - by rewrite list_lookup_alter_eq, list_lookup_insert_eq, Hj by done.
    - by rewrite list_lookup_alter_ne, list_lookup_insert_ne. }
  unfold rep. cbn [slots current started err]. pst_simpl. splits; [|done|congruence|congruence|done|done|].
  - eexists _, _. split; [exact Hc|]. apply (on_card_put _ fs fs j (Some c')); [lia|done..|].
    specialize (Hfiles j Hjc). rewrite Hj in Hfiles. exact Hfiles.
  - exists c'. split; [|done]. rewrite lookup_splice_one, decide_True; done || lia.
Qed.

Lemma delete_ok id r s : op_ok (Delete id) r -> rep r s -> implements (Delete id) r s.
Proof.
  intros (Hid & Hfirst) Hrep. pose proof (rep_failed r s Hrep) as Hfail. pose proof (rep_acting r s Hrep) as Hact.
  unfold implements, run_op, delete_client, spec_op. apply wp_bind. destruct (acting r) as [[i c]|] eqn:Eact; [|by apply Hact].
  destruct Hact as (Hcur & Hi & He & Hok & Hic & Hst & Herr & Hact). apply Hact. clear Hact. fold (too_long id).
  destruct (too_long id) eqn:Elong; [by wp_go|]. apply too_long_false in Elong. cbn [orb].
  pose proof Hrep as ((fs & h & Hc & Hon) & Hl & Hts & Her & _). apply wp_bind.
  eapply wp_subscription_count; [done..|]. clear Hc. intros x1 h1 Hc.
  destruct (0 <? subscribed (subs (i_data c))); wp_go.
  { split; [done|]. by apply (rep_with_sd (failed r) _ fs h1 x1 Hfail). }
  rewrite Hfirst, Hcur in *. pose proof Hon as [Hreg Hfiles].
  do 4 (eapply (wp_filename i c); [exact He|]; wp_go; eapply wp_delete_file; [exact Hc|]; clear Hc; intros ? Hc; wp_go).
  match type of Hc with card ?m _ _ => change m with (deleted fs (names i)) in Hc end.
  assert (Hother : forall f, f ∉ names i -> deleted fs (names i) !! f = fs !! f) by (intros; by rewrite lookup_deleted, decide_False).
  pose proof (Hother _ (names_registry i)) as Hreg'. rewrite Hreg in Hreg'. wp_go.
  eapply find_registry; [done|exact Hreg'|apply has_id_Some|by intros; eapply client_is_entry|exact Hc|]. rewrite Hfirst.
  clear Hc. intros c' x6 h6 Hi' Hc. wp_go. assert (Hlt := lookup_lt_Some _ _ _ Hi).
  assert (Hl' : slots_ok (splice (slots r) i [None])) by (apply slots_ok_put; done || lia).
  eapply (wp_save (slots r) _ _ i); [lia|done|done|exact Hc|exact Hreg'|exact (wf_zero (E := entry_client))|].
  clear Hc. intros x9 h9 Hc. wp_go. split; [done|]. cbn [snd]. rewrite insert_splice by done.
  unfold rep. cbn [slots current started err]. pst_simpl. splits; [|done|congruence|congruence|done].
  eexists _, _. split; [exact Hc|]. apply (on_card_put _ fs _ i None); [lia|done..| |].
  - intros j x' Hj Hx Hjc. apply Hother. by apply names_other.
  - cbn [slot_files]. intros x' Hx. by rewrite lookup_deleted, decide_True by (by apply names_self).
Qed.

(** The operations on the registry itself. *)
Definition on_registry (o : op) : bool :=
  match o with
  | Start _ | StartAddress _ | Apply | Exist | Add _ _ _ | Reset_ _ _ _ | Delete _ | SetState _ | SetTimeout _ | SetAwait _ | SetAwaitId _
  | GetState | GetAwait | GetAwaitId | GetId | SubscriptionCount => true
  | _ => false
  end.
Lemma registry_op_implements (o : op) r s : on_registry o = true -> op_ok o r -> rep r s -> implements o r s.
Proof.
  intros Hreg Ho Hrep. pose proof (getters_ok r s Hrep) as (? & ? & ? & ?). destruct o; try done.
  - by apply start_ok.
  - destruct Ho. by apply start_address_ok.
  - by apply apply_ok.
  - by apply exist_ok.
  - by apply add_ok.
  - by apply reset_ok.
  - by apply delete_ok.
  - exact (proj1 (setters_ok r s _ Hrep) Ho).
  - exact (proj1 (proj2 (setters_ok r s _ Hrep)) Ho).
  - exact (proj1 (proj2 (proj2 (setters_ok r s _ Hrep))) Ho).
  - exact (proj2 (proj2 (proj2 (setters_ok r s _ Hrep))) Ho).
  - by apply subscription_count_ok.
Qed.
End Representation.
