(* ===== verification/PersistData.v ===== *)
(** * PersistData: the files of the clients over Persist.v

    Registrations, subscriptions, wills and publishes: LinuxPersistent implements the
    abstract registry of Registry.v for these too, and so for every sequence of its
    operations. *)
From Stdlib Require Import ZifyBool.
From S2P Require Import Prelude CMem Persist Card Registry PersistSpec.

(** ** What the loops over entries compute *)

Section Scans.
Context `{Entry E}.
Implicit Types (es : list E) (p : E -> bool).

(** The first entry that satisfies [p]. *)
Definition step_find {R} p (f : E -> R) (e : E) (_ : unit) : ctl unit R := if p e then Return (f e) else Next tt.
Lemma scan_find {R} p (f : E -> R) es :
  (scan (step_find p f) (fun _ => tt) es tt).1 = match look p f es with Some x => inr x | None => inl tt end.
Proof. induction es as [|e es IH]; [done|]. rewrite look_cons. cbn [scan]. unfold step_find at 1. by destruct (p e). Qed.

(** An index as the code keeps it: -1 is none. *)
Definition idx (o : option nat) : Z := match o with Some i => Z.of_nat i | None => -1 end.

(** The last free entry, unless an entry is [hit]. *)
Definition step_slots {R} p (hit : E -> bool) (f : E -> R) (e : E) '((n, k) : Z * Z) : ctl (Z * Z) R :=
  if p e then Next (to_ushort (n + 1), n) else if hit e then Return (f e) else Next (to_ushort (n + 1), k).
Definition next_entry '((n, k) : Z * Z) : Z * Z := (to_ushort (n + 1), k).

Lemma scan_slots {R} p hit (f : E -> R) es : Z.of_nat (length es) < 65535 -> (forall e, p e = true -> hit e = false) ->
  match look hit f es with
  | Some x => (scan (step_slots p hit f) next_entry es (0, -1)).1 = inr x
  | None => scan (step_slots p hit f) next_entry es (0, -1) = (inl (Z.of_nat (length es) + 1, idx (last_index p es)), zero_entry)
  end.
Proof.
  intros Hlen Hp. unfold last_index.
  enough (forall i o, Z.of_nat (i + length es) < 65535 ->
    match look hit f es with
    | Some x => (scan (step_slots p hit f) next_entry es (Z.of_nat i, idx o)).1 = inr x
    | None => scan (step_slots p hit f) next_entry es (Z.of_nat i, idx o) =
        (inl (Z.of_nat (i + length es) + 1, idx (foldl (fun '(k, f) e => (S k, if p e then Some k else f)) (i, o) es).2), zero_entry)
    end) as Hall by (apply (Hall O None); done).
  clear Hlen. induction es as [|e es IH]; intros i o Hi.
  - cbn [scan look list_find foldl length]. cbn. rewrite to_ushort_id by lia. by rewrite Nat.add_0_r.
  - rewrite look_cons. cbn [length scan foldl] in *. unfold step_slots at 1 3.
    specialize (IH (S i) (if p e then Some i else o)). rewrite Nat2Z.inj_succ in IH.
    replace (i + S (length es))%nat with (S i + length es)%nat by lia.
    destruct (p e) eqn:Ep; [rewrite (Hp e Ep)|destruct (hit e); [done|]]; rewrite to_ushort_id by lia; apply IH; lia.
Qed.

(** The last entry that satisfies [p]. *)
Definition step_last {R} p (e : E) '((n, k) : Z * Z) : ctl (Z * Z) R := Next (to_ushort (n + 1), if p e then n else k).
Lemma scan_last {R} p es : Z.of_nat (length es) < 65535 ->
  scan (step_last (R := R) p) next_entry es (0, -1) = (inl (Z.of_nat (length es) + 1, idx (last_index p es)), zero_entry).
Proof.
  unfold last_index. intros Hlen.
  enough (forall i o, Z.of_nat (i + length es) < 65535 -> scan (step_last (R := R) p) next_entry es (Z.of_nat i, idx o) =
    (inl (Z.of_nat (i + length es) + 1, idx (foldl (fun '(k, f) e => (S k, if p e then Some k else f)) (i, o) es).2), zero_entry)) as Hall
    by (apply (Hall O None); done).
  clear Hlen. induction es as [|e es IH]; intros i o Hi.
  - cbn. rewrite to_ushort_id by lia. by rewrite Nat.add_0_r.
  - cbn [length scan foldl] in *. specialize (IH (S i) (if p e then Some i else o)). rewrite Nat2Z.inj_succ in IH.
    replace (i + S (length es))%nat with (S i + length es)%nat by lia. unfold step_last at 1. rewrite to_ushort_id by lia.
    destruct (p e); apply IH; lia.
Qed.

(** What the code does with the index it kept. *)
Lemma first_empty_space p es :
  (if idx (last_index p es) =? -1 then Z.of_nat (length es) + 1 - 1 else idx (last_index p es)) = Z.of_nat (free_index p es).
Proof. unfold free_index. destruct (last_index p es) as [i|]; cbn [idx default]; [destruct (Z.eqb_spec (Z.of_nat i) (-1))|]; cbn; lia. Qed.
End Scans.

(** ** An operation on the data of the client *)

Section Data.
Context `{CoreTypes} `{!CoreOk} `{!Limits} `{SdOk}.
Let Hfuel : (cap < fuel)%nat := cap_fuel.
Let Hcap : Z.of_nat cap < 65535 := cap_ushort.
Implicit Types (s : pst) (fs : filemap) (r : registry) (c : info) (d : data).

(** What the operations on files leave alone in the object. *)
Definition kept s s' : Prop :=
  _transaction_started s' = _transaction_started s /\ _error s' = _error s /\
  _not_in_client_registry s' = _not_in_client_registry s /\ _entry_client s' = _entry_client s.

(** The client [c] of slot [i] in a transaction, its files among the files of the card. *)
Definition serving r s i c fs h : Prop :=
  acting r = Some (i, c) /\ card fs h s /\ slot_files fs i (Some c) /\ data_ok (i_data c) /\ _entry_client s = client_entry_at i c.

(** [k'] is [k] behind the test of the transaction, [d] without one. *)
Definition guards r s {A} (k' k : M pst A) (d : A) : Prop :=
  match acting r with
  | Some _ => forall Q, wp k Q s -> wp k' Q s
  | None => forall Q : A -> pst -> Prop, Q d s -> wp k' Q s
  end.

Lemma guards_transaction r s {A} (k : M pst A) (d : A) : rep r s -> guards r s (in_transaction d k) k d.
Proof.
  intros Hrep. pose proof (rep_acting r s Hrep) as Hact. unfold guards. destruct (acting r) as [[i c]|].
  - destruct Hact as (_ & _ & _ & _ & _ & _ & _ & Hact). intros Q. apply Hact.
  - intros Q. apply Hact.
Qed.

Lemma guards_registered r s {A} (k : M pst A) (d : A) : rep r s -> registered r ->
  guards r s (s ← get; if negb (_transaction_started s) || _error s then mret d else k) k d.
Proof.
  intros Hrep Hreg. pose proof (rep_acting r s Hrep) as Hact. destruct Hrep as (_ & _ & Hts & Her & Hcur). unfold guards.
  destruct (acting r) as [[i c]|] eqn:Ha.
  - destruct Hact as (_ & _ & _ & _ & _ & Hst & He & _). intros Q HQ. apply wp_bind, wp_get. by rewrite Hts, Her, Hst, He.
  - intros Q HQ. apply wp_bind, wp_get. rewrite Hts, Her. unfold acting, registered in *.
    destruct (started r), (err r); cbn [negb orb andb] in *; try done. destruct (Hreg eq_refl eq_refl) as [i Hi].
    rewrite Hi in Ha, Hcur. destruct Hcur as (_ & _ & c & Hc & _). cbn [mbind option_bind] in Ha. by rewrite Hc in Ha.
Qed.

Lemma rep_serving r s i c : rep r s -> acting r = Some (i, c) ->
  exists fs h, serving r s i c fs h /\ on_card (slots r) fs /\ (i < cap)%nat.
Proof.
  intros Hrep Ha. pose proof (rep_acting r s Hrep) as Hact. rewrite Ha in Hact. destruct Hact as (_ & Hi & He & Hok & Hic & _).
  destruct Hrep as ((fs & h & Hc & Hon) & _). exists fs, h. split; [|done]. unfold serving. splits; try done.
  - destruct Hon as [_ Hf]. specialize (Hf i Hic). by rewrite Hi in Hf.
  - by destruct Hok as (_ & _ & _ & _ & _ & _ & _ & _ & Hd).
Qed.

Lemma rep_kept r s s' fs h : rep r s -> on_card (slots r) fs -> card fs h s' -> kept s s' -> rep r s'.
Proof.
  intros (_ & Hl & Hts & Her & Hcur) Hon Hc (Et & Ee & En & Ec). unfold rep. rewrite Et, Ee, En, Ec. splits; eauto.
Qed.

(** Asking about the data. *)
Lemma ask_data_ok r s {A} (k' k : M pst A) (d : A) (v : info -> A) (mk : A -> result) : rep r s -> guards r s k' k d ->
  (forall i c fs h, serving r s i c fs h -> (i < cap)%nat -> wp k (fun x s' => x = v c /\ kept s s' /\ exists h', card fs h' s') s) ->
  wp (x ← k'; mret (mk x)) (fun x s' => x = (ask r (mk d) (fun c => mk (v c))).1 /\ rep (ask r (mk d) (fun c => mk (v c))).2 s') s.
Proof.
  intros Hrep Hg Hk. unfold ask, guards in *. cbn [fst snd]. apply wp_bind. destruct (acting r) as [[i c]|] eqn:Ha; [|by apply Hg].
  destruct (rep_serving r s i c Hrep Ha) as (fs & h & Hs & Hon & Hic). apply Hg. eapply wp_mono; [by eapply Hk|].
  intros x s' (-> & Hkept & h' & Hc). apply wp_ret. split; [done|]. by eapply rep_kept.
Qed.

(** Changing the data: the files of the slot are those of the new data, or the error is set. *)
Definition changed s i c fs (od : option data) s' : Prop :=
  match od with
  | Some d => kept s s' /\ data_ok d /\ exists fs' h', card fs' h' s' /\ (forall f, f ∉ names i -> fs' !! f = fs !! f) /\
      slot_files fs' i (Some (with_data c d))
  | None => (exists h', card fs h' s') /\ _transaction_started s' = _transaction_started s /\ _error s' = true /\
      _not_in_client_registry s' = _not_in_client_registry s /\ _entry_client s' = _entry_client s
  end.

Lemma rep_changed r s s' i c fs h f : rep r s -> acting r = Some (i, c) -> (i < cap)%nat -> on_card (slots r) fs -> card fs h s ->
  changed s i c fs (f (i_data c)) s' -> rep (change_data r f).2 s'.
Proof.
  intros Hrep Ha Hic Hon Hc Hch. unfold change_data. rewrite Ha. cbn [snd]. destruct (f (i_data c)) as [d|]; cbn [changed] in Hch.
  - destruct Hch as ((Et & Ee & En & Ec) & Hd & fs' & h' & Hc' & Hother & Hfiles).
    pose proof (rep_acting r s Hrep) as Hact. rewrite Ha in Hact. destruct Hact as (Hcur & Hi & He & Hok & _ & Hst & Herr & _).
    destruct Hrep as (_ & Hl & Hts & Her & Hcu). rewrite Hcur in Hcu. destruct Hcu as (_ & Hn & _).
    assert (Hlt := lookup_lt_Some _ _ _ Hi). unfold rep, set_slot. cbn [slots current started err]. rewrite (insert_splice _ i) by done.
    assert (Hent : client_entry_at i (with_data c d) = client_entry_at i c) by done. splits; [| |congruence|congruence|].
    + exists fs', h'. split; [done|]. destruct Hon as [Hreg Hfs]. split.
      * rewrite entries_put by lia. cbn [entry_at]. rewrite Hent, Hother by apply names_registry. rewrite Hreg. do 2 f_equal.
        apply list_eq. intros j. rewrite <- insert_splice by (by rewrite length_slot_entries).
        destruct (decide (j = i)) as [->|]; [|by rewrite list_lookup_insert_ne].
        rewrite list_lookup_insert_eq by (by rewrite length_slot_entries). unfold entries. by rewrite list_lookup_imap, Hi.
      * intros j Hj. rewrite lookup_splice_one by lia. destruct (decide (j = i)) as [->|Hne]; [done|].
        eapply slot_files_agree; [|by apply Hfs]. intros x Hx. apply Hother. by apply names_other.
    + apply slots_ok_put; [lia|done|done|]. intros ? [= <-]. unfold info_ok in *. cbn. tauto.
    + rewrite Hcur. splits; [done|congruence|]. exists (with_data c d). split; [|congruence].
      by rewrite lookup_splice_one, decide_True by (done || lia).
  - destruct Hch as ((h' & Hc') & Et & Ee & En & Ec). destruct Hrep as (_ & Hl & Hts & Her & Hcu).
    unfold rep, failed. cbn [slots current started err]. rewrite Et, Ee, En, Ec. splits; eauto.
Qed.

Lemma change_data_ok r s (k' k : M pst unit) f : rep r s -> guards r s k' k tt ->
  (forall i c fs h, serving r s i c fs h -> (i < cap)%nat -> wp k (fun _ s' => changed s i c fs (f (i_data c)) s') s) ->
  wp (k';; mret Done) (fun x s' => x = (change_data r f).1 /\ rep (change_data r f).2 s') s.
Proof.
  intros Hrep Hg Hk. apply wp_bind. unfold guards in Hg. destruct (acting r) as [[i c]|] eqn:Ha.
  - destruct (rep_serving r s i c Hrep Ha) as (fs & h & Hs & Hon & Hic). apply Hg. eapply wp_mono; [by eapply Hk|].
    intros [] s' Hch. apply wp_ret. split; [unfold change_data; by rewrite Ha|]. destruct Hs as (_ & Hc & _). by eapply rep_changed.
  - apply Hg, wp_ret. unfold change_data. by rewrite Ha.
Qed.

(** ** Subscriptions *)

Ltac serve := intros i c fs h (Ha & Hc & (Hregs & Hsubs & Hwills & Hpubs) & Hd & He) Hic.
(** The entries just read. *)
Ltac entry_read Hwf := rewrite ?Z.eqb_refl; rewrite ?(dec_enc _ Hwf).

Lemma slot_files_subs fs i c l : slot_files fs i (Some c) ->
  slot_files (<[num i ++ SUBSCRIBE_FILE_ENDING := table l]> fs) i (Some (with_data c (with_subs (i_data c) l))).
Proof. intros (? & ? & ? & ?). cbn [slot_files]. splits; by rewrite ?lookup_insert_eq, ?lookup_insert_ne by (intros E%app_inv_head; done). Qed.
Lemma slot_files_regs fs i c l : slot_files fs i (Some c) ->
  slot_files (<[num i ++ REGISTRATION_FILE_ENDING := table l]> fs) i (Some (with_data c (with_regs (i_data c) l))).
Proof. intros (? & ? & ? & ?). cbn [slot_files]. splits; by rewrite ?lookup_insert_eq, ?lookup_insert_ne by (intros E%app_inv_head; done). Qed.
Lemma slot_files_wills fs i c l : slot_files fs i (Some c) ->
  slot_files (<[num i ++ WILL_FILE_ENDING := table l]> fs) i (Some (with_data c (with_wills (i_data c) l))).
Proof. intros (? & ? & ? & ?). cbn [slot_files]. splits; by rewrite ?lookup_insert_eq, ?lookup_insert_ne by (intros E%app_inv_head; done). Qed.
Lemma slot_files_pubs fs i c l : slot_files fs i (Some c) ->
  slot_files (<[num i ++ PUBLISH_FILE_ENDING := table l]> fs) i (Some (with_data c (with_pubs (i_data c) l))).
Proof. intros (? & ? & ? & ?). cbn [slot_files]. splits; by rewrite ?lookup_insert_eq, ?lookup_insert_ne by (intros E%app_inv_head; done). Qed.

Lemma insert_other fs i x b f : x ∈ extensions -> f ∉ names i -> (<[num i ++ x := b]> fs : filemap) !! f = fs !! f.
Proof. intros Hx Hf. rewrite lookup_insert_ne; [done|]. intros <-. by apply Hf, names_self. Qed.

Lemma stored_name {E} `{Entry E} (nul : E -> list Z) l e : stored nul l -> e ∈ l -> cstring (nul e) = Some (text (nul e)) /\ wf e.
Proof.
  intros (Hwf & _ & Hn) He. rewrite Forall_forall in Hwf, Hn. destruct (Hn e He) as [x Hx]. unfold text. by rewrite Hx; auto.
Qed.

Lemma wp_name_is t a (Q : bool -> pst -> Prop) s : cstring a = Some (text a) -> length a = 255%nat ->
  Q (bool_decide (text a = t)) s -> wp (name_is t a) Q s.
Proof.
  intros Ha Hl HQ. unfold name_is. apply wp_bind. eapply wp_lift; [exact Ha|]. apply wp_ret.
  apply cstring_short in Ha. rewrite Hl in Ha. unfold MAXIMUM_TOPIC_NAME_LENGTH. destruct (Z.ltb_spec (Z.of_nat (length (text a))) 255); [done|lia].
Qed.

Lemma wp_find_subscription {A} r s i c fs h t (ret : entry_subscription -> A) (Q : option A -> pst -> Prop) :
  serving r s i c fs h ->
  (forall x h', card fs h' (with_sd x s) -> Q (look (sub_is t) ret (subs (i_data c))) (with_sd x s)) ->
  wp (find_subscription fuel t ret) Q s.
Proof.
  intros (Ha & Hc & (_ & Hsubs & _) & (_ & Hd & _) & He) HQ. unfold find_subscription. wp_go. eapply wp_filename; [exact He|]. wp_go.
  change sizeof_sub with (esize (E := entry_subscription)).
  eapply (wp_scan (E := entry_subscription) (step_find (sub_is t) ret) (fun _ => tt) _ (fun _ s => s)); [exact Hsubs|apply Hd|destruct Hd; lia|exact Hc|..].
  - intros e [] s' Hin. destruct (stored_name _ _ e Hd Hin) as [Hn Hwf].
    change (sub_of (enc e)) with (dec (E := entry_subscription) (enc e)). entry_read Hwf. wp_go.
    eapply wp_name_is; [exact Hn|apply Hwf|]. unfold step_find, sub_is, topic_of. by case_bool_decide; wp_go.
  - intros [] s'. by wp_go.
  - done.
  - done.
  - intros y h' Hy. rewrite scan_find. specialize (HQ _ _ Hy). by destruct (look (sub_is t) ret (subs (i_data c))); wp_go.
Qed.

Lemma with_sd_kept x s : kept s (with_sd x s).
Proof. done. Qed.

Lemma ask_sub_ok {A} r s t (d nf : A) (ret : entry_subscription -> A) (mk : A -> result) : rep r s ->
  wp (x ← in_transaction d (if bad_topic t then mret d else t ← lift t; o ← find_subscription fuel t ret; mret (default nf o)); mret (mk x))
    (fun x s' => x = (ask r (mk d) (fun c => mk (ask_sub t d nf ret (subs (i_data c))))).1 /\
                 rep (ask r (mk d) (fun c => mk (ask_sub t d nf ret (subs (i_data c))))).2 s') s.
Proof.
  intros Hrep. eapply (ask_data_ok r s _ _ d (fun c => ask_sub t d nf ret (subs (i_data c))) mk); [done|by apply guards_transaction|].
  intros i c fs h Hs Hic. unfold ask_sub. destruct (bad_topic t) eqn:Eb.
  - wp_go. splits; [done..|]. destruct Hs as (_ & Hc & _). eauto.
  - destruct t as [t|]; [|done]. apply wp_bind. eapply wp_lift; [done|]. apply wp_bind. eapply wp_find_subscription; [done|].
    intros x h' Hx. wp_go. splits; [done..|]. eauto.
Qed.

Lemma ask_subs_ok r s t : rep r s -> implements (IsSub t) r s /\ implements (SubQos t) r s /\ implements (SubTopic t) r s.
Proof. intros Hrep. splits; by apply ask_sub_ok. Qed.

(** Short circuits, and a name that is empty. *)
Lemma wp_also b k v (Q : bool -> pst -> Prop) s : wp k (fun x s' => x = v /\ s' = s) s -> Q (b && v) s -> wp (also b k) Q s.
Proof. intros Hk HQ. unfold also. destruct b; [|by apply wp_ret]. eapply wp_mono; [exact Hk|]. by intros x s' [-> ->]. Qed.
Lemma wp_no_name a (Q : bool -> pst -> Prop) s : cstring a = Some (text a) -> Q (bool_decide (text a = [])) s -> wp (no_name a) Q s.
Proof.
  intros Ha HQ. unfold no_name. apply wp_bind. unfold strlen_. eapply wp_lift; [by rewrite Ha|]. apply wp_ret.
  destruct (text a); exact HQ.
Qed.

(** Writing entry [k] of a table, once the file is open. *)
Lemma wp_put {E} `{EntryOk E} {B} (Kb : bool -> M pst B) (K : Z -> M pst B) fs s f p l k (e : E) pos bs (Q : B -> pst -> Prop) :
  card fs (Some (f, FILE_WRITE, p)) s -> fs !! f = Some (table l) -> Forall wf l -> wf e -> (k <= length l)%nat -> (k <= cap)%nat ->
  (esize <= 600)%nat -> pos = Z.of_nat k * Z.of_nat esize -> Kb true = (write bs ≫= K) -> bs = enc e ->
  (forall v x h, card (<[f := table (splice l k [e])]> fs) h (with_sd x s) -> wp (K v) Q (with_sd x s)) ->
  wp (seek pos) (fun b => wp (Kb b) Q) s.
Proof.
  intros Hc Hf Hl He Hk Hkc Hsz -> HKb -> HK. pose proof (length_table _ Hl) as Hlen.
  eapply wp_seek; [exact Hc|exact Hf|nia|nia|]. clear Hc. intros x Hc. rewrite HKb. apply wp_bind.
  eapply wp_write; [exact Hc|exact Hf|nia|]. clear Hc. intros r y Hc.
  replace (Z.to_nat (Z.of_nat k * Z.of_nat esize)) with (k * esize)%nat in Hc by lia. rewrite table_put in Hc by done.
  exact (HK r y _ Hc).
Qed.

Lemma stored_splice {E} `{Entry E} (nul : E -> list Z) l k e : stored nul l -> wf e -> is_Some (cstring (nul e)) -> (k < cap)%nat ->
  (k <= length l)%nat -> stored nul (splice l k [e]).
Proof.
  intros (Hl & Hlen & Hn) He Hne Hk Hkl. unfold stored. splits; [by apply wf_put| |].
  - unfold splice. rewrite !length_app, length_take, length_drop. cbn [length]. lia.
  - unfold splice. repeat apply Forall_app_2; auto using Forall_take, Forall_drop.
Qed.

Lemma cstring_array n t : string_ok t -> (length t < n)%nat -> is_Some (cstring (padded n t)) /\ length (padded n t) = n.
Proof. intros Ht Hn. unfold padded. rewrite cstring_padded by done. rewrite length_app, length_zeros. split; [eauto|lia]. Qed.

Lemma bad_topic_false t : bad_topic t = false -> exists x, t = Some x /\ x <> [] /\ (length x < 255)%nat.
Proof.
  unfold bad_topic, MAXIMUM_TOPIC_NAME_LENGTH. destruct t as [x|]; [|done]. intros Hx. exists x. splits; [done| |lia].
  intros ->. cbn in Hx. done.
Qed.

Lemma add_sub_ok t id qos r s : op_ok (AddSub t id qos) r -> rep r s -> implements (AddSub t id qos) r s.
Proof.
  intros (Ht & Hid & Hq & Hroom) Hrep. unfold implements, run_op, spec_op.
  eapply (change_data_ok r s); [done|by apply guards_transaction|]. serve. unfold on_data in Hroom. rewrite Ha in Hroom.
  assert (Hsame : changed s i c fs (Some (i_data c)) s).
  { cbn [changed]. splits; [done..|]. exists fs, h. splits; [done|done|]. cbn [slot_files with_data i_data]. by splits. }
  destruct (bad_topic t) eqn:Eb; cbn [orb]; [by wp_go|]. destruct (Z.eqb_spec id 0) as [->|Hid0]; [by wp_go|].
  destruct (bad_topic_false t Eb) as (x & -> & Hx & Hlen). cbn [default] in *. wp_go. eapply wp_lift; [done|]. wp_go.
  eapply wp_filename; [exact He|]. wp_go. destruct (proj1 (proj2 Hd)) as (Hwf & Hl & Hn). pose proof (conj Hwf (conj Hl Hn)) as Hst.
  change sizeof_sub with (esize (E := entry_subscription)).
  eapply (wp_scan (E := entry_subscription)
    (step_slots sub_free (fun e => (s_topic_id e =? id) && sub_is x e) (fun _ => tt)) next_entry _ (fun _ s => s)); [exact Hsubs|done|lia|exact Hc|..].
  - intros e [n k] s' Hin. destruct (stored_name _ _ e Hst Hin) as [Hname He'].
    change (sub_of (enc e)) with (dec (E := entry_subscription) (enc e)). entry_read He'. wp_go.
    eapply wp_also; [by eapply wp_no_name|]. fold (topic_of e). fold (sub_free e). unfold step_slots.
    destruct (sub_free e); [by wp_go|]. wp_go. eapply wp_also; [eapply wp_name_is; [exact Hname|apply He'|done]|].
    fold (topic_of e). fold (sub_is x e). by destruct ((s_topic_id e =? id) && sub_is x e); wp_go.
  - intros [n k] s'. by wp_go.
  - done.
  - done.
  - clear Hc. intros y h' Hc. set (hit := fun e => (s_topic_id e =? id) && sub_is x e) in *.
    assert (Hfree : forall e, sub_free e = true -> hit e = false).
    { intros e. unfold hit, sub_free, sub_is. rewrite !andb_true_iff, bool_decide_eq_true. intros [_ ->].
      rewrite bool_decide_eq_false_2 by done. apply andb_false_r. }
    pose proof (scan_slots sub_free hit (fun _ => tt) (subs (i_data c)) ltac:(lia) Hfree) as Hscan.
    unfold add_sub. fold hit. rewrite (existsb_look hit (fun _ => tt)). destruct (look hit (fun _ => tt) (subs (i_data c))) as [u|].
    + rewrite Hscan in *. wp_go. cbn [changed]. splits; [done|done|]. exists fs, h'. splits; [exact Hc|done|]. cbn [slot_files]. by splits.
    + rewrite Hscan in *. cbn [fst snd] in *. wp_go. eapply wp_lift; [by apply strcpy_zeros|]. wp_go. rewrite first_empty_space.
      destruct (cstring_array 255 x Ht Hlen) as [Hnul Hlen'].
      eapply (wp_put (E := entry_subscription) _ _ _ _ _ _ _ (free_index sub_free (subs (i_data c))) (mkSub id qos (padded 255 x)));
        [exact Hc|exact Hsubs|done|by splits|apply free_index_le| |cbn; unfold sizeof_sub; lia|done|done|done|].
      * pose proof (free_index_le sub_free (subs (i_data c))). lia.
      * clear Hc. intros v z h2 Hc. wp_go. cbn [changed]. splits; [done| |].
        -- destruct Hd as (? & ? & ?). unfold data_ok. cbn [regs subs wills pubs with_subs]. splits; [done| |tauto..].
           pose proof (free_index_le sub_free (subs (i_data c))). unfold put_free. apply stored_splice; [done|by splits|done|lia|done].
        -- eexists _, _. splits; [exact Hc| |by apply slot_files_subs].
           intros f Hf. apply insert_other; [in_extensions|done].
Qed.

Lemma del_sub_ok id r s : op_ok (DelSub id) r -> rep r s -> implements (DelSub id) r s.
Proof.
  intros Hreg Hrep. unfold implements, run_op, spec_op.
  eapply (change_data_ok r s); [done|by apply guards_registered|]. serve.
  destruct (Z.eqb_spec id 0) as [->|Hid0].
  { wp_go. cbn [changed]. splits; [done..|]. exists fs, h. splits; [done|done|]. cbn [slot_files with_data i_data]. by splits. }
  wp_go. eapply wp_filename; [exact He|]. wp_go. destruct (proj1 (proj2 Hd)) as (Hwf & Hl & Hn). pose proof (conj Hwf (conj Hl Hn)) as Hst.
  change sizeof_sub with (esize (E := entry_subscription)). set (l := subs (i_data c)) in *.
  apply (wp_do_read (E := entry_subscription) _ (fun j a s' => a = Z.of_nat j /\ (forall k e, l !! k = Some e -> (k < j)%nat -> s_topic_id e <> id) /\
    exists x, s' = with_sd x s) _ fs (num i ++ SUBSCRIBE_FILE_ENDING) FILE_READ l fuel); [done|done|..].
  - clear Hc. intros j e a s' Hj (-> & Hbefore & x & ->) Hc. assert (Hjl := lookup_lt_Some _ _ _ Hj).
    assert (He' : wf e) by (by eapply Forall_lookup_1).
    change (sub_of (enc e)) with (dec (E := entry_subscription) (enc e)). entry_read He'. wp_go. cbn [andb].
    destruct (Z.eqb_spec (s_topic_id e) id) as [Eid|Eid].
    + assert (Efind : list_find (fun e => s_topic_id e =? id) l = Some (j, e)).
      { apply list_find_Some. splits; [done|by apply Is_true_true, Z.eqb_eq|]. intros k e' Hk Hkj. specialize (Hbefore k e' Hk Hkj).
        rewrite Is_true_true, Z.eqb_eq. done. }
      unfold at_entry in Hc. wp_go.
      eapply (wp_put (E := entry_subscription) _ _ _ _ _ _ _ j zero_entry);
        [exact Hc|exact Hsubs|done|apply wf_zero|lia|lia|cbn; unfold sizeof_sub; lia|done|done|done|].
      clear Hc. intros v y h2 Hc. wp_go. unfold del_sub. rewrite Efind. cbn [mbind option_bind changed]. splits; [done| |].
      * rewrite insert_splice by done. destruct Hd as (? & ? & ?). unfold data_ok. cbn [regs subs wills pubs with_subs]. splits; [done| |tauto..].
        apply stored_splice; [done|apply wf_zero|by eexists|lia|lia].
      * rewrite insert_splice by done. eexists _, _. splits; [exact Hc| |by apply slot_files_subs].
        intros f Hf. apply insert_other; [in_extensions|done].
    + wp_go. split; [|exact Hc]. splits; [rewrite to_ushort_id; lia| |by exists x].
      intros k e' Hk Hkj. destruct (decide (k = j)) as [->|]; [by simplify_eq|]. apply (Hbefore k e' Hk). lia.
  - clear Hc. intros a s' (-> & Hbefore & x & ->) Hc. wp_go. unfold del_sub.
    rewrite (proj2 (list_find_None _ l)).
    2: { apply Forall_lookup. intros k e Hk. rewrite Is_true_true, Z.eqb_eq. apply (Hbefore k e Hk). by eapply lookup_lt_Some. }
    cbn [mbind option_bind changed]. split; [by eexists|by splits].
  - intros j a s' y (-> & Hbefore & x & ->). splits; [done|done|]. by exists y.
  - lia.
  - splits; [done|lia|]. by eexists.
  - exact Hc.
Qed.

Lemma nth_sub_ok n r s : op_ok (NthSub n) r -> rep r s -> implements (NthSub n) r s.
Proof.
  intros [Hreg Hn] Hrep. unfold implements, run_op, spec_op.
  eapply (ask_data_ok r s _ _ 0 (fun c => default 0 (s_topic_id <$> subs (i_data c) !! n)) Num); [done|by apply guards_registered|].
  serve. unfold on_data in Hn. rewrite Ha in Hn. wp_go. eapply wp_filename; [exact He|]. wp_go.
  destruct (proj1 (proj2 Hd)) as (Hwf & Hl & _). pose proof (length_table _ Hwf) as Hlen.
  change (esize (E := entry_subscription)) with sizeof_sub in Hlen.
  eapply wp_seek; [exact Hc|exact Hsubs|nia|unfold sizeof_sub in *; lia|]. clear Hc. intros x Hc. cbn beta.
  replace (Z.of_nat n * Z.of_nat sizeof_sub) with (Z.of_nat (n * esize (E := entry_subscription))) in Hc by (cbn; lia).
  change sizeof_sub with (esize (E := entry_subscription)). wp_go. destruct (subs (i_data c) !! n) as [e|] eqn:Hj.
  - eapply wp_read_entry; [exact Hc|exact Hsubs|done|exact Hj|]. clear Hc. intros y Hc. cbn beta iota zeta.
    assert (He' : wf e) by (by eapply Forall_lookup_1).
    change (sub_of (enc e)) with (dec (E := entry_subscription) (enc e)). entry_read He'. cbn [andb fmap option_fmap option_map default].
    destruct (Z.eqb_spec (s_topic_id e) 0) as [E0|E0]; cbn [negb]; wp_go; (splits; [done|done|]); by eexists.
  - apply lookup_ge_None in Hj. assert (n = length (subs (i_data c))) as -> by lia.
    eapply wp_read_end; [exact Hc|exact Hsubs|done|]. clear Hc. intros y Hc. cbn beta iota zeta.
    change (0 =? Z.of_nat (esize (E := entry_subscription))) with false. cbn [andb]. wp_go. splits; [done|done|]. by eexists.
Qed.

(** ** Registrations *)

Lemma topic_name_ok id r s : op_ok (TopicName id) r -> rep r s -> implements (TopicName id) r s.
Proof.
  intros Hreg Hrep. unfold implements, run_op, spec_op.
  eapply (ask_data_ok r s _ _ None (fun c => if id =? 0 then None else look (fun e => r_topic_id e =? id) reg_name (regs (i_data c))) Id);
    [done|by apply guards_registered|].
  serve. destruct (id =? 0); wp_go; [splits; [done|done|]; by eexists|]. eapply wp_filename; [exact He|]. wp_go.
  destruct (proj1 Hd) as (Hwf & Hl & Hn). pose proof (conj Hwf (conj Hl Hn)) as Hst.
  change sizeof_reg with (esize (E := entry_registration)).
  eapply (wp_scan (E := entry_registration) (step_find (fun e => r_topic_id e =? id) reg_name) (fun _ => tt) _ with_reg);
    [exact Hregs|done|lia|exact Hc|..].
  - intros e [] s' Hin. destruct (stored_name _ _ e Hst Hin) as [Hname He'].
    change (reg_of (enc e)) with (dec (E := entry_registration) (enc e)). entry_read He'. wp_go.
    eapply (wp_also _ _ true); [|].
    { unfold short_name. apply wp_bind. unfold strlen_. eapply wp_lift; [by rewrite Hname|]. apply wp_ret. split; [|done].
      apply cstring_short in Hname. destruct He' as [_ Hlen']. unfold MAXIMUM_TOPIC_NAME_LENGTH. lia. }
    unfold step_find. rewrite andb_true_r. cbn [andb]. destruct (r_topic_id e =? id); wp_go; [|done].
    eapply wp_lift; [exact Hname|]. by wp_go.
  - intros [] s'. wp_go. by wp_go.
  - done.
  - done.
  - intros y h' Hy. rewrite scan_find in *.
    by destruct (look (fun e => r_topic_id e =? id) reg_name (regs (i_data c))); wp_go; (splits; [done|done|]); eexists.
Qed.

Lemma change_data_res_ok r s {A} (k' k : M pst A) (d : A) f (v : info -> A) (mk : A -> result) : rep r s -> guards r s k' k d ->
  (forall i c fs h, serving r s i c fs h -> (i < cap)%nat -> wp k (fun x s' => x = v c /\ changed s i c fs (f (i_data c)) s') s) ->
  wp (x ← k'; mret (mk x)) (fun x s' => x = (match acting r with Some (_, c) => mk (v c) | None => mk d end) /\ rep (change_data r f).2 s') s.
Proof.
  intros Hrep Hg Hk. apply wp_bind. unfold guards in Hg. destruct (acting r) as [[i c]|] eqn:Ha.
  - destruct (rep_serving r s i c Hrep Ha) as (fs & h & Hs & Hon & Hic). apply Hg. eapply wp_mono; [by eapply Hk|].
    intros x s' [-> Hch]. apply wp_ret. split; [done|]. destruct Hs as (_ & Hc & _). by eapply rep_changed.
  - apply Hg, wp_ret. unfold change_data. by rewrite Ha.
Qed.

Lemma wp_short_name a (Q : bool -> pst -> Prop) s : cstring a = Some (text a) -> length a = 255%nat -> Q true s -> wp (short_name a) Q s.
Proof.
  intros Ha Hl HQ. unfold short_name. apply wp_bind. unfold strlen_. eapply wp_lift; [by rewrite Ha|]. apply wp_ret.
  apply cstring_short in Ha. unfold MAXIMUM_TOPIC_NAME_LENGTH. destruct (Z.ltb_spec (Z.of_nat (length (text a))) 255); [done|lia].
Qed.

Lemma topic_known_ok id r s : op_ok (TopicKnown id) r -> rep r s -> implements (TopicKnown id) r s.
Proof.
  intros Hfound Hrep. unfold implements, run_op, spec_op. cbn [op_ok] in Hfound. unfold on_data in Hfound.
  destruct (Z.eqb_spec id 0) as [->|Hid0].
  { eapply wp_mono; [apply (change_data_res_ok r s _ (set_error true;; mret false) false (fun _ => None) (fun _ => false) Flag Hrep)|].
    - by apply guards_transaction.
    - serve. wp_go. split; [done|]. cbn [changed]. split; [by eexists|by splits].
    - intros x s' [-> Hr]. split; [by destruct (acting r) as [[]|]|done]. }
  eapply (ask_data_ok r s _ _ false (fun c => default false (look (fun e => r_topic_id e =? id) r_known (regs (i_data c)))) Flag);
    [done|by apply guards_transaction|].
  serve. rewrite Ha in Hfound. destruct (Hfound Hid0) as [b Hb].
  rewrite (proj2 (Z.eqb_neq id 0) Hid0). wp_go. eapply wp_filename; [exact He|]. wp_go.
  destruct (proj1 Hd) as (Hwf & Hl & Hn). pose proof (conj Hwf (conj Hl Hn)) as Hst.
  change sizeof_reg with (esize (E := entry_registration)).
  eapply (wp_scan (E := entry_registration) (step_find (fun e => r_topic_id e =? id) r_known) (fun _ => tt) _ with_reg);
    [exact Hregs|done|lia|exact Hc|..].
  - intros e [] s' Hin. destruct (stored_name _ _ e Hst Hin) as [Hname He'].
    change (reg_of (enc e)) with (dec (E := entry_registration) (enc e)). entry_read He'. wp_go.
    eapply wp_also; [by eapply wp_no_name|]. unfold step_find. destruct (Z.eqb_spec (r_topic_id e) id) as [E0|E0].
    + rewrite E0, (proj2 (Z.eqb_neq id 0) Hid0). cbn [andb]. wp_go. eapply wp_also; [by apply wp_short_name; [|apply He'|]|]. by wp_go.
    + match goal with |- wp (if ?x then _ else _) _ _ => destruct x end; [by wp_go|]. wp_go. eapply wp_also; [by apply wp_short_name; [|apply He'|]|]. by wp_go.
  - intros [] s'. wp_go. by wp_go.
  - done.
  - done.
  - intros y h' Hy. rewrite scan_find in *. rewrite Hb in *. wp_go. splits; [done|done|]. by eexists.
Qed.

Lemma reg_free_hit t e : reg_free e = true -> reg_is t e = false.
Proof. unfold reg_free, reg_is. by intros [-> _]%andb_true_iff. Qed.

Lemma add_reg_ok t r s : op_ok (AddReg t) r -> rep r s -> implements (AddReg t) r s.
Proof.
  intros (Ht & Hlen & Hroom) Hrep. unfold implements, run_op, spec_op. unfold on_data in Hroom.
  eapply wp_mono; [eapply (change_data_res_ok r s _ _ None (fun d => Some (with_regs d (add_reg t (regs d))))
    (fun c => Some (reg_id t (regs (i_data c)))) (fun v => if v is Some v then Num v else Id None) Hrep)|].
  1: by apply guards_transaction.
  2: { intros x s' [-> Hr]. split; [by destruct (acting r) as [[]|]|done]. }
  serve. rewrite Ha in Hroom. unfold MAXIMUM_TOPIC_NAME_LENGTH. destruct (Z.ltb_spec 255 (Z.of_nat (length t))); [lia|].
  wp_go. eapply wp_filename; [exact He|]. wp_go.
  destruct (proj1 Hd) as (Hwf & Hl & Hn). pose proof (conj Hwf (conj Hl Hn)) as Hst. set (l := regs (i_data c)) in *.
  change sizeof_reg with (esize (E := entry_registration)).
  eapply (wp_scan (E := entry_registration) (step_slots reg_free (reg_is t) r_topic_id) next_entry _
    (fun e => with_reg (if reg_is t e then mkReg (r_topic_id e) (r_topic_name e) true else e))); [exact Hregs|done|lia|exact Hc|..].
  - intros e [n k] s' Hin. destruct (stored_name _ _ e Hst Hin) as [Hname He'].
    change (reg_of (enc e)) with (dec (E := entry_registration) (enc e)). entry_read He'. wp_go.
    eapply wp_also; [by eapply wp_no_name|]. fold (reg_name e). fold (reg_free e). unfold step_slots.
    destruct (reg_free e) eqn:Ef.
    + rewrite reg_free_hit by done. by wp_go.
    + wp_go. eapply wp_also; [eapply wp_name_is; [exact Hname|apply He'|done]|].
      fold (reg_name e). fold (reg_is t e). by destruct (reg_is t e); wp_go.
  - intros [n k] s'. wp_go. by wp_go.
  - done.
  - done.
  - clear Hc. intros y h' Hc.
    pose proof (scan_slots reg_free (reg_is t) r_topic_id l ltac:(lia) (reg_free_hit t)) as Hscan.
    unfold add_reg, reg_id. fold l. rewrite (existsb_look (reg_is t) r_topic_id). destruct (look (reg_is t) r_topic_id l) as [u|].
    + rewrite Hscan in *. wp_go. split; [done|]. cbn [changed]. splits; [done|done|]. exists fs, h'. splits; [exact Hc|done|]. cbn [slot_files]. by splits.
    + rewrite Hscan in *. cbn [fst snd default] in *. wp_go. eapply wp_lift; [by apply (strcpy_zeros 255)|]. wp_go. rewrite first_empty_space.
      destruct (cstring_array 255 t Ht Hlen) as [Hnul Hlen']. pose proof (free_index_le reg_free l) as Hfi.
      assert (Hwe : wf (mkReg (Z.of_nat (length l) + 1) (padded 255 t) true)) by (split; [unfold ranged; cbn; lia|done]).
      eapply (wp_put (E := entry_registration) _ _ _ _ _ _ _ (free_index reg_free l) (mkReg (Z.of_nat (length l) + 1) (padded 255 t) true));
        [exact Hc|exact Hregs|done|done|done|lia|cbn; unfold sizeof_reg; lia|done|done|done|].
      clear Hc. intros v z h2 Hc. wp_go. split; [done|]. cbn [changed]. splits; [done| |].
      * destruct Hd as (? & ? & ?). unfold data_ok. cbn [regs subs wills pubs with_regs]. splits; [|done|tauto..].
        unfold put_free. apply stored_splice; [done|done|done|lia|done].
      * eexists _, _. splits; [exact Hc| |by apply slot_files_regs].
        intros f Hf. apply insert_other; [in_extensions|done].
Qed.

(** ** Wills *)

(** Reading the will file, which has at most one entry. *)
Lemma wp_read_will fs s f (Q : Z * list Z -> pst -> Prop) d : at_entry (E := entry_will) fs f FILE_READ 0 s ->
  fs !! f = Some (table (wills d)) -> data_ok d ->
  (forall x, card fs (Some (f, FILE_READ, Z.of_nat (length (wills d) * sizeof_will))) (with_sd x s) ->
    Q (if head (wills d) is Some _ then Z.of_nat sizeof_will else 0, enc (will_now d)) (with_sd x s)) ->
  wp (read_entry sizeof_will) Q s.
Proof.
  intros Hc Hf (_ & _ & (Hwf & _) & Hlen & _) HQ. unfold will_now in HQ. change sizeof_will with (esize (E := entry_will)).
  destruct (wills d) as [|w [|w' ws]] eqn:Ew; cbn [head length] in *; [| |lia].
  - eapply (wp_read_end (E := entry_will) _ _ _ _ []); [exact Hc|exact Hf|done|]. intros x Hx.
    change (zeros (esize (E := entry_will))) with (zeros sizeof_will). cbn [default] in HQ. unfold zero_entry in HQ.
    rewrite (enc_zero (E := entry_will)) in HQ. by apply HQ.
  - eapply (wp_read_entry (E := entry_will) _ _ _ _ [w] 0 w); [exact Hc|exact Hf|done|done|]. exact HQ.
Qed.

Lemma will_now_ok d : data_ok d -> wf (will_now d) /\ is_Some (cstring (willtopic (will_now d))).
Proof.
  intros (_ & _ & (Hwf & _ & Hn) & _). unfold will_now. destruct (wills d) as [|w ws]; cbn [head default].
  - split; [apply wf_zero|]. by eexists.
  - by apply Forall_cons in Hwf as [? _], Hn as [? _].
Qed.

Ltac will_read Hwf := lazymatch type of Hwf with wf ?w =>
  change (will_of (enc w)) with (dec (E := entry_will) (enc w)); rewrite (dec_enc w Hwf) end.

Lemma memcpy_zeros n m : (length m <= n)%nat -> memcpy_ (zeros n) m = Some (padded n m).
Proof.
  intros Hm. unfold memcpy_. rewrite length_zeros, decide_True by done. unfold splice, padded, zeros.
  by rewrite drop_replicate.
Qed.

Lemma has_will_ok r s : rep r s -> implements HasWill r s.
Proof.
  intros Hrep. unfold implements, run_op, spec_op.
  eapply (ask_data_ok r s _ _ false (fun c => if head (wills (i_data c)) is Some w then negb (bool_decide (will_topic w = [])) else false) Flag);
    [done|by apply guards_transaction|].
  serve. wp_go. eapply wp_filename; [exact He|]. wp_go. eapply wp_read_will; [exact Hc|exact Hwills|done|]. clear Hc. intros x Hc.
  cbn beta iota zeta. destruct (will_now_ok _ Hd) as [Hwf [t Ht]]. will_read Hwf.
  assert (Hhead : exists z, head (willtopic (will_now (i_data c))) = Some z /\ (z =? 0) = bool_decide (will_topic (will_now (i_data c)) = [])).
  { unfold will_topic, text. rewrite Ht. destruct (willtopic (will_now (i_data c))) as [|z a]; [done|]. exists z. split; [done|].
    cbn [cstring] in Ht. cbn [default]. destruct (z =? 0); [by injection Ht as <-|]. by destruct (cstring a); [injection Ht as <-|]. }
  destruct Hhead as (z & Hz & Ez). apply wp_bind. eapply wp_lift; [exact Hz|]. wp_go. split; [|split; [done|by eexists]].
  rewrite Ez. unfold will_now. by destruct (wills (i_data c)).
Qed.

Lemma get_will_ok r s : rep r s -> implements GetWill r s.
Proof.
  intros Hrep. unfold implements, run_op, spec_op.
  eapply (ask_data_ok r s _ _ None (fun c => w ← head (wills (i_data c));
      Some (will_topic w, take (Z.to_nat (willmsg_length w)) (willmsg w), will_qos w, will_retain w)) Will); [done|by apply guards_transaction|].
  serve. wp_go. eapply wp_filename; [exact He|]. wp_go. eapply wp_read_will; [exact Hc|exact Hwills|done|]. clear Hc. intros x Hc.
  cbn beta iota zeta. destruct (will_now_ok _ Hd) as [Hwf [t Ht]]. will_read Hwf. unfold will_now in *.
  destruct (wills (i_data c)) as [|w ws]; cbn [head default Datatypes.id] in *.
  - wp_go. split; [done|]. split; [done|]. by eexists.
  - rewrite Z.eqb_refl. apply wp_bind. eapply wp_lift; [exact Ht|]. wp_go. split; [|split; [done|by eexists]].
    cbn [mbind option_bind]. unfold will_topic, text. by rewrite Ht.
Qed.

(** Changing the will: the new entry, whatever there was. *)
Lemma wp_change_will r s i c fs h f w : serving r s i c fs h -> (i < cap)%nat -> f (will_now (i_data c)) = Some w ->
  wf w -> is_Some (cstring (willtopic w)) ->
  wp (change_will f) (fun _ s' => changed s i c fs (Some (with_wills (i_data c) [w])) s') s.
Proof.
  intros (Ha & Hc & (Hregs & Hsubs & Hwills & Hpubs) & Hd & He) Hic Hf Hw Hn. unfold change_will. wp_go.
  eapply wp_filename; [exact He|]. wp_go. eapply wp_read_will; [exact Hc|exact Hwills|done|]. clear Hc. intros x Hc. wp_go.
  destruct (will_now_ok _ Hd) as [Hwf _]. will_read Hwf. eapply wp_lift; [exact Hf|]. wp_go.
  pose proof Hd as (_ & _ & Hst & Hlen & _). destruct Hst as (Hws & Hcp & Hns).
  eapply (wp_put (E := entry_will) _ _ _ _ _ _ _ 0 w); [exact Hc|exact Hwills|done|done|lia|lia|cbn; unfold sizeof_will; lia|done|done|done|].
  clear Hc. intros v z h2 Hc. wp_go. cbn [changed].
  assert (Hone : splice (wills (i_data c)) 0 [w] = [w]).
  { unfold splice. cbn [take app length Nat.add]. f_equal. destruct (wills (i_data c)) as [|? [|]]; cbn in *; try done; lia. }
  rewrite Hone in Hc. splits; [done| |].
  - destruct Hd as (? & ? & ? & ? & ?). unfold data_ok. cbn [regs subs wills pubs with_wills]. splits; [done|done| |cbn; lia|tauto..].
    unfold stored. rewrite !Forall_singleton. splits; [done|cbn; lia|done].
  - eexists _, _. splits; [exact Hc| |by apply slot_files_wills]. intros g Hg. apply insert_other; [in_extensions|done].
Qed.

Lemma set_will_topic_ok t qos retain r s : op_ok (SetWillTopic t qos retain) r -> rep r s -> implements (SetWillTopic t qos retain) r s.
Proof.
  intros [Ht Hq] Hrep. unfold implements, run_op, spec_op.
  eapply (change_data_ok r s); [done|by apply guards_transaction|]. intros i c fs h Hs Hic.
  destruct (Z.leb_spec MAXIMUM_TOPIC_NAME_LENGTH (Z.of_nat (length t))).
  { wp_go. destruct Hs as (Ha & Hc & Hf & Hd & He). cbn [changed]. splits; [done..|]. exists fs, h. by splits. }
  unfold MAXIMUM_TOPIC_NAME_LENGTH in *. destruct (cstring_array 255 t Ht) as [Hnul Hlen]; [lia|].
  destruct (will_now_ok (i_data c)) as [(? & ? & ? & ?) _]; [by destruct Hs as (_ & _ & _ & Hd & _)|].
  eapply wp_change_will; [exact Hs|done| |by splits|done]. cbv beta. by rewrite strcpy_zeros by lia.
Qed.

Lemma set_will_message_ok m r s : op_ok (SetWillMessage m) r -> rep r s -> implements (SetWillMessage m) r s.
Proof.
  intros Hm Hrep. unfold implements, run_op, spec_op. cbn [op_ok] in Hm.
  eapply (change_data_ok r s); [done|by apply guards_transaction|]. intros i c fs h Hs Hic.
  destruct (will_now_ok (i_data c)) as [(? & ? & ? & ?) ?]; [by destruct Hs as (_ & _ & _ & Hd & _)|].
  eapply wp_change_will; [exact Hs|done| | |done].
  - cbv beta. by rewrite memcpy_zeros.
  - cbn. unfold padded. rewrite length_app, length_zeros. splits; [done|lia|unfold ranged; cbn; lia|done].
Qed.

Lemma delete_will_ok r s : rep r s -> implements DeleteWill r s.
Proof.
  intros Hrep. unfold implements, run_op, spec_op.
  eapply (change_data_ok r s); [done|by apply guards_transaction|]. serve. wp_go. eapply wp_filename; [exact He|]. wp_go.
  eapply wp_remove; [exact Hc|]. clear Hc. intros v x Hc. wp_go. eapply wp_create_file; [exact Hc|]. clear Hc. intros y Hc.
  rewrite lookup_delete_eq, insert_delete_eq in Hc. cbn [default changed] in *. splits; [done| |].
  - destruct Hd as (? & ? & ? & ? & ?). unfold data_ok. cbn [regs subs wills pubs with_wills]. splits; [done|done| |cbn; lia|tauto..].
    unfold stored. splits; [done|cbn; lia|done].
  - eexists _, _. splits; [exact Hc| |].
    + intros g Hg. apply insert_other; [in_extensions|done].
    + change (@nil Z) with (table (E := entry_will) []). apply slot_files_wills. cbn [slot_files]. by splits.
Qed.

(** ** Publishes *)

Ltac pub_read Hwf := lazymatch type of Hwf with wf ?e =>
  change (pub_of (enc e)) with (dec (E := entry_publish) (enc e)); rewrite (dec_enc e Hwf) end.

Lemma has_pub_ok r s : rep r s -> implements HasPub r s.
Proof.
  intros Hrep. unfold implements, run_op, spec_op.
  eapply (ask_data_ok r s _ _ false (fun c => existsb (fun e => negb (pub_free e)) (pubs (i_data c))) Flag); [done|by apply guards_transaction|].
  serve. unfold open_publishes. wp_go. eapply wp_filename; [exact He|]. wp_go.
  destruct Hd as (_ & _ & _ & _ & Hwf & Hl). change sizeof_pub with (esize (E := entry_publish)).
  eapply (wp_scan (E := entry_publish) (step_find (fun e => negb (pub_free e)) (fun _ => tt)) (fun _ => tt) _ (fun _ s => s));
    [exact Hpubs|done|lia|exact Hc|..].
  - intros e [] s' Hin. rewrite Forall_forall in Hwf. pose proof (Hwf e Hin) as He'. pub_read He'. rewrite Z.eqb_refl.
    unfold step_find, pub_free. by destruct (p_publish_id e =? 0); wp_go.
  - intros [] s'. by wp_go.
  - done.
  - done.
  - intros y h' Hy. rewrite (existsb_look _ (fun _ => tt)), scan_find.
    by destruct (look (fun e => negb (pub_free e)) (fun _ => tt) (pubs (i_data c))); wp_go; (split; [done|]; split; [done|]; eexists).
Qed.

(** The searches of [add_client_publish] and [get_next_publish]. *)
Lemma wp_scan_last fs s f (l : list entry_publish) p (body : Z -> list Z -> Z * Z -> M pst (ctl (Z * Z) False)) (Q : Z * Z + False -> pst -> Prop) : card fs (Some (f, FILE_READ, 0)) s ->
  fs !! f = Some (table l) -> Forall wf l -> (length l <= cap)%nat -> Z.of_nat (length l) < 65535 ->
  (forall e n k s, wf e -> wp (body (Z.of_nat sizeof_pub) (enc e) (n, k)) (fun x s' => x = step_last p e (n, k) /\ s' = s) s) ->
  (forall n k s, wp (body 0 (zeros sizeof_pub) (n, k)) (fun x s' => x = Next (next_entry (n, k)) /\ s' = s) s) ->
  (forall x h, card fs h (with_sd x s) -> Q (inl (Z.of_nat (length l) + 1, idx (last_index p l))) (with_sd x s)) ->
  wp (do_read fuel sizeof_pub body (0, -1)) Q s.
Proof.
  intros Hc Hf Hwf Hl Hlt Hbody Hend HQ. change sizeof_pub with (esize (E := entry_publish)).
  eapply (wp_scan (E := entry_publish) (step_last (R := False) p) next_entry _ (fun _ s => s)); [exact Hf|done|lia|exact Hc|..].
  - intros e [n k] s' Hin. rewrite Forall_forall in Hwf. by apply Hbody, Hwf.
  - intros [n k] s'. apply Hend.
  - done.
  - done.
  - intros x h. rewrite scan_last by done. apply HQ.
Qed.

Lemma add_pub_ok m id retain qos dup mid r s : op_ok (AddPub m id retain qos dup mid) r -> rep r s -> implements (AddPub m id retain qos dup mid) r s.
Proof.
  intros (Hm & Hid & Hq & Hroom) Hrep. unfold implements, run_op, spec_op. unfold on_data in Hroom.
  eapply (change_data_ok r s); [done|by apply guards_transaction|]. serve. rewrite Ha in Hroom.
  unfold open_publishes. wp_go. eapply wp_filename; [exact He|]. wp_go. pose proof Hd as (_ & _ & _ & _ & Hwf & Hl). set (l := pubs (i_data c)) in *.
  eapply (wp_scan_last fs _ _ l pub_free); [exact Hc|exact Hpubs|done|done|lia|..].
  - intros e n k s' He'. pub_read He'. rewrite Z.eqb_refl. wp_go. by unfold step_last, pub_free.
  - intros n k s'. by wp_go.
  - clear Hc. intros x h' Hc. wp_go. rewrite first_empty_space. eapply wp_lift; [by apply memcpy_zeros|]. wp_go.
    pose proof (free_index_le pub_free l) as Hfi. set (k := free_index pub_free l) in *. fold (padded 255 m).
    assert (Hwe : wf (new_pub m id retain qos k)).
    { cbn. unfold padded. rewrite length_app, length_zeros. splits; try done; unfold ranged; cbn; lia. }
    eapply (wp_put (E := entry_publish) _ _ _ _ _ _ _ k (new_pub m id retain qos k));
      [exact Hc|exact Hpubs|done|done|done|lia|cbn; unfold sizeof_pub; lia|done|done| |].
    + rewrite to_ushort_id by lia. done.
    + clear Hc. intros v z h2 Hc. wp_go. cbn [changed]. splits; [done| |].
      * destruct Hd as (? & ? & ? & ? & ?). unfold data_ok. cbn [regs subs wills pubs with_pubs]. splits; [done..|by apply wf_put|].
        unfold add_pub, put_free. rewrite length_splice_put by done. fold l. lia.
      * eexists _, _. splits; [exact Hc| |by apply slot_files_pubs]. intros g Hg. apply insert_other; [in_extensions|done].
Qed.

Lemma next_pub_ok r s : rep r s -> implements NextPub r s.
Proof.
  intros Hrep. unfold implements, run_op, spec_op.
  eapply (ask_data_ok r s _ _ None (fun c => pub_result <$> next_pub (pubs (i_data c))) Pub); [done|by apply guards_transaction|].
  serve. unfold open_publishes. wp_go. eapply wp_filename; [exact He|]. wp_go. destruct Hd as (_ & _ & _ & _ & Hwf & Hl). set (l := pubs (i_data c)) in *.
  eapply (wp_scan_last fs _ _ l (fun e => negb (pub_free e))); [exact Hc|exact Hpubs|done|done|lia|..].
  - intros e n k s' He'. pub_read He'. rewrite Z.eqb_refl. wp_go. unfold step_last, pub_free. by destruct (p_publish_id e =? 0).
  - intros n k s'. by wp_go.
  - clear Hc. intros x h' Hc. wp_go. unfold next_pub. destruct (last_index (fun e => negb (pub_free e)) l) as [k|] eqn:Ek; cbn [idx mbind option_bind].
    + destruct (Z.eqb_spec (Z.of_nat k) (-1)); [lia|]. destruct (last_index_Some _ _ _ Ek) as (e & Hk & _). rewrite Hk. cbn [fmap option_fmap option_map].
      pose proof (lookup_lt_Some _ _ _ Hk) as Hlt. pose proof (length_table _ Hwf) as Hlen. change (esize (E := entry_publish)) with sizeof_pub in Hlen. wp_go.
      eapply wp_seek; [exact Hc|exact Hpubs|nia|unfold sizeof_pub in *; lia|]. clear Hc. intros y Hc. cbn beta.
      replace (Z.of_nat k * Z.of_nat sizeof_pub) with (Z.of_nat (k * esize (E := entry_publish))) in Hc by (cbn; lia).
      change sizeof_pub with (esize (E := entry_publish)). wp_go.
      eapply wp_read_entry; [exact Hc|exact Hpubs|done|exact Hk|]. clear Hc. intros z Hc. cbn beta iota zeta.
      assert (He' : wf e) by (by eapply Forall_lookup_1). pub_read He'. wp_go. split; [done|]. split; [done|]. by eexists.
    + wp_go. split; [done|]. split; [done|]. by eexists.
Qed.

Lemma change_publish_ok pid f r s : rep r s -> (forall e, wf e -> wf (f e)) ->
  on_data r (fun d => 1 <= pid <= Z.of_nat (length (pubs d)) + 1) ->
  wp (change_publish pid f;; mret Done)
    (fun x s' => x = (change_data r (fun d => l ← change_pub pid f (pubs d); Some (with_pubs d l))).1 /\
                 rep (change_data r (fun d => l ← change_pub pid f (pubs d); Some (with_pubs d l))).2 s') s.
Proof.
  intros Hrep Hf Hpid. unfold on_data in Hpid. eapply (change_data_ok r s); [done|by apply guards_transaction|]. serve. rewrite Ha in Hpid.
  unfold open_publishes. wp_go. eapply wp_filename; [exact He|]. wp_go. pose proof Hd as (_ & _ & _ & _ & Hwf & Hl). set (l := pubs (i_data c)) in *.
  pose proof (length_table _ Hwf) as Hlen. change (esize (E := entry_publish)) with sizeof_pub in Hlen.
  set (k := Z.to_nat (pid - 1)). assert (Hk : pid - 1 = Z.of_nat k) by lia. rewrite Hk.
  eapply wp_seek; [exact Hc|exact Hpubs|nia|unfold sizeof_pub in *; lia|]. clear Hc. intros y Hc. cbn beta.
  replace (Z.of_nat k * Z.of_nat sizeof_pub) with (Z.of_nat (k * esize (E := entry_publish))) in Hc by (cbn; lia).
  unfold change_pub. fold k. destruct (l !! k) as [e|] eqn:Hj.
  - apply wp_bind. change sizeof_pub with (esize (E := entry_publish)). eapply (wp_read_entry (E := entry_publish) fs _ _ _ l k e); [exact Hc|exact Hpubs|done|exact Hj|]. clear Hc. intros z Hc.
    cbn beta iota zeta. assert (He' : wf e) by (by eapply Forall_lookup_1). pub_read He'. rewrite Z.eqb_refl.
    unfold at_entry in Hc. destruct (Z.eqb_spec (p_publish_id e) pid) as [Ep|Ep]; cbn [mbind option_bind changed]; wp_go; [|split; [by eexists|by splits]].
    pose proof (lookup_lt_Some _ _ _ Hj) as Hlt.
    eapply (wp_put (E := entry_publish) _ _ _ _ _ _ _ k (f e)); [exact Hc|exact Hpubs|done|by apply Hf|lia|lia|cbn; unfold sizeof_pub; lia|done|done|done|].
    clear Hc. intros v w h2 Hc. wp_go. rewrite (insert_splice l k) by done. splits; [done| |].
    + destruct Hd as (? & ? & ? & ? & ?). unfold data_ok. cbn [regs subs wills pubs with_pubs]. splits; [done..|by apply wf_put; [|apply Hf]|].
      rewrite length_splice_put by lia. lia.
    + eexists _, _. splits; [exact Hc| |by apply slot_files_pubs]. intros g Hg. apply insert_other; [in_extensions|done].
  - apply lookup_ge_None in Hj. assert (Hkl : k = length l) by lia. rewrite Hkl in Hc.
    apply wp_bind. change sizeof_pub with (esize (E := entry_publish)). eapply (wp_read_end (E := entry_publish) fs _ _ _ l); [exact Hc|exact Hpubs|done|]. clear Hc. intros z Hc.
    cbn beta iota zeta. change (0 =? Z.of_nat (esize (E := entry_publish))) with false. wp_go. cbn [mbind option_bind changed]. splits; [done|done|].
    exists fs. eexists. splits; [exact Hc|done|]. cbn [slot_files with_data i_data]. by splits.
Qed.

Lemma set_pub_msg_id_ok pid mid r s : op_ok (SetPubMsgId pid mid) r -> rep r s -> implements (SetPubMsgId pid mid) r s.
Proof.
  intros [Hm Hp] Hrep. assert (Hw : forall e, wf e -> wf (with_msg_id mid e)) by (intros e; cbn; tauto).
  exact (change_publish_ok pid (with_msg_id mid) r s Hrep Hw Hp).
Qed.

Lemma remove_pub_ok pid r s : op_ok (RemovePub pid) r -> rep r s -> implements (RemovePub pid) r s.
Proof. intros Hp Hrep. exact (change_publish_ok pid (fun _ => zero_entry) r s Hrep (fun _ _ => wf_zero) Hp). Qed.

(** ** Whatever is called *)

Lemma op_implements (o : op) r s : op_ok o r -> rep r s -> implements o r s.
Proof.
  intros Ho Hrep. destruct (on_registry o) eqn:Er; [by apply registry_op_implements|].
  pose proof (ask_subs_ok r s) as Hsubs. destruct o; try done; try (by apply Hsubs).
  - by apply add_sub_ok.
  - by apply del_sub_ok.
  - by apply nth_sub_ok.
  - by apply add_reg_ok.
  - by apply topic_name_ok.
  - by apply topic_known_ok.
  - by apply has_will_ok.
  - by apply get_will_ok.
  - by apply set_will_topic_ok.
  - by apply set_will_message_ok.
  - by apply delete_will_ok.
  - by apply has_pub_ok.
  - by apply add_pub_ok.
  - by apply next_pub_ok.
  - by apply set_pub_msg_id_ok.
  - by apply remove_pub_ok.
Qed.

Fixpoint run_ops (os : list op) : M pst (list result) :=
  match os with [] => mret [] | o :: os => x ← run_op o; xs ← run_ops os; mret (x :: xs) end.

Lemma run_ops_wp (os : list op) : forall r s, ops_ok os r -> rep r s ->
  wp (run_ops os) (fun xs s' => xs = (spec_ops os r).1 /\ rep (spec_ops os r).2 s') s.
Proof.
  induction os as [|o os IH]; intros r s; cbn [ops_ok run_ops spec_ops]; [by split|]. intros [Ho Hos] Hrep.
  apply wp_bind. eapply wp_mono; [by apply op_implements|]. intros x s' [-> Hrep'].
  apply wp_bind. eapply wp_mono; [by apply IH|]. intros xs s'' [-> Hrep'']. apply wp_ret.
  destruct (spec_op o r) as [x r']. cbn [fst snd] in *. by destruct (spec_ops os r') as [xs r''].
Qed.

(** Adding a client for a duration that the debugging output has no room for is undefined. *)
Lemma add_overruns id a (d : Z) r s : rep r s -> started r = true -> err r = false -> current r = None -> too_long id = false ->
  sprintf_d 10 d = None -> run_op (Add id a d) s = None.
Proof.
  intros (_ & _ & Hts & Her & Hcur) Hst He Hnone Hid Hd. rewrite Hnone in Hcur. unfold too_long in Hid.
  unfold run_op, add_client, get, lift, mbind, M_bind. cbv beta iota. rewrite Hts, Her, Hst, He, Hcur, Hid, Hd by done. done.
Qed.

End Data.

(** ** Starting up *)

Lemma name_length i x : x ∈ extensions -> length (num i ++ x) = 12%nat.
Proof. intros Hx. rewrite length_app. unfold extensions in Hx. set_unfold in Hx. by destruct_or? Hx; subst. Qed.

Section Start.
Context `{CoreTypes} `{!CoreOk} `{!Limits} `{SdOk}.

(** Begin keeps the clients on the card, empties the subscription counts, and leaves no transaction running; the error flag stays as it was. *)
Theorem begin_keeps_clients (l : list (option info)) (fs : filemap) (s : pst) : core_set s = true -> logger_set s = true -> card fs None s ->
  default [] (fs !! client_registry) = table (entries l) -> slots_ok l ->
  (forall i, (i < cap)%nat -> slot_files fs i (mjoin (l !! i))) ->
  exists s', begin s = Some (true, s') /\ rep (mkRegistry l None false (_error s)) s' /\ files (sd s') !! mqtt_sub = Some [].
Proof.
  intros Hcore Hlog Hc Hreg Hl Hfiles.
  enough (wp begin (fun b s' => b = true /\ rep (mkRegistry l None false (_error s)) s' /\ files (sd s') !! mqtt_sub = Some []) s) as Hwp.
  { destruct (wp_Some _ _ _ Hwp) as (b & s' & Hrun & -> & Hs'). eauto. }
  unfold begin. wp_go. rewrite Hcore, Hlog. cbn [negb]. wp_go.
  eapply wp_remove; [exact Hc|]. clear Hc. intros r x Hc. wp_go.
  eapply wp_create_file; [exact Hc|]. clear Hc. intros y Hc. wp_go.
  eapply wp_create_file; [exact Hc|]. clear Hc. intros z Hc. wp_go.
  rewrite lookup_insert_ne, (lookup_delete_ne _ mqtt_sub client_registry), Hreg, lookup_delete_eq in Hc by done. cbn [default] in Hc.
  splits; [done| |].
  - unfold rep. cbn [slots current started err]. splits; [|done..]. eexists _, _. split; [exact Hc|]. split.
    + by rewrite lookup_insert_ne, lookup_insert_eq by done.
    + intros i Hi. eapply slot_files_agree; [|by apply Hfiles]. intros x' Hx.
      rewrite lookup_insert_ne, lookup_insert_ne, lookup_delete_ne; [done|..].
      * intros E%(f_equal length). by rewrite (name_length i x' Hx) in E.
      * by apply registry_name.
      * intros E%(f_equal length). by rewrite (name_length i x' Hx) in E.
  - destruct Hc as [-> _]. by rewrite lookup_insert_eq.
Qed.
End Start.

(** ** A card in memory, and the types of a gateway, for the examples *)

Definition ram_card := (filemap * handle_t)%type.
#[local] Instance ram_sd : Sd := {
  SDS := ram_card;
  sd_open f m x :=
    match m with
    | FILE_READ => Some (tt, (x.1, if x.1 !! f is Some _ then Some (f, FILE_READ, 0) else None))
    | FILE_WRITE => let b := default [] (x.1 !! f) in Some (tt, (<[f := b]> x.1, Some (f, FILE_WRITE, Z.of_nat (length b))))
    end;
  sd_exists f x := Some (bool_decide (is_Some (x.1 !! f)), x);
  sd_remove f x := Some (bool_decide (is_Some (x.1 !! f)), (delete f x.1, x.2));
  f_close x := Some (tt, (x.1, None));
  f_flush x := Some (tt, x);
  f_seek q x :=
    match x.2 with
    | Some (f, m, p) => if q <=? Z.of_nat (length (default [] (x.1 !! f))) then Some (true, (x.1, Some (f, m, q))) else Some (false, x)
    | None => Some (false, x)
    end;
  f_read n x :=
    match x.2 with
    | Some (f, m, p) =>
        let bs := take (Z.to_nat n) (drop (Z.to_nat p) (default [] (x.1 !! f))) in
        Some (Z.of_nat (length bs), bs, (x.1, Some (f, m, p + Z.of_nat (length bs))))
    | None => Some (-1, [], x)
    end;
  f_getc x :=
    match x.2 with
    | Some (f, m, p) =>
        let b := default [] (x.1 !! f) in
        Some (default (-1) (b !! Z.to_nat p), (x.1, Some (f, m, Z.min (p + 1) (Z.of_nat (length b)))))
    | None => Some (-1, x)
    end;
  f_write bs x :=
    match x.2 with
    | Some (f, FILE_WRITE, p) =>
        let b := default [] (x.1 !! f) in
        Some (Z.of_nat (length bs), (<[f := splice b (Z.to_nat p) bs]> x.1, Some (f, FILE_WRITE, p + Z.of_nat (length bs))))
    | _ => Some (0, x)
    end
}.

#[local] Instance ram_sd_ok : SdOk.
Proof.
  refine {| files := fst : SDS -> filemap; handle := snd : SDS -> handle_t |}; try (intros [fs h] f; cbn; eexists; split; [reflexivity|]; done).
  - intros [fs h] f b Hb. cbn in *. rewrite Hb. by eexists.
  - intros [fs h]. by eexists.
  - intros [fs h]. by eexists.
  - intros [fs h] f Hh. cbn in *. eexists _, _. split; [reflexivity|]. by subst.
  - intros [fs h] f m p b q Hh Hf Hq. cbn in *. subst. rewrite Hf. cbn. destruct (Z.leb_spec q (Z.of_nat (length b))); [|lia]. by eexists.
  - intros [fs h] f m p b n Hh Hf Hp Hn. cbn in *. subst. rewrite Hf. cbn. by eexists.
  - intros [fs h] f m p b Hh Hf Hp Hb. cbn in *. subst. rewrite Hf. cbn. by eexists.
  - intros [fs h] f p b bs Hh Hf Hp. cbn in *. subst. rewrite Hf. cbn. eexists _, _. by split.
Defined.

#[local] Instance gateway_types : CoreTypes := {
  sizeof_address := 6; sizeof_status := 1; sizeof_message_type := 1;
  EMPTY := 0; ACTIVE := 1; LOST := 2; MQTTSN_PINGREQ := 22; SUCCESS := 0
}.
#[local] Instance gateway_types_ok : CoreOk.
Proof. by split. Qed.
#[local] Instance small_limits : Limits.
Proof. by refine {| fuel := 20; cap := 10 |}; cbn; try lia. Defined.

Definition blank : pst :=
  mkP (∅, None) zero_entry zero_entry zero_entry false false false false false true true.
Definition id_a : list Z := [97].
Definition topic_t : list Z := [116; 47; 49].
Definition gateway : pst := with_sd ({[client_registry := []; mqtt_sub := []]}, None) blank.
Definition no_clients : registry := mkRegistry [] None false false.

Definition session : list op := [
  Start id_a; Add id_a [1; 2; 3; 4; 5; 6] 60; AddReg topic_t; AddSub (Some topic_t) 1 1; IsSub (Some topic_t);
  AddPub [104; 105] 1 false 1 false 0; NextPub; SetWillTopic topic_t 0 true; SetState 2; Apply;
  Start id_a; GetState; GetWill; TopicName 1; SubQos (Some topic_t); Delete id_a; Apply;
  Start id_a; RemovePub 1; HasPub; DelSub 1; Delete id_a; Exist; Apply].
Definition session_results : list result := [
  Done; Done; Num 1; Done; Flag true; Done; Pub (Some ([104; 105], 1, false, 1, false, 1)); Done; Done; Num 1;
  Done; Num 2; Will (Some (topic_t, [], 0, true)); Id (Some topic_t); Num 1; Done; Num 0;
  Done; Done; Flag false; Done; Done; Flag false; Num 0].

Lemma gateway_rep : rep no_clients gateway.
Proof.
  unfold rep. splits; [|split; [cbn; lia|done]|done..]. exists {[client_registry := []; mqtt_sub := []]}, None. split; [done|]. split; [done|].
  intros i Hi. cbn [slots no_clients lookup list_lookup mjoin option_join slot_files]. intros x Hx.
  rewrite lookup_insert_ne, lookup_singleton_ne; [done|..]; intros E%(f_equal length); by rewrite (name_length i x Hx) in E.
Qed.


Lemma begin_keeps_clients_witness : exists s', begin blank = Some (true, s') /\ rep (mkRegistry [] None false false) s' /\
  files (sd s') !! mqtt_sub = Some [].
Proof.
  apply (begin_keeps_clients [] ∅ blank); try done. split; [cbn; lia|done].
Defined.
