(* ===== verification/PersistUse.v ===== *)
(** * PersistUse: identifiers and delivery over Persist.v

    The publish ids and topic ids that LinuxPersistent gives out say where their entries
    are, in every state that its operations lead to; so a registered topic name is found
    again by its id, and taking the next publish and removing it until there is none
    delivers every pending publish once. *)
From Stdlib Require Import ZifyBool.
From S2P Require Import Prelude CMem Persist Card Registry PersistSpec PersistData.

(** ** Identifiers *)

Section Ids.
Context `{CoreTypes} `{!CoreOk} `{!Limits}.

Definition pub_ids_ok (l : list entry_publish) : Prop :=
  forall k e, l !! k = Some e -> p_publish_id e = 0 \/ p_publish_id e = Z.of_nat k + 1.
Definition topic_ids_ok (l : list entry_registration) : Prop :=
  (forall k e, l !! k = Some e -> r_topic_id e = Z.of_nat k + 1) /\ NoDup (map reg_name l).
Definition ids_ok (d : data) : Prop := pub_ids_ok (pubs d) /\ topic_ids_ok (regs d).
Definition consistent (r : registry) : Prop := forall i c, slots r !! i = Some (Some c) -> ids_ok (i_data c).

Lemma no_data_ids : ids_ok no_data.
Proof. unfold ids_ok, pub_ids_ok, topic_ids_ok. cbn. splits; [done|done|constructor]. Qed.

Lemma add_pub_ids m id retain qos l : pub_ids_ok l -> pub_ids_ok (add_pub m id retain qos l).
Proof.
  intros Hl k e. unfold add_pub, put_free. rewrite lookup_splice_one by apply free_index_le.
  destruct (decide (k = free_index pub_free l)) as [->|]; [intros [= <-]; by right|apply Hl].
Qed.

Lemma change_pub_ids pid f l l' : pub_ids_ok l -> (forall e, p_publish_id (f e) = p_publish_id e \/ p_publish_id (f e) = 0) ->
  change_pub pid f l = Some l' -> pub_ids_ok l'.
Proof.
  intros Hl Hf. unfold change_pub. destruct (l !! Z.to_nat (pid - 1)) as [e|] eqn:Ek; [|by intros [= <-]].
  destruct (p_publish_id e =? pid); [|done]. intros [= <-] k e'. destruct (decide (k = Z.to_nat (pid - 1))) as [->|Hne].
  - rewrite list_lookup_insert_eq by (by eapply lookup_lt_Some). intros [= <-]. specialize (Hl _ _ Ek). destruct (Hf e); lia.
  - rewrite list_lookup_insert_ne by done. apply Hl.
Qed.

Lemma last_index_None {E} (p : E -> bool) l : (forall k e, l !! k = Some e -> p e = false) -> last_index p l = None.
Proof. intros Hl. destruct (last_index p l) as [k|] eqn:Ek; [|done]. apply last_index_Some in Ek as (e & Hk & Hp). by rewrite (Hl k e Hk) in Hp. Qed.

(** No registration is ever freed: a new one goes to the end. *)
Lemma add_reg_end t l : topic_ids_ok l -> add_reg t l = if existsb (reg_is t) l then l else l ++ [mkReg (Z.of_nat (length l) + 1) (padded 255 t) true].
Proof.
  intros [Hids _]. unfold add_reg, put_free, free_index. rewrite last_index_None.
  - unfold splice. cbn [default length]. by rewrite take_ge, drop_ge, app_nil_r by lia.
  - intros k e Hk. unfold reg_free. rewrite (Hids k e Hk). destruct (Z.eqb_spec (Z.of_nat k + 1) 0); [lia|done].
Qed.

Lemma text_padded n t : string_ok t -> (length t < n)%nat -> text (padded n t) = t.
Proof. intros Ht Hn. unfold text, padded. by rewrite cstring_padded. Qed.

Lemma existsb_reg t l : topic_ids_ok l -> existsb (reg_is t) l = bool_decide (t ∈ map reg_name l).
Proof.
  intros [Hids _]. apply eq_bool_prop_intro. rewrite Is_true_true, existsb_exists, bool_decide_spec, list_elem_of_fmap. split.
  - intros (e & He & Hr). exists e. unfold reg_is in Hr. apply andb_true_iff in Hr as [_ Hr%bool_decide_eq_true]. split; [done|by rewrite list_elem_of_In].
  - intros (e & -> & He). exists e. split; [by apply list_elem_of_In|]. apply list_elem_of_lookup_1 in He as [k Hk]. unfold reg_is.
    rewrite (Hids k e Hk), bool_decide_eq_true_2 by done. destruct (Z.eqb_spec (Z.of_nat k + 1) 0); [lia|done].
Qed.

Lemma add_reg_ids t l : string_ok t -> (length t < 255)%nat -> topic_ids_ok l -> topic_ids_ok (add_reg t l).
Proof.
  intros Ht Hlen Hl. rewrite add_reg_end, existsb_reg by done. case_bool_decide as Hin; [done|]. destruct Hl as [Hids Hnd]. split.
  - intros k e [[_ Hk]|[-> <-]]%lookup_snoc_Some; [by apply Hids|done].
  - rewrite map_app. cbn [map]. unfold reg_name at 2. cbn [r_topic_name]. rewrite text_padded by done.
    apply NoDup_app. splits; [done| |apply NoDup_singleton]. intros x Hx ->%list_elem_of_singleton. done.
Qed.

Lemma consistent_set r i c : consistent r -> ids_ok (i_data c) -> consistent (set_slot r i c).
Proof.
  intros Hr Hc j c'. unfold set_slot. cbn [slots]. intros [(-> & [= <-] & _)|[_ Hj]]%list_lookup_insert_Some; [done|]. by eapply Hr.
Qed.

Lemma acting_slot r i c : acting r = Some (i, c) -> slots r !! i = Some (Some c).
Proof.
  unfold acting. destruct (started r && negb (err r)); [|done]. destruct (current r) as [j|]; [|done]. cbn [mbind option_bind].
  destruct (slots r !! j) as [[c'|]|] eqn:Ej; cbn [mbind option_bind]; [|done..]. by intros [= <- <-].
Qed.

Lemma consistent_change_data r f : consistent r ->
  (forall i c d, acting r = Some (i, c) -> f (i_data c) = Some d -> ids_ok (i_data c) -> ids_ok d) -> consistent (change_data r f).2.
Proof.
  intros Hr Hf. unfold change_data. destruct (acting r) as [[i c]|] eqn:Ha; [|done]. cbn [snd].
  destruct (f (i_data c)) as [d|] eqn:Ed; [|done]. apply consistent_set; [done|]. eapply Hf; [done|done|]. eapply Hr. by apply acting_slot.
Qed.

Lemma consistent_change r f : consistent r -> (forall c, i_data (f c) = i_data c) -> consistent (change r f).2.
Proof.
  intros Hr Hf. unfold change. destruct (acting r) as [[i c]|] eqn:Ha; [|done]. apply consistent_set; [done|]. rewrite Hf.
  eapply Hr. by apply acting_slot.
Qed.

Lemma consistent_put r i c cur st er : consistent r -> (i <= length (slots r))%nat -> ids_ok (i_data c) ->
  consistent (mkRegistry (splice (slots r) i [Some c]) cur st er).
Proof.
  intros Hr Hi Hc j c'. cbn [slots]. rewrite lookup_splice_one by done. destruct (decide (j = i)); [by intros [= <-]|apply Hr].
Qed.

Lemma first_free_le l : (first_free l <= length l)%nat.
Proof.
  unfold first_free, first. destruct (list_find is_free l) as [[i o]|] eqn:Ef; [|done]. apply list_find_Some in Ef as (Hi & _).
  apply lookup_lt_Some in Hi. cbn. lia.
Qed.

Lemma spec_op_consistent o r : op_ok o r -> consistent r -> consistent (spec_op o r).2.
Proof.
  intros Ho Hr. destruct o; cbn [spec_op snd]; try done; try (by apply consistent_change).
  - by destruct (started r || too_long id).
  - by destruct (started r).
  - destruct (negb (started r) || err r); [done|]. destruct (current r); [done|]. destruct (too_long id); [done|].
    apply consistent_put; [done|apply first_free_le|apply no_data_ids].
  - destruct (acting r) as [[i c]|]; [|done]. cbn [snd]. destruct (too_long id || negb (bool_decide (i_id c = id))); [done|].
    destruct (first (has_id id) (slots r)) as [j|]; [|done]. intros k c'. cbn [slots]. rewrite list_lookup_alter.
    destruct (decide (j = k)) as [->|]; [|apply Hr]. destruct (slots r !! k) as [[c0|]|] eqn:Ek; cbn; [|done..].
    intros [= <-]. exact (Hr _ _ Ek).
  - destruct (acting r) as [[i c]|]; [|done]. cbn [snd]. destruct (too_long id || (0 <? subscribed (subs (i_data c)))); [done|].
    destruct (first (has_id id) (slots r)) as [j|]; [|done]. intros k c'. cbn [slots].
    intros [(_ & [=] & _)|[_ Hk]]%list_lookup_insert_Some. by eapply Hr.
  - apply consistent_change_data; [done|]. intros i c d _ [= <-] Hd. by destruct (bad_topic t || (id =? 0)).
  - apply consistent_change_data; [done|]. intros i c d _. destruct (id =? 0); [by intros [= <-]|].
    destruct (del_sub id (subs (i_data c))); [by intros [= <-]|done].
  - destruct Ho as (Ht & Hlen & _). apply consistent_change_data; [done|]. intros i c d _ [= <-] [Hp Hg]. split; [done|by apply add_reg_ids].
  - destruct (id =? 0); [|done]. by apply consistent_change_data.
  - apply consistent_change_data; [done|]. intros i c d _ [= <-] Hd. by destruct (MAXIMUM_TOPIC_NAME_LENGTH <=? Z.of_nat (length t)).
  - apply consistent_change_data; [done|]. by intros i c d _ [= <-] Hd.
  - apply consistent_change_data; [done|]. by intros i c d _ [= <-] Hd.
  - apply consistent_change_data; [done|]. intros i c d _ [= <-] [Hp Hg]. split; [by apply add_pub_ids|done].
  - apply consistent_change_data; [done|]. intros i c d _. destruct (change_pub pid _ _) as [l|] eqn:El; [|done]. intros [= <-] [Hp Hg].
    split; [|done]. eapply change_pub_ids; [exact Hp| |exact El]. by left.
  - apply consistent_change_data; [done|]. intros i c d _. destruct (change_pub pid _ _) as [l|] eqn:El; [|done]. intros [= <-] [Hp Hg].
    split; [|done]. eapply change_pub_ids; [exact Hp| |exact El]. by right.
Qed.

Lemma spec_ops_consistent os : forall r, ops_ok os r -> consistent r -> consistent (spec_ops os r).2.
Proof.
  induction os as [|o os IH]; intros r; [done|]. cbn [ops_ok spec_ops]. intros [Ho Hos] Hr.
  pose proof (spec_op_consistent o r Ho Hr) as Hr'. destruct (spec_op o r) as [x r']. cbn [snd] in *. specialize (IH r' Hos Hr').
  by destruct (spec_ops os r').
Qed.
End Ids.

(** ** The publishes of a client *)

Definition pending (l : list entry_publish) : list entry_publish := filter (fun e => pub_free e = false) l.

(** The last entry that satisfies [p] is the last of those that do. *)
Lemma last_index_filter {E} (p : E -> bool) l : match last_index p l with
  | Some k => exists e, l !! k = Some e /\ forall e', p e' = false -> filter (fun x => p x = true) l = filter (fun x => p x = true) (<[k := e']> l) ++ [e]
  | None => filter (fun x => p x = true) l = []
  end.
Proof.
  unfold last_index. induction l as [|x l IH] using rev_ind; [done|]. rewrite foldl_app. cbn [foldl].
  assert (Hlen : forall (l : list E) k o, (foldl (fun '(k, f) e => (S k, if p e then Some k else f)) (k, o) l).1 = (k + length l)%nat).
  { induction l0 as [|e' l0 IHl]; intros k o; cbn [foldl length]; [cbn; lia|]. rewrite IHl. lia. }
  specialize (Hlen l O None). destruct (foldl _ (O, None) l) as [k o]. cbn [fst snd] in *. subst k. rewrite filter_app.
  destruct (p x) eqn:Ep.
  - exists x. split; [by rewrite lookup_app_r, Nat.sub_diag by done|]. intros e' He'.
    rewrite insert_app_r_alt, Nat.sub_diag by done. cbn [list_insert insert]. rewrite filter_app, !filter_cons, !filter_nil.
    rewrite decide_True, decide_False by (rewrite ?He'; done). by rewrite app_nil_r.
  - rewrite filter_cons, filter_nil, decide_False, app_nil_r by (by rewrite Ep). destruct o as [k|]; [|done].
    destruct IH as (e & Hk & He). exists e. split; [by apply lookup_app_l_Some|]. intros e' He'.
    rewrite insert_app_l by (by eapply lookup_lt_Some). rewrite filter_app, filter_cons, filter_nil, decide_False, app_nil_r by (by rewrite Ep).
    by apply He.
Qed.

Lemma pending_eq l : pending l = filter (fun e => negb (pub_free e) = true) l.
Proof. unfold pending. apply list_filter_iff. intros e. by destruct (pub_free e). Qed.

Lemma pending_nil l : existsb (fun e => negb (pub_free e)) l = false <-> pending l = [].
Proof.
  rewrite pending_eq. induction l as [|e l IH]; [done|]. cbn [existsb]. rewrite filter_cons. destruct (negb (pub_free e)) eqn:Ef.
  - by rewrite decide_True.
  - by rewrite decide_False by done.
Qed.

(** One round: the next publish is the last pending one, and removing its id leaves the others. *)
Lemma next_and_remove l : pub_ids_ok l -> pending l <> [] -> exists e l', next_pub l = Some e /\
  1 <= p_publish_id e <= Z.of_nat (length l) /\ change_pub (p_publish_id e) (fun _ => zero_entry) l = Some l' /\
  pending l = pending l' ++ [e] /\ pub_ids_ok l'.
Proof.
  intros Hids Hne. pose proof (last_index_filter (fun e => negb (pub_free e)) l) as Hlast. unfold next_pub.
  destruct (last_index (fun e => negb (pub_free e)) l) as [k|] eqn:Ek; [|by rewrite pending_eq in Hne].
  destruct Hlast as (e & Hk & He). exists e. cbn [mbind option_bind]. rewrite Hk.
  destruct (last_index_Some _ _ _ Ek) as (e0 & Hk0 & Hf). assert (e0 = e) as -> by congruence. unfold pub_free in Hf.
  assert (Hlt := lookup_lt_Some _ _ _ Hk). assert (Hid : p_publish_id e = Z.of_nat k + 1) by (destruct (Hids k e Hk); lia).
  assert (Hch : change_pub (p_publish_id e) (fun _ => zero_entry) l = Some (<[k := zero_entry]> l)).
  { unfold change_pub. replace (Z.to_nat (p_publish_id e - 1)) with k by lia. by rewrite Hk, Z.eqb_refl. }
  exists (<[k := zero_entry]> l). splits; [done|lia|lia|done| |].
  - rewrite !pending_eq. by apply He.
  - eapply (change_pub_ids (p_publish_id e)); [exact Hids| |exact Hch]. by right.
Qed.

Section Use.
Context `{CoreTypes} `{!CoreOk} `{!Limits} `{SdOk}.
Implicit Types (s : pst) (r : registry).

(** What the gateway does with the publishes of a client: take the next one and remove it. *)
Fixpoint drain (n : nat) : M pst (list (list Z * Z * bool * Z * bool * Z)) :=
  match n with
  | O => mret []
  | S n =>
    b ← has_client_publishes fuel;
    if negb b then mret [] else
    p ← get_next_publish fuel;
    match p with
    | None => mret []
    | Some p => remove_publish_by_publish_id p.2;; ps ← drain n; mret (p :: ps)
    end
  end.

Lemma acting_data r i c d : acting r = Some (i, c) -> acting (set_slot r i (with_data c d)) = Some (i, with_data c d).
Proof.
  intros Ha. pose proof (acting_slot r i c Ha) as Hi. unfold acting in *. cbn [set_slot slots current started err] in *.
  destruct (started r && negb (err r)); [|done]. destruct (current r) as [j|]; [|done]. cbn [mbind option_bind] in *.
  destruct (slots r !! j) as [[c'|]|] eqn:Ej; cbn [mbind option_bind] in Ha; [|done..]. injection Ha as -> ->.
  rewrite list_lookup_insert_eq by (by eapply lookup_lt_Some). done.
Qed.

(** C22: taking the next publish and removing it, over and over, delivers every pending publish of the client exactly once, the last of the file first, and then there is none. *)
Theorem drain_delivers n : forall r s i c, rep r s -> acting r = Some (i, c) -> pub_ids_ok (pubs (i_data c)) ->
  (length (pending (pubs (i_data c))) < n)%nat ->
  exists s' l, drain n s = Some (map pub_result (reverse (pending (pubs (i_data c)))), s') /\ pending l = [] /\
    rep (set_slot r i (with_data c (with_pubs (i_data c) l))) s'.
Proof.
  enough (forall r s i c, rep r s -> acting r = Some (i, c) -> pub_ids_ok (pubs (i_data c)) -> (length (pending (pubs (i_data c))) < n)%nat ->
    wp (drain n) (fun ps s' => ps = map pub_result (reverse (pending (pubs (i_data c)))) /\
      exists l, pending l = [] /\ rep (set_slot r i (with_data c (with_pubs (i_data c) l))) s') s) as Hall.
  { intros r s i c Hrep Ha Hids Hn. destruct (wp_Some _ _ _ (Hall r s i c Hrep Ha Hids Hn)) as (ps & s' & Hrun & -> & l & Hl & Hs'). eauto. }
  induction n as [|n IH]; intros r s i c Hrep Ha Hids Hn; [lia|]. cbn [drain].
  apply wp_bind. pose proof (wp_bind_inv _ _ _ _ (op_implements HasPub r s I Hrep)) as Hhas. eapply wp_mono; [exact Hhas|]. cbn beta.
  intros b s1 [Hb Hrep1]. cbn [spec_op] in *. unfold ask in *. rewrite Ha in Hb. cbn [fst snd] in *. injection Hb as ->.
  destruct (existsb (fun e => negb (pub_free e)) (pubs (i_data c))) eqn:Ee; cbn [negb].
  - assert (Hne : pending (pubs (i_data c)) <> []) by (intros E; apply pending_nil in E; congruence).
    destruct (next_and_remove _ Hids Hne) as (e & l' & Hnext & Hrange & Hch & Hp & Hids').
    apply wp_bind. pose proof (wp_bind_inv _ _ _ _ (op_implements NextPub r s1 I Hrep1)) as Hget. eapply wp_mono; [exact Hget|]. cbn beta.
    intros p s2 [Hpub Hrep2]. cbn [spec_op] in *. unfold ask in *. rewrite Ha, Hnext in Hpub. cbn [fst snd fmap option_fmap option_map] in *.
    injection Hpub as ->. apply wp_bind. cbn [pub_result snd].
    assert (Hok : op_ok (RemovePub (p_publish_id e)) r) by (cbn [op_ok]; unfold on_data; rewrite Ha; lia).
    pose proof (wp_bind_inv _ _ _ _ (op_implements _ r s2 Hok Hrep2)) as Hrem. eapply wp_mono; [exact Hrem|]. cbn beta.
    intros [] s3 [_ Hrep3]. cbn [spec_op] in Hrep3. unfold change_data in Hrep3. rewrite Ha, Hch in Hrep3. cbn [mbind option_bind snd] in Hrep3.
    apply wp_bind. eapply wp_mono; [eapply IH; [exact Hrep3|by apply acting_data|exact Hids'|]|].
    + cbn [with_data i_data with_pubs pubs]. rewrite Hp, length_app in Hn. cbn [length] in Hn. lia.
    + cbn [with_data i_data with_pubs pubs]. intros ps s4 (-> & l & Hl & Hrep4). apply wp_ret. split.
      * rewrite Hp, reverse_app. done.
      * exists l. split; [done|]. unfold set_slot in *. cbn [slots current started err] in *. rewrite list_insert_insert_eq in Hrep4. exact Hrep4.
  - apply pending_nil in Ee. rewrite Ee. apply wp_ret. split; [done|]. exists (pubs (i_data c)). split; [done|].
    replace (set_slot r i (with_data c (with_pubs (i_data c) (pubs (i_data c))))) with r; [done|].
    pose proof (acting_slot r i c Ha) as Hi. unfold set_slot. destruct r as [sl cu st er]. cbn [slots current started err] in *. f_equal.
    symmetry. apply list_insert_id. rewrite Hi. by destruct c as [? ? ? ? ? ? ? []].
Qed.

(** C23: in every state that a sequence of operations leads to, a publish id is zero or one more than the place of its entry, a topic id is one more than the place of its entry, and no topic name has two ids. *)
Theorem ids_reachable (os : list op) r s : ops_ok os r -> rep r s -> consistent r ->
  exists xs s' r', run_ops os s = Some (xs, s') /\ rep r' s' /\ consistent r'.
Proof.
  intros Hos Hrep Hr. destruct (wp_Some _ _ _ (run_ops_wp os r s Hos Hrep)) as (xs & s' & Hrun & _ & Hrep').
  exists xs, s', (spec_ops os r).2. splits; [done|done|by apply spec_ops_consistent].
Qed.

Lemma look_id {A} (f : entry_registration -> A) l k e : topic_ids_ok l -> l !! k = Some e ->
  look (fun e => r_topic_id e =? Z.of_nat k + 1) f l = Some (f e).
Proof.
  intros [Hids _] Hk. unfold look. erewrite (proj2 (list_find_Some _ l k e)); [done|]. splits; [done| |].
  - rewrite (Hids k e Hk). by rewrite Z.eqb_refl.
  - intros j e' Hj Hjk. rewrite (Hids j e' Hj). rewrite Is_true_true, Z.eqb_eq. lia.
Qed.

Lemma add_reg_look t l : string_ok t -> (length t < 255)%nat -> topic_ids_ok l ->
  look (fun e => r_topic_id e =? reg_id t l) reg_name (add_reg t l) = Some t /\ 1 <= reg_id t l <= Z.of_nat (length (add_reg t l)).
Proof.
  intros Ht Hlen Hl. pose proof (add_reg_ids t l Ht Hlen Hl) as Hl'. rewrite add_reg_end, (existsb_look (reg_is t) r_topic_id) in * by done.
  unfold reg_id. destruct (look (reg_is t) r_topic_id l) as [n|] eqn:En; cbn [default].
  - unfold look in En. destruct (list_find (reg_is t) l) as [[k e]|] eqn:Ef; [|done]. injection En as <-. cbn [snd Datatypes.id].
    apply list_find_Some in Ef as (Hk & Hp & _). rewrite (proj1 Hl k e Hk). apply lookup_lt_Some in Hk as Hlt. split; [|lia].
    rewrite (look_id reg_name l k e Hl Hk). unfold reg_is in Hp. apply Is_true_true, andb_true_iff in Hp as [_ Hp%bool_decide_eq_true]. by rewrite Hp.
  - rewrite length_app. cbn [length]. split; [|lia]. rewrite (look_id reg_name _ (length l) _ Hl' (list_lookup_middle l [] _ _ eq_refl)).
    unfold reg_name. cbn [r_topic_name]. by rewrite text_padded.
Qed.

(** Add_client_registration gives a topic name an id under which get_topic_name finds that name again. *)
Theorem registration_found t r s i c : rep r s -> acting r = Some (i, c) -> topic_ids_ok (regs (i_data c)) ->
  string_ok t -> (length t < 255)%nat -> (length (regs (i_data c)) < cap)%nat ->
  exists n s' s'', add_client_registration fuel t s = Some (Some n, s') /\ get_topic_name fuel n s' = Some (Some t, s'') /\
    1 <= n <= 65535.
Proof.
  intros Hrep Ha Hids Ht Hlen Hroom. destruct (add_reg_look t _ Ht Hlen Hids) as [Hlook Hn]. set (n := reg_id t (regs (i_data c))) in *.
  assert (Hok : op_ok (AddReg t) r) by (cbn [op_ok]; splits; [done|done|]; unfold on_data; by rewrite Ha).
  pose proof (wp_bind_inv _ _ _ _ (op_implements _ r s Hok Hrep)) as Hadd. cbn [spec_op] in Hadd. unfold change_data in Hadd. rewrite Ha in Hadd.
  apply wp_Some in Hadd as (v & s' & Hrun & [Hv Hrep']). cbn [fst snd] in *. destruct v as [v|]; [|done]. injection Hv as ->. fold n in Hrun.
  set (d := with_regs (i_data c) (add_reg t (regs (i_data c)))) in *. set (r' := set_slot r i (with_data c d)) in *.
  assert (Ha' : acting r' = Some (i, with_data c d)) by (by apply acting_data).
  assert (Hreg : op_ok (TopicName n) r').
  { intros _ _. unfold acting in Ha'. destruct (started r' && negb (err r')); [|done]. by destruct (current r'); [eexists|]. }
  pose proof (wp_bind_inv _ _ _ _ (op_implements _ r' s' Hreg Hrep')) as Hget. cbn [spec_op] in Hget. unfold ask in Hget. rewrite Ha' in Hget.
  apply wp_Some in Hget as (v & s'' & Hrun' & [Hv _]). cbn [fst with_data i_data d with_regs regs] in Hv. injection Hv as ->.
  exists n, s', s''. split; [exact Hrun|]. split.
  - rewrite Hrun', Hlook. destruct (Z.eqb_spec n 0); [lia|done].
  - pose proof cap_ushort. rewrite add_reg_end in Hn by done. destruct (existsb (reg_is t) (regs (i_data c))); rewrite ?length_app in Hn; cbn [length] in Hn; lia.
Qed.

(** Remove_publish_by_msg_id does not free the entry of the message: it zeroes two bytes at twice the number of the entry, in the payload of an earlier one. *)
Theorem remove_by_msg_id_overwrites mid r s i c k e : rep r s -> acting r = Some (i, c) -> mid <> 0 ->
  list_find (fun e => p_msg_id e =? mid) (pubs (i_data c)) = Some (k, e) ->
  exists s', remove_publish_by_msg_id fuel mid s = Some (tt, s') /\
    files (sd s') !! (num i ++ PUBLISH_FILE_ENDING) = Some (splice (table (pubs (i_data c))) (2 * k) [0; 0]).
Proof.
  intros Hrep Ha Hmid Hfind. destruct (rep_serving r s i c Hrep Ha) as (fs & h & (_ & Hc & (_ & _ & _ & Hpubs) & Hd & He) & _ & Hic).
  enough (wp (remove_publish_by_msg_id fuel mid) (fun _ s' => files (sd s') !! (num i ++ PUBLISH_FILE_ENDING) =
    Some (splice (table (pubs (i_data c))) (2 * k) [0; 0])) s) as Hwp.
  { destruct (wp_Some _ _ _ Hwp) as ([] & s' & Hrun & Hs'). eauto. }
  destruct Hd as (_ & _ & _ & _ & Hwf & Hl). pose proof cap_fuel. pose proof cap_ushort.
  pose proof (rep_acting r s Hrep) as Hact. rewrite Ha in Hact. destruct Hact as (_ & _ & _ & _ & _ & _ & _ & Hact). apply Hact.
  rewrite (proj2 (Z.eqb_neq mid 0) Hmid). unfold open_publishes. wp_go. eapply wp_filename; [exact He|]. wp_go.
  pose proof Hfind as Hk. apply list_find_Some in Hk as (Hk & Hp & _). apply Is_true_true, Z.eqb_eq in Hp.
  assert (Hlt := lookup_lt_Some _ _ _ Hk). assert (He' : wf e) by (by eapply Forall_lookup_1).
  change sizeof_pub with (esize (E := entry_publish)).
  eapply (wp_scan_hit (E := entry_publish) (fun n : Z => to_ushort (n + 1)) _ (fun e => p_msg_id e =? mid) (fun n _ => to_ushort (n + 1)));
    [exact Hpubs|done|lia|exact Hc|..].
  - intros e0 n s' Hin Hh. rewrite Forall_forall in Hwf. specialize (Hwf e0 Hin).
    change (pub_of (enc e0)) with (dec (E := entry_publish) (enc e0)). rewrite Z.eqb_refl, (dec_enc e0 Hwf), Hh. by wp_go.
  - intros n s'. by wp_go.
  - rewrite Hfind. clear Hc. intros z Hc. unfold at_entry in Hc.
    change (pub_of (enc e)) with (dec (E := entry_publish) (enc e)). rewrite Z.eqb_refl, (dec_enc e He'), Hp, Z.eqb_refl. wp_go.
    rewrite foldl_entry_number by (rewrite length_take; lia). rewrite length_take, Nat.min_l by lia.
    pose proof (length_table _ Hwf) as Hlen. change (esize (E := entry_publish)) with 272%nat in Hlen.
    eapply wp_seek; [exact Hc|exact Hpubs|lia|lia|]. clear Hc. intros x Hc. wp_go.
    eapply wp_write; [exact Hc|exact Hpubs|lia|]. clear Hc. intros v y [Hc _]. wp_go. rewrite Hc, lookup_insert_eq.
    by replace (Z.to_nat (Z.of_nat k * 2)) with (2 * k)%nat by lia.
Qed.
End Use.

(** ** Examples *)

#[local] Existing Instances ram_sd ram_sd_ok gateway_types gateway_types_ok small_limits.

Definition two_publishes : list op := [Start id_a; Add id_a [1; 2; 3; 4; 5; 6] 60; AddPub [104; 105] 1 false 1 false 0; AddPub [33] 2 true 0 false 0].
Definition holding : registry := (spec_ops two_publishes no_clients).2.

Lemma two_publishes_ok : ops_ok two_publishes no_clients.
Proof. vm_compute. repeat split; try done; try lia; try (by eexists); by repeat constructor. Qed.

Lemma consistent_no_clients : consistent no_clients.
Proof. by intros i c. Qed.

(** A state that the operations lead to. *)
Lemma holding_state : exists s, rep holding s.
Proof. destruct (wp_Some _ _ _ (run_ops_wp two_publishes no_clients gateway two_publishes_ok gateway_rep)) as (xs & s & _ & _ & Hs). by exists s. Qed.

Lemma ids_reachable_witness : exists xs s' r', run_ops two_publishes gateway = Some (xs, s') /\ rep r' s' /\ consistent r'.
Proof. exact (ids_reachable two_publishes no_clients gateway two_publishes_ok gateway_rep consistent_no_clients). Defined.

Lemma drain_delivers_witness : exists s, rep holding s /\
  exists s' l, drain 5 s = Some ([([33], 2, true, 0, false, 2); ([104; 105], 1, false, 1, false, 1)], s') /\ pending l = [].
Proof.
  destruct holding_state as [s Hs]. exists s. split; [exact Hs|].
  pose proof (spec_ops_consistent two_publishes no_clients two_publishes_ok consistent_no_clients) as Hids.
  destruct (acting holding) as [[i c]|] eqn:Ha; [|by vm_compute in Ha].
  assert (Hp : pub_ids_ok (pubs (i_data c))) by (by apply (Hids i c), acting_slot).
  assert (Hn : (length (pending (pubs (i_data c))) < 5)%nat) by (vm_compute in Ha; injection Ha as <- <-; vm_compute; lia).
  destruct (drain_delivers 5 holding s i c Hs Ha Hp Hn) as (s' & l & Hrun & Hl & _). exists s', l. split; [|exact Hl].
  assert (map pub_result (reverse (pending (pubs (i_data c)))) = [([33], 2, true, 0, false, 2); ([104; 105], 1, false, 1, false, 1)]) as E by (vm_compute in Ha; injection Ha as <- <-; vm_compute; reflexivity).
  rewrite <- E. exact Hrun.
Defined.

Lemma registration_found_witness : exists s, rep holding s /\
  exists n s' s'', add_client_registration 20 topic_t s = Some (Some n, s') /\ get_topic_name 20 n s' = Some (Some topic_t, s'') /\ 1 <= n <= 65535.
Proof.
  destruct holding_state as [s Hs]. exists s. split; [exact Hs|].
  pose proof (spec_ops_consistent two_publishes no_clients two_publishes_ok consistent_no_clients) as Hids.
  destruct (acting holding) as [[i c]|] eqn:Ha; [|by vm_compute in Ha].
  assert (Hr : topic_ids_ok (regs (i_data c))) by (by apply (Hids i c), acting_slot).
  apply (registration_found topic_t holding s i c Hs Ha Hr).
  - by repeat constructor.
  - cbn. lia.
  - vm_compute in Ha. injection Ha as <- <-. vm_compute. lia.
Defined.

(** Two publishes with message ids: removing the second by its message id spoils the first. *)
Definition with_message_ids : list op := two_publishes ++ [SetPubMsgId 1 7; SetPubMsgId 2 8].
Definition waiting : registry := (spec_ops with_message_ids no_clients).2.

Lemma remove_by_msg_id_overwrites_witness : exists s, rep waiting s /\ exists s' l, pubs l <> [] /\
  remove_publish_by_msg_id 20 8 s = Some (tt, s') /\
  files (sd s') !! (num 0 ++ PUBLISH_FILE_ENDING) = Some (splice (table (pubs l)) 2 [0; 0]).
Proof.
  assert (Hok : ops_ok with_message_ids no_clients) by (vm_compute; repeat split; try done; try lia; try (by eexists); by repeat constructor).
  destruct (wp_Some _ _ _ (run_ops_wp with_message_ids no_clients gateway Hok gateway_rep)) as (xs & s & _ & _ & Hs).
  exists s. split; [exact Hs|]. fold waiting in Hs.
  destruct (acting waiting) as [[i c]|] eqn:Ha; [|by vm_compute in Ha].
  destruct (list_find (fun e => p_msg_id e =? 8) (pubs (i_data c))) as [[k e]|] eqn:Hf; [|vm_compute in Ha; injection Ha as <- <-; by vm_compute in Hf].
  destruct (remove_by_msg_id_overwrites 8 waiting s i c k e Hs Ha ltac:(done) Hf) as (s' & Hrun & Hfile).
  exists s', (i_data c). vm_compute in Ha. injection Ha as <- <-. vm_compute in Hf. injection Hf as <- <-. by splits.
Defined.

(** The empty client id is found where a client was deleted. *)
Example empty_id_found : exists s, run_ops [Start id_a; Add id_a [1; 2; 3; 4; 5; 6] 60; Delete id_a; Apply; Start []; Exist] gateway =
  Some ([Done; Done; Done; Num 0; Done; Flag true], s).
Proof. apply fst_Some. vm_compute. reflexivity. Qed.
