(* ===== verification/PersistCounts.v ===== *)
(** * PersistCounts: the subscription counts of the gateway over Persist.v

    The table MQTT.SUB with increment_, decrement_ and
    get_global_topic_subscription_count counts how many clients want a topic. *)
From Stdlib Require Import ZifyBool.
From S2P Require Import Prelude CMem Persist Card Registry PersistSpec PersistData.

(** ** The abstract counter *)

Abbreviation counter := (gmap (list Z) Z).
Definition count (m : counter) (t : list Z) : Z := default 0 (m !! t).
Inductive count_op := Inc (t : option (list Z)) | Dec (t : option (list Z)) | Count (t : option (list Z)).

(** A null, empty or overlong name is refused; decrementing what is not there does nothing. *)
Definition spec_count (o : count_op) (m : counter) : result * counter :=
  match o with
  | Inc t => if bad_topic t then (Flag false, m) else let t := default [] t in (Flag true, <[t := count m t + 1]> m)
  | Dec t => if bad_topic t then (Flag false, m) else let t := default [] t in
      (Flag true, if count m t =? 0 then m else <[t := count m t - 1]> m)
  | Count t => (Num (if bad_topic t then 0 else count m (default [] t)), m)
  end.
Fixpoint spec_counts (os : list count_op) (m : counter) : list result * counter :=
  match os with
  | [] => ([], m)
  | o :: os => let '(x, m) := spec_count o m in let '(xs, m) := spec_counts os m in (x :: xs, m)
  end.

(** ** The first entry that satisfies a test *)

Lemma look_Some {E A} (p : E -> bool) (f : E -> A) (l : list E) k (e : E) : l !! k = Some e -> p e = true ->
  (forall j e', l !! j = Some e' -> p e' = true -> j = k) -> look p f l = Some (f e).
Proof.
  intros Hk Hp Huniq. unfold look. erewrite (proj2 (list_find_Some _ l k e)); [done|]. splits; [done|by rewrite Hp|].
  intros j e' Hj Hjk Hpe. apply Is_true_true in Hpe. specialize (Huniq j e' Hj Hpe). lia.
Qed.

Lemma look_None {E A} (p : E -> bool) (f : E -> A) l : (forall j e', l !! j = Some e' -> p e' = false) -> look p f l = None.
Proof.
  intros Hl. unfold look. rewrite (proj2 (list_find_None _ l)); [done|]. apply Forall_lookup. intros j e' Hj. rewrite (Hl j e' Hj). by intros [].
Qed.

Lemma look_inv {E A} (p : E -> bool) (f : E -> A) l x : look p f l = Some x -> exists k e, l !! k = Some e /\ p e = true /\ x = f e /\ list_find p l = Some (k, e).
Proof.
  unfold look. destruct (list_find p l) as [[k e]|] eqn:Ef; [|done]. intros [= <-]. pose proof Ef as Hf.
  apply list_find_Some in Ef as (Hk & Hp & _). exists k, e. splits; [done|by apply Is_true_true|done|done].
Qed.

Lemma look_None_inv {E A} (p : E -> bool) (f : E -> A) l : look p f l = None -> forall j e', l !! j = Some e' -> p e' = false.
Proof.
  unfold look. destruct (list_find p l) as [[k e]|] eqn:Ef; [done|]. intros _ j e' Hj. apply list_find_None in Ef.
  rewrite Forall_lookup in Ef. specialize (Ef j e' Hj). destruct (p e'); [by destruct Ef|done].
Qed.

(** ** The table *)

Section Counts.
Context `{CoreTypes} `{!Limits} `{SdOk}.
Let Hfuel : (cap < fuel)%nat := cap_fuel.
Let Hcap : Z.of_nat cap < 65535 := cap_ushort.
Abbreviation entry := entry_mqtt_subscription.
Implicit Types (s : pst) (fs : filemap) (m : counter) (es : list entry) (e : entry).

Definition ms_name e : list Z := text (ms_topic_name e).
Definition is_topic (t : list Z) e : bool := negb (client_subscription_count e =? 0) && bool_decide (ms_name e = t).
Definition is_empty e : bool := (client_subscription_count e =? 0) && bool_decide (ms_name e = []).

(** Every entry is empty or counts a topic, no topic is counted twice, and the counts are those of [m]. *)
Definition entry_ok e : Prop := wf e /\ is_Some (cstring (ms_topic_name e)) /\ (client_subscription_count e = 0 -> ms_name e = []).
Definition counts m es : Prop :=
  Forall entry_ok es /\
  (forall i j e e', es !! i = Some e -> es !! j = Some e' -> client_subscription_count e <> 0 -> client_subscription_count e' <> 0 ->
    ms_name e = ms_name e' -> i = j) /\
  (forall t, count m t = default 0 (look (is_topic t) client_subscription_count es)).
(** [b] more entries fit, and [b] more can be counted: counts are printed into six bytes. *)
Definition count_rep (b : nat) m s : Prop :=
  _error s = false /\ exists fs h es, card fs h s /\ fs !! mqtt_sub = Some (table es) /\ counts m es /\
    (length es + b <= cap)%nat /\ (forall t, count m t + Z.of_nat b < 100000).

Definition run_count (o : count_op) : M pst result :=
  match o with
  | Inc t => b ← increment_global_subscription_count fuel t; mret (Flag b)
  | Dec t => b ← decrement_global_subscription_count fuel t; mret (Flag b)
  | Count t => n ← get_global_topic_subscription_count fuel t; mret (Num n)
  end.
Fixpoint run_counts (os : list count_op) : M pst (list result) :=
  match os with [] => mret [] | o :: os => x ← run_count o; xs ← run_counts os; mret (x :: xs) end.
Definition count_op_ok (o : count_op) : Prop := match o with Inc t | Dec t | Count t => string_ok (default [] t) end.

(** ** Changing the table *)

(** Entry [k] becomes [e], for the topic [t]: nothing else changes. *)
Lemma counts_put m es k e t n : counts m es -> (k <= length es)%nat -> entry_ok e ->
  (forall e0, es !! k = Some e0 -> client_subscription_count e0 = 0 \/ ms_name e0 = t) ->
  (forall j e', es !! j = Some e' -> j <> k -> client_subscription_count e' <> 0 -> ms_name e' <> t) ->
  (client_subscription_count e = n) -> (n <> 0 -> ms_name e = t) ->
  counts (<[t := n]> m) (splice es k [e]).
Proof.
  intros (Hok & Huniq & Hcount) Hk He Hold Hother Hn Hname.
  assert (Huniq' : forall i j e1 e2, splice es k [e] !! i = Some e1 -> splice es k [e] !! j = Some e2 ->
    client_subscription_count e1 <> 0 -> client_subscription_count e2 <> 0 -> ms_name e1 = ms_name e2 -> i = j).
  { intros i j e1 e2. rewrite !lookup_splice_one by done. destruct (decide (i = k)) as [->|Hi], (decide (j = k)) as [->|Hj].
    - done.
    - intros [= <-] Hg2 Hc1 Hc2 Hnm. exfalso. apply (Hother j e2); [done..|]. rewrite <- Hnm. apply Hname. congruence.
    - intros H1' [= <-] Hc1 Hc2 Hnm. exfalso. apply (Hother i e1); [done..|]. rewrite Hnm. apply Hname. congruence.
    - apply Huniq. }
  assert (Htopic : forall t' e1, is_topic t' e1 = true <-> client_subscription_count e1 <> 0 /\ ms_name e1 = t').
  { intros t' e1. unfold is_topic. rewrite andb_true_iff, negb_true_iff, Z.eqb_neq, bool_decide_eq_true. done. }
  unfold counts. splits; [|exact Huniq'|].
  - unfold splice. repeat apply Forall_app_2; auto using Forall_take, Forall_drop.
  - intros t'. unfold count. destruct (decide (t' = t)) as [->|Hne].
    + rewrite lookup_insert_eq. cbn [default]. destruct (decide (n = 0)) as [->|Hn0].
      * rewrite look_None; [done|]. intros j e'. rewrite lookup_splice_one by done. destruct (decide (j = k)) as [->|Hj].
        -- intros [= <-]. unfold is_topic. by rewrite Hn.
        -- intros Hj'. apply not_true_iff_false. rewrite Htopic. intros [Hc Hnm]. by eapply Hother.
      * rewrite (look_Some _ _ _ k e); [done| | |].
        -- by rewrite lookup_splice_one, decide_True.
        -- rewrite Htopic. split; [congruence|by apply Hname].
        -- intros j e' Hj [Hc Hnm]%Htopic. eapply Huniq'; [exact Hj| |done| |].
           ++ by rewrite lookup_splice_one, decide_True.
           ++ congruence.
           ++ rewrite Hnm. symmetry. by apply Hname.
    + rewrite lookup_insert_ne by done. fold (count m t'). rewrite Hcount. f_equal.
      destruct (look (is_topic t') client_subscription_count es) as [x|] eqn:El.
      * apply look_inv in El as (j & e' & Hj & Hp & -> & _). pose proof Hp as [Hc Hnm]%Htopic.
        assert (j <> k) as Hjk by (intros ->; destruct (Hold e' Hj); congruence).
        symmetry. apply (look_Some _ _ _ j e'); [by rewrite lookup_splice_one, decide_False|done|].
        intros j2 e2 Hj2 [Hc2 Hnm2]%Htopic. eapply Huniq'; [exact Hj2| |done|exact Hc|congruence].
        by rewrite lookup_splice_one, decide_False.
      * symmetry. apply look_None. intros j e'. rewrite lookup_splice_one by done. destruct (decide (j = k)) as [->|Hj].
        -- intros [= <-]. apply not_true_iff_false. rewrite Htopic. intros [Hc Hnm]. apply Hne. rewrite <- Hnm. apply Hname. congruence.
        -- by apply (look_None_inv _ _ _ El).
Qed.

(** ** The operations *)

(** The tests of an entry. *)
Lemma wp_ms_empty e (Q : bool -> pst -> Prop) s : is_Some (cstring (ms_topic_name e)) -> Q (is_empty e) s -> wp (ms_empty e) Q s.
Proof.
  intros [x Hx] HQ. unfold ms_empty. eapply wp_also; [|exact HQ]. eapply wp_no_name; [|done]. unfold text. by rewrite Hx.
Qed.
Lemma wp_ms_is t e (Q : bool -> pst -> Prop) s : is_Some (cstring (ms_topic_name e)) -> wf e -> Q (is_topic t e) s -> wp (ms_is t e) Q s.
Proof.
  intros [x Hx] [_ Hl] HQ. unfold ms_is. eapply wp_also; [|exact HQ]. eapply wp_name_is; [|exact Hl|done]. unfold text. by rewrite Hx.
Qed.

(** What the loops carry: the number of the entry and the last empty one; the last entry read. *)
Definition next_index '((n, k, _) : Z * Z * entry) e : Z * Z * entry := (to_ushort (n + 1), if is_empty e then n else k, e).
Lemma foldl_next_index es z : Z.of_nat (length es) < 65536 ->
  (foldl next_index (0, -1, z) es).1 = (Z.of_nat (length es), idx (last_index is_empty es)).
Proof.
  unfold last_index. intros Hlen.
  enough (forall i o z, Z.of_nat (i + length es) < 65536 -> (foldl next_index (Z.of_nat i, idx o, z) es).1 =
    (Z.of_nat (i + length es), idx (foldl (fun '(k, f) e => (S k, if is_empty e then Some k else f)) (i, o) es).2)) as Hall
    by (by apply (Hall O None)).
  clear Hlen. induction es as [|e es IH]; intros i o z' Hi; [cbn; by rewrite Nat.add_0_r|].
  cbn [length foldl] in *. specialize (IH (S i) (if is_empty e then Some i else o) e). rewrite Nat2Z.inj_succ in IH.
  replace (i + S (length es))%nat with (S i + length es)%nat by lia. unfold next_index at 2. rewrite to_ushort_id by lia.
  destruct (is_empty e); apply IH; lia.
Qed.

(** Bad names are refused; otherwise the table is read from its front. *)
Lemma wp_with_global_topic {A} (d : A) t k (Q : A -> pst -> Prop) b m s : count_rep b m s ->
  (bad_topic t = true -> Q d s) ->
  (forall x y fs es, t = Some x -> x <> [] -> (length x < 255)%nat -> counts m es -> fs !! mqtt_sub = Some (table es) ->
    (length es + b <= cap)%nat -> card fs (Some (mqtt_sub, FILE_READ, 0)) (with_sd y s) -> wp (k x) Q (with_sd y s)) ->
  wp (with_global_topic d t k) Q s.
Proof.
  intros (Herr & fs & h & es & Hc & Hf & Hm & Hlen & Hb) Hbad Hk. unfold with_global_topic. wp_go. rewrite Herr.
  destruct (bad_topic t) eqn:Eb; [by wp_go; apply Hbad|]. destruct (bad_topic_false t Eb) as (x & -> & Hx & Hl). wp_go.
  eapply wp_lift; [done|]. cbn beta. unfold MAXIMUM_TOPIC_NAME_LENGTH. destruct (Z.ltb_spec 255 (Z.of_nat (length x))); [lia|]. wp_go.
  by eapply Hk.
Qed.

(** The entry written by an operation, at entry [k] of the file. *)
Lemma wp_save_mqtt_sub fs h s es k e (Q : unit -> pst -> Prop) : card fs h s -> fs !! mqtt_sub = Some (table es) -> Forall wf es ->
  wf e -> (k <= length es)%nat -> (k <= cap)%nat ->
  (forall x h', card (<[mqtt_sub := table (splice es k [e])]> fs) h' (with_sd x s) -> Q tt (with_sd x s)) ->
  wp (save_mqtt_sub (Z.of_nat k) e) Q s.
Proof.
  intros Hc Hf Hes He Hk Hkc HQ. unfold save_mqtt_sub. wp_go.
  eapply (wp_put (E := entry) _ _ _ _ _ _ _ k e); [exact Hc|exact Hf|done..|cbn; unfold sizeof_mqtt_sub; lia|done|done|done|].
  intros v x h' Hx. wp_go. exact (HQ x h' Hx).
Qed.

Lemma counts_wf m es : counts m es -> Forall wf es.
Proof. intros [Hok _]. eapply Forall_impl; [exact Hok|]. by intros e [? _]. Qed.

Lemma count_rep_intro b m s fs h es : _error s = false -> card fs h s -> fs !! mqtt_sub = Some (table es) -> counts m es ->
  (length es + b <= cap)%nat -> (forall t, count m t + Z.of_nat b < 100000) -> count_rep b m s.
Proof. intros. split; [done|]. exists fs, h, es. by splits. Qed.

Lemma count_rep_less b m s : count_rep (S b) m s -> count_rep b m s.
Proof.
  intros (Herr & fs & h & es & Hc & Hf & Hm & Hlen & Hb). eapply count_rep_intro; [done..|lia|]. intros t. specialize (Hb t). lia.
Qed.

Lemma is_topic_spec t e : is_topic t e = true <-> client_subscription_count e <> 0 /\ ms_name e = t.
Proof. unfold is_topic. by rewrite andb_true_iff, negb_true_iff, Z.eqb_neq, bool_decide_eq_true. Qed.

Lemma is_empty_topic t e : t <> [] -> is_empty e = true -> is_topic t e = false.
Proof.
  intros Ht He. unfold is_empty, is_topic in *. apply andb_true_iff in He as [Hc _]. by rewrite Hc.
Qed.

Lemma good_topic (x : list Z) : x <> [] -> (length x < 255)%nat -> bad_topic (Some x) = false.
Proof. intros Hx Hl. unfold bad_topic, MAXIMUM_TOPIC_NAME_LENGTH. destruct x; [done|]. cbn [length] in *. lia. Qed.

Lemma counts_found m es t x : counts m es -> list_find (is_topic t) es = Some x -> exists k e, x = (k, e) /\ es !! k = Some e /\
  client_subscription_count e <> 0 /\ ms_name e = t /\ count m t = client_subscription_count e /\ entry_ok e.
Proof.
  intros (Hok & _ & Hcount) Hx. destruct x as [k e]. exists k, e. pose proof Hx as Hf. apply list_find_Some in Hx as (Hk & Hp & _).
  apply Is_true_true, is_topic_spec in Hp as [Hc Hn]. splits; try done.
  - rewrite Hcount. unfold look. by rewrite Hf.
  - by eapply Forall_lookup_1 in Hok.
Qed.

Lemma counts_not_found m es t : counts m es -> list_find (is_topic t) es = None -> count m t = 0.
Proof. intros (_ & _ & Hcount) Hf. rewrite Hcount. unfold look. by rewrite Hf. Qed.

(** A small number is printed. *)
Lemma sprintf_d_small v : 0 <= v < 100000 -> sprintf_d 6 v = Some tt.
Proof. intros Hv. unfold sprintf_d. rewrite to_int_id by (unfold INT_MIN, INT_MAX; lia). destruct (Z.ltb_spec (- 10 ^ (6 - 2)) v), (Z.ltb_spec v (10 ^ (6 - 1))); cbn in *; try done; lia. Qed.

Lemma counts_in m es t e : counts m es -> e ∈ es -> is_topic t e = true -> count m t = client_subscription_count e.
Proof.
  intros (_ & Huniq & Hcount) [k Hk]%list_elem_of_lookup Hp. pose proof Hp as [Hc Hn]%is_topic_spec.
  rewrite Hcount. rewrite (look_Some _ _ _ k e); [done..|]. intros j e' Hj [Hc' Hn']%is_topic_spec. eapply Huniq; [done..|congruence].
Qed.

Lemma count_ok t b m s : count_rep (S b) m s ->
  wp (run_count (Count t)) (fun x s' => x = (spec_count (Count t) m).1 /\ count_rep b (spec_count (Count t) m).2 s') s.
Proof.
  intros Hrep. pose proof (count_rep_less b m s Hrep) as Hrep'. pose proof Hrep as (Herr & _ & _ & _ & _ & _ & _ & _ & Hb).
  cbn [run_count spec_count fst snd]. apply wp_bind. eapply wp_with_global_topic; [exact Hrep| |].
  { intros ->. by apply wp_ret. }
  intros x y fs es -> Hx Hlx Hm Hf Hlen Hc. change sizeof_mqtt_sub with (esize (E := entry)). apply wp_bind.
  eapply (wp_scan (E := entry) (step_find (is_topic x) client_subscription_count) (fun _ => tt) _ (fun _ s => s));
    [exact Hf|by eapply counts_wf|lia|exact Hc|..].
  - intros e [] s' Hin. pose proof Hm as [Hok _]. rewrite Forall_forall in Hok. destruct (Hok e Hin) as (Hwf & Hn & _).
    change (mqtt_sub_of (enc e)) with (dec (E := entry) (enc e)). rewrite Z.eqb_refl, (dec_enc e Hwf). wp_go.
    eapply wp_ms_is; [done|done|]. unfold step_find. destruct (is_topic x e) eqn:Et; [|by wp_go]. wp_go.
    destruct Hwf as [Hrange _]. unfold ranged in Hrange. cbn in Hrange. specialize (Hb x).
    rewrite (counts_in m es x e Hm Hin Et) in Hb. eapply wp_lift; [apply sprintf_d_small; lia|]. by wp_go.
  - intros [] s'. by wp_go.
  - done.
  - done.
  - intros z h' Hz. rewrite scan_find. destruct Hm as (Hok & Huniq & Hcount).
    rewrite good_topic by done.
    cbn [default Datatypes.id]. rewrite Hcount.
    assert (count_rep b m (with_sd z (with_sd y s))) by (eapply count_rep_intro; [exact Herr|exact Hz|exact Hf|by splits|lia|]; intros t'; specialize (Hb t'); lia).
    by destruct (look (is_topic x) client_subscription_count es); wp_go.
Qed.

(** The entry of a topic that is counted is written again. *)
Lemma counts_update m es k e e' x : counts m es -> es !! k = Some e -> client_subscription_count e <> 0 -> ms_name e = x -> entry_ok e' ->
  (client_subscription_count e' <> 0 -> ms_name e' = x) -> counts (<[x := client_subscription_count e']> m) (splice es k [e']).
Proof.
  intros Hm Hk Hc Hn He' Hne'. assert (Hlt := lookup_lt_Some _ _ _ Hk). eapply counts_put; [done|lia|done| | |done|done].
  - intros e0 Hk0. right. congruence.
  - intros j e2 Hj Hjk Hc2 Hn2. apply Hjk. destruct Hm as (_ & Huniq & _). eapply Huniq; [done|exact Hk|done|done|congruence].
Qed.

Lemma count_rep_put b m s fs h es k e x : _error s = false -> card (<[mqtt_sub := table (splice es k [e])]> fs) h s ->
  counts (<[x := client_subscription_count e]> m) (splice es k [e]) -> (k <= length es)%nat -> (length es + S b <= cap)%nat ->
  (forall t, count m t + Z.of_nat (S b) < 100000) -> client_subscription_count e + Z.of_nat b < 100000 ->
  count_rep b (<[x := client_subscription_count e]> m) s.
Proof.
  intros Herr Hc Hm Hk Hlen Hb Hn. eapply count_rep_intro; [exact Herr|exact Hc|apply lookup_insert_eq|done| |].
  - rewrite length_splice_put by lia. lia.
  - intros t. unfold count in *. destruct (decide (x = t)) as [<-|]; [by rewrite lookup_insert_eq|rewrite lookup_insert_ne by done].
    specialize (Hb t). lia.
Qed.

Lemma dec_ok t b m s : string_ok (default [] t) -> count_rep (S b) m s ->
  wp (run_count (Dec t)) (fun x s' => x = (spec_count (Dec t) m).1 /\ count_rep b (spec_count (Dec t) m).2 s') s.
Proof.
  intros Ht Hrep. pose proof (count_rep_less b m s Hrep) as Hrep'. pose proof Hrep as (Herr & _ & _ & _ & _ & _ & _ & _ & Hb).
  cbn [run_count spec_count]. apply wp_bind. eapply wp_with_global_topic; [exact Hrep| |].
  { intros ->. by apply wp_ret. }
  intros x y fs es -> Hx Hlx Hm Hf Hlen Hc. rewrite good_topic by done. cbn [default Datatypes.id fst snd] in *. pose proof (counts_wf m es Hm) as Hwf.
  change sizeof_mqtt_sub with (esize (E := entry)). apply wp_bind.
  eapply (wp_scan_hit (E := entry) (fun n : Z => to_ushort (n + 1)) _ (is_topic x) (fun n _ => to_ushort (n + 1)));
    [exact Hf|done|lia|exact Hc|..].
  - intros e n s' Hin Hh. destruct Hm as [Hok _]. rewrite Forall_forall in Hok. destruct (Hok e Hin) as (He & Hn & _).
    change (mqtt_sub_of (enc e)) with (dec (E := entry) (enc e)). rewrite Z.eqb_refl, (dec_enc e He). wp_go.
    eapply wp_ms_empty; [done|]. destruct (is_empty e); [by wp_go|]. wp_go. eapply wp_ms_is; [done|done|]. rewrite Hh. by wp_go.
  - intros n s'. by wp_go.
  - destruct (list_find (is_topic x) es) as [p|] eqn:Ep.
    + destruct (counts_found m es x p Hm Ep) as (k & e & -> & Hk & Hc0 & Hn & Hcm & He & Hnul & Hz).
      assert (Hlt := lookup_lt_Some _ _ _ Hk). clear Hc. intros z Hc.
      rewrite foldl_entry_number by (rewrite length_take; lia). rewrite length_take, Nat.min_l by lia.
      change (mqtt_sub_of (enc e)) with (dec (E := entry) (enc e)). rewrite Z.eqb_refl, (dec_enc e He). wp_go.
      eapply wp_ms_empty; [done|]. destruct (is_empty e) eqn:Ee.
      { apply (is_empty_topic x e Hx) in Ee. assert (is_topic x e = true) by (by apply is_topic_spec). congruence. }
      wp_go. eapply wp_ms_is; [done|done|]. rewrite (proj2 (is_topic_spec x e)) by done. wp_go.
      pose proof He as [Hrange Hlen']. unfold ranged in Hrange. cbn in Hrange. rewrite to_uint_id by lia.
      specialize (Hb x) as Hbx. eapply wp_lift; [apply sprintf_d_small; lia|]. wp_go.
      set (e' := if client_subscription_count e - 1 =? 0 then mqtt_sub_of (zeros (esize (E := entry))) else mkMqttSub (client_subscription_count e - 1) (ms_topic_name e)).
      assert (He' : entry_ok e' /\ client_subscription_count e' = client_subscription_count e - 1 /\
        (client_subscription_count e - 1 <> 0 -> ms_name e' = x)).
      { unfold e'. destruct (Z.eqb_spec (client_subscription_count e - 1) 0) as [E1|E1].
        - splits; [|by rewrite E1|done]. unfold entry_ok. splits; [exact (wf_zero (E := entry))|by eexists|done].
        - splits; [|done|done]. unfold entry_ok. splits; [|done|done]. split; [unfold ranged; cbn; lia|done]. }
      destruct He' as (He' & Hce' & Hne'). clearbody e'.
      eapply wp_save_mqtt_sub; [exact Hc|exact Hf|done|apply He'|lia|lia|]. clear Hc. intros v h' Hc. wp_go.
      split; [done|]. rewrite Hcm. destruct (Z.eqb_spec (client_subscription_count e) 0); [done|].
      rewrite <- Hce' in *.
      eapply (count_rep_put b m); [exact Herr|exact Hc|by eapply counts_update|lia|lia|exact Hb|lia].
    + intros z h' Hz. wp_go. split; [done|]. rewrite (counts_not_found m es x Hm Ep). cbn [Z.eqb].
      eapply count_rep_intro; [exact Herr|exact Hz|exact Hf|done|lia|]. intros t'. specialize (Hb t'). lia.
Qed.

Lemma text_array n x : string_ok x -> (length x < n)%nat -> text (padded n x) = x.
Proof. intros Hx Hl. unfold text, padded. by rewrite cstring_padded. Qed.

Lemma inc_ok t b m s : string_ok (default [] t) -> count_rep (S b) m s ->
  wp (run_count (Inc t)) (fun x s' => x = (spec_count (Inc t) m).1 /\ count_rep b (spec_count (Inc t) m).2 s') s.
Proof.
  intros Ht Hrep. pose proof (count_rep_less b m s Hrep) as Hrep'. pose proof Hrep as (Herr & _ & _ & _ & _ & _ & _ & _ & Hb).
  cbn [run_count spec_count]. apply wp_bind. eapply wp_with_global_topic; [exact Hrep| |].
  { intros ->. by apply wp_ret. }
  intros x y fs es -> Hx Hlx Hm Hf Hlen Hc. rewrite good_topic by done. cbn [default Datatypes.id fst snd] in *. pose proof (counts_wf m es Hm) as Hwf.
  specialize (Hb x) as Hbx. change sizeof_mqtt_sub with (esize (E := entry)). apply wp_bind.
  eapply (wp_scan_hit (E := entry) (fun '(n, k, _) => (to_ushort (n + 1), k, zero_entry)) _ (is_topic x) next_index);
    [exact Hf|done|lia|exact Hc|..].
  - intros e [[n k] e0] s' Hin Hh. destruct Hm as [Hok _]. rewrite Forall_forall in Hok. destruct (Hok e Hin) as (He & Hn & _).
    change (mqtt_sub_of (enc e)) with (dec (E := entry) (enc e)). rewrite Z.eqb_refl, (dec_enc e He). wp_go.
    eapply wp_ms_empty; [done|]. unfold next_index. destruct (is_empty e); [by wp_go|]. wp_go. eapply wp_ms_is; [done|done|]. rewrite Hh. by wp_go.
  - intros [[n k] e0] s'. by wp_go.
  - destruct (list_find (is_topic x) es) as [p|] eqn:Ep.
    + destruct (counts_found m es x p Hm Ep) as (k & e & -> & Hk & Hc0 & Hn & Hcm & He & Hnul & Hz).
      assert (Hlt := lookup_lt_Some _ _ _ Hk). clear Hc. intros z Hc.
      pose proof (foldl_next_index (take k es) zero_entry ltac:(rewrite length_take; lia)) as Hfold. destruct (foldl next_index _ (take k es)) as [[n k'] e0].
      rewrite length_take, Nat.min_l in Hfold by lia. cbn [fst] in Hfold. injection Hfold as -> _.
      change (mqtt_sub_of (enc e)) with (dec (E := entry) (enc e)). rewrite Z.eqb_refl, (dec_enc e He). wp_go.
      eapply wp_ms_empty; [done|]. destruct (is_empty e) eqn:Ee.
      { apply (is_empty_topic x e Hx) in Ee. assert (is_topic x e = true) by (by apply is_topic_spec). congruence. }
      wp_go. eapply wp_ms_is; [done|done|]. rewrite (proj2 (is_topic_spec x e)) by done. wp_go.
      pose proof He as [Hrange Hlen']. unfold ranged in Hrange. cbn in Hrange. rewrite to_uint_id by lia.
      eapply wp_lift; [apply sprintf_d_small; lia|]. wp_go.
      set (e' := mkMqttSub (client_subscription_count e + 1) (ms_topic_name e)).
      assert (He' : entry_ok e').
      { destruct He as [[? ?] ?]. unfold entry_ok. splits; [split; [unfold ranged; cbn; lia|done]|done|cbn; lia]. }
      eapply (wp_save_mqtt_sub _ _ _ es k e'); [exact Hc|exact Hf|done|apply He'|lia|lia|]. clear Hc. intros v h' Hc. wp_go.
      split; [done|]. rewrite Hcm. change (client_subscription_count e + 1) with (client_subscription_count e').
      eapply (count_rep_put b m); [exact Herr|exact Hc|by eapply counts_update|lia|lia|exact Hb|cbn; lia].
    + clear Hc. intros z h' Hc.
      pose proof (foldl_next_index es zero_entry ltac:(lia)) as Hfold. change (mqtt_sub_of (zeros (esize (E := entry)))) with (zero_entry (E := entry)) in *.
      destruct (foldl next_index _ es) as [[n k'] e0]. cbn [fst] in Hfold. injection Hfold as -> ->.
      rewrite to_ushort_id by lia. wp_go. rewrite first_empty_space. set (k := free_index is_empty es).
      pose proof (free_index_le is_empty es) as Hfi. fold k in Hfi.
      eapply wp_lift; [by apply (strcpy_zeros 255)|]. wp_go. fold (padded 255 x).
      destruct (cstring_array 255 x Ht Hlx) as [Hnul Hlen']. set (e' := mkMqttSub 1 (padded 255 x)).
      assert (He' : entry_ok e') by (unfold entry_ok; splits; [split; [unfold ranged; cbn; lia|done]|done|done]).
      eapply (wp_save_mqtt_sub _ _ _ es k e'); [exact Hc|exact Hf|done|apply He'|lia|lia|]. clear Hc. intros v h2 Hc. wp_go.
      split; [done|]. rewrite (counts_not_found m es x Hm Ep). change (0 + 1) with (client_subscription_count e').
      eapply (count_rep_put b m); [exact Herr|exact Hc| |lia|lia|exact Hb|cbn; lia].
      eapply counts_put; [done|done|done| | |done|by intros _; unfold ms_name, e'; cbn; apply text_array].
      * intros e1 Hk1. left. unfold k, free_index in Hk1. destruct (last_index is_empty es) as [j|] eqn:Ej; cbn [default Datatypes.id] in Hk1.
        -- destruct (last_index_Some _ _ _ Ej) as (e2 & He2 & Hemp). assert (e2 = e1) as -> by congruence.
           unfold is_empty in Hemp. apply andb_true_iff in Hemp as [Hz%Z.eqb_eq _]. exact Hz.
        -- apply lookup_lt_Some in Hk1. lia.
      * intros j e1 Hj _ Hc1 Hn1. apply list_find_None in Ep. rewrite Forall_lookup in Ep. apply (Ep j e1 Hj), Is_true_true, is_topic_spec. done.
Qed.

Lemma count_op_implements o b m s : count_op_ok o -> count_rep (S b) m s ->
  wp (run_count o) (fun x s' => x = (spec_count o m).1 /\ count_rep b (spec_count o m).2 s') s.
Proof. intros Ho Hrep. destruct o; [by apply inc_ok|by apply dec_ok|by apply count_ok]. Qed.

(** C24: whatever sequence of count operations is called, MQTT.SUB is a counter of topic names: each call returns what the counter returns. *)
Theorem counts_refine (os : list count_op) : forall b m s, Forall count_op_ok os -> count_rep (length os + b) m s ->
  exists s', run_counts os s = Some ((spec_counts os m).1, s') /\ count_rep b (spec_counts os m).2 s'.
Proof.
  enough (forall b m s, Forall count_op_ok os -> count_rep (length os + b) m s ->
    wp (run_counts os) (fun xs s' => xs = (spec_counts os m).1 /\ count_rep b (spec_counts os m).2 s') s) as Hall.
  { intros b m s Hos Hrep. destruct (wp_Some _ _ _ (Hall b m s Hos Hrep)) as (xs & s' & Hrun & -> & Hrep'). eauto. }
  induction os as [|o os IH]; intros b m s; cbn [run_counts spec_counts length]; [by split|]. intros [Ho Hos]%Forall_cons Hrep.
  apply wp_bind. eapply wp_mono; [by apply count_op_implements|]. intros x s' [-> Hrep'].
  apply wp_bind. eapply wp_mono; [by apply IH|]. intros xs s'' [-> Hrep'']. apply wp_ret.
  destruct (spec_count o m) as [x m']. cbn [fst snd] in *. by destruct (spec_counts os m') as [xs m''].
Qed.
End Counts.

(** ** Example *)

#[local] Existing Instances ram_sd ram_sd_ok gateway_types gateway_types_ok small_limits.

Definition topic_u : list Z := [117].
Definition counting : list count_op :=
  [Inc (Some topic_t); Inc (Some topic_u); Inc (Some topic_t); Count (Some topic_t); Dec (Some topic_u); Count (Some topic_u); Inc None].
Definition counted : list result := [Flag true; Flag true; Flag true; Num 2; Flag true; Num 0; Flag false].

Lemma counts_refine_witness : exists s', run_counts counting gateway = Some (counted, s').
Proof.
  assert (Hok : Forall count_op_ok counting) by (unfold counting; repeat apply Forall_cons_2; try apply Forall_nil_2; cbn; by repeat constructor).
  assert (Hrep : count_rep (length counting + 0) ∅ gateway).
  { eapply (count_rep_intro _ _ _ {[client_registry := []; mqtt_sub := []]} None []); [done|done|done| |cbn; lia|].
    - split; [constructor|]. split; [by intros i j e e' Hi|]. done.
    - intros t. unfold count. rewrite lookup_empty. cbn. lia. }
  destruct (counts_refine counting 0 ∅ gateway Hok Hrep) as (s' & Hrun & _). exists s'. 
  assert ((spec_counts counting ∅).1 = counted) as E by (vm_compute; reflexivity). rewrite <- E. exact Hrun.
Defined.

(** The hundred thousandth subscriber of a topic: the count is printed into six bytes. *)
Definition popular : pst := with_sd ({[client_registry := []; mqtt_sub := mqtt_sub_bytes (mkMqttSub 99999 (padded 255 topic_t))]}, None) blank.
Example long_count_overruns : option_map fst (run_count (Count (Some topic_t)) popular) = Some (Num 99999) /\
  option_map fst (run_count (Inc (Some topic_t)) popular) = None.
Proof. split; vm_compute; reflexivity. Qed.
