(* ===== verification/PersistConfig.v ===== *)
(** * PersistConfig: numbers in configuration lines over Persist.v

    What the parse functions of LinuxPersistent.h make of a line "key value". *)
From Stdlib Require Import ZifyBool.
From S2P Require Import Prelude CMem Persist Card Registry PersistSpec.

Definition digits (ds : list Z) : Prop := Forall (fun c => 48 <= c <= 57) ds.
Definition value (ds : list Z) : Z := foldl (fun a c => a * 10 + (c - 48)) 0 ds.
(** A configuration line in the buffer of [readLine], and its length with the terminator. *)
Definition line (key ds : list Z) (m : nat) : list Z := key ++ 32 :: ds ++ zeros (S m).
Definition line_len (key ds : list Z) : Z := Z.of_nat (length key + length ds) + 2.
Definition word (key : list Z) : Prop := Forall (fun c => c <> 32 /\ c <> 10) key.

Lemma find_space_line r : forall key2 key1 fuel max, word key2 -> (length key2 < fuel)%nat ->
  Z.of_nat (length key1 + length key2) < max -> max <= 65536 ->
  find_space fuel (key1 ++ key2 ++ 32 :: r) (Z.of_nat (length key1)) max = Some (Some (Z.of_nat (length key1 + length key2))).
Proof.
  induction key2 as [|c key2 IH]; intros key1 fuel max Hw Hf Hm Hmax; (destruct fuel as [|fuel]; [cbn [length] in Hf; lia|]); cbn [find_space].
  - cbn [app length]. rewrite Nat2Z.id, (list_lookup_middle _ _ _ (length key1) eq_refl). cbn [mbind option_bind Z.eqb]. by rewrite Nat.add_0_r.
  - apply Forall_cons in Hw as [[Hc _] Hw]. cbn [length app] in *. rewrite Nat2Z.id, (list_lookup_middle _ _ _ (length key1) eq_refl). cbn [mbind option_bind].
    destruct (Z.eqb_spec c 32); [done|]. rewrite to_ushort_id by lia. replace (Z.of_nat (length key1) + 1) with (Z.of_nat (length (key1 ++ [c]))) by (rewrite length_app; cbn; lia).
    rewrite Nat2Z.id. change (key1 ++ c :: key2 ++ 32 :: r) with (key1 ++ [c] ++ key2 ++ 32 :: r). rewrite app_assoc.
    assert (exists c', ((key1 ++ [c]) ++ key2 ++ 32 :: r) !! length (key1 ++ [c]) = Some c' /\ c' <> 10) as (c' & -> & Hc').
    { destruct key2 as [|c2 key2]; [exists 32; split; [by apply list_lookup_middle|lia]|].
      apply Forall_cons in Hw as [[_ Hc2] _]. exists c2. split; [by apply list_lookup_middle|done]. }
    cbn [mbind option_bind]. replace ((c' =? 10) || (Z.of_nat (length (key1 ++ [c])) =? max)) with false by (rewrite length_app; cbn [length]; lia).
    rewrite IH; rewrite ?length_app; cbn [length]; try done; try lia. do 3 f_equal. lia.
Qed.

Lemma find_end_line r m : forall ds2 pre fuel max, digits ds2 -> pre <> [] -> (length ds2 < fuel)%nat ->
  Z.of_nat (length pre + length ds2) <= max -> max < 65536 ->
  find_end fuel (pre ++ ds2 ++ zeros (S m) ++ r) (Z.of_nat (length pre) - 1) max = Some (Some (Z.of_nat (length pre + length ds2) - 1)).
Proof.
  induction ds2 as [|c ds IH]; intros pre fuel max Hd Hp Hf Hm Hmax; (destruct fuel as [|fuel]; [cbn [length] in Hf; lia|]); cbn [find_end].
  - replace (Z.of_nat (length pre) - 1 + 1) with (Z.of_nat (length pre)) by lia. rewrite Nat2Z.id.
    change (pre ++ [] ++ zeros (S m) ++ r) with (pre ++ 0 :: zeros m ++ r). rewrite (list_lookup_middle _ _ _ (length pre) eq_refl).
    cbn [mbind option_bind orb Z.eqb]. by rewrite Nat.add_0_r.
  - apply Forall_cons in Hd as [Hc Hd]. cbn [length app] in *. replace (Z.of_nat (length pre) - 1 + 1) with (Z.of_nat (length pre)) by lia.
    rewrite Nat2Z.id, (list_lookup_middle _ _ _ (length pre) eq_refl). cbn [mbind option_bind]. replace ((c =? 10) || (c =? 0)) with false by lia.
    rewrite to_ushort_id by lia. destruct (Z.ltb_spec max (Z.of_nat (length pre))); [lia|].
    change (pre ++ c :: ds ++ zeros (S m) ++ r) with (pre ++ [c] ++ ds ++ zeros (S m) ++ r). rewrite app_assoc.
    replace (Z.of_nat (length pre)) with (Z.of_nat (length (pre ++ [c])) - 1) by (rewrite length_app; cbn; lia).
    rewrite IH; rewrite ?length_app; cbn [length]; try done; try lia; [do 2 f_equal; lia|by destruct pre].
Qed.

Lemma after_space_line key ds m : word key -> digits ds -> line_len key ds <= 65535 ->
  after_space (line key ds m) (line_len key ds) = Some (Some (Z.of_nat (length key), Z.of_nat (length key + length ds))).
Proof.
  intros Hk Hd Hl. unfold after_space, line, line_len in *.
  pose proof (find_space_line (ds ++ zeros (S m)) key [] (S (length (key ++ 32 :: ds ++ zeros (S m)))) (Z.of_nat (length key + length ds) + 2) Hk) as Hs.
  cbn [length app Nat.add] in Hs. change (Z.of_nat 0) with 0 in Hs. rewrite Hs by (rewrite ?length_app; lia). cbn [mbind option_bind].
  pose proof (find_end_line [] m ds (key ++ [32]) (S (length (key ++ 32 :: ds ++ zeros (S m)))) (Z.of_nat (length key + length ds) + 2) Hd) as He.
  rewrite app_nil_r, <- app_assoc in He. cbn [app] in He. rewrite !length_app in *. cbn [length] in *.
  replace (Z.of_nat (length key + 1) - 1) with (Z.of_nat (length key)) in He by lia.
  rewrite He by (lia || (by destruct key) || (rewrite length_app; lia)). cbn [mbind option_bind]. do 3 f_equal. lia.
Qed.

Lemma value_of_line key ds m : value_of (line key ds m) (Z.of_nat (length key)) (Z.of_nat (length key + length ds)) = ds.
Proof.
  unfold value_of, line, member. replace (Z.to_nat (Z.of_nat (length key) + 1)) with (length key + 1)%nat by lia.
  replace (Z.to_nat (Z.of_nat (length key + length ds) - Z.of_nat (length key))) with (length ds) by lia.
  rewrite <- drop_drop, drop_app_length. change (drop 1 (32 :: ds ++ zeros (S m))) with (ds ++ zeros (S m)). by rewrite take_app_length.
Qed.

Lemma atoi_value ds : digits ds -> ds <> [] -> 0 <= value ds <= INT_MAX -> atoi ds = Some (value ds).
Proof.
  intros Hd Hne Hv. pose proof (atoi_digits_num 0 [] ds Hd) as Ha. rewrite app_nil_r in Ha. fold (value ds) in Ha. cbn [atoi_digits] in Ha.
  destruct ds as [|c ds]; [done|]. pose proof Hd as [Hc _]%Forall_cons. unfold atoi. cbn [skip_space]. unfold is_space.
  replace ((c =? 32) || ((9 <=? c) && (c <=? 13))) with false by lia.
  destruct (Z.eqb_spec c 45), (Z.eqb_spec c 43); [lia..|]. rewrite Ha. apply cint_ok. unfold INT_MIN. lia.
Qed.

Lemma value_bound : forall ds acc, digits ds -> 0 <= acc ->
  0 <= foldl (fun a c => a * 10 + (c - 48)) acc ds < (acc + 1) * 10 ^ Z.of_nat (length ds).
Proof.
  induction ds as [|c ds IH]; intros acc Hd Ha; [cbn; lia|]. apply Forall_cons in Hd as [Hc Hd]. cbn [foldl length].
  rewrite Nat2Z.inj_succ, Z.pow_succ_r by lia. specialize (IH (acc * 10 + (c - 48)) Hd). nia.
Qed.

(** A configuration line "key digits" of one to six digits is read as its number modulo 65536, and accepted if that is not zero; without digits or with more of them it is refused. *)
Theorem parse_uint16_line d key ds m : word key -> digits ds -> line_len key ds <= 65535 ->
  parse_uint16_t_after_space d (line key ds m) (line_len key ds) =
    Some (if (1 <=? Z.of_nat (length ds)) && (Z.of_nat (length ds) <=? 6)
          then (negb (value ds mod 65536 =? 0), value ds mod 65536) else (false, d)).
Proof.
  intros Hk Hd Hl. unfold parse_uint16_t_after_space. rewrite after_space_line by done. cbn [mbind option_bind].
  rewrite value_of_line. unfold line_len. set (n := length ds) in *.
  set (a := Z.of_nat (length key)) in *. set (b := Z.of_nat (length key + n)) in *.
  assert ((a + 1 <? b + 2) && negb (a =? b) && (b - a <=? 6) && (1 <=? b - a) = (1 <=? Z.of_nat n) && (Z.of_nat n <=? 6)) as -> by lia.
  destruct ((1 <=? Z.of_nat n) && (Z.of_nat n <=? 6)) eqn:En; [|done].
  replace (7 - Z.to_nat (b - a))%nat with (7 - n)%nat by lia.
  assert (Hnz : Forall (fun c => c <> 0) ds) by (eapply Forall_impl; [exact Hd|cbn; lia]).
  assert (n < 7)%nat by lia. rewrite cstring_padded by done. cbn [mbind option_bind].
  pose proof (value_bound ds 0 Hd ltac:(lia)) as Hv. fold (value ds) n in Hv. assert (10 ^ Z.of_nat n <= 10 ^ 6) by (apply Z.pow_le_mono_r; lia).
  rewrite atoi_value; [done|done|by destruct ds|unfold INT_MAX; lia].
Qed.

(** "brokerport 70000" *)
Lemma parse_uint16_line_witness : parse_uint16_t_after_space 0 (line k_brokerport [55; 48; 48; 48; 48] 3) 17 = Some (true, 4464).
Proof.
  assert (Hk : word k_brokerport) by (unfold word, k_brokerport; repeat apply Forall_cons_2; try apply Forall_nil_2; lia).
  assert (Hd : digits [55; 48; 48; 48; 48]) by (unfold digits; repeat apply Forall_cons_2; try apply Forall_nil_2; lia).
  pose proof (parse_uint16_line 0 k_brokerport [55; 48; 48; 48; 48] 3 Hk Hd ltac:(unfold line_len; cbn; lia)) as HH. exact HH.
Defined.
