(* ===== verification/Ecc.v ===== *)
(** * Ecc: shared/ecc.c of BlueZ

    Keys of the curve P-256, for the pairing of devices: numbers of four 64-bit digits, the
    reduction modulo the prime of the curve, and points in co-Z coordinates.  Digits are the least
    significant first.  The functions write their results through pointers that may be those of an argument; every
    digit is read before the same digit is written, so they are functions of values here. *)
From S2P Require Import Prelude CMem.

Definition ECC_BYTES : nat := 32.
Definition NUM_ECC_DIGITS : nat := 4.
Definition MAX_TRIES : nat := 16.
(** [uint64_t] *)
Definition w64 (z : Z) : Z := z mod 18446744073709551616.
Abbreviation vli := (list Z).
Definition digit_at (v : vli) (i : nat) : Z := nth i v 0.
Record ecc_point := mkPoint { px : vli; py : vli }.
Record uint128_t := mkU128 { m_low : Z; m_high : Z }.

Definition curve_p : vli := [0xFFFFFFFFFFFFFFFF; 0x00000000FFFFFFFF; 0x0000000000000000; 0xFFFFFFFF00000001].
Definition curve_g : ecc_point :=
  mkPoint [0xF4A13945D898C296; 0x77037D812DEB33A0; 0xF8BCE6E563A440F2; 0x6B17D1F2E12C4247]
          [0xCBB6406837BF51F5; 0x2BCE33576B315ECE; 0x8EE7EB4A7C0F9E16; 0x4FE342E2FE1A7F9B].
Definition curve_n : vli := [0xF3B9CAC2FC632551; 0xBCE6FAADA7179E84; 0xFFFFFFFFFFFFFFFF; 0xFFFFFFFF00000000].

(** ** Digits *)

Definition vli_clear : vli := replicate NUM_ECC_DIGITS 0.
Definition vli_is_zero (v : vli) : bool := forallb (fun d => d =? 0) v.
Definition vli_test_bit (v : vli) (bit : nat) : Z := Z.land (digit_at v (bit / 64)) (w64 (Z.shiftl 1 (Z.of_nat (bit mod 64)))).

(** [for (i = NUM_ECC_DIGITS - 1; i >= 0 && vli[i] == 0; i--)], with [i + 1] as its argument. *)
Fixpoint num_digits_loop (n : nat) (v : vli) : nat :=
  match n with O => O | S i => if digit_at v i =? 0 then num_digits_loop i v else S i end.
Definition vli_num_digits (v : vli) : nat := num_digits_loop NUM_ECC_DIGITS v.
(** [for (i = 0; digit; i++) digit >>= 1] of a digit of at most [fuel] bits *)
Fixpoint num_bits_loop (fuel : nat) (digit : Z) (i : nat) : nat :=
  match fuel with O => i | S fuel => if digit =? 0 then i else num_bits_loop fuel (Z.shiftr digit 1) (S i) end.
Definition vli_num_bits (v : vli) : nat :=
  match vli_num_digits v with O => O | S n => (n * 64 + num_bits_loop 64 (digit_at v n) 0)%nat end.

Definition vli_set (v : vli) : vli := v.

(** From the digit below [n] down. *)
Fixpoint vli_cmp_loop (n : nat) (left right : vli) : Z :=
  match n with
  | O => 0
  | S i => if digit_at right i <? digit_at left i then 1 else if digit_at left i <? digit_at right i then -1 else vli_cmp_loop i left right
  end.
Definition vli_cmp (left right : vli) : Z := vli_cmp_loop NUM_ECC_DIGITS left right.

Fixpoint vli_lshift_loop (v : vli) (shift carry : Z) : vli * Z :=
  match v with
  | [] => ([], carry)
  | temp :: v => let '(r, c) := vli_lshift_loop v shift (Z.shiftr temp (64 - shift)) in (Z.lor (w64 (Z.shiftl temp shift)) carry :: r, c)
  end.
Definition vli_lshift (v : vli) (shift : Z) : vli * Z := vli_lshift_loop v shift 0.

(** From the most significant digit down, which is the first of the argument. *)
Fixpoint vli_rshift1_loop (v : vli) (carry : Z) : vli :=
  match v with [] => [] | temp :: v => Z.lor (Z.shiftr temp 1) carry :: vli_rshift1_loop v (w64 (Z.shiftl temp 63)) end.
Definition vli_rshift1 (v : vli) : vli := rev (vli_rshift1_loop (rev v) 0).

Fixpoint vli_add_loop (left right : vli) (carry : Z) : vli * Z :=
  match left, right with
  | l :: ls, r :: rs =>
    let sum := w64 (w64 (l + r) + carry) in
    let carry := if negb (sum =? l) then bool_to_Z (sum <? l) else carry in
    let '(res, c) := vli_add_loop ls rs carry in (sum :: res, c)
  | _, _ => ([], carry)
  end.
Definition vli_add (left right : vli) : vli * Z := vli_add_loop left right 0.

Fixpoint vli_sub_loop (left right : vli) (borrow : Z) : vli * Z :=
  match left, right with
  | l :: ls, r :: rs =>
    let diff := w64 (w64 (l - r) - borrow) in
    let borrow := if negb (diff =? l) then bool_to_Z (l <? diff) else borrow in
    let '(res, b) := vli_sub_loop ls rs borrow in (diff :: res, b)
  | _, _ => ([], borrow)
  end.
Definition vli_sub (left right : vli) : vli * Z := vli_sub_loop left right 0.

(** ** Products *)

Definition mul_64_64 (left right : Z) : uint128_t :=
  let a0 := Z.land left 0xffffffff in
  let a1 := Z.shiftr left 32 in
  let b0 := Z.land right 0xffffffff in
  let b1 := Z.shiftr right 32 in
  let m0 := w64 (a0 * b0) in
  let m1 := w64 (a0 * b1) in
  let m2 := w64 (a1 * b0) in
  let m3 := w64 (a1 * b1) in
  let m2 := w64 (m2 + Z.shiftr m0 32) in
  let m2 := w64 (m2 + m1) in
  let m3 := if m2 <? m1 then w64 (m3 + 0x100000000) else m3 in
  mkU128 (Z.lor (Z.land m0 0xffffffff) (w64 (Z.shiftl m2 32))) (w64 (m3 + Z.shiftr m2 32)).

Definition add_128_128 (a b : uint128_t) : uint128_t :=
  let low := w64 (m_low a + m_low b) in
  mkU128 low (w64 (w64 (m_high a + m_high b) + bool_to_Z (low <? m_low a))).

(** [r01 = add_128_128(r01, product); r2 += (r01.m_high < product.m_high)] *)
Definition accumulate (r01 product : uint128_t) (r2 : Z) : uint128_t * Z :=
  let r01 := add_128_128 r01 product in (r01, w64 (r2 + bool_to_Z (m_high r01 <? m_high product))).

(** [for (i = min; i <= k && i < NUM_ECC_DIGITS; i++)], for at most [n] rounds *)
Fixpoint mult_inner (n i k : nat) (left right : vli) (r01 : uint128_t) (r2 : Z) : uint128_t * Z :=
  match n with
  | O => (r01, r2)
  | S n =>
    if (i <=? k)%nat && (i <? NUM_ECC_DIGITS)%nat then
      let '(r01, r2) := accumulate r01 (mul_64_64 (digit_at left i) (digit_at right (k - i))) r2 in
      mult_inner n (S i) k left right r01 r2
    else (r01, r2)
  end.
Definition column_min (k : nat) : nat := if (k <? NUM_ECC_DIGITS)%nat then O else (k + 1 - NUM_ECC_DIGITS)%nat.
(** [for (k = 0; k < NUM_ECC_DIGITS * 2 - 1; k++)] over columns, with what follows; [n] rounds left. *)
Fixpoint columns (column : nat -> uint128_t -> Z -> uint128_t * Z) (n k : nat) (r01 : uint128_t) : vli :=
  match n with
  | O => [m_low r01]
  | S n => let '(r01, r2) := column k r01 0 in m_low r01 :: columns column n (S k) (mkU128 (m_high r01) r2)
  end.
Definition vli_mult (left right : vli) : vli :=
  columns (fun k r01 r2 => mult_inner NUM_ECC_DIGITS (column_min k) k left right r01 r2) (NUM_ECC_DIGITS * 2 - 1) 0 (mkU128 0 0).

(** [for (i = min; i <= k && i <= k - i; i++)] *)
Fixpoint square_inner (n i k : nat) (left : vli) (r01 : uint128_t) (r2 : Z) : uint128_t * Z :=
  match n with
  | O => (r01, r2)
  | S n =>
    if (i <=? k)%nat && (i <=? k - i)%nat then
      let product := mul_64_64 (digit_at left i) (digit_at left (k - i)) in
      let '(product, r2) :=
        if (i <? k - i)%nat then
          (mkU128 (w64 (Z.shiftl (m_low product) 1)) (Z.lor (w64 (Z.shiftl (m_high product) 1)) (Z.shiftr (m_low product) 63)), w64 (r2 + Z.shiftr (m_high product) 63))
        else (product, r2) in
      let '(r01, r2) := accumulate r01 product r2 in
      square_inner n (S i) k left r01 r2
    else (r01, r2)
  end.
Definition vli_square (left : vli) : vli :=
  columns (fun k r01 r2 => square_inner NUM_ECC_DIGITS (column_min k) k left r01 r2) (NUM_ECC_DIGITS * 2 - 1) 0 (mkU128 0 0).

(** ** Arithmetic modulo a number *)

Definition vli_mod_add (left right mod_ : vli) : vli :=
  let '(result, carry) := vli_add left right in
  if negb (carry =? 0) || (0 <=? vli_cmp result mod_) then fst (vli_sub result mod_) else result.
Definition vli_mod_sub (left right mod_ : vli) : vli :=
  let '(result, borrow) := vli_sub left right in
  if negb (borrow =? 0) then fst (vli_add result mod_) else result.

(** [do { ... } while (carry < 0)] and the loop of the other branch; [fuel] rounds. *)
Fixpoint add_p_loop (fuel : nat) (result : vli) (carry : Z) : option vli :=
  match fuel with
  | O => None
  | S fuel => let '(result, c) := vli_add result curve_p in let carry := carry + c in if carry <? 0 then add_p_loop fuel result carry else Some result
  end.
Fixpoint sub_p_loop (fuel : nat) (result : vli) (carry : Z) : option vli :=
  match fuel with
  | O => None
  | S fuel =>
    if negb (carry =? 0) || negb (vli_cmp curve_p result =? 1) then let '(result, b) := vli_sub result curve_p in sub_p_loop fuel result (carry - b)
    else Some result
  end.
Definition mmod_fuel : nat := 16.

Definition HIGH32 : Z := 0xffffffff00000000.
Definition LOW32 : Z := 0xffffffff.
(** [x << 32] and [x >> 32] of a digit *)
Definition up (x : Z) : Z := w64 (Z.shiftl x 32).
Definition down (x : Z) : Z := Z.shiftr x 32.

Definition vli_mmod_fast (product : vli) : option vli :=
  let p i := digit_at product i in
  let result := vli_set (take NUM_ECC_DIGITS product) in
  let '(tmp, carry) := vli_lshift [0; Z.land (p 5%nat) HIGH32; p 6%nat; p 7%nat] 1 in
  let '(result, c) := vli_add result tmp in let carry := carry + c in
  let '(tmp, c) := vli_lshift [digit_at tmp 0; up (p 6%nat); Z.lor (down (p 6%nat)) (up (p 7%nat)); down (p 7%nat)] 1 in let carry := carry + c in
  let '(result, c) := vli_add result tmp in let carry := carry + c in
  let '(result, c) := vli_add result [p 4%nat; Z.land (p 5%nat) LOW32; 0; p 7%nat] in let carry := carry + c in
  let '(result, c) := vli_add result
    [Z.lor (down (p 4%nat)) (up (p 5%nat)); Z.lor (down (p 5%nat)) (Z.land (p 6%nat) HIGH32); p 7%nat; Z.lor (down (p 6%nat)) (up (p 4%nat))] in let carry := carry + c in
  let '(result, b) := vli_sub result [Z.lor (down (p 5%nat)) (up (p 6%nat)); down (p 6%nat); 0; Z.lor (Z.land (p 4%nat) LOW32) (up (p 5%nat))] in let carry := carry - b in
  let '(result, b) := vli_sub result [p 6%nat; p 7%nat; 0; Z.lor (down (p 4%nat)) (Z.land (p 5%nat) HIGH32)] in let carry := carry - b in
  let '(result, b) := vli_sub result
    [Z.lor (down (p 6%nat)) (up (p 7%nat)); Z.lor (down (p 7%nat)) (up (p 4%nat)); Z.lor (down (p 4%nat)) (up (p 5%nat)); up (p 6%nat)] in let carry := carry - b in
  let '(result, b) := vli_sub result [p 7%nat; Z.land (p 4%nat) HIGH32; p 5%nat; Z.land (p 6%nat) HIGH32] in let carry := carry - b in
  if carry <? 0 then add_p_loop mmod_fuel result carry else sub_p_loop mmod_fuel result carry.

Definition vli_mod_mult_fast (left right : vli) : option vli := vli_mmod_fast (vli_mult left right).
Definition vli_mod_square_fast (left : vli) : option vli := vli_mmod_fast (vli_square left).

Definition EVEN (v : vli) : bool := Z.land (digit_at v 0) 1 =? 0.
(** Adding [mod] to a number that is odd, and halving it with the carry of the addition on top. *)
Definition halve_mod (u mod_ : vli) : vli :=
  let '(u, carry) := if EVEN u then (u, 0) else vli_add u mod_ in
  let u := vli_rshift1 u in
  if negb (carry =? 0) then take 3 u ++ [Z.lor (digit_at u 3) 0x8000000000000000] else u.
(** [if (vli_cmp(u, v) < 0) vli_add(u, u, mod); vli_sub(u, u, v);] *)
Definition reduce_by (u v mod_ : vli) : vli := fst (vli_sub (if vli_cmp u v <? 0 then fst (vli_add u mod_) else u) v).
Fixpoint mod_inv_loop (fuel : nat) (a b u v mod_ : vli) : option vli :=
  match fuel with
  | O => None
  | S fuel =>
    let cmp_result := vli_cmp a b in
    if cmp_result =? 0 then Some u else
    if EVEN a then mod_inv_loop fuel (vli_rshift1 a) b (halve_mod u mod_) v mod_
    else if EVEN b then mod_inv_loop fuel a (vli_rshift1 b) u (halve_mod v mod_) mod_
    else if 0 <? cmp_result then mod_inv_loop fuel (vli_rshift1 (fst (vli_sub a b))) b (halve_mod (reduce_by u v mod_) mod_) v mod_
    else mod_inv_loop fuel a (vli_rshift1 (fst (vli_sub b a))) u (halve_mod (reduce_by v u mod_) mod_) mod_
  end.
(** Two numbers of 256 bits, of which a round halves one. *)
Definition mod_inv_fuel : nat := 513.
Definition vli_mod_inv (input mod_ : vli) : option vli :=
  if vli_is_zero input then Some vli_clear else mod_inv_loop mod_inv_fuel (vli_set input) (vli_set mod_) [1; 0; 0; 0] vli_clear mod_.

(** ** Points *)

Definition ecc_point_is_zero (p : ecc_point) : bool := vli_is_zero (px p) && vli_is_zero (py p).

Abbreviation mul := vli_mod_mult_fast.
Abbreviation sqr := vli_mod_square_fast.
Abbreviation add_p a b := (vli_mod_add a b curve_p).
Abbreviation sub_p a b := (vli_mod_sub a b curve_p).

(** [x1] and [y1] with [z1]: the point twice. *)
Definition ecc_point_double_jacobian (x1 y1 z1 : vli) : option (vli * vli * vli) :=
  if vli_is_zero z1 then Some (x1, y1, z1) else
  t4 ← sqr y1;
  t5 ← mul x1 t4;
  t4 ← sqr t4;
  y1 ← mul y1 z1;
  z1 ← sqr z1;
  let x1 := add_p x1 z1 in
  let z1 := add_p z1 z1 in
  let z1 := sub_p x1 z1 in
  x1 ← mul x1 z1;
  let z1 := add_p x1 x1 in
  let x1 := add_p x1 z1 in
  let x1 :=
    if negb (vli_test_bit x1 0 =? 0) then
      let '(x1, carry) := vli_add x1 curve_p in
      let x1 := vli_rshift1 x1 in take 3 x1 ++ [Z.lor (digit_at x1 3) (w64 (Z.shiftl carry 63))]
    else vli_rshift1 x1 in
  z1 ← sqr x1;
  let z1 := sub_p z1 t5 in
  let z1 := sub_p z1 t5 in
  let t5 := sub_p t5 z1 in
  x1 ← mul x1 t5;
  let t4 := sub_p x1 t4 in
  Some (z1, t4, y1).

Definition apply_z (x1 y1 z : vli) : option (vli * vli) :=
  t1 ← sqr z;
  x1 ← mul x1 t1;
  t1 ← mul t1 z;
  y1 ← mul y1 t1;
  Some (x1, y1).

(** The point twice, and the point with the same [z]. *)
Definition xycz_initial_double (x1 y1 : vli) (p_initial_z : option vli) : option (vli * vli * vli * vli) :=
  let x2 := vli_set x1 in
  let y2 := vli_set y1 in
  let z := match p_initial_z with Some z => vli_set z | None => [1; 0; 0; 0] end in
  '(x1, y1) ← apply_z x1 y1 z;
  '(x1, y1, z) ← ecc_point_double_jacobian x1 y1 z;
  '(x2, y2) ← apply_z x2 y2 z;
  Some (x1, y1, x2, y2).

Definition xycz_add (x1 y1 x2 y2 : vli) : option (vli * vli * vli * vli) :=
  let t5 := sub_p x2 x1 in
  t5 ← sqr t5;
  x1 ← mul x1 t5;
  x2 ← mul x2 t5;
  let y2 := sub_p y2 y1 in
  t5 ← sqr y2;
  let t5 := sub_p t5 x1 in
  let t5 := sub_p t5 x2 in
  let x2 := sub_p x2 x1 in
  y1 ← mul y1 x2;
  let x2 := sub_p x1 t5 in
  y2 ← mul y2 x2;
  let y2 := sub_p y2 y1 in
  Some (x1, y1, vli_set t5, y2).

Definition xycz_add_c (x1 y1 x2 y2 : vli) : option (vli * vli * vli * vli) :=
  let t5 := sub_p x2 x1 in
  t5 ← sqr t5;
  x1 ← mul x1 t5;
  x2 ← mul x2 t5;
  let t5 := add_p y2 y1 in
  let y2 := sub_p y2 y1 in
  let t6 := sub_p x2 x1 in
  y1 ← mul y1 t6;
  let t6 := add_p x1 x2 in
  x2 ← sqr y2;
  let x2 := sub_p x2 t6 in
  let t7 := sub_p x1 x2 in
  y2 ← mul y2 t7;
  let y2 := sub_p y2 y1 in
  t7 ← sqr t5;
  let t7 := sub_p t7 t6 in
  let t6 := sub_p t7 x1 in
  t6 ← mul t6 t5;
  let y1 := sub_p t6 y1 in
  Some (vli_set t7, y1, x2, y2).

(** The two points of the ladder, [rx] and [ry]. *)
Record ladder := mkLadder { l_x0 : vli; l_y0 : vli; l_x1 : vli; l_y1 : vli }.
(** A function of two points on those of indices [1 - nb] and [nb], for [nb] of 1 or 0, or the other way round. *)
Definition on_points (f : vli -> vli -> vli -> vli -> option (vli * vli * vli * vli)) (first_is_0 : bool) (l : ladder) : option ladder :=
  if first_is_0 then '(x, y, x', y') ← f (l_x0 l) (l_y0 l) (l_x1 l) (l_y1 l); Some (mkLadder x y x' y')
  else '(x, y, x', y') ← f (l_x1 l) (l_y1 l) (l_x0 l) (l_y0 l); Some (mkLadder x' y' x y).
(** [nb]: that the bit is not set. *)
Definition bit_clear (scalar : vli) (i : nat) : bool := vli_test_bit scalar i =? 0.
Definition ladder_step (nb : bool) (l : ladder) : option ladder := l ← on_points xycz_add_c nb l; on_points xycz_add (negb nb) l.
(** [for (i = num_bits - 2; i > 0; i--)], from [i] on *)
Fixpoint ladder_loop (i : nat) (scalar : vli) (l : ladder) : option ladder :=
  match i with O => Some l | S i' => l ← ladder_step (bit_clear scalar i) l; ladder_loop i' scalar l end.

Definition ecc_point_mult (point : ecc_point) (scalar : vli) (initial_z : option vli) (num_bits : nat) : option ecc_point :=
  '(x1, y1, x0, y0) ← xycz_initial_double (vli_set (px point)) (vli_set (py point)) initial_z;
  l ← ladder_loop (num_bits - 2) scalar (mkLadder x0 y0 x1 y1);
  let nb := bit_clear scalar 0 in
  l ← on_points xycz_add_c nb l;
  let z := sub_p (l_x1 l) (l_x0 l) in
  z ← mul z (if nb then l_y0 l else l_y1 l);
  z ← mul z (px point);
  z ← vli_mod_inv z curve_p;
  z ← mul z (py point);
  z ← mul z (if nb then l_x0 l else l_x1 l);
  l ← on_points xycz_add (negb nb) l;
  '(x0, y0) ← apply_z (l_x0 l) (l_y0 l) z;
  Some (mkPoint (vli_set x0) (vli_set y0)).

(** ** Keys *)

(** Eight bytes at [8 * i], the least significant first. *)
Definition bytes_digit (bytes : list Z) (i : nat) : Z :=
  let d j := nth (8 * i + j) bytes 0 in
  Z.lor (Z.lor (Z.lor (Z.lor (Z.lor (Z.lor (Z.lor (Z.shiftl (d 0%nat) 0) (Z.shiftl (d 1%nat) 8)) (Z.shiftl (d 2%nat) 16)) (Z.shiftl (d 3%nat) 24))
    (Z.shiftl (d 4%nat) 32)) (Z.shiftl (d 5%nat) 40)) (Z.shiftl (d 6%nat) 48)) (Z.shiftl (d 7%nat) 56).
Definition ecc_bytes2native (bytes : list Z) : vli := map (bytes_digit bytes) (seq 0 NUM_ECC_DIGITS).
Definition digit_bytes (d : Z) : list Z := map (fun s => to_uchar (Z.shiftr d s)) [0; 8; 16; 24; 32; 40; 48; 56].
Definition ecc_native2bytes (native : vli) : list Z := concat (map digit_bytes native).

(** The loop of [get_random_number]: [reads] are the bytes of each [read], of which there are none at an error or the end;
    the outer [None] is that the next [read] does not return. *)
Fixpoint random_loop (reads : list (list Z)) (got : list Z) : option (option (list Z)) :=
  if (ECC_BYTES <=? length got)%nat then Some (Some got) else
  match reads with
  | [] => None
  | [] :: _ => Some None
  | bs :: reads => random_loop reads (got ++ bs)
  end.
(** What [open] of both devices gives, and the reads.  The bytes are those of digits in memory, on a little-endian machine. *)
Definition get_random_number (open_urandom open_random : Z) (reads : list (list Z)) : option (option vli) :=
  if (open_urandom <? 0) && (open_random <? 0) then Some None else
  match random_loop reads [] with
  | None => None
  | Some r => Some (option_map ecc_bytes2native r)
  end.

(** The loop of [ecc_make_key]: [random i] is what the [i]-th [get_random_number] gives; [pk] is what it was.
    A [continue] goes to the test of the loop.  [n]: fuel for as many rounds; [None] where it runs out. *)
Fixpoint make_key_loop (random : nat -> option vli) (n tries : nat) (pk : ecc_point) : option (option (vli * ecc_point)) :=
  match n with
  | O => None
  | S n =>
    match random tries with
    | None => Some None
    | Some priv =>
      if (MAX_TRIES <=? tries)%nat then Some None else
      pk ← (if vli_is_zero priv then Some pk else if negb (vli_cmp curve_n priv =? 1) then Some pk else ecc_point_mult curve_g priv None (vli_num_bits priv));
      if ecc_point_is_zero pk then make_key_loop random n (S tries) pk else Some (Some (priv, pk))
    end
  end.
(** The private key and the public key; [uninitialised]: the local [pk] before. *)
Definition ecc_make_key (random : nat -> option vli) (uninitialised : ecc_point) : option (option (list Z * list Z)) :=
  r ← make_key_loop random (S MAX_TRIES) 0 uninitialised;
  Some (option_map (fun '(priv, pk) => (ecc_native2bytes priv, ecc_native2bytes (px pk) ++ ecc_native2bytes (py pk))) r).

(** The secret, and whether it is one. *)
Definition ecdh_shared_secret (rand : option vli) (public_key private_key : list Z) : option (option (list Z * bool)) :=
  match rand with
  | None => Some None
  | Some rand =>
    let pk := mkPoint (ecc_bytes2native (take 32 public_key)) (ecc_bytes2native (drop 32 public_key)) in
    let priv := ecc_bytes2native private_key in
    product ← ecc_point_mult pk priv (Some rand) (vli_num_bits priv);
    Some (Some (ecc_native2bytes (px product), negb (ecc_point_is_zero product)))
  end.
