(* ===== verification/EccSpec.v ===== *)
(** * EccSpec: numbers of digits, and arithmetic modulo the prime of the curve

    [num] is the number that digits stand for.  Addition, subtraction, shifts and the comparison are
    those of numbers; the product is short of a carry at times. *)
From S2P Require Import Prelude CMem Ecc.

Abbreviation W := 18446744073709551616 (only parsing).
Definition num (v : vli) : Z := foldr (fun d n => d + W * n) 0 v.
Definition digit (d : Z) : Prop := 0 <= d < W.
Definition digits (n : nat) (v : vli) : Prop := length v = n /\ Forall digit v.
Abbreviation number := (digits 4).
(** The numbers above those of [n] digits. *)
Definition base (n : nat) : Z := 2 ^ (64 * Z.of_nat n).

(** A carry is 0 or 1. *)
Ltac carries := repeat match goal with H : 0 <= ?c <= 1 |- _ => let E := fresh in assert (c = 0 \/ c = 1) as [E | E] by lia; clear H; subst c end.

(** ** Digits *)

Lemma base_S n : base (S n) = W * base n.
Proof. unfold base. rewrite Nat2Z.inj_succ, Z.mul_succ_r, Z.pow_add_r by lia. change (2 ^ 64) with W. lia. Qed.
Lemma base_0 : base 0 = 1.
Proof. reflexivity. Qed.
Lemma base_pos n : 0 < base n.
Proof. unfold base. apply Z.pow_pos_nonneg; lia. Qed.

Lemma w64_digit z : digit (w64 z).
Proof. unfold digit, w64. apply Z.mod_pos_bound. lia. Qed.
Lemma w64_id z : digit z -> w64 z = z.
Proof. unfold digit, w64. intros. by apply Z.mod_small. Qed.
(** What is cut off. *)
Lemma w64_split z : exists q, z = w64 z + W * q.
Proof. unfold w64. exists (z / W). rewrite (Z.div_mod z W) at 1; lia. Qed.

Lemma digits_nil n v : digits n v -> n = O -> v = [].
Proof. intros [H _] ->. by destruct v. Qed.
Lemma digits_S n v : digits (S n) v -> exists d v', v = d :: v' /\ digit d /\ digits n v'.
Proof. intros [H Hv]. destruct v as [|d v]; [done|]. inversion Hv; subst. exists d, v. unfold digits. auto. Qed.
Lemma digits_cons n d v : digit d -> digits n v -> digits (S n) (d :: v).
Proof. intros Hd [H Hv]. split; [simpl; lia|by constructor]. Qed.
Lemma digits_0 : digits 0 [].
Proof. done. Qed.
Create HintDb vli.
#[export] Hint Resolve w64_digit digits_cons digits_0 : vli.
Lemma digits_at n v i : digits n v -> digit (digit_at v i).
Proof.
  intros [_ H]. unfold digit_at. destruct (Nat.ltb_spec i (length v)).
  - apply (proj1 (Forall_nth _ 0 v) H). done.
  - rewrite nth_overflow by lia. unfold digit. lia.
Qed.

Lemma num_range n v : digits n v -> 0 <= num v < base n.
Proof.
  revert v. induction n as [|n IH]; intros v Hv.
  - rewrite (digits_nil _ _ Hv) by done. rewrite base_0. simpl. lia.
  - apply digits_S in Hv as (d & v' & -> & Hd & Hv). specialize (IH _ Hv). rewrite base_S. unfold digit in Hd. cbn [num foldr] in *. fold (num v') in *. nia.
Qed.
Lemma num_cons d v : num (d :: v) = d + W * num v.
Proof. done. Qed.
Lemma num_nil : num [] = 0.
Proof. done. Qed.
Lemma num_app a b : num (a ++ b) = num a + base (length a) * num b.
Proof.
  induction a as [|d a IH]; cbn [app length]; [rewrite base_0, num_nil; lia|]. rewrite !num_cons, IH, base_S. lia.
Qed.
Lemma digits_inj n v w : digits n v -> digits n w -> num v = num w -> v = w.
Proof.
  revert v w. induction n as [|n IH]; intros v w Hv Hw.
  - by rewrite (digits_nil _ _ Hv), (digits_nil _ _ Hw) by done.
  - apply digits_S in Hv as (d & v' & -> & Hd & Hv), Hw as (e & w' & -> & He & Hw). rewrite !num_cons. unfold digit in *. intros H.
    assert (num v' = num w') as E by lia. assert (d = e) by lia. subst. f_equal. by apply IH.
Qed.

(** ** Sums and differences *)

(** [if (sum != left) carry = (sum < left)] finds the carry of three numbers. *)
Lemma add_carry l r c : digit l -> digit r -> 0 <= c <= 1 ->
  let s := w64 (w64 (l + r) + c) in
  let c' := if negb (s =? l) then bool_to_Z (s <? l) else c in
  s + W * c' = l + r + c /\ 0 <= c' <= 1.
Proof.
  intros Hl Hr Hc s c'. unfold digit in *.
  assert (s = (l + r + c) mod W) as Hs by (unfold s, w64; by rewrite Zplus_mod_idemp_l).
  pose proof (Z.div_mod (l + r + c) W ltac:(lia)) as Hq. rewrite <- Hs in Hq. pose proof (Z.mod_pos_bound (l + r + c) W ltac:(lia)) as Hb. rewrite <- Hs in Hb.
  unfold c'. clearbody s. clear Hs. destruct (Z.eqb_spec s l); cbn [negb]; [lia|]. destruct (Z.ltb_spec s l); cbn [bool_to_Z]; lia.
Qed.
Lemma sub_borrow l r b : digit l -> digit r -> 0 <= b <= 1 ->
  let d := w64 (w64 (l - r) - b) in
  let b' := if negb (d =? l) then bool_to_Z (l <? d) else b in
  d - W * b' = l - r - b /\ 0 <= b' <= 1.
Proof.
  intros Hl Hr Hb d b'. unfold digit in *.
  assert (d = (l - r - b) mod W) as Hd by (unfold d, w64; by rewrite Zminus_mod_idemp_l).
  pose proof (Z.div_mod (l - r - b) W ltac:(lia)) as Hq. rewrite <- Hd in Hq. pose proof (Z.mod_pos_bound (l - r - b) W ltac:(lia)) as Hm. rewrite <- Hd in Hm.
  unfold b'. clearbody d. clear Hd. destruct (Z.eqb_spec d l); cbn [negb]; [lia|]. destruct (Z.ltb_spec l d); cbn [bool_to_Z]; lia.
Qed.

Lemma vli_add_loop_spec n : forall l r c, digits n l -> digits n r -> 0 <= c <= 1 ->
  exists res c', vli_add_loop l r c = (res, c') /\ digits n res /\ 0 <= c' <= 1 /\ num res + base n * c' = num l + num r + c.
Proof.
  induction n as [|n IH]; intros l r c Hl Hr Hc.
  - rewrite (digits_nil _ _ Hl), (digits_nil _ _ Hr), base_0 by done. exists [], c. rewrite num_nil. repeat split; try done; lia.
  - apply digits_S in Hl as (l0 & ls & -> & Hl0 & Hl), Hr as (r0 & rs & -> & Hr0 & Hr). cbn [vli_add_loop].
    pose proof (add_carry l0 r0 c Hl0 Hr0 Hc) as H. cbv zeta in H.
    match goal with |- context [vli_add_loop ls rs ?c1] => destruct (IH ls rs c1 Hl Hr ltac:(tauto)) as (res & c' & -> & Hd & Hc' & E) end.
    eexists _, c'. split; [done|]. rewrite base_S, !num_cons. split; [auto with vli|]. split; [done|]. lia.
Qed.
Lemma vli_sub_loop_spec n : forall l r b, digits n l -> digits n r -> 0 <= b <= 1 ->
  exists res b', vli_sub_loop l r b = (res, b') /\ digits n res /\ 0 <= b' <= 1 /\ num res - base n * b' = num l - num r - b.
Proof.
  induction n as [|n IH]; intros l r b Hl Hr Hb.
  - rewrite (digits_nil _ _ Hl), (digits_nil _ _ Hr), base_0 by done. exists [], b. rewrite num_nil. repeat split; try done; lia.
  - apply digits_S in Hl as (l0 & ls & -> & Hl0 & Hl), Hr as (r0 & rs & -> & Hr0 & Hr). cbn [vli_sub_loop].
    pose proof (sub_borrow l0 r0 b Hl0 Hr0 Hb) as H. cbv zeta in H.
    match goal with |- context [vli_sub_loop ls rs ?c1] => destruct (IH ls rs c1 Hl Hr ltac:(tauto)) as (res & c' & -> & Hd & Hc' & E) end.
    eexists _, c'. split; [done|]. rewrite base_S, !num_cons. split; [auto with vli|]. split; [done|]. lia.
Qed.
(** [vli_add] and [vli_sub] of numbers of any length, with the carry and the borrow. *)
Lemma vli_add_spec n l r : digits n l -> digits n r ->
  exists res c, vli_add l r = (res, c) /\ digits n res /\ 0 <= c <= 1 /\ num res + base n * c = num l + num r.
Proof. intros Hl Hr. destruct (vli_add_loop_spec n l r 0 Hl Hr ltac:(lia)) as (res & c & H). exists res, c. rewrite Z.add_0_r in H. done. Qed.
Lemma vli_sub_spec n l r : digits n l -> digits n r ->
  exists res b, vli_sub l r = (res, b) /\ digits n res /\ 0 <= b <= 1 /\ num res - base n * b = num l - num r.
Proof. intros Hl Hr. destruct (vli_sub_loop_spec n l r 0 Hl Hr ltac:(lia)) as (res & c & H). exists res, c. rewrite Z.sub_0_r in H. done. Qed.

(** ** Comparison *)

Lemma digits_take n v i : digits n v -> (i <= n)%nat -> digits i (take i v).
Proof. intros [H Hv] Hi. split; [rewrite length_take; lia|by apply Forall_take]. Qed.
Lemma take_digit n v i : digits n v -> (i < n)%nat -> take (S i) v = take i v ++ [digit_at v i].
Proof.
  intros [H _] Hi. apply take_S_r. unfold digit_at.  destruct (lookup_lt_is_Some_2 v i ltac:(lia)) as [d Hd].
  rewrite Hd. f_equal. symmetry. by apply nth_lookup_Some.
Qed.
Lemma num_take_S n v i : digits n v -> (i < n)%nat -> num (take (S i) v) = num (take i v) + base i * digit_at v i.
Proof.
  intros Hv Hi. rewrite (take_digit n v i Hv Hi), num_app, num_cons, num_nil. destruct (digits_take n v i Hv ltac:(lia)) as [-> _]. lia.
Qed.
Lemma vli_cmp_loop_spec m l r n : digits m l -> digits m r -> (n <= m)%nat -> vli_cmp_loop n l r = Z.sgn (num (take n l) - num (take n r)).
Proof.
  intros Hl Hr. induction n as [|i IH]; intros Hn; [done|]. cbn [vli_cmp_loop]. rewrite (num_take_S m l i Hl), (num_take_S m r i Hr) by lia.
  pose proof (num_range i _ (digits_take m l i Hl ltac:(lia))). pose proof (num_range i _ (digits_take m r i Hr ltac:(lia))).
  destruct (Z.ltb_spec (digit_at r i) (digit_at l i)); [|destruct (Z.ltb_spec (digit_at l i) (digit_at r i))].
  - symmetry. apply Z.sgn_pos_iff. nia.
  - symmetry. apply Z.sgn_neg_iff. nia.
  - rewrite IH by lia. f_equal. replace (digit_at l i) with (digit_at r i) by lia. lia.
Qed.
Lemma vli_cmp_spec l r : digits 4 l -> digits 4 r -> vli_cmp l r = Z.sgn (num l - num r).
Proof.
  intros Hl Hr. unfold vli_cmp. change NUM_ECC_DIGITS with 4%nat. rewrite (vli_cmp_loop_spec 4 l r 4 Hl Hr) by lia. destruct Hl as [Hl _], Hr as [Hr _]. by rewrite !take_ge by lia.
Qed.
Lemma vli_is_zero_spec n v : digits n v -> vli_is_zero v = (num v =? 0).
Proof.
  revert v. induction n as [|n IH]; intros v Hv; [by rewrite (digits_nil _ _ Hv)|]. apply digits_S in Hv as (d & v' & -> & Hd & Hv).
  cbn [vli_is_zero forallb]. fold (vli_is_zero v'). rewrite (IH _ Hv), num_cons. pose proof (num_range _ _ Hv). unfold digit in Hd. zcases; lia.
Qed.

(** ** Shifts *)

Lemma shift_digit t s c : 0 < s < 64 -> digit t -> 0 <= c < 2 ^ s ->
  let r := Z.lor (w64 (Z.shiftl t s)) c in let c' := Z.shiftr t (64 - s) in
  digit r /\ 0 <= c' < 2 ^ s /\ r + W * c' = 2 ^ s * t + c.
Proof.
  intros Hs Ht Hc r c'. unfold digit in *. assert (W = 2 ^ s * 2 ^ (64 - s)) as HW by (rewrite <- Z.pow_add_r by lia; by replace (s + (64 - s)) with 64 by lia).
  assert (0 < 2 ^ s) by (apply Z.pow_pos_nonneg; lia). assert (0 < 2 ^ (64 - s)) as H2 by (apply Z.pow_pos_nonneg; lia).
  assert (w64 (Z.shiftl t s) = (t mod 2 ^ (64 - s)) * 2 ^ s) as E.
  { unfold w64. rewrite Z.shiftl_mul_pow2 by lia. rewrite HW, (Z.mul_comm (2 ^ s) (2 ^ (64 - s))). by rewrite Z.mul_mod_distr_r by lia. }
  unfold r, c'. rewrite E, lor_below, Z.shiftr_div_pow2 by lia.
  pose proof (Z.div_mod t (2 ^ (64 - s)) ltac:(lia)). pose proof (Z.mod_pos_bound t (2 ^ (64 - s)) ltac:(lia)).
  set (q := t / 2 ^ (64 - s)) in *. set (m := t mod 2 ^ (64 - s)) in *. clearbody q m. split; [nia|]. split; nia.
Qed.
Lemma vli_lshift_loop_spec s n : 0 < s < 64 -> forall v c, digits n v -> 0 <= c < 2 ^ s ->
  exists r c', vli_lshift_loop v s c = (r, c') /\ digits n r /\ 0 <= c' < 2 ^ s /\ num r + base n * c' = 2 ^ s * num v + c.
Proof.
  intros Hs. induction n as [|n IH]; intros v c Hv Hc.
  - rewrite (digits_nil _ _ Hv), base_0 by done. exists [], c. rewrite num_nil. repeat split; try done; lia.
  - apply digits_S in Hv as (t & v' & -> & Ht & Hv). cbn [vli_lshift_loop]. pose proof (shift_digit t s c Hs Ht Hc) as H. cbv zeta in H. destruct H as (Hd & Hc' & E).
    destruct (IH v' (Z.shiftr t (64 - s)) Hv Hc') as (r & c' & -> & Hr & Hc2 & E2). eexists _, c'. split; [done|]. rewrite base_S, !num_cons. split; [auto with vli|].
    split; [done|]. lia.
Qed.
Lemma vli_lshift_spec s n v : 0 < s < 64 -> digits n v ->
  exists r c, vli_lshift v s = (r, c) /\ digits n r /\ 0 <= c < 2 ^ s /\ num r + base n * c = 2 ^ s * num v.
Proof.
  intros Hs Hv. destruct (vli_lshift_loop_spec s n Hs v 0 Hv) as (r & c & H); [split; [lia|apply Z.pow_pos_nonneg; lia]|]. exists r, c. by rewrite Z.add_0_r in H.
Qed.

Lemma halve_digit t c : digit t -> 0 <= c <= 1 -> Z.lor (Z.shiftr t 1) (c * 2 ^ 63) = t / 2 + 2 ^ 63 * c /\ w64 (Z.shiftl t 63) = (t mod 2) * 2 ^ 63.
Proof.
  intros Ht Hc. unfold digit in Ht. split.
  - rewrite Z.lor_comm, Z.shiftr_div_pow2 by lia. change (2 ^ 1) with 2. rewrite lor_below by (change (2 ^ 63) with 9223372036854775808; zdiv). ring.
  - unfold w64. rewrite Z.shiftl_mul_pow2 by lia. change W with (2 * 2 ^ 63). by rewrite Z.mul_mod_distr_r by lia.
Qed.
Lemma vli_rshift1_loop_spec n : forall v c, digits n v -> 0 <= c <= 1 ->
  digits n (rev (vli_rshift1_loop (rev v) (c * 2 ^ 63))) /\ num (rev (vli_rshift1_loop (rev v) (c * 2 ^ 63))) = (num v + base n * c) / 2.
Proof.
  induction n as [|n IH]; intros v c Hv Hc.
  - rewrite (digits_nil _ _ Hv), base_0 by done. cbn [rev vli_rshift1_loop]. rewrite num_nil. split; [done|]. symmetry. apply Z.div_small. lia.
  - pose proof (digits_take (S n) v n Hv ltac:(lia)) as Hn. pose proof (digits_at _ _ n Hv) as Ht.
    assert (v = take n v ++ [digit_at v n]) as E by (rewrite <- (take_digit (S n) v n Hv ltac:(lia)); symmetry; apply take_ge; destruct Hv; lia).
    rewrite E. set (v0 := take n v) in *. set (t := digit_at v n) in *. clearbody v0 t. clear E Hv v.
    rewrite rev_app_distr. cbn [rev app vli_rshift1_loop]. destruct (halve_digit t c Ht Hc) as [-> ->]. unfold digit in Ht.
    destruct (IH v0 (t mod 2) Hn) as [Hd En]; [pose proof (Z.mod_pos_bound t 2); lia|]. split.
    + destruct Hd as [Hl Hf]. split; [rewrite length_app; simpl; lia|]. apply Forall_app. split; [done|]. constructor; [|done]. unfold digit. change (2 ^ 63) with 9223372036854775808.
      pose proof (Z.div_mod t 2 ltac:(lia)). pose proof (Z.mod_pos_bound t 2 ltac:(lia)). lia.
    + rewrite !num_app, En, !num_cons, num_nil. destruct Hd as [-> _], Hn as [-> _]. rewrite base_S.
      replace (num v0 + base n * (t + W * 0) + W * base n * c) with (num v0 + base n * (t mod 2) + (base n * (t / 2) + base n * 2 ^ 63 * c) * 2).
      * rewrite Z.div_add by lia. lia.
      * change (2 ^ 63) with 9223372036854775808. transitivity (num v0 + base n * (2 * (t / 2) + t mod 2 + W * 0) + W * base n * c); [|by rewrite <- Z.div_mod by lia]. ring.
Qed.
Lemma vli_rshift1_spec n v : digits n v -> digits n (vli_rshift1 v) /\ num (vli_rshift1 v) = num v / 2.
Proof. intros Hv. pose proof (vli_rshift1_loop_spec n v 0 Hv ltac:(lia)) as H. rewrite Z.mul_0_r, Z.add_0_r in H. exact H. Qed.

(** ** Bits *)

Lemma num_digits_loop_spec m v n : digits m v -> (n <= m)%nat ->
  let j := num_digits_loop n v in (j <= n)%nat /\ num (take j v) = num (take n v) /\ match j with O => True | S i => 0 < digit_at v i end.
Proof.
  intros Hv. induction n as [|i IH]; intros Hn; [done|]. cbn [num_digits_loop]. pose proof (digits_at m v i Hv) as Hd. unfold digit in Hd.
  destruct (Z.eqb_spec (digit_at v i) 0) as [E|E]; [|split; [lia|split; [done|lia]]]. destruct (IH ltac:(lia)) as (Hj & En & Hm). split; [lia|]. split; [|done].
  rewrite En, (num_take_S m v i Hv) by lia. rewrite E. lia.
Qed.
Lemma num_bits_loop_spec fuel : forall d i, 0 <= d < 2 ^ Z.of_nat fuel ->
  exists k, num_bits_loop fuel d i = (i + k)%nat /\ d < 2 ^ Z.of_nat k /\ (d = 0 /\ k = O \/ 2 ^ Z.of_nat k <= 2 * d).
Proof.
  induction fuel as [|fuel IH]; intros d i Hd; cbn [num_bits_loop].
  - exists O. change (2 ^ Z.of_nat 0) with 1 in *. splits; lia.
  - rewrite Nat2Z.inj_succ, Z.pow_succ_r in Hd by lia. destruct (Z.eqb_spec d 0) as [->|Hnz]; [exists O; change (2 ^ Z.of_nat 0) with 1; splits; lia|].
    rewrite Z.shiftr_div_pow2 by lia. change (2 ^ 1) with 2. destruct (IH (d / 2) (S i)) as (k & -> & Hl & Hk); [zdiv|]. exists (S k). rewrite Nat2Z.inj_succ, Z.pow_succ_r by lia.
    splits; [lia|zdiv|right]. destruct Hk as [[Hz ->]|Hk]; [change (2 ^ Z.of_nat 0) with 1; zdiv|zdiv].
Qed.
(** [vli_num_bits]: the least number of bits for the number. *)
Lemma vli_num_bits_spec v : number v -> num v < 2 ^ Z.of_nat (vli_num_bits v) /\ (num v = 0 /\ vli_num_bits v = O \/ 2 ^ Z.of_nat (vli_num_bits v) <= 2 * num v).
Proof.
  intros Hv. unfold vli_num_bits, vli_num_digits. destruct (num_digits_loop_spec 4 v NUM_ECC_DIGITS Hv) as (Hj & En & Hd); [done|].
  rewrite (take_ge v NUM_ECC_DIGITS) in En by (destruct Hv; unfold NUM_ECC_DIGITS; lia). destruct (num_digits_loop NUM_ECC_DIGITS v) as [|i].
  - change (num (take 0 v)) with 0 in En. rewrite <- En. change (2 ^ Z.of_nat 0) with 1. split; [lia|by left].
  - unfold NUM_ECC_DIGITS in Hj. rewrite (num_take_S 4 v i Hv) in En by lia. pose proof (num_range i _ (digits_take 4 v i Hv ltac:(lia))) as Hr. pose proof (digits_at 4 v i Hv) as Hdi. unfold digit in Hdi.
    destruct (num_bits_loop_spec 64 (digit_at v i) 0) as (k & -> & Hl & Hk); [change (2 ^ Z.of_nat 64) with W; lia|]. rewrite Nat.add_0_l, Nat2Z.inj_add, Z.pow_add_r by lia.
    replace (2 ^ Z.of_nat (i * 64)) with (base i) by (unfold base; f_equal; lia). pose proof (base_pos i). rewrite <- En. split; [nia|right]. destruct Hk as [[? _]|Hk]; [lia|nia].
Qed.

(** ** Products *)

(** The number of two digits. *)
Definition num128 (a : uint128_t) : Z := m_low a + W * m_high a.
Definition digits128 (a : uint128_t) : Prop := digit (m_low a) /\ digit (m_high a).

Lemma halves x : digit x -> Z.land x 0xffffffff = x mod 2 ^ 32 /\ Z.shiftr x 32 = x / 2 ^ 32 /\ 0 <= x mod 2 ^ 32 < 2 ^ 32 /\ 0 <= x / 2 ^ 32 < 2 ^ 32 /\
  x = 2 ^ 32 * (x / 2 ^ 32) + x mod 2 ^ 32.
Proof.
  unfold digit. intros Hx. change 0xffffffff with (Z.ones 32). rewrite Z.land_ones, Z.shiftr_div_pow2 by lia. change (2 ^ 32) with 4294967296. splits; try done; zdiv.
Qed.
(** The low half of one number with the low half of another above. *)
Lemma join_halves x y : 0 <= x < 2 ^ 32 -> digit y -> Z.lor x (w64 (Z.shiftl y 32)) = x + 2 ^ 32 * (y mod 2 ^ 32).
Proof.
  intros Hx Hy. unfold w64. rewrite Z.shiftl_mul_pow2 by lia. change W with (2 ^ 32 * 2 ^ 32). rewrite Z.mul_mod_distr_r by lia. rewrite Z.lor_comm, lor_below by lia. lia.
Qed.
(** The product of two digits is exact. *)
Lemma mul_64_64_exact l r : digit l -> digit r -> digits128 (mul_64_64 l r) /\ num128 (mul_64_64 l r) = l * r.
Proof.
  intros Hl Hr. unfold mul_64_64. destruct (halves l Hl) as (-> & -> & Ha0 & Ha1 & El), (halves r Hr) as (-> & -> & Hb0 & Hb1 & Er).
  set (a0 := l mod 2 ^ 32) in *. set (a1 := l / 2 ^ 32) in *. set (b0 := r mod 2 ^ 32) in *. set (b1 := r / 2 ^ 32) in *.
  change (2 ^ 32) with 4294967296 in *. rewrite El, Er. clearbody a0 a1 b0 b1. clear l r Hl Hr El Er.
  rewrite (w64_id (a0 * b0)), (w64_id (a0 * b1)), (w64_id (a1 * b0)), (w64_id (a1 * b1)) by (unfold digit; nia).
  assert (digit (a0 * b0)) as Hm0 by (unfold digit; nia). destruct (halves _ Hm0) as (-> & -> & Hl0 & Hh0 & E0). change (2 ^ 32) with 4294967296 in *.
  set (m0l := (a0 * b0) mod 4294967296) in *. set (m0h := a0 * b0 / 4294967296) in *. clearbody m0l m0h.
  assert (0 <= a0 * b1 <= 4294967295 * 4294967295) as H1 by nia. assert (0 <= a1 * b0 <= 4294967295 * 4294967295) as H2 by nia.
  assert (0 <= a1 * b1 <= 4294967295 * 4294967295) as H3 by nia.
  replace ((4294967296 * a1 + a0) * (4294967296 * b1 + b0)) with (W * (a1 * b1) + 4294967296 * (a1 * b0) + 4294967296 * (a0 * b1) + a0 * b0) by ring. rewrite E0.
  set (m1 := a0 * b1) in *. set (m2 := a1 * b0) in *. set (m3 := a1 * b1) in *. clearbody m1 m2 m3. clear Hm0 E0 Ha0 Ha1 Hb0 Hb1 a0 a1 b0 b1.
  rewrite (w64_id (m2 + m0h)) by (unfold digit; lia).
  set (s := w64 (m2 + m0h + m1)). assert (digit s) as Hs by apply w64_digit. assert (s + W * (if s <? m1 then 1 else 0) = m2 + m0h + m1) as Es.
  { assert (s = m2 + m0h + m1 \/ s = m2 + m0h + m1 - W) as [-> | ->] by (unfold s, w64; zdiv); zcases; lia. }
  clearbody s. rewrite join_halves by (change (2 ^ 32) with 4294967296; done). destruct (halves s Hs) as (_ & -> & Hsl & Hsh & E). change (2 ^ 32) with 4294967296 in *.
  assert ((if s <? m1 then w64 (m3 + 4294967296) else m3) = m3 + 4294967296 * (if s <? m1 then 1 else 0)) as ->.
  { destruct (s <? m1); [|lia]. rewrite w64_id; [lia|unfold digit; lia]. }
  rewrite w64_id by (unfold digit in *; destruct (s <? m1); lia). unfold digits128, num128, digit. cbn [m_low m_high]. destruct (s <? m1); lia.
Qed.

(** The carry of [add_128_128] that [r01.m_high < product.m_high] does not show. *)
Definition carry_missed (a b : uint128_t) : bool := (m_high a =? W - 1) && (W <=? m_low a + m_low b).
Lemma accumulate_spec a b r2 : digits128 a -> digits128 b -> 0 <= r2 < W - 1 ->
  exists s r2', accumulate a b r2 = (s, r2') /\ s = add_128_128 a b /\ digits128 s /\ r2 <= r2' <= r2 + 1 /\
    num128 s + W * W * r2' + W * W * bool_to_Z (carry_missed a b) = num128 a + num128 b + W * W * r2.
Proof.
  intros [Ha Ha'] [Hb Hb'] Hr. destruct a as [al ah], b as [bl bh]. unfold accumulate, add_128_128, digits128, num128, carry_missed. cbn [m_low m_high] in *.
  set (low := w64 (al + bl)). assert (digit low) by apply w64_digit. unfold digit in *.
  assert (low + W * bool_to_Z (low <? al) = al + bl /\ (low <? al) = (W <=? al + bl)) as [El Eb].
  { assert (low = al + bl \/ low = al + bl - W) as [E | E] by (unfold low, w64; zdiv); rewrite E; zcases; cbn [bool_to_Z]; lia. }
  rewrite Eb in *. clearbody low. clear Eb. set (c := bool_to_Z (W <=? al + bl)) in *.
  assert (0 <= c <= 1 /\ bool_to_Z ((ah =? W - 1) && (W <=? al + bl)) = if ah =? W - 1 then c else 0) as [Hc ->] by (unfold c; zcases; cbn [andb bool_to_Z]; lia).
  clearbody c. set (h := w64 (w64 (ah + bh) + c)).
  assert (0 <= h < W) by apply w64_digit. assert (h = ah + bh + c \/ h = ah + bh + c - W) as Eh by (unfold h, w64; zdiv). clearbody h.
  eexists _, _. split; [done|]. split; [done|]. rewrite w64_id by (unfold digit; destruct (h <? bh); cbn [bool_to_Z]; lia). cbn [m_low m_high].
  split; [done|]. destruct Eh as [-> | ->]; zcases; cbn [bool_to_Z]; lia.
Qed.

(** Products added in order, each with what it adds to [r2] before. *)
Fixpoint acc_all (ps : list (uint128_t * Z)) (r01 : uint128_t) (r2 : Z) : uint128_t * Z :=
  match ps with [] => (r01, r2) | (p, x) :: ps => let '(r01, r2) := accumulate r01 p (w64 (r2 + x)) in acc_all ps r01 r2 end.
Fixpoint missed_all (ps : list (uint128_t * Z)) (r01 : uint128_t) : Z :=
  match ps with [] => 0 | (p, _) :: ps => bool_to_Z (carry_missed r01 p) + missed_all ps (add_128_128 r01 p) end.
Definition sum_all (ps : list (uint128_t * Z)) : Z := foldr (fun '(p, x) s => num128 p + W * W * x + s) 0 ps.
Definition product_ok (p : uint128_t * Z) : Prop := digits128 p.1 /\ 0 <= p.2 <= 1.

Lemma acc_all_spec ps : forall a r2, Forall product_ok ps -> digits128 a -> 0 <= r2 -> r2 + 2 * Z.of_nat (length ps) < W ->
  exists s r2', acc_all ps a r2 = (s, r2') /\ digits128 s /\ 0 <= r2' <= r2 + 2 * Z.of_nat (length ps) /\ 0 <= missed_all ps a /\
    num128 s + W * W * r2' + W * W * missed_all ps a = num128 a + W * W * r2 + sum_all ps.
Proof.
  induction ps as [|[p x] ps IH]; intros a r2 Hps Ha Hr Hw.
  - exists a, r2. cbn. splits; try done; lia.
  - inversion Hps as [|? ? [Hp Hx] Hps']; subst. cbn [fst snd length] in *. cbn [acc_all missed_all sum_all foldr]. fold (sum_all ps).
    rewrite w64_id by (unfold digit; lia). destruct (accumulate_spec a p (r2 + x) Ha Hp ltac:(lia)) as (s & r2' & -> & Es & Hs & Hr' & E).
    destruct (IH s r2' Hps' Hs ltac:(lia) ltac:(lia)) as (s' & r2'' & -> & Hs' & Hr'' & Hm & E'). rewrite <- Es. exists s', r2''.
    destruct (carry_missed a p); cbn [bool_to_Z] in *; splits; try done; lia.
Qed.

(** The columns of a product, each from the products of its digits. *)
Section Columns.
Context (products : nat -> list (uint128_t * Z)).
Fixpoint columns_missed (n k : nat) (r01 : uint128_t) : Z :=
  match n with
  | O => 0
  | S n => let '(s, r2) := acc_all (products k) r01 0 in W * W * missed_all (products k) r01 + W * columns_missed n (S k) (mkU128 (m_high s) r2)
  end.
Fixpoint columns_sum (n k : nat) : Z := match n with O => 0 | S n => sum_all (products k) + W * columns_sum n (S k) end.
Hypothesis ok : forall k, Forall product_ok (products k) /\ (length (products k) <= 4)%nat.

Lemma columns_spec column n : forall k a, (forall k a, column k a 0 = acc_all (products k) a 0) -> digits128 a ->
  exists h, 0 <= h /\ digits (S n) (columns column n k a) /\ 0 <= columns_missed n k a /\
    num (columns column n k a) + columns_missed n k a + base (S n) * h = num128 a + columns_sum n k.
Proof.
  induction n as [|n IH]; intros k a Hc Ha.
  - exists (m_high a). cbn [columns columns_missed columns_sum]. rewrite num_cons, num_nil, base_S, base_0. destruct Ha as [Hl Hh]. unfold num128, digit in *.
    splits; try lia. apply digits_cons; [done|apply digits_0].
  - cbn [columns columns_missed columns_sum]. rewrite Hc. destruct (ok k) as [Hp Hn].
    destruct (acc_all_spec (products k) a 0 Hp Ha ltac:(lia) ltac:(lia)) as (s & r2 & -> & [Hl Hh] & Hr & Hm & E).
    destruct (IH (S k) (mkU128 (m_high s) r2) Hc) as (h & Hh0 & Hd & Hm' & E'); [split; [done|]; unfold digit; cbn; lia|].
    exists h. rewrite base_S, num_cons. unfold num128 in *. cbn [m_low m_high] in *. splits; [done|auto with vli|lia|]. lia.
Qed.
End Columns.

(** The products of a column, as the inner loop of [vli_mult] takes them. *)
Fixpoint mult_products (l r : vli) (n i k : nat) : list (uint128_t * Z) :=
  match n with
  | O => []
  | S n => if (i <=? k)%nat && (i <? NUM_ECC_DIGITS)%nat then (mul_64_64 (digit_at l i) (digit_at r (k - i)), 0) :: mult_products l r n (S i) k else []
  end.
Lemma mult_inner_all l r n : forall i k a r2, digit r2 -> mult_inner n i k l r a r2 = acc_all (mult_products l r n i k) a r2.
Proof.
  induction n as [|n IH]; intros i k a r2 Hr; [done|]. cbn [mult_inner mult_products]. destruct (_ && _); [|done]. cbn [acc_all].
  rewrite Z.add_0_r, w64_id by done. unfold accumulate. apply IH, w64_digit.
Qed.
Lemma mult_products_ok l r n i k : digits 4 l -> digits 4 r -> Forall product_ok (mult_products l r n i k) /\ (length (mult_products l r n i k) <= n)%nat.
Proof.
  intros Hl Hr. revert i. induction n as [|n IH]; intros i; cbn [mult_products]; [split; [constructor|simpl; lia]|]. destruct (_ && _); [|split; [constructor|simpl; lia]].
  destruct (IH (S i)) as [Hf Hn]. split; [|simpl; lia]. constructor; [|done]. split; cbn [fst snd]; [|lia]. by apply mul_64_64_exact; apply (digits_at 4).
Qed.
Definition column_products (l r : vli) (k : nat) : list (uint128_t * Z) := mult_products l r NUM_ECC_DIGITS (column_min k) k.
(** What the product is short of. *)
Definition mult_missed (l r : vli) : Z := columns_missed (column_products l r) 7 0 (mkU128 0 0).

Lemma digits_4 v : digits 4 v -> exists a b c d, v = [a; b; c; d] /\ digit a /\ digit b /\ digit c /\ digit d.
Proof.
  intros (a & v1 & -> & Ha & (b & v2 & -> & Hb & (c & v3 & -> & Hc & (d & v4 & -> & Hd & H)%digits_S)%digits_S)%digits_S)%digits_S.
  rewrite (digits_nil _ _ H) by done. exists a, b, c, d. auto.
Qed.
Lemma num128_mul l r : digit l -> digit r -> num128 (mul_64_64 l r) = l * r.
Proof. intros Hl Hr. by apply mul_64_64_exact. Qed.
Lemma num128_0 : num128 (mkU128 0 0) = 0.
Proof. done. Qed.

(** [vli_mult]: eight digits, of the product less what was missed. *)
Lemma vli_mult_spec l r : digits 4 l -> digits 4 r -> digits 8 (vli_mult l r) /\ 0 <= mult_missed l r /\ num (vli_mult l r) + mult_missed l r = num l * num r.
Proof.
  intros Hl Hr. unfold vli_mult, mult_missed.
  destruct (columns_spec (column_products l r) (fun k => mult_products_ok l r NUM_ECC_DIGITS (column_min k) k Hl Hr)
    (fun k => mult_inner NUM_ECC_DIGITS (column_min k) k l r) 7 0 (mkU128 0 0)) as (h & Hh & Hd & Hm & E).
  - intros k a. apply mult_inner_all. unfold digit. lia.
  - split; cbn; unfold digit; lia.
  - change (NUM_ECC_DIGITS * 2 - 1)%nat with 7%nat. assert (columns_sum (column_products l r) 7 0 = num l * num r) as Es.
    { destruct (digits_4 _ Hl) as (l0 & l1 & l2 & l3 & -> & H0 & H1 & H2 & H3), (digits_4 _ Hr) as (r0 & r1 & r2 & r3 & -> & G0 & G1 & G2 & G3).
      cbv [columns_sum column_products mult_products column_min NUM_ECC_DIGITS Nat.leb Nat.ltb Nat.sub Nat.add andb digit_at nth sum_all foldr num].
      rewrite !num128_mul by done. ring. }
    pose proof (num_range 4 l Hl). pose proof (num_range 4 r Hr). pose proof (num_range 8 _ Hd). rewrite Es, num128_0 in E.
    assert (base 8 = base 4 * base 4) as Hb by reflexivity. assert (num l * num r < base 8) by (rewrite Hb; nia). assert (h = 0) by nia. subst h.
    splits; [exact Hd|exact Hm|]. rewrite Z.mul_0_r, Z.add_0_r in E. exact E.
Qed.

(** A product twice, and the bit it needs more, as the inner loop of [vli_square] has them. *)
Definition twice (p : uint128_t) : uint128_t * Z :=
  (mkU128 (w64 (Z.shiftl (m_low p) 1)) (Z.lor (w64 (Z.shiftl (m_high p) 1)) (Z.shiftr (m_low p) 63)), Z.shiftr (m_high p) 63).
Lemma twice_spec p : digits128 p -> product_ok (twice p) /\ num128 (twice p).1 + W * W * (twice p).2 = 2 * num128 p.
Proof.
  intros [Hl Hh]. pose proof (shift_digit (m_low p) 1 0 ltac:(lia) Hl ltac:(lia)) as H. cbv zeta in H. rewrite Z.lor_0_r in H. change (64 - 1) with 63 in H. destruct H as (Hd & Hc & E).
  pose proof (shift_digit (m_high p) 1 (Z.shiftr (m_low p) 63) ltac:(lia) Hh Hc) as H. cbv zeta in H. change (64 - 1) with 63 in H. destruct H as (Hd' & Hc' & E').
  unfold product_ok, digits128, num128, twice. cbn [fst snd m_low m_high]. splits; try done; lia.
Qed.
Fixpoint square_products (l : vli) (n i k : nat) : list (uint128_t * Z) :=
  match n with
  | O => []
  | S n =>
    if (i <=? k)%nat && (i <=? k - i)%nat then
      let p := mul_64_64 (digit_at l i) (digit_at l (k - i)) in (if (i <? k - i)%nat then twice p else (p, 0)) :: square_products l n (S i) k
    else []
  end.
Lemma square_inner_all l n : forall i k a r2, digit r2 -> square_inner n i k l a r2 = acc_all (square_products l n i k) a r2.
Proof.
  induction n as [|n IH]; intros i k a r2 Hr; [done|]. cbn [square_inner square_products]. destruct (_ && _); [|done]. destruct (i <? k - i)%nat; cbn [acc_all twice].
  - unfold accumulate. apply IH, w64_digit.
  - rewrite Z.add_0_r, w64_id by done. unfold accumulate. apply IH, w64_digit.
Qed.
Lemma square_products_ok l n i k : digits 4 l -> Forall product_ok (square_products l n i k) /\ (length (square_products l n i k) <= n)%nat.
Proof.
  intros Hl. revert i. induction n as [|n IH]; intros i; cbn [square_products]; [split; [constructor|simpl; lia]|]. destruct (_ && _); [|split; [constructor|simpl; lia]].
  destruct (IH (S i)) as [Hf Hn]. assert (digits128 (mul_64_64 (digit_at l i) (digit_at l (k - i)))) as Hp by (apply mul_64_64_exact; apply (digits_at 4); done).
  split; [|simpl; lia]. constructor; [|done]. destruct (i <? k - i)%nat; [by apply twice_spec|split; [done|cbn; lia]].
Qed.
Definition column_squares (l : vli) (k : nat) : list (uint128_t * Z) := square_products l NUM_ECC_DIGITS (column_min k) k.
Definition square_missed (l : vli) : Z := columns_missed (column_squares l) 7 0 (mkU128 0 0).

Fixpoint square_sum (l : vli) (n i k : nat) : Z :=
  match n with
  | O => 0
  | S n => if (i <=? k)%nat && (i <=? k - i)%nat then (if (i <? k - i)%nat then 2 else 1) * (digit_at l i * digit_at l (k - i)) + square_sum l n (S i) k else 0
  end.
Lemma square_products_sum l n k : digits 4 l -> forall i, sum_all (square_products l n i k) = square_sum l n i k.
Proof.
  intros Hl. induction n as [|n IH]; intros i; [done|]. cbn [square_products square_sum]. destruct (_ && _); [|done].
  assert (digit (digit_at l i) /\ digit (digit_at l (k - i))) as [Hi Hk] by (split; apply (digits_at 4); done). destruct (mul_64_64_exact _ _ Hi Hk) as [Hd E].
  destruct (i <? k - i)%nat; cbn [sum_all foldr]; fold (sum_all (square_products l n (S i) k)); rewrite IH.
  - destruct (twice_spec _ Hd) as [_ E2]. destruct (twice (mul_64_64 (digit_at l i) (digit_at l (k - i)))) as [q x]. cbn [fst snd] in E2. rewrite <- E. lia.
  - rewrite E. lia.
Qed.

(** [vli_square] likewise. *)
Lemma vli_square_spec l : digits 4 l -> digits 8 (vli_square l) /\ 0 <= square_missed l /\ num (vli_square l) + square_missed l = num l * num l.
Proof.
  intros Hl. unfold vli_square, square_missed.
  destruct (columns_spec (column_squares l) (fun k => square_products_ok l NUM_ECC_DIGITS (column_min k) k Hl)
    (fun k => square_inner NUM_ECC_DIGITS (column_min k) k l) 7 0 (mkU128 0 0)) as (h & Hh & Hd & Hm & E).
  - intros k a. apply square_inner_all. unfold digit. lia.
  - split; cbn; unfold digit; lia.
  - change (NUM_ECC_DIGITS * 2 - 1)%nat with 7%nat. assert (columns_sum (column_squares l) 7 0 = num l * num l) as Es.
    { cbn [columns_sum]. unfold column_squares. rewrite !square_products_sum by done. destruct (digits_4 _ Hl) as (l0 & l1 & l2 & l3 & -> & _).
      cbv [square_sum column_min NUM_ECC_DIGITS Nat.leb Nat.ltb Nat.sub Nat.add andb digit_at nth foldr num]. ring. }
    pose proof (num_range 4 l Hl). pose proof (num_range 8 _ Hd). rewrite Es, num128_0 in E.
    assert (base 8 = base 4 * base 4) as Hb by reflexivity. assert (num l * num l < base 8) by (rewrite Hb; nia). assert (h = 0) by nia. subst h.
    splits; [exact Hd|exact Hm|]. rewrite Z.mul_0_r, Z.add_0_r in E. exact E.
Qed.

(** A product of two numbers below the prime that misses a carry: it is short of 2^256. *)
Example product_short :
  let l := [W - 1; 2 ^ 32; W - 1; 0] in let r := [1; 2 ^ 32; W - 1; 0] in mult_missed l r = base 4 /\ num (vli_mult l r) = num l * num r - base 4.
Proof. vm_compute. done. Qed.
(** Nothing is missed of digits below 2^63. *)
Lemma acc_all_exact ps : forall a, Forall product_ok ps -> Forall (fun p => p.2 = 0) ps -> digits128 a -> num128 a + sum_all ps < W * (W - 1) -> 2 * Z.of_nat (length ps) < W ->
  exists s, acc_all ps a 0 = (s, 0) /\ digits128 s /\ missed_all ps a = 0.
Proof.
  induction ps as [|[p x] ps IH]; intros a Hps Hx Ha Hn Hw; [by exists a|]. inversion Hps as [|? ? [Hp _] Hps']; inversion Hx as [|? ? E Hx']; subst. cbn [fst snd length sum_all foldr] in *. subst x. fold (sum_all ps) in Hn.
  assert (0 <= sum_all ps) as H0.
  { clear - Hps'. induction Hps' as [|[q y] l [[Hq Hq'] Hy] _ IH]; cbn [sum_all foldr]; [lia|]. fold (sum_all l). cbn [fst snd] in *. unfold num128, digit in *. lia. }
  cbn [acc_all missed_all]. change (w64 (0 + 0)) with 0. destruct (accumulate_spec a p 0 Ha Hp ltac:(lia)) as (s & r2 & -> & -> & Hs & Hr & E).
  destruct Ha as [Ha Ha'], Hp as [Hp Hp'], Hs as [Hs Hs']. unfold num128 in *. unfold digit in *.
  assert (carry_missed a p = false) as Em by (unfold carry_missed; zcases; lia). rewrite Em in *. cbn [bool_to_Z] in *. assert (r2 = 0) as -> by (carries; lia).
  destruct (IH (add_128_128 a p)) as (s' & -> & Hs2 & ->); try done; [|lia|].
  - unfold num128. lia.
  - by exists s'.
Qed.
Lemma columns_exact products n : forall k a, (forall k, Forall product_ok (products k) /\ (length (products k) <= 4)%nat) -> (forall k, Forall (fun p => p.2 = 0) (products k)) ->
  (forall k, sum_all (products k) <= W * (W - 2)) -> digits128 a -> num128 a < W -> columns_missed products n k a = 0.
Proof.
  induction n as [|n IH]; intros k a Hok Hx Hs Ha Hn; [done|]. cbn [columns_missed]. destruct (Hok k) as [Hp Hl]. pose proof (Hs k) as Hk.
  destruct (acc_all_exact (products k) a Hp (Hx k) Ha) as (s & -> & [Hs1 Hs2] & ->); [lia|lia|]. rewrite IH; [lia|done|done|done|split; [done|unfold digit; cbn; lia]|].
  unfold num128, digit in *. cbn [m_low m_high]. lia.
Qed.
Lemma mult_exact l r : Forall (fun d => 0 <= d < 2 ^ 63) l -> Forall (fun d => 0 <= d < 2 ^ 63) r -> length l = 4%nat -> length r = 4%nat -> mult_missed l r = 0.
Proof.
  intros Hl Hr Hln Hrn. assert (forall v i, Forall (fun d => 0 <= d < 2 ^ 63) v -> 0 <= digit_at v i < 2 ^ 63) as Hat.
  { intros v i Hv. unfold digit_at. destruct (Nat.ltb_spec i (length v)); [by apply (proj1 (Forall_nth _ 0 v) Hv)|rewrite nth_overflow by done; done]. }
  change (2 ^ 63) with 9223372036854775808 in *. assert (number l /\ number r) as [Dl Dr] by (split; (split; [done|]); eapply Forall_impl; eauto; unfold digit; cbn; lia).
  apply columns_exact; [intros k; by apply mult_products_ok|intros k|intros k|split; done|done].
  - unfold column_products. generalize (column_min k) NUM_ECC_DIGITS. intros i n. revert i. induction n as [|n IH]; intros i; cbn [mult_products]; [constructor|]. destruct (_ && _); by constructor.
  - unfold column_products. transitivity (Z.of_nat NUM_ECC_DIGITS * (9223372036854775807 * 9223372036854775807)); [|unfold NUM_ECC_DIGITS; lia].
    generalize (column_min k) NUM_ECC_DIGITS. intros i n. revert i. induction n as [|n IH]; intros i; cbn [mult_products]; [done|]. destruct (_ && _); [|cbn; lia].
    cbn [sum_all foldr]. rewrite num128_mul by (apply (digits_at 4); done). pose proof (Hat l i Hl). pose proof (Hat r (k - i)%nat Hr). specialize (IH (S i)). unfold sum_all in IH. nia.
Qed.

Example square_short :
  let l := [2 ^ 63; W - 1; W - 1; 2 ^ 48] in square_missed l = base 4 /\ num (vli_square l) = num l * num l - base 4.
Proof. vm_compute. done. Qed.

(** ** Reduction modulo the prime *)

(** The prime of P-256. *)
Definition prime : Z := num curve_p.
Lemma curve_p_digits : digits 4 curve_p.
Proof. split; [done|]. repeat constructor; done. Qed.
#[export] Hint Resolve curve_p_digits : vli.
Lemma prime_value : prime = 2 ^ 256 - 2 ^ 224 + 2 ^ 192 + 2 ^ 96 - 1.
Proof. reflexivity. Qed.

Lemma cmp_lt l r : digits 4 l -> digits 4 r -> (0 <=? vli_cmp l r) = (num r <=? num l).
Proof. intros Hl Hr. rewrite (vli_cmp_spec _ _ Hl Hr). destruct (Z.sgn_spec (num l - num r)) as [[? ->]|[[? ->]|[? ->]]]; zcases; lia. Qed.

Lemma mod_unique_shift a b m k : 0 <= b < m -> a = b + m * k -> b = a mod m.
Proof. intros Hb ->. rewrite Z.mul_comm, Z.mod_add by lia. symmetry. by apply Z.mod_small. Qed.

Lemma vli_mod_add_spec l r m : digits 4 l -> digits 4 r -> digits 4 m -> num l < num m -> num r < num m ->
  digits 4 (vli_mod_add l r m) /\ num (vli_mod_add l r m) = (num l + num r) mod num m.
Proof.
  intros Hl Hr Hm Hlm Hrm. unfold vli_mod_add. destruct (vli_add_spec 4 l r Hl Hr) as (s & c & -> & Hs & Hc & E).
  pose proof (num_range 4 s Hs). pose proof (num_range 4 m Hm). pose proof (num_range 4 l Hl). pose proof (num_range 4 r Hr). rewrite (cmp_lt _ _ Hs Hm).
  destruct (vli_sub_spec 4 s m Hs Hm) as (d & b & Ed & Hd & Hb & E'). pose proof (num_range 4 d Hd).
  destruct (Z.eqb_spec c 0); cbn [negb orb]; [destruct (Z.leb_spec (num m) (num s)); cbn [orb]|]; rewrite ?Ed; cbn [fst]; (split; [done|]).
  - apply mod_unique_shift with 1; carries; lia.
  - apply mod_unique_shift with 0; carries; lia.
  - apply mod_unique_shift with 1; carries; lia.
Qed.
Lemma vli_mod_sub_spec l r m : digits 4 l -> digits 4 r -> digits 4 m -> num l < num m -> num r < num m ->
  digits 4 (vli_mod_sub l r m) /\ num (vli_mod_sub l r m) = (num l - num r) mod num m.
Proof.
  intros Hl Hr Hm Hlm Hrm. unfold vli_mod_sub. destruct (vli_sub_spec 4 l r Hl Hr) as (s & c & -> & Hs & Hc & E).
  pose proof (num_range 4 s Hs). pose proof (num_range 4 m Hm). pose proof (num_range 4 l Hl). pose proof (num_range 4 r Hr).
  destruct (vli_add_spec 4 s m Hs Hm) as (d & b & Ed & Hd & Hb & E'). pose proof (num_range 4 d Hd).
  destruct (Z.eqb_spec c 0); cbn [negb]; rewrite ?Ed; cbn [fst]; (split; [done|]).
  - apply mod_unique_shift with 0; carries; lia.
  - apply mod_unique_shift with (-1); carries; lia.
Qed.

Lemma prime_bounds : 0 < prime < base 4 /\ base 4 < 2 * prime.
Proof. vm_compute. done. Qed.

(** Both loops at the end of [vli_mmod_fast] leave the remainder of [result] with its carry. *)
Lemma add_p_loop_spec fuel : forall v c, digits 4 v -> c < 0 -> - prime * (Z.of_nat fuel - 1) <= num v + base 4 * c ->
  exists r, add_p_loop fuel v c = Some r /\ digits 4 r /\ num r = (num v + base 4 * c) mod prime.
Proof.
  pose proof prime_bounds as Hp. induction fuel as [|fuel IH]; intros v c Hv Hc Hf; pose proof (num_range 4 v Hv) as Hnv; [nia|].
  cbn [add_p_loop]. destruct (vli_add_spec 4 v curve_p Hv curve_p_digits) as (s & c1 & -> & Hs & Hc1 & E). fold prime in E. pose proof (num_range 4 s Hs).
  replace ((num v + base 4 * c) mod prime) with ((num s + base 4 * (c + c1)) mod prime).
  2:{ rewrite <- (Z.mod_add (num v + base 4 * c) 1 prime) by lia. f_equal. lia. }
  destruct (Z.ltb_spec (c + c1) 0); [apply IH; [done|done|nia]|].
  exists s. splits; try done. apply mod_unique_shift with 0; nia.
Qed.
Lemma sub_p_loop_spec fuel : forall v c, digits 4 v -> 0 <= c -> num v + base 4 * c < prime * Z.of_nat fuel ->
  exists r, sub_p_loop fuel v c = Some r /\ digits 4 r /\ num r = (num v + base 4 * c) mod prime.
Proof.
  pose proof prime_bounds as Hp. induction fuel as [|fuel IH]; intros v c Hv Hc Hf; pose proof (num_range 4 v Hv) as Hnv; [nia|].
  cbn [sub_p_loop]. rewrite (vli_cmp_spec _ _ curve_p_digits Hv). fold prime.
  assert ((Z.sgn (prime - num v) =? 1) = (num v <? prime)) as -> by (destruct (Z.sgn_spec (prime - num v)) as [[? ->]|[[? ->]|[? ->]]]; zcases; lia).
  destruct (vli_sub_spec 4 v curve_p Hv curve_p_digits) as (s & b & -> & Hs & Hb & E). fold prime in E. pose proof (num_range 4 s Hs).
  destruct (negb (c =? 0) || negb (num v <? prime)) eqn:Ec.
  - replace ((num v + base 4 * c) mod prime) with ((num s + base 4 * (c - b)) mod prime).
    2:{ rewrite <- (Z.mod_add (num s + base 4 * (c - b)) 1 prime) by lia. f_equal. lia. }
    apply orb_true_iff in Ec. rewrite !negb_true_iff, Z.eqb_neq, Z.ltb_ge in Ec. apply IH; [done|nia|nia].
  - apply orb_false_iff in Ec. rewrite !negb_false_iff, Z.eqb_eq, Z.ltb_lt in Ec. exists v. splits; try done. apply mod_unique_shift with 0; nia.
Qed.

(** Words of 32 bits in digits. *)
Lemma word_ops x : digit x -> Z.land x LOW32 = x mod 2 ^ 32 /\ down x = x / 2 ^ 32 /\ up x = 2 ^ 32 * (x mod 2 ^ 32) /\ Z.land x HIGH32 = 2 ^ 32 * (x / 2 ^ 32).
Proof.
  intros Hx. destruct (halves x Hx) as (Hl & Hd & Hm & Hh & E). splits; [done|done| |].
  - unfold up. rewrite <- (Z.lor_0_l (w64 _)). rewrite join_halves by done. lia.
  - change HIGH32 with (Z.shiftl (Z.ones 32) 32). transitivity (Z.shiftl (Z.shiftr x 32) 32); [|rewrite Hd, Z.shiftl_mul_pow2 by lia; lia].
    apply Z.bits_inj'. intros i Hi. rewrite Z.land_spec. destruct (Z.ltb_spec i 32); [rewrite !(Z.shiftl_spec_low _ 32) by lia; apply andb_false_r|].
    rewrite !Z.shiftl_spec, Z.shiftr_spec, Z.testbit_ones by lia. replace (i - 32 + 32) with i by lia. destruct (Z.ltb_spec (i - 32) 32).
    + replace (0 <=? i - 32) with true by lia. apply andb_true_r.
    + rewrite andb_false_r, andb_false_r. symmetry. unfold digit in Hx. rewrite <- (Z.mod_small x (2 ^ 64)) by done. apply Z.mod_pow2_bits_high. lia.
Qed.
(** A digit of two words. *)
Lemma word_join x y : 0 <= x < 2 ^ 32 -> Z.lor x (2 ^ 32 * y) = x + 2 ^ 32 * y.
Proof. intros Hx. rewrite Z.lor_comm, (Z.mul_comm (2 ^ 32)), lor_below by lia. lia. Qed.

(** The four numbers that are added and the four that are taken away, of digits [l4 + 2^32 * h4], ... of the product. *)
Definition nist_sum (l4 h4 l5 h5 l6 h6 l7 h7 : Z) : Z :=
  2 * num [0; 2 ^ 32 * h5; l6 + 2 ^ 32 * h6; l7 + 2 ^ 32 * h7] + 2 * num [0; 2 ^ 32 * l6; h6 + 2 ^ 32 * l7; h7]
  + num [l4 + 2 ^ 32 * h4; l5; 0; l7 + 2 ^ 32 * h7] + num [h4 + 2 ^ 32 * l5; h5 + 2 ^ 32 * h6; l7 + 2 ^ 32 * h7; h6 + 2 ^ 32 * l4]
  - num [h5 + 2 ^ 32 * l6; h6; 0; l4 + 2 ^ 32 * l5] - num [l6 + 2 ^ 32 * h6; l7 + 2 ^ 32 * h7; 0; h4 + 2 ^ 32 * h5]
  - num [h6 + 2 ^ 32 * l7; h7 + 2 ^ 32 * l4; h4 + 2 ^ 32 * l5; 2 ^ 32 * l6] - num [l7 + 2 ^ 32 * h7; 2 ^ 32 * h4; l5 + 2 ^ 32 * h5; 2 ^ 32 * h6].
(** They are the upper half of the product, modulo the prime. *)
Lemma nist_identity l4 h4 l5 h5 l6 h6 l7 h7 :
  base 4 * num [l4 + 2 ^ 32 * h4; l5 + 2 ^ 32 * h5; l6 + 2 ^ 32 * h6; l7 + 2 ^ 32 * h7] =
  nist_sum l4 h4 l5 h5 l6 h6 l7 h7 + prime * (l4 + 4294967297 * h4 + 18446744078004518912 * l5 + 79228162532711081667253501951 * h5 +
    340282367000166625977638945021017194495 * l6 + 1461501637671185285124623296161210883009696235519 * h6 +
    6277101736848182401166692341332123086285927382448418586623 * l7 + 26959946673427741530053695850515137729844644212646842236464328081408 * h7).
Proof. rewrite prime_value. unfold nist_sum. cbn [num foldr]. change (base 4) with (2 ^ 256). ring. Qed.

Lemma digit_join x y : 0 <= x < 2 ^ 32 -> 0 <= y < 2 ^ 32 -> digit (x + 2 ^ 32 * y).
Proof. change (2 ^ 32) with 4294967296. unfold digit. lia. Qed.
Lemma digit_join_0 y : 0 <= y < 2 ^ 32 -> digit (2 ^ 32 * y).
Proof. change (2 ^ 32) with 4294967296. unfold digit. lia. Qed.
Lemma digit_word x : 0 <= x < 2 ^ 32 -> digit x.
Proof. change (2 ^ 32) with 4294967296. unfold digit. lia. Qed.
Lemma digit_0 : digit 0.
Proof. done. Qed.
#[export] Hint Resolve digit_join digit_join_0 digit_word digit_0 : vli.
Lemma digits_list4 a b c d : digit a -> digit b -> digit c -> digit d -> digits 4 [a; b; c; d].
Proof. intros. repeat apply digits_cons; done. Qed.
#[export] Hint Resolve digits_list4 : vli.

Lemma lshift_head v r c : vli_lshift (0 :: v) 1 = (r, c) -> digit_at r 0 = 0.
Proof. unfold vli_lshift. cbn [vli_lshift_loop]. destruct (vli_lshift_loop v 1 _) as [r' c']. intros [= <- _]. done. Qed.

Lemma digits_8 v : digits 8 v -> exists u a b c d, v = u ++ [a; b; c; d] /\ digits 4 u /\ digit a /\ digit b /\ digit c /\ digit d.
Proof.
  intros (a & v1 & -> & Ha & (b & v2 & -> & Hb & (c & v3 & -> & Hc & (d & v4 & -> & Hd & H)%digits_S)%digits_S)%digits_S)%digits_S.
  destruct (digits_4 v4 H) as (e & f & g & h & -> & He & Hf & Hg & Hh). exists [a; b; c; d], e, f, g, h. splits; auto with vli.
Qed.
Lemma digit_at_app u v i : digits 4 u -> digit_at (u ++ v) (4 + i) = digit_at v i.
Proof. intros [Hu _]. unfold digit_at. rewrite app_nth2 by lia. f_equal. lia. Qed.

(** The sequence of additions and subtractions, and the loops after them. *)
Ltac nist_step :=
  match goal with
  | |- context [vli_add ?a ?b] => let s := fresh "s" in let c := fresh "c" in
    destruct (vli_add_spec 4 a b) as (s & c & -> & ? & ? & ?); [done|auto 10 with vli|]
  | |- context [vli_sub ?a ?b] => let s := fresh "s" in let c := fresh "b" in
    destruct (vli_sub_spec 4 a b) as (s & c & -> & ? & ? & ?); [done|auto 10 with vli|]
  | |- context [vli_lshift ?a 1] => let s := fresh "t" in let c := fresh "c" in
    destruct (vli_lshift_spec 1 4 a) as (s & c & -> & ? & ? & ?); [lia|auto 10 with vli|]
  end.
Lemma nist_loops v c n : digits 4 v -> num v + base 4 * c = n -> - 15 * prime <= n < 16 * prime ->
  exists r, (if c <? 0 then add_p_loop mmod_fuel v c else sub_p_loop mmod_fuel v c) = Some r /\ digits 4 r /\ num r = n mod prime.
Proof.
  intros Hv <- Hn. pose proof prime_bounds. destruct (Z.ltb_spec c 0); [apply add_p_loop_spec|apply sub_p_loop_spec]; unfold mmod_fuel; try done; lia.
Qed.

(** [vli_mmod_fast] is the remainder of any eight digits. *)
Lemma vli_mmod_fast_spec v : digits 8 v -> exists r, vli_mmod_fast v = Some r /\ digits 4 r /\ num r = num v mod prime.
Proof.
  intros Hv. destruct (digits_8 v Hv) as (u & p4 & p5 & p6 & p7 & -> & Hu & H4 & H5 & H6 & H7). clear Hv. unfold vli_mmod_fast. cbv zeta.
  change 7%nat with (4 + 3)%nat. change 6%nat with (4 + 2)%nat. change 5%nat with (4 + 1)%nat.
  change (digit_at (u ++ [p4; p5; p6; p7]) 4) with (digit_at (u ++ [p4; p5; p6; p7]) (4 + 0)). rewrite !digit_at_app by done. cbn [digit_at nth].
  replace (take NUM_ECC_DIGITS (u ++ [p4; p5; p6; p7])) with u by (rewrite take_app_length'; [done|destruct Hu; unfold NUM_ECC_DIGITS; lia]).
  rewrite num_app. destruct Hu as [Hu4 Hu']. rewrite Hu4.
  destruct (word_ops p4 H4) as (-> & -> & -> & ->), (word_ops p5 H5) as (-> & -> & -> & ->), (word_ops p6 H6) as (_ & -> & -> & ->), (word_ops p7 H7) as (_ & -> & -> & _).
  destruct (halves p4 H4) as (_ & _ & L4 & U4 & E4), (halves p5 H5) as (_ & _ & L5 & U5 & E5), (halves p6 H6) as (_ & _ & L6 & U6 & E6), (halves p7 H7) as (_ & _ & L7 & U7 & E7).
  rewrite !word_join by done. rewrite Z.add_comm in E4, E5, E6, E7.
  set (l4 := p4 mod 2 ^ 32) in *. set (h4 := p4 / 2 ^ 32) in *. set (l5 := p5 mod 2 ^ 32) in *. set (h5 := p5 / 2 ^ 32) in *.
  set (l6 := p6 mod 2 ^ 32) in *. set (h6 := p6 / 2 ^ 32) in *. set (l7 := p7 mod 2 ^ 32) in *. set (h7 := p7 / 2 ^ 32) in *.
  clearbody l4 h4 l5 h5 l6 h6 l7 h7. subst p4 p5 p6 p7. pose proof (nist_identity l4 h4 l5 h5 l6 h6 l7 h7) as Hid. rewrite Hid. clear Hid.
  match goal with |- context [vli_lshift ?w 1] => destruct (vli_lshift_spec 1 4 w) as (s1 & c1 & Es1 & Ds1 & Hc1 & N1); [lia|auto 10 with vli|] end.
  rewrite Es1. rewrite (lshift_head _ _ _ Es1). clear Es1. assert (digits 4 u) as Hu by done. unfold vli_set.
  repeat nist_step. rewrite Z.add_assoc, (Z.mul_comm prime), Z.mod_add by (pose proof prime_bounds; lia).
  pose proof (num_range 4 s7 ltac:(done)) as Hr. pose proof prime_bounds as Hp. change (2 ^ 1) with 2 in *.
  change (base 4) with 115792089237316195423570985008687907853269984665640564039457584007913129639936 in *.
  apply nist_loops; [done| |]; unfold nist_sum; change (base 4) with 115792089237316195423570985008687907853269984665640564039457584007913129639936; lia.
Qed.

(** C36: [vli_mod_mult_fast] ends with a number that is the product modulo the prime of P-256, less the carries that
    [vli_mult] misses; it misses none of digits below 2^63. *)
Theorem vli_mod_mult_fast_spec l r : number l -> number r ->
  exists x, vli_mod_mult_fast l r = Some x /\ number x /\ num x = (num l * num r - mult_missed l r) mod prime /\
    (Forall (fun d => 0 <= d < 2 ^ 63) l -> Forall (fun d => 0 <= d < 2 ^ 63) r -> num x = (num l * num r) mod prime).
Proof.
  intros Hl Hr. destruct (vli_mult_spec l r Hl Hr) as (Hd & _ & E). destruct (vli_mmod_fast_spec _ Hd) as (x & Ex & Hx & Ey). exists x.
  assert (num x = (num l * num r - mult_missed l r) mod prime) as En by (rewrite Ey; f_equal; lia). splits; try done.
  intros Sl Sr. rewrite En, (mult_exact l r Sl Sr) by (destruct Hl, Hr; done). by rewrite Z.sub_0_r.
Qed.
(** Two numbers below the prime: the product is wrong, by 2^256. *)
Lemma vli_mod_mult_fast_spec_witness :
  exists x, vli_mod_mult_fast [W - 1; 2 ^ 32; W - 1; 0] [1; 2 ^ 32; W - 1; 0] = Some x /\ num x = (num [W - 1; 2 ^ 32; W - 1; 0] * num [1; 2 ^ 32; W - 1; 0] - 2 ^ 256) mod prime /\
    num x <> (num [W - 1; 2 ^ 32; W - 1; 0] * num [1; 2 ^ 32; W - 1; 0]) mod prime.
Proof.
  destruct (vli_mod_mult_fast_spec [W - 1; 2 ^ 32; W - 1; 0] [1; 2 ^ 32; W - 1; 0]) as (x & Ex & _ & En & _); [apply digits_list4; done|apply digits_list4; done|].
  exists x. split; [exact Ex|]. replace (mult_missed _ _) with (2 ^ 256) in En by (vm_compute; reflexivity). split; [exact En|]. rewrite En. vm_compute. discriminate.
Defined.
(** [vli_mod_square_fast] likewise. *)
Lemma vli_mod_square_fast_spec l : digits 4 l ->
  exists x, vli_mod_square_fast l = Some x /\ digits 4 x /\ num x = (num l * num l - square_missed l) mod prime.
Proof.
  intros Hl. destruct (vli_square_spec l Hl) as (Hd & _ & E). destruct (vli_mmod_fast_spec _ Hd) as (x & Ex & Hx & Ey). exists x. splits; try done. rewrite Ey. f_equal. lia.
Qed.

(** ** Inverses *)

Lemma EVEN_spec n v : digits (S n) v -> EVEN v = (num v mod 2 =? 0).
Proof.
  intros Hv. apply digits_S in Hv as (d & v' & -> & Hd & Hv). unfold EVEN. cbn [digit_at nth]. rewrite num_cons. change 1 with (Z.ones 1). rewrite Z.land_ones by lia.
  change (2 ^ 1) with 2. replace (d + W * num v') with (d + (9223372036854775808 * num v') * 2) by lia. by rewrite Z.mod_add by lia.
Qed.
Lemma top_digit v : digits 4 v -> 2 * num v < base 4 -> digits 4 (take 3 v ++ [Z.lor (digit_at v 3) 0x8000000000000000]) /\
  2 * num (take 3 v ++ [Z.lor (digit_at v 3) 0x8000000000000000]) = 2 * num v + base 4.
Proof.
  intros Hv H. destruct (digits_4 v Hv) as (a & b & c & d & -> & Ha & Hb & Hc & Hd). change (base 4) with (W * W * W * W) in *. cbn [take digit_at nth app] in *. cbn [num foldr] in *. unfold digit in *.
  assert (Z.lor d 0x8000000000000000 = d + 0x8000000000000000) as ->.
  { rewrite Z.lor_comm. change 0x8000000000000000 with (1 * 2 ^ 63). rewrite lor_below; [lia|lia|]. change (2 ^ 63) with 9223372036854775808. lia. }
  split; [|lia]. apply digits_list4; unfold digit; lia.
Qed.
(** Half of a number modulo an odd one: of itself when it is even, of its sum with the modulus otherwise. *)
Lemma halve_mod_spec u m : digits 4 u -> digits 4 m -> num m mod 2 = 1 -> num u < num m ->
  digits 4 (halve_mod u m) /\ num (halve_mod u m) < num m /\ exists e, 2 * num (halve_mod u m) = num u + e * num m.
Proof.
  intros Hu Hm Ho Hlt. unfold halve_mod. rewrite (EVEN_spec 3 u Hu). destruct (Z.eqb_spec (num u mod 2) 0) as [He|He].
  - cbn [negb]. change (negb (0 =? 0)) with false. cbv iota. destruct (vli_rshift1_spec 4 u Hu) as [Hd ->]. pose proof (num_range 4 u Hu). splits; [done|zdiv|]. exists 0. zdiv.
  - destruct (vli_add_spec 4 u m Hu Hm) as (s & c & -> & Hs & Hc & E). destruct (vli_rshift1_spec 4 s Hs) as [Hd Ed]. pose proof (num_range 4 s Hs). pose proof (num_range 4 m Hm).
    assert (num s mod 2 = 0).
    { replace (num s) with (num u + num m - base 4 * c) by lia. change (base 4) with (2 * 2 ^ 255). replace (num u + num m - 2 * 2 ^ 255 * c) with (num u + num m + (- (2 ^ 255 * c)) * 2) by ring.
      rewrite Z.mod_add by lia. zdiv. }
    assert (2 * num (vli_rshift1 s) = num s) as E2 by (rewrite Ed; zdiv). carries; cbn [Z.eqb negb].
    + splits; [done|lia|]. exists 1. lia.
    + destruct (top_digit (vli_rshift1 s) Hd) as [Hd' E3]; [lia|]. splits; [done|lia|]. exists 1. lia.
Qed.
Lemma reduce_by_spec u v m : digits 4 u -> digits 4 v -> digits 4 m -> num u < num m -> num v < num m ->
  digits 4 (reduce_by u v m) /\ num (reduce_by u v m) < num m /\ exists e, num (reduce_by u v m) = num u - num v + e * num m.
Proof.
  intros Hu Hv Hm Hum Hvm. unfold reduce_by. rewrite (vli_cmp_spec _ _ Hu Hv). pose proof (num_range 4 u Hu). pose proof (num_range 4 v Hv). pose proof (num_range 4 m Hm).
  assert ((Z.sgn (num u - num v) <? 0) = (num u <? num v)) as -> by (destruct (Z.sgn_spec (num u - num v)) as [[? ->]|[[? ->]|[? ->]]]; zcases; lia).
  destruct (Z.ltb_spec (num u) (num v)) as [Hs|Hs].
  - destruct (vli_add_spec 4 u m Hu Hm) as (s & c & -> & Hs' & Hc & E). cbn [fst]. destruct (vli_sub_spec 4 s v Hs' Hv) as (d & b & -> & Hd & Hb & E'). cbn [fst].
    pose proof (num_range 4 s Hs'). pose proof (num_range 4 d Hd). splits; [done|carries; lia|]. exists 1. carries; lia.
  - destruct (vli_sub_spec 4 u v Hu Hv) as (d & b & -> & Hd & Hb & E'). cbn [fst]. pose proof (num_range 4 d Hd). splits; [done|carries; lia|]. exists 0. carries; lia.
Qed.

Lemma gcd_even_odd a b : b mod 2 = 1 -> Z.gcd (2 * a) b = Z.gcd a b.
Proof.
  intros Hb. apply Z.divide_antisym_nonneg; [apply Z.gcd_nonneg..| |].
  - apply Z.gcd_greatest; [|apply Z.gcd_divide_r]. apply Z.gauss with 2; [apply Z.gcd_divide_l|]. set (d := Z.gcd (2 * a) b).
    assert (Z.divide (Z.gcd d 2) b) as [k Hk] by (transitivity d; [apply Z.gcd_divide_l|apply Z.gcd_divide_r]).
    assert (Z.divide (Z.gcd d 2) 2) as H2 by apply Z.gcd_divide_r. pose proof (Z.gcd_nonneg d 2). apply Z.divide_pos_le in H2 as Hle; [|lia].
    assert (Z.gcd d 2 <> 0) by (intros E; rewrite E in H2; apply Z.divide_0_l in H2; lia).
    assert (Z.gcd d 2 <> 2) by (intros E; rewrite E in Hk; zdiv). lia.
  - apply Z.gcd_greatest; [|apply Z.gcd_divide_r]. apply Z.divide_mul_r, Z.gcd_divide_l.
Qed.
Lemma gcd_half a b : a mod 2 = 0 -> b mod 2 = 1 -> Z.gcd (a / 2) b = Z.gcd a b.
Proof. intros Ha Hb. rewrite <- (gcd_even_odd (a / 2) b Hb). f_equal. zdiv. Qed.
Lemma gcd_half_difference a b : a mod 2 = 1 -> b mod 2 = 1 -> Z.gcd ((a - b) / 2) b = Z.gcd a b.
Proof. intros Ha Hb. rewrite gcd_half by zdiv. rewrite Z.gcd_comm, Z.gcd_sub_diag_r. apply Z.gcd_comm. Qed.

Section Inverse.
Context (m : vli) (x g : Z) (Hm : digits 4 m) (Ho : num m mod 2 = 1).

(** One half of the state: [u * x] is [a], modulo [m]. *)
Record inv_half (a u : vli) : Prop := { ih_a : digits 4 a; ih_pos : 0 < num a; ih_u : digits 4 u; ih_lt : num u < num m; ih_eq : Z.divide (num m) (num u * x - num a) }.
Definition inv_ok (a b u v : vli) : Prop := inv_half a u /\ inv_half b v /\ Z.gcd (num a) (num b) = g /\ (num a mod 2 = 1 \/ num b mod 2 = 1).

Lemma inv_half_halve a u : inv_half a u -> num a mod 2 = 0 -> inv_half (vli_rshift1 a) (halve_mod u m) /\ num (vli_rshift1 a) = num a / 2.
Proof.
  intros [Ha Hp Hu Hlt [q Hq]] He. destruct (vli_rshift1_spec 4 a Ha) as [Hr Er]. destruct (halve_mod_spec u m Hu Hm Ho Hlt) as (Hh & Hl & e & Ee).
  split; [|done]. split; [done|rewrite Er; zdiv|done|done|]. apply Z.gauss with 2.
  - exists (q + e * x). assert (2 * num (vli_rshift1 a) = num a) by (rewrite Er; zdiv). nia.
  - rewrite Z.gcd_comm, <- (Z.mul_1_r 2), (gcd_even_odd 1) by done. apply Z.gcd_1_l.
Qed.
Lemma inv_half_difference a u b v : inv_half a u -> inv_half b v -> num b < num a ->
  inv_half (fst (vli_sub a b)) (reduce_by u v m) /\ num (fst (vli_sub a b)) = num a - num b.
Proof.
  intros [Ha Hpa Hu Hltu [q Hq]] [Hb Hpb Hv Hltv [r Hr]] Hlt. destruct (vli_sub_spec 4 a b Ha Hb) as (d & c & -> & Hd & Hc & E). cbn [fst].
  destruct (reduce_by_spec u v m Hu Hv Hm Hltu Hltv) as (Hw & Hlw & e & Ee). pose proof (num_range 4 d Hd). pose proof (num_range 4 a Ha).
  assert (num d = num a - num b) as En by (carries; lia). split; [|done]. split; [done|lia|done|done|]. exists (q - r + e * x). rewrite Ee, En. nia.
Qed.

Lemma inv_ok_swap a b u v : inv_ok a b u v <-> inv_ok b a v u.
Proof. unfold inv_ok. rewrite (Z.gcd_comm (num a)). tauto. Qed.
Lemma inv_ok_halve a b u v : inv_ok a b u v -> num a mod 2 = 0 -> inv_ok (vli_rshift1 a) b (halve_mod u m) v /\ 2 * (num (vli_rshift1 a) * num b) = num a * num b.
Proof.
  intros (Ha & Hb & Hg & Hodd) He. destruct (inv_half_halve a u Ha He) as [Ha' E]. assert (num b mod 2 = 1) as Hob by (destruct Hodd; lia).
  split; [|rewrite E; zdiv]. split; [done|]. split; [done|]. rewrite E, gcd_half by done. auto.
Qed.
Lemma inv_ok_difference a b u v : inv_ok a b u v -> num a mod 2 = 1 -> num b mod 2 = 1 -> num b < num a ->
  inv_ok (vli_rshift1 (fst (vli_sub a b))) b (halve_mod (reduce_by u v m) m) v /\ 2 * (num (vli_rshift1 (fst (vli_sub a b))) * num b) < num a * num b.
Proof.
  intros (Ha & Hb & Hg & Hodd) Hoa Hob Hlt. destruct (inv_half_difference a u b v Ha Hb Hlt) as [Hd E]. assert (num (fst (vli_sub a b)) mod 2 = 0) as He by (rewrite E; zdiv).
  destruct (inv_half_halve _ _ Hd He) as [Hd' E']. rewrite E in E'. pose proof (ih_pos _ _ Hb). split.
  - split; [done|]. split; [done|]. rewrite E', gcd_half_difference by done. auto.
  - rewrite E'. assert (2 * ((num a - num b) / 2) = num a - num b) by zdiv. nia.
Qed.

(** Each round halves one of the numbers at least, so the loop ends; [u] is then the greatest common divisor over [x]. *)
Lemma mod_inv_loop_spec fuel : forall a b u v, inv_ok a b u v -> num a * num b < 2 ^ Z.of_nat fuel ->
  exists r, mod_inv_loop fuel a b u v m = Some r /\ digits 4 r /\ num r < num m /\ Z.divide (num m) (num r * x - g).
Proof.
  induction fuel as [|fuel IH]; intros a b u v (Ha & Hb & Hg & Hodd) Hf; pose proof (ih_pos _ _ Ha) as Hpa; pose proof (ih_pos _ _ Hb) as Hpb; [change (2 ^ Z.of_nat 0) with 1 in Hf; nia|].
  rewrite Nat2Z.inj_succ, Z.pow_succ_r in Hf by lia. cbn [mod_inv_loop]. rewrite (vli_cmp_spec _ _ (ih_a _ _ Ha) (ih_a _ _ Hb)), (EVEN_spec 3 _ (ih_a _ _ Ha)), (EVEN_spec 3 _ (ih_a _ _ Hb)).
  set (n := 2 ^ Z.of_nat fuel) in *. destruct (Z.sgn_spec (num a - num b)) as [[Hc ->]|[[Hc ->]|[Hc ->]]]; cbn [Z.eqb Z.ltb Z.compare].
  2:{ exists u. destruct Ha as [Ha _ Hu Hlt Hd]. splits; [done|done|done|]. replace g with (num a); [done|]. rewrite <- Hg. replace (num b) with (num a) by lia. rewrite Z.gcd_diag. lia. }
  all: change (- (1) =? 0) with false; change (0 <? - (1)) with false; cbv iota.
  all: destruct (Z.eqb_spec (num a mod 2) 0) as [Ea|Ea]; [|assert (num a mod 2 = 1) as Oa by zdiv; clear Ea; destruct (Z.eqb_spec (num b mod 2) 0) as [Eb|Eb]; [|assert (num b mod 2 = 1) as Ob by zdiv; clear Eb]].
  1,4: destruct (inv_ok_halve a b u v) as [Hi Hn]; [done|done|apply IH; [done|lia]].
  1,3: destruct (inv_ok_halve b a v u) as [Hi Hn]; [by apply inv_ok_swap|done|apply IH; [by apply inv_ok_swap|lia]].
  - destruct (inv_ok_difference a b u v) as [Hi Hn]; [done|done|done|lia|apply IH; [done|lia]].
  - destruct (inv_ok_difference b a v u) as [Hi Hn]; [by apply inv_ok_swap|done|done|lia|apply IH; [by apply inv_ok_swap|lia]].
Qed.
End Inverse.

(** The state at the start of [vli_mod_inv]. *)
Lemma mod_inv_ends x m : number x -> number m -> num m mod 2 = 1 -> 1 < num m -> num x <> 0 ->
  exists r, mod_inv_loop mod_inv_fuel x m [1; 0; 0; 0] vli_clear m = Some r /\ number r /\ num r < num m /\ Z.divide (num m) (num r * num x - Z.gcd (num x) (num m)).
Proof.
  intros Hx Hm Ho H1 E. pose proof (num_range 4 x Hx). pose proof (num_range 4 m Hm). apply mod_inv_loop_spec; [done|done| |].
  - unfold inv_ok. splits; [|split|done|by right]; try done.
    + split; [done|lia|by apply digits_list4|cbn; lia|]. exists 0. cbn. lia.
    + lia.
    + by apply digits_list4.
    + cbn. lia.
    + exists (-1). cbn. lia.
  - change (2 ^ Z.of_nat mod_inv_fuel) with (2 * (base 4 * base 4)). nia.
Qed.

(** C37: [vli_mod_inv] ends within its fuel of 513 rounds, for any input; times the input, its result is the greatest common divisor of
    the input and an odd modulus, so 1 for an input that has an inverse. *)
Theorem vli_mod_inv_spec x m : number x -> number m -> num m mod 2 = 1 -> 1 < num m ->
  exists r, vli_mod_inv x m = Some r /\ number r /\ num r < num m /\ (num r * num x) mod num m = Z.gcd (num x) (num m) mod num m.
Proof.
  intros Hx Hm Ho H1. unfold vli_mod_inv. rewrite (vli_is_zero_spec 4 x Hx). destruct (Z.eqb_spec (num x) 0) as [E|E].
  - exists vli_clear. splits; [done|by apply digits_list4|cbn; lia|]. rewrite E, Z.gcd_0_l, Z.mul_0_r, Z.abs_eq by lia. by rewrite Z.mod_0_l, Z.mod_same by lia.
  - destruct (mod_inv_ends x m Hx Hm Ho H1 E) as (r & Er & Hr & Hl & [q Hq]). exists r. splits; try done.
    replace (num r * num x) with (Z.gcd (num x) (num m) + q * num m) by lia. by rewrite Z.mod_add by lia.
Qed.
Lemma vli_mod_inv_spec_witness : exists r, vli_mod_inv [3; 1; 4; 1] curve_p = Some r /\ (num r * num [3; 1; 4; 1]) mod prime = 1.
Proof.
  destruct (vli_mod_inv_spec [3; 1; 4; 1] curve_p) as (r & Er & _ & _ & E); [apply digits_list4; done|exact curve_p_digits|vm_compute; reflexivity|vm_compute; reflexivity|].
  exists r. split; [exact Er|]. unfold prime. rewrite E. vm_compute. reflexivity.
Defined.
