(* ===== verification/EccKeys.v ===== *)
(** * EccKeys: points and keys

    The functions on points always return, whatever their arguments; bytes are read back as the number they
    are of; and when [ecc_make_key] makes a key that is one. *)
From S2P Require Import Prelude CMem Ecc EccSpec.

(** ** Points *)

(** Every function on points returns, with digits: the loops of reductions and inverses end. *)
Definition returns {A} (P : A -> Prop) (o : option A) : Prop := exists a, o = Some a /\ P a.
Lemma returns_bind {A B} (P : A -> Prop) (Q : B -> Prop) (o : option A) (f : A -> option B) :
  returns P o -> (forall a, P a -> returns Q (f a)) -> returns Q (o ≫= f).
Proof. intros (a & -> & Ha) Hf. exact (Hf a Ha). Qed.
Lemma returns_Some {A} (P : A -> Prop) (a : A) : P a -> returns P (Some a).
Proof. exists a. done. Qed.
Lemma digit_lor a b : digit a -> digit b -> digit (Z.lor a b).
Proof.
  unfold digit. intros Ha Hb. enough (Z.lor a b = Z.lor a b mod 2 ^ 64) as ->; [apply Z.mod_pos_bound; lia|].
  rewrite <- Z.land_ones, Z.land_lor_distr_l, !Z.land_ones by lia. by rewrite !Z.mod_small by done.
Qed.
Lemma number_add l r : number l -> number r -> number (fst (vli_add l r)).
Proof. intros Hl Hr. by destruct (vli_add_spec 4 l r Hl Hr) as (? & ? & -> & ? & _). Qed.
Lemma number_sub l r : number l -> number r -> number (fst (vli_sub l r)).
Proof. intros Hl Hr. by destruct (vli_sub_spec 4 l r Hl Hr) as (? & ? & -> & ? & _). Qed.
Lemma number_mod_add l r m : number l -> number r -> number m -> number (vli_mod_add l r m).
Proof.
  intros Hl Hr Hm. unfold vli_mod_add. pose proof (number_add l r Hl Hr) as Hs. destruct (vli_add l r) as [s c]. cbn [fst] in Hs. destruct (_ || _); [by apply number_sub|done].
Qed.
Lemma number_mod_sub l r m : number l -> number r -> number m -> number (vli_mod_sub l r m).
Proof.
  intros Hl Hr Hm. unfold vli_mod_sub. pose proof (number_sub l r Hl Hr) as Hs. destruct (vli_sub l r) as [s c]. cbn [fst] in Hs. destruct (negb _); [by apply number_add|done].
Qed.
Lemma number_rshift1 v : number v -> number (vli_rshift1 v).
Proof. intros Hv. by apply vli_rshift1_spec. Qed.
Lemma number_top v c : number v -> digit c -> number (take 3 v ++ [Z.lor (digit_at v 3) c]).
Proof. intros Hv Hc. destruct (digits_4 v Hv) as (? & ? & ? & ? & -> & ? & ? & ? & ?). cbn. apply digits_list4; auto using digit_lor. Qed.
Lemma returns_mul l r : number l -> number r -> returns number (vli_mod_mult_fast l r).
Proof. intros Hl Hr. destruct (vli_mult_spec l r Hl Hr) as (Hd & _). destruct (vli_mmod_fast_spec _ Hd) as (x & E & Hx & _). by exists x. Qed.
Lemma returns_sqr l : number l -> returns number (vli_mod_square_fast l).
Proof. intros Hl. destruct (vli_mod_square_fast_spec l Hl) as (x & E & Hx & _). by exists x. Qed.
Lemma returns_inv l : number l -> returns number (vli_mod_inv l curve_p).
Proof.
  intros Hl. unfold vli_mod_inv. rewrite (vli_is_zero_spec 4 l Hl). destruct (Z.eqb_spec (num l) 0); [apply returns_Some; by apply digits_list4|].
  destruct (mod_inv_ends l curve_p Hl curve_p_digits) as (x & E & Hx & _); [done|done|done|]. by exists x.
Qed.
#[export] Hint Resolve number_mod_add number_mod_sub number_rshift1 number_top returns_mul returns_sqr returns_inv : vli.

(** Two numbers, three, and those of two points. *)
Definition number2 (p : vli * vli) : Prop := number p.1 /\ number p.2.
Definition number3 (p : vli * vli * vli) : Prop := number2 p.1 /\ number p.2.
Definition number4 (p : vli * vli * vli * vli) : Prop := number3 p.1 /\ number p.2.
Definition point_ok (p : ecc_point) : Prop := number (px p) /\ number (py p).
Definition ladder_ok (l : ladder) : Prop := number (l_x0 l) /\ number (l_y0 l) /\ number (l_x1 l) /\ number (l_y1 l).
Ltac returns := cbv zeta; repeat (eapply returns_bind; [eauto 8 with vli|cbv beta; intros ? ?]); apply returns_Some; unfold number4, number3, number2, vli_set; cbn [fst snd]; splits; auto 8 with vli.

Lemma returns_double x y z : number x -> number y -> number z -> returns number3 (ecc_point_double_jacobian x y z).
Proof.
  intros Hx Hy Hz. unfold ecc_point_double_jacobian. destruct (vli_is_zero z); [by apply returns_Some|].
  do 5 (eapply returns_bind; [eauto 8 with vli|cbv beta; intros ? ?]). cbv zeta. eapply returns_bind; [eauto 8 with vli|cbv beta; intros w ?].
  match goal with |- context [vli_test_bit ?v 0] => set (b := v) end.
  assert (number (if negb (vli_test_bit b 0 =? 0) then let '(x1, carry) := vli_add b curve_p in take 3 (vli_rshift1 x1) ++ [Z.lor (digit_at (vli_rshift1 x1) 3) (w64 (Z.shiftl carry 63))] else vli_rshift1 b)).
  { assert (number b) as Hb by (unfold b; auto 8 with vli). destruct (negb _); [|auto with vli]. pose proof (number_add b curve_p Hb curve_p_digits) as Hs. destruct (vli_add b curve_p) as [s c]. cbn [fst] in Hs. auto with vli. }
  match goal with H : number ?v |- context [?v] => generalize dependent v end. intros v Hv. returns.
Qed.
Lemma returns_apply_z x y z : number x -> number y -> number z -> returns number2 (apply_z x y z).
Proof. intros Hx Hy Hz. unfold apply_z. returns. Qed.
Lemma returns_add x y x' y' : number x -> number y -> number x' -> number y' -> returns number4 (xycz_add x y x' y').
Proof. intros. unfold xycz_add. returns. Qed.
Lemma returns_add_c x y x' y' : number x -> number y -> number x' -> number y' -> returns number4 (xycz_add_c x y x' y').
Proof. intros. unfold xycz_add_c. returns. Qed.
Lemma number_one : number [1; 0; 0; 0].
Proof. by apply digits_list4. Qed.
Lemma returns_initial_double x y z : number x -> number y -> (forall w, z = Some w -> number w) -> returns number4 (xycz_initial_double x y z).
Proof.
  intros Hx Hy Hz. unfold xycz_initial_double, vli_set. cbv zeta. assert (number (match z with Some z => z | None => [1; 0; 0; 0] end)) as Hw by (destruct z; [by apply Hz|exact number_one]).
  eapply returns_bind; [by apply returns_apply_z|]. intros [x1 y1] [Hx1 Hy1]. eapply returns_bind; [by apply returns_double|]. intros [[x2 y2] z2] [[Hx2 Hy2] Hz2].
  eapply returns_bind; [by apply returns_apply_z|]. intros [x3 y3] [Hx3 Hy3]. by apply returns_Some.
Qed.
Lemma returns_on_points f b l : (forall x y x' y', number x -> number y -> number x' -> number y' -> returns number4 (f x y x' y')) -> ladder_ok l -> returns ladder_ok (on_points f b l).
Proof.
  intros Hf (H1 & H2 & H3 & H4). unfold on_points. destruct b; (eapply returns_bind; [by apply Hf|]); intros [[[x y] x'] y'] [[[? ?] ?] ?]; by apply returns_Some.
Qed.
Lemma returns_ladder s i : forall l, ladder_ok l -> returns ladder_ok (ladder_loop i s l).
Proof.
  induction i as [|i IH]; intros l Hl; [by apply returns_Some|]. cbn [ladder_loop]. eapply returns_bind; [|intros l' Hl'; by apply IH]. unfold ladder_step.
  eapply returns_bind; [apply returns_on_points; [apply returns_add_c|done]|]. intros l' Hl'. apply returns_on_points; [apply returns_add|done].
Qed.

(** The multiplication of a point ends, whatever the point, the scalar and the number of bits. *)
Lemma ecc_point_mult_returns p s z n : point_ok p -> (forall w, z = Some w -> number w) -> returns point_ok (ecc_point_mult p s z n).
Proof.
  intros [Hx Hy] Hz. unfold ecc_point_mult, vli_set. eapply returns_bind; [by apply returns_initial_double|]. intros [[[x1 y1] x0] y0] [[[H1 H2] H3] H4].
  eapply returns_bind; [by apply returns_ladder|]. intros l Hl. cbv zeta. eapply returns_bind; [apply returns_on_points; [apply returns_add_c|done]|].
  intros l1 (X0 & Y0 & X1 & Y1). do 5 (eapply returns_bind; [try destruct (bit_clear s 0); eauto 8 with vli|cbv beta; intros ? ?]).
  eapply returns_bind; [apply returns_on_points; [apply returns_add|done]|]. intros l2 (? & ? & ? & ?). eapply returns_bind; [by apply returns_apply_z|].
  intros [x y] [? ?]. by apply returns_Some.
Qed.

(** The top bit of the scalar is taken to be set, and not to be the bottom one: 1 is multiplied as 3 is, and 0 as 2 is. *)
Lemma ecc_point_mult_short p s s' z n n' : (n <= 2)%nat -> (n' <= 2)%nat -> bit_clear s 0 = bit_clear s' 0 -> ecc_point_mult p s z n = ecc_point_mult p s' z n'.
Proof. intros Hn Hn' H. unfold ecc_point_mult. replace (n - 2)%nat with O by lia. replace (n' - 2)%nat with O by lia. cbn [ladder_loop]. by rewrite H. Qed.
Lemma one_as_three p z : ecc_point_mult p [1; 0; 0; 0] z (vli_num_bits [1; 0; 0; 0]) = ecc_point_mult p [3; 0; 0; 0] z (vli_num_bits [3; 0; 0; 0]).
Proof. apply ecc_point_mult_short; [vm_compute; lia|vm_compute; lia|by vm_compute]. Qed.
Lemma zero_as_two p z : ecc_point_mult p vli_clear z (vli_num_bits vli_clear) = ecc_point_mult p [2; 0; 0; 0] z (vli_num_bits [2; 0; 0; 0]).
Proof. apply ecc_point_mult_short; [vm_compute; lia|vm_compute; lia|by vm_compute]. Qed.
(** The generator twice, as published. *)
Definition generator_double : ecc_point :=
  mkPoint [0xA60B48FC47669978; 0xC08969E277F21B35; 0x8A52380304B51AC3; 0x7CF27B188D034F7E] [0x9E04B79D227873D1; 0xBA7DADE63CE98229; 0x293D9AC69F7430DB; 0x07775510DB8ED040].
Lemma generator_twice : ecc_point_mult curve_g [2; 0; 0; 0] None 2 = Some generator_double.
Proof. vm_compute. reflexivity. Qed.

(** ** Bytes *)

Lemma digit_bytes_num d : digit d -> Forall byte (digit_bytes d) /\ foldr (fun b n => b + 256 * n) 0 (digit_bytes d) = d.
Proof.
  intros Hd. unfold digit in Hd. split; [repeat constructor; apply to_uchar_byte|]. unfold digit_bytes, to_uchar. cbn [map foldr]. rewrite !Z.shiftr_div_pow2 by lia.
  change (2 ^ 0) with 1. change (2 ^ 8) with 256. change (2 ^ 16) with 65536. change (2 ^ 24) with 16777216. change (2 ^ 32) with 4294967296. change (2 ^ 40) with 1099511627776.
  change (2 ^ 48) with 281474976710656. change (2 ^ 56) with 72057594037927936. zdiv.
Qed.
(** The number of bytes, the least significant first. *)
Definition little (bs : list Z) : Z := foldr (fun b n => b + 256 * n) 0 bs.
Lemma little_inj a : forall b, length a = length b -> Forall byte a -> Forall byte b -> little a = little b -> a = b.
Proof.
  induction a as [|x a IH]; intros [|y b] Hl Ha Hb E; try done. inversion Ha; inversion Hb; subst. cbn [little foldr] in E. fold (little a) (little b) in E. unfold byte in *.
  assert (x = y) by lia. f_equal; [done|]. apply IH; [by injection Hl|done|done|lia].
Qed.
Lemma lor_above x y k : 0 <= k -> 0 <= x < 2 ^ k -> Z.lor x (Z.shiftl y k) = x + 2 ^ k * y.
Proof. intros Hk Hx. rewrite Z.lor_comm, Z.shiftl_mul_pow2, lor_below by lia. lia. Qed.
Lemma bytes_digit_0 bs rest : length bs = 8%nat -> Forall byte bs -> bytes_digit (bs ++ rest) 0 = little bs.
Proof.
  intros Hl Hb. do 8 (destruct bs as [|? bs]; [discriminate|]). destruct bs; [|discriminate]. repeat match goal with H : Forall _ (_ :: _) |- _ => inversion H; clear H; subst end. unfold byte in *.
  unfold bytes_digit. cbv zeta. cbn [Nat.mul Nat.add nth app little foldr]. rewrite Z.shiftl_0_r.
  rewrite (lor_above _ _ 8), (lor_above _ _ 16), (lor_above _ _ 24), (lor_above _ _ 32), (lor_above _ _ 40), (lor_above _ _ 48), (lor_above _ _ 56);
    change (2 ^ 8) with 256; change (2 ^ 16) with 65536; change (2 ^ 24) with 16777216; change (2 ^ 32) with 4294967296; change (2 ^ 40) with 1099511627776;
    change (2 ^ 48) with 281474976710656; change (2 ^ 56) with 72057594037927936; lia.
Qed.
Lemma bytes_digit_S bs rest i : length bs = 8%nat -> bytes_digit (bs ++ rest) (S i) = bytes_digit rest i.
Proof.
  intros Hl. assert (forall j, nth (8 * S i + j) (bs ++ rest) 0 = nth (8 * i + j) rest 0) as H by (intros j; rewrite app_nth2 by lia; f_equal; lia).
  unfold bytes_digit. cbv zeta. by rewrite !H.
Qed.
Lemma bytes_digits bs n : length bs = (8 * n)%nat -> Forall byte bs -> concat (map digit_bytes (map (bytes_digit bs) (seq 0 n))) = bs.
Proof.
  revert bs. induction n as [|n IH]; intros bs Hl Hb; [by destruct bs|]. assert (length (take 8 bs) = 8%nat) as H8 by (rewrite length_take; lia). rewrite <- (take_drop 8 bs) in Hl, Hb |- *.
  set (b1 := take 8 bs) in *. set (b2 := drop 8 bs) in *. clearbody b1 b2. rewrite length_app in Hl. apply Forall_app in Hb as [Hb1 Hb2].
  cbn [seq map concat]. rewrite <- seq_shift, !map_map. rewrite (map_ext _ (fun i => digit_bytes (bytes_digit b2 i))) by (intros i; by rewrite bytes_digit_S).
  rewrite <- (map_map (bytes_digit b2) digit_bytes), IH by (done || lia). f_equal. rewrite bytes_digit_0 by done.
  assert (digit (little b1)) as Hd.
  { do 8 (destruct b1 as [|? b1]; [discriminate|]). destruct b1; [|discriminate]. repeat match goal with H : Forall _ (_ :: _) |- _ => inversion H; clear H; subst end. unfold digit, byte in *. cbn [little foldr]. lia. }
  destruct (digit_bytes_num _ Hd) as [Hf E]. apply little_inj; [by rewrite H8|done|done|exact E].
Qed.
Lemma digits_bytes v : Forall digit v -> map (bytes_digit (concat (map digit_bytes v))) (seq 0 (length v)) = v.
Proof.
  induction v as [|d v IH]; intros Hv; [done|]. inversion Hv; subst. destruct (digit_bytes_num d) as [Hf E]; [done|]. cbn [map concat length seq]. rewrite bytes_digit_0 by done. f_equal; [exact E|].
  rewrite <- seq_shift, map_map. rewrite (map_ext _ (bytes_digit (concat (map digit_bytes v)))) by (intros i; by rewrite bytes_digit_S). by apply IH.
Qed.

(** [ecc_native2bytes] and [ecc_bytes2native] are inverses of each other. *)
Lemma native_bytes_native v : number v -> ecc_bytes2native (ecc_native2bytes v) = v.
Proof. intros [Hl Hv]. unfold ecc_bytes2native, ecc_native2bytes, NUM_ECC_DIGITS. rewrite <- Hl. by apply digits_bytes. Qed.
Lemma bytes_native_bytes bs : length bs = 32%nat -> Forall byte bs -> ecc_native2bytes (ecc_bytes2native bs) = bs.
Proof. intros Hl Hb. by apply bytes_digits. Qed.

(** ** Keys *)

Definition valid (priv : vli) : Prop := 1 <= num priv < num curve_n.
Lemma curve_n_digits : number curve_n.
Proof. split; [done|]. repeat constructor; done. Qed.
Lemma curve_g_ok : point_ok curve_g.
Proof. split; (split; [done|]; repeat constructor; done). Qed.
Lemma range_test priv : number priv -> vli_is_zero priv = (num priv =? 0) /\ (vli_cmp curve_n priv =? 1) = (num priv <? num curve_n).
Proof.
  intros Hp. split; [exact (vli_is_zero_spec 4 priv Hp)|]. rewrite (vli_cmp_spec _ _ curve_n_digits Hp).
  destruct (Z.sgn_spec (num curve_n - num priv)) as [[? ->]|[[? ->]|[? ->]]]; zcases; lia.
Qed.

Section Keys.
Context (random : nat -> option vli) (Hrandom : forall i v, random i = Some v -> number v).

(** A random number that is a key: it is in the range, and its product with the generator, the public key, is not zero. *)
Definition gives_key (priv : vli) (q : ecc_point) : Prop :=
  valid priv /\ ecc_point_mult curve_g priv None (vli_num_bits priv) = Some q /\ ecc_point_is_zero q = false.
Definition no_key (i : nat) : Prop := exists v, random i = Some v /\ forall q, ~ gives_key v q.

(** What the loop gives from the number [first] on: the first key among the numbers before the seventeenth, and none only where there is none or
    where drawing one of the first seventeen failed. *)
Definition key_of (first : nat) (r : option (vli * ecc_point)) : Prop :=
  match r with
  | None => (forall j, (first <= j < MAX_TRIES)%nat -> no_key j) \/
            exists i, (first <= i <= MAX_TRIES)%nat /\ random i = None /\ forall j, (first <= j < i)%nat -> no_key j
  | Some (priv, pk) => exists i, (first <= i < MAX_TRIES)%nat /\ random i = Some priv /\ gives_key priv pk /\ forall j, (first <= j < i)%nat -> no_key j
  end.

Lemma key_of_next first r : no_key first -> key_of (S first) r -> key_of first r.
Proof.
  intros Hno. assert (Hext : forall i, (forall j, (S first <= j < i)%nat -> no_key j) -> forall j, (first <= j < i)%nat -> no_key j).
  { intros i Hi j Hj. destruct (decide (j = first)) as [->|]; [done|]. apply Hi. lia. }
  destruct r as [[priv pk]|]; cbn [key_of].
  - intros (i & Hi & Hr & Hk & Hj). exists i. split; [lia|]. split; [exact Hr|]. split; [exact Hk|by apply Hext].
  - intros [Hj|(i & Hi & Hr & Hj)]; [left; by apply Hext|right]. exists i. split; [lia|]. split; [exact Hr|by apply Hext].
Qed.

(** Fuel for the rounds up to the seventeenth number is enough. *)
Lemma make_key_loop_spec n : forall tries pk, (tries <= MAX_TRIES)%nat -> (MAX_TRIES < tries + n)%nat -> point_ok pk ->
  ecc_point_is_zero pk = true \/ (exists priv, random tries = Some priv /\ valid priv) ->
  returns (key_of tries) (make_key_loop random n tries pk).
Proof.
  induction n as [|n IH]; intros tries pk Ht Hn Hok Hz; [lia|]. cbn [make_key_loop]. destruct (random tries) as [priv|] eqn:Er.
  2:{ apply returns_Some. right. exists tries. split; [lia|]. split; [exact Er|]. intros j Hj. lia. }
  pose proof (Hrandom _ _ Er) as Hp. destruct (range_test priv Hp) as [-> ->].
  destruct (Nat.leb_spec MAX_TRIES tries); [apply returns_Some; left; intros j Hj; lia|].
  assert (forall pk', (forall q, ~ gives_key priv q) -> ecc_point_is_zero pk' = true -> point_ok pk' -> returns (key_of tries) (make_key_loop random n (S tries) pk')) as Hnext.
  { intros pk' Hno Hz' Hok'. destruct (IH (S tries) pk' ltac:(lia) ltac:(lia) Hok' ltac:(by left)) as (r & -> & Hr). apply returns_Some.
    apply key_of_next; [|exact Hr]. exists priv. split; [exact Er|exact Hno]. }
  pose proof (num_range 4 priv Hp) as Hnum. assert (~ valid priv -> returns (key_of tries) (if ecc_point_is_zero pk then make_key_loop random n (S tries) pk else Some (Some (priv, pk)))) as Hskip.
  { intros Hv. destruct Hz as [Ez|(v & [= <-] & Hv')]; [|exfalso; exact (Hv Hv')]. rewrite Ez. apply Hnext; [|exact Ez|exact Hok]. intros q (Hv' & _). exact (Hv Hv'). }
  unfold valid in Hskip. destruct (Z.eqb_spec (num priv) 0) as [E|E]; [cbn [mbind option_bind]; apply Hskip; lia|].
  destruct (Z.ltb_spec (num priv) (num curve_n)) as [Hl|Hl]; cbn [negb]; [|cbn [mbind option_bind]; apply Hskip; lia].
  destruct (ecc_point_mult_returns curve_g priv None (vli_num_bits priv) curve_g_ok ltac:(done)) as (q & Eq & Hq). rewrite Eq. cbn [mbind option_bind].
  destruct (ecc_point_is_zero q) eqn:Ez.
  - apply Hnext; [|exact Ez|exact Hq]. intros q' (_ & Eq' & Ez'). rewrite Eq in Eq'. injection Eq' as <-. rewrite Ez in Ez'. discriminate Ez'.
  - apply returns_Some. exists tries. split; [lia|]. split; [exact Er|]. split; [|intros j Hj; lia]. unfold gives_key, valid. split; [lia|]. split; [exact Eq|exact Ez].
Qed.

(** C40: [ecc_make_key] ends, after at most 17 random numbers (the fuel is for 17 rounds, and to run out of it is not a result).  When the local [pk]
    is zero at first, or the first random number is in the range, it returns a key exactly if one of the first 16 numbers is one, that is, in the range
    with a public key that is not zero: the first such number, and the product of the generator with it; and false
    otherwise, that is, if there is none, or drawing a number failed before there was one. *)
Theorem ecc_make_key_spec pk : point_ok pk -> ecc_point_is_zero pk = true \/ (exists priv, random 0%nat = Some priv /\ valid priv) ->
  exists r, ecc_make_key random pk = Some r /\
    match r with
    | Some (private, public) =>
        exists i priv q, (i < MAX_TRIES)%nat /\ random i = Some priv /\ gives_key priv q /\ (forall j, (j < i)%nat -> no_key j) /\
          ecc_bytes2native private = priv /\ public = ecc_native2bytes (px q) ++ ecc_native2bytes (py q)
    | None => (forall j, (j < MAX_TRIES)%nat -> no_key j) \/ exists i, (i <= MAX_TRIES)%nat /\ random i = None /\ forall j, (j < i)%nat -> no_key j
    end.
Proof.
  intros Hok Hz. unfold ecc_make_key. destruct (make_key_loop_spec (S MAX_TRIES) 0 pk ltac:(lia) ltac:(lia) Hok Hz) as (r & -> & Hr). cbn [mbind option_bind]. eexists. split; [done|].
  destruct r as [[priv q]|]; cbn [option_map].
  - destruct Hr as (i & Hi & Er & Hk & Hj). exists i, priv, q. split; [lia|]. split; [exact Er|]. split; [exact Hk|]. split; [intros j ?; apply Hj; lia|].
    split; [exact (native_bytes_native _ (Hrandom _ _ Er))|reflexivity].
  - destruct Hr as [Hj|(i & Hi & Er & Hj)]; [left; intros j ?; apply Hj; lia|right]. exists i. split; [lia|]. split; [exact Er|]. intros j ?. apply Hj. lia.
Qed.

(** Numbers out of the range are drawn again, and the first that is in it becomes the key. *)
Lemma make_key_loop_takes k : forall n tries pk priv q, (tries + k < MAX_TRIES)%nat -> (k < n)%nat -> ecc_point_is_zero pk = true ->
  (forall i, (tries <= i < tries + k)%nat -> exists v, random i = Some v /\ ~ valid v) -> random (tries + k)%nat = Some priv -> valid priv ->
  ecc_point_mult curve_g priv None (vli_num_bits priv) = Some q -> ecc_point_is_zero q = false -> make_key_loop random n tries pk = Some (Some (priv, q)).
Proof.
  unfold valid. induction k as [|k IH]; intros [|n] tries pk priv q Ht Hn Hz Hbad Hr Hv Hq Hq0; [lia| |lia|]; cbn [make_key_loop].
  - rewrite Nat.add_0_r in Hr. rewrite Hr, (proj2 (Nat.leb_gt _ _)) by lia. destruct (range_test priv (Hrandom _ _ Hr)) as [-> ->]. replace (num priv =? 0) with false by lia.
    replace (num priv <? num curve_n) with true by lia. cbn [negb]. rewrite Hq. cbn [mbind option_bind]. rewrite Hq0. reflexivity.
  - destruct (Hbad tries ltac:(lia)) as (v & Ev & Hbv). rewrite Ev, (proj2 (Nat.leb_gt _ _)) by lia. pose proof (num_range 4 v (Hrandom _ _ Ev)). destruct (range_test v (Hrandom _ _ Ev)) as [-> ->].
    assert (make_key_loop random n (S tries) pk = Some (Some (priv, q))) as Hnext.
    { replace (tries + S k)%nat with (S tries + k)%nat in Hr by lia. apply (IH n (S tries) pk priv q); [lia|lia|exact Hz| |exact Hr|exact Hv|exact Hq|exact Hq0]. intros i Hi. apply Hbad. lia. }
    destruct (Z.eqb_spec (num v) 0); [cbn [mbind option_bind]; by rewrite Hz|]. replace (num v <? num curve_n) with false by lia. cbn [negb mbind option_bind]. by rewrite Hz.
Qed.

Lemma ecc_make_key_takes k pk priv q : (k < MAX_TRIES)%nat -> ecc_point_is_zero pk = true ->
  (forall i, (i < k)%nat -> exists v, random i = Some v /\ ~ valid v) -> random k = Some priv -> valid priv ->
  ecc_point_mult curve_g priv None (vli_num_bits priv) = Some q -> ecc_point_is_zero q = false ->
  ecc_make_key random pk = Some (Some (ecc_native2bytes priv, ecc_native2bytes (px q) ++ ecc_native2bytes (py q))).
Proof.
  intros Hk Hz Hbad Hr Hv Hq Hq0. unfold ecc_make_key. rewrite (make_key_loop_takes k (S MAX_TRIES) 0 pk priv q); [reflexivity|lia|lia|exact Hz| |exact Hr|exact Hv|exact Hq|exact Hq0].
  intros i Hi. apply Hbad. lia.
Qed.

(** A first random number that is out of the range is returned as the key when the bytes of the uninitialised [pk] are not all zero:
    [continue] goes to the condition of the loop. *)
Theorem invalid_key_returned priv pk : random 0%nat = Some priv -> ~ valid priv -> ecc_point_is_zero pk = false ->
  ecc_make_key random pk = Some (Some (ecc_native2bytes priv, ecc_native2bytes (px pk) ++ ecc_native2bytes (py pk))).
Proof.
  intros Er Hv Hz. pose proof (Hrandom _ _ Er) as Hp. unfold ecc_make_key. cbn [make_key_loop]. rewrite Er. destruct (range_test priv Hp) as [-> ->]. pose proof (num_range 4 priv Hp).
  unfold valid in Hv. change (MAX_TRIES <=? 0)%nat with false. cbv iota. assert ((num priv =? 0) = true \/ (num priv <? num curve_n) = false) as H1 by (zcases; lia).
  destruct (num priv =? 0); [|destruct H1 as [? | ->]; [done|]]; cbn [negb mbind option_bind]; rewrite Hz; done.
Qed.
End Keys.

(** [get_random_number]: 32 bytes that are read in parts, as a number. *)
Lemma random_loop_reads reads : forall got, Forall (fun bs => bs <> []) reads -> (length got + length (concat reads) = ECC_BYTES)%nat -> random_loop reads got = Some (Some (got ++ concat reads)).
Proof.
  induction reads as [|bs reads IH]; intros got Hr Hl; cbn [random_loop concat] in *.
  - cbn [length] in Hl. rewrite (proj2 (Nat.leb_le _ _)) by lia. by rewrite app_nil_r.
  - inversion Hr as [|? ? Hb Hr']; subst. rewrite length_app in Hl. destruct bs as [|b bs]; [done|]. cbn [length] in Hl. rewrite (proj2 (Nat.leb_gt _ _)) by lia.
    rewrite IH; [by rewrite <- app_assoc|done|]. rewrite length_app. cbn [length]. lia.
Qed.
Lemma get_random_number_spec fd reads : 0 <= fd -> Forall (fun bs => bs <> []) reads -> length (concat reads) = ECC_BYTES ->
  get_random_number fd fd reads = Some (Some (ecc_bytes2native (concat reads))).
Proof. intros Hf Hr Hl. unfold get_random_number. replace (fd <? 0) with false by lia. cbn [andb]. rewrite random_loop_reads; [done|done|exact Hl]. Qed.

Lemma digit_of_bytes bs i : Forall byte bs -> digit (bytes_digit bs i).
Proof.
  intros Hb. unfold bytes_digit. cbv zeta.
  assert (forall j k, 0 <= k <= 56 -> digit (Z.shiftl (nth j bs 0) k)) as H.
  { intros j k Hk. assert (0 <= nth j bs 0 < 256) as Hn by (destruct (Nat.ltb_spec j (length bs)); [by apply (proj1 (Forall_nth _ 0 bs) Hb)|rewrite nth_overflow by done; done]).
    rewrite Z.shiftl_mul_pow2 by lia. pose proof (Z.pow_le_mono_r 2 k 56 ltac:(lia) ltac:(lia)) as Hp. change (2 ^ 56) with 72057594037927936 in Hp. pose proof (Z.pow_pos_nonneg 2 k). unfold digit. nia. }
  repeat apply digit_lor; apply H; lia.
Qed.
Lemma number_of_bytes bs : Forall byte bs -> number (ecc_bytes2native bs).
Proof. intros Hb. split; [done|]. unfold ecc_bytes2native. apply Forall_map, Forall_true. intros i. by apply digit_of_bytes. Qed.

(** [ecdh_shared_secret] returns for any bytes of the peer: the point is not looked at. *)
Lemma ecdh_shared_secret_returns rand public private : number rand -> Forall byte public -> Forall byte private ->
  exists secret ok, ecdh_shared_secret (Some rand) public private = Some (Some (secret, ok)) /\ length secret = 32%nat /\ Forall byte secret.
Proof.
  intros Hr Hu Hp. unfold ecdh_shared_secret. set (pk := mkPoint _ _). assert (point_ok pk) as Hk by (split; apply number_of_bytes; [by apply Forall_take|by apply Forall_drop]).
  destruct (ecc_point_mult_returns pk (ecc_bytes2native private) (Some rand) (vli_num_bits (ecc_bytes2native private)) Hk) as (q & Eq & Hx & _); [by intros w [= <-]|].
  cbv zeta. rewrite Eq. cbn [mbind option_bind]. eexists _, _. split; [reflexivity|]. destruct (digits_4 _ Hx) as (a & b & c & d & -> & Ha & Hb & Hc & Hd).
  split; [reflexivity|]. unfold ecc_native2bytes. cbn [map concat]. repeat apply Forall_app_2; try apply digit_bytes_num; try done.
Qed.
(** A peer whose point is not on the curve gets an answer. *)
Definition on_curve (p : ecc_point) : bool :=
  (num (py p) * num (py p)) mod prime =? (num (px p) * num (px p) * num (px p) - 3 * num (px p) + 0x5ac635d8aa3a93e7b3ebbd55769886bc651d06b0cc53b0f63bce3c3e27d2604b) mod prime.
Example generator_on_curve : on_curve curve_g = true.
Proof. vm_compute. reflexivity. Qed.
Example off_curve_accepted :
  let public := replicate 64 5 in let private := 2 :: replicate 31 0 in
  on_curve (mkPoint (ecc_bytes2native (take 32 public)) (ecc_bytes2native (drop 32 public))) = false /\
  exists secret, ecdh_shared_secret (Some [1; 0; 0; 0]) public private = Some (Some (secret, true)).
Proof. split; [vm_compute; reflexivity|]. eexists. vm_compute. reflexivity. Qed.

(** The first random number is out of the range, the second is the key. *)
Definition two_numbers (i : nat) : option vli := if (i =? 0)%nat then Some curve_n else Some [2; 0; 0; 0].
Lemma two_numbers_ok i v : two_numbers i = Some v -> number v.
Proof. unfold two_numbers. destruct (i =? 0)%nat; intros [= <-]; [exact curve_n_digits|apply digits_list4; done]. Qed.
Definition no_point : ecc_point := mkPoint vli_clear vli_clear.
Lemma no_point_ok : point_ok no_point.
Proof. split; apply digits_list4; done. Qed.
Lemma two_numbers_key : exists keys, ecc_make_key two_numbers no_point = Some (Some keys).
Proof.
  eexists. eapply (ecc_make_key_takes two_numbers two_numbers_ok 1 no_point [2; 0; 0; 0] generator_double); [unfold MAX_TRIES; lia|reflexivity| |reflexivity|unfold valid; cbn; lia|exact generator_twice|reflexivity].
  intros i Hi. exists curve_n. replace i with O by lia. split; [reflexivity|unfold valid; lia].
Qed.
Lemma ecc_make_key_spec_witness : exists private public, ecc_make_key two_numbers no_point = Some (Some (private, public)) /\ ecc_bytes2native private = [2; 0; 0; 0].
Proof.
  destruct (ecc_make_key_spec two_numbers two_numbers_ok no_point no_point_ok ltac:(left; reflexivity)) as (r & Er & H). destruct two_numbers_key as ([private public] & Ek).
  rewrite Ek in Er. injection Er as <-. destruct H as (i & priv & q & Hi & Ei & (Hv & _) & _ & Eb & _). exists private, public. split; [exact Ek|]. rewrite Eb.
  unfold two_numbers in Ei. destruct (i =? 0)%nat; injection Ei as <-; [exfalso; unfold valid in Hv; lia|reflexivity].
Defined.
