(* ===== verification/Ad.v ===== *)
(** * Ad: shared/ad.c of BlueZ

    What a device advertises: UUIDs of services, data of manufacturers and of services, and the bytes made of them.
    A queue is the list of its data, which is what Queue.v shows of it ([queue_refines_list]); objects
    in the queues belong to them alone, so they are values.  lib/uuid.h and lib/bluetooth.h are not in the repository. *)
From S2P Require Import Prelude CMem.

Class UuidLib := {
  bt_uuid_t : Type;
  BT_UUID16 : Z;
  BT_UUID32 : Z;
  BT_UUID128 : Z;
  (** [uuid->type], [uuid->value.u32] *)
  uuid_type : bt_uuid_t -> Z;
  uuid_u32 : bt_uuid_t -> Z;
  bt_uuid_len : bt_uuid_t -> Z;
  bt_uuid_cmp : bt_uuid_t -> bt_uuid_t -> Z;
  (** What is written to the destination. *)
  bt_uuid_to_le : bt_uuid_t -> list Z;
  bt_put_le16 : Z -> list Z;
  bt_put_le32 : Z -> list Z
}.

Definition MAX_ADV_DATA_LEN : Z := 31.
Definition EIR_UUID16_ALL : Z := 0x03.
Definition EIR_UUID32_ALL : Z := 0x05.
Definition EIR_UUID128_ALL : Z := 0x07.
Definition EIR_SOLICIT16 : Z := 0x14.
Definition EIR_SOLICIT128 : Z := 0x15.
Definition EIR_SVC_DATA16 : Z := 0x16.
Definition EIR_SOLICIT32 : Z := 0x1F.
Definition EIR_SVC_DATA32 : Z := 0x20.
Definition EIR_SVC_DATA128 : Z := 0x21.
Definition EIR_MANUFACTURER_DATA : Z := 0xFF.

(** [data] with [len], which is the length of the list. *)
Record bt_ad_manufacturer_data := mkManuf { manufacturer_id : Z; mf_data : list Z }.
Definition size_of (data : list Z) : Z := Z.of_nat (length data).

Section Ad.
Context `{lib : UuidLib}.
Record bt_ad_service_data := mkService { sd_uuid : bt_uuid_t; sd_data : list Z }.
Record bt_ad := mkAd {
  ad_ref_count : Z;
  service_uuids : list bt_uuid_t;
  manufacturer_data : list bt_ad_manufacturer_data;
  solicit_uuids : list bt_uuid_t;
  service_data : list bt_ad_service_data
}.
Definition put_ref_count v ad := mkAd v (service_uuids ad) (manufacturer_data ad) (solicit_uuids ad) (service_data ad).
Definition put_service_uuids v ad := mkAd (ad_ref_count ad) v (manufacturer_data ad) (solicit_uuids ad) (service_data ad).
Definition put_manufacturer_data v ad := mkAd (ad_ref_count ad) (service_uuids ad) v (solicit_uuids ad) (service_data ad).
Definition put_solicit_uuids v ad := mkAd (ad_ref_count ad) (service_uuids ad) (manufacturer_data ad) v (service_data ad).
Definition put_service_data v ad := mkAd (ad_ref_count ad) (service_uuids ad) (manufacturer_data ad) (solicit_uuids ad) v.

(** ** Queues as lists; a match function can be undefined. *)
Fixpoint find_if {A} (f : A -> option bool) (l : list A) : option (option A) :=
  match l with [] => Some None | x :: l => b ← f x; if (b : bool) then Some (Some x) else find_if f l end.
Fixpoint remove_if {A} (f : A -> option bool) (l : list A) : option (option A * list A) :=
  match l with
  | [] => Some (None, [])
  | x :: l => b ← f x; if (b : bool) then Some (Some x, l) else '(r, l) ← remove_if f l; Some (r, x :: l)
  end.
(** The first element that [f] is true of becomes [g] of it: an object that [queue_find] gave is changed. *)
Fixpoint update_first {A} (f : A -> bool) (g : A -> A) (l : list A) : list A :=
  match l with [] => [] | x :: l => if f x then g x :: l else x :: update_first f g l end.

(** ** The life of the object; [None] is the null pointer. *)
Definition bt_ad_ref (ad : option bt_ad) : option (option bt_ad) :=
  match ad with None => Some None | Some ad => n ← cint (ad_ref_count ad + 1); Some (Some (put_ref_count n ad)) end.
Definition bt_ad_new : option (option bt_ad) := bt_ad_ref (Some (mkAd 0 [] [] [] [])).
(** [None] afterwards: freed, with all that is in it. *)
Definition bt_ad_unref (ad : option bt_ad) : option (option bt_ad) :=
  match ad with
  | None => Some None
  | Some ad => n ← cint (ad_ref_count ad - 1); if negb (n =? 0) then Some (Some (put_ref_count n ad)) else Some None
  end.

(** ** Lengths *)
Fixpoint uuid_list_loop (l : list bt_uuid_t) (uuid16_included uuid32_included uuid128_included : bool) (length : Z) : bool * bool * bool * Z :=
  match l with
  | [] => (uuid16_included, uuid32_included, uuid128_included, length)
  | uuid :: l =>
    let length := to_uint (length + bt_uuid_len uuid) in
    if uuid_type uuid =? BT_UUID16 then uuid_list_loop l true uuid32_included uuid128_included length
    else if uuid_type uuid =? BT_UUID32 then uuid_list_loop l uuid16_included true uuid128_included length
    else uuid_list_loop l uuid16_included uuid32_included true length
  end.
Definition uuid_list_length (uuid_queue : list bt_uuid_t) : Z :=
  let '(uuid16_included, uuid32_included, uuid128_included, length) := uuid_list_loop uuid_queue false false false 0 in
  let length := if (uuid16_included : bool) then to_uint (length + 2) else length in
  let length := if (uuid32_included : bool) then to_uint (length + 2) else length in
  if (uuid128_included : bool) then to_uint (length + 2) else length.
Definition mfg_data_length (manuf_data : list bt_ad_manufacturer_data) : Z :=
  fold_left (fun length data => to_uint (length + (2 + 2 + size_of (mf_data data)))) manuf_data 0.
Definition uuid_data_length (uuid_data : list bt_ad_service_data) : Z :=
  fold_left (fun length data => to_uint (length + (2 + bt_uuid_len (sd_uuid data) + size_of (sd_data data)))) uuid_data 0.
Definition calculate_length (ad : bt_ad) : Z :=
  let length := to_uint (0 + uuid_list_length (service_uuids ad)) in
  let length := to_uint (length + uuid_list_length (solicit_uuids ad)) in
  let length := to_uint (length + mfg_data_length (manufacturer_data ad)) in
  to_uint (length + uuid_data_length (service_data ad)).

(** ** Bytes: [buf] and [*pos], a [uint8_t]; a store outside the buffer is undefined. *)
Definition adv_buffer : Type := list Z * Z.
Definition store_at (bs : list Z) (p : Z) (s : adv_buffer) : option adv_buffer :=
  let '(buf, pos) := s in if p + size_of bs <=? size_of buf then Some (splice buf (Z.to_nat p) bs, pos) else None.
(** A byte at the position, which is incremented. *)
Definition put8 (v : Z) (s : adv_buffer) : option adv_buffer := '(buf, pos) ← store_at [to_uchar v] s.2 s; Some (buf, to_uchar (pos + 1)).
(** Bytes stored at [buf + *pos], and [*pos += n] *)
Definition put_bytes (bs : list Z) (n : Z) (s : adv_buffer) : option adv_buffer := '(buf, pos) ← store_at bs s.2 s; Some (buf, to_uchar (pos + n)).

(** [while (entry)]; [length_pos] is that of the length once something was added. *)
Fixpoint serialize_uuids_loop (uuids : list bt_uuid_t) (type ad_type : Z) (length_pos : option Z) (s : adv_buffer) : option (option Z * adv_buffer) :=
  match uuids with
  | [] => Some (length_pos, s)
  | uuid :: uuids =>
    if uuid_type uuid =? type then
      '(length_pos, s) ← (match length_pos with
                          | Some p => Some (p, s)
                          | None => let '(buf, pos) := s in s ← put8 ad_type (buf, to_uchar (pos + 1)); Some (pos, s)
                          end);
      s ← put_bytes (if negb (type =? BT_UUID32) then bt_uuid_to_le uuid else bt_put_le32 (uuid_u32 uuid)) (bt_uuid_len uuid) s;
      serialize_uuids_loop uuids type ad_type (Some length_pos) s
    else serialize_uuids_loop uuids type ad_type length_pos s
  end.
Definition serialize_uuids (uuids : list bt_uuid_t) (type ad_type : Z) (s : adv_buffer) : option adv_buffer :=
  '(length_pos, s) ← serialize_uuids_loop uuids type ad_type None s;
  match length_pos with None => Some s | Some p => store_at [to_uchar (s.2 - p - 1)] p s end.
Definition serialize_service_uuids (uuids : list bt_uuid_t) (s : adv_buffer) : option adv_buffer :=
  s ← serialize_uuids uuids BT_UUID16 EIR_UUID16_ALL s;
  s ← serialize_uuids uuids BT_UUID32 EIR_UUID32_ALL s;
  serialize_uuids uuids BT_UUID128 EIR_UUID128_ALL s.
Definition serialize_solicit_uuids (uuids : list bt_uuid_t) (s : adv_buffer) : option adv_buffer :=
  s ← serialize_uuids uuids BT_UUID16 EIR_SOLICIT16 s;
  s ← serialize_uuids uuids BT_UUID32 EIR_SOLICIT32 s;
  serialize_uuids uuids BT_UUID128 EIR_SOLICIT128 s.
Fixpoint serialize_manuf_data (manuf_data : list bt_ad_manufacturer_data) (s : adv_buffer) : option adv_buffer :=
  match manuf_data with
  | [] => Some s
  | data :: manuf_data =>
    s ← put8 (size_of (mf_data data) + 2 + 1) s;
    s ← put8 EIR_MANUFACTURER_DATA s;
    s ← put_bytes (bt_put_le16 (manufacturer_id data)) 2 s;
    s ← put_bytes (mf_data data) (size_of (mf_data data)) s;
    serialize_manuf_data manuf_data s
  end.
Fixpoint serialize_service_data (l : list bt_ad_service_data) (s : adv_buffer) : option adv_buffer :=
  match l with
  | [] => Some s
  | data :: l =>
    let uuid_len := bt_uuid_len (sd_uuid data) in
    s ← put8 (uuid_len + size_of (sd_data data) + 1) s;
    s ← (if uuid_len =? 2 then put8 EIR_SVC_DATA16 s else if uuid_len =? 4 then put8 EIR_SVC_DATA32 s else if uuid_len =? 16 then put8 EIR_SVC_DATA128 s else Some s);
    s ← put_bytes (if negb (uuid_len =? 4) then bt_uuid_to_le (sd_uuid data) else bt_put_le32 (uuid_u32 (sd_uuid data))) uuid_len s;
    s ← put_bytes (sd_data data) (size_of (sd_data data)) s;
    serialize_service_data l s
  end.

(** The bytes, or null, and [*length]; [allocated]: [malloc0] gave memory. *)
Definition bt_ad_generate (allocated : bool) (ad : option bt_ad) : option (option (list Z) * option Z) :=
  match ad with
  | None => Some (None, None)
  | Some ad =>
    let length := calculate_length ad in
    if MAX_ADV_DATA_LEN <? length then Some (None, Some length) else
    if negb allocated then Some (None, Some length) else
    s ← serialize_service_uuids (service_uuids ad) (replicate (Z.to_nat length) 0, 0);
    s ← serialize_solicit_uuids (solicit_uuids ad) s;
    s ← serialize_manuf_data (manufacturer_data ad) s;
    s ← serialize_service_data (service_data ad) s;
    Some (Some s.1, Some length)
  end.

(** ** UUIDs *)

Definition queue_add_uuid (queue : list bt_uuid_t) (uuid : bt_uuid_t) : bool * list bt_uuid_t := (true, queue ++ [uuid]).
Definition uuid_match (data elem : bt_uuid_t) : bool := negb (bt_uuid_cmp data elem =? 0).
(** [uuid]: null or one. *)
Definition queue_remove_uuid (queue : list bt_uuid_t) (uuid : option bt_uuid_t) : option (bool * list bt_uuid_t) :=
  match uuid with
  | None => Some (false, queue)
  | Some uuid => '(removed, queue) ← remove_if (fun d => Some (uuid_match d uuid)) queue; Some (bool_decide (is_Some removed), queue)
  end.
Definition bt_ad_add_service_uuid (ad : option bt_ad) (uuid : bt_uuid_t) : bool * option bt_ad :=
  match ad with None => (false, None) | Some ad => let '(r, q) := queue_add_uuid (service_uuids ad) uuid in (r, Some (put_service_uuids q ad)) end.
Definition bt_ad_remove_service_uuid (ad : option bt_ad) (uuid : option bt_uuid_t) : option (bool * option bt_ad) :=
  match ad with None => Some (false, None) | Some ad => '(r, q) ← queue_remove_uuid (service_uuids ad) uuid; Some (r, Some (put_service_uuids q ad)) end.
Definition bt_ad_clear_service_uuid (ad : option bt_ad) : option bt_ad := option_map (put_service_uuids []) ad.
Definition bt_ad_add_solicit_uuid (ad : option bt_ad) (uuid : bt_uuid_t) : bool * option bt_ad :=
  match ad with None => (false, None) | Some ad => let '(r, q) := queue_add_uuid (solicit_uuids ad) uuid in (r, Some (put_solicit_uuids q ad)) end.
Definition bt_ad_remove_solicit_uuid (ad : option bt_ad) (uuid : option bt_uuid_t) : option (bool * option bt_ad) :=
  match ad with None => Some (false, None) | Some ad => '(r, q) ← queue_remove_uuid (solicit_uuids ad) uuid; Some (r, Some (put_solicit_uuids q ad)) end.
Definition bt_ad_clear_solicit_uuid (ad : option bt_ad) : option bt_ad := option_map (put_solicit_uuids []) ad.

(** ** Data of manufacturers *)

Definition manufacturer_id_data_match (id : Z) (m : bt_ad_manufacturer_data) : bool := manufacturer_id m =? id.
(** [allocated]: [malloc] or [realloc] gave memory; the latter is not tested. *)
Definition bt_ad_add_manufacturer_data (allocated : bool) (ad : option bt_ad) (id : Z) (data : list Z) : option (bool * option bt_ad) :=
  match ad with
  | None => Some (false, None)
  | Some ad =>
    if MAX_ADV_DATA_LEN - 2 - 2 <? size_of data then Some (false, Some ad) else
    new_data ← find_if (fun m => Some (manufacturer_id_data_match id m)) (manufacturer_data ad);
    match new_data with
    | Some new_data =>
      if (size_of (mf_data new_data) =? size_of data) && bool_decide (mf_data new_data = data) then Some (false, Some ad) else
      if negb allocated && (0 <? size_of data) then None else
      Some (true, Some (put_manufacturer_data (update_first (manufacturer_id_data_match id) (fun m => mkManuf (manufacturer_id m) data) (manufacturer_data ad)) ad))
    | None =>
      if negb allocated then Some (false, Some ad) else
      Some (true, Some (put_manufacturer_data (manufacturer_data ad ++ [mkManuf id data]) ad))
    end
  end.
Definition manufacturer_data_match (m2 m1 : bt_ad_manufacturer_data) : bool :=
  if negb (manufacturer_id m1 =? manufacturer_id m2) then false else
  if negb (size_of (mf_data m1) =? size_of (mf_data m2)) then false else bool_decide (mf_data m1 = mf_data m2).
Definition bt_ad_has_manufacturer_data (ad : option bt_ad) (data : option bt_ad_manufacturer_data) : option bool :=
  match ad, data with
  | None, _ => Some false
  | Some ad, None => Some (negb (bool_decide (manufacturer_data ad = [])))
  | Some ad, Some data => r ← find_if (fun m => Some (manufacturer_data_match data m)) (manufacturer_data ad); Some (bool_decide (is_Some r))
  end.
(** [func] with its [user_data]; it leaves the queue alone. *)
Definition bt_ad_foreach_manufacturer_data {U} (func : bt_ad_manufacturer_data -> U -> U) (ad : option bt_ad) (u : U) : U :=
  match ad with None => u | Some ad => fold_left (fun u m => func m u) (manufacturer_data ad) u end.
(** [elem], which is the identifier, is read as the pointer of an element: [deref] is what is at that address. *)
Definition manuf_match (deref : Z -> option bt_ad_manufacturer_data) (elem : Z) (data : bt_ad_manufacturer_data) : option bool :=
  manuf ← deref elem; Some (manufacturer_id manuf =? to_ushort elem).
Definition bt_ad_remove_manufacturer_data (deref : Z -> option bt_ad_manufacturer_data) (ad : option bt_ad) (id : Z) : option (bool * option bt_ad) :=
  match ad with
  | None => Some (false, None)
  | Some ad => '(data, q) ← remove_if (manuf_match deref id) (manufacturer_data ad); Some (bool_decide (is_Some data), Some (put_manufacturer_data q ad))
  end.
Definition bt_ad_clear_manufacturer_data (ad : option bt_ad) : option bt_ad := option_map (put_manufacturer_data []) ad.

(** ** Data of services *)

Definition service_uuid_match (uuid : bt_uuid_t) (s : bt_ad_service_data) : bool := bt_uuid_cmp (sd_uuid s) uuid =? 0.
(** [size_t] difference: a UUID of more than 29 bytes would wrap. *)
Definition bt_ad_add_service_data (allocated : bool) (ad : option bt_ad) (uuid : bt_uuid_t) (data : list Z) : option (bool * option bt_ad) :=
  match ad with
  | None => Some (false, None)
  | Some ad =>
    if to_uint (MAX_ADV_DATA_LEN - 2 - bt_uuid_len uuid) <? size_of data then Some (false, Some ad) else
    new_data ← find_if (fun s => Some (service_uuid_match uuid s)) (service_data ad);
    match new_data with
    | Some new_data =>
      if (size_of (sd_data new_data) =? size_of data) && bool_decide (sd_data new_data = data) then Some (false, Some ad) else
      if negb allocated && (0 <? size_of data) then None else
      Some (true, Some (put_service_data (update_first (service_uuid_match uuid) (fun s => mkService (sd_uuid s) data) (service_data ad)) ad))
    | None =>
      if negb allocated then Some (false, Some ad) else
      Some (true, Some (put_service_data (service_data ad ++ [mkService uuid data]) ad))
    end
  end.
Definition service_data_match (s2 s1 : bt_ad_service_data) : bool :=
  if negb (bt_uuid_cmp (sd_uuid s1) (sd_uuid s2) =? 0) then false else
  if negb (size_of (sd_data s1) =? size_of (sd_data s2)) then false else bool_decide (sd_data s1 = sd_data s2).
Definition bt_ad_has_service_data (ad : option bt_ad) (data : option bt_ad_service_data) : option bool :=
  match ad, data with
  | None, _ => Some false
  | Some ad, None => Some (negb (bool_decide (service_data ad = [])))
  | Some ad, Some data => r ← find_if (fun s => Some (service_data_match data s)) (service_data ad); Some (bool_decide (is_Some r))
  end.
Definition bt_ad_foreach_service_data {U} (func : bt_ad_service_data -> U -> U) (ad : option bt_ad) (u : U) : U :=
  match ad with None => u | Some ad => fold_left (fun u s => func s u) (service_data ad) u end.
(** The pointers are taken for each other's types; the UUID is the first member of both. *)
Definition uuid_data_match (elem : bt_uuid_t) (data : bt_ad_service_data) : bool := bt_uuid_cmp elem (sd_uuid data) =? 0.
Definition bt_ad_remove_service_data (ad : option bt_ad) (uuid : bt_uuid_t) : option (bool * option bt_ad) :=
  match ad with
  | None => Some (false, None)
  | Some ad => '(data, q) ← remove_if (fun s => Some (uuid_data_match uuid s)) (service_data ad); Some (bool_decide (is_Some data), Some (put_service_data q ad))
  end.
Definition bt_ad_clear_service_data (ad : option bt_ad) : option bt_ad := option_map (put_service_data []) ad.
End Ad.
