(* ===== verification/AdSpec.v ===== *)
(** * AdSpec: what Ad.v generates, and what it removes

    The bytes are well-formed advertising data, as the scanner of BleScan.v reads them. *)
From S2P Require Import Prelude CMem SnSocket Serial BleScan BleScanSpec Ad.

(** What lib/uuid.h and lib/bluetooth.h document of UUIDs: the length of each type, and of what is written of it. *)
Class UuidLaws (lib : UuidLib) := {
  types_differ : BT_UUID16 <> BT_UUID32 /\ BT_UUID16 <> BT_UUID128 /\ BT_UUID32 <> BT_UUID128;
  uuid16_length u : uuid_type u = BT_UUID16 -> bt_uuid_len u = 2 /\ length (bt_uuid_to_le u) = 2%nat;
  uuid32_length u : uuid_type u = BT_UUID32 -> bt_uuid_len u = 4;
  uuid128_length u : uuid_type u = BT_UUID128 -> bt_uuid_len u = 16 /\ length (bt_uuid_to_le u) = 16%nat;
  le16_length v : length (bt_put_le16 v) = 2%nat;
  le32_length v : length (bt_put_le32 v) = 4%nat;
  cmp_same u v : bt_uuid_cmp u v = 0 <-> u = v
}.

Section Spec.
Context `{lib : UuidLib} {laws : UuidLaws lib}.

(** ** The reference: fields *)

Definition has_type (u : bt_uuid_t) : Prop := uuid_type u = BT_UUID16 \/ uuid_type u = BT_UUID32 \/ uuid_type u = BT_UUID128.
Definition uuid_bytes (u : bt_uuid_t) : list Z := if uuid_type u =? BT_UUID32 then bt_put_le32 (uuid_u32 u) else bt_uuid_to_le u.
(** The UUIDs of one type share a field. *)
Definition of_type (type : Z) (l : list bt_uuid_t) : list bt_uuid_t := List.filter (fun u => uuid_type u =? type) l.
Definition uuid_field (type ad_type : Z) (l : list bt_uuid_t) : list field :=
  match of_type type l with [] => [] | us => [(ad_type, concat (map uuid_bytes us))] end.
Definition manuf_field (m : bt_ad_manufacturer_data) : field := (EIR_MANUFACTURER_DATA, bt_put_le16 (manufacturer_id m) ++ mf_data m).
Definition service_type (u : bt_uuid_t) : Z :=
  if uuid_type u =? BT_UUID16 then EIR_SVC_DATA16 else if uuid_type u =? BT_UUID32 then EIR_SVC_DATA32 else EIR_SVC_DATA128.
Definition service_field (s : bt_ad_service_data) : field := (service_type (sd_uuid s), uuid_bytes (sd_uuid s) ++ sd_data s).
Definition service_fields (l : list bt_uuid_t) : list field := uuid_field BT_UUID16 EIR_UUID16_ALL l ++ uuid_field BT_UUID32 EIR_UUID32_ALL l ++ uuid_field BT_UUID128 EIR_UUID128_ALL l.
Definition solicit_fields (l : list bt_uuid_t) : list field := uuid_field BT_UUID16 EIR_SOLICIT16 l ++ uuid_field BT_UUID32 EIR_SOLICIT32 l ++ uuid_field BT_UUID128 EIR_SOLICIT128 l.
Definition ad_fields (ad : bt_ad) : list field :=
  service_fields (service_uuids ad) ++ solicit_fields (solicit_uuids ad) ++ map manuf_field (manufacturer_data ad) ++ map service_field (service_data ad).
Definition ad_wf (ad : bt_ad) : Prop := Forall has_type (service_uuids ad) /\ Forall has_type (solicit_uuids ad) /\ Forall (fun s => has_type (sd_uuid s)) (service_data ad).

Lemma uuid_bytes_length u : has_type u -> Z.of_nat (length (uuid_bytes u)) = bt_uuid_len u.
Proof.
  destruct types_differ as (H1 & H2 & H3). unfold uuid_bytes. intros [H|[H|H]]; rewrite H.
  - rewrite (proj2 (Z.eqb_neq _ _)) by done. destruct (uuid16_length u H) as [-> ->]. done.
  - rewrite Z.eqb_refl, le32_length, (uuid32_length u H). done.
  - rewrite (proj2 (Z.eqb_neq _ _)) by congruence. destruct (uuid128_length u H) as [-> ->]. done.
Qed.
Lemma of_type_has type l : Forall has_type l -> Forall has_type (of_type type l).
Proof. intros H. apply Forall_forall. intros u Hu. apply list_elem_of_In, filter_In in Hu as [Hu _]. rewrite Forall_forall in H. apply H. by apply list_elem_of_In. Qed.

(** ** Lengths *)

Definition sum_len (l : list bt_uuid_t) : Z := foldr (fun u n => bt_uuid_len u + n) 0 l.
Definition some_of (type : Z) (l : list bt_uuid_t) : bool := existsb (fun u => uuid_type u =? type) l.
Lemma to_uint_add_r a b : to_uint (a + to_uint b) = to_uint (a + b).
Proof. unfold to_uint. by rewrite Zplus_mod_idemp_r. Qed.

(** One conversion at the end for those within. *)
Ltac to_uints := rewrite ?to_uint_add_r; repeat first [rewrite to_uint_add | rewrite <- Z.add_assoc].

Lemma uuid_list_loop_spec l : Forall has_type l -> forall a b c n,
  uuid_list_loop l a b c (to_uint n) = (a || some_of BT_UUID16 l, b || some_of BT_UUID32 l, c || some_of BT_UUID128 l, to_uint (n + sum_len l)).
Proof.
  destruct types_differ as (H1 & H2 & H3). induction 1 as [|u l Hu _ IH]; intros a b c n; cbn [uuid_list_loop some_of existsb sum_len foldr]; [by rewrite !orb_false_r, Z.add_0_r|].
  fold (sum_len l). rewrite to_uint_add. destruct Hu as [E|[E|E]]; rewrite E, ?Z.eqb_refl.
  - rewrite (proj2 (Z.eqb_neq BT_UUID16 BT_UUID32)), (proj2 (Z.eqb_neq BT_UUID16 BT_UUID128)) by done. rewrite IH. cbn [orb]. rewrite orb_true_r. by rewrite Z.add_assoc.
  - rewrite (proj2 (Z.eqb_neq BT_UUID32 BT_UUID16)), (proj2 (Z.eqb_neq BT_UUID32 BT_UUID128)) by congruence. rewrite IH. cbn [orb]. rewrite orb_true_r. by rewrite Z.add_assoc.
  - rewrite (proj2 (Z.eqb_neq BT_UUID128 BT_UUID16)), (proj2 (Z.eqb_neq BT_UUID128 BT_UUID32)) by congruence. rewrite IH. cbn [orb]. rewrite orb_true_r. by rewrite Z.add_assoc.
Qed.

Lemma some_of_type type l : some_of type l = negb (bool_decide (of_type type l = [])).
Proof. induction l as [|u l IH]; [done|]. cbn [some_of existsb of_type List.filter]. destruct (uuid_type u =? type); [done|]. cbn [orb]. exact IH. Qed.
Lemma sum_len_types l : Forall has_type l -> sum_len l = sum_len (of_type BT_UUID16 l) + sum_len (of_type BT_UUID32 l) + sum_len (of_type BT_UUID128 l).
Proof.
  destruct types_differ as (H1 & H2 & H3). induction 1 as [|u l Hu _ IH]; [done|]. cbn [sum_len foldr of_type List.filter]. fold (sum_len l). rewrite IH. destruct Hu as [E|[E|E]]; rewrite E, ?Z.eqb_refl.
  - rewrite (proj2 (Z.eqb_neq BT_UUID16 BT_UUID32)), (proj2 (Z.eqb_neq BT_UUID16 BT_UUID128)) by done. unfold of_type, sum_len. cbn [foldr]. lia.
  - rewrite (proj2 (Z.eqb_neq BT_UUID32 BT_UUID16)), (proj2 (Z.eqb_neq BT_UUID32 BT_UUID128)) by congruence. unfold of_type, sum_len. cbn [foldr]. lia.
  - rewrite (proj2 (Z.eqb_neq BT_UUID128 BT_UUID16)), (proj2 (Z.eqb_neq BT_UUID128 BT_UUID32)) by congruence. unfold of_type, sum_len. cbn [foldr]. lia.
Qed.
Lemma uuids_length l : Forall has_type l -> Z.of_nat (length (concat (map uuid_bytes l))) = sum_len l.
Proof. induction 1 as [|u l Hu _ IH]; [done|]. cbn [map concat sum_len foldr]. fold (sum_len l). rewrite length_app, Nat2Z.inj_add, IH, uuid_bytes_length by done. done. Qed.

Definition adv_len (fs : list field) : Z := Z.of_nat (length (advertising fs)).
Lemma advertising_app a b : advertising (a ++ b) = advertising a ++ advertising b.
Proof. unfold advertising. by rewrite fmap_app, concat_app. Qed.
Lemma adv_len_app a b : adv_len (a ++ b) = adv_len a + adv_len b.
Proof. unfold adv_len. rewrite advertising_app, length_app. lia. Qed.
Lemma adv_len_cons f fs : adv_len (f :: fs) = 2 + size_of f.2 + adv_len fs.
Proof. unfold adv_len, size_of. rewrite advertising_cons, length_app, field_length. lia. Qed.
Lemma uuid_field_len type ad l : Forall has_type l -> adv_len (uuid_field type ad l) = (if some_of type l then 2 else 0) + sum_len (of_type type l).
Proof.
  intros Hl. pose proof (of_type_has type l Hl) as Ht. rewrite some_of_type. unfold uuid_field. destruct (of_type type l) as [|u us]; [done|].
  rewrite adv_len_cons. cbn [snd]. unfold size_of. rewrite uuids_length by done. change (adv_len []) with 0. rewrite bool_decide_eq_false_2 by done. cbn [negb]. lia.
Qed.
Lemma uuid_list_length_spec l a b c : Forall has_type l ->
  uuid_list_length l = to_uint (adv_len (uuid_field BT_UUID16 a l ++ uuid_field BT_UUID32 b l ++ uuid_field BT_UUID128 c l)).
Proof.
  intros Hl. rewrite !adv_len_app, !uuid_field_len by done. unfold uuid_list_length. change 0 with (to_uint 0) at 1. rewrite uuid_list_loop_spec by done. cbn [orb]. rewrite sum_len_types, Z.add_0_l by done.
  destruct (some_of BT_UUID16 l), (some_of BT_UUID32 l), (some_of BT_UUID128 l); to_uints; f_equal; lia.
Qed.
Lemma fold_length {A} (f : A -> Z) (l : list A) : forall n, fold_left (fun n x => to_uint (n + f x)) l (to_uint n) = to_uint (n + foldr (fun x s => f x + s) 0 l).
Proof. induction l as [|x l IH]; intros n; cbn [fold_left foldr]; [by rewrite Z.add_0_r|]. rewrite to_uint_add, IH. f_equal. lia. Qed.
Lemma mfg_data_length_spec l : mfg_data_length l = to_uint (adv_len (map manuf_field l)).
Proof.
  unfold mfg_data_length. change 0 with (to_uint 0) at 1. rewrite (fold_length (fun m => 2 + 2 + size_of (mf_data m))), Z.add_0_l. f_equal. induction l as [|m l IH]; [done|].
  cbn [foldr map]. rewrite IH, adv_len_cons. cbn [manuf_field snd]. unfold size_of. rewrite length_app, le16_length. lia.
Qed.
Lemma uuid_data_length_spec l : Forall (fun s => has_type (sd_uuid s)) l -> uuid_data_length l = to_uint (adv_len (map service_field l)).
Proof.
  intros H. unfold uuid_data_length. change 0 with (to_uint 0) at 1. rewrite (fold_length (fun s => 2 + bt_uuid_len (sd_uuid s) + size_of (sd_data s))), Z.add_0_l. f_equal. induction H as [|s l Hs _ IH]; [done|].
  cbn [foldr map]. rewrite IH, adv_len_cons. cbn [service_field snd]. unfold size_of. rewrite length_app, Nat2Z.inj_add, uuid_bytes_length by done. lia.
Qed.
Lemma calculate_length_spec ad : ad_wf ad -> calculate_length ad = to_uint (adv_len (ad_fields ad)).
Proof.
  intros (H1 & H2 & H3). unfold calculate_length, ad_fields, service_fields, solicit_fields. rewrite (uuid_list_length_spec _ EIR_UUID16_ALL EIR_UUID32_ALL EIR_UUID128_ALL H1), (uuid_list_length_spec _ EIR_SOLICIT16 EIR_SOLICIT32 EIR_SOLICIT128 H2).
  rewrite mfg_data_length_spec, uuid_data_length_spec by done. to_uints. f_equal. rewrite !adv_len_app. lia.
Qed.

(** ** Bytes *)

(** From a position, in a buffer with room, [f] writes [bs]. *)
Definition writes (f : adv_buffer -> option adv_buffer) (bs : list Z) : Prop := forall pre n, (length bs <= n)%nat -> (length pre + n < 256)%nat ->
  f (pre ++ replicate n 0, Z.of_nat (length pre)) = Some (pre ++ bs ++ replicate (n - length bs) 0, Z.of_nat (length pre + length bs)).
Lemma writes_bind f g a b : writes f a -> writes g b -> writes (fun s => s ← f s; g s) (a ++ b).
Proof.
  intros Hf Hg pre n Hn Hp. rewrite length_app in Hn. rewrite (Hf pre n) by lia. cbn [mbind option_bind]. rewrite (app_assoc pre a), <- (length_app pre a).
  rewrite (Hg (pre ++ a) (n - length a)%nat) by (rewrite ?length_app; lia). rewrite !length_app, <- !app_assoc. by rewrite Nat.sub_add_distr, Nat.add_assoc.
Qed.
Lemma writes_nil : writes Some [].
Proof. intros pre n _ _. cbn [app length]. rewrite Nat.sub_0_r, Nat.add_0_r. done. Qed.
Lemma writes_ext f g bs : (forall s, f s = g s) -> writes g bs -> writes f bs.
Proof. intros H Hg pre n Hn Hp. rewrite H. by apply Hg. Qed.
(** Only what fits needs to be looked at. *)
Lemma writes_small f bs : ((length bs < 256)%nat -> writes f bs) -> writes f bs.
Proof. intros H pre n Hn Hp. apply H; lia. Qed.

Lemma store_at_room pre rest bs n pos : (length bs <= n)%nat -> store_at bs (Z.of_nat (length pre)) (pre ++ replicate n rest, pos) = Some (pre ++ bs ++ replicate (n - length bs) rest, pos).
Proof.
  intros Hn. unfold store_at, size_of. rewrite length_app, length_replicate. replace (_ <=? _) with true by lia. rewrite Nat2Z.id. unfold splice.
  rewrite take_app_length, drop_app, drop_ge, drop_replicate by lia. do 4 f_equal. cbn [app]. do 2 f_equal. lia.
Qed.
Lemma store_at_hole pre x w rest pos : store_at [w] (Z.of_nat (length pre)) (pre ++ (x :: rest), pos) = Some (pre ++ w :: rest, pos).
Proof.
  unfold store_at, size_of. rewrite length_app. cbn [length]. replace (_ <=? _) with true by lia. rewrite Nat2Z.id. unfold splice. rewrite take_app_length, drop_app, drop_ge by (cbn [length]; lia).
  do 3 f_equal. cbn [length app]. replace (length pre + 1 - length pre)%nat with 1%nat by lia. done.
Qed.
Lemma writes_put_bytes bs k : k = size_of bs -> writes (put_bytes bs k) bs.
Proof.
  intros -> pre n Hn Hp. unfold put_bytes. cbn [snd]. rewrite store_at_room by done. cbn [mbind option_bind]. unfold size_of. rewrite <- Nat2Z.inj_add. unfold to_uchar. rewrite Z.mod_small by lia. done.
Qed.
Lemma writes_put8 v : writes (put8 v) [to_uchar v].
Proof. exact (writes_put_bytes [to_uchar v] 1 eq_refl). Qed.

(** Once the field has begun, the UUIDs of the type follow each other. *)
Lemma uuids_loop_begun type ad p l : Forall has_type l -> forall pre n, (length (concat (map uuid_bytes (of_type type l))) <= n)%nat -> (length pre + n < 256)%nat ->
  let bs := concat (map uuid_bytes (of_type type l)) in
  serialize_uuids_loop l type ad (Some p) (pre ++ replicate n 0, Z.of_nat (length pre)) =
    Some (Some p, (pre ++ bs ++ replicate (n - length bs) 0, Z.of_nat (length pre + length bs))).
Proof.
  induction 1 as [|u l Hu _ IH]; intros pre n Hn Hp; cbn [serialize_uuids_loop of_type List.filter map concat] in *; [cbn; by rewrite Nat.sub_0_r, Nat.add_0_r|].
  destruct (Z.eqb_spec (uuid_type u) type) as [<-|]; [|by apply IH]. cbn [map concat] in *. rewrite length_app in Hn. cbn [mbind option_bind].
  assert ((if negb (uuid_type u =? BT_UUID32) then bt_uuid_to_le u else bt_put_le32 (uuid_u32 u)) = uuid_bytes u) as -> by (unfold uuid_bytes; by destruct (_ =? _)).
  rewrite (writes_put_bytes (uuid_bytes u) (bt_uuid_len u)) by (rewrite <- ?uuid_bytes_length by done; done || lia). cbn [mbind option_bind].
  rewrite (app_assoc pre), <- (length_app pre). rewrite IH by (rewrite ?length_app; unfold of_type; lia).
  rewrite !length_app, <- !app_assoc. by rewrite Nat.sub_add_distr, Nat.add_assoc.
Qed.
(** Nothing of the type: nothing is written. *)
Lemma uuids_loop_none type ad l s : of_type type l = [] -> serialize_uuids_loop l type ad None s = Some (None, s).
Proof. induction l as [|u l IH]; [done|]. cbn [of_type List.filter serialize_uuids_loop]. destruct (uuid_type u =? type); [done|]. exact IH. Qed.
Lemma uuids_loop_some type ad l : Forall has_type l -> of_type type l <> [] -> 0 <= ad < 256 -> forall pre n,
  let bs := concat (map uuid_bytes (of_type type l)) in (2 + length bs <= n)%nat -> (length pre + n < 256)%nat ->
  serialize_uuids_loop l type ad None (pre ++ replicate n 0, Z.of_nat (length pre)) =
    Some (Some (Z.of_nat (length pre)), (pre ++ (0 :: ad :: bs) ++ replicate (n - (2 + length bs)) 0, Z.of_nat (length pre + (2 + length bs)))).
Proof.
  intros Hl Hne Had. induction Hl as [|u l Hu Hl IH]; intros pre n bs Hn Hp; [done|]. subst bs. cbn [serialize_uuids_loop of_type List.filter] in *. destruct (Z.eqb_spec (uuid_type u) type) as [<-|]; [|by apply IH].
  cbn [map concat] in *. rewrite length_app in *. cbn [mbind option_bind]. assert (to_uchar (Z.of_nat (length pre) + 1) = Z.of_nat (length (pre ++ [0]))) as E by (rewrite length_app; cbn [length]; unfold to_uchar; rewrite Z.mod_small; lia).
  rewrite E. destruct n as [|n]; [lia|]. cbn [replicate]. change (0 :: replicate n 0) with ([0] ++ replicate n 0). rewrite (app_assoc pre).
  rewrite (writes_put8 ad (pre ++ [0]) n) by (rewrite ?length_app; cbn [length]; lia). cbn [mbind option_bind]. rewrite to_uchar_id by done.
  assert ((if negb (uuid_type u =? BT_UUID32) then bt_uuid_to_le u else bt_put_le32 (uuid_u32 u)) = uuid_bytes u) as -> by (unfold uuid_bytes; by destruct (_ =? _)).
  rewrite (app_assoc (pre ++ [0])), <- (length_app (pre ++ [0])). set (pre' := (pre ++ [0]) ++ [ad]). assert (length pre' = (length pre + 2)%nat) as Hl' by (unfold pre'; rewrite !length_app; cbn [length]; lia).
  rewrite (writes_put_bytes (uuid_bytes u) (bt_uuid_len u)) by (rewrite <- ?uuid_bytes_length by done; cbn [length]; done || lia). cbn [mbind option_bind].
  rewrite (app_assoc pre'), <- (length_app pre'). rewrite (uuids_loop_begun (uuid_type u) ad _ l Hl) by (rewrite ?length_app; unfold of_type; cbn [length]; lia).
  rewrite !length_app, Hl'. unfold pre', of_type. rewrite <- !app_assoc. cbn [app length]. rewrite <- ?app_assoc. repeat first [lia | f_equal].
Qed.
Lemma writes_uuids type ad l : Forall has_type l -> 0 <= ad < 256 -> writes (serialize_uuids l type ad) (advertising (uuid_field type ad l)).
Proof.
  intros Hl Had pre n Hn Hp. unfold serialize_uuids, uuid_field in *. destruct (of_type type l) as [|u us] eqn:E.
  - rewrite uuids_loop_none by done. exact (writes_nil pre n Hn Hp).
  - assert (advertising [(ad, concat (map uuid_bytes (u :: us)))] = Z.of_nat (S (length (concat (map uuid_bytes (u :: us))))) :: ad :: concat (map uuid_bytes (u :: us))) as Ea by (unfold advertising; cbn [fmap list_fmap concat]; by rewrite app_nil_r).
    rewrite Ea in *. set (bs := concat (map uuid_bytes (u :: us))) in *. cbn [length] in *.
    rewrite (uuids_loop_some type ad l Hl) by (rewrite ?E; try done; cbn [length]; fold bs; lia). rewrite E. fold bs. cbn [mbind option_bind snd].
    cbn [app]. rewrite store_at_hole. do 4 f_equal. unfold to_uchar. rewrite Z.mod_small; lia.
Qed.
Lemma writes_service_uuids l : Forall has_type l -> writes (serialize_service_uuids l) (advertising (service_fields l)).
Proof. intros Hl. unfold service_fields. rewrite !advertising_app. apply writes_bind; [by apply writes_uuids|]. apply writes_bind; by apply writes_uuids. Qed.
Lemma writes_solicit_uuids l : Forall has_type l -> writes (serialize_solicit_uuids l) (advertising (solicit_fields l)).
Proof. intros Hl. unfold solicit_fields. rewrite !advertising_app. apply writes_bind; [by apply writes_uuids|]. apply writes_bind; by apply writes_uuids. Qed.

Lemma advertising_field t v fs : advertising ((t, v) :: fs) = [Z.of_nat (S (length v))] ++ [t] ++ v ++ advertising fs.
Proof. done. Qed.
Lemma writes_byte v w : w = to_uchar v -> writes (put8 v) [w].
Proof. intros ->. apply writes_put8. Qed.
Lemma writes_manuf_data l : writes (serialize_manuf_data l) (advertising (map manuf_field l)).
Proof.
  induction l as [|m l IH]; [apply writes_nil|]. cbn [map]. unfold manuf_field. rewrite advertising_field. apply writes_small. rewrite !length_app, le16_length. cbn [length]. intros Hs. cbn [serialize_manuf_data].
  apply writes_bind; [apply writes_byte; unfold to_uchar, size_of; rewrite Z.mod_small by lia; lia|]. apply writes_bind; [by apply writes_byte|]. rewrite <- app_assoc.
  apply writes_bind; [apply writes_put_bytes; unfold size_of; by rewrite le16_length|]. apply writes_bind; [by apply writes_put_bytes|exact IH].
Qed.
Lemma writes_service_data l : Forall (fun s => has_type (sd_uuid s)) l -> writes (serialize_service_data l) (advertising (map service_field l)).
Proof.
  destruct types_differ as (D1 & D2 & D3). induction 1 as [|s l Hs _ IH]; [apply writes_nil|]. cbn [map]. unfold service_field. rewrite advertising_field. pose proof (uuid_bytes_length _ Hs) as Hl.
  apply writes_small. rewrite !length_app. cbn [length]. intros Hb. cbn [serialize_service_data]. cbv zeta.
  apply writes_bind; [apply writes_byte; unfold to_uchar, size_of; rewrite Z.mod_small by lia; lia|]. rewrite <- app_assoc.
  assert (exists k, bt_uuid_len (sd_uuid s) = k /\ (k = 2 /\ service_type (sd_uuid s) = EIR_SVC_DATA16 \/ k = 4 /\ service_type (sd_uuid s) = EIR_SVC_DATA32 \/ k = 16 /\ service_type (sd_uuid s) = EIR_SVC_DATA128) /\
    (if negb (k =? 4) then bt_uuid_to_le (sd_uuid s) else bt_put_le32 (uuid_u32 (sd_uuid s))) = uuid_bytes (sd_uuid s)) as (k & Ek & Ht & Eb).
  { exists (bt_uuid_len (sd_uuid s)). split; [done|]. unfold service_type, uuid_bytes. destruct Hs as [E|[E|E]]; rewrite E, ?Z.eqb_refl.
    - destruct (uuid16_length _ E) as [-> _]. rewrite (proj2 (Z.eqb_neq BT_UUID16 BT_UUID32)) by done. auto.
    - rewrite (uuid32_length _ E), (proj2 (Z.eqb_neq BT_UUID32 BT_UUID16)) by congruence. auto.
    - destruct (uuid128_length _ E) as [-> _]. rewrite (proj2 (Z.eqb_neq BT_UUID128 BT_UUID16)), (proj2 (Z.eqb_neq BT_UUID128 BT_UUID32)) by congruence. auto. }
  rewrite Ek, Eb. apply writes_bind; [destruct Ht as [[-> ->]|[[-> ->]|[-> ->]]]; by apply writes_byte|].
  apply writes_bind; [apply writes_put_bytes; unfold size_of; lia|]. apply writes_bind; [by apply writes_put_bytes|exact IH].
Qed.

(** What is generated is the fields of the object, if they fit, and otherwise nothing; the length is theirs. *)
Theorem bt_ad_generate_spec ad : ad_wf ad -> adv_len (ad_fields ad) < 4294967296 ->
  bt_ad_generate true (Some ad) = Some (if adv_len (ad_fields ad) <=? MAX_ADV_DATA_LEN then Some (advertising (ad_fields ad)) else None, Some (adv_len (ad_fields ad))).
Proof.
  intros Hw Hb. pose proof Hw as (H1 & H2 & H3). unfold bt_ad_generate. cbv zeta. rewrite (calculate_length_spec ad Hw). assert (0 <= adv_len (ad_fields ad)) as H0 by (unfold adv_len; lia).
  rewrite to_uint_id by done. destruct (Z.leb_spec (adv_len (ad_fields ad)) MAX_ADV_DATA_LEN) as [Hs|Hs]; [|by rewrite (proj2 (Z.ltb_lt _ _)) by lia].
  rewrite (proj2 (Z.ltb_ge _ _)) by lia. cbn [negb].
  assert (writes (fun s => s ← serialize_service_uuids (service_uuids ad) s; s ← serialize_solicit_uuids (solicit_uuids ad) s; s ← serialize_manuf_data (manufacturer_data ad) s;
    serialize_service_data (service_data ad) s) (advertising (ad_fields ad))) as Hwr.
  { unfold ad_fields. rewrite !advertising_app. apply writes_bind; [by apply writes_service_uuids|]. apply writes_bind; [by apply writes_solicit_uuids|]. apply writes_bind; [apply writes_manuf_data|by apply writes_service_data]. }
  unfold MAX_ADV_DATA_LEN in Hs. specialize (Hwr [] (length (advertising (ad_fields ad))) ltac:(lia) ltac:(unfold adv_len in Hs; cbn [length]; lia)). cbn [app length] in Hwr.
  rewrite Nat.sub_diag, app_nil_r in Hwr. change (Z.of_nat 0) with 0 in Hwr. replace (Z.to_nat (adv_len (ad_fields ad))) with (length (advertising (ad_fields ad))) by (unfold adv_len; lia).
  repeat match type of Hwr with (?o ≫= _) = _ => destruct o; [cbn [mbind option_bind] in *|discriminate Hwr] end. rewrite Hwr. done.
Qed.
(** The scanner finds neither flags nor a name in it. *)
Theorem generated_has_no_name ad data n rest : ad_wf ad -> adv_len (ad_fields ad) < 4294967296 -> bt_ad_generate true (Some ad) = Some (Some data, Some n) ->
  n = size_of data /\ read_flags (data ++ rest) (length data) = Some None /\ eir_parse_name (data ++ rest) (length data) (zero_bytes 30) 29 = Some (name_buffer None).
Proof.
  intros Hw Hb E. rewrite (bt_ad_generate_spec ad Hw Hb) in E. destruct (_ <=? _); [|done]. injection E as <- <-.
  assert (Forall (fun f => f.1 <> FLAGS_AD_TYPE /\ is_name f.1 = false) (ad_fields ad)) as Hf.
  { unfold ad_fields, service_fields, solicit_fields, uuid_field. repeat rewrite Forall_app. repeat split; try (destruct (of_type _ _); by repeat constructor).
    - apply Forall_map, Forall_true. intros m. done.
    - apply Forall_map, Forall_true. intros s. unfold service_field, service_type. cbn [fst]. destruct (_ =? _); [done|]. by destruct (_ =? _). }
  split; [done|]. rewrite read_flags_fields, eir_name_fields.
  - clear Hb. induction Hf as [|[t v] fs [Ht Hn] _ IH]; [done|]. cbn [first_flags first_name fst] in *. rewrite Hn, (proj2 (Z.eqb_neq _ _)) by done. exact IH.
  - eapply Forall_impl; [exact Hf|]. intros f [Ht _] Hc. done.
Qed.

(** ** Additions and removals *)

(** One entry for each manufacturer. *)
Definition ad_ids (ad : bt_ad) : list Z := map manufacturer_id (manufacturer_data ad).
Lemma find_if_total {A} (f : A -> bool) l : find_if (fun x => Some (f x)) l = Some (List.find f l).
Proof. induction l as [|x l IH]; [done|]. cbn [find_if List.find mbind option_bind]. by destruct (f x). Qed.
Lemma find_last {A} (f : A -> bool) l x : List.find f l = None -> f x = true -> List.find f (l ++ [x]) = Some x.
Proof. intros Hl Hx. induction l as [|y l IH]; cbn [List.find app] in *; [by rewrite Hx|]. destruct (f y); [done|]. by apply IH. Qed.
Lemma update_first_ids id data l : map manufacturer_id (update_first (manufacturer_id_data_match id) (fun m => mkManuf (manufacturer_id m) data) l) = map manufacturer_id l.
Proof. induction l as [|m l IH]; [done|]. cbn [update_first map]. destruct (manufacturer_id_data_match id m); [done|]. cbn [map]. by rewrite IH. Qed.

(** Data of a manufacturer replaces what there was of it, so each has one entry; data that is too long or there already is refused. *)
Theorem add_manufacturer_data_spec ad id data : NoDup (ad_ids ad) -> exists r ad', bt_ad_add_manufacturer_data true (Some ad) id data = Some (r, Some ad') /\ NoDup (ad_ids ad') /\
  (r = true -> size_of data <= 27 /\ List.find (manufacturer_id_data_match id) (manufacturer_data ad') = Some (mkManuf id data)) /\ (r = false -> ad' = ad).
Proof.
  intros Hn. unfold bt_ad_add_manufacturer_data. change (MAX_ADV_DATA_LEN - 2 - 2) with 27. destruct (Z.ltb_spec 27 (size_of data)) as [Hl|Hl]; [by exists false, ad|].
  rewrite find_if_total. cbn [mbind option_bind]. destruct (List.find _ (manufacturer_data ad)) as [m|] eqn:Ef.
  - destruct (_ && _); [by exists false, ad|]. cbn [negb andb]. eexists true, _. split; [done|]. unfold ad_ids, put_manufacturer_data. cbn [manufacturer_data]. rewrite update_first_ids. split; [done|]. split; [|done].
    intros _. split; [done|]. clear Hn. induction (manufacturer_data ad) as [|x l IH]; [done|]. cbn [List.find update_first] in *. destruct (manufacturer_id_data_match id x) eqn:Ex.
    + cbn [List.find]. unfold manufacturer_id_data_match in *. cbn [manufacturer_id]. rewrite Ex. apply Z.eqb_eq in Ex. by rewrite Ex.
    + cbn [List.find]. rewrite Ex. by apply IH.
  - cbn [negb]. eexists true, _. split; [done|]. unfold ad_ids, put_manufacturer_data. cbn [manufacturer_data]. rewrite map_app. split; [|split; [|done]].
    + cbn [map manufacturer_id]. apply NoDup_app. split; [done|]. split; [|apply NoDup_singleton]. intros x Hx Hc. apply list_elem_of_singleton in Hc as ->. apply list_elem_of_In, in_map_iff in Hx as (m & <- & Hm).
      pose proof (List.find_none _ _ Ef m Hm) as Hf. unfold manufacturer_id_data_match in Hf. by rewrite Z.eqb_refl in Hf.
    + intros _. split; [done|]. apply find_last; [exact Ef|]. unfold manufacturer_id_data_match. cbn [manufacturer_id]. apply Z.eqb_refl.
Qed.
(** Data of a manufacturer cannot be removed: the identifier is used as a pointer. *)
Theorem remove_manufacturer_data_undefined deref ad id : deref id = None ->
  bt_ad_remove_manufacturer_data deref (Some ad) id = if bool_decide (manufacturer_data ad = []) then Some (false, Some ad) else None.
Proof. intros Hd. unfold bt_ad_remove_manufacturer_data. destruct ad as [rc su [|m l] so sd]; [done|]. cbn [manufacturer_data remove_if]. unfold manuf_match. by rewrite Hd. Qed.
(** Removing a UUID keeps it: the first other one goes, and when there is no other, none. *)
Theorem remove_uuid_removes_other ad uuid : exists r ad', bt_ad_remove_service_uuid (Some ad) (Some uuid) = Some (r, Some ad') /\
  (r = false <-> Forall (fun u => u = uuid) (service_uuids ad)) /\
  ((r = false /\ service_uuids ad' = service_uuids ad) \/
   exists before other after, service_uuids ad = before ++ other :: after /\ Forall (fun u => u = uuid) before /\ other <> uuid /\ service_uuids ad' = before ++ after).
Proof.
  unfold bt_ad_remove_service_uuid, queue_remove_uuid, put_service_uuids.
  enough (exists r q, remove_if (fun d => Some (uuid_match d uuid)) (service_uuids ad) = Some (r, q) /\ (r = None <-> Forall (fun u => u = uuid) (service_uuids ad)) /\
    ((r = None /\ q = service_uuids ad) \/ exists before other after, service_uuids ad = before ++ other :: after /\ Forall (fun u => u = uuid) before /\ other <> uuid /\ q = before ++ after)) as (r & q & -> & Hr & H).
  { cbn [mbind option_bind]. eexists _, _. split; [done|]. cbn [service_uuids]. destruct r; [rewrite bool_decide_eq_true_2 by eauto|rewrite bool_decide_eq_false_2 by (by intros [? ?])].
    - split; [split; [done|intros Ha; by apply Hr in Ha]|]. destruct H as [[? ?]|H]; [done|by right].
    - split; [tauto|]. destruct H as [[_ ->]|(b & o & a & E & Hb & Ho & _)]; [by left|]. exfalso. apply Ho. destruct Hr as [Hr _]. specialize (Hr eq_refl). rewrite E, Forall_app, Forall_cons in Hr. tauto. }
  induction (service_uuids ad) as [|u l (r & q & E & Hr & H)]; [exists None, []; repeat split; auto|]. cbn [remove_if mbind option_bind]. unfold uuid_match. destruct (Z.eqb_spec (bt_uuid_cmp u uuid) 0) as [Ec|Ec]; cbn [negb].
  - apply cmp_same in Ec as ->. unfold uuid_match in E. rewrite E. exists r, (uuid :: q). split; [done|]. rewrite Forall_cons. split; [tauto|]. destruct H as [[-> ->]|(b & o & a & -> & Hb & Ho & ->)]; [by left|right].
    exists (uuid :: b), o, a. repeat split; auto.
  - rewrite cmp_same in Ec. exists (Some u), l. split; [done|]. rewrite Forall_cons. split; [split; [done|tauto]|]. right. by exists [], u, l.
Qed.
End Spec.

(** ** An example *)

(** UUIDs as a type and a value. *)
Definition le_bytes (n : nat) (v : Z) : list Z := map (fun i => to_uchar (Z.shiftr v (8 * Z.of_nat i))) (seq 0 n).
Definition sim_uuids : UuidLib :=
  {| bt_uuid_t := Z * Z; BT_UUID16 := 16; BT_UUID32 := 32; BT_UUID128 := 128; uuid_type := fst; uuid_u32 := snd; bt_uuid_len u := u.1 / 8;
     bt_uuid_cmp u v := if bool_decide (u = v) then 0 else 1; bt_uuid_to_le u := le_bytes (if u.1 =? 16 then 2 else 16) u.2;
     bt_put_le16 := le_bytes 2; bt_put_le32 := le_bytes 4 |}.
#[export] Instance sim_uuid_laws : UuidLaws sim_uuids.
Proof.
  split.
  - done.
  - intros [t v]. cbn. by intros ->.
  - intros [t v]. cbn. by intros ->.
  - intros [t v]. cbn. by intros ->.
  - done.
  - done.
  - intros u v. cbn. by case_bool_decide.
Qed.
(** A service with a UUID of 16 bits, and data of a manufacturer. *)
Example generate_example :
  let ad := mkAd (lib := sim_uuids) 1 [(16, 0x180F)] [mkManuf 0x004C [1; 2]] [] [] in
  bt_ad_generate (lib := sim_uuids) true (Some ad) = Some (Some [3; 3; 0x0F; 0x18; 5; 0xFF; 0x4C; 0; 1; 2], Some 10) /\ ad_wf (lib := sim_uuids) ad.
Proof. split; [vm_compute; reflexivity|]. repeat split; repeat constructor. Qed.
(** Removing one of two UUIDs leaves it. *)
Example remove_example :
  option_map fst (bt_ad_remove_service_uuid (lib := sim_uuids) (Some (mkAd (lib := sim_uuids) 1 [(16, 1); (16, 2)] [] [] [])) (Some (16, 1))) = Some true /\
  bt_ad_remove_service_uuid (lib := sim_uuids) (Some (mkAd (lib := sim_uuids) 1 [(16, 1); (16, 2)] [] [] [])) (Some (16, 1)) = Some (true, Some (mkAd (lib := sim_uuids) 1 [(16, 1)] [] [] [])).
Proof. split; vm_compute; reflexivity. Qed.
